(* ===== verification/_CoqProject ===== *)
-Q . S2P
Prelude.v
PyStr.v
Encodings.v
PyVal.v
PyUuid.v
DateTime.v
PySha256.v
Json.v
JsonLoads.v
Events.v
Plans.v
SubTasks.v
Policies.v
Env.v
Definitions.v
Client.v
Prompts.v
Backlog.v
Records.v
Hydration.v
AgentRunIds.v
AgentRunSync.v
Validation.v
Planning.v
WorkItems.v
WorkItemTools.v
WorkItemProofs.v
OtherTools.v
PlanQuality.v
PlanningAgent.v
Stores.v
StateMemory.v
PrismStore.v
World.v
ActionHandler.v
AtMostOnce.v
PrismProofs.v
ActionProofs.v
PrismRecovery.v
Coordinator.v
DomainHandler.v
ContextProvider.v
FeatureProvisioning.v
RecursionRunner.v
PlanRuns.v
Settings.v
OciAuth.v
Embeddings.v
OciQueue.v
Container.v
FunctionEntry.v
LocalEntry.v
TraceLogging.v
AgentLocal.v
Offline.v
Invocations.v
