(* ===== verification/Prelude.v ===== *)
(** * prism-agent: a verification library

    prism-agent is an event-driven project-management agent.  A trigger arrives as
    an envelope on a queue; the recursion runner hands its event to a handler; the
    handler plans (with a language model), stores the plan, and queues the events
    that execute the plan action by action, or dispatches the nodes of a task graph
    to subagents.  The library models that core in Python's own terms (effects in a
    state and exception monad, dicts in insertion order, dynamic JSON values where
    the code has them) and proves what makes it safe under redelivery, failing
    tools, failing reports and unbounded event cascades.

    ** Files, in dependency order, with the sources under [src/src/]

    - [Prelude]: exceptions, the monad [st] with its reasoning principles
      ([wp], [respects] for frame conditions, [sim] for simulation), lenses, Python
      dicts, list lemmas.
    - [PyStr], [PyVal], [PyUuid], [PySha256], [DateTime], [Json], [JsonLoads]: what the
      code uses of Python's strings, dynamic values, [uuid] (with SHA-1 and [uuid5]),
      SHA-256, [datetime] ([isoformat] and [fromisoformat] of CPython 3.11), [json] (both
      directions) and [urllib.parse].  Strings are sequences of 8-bit characters.
      [Encodings]: UTF-8 and base64, on sequences of code points and bytes.
    - [Events] ([domain/events.py]), [Plans] ([domain/actions.py], [domain/plans.py]),
      [SubTasks] ([domain/subtasks.py]), [Policies] ([domain/policies.py]),
      [Definitions] ([capabilities/definitions.py], the registries), [Records]
      ([domain/context.py], [domain/results.py], [application/trace_data.py]),
      [AgentRunIds] ([domain/agent_run.py]), [Backlog] ([domain/backlog.py]): the pure core.
    - [Env]: what comes from outside (ids, clocks, HTTP replies), as a class; [Ext]
      is its state.  A reply is a body, an HTTP error, a host that is not reached, a body
      that is not UTF-8, a connection that breaks while it is read, or another exception
      of the HTTP library; a URL without a scheme is refused before anything is sent, as
      [urllib] does.  [Client] ([infrastructure/prism_api/client.py]) sends requests
      through it, [Hydration] is the client's [fetch_context_entities], and
      [AgentRunSync] ([application/agent_run_sync.py]) reports runs.
    - [Validation] ([application/validator.py]) and [Planning]
      ([application/planner.py], [orchestrator.py], [subagent_runner.py]), to which the
      model that proposes plans is the class [AgentFactory].  [PlanningAgent]
      ([infrastructure/llm/]) implements it: the generation loop around one call of the
      model (the class [LanguageModel]), judged by [PlanQuality]
      ([capabilities/plan_quality.py]).
    - The tools ([capabilities/tools/]): [WorkItems] is the data of the work item tools
      (coercion and validation of trees and bulk updates), [WorkItemTools] their
      executions, [WorkItemProofs] what they guarantee, [OtherTools] the sprint, review,
      suggestion and dashboard tools and the registry that holds all of them.
    - [Stores] ([infrastructure/state/]): the class [StateStore], the in-memory
      store, the logging proxy, and [StoreSim], what two stores promise to a client
      that is given one or the other.  [StateMemory] is where records of a run are kept
      (the API or object storage) and [DurableMemory] what that promises; [PrismStore]
      is the store that mirrors a fallback store there
      ([infrastructure/state/prism_api_state_store.py]), [PrismProofs] its lemmas and
      [PrismRecovery] what survives a restart.  [World] ([infrastructure/queue/]): the
      class [Queue], the in-memory queue, and the state of a running agent.  [World]
      also keeps a log of executions and verdicts that no operation reads.
    - [ActionHandler] ([application/action_event_handler.py]), [ActionProofs] and, for
      any store, [AtMostOnce]; [Coordinator] ([application/subagent_coordinator.py]);
      [DomainHandler] ([application/domain_event_handler.py], [event_router.py]), to
      which the provider of contexts is the class [ContextHydration];
      [ContextProvider] ([application/context_provider.py]) implements it;
      [RecursionRunner] ([application/recursion_runner.py]).  [PlanRuns] composes handler,
      queue and runner: how a trigger and a plan run to their end.
    - [Prompts] ([infrastructure/registries/prompt_registry.py]) loads the prompt files the
      registries of [Definitions] are built from; [FeatureProvisioning]
      ([domain/feature_provisioning.py], [application/feature_provisioning_worker.py]) turns
      the pointer to a stored request into a seed event, once.
    - [Settings] ([infrastructure/config/], [observability/], [notifications/]), [OciAuth]
      ([infrastructure/oci_auth.py], [object_storage/oci_client.py], [vault/oci_secrets.py]),
      [Embeddings] ([infrastructure/llm/gemini_embeddings.py]) and [OciQueue]
      ([infrastructure/queue/oci_queue.py]); [Container] ([app/container.py]) chooses queue
      and store from the settings and assembles the handlers.  It is run by
      [FunctionEntry] ([interfaces/oci_function_entry.py]), one event per invocation, by
      [LocalEntry] ([interfaces/local_entry.py], [cli.py]) and by [AgentLocal]
      ([interfaces/test_commands.py]).  [TraceLogging] compares runs with the logging of
      traces on and off; [Offline] shows what a run that was declared offline
      leaves alone, from the tools up; [Invocations] is what holds across invocations, and
      a concrete deployment.

    A definition has the name of the Python function where Rocq allows it; a long
    handler is split where its branches are.  Record fields carry a prefix per
    record ([pl_] for plans, [ac_] for actions, [tg_] for graphs, and so on).

    ** What is proved

    - Safety of execution ([ActionProofs], [AtMostOnce]): a recorded idempotency key is
      never executed again, over any sequence of deliveries; an action is executed only
      when it is cleared (permission, versions, approval, key); what a success, a
      failed result, a raising tool and a suggestion leave in store and queue, for a
      report that succeeds and for one that fails ([reported]); the handler behaves the same on every pair of
      stores related by [StoreSim].
    - Liveness of the whole ([PlanRuns]): under what it relies on (hydration, a model whose
      plan is always cleared and whose tools always succeed and emit no events, bounds that
      admit its length) a trigger ends
      with its plan completed, each action executed once and in order; so does any stored
      chained plan.  A plan the bounds do not admit is left half done.
    - Restarts ([PrismRecovery]): with a durable memory, what one invocation recorded as
      executed no later one executes, saved plans are read back, a node is not handed
      out twice, a plan that is read back is brought up to date with the run, and an
      outage that is a [RuntimeError] falls back to what the invocation holds, while
      another exception of the transport is raised.  Both transports are shown to be
      such memories: object storage for a bucket with the laws [BucketLaws].
    - Task graphs ([SubTasks]): over any interleaving of claims and settlements no
      node is dispatched twice; nodes start after their dependencies and the
      synthesizer after all nodes; acyclic graphs complete; settling is idempotent.
      [Coordinator] refines this: handling completion events on a store is running
      the abstract operations, with one task message per dispatched node.
    - The runner ([RecursionRunner]): the loop ends, handles at most
      [max_recursion_depth] events and no event id twice, gives every message one
      verdict, and is not stopped by a handler's exception.
    - Planning ([PlanningAgent], [PlanQuality], [Planning]): the model is called at most
      three times, a returned plan is executable unless the attempts were used or the last
      reading of the clock is past the budget, and
      what planner, normalization and quality review make of any plan.
    - Tools ([WorkItems], [WorkItemProofs], [OtherTools]): a valid tree is created exactly,
      every child under its own parent, level by level, under every order of the thread
      pool; bulk updates send at most one request per update, only for items they may
      touch, with fields of the form the normalizer checks; reviews, sprints and their
      errors.
    - Contexts ([Hydration], [ContextProvider], [Backlog]): hydrating only reads, is
      bounded, fails only in the ways listed in [hydrate_context_spec] and gives exactly
      the required entities; a
      stored diff reaches the context; the signals are what they are defined to be;
      times written by the program are read back ([DateTime]).
    - Invocations ([Invocations], [FunctionEntry], [FeatureProvisioning], [Container],
      [OciQueue]): over a bucket, a feature request is dispatched once and a recorded
      action is not executed again, whatever invocation comes later; what one invocation
      publishes reads back in the next; an invocation handles an envelope as the local
      runner does, and returns, raises, logs and announces exactly what it should; a
      payload is accepted for its own pointer only; the parts of a container fit.
    - Surroundings ([Prompts], [Settings], [Embeddings], [LocalEntry], [AgentLocal],
      [Offline]): what
      loading and looking up prompts gives, whatever the order of the files; settings are
      valid or refused; embeddings have the configured dimensions; local runs end,
      against the API touch nothing for an input that is a placeholder, and offline
      touch nothing at all.
    - Deployment ([OciAuth], [TraceLogging], [Settings]): which credentials a client is
      built with, case by case, and that a private key arrives as it is in every form it can be written
      in; logging the traces changes nothing else; the logger has one handler.
    - Plans, validation, policies, registries, API ids, requests and reports:
      functional specifications on every branch.

    ** Bounds and fuel

    - The handler's recursion through the inline chain is unrolled
      [INLINE_ACTION_CHAIN_BUDGET + 1] times; [handle_action_terminates] shows that
      more fuel makes no difference.
    - [run_loop] takes fuel; [run_loop_terminates] shows that from every state some
      fuel is enough and more changes nothing.  It has no bound independent of the
      handlers, since a tool may emit any number of events; the number of events
      handled is bounded by [max_recursion_depth] ([run_handles_bounded]).
    - [create_levels] and the walk of a tree take the depth of a valid tree as fuel
      ([MAX_WORK_ITEM_TREE_DEPTH]); [create_workitem_tree_spec] shows that a valid tree
      is created to its last node.  The planning loop runs [PLAN_GENERATION_ATTEMPTS]
      times.  [parse_value] has the length of the text as fuel and the round trips of
      [JsonLoads] show that it is enough for every text the program writes.
    - [run_local] and [agent_local] pass fuel on to [run_loop]; [run_local_spec] shows that
      some fuel is enough for a run on the in-memory queue.

    ** What is a parameter, and why

    Code that is not in the repository: one call of the language model
    ([LanguageModel]), the order in which a thread pool runs its calls and a set is
    iterated ([ThreadPool]), the object storage service ([ObjectStorage], with
    [BucketLaws], and [get_payload] for payload objects), the client of the OCI queue
    ([OciQueueClient]), the SDK of the platform with its signers and clients ([OciSdk]), and
    pydantic's dumps and validation: of stored models
    ([StateCodec]), envelopes ([EnvelopeCodec], with [EnvelopeLaws]), prompts
    ([PromptModels]), pointers and payloads ([ProvisioningModels]), events ([EventDumps]),
    and the texts of its errors ([Env]).  Also the file system with the YAML reader
    ([PromptFiles], [Files]), the rounding of [float()] ([FloatConversion]) and the marks
    that are not 8-bit characters ([Marks]).

    ** Not modelled

    [argparse] (the parsed arguments are a record) and the modules' [__main__] blocks; what the
    logging library does with a record.  Of the lines the code logs, those of hydration, of
    the function entry and of the logging store are modelled, as records handed to the
    logger whatever its level; the warnings of other parts are not.  A subclass of
    [ValueError] that another package defines (a validation error, a JSON decoding error)
    is a [ValueError] here, also where its name is logged.  The roll-up of assignees returns new nodes where the code
    updates the nodes of the action's input in place.  Concurrent writers of one store
    are outside the model: a store operation is atomic.  Floats carry a rational value;
    nan and the infinities are outside the model. *)

From stdpp Require Export base tactics list gmap strings pretty.
From Corelib Require Export ssreflect.
From Stdlib Require Export ZArith Lia Ascii.

#[global] Open Scope general_if_scope.
#[global] Open Scope Z_scope.

(** [done], [by] and [//] are stdpp's. *)
Ltac done := stdpp.tactics.done.

(** ** Python exceptions and results *)

(** The exception classes the program raises or catches.  The two questions the
    code asks of an exception are which [except] clause catches it and what
    [str] prints. *)
Inductive exc_class :=
  | TypeError
  | ValueError
  | UnicodeDecodeError
  | KeyError
  | AttributeError
  | RuntimeError
  | NotImplementedError
  | FileNotFoundError
  | UnsupportedEventError
  | PlanNotFoundError
  | ActionNotFoundError
  | StaleContextError
  | DuplicateExecutionError
  | AgentRunAlreadyTerminalError (run_id status : string)
  | PrismApiBadRequestError
  | PrismApiNotFoundError
  | PrismApiConflictError
  | PrismApiUnprocessableError
  | OtherError (name : string).

#[export] Instance exc_class_eq_dec : EqDecision exc_class.
Proof. solve_decision. Defined.

Record exn := Exn { exc_type : exc_class; exc_msg : string }.

(** [except RuntimeError] also catches the subclasses. *)
Definition is_RuntimeError (e : exn) : bool :=
  match exc_type e with
  | RuntimeError | NotImplementedError | AgentRunAlreadyTerminalError _ _
  | PrismApiBadRequestError | PrismApiNotFoundError
  | PrismApiConflictError | PrismApiUnprocessableError => true
  | _ => false
  end.

(** [except ValueError]: pydantic's validation errors and the JSON decoder's
    errors are subclasses and are represented as [ValueError]. *)
Definition is_ValueError (e : exn) : bool :=
  match exc_type e with ValueError | UnicodeDecodeError => true | _ => false end.

(** [type(exc).__name__] *)
Definition exc_name (e : exn) : string :=
  match exc_type e with
  | TypeError => "TypeError"
  | ValueError => "ValueError"
  | UnicodeDecodeError => "UnicodeDecodeError"
  | KeyError => "KeyError"
  | AttributeError => "AttributeError"
  | RuntimeError => "RuntimeError"
  | NotImplementedError => "NotImplementedError"
  | FileNotFoundError => "FileNotFoundError"
  | UnsupportedEventError => "UnsupportedEventError"
  | PlanNotFoundError => "PlanNotFoundError"
  | ActionNotFoundError => "ActionNotFoundError"
  | StaleContextError => "StaleContextError"
  | DuplicateExecutionError => "DuplicateExecutionError"
  | AgentRunAlreadyTerminalError _ _ => "AgentRunAlreadyTerminalError"
  | PrismApiBadRequestError => "PrismApiBadRequestError"
  | PrismApiNotFoundError => "PrismApiNotFoundError"
  | PrismApiConflictError => "PrismApiConflictError"
  | PrismApiUnprocessableError => "PrismApiUnprocessableError"
  | OtherError n => n
  end.

Inductive res (A : Type) :=
  | Ok (a : A)
  | Raise (e : exn).
Arguments Ok {A} a.
Arguments Raise {A} e.

Definition is_Ok {A} (r : res A) : bool := match r with Ok _ => true | Raise _ => false end.

(** ** The state and exception monad

    A Python call either returns or raises; either way the effects it had on
    the state before that stay. *)

Definition st (S A : Type) : Type := S → res A * S.

#[export] Instance st_ret {S} : MRet (st S) := λ A a s, (Ok a, s).
#[export] Instance st_bind {S} : MBind (st S) := λ A B k m s,
  match m s with
  | (Ok a, s') => k a s'
  | (Raise e, s') => (Raise e, s')
  end.

Definition raise {S A} (e : exn) : st S A := λ s, (Raise e, s).
Definition get_st {S} : st S S := λ s, (Ok s, s).
Definition put_st {S} (s : S) : st S unit := λ _, (Ok tt, s).
Definition modify {S} (f : S → S) : st S unit := λ s, (Ok tt, f s).
Definition gets {S A} (f : S → A) : st S A := λ s, (Ok (f s), s).
Definition lift_res {S A} (r : res A) : st S A := λ s, (r, s).

(** [try: m except Exception as e: h e] *)
Definition try_catch {S A} (m : st S A) (h : exn → st S A) : st S A := λ s,
  match m s with
  | (Ok a, s') => (Ok a, s')
  | (Raise e, s') => h e s'
  end.

(** [try: m except C as e: h e], for a class of exceptions. *)
Definition try_catch_if {S A} (p : exn → bool) (m : st S A) (h : exn → st S A) : st S A :=
  try_catch m (λ e, if p e then h e else raise e).


(** [for x in l: f x] *)
Fixpoint for_each {S A} (f : A → st S unit) (l : list A) : st S unit :=
  match l with
  | [] => mret tt
  | x :: l' => f x ;; for_each f l'
  end.

(** [[f x for x in l]] with effects, from left to right. *)
Fixpoint map_st {S A B} (f : A → st S B) (l : list A) : st S (list B) :=
  match l with
  | [] => mret []
  | x :: l' => y ← f x; ys ← map_st f l'; mret (y :: ys)
  end.

Definition when {S} (b : bool) (m : st S unit) : st S unit := if b then m else mret tt.

(** What a recursion of the model that was given too little fuel ends with; where
    it is used a theorem says that it is never reached. *)
Definition out_of_fuel : exn := Exn (OtherError "RecursionError") "out of fuel".

(** Pure computations that may raise. *)
#[export] Instance res_ret : MRet res := λ A a, Ok a.
#[export] Instance res_bind : MBind res := λ A B k r,
  match r with Ok a => k a | Raise e => Raise e end.

(** [[f x for x in l]] *)
Fixpoint map_res {A B} (f : A → res B) (l : list A) : res (list B) :=
  match l with
  | [] => Ok []
  | x :: l' => y ← f x; ys ← map_res f l'; mret (y :: ys)
  end.

Definition err {A} (c : exc_class) (msg : string) : res A := Raise (Exn c msg).

(** ** Weakest preconditions *)

Definition wp {S A} (m : st S A) (Q : res A → S → Prop) (s : S) : Prop :=
  Q (m s).1 (m s).2.

Section wp.
Context {S : Type}.
Implicit Types s : S.

Lemma wp_ret {A} (a : A) (Q : res A → S → Prop) s : Q (Ok a) s → wp (mret a) Q s.
Proof. done. Qed.

Lemma wp_bind {A B} (m : st S A) (k : A → st S B) (Q : res B → S → Prop) s :
  wp m (λ r s', match r with Ok a => wp (k a) Q s' | Raise e => Q (Raise e) s' end) s →
  wp (m ≫= k) Q s.
Proof. rw /wp /mbind /st_bind. by destruct (m s) as [[a|e] s']. Qed.

Lemma wp_raise {A} e (Q : res A → S → Prop) s : Q (Raise e) s → wp (raise e) Q s.
Proof. done. Qed.

Lemma wp_try {A} (m : st S A) h (Q : res A → S → Prop) s :
  wp m (λ r s', match r with Ok a => Q (Ok a) s' | Raise e => wp (h e) Q s' end) s →
  wp (try_catch m h) Q s.
Proof. rw /wp /try_catch. by destruct (m s) as [[a|e] s']. Qed.

Lemma wp_mono {A} (m : st S A) (Q Q' : res A → S → Prop) s :
  wp m Q s → (∀ r s', Q r s' → Q' r s') → wp m Q' s.
Proof. rw /wp. eauto. Qed.

Lemma wp_intro {A} (m : st S A) (Q : res A → S → Prop) s r s' :
  m s = (r, s') → Q r s' → wp m Q s.
Proof. unfold wp. by intros ->. Qed.

Lemma wp_elim {A} (m : st S A) (Q : res A → S → Prop) s r s' :
  wp m Q s → m s = (r, s') → Q r s'.
Proof. unfold wp. intros HQ E. by rw E in HQ. Qed.
End wp.

(** Inverting a sequence that returned. *)
Lemma bind_Ok {S A B} (m : st S A) (k : A → st S B) s b s' :
  (m ≫= k) s = (Ok b, s') → ∃ a s1, m s = (Ok a, s1) ∧ k a s1 = (Ok b, s').
Proof. unfold mbind, st_bind. destruct (m s) as [[a|e] s1]; [eauto|done]. Qed.

Lemma lift_Ok {S A} (r : res A) (s : S) a s' : lift_res r s = (Ok a, s') → r = Ok a ∧ s' = s.
Proof. unfold lift_res. intros H. injection H as -> ->. done. Qed.

(** Running a sequence whose first part is known. *)
Lemma bind_step {S A B} (m : st S A) (k : A → st S B) s a s1 :
  m s = (Ok a, s1) → (m ≫= k) s = k a s1.
Proof. unfold mbind, st_bind. by intros ->. Qed.

Lemma bind_raise {S A B} (m : st S A) (k : A → st S B) s e s1 :
  m s = (Raise e, s1) → (m ≫= k) s = (Raise e, s1).
Proof. unfold mbind, st_bind. by intros ->. Qed.

(** ** Computations that respect a relation on the state

    [respects R m]: whatever [m] does, returning or raising, the state it
    leaves is [R]-related to the state it started from.  For a preorder this is
    compositional, so frame conditions and monotonicity of a whole handler
    follow from those of the operations it calls. *)

Definition respects {S A} (R : relation S) (m : st S A) : Prop := ∀ s, R s (m s).2.

Create HintDb respects discriminated.

Section respects.
Context {S : Type} (R : relation S) `{!PreOrder R}.

Lemma respects_ret {A} (a : A) : respects R (mret a : st S A).
Proof. intros s. reflexivity. Qed.

Lemma respects_bind {A B} (m : st S A) (k : A → st S B) :
  respects R m → (∀ a, respects R (k a)) → respects R (m ≫= k).
Proof.
  intros Hm Hk s. rw /mbind /st_bind. specialize (Hm s).
  destruct (m s) as [[a|e] s'] eqn:E; simpl in *; [|done].
  etrans; [apply Hm|apply Hk].
Qed.

Lemma respects_raise {A} e : respects R (raise e : st S A).
Proof. intros s. reflexivity. Qed.

Lemma respects_lift {A} (r : res A) : respects R (lift_res r : st S A).
Proof. intros s. reflexivity. Qed.

Lemma respects_get : respects R (get_st : st S S).
Proof. intros s. reflexivity. Qed.

Lemma respects_gets {A} (f : S → A) : respects R (gets f).
Proof. intros s. reflexivity. Qed.

Lemma respects_try {A} (m : st S A) h :
  respects R m → (∀ e, respects R (h e)) → respects R (try_catch m h).
Proof.
  intros Hm Hh s. rw /try_catch. specialize (Hm s).
  destruct (m s) as [[a|e] s'] eqn:E; simpl in *; [done|].
  etrans; [apply Hm|apply Hh].
Qed.

Lemma respects_when b m : respects R m → respects R (when b m).
Proof. destruct b; simpl; auto using respects_ret. Qed.

Lemma respects_for_each {A} (f : A → st S unit) l :
  (∀ a, respects R (f a)) → respects R (for_each f l).
Proof.
  intros Hf. induction l as [|a l IH]; simpl; [apply respects_ret|].
  by apply respects_bind.
Qed.

Lemma respects_map_st {A B} (f : A → st S B) l :
  (∀ a, respects R (f a)) → respects R (map_st f l).
Proof.
  intros Hf. induction l as [|a l IH]; simpl; [apply respects_ret|].
  apply respects_bind; [done|]. intros b. apply respects_bind; [done|].
  intros bs. apply respects_ret.
Qed.
End respects.

(** One step of a [respects] proof, and all of them. *)
Ltac respects_step :=
  match goal with
  | |- respects _ (mret _) => apply respects_ret; apply _
  | |- respects _ (_ ≫= _) => apply respects_bind; [apply _| |intros ?]
  | |- respects _ (mbind _ _) => apply respects_bind; [apply _| |intros ?]
  | |- respects _ (raise _) => apply respects_raise; apply _
  | |- respects _ (lift_res _) => apply respects_lift; apply _
  | |- respects _ get_st => apply respects_get; apply _
  | |- respects _ (gets _) => apply respects_gets; apply _
  | |- respects _ (try_catch _ _) => apply respects_try; [apply _| |intros ?]
  | |- respects _ (try_catch_if _ _ _) => apply respects_try; [apply _| |intros ?]
  | |- respects _ (when _ _) => apply respects_when; [apply _|]
  | |- respects _ (for_each _ _) => apply respects_for_each; [apply _|intros ?]
  | |- respects _ (map_st _ _) => apply respects_map_st; [apply _|intros ?]
  | |- respects _ (if ?b then _ else _) => destruct b eqn:?
  | |- respects _ (match ?x with _ => _ end) => destruct x eqn:?
  end.
Ltac solve_respects := repeat (first [solve [eauto with respects] | respects_step]).

(** ** Simulation

    [sim R m1 m2]: from [R]-related states the two computations return (or
    raise) the same and leave [R]-related states. *)

Definition sim {S1 S2 A} (R : S1 → S2 → Prop) (m1 : st S1 A) (m2 : st S2 A) : Prop :=
  ∀ s1 s2, R s1 s2 → (m1 s1).1 = (m2 s2).1 ∧ R (m1 s1).2 (m2 s2).2.

Create HintDb sim discriminated.

Section sim.
Context {S1 S2 : Type} (R : S1 → S2 → Prop).

Lemma sim_ret {A} (a : A) : sim R (mret a) (mret a).
Proof. by intros s1 s2 HR. Qed.

Lemma sim_bind {A B} (m1 : st S1 A) (m2 : st S2 A) (k1 : A → st S1 B) (k2 : A → st S2 B) :
  sim R m1 m2 → (∀ a, sim R (k1 a) (k2 a)) → sim R (m1 ≫= k1) (m2 ≫= k2).
Proof.
  intros Hm Hk s1 s2 HR. rw /mbind /st_bind. destruct (Hm s1 s2 HR) as [He HR'].
  destruct (m1 s1) as [r1 s1'], (m2 s2) as [r2 s2']; simpl in *. subst r2.
  destruct r1; [by apply Hk|done].
Qed.

Lemma sim_raise {A} e : sim R (raise e : st S1 A) (raise e).
Proof. by intros s1 s2 HR. Qed.

Lemma sim_lift {A} (r : res A) : sim R (lift_res r) (lift_res r).
Proof. by intros s1 s2 HR. Qed.

Lemma sim_gets {A} (f1 : S1 → A) (f2 : S2 → A) :
  (∀ s1 s2, R s1 s2 → f1 s1 = f2 s2) → sim R (gets f1) (gets f2).
Proof. intros Hf s1 s2 HR. split; [|done]. simpl. by rw (Hf s1 s2 HR). Qed.

Lemma sim_try {A} (m1 : st S1 A) (m2 : st S2 A) h1 h2 :
  sim R m1 m2 → (∀ e, sim R (h1 e) (h2 e)) → sim R (try_catch m1 h1) (try_catch m2 h2).
Proof.
  intros Hm Hh s1 s2 HR. rw /try_catch. destruct (Hm s1 s2 HR) as [He HR'].
  destruct (m1 s1) as [r1 s1'], (m2 s2) as [r2 s2']; simpl in *. subst r2.
  destruct r1; [done|by apply Hh].
Qed.

Lemma sim_when b m1 m2 : sim R m1 m2 → sim R (when b m1) (when b m2).
Proof. destruct b; simpl; [done|]. intros _. apply sim_ret. Qed.

Lemma sim_for_each {A} (f1 : A → st S1 unit) (f2 : A → st S2 unit) l :
  (∀ a, sim R (f1 a) (f2 a)) → sim R (for_each f1 l) (for_each f2 l).
Proof. intros Hf. induction l; simpl; [apply sim_ret|]. by apply sim_bind. Qed.

Lemma sim_map_st {A B} (f1 : A → st S1 B) (f2 : A → st S2 B) l :
  (∀ a, sim R (f1 a) (f2 a)) → sim R (map_st f1 l) (map_st f2 l).
Proof.
  intros Hf. induction l; simpl; [apply sim_ret|]. apply sim_bind; [done|]. intros b.
  apply sim_bind; [done|]. intros bs. apply sim_ret.
Qed.
End sim.

(** One step of a [sim] proof, and all of them. *)
Ltac sim_step :=
  match goal with
  | |- sim _ (mret _) (mret _) => apply sim_ret
  | |- sim _ (mbind _ _) (mbind _ _) => apply sim_bind; [|intros ?]
  | |- sim _ (raise _) (raise _) => apply sim_raise
  | |- sim _ (lift_res _) (lift_res _) => apply sim_lift
  | |- sim _ (try_catch _ _) (try_catch _ _) => apply sim_try; [|intros ?]
  | |- sim _ (try_catch_if _ _ _) (try_catch_if _ _ _) => apply sim_try; [|intros ?]
  | |- sim _ (when _ _) (when _ _) => apply sim_when
  | |- sim _ (for_each _ _) (for_each _ _) => apply sim_for_each; intros ?
  | |- sim _ (map_st _ _) (map_st _ _) => apply sim_map_st; intros ?
  | |- sim _ (if ?b then _ else _) _ => destruct b eqn:?
  | |- sim _ (match ?x with _ => _ end) _ => destruct x eqn:?
  end.
Ltac solve_sim := repeat (first [solve [eauto with sim] | sim_step]).

Lemma omap_nil {A B} (f : A → option B) l : omap f l = [] ↔ ∀ x, x ∈ l → f x = None.
Proof.
  induction l as [|x l IH]; cbn; [split; [by intros _ x ?%not_elem_of_nil|done]|]. setoid_rewrite elem_of_cons.
  destruct (f x) eqn:E; [split; [done|intros H; specialize (H x ltac:(by left)); congruence]|]. rw IH. naive_solver.
Qed.

Lemma omap_nil_Forall {A B} (f : A → option B) l : omap f l = [] ↔ Forall (λ a, f a = None) l.
Proof. by rw omap_nil Forall_forall. Qed.

(** ** Lenses: the part of a state an operation works on *)

Record lens (S T : Type) := Lens { lget : S → T; lput : T → S → S }.
Arguments Lens {S T}.
Arguments lget {S T}.
Arguments lput {S T}.

Definition zoom {S T A} (l : lens S T) (m : st T A) : st S A := λ s,
  let '(r, t) := m (lget l s) in (r, lput l t s).

Lemma wp_zoom {S T A} (l : lens S T) (m : st T A) (Q : res A → S → Prop) s :
  wp m (λ r t, Q r (lput l t s)) (lget l s) → wp (zoom l m) Q s.
Proof. rw /wp /zoom. by destruct (m (lget l s)). Qed.

Lemma respects_zoom {S T A} (l : lens S T) (R : relation S) (R' : relation T) (m : st T A) :
  (∀ s t, R' (lget l s) t → R s (lput l t s)) → respects R' m → respects R (zoom l m).
Proof.
  intros HR Hm s. rw /zoom. specialize (Hm (lget l s)).
  destruct (m (lget l s)) as [r t]; simpl in *. by apply HR.
Qed.

Lemma sim_zoom {S1 S2 T1 T2 A} (l1 : lens S1 T1) (l2 : lens S2 T2) (R : S1 → S2 → Prop)
    (R' : T1 → T2 → Prop) (m1 : st T1 A) (m2 : st T2 A) :
  (∀ s1 s2, R s1 s2 → R' (lget l1 s1) (lget l2 s2)) →
  (∀ s1 s2 t1 t2, R s1 s2 → R' t1 t2 → R (lput l1 t1 s1) (lput l2 t2 s2)) →
  sim R' m1 m2 → sim R (zoom l1 m1) (zoom l2 m2).
Proof.
  intros Hget Hput Hm s1 s2 HR. rw /zoom. destruct (Hm _ _ (Hget _ _ HR)) as [He HR'].
  destruct (m1 (lget l1 s1)) as [r1 t1], (m2 (lget l2 s2)) as [r2 t2]; simpl in *. auto.
Qed.

(** ** Python dictionaries

    A dict keeps insertion order; assigning to a present key keeps its place.
    Keys are unique in every dict built by these operations
    ([dict_wf_set] and the lemmas after it). *)

Abbreviation dict V := (list (string * V)).

Fixpoint dict_get {V} (k : string) (d : dict V) : option V :=
  match d with
  | [] => None
  | (k', v) :: d' => if bool_decide (k = k') then Some v else dict_get k d'
  end.

Definition dict_mem {V} (k : string) (d : dict V) : bool :=
  match dict_get k d with Some _ => true | None => false end.

(** [d.get(k, default)] *)
Definition dict_get_or {V} (dflt : V) (k : string) (d : dict V) : V :=
  match dict_get k d with Some v => v | None => dflt end.

(** [d[k] = v] *)
Fixpoint dict_set {V} (k : string) (v : V) (d : dict V) : dict V :=
  match d with
  | [] => [(k, v)]
  | (k', v') :: d' => if bool_decide (k = k') then (k', v) :: d' else (k', v') :: dict_set k v d'
  end.

(** [d.setdefault(k, v)], as a statement *)
Definition dict_setdefault {V} (k : string) (v : V) (d : dict V) : dict V :=
  if dict_mem k d then d else dict_set k v d.

(** [d.pop(k, None)], as a statement *)
Fixpoint dict_del {V} (k : string) (d : dict V) : dict V :=
  match d with
  | [] => []
  | (k', v) :: d' => if bool_decide (k = k') then d' else (k', v) :: dict_del k d'
  end.

(** [{**d, **e}], also [d | e] and [d.update(e)] *)
Fixpoint dict_update {V} (d e : dict V) : dict V :=
  match e with
  | [] => d
  | (k, v) :: e' => dict_update (dict_set k v d) e'
  end.

(** A dict comprehension whose items are computed from a list. *)
Definition dict_of {V} (items : list (string * V)) : dict V := dict_update [] items.

Definition dict_keys {V} (d : dict V) : list string := d.*1.
Definition dict_values {V} (d : dict V) : list V := d.*2.
Definition dict_wf {V} (d : dict V) : Prop := NoDup (dict_keys d).

Create HintDb dict discriminated.

Section dict.
Context {V : Type}.
Implicit Types d e : dict V.

Lemma dict_get_set_eq k v d : dict_get k (dict_set k v d) = Some v.
Proof.
  induction d as [|[k' v'] d IH]; simpl; [by case_bool_decide|].
  repeat (case_bool_decide; simplify_eq/=); done.
Qed.

Lemma dict_get_set_ne k k' v d : k ≠ k' → dict_get k' (dict_set k v d) = dict_get k' d.
Proof.
  intros Hne. induction d as [|[k2 v2] d IH]; simpl; [by repeat (case_bool_decide; simplify_eq/=)|].
  repeat (case_bool_decide; simplify_eq/=); done.
Qed.

Lemma dict_get_set k k' v d :
  dict_get k' (dict_set k v d) = if bool_decide (k = k') then Some v else dict_get k' d.
Proof.
  case_bool_decide; [subst; apply dict_get_set_eq|by apply dict_get_set_ne].
Qed.

Lemma dict_get_None k d : dict_get k d = None ↔ k ∉ dict_keys d.
Proof.
  induction d as [|[k' v] d IH]; simpl; [split; [set_solver|done]|].
  rw not_elem_of_cons. case_bool_decide; [split; [done|intros [? _]; done]|].
  rw IH. split; [by intros|by intros [_ ?]].
Qed.

Lemma dict_get_Some_elem k v d : dict_get k d = Some v → (k, v) ∈ d.
Proof.
  induction d as [|[k' v'] d IH]; simpl; [done|].
  case_bool_decide; intros; simplify_eq; set_solver.
Qed.

Lemma elem_dict_get k v d : dict_wf d → (k, v) ∈ d → dict_get k d = Some v.
Proof.
  unfold dict_wf. induction d as [|[k' v'] d IH]; simpl; [set_solver|].
  rw NoDup_cons elem_of_cons. intros [Hnin Hnd] [Heq|Hin].
  - simplify_eq. by rw bool_decide_eq_true_2.
  - rw bool_decide_eq_false_2; [|by apply IH].
    intros ->. apply Hnin, list_elem_of_fmap. by exists (k', v).
Qed.

Lemma dict_mem_set k k' v d :
  dict_mem k' (dict_set k v d) = bool_decide (k = k') || dict_mem k' d.
Proof. unfold dict_mem. rw dict_get_set. by case_bool_decide. Qed.

Lemma dict_mem_elem k d : dict_mem k d = true ↔ k ∈ dict_keys d.
Proof.
  unfold dict_mem. destruct (dict_get k d) eqn:E.
  - split; [intros _|done]. destruct (decide (k ∈ dict_keys d)) as [|Hn]; [done|].
    apply dict_get_None in Hn. congruence.
  - apply dict_get_None in E. naive_solver.
Qed.

Lemma dict_keys_set k v d :
  dict_keys (dict_set k v d) = if dict_mem k d then dict_keys d else dict_keys d ++ [k].
Proof.
  induction d as [|[k' v'] d IH]; simpl; [done|].
  unfold dict_mem in *; simpl. case_bool_decide; subst; simpl; [done|].
  rw IH. by destruct (dict_get k d).
Qed.

Lemma dict_wf_set k v d : dict_wf d → dict_wf (dict_set k v d).
Proof.
  unfold dict_wf. rw dict_keys_set. destruct (dict_mem k d) eqn:E; [done|].
  intros Hnd. apply NoDup_app. split_and!; [done| |apply NoDup_singleton].
  intros x Hx Hk%list_elem_of_singleton. subst. by apply dict_mem_elem in Hx; congruence.
Qed.

Lemma dict_wf_update d e : dict_wf d → dict_wf (dict_update d e).
Proof.
  revert d. induction e as [|[k v] e IH]; intros d Hd; simpl; [done|].
  by apply IH, dict_wf_set.
Qed.

Lemma dict_wf_of items : dict_wf (dict_of (V:=V) items).
Proof. apply dict_wf_update. constructor. Qed.

Lemma dict_get_update k d e :
  dict_wf e →
  dict_get k (dict_update d e) = match dict_get k e with Some v => Some v | None => dict_get k d end.
Proof.
  unfold dict_wf. revert d. induction e as [|[k' v] e IH]; intros d; simpl; [done|].
  rw NoDup_cons. intros [Hnin Hnd]. rw IH //. case_bool_decide; subst.
  - apply dict_get_None in Hnin. rw Hnin. apply dict_get_set_eq.
  - destruct (dict_get k e); [done|]. apply dict_get_set_ne; congruence.
Qed.

Lemma dict_get_del k k' d :
  dict_wf d →
  dict_get k' (dict_del k d) = if bool_decide (k = k') then None else dict_get k' d.
Proof.
  unfold dict_wf. induction d as [|[k2 v] d IH]; simpl; [by repeat case_bool_decide|].
  rw NoDup_cons. intros [Hnin Hnd]. apply dict_get_None in Hnin.
  destruct (decide (k = k2)) as [->|Hne]; [rw bool_decide_eq_true_2 //|rw bool_decide_eq_false_2 //=];
    repeat (case_bool_decide; simplify_eq/=); try done; rw IH //;
    repeat (case_bool_decide; simplify_eq/=); done.
Qed.

Lemma dict_keys_del_subset k k' d : k' ∈ dict_keys (dict_del k d) → k' ∈ dict_keys d.
Proof.
  induction d as [|[k2 v] d IH]; simpl; [done|].
  case_bool_decide; simpl; rw ?elem_of_cons; naive_solver.
Qed.

Lemma dict_wf_del k d : dict_wf d → dict_wf (dict_del k d).
Proof.
  unfold dict_wf. induction d as [|[k2 v] d IH]; simpl; [done|].
  rw NoDup_cons. intros [Hnin Hnd]. case_bool_decide; simpl; [done|].
  rw NoDup_cons. split; [|by apply IH].
  intros Hin. by apply Hnin, (dict_keys_del_subset k).
Qed.
End dict.

#[export] Hint Resolve dict_wf_set dict_wf_update dict_wf_of dict_wf_del : dict.

(** ** Lists *)

Fixpoint find_first {A} (p : A → bool) (l : list A) : option A :=
  match l with
  | [] => None
  | x :: l' => if p x then Some x else find_first p l'
  end.

(** [enumerate(l, start)] *)
Fixpoint enumerate_from {A} (n : nat) (l : list A) : list (nat * A) :=
  match l with
  | [] => []
  | x :: l' => (n, x) :: enumerate_from (S n) l'
  end.

(** Append an element the list does not hold yet ([if x not in l: l.append(x)]). *)
Definition append_new (x : string) (l : list string) : list string :=
  if bool_decide (x ∈ l) then l else l ++ [x].

Section lists.
Context {A : Type}.

Lemma find_first_Some (p : A → bool) l x :
  find_first p l = Some x → p x = true ∧ x ∈ l.
Proof.
  induction l as [|y l IH]; simpl; [done|]. rw elem_of_cons.
  destruct (p y) eqn:E; [|naive_solver]. by intros [= ->]; auto.
Qed.

Lemma find_first_None (p : A → bool) l :
  find_first p l = None ↔ ∀ x, x ∈ l → p x = false.
Proof.
  induction l as [|y l IH]; simpl; [by split; [intros _ x []%not_elem_of_nil|]|].
  setoid_rewrite elem_of_cons.
  destruct (p y) eqn:E; [|rw IH; naive_solver].
  split; [done|]. intros H. by rw (H y) in E; [left|].
Qed.

Lemma forallb_elem (p : A → bool) l : forallb p l = true ↔ ∀ x, x ∈ l → p x = true.
Proof. rw forallb_forall. by setoid_rewrite list_elem_of_In. Qed.

Lemma existsb_elem (p : A → bool) l : existsb p l = true ↔ ∃ x, x ∈ l ∧ p x = true.
Proof. rw existsb_exists. by setoid_rewrite list_elem_of_In. Qed.

Lemma existsb_elem_false (p : A → bool) l :
  existsb p l = false ↔ ∀ x, x ∈ l → p x = false.
Proof.
  rw -not_true_iff_false existsb_elem. split.
  - intros H x Hx. destruct (p x) eqn:E; [|done]. destruct H. eauto.
  - intros H (x & Hx & Hp). by rw H in Hp.
Qed.

Lemma filter_elem (p : A → bool) l x : x ∈ List.filter p l ↔ x ∈ l ∧ p x = true.
Proof. rw !list_elem_of_In. apply filter_In. Qed.

Lemma enumerate_from_length (l : list A) n : length (enumerate_from n l) = length l.
Proof. revert n. induction l; intros n; simpl; auto. Qed.

Lemma append_new_NoDup x l : NoDup l → NoDup (append_new x l).
Proof.
  unfold append_new. case_bool_decide; [done|]. intros Hl.
  apply NoDup_app. split_and!; [done| |apply NoDup_singleton]; intros y Hy ->%list_elem_of_singleton; done.
Qed.

Lemma append_new_elem x y l : y ∈ append_new x l ↔ y = x ∨ y ∈ l.
Proof. unfold append_new. case_bool_decide; set_solver. Qed.
End lists.

Lemma Forall2_elem_of_l {A B} (P : A → B → Prop) l k x :
  Forall2 P l k → x ∈ l → ∃ y, y ∈ k ∧ P x y.
Proof.
  intros H [i Hi]%list_elem_of_lookup. destruct (Forall2_lookup_l _ _ _ _ _ H Hi) as (y & Hy & Hp).
  exists y. split; [exact (list_elem_of_lookup_2 _ _ _ Hy)|done].
Qed.

Lemma Forall2_elem_of_r {A B} (P : A → B → Prop) l k y :
  Forall2 P l k → y ∈ k → ∃ x, x ∈ l ∧ P x y.
Proof.
  intros H [i Hi]%list_elem_of_lookup. destruct (Forall2_lookup_r _ _ _ _ _ H Hi) as (x & Hx & Hp).
  exists x. split; [exact (list_elem_of_lookup_2 _ _ _ Hx)|done].
Qed.

#[export] Hint Resolve append_new_NoDup : dict.

(** Invert results and pairs left in the context. *)
Ltac inv_res :=
  repeat match goal with
  | H : Ok _ = Ok _ |- _ => injection H; clear H; intros
  | H : Raise _ = Raise _ |- _ => injection H; clear H; intros
  | H : Ok _ = Raise _ |- _ => discriminate H
  | H : Raise _ = Ok _ |- _ => discriminate H
  | H : Some _ = Some _ |- _ => injection H; clear H; intros
  end; subst.
