(* ===== verification/PyStr.v ===== *)
(** * Python strings

    The [str] operations the program uses.  A string is a sequence of code
    points below 256, one [ascii] each; code points from 256 up are outside the
    model.  Character classes are Python's on that range ([str.isspace],
    [str.lower]); [upper] is only used on ASCII input. *)

From S2P Require Import Prelude.

Abbreviation chars := String.list_ascii_of_string.
Abbreviation of_chars := String.string_of_list_ascii.

Definition code (c : ascii) : N := N_of_ascii c.

Definition in_range (lo hi : N) (c : ascii) : bool :=
  (N.leb lo (code c) && N.leb (code c) hi)%bool.

(** [str.isspace], also [\s] of a [str] pattern *)
Definition is_space (c : ascii) : bool :=
  in_range 9 13 c || in_range 28 32 c || N.eqb (code c) 133 || N.eqb (code c) 160.

Definition is_digit (c : ascii) : bool := in_range 48 57 c.

Definition lower_char (c : ascii) : ascii :=
  if in_range 65 90 c || in_range 192 214 c || in_range 216 222 c
  then ascii_of_N (code c + 32) else c.

Definition upper_char (c : ascii) : ascii :=
  if in_range 97 122 c then ascii_of_N (code c - 32) else c.

Definition py_lower (s : string) : string := of_chars (map lower_char (chars s)).
Definition py_upper (s : string) : string := of_chars (map upper_char (chars s)).

Fixpoint drop_while {A} (p : A → bool) (l : list A) : list A :=
  match l with
  | [] => []
  | x :: l' => if p x then drop_while p l' else l
  end.

(** [s.strip(chars)] for a set of characters; [strip] is [s.strip()]. *)
Definition lstrip_of (p : ascii → bool) (l : list ascii) : list ascii := drop_while p l.
Definition rstrip_of (p : ascii → bool) (l : list ascii) : list ascii :=
  reverse (drop_while p (reverse l)).
Definition strip_of (p : ascii → bool) (s : string) : string :=
  of_chars (rstrip_of p (lstrip_of p (chars s))).
Definition strip (s : string) : string := strip_of is_space s.

(** Truthiness of a string, and of an optional one. *)
Definition str_truthy (s : string) : bool := match s with EmptyString => false | _ => true end.
Definition ostr_truthy (s : option string) : bool :=
  match s with Some s => str_truthy s | None => false end.

(** [a or b] on strings *)
Definition str_or (a b : string) : string := if str_truthy a then a else b.
Definition ostr_or (a : option string) (b : string) : string :=
  match a with Some a => str_or a b | None => b end.

(** [s[:n]] *)
Fixpoint str_take (n : nat) (s : string) : string :=
  match n, s with
  | S n', String c s' => String c (str_take n' s')
  | _, _ => EmptyString
  end.

Definition str_len (s : string) : nat := String.length s.

(** [sep.join(l)] *)
Fixpoint str_join (sep : string) (l : list string) : string :=
  match l with
  | [] => EmptyString
  | [x] => x
  | x :: l' => x +:+ sep +:+ str_join sep l'
  end.

Fixpoint prefix_of_chars (p l : list ascii) : bool :=
  match p, l with
  | [], _ => true
  | x :: p', y :: l' => bool_decide (x = y) && prefix_of_chars p' l'
  | _ :: _, [] => false
  end.

Definition startswith (s p : string) : bool := prefix_of_chars (chars p) (chars s).

(** [s.removeprefix(p)] *)
Definition removeprefix (s p : string) : string :=
  if startswith s p then of_chars (drop (length (chars p)) (chars s)) else s.

Fixpoint contains_chars (p l : list ascii) : bool :=
  prefix_of_chars p l || match l with [] => false | _ :: l' => contains_chars p l' end.

(** [p in s] *)
Definition str_contains (p s : string) : bool := contains_chars (chars p) (chars s).

(** [s.split(c, 1)] on a one-character separator: the part before the first
    separator and the part after it, when there is one. *)
Fixpoint split1_chars (c : ascii) (l : list ascii) : option (list ascii * list ascii) :=
  match l with
  | [] => None
  | x :: l' =>
      if bool_decide (x = c) then Some ([], l')
      else match split1_chars c l' with
           | Some (a, b) => Some (x :: a, b)
           | None => None
           end
  end.
Definition split1 (c : ascii) (s : string) : option (string * string) :=
  match split1_chars c (chars s) with
  | Some (a, b) => Some (of_chars a, of_chars b)
  | None => None
  end.

(** [s.split(c)] *)
Fixpoint split_chars (c : ascii) (l : list ascii) : list (list ascii) :=
  match l with
  | [] => [[]]
  | x :: l' =>
      if bool_decide (x = c) then [] :: split_chars c l'
      else match split_chars c l' with
           | w :: ws => (x :: w) :: ws
           | [] => [[x]]
           end
  end.
Definition str_split (c : ascii) (s : string) : list string := map of_chars (split_chars c (chars s)).

(** [s.split()]: the maximal runs of non-space characters. *)
Fixpoint words_chars (l : list ascii) (cur : list ascii) : list (list ascii) :=
  match l with
  | [] => match cur with [] => [] | _ => [reverse cur] end
  | x :: l' =>
      if is_space x
      then match cur with [] => words_chars l' [] | _ => reverse cur :: words_chars l' [] end
      else words_chars l' (x :: cur)
  end.
Definition split_ws (s : string) : list string := map of_chars (words_chars (chars s) []).

(** [s.replace(p, r)] for a non-empty [p]: leftmost occurrences, from the left.
    The fuel is the length of the string: each step consumes a character. *)
Fixpoint replace_chars (fuel : nat) (p r l : list ascii) : list ascii :=
  match fuel, l with
  | S fuel', x :: l' =>
      if prefix_of_chars p l
      then r ++ replace_chars fuel' p r (drop (length p) l)
      else x :: replace_chars fuel' p r l'
  | _, _ => l
  end.
Definition str_replace (p r s : string) : string :=
  of_chars (replace_chars (length (chars s)) (chars p) (chars r) (chars s)).

(** [re.sub(r"\s+", " ", s)] *)
Fixpoint collapse_chars (in_ws : bool) (l : list ascii) : list ascii :=
  match l with
  | [] => []
  | x :: l' =>
      if is_space x
      then if in_ws then collapse_chars true l' else " "%char :: collapse_chars true l'
      else x :: collapse_chars false l'
  end.
Definition collapse_ws (s : string) : string := of_chars (collapse_chars false (chars s)).

Definition char_str (n : N) : string := String (ascii_of_N n) EmptyString.
(** The double quote, the newline and other characters by code. *)
Definition dquote : string := char_str 34.
Definition newline : string := char_str 10.

(** [sorted] on strings: by code points. *)
Definition str_leb (a b : string) : bool := String.leb a b.
Fixpoint str_insert (x : string) (l : list string) : list string :=
  match l with
  | [] => [x]
  | y :: l' => if str_leb x y then x :: l else y :: str_insert x l'
  end.
Definition str_sorted (l : list string) : list string := foldr str_insert [] l.

(** ** Lemmas *)

Section lemmas.
Lemma chars_of_chars l : chars (of_chars l) = l.
Proof. apply String.list_ascii_of_string_of_list_ascii. Qed.

Lemma of_chars_chars s : of_chars (chars s) = s.
Proof. apply String.string_of_list_ascii_of_string. Qed.

Lemma chars_app a b : chars (a +:+ b) = chars a ++ chars b.
Proof. induction a as [|c a IH]; simpl; [done|]. by f_equal. Qed.

Lemma chars_inj a b : chars a = chars b → a = b.
Proof. intros H. by rw -(of_chars_chars a) H of_chars_chars. Qed.

Lemma drop_while_all {A} (p : A → bool) l r : Forall (λ c, p c = true) l → drop_while p (l ++ r) = drop_while p r.
Proof. induction 1 as [|x l Hx _ IH]; simpl; [done|]. by rw Hx. Qed.

Lemma drop_while_idemp {A} (p : A → bool) l : drop_while p (drop_while p l) = drop_while p l.
Proof. induction l as [|x l IH]; simpl; [done|]. destruct (p x) eqn:E; [done|]. simpl. by rw E. Qed.

Lemma drop_while_snoc {A} (p : A → bool) l x :
  p x = false → drop_while p (l ++ [x]) = drop_while p l ++ [x].
Proof. intros Hx. induction l as [|y l IH]; simpl; [by rw Hx|]. by destruct (p y). Qed.

Lemma drop_while_head {A} (p : A → bool) l x l' : drop_while p l = x :: l' → p x = false.
Proof.
  induction l as [|y l IH]; simpl; [done|]. destruct (p y) eqn:E; [done|]. by intros [= -> _].
Qed.

Lemma rstrip_head p x l : p x = false → rstrip_of p (x :: l) = x :: rstrip_of p l.
Proof.
  intros Hx. unfold rstrip_of. rw reverse_cons drop_while_snoc // reverse_app. done.
Qed.

Lemma strip_of_idemp p s : strip_of p (strip_of p s) = strip_of p s.
Proof.
  unfold strip_of. rw chars_of_chars. f_equal.
  destruct (lstrip_of p (chars s)) as [|x l] eqn:E; [done|].
  assert (Hx : p x = false) by (apply (drop_while_head p _ _ _ E)).
  rw (rstrip_head p x l Hx). unfold lstrip_of; simpl. rw Hx.
  rw (rstrip_head p x _ Hx). f_equal.
  unfold rstrip_of. by rw reverse_involutive drop_while_idemp.
Qed.

Lemma strip_idemp s : strip (strip s) = strip s.
Proof. apply strip_of_idemp. Qed.

Lemma str_take_length n s : (str_len (str_take n s) ≤ n)%nat.
Proof. revert s. induction n as [|n IH]; intros [|c s]; simpl; try lia. specialize (IH s). unfold str_len in *. lia. Qed.

Lemma str_take_idemp n s : str_take n (str_take n s) = str_take n s.
Proof. revert s. induction n as [|n IH]; intros [|c s]; simpl; f_equal; auto. Qed.

Lemma str_take_all n s : (str_len s ≤ n)%nat → str_take n s = s.
Proof.
  revert s. induction n as [|n IH]; intros [|c s]; simpl; intros H; try done; try lia.
  f_equal. apply IH. unfold str_len in *. lia.
Qed.

Lemma append_inj_l a b c : a +:+ b = a +:+ c → b = c.
Proof. intros H%(f_equal chars). rw !chars_app in H. by apply app_inv_head in H; apply chars_inj. Qed.

Lemma append_inj_r a b c : a +:+ c = b +:+ c → a = b.
Proof. intros H%(f_equal chars). rw !chars_app in H. by apply app_inv_tail in H; apply chars_inj. Qed.

Lemma append_assoc a b c : (a +:+ b) +:+ c = a +:+ b +:+ c.
Proof. apply chars_inj. by rw !chars_app app_assoc. Qed.

Lemma prefix_of_app p l : prefix_of_chars p (p ++ l) = true.
Proof. induction p as [|x p IH]; cbn; [done|]. by rw bool_decide_eq_true_2. Qed.

Lemma str_contains_head p b : str_contains p (p +:+ b) = true.
Proof.
  unfold str_contains. rw chars_app. pose proof (prefix_of_app (chars p) (chars b)) as H.
  destruct (chars p ++ chars b); cbn [contains_chars]; by rw H.
Qed.

Lemma str_contains_skip p a s : str_contains p s = true → str_contains p (a +:+ s) = true.
Proof.
  unfold str_contains. rw chars_app. intros H. induction (chars a) as [|x l IH]; [exact H|].
  cbn [contains_chars app]. rw IH. by rw orb_true_r.
Qed.

Lemma split1_chars_Some c l a b :
  split1_chars c l = Some (a, b) → l = a ++ c :: b ∧ c ∉ a.
Proof.
  revert a b. induction l as [|x l IH]; intros a b; simpl; [done|].
  case_bool_decide as E.
  - intros [= <- <-]. subst. split; [done|by apply not_elem_of_nil].
  - destruct (split1_chars c l) as [[a' b']|] eqn:Hs; [|done]. intros [= <- <-].
    destruct (IH a' b' eq_refl) as [-> Hn]. split; [done|].
    apply not_elem_of_cons; split; [congruence|done].
Qed.

Lemma split1_chars_None c l : split1_chars c l = None ↔ c ∉ l.
Proof.
  induction l as [|x l IH]; simpl; [split; [intros _; apply not_elem_of_nil|done]|].
  rw not_elem_of_cons. case_bool_decide as E.
  - split; [done|]. intros [Hn _]. by destruct Hn.
  - destruct (split1_chars c l) as [[a b]|].
    + split; [done|]. intros [_ Hn]. by apply IH in Hn.
    + split; [intros _|done]. split; [congruence|by apply IH].
Qed.

Lemma chars_length s : length (chars s) = str_len s.
Proof. induction s as [|c s IH]; simpl; [done|]. unfold str_len in *. simpl. by f_equal. Qed.

(** A suffix made of characters that are not the separator determines where
    the last separator is. *)
Lemma last_sep_inj (c : ascii) (x1 x2 y1 y2 : list ascii) :
  c ∉ y1 → c ∉ y2 → x1 ++ c :: y1 = x2 ++ c :: y2 → x1 = x2 ∧ y1 = y2.
Proof.
  revert x2. induction x1 as [|z x1 IH]; intros [|z2 x2] H1 H2 H; simpl in H; injection H.
  - by intros ->.
  - intros -> ->. destruct H1. apply elem_of_app. right. by left.
  - intros <- ->. destruct H2. apply elem_of_app. right. by left.
  - intros H' ->. by destruct (IH x2 H1 H2 H') as [-> ->].
Qed.
End lemmas.

(** Decimal numerals hold digits only. *)
Section pretty.
Lemma pretty_N_char_digit n : (n < 10)%N → is_digit (pretty_N_char n) = true.
Proof.
  intros H. assert (n = 0 ∨ n = 1 ∨ n = 2 ∨ n = 3 ∨ n = 4 ∨ n = 5 ∨ n = 6 ∨ n = 7 ∨ n = 8 ∨ n = 9)%N
    as Hn by lia. by repeat (destruct Hn as [->|Hn]; [done|]); subst.
Qed.

Lemma pretty_N_go_digits x s :
  Forall (λ c, is_digit c = true) (chars s) →
  Forall (λ c, is_digit c = true) (chars (pretty_N_go x s)).
Proof.
  revert s. induction (N.lt_wf_0 x) as [x _ IH]; intros s Hs.
  destruct (decide (x = 0)%N) as [->|Hx]; [by rw pretty_N_go_0|].
  rw pretty_N_go_step; [lia|]. apply IH; [apply N.div_lt; lia|].
  simpl. constructor; [|done]. apply pretty_N_char_digit, N.mod_lt. lia.
Qed.

Lemma pretty_nat_digits (n : nat) : Forall (λ c, is_digit c = true) (chars (pretty n)).
Proof.
  unfold pretty, pretty_nat, pretty, pretty_N. case_decide.
  - by repeat constructor.
  - by apply pretty_N_go_digits.
Qed.

Lemma pretty_nat_no_colon (n : nat) : ":"%char ∉ chars (pretty n).
Proof. intros H. pose proof (pretty_nat_digits n) as Hd. rw Forall_forall in Hd. by apply Hd in H. Qed.
End pretty.
