(* ===== verification/Encodings.v ===== *)
(** * Text encodings

    The parts of the Python standard library that turn bytes into text: the UTF-8
    codec, strict, and base64 as [base64.b64decode] reads it, which skips what is not
    in the alphabet and stops at complete padding.  A byte is an [ascii]; a text is the
    list of its code points, without the bound the strings of [PyStr] have. *)

From Stdlib Require Import ZifyBool ZifyN.
From S2P Require Import Prelude PyStr.

Definition text : Type := list N.

(** The code points of a string. *)
Definition text_of (s : string) : text := map code (chars s).

(** ** UTF-8 *)

(** A Unicode scalar value: no surrogate, at most 10FFFF. *)
Definition is_scalar (n : N) : bool := (n <? 0xD800)%N || ((0xDFFF <? n)%N && (n <=? 0x10FFFF)%N).

Definition byte (n : N) : ascii := ascii_of_N n.
Definition trail (n : N) : ascii := byte (0x80 + n mod 64).

Definition encode_char (n : N) : list ascii :=
  if (n <? 0x80)%N then [byte n]
  else if (n <? 0x800)%N then [byte (0xC0 + n / 64); trail n]
  else if (n <? 0x10000)%N then [byte (0xE0 + n / 4096); trail (n / 64); trail n]
  else [byte (0xF0 + n / 262144); trail (n / 4096); trail (n / 64); trail n].

(** [s.encode("utf-8")]: a surrogate cannot be encoded. *)
Fixpoint utf8_encode (t : text) : option (list ascii) :=
  match t with
  | [] => Some []
  | n :: t' => if is_scalar n then bs ← utf8_encode t'; Some (encode_char n ++ bs) else None
  end.

Definition is_trail (c : ascii) : bool := in_range 0x80 0xBF c.
Definition low6 (c : ascii) : N := (code c - 0x80)%N.

(** [b.decode("utf-8")]: the well-formed sequences, which exclude overlong forms,
    surrogates and anything above 10FFFF. *)
Fixpoint utf8_decode (b : list ascii) : option text :=
  match b with
  | [] => Some []
  | c0 :: b0 =>
      if in_range 0 0x7F c0 then t ← utf8_decode b0; Some (code c0 :: t)
      else
        match b0 with
        | [] => None
        | c1 :: b1 =>
            if in_range 0xC2 0xDF c0 && is_trail c1 then
              t ← utf8_decode b1; Some ((code c0 - 0xC0) * 64 + low6 c1 :: t)%N
            else
              match b1 with
              | [] => None
              | c2 :: b2 =>
                  if in_range 0xE0 0xEF c0 && is_trail c1 && is_trail c2 &&
                     (negb (N.eqb (code c0) 0xE0) || in_range 0xA0 0xBF c1) &&
                     (negb (N.eqb (code c0) 0xED) || in_range 0x80 0x9F c1)
                  then
                    t ← utf8_decode b2; Some ((code c0 - 0xE0) * 4096 + low6 c1 * 64 + low6 c2 :: t)%N
                  else
                    match b2 with
                    | [] => None
                    | c3 :: b3 =>
                        if in_range 0xF0 0xF4 c0 && is_trail c1 && is_trail c2 && is_trail c3 &&
                           (negb (N.eqb (code c0) 0xF0) || in_range 0x90 0xBF c1) &&
                           (negb (N.eqb (code c0) 0xF4) || in_range 0x80 0x8F c1)
                        then
                          t ← utf8_decode b3;
                          Some ((code c0 - 0xF0) * 262144 + low6 c1 * 4096 + low6 c2 * 64 + low6 c3 :: t)%N
                        else None
                    end
              end
        end
  end.

(** ** Base64 *)

(** The value of a character of the alphabet. *)
Definition b64_value (c : ascii) : option N :=
  let n := code c in
  if in_range 65 90 c then Some (n - 65)%N
  else if in_range 97 122 c then Some (n - 71)%N
  else if in_range 48 57 c then Some (n + 4)%N
  else if N.eqb n 43 then Some 62%N
  else if N.eqb n 47 then Some 63%N
  else None.

Definition b64_char (n : N) : ascii :=
  byte (if n <? 26 then n + 65 else if n <? 52 then n + 71 else if n <? 62 then n - 4 else if n =? 62 then 43 else 47)%N.

(** The loop of [binascii.a2b_base64] without strictness: [quad_pos] characters of the
    current group of four were read, [left] is what is left of the last one, [pads] the
    padding characters since then, [out] the bytes made, the last one first. *)
Fixpoint a2b_loop (s : list ascii) (quad_pos left pads : N) (out : list ascii) : option (list ascii) :=
  match s with
  | [] => if (quad_pos =? 0)%N then Some (reverse out) else None
  | c :: s' =>
      if N.eqb (code c) 61 then
        if (2 <=? quad_pos)%N then
          if (4 <=? quad_pos + (pads + 1))%N then Some (reverse out) else a2b_loop s' quad_pos left (pads + 1) out
        else a2b_loop s' quad_pos left pads out
      else
        match b64_value c with
        | None => a2b_loop s' quad_pos left pads out
        | Some d =>
            if (quad_pos =? 0)%N then a2b_loop s' 1 d 0 out
            else if (quad_pos =? 1)%N then
              a2b_loop s' 2 (N.land d 0x0F) 0 (byte (N.lor (N.shiftl left 2) (N.shiftr d 4)) :: out)
            else if (quad_pos =? 2)%N then
              a2b_loop s' 3 (N.land d 0x03) 0 (byte (N.lor (N.shiftl left 4) (N.shiftr d 2)) :: out)
            else a2b_loop s' 0 0 0 (byte (N.lor (N.shiftl left 6) d) :: out)
        end
  end.

Definition is_ascii (c : ascii) : bool := in_range 0 0x7F c.

(** [base64.b64decode] of a string; [None] is its [ValueError]: a character that is not
    ASCII, or a group that is not complete. *)
Definition b64decode (s : string) : option (list ascii) :=
  if forallb is_ascii (chars s) then a2b_loop (chars s) 0 0 0 [] else None.

(** [base64.b64encode]: three bytes make four characters. *)
Fixpoint b64_groups (b : list ascii) : list ascii :=
  match b with
  | x :: y :: z :: b' =>
      [b64_char (code x / 4); b64_char (code x mod 4 * 16 + code y / 16); b64_char (code y mod 16 * 4 + code z / 64);
       b64_char (code z mod 64)]%N ++ b64_groups b'
  | [x; y] => [b64_char (code x / 4); b64_char (code x mod 4 * 16 + code y / 16); b64_char (code y mod 16 * 4); "="%char]%N
  | [x] => [b64_char (code x / 4); b64_char (code x mod 4 * 16); "="%char; "="%char]%N
  | [] => []
  end.
Definition b64encode (b : list ascii) : string := of_chars (b64_groups b).

(** ** Lemmas *)

Lemma code_byte n : (n < 256)%N → code (byte n) = n.
Proof. apply N_ascii_embedding. Qed.
Lemma byte_code c : byte (code c) = c.
Proof. apply ascii_N_embedding. Qed.
Lemma code_lt c : (code c < 256)%N.
Proof. apply N_ascii_bounded. Qed.

(** Joining two groups of bits. *)
Lemma lor_shiftl a b k : (b < 2 ^ k)%N → N.lor (N.shiftl a k) b = (a * 2 ^ k + b)%N.
Proof.
  intros Hb. assert (Hl : N.land (N.shiftl a k) b = 0%N).
  { apply N.bits_inj. intros i. rw N.land_spec N.bits_0. destruct (N.lt_ge_cases i k) as [Hi|Hi].
    - by rw N.shiftl_spec_low.
    - destruct (N.eq_dec b 0) as [->|Hz]; [by rw N.bits_0 andb_false_r|].
      rw (N.bits_above_log2 b i) ?andb_false_r //. apply N.log2_lt_pow2 in Hb; lia. }
  rw -N.lxor_lor // -N.add_nocarry_lxor // N.shiftl_mul_pow2 //.
Qed.

(** Tests of bytes and code points are arithmetic. *)
Ltac div_lia := unfold is_scalar, is_trail, is_ascii, in_range, low6, trail in *; Z.to_euclidean_division_equations; lia.

Lemma trail_code n : code (trail n) = (0x80 + n mod 64)%N.
Proof. unfold trail. apply code_byte. pose proof (N.mod_lt n 64 ltac:(done)). lia. Qed.

Lemma trail_is n : is_trail (trail n) = true.
Proof. unfold is_trail, in_range. rw trail_code. pose proof (N.mod_lt n 64 ltac:(done)). lia. Qed.

Lemma trail_low6 n : low6 (trail n) = (n mod 64)%N.
Proof. unfold low6. rw trail_code. lia. Qed.

(** The first test of the goal, which arithmetic decides. *)
Ltac test_byte := match goal with |- (if ?b then _ else _) = _ => let E := fresh in destruct b eqn:E; try (exfalso; div_lia) end.

Lemma decode_char n b : is_scalar n = true → utf8_decode (encode_char n ++ b) = (t ← utf8_decode b; Some (n :: t)).
Proof.
  intros Hs. unfold encode_char.
  destruct (N.ltb_spec n 0x80); [|destruct (N.ltb_spec n 0x800); [|destruct (N.ltb_spec n 0x10000)]]; cbn [app utf8_decode].
  - rw (code_byte n); [lia|]. unfold in_range. rw (code_byte n); [lia|]. by test_byte.
  - unfold in_range. rw (code_byte (0xC0 + n / 64)); [div_lia|]. rw trail_is trail_low6. do 2 test_byte.
    destruct (utf8_decode b); [|done]. cbn. do 2 f_equal. div_lia.
  - unfold in_range. rw (code_byte (0xE0 + n / 4096)); [div_lia|]. rw !trail_is !trail_low6 trail_code. do 3 test_byte.
    destruct (utf8_decode b); [|done]. cbn. do 2 f_equal. div_lia.
  - assert (n < 0x110000)%N by div_lia. unfold in_range.
    rw (code_byte (0xF0 + n / 262144)); [div_lia|]. rw !trail_is !trail_low6 trail_code. do 4 test_byte.
    destruct (utf8_decode b); [|done]. cbn. do 2 f_equal. div_lia.
Qed.

(** What the decoder accepts: the encoding of scalar values, and nothing else. *)
Lemma utf8_decode_encode t b : utf8_encode t = Some b → utf8_decode b = Some t.
Proof.
  revert b. induction t as [|n t IH]; intros b; cbn [utf8_encode]; [by intros [= <-]|].
  destruct (is_scalar n) eqn:Hn; [|done]. destruct (utf8_encode t) as [bs|]; [|done]. intros [= <-].
  by rw (decode_char n bs Hn) (IH bs eq_refl).
Qed.
Lemma byte_is n c : n = code c → byte n = c.
Proof. intros ->. apply byte_code. Qed.

Lemma trail_is_of n c : is_trail c = true → (n mod 64)%N = low6 c → trail n = c.
Proof. intros Hc Hn. unfold trail. apply byte_is. unfold is_trail, in_range, low6 in *. lia. Qed.

(** Each sequence the decoder reads is the encoding of its code point. *)
Lemma encode_1 c0 : in_range 0 0x7F c0 = true → is_scalar (code c0) = true ∧ encode_char (code c0) = [c0].
Proof.
  unfold in_range. intros Hc. split; [div_lia|]. unfold encode_char. test_byte. by rw byte_code.
Qed.

Lemma encode_2 c0 c1 :
  in_range 0xC2 0xDF c0 && is_trail c1 = true →
  let n := ((code c0 - 0xC0) * 64 + low6 c1)%N in is_scalar n = true ∧ encode_char n = [c0; c1].
Proof.
  intros Hc n. assert (Hn : (0x80 ≤ n < 0x800)%N) by (unfold n; div_lia). split; [div_lia|].
  unfold encode_char. do 2 test_byte. rw (byte_is (0xC0 + n / 64) c0); [unfold n; div_lia|].
  rw (trail_is_of n c1) //; [lia|unfold n; div_lia].
Qed.

Lemma encode_3 c0 c1 c2 :
  in_range 0xE0 0xEF c0 && is_trail c1 && is_trail c2 &&
    (negb (N.eqb (code c0) 0xE0) || in_range 0xA0 0xBF c1) && (negb (N.eqb (code c0) 0xED) || in_range 0x80 0x9F c1) = true →
  let n := ((code c0 - 0xE0) * 4096 + low6 c1 * 64 + low6 c2)%N in is_scalar n = true ∧ encode_char n = [c0; c1; c2].
Proof.
  intros Hc n. assert (Hn : (0x800 ≤ n < 0x10000)%N) by (unfold n; div_lia). split; [unfold n; div_lia|].
  unfold encode_char. do 3 test_byte. rw (byte_is (0xE0 + n / 4096) c0); [unfold n; div_lia|].
  rw (trail_is_of (n / 64) c1); [lia|unfold n; div_lia|]. rw (trail_is_of n c2) //; [lia|unfold n; div_lia].
Qed.

Lemma encode_4 c0 c1 c2 c3 :
  in_range 0xF0 0xF4 c0 && is_trail c1 && is_trail c2 && is_trail c3 &&
    (negb (N.eqb (code c0) 0xF0) || in_range 0x90 0xBF c1) && (negb (N.eqb (code c0) 0xF4) || in_range 0x80 0x8F c1) = true →
  let n := ((code c0 - 0xF0) * 262144 + low6 c1 * 4096 + low6 c2 * 64 + low6 c3)%N in
  is_scalar n = true ∧ encode_char n = [c0; c1; c2; c3].
Proof.
  intros Hc n. assert (Hn : (0x10000 ≤ n < 0x110000)%N) by (unfold n; div_lia). split; [div_lia|].
  unfold encode_char. do 3 test_byte. rw (byte_is (0xF0 + n / 262144) c0); [unfold n; div_lia|].
  rw (trail_is_of (n / 4096) c1); [lia|unfold n; div_lia|]. rw (trail_is_of (n / 64) c2); [lia|unfold n; div_lia|].
  rw (trail_is_of n c3) //; [lia|unfold n; div_lia].
Qed.

Lemma utf8_decode_only t b : utf8_decode b = Some t → utf8_encode t = Some b.
Proof.
  assert (Hcons : ∀ n l t bs, is_scalar n = true ∧ encode_char n = l → utf8_encode t = Some bs → utf8_encode (n :: t) = Some (l ++ bs)).
  { intros n l t' bs [Hn <-] Ht. cbn. by rw Hn Ht. }
  remember (length b) as m eqn:Hm. assert (Hle : (length b ≤ m)%nat) by lia. clear Hm. revert t b Hle.
  induction m as [|m IH]; intros t b Hle.
  { destruct b; [by intros [= <-]|cbn in Hle; lia]. }
  assert (Hrec : ∀ b' k t, (length b' ≤ m)%nat → utf8_decode b' ≫= (λ t', Some (k :: t')) = Some t →
    ∃ t', t = k :: t' ∧ utf8_encode t' = Some b').
  { intros b' k t0 Hb E. destruct (utf8_decode b') as [t'|] eqn:Eb; [|done]. injection E as <-. exists t'. split; [done|by apply IH]. }
  destruct b as [|c0 b0]; [by intros [= <-]|]. cbn [utf8_decode length] in *. intros E.
  destruct (in_range 0 0x7F c0) eqn:E1; [apply Hrec in E as (t' & -> & Ht); [|lia]; by apply (Hcons _ [c0]); [apply encode_1|]|].
  destruct b0 as [|c1 b1]; [done|]. cbn [length] in *.
  destruct (in_range 0xC2 0xDF c0 && is_trail c1) eqn:E2.
  { apply Hrec in E as (t' & -> & Ht); [|lia]. by apply (Hcons _ [c0; c1]); [apply encode_2|]. }
  destruct b1 as [|c2 b2]; [done|]. cbn [length] in *.
  match type of E with (if ?x then _ else _) = _ => destruct x eqn:E3 end.
  { apply Hrec in E as (t' & -> & Ht); [|lia]. by apply (Hcons _ [c0; c1; c2]); [apply encode_3|]. }
  destruct b2 as [|c3 b3]; [done|]. cbn [length] in *.
  match type of E with (if ?x then _ else _) = _ => destruct x eqn:E4 end; [|done].
  apply Hrec in E as (t' & -> & Ht); [|lia]. by apply (Hcons _ [c0; c1; c2; c3]); [apply encode_4|].
Qed.
(** The alphabet: its characters are ASCII, are not padding and have their values. *)
Definition b64_alphabet (n : N) : bool :=
  let c := b64_char n in
  is_ascii c && negb (N.eqb (code c) 61) && bool_decide (b64_value c = Some n) && negb (is_space c) &&
  negb (N.eqb (code c) 34) && negb (N.eqb (code c) 39) && negb (N.eqb (code c) 45) && negb (N.eqb (code c) 92).

Lemma b64_char_ok n : (n < 64)%N → b64_alphabet n = true.
Proof.
  intros Hn. assert (Ha : forallb (λ i, b64_alphabet (N.of_nat i)) (seq 0 64) = true) by (vm_compute; reflexivity).
  rewrite List.forallb_forall in Ha. rewrite -(N2Nat.id n). apply Ha, in_seq. lia.
Qed.

Lemma b64_char_spec n : (n < 64)%N →
  is_ascii (b64_char n) = true ∧ N.eqb (code (b64_char n)) 61 = false ∧ b64_value (b64_char n) = Some n.
Proof.
  intros Hn. pose proof (b64_char_ok n Hn) as Ha. unfold b64_alphabet in Ha.
  do 7 (apply andb_true_iff in Ha as [Ha ?]). split_and!; [exact Ha|by apply negb_true_iff|by eapply bool_decide_eq_true_1].
Qed.

Lemma land_mod d k : N.land d (N.ones k) = (d mod 2 ^ k)%N.
Proof. apply N.land_ones. Qed.

(** One character of the alphabet, at each position of a group. *)
Lemma a2b_char d s q left pads out : (d < 64)%N →
  a2b_loop (b64_char d :: s) q left pads out =
    if (q =? 0)%N then a2b_loop s 1 d 0 out
    else if (q =? 1)%N then a2b_loop s 2 (d mod 16) 0 (byte (N.lor (N.shiftl left 2) (d / 16)) :: out)
    else if (q =? 2)%N then a2b_loop s 3 (d mod 4) 0 (byte (N.lor (N.shiftl left 4) (d / 4)) :: out)
    else a2b_loop s 0 0 0 (byte (N.lor (N.shiftl left 6) d) :: out).
Proof.
  intros Hd. cbn [a2b_loop]. destruct (b64_char_spec d Hd) as (_ & -> & ->).
  by rw (land_mod d 4) (land_mod d 2) !N.shiftr_div_pow2.
Qed.

(** The byte two neighbouring characters give. *)
Lemma join_bits a b k c : (b < 2 ^ k)%N → (a * 2 ^ k + b = code c)%N → byte (N.lor (N.shiftl a k) b) = c.
Proof. intros Hb Hc. rw lor_shiftl //. by apply byte_is. Qed.

Ltac join := apply join_bits; change (2 ^ 2)%N with 4%N; change (2 ^ 4)%N with 16%N; change (2 ^ 6)%N with 64%N; div_lia.

Lemma a2b_pad2 left out : a2b_loop ["="; "="]%char 2 left 0 out = Some (reverse out).
Proof. done. Qed.
Lemma a2b_pad1 left out : a2b_loop ["="]%char 3 left 0 out = Some (reverse out).
Proof. done. Qed.

Lemma a2b_groups b out : a2b_loop (b64_groups b) 0 0 0 out = Some (reverse out ++ b).
Proof.
  remember (length b) as m eqn:Hm. assert (Hle : (length b ≤ m)%nat) by lia. clear Hm. revert b out Hle.
  induction m as [|m IH]; intros [|x b] out Hle; try (cbn in Hle; lia); cbn [b64_groups app];
    try (cbn; by rw app_nil_r).
  pose proof (code_lt x). destruct b as [|y b]; [|pose proof (code_lt y); destruct b as [|z b]; [|pose proof (code_lt z)]].
  - rw a2b_char; [div_lia|]. cbn [N.eqb]. rw a2b_char; [div_lia|].
    replace (byte _) with x by (symmetry; join). by rw a2b_pad2 reverse_cons.
  - rw a2b_char; [div_lia|]. cbn [N.eqb]. rw a2b_char; [div_lia|]. cbn [N.eqb Pos.eqb]. rw a2b_char; [div_lia|]. cbn [N.eqb Pos.eqb].
    replace (byte (N.lor (N.shiftl (code x / 4) 2) _)) with x by (symmetry; join).
    replace (byte (N.lor _ _)) with y by (symmetry; join). by rw a2b_pad1 !reverse_cons -app_assoc.
  - do 4 (rw a2b_char; [div_lia|]; cbn [N.eqb Pos.eqb]).
    replace (byte (N.lor (N.shiftl (code x / 4) 2) _)) with x by (symmetry; join).
    replace (byte (N.lor (N.shiftl _ 4) _)) with y by (symmetry; join).
    replace (byte (N.lor _ _)) with z by (symmetry; join).
    rw IH; [cbn in Hle; lia|]. rw !reverse_cons -!app_assoc. done.
Qed.

Lemma b64_groups_Forall (P : ascii → Prop) b :
  (∀ n, (n < 64)%N → P (b64_char n)) → P "="%char → Forall P (b64_groups b).
Proof.
  intros Hc Hp. remember (length b) as m eqn:Hm. assert (Hle : (length b ≤ m)%nat) by lia. clear Hm. revert b Hle.
  induction m as [|m IH]; intros [|x b] Hle; try (cbn in Hle; lia); cbn [b64_groups app]; [constructor..|].
  pose proof (code_lt x). destruct b as [|y b]; [|pose proof (code_lt y); destruct b as [|z b]; [|pose proof (code_lt z)]];
    repeat (apply Forall_cons; split); try (apply Hc; div_lia); try done; [constructor..|].
  apply IH. cbn in Hle. lia.
Qed.

(** Decoding what was encoded gives the bytes back. *)
Lemma b64decode_encode b : b64decode (b64encode b) = Some b.
Proof.
  unfold b64decode, b64encode. rw chars_of_chars.
  assert (Ha : forallb is_ascii (b64_groups b) = true).
  { apply forallb_elem, Forall_forall, b64_groups_Forall; [|done]. intros n Hn. by destruct (b64_char_spec n Hn). }
  rw Ha. by rw a2b_groups.
Qed.
