(* ===== verification/PyVal.v ===== *)
(** * Dynamic Python values

    Values of type [Any]: what a JSON payload, a tool input or a trace record
    holds.  A float carries its value (a rational) and what [repr] prints for
    it; [nan] and the infinities are outside the model. *)

From Stdlib Require Import QArith.
From S2P Require Import Prelude PyStr.

Open Scope Z_scope.

Record pyfloat := PyFloat { f_repr : string; f_val : Q }.

Inductive pyval :=
  | PNone
  | PBool (b : bool)
  | PInt (z : Z)
  | PFloat (f : pyfloat)
  | PStr (s : string)
  | PList (l : list pyval)
  | PDict (d : list (string * pyval)).

(** Induction that reaches the values inside lists and dicts. *)
Section pyval_ind.
Variable P : pyval → Prop.
Hypothesis HNone : P PNone.
Hypothesis HBool : ∀ b, P (PBool b).
Hypothesis HInt : ∀ z, P (PInt z).
Hypothesis HFloat : ∀ f, P (PFloat f).
Hypothesis HStr : ∀ s, P (PStr s).
Hypothesis HList : ∀ l, Forall P l → P (PList l).
Hypothesis HDict : ∀ d : dict pyval, Forall (λ kv, P kv.2) d → P (PDict d).

Fixpoint pyval_nested_ind (v : pyval) : P v :=
  match v with
  | PNone => HNone
  | PBool b => HBool b
  | PInt z => HInt z
  | PFloat f => HFloat f
  | PStr s => HStr s
  | PList l =>
      HList l ((fix go (l : list pyval) : Forall P l :=
        match l with
        | [] => Forall_nil_2 _
        | x :: l' => Forall_cons_2 _ _ _ (pyval_nested_ind x) (go l')
        end) l)
  | PDict d =>
      HDict d ((fix go (d : dict pyval) : Forall (λ kv, P kv.2) d :=
        match d with
        | [] => Forall_nil_2 _
        | (k, x) :: d' => Forall_cons_2 (λ kv, P kv.2) (k, x) d' (pyval_nested_ind x) (go d')
        end) d)
  end.
End pyval_ind.

#[export] Instance pyfloat_eq_dec : EqDecision pyfloat.
Proof. assert (EqDecision Q) by solve_decision. solve_decision. Defined.

Definition item_eq (dec : ∀ v w : pyval, {v = w} + {v ≠ w}) (x y : string * pyval) : {x = y} + {x ≠ y}.
Proof.
  destruct x as [a v], y as [b w].
  destruct (decide (a = b)), (dec v w); first [left; congruence|right; congruence].
Defined.

(** Equality of the model, which tells [1] from [True] and sees the order of a dict. *)
Fixpoint pyval_eq (v w : pyval) {struct v} : {v = w} + {v ≠ w}.
Proof.
  destruct v as [|b|z|x|s|l|d], w as [|b'|z'|x'|s'|l'|d']; try (right; discriminate).
  - by left.
  - destruct (decide (b = b')); [left|right]; congruence.
  - destruct (decide (z = z')); [left|right]; congruence.
  - destruct (decide (x = x')); [left|right]; congruence.
  - destruct (decide (s = s')); [left|right]; congruence.
  - destruct (List.list_eq_dec pyval_eq l l'); [left|right]; congruence.
  - destruct (List.list_eq_dec (item_eq pyval_eq) d d'); [left|right]; congruence.
Defined.

#[export] Instance pyval_eq_dec : EqDecision pyval := pyval_eq.

(** [bool(v)] *)
Definition truthy (v : pyval) : bool :=
  match v with
  | PNone => false
  | PBool b => b
  | PInt z => negb (Z.eqb z 0)
  | PFloat f => negb (Qeq_bool (f_val f) 0)
  | PStr s => str_truthy s
  | PList l => match l with [] => false | _ => true end
  | PDict d => match d with [] => false | _ => true end
  end.

(** [a or b] *)
Definition py_or (a b : pyval) : pyval := if truthy a then a else b.

Definition is_none (v : pyval) : bool := match v with PNone => true | _ => false end.
Definition is_list (v : pyval) : bool := match v with PList _ => true | _ => false end.
Definition is_dict (v : pyval) : bool := match v with PDict _ => true | _ => false end.
Definition as_str (v : pyval) : option string := match v with PStr s => Some s | _ => None end.
Definition as_list (v : pyval) : option (list pyval) := match v with PList l => Some l | _ => None end.
Definition as_dict (v : pyval) : option (dict pyval) := match v with PDict d => Some d | _ => None end.
(** [isinstance(v, int)]: [bool] is a subclass of [int]. *)
Definition as_int (v : pyval) : option Z :=
  match v with PInt z => Some z | PBool b => Some (if b then 1 else 0) | _ => None end.

(** What can be a key of a dict: [hash] refuses lists and dicts. *)
Definition hashable (v : pyval) : bool := match v with PList _ | PDict _ => false | _ => true end.

(** [d.get(k)] *)
Definition dget (k : string) (d : dict pyval) : pyval := dict_get_or PNone k d.

(** [None] or a string, as a dynamic value *)
Definition ostr (s : option string) : pyval := match s with Some s => PStr s | None => PNone end.
Definition pstrs (l : list string) : pyval := PList (map PStr l).
Definition pnat (n : nat) : pyval := PInt (Z.of_nat n).

(** ** [repr] and [str] *)

Definition hex_digit (n : N) : ascii :=
  if N.ltb n 10 then ascii_of_N (48 + n) else ascii_of_N (87 + n).

Definition printable (c : ascii) : bool :=
  in_range 32 126 c || (in_range 161 255 c && negb (N.eqb (code c) 173)).

Definition repr_char (quote : ascii) (c : ascii) : list ascii :=
  if bool_decide (c = quote) || N.eqb (code c) 92 then [ascii_of_N 92; c]
  else if N.eqb (code c) 10 then [ascii_of_N 92; "n"%char]
  else if N.eqb (code c) 13 then [ascii_of_N 92; "r"%char]
  else if N.eqb (code c) 9 then [ascii_of_N 92; "t"%char]
  else if printable c then [c]
  else [ascii_of_N 92; "x"%char; hex_digit (N.div (code c) 16); hex_digit (N.modulo (code c) 16)].

Definition squote_char : ascii := ascii_of_N 39.
Definition dquote_char : ascii := ascii_of_N 34.

Definition repr_str (s : string) : string :=
  let l := chars s in
  let quote := if bool_decide (squote_char ∈ l) && negb (bool_decide (dquote_char ∈ l))
               then dquote_char else squote_char in
  of_chars ([quote] ++ concat (map (repr_char quote) l) ++ [quote]).

Fixpoint py_repr (v : pyval) : string :=
  match v with
  | PNone => "None"
  | PBool b => if b then "True" else "False"
  | PInt z => pretty z
  | PFloat f => f_repr f
  | PStr s => repr_str s
  | PList l => "[" +:+ str_join ", " (map py_repr l) +:+ "]"
  | PDict d =>
      "{" +:+ str_join ", " (map (λ kv, repr_str kv.1 +:+ ": " +:+ py_repr kv.2) d) +:+ "}"
  end.

Definition py_str (v : pyval) : string :=
  match v with PStr s => s | _ => py_repr v end.

(** [str(v or "")] *)
Definition str_or_empty (v : pyval) : string := if truthy v then py_str v else EmptyString.

(** [str(exc)]: [KeyError] shows the [repr] of its argument. *)
Definition exn_str (e : exn) : string :=
  match exc_type e with KeyError => repr_str (exc_msg e) | _ => exc_msg e end.

(** The first of the keys whose value is a string with something besides white
    space, stripped. *)
Fixpoint first_string (data : dict pyval) (keys : list string) : option string :=
  match keys with
  | [] => None
  | key :: keys' =>
      match dget key data with
      | PStr value => if str_truthy (strip value) then Some (strip value) else first_string data keys'
      | _ => first_string data keys'
      end
  end.

(** ** Entity versions: strings or integers *)

Inductive version := VStr (s : string) | VInt (z : Z).

#[export] Instance version_eq_dec : EqDecision version.
Proof. solve_decision. Defined.

Definition version_val (v : version) : pyval :=
  match v with VStr s => PStr s | VInt z => PInt z end.
Definition versions_val (d : dict version) : pyval :=
  PDict (map (λ kv, (kv.1, version_val kv.2)) d).

(** What pydantic accepts where [str | int] is declared: strings, integers, and
    a [bool] or a float without a fractional part, which are stored as integers. *)
Definition as_version (v : pyval) : option version :=
  match v with
  | PStr s => Some (VStr s)
  | PInt z => Some (VInt z)
  | PBool b => Some (VInt (if b then 1 else 0))
  | PFloat f =>
      let n := Qnum (f_val f) in
      let d := Zpos (Qden (f_val f)) in
      if n mod d =? 0 then Some (VInt (n / d)) else None
  | _ => None
  end.

(** ** Time

    An aware datetime is its UTC time in microseconds from the epoch. *)

Abbreviation datetime := Z.

Definition us_per_day : Z := 86400000000.

(** Year, month and day of a day number (proleptic Gregorian calendar). *)
Definition civil_of_days (days : Z) : Z * Z * Z :=
  let z := days + 719468 in
  let era := z / 146097 in
  let doe := z - era * 146097 in
  let yoe := (doe - doe / 1460 + doe / 36524 - doe / 146096) / 365 in
  let doy := doe - (365 * yoe + yoe / 4 - yoe / 100) in
  let mp := (5 * doy + 2) / 153 in
  let d := doy - (153 * mp + 2) / 5 + 1 in
  let m := if mp <? 10 then mp + 3 else mp - 9 in
  let y := yoe + era * 400 + (if m <=? 2 then 1 else 0) in
  (y, m, d).

(** A number padded with zeros to a width. *)
Definition pad_zero (width : nat) (z : Z) : string :=
  let s := pretty z in
  of_chars (replicate (width - str_len s) "0"%char) +:+ s.

(** [dt.isoformat()] *)
Definition isoformat (t : datetime) : string :=
  let '(y, m, d) := civil_of_days (t / us_per_day) in
  let us := t mod us_per_day in
  let sec := us / 1000000 in
  let frac := us mod 1000000 in
  pad_zero 4 y +:+ "-" +:+ pad_zero 2 m +:+ "-" +:+ pad_zero 2 d +:+ "T" +:+
  pad_zero 2 (sec / 3600) +:+ ":" +:+ pad_zero 2 (sec / 60 mod 60) +:+ ":" +:+ pad_zero 2 (sec mod 60) +:+
  (if frac =? 0 then EmptyString else "." +:+ pad_zero 6 frac) +:+ "+00:00".

Example isoformat_epoch_check : isoformat 1709210096000001 = "2024-02-29T12:34:56.000001+00:00".
Proof. vm_compute. reflexivity. Qed.

Example py_str_check :
  py_str (PList [PStr "a'b"; PNone; PBool true; PDict [("k", PInt (-3))]])
  = "[" +:+ dquote +:+ "a'b" +:+ dquote +:+ ", None, True, {'k': -3}]".
Proof. vm_compute. reflexivity. Qed.

(** ** Lemmas *)

Lemma first_string_Some data keys s :
  first_string data keys = Some s →
  str_truthy s = true ∧ strip s = s ∧
  ∃ key raw, key ∈ keys ∧ dget key data = PStr raw ∧ s = strip raw.
Proof.
  induction keys as [|k keys IH]; simpl; [done|].
  assert (Hrec : first_string data keys = Some s →
    str_truthy s = true ∧ strip s = s ∧
    ∃ key raw, key ∈ k :: keys ∧ dget key data = PStr raw ∧ s = strip raw).
  { intros H. destruct (IH H) as (? & ? & key & raw & Hin & ? & ?).
    split_and!; [done..|]. exists key, raw. split_and!; [by right|done..]. }
  destruct (dget k data) eqn:E; auto.
  destruct (str_truthy (strip s0)) eqn:Et; [|by auto].
  intros [= <-]. split_and!; [done|apply strip_idemp|].
  exists k, s0. split_and!; [by left|done..].
Qed.

(** The order of the keys is a priority: a key whose value qualifies wins over
    the keys after it, whatever they hold. *)
Lemma first_string_app data k1 k2 :
  first_string data (k1 ++ k2) =
  match first_string data k1 with Some s => Some s | None => first_string data k2 end.
Proof.
  induction k1 as [|k k1 IH]; simpl; [done|].
  destruct (dget k data); auto. by destruct (str_truthy _).
Qed.
