(* ===== verification/PyUuid.v ===== *)
(** * UUIDs

    The [uuid.UUID] operations the program uses: parsing, printing and the
    name-based [uuid5] with the SHA-1 it rests on.  Words are integers below
    2^32 and bytes integers below 256, wrap-around written out. *)

From S2P Require Import Prelude PyStr.

(** ** Parsing and printing *)

Definition hex_val (c : ascii) : option Z :=
  if in_range 48 57 c then Some (Z.of_N (code c) - 48)
  else if in_range 97 102 c then Some (Z.of_N (code c) - 87)
  else if in_range 65 70 c then Some (Z.of_N (code c) - 55)
  else None.

Definition hex_char (z : Z) : ascii :=
  ascii_of_N (Z.to_N (if z <? 10 then z + 48 else z + 87)).

(** The digits of [int(s, 16)]: single underscores may stand between digits. *)
Fixpoint int16_digits (l : list ascii) (after_digit : bool) (acc : Z) : option Z :=
  match l with
  | [] => if after_digit then Some acc else None
  | c :: l' =>
      match hex_val c with
      | Some v => int16_digits l' true (acc * 16 + v)
      | None => if bool_decide (c = "_"%char) && after_digit
                then int16_digits l' false acc else None
      end
  end.

Definition skip_underscore (l : list ascii) : list ascii :=
  match l with c :: l' => if bool_decide (c = "_"%char) then l' else l | [] => [] end.

Definition int16_prefix (l : list ascii) : list ascii :=
  match l with
  | z :: x :: l' =>
      if bool_decide (z = "0"%char) && (bool_decide (x = "x"%char) || bool_decide (x = "X"%char))
      then skip_underscore l' else l
  | _ => l
  end.

(** [int(s, 16)] for a string without a minus sign. *)
Definition py_int16 (l : list ascii) : option Z :=
  let l := rstrip_of is_space (lstrip_of is_space l) in
  let l := match l with c :: l' => if bool_decide (c = "+"%char) then l' else l | [] => [] end in
  int16_digits (int16_prefix l) false 0.

Definition is_brace (c : ascii) : bool := bool_decide (c = "{"%char) || bool_decide (c = "}"%char).

(** [UUID(s)]: the 128-bit integer, or [None] for [ValueError]. *)
Definition uuid_parse (s : string) : option Z :=
  let hex := str_replace "uuid:" EmptyString (str_replace "urn:" EmptyString s) in
  let hex := chars (str_replace "-" EmptyString (strip_of is_brace hex)) in
  if bool_decide (length hex = 32%nat) then py_int16 hex else None.

(** The low [n] hexadecimal digits, the most significant first. *)
Fixpoint hex_digits (n : nat) (z : Z) : list ascii :=
  match n with
  | O => []
  | S n' => hex_digits n' (z / 16) ++ [hex_char (z mod 16)]
  end.

(** [str(UUID(int=z))] *)
Definition uuid_str (z : Z) : string :=
  let h := hex_digits 32 z in
  of_chars (take 8 h ++ ["-"%char] ++ take 4 (drop 8 h) ++ ["-"%char] ++
            take 4 (drop 12 h) ++ ["-"%char] ++ take 4 (drop 16 h) ++ ["-"%char] ++ drop 20 h).

(** ** SHA-1 *)

Definition word32 (z : Z) : Z := z mod 2 ^ 32.
Definition add32 (a b : Z) : Z := word32 (a + b).
Definition rotl32 (n : Z) (z : Z) : Z :=
  Z.lor (word32 (Z.shiftl z n)) (Z.shiftr z (32 - n)).
Definition not32 (z : Z) : Z := 2 ^ 32 - 1 - z.

Definition be_bytes (n : nat) (z : Z) : list Z :=
  map (λ i, Z.shiftr z (8 * Z.of_nat i) mod 256) (rev (seq 0 n)).
Definition be_value (l : list Z) : Z := foldl (λ acc b, acc * 256 + b) 0 l.

Definition sha1_pad (l : list Z) : list Z :=
  let len := Z.of_nat (length l) in
  l ++ [128] ++ replicate (Z.to_nat ((55 - len) mod 64)) 0 ++ be_bytes 8 (8 * len).

Fixpoint sha1_words (fuel : nat) (l : list Z) : list Z :=
  match fuel, l with
  | S fuel', _ :: _ => be_value (take 4 l) :: sha1_words fuel' (drop 4 l)
  | _, _ => []
  end.

(** The message schedule, newest word first: 16 words extended to 80. *)
Fixpoint sha1_extend (n : nat) (w : list Z) : list Z :=
  match n with
  | O => w
  | S n' =>
      sha1_extend n'
        (rotl32 1 (Z.lxor (Z.lxor (nth 2 w 0) (nth 7 w 0)) (Z.lxor (nth 13 w 0) (nth 15 w 0))) :: w)
  end.

Record sha1_state := Sha1 { sa : Z; sb : Z; sc : Z; sd : Z; se : Z }.

Definition sha1_f (t : nat) (b c d : Z) : Z * Z :=
  if Nat.ltb t 20 then (Z.lor (Z.land b c) (Z.land (not32 b) d), 1518500249)
  else if Nat.ltb t 40 then (Z.lxor b (Z.lxor c d), 1859775393)
  else if Nat.ltb t 60 then (Z.lor (Z.land b c) (Z.lor (Z.land b d) (Z.land c d)), 2400959708)
  else (Z.lxor b (Z.lxor c d), 3395469782).

Fixpoint sha1_rounds (t : nat) (ws : list Z) (s : sha1_state) : sha1_state :=
  match ws with
  | [] => s
  | w :: ws' =>
      let '(f, k) := sha1_f t (sb s) (sc s) (sd s) in
      let tmp := add32 (add32 (add32 (rotl32 5 (sa s)) f) (add32 (se s) k)) w in
      sha1_rounds (S t) ws' (Sha1 tmp (sa s) (rotl32 30 (sb s)) (sc s) (sd s))
  end.

Fixpoint sha1_blocks (fuel : nat) (l : list Z) (s : sha1_state) : sha1_state :=
  match fuel, l with
  | S fuel', _ :: _ =>
      let w := rev (sha1_extend 64 (rev (sha1_words 16 (take 64 l)))) in
      let r := sha1_rounds 0 w s in
      sha1_blocks fuel' (drop 64 l)
        (Sha1 (add32 (sa s) (sa r)) (add32 (sb s) (sb r)) (add32 (sc s) (sc r))
              (add32 (sd s) (sd r)) (add32 (se s) (se r)))
  | _, _ => s
  end.

Definition sha1 (l : list Z) : list Z :=
  let p := sha1_pad l in
  let s := sha1_blocks (length p) p (Sha1 1732584193 4023233417 2562383102 271733878 3285377520) in
  concat (map (be_bytes 4) [sa s; sb s; sc s; sd s; se s]).

(** [s.encode("utf-8")] *)
Definition utf8_char (c : ascii) : list Z :=
  let z := Z.of_N (code c) in
  if z <? 128 then [z] else [192 + z / 64; 128 + z mod 64].
Definition utf8 (s : string) : list Z := concat (map utf8_char (chars s)).

(** [uuid5(ns, name)] *)
Definition uuid5 (ns : Z) (name : string) : Z :=
  let h := be_value (take 16 (sha1 (be_bytes 16 ns ++ utf8 name))) in
  let h := Z.lor (Z.ldiff h (Z.shiftl 49152 48)) (Z.shiftl 32768 48) in
  Z.lor (Z.ldiff h (Z.shiftl 61440 64)) (Z.shiftl 5 76).

Definition NAMESPACE_URL : Z := 143098242483405524118141958906375844040.

#[global] Arguments uuid5 : simpl never.
#[global] Arguments uuid_parse : simpl never.
#[global] Arguments uuid_str : simpl never.

Example uuid5_check :
  uuid_str (uuid5 NAMESPACE_URL "prism-agent:agent-run-sync") = "693e4766-c6d9-5eb9-a3ca-561a225a6f1f".
Proof. vm_compute. reflexivity. Qed.

Example uuid_parse_check :
  option_map uuid_str (uuid_parse "urn:uuid:{6BA7B811-9dad-11d1-80b4-00c04fd430c8}")
  = Some "6ba7b811-9dad-11d1-80b4-00c04fd430c8".
Proof. vm_compute. reflexivity. Qed.

(** ** Printing and parsing are inverse on 128-bit integers *)

Section roundtrip.
Definition is_hex (c : ascii) : Prop := is_Some (hex_val c) ∧ is_space c = false ∧
  c ≠ "+"%char ∧ c ≠ "-"%char ∧ c ≠ "_"%char ∧ c ≠ "x"%char ∧ c ≠ "X"%char ∧
  c ≠ "u"%char ∧ is_brace c = false.

Lemma hex_char_cases z : 0 ≤ z < 16 → is_hex (hex_char z) ∧ hex_val (hex_char z) = Some z.
Proof.
  intros Hz. assert (∃ n, z = Z.of_nat n ∧ (n < 16)%nat) as (n & -> & Hn).
  { exists (Z.to_nat z). lia. }
  do 16 (destruct n as [|n]; [repeat split; try done; vm_compute; eauto|]). lia.
Qed.

Lemma hex_digits_length n z : length (hex_digits n z) = n.
Proof. revert z. induction n as [|n IH]; intros z; simpl; [done|]. rw length_app IH /=. lia. Qed.

Lemma hex_digits_hex n z : Forall is_hex (hex_digits n z).
Proof.
  revert z. induction n as [|n IH]; intros z; simpl; [constructor|].
  apply Forall_app. split; [done|]. repeat constructor; apply hex_char_cases;
    apply Z.mod_pos_bound; lia.
Qed.

Lemma int16_digits_app l1 l2 b acc :
  Forall is_hex l1 → l1 ≠ [] →
  ∃ acc', int16_digits l1 b acc = Some acc' ∧
          int16_digits (l1 ++ l2) b acc = int16_digits l2 true acc'.
Proof.
  revert b acc. induction l1 as [|c l1 IH]; intros b acc Hf Hne; [done|].
  inversion Hf as [|?? [Hc _] Hf']; subst. destruct Hc as [v Hv]. simpl. rw Hv.
  destruct l1 as [|c' l1]; [simpl; eauto|]. by apply IH.
Qed.

Lemma int16_hex_digits n z b acc :
  (0 < n)%nat → int16_digits (hex_digits n z) b acc = Some (acc * 16 ^ Z.of_nat n + z mod 16 ^ Z.of_nat n).
Proof.
  intros Hn. destruct n as [|n]; [lia|]. clear Hn. revert z b acc.
  induction n as [|n IH]; intros z b acc.
  - simpl. destruct (hex_char_cases (z mod 16)) as [_ ->]; [apply Z.mod_pos_bound; lia|].
    simpl. f_equal; lia.
  - change (hex_digits (S (S n)) z) with (hex_digits (S n) (z / 16) ++ [hex_char (z mod 16)]).
    destruct (int16_digits_app (hex_digits (S n) (z / 16)) [hex_char (z mod 16)] b acc)
      as (acc' & H1 & ->); [apply hex_digits_hex| |].
    { intros H%(f_equal length). rw hex_digits_length in H. done. }
    rw IH in H1. injection H1 as <-. simpl.
    destruct (hex_char_cases (z mod 16)) as [_ ->]; [apply Z.mod_pos_bound; lia|].
    f_equal. rw !(Nat2Z.inj_succ (S n)) Z.pow_succ_r; [lia|].
    set (p := 16 ^ Z.of_nat (S n)). assert (Hp : 0 < p) by (apply Z.pow_pos_nonneg; lia).
    rw Z.rem_mul_r; [lia..|]. lia.
Qed.

Lemma replace_id fuel p r l :
  (∀ c, hd_error p = Some c → c ∉ l) → p ≠ [] → replace_chars fuel p r l = l.
Proof.
  revert l. induction fuel as [|fuel IH]; intros [|x l] Hc Hp; try done.
  destruct p as [|c p]; [done|]. simpl. specialize (Hc c eq_refl) as Hc'.
  rw bool_decide_eq_false_2 /=; [intros ->; apply Hc'; by left|].
  rw IH //. intros c' [= <-] Hin. apply Hc'. by right.
Qed.

Definition not_dash (c : ascii) : bool := negb (bool_decide (c = "-"%char)).

Lemma replace_dash fuel l :
  (length l ≤ fuel)%nat → replace_chars fuel ["-"%char] [] l = List.filter not_dash l.
Proof.
  revert l. induction fuel as [|fuel IH]; intros [|x l] Hl; simpl in *; try done; try lia.
  unfold not_dash at 1. destruct (decide (x = "-"%char)) as [->|Hx]; simpl.
  - apply IH. lia.
  - rw (bool_decide_eq_false_2 ("-"%char = x)); [congruence|].
    rw (bool_decide_eq_false_2 (x = "-"%char)) //=. f_equal. apply IH. lia.
Qed.

Lemma hex_not_dash l : Forall is_hex l → List.filter not_dash l = l.
Proof.
  induction 1 as [|c l (_ & _ & _ & Hc & _) _ IH]; simpl; [done|].
  unfold not_dash at 1. rw bool_decide_eq_false_2 //=. by f_equal.
Qed.

Lemma uuid_chars_undash (z : Z) : List.filter not_dash (chars (uuid_str z)) = hex_digits 32 z.
Proof.
  unfold uuid_str. rw chars_of_chars. pose proof (hex_digits_hex 32 z) as Hh.
  pose proof (hex_digits_length 32 z) as Hlen.
  set (h := hex_digits 32 z) in *. clearbody h.
  rw !List.filter_app !(hex_not_dash (take _ _)); try by auto using Forall_take, Forall_drop.
  rw (hex_not_dash (drop _ _)); [by apply Forall_drop|].
  change (List.filter not_dash ["-"%char]) with (@nil ascii). clear Hh.
  do 32 (destruct h as [|? h]; [done|]). by destruct h.
Qed.

Lemma drop_while_none {A} (p : A → bool) l : Forall (λ c, p c = false) l → drop_while p l = l.
Proof. by intros [|c l' Hc Hl]; simpl; [|rw Hc]. Qed.

Lemma strip_none p l : Forall (λ c, p c = false) l → rstrip_of p (lstrip_of p l) = l.
Proof.
  intros Hl. unfold rstrip_of, lstrip_of. rw (drop_while_none p l) //.
  rw drop_while_none; [by apply Forall_reverse|]. apply reverse_involutive.
Qed.

Lemma uuid_str_chars_ok (z : Z) :
  Forall (λ c, c ≠ "u"%char ∧ is_brace c = false) (chars (uuid_str z)).
Proof.
  unfold uuid_str. rw chars_of_chars.
  assert (Hh : Forall (λ c, c ≠ "u"%char ∧ is_brace c = false) (hex_digits 32 z)).
  { eapply Forall_impl; [apply hex_digits_hex|]. unfold is_hex. naive_solver. }
  assert (Hd : Forall (λ c, c ≠ "u"%char ∧ is_brace c = false) ["-"%char]) by by repeat constructor.
  repeat (apply Forall_app; split); auto using Forall_take, Forall_drop.
Qed.

Lemma py_int16_hex n z :
  (0 < n)%nat → py_int16 (hex_digits n z) = Some (z mod 16 ^ Z.of_nat n).
Proof.
  intros Hn. unfold py_int16. pose proof (hex_digits_hex n z) as Hh.
  rw strip_none; [eapply Forall_impl; [apply Hh|]; unfold is_hex; naive_solver|].
  pose proof (int16_hex_digits n z false 0 Hn) as Hi.
  destruct (hex_digits n z) as [|c l] eqn:E; [done|].
  inversion Hh as [|?? Hc Hl]; subst. unfold is_hex in Hc.
  rw bool_decide_eq_false_2; [naive_solver|].
  replace (int16_prefix (c :: l)) with (c :: l); [by rw Hi|].
  destruct l as [|x l]; [done|]. inversion Hl as [|?? Hx _]; subst. unfold is_hex in Hx.
  simpl. rw (bool_decide_eq_false_2 (x = "x"%char)); [naive_solver|].
  rw (bool_decide_eq_false_2 (x = "X"%char)); [naive_solver|]. by rw andb_false_r.
Qed.

Lemma str_replace_id p r s c p' :
  chars p = c :: p' → c ∉ chars s → str_replace p r s = s.
Proof.
  intros Hp Hc. unfold str_replace. rw replace_id; [|by rw Hp|apply of_chars_chars].
  rw Hp. by intros ? [= <-].
Qed.

Lemma uuid_parse_str z : 0 ≤ z < 2 ^ 128 → uuid_parse (uuid_str z) = Some z.
Proof.
  intros Hz. pose proof (uuid_str_chars_ok z) as Hok.
  assert (Hu : "u"%char ∉ chars (uuid_str z)).
  { intros Hin. rw Forall_forall in Hok. by apply Hok in Hin as [? _]. }
  unfold uuid_parse. rw (str_replace_id "urn:" _ _ "u"%char (chars "rn:") eq_refl Hu).
  rw (str_replace_id "uuid:" _ _ "u"%char (chars "uid:") eq_refl Hu).
  unfold strip_of. rw strip_none; [eapply Forall_impl; [apply Hok|]; naive_solver|].
  rw of_chars_chars. unfold str_replace.
  change (chars "-") with ["-"%char]. change (chars EmptyString) with (@nil ascii).
  rw chars_of_chars replace_dash; [lia|]. rw uuid_chars_undash hex_digits_length.
  rw bool_decide_eq_true_2; [done|].
  rw py_int16_hex; [lia|]. change (16 ^ Z.of_nat 32) with (2 ^ 128).
  f_equal. by apply Z.mod_small.
Qed.
End roundtrip.

(** ** Every UUID the functions return fits in 128 bits *)

Section bounds.
Lemma hex_val_bound c v : hex_val c = Some v → 0 ≤ v < 16.
Proof.
  unfold hex_val. unfold in_range.
  destruct (_ && _) eqn:E1; [apply andb_true_iff in E1 as [H1%N.leb_le H2%N.leb_le]; intros [= <-]; lia|].
  destruct (N.leb 97 _ && _) eqn:E2; [apply andb_true_iff in E2 as [H1%N.leb_le H2%N.leb_le]; intros [= <-]; lia|].
  destruct (N.leb 65 _ && _) eqn:E3; [apply andb_true_iff in E3 as [H1%N.leb_le H2%N.leb_le]; intros [= <-]; lia|].
  done.
Qed.

Lemma int16_digits_bound l b acc z :
  0 ≤ acc → int16_digits l b acc = Some z → 0 ≤ z < (acc + 1) * 16 ^ Z.of_nat (length l).
Proof.
  revert b acc. induction l as [|c l IH]; intros b acc Hacc; simpl int16_digits.
  - destruct b; [|done]. intros [= <-]. simpl. lia.
  - assert (Hpow : 16 ^ Z.of_nat (length (c :: l)) = 16 * 16 ^ Z.of_nat (length l)).
    { simpl length. rw Nat2Z.inj_succ Z.pow_succ_r; lia. }
    pose proof (Z.pow_nonneg 16 (Z.of_nat (length l)) ltac:(lia)) as Hp. rw Hpow.
    destruct (hex_val c) as [v|] eqn:Ev.
    + apply hex_val_bound in Ev. intros H%IH; [|lia]. nia.
    + destruct (bool_decide _ && b); [|done]. intros H%IH; [|lia]. nia.
Qed.

Lemma drop_while_length {A} (p : A → bool) l : (length (drop_while p l) ≤ length l)%nat.
Proof. induction l as [|x l IH]; simpl; [done|]. destruct (p x); simpl; lia. Qed.

Lemma py_int16_bound l z : py_int16 l = Some z → 0 ≤ z < 16 ^ Z.of_nat (length l).
Proof.
  unfold py_int16. set (l1 := rstrip_of is_space (lstrip_of is_space l)).
  assert (H1 : (length l1 ≤ length l)%nat).
  { unfold l1, rstrip_of, lstrip_of. rw length_reverse.
    etrans; [apply drop_while_length|]. rw length_reverse. apply drop_while_length. }
  set (l2 := match l1 with c :: l' => if bool_decide (c = "+"%char) then l' else l1 | [] => [] end).
  assert (H2 : (length l2 ≤ length l1)%nat).
  { unfold l2. destruct l1; simpl; [lia|]. case_bool_decide; simpl; lia. }
  assert (H3 : (length (int16_prefix l2) ≤ length l2)%nat).
  { unfold int16_prefix. destruct l2 as [|z0 [|x l']]; simpl; [lia..|].
    destruct (_ && _); simpl; [|lia]. destruct l' as [|u l']; simpl; [lia|]. case_bool_decide; simpl; lia. }
  intros H%int16_digits_bound; [|lia]. split; [lia|]. eapply Z.lt_le_trans; [apply H|].
  rw Z.mul_1_l. apply Z.pow_le_mono_r; lia.
Qed.

Lemma uuid_parse_bound s z : uuid_parse s = Some z → 0 ≤ z < 2 ^ 128.
Proof.
  unfold uuid_parse. case_bool_decide as Hl; [|done]. intros H%py_int16_bound. rw Hl in H.
  by change (16 ^ Z.of_nat 32) with (2 ^ 128) in H.
Qed.

Lemma bits_bound n z : 0 ≤ n → 0 ≤ z → (∀ m, n ≤ m → Z.testbit z m = false) → z < 2 ^ n.
Proof.
  intros Hn Hz Hb. assert (z = z mod 2 ^ n) as ->; [|apply Z.mod_pos_bound; lia].
  apply Z.bits_inj'. intros m Hm. destruct (decide (m < n)).
  - by rw Z.mod_pow2_bits_low.
  - rw Z.mod_pow2_bits_high; [lia|]. apply Hb. lia.
Qed.

Lemma bound_bits n z m : 0 ≤ z < 2 ^ n → 0 ≤ n ≤ m → Z.testbit z m = false.
Proof.
  intros Hz Hm. rw -(Z.mod_small z (2 ^ n)) //. apply Z.mod_pow2_bits_high. lia.
Qed.

Lemma lor_bound n a b : 0 ≤ n → 0 ≤ a < 2 ^ n → 0 ≤ b < 2 ^ n → 0 ≤ Z.lor a b < 2 ^ n.
Proof.
  intros Hn Ha Hb. assert (0 ≤ Z.lor a b) by (apply Z.lor_nonneg; lia). split; [done|].
  apply bits_bound; [done..|]. intros m Hm. rw Z.lor_spec (bound_bits n a) // (bound_bits n b) //; lia.
Qed.

Lemma ldiff_bound n a b : 0 ≤ n → 0 ≤ a < 2 ^ n → 0 ≤ Z.ldiff a b < 2 ^ n.
Proof.
  intros Hn Ha. assert (0 ≤ Z.ldiff a b) by (apply Z.ldiff_nonneg; lia). split; [done|].
  apply bits_bound; [done..|]. intros m Hm. rw Z.ldiff_spec (bound_bits n a) //; lia.
Qed.

Definition bytes (l : list Z) : Prop := Forall (λ b, 0 ≤ b < 256) l.

Lemma be_value_bound l acc :
  bytes l → 0 ≤ acc → 0 ≤ foldl (λ acc b, acc * 256 + b) acc l < (acc + 1) * 256 ^ Z.of_nat (length l).
Proof.
  intros Hl. revert acc. induction Hl as [|b l Hb Hl IH]; intros acc Hacc.
  - cbn [foldl length]. change (256 ^ Z.of_nat 0) with 1. lia.
  - cbn [foldl length]. specialize (IH (acc * 256 + b) ltac:(lia)).
    rw Nat2Z.inj_succ Z.pow_succ_r; [lia|].
    pose proof (Z.pow_nonneg 256 (Z.of_nat (length l)) ltac:(lia)). nia.
Qed.

Lemma be_bytes_bytes n z : bytes (be_bytes n z).
Proof.
  unfold bytes, be_bytes. apply Forall_forall. intros b (i & -> & _)%list_elem_of_fmap.
  apply Z.mod_pos_bound. lia.
Qed.

Lemma sha1_bytes l : bytes (sha1 l).
Proof.
  unfold sha1, bytes. cbn [map concat].
  repeat (apply Forall_app; split); try apply be_bytes_bytes. constructor.
Qed.

Lemma uuid5_bound ns name : 0 ≤ uuid5 ns name < 2 ^ 128.
Proof.
  unfold uuid5. set (h := be_value _).
  assert (Hh : 0 ≤ h < 2 ^ 128).
  { unfold h, be_value. set (l := take 16 _).
    assert (Hb : bytes l) by (apply Forall_take, sha1_bytes).
    pose proof (be_value_bound l 0 Hb ltac:(lia)) as [? Hlt]. split; [done|].
    eapply Z.lt_le_trans; [exact Hlt|]. change (2 ^ 128) with ((0 + 1) * 256 ^ 16).
    apply Z.mul_le_mono_nonneg_l; [lia|]. apply Z.pow_le_mono_r; [lia|].
    unfold l. rw length_take. lia. }
  repeat (apply lor_bound || apply ldiff_bound); try lia; done.
Qed.
End bounds.
