(* ===== verification/DateTime.v ===== *)
(** * Dates and times: [datetime.fromisoformat]

    The reader of ISO 8601 texts of CPython 3.11 ([Modules/_datetimemodule.c]),
    which [src/domain/backlog.py] uses for the dates of work items.  It works on the
    UTF-8 bytes of the text; a position past the end reads as zero.  The round trip
    with [isoformat] is the theorem of the file. *)

From S2P Require Import Prelude PyStr PyVal PyUuid.
Open Scope Z_scope.

(** ** The calendar *)

Definition is_leap (y : Z) : bool := (y mod 4 =? 0) && (negb (y mod 100 =? 0) || (y mod 400 =? 0)).
Definition days_in_month (y m : Z) : Z :=
  if m =? 2 then (if is_leap y then 29 else 28)
  else if (m =? 4) || (m =? 6) || (m =? 9) || (m =? 11) then 30 else 31.

(** The day number of a date: the days from 1970-01-01. *)
Definition days_of_civil (y m d : Z) : Z :=
  let y' := if m <=? 2 then y - 1 else y in
  let era := y' / 400 in
  let yoe := y' - era * 400 in
  let mp := if m <=? 2 then m + 9 else m - 3 in
  let doy := (153 * mp + 2) / 5 + d - 1 in
  era * 146097 + (365 * yoe + yoe / 4 - yoe / 100 + doy) - 719468.

(** Monday is 0; 1970-01-01 was a Thursday. *)
Definition weekday (days : Z) : Z := (days + 3) mod 7.

(** The Monday of the first ISO week of a year. *)
Definition iso_week1_monday (y : Z) : Z :=
  let first_day := days_of_civil y 1 1 in
  let first_weekday := weekday first_day in
  let monday := first_day - first_weekday in
  if 3 <? first_weekday then monday + 7 else monday.

(** [iso_to_ymd]: the day number of a week date. *)
Definition iso_to_day (y week day : Z) : option Z :=
  if negb ((1 <=? y) && (y <=? 9999)) then None
  else
    let first_weekday := weekday (days_of_civil y 1 1) in
    let has_53 := (first_weekday =? 3) || ((first_weekday =? 2) && is_leap y) in
    if negb ((1 <=? week) && ((week <=? 52) || ((week =? 53) && has_53))) then None
    else if negb ((1 <=? day) && (day <=? 7)) then None
    else Some (iso_week1_monday y + (week * 7 + day - 8)).

(** ** The reader *)

Definition byte_at (l : list Z) (i : nat) : Z := nth i l 0.
Definition digit_byte (b : Z) : bool := (48 <=? b) && (b <=? 57).

(** [parse_digits] *)
Fixpoint parse_digits (n : nat) (l : list Z) (acc : Z) : option (Z * list Z) :=
  match n with
  | O => Some (acc, l)
  | Datatypes.S n' => if digit_byte (byte_at l 0) then parse_digits n' (drop 1 l) (acc * 10 + (byte_at l 0 - 48)) else None
  end.

(** [_find_isoformat_datetime_separator]; [None] for its -1, with which no date can be read. *)
Fixpoint digit_run (l : list Z) : nat :=
  match l with b :: l' => if digit_byte b then Datatypes.S (digit_run l') else O | [] => O end.

Definition find_isoformat_datetime_separator (l : list Z) : option nat :=
  if bool_decide (length l = 7%nat) then Some 7%nat
  else if byte_at l 4 =? 45 then
    if byte_at l 5 =? 87 then
      if bool_decide (8 < length l)%nat && (byte_at l 8 =? 45) then
        if bool_decide (length l = 9%nat) then None
        else if bool_decide (10 < length l)%nat && digit_byte (byte_at l 10) then Some 8%nat else Some 10%nat
      else Some 8%nat
    else Some 10%nat
  else if byte_at l 4 =? 87 then
    let pos := (7 + digit_run (drop 7 l))%nat in
    if bool_decide (pos < 9)%nat then Some pos
    else if Nat.even pos then Some 7%nat else Some 8%nat
  else Some 8%nat.

(** [parse_isoformat_date] on the first [len] bytes, and the checks of the constructor. *)
Definition parse_isoformat_date (l : list Z) (len : nat) : option Z :=
  '(y, p) ← parse_digits 4 l 0;
  let uses_separator := byte_at p 0 =? 45 in
  let p := if uses_separator then drop 1 p else p in
  if byte_at p 0 =? 87 then
    '(week, p) ← parse_digits 2 (drop 1 p) 0;
    if bool_decide ((if uses_separator then 8 else 7) < len)%nat then
      if uses_separator && negb (byte_at p 0 =? 45) then None
      else
        '(day, _) ← parse_digits 1 (if uses_separator then drop 1 p else p) 0;
        iso_to_day y week day
    else iso_to_day y week 1
  else
    '(m, p) ← parse_digits 2 p 0;
    if uses_separator && negb (byte_at p 0 =? 45) then None
    else
      '(d, _) ← parse_digits 2 (if uses_separator then drop 1 p else p) 0;
      if (1 <=? y) && (1 <=? m) && (m <=? 12) && (1 <=? d) && (d <=? days_in_month y m)
      then Some (days_of_civil y m d) else None.

(** A time of the day; whether text is left after it. *)
Record clock_time := { ct_hour : Z; ct_minute : Z; ct_second : Z; ct_us : Z }.

Definition ct_set (i : nat) (v : Z) (t : clock_time) : clock_time :=
  match i with
  | O => {| ct_hour := v; ct_minute := ct_minute t; ct_second := ct_second t; ct_us := ct_us t |}
  | 1%nat => {| ct_hour := ct_hour t; ct_minute := v; ct_second := ct_second t; ct_us := ct_us t |}
  | _ => {| ct_hour := ct_hour t; ct_minute := ct_minute t; ct_second := v; ct_us := ct_us t |}
  end.

(** The fraction: at most six digits count; [n] bytes are left. *)
Definition parse_fraction (l : list Z) (n : nat) (t : clock_time) : option (clock_time * bool) :=
  let to_parse := Nat.min n 6 in
  '(us, p) ← parse_digits to_parse l 0;
  let p := drop (digit_run p) p in
  Some ({| ct_hour := ct_hour t; ct_minute := ct_minute t; ct_second := ct_second t;
           ct_us := us * 10 ^ (6 - Z.of_nat to_parse) |},
        negb (byte_at p 0 =? 0)).

(** [parse_hh_mm_ss_ff]: the loop from component [i] on; [n] bytes are left of the text. *)
Fixpoint parse_components (i : nat) (todo : nat) (has_separator : bool) (l : list Z) (n : nat) (t : clock_time) :
    option (clock_time * bool) :=
  match todo with
  | O => parse_fraction l n t
  | Datatypes.S todo' =>
      '(v, p) ← parse_digits 2 l 0;
      let t := ct_set i v t in
      let c := byte_at p 0 in
      let has_separator := match i with O => c =? 58 | _ => has_separator end in
      if bool_decide (n <= 3)%nat then Some (t, negb (c =? 0))
      else if has_separator && (c =? 58) then parse_components (Datatypes.S i) todo' has_separator (drop 1 p) (n - 3) t
      else if (c =? 46) || (c =? 44) then parse_fraction (drop 1 p) (n - 3) t
      else if negb has_separator then parse_components (Datatypes.S i) todo' has_separator p (n - 2) t
      else None
  end.

Definition parse_hh_mm_ss_ff (l : list Z) (n : nat) : option (clock_time * bool) :=
  parse_components 0 3 true l n {| ct_hour := 0; ct_minute := 0; ct_second := 0; ct_us := 0 |}.

Fixpoint tz_position (l : list Z) : nat :=
  match l with
  | b :: l' => if (b =? 43) || (b =? 45) || (b =? 90) then O else Datatypes.S (tz_position l')
  | [] => O
  end.

(** [parse_isoformat_time]: the time and the offset from UTC in microseconds;
    a text without an offset counts as UTC ([parsed.replace(tzinfo=UTC)]). *)
Definition parse_isoformat_time (l : list Z) : option (clock_time * Z) :=
  let n := tz_position l in
  '(t, more) ← parse_hh_mm_ss_ff l n;
  if bool_decide (n = length l) then if (more : bool) then None else Some (t, 0)
  else if byte_at l n =? 90 then if byte_at l (n + 1) =? 0 then Some (t, 0) else None
  else
    let p := drop (n + 1) l in
    '(z, more) ← parse_hh_mm_ss_ff p (length p);
    if (more : bool) then None
    else
      let seconds := ct_hour z * 3600 + ct_minute z * 60 + ct_second z in
      let offset := if seconds =? 0 then 0 else seconds * 1000000 + ct_us z in
      if offset <? us_per_day then Some (t, if byte_at l n =? 45 then - offset else offset) else None.

(** The bytes of the separator. *)
Definition separator_bytes (b : Z) : nat :=
  (if (b <? 128)%Z then 1 else if (b / 16 =? 14)%Z then 3 else if (b / 16 =? 15)%Z then 4 else 2)%nat.

(** [datetime.fromisoformat(s)], the UTC time of the result. *)
Definition fromisoformat (s : string) : option datetime :=
  let l := utf8 s in
  if bool_decide (length l < 7)%nat then None
  else
    sep ← find_isoformat_datetime_separator l;
    days ← parse_isoformat_date l sep;
    if bool_decide (length l <= sep)%nat then Some (days * us_per_day)
    else
      '(t, offset) ← parse_isoformat_time (drop (sep + separator_bytes (byte_at l sep)) l);
      if (ct_hour t <=? 23) && (ct_minute t <=? 59) && (ct_second t <=? 59)
      then Some (days * us_per_day + ((ct_hour t * 3600 + ct_minute t * 60 + ct_second t) * 1000000 + ct_us t) - offset)
      else None.

Example fromisoformat_texts :
  fromisoformat "2024-02-29T12:34:56.000001+00:00" = Some 1709210096000001 ∧
  fromisoformat "2020-W53-5 01" = fromisoformat "2021-01-01T01:00" ∧ fromisoformat "20210101T010203,5+0530" = Some 1609443123500000 ∧
  fromisoformat "2021-02-29" = None ∧ fromisoformat "2021-02-28T24:00" = None ∧ fromisoformat "tomorrow" = None.
Proof. split_and!; vm_compute; reflexivity. Qed.

(** ** The calendar and its inverse *)

Lemma is_leap_spec y : is_leap y = true ↔ (y mod 4 = 0 ∧ (y mod 100 ≠ 0 ∨ y mod 400 = 0)).
Proof. unfold is_leap. rw andb_true_iff orb_true_iff negb_true_iff !Z.eqb_eq Z.eqb_neq. done. Qed.

(** A day of an era of 400 years lies in one of its years. *)
Lemma year_of_era doe :
  0 ≤ doe < 146097 →
  let yoe := (doe - doe / 1460 + doe / 36524 - doe / 146096) / 365 in
  let doy := doe - (365 * yoe + yoe / 4 - yoe / 100) in
  0 ≤ yoe < 400 ∧ 0 ≤ doy ≤ 365 ∧ (doy = 365 → (yoe + 1) mod 4 = 0 ∧ ((yoe + 1) mod 100 ≠ 0 ∨ yoe = 399)).
Proof.
  intros H yoe doy. unfold doy, yoe. clear yoe doy. split_and!; try (Z.to_euclidean_division_equations; lia).
Qed.

Lemma month_of_year doy :
  0 ≤ doy ≤ 365 →
  let mp := (5 * doy + 2) / 153 in
  let d := doy - (153 * mp + 2) / 5 + 1 in
  0 ≤ mp ≤ 11 ∧ 1 ≤ d ≤ 31 ∧ (mp = 1 ∨ mp = 3 ∨ mp = 6 ∨ mp = 8 → d ≤ 30) ∧ (mp = 11 → d ≤ 29 ∧ (d = 29 → doy = 365)).
Proof.
  intros H mp d. unfold d, mp. clear mp d.
  assert (0 ≤ (5 * doy + 2) / 153 ≤ 11) by (Z.to_euclidean_division_equations; lia).
  split_and!; [lia|lia|Z.to_euclidean_division_equations; lia..| |]; intros Hmp.
  - destruct Hmp as [E|[E|[E|E]]]; rw E; Z.to_euclidean_division_equations; lia.
  - rw Hmp. Z.to_euclidean_division_equations; lia.
Qed.

(** The date of a day is a date of the calendar, and names that day. *)
Lemma civil_of_days_valid days :
  let '(y, m, d) := civil_of_days days in
  1 ≤ m ≤ 12 ∧ 1 ≤ d ≤ days_in_month y m ∧ days_of_civil y m d = days.
Proof.
  unfold civil_of_days. set (z := days + 719468). set (era := z / 146097). set (doe := z - era * 146097).
  assert (Hdoe : 0 ≤ doe < 146097) by (unfold doe, era; pose proof (Z.div_mod z 146097); pose proof (Z.mod_pos_bound z 146097); lia).
  assert (Hz : z = era * 146097 + doe) by (unfold doe; lia). clearbody doe era.
  pose proof (year_of_era doe Hdoe) as Hy. cbv zeta in Hy.
  set (yoe := (doe - doe / 1460 + doe / 36524 - doe / 146096) / 365) in *.
  set (doy := doe - (365 * yoe + yoe / 4 - yoe / 100)) in *.
  assert (Hdoy : doe = 365 * yoe + yoe / 4 - yoe / 100 + doy) by (unfold doy; lia). clearbody yoe doy.
  destruct Hy as (Hyoe & Hdoy' & Hleap). pose proof (month_of_year doy Hdoy') as Hm. cbv zeta in Hm.
  set (mp := (5 * doy + 2) / 153) in *. set (d := doy - (153 * mp + 2) / 5 + 1) in *.
  assert (Hd : doy = (153 * mp + 2) / 5 + d - 1) by (unfold d; lia). clearbody mp d.
  destruct Hm as (Hmp & Hd31 & Hd30 & Hd29).
  assert (Hera : (yoe + era * 400) / 400 = era) by (rw Z.div_add; [done|]; rw Z.div_small; lia).
  set (m := if mp <? 10 then mp + 3 else mp - 9).
  assert (Hm : 1 ≤ m ≤ 12 ∧ (if m <=? 2 then m + 9 else m - 3) = mp ∧
    (m = 2 → mp = 11) ∧ (m = 4 ∨ m = 6 ∨ m = 9 ∨ m = 11 → mp = 1 ∨ mp = 3 ∨ mp = 6 ∨ mp = 8)).
  { unfold m. destruct (Z.ltb_spec mp 10); [destruct (Z.leb_spec (mp + 3) 2)|destruct (Z.leb_spec (mp - 9) 2)];
      split_and!; lia. }
  clearbody m. destruct Hm as (Hm & Hmp' & Hm2 & Hm30). split_and!; [lia..| | ].
  - unfold days_in_month. destruct (Z.eqb_spec m 2) as [E|E].
    + destruct Hd29 as [? Hd29]; [auto|]. destruct (is_leap _) eqn:El; [lia|].
      assert (d ≠ 29); [|lia]. intros ->. apply not_true_iff_false in El. apply El, is_leap_spec.
      destruct (Hleap (Hd29 eq_refl)) as [H4 H100]. rw E. change (2 <=? 2) with true. cbn iota.
      clear -H4 H100 Hyoe. Z.to_euclidean_division_equations; lia.
    + destruct (_ || _) eqn:E4; [|lia].
      apply Hd30, Hm30. rw !orb_true_iff !Z.eqb_eq in E4. tauto.
  - unfold days_of_civil. rw Hmp'.
    replace (if m <=? 2 then yoe + era * 400 + (if m <=? 2 then 1 else 0) - 1
             else yoe + era * 400 + (if m <=? 2 then 1 else 0)) with (yoe + era * 400)
      by (destruct (m <=? 2); lia).
    rw Hera. replace (yoe + era * 400 - era * 400) with yoe by lia. unfold z in Hz. lia.
Qed.

Definition MIN_DAY : Z := -719162.
Definition MAX_DAY : Z := 2932896.

Lemma civil_of_days_year days :
  MIN_DAY ≤ days ≤ MAX_DAY → 1 ≤ (civil_of_days days).1.1 ≤ 9999.
Proof.
  intros H. pose proof (civil_of_days_valid days) as Hv. destruct (civil_of_days days) as [[y m] d].
  destruct Hv as (Hm & Hd & Hy). simpl. unfold days_of_civil in Hy. unfold MIN_DAY, MAX_DAY in H.
  assert (Hd31 : 1 ≤ d ≤ 31) by (unfold days_in_month in Hd; destruct (m =? 2), (is_leap y), ((m =? 4) || (m =? 6) || (m =? 9) || (m =? 11)); lia).
  clear Hd. set (y' := if m <=? 2 then y - 1 else y) in *. set (mp := if m <=? 2 then m + 9 else m - 3) in *.
  assert (y' = y ∧ mp ≤ 9 ∨ y' = y - 1 ∧ 10 ≤ mp) by (unfold y', mp; destruct (Z.leb_spec m 2); lia).
  assert (0 ≤ mp ≤ 11) by (unfold mp; destruct (Z.leb_spec m 2); lia). clearbody y' mp.
  assert (Hdoy : 0 ≤ (153 * mp + 2) / 5 ≤ 337 ∧ (mp ≤ 9 → (153 * mp + 2) / 5 ≤ 275) ∧ (10 ≤ mp → 306 ≤ (153 * mp + 2) / 5))
    by (Z.to_euclidean_division_equations; lia).
  set (doy := (153 * mp + 2) / 5) in *. clearbody doy. set (era := y' / 400) in *.
  assert (Hyoe : 0 ≤ y' - era * 400 < 400) by (unfold era; Z.to_euclidean_division_equations; lia).
  set (yoe := y' - era * 400) in *. assert (y' = era * 400 + yoe) by (unfold yoe; lia). clearbody yoe era.
  assert (Hq : 0 ≤ yoe / 4 - yoe / 100 ≤ 96 ∧ (yoe = 0 → yoe / 4 - yoe / 100 = 0) ∧ (yoe = 399 → yoe / 4 - yoe / 100 = 96))
    by (Z.to_euclidean_division_equations; lia).
  lia.
Qed.

(** ** Digits *)

(** The last [n] decimal digits of a number, as bytes. *)
Fixpoint fixed (n : nat) (z : Z) : list Z :=
  match n with O => [] | Datatypes.S n' => fixed n' (z / 10) ++ [48 + z mod 10] end.

Definition digits (l : list Z) : Prop := Forall (λ b, digit_byte b = true) l.

Lemma fixed_length n z : length (fixed n z) = n.
Proof. revert z. induction n as [|n IH]; intros z; simpl; [done|]. rw length_app IH. simpl. lia. Qed.

Lemma digit_byte_mod z : digit_byte (48 + z mod 10) = true.
Proof. unfold digit_byte. pose proof (Z.mod_pos_bound z 10). rw andb_true_iff !Z.leb_le. lia. Qed.

Lemma fixed_digits n z : digits (fixed n z).
Proof.
  revert z. induction n as [|n IH]; intros z; simpl; [constructor|].
  apply Forall_app. split; [apply IH|]. constructor; [apply digit_byte_mod|constructor].
Qed.

Lemma parse_digits_app l r acc :
  digits l → parse_digits (length l) (l ++ r) acc = Some (foldl (λ a b, a * 10 + (b - 48)) acc l, r).
Proof.
  intros Hl. revert acc. induction Hl as [|b l Hb _ IH]; intros acc; simpl; [done|].
  change (byte_at (b :: l ++ r) 0) with b. rw Hb. change (drop 0 ?l) with l. apply IH.
Qed.

Lemma fixed_value n z : 0 ≤ z < 10 ^ Z.of_nat n → foldl (λ a b, a * 10 + (b - 48)) 0 (fixed n z) = z.
Proof.
  revert z. induction n as [|n IH]; intros z Hz; [simpl in *; lia|].
  rw Nat2Z.inj_succ Z.pow_succ_r in Hz; [lia|]. cbn [fixed]. rw foldl_app. cbn [foldl].
  rw IH; pose proof (Z.div_mod z 10); pose proof (Z.mod_pos_bound z 10); [|lia].
  split; [lia|]. apply Z.div_lt_upper_bound; lia.
Qed.

Lemma parse_fixed n z r : 0 ≤ z < 10 ^ Z.of_nat n → parse_digits n (fixed n z ++ r) 0 = Some (z, r).
Proof.
  intros Hz. pose proof (parse_digits_app (fixed n z) r 0 (fixed_digits n z)) as H.
  by rw fixed_length fixed_value in H.
Qed.

Lemma utf8_app a b : utf8 (a +:+ b) = utf8 a ++ utf8 b.
Proof. unfold utf8. by rw chars_app map_app concat_app. Qed.

Lemma utf8_digit n : (n < 10)%N → utf8_char (pretty_N_char n) = [48 + Z.of_N n].
Proof.
  intros H. assert (n = 0 ∨ n = 1 ∨ n = 2 ∨ n = 3 ∨ n = 4 ∨ n = 5 ∨ n = 6 ∨ n = 7 ∨ n = 8 ∨ n = 9)%N
    as Hn by lia. by repeat (destruct Hn as [->|Hn]; [done|]); subst.
Qed.

Lemma pretty_go_app x s : utf8 (pretty_N_go x s) = utf8 (pretty_N_go x "") ++ utf8 s.
Proof.
  revert s. induction (N.lt_wf_0 x) as [x _ IH]; intros s.
  destruct (decide (x = 0)%N) as [->|Hx]; [by rw !pretty_N_go_0|].
  assert (Hlt : (x `div` 10 < x)%N) by (apply N.div_lt; lia).
  rw (pretty_N_go_step x s); [lia|]. rw (pretty_N_go_step x ""); [lia|].
  rw (IH _ Hlt (String _ s)). rw (IH _ Hlt (String _ "")).
  rw -(app_assoc (utf8 (pretty_N_go (x `div` 10) ""))). f_equal.
  change (utf8 (String ?c ?t)) with (utf8_char c ++ utf8 t). by rw app_nil_r.
Qed.

Lemma fixed_0 n : fixed n 0 = replicate n 48.
Proof.
  induction n as [|n IH]; [done|]. cbn [fixed]. change (0 / 10) with 0. rw IH.
  change (48 + 0 mod 10) with 48. by rw -(replicate_cons_app n).
Qed.

Lemma pretty_go_fixed n x :
  Z.of_N x < 10 ^ Z.of_nat n →
  (length (utf8 (pretty_N_go x "")) ≤ n)%nat ∧
  replicate (n - length (utf8 (pretty_N_go x ""))) 48 ++ utf8 (pretty_N_go x "") = fixed n (Z.of_N x).
Proof.
  revert x. induction n as [|n IH]; intros x Hx.
  { assert (x = 0)%N as -> by (simpl in Hx; lia). rw pretty_N_go_0. done. }
  destruct (decide (x = 0)%N) as [->|Hx0]; [rw pretty_N_go_0; rw fixed_0; simpl; rw app_nil_r; split; [lia|done]|].
  rw Nat2Z.inj_succ Z.pow_succ_r in Hx; [lia|]. rw pretty_N_go_step; [lia|]. rw pretty_go_app.
  destruct (IH (x / 10)%N) as [Hlen Heq].
  { rw N2Z.inj_div. apply Z.div_lt_upper_bound; lia. }
  change (utf8 (String ?c "")) with (utf8_char c ++ []). rw utf8_digit; [apply N.mod_lt; lia|].
  rw app_nil_r. rw length_app. cbn [length fixed].
  replace (S n - (length (utf8 (pretty_N_go (x / 10) "")) + 1))%nat with (n - length (utf8 (pretty_N_go (x / 10) "")))%nat by lia.
  rw app_assoc Heq. rw N2Z.inj_div N2Z.inj_mod. split; [lia|done].
Qed.

Lemma utf8_length_ascii s : Forall (λ c, is_digit c = true) (chars s) → length (utf8 s) = str_len s.
Proof.
  unfold utf8, str_len. induction s as [|c s IH]; intros H; [done|].
  apply Forall_cons in H as [Hc H]. cbn [String.list_ascii_of_string map concat String.length].
  rw length_app IH; [done|]. unfold is_digit, in_range in Hc. apply andb_true_iff in Hc as [_ Hc].
  apply N.leb_le in Hc. unfold utf8_char. by rw (proj2 (Z.ltb_lt (Z.of_N (code c)) 128)); [lia|].
Qed.

Lemma utf8_zeros n : utf8 (of_chars (replicate n "0"%char)) = replicate n 48.
Proof. unfold utf8. rw chars_of_chars. induction n as [|n IH]; [done|]. cbn. by f_equal. Qed.

Lemma pad_zero_fixed n z : 0 ≤ z < 10 ^ Z.of_nat n → (0 < n)%nat → utf8 (pad_zero n z) = fixed n z.
Proof.
  intros Hz Hn. unfold pad_zero. rw utf8_app utf8_zeros. destruct z as [|p|p]; [| |lia].
  - change (pretty 0) with "0". change (utf8 "0") with (replicate 1 48). change (str_len "0") with 1%nat.
    rw -replicate_add fixed_0. f_equal. lia.
  - assert (pretty (Z.pos p) = pretty_N_go (N.pos p) "") as ->
      by (change (pretty (Z.pos p)) with (pretty_N (N.pos p)); unfold pretty_N; by case_decide).
    rw -utf8_length_ascii; [apply pretty_N_go_digits; constructor|].
    apply (pretty_go_fixed n (N.pos p)). exact (proj2 Hz).
Qed.

(** ** The round trip *)

Lemma fixed_head n z : (0 < n)%nat → ∃ b l, fixed n z = b :: l ∧ digit_byte b = true.
Proof.
  intros Hn. pose proof (fixed_digits n z) as Hd. pose proof (fixed_length n z) as Hl.
  destruct (fixed n z) as [|b l]; simpl in Hl; [lia|]. inversion Hd; subst. eauto.
Qed.

Lemma parse_date_text y m d r :
  1 ≤ y ≤ 9999 → 1 ≤ m ≤ 12 → 1 ≤ d ≤ days_in_month y m →
  parse_isoformat_date (fixed 4 y ++ 45 :: fixed 2 m ++ 45 :: fixed 2 d ++ r) 10 = Some (days_of_civil y m d).
Proof.
  intros Hy Hm Hd. assert (days_in_month y m ≤ 31)
    by (unfold days_in_month; destruct (m =? 2), (is_leap y), ((m =? 4) || (m =? 6) || (m =? 9) || (m =? 11)); lia).
  unfold parse_isoformat_date. rw parse_fixed; [lia|]. cbn [mbind option_bind].
  change (byte_at (45 :: ?l) 0) with 45. change (45 =? 45) with true. cbn iota. change (drop 1 (?x :: ?l)) with l.
  destruct (fixed_head 2 m ltac:(lia)) as (b & l & E & Hb). rw E.
  change (byte_at ((b :: l) ++ ?r) 0) with b. rw -E.
  assert (b =? 87 = false) as -> by (unfold digit_byte in Hb; lia).
  rw parse_fixed; [lia|]. cbn [mbind option_bind]. change (byte_at (45 :: ?l) 0) with 45.
  change (true && negb (45 =? 45)) with false. cbn iota. change (drop 1 (?x :: ?l)) with l.
  rw parse_fixed; [lia|]. cbn [mbind option_bind].
  assert ((1 <=? y) && (1 <=? m) && (m <=? 12) && (1 <=? d) && (d <=? days_in_month y m) = true) as -> by lia.
  done.
Qed.

Lemma tz_position_app l b r :
  Forall (λ c, negb ((c =? 43) || (c =? 45) || (c =? 90)) = true) l → (b =? 43) = true →
  tz_position (l ++ b :: r) = length l.
Proof.
  intros Hl Hb. induction Hl as [|c l Hc _ IH]; simpl; [by rw Hb|].
  apply negb_true_iff in Hc. rw Hc. by rw IH.
Qed.

Lemma digits_not_tz l : digits l → Forall (λ c, negb ((c =? 43) || (c =? 45) || (c =? 90)) = true) l.
Proof. intros H. eapply Forall_impl; [exact H|]. intros b. unfold digit_byte. lia. Qed.

(** The fraction [isoformat] writes. *)
Definition frac_text (us : Z) : list Z := if us =? 0 then [] else 46 :: fixed 6 us.

Lemma parse_fraction_text us r t :
  0 ≤ us < 1000000 → (∀ b l, r = b :: l → digit_byte b = false) → byte_at r 0 ≠ 0 →
  parse_fraction (fixed 6 us ++ r) 6 t =
    Some ({| ct_hour := ct_hour t; ct_minute := ct_minute t; ct_second := ct_second t; ct_us := us |}, true).
Proof.
  intros Hus Hr H0. unfold parse_fraction. change (Nat.min 6 6) with 6%nat. rw parse_fixed; [lia|].
  cbn [mbind option_bind]. assert (digit_run r = O) as ->.
  { destruct r as [|b l]; [done|]. cbn. by rw (Hr _ _ eq_refl). }
  change (drop 0 r) with r. rw (proj2 (Z.eqb_neq _ _) H0).
  change (10 ^ (6 - Z.of_nat 6)) with 1. by rw Z.mul_1_r.
Qed.

Lemma parse_time_text h m s us r :
  0 ≤ h < 24 → 0 ≤ m < 60 → 0 ≤ s < 60 → 0 ≤ us < 1000000 →
  let l := fixed 2 h ++ 58 :: fixed 2 m ++ 58 :: fixed 2 s ++ frac_text us in
  parse_hh_mm_ss_ff (l ++ 43 :: r) (length l) =
    Some ({| ct_hour := h; ct_minute := m; ct_second := s; ct_us := us |}, true).
Proof.
  intros Hh Hm Hs Hus l. unfold parse_hh_mm_ss_ff.
  assert (Hlen : length l = (8 + length (frac_text us))%nat)
    by (unfold l; rw !(length_app, length_cons, fixed_length); lia).
  rw Hlen. unfold l. repeat (cbn [app]; rw -app_assoc).
  cbn [parse_components]. rw parse_fixed; [lia|]. cbn [mbind option_bind].
  change (byte_at (58 :: ?l) 0) with 58. change (58 =? 58) with true.
  rw bool_decide_eq_false_2; [lia|]. cbn [andb]. change (drop 1 (?x :: ?l)) with l.
  rw parse_fixed; [lia|]. cbn [mbind option_bind]. change (byte_at (58 :: ?l) 0) with 58. change (58 =? 58) with true.
  rw bool_decide_eq_false_2; [lia|]. cbn [andb]. change (drop 1 (?x :: ?l)) with l.
  rw parse_fixed; [lia|]. cbn [mbind option_bind]. unfold frac_text. destruct (Z.eqb_spec us 0) as [->|E].
  - cbn [app length]. change (byte_at (43 :: r) 0) with 43. by rw bool_decide_eq_true_2; [lia|].
  - rw -app_comm_cons length_cons fixed_length. change (byte_at (46 :: ?l) 0) with 46.
    rw bool_decide_eq_false_2; [lia|]. change (true && (46 =? 58)) with false. change ((46 =? 46) || (46 =? 44)) with true.
    cbn iota. change (drop 1 (?x :: ?l)) with l. change (8 + 7 - 3 - 3 - 3)%nat with 6%nat.
    by rw parse_fraction_text; [lia|intros ? ? [= <- _]; reflexivity|done|].
Qed.

Definition UTC_TEXT : list Z := [43; 48; 48; 58; 48; 48].

Lemma isoformat_bytes t :
  MIN_DAY ≤ t / us_per_day ≤ MAX_DAY →
  let '(y, m, d) := civil_of_days (t / us_per_day) in
  let us := t mod us_per_day in
  let sec := us / 1000000 in
  utf8 (isoformat t) =
    (fixed 4 y ++ 45 :: fixed 2 m ++ 45 :: fixed 2 d) ++ 84 ::
    (fixed 2 (sec / 3600) ++ 58 :: fixed 2 (sec / 60 mod 60) ++ 58 :: fixed 2 (sec mod 60) ++ frac_text (us mod 1000000)) ++ UTC_TEXT.
Proof.
  intros Ht. unfold isoformat. pose proof (civil_of_days_valid (t / us_per_day)) as Hv.
  pose proof (civil_of_days_year (t / us_per_day) Ht) as Hy.
  destruct (civil_of_days (t / us_per_day)) as [[y m] d]. simpl in Hy. destruct Hv as (Hm & Hd & _).
  assert (days_in_month y m ≤ 31)
    by (unfold days_in_month; destruct (m =? 2), (is_leap y), ((m =? 4) || (m =? 6) || (m =? 9) || (m =? 11)); lia).
  set (us := t mod us_per_day). set (sec := us / 1000000). set (frac := us mod 1000000).
  assert (Hus : 0 ≤ us < us_per_day) by (apply Z.mod_pos_bound; done).
  assert (Hsec : 0 ≤ sec < 86400) by (unfold sec, us_per_day in *; Z.to_euclidean_division_equations; lia).
  assert (Hfrac : 0 ≤ frac < 1000000) by (apply Z.mod_pos_bound; lia). clearbody us sec frac.
  assert (0 ≤ sec / 3600 < 24) by (Z.to_euclidean_division_equations; lia).
  assert (0 ≤ sec / 60 mod 60 < 60) by (apply Z.mod_pos_bound; lia).
  assert (0 ≤ sec mod 60 < 60) by (apply Z.mod_pos_bound; lia).
  pose proof pad_zero_fixed as Hp. revert Hp. generalize pad_zero. intros pz Hp.
  assert (utf8 (if frac =? 0 then EmptyString else "." +:+ pz 6%nat frac) = frac_text frac) as Hf.
  { unfold frac_text. destruct (frac =? 0); [done|]. rw utf8_app Hp; [lia..|]. done. }
  rw !utf8_app Hf. rw !Hp; [lia..|].
  change (utf8 "-") with [45]. change (utf8 "T") with [84]. change (utf8 ":") with [58].
  change (utf8 "+00:00") with UTC_TEXT. unfold UTC_TEXT. by repeat (cbn [app]; rw -app_assoc).
Qed.

(** A time written by [isoformat] is read back by [fromisoformat], for every
    microsecond of the years 1 to 9999. *)
Lemma isoformat_roundtrip t :
  MIN_DAY * us_per_day ≤ t < (MAX_DAY + 1) * us_per_day → fromisoformat (isoformat t) = Some t.
Proof.
  intros Ht.
  assert (Hday : MIN_DAY ≤ t / us_per_day ≤ MAX_DAY).
  { unfold MIN_DAY, MAX_DAY, us_per_day in *. Z.to_euclidean_division_equations; lia. }
  pose proof (isoformat_bytes t Hday) as Hb. pose proof (civil_of_days_valid (t / us_per_day)) as Hv.
  pose proof (civil_of_days_year (t / us_per_day) Hday) as Hy.
  destruct (civil_of_days (t / us_per_day)) as [[y m] d]. simpl in Hy. destruct Hv as (Hm & Hd & Hdays). cbv zeta in Hb.
  set (us := t mod us_per_day) in *. set (sec := us / 1000000) in *. set (frac := us mod 1000000) in *.
  assert (Hus : 0 ≤ us < us_per_day) by (apply Z.mod_pos_bound; done).
  assert (Ht' : t = t / us_per_day * us_per_day + us) by (pose proof (Z.div_mod t us_per_day); unfold us_per_day in *; lia).
  assert (Hus' : us = sec * 1000000 + frac) by (pose proof (Z.div_mod us 1000000); unfold sec, frac; lia).
  assert (Hfrac : 0 ≤ frac < 1000000) by (apply Z.mod_pos_bound; lia).
  assert (Hsec : 0 ≤ sec < 86400) by (unfold us_per_day in *; lia). clearbody us sec frac.
  assert (0 ≤ sec / 3600 < 24) by (Z.to_euclidean_division_equations; lia).
  assert (0 ≤ sec / 60 mod 60 < 60) by (apply Z.mod_pos_bound; lia).
  assert (0 ≤ sec mod 60 < 60) by (apply Z.mod_pos_bound; lia).
  assert (Hparts : sec / 3600 * 3600 + sec / 60 mod 60 * 60 + sec mod 60 = sec)
    by (Z.to_euclidean_division_equations; lia).
  unfold fromisoformat. rw Hb. set (date := fixed 4 y ++ _). set (time := fixed 2 (sec / 3600) ++ _).
  assert (Hdl : length date = 10%nat) by (unfold date; by rw !(length_app, length_cons, fixed_length)).
  assert (Htl : (8 ≤ length time)%nat) by (unfold time; rw !(length_app, length_cons, fixed_length); lia).
  assert (Hlen : length (date ++ 84 :: time ++ UTC_TEXT) = (17 + length time)%nat)
    by (rw length_app Hdl length_cons length_app; simpl; lia).
  cbv zeta. rw Hlen. rw bool_decide_eq_false_2; [lia|].
  assert (Hsep : find_isoformat_datetime_separator (date ++ 84 :: time ++ UTC_TEXT) = Some 10%nat).
  { unfold find_isoformat_datetime_separator. rw Hlen. rw bool_decide_eq_false_2; [lia|].
    destruct (fixed_head 2 m ltac:(lia)) as (b & l & E & Hdb).
    pose proof (fixed_length 4 y) as H4. unfold date. destruct (fixed 4 y) as [|y0 [|y1 [|y2 [|y3 [|]]]]]; try done.
    rw E. cbn [app]. change (byte_at (y0 :: y1 :: y2 :: y3 :: 45 :: ?l) 4) with 45.
    change (byte_at (y0 :: y1 :: y2 :: y3 :: 45 :: b :: ?l) 5) with b.
    assert (b =? 87 = false) as -> by (unfold digit_byte in Hdb; lia). done. }
  rw Hsep. cbn [mbind option_bind].
  assert (Hdate : parse_isoformat_date (date ++ 84 :: time ++ UTC_TEXT) 10 = Some (t / us_per_day)).
  { rw -Hdays. unfold date. repeat (cbn [app]; rw -app_assoc). by apply parse_date_text. }
  rw Hdate. cbn [mbind option_bind]. rw bool_decide_eq_false_2; [lia|].
  assert (byte_at (date ++ 84 :: time ++ UTC_TEXT) 10 = 84) as ->.
  { unfold byte_at. rw app_nth2; [lia|]. by rw Hdl. }
  change (10 + separator_bytes 84)%nat with 11%nat.
  assert (drop 11 (date ++ 84 :: time ++ UTC_TEXT) = time ++ UTC_TEXT) as ->.
  { change (84 :: ?l) with ([84] ++ l). rw app_assoc. rw drop_app_length'; [rw length_app; simpl; lia|]. done. }
  assert (Htz : tz_position (time ++ UTC_TEXT) = length time).
  { apply tz_position_app; [|done]. unfold time, frac_text.
    repeat (apply Forall_app; split; [apply digits_not_tz, fixed_digits|]; apply Forall_cons; split; [done|]).
    apply Forall_app; split; [apply digits_not_tz, fixed_digits|]. destruct (frac =? 0); [constructor|].
    apply Forall_cons; split; [done|]. apply digits_not_tz, fixed_digits. }
  unfold parse_isoformat_time. rw Htz. unfold time at 1 2. unfold UTC_TEXT at 1.
  rw parse_time_text; [lia..|]. fold time. cbn [mbind option_bind].
  rw bool_decide_eq_false_2; [rw length_app; simpl; lia|].
  assert (byte_at (time ++ UTC_TEXT) (length time) = 43) as ->.
  { unfold byte_at. rw app_nth2; [lia|]. by rw Nat.sub_diag. }
  change (43 =? 90) with false. cbn iota.
  assert (drop (length time + 1) (time ++ UTC_TEXT) = [48; 48; 58; 48; 48]) as ->.
  { change UTC_TEXT with ([43] ++ [48; 48; 58; 48; 48]). rw app_assoc.
    rw drop_app_length'; [rw length_app; simpl; lia|]. done. }
  change (parse_hh_mm_ss_ff [48; 48; 58; 48; 48] (length [48; 48; 58; 48; 48]))
    with (Some ({| ct_hour := 0; ct_minute := 0; ct_second := 0; ct_us := 0 |}, false)).
  cbn [mbind option_bind ct_hour ct_minute ct_second ct_us].
  change (0 * 3600 + 0 * 60 + 0 =? 0) with true. cbn iota. change (0 <? us_per_day) with true. change (43 =? 45) with false. cbn iota.
  cbn [mbind option_bind ct_hour ct_minute ct_second ct_us].
  assert ((sec / 3600 <=? 23) && (sec / 60 mod 60 <=? 59) && (sec mod 60 <=? 59) = true) as -> by lia.
  f_equal. lia.
Qed.
