(* ===== verification/PySha256.v ===== *)
(** * [hashlib.sha256]

    The digest the state store puts beside a record, on 32-bit words as in
    [PyUuid]. *)

From S2P Require Import Prelude PyStr PyUuid.

Definition rotr32 (n z : Z) : Z := rotl32 (32 - n) z.

Definition sha256_k : list Z :=
  [1116352408; 1899447441; 3049323471; 3921009573; 961987163; 1508970993; 2453635748; 2870763221;
   3624381080; 310598401; 607225278; 1426881987; 1925078388; 2162078206; 2614888103; 3248222580;
   3835390401; 4022224774; 264347078; 604807628; 770255983; 1249150122; 1555081692; 1996064986;
   2554220882; 2821834349; 2952996808; 3210313671; 3336571891; 3584528711; 113926993; 338241895;
   666307205; 773529912; 1294757372; 1396182291; 1695183700; 1986661051; 2177026350; 2456956037;
   2730485921; 2820302411; 3259730800; 3345764771; 3516065817; 3600352804; 4094571909; 275423344;
   430227734; 506948616; 659060556; 883997877; 958139571; 1322822218; 1537002063; 1747873779;
   1955562222; 2024104815; 2227730452; 2361852424; 2428436474; 2756734187; 3204031479; 3329325298].

Definition sha256_init : list Z :=
  [1779033703; 3144134277; 1013904242; 2773480762; 1359893119; 2600822924; 528734635; 1541459225].

Definition lower_sigma (a b c z : Z) : Z := Z.lxor (Z.lxor (rotr32 a z) (rotr32 b z)) (Z.shiftr z c).
Definition upper_sigma (a b c z : Z) : Z := Z.lxor (Z.lxor (rotr32 a z) (rotr32 b z)) (rotr32 c z).

(** The message schedule, newest word first: 16 words extended to 64. *)
Fixpoint sha256_extend (n : nat) (w : list Z) : list Z :=
  match n with
  | O => w
  | S n' =>
      sha256_extend n'
        (add32 (add32 (lower_sigma 17 19 10 (nth 1 w 0)) (nth 6 w 0))
               (add32 (lower_sigma 7 18 3 (nth 14 w 0)) (nth 15 w 0)) :: w)
  end.

(** The state is the list of the eight working words. *)
Definition sha256_round (s : list Z) (kw : Z * Z) : list Z :=
  match s with
  | [a; b; c; d; e; f; g; h] =>
      let ch := Z.lxor (Z.land e f) (Z.land (not32 e) g) in
      let maj := Z.lxor (Z.lxor (Z.land a b) (Z.land a c)) (Z.land b c) in
      let t1 := add32 (add32 (add32 h (upper_sigma 6 11 25 e)) (add32 ch kw.1)) kw.2 in
      let t2 := add32 (upper_sigma 2 13 22 a) maj in
      [add32 t1 t2; a; b; c; add32 d t1; e; f; g]
  | _ => s
  end.

Fixpoint sha256_blocks (fuel : nat) (l : list Z) (s : list Z) : list Z :=
  match fuel, l with
  | S fuel', _ :: _ =>
      let w := rev (sha256_extend 48 (rev (sha1_words 16 (take 64 l)))) in
      sha256_blocks fuel' (drop 64 l) (zip_with add32 s (foldl sha256_round s (zip sha256_k w)))
  | _, _ => s
  end.

Definition sha256 (l : list Z) : list Z :=
  let p := sha1_pad l in
  concat (map (be_bytes 4) (sha256_blocks (length p) p sha256_init)).

(** [hashlib.sha256(s.encode("utf-8")).hexdigest()] *)
Definition sha256_hex (s : string) : string := of_chars (hex_digits 64 (be_value (sha256 (utf8 s)))).

Example sha256_check :
  sha256_hex "abc" = "ba7816bf8f01cfea414140de5dae2223b00361a396177a9cb410ff61f20015ad" ∧
  sha256_hex (of_chars (replicate 60 "a"%char)) = "11ee391211c6256460b6ed375957fadd8061cafbb31daf967db875aebd5aaad4".
Proof. split; vm_compute; reflexivity. Qed.

#[global] Arguments sha256_hex : simpl never.
