(* ===== verification/Json.v ===== *)
(** * JSON and URLs

    The text [json.dumps] and [urllib.parse] produce, as far as the program uses
    them: request payloads in error messages, stored records, prompts and the paths
    of requests.  [json.loads] is in [JsonLoads]. *)

From S2P Require Import Prelude PyStr PyVal PyUuid.

(** ** [json.dumps] *)

(** [ensure_ascii], [sort_keys] and [separators] *)
Record json_format := { jf_ascii : bool; jf_sort : bool; jf_item : string; jf_key : string }.

Definition json_char (ensure_ascii : bool) (c : ascii) : list ascii :=
  let backslash := ascii_of_N 92 in
  let n := code c in
  if N.eqb n 34 || N.eqb n 92 then [backslash; c]
  else if N.eqb n 10 then [backslash; "n"%char]
  else if N.eqb n 13 then [backslash; "r"%char]
  else if N.eqb n 9 then [backslash; "t"%char]
  else if N.eqb n 12 then [backslash; "f"%char]
  else if N.eqb n 8 then [backslash; "b"%char]
  else if in_range 32 126 c || (negb ensure_ascii && negb (N.ltb n 32)) then [c]
  else [backslash; "u"%char; "0"%char; "0"%char] ++ hex_digits 2 (Z.of_N n).

Definition json_string (ensure_ascii : bool) (s : string) : string :=
  of_chars ([ascii_of_N 34] ++ concat (map (json_char ensure_ascii) (chars s)) ++ [ascii_of_N 34]).

(** [sorted(d.items())]: by key, for distinct keys *)
Fixpoint insert_item {A} (kv : string * A) (l : list (string * A)) : list (string * A) :=
  match l with
  | [] => [kv]
  | kv' :: l' => if str_leb kv.1 kv'.1 then kv :: l else kv' :: insert_item kv l'
  end.
Definition sort_items {A} (l : list (string * A)) : list (string * A) := foldr insert_item [] l.

(** Items are printed first and then sorted by key, which gives the same text. *)
Fixpoint json_print (f : json_format) (v : pyval) : string :=
  match v with
  | PNone => "null"
  | PBool b => if b then "true" else "false"
  | PInt z => pretty z
  | PFloat x => f_repr x
  | PStr s => json_string (jf_ascii f) s
  | PList l => "[" +:+ str_join (jf_item f) (map (json_print f) l) +:+ "]"
  | PDict d =>
      let items := map (λ kv, (kv.1, json_print f kv.2)) d in
      "{" +:+ str_join (jf_item f)
                (map (λ kv, json_string (jf_ascii f) kv.1 +:+ jf_key f +:+ kv.2)
                     (if jf_sort f then sort_items items else items)) +:+ "}"
  end.

(** [json.dumps(v, sort_keys=True)] *)
Definition json_dumps : pyval → string :=
  json_print {| jf_ascii := true; jf_sort := true; jf_item := ", "; jf_key := ": " |}.

(** [json.dumps(v, sort_keys=True, separators=(",", ":"))] *)
Definition json_compact : pyval → string :=
  json_print {| jf_ascii := true; jf_sort := true; jf_item := ","; jf_key := ":" |}.

(** [json.dumps(v, separators=(",", ":"))] *)
Definition json_plain : pyval → string :=
  json_print {| jf_ascii := true; jf_sort := false; jf_item := ","; jf_key := ":" |}.

(** [json.dumps(v, ensure_ascii=False)] *)
Definition json_unicode : pyval → string :=
  json_print {| jf_ascii := false; jf_sort := false; jf_item := ", "; jf_key := ": " |}.

(** [json.dumps(v, indent=2, sort_keys=True)], [n] levels deep *)
Definition line_of (n : nat) : string := newline +:+ of_chars (repeat " "%char (2 * n)).
Fixpoint json_lines (n : nat) (v : pyval) : string :=
  match v with
  | PList [] => "[]"
  | PList l =>
      "[" +:+ line_of (S n) +:+ str_join ("," +:+ line_of (S n)) (map (json_lines (S n)) l) +:+ line_of n +:+ "]"
  | PDict [] => "{}"
  | PDict d =>
      "{" +:+ line_of (S n) +:+
      str_join ("," +:+ line_of (S n))
        (map (λ kv, json_string true kv.1 +:+ ": " +:+ kv.2)
             (sort_items (map (λ kv, (kv.1, json_lines (S n) kv.2)) d))) +:+ line_of n +:+ "}"
  | _ => json_dumps v
  end.
Definition json_indent : pyval → string := json_lines 0.

Example json_indent_check :
  json_indent (PDict [("b", PList [PInt 1; PInt 2]); ("a", PDict [])])
  = "{" +:+ newline +:+ "  " +:+ dquote +:+ "a" +:+ dquote +:+ ": {}," +:+ newline +:+ "  " +:+ dquote +:+ "b" +:+ dquote +:+
    ": [" +:+ newline +:+ "    1," +:+ newline +:+ "    2" +:+ newline +:+ "  ]" +:+ newline +:+ "}".
Proof. vm_compute. reflexivity. Qed.

Example json_dumps_check :
  json_dumps (PDict [("b", PList [PInt (-1); PNone]); ("a", PBool true)])
  = "{" +:+ dquote +:+ "a" +:+ dquote +:+ ": true, " +:+ dquote +:+ "b" +:+ dquote +:+ ": [-1, null]}".
Proof. vm_compute. reflexivity. Qed.

(** ** [quote(s, safe=safe)] and [urlencode] *)

Definition upper_hex (z : Z) : ascii :=
  ascii_of_N (Z.to_N (if z <? 10 then z + 48 else z + 55)).

(** The characters [quote] never escapes: letters, digits and four others. *)
Definition unreserved (b : Z) : bool :=
  ((48 <=? b) && (b <=? 57)) || ((65 <=? b) && (b <=? 90)) || ((97 <=? b) && (b <=? 122)) ||
  (b =? 95) || (b =? 46) || (b =? 45) || (b =? 126).

Definition quote_byte (b : Z) : list ascii :=
  if unreserved b then [ascii_of_N (Z.to_N b)]
  else ["%"%char; upper_hex (b / 16); upper_hex (b mod 16)].

(** [quote(s, safe='')] *)
Definition quote (s : string) : string := of_chars (concat (map quote_byte (utf8 s))).

(** [quote_plus(s)] *)
Definition quote_plus_byte (b : Z) : list ascii := if b =? 32 then ["+"%char] else quote_byte b.
Definition quote_plus (s : string) : string := of_chars (concat (map quote_plus_byte (utf8 s))).

Definition query_pair (k v : string) : string := quote_plus k +:+ "=" +:+ quote_plus v.

(** One parameter of [urlencode(params, doseq=True)]: a list gives a pair per element. *)
Definition query_item (k : string) (v : pyval) : list string :=
  match v with
  | PList l => map (λ x, query_pair k (py_str x)) l
  | PDict d => map (λ kv, query_pair k kv.1) d
  | _ => [query_pair k (py_str v)]
  end.

(** [_query_string]: [None], the empty string and the empty list are dropped. *)
Definition query_kept (v : pyval) : bool :=
  match v with PNone => false | PStr s => str_truthy s | PList [] => false | _ => true end.

Definition query_string (params : dict pyval) : string :=
  match List.filter (λ kv, query_kept kv.2) params with
  | [] => EmptyString
  | filtered => "?" +:+ str_join "&" (concat (map (λ kv, query_item kv.1 kv.2) filtered))
  end.

Example quote_check : quote "a/b c" = "a%2Fb%20c" ∧
  query_string [("status", PStr "in progress"); ("limit", PInt 5); ("x", PNone)] = "?status=in+progress&limit=5".
Proof. split; vm_compute; reflexivity. Qed.

(** ** Lemmas *)

(** A quoted path segment holds no slash, question mark or hash, so what is
    quoted cannot leave its place in the path. *)
Definition segment_char (c : ascii) : bool :=
  negb (bool_decide (c = "/"%char) || bool_decide (c = "?"%char) || bool_decide (c = "#"%char)).

Lemma upper_hex_segment z : 0 ≤ z < 16 → segment_char (upper_hex z) = true.
Proof.
  intros Hz. assert (z ∈ seqZ 0 16) as Hin by (apply elem_of_seqZ; lia).
  revert z Hz Hin. assert (Forall (λ z, segment_char (upper_hex z) = true) (seqZ 0 16)) as HF.
  { repeat constructor. }
  intros z _ Hin. rw Forall_forall in HF. by apply HF.
Qed.

Lemma unreserved_segment b : 0 ≤ b < 256 → unreserved b = true → segment_char (ascii_of_N (Z.to_N b)) = true.
Proof.
  intros Hb. assert (b ∈ seqZ 0 256) as Hin by (apply elem_of_seqZ; lia).
  assert (Forall (λ b, implb (unreserved b) (segment_char (ascii_of_N (Z.to_N b))) = true) (seqZ 0 256)) as HF.
  { apply Forall_forall. apply forallb_elem. vm_compute. reflexivity. }
  rw Forall_forall in HF. specialize (HF b Hin). intros Hu. by rw Hu in HF.
Qed.

Lemma utf8_bytes s : bytes (utf8 s).
Proof.
  unfold bytes, utf8. apply Forall_concat, Forall_forall. intros l (c & -> & _)%list_elem_of_fmap.
  assert (Hc : (code c < 256)%N) by apply N_ascii_bounded.
  unfold utf8_char. destruct (Z.ltb_spec (Z.of_N (code c)) 128).
  - repeat constructor; lia.
  - repeat constructor; try lia.
    + apply Z.add_nonneg_nonneg; [lia|]. apply Z.div_pos; lia.
    + assert (Z.of_N (code c) / 64 < 4) by (apply Z.div_lt_upper_bound; lia). lia.
    + pose proof (Z.mod_pos_bound (Z.of_N (code c)) 64). lia.
    + pose proof (Z.mod_pos_bound (Z.of_N (code c)) 64). lia.
Qed.

Lemma quote_segment s : Forall (λ c, segment_char c = true) (chars (quote s)).
Proof.
  unfold quote. rw chars_of_chars. apply Forall_concat, Forall_forall.
  intros l (b & -> & Hb)%list_elem_of_fmap. pose proof (utf8_bytes s) as Hu.
  unfold bytes in Hu. rw Forall_forall in Hu. apply Hu in Hb.
  unfold quote_byte. destruct (unreserved b) eqn:E.
  - repeat constructor. by apply unreserved_segment.
  - repeat constructor; apply upper_hex_segment.
    + split; [apply Z.div_pos; lia|apply Z.div_lt_upper_bound; lia].
    + apply Z.mod_pos_bound. lia.
Qed.
