(* ===== verification/JsonLoads.v ===== *)
(** * [json.loads]

    The decoder of Python's [json] module: white space, the six kinds of values,
    strict strings with their escapes, and "extra data" after the value being an
    error.  A character the text escapes beyond U+00FF becomes [?], since strings
    of the model end there; a float keeps the numeral it was written with and its
    exact value; [NaN] and the infinities are not numbers here.

    The round trip with [json.dumps] is proved for every value whose dicts have
    distinct keys and whose floats carry a float numeral. *)

From Stdlib Require Import QArith.
From S2P Require Import Prelude PyStr PyVal PyUuid Json.

Open Scope Z_scope.

(** White space of JSON. *)
Definition json_space (c : ascii) : bool :=
  let n := code c in N.eqb n 32 || N.eqb n 9 || N.eqb n 10 || N.eqb n 13.
Abbreviation skip_ws := (drop_while json_space).

(** ** Strings *)

Definition hex4 (a b c d : ascii) : option Z :=
  a ← hex_val a; b ← hex_val b; c ← hex_val c; d ← hex_val d;
  Some (a * 4096 + b * 256 + c * 16 + d).

Definition char_of (z : Z) : ascii := if z <? 256 then ascii_of_N (Z.to_N z) else "?"%char.

(** The character after a backslash, other than [u]. *)
Definition escape_char (c : ascii) : option ascii :=
  let n := code c in
  if N.eqb n 34 || N.eqb n 92 || N.eqb n 47 then Some c
  else if N.eqb n 98 then Some (ascii_of_N 8)
  else if N.eqb n 102 then Some (ascii_of_N 12)
  else if N.eqb n 110 then Some (ascii_of_N 10)
  else if N.eqb n 114 then Some (ascii_of_N 13)
  else if N.eqb n 116 then Some (ascii_of_N 9)
  else None.

(** The characters of a string up to its closing quote, and what follows it. *)
Fixpoint scan_string (l : list ascii) : option (list ascii * list ascii) :=
  match l with
  | [] => None
  | c :: l' =>
      if N.eqb (code c) 34 then Some ([], l')
      else if N.ltb (code c) 32 then None
      else if negb (N.eqb (code c) 92) then
        '(s, r) ← scan_string l'; Some (c :: s, r)
      else
        match l' with
        | [] => None
        | e :: l1 =>
            if N.eqb (code e) 117 then
              match l1 with
              | h1 :: h2 :: h3 :: h4 :: l2 =>
                  z ← hex4 h1 h2 h3 h4; '(s, r) ← scan_string l2; Some (char_of z :: s, r)
              | _ => None
              end
            else
              x ← escape_char e; '(s, r) ← scan_string l1; Some (x :: s, r)
        end
  end.

(** ** Numbers: an optional sign, an integer part, optionally a fraction and an exponent *)

Fixpoint take_while {A} (p : A → bool) (l : list A) : list A :=
  match l with
  | [] => []
  | x :: l' => if p x then x :: take_while p l' else []
  end.

Definition digit_val (c : ascii) : Z := Z.of_N (code c) - 48.
Definition digits_val (l : list ascii) : Z := foldl (λ acc c, acc * 10 + digit_val c) 0 l.

(** The digits of the integer part: a leading zero stands alone. *)
Definition int_part (l : list ascii) : list ascii :=
  match l with
  | c :: _ => if N.eqb (code c) 48 then [c] else take_while is_digit l
  | [] => []
  end.

(** The fraction, with its dot; the exponent, with its letter. *)
Definition frac_part (l : list ascii) : list ascii :=
  match l with
  | c :: l' => if N.eqb (code c) 46 && negb (bool_decide (take_while is_digit l' = []))
               then c :: take_while is_digit l' else []
  | [] => []
  end.

Definition is_sign (c : ascii) : bool := N.eqb (code c) 43 || N.eqb (code c) 45.
Definition exp_part (l : list ascii) : list ascii :=
  match l with
  | e :: l' =>
      if N.eqb (code e) 101 || N.eqb (code e) 69 then
        match l' with
        | s :: l'' =>
            if is_sign s && negb (bool_decide (take_while is_digit l'' = []))
            then e :: s :: take_while is_digit l''
            else if bool_decide (take_while is_digit l' = []) then [] else e :: take_while is_digit l'
        | [] => []
        end
      else []
  | [] => []
  end.

Definition exp_val (l : list ascii) : Z :=
  match l with
  | _ :: s :: l' => if N.eqb (code s) 45 then - digits_val l' else if N.eqb (code s) 43 then digits_val l'
                    else digits_val (s :: l')
  | _ => 0
  end.

Definition frac_val (l : list ascii) : Q :=
  match l with _ :: l' => inject_Z (digits_val l') / inject_Z (10 ^ Z.of_nat (length l')) | [] => 0%Q end.

(** A number at the head of the text. *)
Definition scan_number (l : list ascii) : option (pyval * list ascii) :=
  let '(sign, l1) := match l with
                     | c :: l' => if N.eqb (code c) 45 then ([c], l') else ([], l)
                     | [] => ([], l)
                     end in
  let i := int_part l1 in
  if bool_decide (i = []) then None
  else
    let l2 := drop (length i) l1 in
    let f := frac_part l2 in
    let l3 := drop (length f) l2 in
    let e := exp_part l3 in
    let rest := drop (length e) l3 in
    let neg := negb (bool_decide (sign = [])) in
    if bool_decide (f = []) && bool_decide (e = [])
    then Some (PInt (if neg then - digits_val i else digits_val i), rest)
    else
      let v := ((inject_Z (digits_val i) + frac_val f) * (10 # 1) ^ exp_val e)%Q in
      Some (PFloat (PyFloat (of_chars (sign ++ i ++ f ++ e)) (if neg then - v else v)%Q), rest).

(** ** Values *)

Definition literals : list (list ascii * pyval) :=
  [(chars "null", PNone); (chars "true", PBool true); (chars "false", PBool false)].

Fixpoint scan_literal (ls : list (list ascii * pyval)) (l : list ascii) : option (pyval * list ascii) :=
  match ls with
  | [] => None
  | (w, v) :: ls' => if prefix_of_chars w l then Some (v, drop (length w) l) else scan_literal ls' l
  end.

(** A value at the head of the text; the elements of an array from the first
    one to the closing bracket; the members of an object likewise. *)
Fixpoint parse_value (fuel : nat) (l : list ascii) : option (pyval * list ascii) :=
  match fuel with
  | O => None
  | S n =>
      match l with
      | [] => None
      | c :: l' =>
          if N.eqb (code c) 34 then '(s, r) ← scan_string l'; Some (PStr (of_chars s), r)
          else if N.eqb (code c) 91 then
            match skip_ws l' with
            | c' :: r => if N.eqb (code c') 93 then Some (PList [], r)
                         else '(vs, r) ← parse_elements n (skip_ws l'); Some (PList vs, r)
            | [] => None
            end
          else if N.eqb (code c) 123 then
            match skip_ws l' with
            | c' :: r => if N.eqb (code c') 125 then Some (PDict [], r)
                         else '(kvs, r) ← parse_members n (skip_ws l'); Some (PDict (dict_of kvs), r)
            | [] => None
            end
          else match scan_literal literals l with
               | Some r => Some r
               | None => scan_number l
               end
      end
  end
with parse_elements (fuel : nat) (l : list ascii) : option (list pyval * list ascii) :=
  match fuel with
  | O => None
  | S n =>
      '(v, r) ← parse_value n l;
      match skip_ws r with
      | c :: r' =>
          if N.eqb (code c) 93 then Some ([v], r')
          else if N.eqb (code c) 44 then '(vs, r'') ← parse_elements n (skip_ws r'); Some (v :: vs, r'')
          else None
      | [] => None
      end
  end
with parse_members (fuel : nat) (l : list ascii) : option (dict pyval * list ascii) :=
  match fuel with
  | O => None
  | S n =>
      match l with
      | q :: l' =>
          if negb (N.eqb (code q) 34) then None
          else
            '(k, r) ← scan_string l';
            match skip_ws r with
            | c :: r1 =>
                if negb (N.eqb (code c) 58) then None
                else
                  '(v, r2) ← parse_value n (skip_ws r1);
                  match skip_ws r2 with
                  | c' :: r3 =>
                      if N.eqb (code c') 125 then Some ([(of_chars k, v)], r3)
                      else if N.eqb (code c') 44
                      then '(kvs, r4) ← parse_members n (skip_ws r3); Some ((of_chars k, v) :: kvs, r4)
                      else None
                  | [] => None
                  end
            | [] => None
            end
      | [] => None
      end
  end.

(** [json.loads(s)]; [None] is a [JSONDecodeError].  Every call consumes a
    character before it calls another, so the length of the text is enough fuel. *)
Definition json_loads (s : string) : option pyval :=
  '(v, r) ← parse_value (S (str_len s)) (skip_ws (chars s));
  match skip_ws r with [] => Some v | _ => None end.

Definition dq (s : string) : string := dquote +:+ s +:+ dquote.

Example loads_check :
  json_loads (" [1, -20, {" +:+ dq "a" +:+ " : null, " +:+ dq "b\u0041\n" +:+ ":[]}, true] ")
  = Some (PList [PInt 1; PInt (-20); PDict [("a", PNone); ("bA" +:+ newline, PList [])]; PBool true]) ∧
  json_loads "01" = None ∧ json_loads "[1,]" = None ∧ json_loads "{}x" = None ∧
  json_loads "-1.50e1" = Some (PFloat (PyFloat "-1.50e1" (- ((1 + 50 / 100) * (10 # 1)))))%Q.
Proof. split_and!; vm_compute; reflexivity. Qed.

(** ** The round trip with [json.dumps] *)

(** What a value becomes when it is printed with sorted keys and read back. *)
Fixpoint json_canon (v : pyval) : pyval :=
  match v with
  | PList l => PList (map json_canon l)
  | PDict d => PDict (sort_items (map (λ kv, (kv.1, json_canon kv.2)) d))
  | _ => v
  end.

(** Values [json.dumps] prints without loss: distinct keys, floats that carry
    their numeral. *)
Fixpoint json_ok (v : pyval) : Prop :=
  match v with
  | PFloat f => scan_number (chars (f_repr f)) = Some (PFloat f, [])
  | PList l => foldr and True (map json_ok l)
  | PDict d => NoDup (dict_keys d) ∧ foldr and True (map (λ kv, json_ok kv.2) d)
  | _ => True
  end.

(** A comma and a colon, each followed by white space. *)
Definition json_seps (f : json_format) : Prop :=
  ∃ w1 w2, jf_item f = String "," w1 ∧ Forall (λ c, json_space c = true) (chars w1) ∧
           jf_key f = String ":" w2 ∧ Forall (λ c, json_space c = true) (chars w2).

(** What may follow a number. *)
Definition stops (l : list ascii) : Prop :=
  match l with
  | [] => True
  | c :: _ => is_digit c = false ∧ code c ≠ 46%N ∧ code c ≠ 101%N ∧ code c ≠ 69%N ∧ is_sign c = false
  end.

Lemma foldr_and_Forall {A} (P : A → Prop) l : foldr and True (map P l) ↔ Forall P l.
Proof. induction l; simpl; [split; auto|]. rw IHl Forall_cons. done. Qed.

Section lists.
Context {A : Type} (p : A → bool).

Lemma take_while_app l r : (∀ c r', r = c :: r' → p c = false) → take_while p (l ++ r) = take_while p l.
Proof.
  intros Hr. induction l as [|x l IH]; simpl; [|by rw IH].
  destruct r as [|c r]; simpl; [done|]. by rw (Hr c r).
Qed.

Lemma take_while_all l : Forall (λ c, p c = true) l → take_while p l = l.
Proof. induction 1 as [|x l Hx _ IH]; simpl; [done|]. by rw Hx IH. Qed.

Lemma take_while_length l : (length (take_while p l) ≤ length l)%nat.
Proof. induction l as [|x l IH]; simpl; [lia|]. destruct (p x); simpl; lia. Qed.
End lists.

Lemma drop_app_lt {A} n (l r : list A) : (n ≤ length l)%nat → drop n (l ++ r) = drop n l ++ r.
Proof. intros Hn. rw drop_app. replace (n - length l)%nat with 0%nat by lia. done. Qed.

(** *** Numbers *)

Lemma stops_digit r : stops r → ∀ c r', r = c :: r' → is_digit c = false.
Proof. intros Hs c r' ->. apply Hs. Qed.

Lemma int_part_app l r : stops r → l ≠ [] → int_part (l ++ r) = int_part l.
Proof.
  intros Hs Hl. destruct l as [|c l]; [done|]. unfold int_part. cbn [app].
  destruct (N.eqb (code c) 48); [done|]. apply (take_while_app is_digit (c :: l)), stops_digit, Hs.
Qed.

Lemma int_part_length l : (length (int_part l) ≤ length l)%nat.
Proof.
  destruct l as [|c l]; simpl; [lia|]. destruct (N.eqb (code c) 48); simpl; [lia|].
  pose proof (take_while_length is_digit l). destruct (is_digit c); simpl; lia.
Qed.

Lemma frac_part_app l r : stops r → frac_part (l ++ r) = frac_part l.
Proof.
  intros Hs. destruct l as [|c l]; cbn [app].
  - destruct r as [|c r]; [done|]. cbn. destruct Hs as (_ & Hd & _). by apply N.eqb_neq in Hd as ->.
  - unfold frac_part. by rw (take_while_app is_digit l r (stops_digit r Hs)).
Qed.

Lemma frac_part_length l : (length (frac_part l) ≤ length l)%nat.
Proof.
  destruct l as [|c l]; cbn; [lia|]. pose proof (take_while_length is_digit l).
  destruct (_ && _); simpl; lia.
Qed.

Lemma exp_part_app l r : stops r → exp_part (l ++ r) = exp_part l.
Proof.
  intros Hs. pose proof (stops_digit r Hs) as Hd. destruct l as [|c l]; cbn [app].
  - destruct r as [|c r]; [done|]. cbn. destruct Hs as (_ & _ & He & HE & _).
    apply N.eqb_neq in He as ->. by apply N.eqb_neq in HE as ->.
  - unfold exp_part. destruct (_ || _); [|done]. destruct l as [|s l]; cbn [app].
    + destruct r as [|s r]; [done|]. destruct Hs as (Hsd & _ & _ & _ & Hss). rw Hss. cbn [andb].
      cbn [take_while]. rw Hsd. by rw bool_decide_eq_true_2.
    + rw (take_while_app is_digit l r Hd). by rw (take_while_app is_digit (s :: l) r Hd).
Qed.

Lemma exp_part_length l : (length (exp_part l) ≤ length l)%nat.
Proof.
  destruct l as [|e l]; cbn; [lia|]. destruct (_ || _); [|simpl; lia].
  destruct l as [|s l]; [simpl; lia|]. pose proof (take_while_length is_digit l).
  pose proof (take_while_length is_digit (s :: l)) as Hl.
  destruct (_ && _); [simpl; lia|]. case_bool_decide; cbn [length] in *; lia.
Qed.

(** The sign of a number and the rest. *)
Definition sign_of (l : list ascii) : list ascii * list ascii :=
  match l with c :: l' => if N.eqb (code c) 45 then ([c], l') else ([], l) | [] => ([], l) end.

Lemma sign_of_app l r : l ≠ [] → sign_of (l ++ r) = ((sign_of l).1, (sign_of l).2 ++ r).
Proof. destruct l as [|c l]; [done|]. intros _. cbn. by destruct (N.eqb (code c) 45). Qed.

(** A number is read the same with more text behind it. *)
Lemma scan_number_app l v r : scan_number l = Some (v, []) → stops r → scan_number (l ++ r) = Some (v, r).
Proof.
  intros Hn Hs. assert (Hl : l ≠ []) by (intros ->; done).
  unfold scan_number in *. fold (sign_of l) in Hn. fold (sign_of (l ++ r)). rw (sign_of_app _ _ Hl).
  destruct (sign_of l) as [sign l1]. cbn [fst snd].
  destruct (decide (l1 = [])) as [->|Hl1]; [done|].
  rw (int_part_app _ _ Hs Hl1). case_bool_decide; [done|].
  rw (drop_app_lt _ _ _ (int_part_length l1)). set (l2 := drop _ l1) in *.
  rw (frac_part_app _ _ Hs) (drop_app_lt _ _ _ (frac_part_length l2)). set (l3 := drop _ l2) in *.
  rw (exp_part_app _ _ Hs) (drop_app_lt _ _ _ (exp_part_length l3)).
  destruct (_ && _); injection Hn as <- Hr; by rw Hr.
Qed.

Lemma digits_val_app l l' : digits_val (l ++ l') = digits_val l * 10 ^ Z.of_nat (length l') + digits_val l'.
Proof.
  unfold digits_val. rw foldl_app. generalize (foldl (λ acc c, acc * 10 + digit_val c) 0 l). intros a.
  induction l' as [|c l' IH] using rev_ind; [simpl; lia|].
  rw !foldl_app length_app IH. cbn [foldl length]. rw Nat2Z.inj_add Z.pow_add_r; [lia|lia|].
  change (10 ^ Z.of_nat 1) with 10. lia.
Qed.

Lemma digit_val_pretty n : (n < 10)%N → digit_val (pretty_N_char n) = Z.of_N n.
Proof.
  intros H. assert (n = 0 ∨ n = 1 ∨ n = 2 ∨ n = 3 ∨ n = 4 ∨ n = 5 ∨ n = 6 ∨ n = 7 ∨ n = 8 ∨ n = 9)%N
    as Hn by lia. by repeat (destruct Hn as [->|Hn]; [done|]); subst.
Qed.

Lemma digits_val_go x s :
  digits_val (chars (pretty_N_go x s)) = Z.of_N x * 10 ^ Z.of_nat (length (chars s)) + digits_val (chars s).
Proof.
  revert s. induction (N.lt_wf_0 x) as [x _ IH]; intros s.
  destruct (decide (x = 0)%N) as [->|Hx]; [by rw pretty_N_go_0|].
  rw pretty_N_go_step; [lia|]. rw IH; [apply N.div_lt; lia|]. cbn [String.list_ascii_of_string].
  change (?c :: ?l) with ([c] ++ l). rw digits_val_app length_app. cbn [length].
  assert (digits_val [pretty_N_char (x `mod` 10)] = Z.of_N (x mod 10)) as ->.
  { unfold digits_val. cbn [foldl]. rw digit_val_pretty; [apply N.mod_lt|]; lia. }
  replace (Z.of_nat (1 + length (chars s))) with (1 + Z.of_nat (length (chars s))) by lia.
  rw Z.pow_add_r; [lia|lia|]. rw N2Z.inj_div N2Z.inj_mod.
  pose proof (Z.div_mod (Z.of_N x) 10). lia.
Qed.

Lemma pretty_go_head x s :
  (0 < x)%N → ∃ c r, chars (pretty_N_go x s) = c :: r ∧ code c ≠ 48%N.
Proof.
  revert s. induction (N.lt_wf_0 x) as [x _ IH]; intros s Hx.
  rw pretty_N_go_step; [done|]. destruct (decide (x `div` 10 = 0)%N) as [E|E].
  - rw E pretty_N_go_0. eexists _, _. split; [done|].
    assert (Hlt : (x < 10)%N) by (apply N.div_small_iff in E; [done|lia]). rw N.mod_small; [done|].
    assert (x = 1 ∨ x = 2 ∨ x = 3 ∨ x = 4 ∨ x = 5 ∨ x = 6 ∨ x = 7 ∨ x = 8 ∨ x = 9)%N
      as Hn by lia. by repeat (destruct Hn as [->|Hn]; [done|]); subst.
  - apply IH; [apply N.div_lt; lia|]. by apply N.neq_0_lt_0.
Qed.

(** The numeral of a positive number is its own integer part. *)
Lemma pretty_pos p :
  let l := chars (pretty (N.pos p)) in
  l ≠ [] ∧ int_part l = l ∧ digits_val l = Z.pos p ∧ ∃ c r, l = c :: r ∧ is_digit c = true.
Proof.
  unfold pretty, pretty_N. case_decide; [done|]. cbn zeta.
  destruct (pretty_go_head (N.pos p) "" ltac:(lia)) as (c & r & E & Hc).
  pose proof (pretty_N_go_digits (N.pos p) "" ltac:(constructor)) as Hd.
  pose proof (digits_val_go (N.pos p) "") as Hv. rw E in Hd, Hv. rw E. split_and!; [done| | |].
  - unfold int_part. apply N.eqb_neq in Hc as ->. by apply take_while_all.
  - rw Hv. cbn. lia.
  - exists c, r. split; [done|]. by inversion Hd.
Qed.

Lemma scan_pretty z : scan_number (chars (pretty z)) = Some (PInt z, []).
Proof.
  destruct z as [|p|p]; [done| |].
  - change (pretty (Z.pos p)) with (pretty (N.pos p)).
    destruct (pretty_pos p) as (Hl & Hi & Hv & c & r & E & Hc). unfold scan_number.
    fold (sign_of (chars (pretty (N.pos p)))).
    assert (sign_of (chars (pretty (N.pos p))) = ([], chars (pretty (N.pos p)))) as ->.
    { rw E. unfold sign_of. destruct (N.eqb_spec (code c) 45) as [Ec|]; [|done].
      unfold is_digit, in_range in Hc. by rw Ec in Hc. }
    rw Hi. rw bool_decide_eq_false_2; [done|]. rw drop_all. cbn. by rw Hv.
  - change (pretty (Z.neg p)) with ("-" +:+ pretty (N.pos p)).
    destruct (pretty_pos p) as (Hl & Hi & Hv & c & r & E & Hc). rw chars_app. cbn [String.list_ascii_of_string app].
    unfold scan_number. cbn [N.eqb code]. change (N.eqb (code "-"%char) 45) with true. cbn iota.
    rw Hi. rw bool_decide_eq_false_2; [done|]. rw drop_all. cbn. by rw Hv.
Qed.

(** *** Strings *)

Lemma scan_json_char b c t s r :
  scan_string t = Some (s, r) → scan_string (json_char b c ++ t) = Some (c :: s, r).
Proof.
  intros Ht.
  assert (scan_string (json_char b c ++ t) = ('(s, r) ← scan_string t; Some (c :: s, r))) as ->
    by (destruct c as [[][][][][][][][]], b; reflexivity).
  by rw Ht.
Qed.

Lemma chars_json_string b s :
  chars (json_string b s) = ascii_of_N 34 :: concat (map (json_char b) (chars s)) ++ [ascii_of_N 34].
Proof. unfold json_string. by rw chars_of_chars. Qed.

Lemma scan_json_string b s r :
  scan_string ((concat (map (json_char b) (chars s)) ++ [ascii_of_N 34]) ++ r) = Some (chars s, r).
Proof.
  rw -app_assoc. induction (chars s) as [|c l IH]; [done|]. cbn [map concat]. rw -app_assoc.
  by apply scan_json_char.
Qed.

(** *** Sorting *)

Lemma insert_item_map {A B} (g : A → B) kv l :
  insert_item (kv.1, g kv.2) (map (λ kv, (kv.1, g kv.2)) l) = map (λ kv, (kv.1, g kv.2)) (insert_item kv l).
Proof. induction l as [|kv' l IH]; cbn; [done|]. destruct (str_leb _ _); [done|]. cbn. by rw IH. Qed.

Lemma sort_items_map {A B} (g : A → B) l :
  sort_items (map (λ kv, (kv.1, g kv.2)) l) = map (λ kv, (kv.1, g kv.2)) (sort_items l).
Proof. induction l as [|kv l IH]; cbn; [done|]. unfold sort_items in *. rw IH. apply insert_item_map. Qed.

Lemma insert_item_perm {A} (kv : string * A) l : insert_item kv l ≡ₚ kv :: l.
Proof.
  induction l as [|kv' l IH]; cbn; [done|]. destruct (str_leb _ _); [done|]. rw IH. constructor.
Qed.

Lemma sort_items_perm {A} (l : list (string * A)) : sort_items l ≡ₚ l.
Proof. induction l as [|kv l IH]; cbn; [done|]. rw insert_item_perm. by constructor. Qed.

Definition unsorted (f : json_format) : json_format :=
  {| jf_ascii := jf_ascii f; jf_sort := false; jf_item := jf_item f; jf_key := jf_key f |}.

(** Printing with sorted keys is printing the canonical value as it is. *)
Lemma json_print_canon f v : jf_sort f = true → json_print f v = json_print (unsorted f) (json_canon v).
Proof.
  intros Hf. induction v as [| | | | |l IH|d IH] using pyval_nested_ind; try done; cbn.
  - f_equal. rw map_map. f_equal. f_equal. induction IH as [|v l Hv _ IHl]; cbn; [done|]. by rw Hv IHl.
  - rw Hf. rw (sort_items_map (json_canon)). rw map_map. cbn.
    f_equal. f_equal. f_equal.
    rw (sort_items_map (json_print f)). rw !map_map. cbn. apply map_ext_Forall.
    rw (sort_items_perm d). apply (Forall_impl _ _ _ IH). intros [k v] Hv. cbn in *. by rw Hv.
Qed.

Lemma json_canon_ok v : json_ok v → json_ok (json_canon v).
Proof.
  induction v as [| | | | |l IH|d IH] using pyval_nested_ind; try done; cbn.
  - rw map_map !foldr_and_Forall. intros H. induction IH as [|v l Hv _ IHl]; inversion H; constructor; auto.
  - rw (sort_items_map json_canon) map_map !foldr_and_Forall. cbn. intros [Hn Ho]. split.
    + unfold dict_keys. change (fst <$> ?l) with (map fst l). rw map_map. cbn. rw (sort_items_perm d). exact Hn.
    + rw (sort_items_perm d). apply Forall_forall. intros kv Hkv. rw !Forall_forall in IH, Ho. auto.
Qed.

(** *** Values *)

Section roundtrip.
Context (f : json_format) (w1 w2 : string).
Hypothesis (Hitem : jf_item f = String "," w1) (Hw1 : Forall (λ c, json_space c = true) (chars w1)).
Hypothesis (Hkey : jf_key f = String ":" w2) (Hw2 : Forall (λ c, json_space c = true) (chars w2)).
Hypothesis (Hsort : jf_sort f = false).

Abbreviation print v := (chars (json_print f v)).

(** The text of a value does not start with white space or closing punctuation. *)
Definition opens (l : list ascii) : Prop :=
  ∃ c r, l = c :: r ∧ json_space c = false ∧ code c ≠ 93%N ∧ code c ≠ 125%N.

Lemma number_head l v : scan_number l = Some (v, []) →
  ∃ c r, l = c :: r ∧ (is_digit c = true ∨ code c = 45%N).
Proof.
  unfold scan_number. destruct l as [|c l]; [done|]. intros H. exists c, l. split; [done|].
  destruct (N.eqb_spec (code c) 45) as [Ec|Ec]; [by right|left].
  unfold int_part in H. destruct (N.eqb_spec (code c) 48) as [E|_].
  - unfold is_digit, in_range. by rw E.
  - cbn [take_while] in H. by destruct (is_digit c).
Qed.

Lemma digit_cases c : is_digit c = true ∨ code c = 45%N →
  json_space c = false ∧ code c ≠ 93%N ∧ code c ≠ 125%N ∧ code c ≠ 34%N ∧ code c ≠ 91%N ∧ code c ≠ 123%N ∧
  code c ≠ 110%N ∧ code c ≠ 116%N ∧ code c ≠ 102%N.
Proof.
  unfold is_digit, in_range, json_space. intros [[H1%N.leb_le H2%N.leb_le]%andb_true_iff|H].
  - split_and!; try lia. apply orb_false_iff; split; [repeat (apply orb_false_iff; split)|]; apply N.eqb_neq; lia.
  - rw H. by split_and!.
Qed.

Lemma print_opens v r : json_ok v → opens (print v ++ r).
Proof.
  destruct v as [|[]|z|x|s|l|d]; intros Hok.
  - by eexists _, _.
  - by eexists _, _.
  - by eexists _, _.
  - destruct (number_head _ _ (scan_pretty z)) as (c & t & E & Hc%digit_cases). cbn [json_print]. rw E.
    exists c, (t ++ r). naive_solver.
  - destruct (number_head _ _ Hok) as (c & t & E & Hc%digit_cases). cbn [json_print]. rw E.
    exists c, (t ++ r). naive_solver.
  - cbn [json_print]. rw chars_json_string. by eexists _, _.
  - by eexists _, _.
  - by eexists _, _.
Qed.

Lemma opens_skip l : opens l → skip_ws l = l.
Proof. intros (c & r & -> & Hc & _). cbn. by rw Hc. Qed.

Lemma prefix_head w c l : w ≠ [] → head w ≠ Some c → prefix_of_chars w (c :: l) = false.
Proof. destruct w as [|x w]; [done|]. intros _ Hx. cbn. rw bool_decide_eq_false_2; [|done]. intros ->. by destruct Hx. Qed.

(** A number after a failed look for punctuation and literals. *)
Lemma parse_number n l v r :
  scan_number l = Some (v, []) → stops r → parse_value (Datatypes.S n) (l ++ r) = Some (v, r).
Proof.
  intros Hn Hs. pose proof (scan_number_app _ _ _ Hn Hs) as Happ.
  destruct (number_head _ _ Hn) as (c & t & -> & Hc%digit_cases).
  destruct Hc as (_ & _ & _ & H34 & H91 & H123 & H110 & H116 & H102). cbn [app] in *.
  cbn [parse_value]. apply N.eqb_neq in H34 as ->. apply N.eqb_neq in H91 as ->. apply N.eqb_neq in H123 as ->.
  unfold literals. cbn [scan_literal].
  rw !prefix_head; try done; intros [= <-]; first [by destruct H110|by destruct H116|by destruct H102].
Qed.

(** The text behind an element: a comma and the next elements, or the end. *)
Definition tail_of (j : list string) : list ascii :=
  match j with [] => [] | _ => ","%char :: chars w1 ++ chars (str_join (jf_item f) j) end.

Lemma join_cons x j : chars (str_join (jf_item f) (x :: j)) = chars x ++ tail_of j.
Proof. destruct j as [|y j]; cbn; [by rw app_nil_r|]. rw !chars_app Hitem. done. Qed.

Lemma skip_char c l : json_space c = false → skip_ws (c :: l) = c :: l.
Proof. intros Hc. cbn. by rw Hc. Qed.

Lemma skip_spaces l r : Forall (λ c, json_space c = true) l → opens r → skip_ws (l ++ r) = r.
Proof. intros Hl Hr. rw (drop_while_all _ _ _ Hl). by apply opens_skip. Qed.

Lemma parse_elements_print n v l r :
  Forall (λ v, json_ok v ∧ ∀ n r, (length (print v) ≤ n)%nat → stops r → parse_value n (print v ++ r) = Some (v, r))
    (v :: l) →
  (length (chars (str_join (jf_item f) (map (json_print f) (v :: l)))) < n)%nat →
  parse_elements n (chars (str_join (jf_item f) (map (json_print f) (v :: l))) ++ "]"%char :: r)
  = Some (v :: l, r).
Proof.
  revert n v. induction l as [|v' l IH]; intros n v [[Hok Hp] HF]%Forall_cons Hn; (destruct n as [|n]; [lia|]);
    cbn [map] in *; rw join_cons in Hn; rw join_cons; rw length_app in Hn; cbn [parse_elements]; rw -app_assoc.
  - rw Hp; [lia|by split_and!|done].
  - cbn [tail_of length] in Hn |- *. rw length_app in Hn.
    rw Hp; [lia|by split_and!|]. cbn [mbind option_bind app]. rw (skip_char ","%char _ eq_refl).
    change (N.eqb (code ","%char) 93) with false. change (N.eqb (code ","%char) 44) with true. cbn iota.
    rw -app_assoc (skip_spaces _ _ Hw1).
    { rw join_cons -app_assoc. apply print_opens. by apply Forall_cons in HF as [[? _] _]. }
    rw IH; [done|lia|done].
Qed.

Definition member (kv : string * pyval) : string := json_string (jf_ascii f) kv.1 +:+ jf_key f +:+ json_print f kv.2.

Lemma parse_members_print n kv d r :
  Forall (λ kv : string * pyval, json_ok kv.2 ∧
    ∀ n r, (length (print kv.2) ≤ n)%nat → stops r → parse_value n (print kv.2 ++ r) = Some (kv.2, r)) (kv :: d) →
  (length (chars (str_join (jf_item f) (map member (kv :: d)))) < n)%nat →
  parse_members n (chars (str_join (jf_item f) (map member (kv :: d))) ++ "}"%char :: r) = Some (kv :: d, r).
Proof.
  revert n kv. induction d as [|kv' d IH]; intros n [k v] [[Hok Hp] HF]%Forall_cons Hn; (destruct n as [|n]; [lia|]);
    cbn [map] in *; rw join_cons in Hn; rw join_cons; rw length_app in Hn; cbn [parse_members];
    unfold member in Hn at 1; unfold member at 1; cbn [fst snd] in *; rw !chars_app in Hn; rw !chars_app;
    rw chars_json_string in Hn; rw chars_json_string; rw Hkey in Hn; rw Hkey; rw !length_app in Hn;
    cbn [app String.list_ascii_of_string length] in *; rw -!app_assoc; cbn [app];
    change (N.eqb (code (ascii_of_N 34)) 34) with true; cbn [negb];
    rw (app_assoc _ [ascii_of_N 34]) scan_json_string; cbn [mbind option_bind]; rw (skip_char ":"%char _ eq_refl);
    change (N.eqb (code ":"%char) 58) with true; cbn [negb];
    rw -(app_assoc (chars w2)); (rw (skip_spaces _ _ Hw2); [by apply print_opens|]).
  - rw length_app in Hn. rw Hp; [lia|by split_and!|]. cbn. by rw of_chars_chars.
  - cbn [tail_of length] in Hn |- *. rw !length_app in Hn.
    rw Hp; [lia|by split_and!|]. cbn [mbind option_bind app]. rw (skip_char ","%char _ eq_refl).
    change (N.eqb (code ","%char) 125) with false. change (N.eqb (code ","%char) 44) with true. cbn iota.
    rw -app_assoc (skip_spaces _ _ Hw1).
    { rw join_cons -app_assoc. unfold member. rw chars_app chars_json_string. by eexists _, _. }
    rw IH; [done|lia|]. cbn. by rw of_chars_chars.
Qed.

Lemma dict_update_id (d e : dict pyval) : NoDup (dict_keys (d ++ e)) → dict_update d e = d ++ e.
Proof.
  revert d. induction e as [|[k v] e IH]; intros d Hn; [by rw app_nil_r|].
  assert (Hk : dict_set k v d = d ++ [(k, v)]).
  { assert (Hnin : k ∉ dict_keys d).
    { unfold dict_keys in Hn. rw fmap_app in Hn. apply NoDup_app in Hn as (_ & Hd & _). intros Hin.
      apply (Hd k Hin). by left. }
    clear -Hnin. induction d as [|[k' v'] d IH]; cbn in *; [done|].
    apply not_elem_of_cons in Hnin as [Hne Hnin]. rw bool_decide_eq_false_2; [done|]. by rw IH. }
  cbn. rw Hk IH -app_assoc; done.
Qed.

Lemma parse_print v n r :
  json_ok v → (length (print v) ≤ n)%nat → stops r → parse_value n (print v ++ r) = Some (v, r).
Proof.
  revert n r. induction v as [| | | | |l IH|d IH] using pyval_nested_ind; intros n r Hok Hn Hs;
    (destruct n as [|n]; [by (destruct (print_opens _ [] Hok) as (? & ? & E & _); rw app_nil_r in E; rw E in Hn; cbn in Hn; lia)|]).
  - done.
  - by destruct b.
  - by apply parse_number; [apply scan_pretty|].
  - by apply parse_number.
  - cbn [json_print]. rw chars_json_string. cbn [app parse_value].
    change (N.eqb (code (ascii_of_N 34)) 34) with true. cbn iota. rw scan_json_string. cbn. by rw of_chars_chars.
  - destruct l as [|v l]; [done|]. cbn [json_print] in *. rw !chars_app in Hn. rw !chars_app -!app_assoc.
    cbn [String.list_ascii_of_string app length] in Hn |- *. rw length_app in Hn. cbn [length] in Hn.
    assert (HF : Forall (λ v, json_ok v ∧ ∀ n r, (length (print v) ≤ n)%nat → stops r →
      parse_value n (print v ++ r) = Some (v, r)) (v :: l)).
    { cbn [json_ok] in Hok. apply (proj1 (foldr_and_Forall _ _)) in Hok. rw !Forall_forall in IH, Hok.
      apply Forall_forall. auto. }
    assert (Ho : opens (chars (str_join (jf_item f) (map (json_print f) (v :: l))) ++ "]"%char :: r)).
    { cbn [map]. rw join_cons -app_assoc. apply print_opens. by apply Forall_cons in HF as [[? _] _]. }
    cbn [parse_value]. change (N.eqb (code "["%char) 34) with false. change (N.eqb (code "["%char) 91) with true.
    cbn iota. rw (opens_skip _ Ho). destruct Ho as (c & t & E & _ & Hc & _). rw E.
    apply N.eqb_neq in Hc as ->. rw -E parse_elements_print; [done|lia|done].
  - destruct d as [|kv d]; [cbn [json_print]; by rw Hsort|]. cbn [json_print] in *. rw Hsort in Hn. rw Hsort. rw map_map in Hn. rw map_map.
    cbn [fst snd] in *. change (map _ (kv :: d)) with (map member (kv :: d)) in Hn.
    change (map _ (kv :: d)) with (map member (kv :: d)). rw !chars_app in Hn. rw !chars_app -!app_assoc.
    cbn [String.list_ascii_of_string app length] in Hn |- *. rw length_app in Hn. cbn [length] in Hn.
    cbn [json_ok] in Hok. destruct Hok as [Hnd Hok%foldr_and_Forall].
    assert (HF : Forall (λ kv : string * pyval, json_ok kv.2 ∧ ∀ n r, (length (print kv.2) ≤ n)%nat → stops r →
      parse_value n (print kv.2 ++ r) = Some (kv.2, r)) (kv :: d)).
    { rw !Forall_forall in IH, Hok. apply Forall_forall. auto. }
    assert (Ho : opens (chars (str_join (jf_item f) (map member (kv :: d))) ++ "}"%char :: r)).
    { cbn [map]. rw join_cons -app_assoc. unfold member. rw chars_app chars_json_string. by eexists _, _. }
    cbn [parse_value]. change (N.eqb (code "{"%char) 34) with false. change (N.eqb (code "{"%char) 91) with false.
    change (N.eqb (code "{"%char) 123) with true.
    cbn iota. rw (opens_skip _ Ho). destruct Ho as (c & t & E & _ & _ & Hc). rw E.
    apply N.eqb_neq in Hc as ->. rw -E parse_members_print; [done|lia|]. cbn [mbind option_bind].
    unfold dict_of. by rw dict_update_id.
Qed.
End roundtrip.

Lemma parse_print_all f v :
  json_seps f → jf_sort f = false → json_ok v → json_loads (json_print f v) = Some v.
Proof.
  intros (w1 & w2 & Hi & Hw1 & Hk & Hw2) Hs Hok. unfold json_loads.
  pose proof (print_opens f v [] Hok) as Ho. rw app_nil_r in Ho. rw (opens_skip _ Ho).
  rw -{1}(app_nil_r (chars (json_print f v))).
  rw (parse_print f w1 w2 Hi Hw1 Hk Hw2 Hs v); [done| |done|done]. rw chars_length. lia.
Qed.

(** What [json.dumps] prints, [json.loads] reads back: the value itself, or the
    value with its keys in order when the keys were sorted. *)
Lemma json_roundtrip f v :
  json_seps f → json_ok v →
  json_loads (json_print f v) = Some (if jf_sort f then json_canon v else v).
Proof.
  intros Hs Hok. destruct (jf_sort f) eqn:E; [|by apply parse_print_all].
  rw (json_print_canon f v E). apply parse_print_all; [done|done|by apply json_canon_ok].
Qed.

Lemma json_compact_roundtrip v : json_ok v → json_loads (json_compact v) = Some (json_canon v).
Proof. apply (json_roundtrip {| jf_sort := true |}). exists "", "". by repeat constructor. Qed.

Lemma json_plain_roundtrip v : json_ok v → json_loads (json_plain v) = Some v.
Proof. apply (json_roundtrip {| jf_sort := false |}). exists "", "". by repeat constructor. Qed.

(** Sorting the keys does not change what a dict holds. *)
Lemma dict_get_perm {A} (d e : dict A) k : d ≡ₚ e → dict_wf d → dict_get k d = dict_get k e.
Proof.
  intros Hp Hd. assert (He : dict_wf e) by (unfold dict_wf, dict_keys in *; by rw -Hp).
  destruct (dict_get k d) as [v|] eqn:E.
  - symmetry. apply elem_dict_get; [done|]. rw -Hp. by apply dict_get_Some_elem.
  - symmetry. apply dict_get_None. unfold dict_keys. rw -Hp. by apply dict_get_None.
Qed.

Lemma dict_get_map {A B} (g : A → B) (d : dict A) k :
  dict_get k (map (λ kv, (kv.1, g kv.2)) d) = option_map g (dict_get k d).
Proof. induction d as [|[k' v] d IH]; cbn; [done|]. by case_bool_decide. Qed.

(** The members of a canonical object. *)
Lemma canon_get (d : dict pyval) k :
  dict_wf d → dget k (sort_items (map (λ kv, (kv.1, json_canon kv.2)) d)) = json_canon (dget k d).
Proof.
  intros Hd. unfold dget, dict_get_or. rw (dict_get_perm _ (map (λ kv, (kv.1, json_canon kv.2)) d)).
  - apply sort_items_perm.
  - unfold dict_wf, dict_keys. rw (sort_items_perm (map _ d)) -list_fmap_compose. exact Hd.
  - rw dict_get_map. by destruct (dict_get k d).
Qed.
