(* ===== verification/Events.v ===== *)
(** * Runtime events ([src/domain/events.py], [src/domain/errors.py])

    Event records, their causal chains and the envelopes the queue carries.
    [BaseRuntimeEvent]'s fields are the record [event_base]; the six event
    classes are the constructors of [RuntimeEvent]. *)

From S2P Require Import Prelude PyStr PyVal.

(** ** Causality *)

Record EventCausality := {
  cs_root_event_id : option string;
  cs_parent_event_id : option string;
  cs_depth : Z;
  cs_chain : list string
}.

Definition causality_root : EventCausality :=
  {| cs_root_event_id := None; cs_parent_event_id := None; cs_depth := 0; cs_chain := [] |}.

(** [EventCausality.child] *)
Definition causality_child (c : EventCausality) (parent : string) : EventCausality := {|
  cs_root_event_id := Some (ostr_or (cs_root_event_id c) parent);
  cs_parent_event_id := Some parent;
  cs_depth := cs_depth c + 1;
  cs_chain := cs_chain c ++ [parent]
|}.

(** ** Events *)

Record event_base := {
  ev_event_id : string;
  ev_event_type : string;
  ev_workspace_id : string;
  ev_project_id : option string;
  ev_payload : dict pyval;
  ev_occurred_at : datetime;
  ev_correlation_id : option string;
  ev_causality : EventCausality;
  ev_idempotency_key : option string
}.

Inductive RuntimeEvent :=
  | DomainEvent (b : event_base)
  | ScheduledEvent (b : event_base) (schedule_id : option string)
  | ManualInvocationEvent (b : event_base) (actor_id : option string)
  | AgentActionEvent (b : event_base) (plan_id action_id : string)
  | SubAgentTaskEvent (b : event_base) (plan_id node_id : string)
  | SubAgentCompletedEvent (b : event_base) (plan_id node_id status : string).

Definition base (e : RuntimeEvent) : event_base :=
  match e with
  | DomainEvent b | ScheduledEvent b _ | ManualInvocationEvent b _
  | AgentActionEvent b _ _ | SubAgentTaskEvent b _ _ | SubAgentCompletedEvent b _ _ _ => b
  end.

(** The discriminator [kind]. *)
Definition event_kind (e : RuntimeEvent) : string :=
  match e with
  | DomainEvent _ => "domain"
  | ScheduledEvent _ _ => "scheduled"
  | ManualInvocationEvent _ _ => "manual"
  | AgentActionEvent _ _ _ => "agent_action"
  | SubAgentTaskEvent _ _ _ => "subagent_task"
  | SubAgentCompletedEvent _ _ _ _ => "subagent_completed"
  end.

(** [event.plan_id if hasattr(event, "plan_id") else None] *)
Definition event_plan_id (e : RuntimeEvent) : option string :=
  match e with
  | AgentActionEvent _ p _ | SubAgentTaskEvent _ p _ | SubAgentCompletedEvent _ p _ _ => Some p
  | _ => None
  end.

(** [event.model_copy(update={"payload": p})] *)
Definition base_with_payload (p : dict pyval) (b : event_base) : event_base := {|
  ev_event_id := ev_event_id b; ev_event_type := ev_event_type b; ev_workspace_id := ev_workspace_id b;
  ev_project_id := ev_project_id b; ev_payload := p; ev_occurred_at := ev_occurred_at b;
  ev_correlation_id := ev_correlation_id b; ev_causality := ev_causality b;
  ev_idempotency_key := ev_idempotency_key b |}.

Definition event_with_payload (p : dict pyval) (e : RuntimeEvent) : RuntimeEvent :=
  match e with
  | DomainEvent b => DomainEvent (base_with_payload p b)
  | ScheduledEvent b s => ScheduledEvent (base_with_payload p b) s
  | ManualInvocationEvent b a => ManualInvocationEvent (base_with_payload p b) a
  | AgentActionEvent b pl a => AgentActionEvent (base_with_payload p b) pl a
  | SubAgentTaskEvent b pl n => SubAgentTaskEvent (base_with_payload p b) pl n
  | SubAgentCompletedEvent b pl n s => SubAgentCompletedEvent (base_with_payload p b) pl n s
  end.

(** ** Envelopes *)

Record EventEnvelope := {
  env_envelope_id : string;
  env_event : RuntimeEvent;
  env_received_at : datetime;
  env_attempt : Z
}.

Definition envelope_event_id (e : EventEnvelope) : string := ev_event_id (base (env_event e)).
Definition envelope_event_type (e : EventEnvelope) : string := ev_event_type (base (env_event e)).

(** The causality of an event raised while an envelope is processed. *)
Definition child_causality (e : EventEnvelope) : EventCausality :=
  causality_child (ev_causality (base (env_event e))) (envelope_event_id e).

(** ** Well-formed causal chains

    Events are created with an empty chain or as children of processed events,
    so the depth counts the chain and the ends of the chain are the root and
    the parent. *)

Definition causality_wf (c : EventCausality) : Prop :=
  cs_depth c = Z.of_nat (length (cs_chain c)) ∧
  Forall (λ i, str_truthy i = true) (cs_chain c) ∧
  cs_root_event_id c = head (cs_chain c) ∧
  cs_parent_event_id c = last (cs_chain c).

Inductive causality_reachable : EventCausality → Prop :=
  | cr_root : causality_reachable causality_root
  | cr_child c parent :
      causality_reachable c → str_truthy parent = true →
      causality_reachable (causality_child c parent).

Lemma causality_root_wf : causality_wf causality_root.
Proof. by repeat split; constructor. Qed.

Lemma causality_child_wf c parent :
  causality_wf c → str_truthy parent = true → causality_wf (causality_child c parent).
Proof.
  intros (Hd & Ht & Hr & Hp) Hpar. unfold causality_wf; simpl. split_and!.
  - rw length_app Hd /=. lia.
  - apply Forall_app. split; [done|by repeat constructor].
  - rw Hr. destruct (cs_chain c) as [|x l] eqn:E; simpl; [done|].
    inversion Ht as [|?? Hx _]; subst. unfold str_or. by rw Hx.
  - by rw last_snoc.
Qed.

#[export] Hint Resolve causality_root_wf causality_child_wf : core.

Lemma causality_reachable_wf_lemma c : causality_reachable c → causality_wf c.
Proof. induction 1; eauto. Qed.

(** The child of a chain keeps its root and is strictly deeper. *)
Lemma causality_child_root c parent r :
  cs_root_event_id c = Some r → str_truthy r = true →
  cs_root_event_id (causality_child c parent) = Some r.
Proof. intros Hr Ht. simpl. rw Hr /=. unfold str_or. by rw Ht. Qed.
