(* ===== verification/Plans.v ===== *)
(** * Planned actions and plans ([src/domain/actions.py], [src/domain/plans.py])

    The action and plan records, the choice of the next action to execute and
    the plan status derived from the statuses of its actions.  [now] arguments
    are the value [utc_now()] has at that call. *)

From S2P Require Import Prelude PyStr PyVal.

(** ** Actions *)

Inductive ActionStatus :=
  | APending | ARunning | ACompleted | AFailed | ASkipped | ARequiresApproval | AStale.

#[export] Instance ActionStatus_eq_dec : EqDecision ActionStatus.
Proof. solve_decision. Defined.

Definition action_status_value (s : ActionStatus) : string :=
  match s with
  | APending => "pending"
  | ARunning => "running"
  | ACompleted => "completed"
  | AFailed => "failed"
  | ASkipped => "skipped"
  | ARequiresApproval => "requires_approval"
  | AStale => "stale"
  end.

Record WorkItemLeafDraft := {
  wd_title : string;
  wd_description : string;
  wd_start_date : option string;
  wd_due_date : option string;
  wd_priority : option string;
  wd_status : option string;
  wd_assignee_usernames : list string;
  wd_label_names : list string
}.

(** The subclasses add [children], one level each. *)
Record WorkItemChildDraft := { wc_leaf : WorkItemLeafDraft; wc_children : list WorkItemLeafDraft }.
Record WorkItemDraft := { wi_leaf : WorkItemLeafDraft; wi_children : list WorkItemChildDraft }.

Record WorkItemUpdateDraft := {
  wu_item_id : string;
  wu_title : option string;
  wu_description : option string;
  wu_priority : option string;
  wu_status : option string;
  wu_due_date : option string;
  wu_assignee_usernames : list string;
  wu_label_names : list string
}.

Record PlannedAction := {
  ac_action_id : string;
  ac_plan_id : string;
  ac_action_type : string;
  ac_tool_name : string;
  ac_instruction : string;
  ac_input : dict pyval;
  ac_work_items : list WorkItemDraft;
  ac_work_item_updates : list WorkItemUpdateDraft;
  ac_target_item_ids : list string;
  ac_depends_on : list string;
  ac_requires_approval : bool;
  ac_status : ActionStatus;
  ac_idempotency_key : string;
  ac_expected_entity_versions : dict version;
  ac_created_at : datetime;
  ac_updated_at : datetime
}.

#[export] Instance PlannedAction_eq_dec : EqDecision PlannedAction.
Proof.
  assert (EqDecision WorkItemLeafDraft) by solve_decision. assert (EqDecision WorkItemChildDraft) by solve_decision.
  assert (EqDecision WorkItemDraft) by solve_decision. assert (EqDecision WorkItemUpdateDraft) by solve_decision.
  solve_decision.
Defined.

Definition is_unblocked (a : PlannedAction) (completed : gset string) : bool :=
  forallb (λ i, bool_decide (i ∈ completed)) (ac_depends_on a).

(** [action.with_status(status)] *)
Definition with_status (now : datetime) (s : ActionStatus) (a : PlannedAction) : PlannedAction := {|
  ac_action_id := ac_action_id a; ac_plan_id := ac_plan_id a; ac_action_type := ac_action_type a;
  ac_tool_name := ac_tool_name a; ac_instruction := ac_instruction a; ac_input := ac_input a;
  ac_work_items := ac_work_items a; ac_work_item_updates := ac_work_item_updates a;
  ac_target_item_ids := ac_target_item_ids a; ac_depends_on := ac_depends_on a;
  ac_requires_approval := ac_requires_approval a; ac_status := s;
  ac_idempotency_key := ac_idempotency_key a;
  ac_expected_entity_versions := ac_expected_entity_versions a;
  ac_created_at := ac_created_at a; ac_updated_at := now |}.

(** [action.model_copy(update={"input": i})] *)
Definition action_with_input (i : dict pyval) (a : PlannedAction) : PlannedAction := {|
  ac_action_id := ac_action_id a; ac_plan_id := ac_plan_id a; ac_action_type := ac_action_type a;
  ac_tool_name := ac_tool_name a; ac_instruction := ac_instruction a; ac_input := i;
  ac_work_items := ac_work_items a; ac_work_item_updates := ac_work_item_updates a;
  ac_target_item_ids := ac_target_item_ids a; ac_depends_on := ac_depends_on a;
  ac_requires_approval := ac_requires_approval a; ac_status := ac_status a;
  ac_idempotency_key := ac_idempotency_key a;
  ac_expected_entity_versions := ac_expected_entity_versions a;
  ac_created_at := ac_created_at a; ac_updated_at := ac_updated_at a |}.

(** ** Plans *)

Inductive PlanStatus :=
  | PPlanned | PRunning | PCompleted | PFailed | PCancelled | PWaitingForApproval | PReplanRequired.

#[export] Instance PlanStatus_eq_dec : EqDecision PlanStatus.
Proof. solve_decision. Defined.

Definition plan_status_value (s : PlanStatus) : string :=
  match s with
  | PPlanned => "planned"
  | PRunning => "running"
  | PCompleted => "completed"
  | PFailed => "failed"
  | PCancelled => "cancelled"
  | PWaitingForApproval => "waiting_for_approval"
  | PReplanRequired => "replan_required"
  end.

Record AgentPlan := {
  pl_plan_id : string;
  pl_parent_run_id : option string;
  pl_node_id : option string;
  pl_source_event_id : string;
  pl_workspace_id : string;
  pl_project_id : option string;
  pl_goal : string;
  pl_prompt_id : string;
  pl_prompt_version : string;
  pl_skill_ids : list string;
  pl_tool_names : list string;
  pl_actions : list PlannedAction;
  pl_status : PlanStatus;
  pl_context_snapshot_ref : string;
  pl_created_at : datetime;
  pl_updated_at : datetime
}.

#[export] Instance AgentPlan_eq_dec : EqDecision AgentPlan.
Proof. solve_decision. Defined.

(** [plan.model_copy(update={"actions": l, "status": s, "updated_at": now})] *)
Definition plan_update (l : list PlannedAction) (s : PlanStatus) (now : datetime) (p : AgentPlan) : AgentPlan := {|
  pl_plan_id := pl_plan_id p; pl_parent_run_id := pl_parent_run_id p; pl_node_id := pl_node_id p;
  pl_source_event_id := pl_source_event_id p; pl_workspace_id := pl_workspace_id p;
  pl_project_id := pl_project_id p; pl_goal := pl_goal p; pl_prompt_id := pl_prompt_id p;
  pl_prompt_version := pl_prompt_version p; pl_skill_ids := pl_skill_ids p;
  pl_tool_names := pl_tool_names p; pl_actions := l; pl_status := s;
  pl_context_snapshot_ref := pl_context_snapshot_ref p;
  pl_created_at := pl_created_at p; pl_updated_at := now |}.

(** [plan.model_copy(update={"parent_run_id": r, "node_id": n})] *)
Definition plan_as_subplan (r n : string) (p : AgentPlan) : AgentPlan := {|
  pl_plan_id := pl_plan_id p; pl_parent_run_id := Some r; pl_node_id := Some n;
  pl_source_event_id := pl_source_event_id p; pl_workspace_id := pl_workspace_id p;
  pl_project_id := pl_project_id p; pl_goal := pl_goal p; pl_prompt_id := pl_prompt_id p;
  pl_prompt_version := pl_prompt_version p; pl_skill_ids := pl_skill_ids p;
  pl_tool_names := pl_tool_names p; pl_actions := pl_actions p; pl_status := pl_status p;
  pl_context_snapshot_ref := pl_context_snapshot_ref p;
  pl_created_at := pl_created_at p; pl_updated_at := pl_updated_at p |}.

Definition is_subplan (p : AgentPlan) : bool :=
  match pl_parent_run_id p with Some _ => true | None => false end.

Definition get_action (p : AgentPlan) (id : string) : option PlannedAction :=
  find_first (λ a, bool_decide (ac_action_id a = id)) (pl_actions p).

Definition has_status (s : ActionStatus) (a : PlannedAction) : bool := bool_decide (ac_status a = s).

Definition completed_of (l : list PlannedAction) : gset string :=
  list_to_set (map ac_action_id (List.filter (has_status ACompleted) l)).

Definition completed_action_ids (p : AgentPlan) : gset string := completed_of (pl_actions p).

(** The statuses in which no action of a plan is executed. *)
Definition plan_halted (s : PlanStatus) : bool :=
  match s with
  | PCompleted | PFailed | PCancelled | PWaitingForApproval | PReplanRequired => true
  | PPlanned | PRunning => false
  end.

Definition next_pending_action (p : AgentPlan) : option PlannedAction :=
  if plan_halted (pl_status p) then None
  else
    let completed := completed_action_ids p in
    find_first (λ a, has_status APending a && is_unblocked a completed) (pl_actions p).

(** The status [replace_action] gives a plan with these actions. *)
Definition derived_status (l : list PlannedAction) : PlanStatus :=
  if forallb (λ a, has_status ACompleted a || has_status ASkipped a) l then PCompleted
  else if existsb (has_status AFailed) l then PFailed
  else if existsb (has_status ARequiresApproval) l then PWaitingForApproval
  else if existsb (has_status AStale) l then PReplanRequired
  else PRunning.

Definition replace_in (a : PlannedAction) (l : list PlannedAction) : list PlannedAction :=
  map (λ b, if bool_decide (ac_action_id b = ac_action_id a) then a else b) l.

Definition replace_action (now : datetime) (a : PlannedAction) (p : AgentPlan) : AgentPlan :=
  let actions := replace_in a (pl_actions p) in
  plan_update actions (derived_status actions) now p.

(** ** Lemmas on actions and statuses *)

Definition action_ids (l : list PlannedAction) : list string := map ac_action_id l.

Lemma has_status_true s a : has_status s a = true ↔ ac_status a = s.
Proof. unfold has_status. by rw bool_decide_eq_true. Qed.

Lemma completed_of_elem l i :
  i ∈ completed_of l ↔ ∃ a, a ∈ l ∧ ac_status a = ACompleted ∧ ac_action_id a = i.
Proof.
  unfold completed_of. rw elem_of_list_to_set list_elem_of_In in_map_iff.
  split.
  - intros (a & <- & Ha). apply list_elem_of_In, filter_elem in Ha as [Ha Hs].
    exists a. by rw has_status_true in Hs.
  - intros (a & Ha & Hs & <-). exists a. split; [done|].
    apply list_elem_of_In, filter_elem. by rw has_status_true.
Qed.

Lemma is_unblocked_spec a c : is_unblocked a c = true ↔ ∀ i, i ∈ ac_depends_on a → i ∈ c.
Proof. unfold is_unblocked. rw forallb_elem. by setoid_rewrite bool_decide_eq_true. Qed.

Lemma get_action_Some p i a : get_action p i = Some a → ac_action_id a = i ∧ a ∈ pl_actions p.
Proof. intros [H%bool_decide_eq_true ?]%find_first_Some. done. Qed.

Lemma next_pending_Some p a :
  next_pending_action p = Some a →
  a ∈ pl_actions p ∧ ac_status a = APending ∧ plan_halted (pl_status p) = false ∧
  ∀ i, i ∈ ac_depends_on a → i ∈ completed_action_ids p.
Proof.
  unfold next_pending_action. destruct (plan_halted _); [done|].
  intros [[Hs Hu]%andb_true_iff Hin]%find_first_Some.
  rw has_status_true in Hs. rw is_unblocked_spec in Hu. done.
Qed.

Lemma replace_in_ids a l : action_ids (replace_in a l) = action_ids l.
Proof.
  unfold action_ids, replace_in. rw map_map. apply map_ext_in. intros b _.
  case_bool_decide; done.
Qed.

Lemma replace_in_elem a b l :
  b ∈ replace_in a l ↔ (b = a ∧ ac_action_id a ∈ action_ids l) ∨ (b ∈ l ∧ ac_action_id b ≠ ac_action_id a).
Proof.
  unfold replace_in, action_ids. rw !list_elem_of_fmap. split.
  - intros (c & -> & Hin). case_bool_decide as E; [left|right; done].
    split; [done|]. by exists c.
  - intros [[-> (c & Hc & Hin)]|[Hin Hne]].
    + exists c. split; [by rw bool_decide_eq_true_2|done].
    + exists b. split; [by rw bool_decide_eq_false_2|done].
Qed.

(** With unique ids, replacing an action changes that position only. *)
Lemma replace_in_lookup a l i b :
  NoDup (action_ids l) → l !! i = Some b → ac_action_id b = ac_action_id a →
  replace_in a l = <[i := a]> l.
Proof.
  revert i. induction l as [|c l IH]; intros [|i]; simpl; try done.
  - rw NoDup_cons. intros [Hnin Hnd] [= ->] Hid. rw bool_decide_eq_true_2 //. f_equal.
    clear IH Hnd. induction l as [|d l IH]; simpl; [done|].
    rw not_elem_of_cons in Hnin. destruct Hnin as [Hne Hnin].
    rw bool_decide_eq_false_2; [congruence|]. f_equal. by apply IH.
  - rw NoDup_cons. intros [Hnin Hnd] Hl Hid. rw bool_decide_eq_false_2.
    + intros Heq. apply Hnin, list_elem_of_fmap.
      exists b. split; [congruence|]. exact (list_elem_of_lookup_2 _ _ _ Hl).
    + f_equal. by apply IH.
Qed.

Lemma with_status_id now s a : ac_action_id (with_status now s a) = ac_action_id a.
Proof. done. Qed.

Lemma replace_action_ids now a p : action_ids (pl_actions (replace_action now a p)) = action_ids (pl_actions p).
Proof. apply replace_in_ids. Qed.

(** ** The status of a plan

    [replace_action] gives a plan the status its actions determine: complete
    when every action is completed or skipped, else failed when one failed,
    else waiting when one waits for approval, else to be replanned when one is
    stale, else running. *)

Lemma derived_status_cases l :
  let all_done := ∀ a, a ∈ l → ac_status a = ACompleted ∨ ac_status a = ASkipped in
  let some s := ∃ a, a ∈ l ∧ ac_status a = s in
  (derived_status l = PCompleted ↔ all_done) ∧
  (derived_status l = PFailed ↔ some AFailed) ∧
  (derived_status l = PWaitingForApproval ↔ some ARequiresApproval ∧ ¬ some AFailed) ∧
  (derived_status l = PReplanRequired ↔ some AStale ∧ ¬ some AFailed ∧ ¬ some ARequiresApproval) ∧
  (derived_status l = PRunning ↔
     ¬ all_done ∧ ¬ some AFailed ∧ ¬ some ARequiresApproval ∧ ¬ some AStale).
Proof.
  intros all_done some.
  assert (Hall : forallb (λ a, has_status ACompleted a || has_status ASkipped a) l = true ↔ all_done).
  { rw forallb_elem. unfold all_done. setoid_rewrite orb_true_iff. by setoid_rewrite has_status_true. }
  assert (Hsome : ∀ s, existsb (has_status s) l = true ↔ some s).
  { intros s. rw existsb_elem. unfold some. by setoid_rewrite has_status_true. }
  assert (Hex : ∀ s, all_done → some s → s = ACompleted ∨ s = ASkipped).
  { intros s Ha (a & Hin & <-). by apply Ha. }
  unfold derived_status. rw -!Hsome -Hall.
  assert (Hexb : ∀ s, s ≠ ACompleted → s ≠ ASkipped →
    forallb (λ a, has_status ACompleted a || has_status ASkipped a) l = true →
    existsb (has_status s) l = false).
  { intros s H1 H2 Ha. apply not_true_iff_false. rw Hsome. intros Hs.
    destruct (Hex s); [by apply Hall|done..]. }
  destruct (forallb _ l) eqn:E.
  - rw !Hexb //. naive_solver.
  - destruct (existsb (has_status AFailed) l), (existsb (has_status ARequiresApproval) l),
      (existsb (has_status AStale) l); naive_solver.
Qed.

(** ** Chained plans

    The planner makes every action depend on the one before it.  Such a plan
    has one execution order. *)

Fixpoint chained_from (prev : list string) (l : list PlannedAction) : Prop :=
  match l with
  | [] => True
  | a :: l' => ac_depends_on a = prev ∧ chained_from [ac_action_id a] l'
  end.

Record chained_plan (p : AgentPlan) : Prop := {
  chained_deps : chained_from [] (pl_actions p);
  chained_ids : NoDup (action_ids (pl_actions p))
}.

(** The first [k] actions are completed, the others pending. *)
Definition progressed (k : nat) (l : list PlannedAction) : Prop :=
  ∀ i a, l !! i = Some a → ac_status a = if decide (i < k)%nat then ACompleted else APending.

Lemma chained_from_lookup prev l i a :
  chained_from prev l → l !! i = Some a →
  ac_depends_on a = match i with O => prev | S j => match l !! j with Some b => [ac_action_id b] | None => [] end end.
Proof.
  revert prev i. induction l as [|b l IH]; intros prev [|i]; simpl; try done.
  - by intros [Hd _] [= ->].
  - intros [_ Hc] Hl. rw (IH _ _ Hc Hl). destruct i; [done|]. simpl.
    apply lookup_lt_Some in Hl. destruct (lookup_lt_is_Some_2 l i) as [c Hc']; [lia|]. by rw Hc'.
Qed.

Lemma chained_from_ext prev l l' :
  chained_from prev l → action_ids l = action_ids l' → map ac_depends_on l = map ac_depends_on l' →
  chained_from prev l'.
Proof.
  revert prev l'. induction l as [|a l IH]; intros prev [|a' l']; simpl; try done.
  intros [Hd Hc] [= Hid Hids] [= Hdep Hdeps]. split; [congruence|].
  rw -Hid. by eapply IH.
Qed.

Lemma find_first_lookup {A} (f : A → bool) l i x :
  l !! i = Some x → f x = true → (∀ j y, (j < i)%nat → l !! j = Some y → f y = false) →
  find_first f l = Some x.
Proof.
  revert i. induction l as [|y l IH]; intros [|i]; simpl; try done.
  - by intros [= ->] ->.
  - intros Hl Hf Hlt. rw (Hlt 0%nat y); [lia|done|]. eapply IH; eauto.
    intros j z Hj Hz. apply (Hlt (S j) z); [lia|done].
Qed.

Lemma action_id_lookup_inj l i j a b :
  NoDup (action_ids l) → l !! i = Some a → l !! j = Some b → ac_action_id a = ac_action_id b → i = j.
Proof.
  intros Hnd Hi Hj Hid. eapply (NoDup_lookup (action_ids l)); [done| |].
  - unfold action_ids. by rw list_lookup_fmap Hi.
  - unfold action_ids. by rw list_lookup_fmap Hj Hid.
Qed.

Section chained.
Context (p : AgentPlan) (Hp : chained_plan p).

(** An action in a chain is unblocked when its predecessor is completed. *)
Lemma chained_unblocked i a c :
  pl_actions p !! i = Some a →
  is_unblocked a c = match i with
                     | O => true
                     | S j => match pl_actions p !! j with
                              | Some b => bool_decide (ac_action_id b ∈ c)
                              | None => true end
                     end.
Proof.
  intros Hi. unfold is_unblocked. rw (chained_from_lookup _ _ _ _ (chained_deps p Hp) Hi).
  destruct i as [|j]; [done|]. destruct (pl_actions p !! j); [|done]. simpl. apply andb_true_r.
Qed.

Lemma chained_completed i a :
  pl_actions p !! i = Some a →
  ac_action_id a ∈ completed_action_ids p ↔ ac_status a = ACompleted.
Proof.
  intros Hi. unfold completed_action_ids. rw completed_of_elem. split.
  - intros (b & Hb & Hs & Hid). apply list_elem_of_lookup in Hb as [j Hj].
    assert (j = i) as -> by (eapply action_id_lookup_inj; eauto using chained_ids). congruence.
  - intros Hs. exists a. split; [exact (list_elem_of_lookup_2 _ _ _ Hi)|done].
Qed.

(** The first action that is neither completed nor blocked by its
    predecessor is the next one, and there is at most one such place. *)
Lemma chained_next_at k a :
  plan_halted (pl_status p) = false →
  pl_actions p !! k = Some a → ac_status a = APending →
  (∀ i b, (i < k)%nat → pl_actions p !! i = Some b → ac_status b = ACompleted) →
  next_pending_action p = Some a.
Proof.
  intros Hh Hk Hs Hbefore. unfold next_pending_action. rw Hh.
  eapply find_first_lookup; [exact Hk| |].
  - rw (proj2 (has_status_true _ _) Hs) (chained_unblocked k a _ Hk) /=.
    destruct k as [|j]; [done|]. destruct (pl_actions p !! j) as [b|] eqn:Hj; [|done].
    apply bool_decide_eq_true, (chained_completed j b Hj). apply (Hbefore j b); [lia|done].
  - intros j b Hj Hb. unfold has_status. rw (Hbefore j b Hj Hb). done.
Qed.

(** Nothing after an action that is not completed is ever next. *)
Lemma chained_blocked k a :
  pl_actions p !! k = Some a → ac_status a ≠ ACompleted → ac_status a ≠ APending →
  (∀ i b, (i < k)%nat → pl_actions p !! i = Some b → ac_status b ≠ APending) →
  (∀ i b, (k < i)%nat → pl_actions p !! i = Some b → ac_status b ≠ ACompleted) →
  next_pending_action p = None.
Proof.
  intros Hk Hnc Hnp Hbefore Hafter. unfold next_pending_action.
  destruct (plan_halted _); [done|]. apply find_first_None. intros b Hb.
  apply list_elem_of_lookup in Hb as [i Hi].
  destruct (has_status APending b) eqn:Hs; [|done]. rw has_status_true in Hs. simpl.
  rw (chained_unblocked i b _ Hi). destruct i as [|j].
  - destruct k as [|k]; [congruence|]. by destruct (Hbefore 0%nat b); [lia|..].
  - destruct (lookup_lt_is_Some_2 (pl_actions p) j) as [c Hc].
    { apply lookup_lt_Some in Hi. lia. }
    rw Hc. apply bool_decide_eq_false. rw (chained_completed j c Hc). intros Hcs.
    destruct (decide (k < j)%nat); [exact (Hafter j c l Hc Hcs)|].
    destruct (decide (j = k)) as [->|]; [congruence|].
    destruct (decide (S j = k)) as [<-|]; [congruence|].
    by destruct (Hbefore (S j) b); [lia|..].
Qed.

(** Giving the [k]-th action a new status keeps the chain and the others. *)
Lemma chained_replace now s k a :
  pl_actions p !! k = Some a →
  pl_actions (replace_action now (with_status now s a) p) = <[k := with_status now s a]> (pl_actions p) ∧
  chained_plan (replace_action now (with_status now s a) p).
Proof.
  intros Hk. assert (Hr : pl_actions (replace_action now (with_status now s a) p)
    = <[k := with_status now s a]> (pl_actions p)).
  { apply (replace_in_lookup _ _ _ a); [apply chained_ids, Hp|done|done]. }
  split; [done|]. constructor.
  - eapply chained_from_ext; [apply chained_deps, Hp|symmetry; apply replace_action_ids|].
    rw Hr. clear Hr. apply list_eq. intros i. unfold map. rw !list_lookup_fmap.
    destruct (decide (i = k)) as [->|]; [|by rw list_lookup_insert_ne].
    rw list_lookup_insert_eq; [by eapply lookup_lt_Some|]. by rw Hk.
  - rw replace_action_ids. apply chained_ids, Hp.
Qed.

Lemma progressed_replace now k a :
  pl_actions p !! k = Some a → progressed k (pl_actions p) →
  progressed (S k) (pl_actions (replace_action now (with_status now ACompleted a) p)).
Proof.
  intros Hk Hpr. rw (proj1 (chained_replace now ACompleted k a Hk)). intros i b.
  destruct (decide (i = k)) as [->|Hne].
  - rw list_lookup_insert_eq; [by eapply lookup_lt_Some|]. intros [= <-].
    by rw decide_True; [lia|].
  - rw list_lookup_insert_ne //. intros Hb. rw (Hpr i b Hb).
    repeat case_decide; (done || lia).
Qed.
End chained.

(** The status of a plan whose first [k] actions are completed. *)
Lemma progressed_status k l :
  progressed k l → (k ≤ length l)%nat →
  derived_status l = if decide (k = length l) then PCompleted else PRunning.
Proof.
  intros Hpr Hk. pose proof (derived_status_cases l) as (Hc & Hf & Ha & Hs & Hr). simpl in *.
  assert (Hno : ∀ s, s ≠ ACompleted → s ≠ APending → ¬ ∃ a, a ∈ l ∧ ac_status a = s).
  { intros s H1 H2 (a & Hin & <-). apply list_elem_of_lookup in Hin as [i Hi].
    rw (Hpr i a Hi) in H1 H2. by case_decide. }
  case_decide as Hkl.
  - apply Hc. intros a Hin. apply list_elem_of_lookup in Hin as [i Hi].
    rw (Hpr i a Hi) decide_True; [|by left]. apply lookup_lt_Some in Hi. lia.
  - apply Hr. split_and!; [|by apply Hno..].
    intros Hall. destruct (lookup_lt_is_Some_2 l k) as [a Ha']; [lia|].
    destruct (Hall a (list_elem_of_lookup_2 _ _ _ Ha')) as [Hs'|Hs'];
      rw (Hpr k a Ha') decide_False in Hs'; lia || done.
Qed.

(** The execution in which every action succeeds: the next pending action is
    run and marked completed until there is none.  It returns the ids in the
    order of execution. *)
Fixpoint execute_plan (fuel : nat) (now : datetime) (p : AgentPlan) : list string * AgentPlan :=
  match fuel with
  | O => ([], p)
  | S fuel' =>
      match next_pending_action p with
      | None => ([], p)
      | Some a =>
          let '(ids, p') := execute_plan fuel' now (replace_action now (with_status now ACompleted a) p) in
          (ac_action_id a :: ids, p')
      end
  end.

Lemma execute_plan_from now p k fuel :
  chained_plan p → progressed k (pl_actions p) → (k ≤ length (pl_actions p))%nat →
  (if decide (k = length (pl_actions p)) then pl_status p = PCompleted else plan_halted (pl_status p) = false) →
  (length (pl_actions p) - k ≤ fuel)%nat →
  let '(ids, p') := execute_plan fuel now p in
  ids = drop k (action_ids (pl_actions p)) ∧ pl_status p' = PCompleted ∧
  progressed (length (pl_actions p)) (pl_actions p') ∧ action_ids (pl_actions p') = action_ids (pl_actions p).
Proof.
  revert p k. induction fuel as [|fuel IH]; intros p k Hp Hpr Hk Hst Hfuel; simpl.
  - assert (k = length (pl_actions p)) as -> by lia. rw decide_True // in Hst.
    split_and!; try done. symmetry. apply drop_ge. unfold action_ids. by rw length_map.
  - destruct (decide (k = length (pl_actions p))) as [->|Hne].
    + unfold next_pending_action. rw Hst /=. split_and!; try done.
      symmetry. apply drop_ge. unfold action_ids. by rw length_map.
    + destruct (lookup_lt_is_Some_2 (pl_actions p) k) as [a Ha]; [lia|].
      rw (chained_next_at p Hp k a Hst Ha).
      { rw (Hpr k a Ha). by rw decide_False; [lia|]. }
      { intros i b Hi Hb. rw (Hpr i b Hb). by rw decide_True. }
      set (p1 := replace_action now (with_status now ACompleted a) p).
      destruct (chained_replace p Hp now ACompleted k a Ha) as [Hact Hch].
      pose proof (progressed_replace p Hp now k a Ha Hpr) as Hpr1.
      fold p1 in Hact, Hch, Hpr1.
      assert (Hlen : length (pl_actions p1) = length (pl_actions p)) by by rw Hact length_insert.
      specialize (IH p1 (S k) Hch Hpr1). rw !Hlen in IH.
      destruct (execute_plan fuel now p1) as [ids p']. destruct IH as (-> & Hs & Hp' & Hids).
      * lia.
      * assert (Hs1 : pl_status p1 = derived_status (pl_actions p1)) by done.
        rw Hs1 (progressed_status (S k)) // ?Hlen; [lia|]. by case_decide.
      * lia.
      * rw Hids. unfold p1. rw replace_action_ids. split_and!; try done.
        rw (drop_S (action_ids (pl_actions p)) (ac_action_id a) k) //.
        unfold action_ids. unfold map. by rw list_lookup_fmap Ha.
Qed.

(** ** Properties *)

(** [replace_action] gives the plan exactly the status its actions call
    for: completed when every action is completed or skipped; otherwise failed
    when one failed, waiting when (none failed and) one needs approval, to be
    replanned when (neither and) one is stale, and running in all other cases;
    and it changes neither the ids of the actions nor their order. *)
Theorem replace_action_status now a p :
  let p' := replace_action now a p in
  let all_done := ∀ b, b ∈ pl_actions p' → ac_status b = ACompleted ∨ ac_status b = ASkipped in
  let some s := ∃ b, b ∈ pl_actions p' ∧ ac_status b = s in
  (pl_status p' = PCompleted ↔ all_done) ∧
  (pl_status p' = PFailed ↔ some AFailed) ∧
  (pl_status p' = PWaitingForApproval ↔ some ARequiresApproval ∧ ¬ some AFailed) ∧
  (pl_status p' = PReplanRequired ↔ some AStale ∧ ¬ some AFailed ∧ ¬ some ARequiresApproval) ∧
  (pl_status p' = PRunning ↔ ¬ all_done ∧ ¬ some AFailed ∧ ¬ some ARequiresApproval ∧ ¬ some AStale) ∧
  map ac_action_id (pl_actions p') = map ac_action_id (pl_actions p).
Proof.
  pose proof (derived_status_cases (pl_actions (replace_action now a p))) as (? & ? & ? & ? & ?).
  intros p' all_done some. split_and!; try done. exact (replace_action_ids now a p).
Qed.

(** A chained plan (each action depends on the one before it, as the
    planner makes them) whose actions are all pending is executed in the order
    of its actions and completes: as many steps as there are actions are enough,
    more change nothing, every action is executed once and the plan ends
    completed. *)
Theorem chained_plan_completes now p fuel :
  chained_plan p → pl_actions p ≠ [] → plan_halted (pl_status p) = false →
  (∀ a, a ∈ pl_actions p → ac_status a = APending) →
  (length (pl_actions p) ≤ fuel)%nat →
  let '(ids, p') := execute_plan fuel now p in
  ids = map ac_action_id (pl_actions p) ∧ pl_status p' = PCompleted ∧
  next_pending_action p' = None ∧
  ∀ a, a ∈ pl_actions p' → ac_status a = ACompleted.
Proof.
  intros Hp Hne Hst Hpend Hfuel.
  assert (H0 : progressed 0 (pl_actions p)).
  { intros i a Hi. case_decide; [lia|]. apply Hpend. exact (list_elem_of_lookup_2 _ _ _ Hi). }
  pose proof (execute_plan_from now p 0 fuel Hp H0) as H.
  destruct (execute_plan fuel now p) as [ids p']. destruct H as (-> & Hs & Hpr & Hids); [lia| |lia|].
  { rw decide_False //. by destruct (pl_actions p). }
  split_and!; try done.
  - unfold next_pending_action. by rw Hs.
  - intros a Ha. apply list_elem_of_lookup in Ha as [i Hi]. rw (Hpr i a Hi) decide_True //.
    apply (f_equal length) in Hids. unfold action_ids in Hids. rw !length_map in Hids.
    apply lookup_lt_Some in Hi. lia.
Qed.

(** an action is next only when it is pending in a plan that is not
    halted and everything it depends on is completed, and there is a next action
    exactly when the plan has such an action. *)
Theorem next_pending_action_spec p :
  (∀ a, next_pending_action p = Some a →
     a ∈ pl_actions p ∧ ac_status a = APending ∧ plan_halted (pl_status p) = false ∧
     ∀ i, i ∈ ac_depends_on a → i ∈ completed_action_ids p) ∧
  (next_pending_action p = None ↔
     plan_halted (pl_status p) = true ∨
     ∀ a, a ∈ pl_actions p → ac_status a = APending →
          ∃ i, i ∈ ac_depends_on a ∧ i ∉ completed_action_ids p).
Proof.
  split; [apply next_pending_Some|].
  unfold next_pending_action. destruct (plan_halted (pl_status p)); [naive_solver|].
  rw find_first_None. split.
  - intros H. right. intros a Ha Hs. specialize (H a Ha).
    rw (proj2 (has_status_true _ _) Hs) /= in H. unfold is_unblocked in H.
    destruct (decide (Exists (λ i, i ∉ completed_action_ids p) (ac_depends_on a))) as [He|Hn].
    + apply Exists_exists in He as (i & ? & ?). eauto.
    + exfalso. apply not_true_iff_false in H. apply H, forallb_elem. intros i Hi.
      apply bool_decide_eq_true. destruct (decide (i ∈ completed_action_ids p)); [done|].
      destruct Hn. apply Exists_exists. eauto.
  - intros [?|H]; [done|]. intros a Ha. apply not_true_iff_false.
    intros [Hs Hu]%andb_true_iff. rw has_status_true in Hs. rw is_unblocked_spec in Hu.
    destruct (H a Ha Hs) as (i & Hi & Hni). auto.
Qed.

(** in a chained plan a skipped action stops the plan for good: once
    the actions before it are completed and it is marked skipped, with pending
    actions after it, no action is next although the plan is still running. *)
Theorem skipped_action_blocks_plan now p k a :
  chained_plan p → pl_actions p !! k = Some a →
  progressed k (pl_actions p) → (S k < length (pl_actions p))%nat →
  let p' := replace_action now (with_status now ASkipped a) p in
  next_pending_action p' = None ∧ pl_status p' = PRunning.
Proof.
  intros Hp Ha Hpr Hlt. destruct (chained_replace p Hp now ASkipped k a Ha) as [Hact Hch]. simpl.
  assert (Hk : <[k := with_status now ASkipped a]> (pl_actions p) !! k = Some (with_status now ASkipped a)).
  { apply list_lookup_insert_eq. by eapply lookup_lt_Some. }
  assert (Hother : ∀ i b, i ≠ k → <[k := with_status now ASkipped a]> (pl_actions p) !! i = Some b →
    ac_status b = if decide (i < k)%nat then ACompleted else APending).
  { intros i b Hi. rw list_lookup_insert_ne //. apply Hpr. }
  split.
  - apply (chained_blocked _ Hch k (with_status now ASkipped a)); rw ?Hact; try done.
    + intros i b Hi Hb. rw (Hother i b _ Hb); [lia|]. by rw decide_True.
    + intros i b Hi Hb. rw (Hother i b _ Hb); [lia|]. by rw decide_False; [lia|].
  - pose proof (derived_status_cases (pl_actions (replace_action now (with_status now ASkipped a) p)))
      as (_ & _ & _ & _ & Hr).
    assert (Hno : ∀ s b, b ∈ pl_actions (replace_action now (with_status now ASkipped a) p) →
      ac_status b = s → s = ACompleted ∨ s = APending ∨ s = ASkipped).
    { rw Hact. intros s b Hb <-. apply list_elem_of_lookup in Hb as [i Hi].
      destruct (decide (i = k)) as [->|Hne].
      - rw Hk in Hi. injection Hi as <-. auto.
      - rw (Hother i b Hne Hi). case_decide; auto. }
    apply Hr. split_and!; try (by intros (b & Hb & Hs); destruct (Hno _ b Hb Hs) as [?|[?|?]]).
    intros Hall. destruct (lookup_lt_is_Some_2 (pl_actions p) (S k)) as [b Hb]; [done|].
    assert (Hb' : <[k := with_status now ASkipped a]> (pl_actions p) !! S k = Some b).
    { by rw list_lookup_insert_ne; [lia|]. }
    destruct (Hall b) as [H|H].
    { rw Hact. exact (list_elem_of_lookup_2 _ _ _ Hb'). }
    all: rw (Hother (S k) b _ Hb') in H; [lia|]; rw decide_False in H; lia || done.
Qed.

(** ** Concrete plans *)

Definition sample_action (id : string) (deps : list string) : PlannedAction := {|
  ac_action_id := id; ac_plan_id := "run-1"; ac_action_type := "tool"; ac_tool_name := "create_workitem";
  ac_instruction := "do it"; ac_input := []; ac_work_items := []; ac_work_item_updates := [];
  ac_target_item_ids := []; ac_depends_on := deps; ac_requires_approval := false;
  ac_status := APending; ac_idempotency_key := "k:" +:+ id; ac_expected_entity_versions := [];
  ac_created_at := 0; ac_updated_at := 0 |}.

Definition sample_plan : AgentPlan := {|
  pl_plan_id := "run-1"; pl_parent_run_id := None; pl_node_id := None; pl_source_event_id := "e";
  pl_workspace_id := "ws"; pl_project_id := None; pl_goal := "goal"; pl_prompt_id := "p";
  pl_prompt_version := "1"; pl_skill_ids := []; pl_tool_names := [];
  pl_actions := [sample_action "a" []; sample_action "b" ["a"]; sample_action "c" ["b"]];
  pl_status := PPlanned; pl_context_snapshot_ref := "ctx"; pl_created_at := 0; pl_updated_at := 0 |}.

Lemma sample_plan_chained : chained_plan sample_plan.
Proof. constructor; [done|]. apply (bool_decide_unpack _). vm_compute. exact I. Defined.

Lemma chained_plan_completes_witness :
  let '(ids, p') := execute_plan 7 5 sample_plan in
  ids = ["a"; "b"; "c"] ∧ pl_status p' = PCompleted ∧ next_pending_action p' = None ∧
  ∀ a, a ∈ pl_actions p' → ac_status a = ACompleted.
Proof.
  apply (chained_plan_completes 5 sample_plan 7 sample_plan_chained); [done|done| |simpl; lia].
  intros a Ha. rw !elem_of_cons in Ha. destruct Ha as [->|[->|[->|Ha]]]; [done..|set_solver].
Defined.

Lemma skipped_action_blocks_plan_witness :
  let p' := replace_action 5 (with_status 5 ASkipped (sample_action "a" [])) sample_plan in
  next_pending_action p' = None ∧ pl_status p' = PRunning.
Proof.
  apply (skipped_action_blocks_plan 5 sample_plan 0 (sample_action "a" []) sample_plan_chained);
    [done| |simpl; lia].
  intros i a Ha. simpl in Ha. destruct i as [|[|[|i]]]; simpl in Ha; by simplify_eq.
Defined.
