(* ===== verification/SubTasks.v ===== *)
(** * Task graphs ([src/domain/subtasks.py])

    The graph of subagent nodes of an orchestrated run: which nodes are ready,
    claiming them, and [plan_advance], which records the end of a node and says
    what the coordinator does next. *)

From S2P Require Import Prelude PyStr PyVal.

Inductive SubTaskStatus := SPending | SRunning | SCompleted | SFailed.

#[export] Instance SubTaskStatus_eq_dec : EqDecision SubTaskStatus.
Proof. solve_decision. Defined.

Definition subtask_status_value (s : SubTaskStatus) : string :=
  match s with
  | SPending => "pending"
  | SRunning => "running"
  | SCompleted => "completed"
  | SFailed => "failed"
  end.

Record SubTask := {
  nd_node_id : string;
  nd_skill_ids : list string;
  nd_objective : string;
  nd_depends_on : list string;
  nd_context_scope : list string;
  nd_model_tier : string;
  nd_status : SubTaskStatus
}.

Definition node_is_unblocked (n : SubTask) (completed : gset string) : bool :=
  forallb (λ i, bool_decide (i ∈ completed)) (nd_depends_on n).

(** [node.model_copy(update={"status": s})] *)
Definition node_with_status (s : SubTaskStatus) (n : SubTask) : SubTask := {|
  nd_node_id := nd_node_id n; nd_skill_ids := nd_skill_ids n; nd_objective := nd_objective n;
  nd_depends_on := nd_depends_on n; nd_context_scope := nd_context_scope n;
  nd_model_tier := nd_model_tier n; nd_status := s |}.

Record TaskGraph := {
  tg_plan_id : string;
  tg_workspace_id : string;
  tg_project_id : option string;
  tg_context_snapshot_ref : option string;
  tg_version : Z;
  tg_nodes : list SubTask;
  tg_synthesizer_node : option SubTask
}.

(** [graph.model_copy(update={"nodes": l, "synthesizer_node": s})] *)
Definition graph_with_nodes (l : list SubTask) (s : option SubTask) (g : TaskGraph) : TaskGraph := {|
  tg_plan_id := tg_plan_id g; tg_workspace_id := tg_workspace_id g; tg_project_id := tg_project_id g;
  tg_context_snapshot_ref := tg_context_snapshot_ref g; tg_version := tg_version g;
  tg_nodes := l; tg_synthesizer_node := s |}.

Definition bumped (g : TaskGraph) : TaskGraph := {|
  tg_plan_id := tg_plan_id g; tg_workspace_id := tg_workspace_id g; tg_project_id := tg_project_id g;
  tg_context_snapshot_ref := tg_context_snapshot_ref g; tg_version := tg_version g + 1;
  tg_nodes := tg_nodes g; tg_synthesizer_node := tg_synthesizer_node g |}.

(** [graph.model_copy(update={"plan_id": i})] and
    [graph.model_copy(update={"plan_id": i, "context_snapshot_ref": r})] *)
Definition graph_with_plan_id (i : string) (g : TaskGraph) : TaskGraph := {|
  tg_plan_id := i; tg_workspace_id := tg_workspace_id g; tg_project_id := tg_project_id g;
  tg_context_snapshot_ref := tg_context_snapshot_ref g; tg_version := tg_version g;
  tg_nodes := tg_nodes g; tg_synthesizer_node := tg_synthesizer_node g |}.
Definition graph_with_run (i r : string) (g : TaskGraph) : TaskGraph := {|
  tg_plan_id := i; tg_workspace_id := tg_workspace_id g; tg_project_id := tg_project_id g;
  tg_context_snapshot_ref := Some r; tg_version := tg_version g;
  tg_nodes := tg_nodes g; tg_synthesizer_node := tg_synthesizer_node g |}.

Definition has_id (i : string) (n : SubTask) : bool := bool_decide (nd_node_id n = i).
Definition node_has (s : SubTaskStatus) (n : SubTask) : bool := bool_decide (nd_status n = s).

Definition get_node (g : TaskGraph) (i : string) : option SubTask :=
  match find_first (has_id i) (tg_nodes g) with
  | Some n => Some n
  | None => match tg_synthesizer_node g with
            | Some n => if has_id i n then Some n else None
            | None => None
            end
  end.

Definition set_node_status (i : string) (s : SubTaskStatus) (n : SubTask) : SubTask :=
  if has_id i n then node_with_status s n else n.

Definition with_node_status (i : string) (s : SubTaskStatus) (g : TaskGraph) : TaskGraph :=
  graph_with_nodes (map (set_node_status i s) (tg_nodes g))
    (option_map (set_node_status i s) (tg_synthesizer_node g)) g.

Definition all_nodes_completed (g : TaskGraph) : bool :=
  match tg_nodes g with [] => false | _ => true end && forallb (node_has SCompleted) (tg_nodes g).

Definition is_synthesizer (i : string) (g : TaskGraph) : bool :=
  match tg_synthesizer_node g with Some n => has_id i n | None => false end.

Definition completed_node_ids (g : TaskGraph) : gset string :=
  list_to_set (map nd_node_id (List.filter (node_has SCompleted) (tg_nodes g))).

Definition ready_nodes (completed : gset string) (g : TaskGraph) : list SubTask :=
  List.filter (λ n, node_has SPending n && node_is_unblocked n completed) (tg_nodes g).

(** [for node in l: graph = graph.with_node_status(node.node_id, RUNNING)] *)
Definition start_nodes (l : list SubTask) (g : TaskGraph) : TaskGraph :=
  foldl (λ g n, with_node_status (nd_node_id n) SRunning g) g l.

(** [[graph.get_node(n.node_id) for n in l]]; every lookup succeeds
    ([started_found]). *)
Definition nodes_now (l : list SubTask) (g : TaskGraph) : list SubTask :=
  omap (λ n, get_node g (nd_node_id n)) l.

Definition claim_ready (g : TaskGraph) : TaskGraph * list SubTask :=
  let ready := ready_nodes (completed_node_ids g) g in
  let g' := start_nodes ready g in
  (g', nodes_now ready g').

Record SubAgentResult := {
  sr_node_id : string;
  sr_skill_ids : list string;
  sr_summary : string;
  sr_structured_output : dict pyval;
  sr_status : SubTaskStatus
}.

Record TaskGraphAdvance := {
  av_graph : TaskGraph;
  av_newly_ready : list SubTask;
  av_dispatch_synthesizer : option SubTask;
  av_run_completed : bool;
  av_run_failed : bool;
  av_blocked : bool;
  av_is_synthesizer : bool;
  av_already_processed : bool
}.

(** [TaskGraphAdvance(graph=g)] *)
Definition advance_of (g : TaskGraph) : TaskGraphAdvance := {|
  av_graph := g; av_newly_ready := []; av_dispatch_synthesizer := None; av_run_completed := false;
  av_run_failed := false; av_blocked := false; av_is_synthesizer := false; av_already_processed := false |}.

Definition advance_processed (g : TaskGraph) : TaskGraphAdvance := {|
  av_graph := g; av_newly_ready := []; av_dispatch_synthesizer := None; av_run_completed := false;
  av_run_failed := false; av_blocked := false; av_is_synthesizer := false; av_already_processed := true |}.
Definition advance_failed (g : TaskGraph) : TaskGraphAdvance := {|
  av_graph := g; av_newly_ready := []; av_dispatch_synthesizer := None; av_run_completed := false;
  av_run_failed := true; av_blocked := false; av_is_synthesizer := false; av_already_processed := false |}.
Definition advance_completed (synth : bool) (g : TaskGraph) : TaskGraphAdvance := {|
  av_graph := g; av_newly_ready := []; av_dispatch_synthesizer := None; av_run_completed := true;
  av_run_failed := false; av_blocked := false; av_is_synthesizer := synth; av_already_processed := false |}.
Definition advance_ready (l : list SubTask) (g : TaskGraph) : TaskGraphAdvance := {|
  av_graph := g; av_newly_ready := l; av_dispatch_synthesizer := None; av_run_completed := false;
  av_run_failed := false; av_blocked := false; av_is_synthesizer := false; av_already_processed := false |}.
Definition advance_synthesizer (g : TaskGraph) : TaskGraphAdvance := {|
  av_graph := g; av_newly_ready := []; av_dispatch_synthesizer := tg_synthesizer_node g;
  av_run_completed := false; av_run_failed := false; av_blocked := false;
  av_is_synthesizer := false; av_already_processed := false |}.
Definition advance_blocked (g : TaskGraph) : TaskGraphAdvance := {|
  av_graph := g; av_newly_ready := []; av_dispatch_synthesizer := None; av_run_completed := false;
  av_run_failed := false; av_blocked := true; av_is_synthesizer := false; av_already_processed := false |}.

(** What follows once a worker node is recorded as completed. *)
Definition advance_after_completion (g : TaskGraph) : TaskGraphAdvance :=
  let ready := ready_nodes (completed_node_ids g) g in
  match ready with
  | _ :: _ => let g' := start_nodes ready g in advance_ready (nodes_now ready g') g'
  | [] =>
      if all_nodes_completed g then
        match tg_synthesizer_node g with
        | Some s =>
            if node_has SPending s
            then advance_synthesizer (with_node_status (nd_node_id s) SRunning g)
            else if negb (node_has SCompleted s) then advance_of g
            else advance_completed false g
        | None => advance_completed false g
        end
      else if existsb (node_has SRunning) (tg_nodes g) then advance_of g
      else advance_blocked g
  end.

Definition plan_advance (i : string) (s : SubTaskStatus) (g : TaskGraph) : TaskGraphAdvance :=
  match get_node g i with
  | None => advance_of g
  | Some n =>
      if node_has s n then advance_processed g
      else
        let g' := with_node_status i s g in
        if bool_decide (s = SFailed) then advance_failed g'
        else if bool_decide (s ≠ SCompleted) then advance_of g'
        else if is_synthesizer i g' then advance_completed true g'
        else advance_after_completion g'
  end.

(** The ids an advance has the coordinator dispatch. *)
Definition dispatched (a : TaskGraphAdvance) : list string :=
  map nd_node_id (av_newly_ready a) ++
  match av_dispatch_synthesizer a with Some n => [nd_node_id n] | None => [] end.

(** ** Lemmas *)

Definition node_ids (g : TaskGraph) : list string := map nd_node_id (tg_nodes g).

(** The nodes and the synthesizer. *)
Definition subtasks (g : TaskGraph) : list SubTask :=
  tg_nodes g ++ match tg_synthesizer_node g with Some s => [s] | None => [] end.

Lemma node_has_true s n : node_has s n = true ↔ nd_status n = s.
Proof. unfold node_has. by rw bool_decide_eq_true. Qed.

Lemma node_has_false s n : node_has s n = false ↔ nd_status n ≠ s.
Proof. unfold node_has. by rw bool_decide_eq_false. Qed.

Lemma has_id_true i n : has_id i n = true ↔ nd_node_id n = i.
Proof. unfold has_id. by rw bool_decide_eq_true. Qed.

Lemma set_node_status_id i s n : nd_node_id (set_node_status i s n) = nd_node_id n.
Proof. unfold set_node_status. by destruct (has_id i n). Qed.

Lemma set_node_status_deps i s n : nd_depends_on (set_node_status i s n) = nd_depends_on n.
Proof. unfold set_node_status. by destruct (has_id i n). Qed.

Lemma set_node_status_status i s n :
  nd_status (set_node_status i s n) = if decide (nd_node_id n = i) then s else nd_status n.
Proof. unfold set_node_status, has_id. by repeat case_bool_decide; case_decide. Qed.

Lemma node_is_unblocked_spec n c : node_is_unblocked n c = true ↔ ∀ i, i ∈ nd_depends_on n → i ∈ c.
Proof. unfold node_is_unblocked. rw forallb_elem. by setoid_rewrite bool_decide_eq_true. Qed.

Lemma completed_node_ids_elem g i :
  i ∈ completed_node_ids g ↔ ∃ n, n ∈ tg_nodes g ∧ nd_status n = SCompleted ∧ nd_node_id n = i.
Proof.
  unfold completed_node_ids. rw elem_of_list_to_set list_elem_of_fmap. split.
  - intros (n & -> & [Hn Hs]%filter_elem). rw node_has_true in Hs. eauto.
  - intros (n & Hn & Hs & <-). exists n. split; [done|]. apply filter_elem. by rw node_has_true.
Qed.

Lemma ready_nodes_elem c g n :
  n ∈ ready_nodes c g ↔
  n ∈ tg_nodes g ∧ nd_status n = SPending ∧ ∀ i, i ∈ nd_depends_on n → i ∈ c.
Proof.
  unfold ready_nodes. rw filter_elem andb_true_iff node_has_true node_is_unblocked_spec. done.
Qed.

(** Starting a list of nodes sets the status of the nodes with their ids. *)
Definition start_if (l : list SubTask) (n : SubTask) : SubTask :=
  if bool_decide (nd_node_id n ∈ map nd_node_id l) then node_with_status SRunning n else n.

Lemma start_if_id l n : nd_node_id (start_if l n) = nd_node_id n.
Proof. unfold start_if. by case_bool_decide. Qed.

Lemma start_if_deps l n : nd_depends_on (start_if l n) = nd_depends_on n.
Proof. unfold start_if. by case_bool_decide. Qed.

Lemma start_if_cons m l n : start_if l (set_node_status (nd_node_id m) SRunning n) = start_if (m :: l) n.
Proof.
  unfold start_if. rw set_node_status_id. unfold set_node_status, has_id.
  destruct (decide (nd_node_id n = nd_node_id m)) as [E|E].
  - rw (bool_decide_eq_true_2 (nd_node_id n = nd_node_id m)) //.
    rw (bool_decide_eq_true_2 (nd_node_id n ∈ map nd_node_id (m :: l))); [rw E; by left|]. by case_bool_decide.
  - rw (bool_decide_eq_false_2 (nd_node_id n = nd_node_id m)) //.
    assert (nd_node_id n ∈ map nd_node_id (m :: l) ↔ nd_node_id n ∈ map nd_node_id l) as Hiff.
    { simpl. rw elem_of_cons. naive_solver. }
    by rw (bool_decide_ext _ _ Hiff).
Qed.

Lemma start_nodes_eq l g :
  tg_nodes (start_nodes l g) = map (start_if l) (tg_nodes g) ∧
  tg_synthesizer_node (start_nodes l g) = option_map (start_if l) (tg_synthesizer_node g).
Proof.
  revert g. induction l as [|m l IH]; intros g; simpl.
  - split; [by rw (map_ext _ id); [|rw map_id]|by destruct (tg_synthesizer_node g)].
  - destruct (IH (with_node_status (nd_node_id m) SRunning g)) as [-> ->]. simpl. split.
    + rw map_map. apply map_ext. intros n. apply start_if_cons.
    + destruct (tg_synthesizer_node g); [|done]. simpl. f_equal. apply start_if_cons.
Qed.

Lemma start_nodes_ids l g : node_ids (start_nodes l g) = node_ids g.
Proof.
  unfold node_ids. rw (proj1 (start_nodes_eq l g)) map_map. apply map_ext, start_if_id.
Qed.

Lemma get_node_Some g i n :
  get_node g i = Some n → nd_node_id n = i ∧ n ∈ subtasks g.
Proof.
  unfold get_node, subtasks. destruct (find_first _ _) as [m|] eqn:E.
  - intros [= ->]. apply find_first_Some in E as [E ?]. rw has_id_true in E. set_solver.
  - destruct (tg_synthesizer_node g) as [s|]; [|done]. destruct (has_id i s) eqn:Es; [|done].
    intros [= ->]. rw has_id_true in Es. split; [done|set_solver].
Qed.

Lemma get_node_elem g n :
  NoDup (map nd_node_id (subtasks g)) → n ∈ subtasks g → get_node g (nd_node_id n) = Some n.
Proof.
  intros Hnd Hn. destruct (get_node g (nd_node_id n)) as [m|] eqn:E.
  - apply get_node_Some in E as [Hid Hm]. f_equal.
    apply list_elem_of_lookup in Hn as [i Hi]. apply list_elem_of_lookup in Hm as [j Hj].
    assert (i = j) as ->; [|congruence].
    eapply (NoDup_lookup (map nd_node_id (subtasks g))); [done| |];
      unfold map; rw list_lookup_fmap; [by rw Hi|by rw Hj /= Hid].
  - exfalso. unfold get_node in E. destruct (find_first _ _) eqn:Ef; [done|].
    rw find_first_None in Ef. unfold subtasks in Hn. apply elem_of_app in Hn as [Hn|Hn].
    + apply Ef in Hn. unfold has_id in Hn. by rw bool_decide_eq_true_2 in Hn.
    + destruct (tg_synthesizer_node g) as [s|]; [|by apply not_elem_of_nil in Hn].
      apply list_elem_of_singleton in Hn as ->. unfold has_id in E. by rw bool_decide_eq_true_2 in E.
Qed.

Lemma subtask_id_inj g n m :
  NoDup (map nd_node_id (subtasks g)) → n ∈ subtasks g → m ∈ subtasks g →
  nd_node_id n = nd_node_id m → n = m.
Proof.
  intros Hnd Hn Hm Hid. apply (get_node_elem g n Hnd) in Hn. apply (get_node_elem g m Hnd) in Hm.
  rw Hid in Hn. congruence.
Qed.

Lemma node_subtask g n : n ∈ tg_nodes g → n ∈ subtasks g.
Proof. intros Hn. unfold subtasks. apply elem_of_app. by left. Qed.

(** Every started node is found again, running. *)
Lemma started_found l g :
  (∀ n, n ∈ l → n ∈ tg_nodes g) →
  map nd_node_id (nodes_now l (start_nodes l g)) = map nd_node_id l ∧
  ∀ n, n ∈ nodes_now l (start_nodes l g) → nd_status n = SRunning.
Proof.
  intros Hl. unfold nodes_now.
  assert (Hget : ∀ n, n ∈ l → ∃ m, get_node (start_nodes l g) (nd_node_id n) = Some m ∧
    nd_node_id m = nd_node_id n ∧ nd_status m = SRunning).
  { intros n Hn. unfold get_node. destruct (start_nodes_eq l g) as [-> _].
    destruct (find_first _ _) as [m|] eqn:E.
    - apply find_first_Some in E as [Hid Hm]. rw has_id_true in Hid. exists m. split_and!; try done.
      apply list_elem_of_fmap in Hm as (m0 & -> & Hm0). rw start_if_id in Hid.
      unfold start_if. rw bool_decide_eq_true_2 //. rw Hid. apply list_elem_of_fmap. eauto.
    - exfalso. rw find_first_None in E. specialize (E (start_if l n)).
      unfold has_id in E. rw start_if_id bool_decide_eq_true_2 // in E.
      discriminate E. apply list_elem_of_fmap. eauto. }
  clear Hl. set (g' := start_nodes l g) in *. clearbody g'. split.
  - induction l as [|n l IH]; [done|]. simpl.
    destruct (Hget n) as (m & -> & Hid & _); [by left|]. simpl. f_equal; [done|].
    apply IH. intros k Hk. apply Hget. by right.
  - intros n Hn. apply list_elem_of_omap in Hn as (k & Hk & Hkn).
    destruct (Hget k Hk) as (m & Hm & _ & Hs). congruence.
Qed.

(** The effect of starting the nodes with given ids. *)
Definition start_ids (ids : list string) (n : SubTask) : SubTask :=
  if bool_decide (nd_node_id n ∈ ids) then node_with_status SRunning n else n.

Lemma start_ids_nil n : start_ids [] n = n.
Proof. unfold start_ids. rw bool_decide_eq_false_2 //. apply not_elem_of_nil. Qed.

Lemma start_ids_one i n : start_ids [i] n = set_node_status i SRunning n.
Proof.
  unfold start_ids, set_node_status, has_id. by rw (bool_decide_ext _ _ (list_elem_of_singleton _ _)).
Qed.

Lemma start_ids_status ids n :
  nd_status (start_ids ids n) = if decide (nd_node_id n ∈ ids) then SRunning else nd_status n.
Proof. unfold start_ids. by case_bool_decide; case_decide. Qed.

Lemma start_ids_id ids n : nd_node_id (start_ids ids n) = nd_node_id n.
Proof. unfold start_ids. by case_bool_decide. Qed.

Lemma start_ids_deps ids n : nd_depends_on (start_ids ids n) = nd_depends_on n.
Proof. unfold start_ids. by case_bool_decide. Qed.

(** The graph [g'] is [g] with [F] applied to every node and the synthesizer. *)
Definition mapped (F : SubTask → SubTask) (g g' : TaskGraph) : Prop :=
  tg_nodes g' = map F (tg_nodes g) ∧ tg_synthesizer_node g' = option_map F (tg_synthesizer_node g).

Lemma mapped_ext F F' g g' : (∀ n, n ∈ subtasks g → F n = F' n) → mapped F g g' → mapped F' g g'.
Proof.
  intros HF [Hn Hs]. split.
  - rw Hn. apply map_ext_in. intros n Hin. apply HF. unfold subtasks. apply elem_of_app. left.
    by apply list_elem_of_In.
  - rw Hs. destruct (tg_synthesizer_node g) eqn:E; [|done]. simpl. f_equal. apply HF.
    unfold subtasks. rw E. set_solver.
Qed.

Lemma mapped_id g : mapped id g g.
Proof. split; [by rw map_id|by destruct (tg_synthesizer_node g)]. Qed.

Lemma mapped_subtasks F g g' : mapped F g g' → subtasks g' = map F (subtasks g).
Proof.
  intros [Hn Hs]. unfold subtasks. rw Hn Hs map_app. by destruct (tg_synthesizer_node g).
Qed.

Definition dispatchable (g : TaskGraph) (j : string) : Prop :=
  (∃ n, n ∈ tg_nodes g ∧ nd_node_id n = j ∧ nd_status n = SPending ∧
        ∀ i, i ∈ nd_depends_on n → i ∈ completed_node_ids g) ∨
  (∃ n, tg_synthesizer_node g = Some n ∧ nd_node_id n = j ∧ nd_status n = SPending ∧
        all_nodes_completed g = true).

Lemma NoDup_map_filter (p : SubTask → bool) l :
  NoDup (map nd_node_id l) → NoDup (map nd_node_id (List.filter p l)).
Proof.
  induction l as [|n l IH]; simpl; [done|]. rw NoDup_cons. intros [Hn Hnd].
  destruct (p n); simpl; [|auto]. rw NoDup_cons. split; [|auto].
  intros H. apply Hn. apply list_elem_of_fmap in H as (m & -> & [Hm _]%filter_elem).
  apply list_elem_of_fmap. eauto.
Qed.

Lemma subtasks_nodup_nodes g : NoDup (map nd_node_id (subtasks g)) → NoDup (node_ids g).
Proof. unfold subtasks. rw map_app NoDup_app. by intros [? _]. Qed.

Lemma advance_after_completion_shape g :
  NoDup (map nd_node_id (subtasks g)) →
  let a := advance_after_completion g in
  mapped (start_ids (dispatched a)) g (av_graph a) ∧
  NoDup (dispatched a) ∧ (∀ j, j ∈ dispatched a → dispatchable g j).
Proof.
  intros Hnd. unfold advance_after_completion.
  assert (Hid : mapped (start_ids []) g g).
  { eapply mapped_ext; [|apply mapped_id]. intros n _. by rw start_ids_nil. }
  assert (Hnone : ∀ a, dispatched a = [] → av_graph a = g →
    mapped (start_ids (dispatched a)) g (av_graph a) ∧
    NoDup (dispatched a) ∧ (∀ j, j ∈ dispatched a → dispatchable g j)).
  { intros a -> ->. split_and!; [done|constructor|]. by intros j ?%not_elem_of_nil. }
  destruct (ready_nodes (completed_node_ids g) g) as [|r rs] eqn:Er.
  - destruct (all_nodes_completed g) eqn:Ea; [|destruct (existsb _ _); by apply Hnone].
    destruct (tg_synthesizer_node g) as [s|] eqn:Es; [|by apply Hnone].
    destruct (node_has SPending s) eqn:Ep.
    + assert (Hd : dispatched (advance_synthesizer (with_node_status (nd_node_id s) SRunning g)) = [nd_node_id s]).
      { unfold dispatched. simpl. rw Es /=. by rw set_node_status_id. }
      simpl. rw Hd. split_and!.
      * split; simpl.
        -- apply map_ext. intros n. by rw start_ids_one.
        -- destruct (tg_synthesizer_node g); [|done]. simpl. by rw start_ids_one.
      * apply NoDup_singleton.
      * intros j ->%list_elem_of_singleton. right. exists s. by rw node_has_true in Ep.
    + destruct (negb _); by apply Hnone.
  - rw -Er. clear r rs Er. set (l := ready_nodes (completed_node_ids g) g).
    destruct (started_found l g) as [Hids _].
    { intros n Hn. by apply ready_nodes_elem in Hn as [? _]. }
    assert (Hd : dispatched (advance_ready (nodes_now l (start_nodes l g)) (start_nodes l g)) = map nd_node_id l).
    { unfold dispatched. simpl. by rw app_nil_r Hids. }
    simpl. rw Hd. split_and!.
    + apply start_nodes_eq.
    + apply NoDup_map_filter. by apply subtasks_nodup_nodes.
    + intros j Hj. apply list_elem_of_fmap in Hj as (n & -> & Hn).
      apply ready_nodes_elem in Hn as (? & ? & ?). left. eauto.
Qed.

(** What recording a new status does to the graph: the node gets the status,
    the dispatched nodes are running, the others are untouched. *)
Lemma plan_advance_shape g i s n0 :
  NoDup (map nd_node_id (subtasks g)) → get_node g i = Some n0 → nd_status n0 ≠ s →
  let a := plan_advance i s g in
  let g1 := with_node_status i s g in
  mapped (λ n, start_ids (dispatched a) (set_node_status i s n)) g (av_graph a) ∧
  NoDup (dispatched a) ∧
  (∀ j, j ∈ dispatched a → s = SCompleted ∧ dispatchable g1 j) ∧
  (s = SCompleted → is_synthesizer i g = true → a = advance_completed true g1) ∧
  (s = SCompleted → is_synthesizer i g = false → a = advance_after_completion g1) ∧
  (s = SFailed → a = advance_failed g1).
Proof.
  intros Hnd Hg Hs. unfold plan_advance. rw Hg (proj2 (node_has_false _ _) Hs).
  set (g1 := with_node_status i s g).
  assert (Hsub : map nd_node_id (subtasks g1) = map nd_node_id (subtasks g)).
  { rw (mapped_subtasks (set_node_status i s) g g1) // map_map. apply map_ext. intros n.
    apply set_node_status_id. }
  assert (Hsy : is_synthesizer i g1 = is_synthesizer i g).
  { unfold is_synthesizer. simpl. destruct (tg_synthesizer_node g); [|done]. simpl.
    unfold has_id. by rw set_node_status_id. }
  assert (Hnone : ∀ a, dispatched a = [] → av_graph a = g1 →
    mapped (λ n, start_ids (dispatched a) (set_node_status i s n)) g (av_graph a) ∧
    NoDup (dispatched a) ∧ (∀ j, j ∈ dispatched a → s = SCompleted ∧ dispatchable g1 j)).
  { intros a -> ->. split_and!; [|constructor|by intros j ?%not_elem_of_nil].
    eapply mapped_ext; [|split; reflexivity]. intros n _. by rw start_ids_nil. }
  destruct (bool_decide_reflect (s = SFailed)) as [->|Hf].
  { destruct (Hnone (advance_failed g1)) as (? & ? & ?); [done..|]. by split_and!. }
  destruct (bool_decide_reflect (s ≠ SCompleted)) as [Hc|Hc].
  { destruct (Hnone (advance_of g1)) as (? & ? & ?); [done..|]. by split_and!. }
  assert (s = SCompleted) as -> by (destruct (decide (s = SCompleted)); tauto). rw Hsy.
  destruct (is_synthesizer i g).
  { destruct (Hnone (advance_completed true g1)) as (? & ? & ?); [done..|]. by split_and!. }
  destruct (advance_after_completion_shape g1) as ([Hn Hsn] & Hd & Hj); [by rw Hsub|]. split_and!; try done.
  - split.
    + rw Hn. simpl. by rw map_map.
    + rw Hsn. simpl. by destruct (tg_synthesizer_node g).
  - intros j Hin. auto.
Qed.

(** ** Claiming *)

Lemma claimed_ids g :
  map nd_node_id (claim_ready g).2 = map nd_node_id (ready_nodes (completed_node_ids g) g).
Proof. apply started_found. intros n Hn. by apply ready_nodes_elem in Hn as [? _]. Qed.

(** Starting nodes leaves the ids of the graph alone and does not look at its version. *)
Lemma start_nodes_graph_ids l g :
  tg_workspace_id (start_nodes l g) = tg_workspace_id g ∧ tg_plan_id (start_nodes l g) = tg_plan_id g.
Proof. unfold start_nodes. revert g. induction l as [|n l IH]; intros g; [done|]. simpl. by destruct (IH (with_node_status (nd_node_id n) SRunning g)) as [-> ->]. Qed.

Lemma claim_ready_bumped g : claim_ready (bumped g) = (bumped (claim_ready g).1, (claim_ready g).2).
Proof.
  unfold claim_ready. change (ready_nodes (completed_node_ids (bumped g)) (bumped g)) with (ready_nodes (completed_node_ids g) g).
  assert (Hs : ∀ l g, start_nodes l (bumped g) = bumped (start_nodes l g)).
  { unfold start_nodes. intros l. induction l as [|n l IH]; intros g'; [done|]. cbn. by rw -IH. }
  by rw Hs.
Qed.

Lemma claim_ready_mapped g :
  mapped (start_ids (map nd_node_id (claim_ready g).2)) g (claim_ready g).1.
Proof. rw claimed_ids. apply start_nodes_eq. Qed.

(** Nothing is ready right after the ready nodes were started. *)
Lemma started_not_ready g g' c :
  (∀ i, i ∈ completed_node_ids g' → i ∈ completed_node_ids g) →
  tg_nodes g' = map (start_ids (map nd_node_id (ready_nodes (completed_node_ids g) g))) (tg_nodes g) →
  c = completed_node_ids g' → ready_nodes c g' = [].
Proof.
  intros Hc Hn ->. destruct (ready_nodes _ g') as [|m l] eqn:E; [done|]. exfalso.
  assert (Hm : m ∈ ready_nodes (completed_node_ids g') g') by (rw E; by left).
  apply ready_nodes_elem in Hm as (Hin & Hs & Hdeps). rw Hn in Hin.
  apply list_elem_of_fmap in Hin as (n & -> & Hin).
  rw start_ids_status in Hs. case_decide as Hd; [done|]. apply Hd.
  apply list_elem_of_fmap. exists n. split; [done|]. apply ready_nodes_elem. split_and!; try done.
  intros i Hi. apply Hc, Hdeps. by rw start_ids_deps.
Qed.

Lemma started_completed g g' ids :
  tg_nodes g' = map (start_ids ids) (tg_nodes g) →
  ∀ i, i ∈ completed_node_ids g' → i ∈ completed_node_ids g.
Proof.
  intros Hn i. rw !completed_node_ids_elem Hn. intros (m & Hm & Hs & <-).
  apply list_elem_of_fmap in Hm as (n & -> & Hin). exists n. rw start_ids_id.
  rw start_ids_status in Hs. by case_decide.
Qed.

(** ** Sequences of operations *)

Inductive graph_op :=
  | OpClaim
  | OpSettle (node_id : string) (status : SubTaskStatus).

(** The graph after an operation and the ids it has dispatched. *)
Definition run_op (o : graph_op) (g : TaskGraph) : TaskGraph * list string :=
  match o with
  | OpClaim => let '(g', l) := claim_ready g in (g', map nd_node_id l)
  | OpSettle i s => let a := plan_advance i s g in (av_graph a, dispatched a)
  end.

Fixpoint run_ops (l : list graph_op) (g : TaskGraph) : TaskGraph * list string :=
  match l with
  | [] => (g, [])
  | o :: l' =>
      let '(g1, d1) := run_op o g in
      let '(g2, d2) := run_ops l' g1 in
      (g2, d1 ++ d2)
  end.

Definition pending_id (g : TaskGraph) (j : string) : Prop :=
  ∃ n, n ∈ subtasks g ∧ nd_node_id n = j ∧ nd_status n = SPending.

Definition op_ok (o : graph_op) : Prop :=
  match o with OpClaim => True | OpSettle _ s => s ≠ SPending end.

Lemma dispatchable_pending g j : dispatchable g j → pending_id g j.
Proof.
  intros [(n & ? & ? & ? & _)|(n & Hs & ? & ? & _)]; exists n; split_and!; try done;
    unfold subtasks; [set_solver|]. rw Hs. set_solver.
Qed.

Lemma mapped_pending F g g' :
  (∀ n, nd_node_id (F n) = nd_node_id n) → mapped F g g' →
  map nd_node_id (subtasks g') = map nd_node_id (subtasks g) ∧
  ∀ j, pending_id g' j → ∃ n, n ∈ subtasks g ∧ nd_node_id n = j ∧ nd_status (F n) = SPending.
Proof.
  intros HF Hm. rw (mapped_subtasks _ _ _ Hm). split.
  - rw map_map. by apply map_ext.
  - intros j (m & Hin & Hid & Hs). rw (mapped_subtasks _ _ _ Hm) in Hin.
    apply list_elem_of_fmap in Hin as (n & -> & Hin). exists n. by rw HF in Hid.
Qed.

Lemma run_op_dispatched o g :
  op_ok o → NoDup (map nd_node_id (subtasks g)) →
  let '(g', d) := run_op o g in
  NoDup d ∧ map nd_node_id (subtasks g') = map nd_node_id (subtasks g) ∧
  (∀ j, j ∈ d → pending_id g j) ∧
  (∀ j, pending_id g' j → pending_id g j ∧ j ∉ d).
Proof.
  intros Ho Hnd. destruct o as [|i s]; cbn [run_op op_ok] in *.
  - pose proof (claimed_ids g) as Hids. pose proof (claim_ready_mapped g) as Hm.
    destruct (claim_ready g) as [g' l]; simpl in *.
    destruct (mapped_pending _ g g' (start_ids_id _) Hm) as [Heq Hp]. split_and!; try done.
    + rw Hids. apply NoDup_map_filter. by apply subtasks_nodup_nodes.
    + rw Hids. intros j Hj. apply list_elem_of_fmap in Hj as (n & -> & Hn).
      apply ready_nodes_elem in Hn as (? & ? & _). exists n. unfold subtasks. set_solver.
    + intros j Hj. destruct (Hp j Hj) as (n & Hn & <- & Hs). rw start_ids_status in Hs.
      case_decide; [done|]. split; [by exists n|done].
  - destruct (get_node g i) as [n0|] eqn:Hg.
    2:{ unfold plan_advance. rw Hg /=. split_and!; [constructor|done|set_solver|].
        intros j Hj. split; [done|apply not_elem_of_nil]. }
    destruct (decide (nd_status n0 = s)) as [Heq|Hne].
    { unfold plan_advance. rw Hg (proj2 (node_has_true _ _) Heq) /=.
      split_and!; [constructor|done|set_solver|]. intros j Hj. split; [done|apply not_elem_of_nil]. }
    destruct (plan_advance_shape g i s n0 Hnd Hg Hne) as (Hm & Hd & Hj & _).
    set (F := λ n, start_ids (dispatched (plan_advance i s g)) (set_node_status i s n)) in Hm.
    assert (HF : ∀ n, nd_node_id (F n) = nd_node_id n).
    { intros n. unfold F. by rw start_ids_id set_node_status_id. }
    destruct (mapped_pending F g _ HF Hm) as [Heq Hp]. split_and!; try done.
    + intros j Hin. destruct (Hj j Hin) as [-> (m & Hm' & Hid & Hs)%dispatchable_pending].
      rw (mapped_subtasks (set_node_status i SCompleted) g) // in Hm'.
      apply list_elem_of_fmap in Hm' as (n & -> & Hn). rw set_node_status_status in Hs.
      case_decide; [done|]. exists n. by rw set_node_status_id in Hid.
    + intros j Hin. destruct (Hp j Hin) as (n & Hn & <- & Hs). unfold F in Hs.
      rw start_ids_status set_node_status_id set_node_status_status in Hs.
      case_decide; [done|]. case_decide; [congruence|]. split; [by exists n|done].
Qed.

Lemma run_ops_dispatched l g :
  Forall op_ok l → NoDup (map nd_node_id (subtasks g)) →
  NoDup (run_ops l g).2 ∧ ∀ j, j ∈ (run_ops l g).2 → pending_id g j.
Proof.
  intros Hl. revert g. induction Hl as [|o l Ho Hl IH]; intros g Hnd; simpl.
  - split; [constructor|]. by intros j ?%not_elem_of_nil.
  - pose proof (run_op_dispatched o g Ho Hnd) as H. destruct (run_op o g) as [g1 d1].
    destruct H as (Hd & Heq & Hp & Hp'). specialize (IH g1). rw Heq in IH.
    destruct (run_ops l g1) as [g2 d2]. destruct (IH Hnd) as [Hd2 Hin]. simpl in *. split.
    + apply NoDup_app. split_and!; try done. intros j Hj1 Hj2. by apply Hin, Hp' in Hj2 as [_ ?].
    + intros j [Hj|Hj]%elem_of_app; [by apply Hp|]. by apply Hin, Hp' in Hj as [? _].
Qed.

(** ** Whole runs

    A run: the ready nodes are claimed, then nodes in flight settle, one at a
    time and in any order, each completed or failed.  The indices are the graph,
    the ids in flight, the ids settled, whether one failed and whether the run
    was reported completed. *)

Inductive orchestrated (g0 : TaskGraph) :
    TaskGraph → list string → list string → bool → bool → Prop :=
  | orch_claim :
      orchestrated g0 (claim_ready g0).1 (map nd_node_id (claim_ready g0).2) [] false false
  | orch_completed g l1 i l2 settled failed a :
      orchestrated g0 g (l1 ++ i :: l2) settled failed false →
      a = plan_advance i SCompleted g →
      orchestrated g0 (av_graph a) (l1 ++ l2 ++ dispatched a) (i :: settled) failed (av_run_completed a)
  | orch_failed g l1 i l2 settled failed a :
      orchestrated g0 g (l1 ++ i :: l2) settled failed false →
      a = plan_advance i SFailed g →
      orchestrated g0 (av_graph a) (l1 ++ l2 ++ dispatched a) (i :: settled) true (av_run_completed a).

(** A graph as the orchestrator builds it: nothing has started, ids are unique. *)
Record fresh_graph (g : TaskGraph) : Prop := {
  fresh_pending : ∀ n, n ∈ subtasks g → nd_status n = SPending;
  fresh_ids : NoDup (map nd_node_id (subtasks g));
  fresh_nonempty : tg_nodes g ≠ []
}.

(** Dependencies are nodes of the graph, and lower in some ranking. *)
Definition acyclic (g : TaskGraph) : Prop :=
  ∃ rank : string → nat, ∀ n i, n ∈ tg_nodes g → i ∈ nd_depends_on n →
    i ∈ node_ids g ∧ (rank i < rank (nd_node_id n))%nat.

Lemma all_nodes_completed_true g :
  all_nodes_completed g = true ↔ tg_nodes g ≠ [] ∧ ∀ n, n ∈ tg_nodes g → nd_status n = SCompleted.
Proof.
  unfold all_nodes_completed. rw andb_true_iff forallb_elem. setoid_rewrite node_has_true.
  destruct (tg_nodes g); split; intros [? ?]; split; done.
Qed.

Lemma nodes_map_eq F g g' n :
  NoDup (map nd_node_id (subtasks g)) → mapped F g g' → n ∈ subtasks g → F n ∈ subtasks g'.
Proof. intros _ Hm Hn. rw (mapped_subtasks _ _ _ Hm). apply list_elem_of_fmap. eauto. Qed.

Lemma synth_not_node g s :
  NoDup (map nd_node_id (subtasks g)) → tg_synthesizer_node g = Some s →
  nd_node_id s ∉ node_ids g.
Proof.
  unfold subtasks, node_ids. intros Hnd Hs. rw Hs map_app in Hnd.
  apply NoDup_app in Hnd as (_ & Hd & _). intros Hin. apply (Hd _ Hin). simpl. by left.
Qed.

(** What the coordinator may rely on after a worker node completed. *)
Lemma after_completion_inv g :
  NoDup (map nd_node_id (subtasks g)) → tg_nodes g ≠ [] →
  (∀ s, tg_synthesizer_node g = Some s → nd_status s = SPending) →
  let a := advance_after_completion g in
  let g' := av_graph a in
  ready_nodes (completed_node_ids g') g' = [] ∧
  (∀ s, tg_synthesizer_node g' = Some s → nd_status s ≠ SPending ↔ all_nodes_completed g' = true) ∧
  (av_run_completed a = true ↔
     all_nodes_completed g' = true ∧ ∀ s, tg_synthesizer_node g' = Some s → nd_status s = SCompleted).
Proof.
  intros Hnd Hne Hsp. unfold advance_after_completion.
  destruct (ready_nodes (completed_node_ids g) g) as [|r rs] eqn:Er.
  - destruct (all_nodes_completed g) eqn:Ea.
    + destruct (tg_synthesizer_node g) as [s|] eqn:Es.
      * rw (proj2 (node_has_true _ _) (Hsp s eq_refl)) /=.
        assert (Hn : map (set_node_status (nd_node_id s) SRunning) (tg_nodes g) = tg_nodes g).
        { rw -[RHS]map_id. apply map_ext_in. intros n Hn. unfold set_node_status, has_id.
          rw bool_decide_eq_false_2 //. intros Hid. apply (synth_not_node g s Hnd Es).
          rw -Hid. apply list_elem_of_fmap. exists n. split; [done|by apply list_elem_of_In]. }
        assert (Hst : nd_status (set_node_status (nd_node_id s) SRunning s) = SRunning).
        { rw set_node_status_status. by rw decide_True. }
        unfold ready_nodes, completed_node_ids, all_nodes_completed in *. simpl. rw Hn Es /= Er Ea.
        split_and!; [done| |].
        -- intros s' [= <-]. by rw Hst.
        -- split; [done|]. intros [_ H]. specialize (H _ eq_refl). by rw Hst in H.
      * simpl. rw Er Ea Es. by split_and!.
    + assert (Hg : ready_nodes (completed_node_ids g) g = [] ∧
        (∀ s, tg_synthesizer_node g = Some s → nd_status s ≠ SPending ↔ all_nodes_completed g = true) ∧
        (false = true ↔ all_nodes_completed g = true ∧
           ∀ s, tg_synthesizer_node g = Some s → nd_status s = SCompleted)).
      { rw Er Ea. split_and!; [done| |naive_solver]. intros s Hs. rw (Hsp s Hs). naive_solver. }
      by destruct (existsb _ _).
  - rw -Er. set (l := ready_nodes (completed_node_ids g) g). simpl.
    destruct (start_nodes_eq l g) as [Hn Hs].
    assert (Hr : r ∈ l) by (unfold l; rw Er; by left).
    assert (Hall : all_nodes_completed (start_nodes l g) = false).
    { apply not_true_iff_false. rw all_nodes_completed_true Hn. intros [_ H].
      assert (Hx : nd_status (start_if l r) = SCompleted).
      { apply H, list_elem_of_fmap. exists r. by apply ready_nodes_elem in Hr as [? _]. }
      unfold start_if in Hx. rw bool_decide_eq_true_2 in Hx; [|done]. apply list_elem_of_fmap. eauto. }
    rw Hall. split_and!.
    + eapply started_not_ready; [|exact Hn|done]. by eapply started_completed.
    + intros s. rw Hs. destruct (tg_synthesizer_node g) as [s0|] eqn:Es; [|done].
      intros [= <-]. unfold start_if. rw bool_decide_eq_false_2.
      * intros Hin. apply list_elem_of_fmap in Hin as (n & Hid & Hn').
        apply (synth_not_node g s0 Hnd Es). rw Hid. apply list_elem_of_fmap.
        exists n. apply ready_nodes_elem in Hn' as [? _]. done.
      * rw (Hsp s0 eq_refl). naive_solver.
    + naive_solver.
Qed.

Record run_inv (g0 g : TaskGraph) (fl settled : list string) (failed done : bool) : Prop := {
  ri_static : ∃ F, mapped F g0 g ∧
    ∀ n, nd_node_id (F n) = nd_node_id n ∧ nd_depends_on (F n) = nd_depends_on n;
  ri_fl_nodup : NoDup fl;
  ri_fl : ∀ i, i ∈ fl ↔ ∃ n, n ∈ subtasks g ∧ nd_node_id n = i ∧ nd_status n = SRunning;
  ri_settled_nodup : NoDup settled;
  ri_settled : ∀ i, i ∈ settled ↔
    ∃ n, n ∈ subtasks g ∧ nd_node_id n = i ∧ (nd_status n = SCompleted ∨ nd_status n = SFailed);
  ri_started : ∀ n, n ∈ tg_nodes g → nd_status n ≠ SPending →
    ∀ i, i ∈ nd_depends_on n → i ∈ completed_node_ids g;
  ri_ready : ready_nodes (completed_node_ids g) g = [];
  ri_synth : ∀ s, tg_synthesizer_node g = Some s →
    nd_status s ≠ SPending ↔ all_nodes_completed g = true;
  ri_failed : failed = false → ∀ n, n ∈ subtasks g → nd_status n ≠ SFailed;
  ri_done : done = true ↔
    all_nodes_completed g = true ∧ ∀ s, tg_synthesizer_node g = Some s → nd_status s = SCompleted
}.

Lemma run_inv_claim g0 :
  fresh_graph g0 → run_inv g0 (claim_ready g0).1 (map nd_node_id (claim_ready g0).2) [] false false.
Proof.
  intros [Hp Hnd Hne]. pose proof (claim_ready_mapped g0) as Hm. pose proof (claimed_ids g0) as Hids.
  set (ids := map nd_node_id (claim_ready g0).2) in *. set (g := (claim_ready g0).1) in *.
  assert (Hidin : ∀ i, i ∈ ids → i ∈ node_ids g0).
  { rw Hids. intros i Hi. apply list_elem_of_fmap in Hi as (n & -> & Hn).
    apply ready_nodes_elem in Hn as [? _]. apply list_elem_of_fmap. eauto. }
  assert (Hst : ∀ n, n ∈ subtasks g → nd_status n = if decide (nd_node_id n ∈ ids) then SRunning else SPending).
  { intros n Hn. rw (mapped_subtasks _ _ _ Hm) in Hn. apply list_elem_of_fmap in Hn as (m & -> & Hn).
    rw start_ids_status start_ids_id. by rw (Hp m Hn). }
  assert (Hnc : ∀ i, i ∉ completed_node_ids g).
  { intros i. rw completed_node_ids_elem. intros (n & Hn & Hs & _).
    rw Hst in Hs; [unfold subtasks; set_solver|]. by case_decide. }
  assert (Hall : all_nodes_completed g = false).
  { apply not_true_iff_false. rw all_nodes_completed_true. intros [Hne' H].
    destruct (tg_nodes g) as [|n l] eqn:E; [done|]. specialize (H n ltac:(by left)).
    apply (Hnc (nd_node_id n)), completed_node_ids_elem. exists n. rw E. split_and!; [by left|done..]. }
  assert (Hsub : ∀ i, i ∈ node_ids g0 → ∃ n, n ∈ subtasks g ∧ nd_node_id n = i).
  { intros i Hi. apply list_elem_of_fmap in Hi as (n & -> & Hn). exists (start_ids ids n).
    rw start_ids_id (mapped_subtasks _ _ _ Hm). split; [|done]. apply list_elem_of_fmap.
    exists n. split; [done|]. unfold subtasks. set_solver. }
  constructor.
  - exists (start_ids ids). split; [done|]. intros n. by rw start_ids_id start_ids_deps.
  - rw Hids. apply NoDup_map_filter. by apply subtasks_nodup_nodes.
  - intros i. split.
    + intros Hi. destruct (Hsub i (Hidin i Hi)) as (n & Hn & <-). exists n.
      split_and!; try done. rw (Hst n Hn). by case_decide.
    + intros (n & Hn & <- & Hs). rw (Hst n Hn) in Hs. by case_decide.
  - constructor.
  - intros i. split; [by intros ?%not_elem_of_nil|]. intros (n & Hn & _ & Hs).
    rw (Hst n Hn) in Hs. case_decide; naive_solver.
  - intros n Hn Hs i Hi. exfalso. rw Hst in Hs; [unfold subtasks; set_solver|].
    case_decide as Hd; [|done]. rw Hids in Hd. apply list_elem_of_fmap in Hd as (m & Hid & Hm').
    apply ready_nodes_elem in Hm' as (Hm' & _ & Hdeps).
    destruct Hm as [Hmn _]. rw Hmn in Hn. apply list_elem_of_fmap in Hn as (k & -> & Hk).
    rw start_ids_id in Hid. rw start_ids_deps in Hi.
    assert (k = m) as -> by (by apply (subtask_id_inj g0); [..|apply node_subtask|apply node_subtask|]).
    apply Hdeps in Hi. apply completed_node_ids_elem in Hi as (n & Hn & Hs' & _).
    rw Hp in Hs'; [unfold subtasks; set_solver|]. done.
  - destruct Hm as [Hmn _]. eapply (started_not_ready g0); [|rw -Hids; exact Hmn|done].
    by eapply started_completed.
  - intros s Hs. rw Hall. split; [|done]. intros Hns. exfalso. apply Hns.
    rw Hst; [unfold subtasks; rw Hs; set_solver|]. rw decide_False //. intros Hi.
    destruct Hm as [_ Hms]. rw Hms in Hs. destruct (tg_synthesizer_node g0) as [s0|] eqn:Es; [|done].
    injection Hs as <-. rw start_ids_id in Hi. by apply (synth_not_node g0 s0 Hnd Es), Hidin.
  - intros _ n Hn. rw (Hst n Hn). by case_decide.
  - rw Hall. naive_solver.
Qed.

Lemma run_inv_ids g0 g fl settled failed done :
  fresh_graph g0 → run_inv g0 g fl settled failed done →
  NoDup (map nd_node_id (subtasks g)) ∧ tg_nodes g ≠ [] ∧ node_ids g = node_ids g0 ∧
  map nd_node_id (subtasks g) = map nd_node_id (subtasks g0).
Proof.
  intros [_ Hnd Hne] [(F & Hm & HF) _ _ _ _ _ _ _ _ _].
  assert (Heq : map nd_node_id (subtasks g) = map nd_node_id (subtasks g0)).
  { rw (mapped_subtasks _ _ _ Hm) map_map. apply map_ext. intros n. apply HF. }
  split_and!; [by rw Heq|..|done]; destruct Hm as [Hn _].
  - rw Hn. by destruct (tg_nodes g0).
  - unfold node_ids. rw Hn map_map. apply map_ext. intros n. apply HF.
Qed.

(** The statuses after node [i], which was running, settles as [s]. *)
Section settle.
Context (g : TaskGraph) (i : string) (s : SubTaskStatus).
Hypothesis Hnd : NoDup (map nd_node_id (subtasks g)).
Hypothesis Hs : s = SCompleted ∨ s = SFailed.
Hypothesis Hrun : ∃ n, n ∈ subtasks g ∧ nd_node_id n = i ∧ nd_status n = SRunning.

Let a := plan_advance i s g.
Let d := dispatched a.
Let F := λ n, start_ids d (set_node_status i s n).

Lemma settle_shape :
  mapped F g (av_graph a) ∧ NoDup d ∧ i ∉ d ∧
  (∀ n, n ∈ subtasks g → nd_node_id n ∈ d → nd_status n = SPending) ∧
  (∀ j, j ∈ d → ∃ n, n ∈ subtasks g ∧ nd_node_id n = j) ∧
  (∀ j, j ∈ d → s = SCompleted ∧ dispatchable (with_node_status i s g) j) ∧
  (s = SCompleted → is_synthesizer i g = true → a = advance_completed true (with_node_status i s g)) ∧
  (s = SCompleted → is_synthesizer i g = false → a = advance_after_completion (with_node_status i s g)) ∧
  (s = SFailed → a = advance_failed (with_node_status i s g)).
Proof.
  destruct Hrun as (n0 & Hn0 & Hid & Hst).
  assert (Hg : get_node g i = Some n0) by (rw -Hid; by apply get_node_elem).
  destruct (plan_advance_shape g i s n0 Hnd Hg) as (Hm & Hd & Hj & Hsy & Hw & Hf).
  { rw Hst. by destruct Hs as [->| ->]. }
  fold a d F in Hm, Hd, Hj, Hsy, Hw, Hf.
  assert (Hpend : ∀ j, j ∈ d → ∃ n, n ∈ subtasks g ∧ nd_node_id n = j ∧ nd_status n = SPending ∧ j ≠ i).
  { intros j Hin. destruct (Hj j Hin) as [Hsc (m & Hm' & Hmid & Hms)%dispatchable_pending].
    rw (mapped_subtasks (set_node_status i s) g) // in Hm'.
    apply list_elem_of_fmap in Hm' as (n & -> & Hn). rw set_node_status_status in Hms.
    rw set_node_status_id in Hmid. case_decide; [congruence|]. exists n. split_and!; congruence. }
  split_and!; try done.
  - intros Hi. by destruct (Hpend i Hi) as (? & _ & _ & _ & ?).
  - intros n Hn Hin. destruct (Hpend _ Hin) as (m & Hm' & Hmid & Hms & _).
    by rw (subtask_id_inj g n m).
  - intros j Hin. destruct (Hpend j Hin) as (n & ? & ? & _). eauto.
Qed.

Lemma settle_F_id n : nd_node_id (F n) = nd_node_id n.
Proof. unfold F. by rw start_ids_id set_node_status_id. Qed.

Lemma settle_F_deps n : nd_depends_on (F n) = nd_depends_on n.
Proof. unfold F. by rw start_ids_deps set_node_status_deps. Qed.

Lemma settle_F_status n :
  nd_status (F n) = if decide (nd_node_id n ∈ d) then SRunning
                    else if decide (nd_node_id n = i) then s else nd_status n.
Proof. unfold F. by rw start_ids_status set_node_status_id set_node_status_status. Qed.

Lemma settle_elem m : m ∈ subtasks (av_graph a) ↔ ∃ n, n ∈ subtasks g ∧ m = F n.
Proof.
  rw (mapped_subtasks _ _ _ (proj1 settle_shape)) list_elem_of_fmap. naive_solver.
Qed.

Lemma settle_node m : m ∈ tg_nodes (av_graph a) ↔ ∃ n, n ∈ tg_nodes g ∧ m = F n.
Proof.
  destruct settle_shape as ([Hn _] & _). rw Hn list_elem_of_fmap. naive_solver.
Qed.

Lemma settle_running_id n : n ∈ subtasks g → nd_node_id n = i → nd_status n = SRunning.
Proof.
  intros Hn Hid. destruct Hrun as (n0 & Hn0 & Hid0 & Hst).
  rw (subtask_id_inj g n n0) //. congruence.
Qed.

Lemma settle_completed_mono j : j ∈ completed_node_ids g → j ∈ completed_node_ids (av_graph a).
Proof.
  rw !completed_node_ids_elem. intros (n & Hn & Hst & <-). exists (F n).
  assert (Hsub : n ∈ subtasks g) by (unfold subtasks; set_solver).
  rw settle_F_id settle_node. split_and!; [eauto| |done]. rw settle_F_status.
  destruct settle_shape as (_ & _ & _ & Hp & _).
  case_decide as H1; [specialize (Hp n Hsub H1); congruence|].
  case_decide as H2; [|done]. by rw settle_running_id in Hst.
Qed.

Lemma settle_running j :
  (∃ m, m ∈ subtasks (av_graph a) ∧ nd_node_id m = j ∧ nd_status m = SRunning) ↔
  j ∈ d ∨ (j ≠ i ∧ ∃ n, n ∈ subtasks g ∧ nd_node_id n = j ∧ nd_status n = SRunning).
Proof.
  destruct settle_shape as (_ & _ & Hid & _ & Hdin & _). split.
  - intros (m & (n & Hn & ->)%settle_elem & <- & Hst). rw settle_F_id. rw settle_F_status in Hst.
    case_decide as H1; [by left|]. case_decide as H2; [destruct Hs; congruence|]. right. eauto.
  - intros [Hj|(Hne & n & Hn & <- & Hst)].
    + destruct (Hdin j Hj) as (n & Hn & <-). exists (F n).
      rw settle_elem settle_F_id settle_F_status. rw decide_True //. eauto.
    + exists (F n). rw settle_elem settle_F_id settle_F_status. split_and!; [eauto|done|].
      case_decide; [done|]. by rw decide_False.
Qed.

Lemma settle_settled j :
  (∃ m, m ∈ subtasks (av_graph a) ∧ nd_node_id m = j ∧ (nd_status m = SCompleted ∨ nd_status m = SFailed)) ↔
  j = i ∨ ∃ n, n ∈ subtasks g ∧ nd_node_id n = j ∧ (nd_status n = SCompleted ∨ nd_status n = SFailed).
Proof.
  destruct settle_shape as (_ & _ & Hid & Hp & _). split.
  - intros (m & (n & Hn & ->)%settle_elem & <- & Hst). rw settle_F_id. rw settle_F_status in Hst.
    case_decide as H1; [naive_solver|]. case_decide as H2; [by left|]. right. eauto.
  - intros [->|(n & Hn & <- & Hst)].
    + destruct Hrun as (n & Hn & Hni & _). exists (F n). rw settle_elem settle_F_id settle_F_status Hni.
      split_and!; [eauto|done|]. rw decide_False // decide_True //.
    + exists (F n). rw settle_elem settle_F_id settle_F_status. split_and!; [eauto|done|].
      case_decide as H1; [rw (Hp n Hn H1) in Hst; naive_solver|].
      case_decide as H2; [|done]. rw (settle_running_id n Hn H2) in Hst. naive_solver.
Qed.
End settle.

(** The join conditions after node [i] settled as [s]. *)
Lemma settle_join g i s :
  NoDup (map nd_node_id (subtasks g)) → tg_nodes g ≠ [] → s = SCompleted ∨ s = SFailed →
  (∃ n, n ∈ subtasks g ∧ nd_node_id n = i ∧ nd_status n = SRunning) →
  (∀ t, tg_synthesizer_node g = Some t → nd_status t ≠ SPending ↔ all_nodes_completed g = true) →
  ready_nodes (completed_node_ids g) g = [] →
  let a := plan_advance i s g in
  let g' := av_graph a in
  ready_nodes (completed_node_ids g') g' = [] ∧
  (∀ t, tg_synthesizer_node g' = Some t → nd_status t ≠ SPending ↔ all_nodes_completed g' = true) ∧
  (av_run_completed a = true ↔
     all_nodes_completed g' = true ∧ ∀ t, tg_synthesizer_node g' = Some t → nd_status t = SCompleted).
Proof.
  intros Hnd Hne Hs Hrun Hsy Hready. pose proof (settle_shape g i s Hnd Hs Hrun) as Hshape.
  destruct Hshape as (_ & _ & _ & _ & _ & _ & Hsyn & Hw & Hf).
  set (g1 := with_node_status i s g) in *.
  assert (Hsub1 : map nd_node_id (subtasks g1) = map nd_node_id (subtasks g)).
  { rw (mapped_subtasks (set_node_status i s) g g1) // map_map. apply map_ext. intros n.
    apply set_node_status_id. }
  destruct (is_synthesizer i g) eqn:Ei.
  - (* the synthesizer settled: the nodes are untouched *)
    unfold is_synthesizer in Ei. destruct (tg_synthesizer_node g) as [t|] eqn:Et; [|done].
    rw has_id_true in Ei.
    assert (Hn1 : tg_nodes g1 = tg_nodes g).
    { simpl. rw -[RHS]map_id. apply map_ext_in. intros n Hn. unfold set_node_status, has_id.
      rw bool_decide_eq_false_2 //. intros Hid. apply (synth_not_node g t Hnd Et). rw Ei -Hid.
      apply list_elem_of_fmap. exists n. split; [done|by apply list_elem_of_In]. }
    assert (Ht1 : tg_synthesizer_node g1 = Some (node_with_status s t)).
    { simpl. rw Et. unfold set_node_status, has_id. simpl. by rw bool_decide_eq_true_2. }
    assert (Hall : all_nodes_completed g1 = true).
    { unfold all_nodes_completed. rw Hn1. apply (Hsy t eq_refl).
      rw (settle_running_id g i Hnd Hrun t) //. unfold subtasks. rw Et. set_solver. }
    assert (Hr1 : ready_nodes (completed_node_ids g1) g1 = []).
    { unfold ready_nodes, completed_node_ids in *. by rw Hn1. }
    destruct Hs as [->| ->].
    + rw Hsyn //. cbn [av_graph av_run_completed advance_completed]. rw Hr1 Hall Ht1. split_and!; [done| |]; try by intros t' [= <-].
      split; [|done]. intros _. split; [done|]. by intros t' [= <-].
    + rw Hf //. cbn [av_graph av_run_completed advance_failed]. rw Hr1 Hall Ht1. split_and!; [done| |]; try by intros t' [= <-].
      split; [done|]. intros [_ H]. by specialize (H _ eq_refl).
  - (* a worker node settled: the synthesizer is still pending *)
    destruct Hrun as (n & Hn & Hni & Hst).
    assert (Hnn : n ∈ tg_nodes g).
    { unfold subtasks in Hn. apply elem_of_app in Hn as [Hn|Hn]; [done|]. exfalso.
      unfold is_synthesizer in Ei. destruct (tg_synthesizer_node g) as [t|]; [|by apply not_elem_of_nil in Hn].
      apply list_elem_of_singleton in Hn as ->. unfold has_id in Ei. by rw bool_decide_eq_true_2 in Ei. }
    assert (Hall : all_nodes_completed g = false).
    { apply not_true_iff_false. rw all_nodes_completed_true. intros [_ H]. specialize (H n Hnn). congruence. }
    assert (Hsp : ∀ t, tg_synthesizer_node g1 = Some t → nd_status t = SPending).
    { intros t. simpl. destruct (tg_synthesizer_node g) as [t0|] eqn:Et; [|done]. intros [= <-].
      rw set_node_status_status. unfold is_synthesizer in Ei. rw Et in Ei. rw decide_False.
      - intros Hid. unfold has_id in Ei. by rw bool_decide_eq_true_2 in Ei.
      - destruct (decide (nd_status t0 = SPending)) as [|Hp]; [done|]. apply (Hsy t0 eq_refl) in Hp. congruence. }
    destruct Hs as [->| ->].
    + rw Hw //. apply after_completion_inv; [by rw Hsub1| |done]. simpl. by destruct (tg_nodes g).
    + rw Hf //. cbn [av_graph av_run_completed advance_failed]. assert (Hall1 : all_nodes_completed g1 = false).
      { apply not_true_iff_false. rw all_nodes_completed_true. intros [_ H].
        specialize (H (set_node_status i SFailed n)). rw set_node_status_status decide_True // in H.
        discriminate H. simpl. apply list_elem_of_fmap. eauto. }
      rw Hall1. split_and!; [| |naive_solver].
      * destruct (ready_nodes _ g1) as [|m l] eqn:E; [done|]. exfalso.
        assert (Hm : m ∈ ready_nodes (completed_node_ids g1) g1) by (rw E; by left).
        apply ready_nodes_elem in Hm as (Hm & Hms & Hdeps). simpl in Hm.
        apply list_elem_of_fmap in Hm as (k & -> & Hk). rw set_node_status_status in Hms.
        case_decide; [done|]. assert (Hkr : k ∈ ready_nodes (completed_node_ids g) g); [|rw Hready in Hkr; by apply not_elem_of_nil in Hkr].
        apply ready_nodes_elem. split_and!; try done. intros j Hj. rw set_node_status_deps in Hdeps.
        specialize (Hdeps j Hj). rw !completed_node_ids_elem in Hdeps |- *.
        destruct Hdeps as (q & Hq & Hqs & <-). simpl in Hq. apply list_elem_of_fmap in Hq as (q0 & -> & Hq0).
        exists q0. rw set_node_status_id. rw set_node_status_status in Hqs. by case_decide.
      * intros t Ht. rw (Hsp t Ht). naive_solver.
Qed.

Lemma run_inv_settle g0 g l1 i l2 settled failed s :
  fresh_graph g0 → s = SCompleted ∨ s = SFailed →
  run_inv g0 g (l1 ++ i :: l2) settled failed false →
  let a := plan_advance i s g in
  run_inv g0 (av_graph a) (l1 ++ l2 ++ dispatched a) (i :: settled)
    (if decide (s = SFailed) then true else failed) (av_run_completed a).
Proof.
  intros Hf Hs Hinv. destruct (run_inv_ids _ _ _ _ _ _ Hf Hinv) as (Hnd & Hne & _).
  destruct Hinv as [(F0 & Hm0 & HF0) Hfl1 Hfl Hse1 Hse Hst Hre Hsy Hfa Hdo].
  assert (Hrun : ∃ n, n ∈ subtasks g ∧ nd_node_id n = i ∧ nd_status n = SRunning).
  { apply Hfl. set_solver. }
  destruct (settle_join g i s Hnd Hne Hs Hrun Hsy Hre) as (Hre' & Hsy' & Hdo').
  pose proof (settle_shape g i s Hnd Hs Hrun) as (Hm & Hd & Hid & Hp & Hdin & Hdis & _).
  set (a := plan_advance i s g) in *. simpl.
  assert (Hflp : NoDup (l1 ++ l2) ∧ i ∉ l1 ++ l2).
  { rw -Permutation_middle NoDup_cons in Hfl1. tauto. }
  constructor; try done.
  - exists (λ n, start_ids (dispatched a) (set_node_status i s (F0 n))). split.
    + destruct Hm0 as [Hn0 Hs0], Hm as [Hn Hsn]. split.
      * rw Hn Hn0 map_map. done.
      * rw Hsn Hs0. by destruct (tg_synthesizer_node g0).
    + intros n. rw (settle_F_id g i s) (settle_F_deps g i s). apply HF0.
  - rw app_assoc NoDup_app. split_and!; [tauto| |done]. intros j Hj Hjd.
    destruct (Hdin j Hjd) as (n & Hn & <-).
    assert (Hjf : nd_node_id n ∈ l1 ++ i :: l2).
    { rw elem_of_app in Hj. rw elem_of_app elem_of_cons. tauto. }
    apply Hfl in Hjf as (m & Hm' & Hmid & Hms).
    rw (subtask_id_inj g m n) // in Hms. by rw (Hp n Hn Hjd) in Hms.
  - intros j. rw (settle_running g i s Hnd Hs Hrun) -Hfl.
    destruct Hflp as [_ Hni]. rw elem_of_app in Hni. rw !elem_of_app elem_of_cons. split.
    + intros [?|[?|?]]; [right|right|by left]; (split; [intros ->; tauto|tauto]).
    + tauto.
  - rw NoDup_cons. split; [|done]. rw Hse. intros (n & Hn & Hid' & Hns).
    rw (settle_running_id g i Hnd Hrun n Hn Hid') in Hns. naive_solver.
  - intros j. rw (settle_settled g i s Hnd Hs Hrun) elem_of_cons Hse. done.
  - intros m (n & Hn & ->)%(settle_node g i s Hnd Hs Hrun). rw (settle_F_status g i s) (settle_F_deps g i s).
    intros Hns j Hj. case_decide as H1.
    + destruct (Hdis _ H1) as [-> [(m & Hm' & Hmid & _ & Hdeps)|(m & Hm' & Hmid & _)]].
      * simpl in Hm'. apply list_elem_of_fmap in Hm' as (k & -> & Hk). rw set_node_status_id in Hmid.
        assert (k = n) as -> by (by apply (subtask_id_inj g); [..|apply node_subtask|apply node_subtask|]).
        rw set_node_status_deps in Hdeps. specialize (Hdeps j Hj).
        assert (Hcase : j ∈ completed_node_ids g ∨ j = i ∧ i ∈ node_ids g).
        { rw completed_node_ids_elem in Hdeps. destruct Hdeps as (q & Hq & Hqs & <-).
          simpl in Hq. apply list_elem_of_fmap in Hq as (q0 & -> & Hq0).
          rw set_node_status_id. rw set_node_status_status in Hqs. case_decide as Hq.
          - right. split; [done|]. rw -Hq. apply list_elem_of_fmap. eauto.
          - left. apply completed_node_ids_elem. eauto. }
        destruct Hcase as [Hc|[-> Hin]].
        -- by apply (settle_completed_mono g i SCompleted Hnd Hs Hrun).
        -- apply list_elem_of_fmap in Hin as (q & Hqi & Hq). apply completed_node_ids_elem.
           exists (start_ids (dispatched a) (set_node_status i SCompleted q)).
           rw (settle_F_id g i SCompleted) (settle_F_status g i SCompleted).
           rw (settle_node g i SCompleted Hnd Hs Hrun). split_and!; [eauto| |done].
           rw -Hqi decide_False // decide_True //.
      * exfalso. simpl in Hm'. destruct (tg_synthesizer_node g) as [t|] eqn:Et; [|done].
        injection Hm' as <-. rw set_node_status_id in Hmid. apply (synth_not_node g t Hnd Et).
        rw Hmid. apply list_elem_of_fmap. eauto.
    + apply (settle_completed_mono g i s Hnd Hs Hrun). apply (Hst n Hn); [|done].
      case_decide as H2; [|done].
      rw (settle_running_id g i Hnd Hrun n) //. unfold subtasks. set_solver.
  - case_decide as Hsf; [done|]. intros Hff m (n & Hn & ->)%(settle_elem g i s Hnd Hs Hrun).
    rw (settle_F_status g i s). case_decide; [done|]. case_decide; [done|]. by apply Hfa.
Qed.

Lemma orchestrated_inv g0 g fl settled failed done :
  fresh_graph g0 → orchestrated g0 g fl settled failed done → run_inv g0 g fl settled failed done.
Proof.
  intros Hf. induction 1 as [|g l1 i l2 settled failed a _ IH ->|g l1 i l2 settled failed a _ IH ->].
  - by apply run_inv_claim.
  - exact (run_inv_settle g0 g l1 i l2 settled failed SCompleted Hf (or_introl eq_refl) IH).
  - exact (run_inv_settle g0 g l1 i l2 settled failed SFailed Hf (or_intror eq_refl) IH).
Qed.

Lemma run_inv_progress g0 g fl settled :
  fresh_graph g0 → acyclic g0 → run_inv g0 g fl settled false false → fl ≠ [].
Proof.
  intros Hf [rank Hrank] Hinv Hnil. destruct (run_inv_ids _ _ _ _ _ _ Hf Hinv) as (Hnd & Hne & Hids & _).
  destruct Hinv as [(F & [Hmn _] & HF) _ Hfl _ _ _ Hre Hsy Hfa Hdo]. subst fl.
  assert (Hstat : ∀ n, n ∈ subtasks g → nd_status n = SPending ∨ nd_status n = SCompleted).
  { intros n Hn. destruct (nd_status n) eqn:Es; auto; exfalso.
    - apply (not_elem_of_nil (nd_node_id n)), Hfl. eauto.
    - by apply (Hfa eq_refl n). }
  assert (Hrank' : ∀ n i, n ∈ tg_nodes g → i ∈ nd_depends_on n → i ∈ node_ids g ∧ (rank i < rank (nd_node_id n))%nat).
  { intros n i Hn Hi. rw Hmn in Hn. apply list_elem_of_fmap in Hn as (m & -> & Hm).
    destruct (HF m) as [Hid Hdep]. rw Hdep in Hi. rw Hid Hids. by apply Hrank. }
  (* every node is completed, by induction on the rank *)
  assert (Hall : ∀ k n, (rank (nd_node_id n) < k)%nat → n ∈ tg_nodes g → nd_status n = SCompleted).
  { induction k as [|k IH]; intros n Hk Hn; [lia|].
    destruct (Hstat n (node_subtask _ _ Hn)) as [Hp|]; [|done]. exfalso.
    assert (Hr : n ∈ ready_nodes (completed_node_ids g) g); [|rw Hre in Hr; by apply not_elem_of_nil in Hr].
    apply ready_nodes_elem. split_and!; try done. intros i Hi.
    destruct (Hrank' n i Hn Hi) as [Hin Hlt]. apply list_elem_of_fmap in Hin as (m & -> & Hm).
    apply completed_node_ids_elem. exists m. split_and!; try done. apply IH; [lia|done]. }
  assert (Hc : all_nodes_completed g = true).
  { apply all_nodes_completed_true. split; [done|]. intros n Hn. by apply (Hall (S (rank (nd_node_id n)))); [lia|]. }
  apply not_false_iff_true in Hc as Hc'. clear Hc'. 
  assert (false = true); [|done]. apply Hdo. split; [done|]. intros s Hs.
  destruct (Hstat s) as [Hp|]; [|exfalso; by apply (Hsy s Hs)|done].
  unfold subtasks. rw Hs. set_solver.
Qed.

Lemma NoDup_length_le (l k : list string) : NoDup l → (∀ x, x ∈ l → x ∈ k) → (length l ≤ length k)%nat.
Proof. intros Hl Hin. apply submseteq_length, NoDup_submseteq; done. Qed.

(** ** Properties *)

(** C19: however claims and settlements are interleaved and repeated, for any
    graph with distinct ids and for settlements with any status but pending
    (also of nodes that were never started, twice, or unknown), no node and no
    synthesizer is dispatched twice. *)
Theorem dispatched_at_most_once g ops :
  NoDup (map nd_node_id (subtasks g)) → Forall op_ok ops → NoDup (run_ops ops g).2.
Proof. intros Hnd Hok. by apply run_ops_dispatched. Qed.

(** C17: in every run of a fresh graph, with nodes settling in any order and
    completed or failed, a node that has started has all its dependencies
    completed, the synthesizer has started only if every node is completed, the
    nodes in flight are exactly the running ones, and the run is reported
    completed exactly when all nodes and the synthesizer are completed. *)
Theorem orchestrated_safe g0 g fl settled failed done :
  fresh_graph g0 → orchestrated g0 g fl settled failed done →
  (∀ n, n ∈ tg_nodes g → nd_status n ≠ SPending →
     ∀ i, i ∈ nd_depends_on n → i ∈ completed_node_ids g) ∧
  (∀ s, tg_synthesizer_node g = Some s → nd_status s ≠ SPending → all_nodes_completed g = true) ∧
  NoDup fl ∧
  (∀ i, i ∈ fl ↔ ∃ n, n ∈ subtasks g ∧ nd_node_id n = i ∧ nd_status n = SRunning) ∧
  (done = true ↔ all_nodes_completed g = true ∧
     ∀ s, tg_synthesizer_node g = Some s → nd_status s = SCompleted).
Proof.
  intros Hf H. destruct (orchestrated_inv _ _ _ _ _ _ Hf H) as [_ H1 H2 _ _ H3 _ H4 _ H5].
  split_and!; try done. intros s Hs Hp. by apply (H4 s Hs).
Qed.

(** C18: a run of an acyclic graph in which no node fails makes progress and
    ends: as long as it is not reported completed some node is in flight, no
    settlement reports it blocked, no node settles twice, so at most as many
    settlements happen as there are nodes and synthesizer, and when it is reported
    completed exactly that many did. *)
Theorem orchestrated_completes g0 g fl settled done :
  fresh_graph g0 → acyclic g0 → orchestrated g0 g fl settled false done →
  (done = false → fl ≠ [] ∧ ∀ i, i ∈ fl → av_blocked (plan_advance i SCompleted g) = false) ∧
  NoDup settled ∧ (length settled ≤ length (subtasks g0))%nat ∧
  (done = true → length settled = length (subtasks g0) ∧ fl = []).
Proof.
  intros Hf Hac H. pose proof (orchestrated_inv _ _ _ _ _ _ Hf H) as Hinv.
  destruct (run_inv_ids _ _ _ _ _ _ Hf Hinv) as (Hnd & Hne & _ & Hsub).
  assert (Hlen : (length settled ≤ length (subtasks g0))%nat).
  { rw -(length_map nd_node_id (subtasks g0)) -Hsub. apply NoDup_length_le; [apply Hinv|].
    intros x Hx. apply (ri_settled _ _ _ _ _ _ Hinv) in Hx as (n & Hn & <- & _).
    apply list_elem_of_fmap. eauto. }
  split_and!; [|apply Hinv|done|].
  - intros ->. split; [by eapply run_inv_progress|]. intros i Hi.
    destruct (av_blocked (plan_advance i SCompleted g)) eqn:Eb; [|done]. exfalso.
    apply list_elem_of_split in Hi as (l1 & l2 & ->).
    assert (Hrun : ∃ n, n ∈ subtasks g ∧ nd_node_id n = i ∧ nd_status n = SRunning).
    { apply (ri_fl _ _ _ _ _ _ Hinv). set_solver. }
    pose proof (run_inv_settle g0 g l1 i l2 settled false SCompleted Hf (or_introl eq_refl) Hinv) as Hnext.
    destruct (settle_shape g i SCompleted Hnd (or_introl eq_refl) Hrun) as (_ & _ & _ & _ & _ & _ & Hsy & Hw & _).
    destruct (is_synthesizer i g) eqn:Ei; [by rw Hsy // in Eb|]. rw Hw // in Eb Hnext.
    clear Hsy Hw. unfold advance_after_completion in Eb, Hnext.
    set (g1 := with_node_status i SCompleted g) in *.
    destruct (ready_nodes _ g1) as [|r rs]; [|done].
    destruct (all_nodes_completed g1) eqn:Eall.
    { destruct (tg_synthesizer_node g1) as [s|]; [|done]. destruct (node_has SPending s); [done|].
      by destruct (negb _). }
    destruct (existsb (node_has SRunning) (tg_nodes g1)) eqn:Er; [done|]. simpl in Hnext.
    pose proof (run_inv_progress _ _ _ _ Hf Hac Hnext) as Hfl.
    destruct (l1 ++ l2 ++ dispatched (advance_blocked g1)) as [|j fl'] eqn:Efl; [done|].
    destruct (proj1 (ri_fl _ _ _ _ _ _ Hnext j)) as (n & Hn & _ & Hs); [by left|]. simpl in Hn.
    unfold subtasks in Hn. apply elem_of_app in Hn as [Hn|Hn].
    + rw existsb_elem_false in Er. specialize (Er n Hn). by rw node_has_false in Er.
    + pose proof (ri_synth _ _ _ _ _ _ Hnext) as Hsyn. change (av_graph (advance_blocked g1)) with g1 in Hsyn.
      change (tg_synthesizer_node (av_graph (advance_blocked g1))) with (tg_synthesizer_node g1) in Hn.
      destruct (tg_synthesizer_node g1) as [s|]; [|by apply not_elem_of_nil in Hn].
      apply list_elem_of_singleton in Hn as ->. assert (all_nodes_completed g1 = true); [|congruence].
      apply (Hsyn s eq_refl). congruence.
  - intros ->. destruct (proj1 (ri_done _ _ _ _ _ _ Hinv) eq_refl) as [Hall Hs].
    assert (Hc : ∀ n, n ∈ subtasks g → nd_status n = SCompleted).
    { intros n [Hn|Hn]%elem_of_app; [by apply all_nodes_completed_true in Hall as [_ Hall]; apply Hall|].
      destruct (tg_synthesizer_node g); [|by apply not_elem_of_nil in Hn].
      apply list_elem_of_singleton in Hn as ->. by apply Hs. }
    split.
    + apply (anti_symm le); [done|]. rw -(length_map nd_node_id (subtasks g0)) -Hsub.
      apply NoDup_length_le; [done|]. intros x Hx. apply list_elem_of_fmap in Hx as (n & -> & Hn).
      apply (ri_settled _ _ _ _ _ _ Hinv). exists n. auto.
    + destruct fl as [|i fl]; [done|]. exfalso.
      destruct (proj1 (ri_fl _ _ _ _ _ _ Hinv i)) as (n & Hn & _ & Hr); [by left|].
      rw (Hc n Hn) in Hr. done.
Qed.

Lemma get_node_mapped F g g' i :
  (∀ n, nd_node_id (F n) = nd_node_id n) → mapped F g g' → get_node g' i = option_map F (get_node g i).
Proof.
  intros HF [Hn Hs]. unfold get_node. rw Hn Hs.
  assert (Hhas : ∀ n, has_id i (F n) = has_id i n) by (intros n; unfold has_id; by rw HF).
  assert (Hfind : find_first (has_id i) (map F (tg_nodes g)) = option_map F (find_first (has_id i) (tg_nodes g))).
  { clear Hn Hs. induction (tg_nodes g) as [|n l IH]; simpl; [done|]. rw Hhas. by destruct (has_id i n). }
  rw Hfind. clear Hfind. destruct (find_first (has_id i) (tg_nodes g)); [reflexivity|]. destruct (tg_synthesizer_node g) as [t|]; [|done].
  simpl. rw Hhas. by destruct (has_id i t).
Qed.

(** The node that was given a status still has it in the graph the advance returns. *)
Lemma advance_keeps_status i s g n :
  get_node g i = Some n →
  ∃ m, get_node (av_graph (plan_advance i s g)) i = Some m ∧ nd_status m = s.
Proof.
  intros Hg. unfold plan_advance. rw Hg. destruct (node_has s n) eqn:Es.
  { rw node_has_true in Es. exists n. done. }
  set (g1 := with_node_status i s g).
  assert (Hg1 : ∃ m, get_node g1 i = Some m ∧ nd_status m = s).
  { exists (set_node_status i s n). rw (get_node_mapped (set_node_status i s) g g1) // ?Hg.
    - apply set_node_status_id.
    - apply get_node_Some in Hg as [Hid _]. rw set_node_status_status. by rw decide_True. }
  destruct (bool_decide_reflect (s = SFailed)); [done|].
  destruct (bool_decide_reflect (s ≠ SCompleted)) as [|Hc]; [done|].
  assert (s = SCompleted) as -> by (destruct (decide (s = SCompleted)); tauto).
  destruct (is_synthesizer i g1) eqn:Ei; [done|]. destruct Hg1 as (m & Hm & Hms).
  assert (Hkeep : ∀ ids g2, mapped (start_ids ids) g1 g2 → i ∉ ids →
    ∃ m, get_node g2 i = Some m ∧ nd_status m = SCompleted).
  { intros ids g2 Hmap Hni. exists (start_ids ids m). rw (get_node_mapped _ _ _ i (start_ids_id ids) Hmap) Hm.
    split; [done|]. rw start_ids_status. apply get_node_Some in Hm as [-> _]. by rw decide_False. }
  unfold advance_after_completion.
  destruct (ready_nodes (completed_node_ids g1) g1) as [|r rs] eqn:Er.
  - destruct (all_nodes_completed g1); [|destruct (existsb _ _); by exists m].
    unfold is_synthesizer in Ei. destruct (tg_synthesizer_node g1) as [t|] eqn:Et; [|by exists m].
    destruct (node_has SPending t); [|destruct (negb _); by exists m].
    apply (Hkeep [nd_node_id t]).
    + split; simpl.
      * apply map_ext. intros k. by rw start_ids_one.
      * change (option_map (set_node_status (nd_node_id t) SRunning) (tg_synthesizer_node g1)
          = option_map (start_ids [nd_node_id t]) (tg_synthesizer_node g1)).
        destruct (tg_synthesizer_node g1); [|done]. simpl. by rw start_ids_one.
    + intros Hit%list_elem_of_singleton. unfold has_id in Ei. by rw bool_decide_eq_true_2 in Ei.
  - rw -Er. apply (Hkeep (map nd_node_id (ready_nodes (completed_node_ids g1) g1))); [apply start_nodes_eq|].
    intros Hi. apply list_elem_of_fmap in Hi as (k & Hki & Hk). apply ready_nodes_elem in Hk as (Hk & Hks & _).
    simpl in Hk. apply list_elem_of_fmap in Hk as (k0 & -> & _). rw set_node_status_id in Hki.
    rw set_node_status_status in Hks. case_decide; [done|]. congruence.
Qed.

(** recording a status is idempotent, whatever the graph: recording it
    again leaves the graph the first recording made, dispatches nothing, neither
    completes, fails nor blocks the run, and is reported as already processed
    when the node exists. *)
Theorem plan_advance_idempotent i s g :
  let g' := av_graph (plan_advance i s g) in
  let b := plan_advance i s g' in
  b = match get_node g i with Some _ => advance_processed g' | None => advance_of g' end ∧
  dispatched b = [].
Proof.
  simpl. destruct (get_node g i) as [n|] eqn:Hg.
  - destruct (advance_keeps_status i s g n Hg) as (m & Hm & Hs).
    set (g' := av_graph (plan_advance i s g)) in *. unfold plan_advance.
    rw Hm (proj2 (node_has_true _ _) Hs). done.
  - unfold plan_advance. rw Hg. simpl. rw Hg. done.
Qed.

(** claiming takes exactly the pending nodes whose dependencies are all
    completed, makes them running, touches no other node, and leaves nothing to
    claim: a second claim returns no node and the same graph. *)
Theorem claim_ready_spec g :
  NoDup (map nd_node_id (subtasks g)) →
  let '(g', claimed) := claim_ready g in
  (∀ i, i ∈ map nd_node_id claimed ↔
     ∃ n, n ∈ tg_nodes g ∧ nd_node_id n = i ∧ nd_status n = SPending ∧
          ∀ j, j ∈ nd_depends_on n → j ∈ completed_node_ids g) ∧
  (∀ n, n ∈ claimed → nd_status n = SRunning) ∧
  (∀ i, get_node g' i =
     option_map (λ n, if bool_decide (i ∈ map nd_node_id claimed)
                      then node_with_status SRunning n else n) (get_node g i)) ∧
  claim_ready g' = (g', []).
Proof.
  intros Hnd. pose proof (claim_ready_mapped g) as Hm. pose proof (claimed_ids g) as Hids.
  destruct (claim_ready g) as [g' claimed] eqn:E. cbn [fst snd] in Hm, Hids. split_and!.
  - intros i. rw Hids list_elem_of_fmap. setoid_rewrite ready_nodes_elem. naive_solver.
  - intros n Hn. unfold claim_ready in E. injection E as <- <-.
    destruct (started_found (ready_nodes (completed_node_ids g) g) g) as [_ H]; [|by apply H].
    intros m Hm'. by apply ready_nodes_elem in Hm' as [? _].
  - intros i. rw (get_node_mapped _ _ _ i (start_ids_id _) Hm).
    destruct (get_node g i) as [n|] eqn:Hg; [|done]. apply get_node_Some in Hg as [<- _]. done.
  - unfold claim_ready.
    assert (Hr : ready_nodes (completed_node_ids g') g' = []).
    { destruct Hm as [Hn _]. rw Hids in Hn. eapply started_not_ready; [|exact Hn|done].
      by eapply started_completed. }
    by rw Hr.
Qed.

(** ** A concrete run: two nodes in sequence and a synthesizer *)

Definition sample_node (i : string) (deps : list string) : SubTask := {|
  nd_node_id := i; nd_skill_ids := ["skill"]; nd_objective := "objective"; nd_depends_on := deps;
  nd_context_scope := []; nd_model_tier := "pro"; nd_status := SPending |}.

Definition sample_graph : TaskGraph := {|
  tg_plan_id := "run"; tg_workspace_id := "ws"; tg_project_id := None; tg_context_snapshot_ref := None;
  tg_version := 0; tg_nodes := [sample_node "a" []; sample_node "b" ["a"]];
  tg_synthesizer_node := Some (sample_node "synth" ["a"; "b"]) |}.

Lemma sample_graph_fresh : fresh_graph sample_graph.
Proof.
  constructor; [|apply (bool_decide_unpack _); vm_compute; exact I|done].
  intros n Hn. simpl in Hn. rw !elem_of_cons in Hn. destruct Hn as [->|[->|[->|Hn]]]; [done..|].
  by apply not_elem_of_nil in Hn.
Defined.

Lemma sample_graph_acyclic : acyclic sample_graph.
Proof.
  exists (λ i, if bool_decide (i = "b") then 1%nat else 0%nat). intros n i Hn Hi.
  simpl in Hn. rw !elem_of_cons in Hn. destruct Hn as [->|[->|Hn]]; simpl in Hi;
    [by apply not_elem_of_nil in Hi| |by apply not_elem_of_nil in Hn].
  apply list_elem_of_singleton in Hi as ->. split; [by left|]. vm_compute. lia.
Defined.

(** The whole run: [a], [b] and the synthesizer complete. *)
Lemma sample_run :
  ∃ g, orchestrated sample_graph g [] ["synth"; "b"; "a"] false true.
Proof.
  eexists.
  exact (orch_completed _ _ [] "synth" [] ["b"; "a"] false _
          (orch_completed _ _ [] "b" [] ["a"] false _
             (orch_completed _ _ [] "a" [] [] false _ (orch_claim sample_graph) eq_refl) eq_refl) eq_refl).
Defined.

Lemma dispatched_at_most_once_witness :
  NoDup (run_ops [OpClaim; OpSettle "a" SCompleted; OpClaim; OpSettle "a" SCompleted] sample_graph).2.
Proof.
  apply (dispatched_at_most_once sample_graph
    [OpClaim; OpSettle "a" SCompleted; OpClaim; OpSettle "a" SCompleted]).
  - exact (fresh_ids _ sample_graph_fresh).
  - repeat constructor; done.
Defined.

Lemma orchestrated_safe_witness :
  ∃ g, orchestrated sample_graph g [] ["synth"; "b"; "a"] false true ∧ all_nodes_completed g = true.
Proof.
  destruct sample_run as [g Hg]. exists g. split; [exact Hg|].
  exact (proj1 (proj1 (proj2 (proj2 (proj2 (proj2
    (orchestrated_safe sample_graph g _ _ _ _ sample_graph_fresh Hg))))) eq_refl)).
Defined.

(** Two nodes and the synthesizer: after the first settlement a node is in flight and
    no settlement of it blocks; after the third the run is over. *)
Lemma orchestrated_completes_witness :
  ∃ g1 g3, orchestrated sample_graph g1 ["b"] ["a"] false false ∧
    orchestrated sample_graph g3 [] ["synth"; "b"; "a"] false true ∧
    av_blocked (plan_advance "b" SCompleted g1) = false ∧
    NoDup ["synth"; "b"; "a"] ∧ length ["synth"; "b"; "a"] = length (subtasks sample_graph).
Proof.
  assert (Hstart : ∃ g1, orchestrated sample_graph g1 ["b"] ["a"] false false).
  { eexists. exact (orch_completed _ _ [] "a" [] [] false _ (orch_claim sample_graph) eq_refl). }
  destruct Hstart as [g1 H1], sample_run as [g3 H3]. exists g1, g3.
  destruct (orchestrated_completes sample_graph g1 _ _ false sample_graph_fresh sample_graph_acyclic H1) as (Hb & _).
  destruct (orchestrated_completes sample_graph g3 _ _ true sample_graph_fresh sample_graph_acyclic H3) as (_ & Hn & _ & Hl).
  split_and!; [exact H1|exact H3|by apply Hb; [|left]|exact Hn|by apply Hl].
Defined.

Lemma claim_ready_spec_witness : claim_ready (claim_ready sample_graph).1 = ((claim_ready sample_graph).1, []).
Proof.
  exact (proj2 (proj2 (proj2 (claim_ready_spec sample_graph (fresh_ids _ sample_graph_fresh))))).
Defined.
