(* ===== verification/Policies.v ===== *)
(** * Policies ([src/domain/policies.py], [src/application/trigger_policy.py])

    Which events start the agent, which tools need approval, how deep recursion
    may go, when a context is stale, and the idempotency keys. *)

From Stdlib Require Import QArith.
From S2P Require Import Prelude PyStr PyVal Events.

Open Scope Z_scope.

Definition ALLOWED_MANUAL_TRIGGERS : list string :=
  ["decompose_story"; "improve_workitem_description"; "generate_acceptance_criteria"; "plan_sprint";
   "summarize_project"; "refine_backlog"; "explain_project_risk"].

Definition ALLOWED_DOMAIN_TRIGGERS : list string :=
  ["epic.created"; "epic.description.updated"; "feature.provisioning.requested"; "story.created";
   "story.ready_for_breakdown"; "sprint.started"; "sprint.ended"; "pr.opened"; "pr.synchronize";
   "pr.review_requested"; "pr.merged"].

Definition ALLOWED_SCHEDULED_TRIGGERS : list string :=
  ["daily_summary"; "sprint_planning"; "sprint_midpoint_risk_check"; "sprint_end_risk_check";
   "sprint_report_generation"; "stale_work_scan"].

Definition IGNORED_LOW_VALUE_TRIGGERS : list string :=
  ["task.updated"; "comment.created"; "field.updated"; "artifact.updated"; "status.changed.minor"].

Definition TERMINAL_EVENT_TYPES : list string :=
  ["agent_suggestion.created"; "insight.created"; "agent.completed"; "agent.failed"].

Definition str_in (s : string) (l : list string) : bool := bool_decide (s ∈ l).

Record TriggerPolicyDecision := { td_allowed : bool; td_trigger_key : string; td_reason : string }.

Definition trigger_key_for (e : RuntimeEvent) : string :=
  if bool_decide (event_kind e = "agent_action") then "agent.action.requested"
  else event_kind e +:+ "." +:+ ev_event_type (base e).

(** [PMTriggerPolicy.evaluate]; [TriggerPolicy.evaluate] delegates to it. *)
Definition evaluate (e : RuntimeEvent) : TriggerPolicyDecision :=
  let trigger_key := trigger_key_for e in
  let event_type := ev_event_type (base e) in
  if str_in event_type IGNORED_LOW_VALUE_TRIGGERS then
    {| td_allowed := false; td_trigger_key := trigger_key; td_reason := "ignored_low_value_event" |}
  else if str_in event_type TERMINAL_EVENT_TYPES then
    {| td_allowed := false; td_trigger_key := trigger_key; td_reason := "terminal_event" |}
  else
    let allowed :=
      if bool_decide (event_kind e = "manual") then str_in event_type ALLOWED_MANUAL_TRIGGERS
      else if bool_decide (event_kind e = "domain") then str_in event_type ALLOWED_DOMAIN_TRIGGERS
      else if bool_decide (event_kind e = "scheduled") then str_in event_type ALLOWED_SCHEDULED_TRIGGERS
      else bool_decide (event_kind e = "agent_action") in
    {| td_allowed := allowed; td_trigger_key := trigger_key;
       td_reason := if allowed then "allowed" else "unsupported_event" |}.

Inductive ApprovalMode := AUTO_COMMIT | USER_APPROVAL_REQUIRED | SUGGEST_ONLY.

#[export] Instance ApprovalMode_eq_dec : EqDecision ApprovalMode.
Proof. solve_decision. Defined.

Record ActionApprovalPolicy := { ap_default_mode : ApprovalMode; ap_tool_modes : dict ApprovalMode }.

Definition requires_approval (p : ActionApprovalPolicy) (tool_name : string) : bool :=
  match dict_get_or (ap_default_mode p) tool_name (ap_tool_modes p) with
  | USER_APPROVAL_REQUIRED | SUGGEST_ONLY => true
  | AUTO_COMMIT => false
  end.

Definition should_auto_commit (p : ActionApprovalPolicy) (tool_name : string) : bool :=
  bool_decide (dict_get_or (ap_default_mode p) tool_name (ap_tool_modes p) = AUTO_COMMIT).

(** [RecursionLimitPolicy.allows] *)
Definition recursion_allows (max_depth depth : Z) : bool := depth <=? max_depth.

(** [current == expected], for an expected string or integer. *)
Definition version_eqb (current : pyval) (expected : version) : bool :=
  match current, expected with
  | PStr s, VStr t => bool_decide (s = t)
  | PInt z, VInt w => z =? w
  | PBool b, VInt w => (if b then 1 else 0) =? w
  | PFloat f, VInt w => Qeq_bool (f_val f) (inject_Z w)
  | _, _ => false
  end.

Record stale_entry := { st_expected : version; st_current : pyval }.

(** [StaleContextPolicy.diff] *)
Fixpoint stale_diff (expected_versions : dict version) (current_versions : dict pyval) : dict stale_entry :=
  match expected_versions with
  | [] => []
  | (entity_ref, expected) :: rest =>
      let stale := stale_diff rest current_versions in
      let current := dget entity_ref current_versions in
      if negb (is_none current) && negb (version_eqb current expected)
      then (entity_ref, {| st_expected := expected; st_current := current |}) :: stale
      else stale
  end.

Definition stale_val (d : dict stale_entry) : pyval :=
  PDict (map (λ kv, (kv.1, PDict [("expected", version_val (st_expected kv.2));
                                  ("current", st_current kv.2)])) d).

(** [IdempotencyPolicy.key_for] *)
Definition key_for (plan_id action_id tool_name : string) : string :=
  plan_id +:+ ":" +:+ action_id +:+ ":" +:+ tool_name.

(** ** Lemmas *)

Lemma str_in_true s l : str_in s l = true ↔ s ∈ l.
Proof. unfold str_in. by rw bool_decide_eq_true. Qed.

Lemma stale_diff_elem ev cv r x :
  (r, x) ∈ stale_diff ev cv ↔
  (r, st_expected x) ∈ ev ∧ dget r cv = st_current x ∧ st_current x ≠ PNone ∧
  version_eqb (st_current x) (st_expected x) = false.
Proof.
  induction ev as [|[r' e] ev IH]; simpl; [by split; [intros ?%not_elem_of_nil|intros [?%not_elem_of_nil _]]|].
  assert (Hd : ∀ c, negb (is_none c) && negb (version_eqb c e) = true ↔ c ≠ PNone ∧ version_eqb c e = false).
  { intros c. rw andb_true_iff !negb_true_iff. destruct c; naive_solver. }
  destruct (negb _ && _) eqn:Ev.
  - apply Hd in Ev. rw !elem_of_cons IH. destruct x as [xe xc]; simpl. naive_solver.
  - rw elem_of_cons IH. split; [naive_solver|]. intros ([Heq|Hin] & Hc & Hn & Hf); [|naive_solver].
    exfalso. injection Heq as -> He. rw Hc -He in Ev. rw (proj2 (andb_true_iff _ _)) // in Ev.
    rw !negb_true_iff. split; [by destruct (st_current x)|done].
Qed.

Lemma stale_diff_keys ev cv : sublist (dict_keys (stale_diff ev cv)) (dict_keys ev).
Proof.
  induction ev as [|[r e] ev IH]; simpl; [done|].
  destruct (negb _ && _); simpl; by constructor.
Qed.

(** ** Properties *)

(** an event is let through exactly when its type is neither a low-value
    nor a terminal type and its kind lists the type (manual, domain, scheduled) or
    is the agent's own action; subagent events never are.  The reason says which
    rule decided. *)
Theorem evaluate_spec e :
  let t := ev_event_type (base e) in
  let d := evaluate e in
  (td_allowed d = true ↔
     t ∉ IGNORED_LOW_VALUE_TRIGGERS ∧ t ∉ TERMINAL_EVENT_TYPES ∧
     match e with
     | ManualInvocationEvent _ _ => t ∈ ALLOWED_MANUAL_TRIGGERS
     | DomainEvent _ => t ∈ ALLOWED_DOMAIN_TRIGGERS
     | ScheduledEvent _ _ => t ∈ ALLOWED_SCHEDULED_TRIGGERS
     | AgentActionEvent _ _ _ => True
     | SubAgentTaskEvent _ _ _ | SubAgentCompletedEvent _ _ _ _ => False
     end) ∧
  (td_reason d = "allowed" ↔ td_allowed d = true) ∧
  td_trigger_key d = match e with
                     | AgentActionEvent _ _ _ => "agent.action.requested"
                     | _ => event_kind e +:+ "." +:+ t
                     end.
Proof.
  intros t d. unfold d, evaluate. fold t.
  destruct (str_in t IGNORED_LOW_VALUE_TRIGGERS) eqn:E1.
  { rw str_in_true in E1. split_and!; [|done|by destruct e]. simpl. split; [done|]. by intros []. }
  destruct (str_in t TERMINAL_EVENT_TYPES) eqn:E2.
  { rw str_in_true in E2. split_and!; [|done|by destruct e]. simpl. split; [done|]. by intros (_ & ? & _). }
  assert (H1 : t ∉ IGNORED_LOW_VALUE_TRIGGERS) by (rw -str_in_true; congruence).
  assert (H2 : t ∉ TERMINAL_EVENT_TYPES) by (rw -str_in_true; congruence).
  cbn [td_allowed td_reason td_trigger_key]. split_and!; [| |by destruct e].
  - destruct e; simpl event_kind; repeat (case_bool_decide; [done|] || case_bool_decide; try done);
      rewrite ?str_in_true; naive_solver.
  - match goal with |- context [if ?b then "allowed" else _] => destruct b end; done.
Qed.

(** the stale-context check reports an entity exactly when its expected
    version was recorded and a current version was observed that is not equal to
    it; an entity without a current version is never stale, and every reported entity carries
    both versions, in the order of the expectations. *)
Theorem stale_diff_spec expected current :
  dict_wf expected →
  let stale := stale_diff expected current in
  (∀ r e c, dict_get r stale = Some {| st_expected := e; st_current := c |} ↔
     dict_get r expected = Some e ∧ dget r current = c ∧ c ≠ PNone ∧ version_eqb c e = false) ∧
  (∀ r, dict_get r current = None → dict_get r stale = None) ∧
  sublist (dict_keys stale) (dict_keys expected).
Proof.
  intros Hwf stale. pose proof (stale_diff_keys expected current) as Hsub.
  assert (Hwf' : dict_wf stale) by (unfold dict_wf; eapply sublist_NoDup; eauto).
  assert (Hget : ∀ r x, dict_get r stale = Some x ↔
    dict_get r expected = Some (st_expected x) ∧ dget r current = st_current x ∧ st_current x ≠ PNone ∧
    version_eqb (st_current x) (st_expected x) = false).
  { intros r x. split.
    - intros (H1 & H2)%dict_get_Some_elem%stale_diff_elem. split; [|done]. by apply elem_dict_get.
    - intros (H1 & H2). apply elem_dict_get; [done|]. apply stale_diff_elem.
      split; [|done]. by apply dict_get_Some_elem. }
  split_and!; [intros r e c; apply (Hget r {| st_expected := e; st_current := c |})| |done].
  intros r Hr. destruct (dict_get r stale) as [x|] eqn:E; [|done]. apply Hget in E as (_ & H & Hn & _).
  unfold dget, dict_get_or in H. rw Hr in H. congruence.
Qed.

Lemma stale_diff_spec_witness :
  stale_diff [("story:1", VInt 1); ("epic:2", VStr "a"); ("story:3", VInt 1)]
    [("story:1", PInt 2); ("epic:2", PStr "a")]
  = [("story:1", {| st_expected := VInt 1; st_current := PInt 2 |})] ∧
  dict_get "story:3" (stale_diff [("story:1", VInt 1); ("epic:2", VStr "a"); ("story:3", VInt 1)]
    [("story:1", PInt 2); ("epic:2", PStr "a")]) = None.
Proof.
  split; [vm_compute; reflexivity|].
  apply (proj1 (proj2 (stale_diff_spec
    [("story:1", VInt 1); ("epic:2", VStr "a"); ("story:3", VInt 1)]
    [("story:1", PInt 2); ("epic:2", PStr "a")] ltac:(apply (bool_decide_unpack _); vm_compute; exact I)))).
  reflexivity.
Defined.
