(* ===== verification/Env.v ===== *)
(** * The environment

    What the program takes from outside: random ids, the clocks, the HTTP server
    behind the Prism API and the text of pydantic's validation errors.  They are
    the fields of the class [Env]; a reply may depend on all earlier requests.

    [Ext] is the part of the state the environment and the API client share: how
    many ids and clock readings were consumed, the requests sent (the latest
    first), the client's table of observed entity versions and the lines logged. *)

From S2P Require Import Prelude PyStr PyVal Events.

Record request := {
  rq_method : string;
  rq_url : string;
  rq_headers : dict string;
  rq_body : option pyval
}.

(** What [urlopen] and reading its response give: a body (already decoded from JSON when
    it is JSON; one that is not UTF-8 carries the message of its [UnicodeDecodeError]), an
    HTTP error status with its text, no connection ([URLError] or [TimeoutError]),
    another [OSError] such as a reset connection, or an exception that is none of these:
    [IncompleteRead] and the other classes of [http.client], the [ValueError] of a header
    or a URL that [http.client] refuses. *)
Inductive body := BodyEmpty | BodyInvalid | BodyNotUtf8 (message : string) | BodyJson (v : pyval).
Inductive reply :=
  | ReplyOk (b : body)
  | ReplyHttpError (code : Z) (detail : string)
  | ReplyUnreachable (message : string)
  | ReplyBroken (name message : string)
  | ReplyRaises (e : exn).

(** ** [urllib.request.Request]: the URL is parsed when the request is made *)

(** [unwrap] *)
Definition unbracket (l : list ascii) : string :=
  match l with
  | "<"%char :: l' => match reverse l' with
                      | ">"%char :: m => strip (of_chars (reverse m))
                      | _ => of_chars l
                      end
  | _ => of_chars l
  end.
Definition unwrap_url (url : string) : string :=
  let url := unbracket (chars (strip url)) in
  if startswith url "URL:" then strip (removeprefix url "URL:") else url.

(** [_splittag]: the fragment is what follows the last [#]. *)
Definition split_tag (url : string) : string * string :=
  match split1_chars "#"%char (reverse (chars url)) with
  | Some (tag, path) => (of_chars (reverse path), of_chars (reverse tag))
  | None => (url, EmptyString)
  end.

(** [_splittype] finds a scheme: a text without a slash before the first colon. *)
Definition has_scheme (url : string) : bool :=
  match split1_chars ":"%char (chars url) with
  | Some (scheme, _) => negb (bool_decide (scheme = [])) && negb (bool_decide ("/"%char ∈ scheme))
  | None => false
  end.

(** [Request(url)] raises when the URL has no scheme. *)
Definition check_url (url : string) : res unit :=
  let '(path, fragment) := split_tag (unwrap_url url) in
  if has_scheme path then Ok tt
  else err ValueError ("unknown url type: " +:+
                       repr_str (if str_truthy fragment then path +:+ "#" +:+ fragment else path)).

Definition url_ok (url : string) : bool := is_Ok (check_url url).

Class Env := {
  uuid4_at : nat → string;
  clock_at : nat → datetime;
  monotonic_at : nat → Z;       (* [time.monotonic()], in microseconds *)
  http_reply : list request → request → reply;
  validation_text : string → string
}.

Inductive log_level := LogError | LogWarning | LogInfo.

Record Ext := {
  x_uuid : nat;
  x_clock : nat;
  x_monotonic : nat;
  x_requests : list request;
  x_versions : dict pyval;
  x_log : list (log_level * dict pyval)
}.

Definition ext0 : Ext := {|
  x_uuid := 0; x_clock := 0; x_monotonic := 0; x_requests := []; x_versions := []; x_log := [] |}.

Section env.
Context `{Env}.

(** [str(uuid4())] *)
Definition new_uuid : st Ext string := λ x,
  (Ok (uuid4_at (x_uuid x)),
   {| x_uuid := S (x_uuid x); x_clock := x_clock x; x_monotonic := x_monotonic x;
    x_requests := x_requests x; x_versions := x_versions x; x_log := x_log x |}).

Definition utc_now : st Ext datetime := λ x,
  (Ok (clock_at (x_clock x)),
   {| x_uuid := x_uuid x; x_clock := S (x_clock x); x_monotonic := x_monotonic x;
    x_requests := x_requests x; x_versions := x_versions x; x_log := x_log x |}).

(** [urlopen(request)] *)
Definition urlopen (r : request) : st Ext reply := λ x,
  (Ok (http_reply (x_requests x) r),
   {| x_uuid := x_uuid x; x_clock := x_clock x; x_monotonic := x_monotonic x;
    x_requests := r :: x_requests x; x_versions := x_versions x; x_log := x_log x |}).

Definition set_versions (v : dict pyval) : st Ext unit := λ x,
  (Ok tt,
   {| x_uuid := x_uuid x; x_clock := x_clock x; x_monotonic := x_monotonic x;
    x_requests := x_requests x; x_versions := v; x_log := x_log x |}).

(** [time.monotonic()] *)
Definition monotonic : st Ext Z := λ x,
  (Ok (monotonic_at (x_monotonic x)),
   {| x_uuid := x_uuid x; x_clock := x_clock x; x_monotonic := S (x_monotonic x);
    x_requests := x_requests x; x_versions := x_versions x; x_log := x_log x |}).

(** [log_json(get_logger(), level, record)] *)
Definition log_json (level : log_level) (record : dict pyval) : st Ext unit := λ x,
  (Ok tt,
   {| x_uuid := x_uuid x; x_clock := x_clock x; x_monotonic := x_monotonic x;
    x_requests := x_requests x; x_versions := x_versions x; x_log := x_log x ++ [(level, record)] |}).

(** A pydantic model refuses its data. *)
Definition validation_error {A} (model : string) : st Ext A :=
  raise (Exn ValueError (validation_text model)).

(** The fields of a new event that have a default. *)
Definition new_base (event_type workspace_id : string) (project_id : option string)
    (payload : dict pyval) (correlation_id : option string) (causality : EventCausality)
    (idempotency_key : option string) : st Ext event_base :=
  event_id ← new_uuid;
  occurred_at ← utc_now;
  mret {| ev_event_id := event_id; ev_event_type := event_type; ev_workspace_id := workspace_id;
          ev_project_id := project_id; ev_payload := payload; ev_occurred_at := occurred_at;
          ev_correlation_id := correlation_id; ev_causality := causality;
          ev_idempotency_key := idempotency_key |}.

Definition new_envelope (event : RuntimeEvent) (attempt : Z) : st Ext EventEnvelope :=
  envelope_id ← new_uuid;
  received_at ← utc_now;
  mret {| env_envelope_id := envelope_id; env_event := event; env_received_at := received_at;
          env_attempt := attempt |}.

(** [EventEnvelope.wrap] *)
Definition wrap (event : RuntimeEvent) : st Ext EventEnvelope := new_envelope event 0.

(** [AgentActionEvent(...)], [SubAgentTaskEvent(...)] and
    [SubAgentCompletedEvent(...)] with the fields the handlers give. *)
Definition new_action_event (workspace_id : string) (project_id : option string)
    (plan_id action_id : string) (correlation_id : option string) (causality : EventCausality) :
    st Ext RuntimeEvent :=
  b ← new_base "agent.action.requested" workspace_id project_id [] correlation_id causality None;
  mret (AgentActionEvent b plan_id action_id).

Definition new_task_event (workspace_id : string) (project_id : option string)
    (plan_id node_id : string) (correlation_id : option string) (causality : EventCausality) :
    st Ext RuntimeEvent :=
  b ← new_base "agent.subagent.requested" workspace_id project_id [] correlation_id causality None;
  mret (SubAgentTaskEvent b plan_id node_id).

Definition new_completed_event (workspace_id : string) (project_id : option string)
    (plan_id node_id status : string) (payload : dict pyval)
    (correlation_id : option string) (causality : EventCausality) : st Ext RuntimeEvent :=
  b ← new_base "agent.subagent.completed" workspace_id project_id payload correlation_id causality None;
  mret (SubAgentCompletedEvent b plan_id node_id status).
End env.

(** [u] ids and [c] readings of the clock later. *)
Definition ticked (u c : nat) (x : Ext) : Ext := {|
  x_uuid := (u + x_uuid x)%nat; x_clock := (c + x_clock x)%nat; x_monotonic := x_monotonic x;
  x_requests := x_requests x; x_versions := x_versions x; x_log := x_log x |}.

(** ** Lemmas *)

(** *** URLs with a scheme *)

Lemma rstrip_of_app p l c r : p c = false → rstrip_of p (l ++ c :: r) = l ++ c :: rstrip_of p r.
Proof.
  intros Hc. unfold rstrip_of. rw reverse_app reverse_cons -app_assoc. cbn [app].
  assert (Hd : ∀ m t, drop_while p (m ++ c :: t) = drop_while p m ++ c :: t).
  { induction m as [|a m IH]; intros t; cbn; [by rw Hc|]. by destruct (p a). }
  rw Hd reverse_app reverse_cons !reverse_involutive -app_assoc. done.
Qed.

Lemma split1_chars_app c l m :
  split1_chars c (l ++ m) =
    match split1_chars c l with
    | Some (a, b) => Some (a, b ++ m)
    | None => match split1_chars c m with Some (a, b) => Some (l ++ a, b) | None => None end
    end.
Proof.
  induction l as [|x l IH]; cbn [app split1_chars]; [by destruct (split1_chars c m) as [[a b]|]|].
  case_bool_decide; [done|]. rw IH. destruct (split1_chars c l) as [[a b]|]; [done|].
  by destruct (split1_chars c m) as [[a b]|].
Qed.

(** A text that starts with [http:] or [https:] is a URL [Request] accepts. *)
Definition http_url (url : string) : bool := startswith url "http:" || startswith url "https:".

Lemma scheme_url_ok (w r : list ascii) url :
  chars url = w ++ ":"%char :: r → w = chars "http" ∨ w = chars "https" → url_ok url = true.
Proof.
  intros E Hw. assert (Es : chars (strip url) = w ++ ":"%char :: rstrip_of is_space r).
  { unfold strip, strip_of. rw chars_of_chars E. replace (lstrip_of is_space (w ++ ":"%char :: r)) with (w ++ ":"%char :: r)
      by (by destruct Hw as [-> | ->]). by apply rstrip_of_app. }
  assert (Eu : ∃ r', chars (unwrap_url url) = w ++ ":"%char :: r').
  { exists (rstrip_of is_space r). unfold unwrap_url. rw Es.
    assert (Hb : ∀ t, unbracket (w ++ ":"%char :: t) = of_chars (w ++ ":"%char :: t)) by (by destruct Hw as [-> | ->]).
    assert (Hs : ∀ t, startswith (of_chars (w ++ ":"%char :: t)) "URL:" = false).
    { intros t. unfold startswith. rw chars_of_chars. by destruct Hw as [-> | ->]. }
    cbv zeta. rw Hb Hs. apply chars_of_chars. }
  destruct Eu as [r' Eu]. unfold url_ok, check_url, split_tag. rw Eu.
  assert (Hok : ∀ t, has_scheme (of_chars (w ++ ":"%char :: t)) = true).
  { intros t. unfold has_scheme. rw chars_of_chars. by destruct Hw as [-> | ->]. }
  rw reverse_app reverse_cons -app_assoc split1_chars_app.
  destruct (split1_chars "#"%char (reverse r')) as [[tag path]|].
  - rw reverse_app reverse_app reverse_involutive -app_assoc. cbn [reverse rev_append app]. by rw Hok.
  - assert (Hn : split1_chars "#"%char ([":"%char] ++ reverse w) = None) by (by destruct Hw as [-> | ->]).
    rw Hn. rw -(of_chars_chars (unwrap_url url)) Eu. by rw Hok.
Qed.

Lemma prefix_chars_split p l : prefix_of_chars p l = true → ∃ r, l = p ++ r.
Proof.
  revert l. induction p as [|a p IH]; intros l H; [by exists l|]. destruct l as [|b l]; [done|].
  cbn in H. apply andb_true_iff in H as [->%bool_decide_eq_true H]. destruct (IH _ H) as [r ->]. by exists r.
Qed.

Lemma http_url_ok base path : http_url base = true → url_ok (base +:+ path) = true.
Proof.
  unfold http_url, startswith. rw orb_true_iff. intros [H|H]; apply prefix_chars_split in H as [r Hr].
  - apply (scheme_url_ok (chars "http") (r ++ chars path)); [|by left]. rw chars_app Hr. done.
  - apply (scheme_url_ok (chars "https") (r ++ chars path)); [|by right]. rw chars_app Hr. done.
Qed.

Lemma check_url_ok url : url_ok url = true → check_url url = Ok tt.
Proof. unfold url_ok. by destruct (check_url url) as [[]|]. Qed.

Lemma check_url_ValueError url e : check_url url = Raise e → exc_type e = ValueError.
Proof. unfold check_url, err. destruct (split_tag _) as [path fragment]. destruct (has_scheme path); [done|]. by intros [= <-]. Qed.

(** *** Counters and requests *)

(** Counters only advance and requests are only added. *)
Definition ext_le (x y : Ext) : Prop :=
  (x_uuid x ≤ x_uuid y)%nat ∧ (x_clock x ≤ x_clock y)%nat ∧ suffix (x_requests x) (x_requests y).

#[export] Instance ext_le_preorder : PreOrder ext_le.
Proof.
  split; [intros x; split_and!; done|].
  intros x y z (? & ? & ?) (? & ? & ?). split_and!; [lia|lia|by etrans].
Qed.

(** No request is sent and no version recorded. *)
Definition ext_quiet (x y : Ext) : Prop := x_requests y = x_requests x ∧ x_versions y = x_versions x.

#[export] Instance ext_quiet_preorder : PreOrder ext_quiet.
Proof. split; [by intros x|]. intros x y z [? ?] [? ?]. split; congruence. Qed.

Section env_lemmas.
Context `{Env}.

Lemma new_uuid_le : respects ext_le new_uuid.
Proof. intros x. split_and!; simpl; done || lia. Qed.
Lemma utc_now_le : respects ext_le utc_now.
Proof. intros x. split_and!; simpl; done || lia. Qed.
Lemma urlopen_le r : respects ext_le (urlopen r).
Proof. intros x. split_and!; simpl; [done..|by apply suffix_cons_r]. Qed.
Lemma set_versions_le v : respects ext_le (set_versions v).
Proof. intros x. by split_and!. Qed.
Lemma validation_error_le {A} m : respects ext_le (validation_error (A:=A) m).
Proof. intros x. by split_and!. Qed.

Lemma new_uuid_quiet : respects ext_quiet new_uuid.
Proof. by intros x. Qed.
Lemma utc_now_quiet : respects ext_quiet utc_now.
Proof. by intros x. Qed.
Lemma monotonic_le : respects ext_le monotonic.
Proof. intros x. by split_and!. Qed.
Lemma monotonic_quiet : respects ext_quiet monotonic.
Proof. by intros x. Qed.
Lemma log_json_le l r : respects ext_le (log_json l r).
Proof. intros x. by split_and!. Qed.
Lemma log_json_quiet l r : respects ext_quiet (log_json l r).
Proof. by intros x. Qed.
Lemma validation_error_quiet {A} m : respects ext_quiet (validation_error (A:=A) m).
Proof. by intros x. Qed.
End env_lemmas.

#[export] Hint Resolve new_uuid_le utc_now_le urlopen_le set_versions_le validation_error_le
  monotonic_le monotonic_quiet log_json_le log_json_quiet new_uuid_quiet utc_now_quiet validation_error_quiet : respects.

Section env_lemmas2.
Context `{Env}.
Lemma new_base_quiet a b c d e f g : respects ext_quiet (new_base a b c d e f g).
Proof. unfold new_base. solve_respects. Qed.
Lemma new_envelope_quiet a b : respects ext_quiet (new_envelope a b).
Proof. unfold new_envelope. solve_respects. Qed.
Lemma new_base_le a b c d e f g : respects ext_le (new_base a b c d e f g).
Proof. unfold new_base. solve_respects. Qed.
Lemma new_envelope_le a b : respects ext_le (new_envelope a b).
Proof. unfold new_envelope. solve_respects. Qed.
End env_lemmas2.

#[export] Hint Resolve new_base_quiet new_envelope_quiet new_base_le new_envelope_le : respects.

(** An environment for concrete runs: ids are [u0], [u1], ..., the clock ticks
    in microseconds and the server accepts everything. *)
Definition env_ok : Env := {|
  uuid4_at n := "u" +:+ pretty n;
  clock_at n := Z.of_nat n;
  monotonic_at n := Z.of_nat n;
  http_reply _ _ := ReplyOk (BodyJson (PDict []));
  validation_text m := m +:+ " is invalid"
|}.
