(* ===== verification/Definitions.v ===== *)
(** * Prompt definitions and registries ([src/capabilities/definitions.py],
    [src/capabilities/skills.py], [src/infrastructure/registries/])

    Skills, tools and workflows as the prompt files declare them and the three
    registries that hold them.  The registries are built from lists of definitions,
    which the prompt registry ([Prompts]) reads from the YAML files. *)

From S2P Require Import Prelude PyStr PyVal.

Record OrchestrationNodeDef := {
  od_node : string;
  od_skill : option string;
  od_skills : list string;
  od_objective : string;
  od_context_scope : list string;
  od_depends_on : list string;
  od_model_tier : option string
}.

Definition skill_ids (n : OrchestrationNodeDef) : list string :=
  match od_skill n with
  | Some s => if str_truthy s && negb (bool_decide (s ∈ od_skills n)) then s :: od_skills n else od_skills n
  | None => od_skills n
  end.

Record OrchestrationDef := {
  or_mode : string;
  or_default_graph : list OrchestrationNodeDef;
  or_synthesizer : option OrchestrationNodeDef
}.

Record PromptModelSettings := { pm_provider : string; pm_name : string; pm_temperature : pyfloat }.

Record WorkflowPromptDefinition := {
  wp_id : string;
  wp_version : string;
  wp_name : string;
  wp_description : string;
  wp_model : PromptModelSettings;
  wp_output_schema : string;
  wp_goal : string;
  wp_system : string;
  wp_constraints : list string;
  wp_required_context : list string;
  wp_trigger_types : list string;
  wp_required_skills : list string;
  wp_default_execution_mode : string;
  wp_approval_policy : dict string;
  wp_max_recursion_depth : Z;
  wp_orchestration : option OrchestrationDef
}.

Record SkillPromptDefinition := {
  sk_id : string;
  sk_version : string;
  sk_name : string;
  sk_description : string;
  sk_instruction : string;
  sk_reasoning_instructions : list string;
  sk_allowed_tools : list string;
  sk_guardrails : dict pyval;
  sk_quality_expectations : list string;
  sk_model_tier : string
}.

Record ToolPromptDefinition := {
  tp_id : string;
  tp_version : string;
  tp_name : string;
  tp_description : string;
  tp_usage : list string;
  tp_do_not_use : list string;
  tp_risk_level : string;
  tp_approval_policy : string;
  tp_input_contract : dict pyval
}.

(** The loaded workflow prompts of the prompt registry, by id and version. *)
Abbreviation PromptRegistry := (gmap (string * string) WorkflowPromptDefinition).

Definition get_workflow (r : PromptRegistry) (prompt_id version : string) : res WorkflowPromptDefinition :=
  match r !! (prompt_id, version) with
  | Some p => Ok p
  | None => err KeyError ("Workflow prompt not registered: " +:+ prompt_id +:+ ":" +:+ version)
  end.

(** [RuntimeSkill.render_instruction] *)
Definition bullets (l : list string) : string := str_join newline (map (λ i, "- " +:+ i) l).

Definition render_instruction (d : SkillPromptDefinition) : string :=
  str_join newline
    (["Capability: " +:+ sk_name d +:+ " (" +:+ sk_id d +:+ ")"; sk_instruction d] ++
     match sk_reasoning_instructions d with
     | [] => []
     | l => ["Reasoning instructions:" +:+ newline +:+ bullets l]
     end ++
     match sk_quality_expectations d with
     | [] => []
     | l => ["Quality expectations:" +:+ newline +:+ bullets l]
     end ++
     match sk_guardrails d with
     | [] => []
     | g => ["Guardrails:" +:+ newline +:+ bullets (map (λ kv, kv.1 +:+ ": " +:+ py_str kv.2) g)]
     end ++
     ["Allowed tools:" +:+ newline +:+ bullets (sk_allowed_tools d)]).

(** ** Skills *)

Abbreviation SkillRegistry := (dict SkillPromptDefinition).

Definition skill_register (r : SkillRegistry) (d : SkillPromptDefinition) : SkillRegistry :=
  dict_set (sk_id d) d r.

(** [SkillRegistry.from_prompt_registry] *)
Definition skills_from (l : list SkillPromptDefinition) : SkillRegistry := foldl skill_register [] l.

Definition skill_get (r : SkillRegistry) (skill_id : string) : res SkillPromptDefinition :=
  match dict_get skill_id r with
  | Some d => Ok d
  | None => err KeyError ("Skill not registered: " +:+ skill_id)
  end.

Fixpoint skill_select (r : SkillRegistry) (skill_ids : list string) : res (list SkillPromptDefinition) :=
  match skill_ids with
  | [] => Ok []
  | i :: l => d ← skill_get r i; ds ← skill_select r l; mret (d :: ds)
  end.

Definition skill_registry_ids (r : SkillRegistry) : list string := str_sorted (dict_keys r).

(** The two nested loops of [allowed_tools_for]: [seen] always holds the tools
    collected so far. *)
Definition collect_tools (acc : list string) (tools : list string) : list string :=
  foldl (λ acc t, append_new t acc) acc tools.

Definition allowed_tools_for (r : SkillRegistry) (skill_ids : list string) : res (list string) :=
  ds ← skill_select r skill_ids;
  mret (foldl (λ acc d, collect_tools acc (sk_allowed_tools d)) [] ds).

Definition skill_definition (r : SkillRegistry) (skill_id : string) : res SkillPromptDefinition :=
  match dict_get skill_id r with
  | Some d => Ok d
  | None => err KeyError ("Skill definition not registered: " +:+ skill_id)
  end.

Definition model_tier (r : SkillRegistry) (skill_id : string) : res string :=
  d ← skill_definition r skill_id; mret (sk_model_tier d).

(** ** Tools *)

(** A registry of tools of type [T]: the tool and its definition, by name. *)
Record ToolRegistry (T : Type) := {
  rg_tools : dict T;
  rg_definitions : dict ToolPromptDefinition
}.
Arguments rg_tools {T}.
Arguments rg_definitions {T}.
Arguments Build_ToolRegistry {T}.

(** [ToolRegistry.register]; a tool's name is its definition's id, which
    [BaseAgentTool.__init__] checks. *)
Definition tool_register {T} (name : string) (tool : T) (d : ToolPromptDefinition)
    (r : ToolRegistry T) : ToolRegistry T :=
  {| rg_tools := dict_set name tool (rg_tools r); rg_definitions := dict_set name d (rg_definitions r) |}.

(** [BaseAgentTool.__init__] *)
Definition tool_init {T} (name : string) (make : ToolPromptDefinition → T) (d : ToolPromptDefinition) : res T :=
  if bool_decide (tp_id d = name) then Ok (make d)
  else err ValueError ("Tool definition id does not match executable tool name: " +:+ tp_id d +:+ " != " +:+ name).

(** [ToolRegistry.from_prompt_registry]: definitions without an implementation
    are skipped. *)
Fixpoint tools_from {T} (implementations : dict (ToolPromptDefinition → T)) (l : list ToolPromptDefinition)
    (r : ToolRegistry T) : res (ToolRegistry T) :=
  match l with
  | [] => Ok r
  | d :: l' =>
      match dict_get (tp_id d) implementations with
      | None => tools_from implementations l' r
      | Some make => t ← tool_init (tp_id d) make d; tools_from implementations l' (tool_register (tp_id d) t d r)
      end
  end.

Definition tool_get {T} (r : ToolRegistry T) (name : string) : res T :=
  match dict_get name (rg_tools r) with
  | Some t => Ok t
  | None => err KeyError ("Tool not registered: " +:+ name)
  end.

Fixpoint tool_select {T} (r : ToolRegistry T) (names : list string) : res (list T) :=
  match names with
  | [] => Ok []
  | n :: l => t ← tool_get r n; ts ← tool_select r l; mret (t :: ts)
  end.

Definition tool_definition {T} (r : ToolRegistry T) (name : string) : res ToolPromptDefinition :=
  match dict_get name (rg_definitions r) with
  | Some d => Ok d
  | None => err KeyError ("Tool definition not registered: " +:+ name)
  end.

(** ** Workflows *)

Record WorkflowDefinition := {
  wf_id : string;
  wf_trigger_types : list string;
  wf_required_skills : list string;
  wf_prompt_id : string;
  wf_prompt_version : string;
  wf_goal : string;
  wf_default_execution_mode : string;
  wf_approval_policy : dict string;
  wf_max_recursion_depth : Z;
  wf_orchestration : option OrchestrationDef
}.

Definition workflow_from_prompt (p : WorkflowPromptDefinition) : WorkflowDefinition := {|
  wf_id := wp_id p; wf_trigger_types := wp_trigger_types p; wf_required_skills := wp_required_skills p;
  wf_prompt_id := wp_id p; wf_prompt_version := wp_version p; wf_goal := wp_goal p;
  wf_default_execution_mode := wp_default_execution_mode p; wf_approval_policy := wp_approval_policy p;
  wf_max_recursion_depth := wp_max_recursion_depth p; wf_orchestration := wp_orchestration p |}.

(** Both tables hold the definition object itself. *)
Record WorkflowRegistry := {
  rw_by_id : dict WorkflowDefinition;
  rw_by_trigger : dict WorkflowDefinition
}.

Definition workflow_registry_empty : WorkflowRegistry := {| rw_by_id := []; rw_by_trigger := [] |}.

Definition workflow_register (w : WorkflowDefinition) (r : WorkflowRegistry) : res WorkflowRegistry :=
  match wf_required_skills w, wf_trigger_types w with
  | [], _ => err ValueError ("Workflow must require at least one skill: " +:+ wf_id w)
  | _, [] => err ValueError ("Workflow must define at least one trigger: " +:+ wf_id w)
  | _, _ => Ok {| rw_by_id := dict_set (wf_id w) w (rw_by_id r);
                  rw_by_trigger := foldl (λ d t, dict_set t w d) (rw_by_trigger r) (wf_trigger_types w) |}
  end.

(** [WorkflowRegistry.from_prompt_registry] *)
Fixpoint workflows_from (l : list WorkflowPromptDefinition) (r : WorkflowRegistry) : res WorkflowRegistry :=
  match l with
  | [] => Ok r
  | p :: l' => r' ← workflow_register (workflow_from_prompt p) r; workflows_from l' r'
  end.

Definition workflow_get (r : WorkflowRegistry) (workflow_id : string) : res WorkflowDefinition :=
  match dict_get workflow_id (rw_by_id r) with
  | Some w => Ok w
  | None => err KeyError ("Workflow not registered: " +:+ workflow_id)
  end.

Definition get_by_trigger (r : WorkflowRegistry) (trigger_type : string) : option WorkflowDefinition :=
  dict_get trigger_type (rw_by_trigger r).

(** ** Lemmas *)

Lemma collect_tools_elem t acc tools : t ∈ collect_tools acc tools ↔ t ∈ acc ∨ t ∈ tools.
Proof.
  revert acc. induction tools as [|u tools IH]; intros acc; simpl; [set_solver|].
  unfold collect_tools in IH. rw IH append_new_elem elem_of_cons. tauto.
Qed.

Lemma collect_tools_NoDup acc tools : NoDup acc → NoDup (collect_tools acc tools).
Proof.
  revert acc. induction tools as [|u tools IH]; intros acc Hacc; simpl; [done|].
  by apply IH, append_new_NoDup.
Qed.

Lemma collect_all_elem t acc ds :
  t ∈ foldl (λ acc d, collect_tools acc (sk_allowed_tools d)) acc ds ↔
  t ∈ acc ∨ ∃ d, d ∈ ds ∧ t ∈ sk_allowed_tools d.
Proof.
  revert acc. induction ds as [|d ds IH]; intros acc; simpl; [set_solver|].
  rw IH collect_tools_elem. setoid_rewrite elem_of_cons. naive_solver.
Qed.

Lemma collect_all_NoDup acc ds :
  NoDup acc → NoDup (foldl (λ acc d, collect_tools acc (sk_allowed_tools d)) acc ds).
Proof.
  revert acc. induction ds as [|d ds IH]; intros acc Hacc; simpl; [done|].
  by apply IH, collect_tools_NoDup.
Qed.

Lemma skill_select_Ok r ids ds :
  skill_select r ids = Ok ds ↔ Forall2 (λ i d, dict_get i r = Some d) ids ds.
Proof.
  revert ds. induction ids as [|i ids IH]; intros ds; simpl.
  - split; [intros [= <-]; constructor|by inversion 1].
  - unfold skill_get, mbind, res_bind, err. destruct (dict_get i r) as [d|] eqn:E.
    + destruct (skill_select r ids) as [ds'|e] eqn:Es.
      * split.
        -- intros [= <-]. constructor; [done|]. by apply IH.
        -- inversion 1 as [|? d' ? ds2 Hd Hds]; subst. apply IH in Hds. simplify_eq. done.
      * split; [done|]. inversion 1 as [|? d' ? ds2 Hd Hds]; subst. apply IH in Hds. done.
    + split; [done|]. inversion 1; subst. congruence.
Qed.

Lemma trigger_fold_get k w ts (d : dict WorkflowDefinition) :
  dict_get k (foldl (λ d t, dict_set t w d) d ts) = if bool_decide (k ∈ ts) then Some w else dict_get k d.
Proof.
  revert d. induction ts as [|t ts IH]; intros d; simpl.
  - done.
  - rw IH dict_get_set (bool_decide_ext (k ∈ t :: ts) (k = t ∨ k ∈ ts)); [apply elem_of_cons|].
    repeat case_bool_decide; try done; naive_solver.
Qed.

(** ** Properties *)

(** the tools allowed for a list of registered skills are exactly the
    tools some of these skills allow, each once; an unregistered skill makes the
    lookup a [KeyError]. *)
Theorem allowed_tools_for_spec r ids :
  match allowed_tools_for r ids with
  | Ok tools =>
      NoDup tools ∧
      (∀ i, i ∈ ids → dict_mem i r = true) ∧
      ∀ t, t ∈ tools ↔ ∃ i d, i ∈ ids ∧ dict_get i r = Some d ∧ t ∈ sk_allowed_tools d
  | Raise e => exc_type e = KeyError ∧ ∃ i, i ∈ ids ∧ dict_mem i r = false
  end.
Proof.
  unfold allowed_tools_for, mbind, res_bind. destruct (skill_select r ids) as [ds|e] eqn:E.
  - simpl. apply skill_select_Ok in E. split_and!.
    + apply collect_all_NoDup. constructor.
    + intros i Hi. unfold dict_mem. destruct (Forall2_elem_of_l _ _ _ _ E Hi) as (d & _ & ->). done.
    + intros t. rw collect_all_elem. split.
      * intros [?%not_elem_of_nil|(d & Hd & Ht)]; [done|].
        destruct (Forall2_elem_of_r _ _ _ _ E Hd) as (i & ? & ?). eauto.
      * intros (i & d & Hi & Hd & Ht). right.
        destruct (Forall2_elem_of_l _ _ _ _ E Hi) as (d' & ? & ?). exists d'. naive_solver.
  - revert e E. induction ids as [|i ids IH]; intros e; simpl; [done|].
    unfold skill_get, mbind, res_bind, err. unfold dict_mem in *.
    destruct (dict_get i r) as [d|] eqn:Ei.
    + destruct (skill_select r ids) as [ds|e'] eqn:Es; [done|]. intros [= <-].
      destruct (IH e' eq_refl) as (? & j & ? & ?). split; [done|]. exists j. split; [by right|done].
    + intros [= <-]. split; [done|]. exists i. rw Ei. split; [by left|done].
Qed.

(** registering a workflow makes it the answer for its id and for every
    trigger it declares, also for triggers another workflow had, and changes
    nothing else; it is refused when it has no skill or no trigger. *)
Theorem workflow_register_spec w r :
  match workflow_register w r with
  | Ok r' =>
      wf_required_skills w ≠ [] ∧ wf_trigger_types w ≠ [] ∧
      (∀ t, get_by_trigger r' t = if bool_decide (t ∈ wf_trigger_types w) then Some w else get_by_trigger r t) ∧
      (∀ i, workflow_get r' i = if bool_decide (wf_id w = i) then Ok w else workflow_get r i)
  | Raise e => exc_type e = ValueError ∧ (wf_required_skills w = [] ∨ wf_trigger_types w = [])
  end.
Proof.
  unfold workflow_register. destruct (wf_required_skills w) as [|s ss]; [by split; [|left]|].
  destruct (wf_trigger_types w) as [|t ts] eqn:Et; [by split; [|right]|]. split_and!; [done|done| |].
  - intros t'. unfold get_by_trigger. cbn [rw_by_trigger]. rw (trigger_fold_get t' w (t :: ts)). done.
  - intros i. unfold workflow_get. cbn [rw_by_id]. rw dict_get_set. by case_bool_decide.
Qed.
