(* ===== verification/Client.v ===== *)
(** * The Prism API client ([src/infrastructure/prism_api/client.py])

    Requests and their errors, one operation per endpoint, and the table of
    observed entity versions.  The server is [Env]'s [http_reply]; the table is
    part of [Ext].  The hydration of planning contexts from the API
    ([fetch_context_entities] and its helpers) is in [Hydration]. *)

From S2P Require Import Prelude PyStr PyVal PyUuid Json Events Env.

Record PrismApiClient := { cl_base_url : option string; cl_token : option string }.

(** [PrismApiClient.__init__]; the version table starts empty ([ext0]). *)
Definition is_slash (c : ascii) : bool := bool_decide (c = "/"%char).
Definition client_init (base_url token : option string) : PrismApiClient := {|
  cl_base_url := if ostr_truthy base_url
                 then option_map (λ u, of_chars (rstrip_of is_slash (chars u))) base_url else None;
  cl_token := token |}.

Definition is_configured (c : PrismApiClient) : bool := ostr_truthy (cl_base_url c).

Definition format_request_payload (payload : option pyval) : string :=
  match payload with
  | None => EmptyString
  | Some v => " request_payload=" +:+ json_dumps v
  end.

(** [f"Bearer {self.token}"] and the other headers of a request. *)
Definition request_headers (c : PrismApiClient) (has_payload : bool) (auth_mode : string) : dict string :=
  let headers := [("Accept", "application/json")] in
  let headers := if has_payload then dict_set "Content-Type" "application/json" headers else headers in
  let token := ostr_or (cl_token c) EmptyString in
  let headers := if ostr_truthy (cl_token c) && (bool_decide (auth_mode = "internal") || bool_decide (auth_mode = "both"))
                 then dict_set "x-internal-api-token" token headers else headers in
  if ostr_truthy (cl_token c) && (bool_decide (auth_mode = "bearer") || bool_decide (auth_mode = "both"))
  then dict_set "Authorization" ("Bearer " +:+ token) headers else headers.

(** The exception class for an HTTP status. *)
Definition status_exception (code : Z) : exc_class :=
  if code =? 400 then PrismApiBadRequestError
  else if code =? 404 then PrismApiNotFoundError
  else if code =? 409 then PrismApiConflictError
  else if code =? 422 then PrismApiUnprocessableError
  else RuntimeError.

Definition http_error_message (method path detail : string) (code : Z) (payload : option pyval) : string :=
  "Prism API " +:+ method +:+ " " +:+ path +:+
  (if bool_decide (status_exception code = RuntimeError)
   then " failed: " +:+ pretty code +:+ " "
   else " returned " +:+ pretty code +:+ ": ") +:+
  detail +:+ format_request_payload payload.

(** The decoding of a response body; bytes that are not UTF-8 are refused before the
    text is parsed, outside the handlers. *)
Definition decode_body (method path : string) (b : body) : res pyval :=
  match b with
  | BodyEmpty => Ok (PDict [])
  | BodyNotUtf8 message => err UnicodeDecodeError message
  | BodyInvalid => err RuntimeError ("Prism API " +:+ method +:+ " " +:+ path +:+ " returned invalid JSON.")
  | BodyJson (PDict d) => match dict_get "data" d with Some v => Ok v | None => Ok (PDict d) end
  | BodyJson _ => err RuntimeError ("Prism API " +:+ method +:+ " " +:+ path +:+ " returned unsupported JSON.")
  end.

(** [_request_json] after [urlopen]: what is neither an HTTP error nor an [OSError] is
    not handled. *)
Definition reply_result (method path : string) (payload : option pyval) (r : reply) : res pyval :=
  match r with
  | ReplyHttpError code detail =>
      err (status_exception code) (http_error_message method path detail code payload)
  | ReplyUnreachable message | ReplyBroken _ message =>
      err RuntimeError ("Prism API " +:+ method +:+ " " +:+ path +:+ " unreachable: " +:+ message)
  | ReplyRaises e => Raise e
  | ReplyOk b => decode_body method path b
  end.

(** [_extract_items] *)
Definition dicts_of (l : list pyval) : list (dict pyval) := omap as_dict l.

Fixpoint first_list (d : dict pyval) (keys : list string) : option (list pyval) :=
  match keys with
  | [] => None
  | k :: ks => match dget k d with PList l => Some l | _ => first_list d ks end
  end.

Definition extract_items (v : pyval) : list (dict pyval) :=
  match v with
  | PList l => dicts_of l
  | PDict d => match first_list d ["items"; "members"; "jobs"; "data"] with
               | Some l => dicts_of l
               | None => []
               end
  | _ => []
  end.

(** [value.get(key)] on a value that may not be a dict *)
Definition type_name (v : pyval) : string :=
  match v with
  | PNone => "NoneType" | PBool _ => "bool" | PInt _ => "int" | PFloat _ => "float"
  | PStr _ => "str" | PList _ => "list" | PDict _ => "dict"
  end.
Definition value_get (v : pyval) (key : string) : res pyval :=
  match v with
  | PDict d => Ok (dget key d)
  | _ => err AttributeError ("'" +:+ type_name v +:+ "' object has no attribute 'get'")
  end.

Section client.
Context `{Env} (c : PrismApiClient).

(** [_request_json] *)
Definition request_json (method path : string) (payload : option pyval) (auth_mode : string) : st Ext pyval :=
  match cl_base_url c with
  | Some base_url =>
      if str_truthy base_url then
        lift_res (check_url (base_url +:+ path)) ;;
        r ← urlopen {| rq_method := method; rq_url := base_url +:+ path;
                       rq_headers := request_headers c (match payload with Some _ => true | None => false end) auth_mode;
                       rq_body := payload |};
        lift_res (reply_result method path payload r)
      else raise (Exn RuntimeError "PRISM_API_BASE_URL is required for live Prism API calls.")
  | None => raise (Exn RuntimeError "PRISM_API_BASE_URL is required for live Prism API calls.")
  end.

Definition workspace_path (w : string) : string := "/workspaces/" +:+ quote w.
Definition project_path (p : string) : string := "/projects/" +:+ quote p.

Definition get_workspace_members (w : string) : st Ext (list (dict pyval)) :=
  data ← request_json "GET" (workspace_path w +:+ "/members") None "bearer";
  mret (extract_items data).

Definition get_workspace_jobs (w : string) : st Ext (list (dict pyval)) :=
  data ← request_json "GET" (workspace_path w +:+ "/jobs") None "bearer";
  mret (extract_items data).

Definition workloads_path (w : string) (internal : bool) : string :=
  workspace_path w +:+ "/member-workloads" +:+ (if internal then "/internal" else EmptyString).

Definition get_workspace_member_workloads (w : string) (internal : bool) : st Ext (list (dict pyval)) :=
  data ← request_json "GET" (workloads_path w internal) None "internal";
  mret (extract_items data).

Definition get_workspace_member_workload (w user_id : string) (internal : bool) : st Ext (dict pyval) :=
  data ← request_json "GET" (workloads_path w internal +:+ "/" +:+ quote user_id) None "internal";
  match data with
  | PDict d => mret d
  | _ => raise (Exn RuntimeError "Prism API member workload response must be an object.")
  end.

Definition search_work_items (p : string) (params : dict pyval) (internal : bool) : st Ext (dict pyval) :=
  data ← request_json "GET"
    (project_path p +:+ "/work-items" +:+ (if internal then "/internal" else EmptyString) +:+ query_string params)
    None "internal";
  match data with
  | PDict d => mret d
  | PList l =>
      let n := PInt (Z.of_nat (length l)) in
      mret [("items", PList l); ("total", n); ("limit", n); ("offset", PInt 0)]
  | _ => mret [("items", PList []); ("total", PInt 0); ("limit", PInt 0); ("offset", PInt 0)]
  end.

Definition get_workspace_sprints (w : string) : st Ext (list (dict pyval)) :=
  data ← request_json "GET" (workspace_path w +:+ "/sprints/internal") None "internal";
  mret (extract_items data).

Definition post (path : string) (payload : dict pyval) : st Ext pyval :=
  request_json "POST" path (Some (PDict payload)) "internal".
Definition patch (path : string) (payload : dict pyval) : st Ext pyval :=
  request_json "PATCH" path (Some (PDict payload)) "internal".

Definition add_sprint_work_items (w sprint_id : string) (payload : dict pyval) : st Ext pyval :=
  post (workspace_path w +:+ "/sprints/internal/" +:+ quote sprint_id +:+ "/work-items") payload.

Definition find_similar_work_items (p : string) (embedding : list pyfloat) (limit : Z) : st Ext (list (dict pyval)) :=
  data ← post (project_path p +:+ "/work-items/internal/similar")
           [("embedding", PList (map PFloat embedding)); ("limit", PInt limit)];
  match data with PList l => mret (dicts_of l) | _ => mret [] end.

Definition create_sprint (w : string) (payload : dict pyval) : st Ext pyval :=
  post (workspace_path w +:+ "/sprints/internal") payload.

Definition create_work_item (p : string) (payload : dict pyval) : st Ext pyval :=
  post (project_path p +:+ "/work-items/internal") payload.

Definition update_work_item (p item_id : string) (payload : dict pyval) : st Ext pyval :=
  patch (project_path p +:+ "/work-items/internal/" +:+ quote item_id) payload.

(** [pull_number] is a string or a number. *)
Definition pull_path (p : string) (pull_number : pyval) : string :=
  project_path p +:+ "/pull-requests/internal/" +:+ quote (py_str pull_number).

Definition get_pull_request (p : string) (pull_number : pyval) (include_diff include_files : bool) : st Ext pyval :=
  request_json "GET"
    (pull_path p pull_number +:+
     query_string [("includeDiff", PStr (if include_diff then "true" else "false"));
                   ("includeFiles", PStr (if include_files then "true" else "false"))])
    None "internal".

Definition create_pull_request_review (p : string) (pull_number : pyval) (payload : dict pyval) : st Ext pyval :=
  post (pull_path p pull_number +:+ "/reviews") payload.

Definition runs_path (w : string) : string := workspace_path w +:+ "/agent-runs/internal".
Definition run_path (w run_id : string) : string := runs_path w +:+ "/" +:+ quote run_id.

Definition create_agent_run (w : string) (payload : dict pyval) : st Ext pyval := post (runs_path w) payload.

Definition get_agent_run_state (w run_id : string) : st Ext (dict pyval) :=
  data ← request_json "GET" (run_path w run_id +:+ "/state") None "internal";
  match data with
  | PDict d => mret d
  | _ => raise (Exn RuntimeError "Prism API agent run state response must be an object.")
  end.

Definition update_agent_run_status (w run_id : string) (payload : dict pyval) : st Ext pyval :=
  patch (run_path w run_id +:+ "/status") payload.

Definition upsert_agent_run_step (w run_id : string) (payload : dict pyval) : st Ext pyval :=
  post (run_path w run_id +:+ "/steps") payload.

Definition upsert_agent_action (w run_id : string) (payload : dict pyval) : st Ext pyval :=
  post (run_path w run_id +:+ "/actions") payload.

Definition create_agent_action_event (w action_id : string) (payload : dict pyval) : st Ext pyval :=
  post (workspace_path w +:+ "/agent-actions/internal/" +:+ quote action_id +:+ "/events") payload.

Definition upsert_agent_memory (w : string) (payload : dict pyval) : st Ext pyval :=
  request_json "POST" (workspace_path w +:+ "/agent-memories") (Some (PDict payload)) "bearer".
End client.

(** ** Permissions and entity versions *)

Definition default_permissions : dict bool :=
  [("create_workitem", true); ("update_workitem", true); ("create_agent_suggestion", true);
   ("create_dashboard_insight", true); ("generate_sprint_report", true)].

Definition fetch_permissions (e : RuntimeEvent) : dict bool :=
  match dget "permissions" (ev_payload (base e)) with
  | PDict d => map (λ kv, (kv.1, truthy kv.2)) d
  | _ => default_permissions
  end.

(** One entity's contribution to the versions of a context. *)
Definition entity_version (acc : dict pyval) (kv : string * pyval) : dict pyval :=
  match kv.2 with
  | PDict entity =>
      let entity_id := py_or (dget "id" entity) (dget (kv.1 +:+ "_id") entity) in
      let version := dict_get_or (PInt 1) "version" entity in
      if truthy entity_id then dict_set (kv.1 +:+ ":" +:+ py_str entity_id) version acc else acc
  | _ => acc
  end.

Definition entity_versions_of (e : RuntimeEvent) (entities : dict pyval) : dict pyval :=
  match dget "entity_versions" (ev_payload (base e)) with
  | PDict explicit => explicit
  | _ => foldl entity_version [] entities
  end.

(** [capture_entity_versions]: the first version observed for an entity stays. *)
Definition capture_entity_versions (e : RuntimeEvent) (entities : dict pyval) : st Ext (dict pyval) :=
  let versions := entity_versions_of e entities in
  x ← get_st;
  set_versions (foldl (λ d kv, dict_setdefault kv.1 kv.2 d) (x_versions x) versions) ;;
  mret versions.

Definition get_current_entity_versions (entity_refs : list string) : st Ext (dict pyval) :=
  x ← get_st;
  mret (dict_of (omap (λ r, option_map (pair r) (dict_get r (x_versions x))) entity_refs)).

Definition set_entity_version (entity_ref : string) (version : pyval) : st Ext unit :=
  x ← get_st;
  set_versions (dict_set entity_ref version (x_versions x)).

(** ** Lemmas *)

Section client_lemmas.
Context `{Env} (c : PrismApiClient).

Lemma request_json_le a b p m : respects ext_le (request_json c a b p m).
Proof. unfold request_json. solve_respects. Qed.

(** The client never touches the version table when it sends a request. *)
Lemma request_json_versions a b p m x : x_versions (request_json c a b p m x).2 = x_versions x.
Proof.
  unfold request_json. destruct (cl_base_url c) as [u|]; [|done]. destruct (str_truthy u); [|done].
  unfold mbind, st_bind, lift_res. by destruct (check_url _).
Qed.
End client_lemmas.

#[export] Hint Resolve request_json_le : respects.

Lemma omap_get_keys (refs : list string) (t : dict pyval) k v :
  (k, v) ∈ omap (λ r, option_map (pair r) (dict_get r t)) refs ↔ k ∈ refs ∧ dict_get k t = Some v.
Proof.
  rw list_elem_of_omap. split.
  - intros (r & Hr & Ho). destruct (dict_get r t) eqn:E; [|done]. simpl in Ho. by simplify_eq.
  - intros [Hk Hv]. exists k. by rw Hv.
Qed.

Lemma dict_update_get_consistent (t : dict pyval) (items d : dict pyval) k :
  (∀ k v, (k, v) ∈ items → dict_get k t = Some v) →
  dict_get k (dict_update d items) =
    if bool_decide (k ∈ dict_keys items) then dict_get k t else dict_get k d.
Proof.
  revert d. induction items as [|[k0 v0] items IH]; intros d Hc; simpl; [done|].
  rw IH; [intros; apply Hc; by right|].
  rw (bool_decide_ext (k ∈ k0 :: dict_keys items) (k = k0 ∨ k ∈ dict_keys items)); [apply elem_of_cons|].
  rw dict_get_set. repeat case_bool_decide; subst; try naive_solver.
  by rw (Hc k v0); [left|].
Qed.

(** ** Properties *)

(** What the client lets through besides [RuntimeError]s: the [ValueError] of a base URL
    without a scheme, which comes before anything is sent, and of a request that was
    sent the error of a reply that is not UTF-8 and the exceptions of the HTTP library
    that are not [OSError]s.  The request that broke is the last one sent. *)
Definition reply_escapes (r : reply) (e : exn) : Prop :=
  r = ReplyRaises e ∨ ∃ message, r = ReplyOk (BodyNotUtf8 message) ∧ e = Exn UnicodeDecodeError message.

Definition broke `{Env} (c : PrismApiClient) (e : exn) (x y : Ext) : Prop :=
  is_RuntimeError e = false ∧ is_configured c = true ∧
  ((∃ path, check_url (ostr_or (cl_base_url c) EmptyString +:+ path) = Raise e) ∨
   ∃ rq earlier, x_requests y = rq :: earlier ∧ suffix (x_requests x) earlier ∧ reply_escapes (http_reply earlier rq) e).

Lemma broke_later `{Env} c e x x1 y : suffix (x_requests x) (x_requests x1) → broke c e x1 y → broke c e x y.
Proof.
  intros Hs (Hr & Hc & Hb). split; [done|]. split; [done|]. destruct Hb as [Hb|(rq & l & E & Hs' & Hb)]; [by left|].
  right. exists rq, l. split_and!; [done|by etrans|done].
Qed.

Lemma reply_result_raise method path payload r e :
  reply_result method path payload r = Raise e → is_RuntimeError e = true ∨ reply_escapes r e.
Proof.
  destruct r as [b|code detail|message|name message|e']; cbn [reply_result]; unfold err.
  - destruct b as [| |message|[| | | | |l|d]]; cbn [decode_body]; unfold err; try discriminate.
    2: { intros [= <-]. right. right. by exists message. }
    all: try (intros [= <-]; by left). by destruct (dict_get "data" d).
  - intros [= <-]. left. unfold is_RuntimeError, status_exception. cbn [exc_type]. by repeat destruct (_ =? _).
  - intros [= <-]. by left.
  - intros [= <-]. by left.
  - intros [= <-]. right. by left.
Qed.

(** A request of a configured client. *)
Lemma request_json_cases `{Env} c method path payload auth x :
  (is_configured c = false ∧
   request_json c method path payload auth x =
     (Raise (Exn RuntimeError "PRISM_API_BASE_URL is required for live Prism API calls."), x)) ∨
  is_configured c = true ∧
  ((∃ e, check_url (ostr_or (cl_base_url c) EmptyString +:+ path) = Raise e ∧
     request_json c method path payload auth x = (Raise e, x)) ∨
   ∃ rq, rq_method rq = method ∧ rq_body rq = payload ∧ rq_url rq = ostr_or (cl_base_url c) EmptyString +:+ path ∧
     url_ok (rq_url rq) = true ∧
     request_json c method path payload auth x =
       (reply_result method path payload (http_reply (x_requests x) rq), (urlopen rq x).2)).
Proof.
  unfold is_configured, request_json. destruct (cl_base_url c) as [u|]; cbn [ostr_truthy ostr_or]; [|by left].
  unfold str_or. destruct (str_truthy u) eqn:Eu; [|by left]. right. split; [done|].
  unfold mbind at 1 3. unfold st_bind at 1 3. cbn [lift_res].
  destruct (check_url (u +:+ path)) as [[]|e] eqn:Ec; [|left; by exists e].
  right. eexists. split_and!; [| | | |reflexivity]; try done. unfold url_ok. cbn. by rw Ec.
Qed.

Lemma request_json_raise `{Env} c method path payload auth x e y :
  request_json c method path payload auth x = (Raise e, y) → is_RuntimeError e = true ∨ broke c e x y.
Proof.
  destruct (request_json_cases c method path payload auth x) as [[_ ->]|[Hc [(e' & He & ->)|(rq & _ & _ & _ & _ & ->)]]].
  - intros [= <- _]. by left.
  - intros [= <- _]. right. split; [|split; [done|left; by exists path]].
    pose proof (check_url_ValueError _ _ He) as Ht. unfold is_RuntimeError. by rw Ht.
  - intros [= Hr <-]. destruct (is_RuntimeError e) eqn:Ee; [by left|right]. split; [done|]. split; [done|]. right.
    exists rq, (x_requests x). split_and!; [done..|]. destruct (reply_result_raise _ _ _ _ _ Hr) as [?|He]; [congruence|exact He].
Qed.

(** a request that succeeds sent one request, to which the server answered
    without an HTTP error, and returns the [data] member of the decoded body or the
    body itself, or an empty object for no body; a failure is an exception of a class that
    [except RuntimeError] catches, with 400, 404, 409 and 422 told apart, or the request
    broke; without a base URL nothing is sent. *)
Theorem request_json_spec `{Env} c method path payload auth x :
  let '(r, x') := request_json c method path payload auth x in
  match r with
  | Ok v => is_configured c = true ∧ ∃ rq b,
      x_requests x' = rq :: x_requests x ∧ rq_body rq = payload ∧ rq_method rq = method ∧
      http_reply (x_requests x) rq = ReplyOk b ∧
      (b = BodyEmpty ∧ v = PDict [] ∨
       ∃ d, b = BodyJson (PDict d) ∧ v = match dict_get "data" d with Some w => w | None => PDict d end)
  | Raise e => (is_RuntimeError e = true ∨ broke c e x x') ∧
      (is_configured c = false → x' = x) ∧
      (∀ rq code detail, x_requests x' = rq :: x_requests x →
         http_reply (x_requests x) rq = ReplyHttpError code detail → exc_type e = status_exception code)
  end.
Proof.
  destruct (request_json c method path payload auth x) as [[v|e] x'] eqn:E.
  - destruct (request_json_cases c method path payload auth x) as [[_ E']|[Hc [(e' & _ & E')|(rq & Hm & Hb & _ & _ & E')]]];
      rw E in E'; try discriminate. split; [done|]. injection E' as Hr ->.
    destruct (http_reply (x_requests x) rq) as [b| | | |] eqn:Er; cbn [reply_result] in Hr; try discriminate.
    exists rq, b. split_and!; [done..|]. destruct b as [| | |[| | | | |l|d]]; cbn [decode_body] in Hr; try discriminate.
    + left. by injection Hr as ->.
    + right. exists d. split; [done|]. by destruct (dict_get "data" d); injection Hr as ->.
  - split; [by eapply request_json_raise|].
    destruct (request_json_cases c method path payload auth x) as [[_ E']|[Hc [(e' & _ & E')|(rq & Hm & Hb & _ & _ & E')]]];
      rw E in E'; injection E' as Ee ->.
    1,2: split; [done|]; intros rq code detail Hrq; apply (f_equal length) in Hrq; cbn in Hrq; lia.
    split; [congruence|]. intros rq' code detail [= <-] Hr. rw Hr in Ee. cbn in Ee. by injection Ee as ->.
Qed.

(** the current versions the client reports for the expected entities are
    exactly the versions it has observed for them: an entity it never observed is
    left out, so that the stale check cannot take it for a changed one, and the
    table and the requests sent do not change. *)
Theorem get_current_entity_versions_spec refs x :
  ∃ current,
    get_current_entity_versions refs x = (Ok current, x) ∧ dict_wf current ∧
    ∀ r, dict_get r current = if bool_decide (r ∈ refs) then dict_get r (x_versions x) else None.
Proof.
  eexists. split; [done|]. split; [apply dict_wf_of|]. intros r. unfold dict_of.
  rw (dict_update_get_consistent (x_versions x)).
  { intros k v [_ Hv]%omap_get_keys. done. }
  set (items := omap _ refs).
  destruct (bool_decide_reflect (r ∈ refs)) as [Hr|Hr].
  - destruct (dict_get r (x_versions x)) as [v|] eqn:Ev.
    + rw bool_decide_eq_true_2 //. apply list_elem_of_fmap. exists (r, v).
      split; [done|]. by apply omap_get_keys.
    + by case_bool_decide.
  - rw bool_decide_eq_false_2 //. intros Hin. apply list_elem_of_fmap in Hin as ([k v] & -> & Hkv).
    by apply omap_get_keys in Hkv as [? _].
Qed.
