(* ===== verification/Prompts.v ===== *)
(** * The prompt registry ([src/infrastructure/registries/prompt_registry.py])

    Loading the YAML files below a directory into the tables of workflow, skill and
    tool prompts, and the lookups, each of which loads first when its table is empty.

    The directory, the YAML reader ([PromptFiles]) and pydantic's validation of the
    three definition classes ([PromptModels]) are parameters; the files are taken not
    to change while the registry lives.  A path is relative to the directory: the
    parts of it, the file's name last. *)

From stdpp Require Import sorting.
From S2P Require Import Prelude PyStr PyVal Client Definitions.

Class PromptFiles := {
  prompts_path : list string;                    (* the parts of the absolute path *)
  prompts_exist : bool;
  rglob_yaml : list (list string);               (* in the order of the file system *)
  read_yaml : list string → res pyval            (* [open] and [yaml.safe_load] *)
}.

Class PromptModels := {
  validate_workflow : dict pyval → res WorkflowPromptDefinition;
  validate_skill : dict pyval → res SkillPromptDefinition;
  validate_tool : dict pyval → res ToolPromptDefinition
}.

(** ** Paths *)

Definition path_str (parts : list string) : string := "/" +:+ str_join "/" parts.

(** [path.parent.name] *)
Definition parent_name (parts : list string) : string := List.last (removelast parts) "".

(** Paths compare part by part. *)
Fixpoint parts_leb (p q : list string) : bool :=
  match p, q with
  | [], _ => true
  | _ :: _, [] => false
  | a :: p', b :: q' => if String.eqb a b then parts_leb p' q' else str_leb a b
  end.

Definition parts_le (p q : list string) : Prop := Is_true (parts_leb p q).

#[export] Instance parts_le_dec : RelDecision parts_le.
Proof. intros p q. unfold parts_le. apply _. Defined.

Definition sorted_paths (l : list (list string)) : list (list string) := merge_sort parts_le l.

(** ** The tables *)

Inductive PromptDefinition :=
  | PromptWorkflow (d : WorkflowPromptDefinition)
  | PromptSkill (d : SkillPromptDefinition)
  | PromptTool (d : ToolPromptDefinition).

Definition prompt_key (p : PromptDefinition) : string * string :=
  match p with
  | PromptWorkflow d => (wp_id d, wp_version d)
  | PromptSkill d => (sk_id d, sk_version d)
  | PromptTool d => (tp_id d, tp_version d)
  end.

Definition as_workflow (p : PromptDefinition) : option WorkflowPromptDefinition :=
  match p with PromptWorkflow d => Some d | _ => None end.
Definition as_skill (p : PromptDefinition) : option SkillPromptDefinition :=
  match p with PromptSkill d => Some d | _ => None end.
Definition as_tool (p : PromptDefinition) : option ToolPromptDefinition :=
  match p with PromptTool d => Some d | _ => None end.

(** A dict whose keys are an id and a version. *)
Abbreviation table A := (list ((string * string) * A)).

Fixpoint table_get {A} (k : string * string) (t : table A) : option A :=
  match t with
  | [] => None
  | (k', a) :: t' => if bool_decide (k = k') then Some a else table_get k t'
  end.

Fixpoint table_set {A} (k : string * string) (a : A) (t : table A) : table A :=
  match t with
  | [] => [(k, a)]
  | (k', a') :: t' => if bool_decide (k = k') then (k', a) :: t' else (k', a') :: table_set k a t'
  end.

Record PromptTables := {
  pg_prompts : table PromptDefinition;
  pg_workflows : table WorkflowPromptDefinition;
  pg_skills : table SkillPromptDefinition;
  pg_tools : table ToolPromptDefinition
}.

Definition prompt_tables_empty : PromptTables :=
  {| pg_prompts := []; pg_workflows := []; pg_skills := []; pg_tools := [] |}.

(** The body of the loop of [load], after the file was read. *)
Definition add_prompt (p : PromptDefinition) (r : PromptTables) : PromptTables := {|
  pg_prompts := table_set (prompt_key p) p (pg_prompts r);
  pg_workflows := match p with PromptWorkflow d => table_set (prompt_key p) d (pg_workflows r) | _ => pg_workflows r end;
  pg_skills := match p with PromptSkill d => table_set (prompt_key p) d (pg_skills r) | _ => pg_skills r end;
  pg_tools := match p with PromptTool d => table_set (prompt_key p) d (pg_tools r) | _ => pg_tools r end |}.

(** ** Loading *)

Section prompts.
Context `{PromptFiles, PromptModels}.

Definition full_path (p : list string) : list string := prompts_path ++ p.

Definition infer_kind (p : list string) : res string :=
  let parent := parent_name (full_path p) in
  if bool_decide (parent = "workflows") then Ok "workflow"
  else if bool_decide (parent = "skills") then Ok "skill"
  else if bool_decide (parent = "tools") then Ok "tool"
  else err ValueError ("Prompt kind is required outside prompts/workflows, prompts/skills, or prompts/tools: "
                         +:+ path_str (full_path p)).

(** [_parse_prompt] *)
Definition parse_prompt (data : pyval) (p : list string) : res PromptDefinition :=
  match data with
  | PDict d =>
      kind ← (if truthy (dget "kind" d) then Ok (dget "kind" d) else k ← infer_kind p; mret (PStr k));
      let d' := dict_set "kind" kind d in
      if bool_decide (kind = PStr "workflow") then w ← validate_workflow d'; mret (PromptWorkflow w)
      else if bool_decide (kind = PStr "skill") then s ← validate_skill d'; mret (PromptSkill s)
      else if bool_decide (kind = PStr "tool") then t ← validate_tool d'; mret (PromptTool t)
      else err ValueError ("Unsupported prompt kind in " +:+ path_str (full_path p) +:+ ": " +:+ py_str kind)
  | v => err AttributeError ("'" +:+ type_name v +:+ "' object has no attribute 'get'")
  end.

Definition parse_file (p : list string) : res PromptDefinition :=
  data ← read_yaml p; parse_prompt (py_or data (PDict [])) p.

Definition load_file (p : list string) : st PromptTables unit :=
  prompt ← lift_res (parse_file p); modify (add_prompt prompt).

(** [PromptRegistry.load] *)
Definition load : st PromptTables unit :=
  if prompts_exist then
    put_st prompt_tables_empty ;; for_each load_file (sorted_paths rglob_yaml)
  else raise (Exn FileNotFoundError ("Prompt directory not found: " +:+ path_str prompts_path)).

(** [if not table: self.load()] *)
Definition ensure_loaded {A} (f : PromptTables → table A) : st PromptTables unit :=
  t ← gets f; match t with [] => load | _ :: _ => mret tt end.

(** The four pairs of accessors differ in the table and in the name they report. *)
Definition lookup_prompt {A} (f : PromptTables → table A) (what : string) (k : string * string) :
    st PromptTables A :=
  ensure_loaded f ;;
  t ← gets f;
  match table_get k t with
  | Some a => mret a
  | None => raise (Exn KeyError (what +:+ " not registered: " +:+ k.1 +:+ ":" +:+ k.2))
  end.

Definition list_prompts {A} (f : PromptTables → table A) : st PromptTables (list A) :=
  ensure_loaded f ;; t ← gets f; mret t.*2.

Definition pr_get (prompt_id version : string) : st PromptTables PromptDefinition :=
  lookup_prompt pg_prompts "Prompt" (prompt_id, version).
Definition pr_list : st PromptTables (list PromptDefinition) := list_prompts pg_prompts.
Definition pr_get_workflow (prompt_id version : string) : st PromptTables WorkflowPromptDefinition :=
  lookup_prompt pg_workflows "Workflow prompt" (prompt_id, version).
Definition pr_get_skill (skill_id version : string) : st PromptTables SkillPromptDefinition :=
  lookup_prompt pg_skills "Skill prompt" (skill_id, version).
Definition pr_get_tool (tool_id version : string) : st PromptTables ToolPromptDefinition :=
  lookup_prompt pg_tools "Tool prompt" (tool_id, version).
Definition list_workflows : st PromptTables (list WorkflowPromptDefinition) := list_prompts pg_workflows.
Definition list_skills : st PromptTables (list SkillPromptDefinition) := list_prompts pg_skills.
Definition list_tools : st PromptTables (list ToolPromptDefinition) := list_prompts pg_tools.

(** The registries the container builds from a prompt registry. *)
Definition skill_registry_of : st PromptTables SkillRegistry :=
  l ← list_skills; mret (skills_from l).
Definition workflow_registry_of : st PromptTables WorkflowRegistry :=
  l ← list_workflows; lift_res (workflows_from l workflow_registry_empty).
End prompts.

(** ** The order of paths *)

#[export] Instance parts_le_total : Total parts_le.
Proof.
  unfold parts_le. intros p. induction p as [|a p IH]; intros [|b q]; simpl; [by left|by left|by right|].
  rw (String.eqb_sym b a). destruct (String.eqb a b); [apply IH|]. unfold str_leb.
  destruct (String.leb_total a b) as [-> | ->]; [by left|by right].
Qed.

#[export] Instance parts_le_antisymm : AntiSymm (=) parts_le.
Proof.
  unfold parts_le. intros p. induction p as [|a p IH]; intros [|b q]; simpl; [done..|].
  rw (String.eqb_sym b a). destruct (String.eqb_spec a b) as [<- | Hne].
  - intros H1 H2. by rw (IH q).
  - unfold str_leb. intros ?%Is_true_true ?%Is_true_true. exfalso. by apply Hne, String.leb_antisym.
Qed.

Lemma str_leb_trans a b c : Is_true (str_leb a b) → Is_true (str_leb b c) → Is_true (str_leb a c).
Proof. apply (transitivity (R:=String.le)). Qed.

#[export] Instance parts_le_trans : Transitive parts_le.
Proof.
  unfold parts_le. intros p. induction p as [|a p IH]; intros [|b q] [|c r]; simpl; try done.
  destruct (String.eqb_spec a b) as [<- | Hab], (String.eqb_spec a c) as [<- | Hac]; try done.
  - intros H1 H2. by apply (IH q r).
  - rw (proj2 (String.eqb_neq b a)); [congruence|].
    unfold str_leb. intros ?%Is_true_true ?%Is_true_true. exfalso. by apply Hab, String.leb_antisym.
  - destruct (String.eqb_spec b c) as [<- | Hbc]; [done|]. apply str_leb_trans.
Qed.

Lemma sorted_paths_perm l k : l ≡ₚ k → sorted_paths l = sorted_paths k.
Proof.
  intros Hp. apply (Sorted_unique parts_le); [apply Sorted_merge_sort, _..|].
  unfold sorted_paths. etrans; [apply merge_sort_Permutation|]. by etrans; [exact Hp|symmetry; apply merge_sort_Permutation].
Qed.

Lemma sorted_paths_elem p l : p ∈ sorted_paths l ↔ p ∈ l.
Proof. apply elem_of_Permutation_proper, merge_sort_Permutation. Qed.

(** ** Tables *)

Lemma table_get_set {A} k k' (a : A) t :
  table_get k' (table_set k a t) = if bool_decide (k = k') then Some a else table_get k' t.
Proof.
  induction t as [|[k0 a0] t IH]; simpl.
  - repeat case_bool_decide; congruence.
  - destruct (decide (k = k0)) as [<- | Hne].
    + rw bool_decide_true; [done|]. simpl. by repeat case_bool_decide.
    + rw (bool_decide_false (k = k0)); [done|]. simpl. rw IH. repeat case_bool_decide; congruence.
Qed.

Lemma table_set_not_nil {A} k (a : A) t : table_set k a t ≠ [].
Proof. destruct t as [|[k0 a0] t]; simpl; [done|]. by case_bool_decide. Qed.

(** The last element with a property, which is what a table keeps. *)
Fixpoint last_such {A} (f : A → bool) (l : list A) : option A :=
  match l with
  | [] => None
  | a :: l' => match last_such f l' with Some b => Some b | None => if f a then Some a else None end
  end.

Definition has_key {A} (key : A → string * string) (k : string * string) (a : A) : bool := bool_decide (key a = k).

Definition workflow_key (d : WorkflowPromptDefinition) := (wp_id d, wp_version d).
Definition skill_key (d : SkillPromptDefinition) := (sk_id d, sk_version d).
Definition tool_key (d : ToolPromptDefinition) := (tp_id d, tp_version d).

(** The tables after adding prompts one by one, and what they hold. *)
Definition tables_of (ps : list PromptDefinition) : PromptTables :=
  foldl (λ r p, add_prompt p r) prompt_tables_empty ps.

(** Every table holds exactly the last prompt of its kind for each key. *)
Definition holds_last {A} (key : A → string * string) (t : table A) (l : list A) : Prop :=
  ∀ k, table_get k t = last_such (has_key key k) l.

Lemma last_such_snoc {A} f l (a : A) : last_such f (l ++ [a]) = if f a then Some a else last_such f l.
Proof.
  induction l as [|b l IH]; simpl; [by destruct (f a)|]. rw IH. by destruct (f a).
Qed.

Lemma holds_last_set {A} (key : A → string * string) t l a :
  holds_last key t l → holds_last key (table_set (key a) a t) (l ++ [a]).
Proof. intros Ht k. rw table_get_set last_such_snoc. unfold has_key. by rw Ht. Qed.

Lemma last_such_spec {A} f (l : list A) a : last_such f l = Some a → a ∈ l ∧ f a = true.
Proof.
  induction l as [|b l IH]; simpl; [done|]. destruct (last_such f l) as [c|]; [|destruct (f b) eqn:E]; naive_solver set_solver.
Qed.

Lemma tables_of_spec ps :
  holds_last prompt_key (pg_prompts (tables_of ps)) ps ∧
  holds_last workflow_key (pg_workflows (tables_of ps)) (omap as_workflow ps) ∧
  holds_last skill_key (pg_skills (tables_of ps)) (omap as_skill ps) ∧
  holds_last tool_key (pg_tools (tables_of ps)) (omap as_tool ps).
Proof.
  induction ps as [|p ps (IHp & IHw & IHs & IHt)] using rev_ind; [by split_and!|].
  unfold tables_of. rw foldl_snoc !omap_app. change (foldl _ _ ps) with (tables_of ps).
  destruct p as [d|d|d]; simpl; rw ?app_nil_r; split_and!; try done.
  all: match goal with |- holds_last ?key (table_set _ ?a _) _ => by apply (holds_last_set key _ _ a) end.
Qed.

Lemma table_get_elem {A} (t : table A) k a : table_get k t = Some a → (k, a) ∈ t.
Proof.
  induction t as [|[k0 a0] t IH]; simpl; [done|]. rw elem_of_cons. case_bool_decide; naive_solver.
Qed.

Lemma elem_table_get {A} (t : table A) k a : NoDup t.*1 → (k, a) ∈ t → table_get k t = Some a.
Proof.
  induction t as [|[k0 a0] t IH]; simpl; [by intros _ ?%not_elem_of_nil|].
  rw NoDup_cons elem_of_cons. intros [Hk HN] [[= -> ->]|Hin]; [by rw bool_decide_true|].
  rw bool_decide_false; [|by apply IH]. intros ->. apply Hk, list_elem_of_fmap. by exists (k0, a).
Qed.

Lemma table_set_keys {A} k (a : A) t k' : k' ∈ (table_set k a t).*1 ↔ k' = k ∨ k' ∈ t.*1.
Proof.
  induction t as [|[k0 a0] t IH]; simpl; [set_solver|]. case_bool_decide; subst; simpl; rw !elem_of_cons; [naive_solver|].
  rw IH. naive_solver.
Qed.

Lemma table_set_NoDup {A} k (a : A) t : NoDup t.*1 → NoDup (table_set k a t).*1.
Proof.
  induction t as [|[k0 a0] t IH]; simpl; [intros _; by apply NoDup_singleton|].
  rw NoDup_cons. intros [Hk HN]. case_bool_decide; subst; simpl; rw NoDup_cons; [done|].
  split; [rw table_set_keys; naive_solver|by apply IH].
Qed.

Lemma tables_of_NoDup ps :
  NoDup (pg_prompts (tables_of ps)).*1 ∧ NoDup (pg_workflows (tables_of ps)).*1 ∧
  NoDup (pg_skills (tables_of ps)).*1 ∧ NoDup (pg_tools (tables_of ps)).*1.
Proof.
  induction ps as [|p ps (IHp & IHw & IHs & IHt)] using rev_ind; [split_and!; constructor|].
  unfold tables_of. rw foldl_snoc. change (foldl _ _ ps) with (tables_of ps).
  destruct p as [d|d|d]; simpl; split_and!; auto using table_set_NoDup.
Qed.

Lemma table_lookup {A} (t : table A) k : (list_to_map t : gmap (string * string) A) !! k = table_get k t.
Proof.
  induction t as [|[k0 a0] t IH]; simpl; [apply lookup_empty|].
  case_bool_decide; [subst; apply lookup_insert_eq|]. by rw lookup_insert_ne.
Qed.

(** ** What loading leaves *)

Section loading.
Context `{PromptFiles, PromptModels}.

Lemma load_files_spec l s :
  ∃ n ps, Forall2 (λ p d, parse_file p = Ok d) (take n l) ps ∧
    (for_each load_file l s).2 = foldl (λ r p, add_prompt p r) s ps ∧
    match (for_each load_file l s).1 with
    | Ok _ => length l = n
    | Raise e => ∃ p, l !! n = Some p ∧ parse_file p = Raise e
    end.
Proof.
  revert s. induction l as [|p l IH]; intros s; [by exists 0%nat, []; split_and!; [constructor| |]|].
  assert (Hl : load_file p s = match parse_file p with Ok d => (Ok tt, add_prompt d s) | Raise e => (Raise e, s) end).
  { unfold load_file, mbind, st_bind, lift_res, modify. by destruct (parse_file p). }
  cbn [for_each]. unfold mbind, st_bind. rw Hl. destruct (parse_file p) as [d|e] eqn:E.
  - destruct (IH (add_prompt d s)) as (n & ps & HF & Hs & Hr).
    exists (Datatypes.S n), (d :: ps). split_and!; [by constructor|done|].
    destruct (for_each load_file l _) as [[|e] s']; simpl in *; [lia|done].
  - exists 0%nat, []. split_and!; [constructor|done|]. by exists p.
Qed.

Lemma load_files_Ok l s ps :
  Forall2 (λ p d, parse_file p = Ok d) l ps →
  for_each load_file l s = (Ok tt, foldl (λ r p, add_prompt p r) s ps).
Proof.
  intros HF. revert s. induction HF as [|p d l ps Hd HF IH]; intros s; [done|].
  cbn [for_each]. unfold mbind, st_bind, load_file, mbind, st_bind, lift_res, modify. rw Hd. apply IH.
Qed.

Lemma load_Ok s s' :
  load s = (Ok tt, s') →
  ∃ ps, Forall2 (λ p d, parse_file p = Ok d) (sorted_paths rglob_yaml) ps ∧ s' = tables_of ps.
Proof.
  unfold load, mbind, st_bind, put_st. destruct prompts_exist; [|done]. intros E.
  destruct (load_files_spec (sorted_paths rglob_yaml) prompt_tables_empty) as (n & ps & HF & Hs & Hr).
  rw E in Hs Hr. simpl in Hs, Hr. subst n. exists ps. rw firstn_all in HF. done.
Qed.

Lemma load_again s s0 s' : load s = (Ok tt, s') → load s0 = (Ok tt, s').
Proof. unfold load, mbind, st_bind, put_st. by destruct prompts_exist. Qed.

(** In a loaded registry, and in a fresh one, a lookup answers from the loaded tables. *)
Lemma ensure_loaded_spec {A} (f : PromptTables → table A) s s' s0 :
  f prompt_tables_empty = [] → load s = (Ok tt, s') → s0 = prompt_tables_empty ∨ s0 = s' →
  ensure_loaded f s0 = (Ok tt, s').
Proof.
  intros Hf Hl. unfold ensure_loaded, mbind, st_bind, gets. intros [-> | ->].
  - rw Hf. by eapply load_again.
  - destruct (f s') as [|]; [by eapply load_again|done].
Qed.

Lemma lookup_prompt_spec {A} (f : PromptTables → table A) what k s s' s0 :
  f prompt_tables_empty = [] → load s = (Ok tt, s') → s0 = prompt_tables_empty ∨ s0 = s' →
  lookup_prompt f what k s0 =
    (match table_get k (f s') with
     | Some a => Ok a
     | None => err KeyError (what +:+ " not registered: " +:+ k.1 +:+ ":" +:+ k.2)
     end, s').
Proof.
  intros Hf Hl Hst. unfold lookup_prompt. rw (bind_step _ _ _ tt s' (ensure_loaded_spec f s s' s0 Hf Hl Hst)).
  unfold mbind, st_bind, gets. by destruct (table_get k (f s')).
Qed.

Lemma list_prompts_spec {A} (f : PromptTables → table A) s s' s0 :
  f prompt_tables_empty = [] → load s = (Ok tt, s') → s0 = prompt_tables_empty ∨ s0 = s' →
  list_prompts f s0 = (Ok (f s').*2, s').
Proof.
  intros Hf Hl Hst. unfold list_prompts. by rw (bind_step _ _ _ tt s' (ensure_loaded_spec f s s' s0 Hf Hl Hst)).
Qed.

(** ** Properties *)

(** C39: loading replaces whatever the registry held by the prompts of the
    files, read in the order of their paths, up to the first file that cannot be
    read, parsed or validated, whose exception it ends with: each table holds for
    each id and version the last such prompt of its kind.  Without the directory it
    raises and changes nothing. *)
Theorem load_spec s :
  let '(r, s') := load s in
  if prompts_exist then
    ∃ n ps, Forall2 (λ p d, parse_file p = Ok d) (take n (sorted_paths rglob_yaml)) ps ∧
      holds_last prompt_key (pg_prompts s') ps ∧
      holds_last workflow_key (pg_workflows s') (omap as_workflow ps) ∧
      holds_last skill_key (pg_skills s') (omap as_skill ps) ∧
      holds_last tool_key (pg_tools s') (omap as_tool ps) ∧
      match r with
      | Ok _ => n = length rglob_yaml
      | Raise e => ∃ p, sorted_paths rglob_yaml !! n = Some p ∧ parse_file p = Raise e
      end
  else r = err FileNotFoundError ("Prompt directory not found: " +:+ path_str prompts_path) ∧ s' = s.
Proof.
  destruct (load s) as [r s'] eqn:E. unfold load, mbind, st_bind, put_st in E. destruct prompts_exist; [|by injection E as <- <-].
  destruct (load_files_spec (sorted_paths rglob_yaml) prompt_tables_empty) as (n & ps & HF & Hs & Hr).
  rw E in Hs Hr. simpl in Hs, Hr. destruct (tables_of_spec ps) as (Hp & Hw & Hk & Ht).
  change (foldl _ _ ps) with (tables_of ps) in Hs. subst s'. exists n, ps. split_and!; try done.
  destruct r as [[]|e]; [|done]. rw -Hr. apply Permutation_length, merge_sort_Permutation.
Qed.

(** Once a registry was loaded, every lookup, in it or in a fresh registry that
    loads by itself, leaves the loaded tables and answers with the last prompt of the
    files with the id and version asked for, a [KeyError] when there is none; it is
    the lookup the runtime model has.  The lists hold each of these prompts. *)
Theorem lookups_spec s s' s0 :
  load s = (Ok tt, s') → s0 = prompt_tables_empty ∨ s0 = s' →
  ∃ ps, Forall2 (λ p d, parse_file p = Ok d) (sorted_paths rglob_yaml) ps ∧
    (∀ i v, pr_get_workflow i v s0 = (get_workflow (list_to_map (pg_workflows s')) i v, s')) ∧
    (∀ i v, get_workflow (list_to_map (pg_workflows s')) i v =
       match last_such (has_key workflow_key (i, v)) (omap as_workflow ps) with
       | Some d => Ok d
       | None => err KeyError ("Workflow prompt not registered: " +:+ i +:+ ":" +:+ v)
       end) ∧
    (∀ i v, pr_get_skill i v s0 =
       (match last_such (has_key skill_key (i, v)) (omap as_skill ps) with
        | Some d => Ok d
        | None => err KeyError ("Skill prompt not registered: " +:+ i +:+ ":" +:+ v)
        end, s')) ∧
    (∀ i v, pr_get_tool i v s0 =
       (match last_such (has_key tool_key (i, v)) (omap as_tool ps) with
        | Some d => Ok d
        | None => err KeyError ("Tool prompt not registered: " +:+ i +:+ ":" +:+ v)
        end, s')) ∧
    ∃ ws, list_workflows s0 = (Ok ws, s') ∧ NoDup (map workflow_key ws) ∧
      ∀ d, d ∈ ws ↔ last_such (has_key workflow_key (workflow_key d)) (omap as_workflow ps) = Some d.
Proof.
  intros Hl Hst. destruct (load_Ok s s' Hl) as (ps & HF & Hs). exists ps.
  destruct (tables_of_spec ps) as (_ & Hw & Hk & Ht), (tables_of_NoDup ps) as (_ & HN & _). rw -Hs in Hw Hk Ht HN.
  split_and!; [done| | | | |].
  - intros i v. unfold pr_get_workflow. rw (lookup_prompt_spec _ _ _ s s' s0); try done.
    unfold get_workflow. by rw table_lookup.
  - intros i v. unfold get_workflow. by rw table_lookup Hw.
  - intros i v. unfold pr_get_skill. by rw (lookup_prompt_spec _ _ _ s s' s0) // Hk.
  - intros i v. unfold pr_get_tool. by rw (lookup_prompt_spec _ _ _ s s' s0) // Ht.
  - exists (pg_workflows s').*2. split; [by apply (list_prompts_spec _ s)|].
    assert (Hkey : ∀ k d, (k, d) ∈ pg_workflows s' → workflow_key d = k).
    { intros k d Hin. apply elem_table_get in Hin; [|done]. rw Hw in Hin.
      apply last_such_spec in Hin as [_ Hk']. by apply bool_decide_eq_true in Hk'. }
    split.
    + replace (map workflow_key (pg_workflows s').*2) with (pg_workflows s').*1; [done|].
      change (map workflow_key _) with (workflow_key <$> (snd <$> pg_workflows s')).
      rw -list_fmap_compose. apply list_fmap_ext. intros j [k d] Hj.
      symmetry. apply Hkey. by eapply list_elem_of_lookup_2.
    + intros d. rw -Hw. split.
      * intros ([k d'] & -> & Hin)%list_elem_of_fmap. apply elem_table_get; [done|]. by rw (Hkey k d' Hin).
      * intros Hg%table_get_elem. apply list_elem_of_fmap. by exists (workflow_key d, d).
Qed.
End loading.

(** Loading does not depend on the order in which the file system lists the files,
    nor on what the registry held. *)
Lemma load_order_irrelevant `{PromptModels} root listing listing' (read : list string → res pyval) s s' :
  listing ≡ₚ listing' →
  @load {| prompts_path := root; prompts_exist := true; rglob_yaml := listing; read_yaml := read |} _ s =
  @load {| prompts_path := root; prompts_exist := true; rglob_yaml := listing'; read_yaml := read |} _ s'.
Proof. intros Hp. unfold load. simpl. by rw (sorted_paths_perm _ _ Hp). Qed.

Lemma dict_get_skills_from l d i :
  dict_get i (foldl skill_register d l) =
  match last_such (λ x, bool_decide (sk_id x = i)) l with Some x => Some x | None => dict_get i d end.
Proof.
  revert d. induction l as [|x l IH]; intros d; simpl; [done|]. rw IH.
  destruct (last_such _ l) as [y|]; [done|]. unfold skill_register. rw dict_get_set. by case_bool_decide.
Qed.

Lemma last_such_None {A} f (l : list A) : last_such f l = None ↔ Forall (λ a, f a = false) l.
Proof.
  induction l as [|b l IH]; simpl; [split; [by constructor|done]|].
  rw Forall_cons. rw -IH. by destruct (last_such f l), (f b); intuition congruence.
Qed.

(** The skill registry the container builds from a loadable prompt directory
    knows exactly the skill ids the skill files declare, and each under a definition
    some skill file declares with that id. *)
Theorem skill_registry_of_spec `{PromptFiles, PromptModels} s s' s0 :
  load s = (Ok tt, s') → s0 = prompt_tables_empty ∨ s0 = s' →
  ∃ r, skill_registry_of s0 = (Ok r, s') ∧
    (∀ i, dict_mem i r = true ↔
       ∃ p d, p ∈ rglob_yaml ∧ parse_file p = Ok (PromptSkill d) ∧ sk_id d = i) ∧
    (∀ i d, skill_get r i = Ok d → sk_id d = i ∧ ∃ p, p ∈ rglob_yaml ∧ parse_file p = Ok (PromptSkill d)).
Proof.
  intros Hl Hst. destruct (load_Ok s s' Hl) as (ps & HF & Hs).
  destruct (tables_of_spec ps) as (_ & _ & Hk & _), (tables_of_NoDup ps) as (_ & _ & HN & _). rw -Hs in Hk HN.
  exists (skills_from (pg_skills s').*2). split.
  { unfold skill_registry_of. by rw (bind_step _ _ _ _ s' (list_prompts_spec pg_skills s s' s0 eq_refl Hl Hst)). }
  assert (Hfile : ∀ d, d ∈ omap as_skill ps ↔ ∃ p, p ∈ rglob_yaml ∧ parse_file p = Ok (PromptSkill d)).
  { intros d. rw list_elem_of_omap. split.
    - intros ([|d'|] & Hin & [= ->]). destruct (Forall2_elem_of_r _ _ _ _ HF Hin) as (p & Hp & Hq).
      exists p. split; [|done]. by apply sorted_paths_elem.
    - intros (p & Hp & Hq). apply sorted_paths_elem in Hp.
      destruct (Forall2_elem_of_l _ _ _ _ HF Hp) as (d' & Hd & Hin). exists (PromptSkill d). split; [|done].
      congruence. }
  assert (Hval : ∀ d, d ∈ (pg_skills s').*2 → d ∈ omap as_skill ps).
  { intros d ([k d'] & -> & Hin)%list_elem_of_fmap. apply elem_table_get in Hin; [|done]. rw Hk in Hin.
    by apply last_such_spec in Hin as [? _]. }
  assert (Hget : ∀ i, dict_get i (skills_from (pg_skills s').*2)
                  = last_such (λ x, bool_decide (sk_id x = i)) (pg_skills s').*2).
  { intros i. unfold skills_from. rw dict_get_skills_from. by destruct (last_such _ _). }
  split.
  - intros i. unfold dict_mem. rw Hget. destruct (last_such _ _) as [d|] eqn:E.
    + split; [intros _|done]. apply last_such_spec in E as [Hin Hi%bool_decide_eq_true].
      apply Hval, Hfile in Hin as (p & ? & ?). by exists p, d.
    + split; [done|]. intros (p & d & Hp & Hd & Hi).
      assert (Hin : d ∈ omap as_skill ps) by (apply Hfile; eauto).
      destruct (last_such (has_key skill_key (skill_key d)) (omap as_skill ps)) as [d'|] eqn:E'.
      * rw last_such_None in E. apply last_such_spec in E' as Hd'. destruct Hd' as [_ Hd'%bool_decide_eq_true].
        rw -Hk in E'. apply table_get_elem in E'. unfold skill_key in Hd'. injection Hd' as Hid _.
        rw Forall_forall in E. assert (Hb : bool_decide (sk_id d' = i) = false).
        { apply E, list_elem_of_fmap. by exists (skill_key d, d'). }
        apply bool_decide_eq_false in Hb. congruence.
      * rw last_such_None Forall_forall in E'. specialize (E' d Hin). by apply bool_decide_eq_false in E'.
  - intros i d. unfold skill_get. rw Hget. destruct (last_such _ _) as [d'|] eqn:E; [|done]. intros [= ->].
    apply last_such_spec in E as [Hin Hi%bool_decide_eq_true]. split; [done|]. by apply Hfile, Hval.
Qed.

(** ** A directory for concrete runs *)

Definition skill_prompt_ex (i v : string) : SkillPromptDefinition := {|
  sk_id := i; sk_version := v; sk_name := i; sk_description := ""; sk_instruction := "";
  sk_reasoning_instructions := []; sk_allowed_tools := []; sk_guardrails := []; sk_quality_expectations := [];
  sk_model_tier := "pro" |}.

Definition workflow_prompt_ex (i v : string) : WorkflowPromptDefinition := {|
  wp_id := i; wp_version := v; wp_name := i; wp_description := "";
  wp_model := {| pm_provider := "gemini"; pm_name := "m"; pm_temperature := PyFloat "0.2" (QArith_base.Qmake 1 5) |};
  wp_output_schema := "AgentPlan"; wp_goal := ""; wp_system := ""; wp_constraints := [];
  wp_required_context := []; wp_trigger_types := ["t"]; wp_required_skills := ["s"];
  wp_default_execution_mode := "suggest"; wp_approval_policy := []; wp_max_recursion_depth := 10;
  wp_orchestration := None |}.

(** Validation that asks for an id and takes the defaults for the rest. *)
#[local] Instance prompt_models_ex : PromptModels := {|
  validate_workflow d := match dget "id" d with
    | PStr i => Ok (workflow_prompt_ex i "1.0.0") | _ => err ValueError "id" end;
  validate_skill d := match dget "id" d with
    | PStr i => Ok (skill_prompt_ex i "1.0.0") | _ => err ValueError "id" end;
  validate_tool d := err ValueError "no tools" |}.

#[local] Instance prompt_files_ex : PromptFiles := {|
  prompts_path := ["srv"; "prompts"]; prompts_exist := true;
  rglob_yaml := [["workflows"; "w.yaml"]; ["skills"; "s2.yaml"]; ["other"; "s1.yaml"]];
  read_yaml p := Ok (if bool_decide (p = ["workflows"; "w.yaml"]) then PDict [("id", PStr "w")]
    else if bool_decide (p = ["skills"; "s2.yaml"]) then PDict [("id", PStr "s2")]
    else PDict [("id", PStr "s1"); ("kind", PStr "skill")]) |}.

Definition prompts_ex : PromptTables :=
  Eval vm_compute in (load prompt_tables_empty).2.

Lemma load_ex : load prompt_tables_empty = (Ok tt, prompts_ex).
Proof. vm_compute. reflexivity. Qed.

Lemma lookups_spec_witness :
  load prompt_tables_empty = (Ok tt, prompts_ex) ∧
  ∃ ps, Forall2 (λ p d, parse_file p = Ok d) (sorted_paths rglob_yaml) ps ∧
    pr_get_workflow "w" "1.0.0" prompt_tables_empty =
      (get_workflow (list_to_map (pg_workflows prompts_ex)) "w" "1.0.0", prompts_ex).
Proof.
  split; [exact load_ex|].
  destruct (lookups_spec prompt_tables_empty prompts_ex prompt_tables_empty load_ex (or_introl eq_refl))
    as (ps & HF & Hw & _).
  exists ps. split; [exact HF|apply Hw].
Defined.

Lemma skill_registry_of_spec_witness :
  ∃ r, skill_registry_of prompt_tables_empty = (Ok r, prompts_ex) ∧
    (dict_mem "s1" r = true ↔
       ∃ p d, p ∈ rglob_yaml ∧ parse_file p = Ok (PromptSkill d) ∧ sk_id d = "s1").
Proof.
  destruct (skill_registry_of_spec prompt_tables_empty prompts_ex prompt_tables_empty load_ex (or_introl eq_refl))
    as (r & Hr & Hm & _).
  exists r. split; [exact Hr|apply Hm].
Defined.
