(* ===== verification/Backlog.v ===== *)
(** * Backlog signals ([src/domain/backlog.py])

    What the runtime computes of the dates, priorities and descriptions of the open
    work items before the model plans: stale, overdue, urgent without an assignee,
    thinly described, below a closed parent, and the overloaded members. *)

From S2P Require Import Prelude PyStr PyVal PyUuid Events Policies Env DateTime.
Open Scope Z_scope.

Definition STALE_AFTER_DAYS : Z := 14.
Definition THIN_DESCRIPTION_LENGTH : nat := 30.
Definition OVERLOADED_ACTIVE_ITEM_COUNT : Z := 8.
Definition MAX_SIGNAL_EXAMPLES : nat := 15.
Definition OPEN_STATUSES : list string := ["todo"; "in_progress"; "in_review"].
Definition CLOSED_STATUSES : list string := ["done"; "archived"].

(** [_item_ref] *)
Definition item_ref (item : dict pyval) : dict pyval :=
  [("itemId", dget "itemId" item); ("title", dget "title" item); ("status", dget "status" item)].

(** [_parse_datetime] *)
Definition parse_datetime (value : pyval) : option datetime :=
  if negb (truthy value) then None
  else fromisoformat (str_replace "Z" "+00:00" (strip (py_str value))).

(** The lists the loop fills. *)
Record BacklogSignals := {
  bs_stale : list pyval;
  bs_overdue : list pyval;
  bs_unassigned_urgent : list pyval;
  bs_thin_description : list pyval;
  bs_parent_mismatch : list pyval
}.

Definition with_extra (item : dict pyval) (extra : dict pyval) : pyval := PDict (dict_update (item_ref item) extra).

(** [by_id]: the last item with an id wins. *)
Definition items_by_id (items : list (dict pyval)) : dict (dict pyval) :=
  dict_of (omap (λ item, if truthy (dget "itemId" item) then Some (py_str (dget "itemId" item), item) else None) items).

Definition status_of (item : dict pyval) : string := str_or_empty (dget "status" item).

(** One round of the loop. *)
Definition add_item (current_time : datetime) (by_id : dict (dict pyval)) (acc : BacklogSignals) (item : dict pyval) : BacklogSignals :=
  if str_in (status_of item) CLOSED_STATUSES then acc
  else
    let stale :=
      match parse_datetime (py_or (dget "statusChangedAt" item) (dget "createdAt" item)) with
      | Some changed_at =>
          if STALE_AFTER_DAYS * us_per_day <? current_time - changed_at
          then [with_extra item [("daysIdle", PInt ((current_time - changed_at) / us_per_day))]] else []
      | None => []
      end in
    let overdue :=
      match parse_datetime (dget "dueDate" item) with
      | Some due_date => if due_date <? current_time
                         then [with_extra item [("dueDate", PStr (py_str (dget "dueDate" item)))]] else []
      | None => []
      end in
    let unassigned_urgent :=
      if str_in (str_or_empty (dget "priority" item)) ["high"; "urgent"] && negb (truthy (dget "assigneeUsernames" item))
      then [with_extra item [("priority", dget "priority" item)]] else [] in
    let thin_description :=
      if bool_decide (str_len (strip (str_or_empty (dget "description" item))) < THIN_DESCRIPTION_LENGTH)%nat
      then [PDict (item_ref item)] else [] in
    let parent_mismatch :=
      match dict_get (py_str (dget "parentId" item)) by_id with
      | Some parent =>
          if str_in (status_of parent) CLOSED_STATUSES
          then [with_extra item [("parentItemId", dget "itemId" parent); ("parentTitle", dget "title" parent);
                                 ("parentStatus", dget "status" parent)]] else []
      | None => []
      end in
    {| bs_stale := bs_stale acc ++ stale; bs_overdue := bs_overdue acc ++ overdue;
       bs_unassigned_urgent := bs_unassigned_urgent acc ++ unassigned_urgent;
       bs_thin_description := bs_thin_description acc ++ thin_description;
       bs_parent_mismatch := bs_parent_mismatch acc ++ parent_mismatch |}.

Definition no_signals : BacklogSignals :=
  {| bs_stale := []; bs_overdue := []; bs_unassigned_urgent := []; bs_thin_description := []; bs_parent_mismatch := [] |}.

Definition overloaded_entry (workload : pyval) : option pyval :=
  match workload with
  | PDict w =>
      match as_int (dget "activeItemCount" w) with
      | Some n => if OVERLOADED_ACTIVE_ITEM_COUNT <=? n
                  then Some (PDict [("username", dget "username" w); ("activeItemCount", dget "activeItemCount" w)]) else None
      | None => None
      end
  | _ => None
  end.

Definition backlog_report (current_time : datetime) (backlog_items member_workloads : list pyval) : dict pyval :=
  let items := omap as_dict backlog_items in
  let found := foldl (add_item current_time (items_by_id items)) no_signals items in
  let examples (l : list pyval) := PList (take MAX_SIGNAL_EXAMPLES l) in
  [("computedAt", PStr (isoformat current_time));
   ("thresholds", PDict [("staleAfterDays", PInt STALE_AFTER_DAYS);
                         ("thinDescriptionLength", pnat THIN_DESCRIPTION_LENGTH);
                         ("overloadedActiveItemCount", PInt OVERLOADED_ACTIVE_ITEM_COUNT)]);
   ("openItemCount", pnat (length (List.filter (λ item, str_in (status_of item) OPEN_STATUSES) items)));
   ("staleItems", examples (bs_stale found));
   ("overdueItems", examples (bs_overdue found));
   ("unassignedUrgentItems", examples (bs_unassigned_urgent found));
   ("thinDescriptionItems", examples (bs_thin_description found));
   ("closedParentWithOpenChildren", examples (bs_parent_mismatch found));
   ("overloadedMembers", PList (omap overloaded_entry member_workloads))].

(** [compute_backlog_signals]; without [now] the clock is read. *)
Definition compute_backlog_signals `{Env} (backlog_items member_workloads : list pyval) (now : option datetime) :
    st Ext (dict pyval) :=
  current_time ← match now with Some t => mret t | None => utc_now end;
  mret (backlog_report current_time backlog_items member_workloads).

(** ** Reference definitions *)

Section spec.
Context (current_time : datetime).

(** An item that was not changed for more than fourteen days. *)
Definition is_stale (item : dict pyval) : option pyval :=
  changed_at ← parse_datetime (py_or (dget "statusChangedAt" item) (dget "createdAt" item));
  if STALE_AFTER_DAYS * us_per_day <? current_time - changed_at
  then Some (with_extra item [("daysIdle", PInt ((current_time - changed_at) / us_per_day))]) else None.

Definition is_overdue (item : dict pyval) : option pyval :=
  due_date ← parse_datetime (dget "dueDate" item);
  if due_date <? current_time then Some (with_extra item [("dueDate", PStr (py_str (dget "dueDate" item)))]) else None.
End spec.

Definition is_unassigned_urgent (item : dict pyval) : option pyval :=
  if str_in (str_or_empty (dget "priority" item)) ["high"; "urgent"] && negb (truthy (dget "assigneeUsernames" item))
  then Some (with_extra item [("priority", dget "priority" item)]) else None.

Definition is_thin (item : dict pyval) : option pyval :=
  if bool_decide (str_len (strip (str_or_empty (dget "description" item))) < THIN_DESCRIPTION_LENGTH)%nat
  then Some (PDict (item_ref item)) else None.

Definition has_closed_parent (items : list (dict pyval)) (item : dict pyval) : option pyval :=
  parent ← dict_get (py_str (dget "parentId" item)) (items_by_id items);
  if str_in (status_of parent) CLOSED_STATUSES
  then Some (with_extra item [("parentItemId", dget "itemId" parent); ("parentTitle", dget "title" parent);
                              ("parentStatus", dget "status" parent)]) else None.

Definition not_closed (items : list (dict pyval)) : list (dict pyval) :=
  List.filter (λ item, negb (str_in (status_of item) CLOSED_STATUSES)) items.

(** ** Lemmas *)

Definition signals_of (t : datetime) (all items : list (dict pyval)) : BacklogSignals := {|
  bs_stale := omap (is_stale t) (not_closed items);
  bs_overdue := omap (is_overdue t) (not_closed items);
  bs_unassigned_urgent := omap is_unassigned_urgent (not_closed items);
  bs_thin_description := omap is_thin (not_closed items);
  bs_parent_mismatch := omap (has_closed_parent all) (not_closed items) |}.

Lemma omap_snoc {A B} (f : A → option B) (l : list A) x :
  omap f (l ++ [x]) = omap f l ++ match f x with Some y => [y] | None => [] end.
Proof. rw omap_app. cbn. by destruct (f x). Qed.

Lemma loop_signals t all items : foldl (add_item t (items_by_id all)) no_signals items = signals_of t all items.
Proof.
  induction items as [|item items IH] using rev_ind; [done|]. rw foldl_app IH. cbn [foldl].
  unfold signals_of, not_closed, add_item. rw List.filter_app. cbn [List.filter].
  destruct (str_in (status_of item) CLOSED_STATUSES); cbn [negb]; [by rw app_nil_r|]. rw !omap_snoc.
  cbn [bs_stale bs_overdue bs_unassigned_urgent bs_thin_description bs_parent_mismatch]. f_equal; f_equal.
  - unfold is_stale. destruct (parse_datetime _) as [c|]; [|done]. cbn. by destruct (_ <? _).
  - unfold is_overdue. destruct (parse_datetime _) as [c|]; [|done]. cbn. by destruct (_ <? _).
  - unfold is_unassigned_urgent. by destruct (_ && _).
  - unfold is_thin. by destruct (bool_decide _).
  - unfold has_closed_parent. destruct (dict_get _ _) as [p|]; [|done]. cbn. by destruct (str_in _ _).
Qed.

(** *** Texts of times *)

(** The characters of [isoformat] before the offset. *)
Definition time_char (c : ascii) : bool :=
  is_digit c || bool_decide (c = "-"%char) || bool_decide (c = ":"%char) || bool_decide (c = "T"%char) || bool_decide (c = "."%char).

Definition time_chars (s : string) : Prop := Forall (λ c, time_char c = true) (chars s).

Lemma time_chars_app a b : time_chars a → time_chars b → time_chars (a +:+ b).
Proof. intros Ha Hb. unfold time_chars. rw chars_app. by apply Forall_app. Qed.

Lemma time_chars_pad n z : 0 ≤ z → time_chars (pad_zero n z).
Proof.
  intros Hz. unfold pad_zero. apply time_chars_app; unfold time_chars.
  - rw chars_of_chars. apply Forall_replicate. done.
  - apply (Forall_impl (λ c, is_digit c = true)); [|intros c Hc; unfold time_char; by rw Hc].
    destruct z as [|p|p]; [by repeat constructor| |lia].
    assert (pretty (Z.pos p) = pretty_N_go (N.pos p) "") as ->
      by (change (pretty (Z.pos p)) with (pretty_N (N.pos p)); unfold pretty_N; by case_decide).
    exact (pretty_N_go_digits (N.pos p) "" ltac:(constructor)).
Qed.

Lemma isoformat_text t :
  MIN_DAY ≤ t / us_per_day ≤ MAX_DAY → ∃ a, isoformat t = a +:+ "+00:00" ∧ time_chars a ∧ a ≠ EmptyString.
Proof.
  intros Ht. unfold isoformat. pose proof (civil_of_days_valid (t / us_per_day)) as Hv.
  pose proof (civil_of_days_year (t / us_per_day) Ht) as Hy.
  destruct (civil_of_days (t / us_per_day)) as [[y m] d]. cbn [fst snd] in Hy. destruct Hv as (Hm & Hd & _).
  set (us := t mod us_per_day). set (sec := us / 1000000). set (frac := us mod 1000000).
  assert (Hus : 0 ≤ us) by (apply Z.mod_pos_bound; done).
  assert (Hfrac : 0 ≤ frac) by (apply Z.mod_pos_bound; lia).
  assert (Hsec : 0 ≤ sec) by (unfold sec; Z.to_euclidean_division_equations; lia). clearbody us sec frac.
  set (tail := if frac =? 0 then EmptyString else "." +:+ pad_zero 6 frac).
  assert (Htail : time_chars tail).
  { unfold tail. destruct (frac =? 0); [constructor|]. apply time_chars_app; [by repeat constructor|by apply time_chars_pad]. }
  exists (pad_zero 4 y +:+ "-" +:+ pad_zero 2 m +:+ "-" +:+ pad_zero 2 d +:+ "T" +:+
     pad_zero 2 (sec / 3600) +:+ ":" +:+ pad_zero 2 (sec / 60 mod 60) +:+ ":" +:+ pad_zero 2 (sec mod 60) +:+ tail).
  split; [by repeat (rw append_assoc; f_equal)|]. split.
  - repeat (apply time_chars_app; [first [by repeat constructor|apply time_chars_pad; Z.to_euclidean_division_equations; lia]|]).
    done.
  - intros H%(f_equal chars). rw !chars_app in H. apply app_eq_nil in H as [_ H]. by apply app_eq_nil in H as [H _].
Qed.

Lemma replace_suffix (c : ascii) p r l fuel :
  c ∉ l → (length (l ++ c :: p) ≤ fuel)%nat → replace_chars fuel (c :: p) r (l ++ c :: p) = l ++ r.
Proof.
  revert fuel. induction l as [|x l IH]; intros [|fuel] Hc Hf; cbn [app length] in Hf; try lia.
  - cbn [app replace_chars]. pose proof (prefix_of_app (c :: p) []) as Hp. rw app_nil_r in Hp. rw Hp.
    rw drop_all. destruct fuel; cbn; by rw app_nil_r.
  - apply not_elem_of_cons in Hc as [Hx Hc]. cbn [app replace_chars prefix_of_chars].
    rw bool_decide_eq_false_2; [done|]. cbn [andb]. f_equal. apply IH; [done|lia].
Qed.

Lemma str_replace_suffix (c : ascii) (p r a : string) :
  c ∉ chars a → str_replace (String c p) r (a +:+ String c p) = a +:+ r.
Proof.
  intros Hc. unfold str_replace. rw chars_app. cbn [String.list_ascii_of_string].
  rw replace_suffix; [done|done|]. apply chars_inj. by rw chars_of_chars chars_app.
Qed.

Lemma time_chars_not a (c : ascii) : time_chars a → time_char c = false → c ∉ chars a.
Proof. intros Ha Hc Hin. unfold time_chars in Ha. rw Forall_forall in Ha. specialize (Ha c Hin). congruence. Qed.

Lemma strip_not_space s : Forall (λ c, is_space c = false) (chars s) → strip s = s.
Proof. intros H. unfold strip, strip_of. rw strip_none; [done|]. apply of_chars_chars. Qed.

Lemma time_char_not_space c : time_char c = true → is_space c = false.
Proof.
  unfold time_char. rw !orb_true_iff. intros [[[[H|H]|H]|H]|H]; try (apply bool_decide_eq_true in H as ->; done).
  unfold is_digit, is_space, in_range in *. revert H. generalize (code c). intros n.
  rw !orb_false_iff !andb_true_iff !andb_false_iff !N.leb_le !N.leb_gt !N.eqb_neq. lia.
Qed.

(** *** Properties *)

(** The date reader reads back, for every microsecond of the years 1 to 9999,
    the two forms of a time the program writes: with the offset (the time of a
    report) and with a Z in its place (the dates of a created sprint). *)
Lemma parse_datetime_roundtrip t :
  MIN_DAY * us_per_day ≤ t < (MAX_DAY + 1) * us_per_day →
  parse_datetime (PStr (isoformat t)) = Some t ∧
  parse_datetime (PStr (str_replace "+00:00" "Z" (isoformat t))) = Some t.
Proof.
  intros Ht. assert (Hday : MIN_DAY ≤ t / us_per_day ≤ MAX_DAY).
  { unfold MIN_DAY, MAX_DAY, us_per_day in *. Z.to_euclidean_division_equations; lia. }
  pose proof (isoformat_roundtrip t Ht) as Hr. destruct (isoformat_text t Hday) as (a & E & Ha & Hne). rw E in Hr. rw E.
  assert (Hs : Forall (λ c, is_space c = false) (chars a)).
  { eapply Forall_impl; [exact Ha|]. exact time_char_not_space. }
  rw (str_replace_suffix "+" "00:00" "Z" a); [by apply time_chars_not|].
  assert (Htr : ∀ s, str_truthy (a +:+ s) = true) by (intros s; by destruct a).
  unfold parse_datetime. cbn [truthy py_str]. rw !Htr. cbn [negb]. split.
  - rw strip_not_space; [rw chars_app; apply Forall_app; split; [done|by repeat constructor]|].
    rw (str_replace_id "Z" _ _ "Z"%char [] eq_refl); [|done].
    rw chars_app not_elem_of_app. split; [by apply time_chars_not|].
    intros H. by repeat (apply elem_of_cons in H as [H|H]; [discriminate|]); apply elem_of_nil in H.
  - rw strip_not_space; [rw chars_app; apply Forall_app; split; [done|by repeat constructor]|].
    rw (str_replace_suffix "Z" "" "+00:00" a); [by apply time_chars_not|done].
Qed.

(** The report on a backlog is what the reference definitions say, whatever the
    order of the items and however broken they are: each list holds, in the order
    of the items, the first fifteen entries of the items that are not closed and
    for which the signal holds; a stale item was not changed for more than fourteen
    days and its [daysIdle] are the full days since then; the clock is read once,
    and only when no time is given. *)
Theorem compute_backlog_signals_spec `{Env} backlog_items member_workloads now x :
  let items := omap as_dict backlog_items in
  let t := default (clock_at (x_clock x)) now in
  let '(r, x') := compute_backlog_signals backlog_items member_workloads now x in
  x_requests x' = x_requests x ∧ x_clock x' = (x_clock x + if now then 0 else 1)%nat ∧
  ∃ d, r = Ok d ∧
    dget "staleItems" d = PList (take 15 (omap (is_stale t) (not_closed items))) ∧
    dget "overdueItems" d = PList (take 15 (omap (is_overdue t) (not_closed items))) ∧
    dget "unassignedUrgentItems" d = PList (take 15 (omap is_unassigned_urgent (not_closed items))) ∧
    dget "thinDescriptionItems" d = PList (take 15 (omap is_thin (not_closed items))) ∧
    dget "closedParentWithOpenChildren" d = PList (take 15 (omap (has_closed_parent items) (not_closed items))) ∧
    (∀ item e, is_stale t item = Some e → ∃ changed_at days,
       e = with_extra item [("daysIdle", PInt days)] ∧ 14 ≤ days ∧ 14 * us_per_day < t - changed_at ∧
       days * us_per_day ≤ t - changed_at < (days + 1) * us_per_day).
Proof.
  cbv zeta. set (t := default _ now). set (items := omap as_dict backlog_items).
  assert (E : compute_backlog_signals backlog_items member_workloads now x =
    (Ok (backlog_report t backlog_items member_workloads),
     match now with Some _ => x | None => (utc_now x).2 end)) by (by destruct now).
  rw E. split; [by destruct now|]. split; [destruct now; cbn; lia|].
  eexists. split; [done|]. unfold backlog_report. fold items. rw loop_signals.
  split_and!; try reflexivity. intros item e He. unfold is_stale in He.
  destruct (parse_datetime _) as [changed_at|]; [|done]. cbn in He.
  destruct (Z.ltb_spec (STALE_AFTER_DAYS * us_per_day) (t - changed_at)) as [Hlt|]; [|done]. injection He as <-.
  exists changed_at, ((t - changed_at) / us_per_day). unfold STALE_AFTER_DAYS, us_per_day in *.
  split; [done|]. Z.to_euclidean_division_equations; lia.
Qed.
