(* ===== verification/Records.v ===== *)
(** * Contexts, results and traces ([src/domain/context.py],
    [src/domain/results.py], [src/domain/suggestions.py],
    [src/application/trace_data.py])

    The records the handlers pass around and the data they put in traces. *)

From S2P Require Import Prelude PyStr PyVal Events Plans Policies Env Definitions.

(** ** Contexts *)

Record AgentContext := {
  cx_workspace_id : string;
  cx_project_id : option string;
  cx_source_event : EventEnvelope;
  cx_workflow_id : string;
  cx_entities : dict pyval;
  cx_retrieved_documents : list (dict pyval);
  cx_permissions : dict bool;
  cx_entity_versions : dict version;
  cx_previous_agent_outputs : list (dict pyval);
  cx_runtime_metadata : dict pyval
}.

(** [context.model_copy(update={"entities": e})] *)
Definition context_with_entities (e : dict pyval) (c : AgentContext) : AgentContext := {|
  cx_workspace_id := cx_workspace_id c; cx_project_id := cx_project_id c;
  cx_source_event := cx_source_event c; cx_workflow_id := cx_workflow_id c; cx_entities := e;
  cx_retrieved_documents := cx_retrieved_documents c; cx_permissions := cx_permissions c;
  cx_entity_versions := cx_entity_versions c;
  cx_previous_agent_outputs := cx_previous_agent_outputs c;
  cx_runtime_metadata := cx_runtime_metadata c |}.

(** The event a context was built for. *)
Definition source_event (c : AgentContext) : RuntimeEvent := env_event (cx_source_event c).

Record ContextSnapshot := {
  sn_snapshot_id : string;
  sn_plan_id : option string;
  sn_workspace_id : string;
  sn_project_id : option string;
  sn_workflow_id : string;
  sn_context : AgentContext;
  sn_created_at : datetime
}.

Definition sn_ref (s : ContextSnapshot) : string := sn_snapshot_id s.

(** [snapshot.model_copy(update={"plan_id": p})] *)
Definition snapshot_with_plan (p : string) (s : ContextSnapshot) : ContextSnapshot := {|
  sn_snapshot_id := sn_snapshot_id s; sn_plan_id := Some p; sn_workspace_id := sn_workspace_id s;
  sn_project_id := sn_project_id s; sn_workflow_id := sn_workflow_id s; sn_context := sn_context s;
  sn_created_at := sn_created_at s |}.

(** ** Results *)

Record AgentSuggestion := {
  sg_suggestion_id : string;
  sg_workspace_id : string;
  sg_project_id : option string;
  sg_plan_id : string;
  sg_action_id : string;
  sg_title : string;
  sg_body : string;
  sg_target_entity_ref : option string;
  sg_proposed_changes : dict pyval;
  sg_created_at : datetime
}.

Inductive ValidationDecision := DCommit | DSuggest | DRetry | DReplan | DFail | DNoop.

#[export] Instance ValidationDecision_eq_dec : EqDecision ValidationDecision.
Proof. solve_decision. Defined.

Definition decision_value (d : ValidationDecision) : string :=
  match d with
  | DCommit => "commit"
  | DSuggest => "suggest"
  | DRetry => "retry"
  | DReplan => "replan"
  | DFail => "fail"
  | DNoop => "noop"
  end.

Record ToolResult := {
  tr_result_id : string;
  tr_plan_id : string;
  tr_action_id : string;
  tr_tool_name : string;
  tr_success : bool;
  tr_output : dict pyval;
  tr_error : option string;
  tr_emitted_events : list EventEnvelope;
  tr_suggestion : option AgentSuggestion;
  tr_created_at : datetime
}.

Record ValidationResult := {
  vr_decision : ValidationDecision;
  vr_valid : bool;
  vr_reason : option string;
  vr_stale_entities : dict stale_entry;
  vr_emitted_events : list EventEnvelope;
  vr_suggestion : option AgentSuggestion
}.

(** The summary of a plan's run; no handler makes one. *)
Record AgentResult := {
  agr_plan_id : string;
  agr_workspace_id : string;
  agr_project_id : option string;
  agr_status : string;
  agr_summary : string;
  agr_emitted_events : list EventEnvelope;
  agr_created_at : datetime
}.

Record TraceEvent := {
  te_trace_id : string;
  te_event_name : string;
  te_workspace_id : string;
  te_project_id : option string;
  te_plan_id : option string;
  te_action_id : option string;
  te_message : string;
  te_data : dict pyval;
  te_created_at : datetime
}.

Section builders.
Context `{Env}.

Definition new_trace (event_name workspace_id : string) (project_id plan_id action_id : option string)
    (message : string) (data : dict pyval) : st Ext TraceEvent :=
  trace_id ← new_uuid;
  created_at ← utc_now;
  mret {| te_trace_id := trace_id; te_event_name := event_name; te_workspace_id := workspace_id;
          te_project_id := project_id; te_plan_id := plan_id; te_action_id := action_id;
          te_message := message; te_data := data; te_created_at := created_at |}.

Definition new_tool_result (plan_id action_id tool_name : string) (success : bool) (output : dict pyval)
    (error : option string) (emitted : list EventEnvelope) (suggestion : option AgentSuggestion) :
    st Ext ToolResult :=
  result_id ← new_uuid;
  created_at ← utc_now;
  mret {| tr_result_id := result_id; tr_plan_id := plan_id; tr_action_id := action_id;
          tr_tool_name := tool_name; tr_success := success; tr_output := output; tr_error := error;
          tr_emitted_events := emitted; tr_suggestion := suggestion; tr_created_at := created_at |}.

Definition new_suggestion (workspace_id : string) (project_id : option string)
    (plan_id action_id title body : string) (target : option string) (changes : dict pyval) :
    st Ext AgentSuggestion :=
  suggestion_id ← new_uuid;
  created_at ← utc_now;
  mret {| sg_suggestion_id := suggestion_id; sg_workspace_id := workspace_id;
          sg_project_id := project_id; sg_plan_id := plan_id; sg_action_id := action_id;
          sg_title := title; sg_body := body; sg_target_entity_ref := target;
          sg_proposed_changes := changes; sg_created_at := created_at |}.

Definition new_snapshot (workspace_id : string) (project_id : option string) (workflow_id : string)
    (context : AgentContext) : st Ext ContextSnapshot :=
  snapshot_id ← new_uuid;
  created_at ← utc_now;
  mret {| sn_snapshot_id := snapshot_id; sn_plan_id := None; sn_workspace_id := workspace_id;
          sn_project_id := project_id; sn_workflow_id := workflow_id; sn_context := context;
          sn_created_at := created_at |}.
End builders.

Definition mk_validation (d : ValidationDecision) (valid : bool) (reason : option string)
    (stale : dict stale_entry) (emitted : list EventEnvelope) (s : option AgentSuggestion) : ValidationResult :=
  {| vr_decision := d; vr_valid := valid; vr_reason := reason; vr_stale_entities := stale;
     vr_emitted_events := emitted; vr_suggestion := s |}.

(** ** Trace data *)

Definition pstr_list (l : list string) : pyval := PList (map PStr l).
Definition pnat_len {A} (l : list A) : pyval := PInt (Z.of_nat (length l)).

(** [{**data, **extra}]; an absent and an empty [extra] add nothing. *)
Definition action_trace_data (a : PlannedAction) (extra : dict pyval) : dict pyval :=
  dict_update
    [("action_id", PStr (ac_action_id a));
     ("action_type", PStr (ac_action_type a));
     ("tool_name", PStr (ac_tool_name a));
     ("instruction", PStr (ac_instruction a));
     ("input", PDict (ac_input a));
     ("depends_on", pstr_list (ac_depends_on a));
     ("requires_approval", PBool (ac_requires_approval a));
     ("status", PStr (action_status_value (ac_status a)));
     ("idempotency_key", PStr (ac_idempotency_key a));
     ("expected_entity_versions", versions_val (ac_expected_entity_versions a))]
    extra.

Definition context_trace_data (c : AgentContext) : dict pyval :=
  [("workflow_id", PStr (cx_workflow_id c));
   ("entity_keys", pstr_list (str_sorted (dict_keys (cx_entities c))));
   ("entity_versions", versions_val (cx_entity_versions c));
   ("permissions", PDict (map (λ kv, (kv.1, PBool kv.2)) (cx_permissions c)));
   ("retrieved_document_count", pnat_len (cx_retrieved_documents c));
   ("previous_agent_output_count", pnat_len (cx_previous_agent_outputs c));
   ("runtime_metadata_keys", pstr_list (str_sorted (dict_keys (cx_runtime_metadata c))))].

Definition plan_trace_data (p : AgentPlan) (s : ContextSnapshot) (w : WorkflowDefinition) : dict pyval :=
  [("plan_id", PStr (pl_plan_id p));
   ("status", PStr (plan_status_value (pl_status p)));
   ("goal", PStr (pl_goal p));
   ("prompt_id", PStr (pl_prompt_id p));
   ("prompt_version", PStr (pl_prompt_version p));
   ("workflow_id", PStr (wf_id w));
   ("workflow_trigger_types", pstr_list (wf_trigger_types w));
   ("workflow_required_skills", pstr_list (wf_required_skills w));
   ("workflow_execution_mode", PStr (wf_default_execution_mode w));
   ("selected_skill_ids", pstr_list (pl_skill_ids p));
   ("selected_tool_names", pstr_list (pl_tool_names p));
   ("action_count", pnat_len (pl_actions p));
   ("actions", PList (map (λ a, PDict (action_trace_data a [])) (pl_actions p)));
   ("context_snapshot_ref", PStr (pl_context_snapshot_ref p));
   ("context", PDict (context_trace_data (sn_context s)))].

Definition event_trace_data (e : RuntimeEvent) : dict pyval :=
  [("event_id", PStr (ev_event_id (base e)));
   ("event_type", PStr (ev_event_type (base e)));
   ("event_kind", PStr (event_kind e));
   ("correlation_id", ostr (ev_correlation_id (base e)));
   ("causality_depth", PInt (cs_depth (ev_causality (base e))));
   ("idempotency_key", ostr (ev_idempotency_key (base e)))].

Definition emitted_event_trace_data (l : list EventEnvelope) : pyval :=
  PList (map (λ e, PDict (("envelope_id", PStr (env_envelope_id e)) :: event_trace_data (env_event e))) l).

Definition suggestion_trace_data (s : option AgentSuggestion) : pyval :=
  match s with
  | None => PNone
  | Some s =>
      PDict [("suggestion_id", PStr (sg_suggestion_id s)); ("title", PStr (sg_title s));
             ("target_entity_ref", ostr (sg_target_entity_ref s))]
  end.

Definition validation_trace_data (v : ValidationResult) : dict pyval :=
  [("decision", PStr (decision_value (vr_decision v)));
   ("valid", PBool (vr_valid v));
   ("reason", ostr (vr_reason v));
   ("stale_entities", stale_val (vr_stale_entities v));
   ("emitted_event_count", pnat_len (vr_emitted_events v));
   ("emitted_events", emitted_event_trace_data (vr_emitted_events v));
   ("suggestion", suggestion_trace_data (vr_suggestion v))].

Definition tool_result_trace_data (r : ToolResult) : dict pyval :=
  [("result_id", PStr (tr_result_id r));
   ("tool_name", PStr (tr_tool_name r));
   ("success", PBool (tr_success r));
   ("output", PDict (tr_output r));
   ("error", ostr (tr_error r));
   ("emitted_event_count", pnat_len (tr_emitted_events r));
   ("emitted_events", emitted_event_trace_data (tr_emitted_events r));
   ("suggestion", suggestion_trace_data (tr_suggestion r))].

(** ** Lemmas *)

Section quiet.
Context `{Env}.
Lemma new_trace_quiet a b c d e f g : respects ext_quiet (new_trace a b c d e f g).
Proof. unfold new_trace. solve_respects. Qed.
Lemma new_tool_result_quiet a b c d e f g i : respects ext_quiet (new_tool_result a b c d e f g i).
Proof. unfold new_tool_result. solve_respects. Qed.
Lemma new_suggestion_quiet a b c d e f g i : respects ext_quiet (new_suggestion a b c d e f g i).
Proof. unfold new_suggestion. solve_respects. Qed.
Lemma new_snapshot_quiet a b c d : respects ext_quiet (new_snapshot a b c d).
Proof. unfold new_snapshot. solve_respects. Qed.
End quiet.

#[export] Hint Resolve new_trace_quiet new_tool_result_quiet new_suggestion_quiet new_snapshot_quiet : respects.
