(* ===== verification/Hydration.v ===== *)
(** * Context hydration ([src/application/context_provider.py] and the hydration
    half of [src/infrastructure/prism_api/client.py])

    What a planning context holds of the entities its workflow declares: the value
    the event carries, what the API gives, or a default.  The pull request diff may
    be a pointer to a stored object, which [resolve_diff_pointer] follows first. *)

From S2P Require Import Prelude PyStr PyVal PyUuid Json JsonLoads Events Policies Env Definitions Client Records DateTime Backlog.
Open Scope Z_scope.

(** ** Values of the payload *)

(** [_snake_to_camel] *)
Definition capitalize_first (part : string) : string :=
  match part with String c rest => String (upper_char c) rest | EmptyString => EmptyString end.
Definition snake_to_camel (value : string) : string :=
  match str_split "_" value with
  | [] => EmptyString
  | head :: tail => head +:+ str_join EmptyString (map capitalize_first tail)
  end.

(** [_payload_context_value] *)
Definition payload_context_value (payload : dict pyval) (context_key : string) : pyval :=
  match dict_get context_key payload with
  | Some v => v
  | None => dget (snake_to_camel context_key) payload
  end.

Definition items_list (l : list (dict pyval)) : pyval := PList (map PDict l).

(** [_default_entity] *)
Definition default_entity (context_key : string) (e : RuntimeEvent) : pyval :=
  PDict [("id", dict_get_or (PStr (context_key +:+ "-unknown")) (context_key +:+ "_id") (ev_payload (base e)));
         ("type", PStr context_key);
         ("version", dict_get_or (PInt 1) "version" (ev_payload (base e)))].

(** ** Slim records *)

Definition PROJECT_WORK_ITEMS_CONTEXT_LIMIT : nat := 100.
Definition SPRINTS_CONTEXT_LIMIT : nat := 10.
Definition BACKLOG_DESCRIPTION_EXCERPT_LENGTH : nat := 240.
Definition WORK_ITEM_CONTEXT_FIELDS : list string :=
  ["itemId"; "parentId"; "title"; "status"; "priority"; "dueDate"; "assigneeUsernames"; "labelNames"].
Definition BACKLOG_EXTRA_FIELDS : list string := ["statusChangedAt"; "createdAt"].
Definition SPRINT_CONTEXT_FIELDS : list string := ["sprintId"; "name"; "goal"; "status"; "startsAt"; "endsAt"].

Definition pick (fields : list string) (item : dict pyval) : dict pyval :=
  omap (λ f, if is_none (dget f item) then None else Some (f, dget f item)) fields.

Definition slim_work_item : dict pyval → dict pyval := pick WORK_ITEM_CONTEXT_FIELDS.
Definition slim_sprint : dict pyval → dict pyval := pick SPRINT_CONTEXT_FIELDS.

(** [_backlog_work_item] *)
Definition backlog_work_item (item : dict pyval) : dict pyval :=
  let slim := foldl (λ d f, if is_none (dget f item) then d else dict_set f (PStr (py_str (dget f item))) d)
                (slim_work_item item) BACKLOG_EXTRA_FIELDS in
  let description := strip (str_or_empty (dget "description" item)) in
  dict_set "description" (PStr (str_take BACKLOG_DESCRIPTION_EXCERPT_LENGTH description)) slim.

(** ** Pull requests *)

Definition PULL_NUMBER_KEYS : list string :=
  ["pullNumber"; "pull_number"; "pullRequestNumber"; "pull_request_number"; "githubPullNumber"; "github_pull_number"; "number"].
Definition PULL_PARENT_KEYS : list string :=
  ["pull_request"; "pullRequest"; "github_pull_request"; "githubPullRequest"; "queue_pointer"; "queuePointer"].

(** The first of the keys with a value other than [None]. *)
Definition first_value (d : dict pyval) (keys : list string) : option pyval :=
  head (omap (λ k, if is_none (dget k d) then None else Some (dget k d)) keys).

(** [_pull_request_number]; the recursion goes into the nested objects. *)
Fixpoint pull_request_number (payload : pyval) : option pyval :=
  match payload with
  | PDict d =>
      match first_value d PULL_NUMBER_KEYS with
      | Some v => Some v
      | None =>
          let nested := map (λ kv, (kv.1, pull_request_number kv.2)) d in
          head (omap (λ k, match dict_get k nested with Some r => r | None => None end) PULL_PARENT_KEYS)
      end
  | _ => None
  end.

(** [_has_hydrated_pull_request_diff] *)
Definition file_has_patch (file_diff : pyval) : bool :=
  match file_diff with PDict d => str_truthy (strip (str_or_empty (dget "patch" d))) | _ => false end.
Definition has_hydrated_pull_request_diff (value : pyval) : bool :=
  match value with
  | PDict d =>
      match dget "files" d with
      | PList files => bool_decide (dget "truncated" d = PBool true) || existsb file_has_patch files
      | _ => false
      end
  | _ => false
  end.

(** [_embedded_pull_request_diff] *)
Definition backfill (key alias : string) (missing : pyval → bool) (value : pyval) (d : dict pyval) : dict pyval :=
  if missing (dget key d) && missing (dget alias d) then (if missing value then d else dict_set key value d) else d.

Definition falsy (v : pyval) : bool := negb (truthy v).

Definition embedded_pull_request_diff (payload : dict pyval) : pyval :=
  match py_or (dget "pull_request" payload) (dget "pullRequest" payload) with
  | PDict pull_request =>
      let diff := backfill "pullNumber" "pull_number" is_none (default PNone (pull_request_number (PDict payload))) pull_request in
      let diff := backfill "headSha" "head_sha" falsy (py_or (dget "headSha" payload) (dget "head_sha" payload)) diff in
      PDict (backfill "repositoryFullName" "repository_full_name" falsy
               (py_or (dget "repositoryFullName" payload) (dget "repository_full_name" payload)) diff)
  | _ => PNone
  end.

(** [_diff_files_count], [_diff_fetch_skip_reason], [_log_diff_hydration] *)
Definition diff_files_count (value : pyval) : pyval :=
  match value with
  | PDict d => match dget "files" d with PList l => pnat (length l) | _ => PNone end
  | _ => PNone
  end.

Definition diff_fetch_skip_reason (configured : bool) (project_id : option string) (pull_number : option pyval) : string :=
  if negb configured then "client_not_configured"
  else if negb (ostr_truthy project_id) then "missing_project_id"
  else match pull_number with None => "missing_pull_number" | Some _ => "unknown" end.

Definition log_diff_hydration (e : RuntimeEvent) (source : string) (result : pyval) (fetched : bool)
    (pull_number : option pyval) (skip_reason fetch_error : option string) : st Ext unit :=
  let hydrated := has_hydrated_pull_request_diff result in
  let record :=
    [("log", PStr "diff.hydration"); ("event_type", PStr (ev_event_type (base e)));
     ("workspace_id", PStr (ev_workspace_id (base e))); ("project_id", ostr (ev_project_id (base e)));
     ("pull_number", default PNone pull_number); ("source", PStr source); ("fetch_attempted", PBool fetched);
     ("files_count", diff_files_count result); ("has_usable_diff", PBool hydrated);
     ("result_present", PBool (negb (is_none result)))] ++
    match skip_reason with Some r => [("skip_reason", PStr r)] | None => [] end ++
    match fetch_error with Some r => [("fetch_error", PStr r)] | None => [] end ++
    (if hydrated then [] else [("guard", PStr "pull_request_diff carries no file patches; review cannot be grounded")]) in
  log_json (if hydrated then LogInfo else LogWarning) record.

(** [_pull_request_event_context] *)
Definition pull_request_event_context (e : RuntimeEvent) (explicit_value : pyval) : pyval :=
  match explicit_value with
  | PDict _ => explicit_value
  | _ =>
      let payload := ev_payload (base e) in
      let pull_request := py_or (dget "pull_request" payload) (dget "pullRequest" payload) in
      PDict ((if is_dict pull_request then [("pullRequest", pull_request)] else []) ++
             match pull_request_number (PDict payload) with Some n => [("pullNumber", n)] | None => [] end ++
             pick ["action"; "repository"; "sender"; "installation"] payload)
  end.

Section hydration.
Context `{Env} (c : PrismApiClient).

(** [except RuntimeError] around one request of a context. *)
Definition or_else_runtime {A} (m : st Ext A) (handler : exn → st Ext A) : st Ext A := try_catch_if is_RuntimeError m handler.

(** [_pull_request_number(explicit_value) or _pull_request_number(event.payload)] *)
Definition diff_pull_number (explicit_value : pyval) (payload : dict pyval) : option pyval :=
  match pull_request_number explicit_value with
  | Some n => if truthy n then Some n else pull_request_number (PDict payload)
  | None => pull_request_number (PDict payload)
  end.

(** [_pull_request_diff_context] *)
Definition pull_request_diff_context (e : RuntimeEvent) (explicit_value : pyval) : st Ext pyval :=
  if has_hydrated_pull_request_diff explicit_value then
    log_diff_hydration e "payload" explicit_value false None None None ;; mret explicit_value
  else
    let payload := ev_payload (base e) in
    let embedded := embedded_pull_request_diff payload in
    let pull_number := diff_pull_number explicit_value payload in
    let resolved := if is_dict explicit_value then explicit_value else embedded in
    if has_hydrated_pull_request_diff embedded then
      log_diff_hydration e "embedded" embedded false pull_number None None ;; mret embedded
    else
      match pull_number with
      | Some number =>
          if is_configured c && ostr_truthy (ev_project_id (base e)) then
            fetched ← try_catch_if (λ x, bool_decide (exc_type x = PrismApiNotFoundError))
              (v ← get_pull_request c (ostr_or (ev_project_id (base e)) EmptyString) number true true; mret (Some v))
              (λ _, mret None);
            match fetched with
            | Some fetched =>
                log_diff_hydration e "fetch" fetched true pull_number None None ;; mret fetched
            | None =>
                log_diff_hydration e "fetch" resolved true pull_number None (Some "not_found") ;; mret resolved
            end
          else
            log_diff_hydration e "payload" resolved false pull_number
              (Some (diff_fetch_skip_reason (is_configured c) (ev_project_id (base e)) pull_number)) None ;;
            mret resolved
      | None =>
          log_diff_hydration e "payload" resolved false pull_number
            (Some (diff_fetch_skip_reason (is_configured c) (ev_project_id (base e)) pull_number)) None ;;
          mret resolved
      end.

(** [_workspace_members_context], [_workspace_jobs_context]: no request is made. *)
Definition workspace_members_context (explicit_value : pyval) : list (dict pyval) := extract_items explicit_value.
Definition workspace_jobs_context (explicit_value : pyval) : list (dict pyval) := extract_items explicit_value.

(** [_project_members_context] *)
Definition project_members_context (entities : dict pyval) (explicit_value : pyval) : pyval :=
  match extract_items explicit_value with
  | [] =>
      match dget "workspace_members" entities with
      | PList l => PList l
      | _ => items_list (workspace_members_context explicit_value)
      end
  | members => items_list members
  end.

(** The jobs of the project: explicit ones, or those of the workspace. *)
Definition project_jobs_context (entities : dict pyval) (explicit_value : pyval) : pyval :=
  match extract_items explicit_value with
  | [] => if is_none explicit_value then items_list (extract_items (dget "workspace_jobs" entities)) else PList []
  | jobs => items_list jobs
  end.

(** [_project_work_items_context] *)
Definition project_work_items_context (e : RuntimeEvent) (explicit_value : pyval) : st Ext (list (dict pyval)) :=
  match extract_items explicit_value with
  | [] =>
      if negb (is_configured c) || negb (ostr_truthy (ev_project_id (base e))) then mret []
      else
        or_else_runtime
          (result ← search_work_items c (ostr_or (ev_project_id (base e)) EmptyString)
                      [("limit", pnat PROJECT_WORK_ITEMS_CONTEXT_LIMIT)] true;
           mret (match dget "items" result with PList l => map slim_work_item (omap as_dict l) | _ => [] end))
          (λ _, mret [])
  | items => mret items
  end.

(** [_backlog_work_items_context]: the loop over the statuses. *)
Fixpoint backlog_statuses (e : RuntimeEvent) (items : list (dict pyval)) (statuses : list string) : st Ext (list (dict pyval)) :=
  match statuses with
  | [] => mret items
  | status :: statuses' =>
      if bool_decide (PROJECT_WORK_ITEMS_CONTEXT_LIMIT ≤ length items)%nat then mret items
      else
        new ← or_else_runtime
          (result ← search_work_items c (ostr_or (ev_project_id (base e)) EmptyString)
                      [("status", PStr status); ("limit", pnat (PROJECT_WORK_ITEMS_CONTEXT_LIMIT - length items))] true;
           mret (match dget "items" result with PList l => map backlog_work_item (omap as_dict l) | _ => [] end))
          (λ _, mret []);
        backlog_statuses e (items ++ new) statuses'
  end.

Definition backlog_work_items_context (e : RuntimeEvent) (explicit_value : pyval) : st Ext (list (dict pyval)) :=
  match extract_items explicit_value with
  | [] =>
      if negb (is_configured c) || negb (ostr_truthy (ev_project_id (base e))) then mret []
      else backlog_statuses e [] OPEN_STATUSES
  | items => mret items
  end.

(** [_sprints_context] *)
Definition sprints_context (e : RuntimeEvent) (explicit_value : pyval) : st Ext (list (dict pyval)) :=
  match extract_items explicit_value with
  | [] =>
      if negb (is_configured c) then mret []
      else or_else_runtime
             (sprints ← get_workspace_sprints c (ev_workspace_id (base e));
              mret (map slim_sprint (take SPRINTS_CONTEXT_LIMIT sprints)))
             (λ _, mret [])
  | items => mret items
  end.

(** [_unavailable_member_workload], [_unavailable_member_workloads] *)
Definition unavailable_member_workload (exc : exn) (member : dict pyval) : dict pyval :=
  [("userId", dget "userId" member); ("fullName", dget "fullName" member); ("username", dget "username" member);
   ("role", dget "role" member); ("jobIds", dict_get_or (PList []) "jobIds" member);
   ("jobNames", dict_get_or (PList []) "jobNames" member);
   ("assignedItemCount", PNone); ("activeItemCount", PNone); ("todoItemCount", PNone);
   ("inProgressItemCount", PNone); ("inReviewItemCount", PNone); ("doneItemCount", PNone);
   ("archivedItemCount", PNone); ("overdueItemCount", PNone); ("dueTodayItemCount", PNone);
   ("dueThisWeekItemCount", PNone); ("source", PStr "unavailable");
   ("limitations", PStr ("The current API exposes workspace member workload counts but no " +:+
      "capacity, availability, estimate, or project-breakdown fields."));
   ("error", PStr (str_take 500 (exn_str exc)))].

Definition unavailable_member_workloads (entities : dict pyval) (exc : exn) : list (dict pyval) :=
  match py_or (dget "project_members" entities) (dget "workspace_members" entities) with
  | PList members => map (unavailable_member_workload exc) (omap as_dict members)
  | _ => []
  end.

(** [_member_workloads_context] *)
Definition member_workloads_context (w : string) (entities : dict pyval) (explicit_value : pyval) : st Ext (list (dict pyval)) :=
  match extract_items explicit_value with
  | [] =>
      if negb (is_configured c) then mret []
      else or_else_runtime (get_workspace_member_workloads c w true)
             (λ exc, mret (unavailable_member_workloads entities exc))
  | workloads => mret workloads
  end.

(** One required entity; [None] for the signals, which are computed last. *)
Definition context_entity (e : RuntimeEvent) (entities : dict pyval) (context_key : string) : st Ext (option pyval) :=
  let explicit_value := payload_context_value (ev_payload (base e)) context_key in
  let key_is (k : string) := bool_decide (context_key = k) in
  let listed (m : st Ext (list (dict pyval))) := (l ← m; mret (Some (items_list l))) in
  if key_is "workspace_members" then mret (Some (items_list (workspace_members_context explicit_value)))
  else if key_is "project_members" then mret (Some (project_members_context entities explicit_value))
  else if key_is "workspace_jobs" then mret (Some (items_list (workspace_jobs_context explicit_value)))
  else if key_is "project_jobs" then mret (Some (project_jobs_context entities explicit_value))
  else if key_is "member_workloads" then listed (member_workloads_context (ev_workspace_id (base e)) entities explicit_value)
  else if key_is "project_work_items" then listed (project_work_items_context e explicit_value)
  else if key_is "backlog_work_items" then listed (backlog_work_items_context e explicit_value)
  else if key_is "sprints" || key_is "recent_sprints" then listed (sprints_context e explicit_value)
  else if key_is "backlog_signals" then mret None
  else if key_is "pull_request_diff" then (v ← pull_request_diff_context e explicit_value; mret (Some v))
  else if key_is "pull_request_event" then mret (Some (pull_request_event_context e explicit_value))
  else mret (Some (if is_none explicit_value then default_entity context_key e else explicit_value)).

Fixpoint fetch_entities (e : RuntimeEvent) (entities : dict pyval) (required_context : list string) : st Ext (dict pyval) :=
  match required_context with
  | [] => mret entities
  | key :: keys =>
      v ← context_entity e entities key;
      fetch_entities e (match v with Some v => dict_set key v entities | None => entities end) keys
  end.

(** [fetch_context_entities] *)
Definition fetch_context_entities (e : RuntimeEvent) (required_context : list string) : st Ext (dict pyval) :=
  entities ← fetch_entities e [] required_context;
  if str_in "backlog_signals" required_context then
    match payload_context_value (ev_payload (base e)) "backlog_signals" with
    | PDict d => mret (dict_set "backlog_signals" (PDict d) entities)
    | _ =>
        signals ← compute_backlog_signals (map PDict (extract_items (dget "backlog_work_items" entities)))
                    (map PDict (extract_items (dget "member_workloads" entities))) None;
        mret (dict_set "backlog_signals" (PDict signals) entities)
    end
  else mret entities.
End hydration.

(** ** Requests and failures of a computation *)

Definition is_read (r : request) : Prop := rq_method r = "GET" ∧ rq_body r = None.

(** At most [n] requests were sent, all of them reads. *)
Definition reads (n : nat) (x y : Ext) : Prop :=
  x_versions y = x_versions x ∧ ∃ sent, x_requests y = sent ++ x_requests x ∧ Forall is_read sent ∧ (length sent ≤ n)%nat.

Lemma reads_0 x y : x_versions y = x_versions x → x_requests y = x_requests x → reads 0 x y.
Proof. intros Hv Hr. split; [done|]. exists []. by split_and!. Qed.

Lemma reads_trans n m x y z : reads n x y → reads m y z → reads (n + m) x z.
Proof.
  intros (Hv & s1 & E1 & F1 & L1) (Hv' & s2 & E2 & F2 & L2). split; [congruence|].
  exists (s2 ++ s1). rw E2 E1 app_assoc length_app. split_and!; [done|by apply Forall_app|lia].
Qed.

Lemma reads_le n m x y : (n ≤ m)%nat → reads n x y → reads m x y.
Proof. intros Hnm (Hv & s & E & F & L). split; [done|]. exists s. split_and!; [done|done|lia]. Qed.

Definition ran {A} (n : nat) (m : st Ext A) : Prop := ∀ x, reads n x (m x).2.
Definition total {A} (m : st Ext A) : Prop := ∀ x, is_Ok (m x).1 = true.

(** The computation fails only with the exceptions of [p], or because a request of the
    client broke in a way that it does not turn into a [RuntimeError]. *)
Definition fails_with `{Env} (c : PrismApiClient) {A} (p : exn → bool) (m : st Ext A) : Prop :=
  ∀ x e y, m x = (Raise e, y) → p e = true ∨ broke c e x y.
Definition no_failure (e : exn) : bool := false.

Section rules.
Context {A B : Type}.

Lemma ran_quiet n (m : st Ext A) : respects ext_quiet m → ran n m.
Proof. intros H x. destruct (H x) as [Hr Hv]. eapply reads_le; [|by apply reads_0]. lia. Qed.

Lemma ran_ret n (a : A) : ran n (mret a).
Proof. apply ran_quiet. intros x. done. Qed.

Lemma ran_bind n m (f : st Ext A) (k : A → st Ext B) : ran n f → (∀ a, ran m (k a)) → ran (n + m) (f ≫= k).
Proof.
  intros Hf Hk x. specialize (Hf x). unfold mbind, st_bind. destruct (f x) as [[a|e] y]; cbn [fst snd] in *.
  - eapply reads_trans; [exact Hf|apply Hk].
  - eapply reads_le; [|exact Hf]. lia.
Qed.

Lemma ran_try n m p (f : st Ext A) h : ran n f → (∀ e, ran m (h e)) → ran (n + m) (try_catch_if p f h).
Proof.
  intros Hf Hh x. specialize (Hf x). unfold try_catch_if, try_catch. destruct (f x) as [[a|e] y]; cbn [fst snd] in *.
  - eapply reads_le; [|exact Hf]. lia.
  - eapply reads_trans; [exact Hf|]. destruct (p e); [apply Hh|]. eapply reads_le; [|by apply reads_0]. lia.
Qed.

Lemma ran_le n m (f : st Ext A) : (n ≤ m)%nat → ran n f → ran m f.
Proof. intros Hnm Hf x. by eapply reads_le. Qed.

Lemma total_ret (a : A) : total (mret a : st Ext A).
Proof. by intros x. Qed.

Lemma total_fails `{Env} c p (m : st Ext A) : total m → fails_with c p m.
Proof. intros Hm x e y E. specialize (Hm x). by rw E in Hm. Qed.

(** What is caught is not raised. *)
Lemma fails_try `{Env} c p (f : st Ext A) h :
  fails_with c p f → (∀ e, total (h e)) → fails_with c no_failure (try_catch_if p f h).
Proof.
  intros Hf Hh x e y. unfold try_catch_if, try_catch. destruct (f x) as [[a|e'] z] eqn:Ef; [done|].
  destruct (p e') eqn:Ep.
  - intros E. specialize (Hh e' z). by rw E in Hh.
  - intros [= <- <-]. right. destruct (Hf _ _ _ Ef) as [?|?]; [congruence|done].
Qed.

Lemma fails_ret `{Env} c p (a : A) : fails_with c p (mret a : st Ext A).
Proof. by intros x e y. Qed.

End rules.

Lemma reads_suffix n x y : reads n x y → suffix (x_requests x) (x_requests y).
Proof. intros (_ & s & E & _). by exists s. Qed.

Lemma fails_bind `{Env} {A B} c n p (f : st Ext A) (k : A → st Ext B) :
  ran n f → fails_with c p f → (∀ a, fails_with c p (k a)) → fails_with c p (f ≫= k).
Proof.
  intros Hr Hf Hk x e y. specialize (Hr x). unfold mbind, st_bind. destruct (f x) as [[a|e'] z] eqn:Ef.
  - intros E. destruct (Hk a z e y E) as [?|Hb]; [by left|right]. eapply broke_later; [|exact Hb]. exact (reads_suffix _ _ _ Hr).
  - intros [= <- <-]. exact (Hf _ _ _ Ef).
Qed.

Section requests.
Context `{Env} (c : PrismApiClient).

Lemma request_json_ran path auth : ran 1 (request_json c "GET" path None auth).
Proof.
  intros x. destruct (request_json_cases c "GET" path None auth x) as [[_ ->]|[_ [(e & _ & ->)|(rq & Hm & Hb & _ & _ & ->)]]];
    try (eapply reads_le; [|by apply reads_0]; lia).
  split; [done|]. exists [rq]. split_and!; [done|by repeat constructor|done].
Qed.

Lemma request_json_fails method path payload auth : fails_with c is_RuntimeError (request_json c method path payload auth).
Proof. intros x e y. apply request_json_raise. Qed.

Lemma search_work_items_ran p params i : ran 1 (search_work_items c p params i).
Proof. apply (ran_bind 1 0); [apply request_json_ran|]. intros [| | | | |l|d]; apply ran_ret. Qed.
Lemma search_work_items_fails p params i : fails_with c is_RuntimeError (search_work_items c p params i).
Proof. apply (fails_bind c 1); [apply request_json_ran|apply request_json_fails|]. intros [| | | | |l|d]; apply fails_ret. Qed.
Lemma get_workspace_sprints_ran w : ran 1 (get_workspace_sprints c w).
Proof. apply (ran_bind 1 0); [apply request_json_ran|]. intros v. apply ran_ret. Qed.
Lemma get_workspace_sprints_fails w : fails_with c is_RuntimeError (get_workspace_sprints c w).
Proof. apply (fails_bind c 1); [apply request_json_ran|apply request_json_fails|]. intros v. apply fails_ret. Qed.
Lemma get_workloads_ran w i : ran 1 (get_workspace_member_workloads c w i).
Proof. apply (ran_bind 1 0); [apply request_json_ran|]. intros v. apply ran_ret. Qed.
Lemma get_workloads_fails w i : fails_with c is_RuntimeError (get_workspace_member_workloads c w i).
Proof. apply (fails_bind c 1); [apply request_json_ran|apply request_json_fails|]. intros v. apply fails_ret. Qed.

(** *** The contexts *)

Lemma log_diff_ran n e s r f p k fe : ran n (log_diff_hydration e s r f p k fe).
Proof. apply ran_quiet. unfold log_diff_hydration. apply log_json_quiet. Qed.

Lemma log_then_ran {A} n e s r f p k fe (a : A) : ran n (log_diff_hydration e s r f p k fe ;; mret a).
Proof. eapply ran_le; [|apply (ran_bind n 0); [apply log_diff_ran|intros _; apply ran_ret]]. lia. Qed.

Lemma log_then_total {A} e s r f p k fe (a : A) : total (log_diff_hydration e s r f p k fe ;; mret a).
Proof. by intros x. Qed.

Lemma pull_request_diff_ran e v : ran 1 (pull_request_diff_context c e v).
Proof.
  unfold pull_request_diff_context. destruct (has_hydrated_pull_request_diff v); [apply log_then_ran|].
  cbv zeta. destruct (has_hydrated_pull_request_diff _); [apply log_then_ran|].
  destruct (diff_pull_number v _) as [number|]; [|apply log_then_ran].
  destruct (_ && _); [|apply log_then_ran]. apply (ran_bind 1 0).
  - apply (ran_try 1 0); [|intros ?; apply ran_ret]. apply (ran_bind 1 0); [apply request_json_ran|intros ?; apply ran_ret].
  - intros [v'|]; apply log_then_ran.
Qed.

Lemma project_work_items_ok e v : ran 1 (project_work_items_context c e v) ∧ fails_with c no_failure (project_work_items_context c e v).
Proof.
  unfold project_work_items_context. destruct (extract_items v) as [|i l]; [|split; [apply ran_ret|apply fails_ret]].
  destruct (_ || _); [split; [apply ran_ret|apply fails_ret]|]. split.
  - apply (ran_try 1 0); [|intros ?; apply ran_ret]. apply (ran_bind 1 0); [apply search_work_items_ran|intros ?; apply ran_ret].
  - eapply fails_try; [|intros ?; apply total_ret].
    apply (fails_bind c 1); [apply search_work_items_ran|apply search_work_items_fails|intros ?; apply fails_ret].
Qed.

Lemma backlog_statuses_ok e statuses items :
  ran (length statuses) (backlog_statuses c e items statuses) ∧ fails_with c no_failure (backlog_statuses c e items statuses).
Proof.
  revert items. induction statuses as [|s ss IH]; intros items; cbn [backlog_statuses length]; [split; [apply ran_ret|apply fails_ret]|].
  destruct (bool_decide _); [split; [apply ran_ret|apply fails_ret]|]. split.
  - apply (ran_bind 1 (length ss)); [|intros new; apply IH]. apply (ran_try 1 0); [|intros ?; apply ran_ret].
    apply (ran_bind 1 0); [apply search_work_items_ran|intros ?; apply ran_ret].
  - apply (fails_bind c 1); [|eapply fails_try; [|intros ?; apply total_ret]|intros new; apply IH].
    + apply (ran_try 1 0); [|intros ?; apply ran_ret]. apply (ran_bind 1 0); [apply search_work_items_ran|intros ?; apply ran_ret].
    + apply (fails_bind c 1); [apply search_work_items_ran|apply search_work_items_fails|intros ?; apply fails_ret].
Qed.

Lemma backlog_work_items_ok e v : ran 3 (backlog_work_items_context c e v) ∧ fails_with c no_failure (backlog_work_items_context c e v).
Proof.
  unfold backlog_work_items_context. destruct (extract_items v) as [|i l]; [|split; [apply ran_ret|apply fails_ret]].
  destruct (_ || _); [split; [apply ran_ret|apply fails_ret]|]. apply (backlog_statuses_ok e OPEN_STATUSES).
Qed.

Lemma sprints_ok e v : ran 1 (sprints_context c e v) ∧ fails_with c no_failure (sprints_context c e v).
Proof.
  unfold sprints_context. destruct (extract_items v) as [|i l]; [|split; [apply ran_ret|apply fails_ret]].
  destruct (negb _); [split; [apply ran_ret|apply fails_ret]|]. split.
  - apply (ran_try 1 0); [|intros ?; apply ran_ret]. apply (ran_bind 1 0); [apply get_workspace_sprints_ran|intros ?; apply ran_ret].
  - eapply fails_try; [|intros ?; apply total_ret].
    apply (fails_bind c 1); [apply get_workspace_sprints_ran|apply get_workspace_sprints_fails|intros ?; apply fails_ret].
Qed.

Lemma member_workloads_ok w d v : ran 1 (member_workloads_context c w d v) ∧ fails_with c no_failure (member_workloads_context c w d v).
Proof.
  unfold member_workloads_context. destruct (extract_items v) as [|i l]; [|split; [apply ran_ret|apply fails_ret]].
  destruct (negb _); [split; [apply ran_ret|apply fails_ret]|]. split.
  - apply (ran_try 1 0); [apply get_workloads_ran|intros ?; apply ran_ret].
  - eapply fails_try; [apply get_workloads_fails|intros ?; apply total_ret].
Qed.

Lemma context_entity_ran e entities key : ran 3 (context_entity c e entities key).
Proof.
  unfold context_entity. cbv zeta.
  repeat lazymatch goal with |- ran 3 (if ?b then _ else _) => destruct b end; try apply ran_ret.
  all: eapply ran_le; [|apply (ran_bind 3 0); [|intros ?; apply ran_ret]]; [lia|].
  - eapply ran_le; [|apply member_workloads_ok]; lia.
  - eapply ran_le; [|apply project_work_items_ok]; lia.
  - apply backlog_work_items_ok.
  - eapply ran_le; [|apply sprints_ok]; lia.
  - eapply ran_le; [|apply pull_request_diff_ran]; lia.
Qed.

Lemma context_entity_fails e entities key :
  key ≠ "pull_request_diff" → fails_with c no_failure (context_entity c e entities key).
Proof.
  intros Hk. unfold context_entity. cbv zeta. rw (bool_decide_eq_false_2 (key = "pull_request_diff") Hk).
  repeat lazymatch goal with |- fails_with c _ (if ?b then _ else _) => destruct b end; try apply fails_ret.
  all: apply (fails_bind c 3); [| |intros ?; apply fails_ret].
  - eapply ran_le; [|apply member_workloads_ok]; lia.
  - apply member_workloads_ok.
  - eapply ran_le; [|apply project_work_items_ok]; lia.
  - apply project_work_items_ok.
  - apply backlog_work_items_ok.
  - apply backlog_work_items_ok.
  - eapply ran_le; [|apply sprints_ok]; lia.
  - apply sprints_ok.
Qed.
End requests.

(** *** The diff of a pull request *)

(** The path [get_pull_request] asks for. *)
Definition diff_path (project_id : option string) (number : pyval) : string :=
  pull_path (ostr_or project_id EmptyString) number +:+
  query_string [("includeDiff", PStr "true"); ("includeFiles", PStr "true")].

(** Where a pull request diff comes from.  A diff with patches in the event wins,
    then the one embedded in the event's pull request, and neither asks the API.
    Otherwise, with a configured client, a project and a pull request number, exactly
    one request is sent and decides: its result is the diff, a 404 falls back to the
    event's own object or the embedded one, every other failure is raised; a base URL
    without a scheme raises before that.  Without
    these the fallback is taken and nothing is sent. *)
Theorem pull_request_diff_context_spec `{Env} c e explicit_value x :
  let payload := ev_payload (base e) in
  let embedded := embedded_pull_request_diff payload in
  let fallback := if is_dict explicit_value then explicit_value else embedded in
  let path := diff_path (ev_project_id (base e)) in
  let '(r, y) := pull_request_diff_context c e explicit_value x in
  if has_hydrated_pull_request_diff explicit_value then r = Ok explicit_value ∧ x_requests y = x_requests x
  else if has_hydrated_pull_request_diff embedded then r = Ok embedded ∧ x_requests y = x_requests x
  else
    match diff_pull_number explicit_value payload with
    | Some number =>
        if is_configured c && ostr_truthy (ev_project_id (base e)) then
          (∃ exc, check_url (ostr_or (cl_base_url c) EmptyString +:+ path number) = Raise exc ∧ r = Raise exc ∧
             x_requests y = x_requests x) ∨
          ∃ rq, x_requests y = rq :: x_requests x ∧ rq_method rq = "GET" ∧ rq_url rq = ostr_or (cl_base_url c) EmptyString +:+ path number ∧
            r = match reply_result "GET" (path number) None (http_reply (x_requests x) rq) with
                | Ok v => Ok v
                | Raise exc => if bool_decide (exc_type exc = PrismApiNotFoundError) then Ok fallback else Raise exc
                end
        else r = Ok fallback ∧ x_requests y = x_requests x
    | None => r = Ok fallback ∧ x_requests y = x_requests x
    end.
Proof.
  cbv zeta. unfold pull_request_diff_context. destruct (has_hydrated_pull_request_diff explicit_value); [done|].
  cbv zeta. destruct (has_hydrated_pull_request_diff (embedded_pull_request_diff _)); [done|].
  destruct (diff_pull_number _ _) as [number|]; [|done].
  destruct (is_configured c) eqn:Hc; cbn [andb]; [|done]. destruct (ostr_truthy _) eqn:Hp; [|done].
  unfold get_pull_request.
  change (pull_path _ _ +:+ _) with (diff_path (ev_project_id (base e)) number). set (path := diff_path _ _). unfold try_catch_if, try_catch, mbind, st_bind.
  destruct (request_json_cases c "GET" path None "internal" x) as [[? _]|[_ [(exc & He & ->)|(rq & Hm & _ & Hu & _ & ->)]]];
    [congruence| |].
  - pose proof (check_url_ValueError _ _ He) as Ht. rw bool_decide_eq_false_2; [by rw Ht|left; by exists exc].
  - destruct (reply_result "GET" path None (http_reply (x_requests x) rq)) as [v|exc] eqn:Er.
    + right. exists rq. by rw Er.
    + destruct (bool_decide (exc_type exc = PrismApiNotFoundError)) eqn:En; right; exists rq; by rw Er En.
Qed.

(** *** The loop *)

Section loop.
Context `{Env} (c : PrismApiClient).

(** Fetching the diff of a pull request failed: the last request sent asked for it, and
    its reply is a [RuntimeError] other than 404. *)
Definition diff_failed (project_id : option string) (exc : exn) (x y : Ext) : Prop :=
  is_RuntimeError exc = true ∧ exc_type exc ≠ PrismApiNotFoundError ∧
  ∃ number rq earlier, x_requests y = rq :: earlier ∧ suffix (x_requests x) earlier ∧
    rq_url rq = ostr_or (cl_base_url c) EmptyString +:+ diff_path project_id number ∧
    reply_result "GET" (diff_path project_id number) None (http_reply earlier rq) = Raise exc.

Lemma diff_failed_later p exc x x1 y : suffix (x_requests x) (x_requests x1) → diff_failed p exc x1 y → diff_failed p exc x y.
Proof.
  intros Hs (Hr & Hn & number & rq & l & E & Hl & Hrest). split; [done|]. split; [done|]. exists number, rq, l.
  split; [done|]. split; [by etrans|done].
Qed.

Lemma pull_request_diff_fails e v x exc y :
  pull_request_diff_context c e v x = (Raise exc, y) → diff_failed (ev_project_id (base e)) exc x y ∨ broke c exc x y.
Proof.
  intros E. pose proof (pull_request_diff_context_spec c e v x) as Hs. cbv zeta in Hs. rw E in Hs.
  destruct (has_hydrated_pull_request_diff v); [by destruct Hs|]. destruct (has_hydrated_pull_request_diff _); [by destruct Hs|].
  destruct (diff_pull_number v _) as [number|]; [|by destruct Hs].
  destruct (is_configured c) eqn:Hc; cbn [andb] in Hs; [|by destruct Hs]. destruct (ostr_truthy _); [|by destruct Hs].
  destruct Hs as [(exc' & Hu & [= <-] & _)|(rq & Hreq & _ & Hurl & Hr)].
  - right. split; [|split; [done|left; by eexists]]. pose proof (check_url_ValueError _ _ Hu) as Ht. unfold is_RuntimeError. by rw Ht.
  - destruct (reply_result _ _ _ _) as [w|exc'] eqn:Er; [done|]. case_bool_decide as Hn; [done|]. injection Hr as <-.
    destruct (is_RuntimeError exc) eqn:Ee.
    + left. split; [done|]. split; [done|]. exists number, rq, (x_requests x). by split_and!.
    + right. split; [done|]. split; [done|]. right. exists rq, (x_requests x). split_and!; [done..|].
      destruct (reply_result_raise _ _ _ _ _ Er); [congruence|done].
Qed.

Lemma context_entity_some e entities key x v y :
  context_entity c e entities key x = (Ok v, y) → (v = None ↔ key = "backlog_signals").
Proof.
  intros E. destruct (decide (key = "backlog_signals")) as [->|Hne].
  { change (context_entity c e entities "backlog_signals" x) with (@Ok (option pyval) None, x) in E. by injection E as <- _. }
  enough (v ≠ None) by naive_solver. revert E. unfold context_entity. cbv zeta.
  rw (bool_decide_eq_false_2 (key = "backlog_signals") Hne).
  assert (Hret : ∀ w z, (mret (Some w) : st Ext (option pyval)) z = (Ok v, y) → v ≠ None).
  { intros w z [= <- _]. done. }
  repeat lazymatch goal with |- (if ?b then _ else _) _ = _ → _ => destruct b end; try exact (Hret _ _).
  all: intros E; apply bind_Ok in E as (l & y' & _ & E); exact (Hret _ _ E).
Qed.

Lemma fetch_entities_spec e required entities x :
  dict_wf entities →
  let '(r, y) := fetch_entities c e entities required x in
  reads (3 * length required) x y ∧
  match r with
  | Ok d => dict_wf d ∧ ∀ k, k ∈ dict_keys d ↔ k ∈ dict_keys entities ∨ k ∈ required ∧ k ≠ "backlog_signals"
  | Raise exc => "pull_request_diff" ∈ required ∧ diff_failed (ev_project_id (base e)) exc x y ∨ broke c exc x y
  end.
Proof.
  revert entities x. induction required as [|key keys IH]; intros entities x Hwf; cbn [fetch_entities length].
  { split; [by apply (ran_ret 0 entities)|]. split; [done|]. intros k. rw elem_of_nil. tauto. }
  pose proof (context_entity_ran c e entities key x) as Hran.
  pose proof (context_entity_some e entities key x) as Hsome.
  unfold mbind, st_bind. destruct (context_entity c e entities key x) as [[v|exc] y] eqn:Ec; cbn [snd] in Hran.
  - specialize (Hsome v y eq_refl). set (entities' := match v with Some _ => _ | None => _ end).
    assert (Hwf' : dict_wf entities') by (unfold entities'; destruct v; [by apply dict_wf_set|done]).
    specialize (IH entities' y Hwf'). destruct (fetch_entities c e entities' keys y) as [r z]. destruct IH as [Hreads Hr].
    split; [eapply reads_le; [|exact (reads_trans _ _ _ _ _ Hran Hreads)]; lia|]. destruct r as [d|exc].
    + destruct Hr as [Hd Hk]. split; [done|]. intros k. rw Hk elem_of_cons. unfold entities'.
      destruct v as [v|].
      * assert (key ≠ "backlog_signals") by (intros E; by apply Hsome in E).
        rw -!dict_mem_elem dict_mem_set orb_true_iff bool_decide_eq_true. naive_solver.
      * assert (key = "backlog_signals") by (by apply Hsome). naive_solver.
    + destruct Hr as [[Hin Hp]|Hb]; [left; split; [by right|]|right].
      { eapply diff_failed_later; [|exact Hp]. exact (reads_suffix _ _ _ Hran). }
      eapply broke_later; [|exact Hb]. exact (reads_suffix _ _ _ Hran).
  - split; [eapply reads_le; [|exact Hran]; lia|].
    destruct (decide (key = "pull_request_diff")) as [->|Hne].
    + change ((w ← pull_request_diff_context c e (payload_context_value (ev_payload (base e)) "pull_request_diff"); mret (Some w)) x
        = (Raise exc, y)) in Ec. unfold mbind, st_bind in Ec.
      destruct (pull_request_diff_context _ _ _ x) as [[v'|exc'] y'] eqn:Ed; [done|]. injection Ec as -> ->.
      destruct (pull_request_diff_fails _ _ _ _ _ Ed); [left; split; [by left|done]|by right].
    + destruct (context_entity_fails c e entities key Hne x exc y Ec) as [|Hb]; [done|by right].
Qed.
End loop.

(** ** Properties *)

(** Hydrating the required entities of an event only reads: every request is a
    GET without a body, there are at most three for each entity, and the observed
    versions stay.  When it succeeds the entities are exactly the required ones.  It
    fails when fetching a pull request diff does, 404 excepted, and when a request
    breaks with an exception the client does not turn into a [RuntimeError]. *)
Lemma fetch_context_entities_spec `{Env} c e required x :
  let '(r, y) := fetch_context_entities c e required x in
  reads (3 * length required) x y ∧
  match r with
  | Ok d => dict_wf d ∧ ∀ k, k ∈ dict_keys d ↔ k ∈ required
  | Raise exc => "pull_request_diff" ∈ required ∧ diff_failed c (ev_project_id (base e)) exc x y ∨ broke c exc x y
  end.
Proof.
  unfold fetch_context_entities, mbind, st_bind.
  pose proof (fetch_entities_spec c e required [] x (NoDup_nil_2)) as Hs.
  destruct (fetch_entities c e [] required x) as [[d|exc] y]; destruct Hs as [Hreads Hr]; [|done].
  destruct Hr as [Hwf Hk].
  assert (Hset : "backlog_signals" ∈ required → ∀ v : pyval,
    dict_wf (dict_set "backlog_signals" v d) ∧ ∀ k, k ∈ dict_keys (dict_set "backlog_signals" v d) ↔ k ∈ required).
  { intros Hin v. split; [by apply dict_wf_set|]. intros k.
    rw -dict_mem_elem dict_mem_set orb_true_iff bool_decide_eq_true dict_mem_elem Hk elem_of_nil.
    destruct (decide (k = "backlog_signals")) as [->|]; naive_solver. }
  unfold str_in. destruct (bool_decide_reflect ("backlog_signals" ∈ required)) as [Hin|Hout].
  - destruct (payload_context_value _ _); try (split; [exact Hreads|by apply Hset]).
    all: split; [|by apply Hset]; eapply reads_le; [|exact (reads_trans _ 0 _ _ _ Hreads (reads_0 _ _ eq_refl eq_refl))]; lia.
  - split; [exact Hreads|]. split; [done|]. intros k. rw Hk elem_of_nil. naive_solver.
Qed.

