(* ===== verification/AgentRunIds.v ===== *)
(** * Run and action identities ([src/domain/agent_run.py])

    The run id an event belongs to, the UUIDs under which runs and actions are
    reported to the API, and the translation of statuses to the API's. *)

From S2P Require Import Prelude PyStr PyVal PyUuid Events Plans Policies Env Definitions Records.

Definition AGENT_RUN_ID_KEYS : list string := ["agentRunId"; "runId"; "agent_run_id"].

Definition AGENT_RUN_SYNC_NAMESPACE : Z := Eval vm_compute in uuid5 NAMESPACE_URL "prism-agent:agent-run-sync".

Definition TARGET_TYPES_BY_ID_FIELD : list (string * string) :=
  [("itemId", "work_item"); ("workItemId", "work_item"); ("sprintId", "sprint")].

(** [payload.get("queue_pointer")], when it is a dict; otherwise nothing is found in it. *)
Definition queue_pointer (payload : dict pyval) : dict pyval :=
  match dget "queue_pointer" payload with PDict d => d | _ => [] end.

Definition resolve_agent_run_id (c : AgentContext) : string :=
  let event := base (source_event c) in
  match first_string (ev_payload event) AGENT_RUN_ID_KEYS with
  | Some s => s
  | None =>
      match first_string (queue_pointer (ev_payload event)) AGENT_RUN_ID_KEYS with
      | Some s => s
      | None =>
          if ostr_truthy (ev_correlation_id event) then ostr_or (ev_correlation_id event) EmptyString
          else if ostr_truthy (ev_idempotency_key event) then ostr_or (ev_idempotency_key event) EmptyString
          else ev_event_id event
      end
  end.

Definition action_status_to_api (s : ActionStatus) (requires_approval : bool) : string :=
  match s with
  | ACompleted => "executed"
  | AFailed => "failed"
  | ASkipped | AStale => "cancelled"
  | ARunning => "approved"
  | ARequiresApproval => "proposed"
  | APending => if requires_approval then "proposed" else "approved"
  end.

Definition step_status_to_api (s : ActionStatus) : string :=
  match s with
  | ACompleted => "completed"
  | AFailed | AStale => "failed"
  | ASkipped => "skipped"
  | ARunning => "running"
  | APending | ARequiresApproval => "pending"
  end.

Definition run_status_to_api (p : AgentPlan) : string :=
  match pl_status p with
  | PCompleted => "completed"
  | PFailed => "failed"
  | PCancelled => "cancelled"
  | PWaitingForApproval | PReplanRequired => "waiting"
  | PPlanned | PRunning => if existsb (has_status ARunning) (pl_actions p) then "running" else "running"
  end.

Fixpoint step_order_from (n : nat) (id : string) (l : list PlannedAction) : option nat :=
  match l with
  | [] => None
  | a :: l' => if bool_decide (ac_action_id a = id) then Some n else step_order_from (S n) id l'
  end.

Definition action_step_order (p : AgentPlan) (a : PlannedAction) : res Z :=
  match step_order_from 1 (ac_action_id a) (pl_actions p) with
  | Some n => Ok (Z.of_nat n)
  | None => err ValueError ("Action " +:+ ac_action_id a +:+ " is not part of plan " +:+ pl_plan_id p +:+ ".")
  end.

Definition action_step_title (a : PlannedAction) : string :=
  str_join " " (split_ws (str_or (strip (ac_instruction a)) (ac_tool_name a))).

Definition stable_agent_run_uuid (parts : list string) : string :=
  let raw := str_join ":" parts in
  match uuid_parse raw with
  | Some z => uuid_str z
  | None => uuid_str (uuid5 AGENT_RUN_SYNC_NAMESPACE raw)
  end.

Definition action_api_id (a : PlannedAction) : string :=
  stable_agent_run_uuid [ac_plan_id a; ac_action_id a].

Definition action_api_type (a : PlannedAction) : string :=
  str_take 50 (str_or (str_or (ac_tool_name a) (ac_action_type a)) "agent_action").

(** [_uuid_string] *)
Definition uuid_string (v : option string) : option string :=
  match v with
  | None => None
  | Some s => option_map uuid_str (uuid_parse s)
  end.

(** [":" in ref] and the two halves of [ref.split(":", 1)] *)
Definition split_ref (ref : string) : option (string * string) := split1 ":"%char ref.

Fixpoint target_type_by_field (input : dict pyval) (l : list (string * string)) : option string :=
  match l with
  | [] => None
  | (key, target_type) :: l' =>
      if ostr_truthy (uuid_string (first_string input [key])) then Some target_type
      else target_type_by_field input l'
  end.

Definition action_target_type (a : PlannedAction) (target_id : option string) : string :=
  match target_id with
  | None => "tool"
  | Some _ =>
      match first_string (ac_input a) ["targetType"; "target_type"] with
      | Some explicit => str_take 50 explicit
      | None =>
          let by_field :=
            match target_type_by_field (ac_input a) TARGET_TYPES_BY_ID_FIELD with
            | Some t => t
            | None => "tool"
            end in
          match first_string (ac_input a) ["target_entity_ref"; "targetEntityRef"] with
          | Some ref =>
              match split_ref ref with
              | Some (kind, id) => if ostr_truthy (uuid_string (Some id)) then str_take 50 kind else by_field
              | None => by_field
              end
          | None => by_field
          end
      end
  end.

Definition action_target_id (a : PlannedAction) : option string :=
  match first_string (ac_input a) ["targetId"; "target_id"; "itemId"; "workItemId"; "sprintId"] with
  | Some value => uuid_string (Some value)
  | None =>
      match first_string (ac_input a) ["target_entity_ref"; "targetEntityRef"] with
      | Some ref => match split_ref ref with Some (_, id) => uuid_string (Some id) | None => None end
      | None => None
      end
  end.

(** ** Lemmas *)

Lemma first_string_truthy data keys s : first_string data keys = Some s → str_truthy s = true.
Proof. by intros [? _]%first_string_Some. Qed.

Lemma stable_uuid_form parts : ∃ z, 0 ≤ z < 2 ^ 128 ∧ stable_agent_run_uuid parts = uuid_str z.
Proof.
  unfold stable_agent_run_uuid. destruct (uuid_parse _) as [z|] eqn:E.
  - exists z. split; [by eapply uuid_parse_bound|done].
  - eexists. split; [apply uuid5_bound|done].
Qed.

Lemma uuid_string_Some v s :
  uuid_string v = Some s → ∃ z, 0 ≤ z < 2 ^ 128 ∧ s = uuid_str z.
Proof.
  destruct v as [v|]; [|done]. unfold uuid_string. destruct (uuid_parse v) as [z|] eqn:E; [|done].
  cbn [option_map]. intros [= <-]. exists z. split; [by eapply uuid_parse_bound|done].
Qed.

Lemma step_order_from_spec n id l :
  step_order_from n id l =
  match list_find (λ a, ac_action_id a = id) l with
  | Some (i, _) => Some (n + i)%nat
  | None => None
  end.
Proof.
  revert n. induction l as [|a l IH]; intros n; simpl; [done|].
  case_bool_decide; case_decide; try done; [f_equal; lia|]. rw IH.
  destruct (list_find _ l) as [[i b]|]; simpl; [|done]. f_equal. lia.
Qed.

(** ** Properties *)

(** the ids under which runs and actions are reported are stable and
    canonical: whatever the parts, the result is the printed form of a 128-bit
    UUID, parsing it gives that UUID back and taking the stable id of it again
    changes nothing; a part list that spells a UUID keeps that UUID. *)
Theorem stable_agent_run_uuid_canonical parts :
  let u := stable_agent_run_uuid parts in
  (∃ z, 0 ≤ z < 2 ^ 128 ∧ u = uuid_str z ∧ uuid_parse u = Some z) ∧
  stable_agent_run_uuid [u] = u ∧
  uuid_string (Some u) = Some u ∧
  (∀ z, uuid_parse (str_join ":" parts) = Some z → uuid_parse u = Some z).
Proof.
  destruct (stable_uuid_form parts) as (z & Hz & Hu). cbv zeta. rw Hu.
  pose proof (uuid_parse_str z Hz) as Hp. split_and!.
  - exists z. done.
  - unfold stable_agent_run_uuid. cbn [str_join]. by rw Hp.
  - unfold uuid_string. by rw Hp.
  - intros z' Hz'. unfold stable_agent_run_uuid in Hu. rw Hz' in Hu.
    rw -Hu uuid_parse_str //. by eapply uuid_parse_bound.
Qed.

(** the run id of an event is the first usable id, in the order payload,
    queue pointer, correlation id, idempotency key, event id; it is never empty
    when the event id is not, and a payload id takes precedence over everything
    else the event carries. *)
Theorem resolve_agent_run_id_spec c :
  let e := base (source_event c) in
  let r := resolve_agent_run_id c in
  (∀ s, first_string (ev_payload e) AGENT_RUN_ID_KEYS = Some s → r = s) ∧
  (first_string (ev_payload e) AGENT_RUN_ID_KEYS = None →
   ∀ s, first_string (queue_pointer (ev_payload e)) AGENT_RUN_ID_KEYS = Some s → r = s) ∧
  (first_string (ev_payload e) AGENT_RUN_ID_KEYS = None →
   first_string (queue_pointer (ev_payload e)) AGENT_RUN_ID_KEYS = None →
   r = ostr_or (ev_correlation_id e) (ostr_or (ev_idempotency_key e) (ev_event_id e))) ∧
  (str_truthy (ev_event_id e) = true → str_truthy r = true).
Proof.
  cbv zeta. unfold resolve_agent_run_id.
  destruct (first_string (ev_payload _) _) as [s|] eqn:E1.
  { split_and!; [by intros ? [= ->]|done|done|]. intros _. by eapply first_string_truthy. }
  destruct (first_string (queue_pointer _) _) as [s|] eqn:E2.
  { split_and!; [done|by intros _ ? [= ->]|done|]. intros _. by eapply first_string_truthy. }
  unfold ostr_or, ostr_truthy, str_or.
  destruct (ev_correlation_id _) as [c1|]; [destruct (str_truthy c1) eqn:Ec|];
    (destruct (ev_idempotency_key (base (source_event c))) as [k|]; [destruct (str_truthy k) eqn:Ek|]); split_and!; done.
Qed.

(** the translation of statuses to the API's: a plan whose status is
    derived from its actions is reported completed, failed or waiting exactly when
    the actions call for it and running otherwise, an action is reported executed
    only when it is completed and proposed only when it waits for approval or is
    pending and needs one, and a plan position is the one-based index of the action. *)
Theorem status_to_api_spec now a p :
  let p' := replace_action now a p in
  (run_status_to_api p' = "completed" ↔
     ∀ b, b ∈ pl_actions p' → ac_status b = ACompleted ∨ ac_status b = ASkipped) ∧
  (run_status_to_api p' = "failed" ↔ ∃ b, b ∈ pl_actions p' ∧ ac_status b = AFailed) ∧
  (∀ s r, action_status_to_api s r = "executed" ↔ s = ACompleted) ∧
  (∀ s r, action_status_to_api s r = "proposed" ↔ s = ARequiresApproval ∨ (s = APending ∧ r = true)) ∧
  (∀ n, action_step_order p a = Ok (Z.of_nat n) ↔
     ∃ i b, n = S i ∧ pl_actions p !! i = Some b ∧ ac_action_id b = ac_action_id a ∧
       ∀ j c, (j < i)%nat → pl_actions p !! j = Some c → ac_action_id c ≠ ac_action_id a).
Proof.
  pose proof (derived_status_cases (pl_actions (replace_action now a p))) as (Hc & Hf & _).
  cbv zeta. set (p' := replace_action now a p) in *.
  change (derived_status (pl_actions p')) with (pl_status p') in Hc, Hf.
  split_and!.
  - rw -Hc. unfold run_status_to_api. destruct (pl_status p'); try done. all: by destruct (existsb _ _).
  - rw -Hf. unfold run_status_to_api. destruct (pl_status p'); try done. all: by destruct (existsb _ _).
  - intros s r. by destruct s, r.
  - intros s r. destruct s, r; simpl; naive_solver.
  - intros n. unfold action_step_order. rw step_order_from_spec.
    destruct (list_find _ _) as [[i b]|] eqn:E.
    + apply list_find_Some in E as (Hi & Hb & Hlt). split.
      * intros [= Hn]. exists i, b. split_and!; [lia|done|done|]. intros j c Hj Hc'. by eapply Hlt.
      * intros (i' & b' & -> & Hi' & Hb' & Hlt'). f_equal. f_equal.
        destruct (decide (i < i')%nat); [by destruct (Hlt' i b)|].
        destruct (decide (i' < i)%nat); [by destruct (Hlt i' b')|]. lia.
    + split; [done|]. intros (i & b & _ & Hi & Hb & _). apply list_find_None in E.
      rw Forall_lookup in E. by destruct (E i b).
Qed.
