(* ===== verification/AgentRunSync.v ===== *)
(** * Reporting to the agent-run API ([src/application/agent_run_sync.py])

    What the runtime tells the Prism API about runs, steps and actions.  All
    operations do nothing unless the sync is enabled and the client configured. *)

From S2P Require Import Prelude PyStr PyVal PyUuid Json Events Plans Policies Env Client Definitions Records.
From S2P Require Import AgentRunIds.

Definition AGENT_RUN_STEP_TITLE_MAX_LENGTH : nat := 255.
Definition AGENT_RUN_TERMINAL_STATUSES : list string := ["completed"; "failed"; "cancelled"].

(** [s[:5000]] *)
Definition clip (s : string) : string := str_take (Z.to_nat 5000) s.
#[global] Arguments clip : simpl never.
#[global] Arguments stable_agent_run_uuid : simpl never.

Record AgentRunSync := { ars_client : PrismApiClient; ars_enabled_flag : bool }.

(** [self.enabled] *)
Definition ars_enabled (y : AgentRunSync) : bool := ars_enabled_flag y && is_configured (ars_client y).

(** [_api_run_id] *)
Definition api_run_id (p : AgentPlan) : string := ostr_or (pl_parent_run_id p) (pl_plan_id p).

(** [_trigger_type] *)
Definition trigger_type (c : AgentContext) : string :=
  let kind := event_kind (source_event c) in
  if bool_decide (kind = "manual") then "manual"
  else if bool_decide (kind = "scheduled") then "scheduled"
  else if bool_decide (kind = "agent_action") then "recursive"
  else "event".

(** A value that is a non-empty string, or the alternative. *)
Definition ostr_or_else (a : option string) (b : option string) : option string :=
  if ostr_truthy a then a else b.

Definition event_actor_id (e : RuntimeEvent) : option string :=
  match e with ManualInvocationEvent _ a => a | _ => None end.

Definition USER_ID_KEYS : list string := ["triggeredByUserId"; "requestedByUserId"; "userId"].
Definition WORK_ITEM_ID_KEYS : list string := ["workItemId"; "work_item_id"; "itemId"].

(** [_triggered_by_user_id] and [_work_item_id] *)
Definition triggered_by_user_id (c : AgentContext) : option string :=
  let payload := ev_payload (base (source_event c)) in
  ostr_or_else (uuid_string (event_actor_id (source_event c)))
    (ostr_or_else (uuid_string (first_string payload USER_ID_KEYS))
       (uuid_string (first_string (queue_pointer payload) USER_ID_KEYS))).

Definition work_item_id (c : AgentContext) : option string :=
  let payload := ev_payload (base (source_event c)) in
  ostr_or_else (uuid_string (first_string payload WORK_ITEM_ID_KEYS))
    (uuid_string (first_string (queue_pointer payload) WORK_ITEM_ID_KEYS)).

(** [if v: payload[k] = v] *)
Definition set_if (k : string) (v : option string) (d : dict pyval) : dict pyval :=
  if ostr_truthy v then dict_set k (ostr v) d else d.

Definition agent_run_create_payload (run_id : string) (c : AgentContext) (objective prompt_version : string) :
    dict pyval :=
  let payload :=
    [("agentType", PStr "project_manager");
     ("objective", PStr (clip (str_or (strip objective) (cx_workflow_id c))));
     ("runId", PStr run_id);
     ("systemPromptVersion", PStr (str_take 100 prompt_version));
     ("triggerType", PStr (trigger_type c));
     ("status", PStr "running");
     ("createdAt", PStr (isoformat (ev_occurred_at (base (source_event c)))))] in
  set_if "workItemId" (work_item_id c) (set_if "triggeredByUserId" (triggered_by_user_id c) payload).

Definition raise_if_run_terminal (response : pyval) (run_id : string) : res unit :=
  status ← value_get response "status";
  match status with
  | PStr s =>
      if str_in s AGENT_RUN_TERMINAL_STATUSES
      then err (AgentRunAlreadyTerminalError run_id s) ("Agent run " +:+ run_id +:+ " is already " +:+ s +:+ ".")
      else Ok tt
  | _ => Ok tt
  end.

(** The payload of a step for an action, and the payload of the action itself. *)
Definition step_payload (a : PlannedAction) (order : Z) (event_name : string) (message : option string) : dict pyval :=
  let status := step_status_to_api (ac_status a) in
  let payload :=
    [("stepId", PStr (action_api_id a));
     ("stepOrder", PInt order);
     ("stepType", PStr "execute");
     ("status", PStr status);
     ("title", PStr (str_take AGENT_RUN_STEP_TITLE_MAX_LENGTH (action_step_title a)));
     ("inputSummary", PStr (clip (ac_instruction a)));
     ("outputSummary", PStr (clip (ostr_or message event_name)))] in
  if bool_decide (status = "failed") then set_if "errorMessage" (option_map clip message) payload else payload.

Definition action_payload (a : PlannedAction) (include_step_id : bool) (message : option string) : dict pyval :=
  let target_id := action_target_id a in
  let status := action_status_to_api (ac_status a) (ac_requires_approval a) in
  let payload :=
    [("actionId", PStr (action_api_id a));
     ("actionType", PStr (action_api_type a));
     ("targetType", PStr (action_target_type a target_id));
     ("status", PStr status);
     ("reasoningSummary", PStr (clip (ac_instruction a)));
     ("requiresApproval", PBool (ac_requires_approval a))] in
  let payload := if include_step_id then dict_set "stepId" (PStr (action_api_id a)) payload else payload in
  let payload := set_if "targetId" target_id payload in
  if bool_decide (status = "failed") || bool_decide (status = "cancelled")
  then set_if "errorMessage" (option_map clip message) payload else payload.

Section sync.
Context `{Env} (y : AgentRunSync).

Definition ignore {A} (m : st Ext A) : st Ext unit := m ;; mret tt.

Definition update_run (w run_id status : string) : st Ext pyval :=
  update_agent_run_status (ars_client y) w run_id [("status", PStr status)].

Definition record_run_started (c : AgentContext) (run_id objective prompt_version : string) : st Ext unit :=
  when (ars_enabled y) (
    response ← create_agent_run (ars_client y) (cx_workspace_id c)
                 (agent_run_create_payload run_id c objective prompt_version);
    lift_res (raise_if_run_terminal response run_id)).

(** [_upsert_action] *)
Definition upsert_action (p : AgentPlan) (a : PlannedAction) (include_step_id : bool) (message : option string) :
    st Ext unit :=
  ignore (upsert_agent_action (ars_client y) (pl_workspace_id p) (api_run_id p)
            (action_payload a include_step_id message)).

Definition record_plan_created (p : AgentPlan) : st Ext unit :=
  when (ars_enabled y) (
    upsert_agent_run_step (ars_client y) (pl_workspace_id p) (api_run_id p)
      [("stepId", PStr (stable_agent_run_uuid [pl_plan_id p; "plan"]));
       ("stepOrder", PInt 0);
       ("stepType", PStr "plan");
       ("status", PStr "completed");
       ("title", PStr (str_take AGENT_RUN_STEP_TITLE_MAX_LENGTH (str_or (strip (pl_goal p)) "Plan")));
       ("outputSummary", PStr ("Planned " +:+ pretty (length (pl_actions p)) +:+ " action(s)."))] ;;
    for_each (λ a, upsert_action p a false None) (pl_actions p)).

Definition record_run_failed (w run_id message : string) : st Ext unit :=
  when (ars_enabled y) (
    upsert_agent_run_step (ars_client y) w run_id
      [("stepId", PStr (stable_agent_run_uuid [run_id; "plan"]));
       ("stepOrder", PInt 0);
       ("stepType", PStr "plan");
       ("status", PStr "failed");
       ("title", PStr "Plan");
       ("outputSummary", PStr "Planning failed.");
       ("errorMessage", PStr (clip message))] ;;
    ignore (update_run w run_id "failed")).

Definition record_run_running (w run_id : string) : st Ext unit :=
  when (ars_enabled y) (
    response ← update_run w run_id "running";
    lift_res (raise_if_run_terminal response run_id)).

Definition record_action_state (p : AgentPlan) (a : PlannedAction) (event_name : string)
    (message : option string) : st Ext unit :=
  when (ars_enabled y) (
    order ← lift_res (action_step_order p a);
    upsert_agent_run_step (ars_client y) (pl_workspace_id p) (api_run_id p)
      (step_payload a order event_name message) ;;
    upsert_action p a true message ;;
    when (ostr_truthy message) (
      ignore (create_agent_action_event (ars_client y) (pl_workspace_id p) (action_api_id a)
        [("eventType", PStr event_name); ("message", PStr (clip (ostr_or message EmptyString)))])) ;;
    let run_status := if is_subplan p then "running" else run_status_to_api p in
    when (negb (bool_decide (run_status = "running"))) (
      ignore (update_run (pl_workspace_id p) (api_run_id p) run_status))).

Definition record_run_completed_by_id (w run_id : string) : st Ext unit :=
  when (ars_enabled y) (ignore (update_run w run_id "completed")).

Definition record_run_completed (p : AgentPlan) : st Ext unit :=
  when (ars_enabled y) (record_run_completed_by_id (pl_workspace_id p) (api_run_id p)).
End sync.

(** ** Lemmas *)

(** A request that sets the status of a run. *)
Definition sets_run_status (y : AgentRunSync) (w run_id status : string) (r : request) : Prop :=
  rq_method r = "PATCH" ∧
  (∃ u, cl_base_url (ars_client y) = Some u ∧ rq_url r = u +:+ run_path w run_id +:+ "/status") ∧
  rq_body r = Some (PDict [("status", PStr status)]).

(** The requests an operation adds all satisfy [P]. *)
Definition sends (P : request → Prop) (x x' : Ext) : Prop :=
  ∃ l, x_requests x' = l ++ x_requests x ∧ Forall P l.

#[export] Instance sends_preorder P : PreOrder (sends P).
Proof.
  split; [by intros x; exists []|].
  intros x z t (l1 & H1 & F1) (l2 & H2 & F2). exists (l2 ++ l1). rw H2 H1 app_assoc.
  split; [done|]. by apply Forall_app.
Qed.

Lemma request_json_sends `{Env} (P : request → Prop) c method path payload auth :
  (∀ u, cl_base_url c = Some u →
    P {| rq_method := method; rq_url := u +:+ path;
         rq_headers := request_headers c (match payload with Some _ => true | None => false end) auth;
         rq_body := payload |}) →
  respects (sends P) (request_json c method path payload auth).
Proof.
  intros HP x. unfold request_json. destruct (cl_base_url c) as [u|] eqn:Eu; [|by exists []].
  destruct (str_truthy u); [|by exists []]. unfold mbind, st_bind, urlopen, lift_res.
  destruct (check_url _) as [[]|]; [|by exists []]. simpl.
  eexists [_]. split; [reflexivity|]. constructor; [by apply HP|constructor].
Qed.

(** [r] does not set the status of a run. *)
Definition no_patch (r : request) : Prop := rq_method r ≠ "PATCH".

Section sync_lemmas.
Context `{Env} (y : AgentRunSync).

Lemma sends_weaken (P P' : request → Prop) {A} (m : st Ext A) :
  (∀ r, P r → P' r) → respects (sends P) m → respects (sends P') m.
Proof. intros HP Hm x. destruct (Hm x) as (l & Hl & HF). exists l. split; [done|]. eapply Forall_impl; eauto. Qed.

Lemma post_no_patch c path payload : respects (sends no_patch) (post c path payload).
Proof. apply request_json_sends. by intros u _. Qed.

Lemma update_run_sends w run_id status :
  respects (sends (sets_run_status y w run_id status)) (update_run y w run_id status).
Proof. apply request_json_sends. intros u Hu. split_and!; [done|by exists u|done]. Qed.

(** A successful update sent exactly one request. *)
Lemma update_run_Ok w run_id status v x x' :
  update_run y w run_id status x = (Ok v, x') →
  ∃ r, x_requests x' = r :: x_requests x ∧ sets_run_status y w run_id status r.
Proof.
  unfold update_run, update_agent_run_status, patch, request_json.
  destruct (cl_base_url (ars_client y)) as [u|] eqn:Eu; [|done]. destruct (str_truthy u); [|done].
  unfold mbind, st_bind, urlopen, lift_res. destruct (check_url _) as [[]|]; [|done]. intros [= _ <-]. eexists. split; [reflexivity|].
  split_and!; [done|by exists u|done].
Qed.

(** Everything [record_action_state] sends before the status of the run. *)
Lemma upsert_action_no_patch p a b m : respects (sends no_patch) (upsert_action y p a b m).
Proof. unfold upsert_action, ignore, upsert_agent_action. solve_respects; apply post_no_patch. Qed.
End sync_lemmas.

#[export] Hint Resolve upsert_action_no_patch post_no_patch : respects.

Definition run_status_of (p : AgentPlan) : string :=
  if is_subplan p then "running" else run_status_to_api p.

Lemma record_action_state_sends `{Env} y p a event_name message (P : request → Prop) :
  (∀ r, no_patch r → P r) →
  (run_status_of p ≠ "running" → ∀ r, sets_run_status y (pl_workspace_id p) (api_run_id p) (run_status_of p) r → P r) →
  respects (sends P) (record_action_state y p a event_name message).
Proof.
  intros HP HQ. unfold record_action_state. apply respects_when; [apply _|].
  apply respects_bind; [apply _|solve_respects|intros order].
  apply respects_bind; [apply _|eapply (sends_weaken no_patch); [done|apply post_no_patch]|intros _].
  apply respects_bind; [apply _|eapply (sends_weaken no_patch); [done|apply upsert_action_no_patch]|intros _].
  apply respects_bind; [apply _| |intros _].
  { eapply (sends_weaken no_patch); [done|]. unfold ignore, create_agent_action_event. apply respects_when; [apply _|].
    apply respects_bind; [apply _|apply post_no_patch|intros _; apply respects_ret; apply _]. }
  fold (run_status_of p). case_bool_decide as Hr; simpl; [apply respects_ret; apply _|].
  unfold ignore. apply respects_bind; [apply _| |intros; apply respects_ret; apply _].
  eapply sends_weaken; [exact (HQ Hr)|apply update_run_sends].
Qed.

(** ** Properties *)

(** reporting the state of an action updates the status of the run only
    for a whole-run plan and only to the status the plan has: for a sub-plan, and
    while the plan is running, no status update is sent; otherwise, when the report
    returns, its last request sets the run's status to the plan's; when the sync
    is off nothing is sent at all. *)
Theorem record_action_state_run_status `{Env} y p a event_name message x :
  let '(r, x') := record_action_state y p a event_name message x in
  (is_subplan p = true ∨ run_status_to_api p = "running" → sends no_patch x x') ∧
  sends (λ rq, no_patch rq ∨ sets_run_status y (pl_workspace_id p) (api_run_id p) (run_status_to_api p) rq) x x' ∧
  (ars_enabled y = false → r = Ok tt ∧ x' = x) ∧
  (r = Ok tt → ars_enabled y = true → is_subplan p = false → run_status_to_api p ≠ "running" →
     ∃ rq l, x_requests x' = rq :: l ∧
       sets_run_status y (pl_workspace_id p) (api_run_id p) (run_status_to_api p) rq).
Proof.
  destruct (record_action_state y p a event_name message x) as [r x'] eqn:E. split_and!.
  - intros Hq. pose proof (record_action_state_sends y p a event_name message no_patch ltac:(done)) as Hs.
    specialize (Hs ltac:(unfold run_status_of; by destruct Hq as [->|Hq]; [|destruct (is_subplan p); rw ?Hq]) x).
    by rw E in Hs.
  - assert (Hs : respects (sends (λ rq, no_patch rq ∨
      sets_run_status y (pl_workspace_id p) (api_run_id p) (run_status_to_api p) rq))
      (record_action_state y p a event_name message)).
    { apply record_action_state_sends; [by left|]. unfold run_status_of. destruct (is_subplan p); [done|]. by right. }
    specialize (Hs x). by rw E in Hs.
  - unfold record_action_state. intros Hen. unfold record_action_state in E. rw Hen in E. by injection E.
  - intros -> Hen Hsub Hst. unfold record_action_state in E. rw Hen Hsub /= in E.
    apply bind_Ok in E as (order & y1 & _ & E). apply bind_Ok in E as (v2 & y2 & _ & E).
    apply bind_Ok in E as (v3 & y3 & _ & E). apply bind_Ok in E as (v4 & y4 & _ & E).
    rw bool_decide_eq_false_2 //= in E. unfold ignore in E. apply bind_Ok in E as (v & y5 & E & E').
    injection E' as <-. apply update_run_Ok in E as (rq & Hrq & Hset). by exists rq, (x_requests y4).
Qed.
