(* ===== verification/Validation.v ===== *)
(** * Validation of actions ([src/application/validator.py])

    The checks before an action is executed (permission, stale context,
    approval) and after it. *)

From S2P Require Import Prelude PyStr PyVal Events Plans Policies Env Client Definitions Records.

(** [ValidationResult(stale_entities=...)]: pydantic takes strings and integers
    as versions and refuses anything else. *)
Fixpoint checked_stale (d : dict stale_entry) : option (dict stale_entry) :=
  match d with
  | [] => Some []
  | (k, e) :: d' =>
      match as_version (st_current e), checked_stale d' with
      | Some v, Some d'' =>
          Some ((k, {| st_expected := st_expected e; st_current := version_val v |}) :: d'')
      | _, _ => None
      end
  end.

Section validator.
Context `{Env}.

(** [_approval_suggestion]: the target is the first expected entity. *)
Definition approval_suggestion (a : PlannedAction) (c : AgentContext) : st Ext AgentSuggestion :=
  new_suggestion (cx_workspace_id c) (cx_project_id c) (ac_plan_id a) (ac_action_id a)
    ("Approval required: " +:+ ac_tool_name a) (ac_instruction a)
    (head (dict_keys (ac_expected_entity_versions a)))
    [("tool_name", PStr (ac_tool_name a)); ("action_type", PStr (ac_action_type a));
     ("input", PDict (ac_input a))].

(** [_suggestion_event] *)
Definition suggestion_event (s : AgentSuggestion) (c : AgentContext) : st Ext RuntimeEvent :=
  let source := base (source_event c) in
  b ← new_base "agent_suggestion.created" (cx_workspace_id c) (cx_project_id c)
        [("suggestion_id", PStr (sg_suggestion_id s))] None
        (causality_child (ev_causality source) (ev_event_id source)) None;
  mret (DomainEvent b).

Definition validate_before_execution (a : PlannedAction) (c : AgentContext) : st Ext ValidationResult :=
  if negb (dict_get_or true (ac_tool_name a) (cx_permissions c)) then
    mret (mk_validation DFail false (Some ("permission_denied:" +:+ ac_tool_name a)) [] [] None)
  else
    current_versions ← get_current_entity_versions (dict_keys (ac_expected_entity_versions a));
    let stale := stale_diff (ac_expected_entity_versions a) current_versions in
    match stale with
    | _ :: _ =>
        match checked_stale stale with
        | Some stale => mret (mk_validation DReplan false (Some "stale_context") stale [] None)
        | None => validation_error "ValidationResult"
        end
    | [] =>
        if ac_requires_approval a then
          suggestion ← approval_suggestion a c;
          event ← suggestion_event suggestion c;
          envelope ← wrap event;
          mret (mk_validation DSuggest true (Some "approval_required") [] [envelope] (Some suggestion))
        else mret (mk_validation DCommit true None [] [] None)
    end.

Definition validate_after_execution (r : ToolResult) : ValidationResult :=
  if tr_success r then mk_validation DCommit true None [] (tr_emitted_events r) (tr_suggestion r)
  else mk_validation DRetry false (Some (ostr_or (tr_error r) "tool_execution_failed")) [] [] None.

Definition approval_result (a : PlannedAction) (v : ValidationResult) : st Ext ToolResult :=
  new_tool_result (ac_plan_id a) (ac_action_id a) (ac_tool_name a) true
    [("decision", PStr (decision_value (vr_decision v))); ("reason", ostr (vr_reason v));
     ("requires_approval", PBool true); ("original_input", PDict (ac_input a))]
    None (vr_emitted_events v) (vr_suggestion v).
End validator.

(** ** Lemmas *)

Lemma get_current_eq refs x :
  get_current_entity_versions refs x
  = (Ok (dict_of (omap (λ r, option_map (pair r) (dict_get r (x_versions x))) refs)), x).
Proof. done. Qed.

(** What is stale for an action in a state of the environment. *)
Definition stale_now (a : PlannedAction) (x : Ext) : dict stale_entry :=
  stale_diff (ac_expected_entity_versions a)
    (dict_of (omap (λ r, option_map (pair r) (dict_get r (x_versions x)))
       (dict_keys (ac_expected_entity_versions a)))).

Definition permitted (a : PlannedAction) (c : AgentContext) : bool :=
  dict_get_or true (ac_tool_name a) (cx_permissions c).

Section validator_lemmas.
Context `{Env}.

Lemma validate_before_quiet a c : respects ext_quiet (validate_before_execution a c).
Proof.
  unfold validate_before_execution. destruct (negb _); [apply respects_ret; apply _|].
  apply respects_bind; [apply _|by intros x|intros cv].
  destruct (stale_diff _ cv) as [|e l].
  - destruct (ac_requires_approval a); [|apply respects_ret; apply _].
    unfold approval_suggestion, suggestion_event, wrap. solve_respects.
  - destruct (checked_stale _); solve_respects.
Qed.

Lemma approval_result_quiet a v : respects ext_quiet (approval_result a v).
Proof. unfold approval_result. solve_respects. Qed.

(** The decision, by cases. *)
Lemma validate_before_cases a c x :
  let '(r, x') := validate_before_execution a c x in
  if negb (permitted a c)
  then x' = x ∧ r = Ok (mk_validation DFail false (Some ("permission_denied:" +:+ ac_tool_name a)) [] [] None)
  else match stale_now a x with
       | _ :: _ =>
           x' = x ∧ match r with
                    | Ok v => checked_stale (stale_now a x) = Some (vr_stale_entities v) ∧
                        v = mk_validation DReplan false (Some "stale_context") (vr_stale_entities v) [] None
                    | Raise e => exc_type e = ValueError ∧ checked_stale (stale_now a x) = None
                    end
       | [] =>
           if ac_requires_approval a
           then ∃ s env, r = Ok (mk_validation DSuggest true (Some "approval_required") [] [env] (Some s)) ∧
                ev_event_type (base (env_event env)) = "agent_suggestion.created"
           else x' = x ∧ r = Ok (mk_validation DCommit true None [] [] None)
       end.
Proof.
  unfold validate_before_execution, permitted. destruct (negb _) eqn:Ep; [done|].
  unfold mbind, st_bind. rw get_current_eq. fold (stale_now a x).
  destruct (stale_now a x) as [|e l] eqn:Es.
  - destruct (ac_requires_approval a); [|done]. simpl. eauto 10.
  - destruct (checked_stale (e :: l)) as [d|] eqn:Ec; simpl; done.
Qed.
End validator_lemmas.

#[export] Hint Resolve validate_before_quiet approval_result_quiet : respects.

(** ** Properties *)

(** Before an action is executed, a denied permission fails it whatever
    else holds; else an expected entity that was observed in another version asks
    for a new plan; else an action that requires approval becomes a suggestion,
    announced by one event; and only an action that passes all three is let
    through.  No decision sends a request or changes the observed versions. *)
Theorem validate_before_execution_spec `{Env} a c x v x' :
  validate_before_execution a c x = (Ok v, x') →
  (vr_decision v = DFail ↔ dict_get_or true (ac_tool_name a) (cx_permissions c) = false) ∧
  (vr_decision v = DReplan ↔ dict_get_or true (ac_tool_name a) (cx_permissions c) = true ∧ stale_now a x ≠ []) ∧
  (vr_decision v = DSuggest ↔ dict_get_or true (ac_tool_name a) (cx_permissions c) = true ∧
     stale_now a x = [] ∧ ac_requires_approval a = true) ∧
  (vr_decision v = DCommit ↔ dict_get_or true (ac_tool_name a) (cx_permissions c) = true ∧
     stale_now a x = [] ∧ ac_requires_approval a = false) ∧
  (vr_decision v = DSuggest → ∃ env, vr_emitted_events v = [env] ∧
     ev_event_type (base (env_event env)) = "agent_suggestion.created") ∧
  (vr_decision v ≠ DSuggest → vr_emitted_events v = []) ∧
  x_requests x' = x_requests x ∧ x_versions x' = x_versions x.
Proof.
  intros E. pose proof (validate_before_quiet a c x) as [Hq1 Hq2]. pose proof (validate_before_cases a c x) as Hc.
  rw E in Hq1 Hq2 Hc. unfold permitted in Hc. simpl in Hq1, Hq2. destruct (dict_get_or _ _ _); simpl in Hc.
  2:{ destruct Hc as [_ [= ->]]. naive_solver. }
  destruct (stale_now a x) as [|e l].
  - destruct (ac_requires_approval a).
    + destruct Hc as (s & env & [= ->] & Hev). simpl. naive_solver.
    + destruct Hc as [_ [= ->]]. naive_solver.
  - destruct Hc as (_ & _ & ->). naive_solver.
Qed.

Definition sample_context (w : string) : AgentContext := {|
  cx_workspace_id := w; cx_project_id := None;
  cx_source_event := {| env_envelope_id := "env"; env_event := DomainEvent {|
     ev_event_id := "evt"; ev_event_type := "story.created"; ev_workspace_id := w; ev_project_id := None;
     ev_payload := []; ev_occurred_at := 0; ev_correlation_id := None; ev_causality := causality_root;
     ev_idempotency_key := None |}; env_received_at := 0; env_attempt := 0 |};
  cx_workflow_id := "wf"; cx_entities := []; cx_retrieved_documents := []; cx_permissions := [];
  cx_entity_versions := []; cx_previous_agent_outputs := []; cx_runtime_metadata := [] |}.

Lemma validate_before_execution_witness :
  vr_decision (mk_validation DCommit true None [] [] None) = DCommit ↔
  dict_get_or true "create_workitem" (cx_permissions (sample_context "ws")) = true ∧
  stale_now (sample_action "a" []) ext0 = [] ∧ ac_requires_approval (sample_action "a" []) = false.
Proof.
  exact (proj1 (proj2 (proj2 (proj2 (@validate_before_execution_spec env_ok (sample_action "a" [])
    (sample_context "ws") ext0 (mk_validation DCommit true None [] [] None) ext0 eq_refl))))).
Defined.
