(* ===== verification/Planning.v ===== *)
(** * Planning ([src/application/planner.py], [src/application/orchestrator.py],
    [src/application/subagent_runner.py])

    From a workflow and a context to a plan the runtime can execute, and from a
    workflow's declared orchestration to a task graph.  The language model's agent
    is the interface [AgentFactory]: it proposes a plan, which the planner
    normalizes. *)

From S2P Require Import Prelude PyStr PyVal Events Plans SubTasks Policies Env Definitions Records Validation.

(** An executable tool: its definition and what [execute] does. *)
Record Tool := {
  tl_definition : ToolPromptDefinition;
  tl_execute : PlannedAction → AgentContext → st Ext ToolResult
}.
Definition tl_name (t : Tool) : string := tp_id (tl_definition t).

(** [create_agent(workflow_prompt, skills, tools, model_tier).generate_plan(context, ref, policy)] *)
Class AgentFactory := {
  generate_plan : WorkflowPromptDefinition → list SkillPromptDefinition → list Tool → option string →
    AgentContext → string → ActionApprovalPolicy → st Ext AgentPlan
}.

(** ** The planner *)

Definition APPROVAL_VALUE_MAP : dict ApprovalMode :=
  [("auto_commit", AUTO_COMMIT); ("user_approval_required", USER_APPROVAL_REQUIRED);
   ("suggest_only", SUGGEST_ONLY); ("suggest", SUGGEST_ONLY)].

(** [_scope_context] *)
Definition scope_context (c : AgentContext) (context_scope : option (list string)) : AgentContext :=
  match context_scope with
  | None | Some [] => c
  | Some scope => context_with_entities (List.filter (λ kv, str_in kv.1 scope) (cx_entities c)) c
  end.

(** [_idempotency_prefix] *)
Definition idempotency_prefix (c : AgentContext) (agent_run_id : string) (plan_id : option string) : string :=
  let default := ostr_or (ev_idempotency_key (base (source_event c))) agent_run_id in
  match plan_id with
  | Some p => if negb (bool_decide (p = agent_run_id)) then p else default
  | None => default
  end.

(** [_approval_policy] *)
Definition approval_policy_of (raw_policy : dict string) : ActionApprovalPolicy := {|
  ap_default_mode := AUTO_COMMIT;
  ap_tool_modes := map (λ kv, (kv.1, dict_get_or USER_APPROVAL_REQUIRED kv.2 APPROVAL_VALUE_MAP)) raw_policy |}.

(** [_tool_approval_policy] *)
Fixpoint tool_approval_items (r : ToolRegistry Tool) (tool_names : list string) : res (list (string * string)) :=
  match tool_names with
  | [] => Ok []
  | n :: l =>
      d ← tool_definition r n;
      items ← tool_approval_items r l;
      mret ((n, tp_approval_policy d) :: items)
  end.
Definition tool_approval_policy (r : ToolRegistry Tool) (tool_names : list string) : res (dict string) :=
  items ← tool_approval_items r tool_names; mret (dict_of items).

(** [_ensure_plan_uses_allowed_tools] *)
Definition disallowed_tools (p : AgentPlan) (allowed : list string) : list string :=
  remove_dups (List.filter (λ t, negb (str_in t allowed)) (map ac_tool_name (pl_actions p))).

Definition ensure_plan_uses_allowed_tools (p : AgentPlan) (allowed : list string) : res unit :=
  match disallowed_tools p allowed with
  | [] => Ok tt
  | l => err ValueError ("Plan contains tools not allowed by selected skills: " +:+ str_join ", " (str_sorted l))
  end.

Definition plan_idempotency_key (prefix tool_name : string) (index : nat) : string :=
  prefix +:+ ":" +:+ tool_name +:+ ":" +:+ pretty index.

(** One action of [_normalize_plan_for_runtime]. *)
Definition normalize_action (plan_id prefix : string) (versions : dict version) (policy : ActionApprovalPolicy)
    (previous : option string) (index : nat) (a : PlannedAction) : PlannedAction := {|
  ac_action_id := ac_action_id a; ac_plan_id := plan_id; ac_action_type := ac_action_type a;
  ac_tool_name := ac_tool_name a; ac_instruction := ac_instruction a; ac_input := ac_input a;
  ac_work_items := ac_work_items a; ac_work_item_updates := ac_work_item_updates a;
  ac_target_item_ids := ac_target_item_ids a;
  ac_depends_on := if ostr_truthy previous then [ostr_or previous EmptyString] else [];
  ac_requires_approval := requires_approval policy (ac_tool_name a);
  ac_status := APending;
  ac_idempotency_key := plan_idempotency_key prefix (ac_tool_name a) index;
  ac_expected_entity_versions := versions;
  ac_created_at := ac_created_at a; ac_updated_at := ac_updated_at a |}.

Fixpoint normalize_actions (plan_id prefix : string) (versions : dict version) (policy : ActionApprovalPolicy)
    (previous : option string) (index : nat) (l : list PlannedAction) : list PlannedAction :=
  match l with
  | [] => []
  | a :: l' =>
      normalize_action plan_id prefix versions policy previous index a ::
      normalize_actions plan_id prefix versions policy (Some (ac_action_id a)) (S index) l'
  end.

Definition normalize_plan_for_runtime (p : AgentPlan) (c : AgentContext) (context_snapshot_ref plan_id prefix
    prompt_id prompt_version goal : string) (skill_ids tool_names : list string) (policy : ActionApprovalPolicy) :
    AgentPlan := {|
  pl_plan_id := plan_id; pl_parent_run_id := pl_parent_run_id p; pl_node_id := pl_node_id p;
  pl_source_event_id := envelope_event_id (cx_source_event c);
  pl_workspace_id := cx_workspace_id c; pl_project_id := cx_project_id c;
  pl_goal := goal; pl_prompt_id := prompt_id; pl_prompt_version := prompt_version;
  pl_skill_ids := skill_ids; pl_tool_names := tool_names;
  pl_actions := normalize_actions plan_id prefix (cx_entity_versions c) policy None 1 (pl_actions p);
  pl_status := PPlanned; pl_context_snapshot_ref := context_snapshot_ref;
  pl_created_at := pl_created_at p; pl_updated_at := pl_updated_at p |}.

Record Planner := {
  pn_prompt_registry : PromptRegistry;
  pn_skill_registry : SkillRegistry;
  pn_tool_registry : ToolRegistry Tool
}.

(** The approval policy [create_plan] uses. *)
Definition plan_approval_policy (pn : Planner) (w : WorkflowDefinition) (allowed : list string) :
    res ActionApprovalPolicy :=
  tool_policy ← tool_approval_policy (pn_tool_registry pn) allowed;
  mret (approval_policy_of (dict_update tool_policy (wf_approval_policy w))).

Definition create_plan `{Env} `{AgentFactory} (pn : Planner) (c : AgentContext) (context_snapshot_ref : string)
    (w : WorkflowDefinition) (agent_run_id : string) (plan_id : option string)
    (skill_ids_opt : option (list string)) (context_scope : option (list string)) (model_tier : option string) :
    st Ext AgentPlan :=
  prompt ← lift_res (get_workflow (pn_prompt_registry pn) (wf_prompt_id w) (wf_prompt_version w));
  let skill_names := match skill_ids_opt with Some l => l | None => wf_required_skills w end in
  let target_plan_id := ostr_or plan_id agent_run_id in
  skills ← lift_res (skill_select (pn_skill_registry pn) skill_names);
  allowed ← lift_res (allowed_tools_for (pn_skill_registry pn) skill_names);
  tools ← lift_res (tool_select (pn_tool_registry pn) allowed);
  policy ← lift_res (plan_approval_policy pn w allowed);
  plan ← generate_plan prompt skills tools model_tier (scope_context c context_scope) context_snapshot_ref policy;
  let plan := normalize_plan_for_runtime plan c context_snapshot_ref target_plan_id
                (idempotency_prefix c agent_run_id plan_id) (wp_id prompt) (wp_version prompt) (wp_goal prompt)
                (map sk_id skills) (map tl_name tools) policy in
  lift_res (ensure_plan_uses_allowed_tools plan allowed) ;;
  mret plan.

(** ** The orchestrator *)

Definition ROOT_NODE_ID : string := "root".
Definition SYNTHESIZER_NODE_ID : string := "synthesizer".
Definition DEFAULT_MODEL_TIER : string := "pro".

Definition new_graph `{Env} (c : AgentContext) (nodes : list SubTask) (synthesizer : option SubTask) :
    st Ext TaskGraph :=
  plan_id ← new_uuid;
  mret {| tg_plan_id := plan_id; tg_workspace_id := cx_workspace_id c; tg_project_id := cx_project_id c;
          tg_context_snapshot_ref := None; tg_version := 0; tg_nodes := nodes;
          tg_synthesizer_node := synthesizer |}.

Definition root_node (w : WorkflowDefinition) : SubTask := {|
  nd_node_id := ROOT_NODE_ID; nd_skill_ids := wf_required_skills w; nd_objective := wf_goal w;
  nd_depends_on := []; nd_context_scope := []; nd_model_tier := DEFAULT_MODEL_TIER; nd_status := SPending |}.

Definition build_task_graph `{Env} (c : AgentContext) (w : WorkflowDefinition) : st Ext TaskGraph :=
  new_graph c [root_node w] None.

(** [_resolve_tier]; the skill registry is optional. *)
Definition resolve_tier (r : option SkillRegistry) (d : OrchestrationNodeDef) (skills : list string) : string :=
  if ostr_truthy (od_model_tier d) then ostr_or (od_model_tier d) EmptyString
  else match r, skills with
       | Some r, s :: _ => match model_tier r s with Ok t => t | Raise _ => DEFAULT_MODEL_TIER end
       | _, _ => DEFAULT_MODEL_TIER
       end.

(** [_build_node] *)
Definition build_node (r : option SkillRegistry) (d : OrchestrationNodeDef) (w : WorkflowDefinition)
    (fallback_node_id : string) (default_depends_on : list string) : res SubTask :=
  let node_id := str_or (od_node d) fallback_node_id in
  let skills := skill_ids d in
  match skills with
  | [] => err ValueError ("Orchestration node '" +:+ node_id +:+ "' in workflow '" +:+ wf_id w +:+
                          "' declares no skill.")
  | _ =>
      Ok {| nd_node_id := node_id; nd_skill_ids := skills;
            nd_objective := str_or (od_objective d) (wf_goal w);
            nd_depends_on := match od_depends_on d with [] => default_depends_on | l => l end;
            nd_context_scope := od_context_scope d;
            nd_model_tier := resolve_tier r d skills; nd_status := SPending |}
  end.

Fixpoint build_nodes (r : option SkillRegistry) (w : WorkflowDefinition) (index : nat)
    (l : list OrchestrationNodeDef) : res (list SubTask) :=
  match l with
  | [] => Ok []
  | d :: l' =>
      n ← build_node r d w ("node_" +:+ pretty index) [];
      ns ← build_nodes r w (S index) l';
      mret (n :: ns)
  end.

Definition build_orchestrated_graph `{Env} (r : option SkillRegistry) (c : AgentContext) (w : WorkflowDefinition) :
    st Ext TaskGraph :=
  match wf_orchestration w with
  | None => build_task_graph c w
  | Some o =>
      match or_default_graph o with
      | [] => build_task_graph c w
      | defs =>
          nodes ← lift_res (build_nodes r w 0 defs);
          synthesizer ← lift_res match or_synthesizer o with
                                 | None => Ok None
                                 | Some d => n ← build_node r d w SYNTHESIZER_NODE_ID (map nd_node_id nodes);
                                             mret (Some n)
                                 end;
          new_graph c nodes synthesizer
      end
  end.

(** ** The subagent runner *)

Definition sub_plan_id (agent_run_id node_id : string) : string := agent_run_id +:+ "::" +:+ node_id.

(** [l or None], [s or None] *)
Definition list_or_none {A} (l : list A) : option (list A) := match l with [] => None | _ => Some l end.
Definition str_or_none (s : string) : option string := if str_truthy s then Some s else None.

Definition plan_for_node `{Env} `{AgentFactory} (pn : Planner) (n : SubTask) (c : AgentContext)
    (context_snapshot_ref : string) (w : WorkflowDefinition) (agent_run_id : string) : st Ext AgentPlan :=
  if bool_decide (nd_node_id n = ROOT_NODE_ID) then
    create_plan pn c context_snapshot_ref w agent_run_id None None None None
  else
    plan ← create_plan pn c context_snapshot_ref w agent_run_id
             (Some (sub_plan_id agent_run_id (nd_node_id n))) (list_or_none (nd_skill_ids n))
             (list_or_none (nd_context_scope n)) (str_or_none (nd_model_tier n));
    mret (plan_as_subplan agent_run_id (nd_node_id n) plan).

(** ** Lemmas *)

Section normalize.
Context (plan_id prefix : string) (versions : dict version) (policy : ActionApprovalPolicy).
Abbreviation norm := (normalize_actions plan_id prefix versions policy).

Lemma normalize_ids prev i l : map ac_action_id (norm prev i l) = map ac_action_id l.
Proof. revert prev i. induction l as [|a l IH]; intros prev i; simpl; [done|]. by rw IH. Qed.

Lemma normalize_tools prev i l : map ac_tool_name (norm prev i l) = map ac_tool_name l.
Proof. revert prev i. induction l as [|a l IH]; intros prev i; simpl; [done|]. by rw IH. Qed.

Lemma normalize_lookup prev i l k a :
  norm prev i l !! k = Some a →
  ∃ b, l !! k = Some b ∧ ac_action_id a = ac_action_id b ∧ ac_tool_name a = ac_tool_name b ∧
    ac_plan_id a = plan_id ∧ ac_status a = APending ∧
    ac_requires_approval a = requires_approval policy (ac_tool_name b) ∧
    ac_idempotency_key a = plan_idempotency_key prefix (ac_tool_name b) (i + k) ∧
    ac_expected_entity_versions a = versions ∧ ac_input a = ac_input b.
Proof.
  revert prev i k. induction l as [|b l IH]; intros prev i [|k]; simpl; try done.
  - intros [= <-]. exists b. rw Nat.add_0_r. done.
  - intros Hk. destruct (IH _ _ _ Hk) as (b' & ? & ? & ? & ? & ? & ? & Hkey & ? & ?).
    exists b'. rw Hkey. replace (S i + k)%nat with (i + S k)%nat by lia. done.
Qed.

Lemma normalize_chained prev i l :
  Forall (λ i, str_truthy i = true) (map ac_action_id l) →
  chained_from (if ostr_truthy prev then [ostr_or prev EmptyString] else []) (norm prev i l).
Proof.
  revert prev i. induction l as [|a l IH]; intros prev i; simpl; [done|].
  intros [Ha Hl]%Forall_cons. split; [done|]. specialize (IH (Some (ac_action_id a)) (S i) Hl). simpl in IH.
  unfold str_or in IH. by rw Ha in IH.
Qed.
End normalize.

Lemma plan_idempotency_key_inj prefix t1 t2 i1 i2 :
  plan_idempotency_key prefix t1 i1 = plan_idempotency_key prefix t2 i2 → t1 = t2 ∧ i1 = i2.
Proof.
  unfold plan_idempotency_key. intros H%append_inj_l%append_inj_l.
  apply (f_equal chars) in H. rw !chars_app in H.
  change (chars ":" ++ chars (pretty i1)) with (":"%char :: chars (pretty i1)) in H.
  change (chars ":" ++ chars (pretty i2)) with (":"%char :: chars (pretty i2)) in H.
  apply last_sep_inj in H as [Ht Hi]; [|apply pretty_nat_no_colon..].
  apply chars_inj in Ht, Hi. split; [done|]. by apply (inj pretty).
Qed.

Lemma disallowed_nil p allowed :
  disallowed_tools p allowed = [] ↔ ∀ a, a ∈ pl_actions p → ac_tool_name a ∈ allowed.
Proof.
  unfold disallowed_tools. split.
  - intros Hd a Ha. destruct (decide (ac_tool_name a ∈ allowed)) as [|Hn]; [done|]. exfalso.
    apply (not_elem_of_nil (ac_tool_name a)). rw -Hd elem_of_remove_dups filter_elem. split.
    + apply list_elem_of_fmap. eauto.
    + unfold str_in. by rw bool_decide_eq_false_2.
  - intros Ha. destruct (remove_dups _) as [|t l] eqn:E; [done|]. exfalso.
    assert (Ht : t ∈ remove_dups (List.filter (λ t, negb (str_in t allowed)) (map ac_tool_name (pl_actions p))))
      by (rw E; by left).
    rw elem_of_remove_dups filter_elem in Ht. destruct Ht as [Ht Hn].
    apply list_elem_of_fmap in Ht as (a & -> & Hin). apply Ha in Hin.
    unfold str_in in Hn. by rw bool_decide_eq_true_2 in Hn.
Qed.

Lemma build_nodes_Ok r w i l ns :
  build_nodes r w i l = Ok ns →
  length ns = length l ∧
  ∀ k d n, l !! k = Some d → ns !! k = Some n →
    build_node r d w ("node_" +:+ pretty (i + k)%nat) [] = Ok n.
Proof.
  revert i ns. induction l as [|d l IH]; intros i ns; simpl.
  - intros [= <-]. split; [done|]. by intros k ? ? Hk.
  - unfold mbind, res_bind. destruct (build_node _ _ _ _ _) as [n|e] eqn:En; [|done].
    destruct (build_nodes r w (S i) l) as [ns'|e] eqn:Es; [|done]. intros [= <-].
    destruct (IH (S i) ns' Es) as [Hlen Hk]. split; [simpl; congruence|].
    intros [|k] d' n' Hd Hn; simpl in *.
    + simplify_eq. by rw Nat.add_0_r.
    + replace (i + S k)%nat with (S i + k)%nat by lia. by apply Hk.
Qed.

Lemma build_nodes_Raise r w i l e :
  build_nodes r w i l = Raise e → exc_type e = ValueError ∧ ∃ d, d ∈ l ∧ skill_ids d = [].
Proof.
  revert i. induction l as [|d l IH]; intros i; simpl; [done|].
  unfold mbind, res_bind. destruct (build_node _ _ _ _ _) as [n|e'] eqn:En.
  - destruct (build_nodes r w (S i) l) as [ns'|e'] eqn:Es; [done|]. intros [= <-].
    destruct (IH _ Es) as (? & d' & ? & ?). split; [done|]. exists d'. split; [by right|done].
  - intros [= <-]. unfold build_node in En. destruct (skill_ids d) eqn:Ed; [|done].
    injection En as <-. split; [done|]. exists d. split; [by left|done].
Qed.

Lemma build_node_Ok r d w fb deps n :
  build_node r d w fb deps = Ok n →
  nd_status n = SPending ∧ skill_ids d ≠ [] ∧ nd_node_id n = str_or (od_node d) fb ∧
  nd_skill_ids n = skill_ids d ∧
  nd_depends_on n = match od_depends_on d with [] => deps | l => l end ∧
  nd_context_scope n = od_context_scope d.
Proof. unfold build_node. destruct (skill_ids d) eqn:E; [done|]. by intros [= <-]. Qed.

(** ** Properties *)

(** Whatever the language model proposes, a plan [create_plan] returns
    uses only tools the selected skills allow, is planned under the requested id
    with every action pending and bound to it, requires approval exactly for the
    tools whose mode is not auto-commit, expects the entity versions of the
    context, and gives its actions distinct idempotency keys; if the proposed
    action ids are distinct and not empty it is a chained plan. *)
Theorem create_plan_spec `{Env} `{AgentFactory} pn c ref w run_id plan_id skills scope tier x p x' :
  create_plan pn c ref w run_id plan_id skills scope tier x = (Ok p, x') →
  ∃ allowed policy,
    allowed_tools_for (pn_skill_registry pn)
      (match skills with Some l => l | None => wf_required_skills w end) = Ok allowed ∧
    plan_approval_policy pn w allowed = Ok policy ∧
    pl_plan_id p = ostr_or plan_id run_id ∧ pl_status p = PPlanned ∧
    pl_context_snapshot_ref p = ref ∧ pl_workspace_id p = cx_workspace_id c ∧
    (∀ a, a ∈ pl_actions p →
       ac_tool_name a ∈ allowed ∧ ac_plan_id a = pl_plan_id p ∧ ac_status a = APending ∧
       ac_requires_approval a = requires_approval policy (ac_tool_name a) ∧
       ac_expected_entity_versions a = cx_entity_versions c) ∧
    NoDup (map ac_idempotency_key (pl_actions p)) ∧
    (NoDup (map ac_action_id (pl_actions p)) →
     Forall (λ i, str_truthy i = true) (map ac_action_id (pl_actions p)) → chained_plan p).
Proof.
  unfold create_plan. intros E.
  apply bind_Ok in E as (prompt & x1 & _ & E). apply bind_Ok in E as (sks & x2 & _ & E).
  apply bind_Ok in E as (allowed & x3 & Hal & E). apply lift_Ok in Hal as [Hal _].
  apply bind_Ok in E as (tools & x4 & _ & E). apply bind_Ok in E as (policy & x5 & Hpol & E).
  apply lift_Ok in Hpol as [Hpol _]. apply bind_Ok in E as (proposal & x6 & _ & E).
  apply bind_Ok in E as (u & x7 & Hens & E). apply lift_Ok in Hens as [Hens _].
  injection E as <- _. exists allowed, policy.
  unfold ensure_plan_uses_allowed_tools in Hens.
  destruct (disallowed_tools _ _) eqn:Hd; [|done]. rw disallowed_nil in Hd. clear Hens.
  split_and!; try done.
  - intros a Ha. split; [by apply Hd|]. apply list_elem_of_lookup in Ha as [k Hk].
    apply normalize_lookup in Hk as (b & _ & _ & Ht & Hp & Hs & Hr & _ & Hv & _). by rw Ht.
  - apply NoDup_alt. intros i j k Hi Hj. unfold map in Hi, Hj. rw list_lookup_fmap in Hi. rw list_lookup_fmap in Hj.
    cbn [pl_actions normalize_plan_for_runtime] in Hi, Hj.
    apply fmap_Some in Hi as (a & Ha & ->). apply fmap_Some in Hj as (b & Hb & Hkey).
    apply normalize_lookup in Ha as (a0 & _ & _ & _ & _ & _ & _ & Hka & _).
    apply normalize_lookup in Hb as (b0 & _ & _ & _ & _ & _ & _ & Hkb & _).
    rw Hka Hkb in Hkey. apply plan_idempotency_key_inj in Hkey as [_ ?]. lia.
  - intros Hnd Hid. constructor; [|done]. cbn [pl_actions normalize_plan_for_runtime] in *.
    rw normalize_ids in Hid. by apply (normalize_chained _ _ _ _ None).
Qed.

(** An orchestrated graph is built as declared and nothing of it has
    started: one pending node per declared node, in order, with the declared skills
    and dependencies, and a synthesizer that, unless it declares its own
    dependencies, depends on every node; building fails, with a [ValueError],
    only when a declared node has no skill; with distinct ids the graph is
    [fresh_graph], so that [orchestrated_safe] applies to its run. *)
Theorem build_orchestrated_graph_spec `{Env} r c w o d ds x :
  wf_orchestration w = Some o → or_default_graph o = d :: ds →
  match (build_orchestrated_graph r c w x).1 with
  | Ok g =>
      length (tg_nodes g) = length (d :: ds) ∧
      (∀ k nd n, (d :: ds) !! k = Some nd → tg_nodes g !! k = Some n →
         nd_node_id n = str_or (od_node nd) ("node_" +:+ pretty k) ∧ nd_skill_ids n = skill_ids nd ∧
         nd_depends_on n = od_depends_on nd ∧ nd_status n = SPending) ∧
      (∀ n, tg_synthesizer_node g = Some n → nd_status n = SPending ∧
         (∀ nd, or_synthesizer o = Some nd → od_depends_on nd = [] → nd_depends_on n = map nd_node_id (tg_nodes g))) ∧
      (NoDup (map nd_node_id (subtasks g)) → fresh_graph g)
  | Raise e => exc_type e = ValueError ∧
      ∃ nd, (nd ∈ d :: ds ∨ or_synthesizer o = Some nd) ∧ skill_ids nd = []
  end.
Proof.
  intros Ho Hd. unfold build_orchestrated_graph. rw Ho Hd. unfold mbind at 1, st_bind at 1, lift_res at 1.
  destruct (build_nodes r w 0 (d :: ds)) as [ns|e] eqn:En.
  2:{ apply build_nodes_Raise in En as (? & nd & ? & ?). simpl. split; [done|]. exists nd. auto. }
  apply build_nodes_Ok in En as [Hlen Hk].
  assert (Hnode : ∀ k nd n, (d :: ds) !! k = Some nd → ns !! k = Some n →
     nd_node_id n = str_or (od_node nd) ("node_" +:+ pretty k) ∧ nd_skill_ids n = skill_ids nd ∧
     nd_depends_on n = od_depends_on nd ∧ nd_status n = SPending).
  { intros k nd n Hnd Hn. destruct (build_node_Ok _ _ _ _ _ _ (Hk k nd n Hnd Hn)) as (? & _ & ? & ? & Hdep & _).
    split_and!; try done. rw Hdep. by destruct (od_depends_on nd). }
  assert (Hpend : ∀ n, n ∈ ns → nd_status n = SPending).
  { intros n [k Hkn]%list_elem_of_lookup. destruct (lookup_lt_is_Some_2 (d :: ds) k) as [nd Hnd].
    { rw -Hlen. by eapply lookup_lt_Some. } by destruct (Hnode k nd n Hnd Hkn) as (_ & _ & _ & ?). }
  assert (Hne : ns ≠ []) by (intros ->; done).
  unfold mbind, st_bind, lift_res. destruct (or_synthesizer o) as [sd|] eqn:Es.
  - destruct (build_node r sd w SYNTHESIZER_NODE_ID (map nd_node_id ns)) as [sn|e] eqn:Eb; simpl.
    + destruct (build_node_Ok _ _ _ _ _ _ Eb) as (Hsp & _ & _ & _ & Hsd & _). split_and!; try done.
      * intros n [= <-]. split; [done|]. intros nd [= <-] Hnil. by rw Hsd Hnil.
      * intros Hnd. constructor; [|done|done]. unfold subtasks. simpl. intros n Hn.
        apply elem_of_app in Hn as [Hn|Hn]; [by apply Hpend|]. apply list_elem_of_singleton in Hn as ->. done.
    + unfold build_node in Eb. destruct (skill_ids sd) eqn:Esk; [|done]. injection Eb as <-.
      split; [done|]. exists sd. auto.
  - simpl. split_and!; try done. intros Hnd. constructor; [|done|done]. unfold subtasks. simpl. intros n Hn.
    rw app_nil_r in Hn. by apply Hpend.
Qed.

(** ** A concrete workflow *)

Definition sample_skill : SkillPromptDefinition := {|
  sk_id := "skill"; sk_version := "1.0.0"; sk_name := "Skill"; sk_description := "d"; sk_instruction := "i";
  sk_reasoning_instructions := []; sk_allowed_tools := ["create_workitem"; "update_workitem"];
  sk_guardrails := []; sk_quality_expectations := []; sk_model_tier := "pro" |}.

Definition sample_tool_definition (name approval : string) : ToolPromptDefinition := {|
  tp_id := name; tp_version := "1.0.0"; tp_name := name; tp_description := "d"; tp_usage := []; tp_do_not_use := [];
  tp_risk_level := "low"; tp_approval_policy := approval; tp_input_contract := [] |}.

(** A tool that succeeds. *)
Definition sample_tool `{Env} (name approval : string) : Tool := {|
  tl_definition := sample_tool_definition name approval;
  tl_execute a _ := new_tool_result (ac_plan_id a) (ac_action_id a) name true [] None [] None |}.

Definition sample_model : PromptModelSettings :=
  {| pm_provider := "gemini"; pm_name := "gemini-3.1-pro-preview"; pm_temperature := PyFloat "0.2" (QArith.QArith_base.Qmake 1 5) |}.

Definition sample_prompt : WorkflowPromptDefinition := {|
  wp_id := "wf"; wp_version := "1.0.0"; wp_name := "wf"; wp_description := "d"; wp_model := sample_model; wp_output_schema := "AgentPlan"; wp_goal := "goal"; wp_system := "s";
  wp_constraints := []; wp_required_context := []; wp_trigger_types := ["domain.story.created"];
  wp_required_skills := ["skill"]; wp_default_execution_mode := "suggest";
  wp_approval_policy := [("update_workitem", "user_approval_required")];
  wp_max_recursion_depth := 10; wp_orchestration := None |}.

Definition sample_workflow : WorkflowDefinition := workflow_from_prompt sample_prompt.

Definition sample_node_def (n : string) (deps : list string) : OrchestrationNodeDef := {|
  od_node := n; od_skill := Some "skill"; od_skills := []; od_objective := EmptyString; od_context_scope := [];
  od_depends_on := deps; od_model_tier := None |}.

Definition sample_orchestration : OrchestrationDef := {|
  or_mode := "static"; or_default_graph := [sample_node_def "a" []; sample_node_def "b" ["a"]];
  or_synthesizer := Some (sample_node_def EmptyString []) |}.

Definition sample_orchestrated_workflow : WorkflowDefinition := {|
  wf_id := "wf"; wf_trigger_types := ["domain.story.created"]; wf_required_skills := ["skill"];
  wf_prompt_id := "wf"; wf_prompt_version := "1.0.0"; wf_goal := "goal"; wf_default_execution_mode := "suggest";
  wf_approval_policy := []; wf_max_recursion_depth := 10; wf_orchestration := Some sample_orchestration |}.

Definition sample_planner `{Env} : Planner := {|
  pn_prompt_registry := {[ ("wf", "1.0.0") := sample_prompt ]};
  pn_skill_registry := [("skill", sample_skill)];
  pn_tool_registry :=
    {| rg_tools := [("create_workitem", sample_tool "create_workitem" "auto_commit");
                    ("update_workitem", sample_tool "update_workitem" "auto_commit")];
       rg_definitions := [("create_workitem", sample_tool_definition "create_workitem" "auto_commit");
                          ("update_workitem", sample_tool_definition "update_workitem" "auto_commit")] |} |}.

(** A model that always proposes the same three actions, all for one tool. *)
Definition sample_factory : AgentFactory := {| generate_plan _ _ _ _ _ _ _ := mret sample_plan |}.

Definition sample_created : AgentPlan := Eval vm_compute in
  match (@create_plan env_ok sample_factory (@sample_planner env_ok) (sample_context "ws") "ref" sample_workflow "run-1"
           None None None None ext0).1 with
  | Ok p => p
  | Raise _ => sample_plan
  end.

Lemma create_plan_spec_witness :
  NoDup (map ac_idempotency_key (pl_actions sample_created)) ∧ chained_plan sample_created.
Proof.
  destruct (@create_plan_spec env_ok sample_factory (@sample_planner env_ok) (sample_context "ws") "ref"
    sample_workflow "run-1" None None None None ext0 sample_created ext0 ltac:(vm_compute; reflexivity))
    as (allowed & policy & _ & _ & _ & _ & _ & _ & _ & Hkeys & Hchain).
  split; [exact Hkeys|]. apply Hchain; [apply (bool_decide_unpack _); vm_compute; exact I|].
  repeat constructor.
Defined.

Lemma build_orchestrated_graph_spec_witness :
  match (@build_orchestrated_graph env_ok None (sample_context "ws") sample_orchestrated_workflow ext0).1 with
  | Ok g => length (tg_nodes g) = 2%nat
  | Raise _ => False
  end.
Proof.
  pose proof (@build_orchestrated_graph_spec env_ok None (sample_context "ws") sample_orchestrated_workflow
    sample_orchestration (sample_node_def "a" []) [sample_node_def "b" ["a"]] ext0 eq_refl eq_refl) as H.
  exact (proj1 H).
Defined.
