(* ===== verification/WorkItems.v ===== *)
(** * Work item payloads ([src/capabilities/tools/workitem_tools.py])

    The data the work item tools work on: item trees and updates as a planner
    emits them, their coercion and validation, the resolution and roll-up of
    assignees, and the clean-up of what is sent to the API.  The tools themselves
    are in [WorkItemTools].

    The code rolls assignees up by writing into the nodes; the model returns the
    new nodes.  Nodes come from JSON, so no two share a child. *)

From S2P Require Import Prelude PyStr PyVal PyUuid Json JsonLoads Events Plans Policies Env Definitions Records.

Definition CREATE_WORK_ITEM_FIELDS : list string :=
  ["parentId"; "title"; "description"; "startDate"; "dueDate"; "priority"; "status"; "assigneeUsernames"; "labelNames"].
Definition UPDATE_WORK_ITEM_FIELDS : list string := CREATE_WORK_ITEM_FIELDS.
Definition WORK_ITEM_TREE_NODE_FIELDS : list string :=
  List.filter (λ f, negb (bool_decide (f = "parentId"))) CREATE_WORK_ITEM_FIELDS.
Definition MAX_WORK_ITEM_TREE_DEPTH : Z := 3.
Definition MAX_WORK_ITEM_TREE_ITEMS : Z := 100.

Definition WORK_ITEM_PRIORITIES : list string := ["low"; "medium"; "high"; "urgent"].
Definition WORK_ITEM_STATUSES : list string := ["todo"; "in_progress"; "in_review"; "done"; "archived"].
Definition MEMBER_ENTITY_KEYS : list string := ["project_members"; "workspace_members"; "member_workloads"].

(** [_ISO_DATE_RE.match(s)] *)
Definition iso_date_prefix (s : string) : bool :=
  match chars s with
  | a :: b :: c :: d :: e :: f :: g :: h :: i :: j :: _ =>
      forallb is_digit [a; b; c; d; f; g; i; j] && bool_decide (e = "-"%char) && bool_decide (h = "-"%char)
  | _ => false
  end.

(** [str(v or "").strip()] *)
Definition text_of (v : pyval) : string := strip (str_or_empty v).

(** [_filter_payload] *)
Definition filter_payload (input_data : pyval) (allowed_fields : list string) : dict pyval :=
  match input_data with
  | PDict d => List.filter (λ kv, str_in kv.1 allowed_fields && negb (is_none kv.2)) d
  | _ => []
  end.

(** [_requested_by_user_id] *)
Definition requested_by_user_id (input_data : dict pyval) (context : AgentContext) : option string :=
  let v := dget "requestedByUserId" input_data in
  if truthy v then Some (py_str v)
  else
    match dget "queue_pointer" (ev_payload (base (source_event context))) with
    | PDict queue_pointer =>
        let v := dget "requestedByUserId" queue_pointer in
        if truthy v then Some (py_str v) else None
    | _ => None
    end.

(** [_valid_uuid_or_none] *)
Definition valid_uuid_or_none (v : pyval) : option string :=
  match v with
  | PNone => None
  | _ => option_map uuid_str (uuid_parse (py_str v))
  end.

(** ** Trees *)

Definition TREE_ITEMS_KEYS : list string := ["items"; "workItems"; "work_items"; "tasks"; "children"].
Definition TREE_ROOT_ONLY_FIELDS : list string := ["projectId"; "parentId"; "requestedByUserId"].

(** The list a value stands for: a list, an object or the JSON text of one; [None]
    where the code goes on with the next key. *)
Definition coerced_list (value : pyval) : option (list pyval) :=
  let value := match value with PStr s => json_loads s | _ => Some value end in
  match value with
  | Some (PDict d) => Some [PDict d]
  | Some (PList (x :: l)) => Some (x :: l)
  | _ => None
  end.

Definition has_title (d : dict pyval) : bool := str_truthy (text_of (dget "title" d)).
Definition without_root_fields (d : dict pyval) : dict pyval :=
  List.filter (λ kv, negb (str_in kv.1 TREE_ROOT_ONLY_FIELDS)) d.

(** The keys up to the first with a list; [children] of an input with a title of
    its own ends the search. *)
Fixpoint coerce_keys (keys : list string) (input_data : dict pyval) : option (list pyval) :=
  match keys with
  | [] => None
  | key :: keys' =>
      if bool_decide (key = "children") && has_title input_data then None
      else
        match coerced_list (dget key input_data) with
        | Some l => Some l
        | None => coerce_keys keys' input_data
        end
  end.

Definition coerce_work_item_tree_items (input_data : dict pyval) : option (list pyval) :=
  match coerce_keys TREE_ITEMS_KEYS input_data with
  | Some l => Some l
  | None => if has_title input_data then Some [PDict (without_root_fields input_data)] else None
  end.

(** [_walk]: the nodes one after the other, [count] nodes before them. *)
Definition walk_node (sub : Z → list pyval → string + Z) (count : Z) (node : pyval) : string + Z :=
  match node with
  | PDict d =>
      if negb (has_title d) then inl "Every work item tree node requires a non-empty title."
      else
        let count := count + 1 in
        if MAX_WORK_ITEM_TREE_ITEMS <? count
        then inl ("Work item tree exceeds max size of " +:+ pretty MAX_WORK_ITEM_TREE_ITEMS +:+ " items.")
        else
          match dget "children" d with
          | PNone | PList [] => inr count
          | PList children => sub count children
          | _ => inl "Work item tree 'children' must be a list."
          end
  | _ => inl "Every work item tree node must be an object."
  end.

Fixpoint walk_nodes (sub : Z → list pyval → string + Z) (count : Z) (nodes : list pyval) : string + Z :=
  match nodes with
  | [] => inr count
  | node :: nodes' =>
      match walk_node sub count node with
      | inl error => inl error
      | inr count => walk_nodes sub count nodes'
      end
  end.

(** The depth check comes first, so [fuel] is never used up below the bound. *)
Fixpoint walk (fuel : nat) (depth count : Z) (nodes : list pyval) : string + Z :=
  if MAX_WORK_ITEM_TREE_DEPTH <? depth
  then inl ("Work item tree exceeds max depth of " +:+ pretty MAX_WORK_ITEM_TREE_DEPTH +:+ ".")
  else
    match fuel with
    | O => inl EmptyString
    | S fuel' => walk_nodes (walk fuel' (depth + 1)) count nodes
    end.

Definition validate_work_item_tree (items : option (list pyval)) : option string :=
  match items with
  | None | Some [] => Some "create_workitem_tree requires a non-empty 'items' list."
  | Some items =>
      match walk (Z.to_nat MAX_WORK_ITEM_TREE_DEPTH) 1 0 items with
      | inl error => Some error
      | inr _ => None
      end
  end.

(** ** Assignees *)

(** [_known_member_usernames] *)
Definition add_member (resolver : dict string) (member : pyval) : dict string :=
  match member with
  | PDict m =>
      let username := text_of (dget "username" m) in
      if str_truthy username then
        let add (name : string) (r : dict string) :=
          if str_truthy name then dict_setdefault (py_lower name) username r else r in
        add (text_of (dget "userId" m)) (add (text_of (dget "fullName" m)) (add username resolver))
      else resolver
  | _ => resolver
  end.

Definition known_member_usernames (context : AgentContext) : dict string :=
  foldl (λ resolver key,
      match dget key (cx_entities context) with PList members => foldl add_member resolver members | _ => resolver end)
    [] MEMBER_ENTITY_KEYS.

(** [for v in values: x = f v; if x and x not in cleaned: cleaned.append(x)] *)
Definition add_new (cleaned : list string) (x : option string) : list string :=
  match x with
  | Some name => if str_truthy name && negb (str_in name cleaned) then cleaned ++ [name] else cleaned
  | None => cleaned
  end.
Definition collect_new (l : list (option string)) : list string := foldl add_new [] l.

Definition list_or_single (raw : pyval) : list pyval := match raw with PList l => l | _ => [raw] end.

(** [_clean_usernames] *)
Definition resolve_username (known_usernames : dict string) (username : pyval) : option string :=
  let name := text_of username in
  if str_truthy name then
    match known_usernames with [] => Some name | _ => dict_get (py_lower name) known_usernames end
  else None.

Definition clean_usernames (raw : pyval) (known_usernames : dict string) : list string :=
  collect_new (map (resolve_username known_usernames) (list_or_single raw)).

(** [_rollup_assignee_usernames]: the node afterwards and the names. *)
Fixpoint rollup_assignee_usernames (known_usernames : dict string) (node : pyval) : pyval * list string :=
  match node with
  | PDict d =>
      let subs := map (λ kv, (kv.1, match kv.2 with
                                    | PList l => Some (map (rollup_assignee_usernames known_usernames) l)
                                    | _ => None
                                    end)) d in
      let own := clean_usernames (dget "assigneeUsernames" d) known_usernames in
      let '(d', merged) :=
        match dict_get "children" subs with
        | Some (Some l) =>
            (dict_set "children" (PList (map fst l)) d,
             foldl add_new own (map Some (concat (map snd l))))
        | _ => (d, own)
        end in
      (PDict (match merged with [] => d' | _ => dict_set "assigneeUsernames" (pstrs merged) d' end), merged)
  | _ => (node, [])
  end.

(** [_collect_unresolved_assignees] on one node, when some member is known. *)
Definition missing_names (known_usernames : dict string) (raw : pyval) : list string :=
  match raw with
  | PList l =>
      omap (λ name, let n := text_of name in
                    if str_truthy n && negb (dict_mem (py_lower n) known_usernames) then Some n else None) l
  | _ => []
  end.

Fixpoint unresolved_of (known_usernames : dict string) (node : pyval) : list (dict pyval) :=
  match node with
  | PDict d =>
      let subs := map (λ kv, (kv.1, match kv.2 with
                                    | PList l => concat (map (unresolved_of known_usernames) l)
                                    | _ => []
                                    end)) d in
      match missing_names known_usernames (dget "assigneeUsernames" d) with
      | [] => []
      | missing => [[("title", PStr (str_or_empty (dget "title" d))); ("unresolved", pstrs missing)]]
      end ++ dict_get_or [] "children" subs
  | _ => []
  end.

Definition collect_unresolved_assignees (items : list pyval) (known_usernames : dict string) : list (dict pyval) :=
  match known_usernames with [] => [] | _ => concat (map (unresolved_of known_usernames) items) end.

(** ** What is sent to the API *)

(** A field whose value, stripped and in lower case, must be one of [allowed]. *)
Definition normalize_enum (field : string) (allowed : list string) (payload : dict pyval) : dict pyval :=
  match dict_get field payload with
  | None => payload
  | Some v =>
      let value := py_lower (strip (py_str v)) in
      if str_in value allowed then dict_set field (PStr value) payload else dict_del field payload
  end.

Definition normalize_date (field : string) (payload : dict pyval) : dict pyval :=
  match dict_get field payload with
  | None => payload
  | Some v => if iso_date_prefix (strip (py_str v)) then payload else dict_del field payload
  end.

Definition set_or_drop (field : string) (l : list string) (payload : dict pyval) : dict pyval :=
  match l with [] => dict_del field payload | _ => dict_set field (pstrs l) payload end.

Definition clean_labels (raw : pyval) : list string :=
  collect_new (map (λ label, Some (str_take 30 (text_of label))) (list_or_single raw)).

(** [_normalize_node_payload] *)
Definition normalize_node_payload (known_usernames : dict string) (payload : dict pyval) : dict pyval :=
  let payload := normalize_enum "priority" WORK_ITEM_PRIORITIES payload in
  let payload := normalize_enum "status" WORK_ITEM_STATUSES payload in
  let payload := normalize_date "dueDate" (normalize_date "startDate" payload) in
  let payload :=
    match dict_get "assigneeUsernames" payload with
    | None => payload
    | Some raw => set_or_drop "assigneeUsernames" (clean_usernames raw known_usernames) payload
    end in
  match dict_get "labelNames" payload with
  | None => payload
  | Some raw => set_or_drop "labelNames" (clean_labels raw) payload
  end.

(** The payload of a node under [parent_id]. *)
Definition node_title (node : dict pyval) : string := str_take 100 (py_str (py_or (dget "title" node) (PStr "Generated task"))).

Definition node_payload (known_usernames : dict string) (instruction : string) (node : dict pyval)
    (parent_id : option string) : dict pyval :=
  let payload := filter_payload (PDict node) WORK_ITEM_TREE_NODE_FIELDS in
  let payload := dict_set "title" (PStr (node_title node)) payload in
  let payload := dict_setdefault "description"
    (PStr (py_str (py_or (dget "description" node) (PStr instruction)))) payload in
  let payload := normalize_node_payload known_usernames payload in
  if ostr_truthy parent_id then dict_set "parentId" (ostr parent_id) payload else payload.

(** ** Updates *)

Definition MAX_BULK_UPDATES : Z := 50.
Definition BULK_UPDATE_FIELDS : list string :=
  ["title"; "description"; "priority"; "status"; "dueDate"; "assigneeUsernames"; "labelNames"].
Definition MUTABLE_UPDATE_STATUSES : list string := ["todo"].
Definition PROTECTED_UPDATE_FIELDS : list string := ["title"; "status"].
Definition CONTEXT_ITEM_KEYS : list string :=
  ["backlog_work_items"; "project_work_items"; "sibling_work_items"; "child_work_items"].
Definition UPDATE_KEYS : list string := ["updates"; "workItemUpdates"; "work_item_updates"; "items"; "changes"].

Definition some_list {A} (l : list A) : option (list A) := match l with [] => None | _ => Some l end.

(** [coerce_work_item_updates]: the first key with a list decides. *)
Fixpoint first_coerced (keys : list string) (input_data : dict pyval) : option (list pyval) :=
  match keys with
  | [] => None
  | key :: keys' =>
      match coerced_list (dget key input_data) with
      | Some l => Some l
      | None => first_coerced keys' input_data
      end
  end.

Definition coerce_work_item_updates (input_data : dict pyval) : option (list (dict pyval)) :=
  match first_coerced UPDATE_KEYS input_data with
  | Some l => some_list (omap as_dict l)
  | None =>
      if str_truthy (text_of (dget "itemId" input_data)) then Some [without_root_fields input_data] else None
  end.

Definition update_error (update : dict pyval) : option string :=
  if negb (str_truthy (text_of (dget "itemId" update))) then Some "Every update entry requires an itemId."
  else if negb (existsb (λ f, dict_mem f update) BULK_UPDATE_FIELDS)
  then Some ("Every update entry needs at least one field to change (title, description, priority, status, dueDate, " +:+
             "assigneeUsernames, labelNames).")
  else None.

Fixpoint first_error {A} (f : A → option string) (l : list A) : option string :=
  match l with
  | [] => None
  | x :: l' => match f x with Some e => Some e | None => first_error f l' end
  end.

Definition validate_work_item_updates (updates : option (list (dict pyval))) : option string :=
  match updates with
  | None | Some [] => Some "update_workitems_bulk requires a non-empty 'updates' list."
  | Some updates =>
      if MAX_BULK_UPDATES <? Z.of_nat (length updates)
      then Some ("Bulk update exceeds max size of " +:+ pretty MAX_BULK_UPDATES +:+ " items.")
      else first_error update_error updates
  end.

(** [_context_item_index] *)
Definition index_item (index : dict (dict pyval)) (item : pyval) : dict (dict pyval) :=
  match item with
  | PDict d => if truthy (dget "itemId" d) then dict_setdefault (py_str (dget "itemId" d)) d index else index
  | _ => index
  end.
Definition context_item_index (context : AgentContext) : dict (dict pyval) :=
  foldl (λ index key,
      match dget key (cx_entities context) with PList l => foldl index_item index l | _ => index end)
    [] CONTEXT_ITEM_KEYS.

(** [_drop_protected_fields]: the payload afterwards and what was dropped.
    [protected] is the set of protected fields in the order it is iterated. *)
Definition pop_field (r : dict pyval * list string) (field : string) : dict pyval * list string :=
  (dict_del field r.1, if is_none (dget field r.1) then r.2 else r.2 ++ [field]).
Definition pop_if (b : bool) (field : string) (r : dict pyval * list string) : dict pyval * list string :=
  if dict_mem field r.1 && b then (dict_del field r.1, r.2 ++ [field]) else r.

Definition drop_protected_fields (protected : list string) (payload current : dict pyval) : dict pyval * list string :=
  let r := foldl pop_field (payload, []) protected in
  let r := pop_if (bool_decide (30 ≤ str_len (text_of (dget "description" current)))%nat) "description" r in
  pop_if (truthy (dget "assigneeUsernames" current)) "assigneeUsernames" r.

(** ** Typed drafts *)

Definition with_text (key : string) (v : option string) (node : dict pyval) : dict pyval :=
  match v with Some s => if str_truthy s then dict_set key (PStr s) node else node | None => node end.
Definition with_names (key : string) (l : list string) (node : dict pyval) : dict pyval :=
  match l with [] => node | _ => dict_set key (pstrs l) node end.
Definition with_children (l : list pyval) (node : dict pyval) : dict pyval :=
  match l with [] => node | _ => dict_set "children" (PList l) node end.

(** [_draft_to_node], for the leaf fields, a leaf, a child and a root. *)
Definition leaf_fields (d : WorkItemLeafDraft) : dict pyval :=
  let node := [("title", PStr (wd_title d)); ("description", PStr (wd_description d))] in
  let node := with_text "startDate" (wd_start_date d) node in
  let node := with_text "dueDate" (wd_due_date d) node in
  let node := with_text "priority" (wd_priority d) node in
  let node := with_text "status" (wd_status d) node in
  with_names "labelNames" (wd_label_names d) (with_names "assigneeUsernames" (wd_assignee_usernames d) node).
Definition leaf_to_node (d : WorkItemLeafDraft) : pyval := PDict (leaf_fields d).
Definition child_to_node (d : WorkItemChildDraft) : pyval :=
  PDict (with_children (map leaf_to_node (wc_children d)) (leaf_fields (wc_leaf d))).
Definition draft_to_node (d : WorkItemDraft) : pyval :=
  PDict (with_children (map child_to_node (wi_children d)) (leaf_fields (wi_leaf d))).

Definition work_item_drafts_to_items (drafts : list WorkItemDraft) : list pyval := map draft_to_node drafts.

Definition with_value (key : string) (v : option string) (update : dict pyval) : dict pyval :=
  match v with Some s => dict_set key (PStr s) update | None => update end.

Definition draft_to_update (d : WorkItemUpdateDraft) : dict pyval :=
  let update := [("itemId", PStr (wu_item_id d))] in
  let update := with_value "title" (wu_title d) update in
  let update := with_value "description" (wu_description d) update in
  let update := with_value "priority" (wu_priority d) update in
  let update := with_value "status" (wu_status d) update in
  let update := with_value "dueDate" (wu_due_date d) update in
  with_names "labelNames" (wu_label_names d) (with_names "assigneeUsernames" (wu_assignee_usernames d) update).
Definition work_item_update_drafts_to_updates (drafts : list WorkItemUpdateDraft) : list (dict pyval) :=
  map draft_to_update drafts.

(** The input [materialize_typed_action_inputs] gives an action, if any. *)
Definition materialized_input (a : PlannedAction) : option (dict pyval) :=
  let tool := ac_tool_name a in
  if bool_decide (tool = "create_workitem_tree") && negb (bool_decide (ac_work_items a = [])) &&
     bool_decide (coerce_work_item_tree_items (ac_input a) = None)
  then Some (dict_set "items" (PList (work_item_drafts_to_items (ac_work_items a))) (ac_input a))
  else if bool_decide (tool = "update_workitems_bulk") && negb (bool_decide (ac_work_item_updates a = [])) &&
          bool_decide (coerce_work_item_updates (ac_input a) = None)
  then Some (dict_set "updates" (PList (map PDict (work_item_update_drafts_to_updates (ac_work_item_updates a)))) (ac_input a))
  else if bool_decide (tool = "add_sprint_work_items") && negb (bool_decide (ac_target_item_ids a = [])) &&
          negb (truthy (dget "itemIds" (ac_input a)))
  then Some (dict_set "itemIds" (pstrs (ac_target_item_ids a)) (ac_input a))
  else None.

Fixpoint materialize_actions `{Env} (l : list PlannedAction) (plan : AgentPlan) : st Ext AgentPlan :=
  match l with
  | [] => mret plan
  | a :: l' =>
      match materialized_input a with
      | None => materialize_actions l' plan
      | Some input =>
          now ← utc_now;
          materialize_actions l' (replace_action now (action_with_input input a) plan)
      end
  end.

Definition materialize_typed_action_inputs `{Env} (plan : AgentPlan) : st Ext AgentPlan :=
  materialize_actions (pl_actions plan) plan.

(** Drafts whose titles have something besides white space, and how many nodes
    they become. *)
Definition leaf_titled (d : WorkItemLeafDraft) : bool := str_truthy (strip (wd_title d)).
Definition child_titled (d : WorkItemChildDraft) : bool := leaf_titled (wc_leaf d) && forallb leaf_titled (wc_children d).
Definition draft_titled (d : WorkItemDraft) : bool := leaf_titled (wi_leaf d) && forallb child_titled (wi_children d).
Definition child_size (d : WorkItemChildDraft) : nat := S (length (wc_children d)).
Definition draft_size (d : WorkItemDraft) : nat := S (sum_list_with child_size (wi_children d)).

(** ** Lemmas *)

(** *** What a valid tree is

    [work_forest h l k]: the nodes [l] are titled objects, nested at most [h]
    levels deep, [k] nodes in all. *)

Definition node_children (d : dict pyval) : option (list pyval) :=
  match dget "children" d with PNone => Some [] | PList l => Some l | _ => None end.

Inductive work_forest : nat → list pyval → nat → Prop :=
  | forest_nil h : work_forest h [] 0
  | forest_cons h d children l k1 k2 :
      has_title d = true → node_children d = Some children →
      work_forest h children k1 → work_forest (S h) l k2 →
      work_forest (S h) (PDict d :: l) (S (k1 + k2)).

Lemma forest_level_0 l k : work_forest 0 l k → l = [].
Proof. by inversion 1. Qed.

Lemma walk_node_children sub count d :
  has_title d = true → count + 1 ≤ MAX_WORK_ITEM_TREE_ITEMS →
  walk_node sub count (PDict d) =
    match node_children d with
    | Some [] => inr (count + 1)
    | Some children => sub (count + 1) children
    | None => inl "Work item tree 'children' must be a list."
    end.
Proof.
  intros Ht Hc. unfold walk_node, node_children. rw Ht. cbn [negb]. rw (proj2 (Z.ltb_ge _ _) Hc).
  by destruct (dget "children" d) as [| | | | |[]|].
Qed.

(** The walk accepts exactly these forests, and counts their nodes. *)
Lemma walk_nodes_spec sub h :
  (∀ count l c, l ≠ [] → count ≤ MAX_WORK_ITEM_TREE_ITEMS → sub count l = inr c ↔ ∃ k, work_forest h l k ∧ c = count + Z.of_nat k ∧ c ≤ MAX_WORK_ITEM_TREE_ITEMS) →
  ∀ l count c, count ≤ MAX_WORK_ITEM_TREE_ITEMS →
    walk_nodes sub count l = inr c ↔
    ∃ k, work_forest (S h) l k ∧ c = count + Z.of_nat k ∧ c ≤ MAX_WORK_ITEM_TREE_ITEMS.
Proof.
  intros Hsub. induction l as [|node l IH]; intros count c Hc.
  { cbn. split; [intros [= <-]; exists 0%nat; split_and!; [constructor|lia|done]|].
    intros (k & Hk & -> & _). inversion Hk. f_equal. lia. }
  cbn [walk_nodes]. destruct node as [| | | | | |d];
    try (split; [done|intros (k & Hk & _); inversion Hk]).
  destruct (has_title d) eqn:Ht; [|unfold walk_node; rw Ht; split; [done|intros (k & Hk & _); inversion Hk; congruence]].
  destruct (decide (count + 1 ≤ MAX_WORK_ITEM_TREE_ITEMS)) as [Hlt|Hge].
  - rw (walk_node_children sub count d Ht Hlt). destruct (node_children d) as [[|x children]|] eqn:Ech.
    + rw (IH _ _ Hlt). split.
      * intros (k & Hk & -> & Hle). exists (S (0 + k)). split; [|lia]. econstructor; try done. constructor.
      * intros (k & Hk & -> & Hle). inversion Hk as [|? ? ? ? k1 k2 ? Ech2 Hk1 Hk2]; subst. rw Ech in Ech2. injection Ech2 as <-.
        inversion Hk1; subst. exists k2. split; [done|lia].
    + destruct (sub (count + 1) (x :: children)) as [e|c1] eqn:Es.
      * split; [done|]. intros (k & Hk & -> & Hle). inversion Hk as [|? ? ? ? k1 k2 ? Ech2 Hk1 Hk2]; subst.
        rw Ech in Ech2. injection Ech2 as <-.
        assert (Hs : sub (count + 1) (x :: children) = inr (count + 1 + Z.of_nat k1)) by (apply Hsub; [done|done|exists k1; split_and!; [done|done|lia]]).
        congruence.
      * apply Hsub in Es as (k1 & Hk1 & -> & Hle1); [|done|done]. rw (IH _ _ Hle1). split.
        -- intros (k & Hk & -> & Hle). exists (S (k1 + k)). split; [by econstructor|lia].
        -- intros (k & Hk & -> & Hle). inversion Hk as [|? ? ? ? k1' k2 ? Ech2 Hk1' Hk2]; subst.
           rw Ech in Ech2. injection Ech2 as <-.
           assert (Hs : sub (count + 1) (x :: children) = inr (count + 1 + Z.of_nat k1')) by (apply Hsub; [done|done|exists k1'; split_and!; [done|done|lia]]).
           assert (Hs' : sub (count + 1) (x :: children) = inr (count + 1 + Z.of_nat k1)) by (apply Hsub; [done|done|by exists k1]).
           exists k2. split; [done|]. rw Hs in Hs'. injection Hs' as Hs'. lia.
    + split; [done|]. intros (k & Hk & _). inversion Hk; congruence.
  - unfold walk_node. rw Ht. cbn [negb]. rw (proj2 (Z.ltb_lt _ _)); [lia|]. split; [done|].
    intros (k & Hk & -> & Hle). inversion Hk; subst. lia.
Qed.

Lemma walk_spec h depth count l c :
  l ≠ [] → count ≤ MAX_WORK_ITEM_TREE_ITEMS → depth + Z.of_nat h = MAX_WORK_ITEM_TREE_DEPTH + 1 →
  walk h depth count l = inr c ↔
  ∃ k, work_forest h l k ∧ c = count + Z.of_nat k ∧ c ≤ MAX_WORK_ITEM_TREE_ITEMS.
Proof.
  revert depth count l c. induction h as [|h IH]; intros depth count l c Hl Hc Hd; cbn [walk].
  - rw (proj2 (Z.ltb_lt _ _)); [lia|]. split; [done|]. by intros (k & ->%forest_level_0 & _).
  - rw (proj2 (Z.ltb_ge _ _)); [lia|]. apply walk_nodes_spec; [|done]. intros count' l' c' Hl' Hc'. apply IH; [done|done|lia].
Qed.

Lemma walk_error h depth count l :
  depth + Z.of_nat h = MAX_WORK_ITEM_TREE_DEPTH + 1 → walk h depth count l ≠ inl EmptyString.
Proof.
  revert depth count l. induction h as [|h IH]; intros depth count l Hd; cbn [walk].
  - by rw (proj2 (Z.ltb_lt _ _)); [lia|].
  - rw (proj2 (Z.ltb_ge _ _)); [lia|]. revert count. induction l as [|node l IHl]; intros count; [done|]. cbn [walk_nodes].
    destruct (walk_node _ count node) as [e|c] eqn:E; [|apply IHl]. intros [= ->]. unfold walk_node in E.
    destruct node as [| | | | | |d]; try done. destruct (negb _); [done|]. destruct (_ <? _); [done|].
    destruct (dget "children" d) as [| | | | |[]|]; try done. revert E. apply IH. lia.
Qed.

(** *** Drafts *)

Lemma text_of_str s : text_of (PStr s) = strip s.
Proof. unfold text_of, str_or_empty. cbn. by destruct s. Qed.

Lemma leaf_fields_get d k :
  k ∉ ["startDate"; "dueDate"; "priority"; "status"; "labelNames"; "assigneeUsernames"] →
  dget k (leaf_fields d) = dget k [("title", PStr (wd_title d)); ("description", PStr (wd_description d))].
Proof.
  rw !not_elem_of_cons. intros (? & ? & ? & ? & ? & ? & _).
  assert (Ht : ∀ key v node, k ≠ key → dget k (with_text key v node) = dget k node).
  { intros key [v|] node Hk; [|done]. unfold with_text, dget, dict_get_or. destruct (str_truthy v); [|done]. by rw dict_get_set_ne. }
  assert (Hn : ∀ key l node, k ≠ key → dget k (with_names key l node) = dget k node).
  { intros key [|x l] node Hk; [done|]. unfold with_names, dget, dict_get_or. by rw dict_get_set_ne. }
  unfold leaf_fields. repeat first [rw Hn; [done|] | rw Ht; [done|]]. done.
Qed.

Lemma leaf_title l d : leaf_titled d = has_title (with_children l (leaf_fields d)).
Proof.
  unfold has_title, leaf_titled. assert (E : dget "title" (with_children l (leaf_fields d)) = PStr (wd_title d)).
  { destruct l as [|x l]; cbn [with_children]; [|unfold dget, dict_get_or; rw dict_get_set_ne; [done|];
      change (dget "title" (leaf_fields d) = PStr (wd_title d))]; by rw leaf_fields_get; [set_solver|]. }
  by rw E text_of_str.
Qed.

Lemma leaf_children l d : node_children (with_children l (leaf_fields d)) = Some l.
Proof.
  unfold node_children. destruct l as [|x l]; cbn [with_children]; [by rw leaf_fields_get; [set_solver|]|].
  unfold dget, dict_get_or. by rw dict_get_set_eq.
Qed.

(** A forest whose nodes are made of leaf fields and children. *)
Lemma forest_of {A} (leaf : A → WorkItemLeafDraft) (children : A → list pyval) (size : A → nat) h (l : list A) :
  Forall (λ d, leaf_titled (leaf d) = true ∧ work_forest h (children d) (size d)) l →
  work_forest (S h) (map (λ d, PDict (with_children (children d) (leaf_fields (leaf d)))) l)
    (sum_list_with (λ d, S (size d)) l).
Proof.
  induction 1 as [|d l [Ht Hk] _ IH]; cbn; [constructor|].
  apply (forest_cons _ _ (children d)); [by rw -leaf_title|by rw leaf_children|done|done].
Qed.

Lemma leaves_forest l : forallb leaf_titled l = true → work_forest 1 (map leaf_to_node l) (length l).
Proof.
  intros Hall. rw forallb_elem in Hall. replace (length l) with (sum_list_with (λ _ : WorkItemLeafDraft, 1%nat) l) by (induction l; cbn; auto).
  apply (forest_of (λ d, d) (λ _, []) (λ _, 0%nat)). apply Forall_forall. intros d Hd. split; [|constructor].
  by apply Hall.
Qed.

Lemma children_forest l :
  forallb child_titled l = true → work_forest 2 (map child_to_node l) (sum_list_with child_size l).
Proof.
  intros Hall. rw forallb_elem in Hall. apply (forest_of wc_leaf (λ d, map leaf_to_node (wc_children d)) (λ d, length (wc_children d))).
  apply Forall_forall. intros d Hd. apply Hall, andb_true_iff in Hd as [? ?]. split; [done|]. by apply leaves_forest.
Qed.

Lemma drafts_forest l :
  forallb draft_titled l = true → work_forest 3 (work_item_drafts_to_items l) (sum_list_with draft_size l).
Proof.
  intros Hall. rw forallb_elem in Hall. apply (forest_of wi_leaf (λ d, map child_to_node (wi_children d)) (λ d, sum_list_with child_size (wi_children d))).
  apply Forall_forall. intros d Hd. apply Hall, andb_true_iff in Hd as [? ?]. split; [done|]. by apply children_forest.
Qed.

(** *** Payloads *)

Lemma normalize_enum_get field allowed payload k :
  dict_wf payload →
  dict_get k (normalize_enum field allowed payload) =
    if bool_decide (k = field) then
      v ← dict_get field payload;
      let value := py_lower (strip (py_str v)) in
      if str_in value allowed then Some (PStr value) else None
    else dict_get k payload.
Proof.
  intros Hwf. unfold normalize_enum. case_bool_decide as Hk; [subst k|].
  - destruct (dict_get field payload) as [v|] eqn:E; [|exact E]. cbn. destruct (str_in _ _); [apply dict_get_set_eq|].
    rw dict_get_del; [done|]. by rw bool_decide_eq_true_2.
  - destruct (dict_get field payload) as [v|]; [|done]. destruct (str_in _ _); [by rw dict_get_set_ne|].
    rw dict_get_del; [done|]. by rw bool_decide_eq_false_2.
Qed.

Lemma normalize_date_get field payload k :
  dict_wf payload →
  dict_get k (normalize_date field payload) =
    if bool_decide (k = field) then
      v ← dict_get field payload; if iso_date_prefix (strip (py_str v)) then Some v else None
    else dict_get k payload.
Proof.
  intros Hwf. unfold normalize_date. case_bool_decide as Hk; [subst k|].
  - destruct (dict_get field payload) as [v|] eqn:E; [|exact E]. cbn. destruct (iso_date_prefix _); [exact E|].
    rw dict_get_del; [done|]. by rw bool_decide_eq_true_2.
  - destruct (dict_get field payload) as [v|]; [|done]. destruct (iso_date_prefix _); [done|].
    rw dict_get_del; [done|]. by rw bool_decide_eq_false_2.
Qed.

(** A field cleaned to a list of strings. *)
Definition clean_list (field : string) (f : pyval → list string) (payload : dict pyval) : dict pyval :=
  match dict_get field payload with
  | None => payload
  | Some raw => set_or_drop field (f raw) payload
  end.

Lemma clean_list_get field f payload k :
  dict_wf payload →
  dict_get k (clean_list field f payload) =
    if bool_decide (k = field) then raw ← dict_get field payload; option_map pstrs (some_list (f raw))
    else dict_get k payload.
Proof.
  intros Hwf. unfold clean_list, set_or_drop. case_bool_decide as Hk; [subst k|].
  - destruct (dict_get field payload) as [v|] eqn:E; [|exact E]. cbn. destruct (f v); [|apply dict_get_set_eq].
    rw dict_get_del; [done|]. by rw bool_decide_eq_true_2.
  - destruct (dict_get field payload) as [v|]; [|done]. destruct (f v); [|by rw dict_get_set_ne].
    rw dict_get_del; [done|]. by rw bool_decide_eq_false_2.
Qed.

Lemma normalize_enum_wf field allowed payload : dict_wf payload → dict_wf (normalize_enum field allowed payload).
Proof. intros H. unfold normalize_enum. destruct (dict_get _ _); [|done]. destruct (str_in _ _); auto with dict. Qed.
Lemma normalize_date_wf field payload : dict_wf payload → dict_wf (normalize_date field payload).
Proof. intros H. unfold normalize_date. destruct (dict_get _ _); [|done]. destruct (iso_date_prefix _); auto with dict. Qed.
Lemma clean_list_wf field f payload : dict_wf payload → dict_wf (clean_list field f payload).
Proof. intros H. unfold clean_list, set_or_drop. destruct (dict_get _ _) as [raw|]; [|done]. destruct (f raw); auto with dict. Qed.

#[export] Hint Resolve normalize_enum_wf normalize_date_wf clean_list_wf : dict.

(** What the clean-up makes of each field. *)
Definition clean_field (known_usernames : dict string) (k : string) (v : pyval) : option pyval :=
  let enum allowed := let value := py_lower (strip (py_str v)) in if str_in value allowed then Some (PStr value) else None in
  if bool_decide (k = "priority") then enum WORK_ITEM_PRIORITIES
  else if bool_decide (k = "status") then enum WORK_ITEM_STATUSES
  else if bool_decide (k = "startDate") || bool_decide (k = "dueDate")
  then if iso_date_prefix (strip (py_str v)) then Some v else None
  else if bool_decide (k = "assigneeUsernames") then option_map pstrs (some_list (clean_usernames v known_usernames))
  else if bool_decide (k = "labelNames") then option_map pstrs (some_list (clean_labels v))
  else Some v.

Lemma normalize_get known_usernames payload k :
  dict_wf payload →
  dict_get k (normalize_node_payload known_usernames payload) = v ← dict_get k payload; clean_field known_usernames k v.
Proof.
  intros Hwf. unfold normalize_node_payload.
  fold (clean_list "assigneeUsernames" (λ raw, clean_usernames raw known_usernames)
    (normalize_date "dueDate" (normalize_date "startDate" (normalize_enum "status" WORK_ITEM_STATUSES
      (normalize_enum "priority" WORK_ITEM_PRIORITIES payload))))).
  match goal with |- dict_get k (match dict_get "labelNames" ?p with _ => _ end) = _ =>
    change (dict_get k (clean_list "labelNames" clean_labels p) = v ← dict_get k payload; clean_field known_usernames k v) end.
  rw clean_list_get; [auto 10 with dict|]. rw !clean_list_get; [auto 10 with dict..|].
  rw !normalize_date_get; [auto 10 with dict..|]. rw !normalize_enum_get; [auto 10 with dict..|].
  unfold clean_field. repeat (case_bool_decide; subst; try done). by destruct (dict_get k payload).
Qed.

(** The clean-up leaves every other field as it is. *)
Definition cleaned_fields : list string :=
  ["priority"; "status"; "startDate"; "dueDate"; "assigneeUsernames"; "labelNames"].

Lemma dict_get_del_ne k k' (d : dict pyval) : k ≠ k' → dict_get k' (dict_del k d) = dict_get k' d.
Proof.
  intros Hne. induction d as [|[k2 v2] d IH]; cbn; [done|]. case_bool_decide; subst; cbn; [by rw bool_decide_eq_false_2|].
  by case_bool_decide.
Qed.

Lemma set_or_drop_ne k k' l (d : dict pyval) : k ≠ k' → dict_get k' (set_or_drop k l d) = dict_get k' d.
Proof. intros Hne. unfold set_or_drop. destruct l; [by apply dict_get_del_ne|by apply dict_get_set_ne]. Qed.

Lemma normalize_keeps known_usernames payload k :
  k ∉ cleaned_fields → dict_get k (normalize_node_payload known_usernames payload) = dict_get k payload.
Proof.
  unfold cleaned_fields. rw !not_elem_of_cons. intros (H1 & H2 & H3 & H4 & H5 & H6 & _).
  assert (He : ∀ f allowed p, k ≠ f → dict_get k (normalize_enum f allowed p) = dict_get k p).
  { intros f allowed p Hf. unfold normalize_enum. destruct (dict_get f p); [|done].
    destruct (str_in _ _); [by apply dict_get_set_ne|by apply dict_get_del_ne]. }
  assert (Hd : ∀ f p, k ≠ f → dict_get k (normalize_date f p) = dict_get k p).
  { intros f p Hf. unfold normalize_date. destruct (dict_get f p); [|done].
    destruct (iso_date_prefix _); [done|by apply dict_get_del_ne]. }
  unfold normalize_node_payload. set (p4 := normalize_date "dueDate" _).
  assert (E4 : dict_get k p4 = dict_get k payload) by (unfold p4; rw !Hd; [done..|]; rw !He; done).
  set (p5 := match dict_get "assigneeUsernames" p4 with None => p4 | Some raw => _ end).
  assert (E5 : dict_get k p5 = dict_get k payload).
  { rw -E4. unfold p5. destruct (dict_get "assigneeUsernames" p4); [by apply set_or_drop_ne|done]. }
  rw -E5. destruct (dict_get "labelNames" p5); [by apply set_or_drop_ne|done].
Qed.

(** What a payload says of its place in the tree. *)
Lemma node_payload_place known_usernames instruction node parent_id :
  dict_get "title" (node_payload known_usernames instruction node parent_id) = Some (PStr (node_title node)) ∧
  dict_get "parentId" (node_payload known_usernames instruction node parent_id) =
    (if ostr_truthy parent_id then Some (ostr parent_id) else None) ∧
  dict_get "itemId" (node_payload known_usernames instruction node parent_id) = None.
Proof.
  unfold node_payload. set (p0 := filter_payload _ _).
  assert (H0 : ∀ k, str_in k WORK_ITEM_TREE_NODE_FIELDS = false → dict_get k p0 = None).
  { intros k Hk. apply dict_get_None. intros ((k' & v) & E & Hin)%list_elem_of_fmap. cbn in E. subst k'.
    apply list_elem_of_In, filter_In in Hin as [_ Hin]. cbn in Hin. by rw Hk in Hin. }
  set (p1 := dict_set "title" _ p0). set (p2 := dict_setdefault "description" _ p1).
  assert (H2 : ∀ k, k ≠ "description" → dict_get k p2 = dict_get k p1).
  { intros k Hk. unfold p2, dict_setdefault. destruct (dict_mem _ p1); [done|by apply dict_get_set_ne]. }
  set (p3 := normalize_node_payload known_usernames p2).
  assert (H3 : ∀ k, k ∉ cleaned_fields → k ≠ "description" → dict_get k p3 = dict_get k p1).
  { intros k Hk Hd. unfold p3. rw (normalize_keeps _ _ _ Hk). by apply H2. }
  assert (Hn : ∀ k, bool_decide (k ∉ cleaned_fields) = true → k ∉ cleaned_fields) by (intros k; apply (bool_decide_unpack _ ∘ Is_true_eq_left _)).
  assert (Ht : dict_get "title" p3 = Some (PStr (node_title node))).
  { rw H3; [by apply Hn|done|]. apply dict_get_set_eq. }
  assert (Hp : dict_get "parentId" p3 = None).
  { rw H3; [by apply Hn|done|]. unfold p1. rw dict_get_set_ne; [done|by apply H0]. }
  assert (Hi : dict_get "itemId" p3 = None).
  { rw H3; [by apply Hn|done|]. unfold p1. rw dict_get_set_ne; [done|by apply H0]. }
  destruct (ostr_truthy parent_id); [|done]. split_and!; [|apply dict_get_set_eq|]; by rw dict_get_set_ne.
Qed.

(** *** Names *)

Lemma collect_new_gen acc l :
  Forall (λ x, str_truthy x = true) acc → NoDup acc →
  Forall (λ x, str_truthy x = true) (foldl add_new acc l) ∧ NoDup (foldl add_new acc l) ∧
  ∀ x, x ∈ foldl add_new acc l ↔ x ∈ acc ∨ (Some x ∈ l ∧ str_truthy x = true).
Proof.
  revert acc. induction l as [|y l IH]; intros acc Ht Hnd; cbn [foldl].
  { split_and!; [done|done|]. intros x. set_solver. }
  assert (Hadd : Forall (λ x, str_truthy x = true) (add_new acc y) ∧ NoDup (add_new acc y) ∧
    ∀ x, x ∈ add_new acc y ↔ x ∈ acc ∨ (Some x = y ∧ str_truthy x = true)).
  { destruct y as [name|]; cbn; [|naive_solver]. destruct (str_truthy name) eqn:En; cbn;
      [|split_and!; [done|done|]; intros x; split; [by left|intros [?|[[= ->] ?]]; [done|congruence]]].
    unfold str_in. case_bool_decide as Hin; cbn.
    - split_and!; [done|done|]. intros x. split; [by left|]. intros [?|[[= ->] _]]; done.
    - split_and!; [apply Forall_app; by repeat constructor| |intros x; rw elem_of_app list_elem_of_singleton; naive_solver].
      apply NoDup_app. split_and!; [done| |apply NoDup_singleton]. intros x Hx ->%list_elem_of_singleton. done. }
  destruct Hadd as (Ht' & Hnd' & Hin). destruct (IH _ Ht' Hnd') as (? & ? & Hx). split_and!; [done|done|].
  intros x. rw Hx Hin elem_of_cons. naive_solver.
Qed.

Lemma collect_new_spec l :
  Forall (λ x, str_truthy x = true) (collect_new l) ∧ NoDup (collect_new l) ∧
  ∀ x, x ∈ collect_new l ↔ Some x ∈ l ∧ str_truthy x = true.
Proof.
  destruct (collect_new_gen [] l) as (? & ? & Hx); [constructor|constructor|]. split_and!; [done|done|].
  intros x. unfold collect_new. rw Hx. split; [intros [?%not_elem_of_nil|?]; done|by right].
Qed.

(** The usernames of the members of a context. *)
Definition member_username (context : AgentContext) (u : string) : Prop :=
  ∃ key members m, key ∈ MEMBER_ENTITY_KEYS ∧ dget key (cx_entities context) = PList members ∧
    PDict m ∈ members ∧ u = text_of (dget "username" m) ∧ str_truthy u = true.

Lemma setdefault_get k v d k' x : dict_get k' (dict_setdefault (V:=string) k v d) = Some x → dict_get k' d = Some x ∨ x = v.
Proof.
  unfold dict_setdefault. destruct (dict_mem k d); [by left|]. rw dict_get_set. case_bool_decide; [intros [= <-]; by right|by left].
Qed.

Lemma add_member_get r member n u :
  dict_get n (add_member r member) = Some u →
  dict_get n r = Some u ∨ ∃ m, member = PDict m ∧ u = text_of (dget "username" m) ∧ str_truthy u = true.
Proof.
  unfold add_member. destruct member as [| | | | | |m]; try by left. destruct (str_truthy (text_of (dget "username" m))) eqn:Et; [|by left].
  assert (Hadd : ∀ name r, dict_get n (if str_truthy name then dict_setdefault (py_lower name) (text_of (dget "username" m)) r else r) = Some u →
    dict_get n r = Some u ∨ u = text_of (dget "username" m)).
  { intros name r'. destruct (str_truthy name); [apply setdefault_get|by left]. }
  intros H. apply Hadd in H as [H| ->]; [|right; eauto]. apply Hadd in H as [H| ->]; [|right; eauto].
  apply setdefault_get in H as [H| ->]; [by left|right; eauto].
Qed.

Lemma known_member context n u : dict_get n (known_member_usernames context) = Some u → member_username context u.
Proof.
  unfold known_member_usernames. set (step := λ resolver key, match dget key (cx_entities context) with
    PList members => foldl add_member resolver members | _ => resolver end).
  assert (Hf : ∀ members r, dict_get n (foldl add_member r members) = Some u →
    dict_get n r = Some u ∨ ∃ m, PDict m ∈ members ∧ u = text_of (dget "username" m) ∧ str_truthy u = true).
  { induction members as [|x members IH]; intros r H; [by left|]. cbn in H. apply IH in H as [H|(m & ? & ?)].
    - apply add_member_get in H as [H|(m & -> & ?)]; [by left|]. right. exists m. split; [by left|done].
    - right. exists m. split; [by right|done]. }
  assert (Hk : ∀ keys r, (∀ k, k ∈ keys → k ∈ MEMBER_ENTITY_KEYS) → dict_get n (foldl step r keys) = Some u →
    dict_get n r = Some u ∨ member_username context u).
  { induction keys as [|k keys IH]; intros r Hin H; [by left|]. cbn in H. apply IH in H as [H|?]; [|by right|intros j Hj; apply Hin; by right].
    unfold step in H. destruct (dget k (cx_entities context)) as [| | | | |l|] eqn:E; try by left.
    apply Hf in H as [H|(m & Hm & ? & ?)]; [by left|]. right. exists k, l, m. split_and!; try done. apply Hin. by left. }
  intros H. apply Hk in H as [H|H]; done.
Qed.

(** The cleaned names are members of the project as soon as any member is known. *)
Lemma clean_usernames_spec context raw :
  let known := known_member_usernames context in
  NoDup (clean_usernames raw known) ∧
  ∀ u, u ∈ clean_usernames raw known → str_truthy u = true ∧ (known ≠ [] → member_username context u).
Proof.
  intros known. destruct (collect_new_spec (map (resolve_username known) (list_or_single raw))) as (_ & Hnd & Hx).
  split; [exact Hnd|]. intros u [Hu Ht]%Hx. split; [done|]. intros Hk. apply list_elem_of_fmap in Hu as (v & Hv & _).
  unfold resolve_username in Hv. destruct (str_truthy (text_of v)); [|done].
  destruct known as [|kv known'] eqn:E; [done|]. rewrite -E in Hv. by apply (known_member context (py_lower (text_of v))).
Qed.

(** *** Roll-up *)

(** Induction along [children]. *)
Lemma children_ind (P : pyval → Prop) :
  (∀ v, (∀ d l c, v = PDict d → dict_get "children" d = Some (PList l) → c ∈ l → P c) → P v) → ∀ v, P v.
Proof.
  intros Hstep v. assert (H : P v ∧ ∀ l, v = PList l → Forall P l); [|apply H].
  induction v as [| | | | |l IH|d IH] using pyval_nested_ind; (split; [apply Hstep|]); try done.
  - intros l' [= <-]. eapply Forall_impl; [exact IH|]. by intros x [? _].
  - intros d' l c [= <-] Hl Hc. apply dict_get_Some_elem in Hl. rw Forall_forall in IH. destruct (IH _ Hl) as [_ Hk].
    specialize (Hk l eq_refl). rw Forall_forall in Hk. by apply Hk.
Qed.

(** Somebody assigned to a node or to one below it. *)
Inductive assigned_below (known_usernames : dict string) : pyval → string → Prop :=
  | below_own d u : u ∈ clean_usernames (dget "assigneeUsernames" d) known_usernames →
      assigned_below known_usernames (PDict d) u
  | below_child d l c u : dict_get "children" d = Some (PList l) → c ∈ l → assigned_below known_usernames c u →
      assigned_below known_usernames (PDict d) u.

(** [v'] is [v] with every node listing everybody below it, and otherwise the same. *)
Inductive rolled_up (known_usernames : dict string) : pyval → pyval → Prop :=
  | rolled_node d d' l l' :
      node_children d = Some l → node_children d' = Some l' → Forall2 (rolled_up known_usernames) l l' →
      (∀ k, k ∉ ["children"; "assigneeUsernames"] → dict_get k d' = dict_get k d) →
      ((∀ u, ¬ assigned_below known_usernames (PDict d) u) ∧ dict_get "assigneeUsernames" d' = dict_get "assigneeUsernames" d ∨
       ∃ names, dict_get "assigneeUsernames" d' = Some (pstrs names) ∧ NoDup names ∧
         ∀ u, u ∈ names ↔ assigned_below known_usernames (PDict d) u) →
      rolled_up known_usernames (PDict d) (PDict d').

Lemma foldl_new_spec acc l :
  Forall (λ x, str_truthy x = true) acc → NoDup acc → Forall (λ x, str_truthy x = true) l →
  let r := foldl add_new acc (map Some l) in
  Forall (λ x, str_truthy x = true) r ∧ NoDup r ∧ ∀ x, x ∈ r ↔ x ∈ acc ∨ x ∈ l.
Proof.
  intros Ha Hnd Hl. destruct (collect_new_gen acc (map Some l) Ha Hnd) as (H1 & H2 & H3). split_and!; [done|done|].
  intros x. rw H3 list_elem_of_fmap. rw Forall_forall in Hl. split; [naive_solver|]. intros [?|Hx]; [by left|right]. eauto.
Qed.

(** One step of the roll-up. *)
Lemma rollup_dict known d :
  rollup_assignee_usernames known (PDict d) =
    let own := clean_usernames (dget "assigneeUsernames" d) known in
    let '(d', merged) :=
      match dict_get "children" d with
      | Some (PList l) =>
          let subs := map (rollup_assignee_usernames known) l in
          (dict_set "children" (PList (map fst subs)) d, foldl add_new own (map Some (concat (map snd subs))))
      | _ => (d, own)
      end in
    (PDict (match merged with [] => d' | _ => dict_set "assigneeUsernames" (pstrs merged) d' end), merged).
Proof.
  cbn [rollup_assignee_usernames].
  rw (dict_get_map (λ v, match v with PList l => Some (map (rollup_assignee_usernames known) l) | _ => None end) d "children").
  destruct (dict_get "children" d) as [v|]; [|done]. by destruct v.
Qed.

(** The same, for a node whose children are a list or absent. *)
Lemma rollup_node known d l :
  node_children d = Some l →
  let subs := map (rollup_assignee_usernames known) l in
  let merged := foldl add_new (clean_usernames (dget "assigneeUsernames" d) known) (map Some (concat (map snd subs))) in
  ∃ d', rollup_assignee_usernames known (PDict d) = (PDict d', merged) ∧
    node_children d' = Some (map fst subs) ∧
    (∀ k, k ∉ ["children"; "assigneeUsernames"] → dict_get k d' = dict_get k d) ∧
    dict_get "assigneeUsernames" d' = match merged with [] => dict_get "assigneeUsernames" d | _ => Some (pstrs merged) end.
Proof.
  intros Hl. cbn zeta. rw rollup_dict. cbn zeta.
  set (subs := map (rollup_assignee_usernames known) l).
  set (merged := foldl add_new _ (map Some (concat (map snd subs)))).
  assert (H1 : ∃ d1, (match dict_get "children" d with
      | Some (PList l) =>
          (dict_set "children" (PList (map fst (map (rollup_assignee_usernames known) l))) d,
           foldl add_new (clean_usernames (dget "assigneeUsernames" d) known)
             (map Some (concat (map snd (map (rollup_assignee_usernames known) l)))))
      | _ => (d, clean_usernames (dget "assigneeUsernames" d) known)
      end) = (d1, merged) ∧ node_children d1 = Some (map fst subs) ∧ ∀ k, k ≠ "children" → dict_get k d1 = dict_get k d).
  { unfold node_children, dget, dict_get_or in Hl. destruct (dict_get "children" d) as [v|] eqn:E.
    - destruct v; try done; injection Hl as <-.
      + exists d. split_and!; try done. unfold node_children, dget, dict_get_or. by rw E.
      + exists (dict_set "children" (PList (map fst subs)) d). split_and!; [done| |intros k Hk; by rw dict_get_set_ne].
        unfold node_children, dget, dict_get_or. by rw dict_get_set_eq.
    - injection Hl as <-. exists d. split_and!; try done. unfold node_children, dget, dict_get_or. by rw E. }
  destruct H1 as (d1 & -> & Hc & Hk). clearbody merged. eexists. split; [reflexivity|]. destruct merged as [|x merged].
  - split_and!; [done| |by apply Hk]. intros k Hn. apply Hk. set_solver.
  - split_and!; [|intros k Hn; rw dict_get_set_ne; [set_solver|]; apply Hk; set_solver|apply dict_get_set_eq].
    rw -Hc. unfold node_children, dget, dict_get_or. by rw dict_get_set_ne.
Qed.

Lemma below_dict known d children u :
  node_children d = Some children →
  assigned_below known (PDict d) u ↔
    u ∈ clean_usernames (dget "assigneeUsernames" d) known ∨ ∃ c, c ∈ children ∧ assigned_below known c u.
Proof.
  intros Hch. unfold node_children, dget, dict_get_or in Hch. split.
  - inversion 1 as [? ? Hu|? l c ? Hl Hc Hu]; subst; [by left|right]. rw Hl in Hch. injection Hch as <-. eauto.
  - intros [Hu|(c & Hc & Hu)]; [by constructor|]. destruct (dict_get "children" d) as [[]|] eqn:E; try done;
      injection Hch as <-; try by apply not_elem_of_nil in Hc. by eapply below_child.
Qed.

(** *** Dropping fields *)

(** [r]: what is left of a payload and the fields that were dropped from it. *)
Definition dropping (payload : dict pyval) (r : dict pyval * list string) : Prop :=
  dict_wf r.1 ∧ NoDup r.2 ∧
  (∀ k, k ∈ r.2 ↔ dict_get k payload ≠ None ∧ dict_get k r.1 = None) ∧
  (∀ k, dict_get k r.1 = None ∨ dict_get k r.1 = dict_get k payload).

Lemma drop_step payload r field r' :
  dropping payload r → dict_wf payload →
  r' = (if dict_mem field r.1 then (dict_del field r.1, r.2 ++ [field]) else r) →
  dropping payload r' ∧ ∀ k, dict_get k r'.1 = if bool_decide (k = field) then None else dict_get k r.1.
Proof.
  intros (Hwf & Hnd & Hin & Hget) Hp ->. unfold dict_mem. destruct (dict_get field r.1) as [v|] eqn:E.
  - assert (Hd : ∀ k, dict_get k (dict_del field r.1) = if bool_decide (k = field) then None else dict_get k r.1).
    { intros k. rw dict_get_del; [done|]. by repeat case_bool_decide; subst. }
    split; [|exact Hd]. cbn. split_and!; [by apply dict_wf_del| | |].
    + apply NoDup_app. split_and!; [done| |apply NoDup_singleton]. intros k Hk ->%list_elem_of_singleton.
      apply Hin in Hk as [_ Hk]. congruence.
    + intros k. rw elem_of_app list_elem_of_singleton Hin Hd. case_bool_decide as Hk; [subst k|naive_solver].
      split; [intros _|by right]. split; [|done]. destruct (Hget field); congruence.
    + intros k. rw Hd. case_bool_decide; [by left|apply Hget].
  - split; [done|]. intros k. by case_bool_decide; subst.
Qed.

Lemma pop_field_step payload r field :
  dropping payload r → dict_wf payload → (∀ k, dict_get k payload ≠ Some PNone) →
  dropping payload (pop_field r field) ∧
  ∀ k, dict_get k (pop_field r field).1 = if bool_decide (k = field) then None else dict_get k r.1.
Proof.
  intros Hd Hp Hnn. apply drop_step; [done|done|]. destruct Hd as (Hwf & _ & _ & Hget).
  unfold pop_field, dict_mem, dget, dict_get_or. destruct (dict_get field r.1) as [v|] eqn:E.
  - destruct v; try done. by destruct (Hget field) as [H|H]; rw H in E; [|apply Hnn in E].
  - cbn. destruct r as [d l]. cbn in *. f_equal. clear -E. induction d as [|[k v] d IH]; [done|]. cbn in *.
    case_bool_decide; [done|]. f_equal. by apply IH.
Qed.

Lemma pop_if_step payload r b field :
  dropping payload r → dict_wf payload →
  dropping payload (pop_if b field r) ∧
  ∀ k, dict_get k (pop_if b field r).1 = if bool_decide (k = field) && b then None else dict_get k r.1.
Proof.
  intros Hd Hp. unfold pop_if. destruct b; [rw andb_true_r|rw andb_false_r].
  - destruct (drop_step payload r field _ Hd Hp eq_refl) as [H1 H2]. split; [exact H1|]. intros k. rw andb_true_r. apply H2.
  - split; [done|]. intros k. by rw andb_false_r.
Qed.

Lemma drop_protected_wf protected payload current payload' dropped :
  dict_wf payload → drop_protected_fields protected payload current = (payload', dropped) → dict_wf payload'.
Proof.
  intros Hwf. unfold drop_protected_fields.
  assert (Hpop : ∀ fields r, dict_wf r.1 → dict_wf (foldl pop_field r fields).1).
  { induction fields as [|f fields IH]; intros r Hr; cbn; [done|]. apply IH. by apply dict_wf_del. }
  assert (Hif : ∀ b field r, dict_wf r.1 → dict_wf (pop_if b field r).1).
  { intros b field r Hr. unfold pop_if. destruct (_ && _); [by apply dict_wf_del|done]. }
  intros E. replace payload' with (payload', dropped).1 by done. rewrite -E. apply Hif, Hif, Hpop. exact Hwf.
Qed.

(** ** Properties of trees *)

(** the validation of a tree accepts exactly the non-empty forests of titled
    objects with at most 3 levels and at most 100 nodes, wherever in the tree a
    fault is; and its error names the first fault, so a rejected tree never has an
    empty error. *)
Theorem validate_work_item_tree_spec items :
  (validate_work_item_tree items = None ↔
    ∃ l k, items = Some l ∧ l ≠ [] ∧ work_forest 3 l k ∧ (k ≤ 100)%nat) ∧
  validate_work_item_tree items ≠ Some EmptyString.
Proof.
  split.
  - unfold validate_work_item_tree. destruct items as [[|x l]|]; [split; [done|naive_solver]| |split; [done|naive_solver]].
    assert (Hn : x :: l ≠ []) by done. pose proof (walk_spec 3 1 0 (x :: l)) as Hw.
    change (Z.to_nat MAX_WORK_ITEM_TREE_DEPTH) with 3%nat. destruct (walk 3 1 0 (x :: l)) as [e|c].
    + split; [done|]. intros (l' & k & [= <-] & _ & Hk & Hle).
      assert (inl e = inr (Z.of_nat k)) as [=]. apply Hw; [done|done|done|]. exists k. unfold MAX_WORK_ITEM_TREE_ITEMS. split_and!; [done|lia|lia].
    + split; [|done]. intros _. destruct (proj1 (Hw c Hn ltac:(done) ltac:(done)) eq_refl) as (k & Hk & -> & Hle).
      exists (x :: l), k. unfold MAX_WORK_ITEM_TREE_ITEMS in Hle. split_and!; [done|done|done|lia].
  - unfold validate_work_item_tree. destruct items as [[|x l]|]; try done.
    pose proof (walk_error (Z.to_nat MAX_WORK_ITEM_TREE_DEPTH) 1 0 (x :: l) eq_refl) as He.
    destruct (walk _ 1 0 _); [congruence|done].
Qed.

(** C33: what the planner's typed drafts become is what the tree tool gets, and it
    passes the tool's validation: an action with drafts and no list of its own gets
    an input from which the tool reads exactly the nodes of the drafts; they are
    valid as soon as every title has something besides white space and there are
    at most 100 of them, the nesting of the draft types being the bound on the
    depth. *)
Theorem materialized_tree_valid a :
  ac_tool_name a = "create_workitem_tree" → ac_work_items a ≠ [] → coerce_work_item_tree_items (ac_input a) = None →
  ∃ input, materialized_input a = Some input ∧
    coerce_work_item_tree_items input = Some (work_item_drafts_to_items (ac_work_items a)) ∧
    (∀ k, k ≠ "items" → dict_get k input = dict_get k (ac_input a)) ∧
    (forallb draft_titled (ac_work_items a) = true → (sum_list_with draft_size (ac_work_items a) ≤ 100)%nat →
     validate_work_item_tree (coerce_work_item_tree_items input) = None).
Proof.
  intros Ht Hw Hc. unfold materialized_input. rw Ht Hc (bool_decide_eq_false_2 (ac_work_items a = [])); [done|].
  cbn [negb andb bool_decide decide_rel].
  set (items := work_item_drafts_to_items (ac_work_items a)).
  assert (Hcoerce : coerce_work_item_tree_items (dict_set "items" (PList items) (ac_input a)) = Some items).
  { unfold coerce_work_item_tree_items, TREE_ITEMS_KEYS. cbn [coerce_keys]. rw bool_decide_eq_false_2; [done|]. cbn [andb].
    unfold dget at 1, dict_get_or. rw dict_get_set_eq. unfold items, work_item_drafts_to_items.
    by destruct (ac_work_items a). }
  eexists. split; [reflexivity|]. split; [exact Hcoerce|]. split; [intros k Hk; by rw dict_get_set_ne|].
  intros Htitled Hsize. rw Hcoerce. apply validate_work_item_tree_spec. exists items, (sum_list_with draft_size (ac_work_items a)).
  split_and!; [done| |by apply drafts_forest|done]. unfold items, work_item_drafts_to_items. by destruct (ac_work_items a).
Qed.

(** ** Properties of payloads *)

(** C34: what the clean-up of a payload guarantees, whatever a planner put into it.  A
    priority or status is kept, stripped and in lower case, exactly when that is one of
    the API's, and dropped otherwise.  A date is kept exactly as given when its text
    without surrounding white space begins with four digits, two and two joined by
    hyphens, and dropped otherwise; nothing more of it is checked, so that text after the
    date, an impossible day and the white space itself reach the API.  Assignees are a
    non-empty list without duplicates of usernames that, whenever the context has any
    member, are those of members of the context, of the project or only of the
    workspace.  Labels are a non-empty list without duplicates of at most 30 characters.
    No field is added and every other field stays. *)
Theorem normalize_node_payload_safe context payload :
  dict_wf payload →
  let known := known_member_usernames context in
  let payload' := normalize_node_payload known payload in
  (∀ k v, k ∈ ["priority"; "status"] → dict_get k payload = Some v →
     let s := py_lower (strip (py_str v)) in
     let allowed := if bool_decide (k = "priority") then WORK_ITEM_PRIORITIES else WORK_ITEM_STATUSES in
     dict_get k payload' = if bool_decide (s ∈ allowed) then Some (PStr s) else None) ∧
  (∀ k v, k ∈ ["startDate"; "dueDate"] → dict_get k payload = Some v →
     dict_get k payload' = if iso_date_prefix (strip (py_str v)) then Some v else None) ∧
  (∀ v, dict_get "assigneeUsernames" payload' = Some v →
    ∃ l, v = pstrs l ∧ l ≠ [] ∧ NoDup l ∧ ∀ u, u ∈ l → str_truthy u = true ∧ (known ≠ [] → member_username context u)) ∧
  (∀ v, dict_get "labelNames" payload' = Some v →
    ∃ l, v = pstrs l ∧ l ≠ [] ∧ NoDup l ∧ ∀ u, u ∈ l → str_truthy u = true ∧ (str_len u ≤ 30)%nat) ∧
  (∀ k, dict_get k payload = None → dict_get k payload' = None) ∧
  (∀ k, k ∉ ["priority"; "status"; "startDate"; "dueDate"; "assigneeUsernames"; "labelNames"] →
     dict_get k payload' = dict_get k payload).
Proof.
  intros Hwf known payload'. unfold payload'.
  assert (Hget : ∀ k v', dict_get k (normalize_node_payload known payload) = Some v' →
    ∃ v, dict_get k payload = Some v ∧ clean_field known k v = Some v').
  { intros k v'. rw normalize_get; [done|]. destruct (dict_get k payload) as [v|]; [|done]. cbn. eauto. }
  assert (Hlist : ∀ l v', option_map pstrs (some_list l) = Some v' → v' = pstrs l ∧ l ≠ []) by (intros [|x l] v' [= <-]; done).
  split_and!.
  - intros k v Hk Hv. cbv zeta. rw normalize_get; [done|]. rw Hv. cbn [mbind option_bind].
    rw elem_of_cons list_elem_of_singleton in Hk. by destruct Hk as [-> | ->].
  - intros k v Hk Hv. rw normalize_get; [done|]. rw Hv. cbn [mbind option_bind].
    rw elem_of_cons list_elem_of_singleton in Hk. by destruct Hk as [-> | ->].
  - intros v' (v & _ & H)%Hget. apply Hlist in H as [-> Hne]. destruct (clean_usernames_spec context v) as [Hnd Hu].
    by exists (clean_usernames v known).
  - intros v' (v & _ & H)%Hget. apply Hlist in H as [-> Hne].
    destruct (collect_new_spec (map (λ label, Some (str_take 30 (text_of label))) (list_or_single v))) as (_ & Hnd & Hx).
    exists (clean_labels v). split_and!; [done|done|done|]. intros u [Hu Ht]%Hx. split; [done|].
    apply list_elem_of_fmap in Hu as (x & [= ->] & _). exact (str_take_length 30 (text_of x)).
  - intros k Hk. rw normalize_get; [done|]. by rw Hk.
  - intros k Hk. rw normalize_get; [done|]. destruct (dict_get k payload) as [v|]; [|done]. cbn. unfold clean_field.
    rw !not_elem_of_cons in Hk. destruct Hk as (? & ? & ? & ? & ? & ? & _).
    by repeat (rw bool_decide_eq_false_2; [done|]).
Qed.

(** a bulk update never touches what is somebody's work: what is left of an
    update after the protected fields are dropped changes neither title nor status,
    fills a description only when the item has fewer than 30 characters of one, and
    assigns only an item without assignees; all else of the update is kept, and
    exactly the fields that are gone are reported as dropped. *)
Theorem drop_protected_fields_spec protected payload current :
  protected ≡ₚ PROTECTED_UPDATE_FIELDS → dict_wf payload → (∀ k, dict_get k payload ≠ Some PNone) →
  let '(payload', dropped) := drop_protected_fields protected payload current in
  let described := (30 ≤ str_len (text_of (dget "description" current)))%nat in
  let owned := truthy (dget "assigneeUsernames" current) = true in
  dict_get "title" payload' = None ∧ dict_get "status" payload' = None ∧
  (described → dict_get "description" payload' = None) ∧
  (owned → dict_get "assigneeUsernames" payload' = None) ∧
  (∀ k, k ∉ ["title"; "status"] → (k = "description" → ¬ described) → (k = "assigneeUsernames" → ¬ owned) →
     dict_get k payload' = dict_get k payload) ∧
  (∀ k, k ∈ dropped ↔ dict_get k payload ≠ None ∧ dict_get k payload' = None) ∧ NoDup dropped.
Proof.
  intros Hp Hwf Hnn.
  assert (H0 : dropping payload (payload, [])).
  { split_and!; [done|constructor| |by right]. intros k. cbn. split; [by intros ?%not_elem_of_nil|intros [? ?]; done]. }
  assert (Hpop : ∀ fields r, dropping payload r → dropping payload (foldl pop_field r fields) ∧
    ∀ k, dict_get k (foldl pop_field r fields).1 = if bool_decide (k ∈ fields) then None else dict_get k r.1).
  { induction fields as [|f fields IH]; intros r Hr; cbn [foldl]; [split; [done|intros k; by rw bool_decide_eq_false_2; [apply not_elem_of_nil|]]|].
    destruct (pop_field_step payload r f Hr Hwf Hnn) as [Hr' Hg]. destruct (IH _ Hr') as [Hr'' Hg']. split; [done|].
    intros k. rw Hg' Hg. repeat case_bool_decide; set_solver. }
  destruct (Hpop protected _ H0) as [H1 G1].
  assert (G1' : ∀ k, dict_get k (foldl pop_field (payload, []) protected).1
    = if bool_decide (k ∈ ["title"; "status"]) then None else dict_get k payload).
  { intros k. rw G1. case_bool_decide as A; case_bool_decide as B; try done; exfalso; [apply B; change (k ∈ PROTECTED_UPDATE_FIELDS); by rewrite -Hp|apply A; by rewrite Hp]. }
  unfold drop_protected_fields.
  destruct (pop_if_step payload _ (bool_decide (30 ≤ str_len (text_of (dget "description" current)))%nat) "description" H1 Hwf)
    as [H2 G2].
  destruct (pop_if_step payload _ (truthy (dget "assigneeUsernames" current)) "assigneeUsernames" H2 Hwf) as [H3 G3].
  destruct (pop_if (truthy _) "assigneeUsernames" _) as [payload' dropped]. cbn [fst] in G3.
  assert (G : ∀ k, dict_get k payload' =
    if bool_decide (k = "assigneeUsernames") && truthy (dget "assigneeUsernames" current) then None
    else if bool_decide (k = "description") && bool_decide (30 ≤ str_len (text_of (dget "description" current)))%nat then None
    else if bool_decide (k ∈ ["title"; "status"]) then None else dict_get k payload) by (intros k; by rw G3 G2 G1').
  destruct H3 as (_ & Hnd & Hin & _). cbn in *. split_and!.
  - by rw G.
  - by rw G.
  - intros Hd. rw G. by rw (bool_decide_eq_true_2 (30 ≤ _)%nat).
  - intros Ho. rw G. by rw Ho.
  - intros k Hk Hd Ho. rw G. rw (bool_decide_eq_false_2 (k ∈ _)); [done|].
    destruct (truthy (dget "assigneeUsernames" current)); repeat case_bool_decide; cbn; naive_solver.
  - exact Hin.
  - exact Hnd.
Qed.

(** a parent lists everybody who works below it.  In a valid tree the roll-up
    changes nothing but the assignees; the names it gives a node are, without
    duplicates, the members named by the node or by any node below it, and a node
    below which nobody known is named stays as it is. *)
Theorem rollup_assignee_usernames_spec known h l k :
  work_forest h l k →
  Forall (λ node, let '(node', merged) := rollup_assignee_usernames known node in
    rolled_up known node node' ∧ NoDup merged ∧ Forall (λ u, str_truthy u = true) merged ∧
    ∀ u, u ∈ merged ↔ assigned_below known node u) l ∧
  work_forest h (map (λ node, (rollup_assignee_usernames known node).1) l) k.
Proof.
  induction 1 as [|h d children l k1 k2 Ht Hch Hforest [IHc IHcf] _ [IHl IHlf]]; [split; constructor|].
  destruct (rollup_node known d children Hch) as (d' & E & Hch' & Hrest & Hass).
  set (merged := foldl add_new _ _) in *.
  destruct (collect_new_spec (map (resolve_username known) (list_or_single (dget "assigneeUsernames" d)))) as (Hown1 & Hown2 & _).
  assert (IHc' : Forall (λ node, rolled_up known node (rollup_assignee_usernames known node).1 ∧
    Forall (λ u, str_truthy u = true) (rollup_assignee_usernames known node).2 ∧
    ∀ u, u ∈ (rollup_assignee_usernames known node).2 ↔ assigned_below known node u) children).
  { eapply Forall_impl; [exact IHc|]. intros c. cbn beta. destruct (rollup_assignee_usernames known c) as [c' names].
    intros (Hro & _ & Htru & Hiff). done. }
  rw Forall_forall in IHc'.
  destruct (foldl_new_spec (clean_usernames (dget "assigneeUsernames" d) known)
    (concat (map snd (map (rollup_assignee_usernames known) children)))) as (Htr & Hnd & Hm); [done|done| |].
  { apply Forall_concat, Forall_forall. intros names (r & -> & (c & -> & Hc)%list_elem_of_fmap)%list_elem_of_fmap. by apply IHc'. }
  fold merged in Htr, Hnd, Hm.
  assert (Hbelow : ∀ u, u ∈ merged ↔ assigned_below known (PDict d) u).
  { intros u. rw Hm. rw (below_dict known d children u Hch). f_equiv. split.
    - intros (names & Hn & Hu)%list_elem_of_In%in_concat. apply list_elem_of_In in Hu.
      apply list_elem_of_In, list_elem_of_fmap in Hn as (r & -> & (c & -> & Hc)%list_elem_of_fmap).
      exists c. split; [done|]. by apply IHc'.
    - intros (c & Hc & Hu). apply list_elem_of_In, in_concat. exists (rollup_assignee_usernames known c).2.
      rw -!list_elem_of_In. split; [by apply list_elem_of_fmap_2, list_elem_of_fmap_2|by apply IHc']. }
  split.
  - constructor; [|exact IHl]. cbn beta. rw E. split_and!; [|done|done|done].
    apply (rolled_node _ _ _ children (map fst (map (rollup_assignee_usernames known) children))); [done|done| |done|].
    + apply Forall2_same_length_lookup_2; [by rw !length_map|]. intros i c c' Hc Hc'.
      rw !list_lookup_fmap Hc in Hc'. injection Hc' as <-. apply IHc'. by eapply list_elem_of_lookup_2.
    + rw Hass. destruct merged as [|x names] eqn:Em.
      * left. split; [|done]. intros u Hu%Hbelow. by apply not_elem_of_nil in Hu.
      * right. by exists (x :: names).
  - cbn [map]. rw E. apply (forest_cons _ _ (map fst (map (rollup_assignee_usernames known) children))); [|done| |done].
    + rw -Ht. unfold has_title, dget, dict_get_or. rw Hrest; [set_solver|done].
    + by rw map_map.
Qed.

(** ** Concrete inputs *)

Definition sample_leaf (title : string) : WorkItemLeafDraft := {|
  wd_title := title; wd_description := ""; wd_start_date := None; wd_due_date := Some "2026-01-31"; wd_priority := Some "high";
  wd_status := None; wd_assignee_usernames := ["ana"]; wd_label_names := [] |}.
Definition sample_drafts : list WorkItemDraft :=
  [{| wi_leaf := sample_leaf "Epic"; wi_children := [{| wc_leaf := sample_leaf "Story"; wc_children := [sample_leaf "Task"] |}] |}].

Definition tree_action : PlannedAction := {|
  ac_action_id := "a"; ac_plan_id := "run-1"; ac_action_type := "tool"; ac_tool_name := "create_workitem_tree";
  ac_instruction := "do it"; ac_input := [("projectId", PStr "p")]; ac_work_items := sample_drafts; ac_work_item_updates := [];
  ac_target_item_ids := []; ac_depends_on := []; ac_requires_approval := false; ac_status := APending;
  ac_idempotency_key := "k"; ac_expected_entity_versions := []; ac_created_at := 0; ac_updated_at := 0 |}.

Lemma materialized_tree_valid_witness :
  ∃ input, materialized_input tree_action = Some input ∧
    validate_work_item_tree (coerce_work_item_tree_items input) = None ∧ dict_get "projectId" input = Some (PStr "p").
Proof.
  destruct (materialized_tree_valid tree_action eq_refl ltac:(done) eq_refl) as (input & E & _ & Hk & Hv).
  exists input. split; [exact E|]. split; [apply Hv; [reflexivity|vm_compute; lia]|]. by rewrite Hk.
Defined.

Definition sample_members : AgentContext := {|
  cx_workspace_id := "ws"; cx_project_id := None;
  cx_source_event := {| env_envelope_id := "env"; env_event := DomainEvent {|
     ev_event_id := "evt"; ev_event_type := "story.created"; ev_workspace_id := "ws"; ev_project_id := None;
     ev_payload := []; ev_occurred_at := 0; ev_correlation_id := None; ev_causality := causality_root;
     ev_idempotency_key := None |}; env_received_at := 0; env_attempt := 0 |};
  cx_workflow_id := "wf";
  cx_entities := [("project_members", PList [PDict [("username", PStr "ana"); ("fullName", PStr "Ana Silva")]])];
  cx_retrieved_documents := []; cx_permissions := []; cx_entity_versions := []; cx_previous_agent_outputs := [];
  cx_runtime_metadata := [] |}.

Lemma normalize_node_payload_safe_witness :
  let payload := [("title", PStr "t"); ("priority", PStr " URGENT"); ("startDate", PStr " 2024-99-99 (or so)"); ("dueDate", PStr "soon");
                  ("assigneeUsernames", PList [PStr "Ana Silva"; PStr "ana"; PStr "ghost"])] in
  let payload' := normalize_node_payload (known_member_usernames sample_members) payload in
  payload' = [("title", PStr "t"); ("priority", PStr "urgent"); ("startDate", PStr " 2024-99-99 (or so)");
              ("assigneeUsernames", pstrs ["ana"])] ∧
  dict_get "startDate" payload' = Some (PStr " 2024-99-99 (or so)") ∧ dict_get "dueDate" payload' = None ∧
  ∃ l, dict_get "assigneeUsernames" payload' = Some (pstrs l) ∧ ∀ u, u ∈ l → member_username sample_members u.
Proof.
  intros payload payload'. split; [vm_compute; reflexivity|].
  destruct (normalize_node_payload_safe sample_members payload) as (_ & Hd & Ha & _).
  { apply (bool_decide_unpack _). vm_compute. exact I. }
  split; [exact (Hd "startDate" _ ltac:(by left) eq_refl)|]. split; [exact (Hd "dueDate" _ ltac:(by right; left) eq_refl)|].
  destruct (Ha (pstrs ["ana"])) as (l & El & _ & _ & Hu); [vm_compute; reflexivity|].
  exists l. split; [rewrite -El; vm_compute; reflexivity|]. intros u Hin. by apply (Hu u Hin).
Defined.

Lemma drop_protected_fields_spec_witness :
  let '(payload', dropped) := drop_protected_fields ["status"; "title"]
      [("title", PStr "t"); ("priority", PStr "low"); ("assigneeUsernames", PStr "a")] [("assigneeUsernames", pstrs ["b"])] in
  dict_get "title" payload' = None ∧ dict_get "assigneeUsernames" payload' = None ∧ NoDup dropped.
Proof.
  pose proof (drop_protected_fields_spec ["status"; "title"]
    [("title", PStr "t"); ("priority", PStr "low"); ("assigneeUsernames", PStr "a")] [("assigneeUsernames", pstrs ["b"])]) as H.
  destruct (drop_protected_fields _ _ _) as [payload' dropped].
  destruct H as (Ht & _ & _ & Ha & _ & _ & Hnd); [by apply Permutation_swap| |by intros k; cbn; repeat case_bool_decide|].
  { apply (bool_decide_unpack _). vm_compute. exact I. }
  split; [exact Ht|]. split; [by apply Ha|exact Hnd].
Defined.

Lemma rollup_assignee_usernames_spec_witness :
  let node := PDict [("title", PStr "t"); ("children", PList [PDict [("title", PStr "c"); ("assigneeUsernames", PStr "Ana Silva")]])] in
  let known := known_member_usernames sample_members in
  (rollup_assignee_usernames known node).2 = ["ana"] ∧ rolled_up known node (rollup_assignee_usernames known node).1.
Proof.
  intros node known. split; [vm_compute; reflexivity|].
  assert (Hf : work_forest 2 [node] 2).
  { eapply (forest_cons 1 _ _ [] 1 0); [done|reflexivity| |constructor].
    eapply (forest_cons 0 _ _ [] 0 0); [done|reflexivity|constructor|constructor]. }
  destruct (rollup_assignee_usernames_spec known 2 [node] 2 Hf) as [HF _]. apply Forall_cons in HF as [Hn _].
  destruct (rollup_assignee_usernames known node) as [node' merged]. exact (proj1 Hn).
Defined.
