(* ===== verification/WorkItemTools.v ===== *)
(** * The work item tools ([src/capabilities/tools/workitem_tools.py],
    [src/capabilities/tools/base.py])

    Each tool's [execute], with and without a configured API client.

    Siblings of a tree are created by a thread pool.  The class [ThreadPool] says
    what the program does not determine: the order in which the calls of a batch
    run, which calls are cancelled after a failure, and in which order a set of
    strings is iterated.  Every property holds for every [ThreadPool]. *)

From Stdlib Require Import QArith.
From S2P Require Import Prelude PyStr PyVal PyUuid Json JsonLoads Events Plans SubTasks Policies Env Definitions Client.
From S2P Require Import Records Validation Planning WorkItems.
Open Scope Z_scope.

(** ** What the interpreter decides *)

Class ThreadPool := {
  pool_order : list request → nat → list nat;
  pool_cancels : list request → nat → bool;
  set_order : list string → list string;
  pool_order_all h n : pool_order h n ≡ₚ seq 0 n;
  set_order_all l : set_order l ≡ₚ l
}.

Section pool.
Context {A B : Type} (f : A → st Ext B).

(** The results so far, by position. *)
Definition failed_before (results : list (nat * res B)) (i : nat) : bool :=
  existsb (λ r, bool_decide (r.1 < i)%nat && negb (is_Ok r.2)) results.

Fixpoint run_calls `{ThreadPool} (xs : list A) (order : list nat) (results : list (nat * res B)) : st Ext (list (nat * res B)) :=
  match order with
  | [] => mret results
  | i :: order' =>
      match xs !! i with
      | None => run_calls xs order' results
      | Some x =>
          h ← gets x_requests;
          if failed_before results i && pool_cancels h i then run_calls xs order' results
          else
            r ← try_catch (b ← f x; mret (Ok b)) (λ e, mret (Raise e));
            run_calls xs order' ((i, r) :: results)
      end
  end.

Definition result_at (results : list (nat * res B)) (i : nat) : option (res B) :=
  option_map snd (find_first (λ r, bool_decide (r.1 = i)) results).

(** [list(pool.map(f, xs))]: the results in the order of [xs]; the first failure is raised. *)
Fixpoint collect_results (results : list (nat * res B)) (indices : list nat) : res (list B) :=
  match indices with
  | [] => Ok []
  | i :: indices' =>
      match result_at results i with
      | Some (Ok b) => bs ← collect_results results indices'; mret (b :: bs)
      | Some (Raise e) => Raise e
      | None => Raise out_of_fuel
      end
  end.

Definition pool_map `{ThreadPool} (xs : list A) : st Ext (list B) :=
  h ← gets x_requests;
  results ← run_calls xs (pool_order h (length xs)) [];
  lift_res (collect_results results (seq 0 (length xs))).
End pool.

(** ** What the tools share *)

(** The embedding of query texts ([infrastructure/llm/gemini_embeddings.py]). *)
Record QueryEmbedder := {
  em_is_configured : bool;
  em_embed_query : string → st Ext (option (list pyfloat))
}.

(** [BaseAgentTool]: what the tools are built with. *)
Record ToolDeps := { tdp_client : option PrismApiClient; tdp_embedder : option QueryEmbedder }.

Definition live_client (deps : ToolDeps) : option PrismApiClient :=
  match tdp_client deps with Some c => if is_configured c then Some c else None | None => None end.

(** [BaseAgentTool.__init__] *)
Definition base_tool (name : string) (execute : PlannedAction → AgentContext → st Ext ToolResult)
    (definition : ToolPromptDefinition) : res Tool :=
  if bool_decide (tp_id definition = name) then Ok {| tl_definition := definition; tl_execute := execute |}
  else err ValueError ("Tool definition id does not match executable tool name: " +:+ tp_id definition +:+ " != " +:+ name).

Section results.
Context `{Env}.

(** [ToolResult(success=True, output=output)]; pydantic wants a dict. *)
Definition tool_success (name : string) (a : PlannedAction) (output : pyval) : st Ext ToolResult :=
  match output with
  | PDict d => new_tool_result (ac_plan_id a) (ac_action_id a) name true d None [] None
  | _ => validation_error "ToolResult"
  end.
Definition tool_failure (name : string) (a : PlannedAction) (error : string) : st Ext ToolResult :=
  new_tool_result (ac_plan_id a) (ac_action_id a) name false [] (Some error) [] None.
End results.

(** [value.get(key, default)] *)
Definition value_get_or (v : pyval) (key : string) (default : pyval) : res pyval :=
  match v with
  | PDict d => Ok (dict_get_or default key d)
  | _ => err AttributeError ("'" +:+ type_name v +:+ "' object has no attribute 'get'")
  end.

(** [str(input.get("projectId") or context.project_id or "")] *)
Definition project_of (a : PlannedAction) (c : AgentContext) : string :=
  py_str (py_or (dget "projectId" (ac_input a)) (py_or (ostr (cx_project_id c)) (PStr EmptyString))).

Definition with_requester (a : PlannedAction) (c : AgentContext) (payload : dict pyval) : dict pyval :=
  match requested_by_user_id (ac_input a) c with
  | Some r => if str_truthy r then dict_setdefault "requestedByUserId" (PStr r) payload else payload
  | None => payload
  end.

(** ** [float(v) >= 0.75] *)

Definition SEMANTIC_DUPLICATE_SIMILARITY_THRESHOLD : Q := 3 # 4.
Definition SEMANTIC_DUPLICATE_SEARCH_LIMIT : Z := 8.

(** What [float] makes of a text: a number, an infinity or nan. *)
Inductive float_text := FNum (q : Q) | FInf (negative : bool) | FNan.

(** Underscores separate digits only; the text without them. *)
Fixpoint drop_underscores (prev_digit : bool) (l : list ascii) : option (list ascii) :=
  match l with
  | [] => Some []
  | c :: l' =>
      if N.eqb (code c) 95 then
        match l' with
        | d :: _ => if prev_digit && is_digit d then drop_underscores false l' else None
        | [] => None
        end
      else option_map (cons c) (drop_underscores (is_digit c) l')
  end.

Definition unsigned_float (l : list ascii) : option float_text :=
  let word := py_lower (of_chars l) in
  if bool_decide (word = "inf") || bool_decide (word = "infinity") then Some (FInf false)
  else if bool_decide (word = "nan") then Some FNan
  else
    l ← drop_underscores false l;
    let i := take_while is_digit l in
    let l1 := drop (length i) l in
    let '(f, l2) := match l1 with
                    | c :: l' => if N.eqb (code c) 46 then (take_while is_digit l', drop (length (take_while is_digit l')) l')
                                 else ([], l1)
                    | [] => ([], [])
                    end in
    let e := exp_part l2 in
    if bool_decide (i ++ f = []) || negb (bool_decide (drop (length e) l2 = [])) then None
    else
      let v := (inject_Z (digits_val i) + inject_Z (digits_val f) / inject_Z (10 ^ Z.of_nat (length f)))%Q in
      Some (FNum (v * (10 # 1) ^ exp_val e)%Q).

Definition float_of_string (s : string) : option float_text :=
  match chars (strip s) with
  | c :: l =>
      if N.eqb (code c) 45 then
        option_map (λ f, match f with FNum q => FNum (- q) | FInf b => FInf (negb b) | FNan => FNan end) (unsigned_float l)
      else if N.eqb (code c) 43 then unsigned_float l
      else unsigned_float (c :: l)
  | [] => None
  end.

(** [int] to [float] overflows from here on. *)
Definition FLOAT_MAX_INT : Z := 2 ^ 1024 - 2 ^ 970.

Definition similar_enough (similarity : pyval) : res bool :=
  let at_least (q : Q) := Qle_bool SEMANTIC_DUPLICATE_SIMILARITY_THRESHOLD q in
  if negb (truthy similarity) then Ok false
  else
    match similarity with
    | PBool b => Ok b
    | PInt z => if FLOAT_MAX_INT <=? Z.abs z then err (OtherError "OverflowError") "int too large to convert to float"
                else Ok (1 <=? z)
    | PFloat f => Ok (at_least (f_val f))
    | PStr s =>
        match float_of_string s with
        | Some (FNum q) => Ok (at_least q)
        | Some (FInf negative) => Ok (negb negative)
        | Some FNan => Ok false
        | None => err ValueError ("could not convert string to float: " +:+ repr_str s)
        end
    | _ => err TypeError ("float() argument must be a string or a real number, not '" +:+ type_name similarity +:+ "'")
    end.

Example float_texts :
  float_of_string " 1_0.50e-1 " = Some (FNum ((10 + 50 / 100) * (10 # 1) ^ -1)) ∧ float_of_string "-.5" = Some (FNum (- ((0 + 5 / 10) * 1))) ∧
  float_of_string "1__0" = None ∧ float_of_string "e5" = None ∧ float_of_string "-Infinity" = Some (FInf true) ∧
  float_of_string "0x1" = None.
Proof. split_and!; vm_compute; reflexivity. Qed.

(** ** The tools *)

Section tools.
Context `{Env} `{ThreadPool} (deps : ToolDeps).

(** *** [FindDuplicateWorkItemsTool] *)

(** [_semantic_duplicates] *)
Fixpoint keep_similar (l : list (dict pyval)) : res (list (dict pyval)) :=
  match l with
  | [] => Ok []
  | item :: l' =>
      keep ← similar_enough (dget "similarity" item);
      rest ← keep_similar l';
      mret (if (keep : bool) then item :: rest else rest)
  end.

Definition semantic_duplicates (title proposed_text : string) (c : AgentContext) : st Ext (option (list (dict pyval))) :=
  match live_client deps, tdp_embedder deps with
  | Some client, Some embedder =>
      if negb (em_is_configured embedder) then mret None
      else
        embedding ← em_embed_query embedder (strip (title +:+ newline +:+ proposed_text));
        match embedding with
        | None => mret None
        | Some embedding =>
            similar ← try_catch_if is_RuntimeError
              (l ← find_similar_work_items client (ostr_or (cx_project_id c) EmptyString) embedding SEMANTIC_DUPLICATE_SEARCH_LIMIT;
               mret (Some l))
              (λ _, mret None);
            match similar with
            | None => mret None
            | Some l => lift_res (duplicates ← keep_similar l; mret (Some duplicates))
            end
        end
  | _, _ => mret None
  end.

Definition lexical_duplicates (title : string) (c : AgentContext) : list pyval :=
  match py_or (dget "sibling_work_items" (cx_entities c)) (dict_get_or (PList []) "related_workitems" (cx_entities c)) with
  | PList related =>
      List.filter (λ item, match item with
        | PDict d => str_truthy title &&
            str_contains (py_lower title) (py_lower (py_str (dict_get_or (PStr EmptyString) "title" d)))
        | _ => false
        end) related
  | _ => []
  end.

Definition find_duplicate_workitems (a : PlannedAction) (c : AgentContext) : st Ext ToolResult :=
  let name := "find_duplicate_workitems" in
  let work_item := py_or (dget "work_item" (cx_entities c)) (dict_get_or (PDict []) "story" (cx_entities c)) in
  title ← (if truthy (dget "title" (ac_input a)) then mret (dget "title" (ac_input a))
           else lift_res (value_get_or work_item "title" (PStr EmptyString)));
  let title := py_str title in
  let proposed_text := str_or_empty (dget "description" (ac_input a)) in
  semantic ← semantic_duplicates title proposed_text c;
  match semantic with
  | Some semantic =>
      item_id ← lift_res (value_get work_item "itemId");
      source_item_id ← (if truthy item_id then mret item_id else lift_res (value_get work_item "id"));
      let source_item_id := str_or_empty source_item_id in
      let duplicates := List.filter (λ item, negb (bool_decide (py_str (dget "itemId" item) = source_item_id))) semantic in
      tool_success name a (PDict [("duplicates", PList (map PDict duplicates)); ("method", PStr "semantic")])
  | None =>
      tool_success name a (PDict [("duplicates", PList (lexical_duplicates title c)); ("method", PStr "lexical")])
  end.

(** *** [CreateWorkItemTool] *)

Definition create_workitem (a : PlannedAction) (c : AgentContext) : st Ext ToolResult :=
  let input := ac_input a in
  let project_id := project_of a c in
  let payload := filter_payload (PDict input) CREATE_WORK_ITEM_FIELDS in
  let payload := dict_setdefault "title"
    (PStr (str_take 100 (py_str (py_or (dget "title" input) (PStr "Generated task"))))) payload in
  let payload := dict_setdefault "description"
    (PStr (py_str (py_or (dget "description" input) (PStr (ac_instruction a))))) payload in
  output ← match live_client deps with
           | Some client => create_work_item client project_id (with_requester a c payload)
           | None =>
               mret (PDict (dict_update
                 [("itemId", PStr (py_str (py_or (dget "itemId" input) (PStr ("local-" +:+ ac_action_id a)))));
                  ("projectId", PStr project_id); ("workspaceId", PStr (cx_workspace_id c))] payload))
           end;
  tool_success "create_workitem" a output.

(** *** [CreateWorkItemTreeTool] *)

(** A node that waits for its creation: the node, the id of its parent, its depth. *)
Definition PendingNode : Type := dict pyval * option string * Z.

(** [_create_level]: the ids of the level's items, in its order. *)
Definition local_output (project_id : string) (c : AgentContext) (a : PlannedAction) (n : nat) (payload : dict pyval) : pyval :=
  PDict (dict_update [("itemId", PStr ("local-" +:+ ac_action_id a +:+ "-" +:+ pretty (Z.of_nat n)));
                      ("projectId", PStr project_id); ("workspaceId", PStr (cx_workspace_id c))] payload).

Definition created_id (a : PlannedAction) (output : pyval) : res string :=
  item_id ← value_get output "itemId";
  if truthy item_id then mret (py_str item_id)
  else
    id ← value_get output "id";
    mret (py_str (py_or id (PStr ("local-" +:+ ac_action_id a)))).

Definition create_level (project_id : string) (a : PlannedAction) (c : AgentContext) (known_usernames : dict string)
    (start_index : nat) (level : list PendingNode) : st Ext (list string) :=
  let payloads := map (λ n : PendingNode, node_payload known_usernames (ac_instruction a) n.1.1 n.1.2) level in
  outputs ← match live_client deps with
            | Some client => pool_map (create_work_item client project_id) (map (with_requester a c) payloads)
            | None => mret (imap (λ offset payload, local_output project_id c a (start_index + offset + 1) payload) payloads)
            end;
  lift_res (map_res (created_id a) outputs).

(** What is reported of a created item. *)
Record CreatedItem := { ci_item_id : string; ci_parent_id : option string; ci_depth : Z; ci_node : dict pyval }.
Definition created_entry (i : CreatedItem) : pyval :=
  PDict [("itemId", PStr (ci_item_id i)); ("parentId", ostr (ci_parent_id i)); ("depth", PInt (ci_depth i));
         ("title", PStr (node_title (ci_node i)))].

Definition created_item (n : PendingNode) (item_id : string) : CreatedItem :=
  {| ci_item_id := item_id; ci_parent_id := n.1.2; ci_depth := n.2; ci_node := n.1.1 |}.
Definition children_dicts (node : dict pyval) : list (dict pyval) :=
  match node_children node with Some l => omap as_dict l | None => [] end.
Definition next_level (i : CreatedItem) : list PendingNode :=
  map (λ child, (child, Some (ci_item_id i), ci_depth i + 1)) (children_dicts (ci_node i)).

(** Level by level; the depth of a valid tree is enough fuel. *)
Fixpoint create_levels (fuel : nat) (project_id : string) (a : PlannedAction) (c : AgentContext)
    (known_usernames : dict string) (created : list CreatedItem) (pending : list PendingNode) : st Ext (list CreatedItem) :=
  match pending with
  | [] => mret created
  | _ =>
      match fuel with
      | O => raise out_of_fuel
      | S fuel' =>
          item_ids ← create_level project_id a c known_usernames (length created) pending;
          let new := zip_with created_item pending item_ids in
          create_levels fuel' project_id a c known_usernames (created ++ new) (concat (map next_level new))
      end
  end.

Definition create_workitem_tree (a : PlannedAction) (c : AgentContext) : st Ext ToolResult :=
  let name := "create_workitem_tree" in
  let project_id := project_of a c in
  let items := coerce_work_item_tree_items (ac_input a) in
  match validate_work_item_tree items, items with
  | Some error, _ => tool_failure name a error
  | None, None => tool_failure name a EmptyString
  | None, Some items =>
      let root_parent_id := valid_uuid_or_none (dget "parentId" (ac_input a)) in
      let known_usernames := known_member_usernames c in
      let unresolved := collect_unresolved_assignees items known_usernames in
      let nodes := omap as_dict (map (λ node, (rollup_assignee_usernames known_usernames node).1) items) in
      created ← create_levels (Z.to_nat MAX_WORK_ITEM_TREE_DEPTH) project_id a c known_usernames []
                  (map (λ node, (node, root_parent_id, 1)) nodes);
      let output := [("projectId", PStr project_id); ("createdCount", pnat (length created));
                     ("items", PList (map created_entry created))] in
      tool_success name a (PDict (match unresolved with
                                  | [] => output
                                  | _ => output ++ [("unresolvedAssignees", PList (map PDict unresolved))]
                                  end))
  end.

(** *** [UpdateWorkItemTool] *)

Definition update_workitem (a : PlannedAction) (c : AgentContext) : st Ext ToolResult :=
  let input := ac_input a in
  let item_id := py_str (py_or (dget "itemId" input) (py_or (dget "id" input) (PStr "unknown"))) in
  let project_id := project_of a c in
  let payload := filter_payload (dict_get_or (PDict input) "changes" input) UPDATE_WORK_ITEM_FIELDS in
  output ← match live_client deps with
           | Some client => update_work_item client project_id item_id (with_requester a c payload)
           | None => mret (PDict (dict_update [("itemId", PStr item_id); ("updated", PBool true)] payload))
           end;
  tool_success "update_workitem" a output.

(** *** [UpdateWorkItemsBulkTool] *)

Definition skipped_entry (item_id : pyval) (reason : string) : dict pyval := [("itemId", item_id); ("reason", PStr reason)].

(** What happens to one update: it is skipped, or its payload was applied. *)
Definition bulk_update (project_id : string) (a : PlannedAction) (c : AgentContext) (item_index : dict (dict pyval))
    (update : dict pyval) : st Ext (dict pyval + dict pyval) :=
  match valid_uuid_or_none (dget "itemId" update) with
  | None => mret (inl (skipped_entry (dget "itemId" update) "invalid_item_id"))
  | Some item_id =>
      match dict_get item_id item_index with
      | None => mret (inl (skipped_entry (PStr item_id) "not_in_hydrated_context"))
      | Some current =>
          if negb (str_in (str_or_empty (dget "status" current)) MUTABLE_UPDATE_STATUSES)
          then mret (inl (skipped_entry (PStr item_id) "item_started_or_closed"))
          else
            let '(payload, dropped) :=
              drop_protected_fields (set_order PROTECTED_UPDATE_FIELDS)
                (filter_payload (PDict update) BULK_UPDATE_FIELDS) current in
            let payload := normalize_node_payload (known_member_usernames c) payload in
            match payload with
            | [] => mret (inl (skipped_entry (PStr item_id) "no_safe_fields" ++ [("droppedFields", pstrs dropped)]))
            | _ =>
                sent ← match live_client deps with
                       | Some client =>
                           update_work_item client project_id item_id (with_requester a c payload) ;;
                           mret (with_requester a c payload)
                       | None => mret payload
                       end;
                let entry := dict_update [("itemId", PStr item_id)] sent in
                mret (inr (match dropped with [] => entry | _ => dict_set "droppedFields" (pstrs dropped) entry end))
            end
      end
  end.

Definition update_workitems_bulk (a : PlannedAction) (c : AgentContext) : st Ext ToolResult :=
  let name := "update_workitems_bulk" in
  let project_id := project_of a c in
  let updates := coerce_work_item_updates (ac_input a) in
  match validate_work_item_updates updates with
  | Some error => tool_failure name a error
  | None =>
      results ← map_st (bulk_update project_id a c (context_item_index c)) (default [] updates);
      let skipped := omap (λ r : dict pyval + dict pyval, match r with inl e => Some (PDict e) | inr _ => None end) results in
      let applied := omap (λ r : dict pyval + dict pyval, match r with inl _ => None | inr e => Some (PDict e) end) results in
      tool_success name a (PDict [("projectId", PStr project_id); ("updatedCount", pnat (length applied));
                                  ("updates", PList applied); ("skipped", PList skipped)])
  end.

(** *** [AssignWorkItemTool], [UpdateWorkItemStatusTool], [AddWorkItemCommentTool] *)

Definition assign_workitem (a : PlannedAction) (c : AgentContext) : st Ext ToolResult :=
  let item_id := py_str (py_or (dget "itemId" (ac_input a)) (PStr "unknown")) in
  let assignee_usernames := dict_get_or (PList []) "assigneeUsernames" (ac_input a) in
  output ← match live_client deps with
           | Some client => update_work_item client (project_of a c) item_id
                              (with_requester a c [("assigneeUsernames", assignee_usernames)])
           | None => mret (PDict [("itemId", PStr item_id); ("assigneeUsernames", assignee_usernames)])
           end;
  tool_success "assign_workitem" a output.

Definition update_workitem_status (a : PlannedAction) (c : AgentContext) : st Ext ToolResult :=
  let work_item := py_or (dget "work_item" (cx_entities c)) (dict_get_or (PDict []) "workitem" (cx_entities c)) in
  let given := dget "itemId" (ac_input a) in
  item_id ← (if truthy given then mret given
             else
               item_id ← lift_res (value_get work_item "itemId");
               if truthy item_id then mret item_id else lift_res (value_get_or work_item "id" (PStr "unknown")));
  let item_id := py_str item_id in
  let status := py_str (py_or (dget "status" (ac_input a)) (PStr "done")) in
  output ← match live_client deps with
           | Some client => update_work_item client (project_of a c) item_id (with_requester a c [("status", PStr status)])
           | None => mret (PDict [("itemId", PStr item_id); ("status", PStr status)])
           end;
  tool_success "update_workitem_status" a output.

Definition add_workitem_comment (a : PlannedAction) (c : AgentContext) : st Ext ToolResult :=
  tool_success "add_workitem_comment" a
    (PDict [("itemId", dget "itemId" (ac_input a));
            ("body", py_or (dget "body" (ac_input a)) (dget "comment" (ac_input a)))]).

Definition workitem_tools : list (string * (PlannedAction → AgentContext → st Ext ToolResult)) :=
  [("find_duplicate_workitems", find_duplicate_workitems); ("create_workitem", create_workitem);
   ("create_workitem_tree", create_workitem_tree); ("update_workitem", update_workitem);
   ("update_workitems_bulk", update_workitems_bulk); ("assign_workitem", assign_workitem);
   ("update_workitem_status", update_workitem_status); ("add_workitem_comment", add_workitem_comment)].
End tools.
