(* ===== verification/WorkItemProofs.v ===== *)
(** * Correctness of the work item tools

    The tree tool creates exactly the nodes of a valid tree, each below an item
    created before it, whatever order the thread pool runs the calls of a level
    in; the bulk tool sends nothing but safe changes of unstarted items. *)

From S2P Require Import Prelude PyStr PyVal PyUuid Json JsonLoads Events Plans SubTasks Policies Env Definitions Client.
From S2P Require Import Records Validation Planning WorkItems WorkItemTools.
Open Scope Z_scope.

(** ** Lemmas: the thread pool *)

Section pool.
Context `{ThreadPool} {A B : Type} (f : A → st Ext B).

Lemma collect_length (results : list (nat * res B)) is' l :
  collect_results results is' = Ok l → length l = length is'.
Proof.
  revert l. induction is' as [|i is' IH]; intros l; cbn; [by intros [= <-]|].
  destruct (result_at results i) as [[b|e]|]; [|done|done]. destruct (collect_results results is') as [bs|]; [|done].
  intros [= <-]. cbn. by rw IH.
Qed.

Lemma pool_map_length xs x l x' : pool_map f xs x = (Ok l, x') → length l = length xs.
Proof.
  intros (h & x1 & _ & E)%bind_Ok. apply bind_Ok in E as (results & x2 & _ & E). apply lift_Ok in E as [E _].
  apply collect_length in E. by rw E length_seq.
Qed.

(** When no call fails, every call is made and the pool returns. *)
Context (P : Ext → Prop) (Q : B → Prop).

Definition good (r : nat * res B) : Prop := ∃ b, r.2 = Ok b ∧ Q b.

Lemma run_calls_ok xs order results x :
  (∀ y v, v ∈ xs → P y → ∃ b y', f v y = (Ok b, y') ∧ P y' ∧ Q b) → P x →
  (∀ r, r ∈ results → good r) → (∀ i, i ∈ order → is_Some (xs !! i)) →
  ∃ results' x', run_calls f xs order results x = (Ok results', x') ∧ P x' ∧
    (∀ r, r ∈ results' → good r) ∧ (∀ i, i ∈ order ∨ i ∈ map fst results → i ∈ map fst results').
Proof.
  intros Hf. revert results x. induction order as [|i order IH]; intros results x Hx Hr Ho; cbn [run_calls].
  - exists results, x. split_and!; [done|done|done|]. intros i [?%not_elem_of_nil|?]; done.
  - destruct (Ho i) as [v Hv]; [by left|]. rw Hv.
    unfold mbind at 1, st_bind at 1. cbn [gets].
    assert (Hnf : failed_before results i = false).
    { unfold failed_before. apply not_true_iff_false. intros (r & Hin & Hb)%existsb_elem.
      destruct (Hr _ Hin) as (b & Eb & _). by rw Eb andb_false_r in Hb. }
    rw Hnf. cbn [andb]. destruct (Hf x v) as (b & y & E & Hy & Hb); [by eapply list_elem_of_lookup_2|done|].
    unfold try_catch, mbind, st_bind. rw E. cbn.
    destruct (IH ((i, Ok b) :: results) y Hy) as (results' & x' & E' & Hx' & Hr' & Hi').
    + intros r [->|?]%elem_of_cons; [by exists b|by apply Hr].
    + intros j Hj. apply Ho. by right.
    + exists results', x'. split_and!; [exact E'|done|done|]. intros j [[->|Hj]%elem_of_cons|Hj]; apply Hi'; cbn; set_solver.
Qed.

Lemma result_at_ok (results : list (nat * res B)) i :
  (∀ r, r ∈ results → good r) → i ∈ map fst results → ∃ b, result_at results i = Some (Ok b) ∧ Q b.
Proof.
  intros Hr Hi. unfold result_at. destruct (find_first _ results) as [[j r]|] eqn:E.
  - apply find_first_Some in E as [_ Hin]. apply Hr in Hin as (b & Eb & Hb). cbn in *. subst r. by exists b.
  - apply list_elem_of_fmap in Hi as (r & -> & Hin). rw find_first_None in E. apply E in Hin. by rw bool_decide_eq_true_2 in Hin.
Qed.

Lemma pool_map_ok xs x :
  (∀ y v, v ∈ xs → P y → ∃ b y', f v y = (Ok b, y') ∧ P y' ∧ Q b) → P x →
  ∃ l x', pool_map f xs x = (Ok l, x') ∧ P x' ∧ Forall Q l.
Proof.
  intros Hf Hx. unfold pool_map, mbind, st_bind, gets.
  destruct (run_calls_ok xs (pool_order (x_requests x) (length xs)) [] x Hf Hx) as (results & x' & E & Hx' & Hr & Hi).
  - by intros r ?%not_elem_of_nil.
  - intros i Hi. rw pool_order_all elem_of_seq in Hi. apply lookup_lt_is_Some_2. lia.
  - rw E. assert (Hc : ∀ is', (∀ i, i ∈ is' → (i < length xs)%nat) → ∃ l, collect_results results is' = Ok l ∧ Forall Q l).
    { induction is' as [|i is' IH]; intros Hlt; cbn; [by exists []|].
      destruct (result_at_ok results i Hr) as (b & Hb & Hq); [apply Hi; left; rw pool_order_all elem_of_seq; split; [lia|]; apply Hlt; by left|].
      destruct IH as (l & El & Hl); [intros j Hj; apply Hlt; by right|]. rw Hb El. eexists. split; [done|]. by constructor. }
    destruct (Hc (seq 0 (length xs))) as (l & El & Hl); [intros i Hi2; apply elem_of_seq in Hi2; lia|].
    exists l, x'. by rw El.
Qed.

(** When the pool returns and every call that succeeds sends one request, the requests
    sent are those of the calls, one each, in some order. *)
Context (R : A → B → request → list request → Prop).

Definition one_request (xs : list A) : Prop :=
  ∀ v y b y', v ∈ xs → f v y = (Ok b, y') → ∃ rq, x_requests y' = rq :: x_requests y ∧ R v b rq (x_requests y).

(** The request behind a result. *)
Definition sent_for (xs : list A) (results : list (nat * res B)) (s : nat * request) : Prop :=
  ∃ v b earlier, xs !! s.1 = Some v ∧ (s.1, Ok b) ∈ results ∧ R v b s.2 earlier.

Lemma run_calls_grow xs order results x results' x' :
  run_calls f xs order results x = (Ok results', x') → ∃ new, results' = new ++ results ∧ ∀ i, i ∈ new.*1 → i ∈ order.
Proof.
  revert results x. induction order as [|i order IH]; intros results x; cbn [run_calls].
  { intros [= <- <-]. exists []. split; [done|]. intros i ?%not_elem_of_nil. done. }
  destruct (xs !! i) as [v|].
  - intros (h & y & _ & E)%bind_Ok. destruct (failed_before results i && pool_cancels h i).
    + destruct (IH _ _ E) as (new & -> & Hin). exists new. split; [done|]. intros j Hj. right. by apply Hin.
    + apply bind_Ok in E as (r & z & _ & E). destruct (IH _ _ E) as (new & -> & Hin). exists (new ++ [(i, r)]).
      split; [by rw -app_assoc|]. intros j. rw fmap_app elem_of_app. intros [Hj|Hj]; [right; by apply Hin|].
      cbn in Hj. apply list_elem_of_singleton in Hj as ->. by left.
  - intros E. destruct (IH _ _ E) as (new & -> & Hin). exists new. split; [done|]. intros j Hj. right. by apply Hin.
Qed.

Lemma run_calls_sent xs order results x results' x' :
  one_request xs → NoDup (order ++ results.*1) →
  run_calls f xs order results x = (Ok results', x') → (∀ r, r ∈ results' → is_Ok r.2 = true) →
  ∃ sents, x_requests x' = sents.*2 ++ x_requests x ∧ results'.*1 = sents.*1 ++ results.*1 ∧ NoDup results'.*1 ∧
    Forall (sent_for xs results') sents.
Proof.
  intros Hone. revert results x. induction order as [|i order IH]; intros results x Hnd E Hok; cbn [run_calls] in E.
  { injection E as <- <-. by exists []. }
  apply NoDup_cons in Hnd as [Hi Hnd].
  destruct (xs !! i) as [v|] eqn:Ev; [|by apply (IH _ _ Hnd)].
  apply bind_Ok in E as (h & y & E0 & E). injection E0 as <- <-.
  destruct (failed_before results i && pool_cancels _ i); [by apply (IH _ _ Hnd)|].
  apply bind_Ok in E as (r & z & Ef & E).
  assert (Hnd' : NoDup (order ++ ((i, r) :: results).*1)).
  { cbn. rewrite -Permutation_middle. by apply NoDup_cons. }
  destruct (IH _ _ Hnd' E Hok) as (sents & Hreq & Hfst & Hnd2 & Hs).
  destruct (run_calls_grow _ _ _ _ _ _ E) as (new & Hnew & _).
  assert (Hin : (i, r) ∈ results') by (rw Hnew elem_of_app; right; by left).
  pose proof (Hok _ Hin) as Hr. destruct r as [b|]; [|done].
  assert (Efv : f v x = (Ok b, z)).
  { revert Ef. unfold try_catch, mbind, st_bind. destruct (f v x) as [[b'|e] z']; cbn; [by intros [= -> ->]|]. by intros [=]. }
  destruct (Hone v x b z) as (rq & Hz & HR); [by eapply list_elem_of_lookup_2|done|].
  exists (sents ++ [(i, rq)]). rw !fmap_app -!app_assoc. cbn. split_and!.
  - by rw Hreq Hz.
  - exact Hfst.
  - done.
  - apply Forall_app. split; [exact Hs|]. repeat constructor. by exists v, b, (x_requests x).
Qed.

Lemma collect_result_at (results : list (nat * res B)) is' l :
  collect_results results is' = Ok l → Forall2 (λ i b, result_at results i = Some (Ok b)) is' l.
Proof.
  revert l. induction is' as [|i is' IH]; intros l; cbn; [intros [= <-]; constructor|].
  destruct (result_at results i) as [[b|e]|] eqn:E; [|done|done].
  destruct (collect_results results is') as [bs|] eqn:Ec; [|done]. intros [= <-]. constructor; [done|by apply IH].
Qed.

Lemma result_at_elem (results : list (nat * res B)) i r : result_at results i = Some r → (i, r) ∈ results.
Proof.
  unfold result_at. destruct (find_first _ results) as [[j r']|] eqn:E; [|done]. cbn. intros [= ->].
  apply find_first_Some in E as [Hj Hin]. apply bool_decide_eq_true in Hj. cbn in Hj. by subst.
Qed.

Lemma fst_unique {X} (results : list (nat * X)) i r1 r2 : NoDup results.*1 → (i, r1) ∈ results → (i, r2) ∈ results → r1 = r2.
Proof.
  induction results as [|[j r] results IH]; cbn; [by intros _ ?%not_elem_of_nil|].
  intros [Hj Hnd]%NoDup_cons. assert (Hno : ∀ r', (j, r') ∈ results → False).
  { intros r' Hr. apply Hj. apply list_elem_of_fmap. by exists (j, r'). }
  intros [[= -> ->]|H1]%elem_of_cons [[= E2]|H2]%elem_of_cons; subst; [done| | |by apply IH].
  - by destruct (Hno r2).
  - by destruct (Hno r1).
Qed.

Lemma run_calls_nodup xs order results x results' x' :
  NoDup (order ++ results.*1) → run_calls f xs order results x = (Ok results', x') → NoDup results'.*1.
Proof.
  revert results x. induction order as [|i order IH]; intros results x Hnd E; cbn [run_calls] in E.
  { by injection E as <- <-. }
  apply NoDup_cons in Hnd as [Hi Hnd]. destruct (xs !! i) as [v|]; [|by apply (IH _ _ Hnd E)].
  apply bind_Ok in E as (h & y & _ & E). destruct (failed_before results i && pool_cancels _ i); [by apply (IH _ _ Hnd E)|].
  apply bind_Ok in E as (r & z & _ & E). eapply (IH _ _); [|exact E]. cbn. rewrite -Permutation_middle. by apply NoDup_cons.
Qed.

Lemma pool_map_sent xs x l x' :
  one_request xs → pool_map f xs x = (Ok l, x') →
  ∃ sent rqs, x_requests x' = sent ++ x_requests x ∧ sent ≡ₚ rqs ∧ length rqs = length xs ∧
    ∀ i v b rq, xs !! i = Some v → l !! i = Some b → rqs !! i = Some rq → ∃ earlier, R v b rq earlier.
Proof.
  intros Hone (h & x1 & E0 & E)%bind_Ok. injection E0 as <- <-. apply bind_Ok in E as (results & x2 & E & Ec).
  apply lift_Ok in Ec as [Ec ->]. pose proof (collect_result_at _ _ _ Ec) as Hat.
  set (n := length xs) in *. set (order := pool_order (x_requests x) n) in *.
  assert (Hnd : NoDup (order ++ ([] : list (nat * res B)).*1)).
  { rw app_nil_r. unfold order. rewrite pool_order_all. apply NoDup_seq. }
  pose proof (run_calls_nodup _ _ _ _ _ _ Hnd E) as Hnd'.
  destruct (run_calls_grow _ _ _ _ _ _ E) as (new & Hnew & Hin). rewrite app_nil_r in Hnew. subst new.
  assert (Hall : ∀ i, (i < n)%nat → ∃ b, l !! i = Some b ∧ (i, Ok b) ∈ results).
  { intros i Hi. destruct (Forall2_lookup_l _ _ _ i i Hat) as (b & Hb & Hr); [by apply lookup_seq|].
    exists b. split; [done|]. by apply result_at_elem. }
  assert (Hok : ∀ r, r ∈ results → is_Ok r.2 = true).
  { intros [i r] Hr. assert (Hi : i ∈ results.*1) by (apply list_elem_of_fmap; by exists (i, r)).
    apply Hin in Hi. unfold order in Hi. rewrite pool_order_all elem_of_seq in Hi. destruct (Hall i) as (b & _ & Hb); [lia|].
    by rewrite (fst_unique _ _ _ _ Hnd' Hr Hb). }
  destruct (run_calls_sent _ _ _ _ _ _ Hone Hnd E Hok) as (sents & Hreq & Hfst & _ & Hs).
  rewrite app_nil_r in Hfst.
  assert (Hperm : seq 0 n ≡ₚ map fst sents).
  { apply NoDup_Permutation; [apply NoDup_seq|change (map fst sents) with sents.*1; by rw -Hfst|]. intros i.
    change (map fst sents) with sents.*1. rw -Hfst elem_of_seq. split.
    - intros [_ Hi]. destruct (Hall i Hi) as (b & _ & Hb). apply list_elem_of_fmap. by exists (i, Ok b).
    - intros Hi%Hin. unfold order in Hi. by rewrite pool_order_all elem_of_seq in Hi. }
  apply Permutation_map_inv in Hperm as (sents' & Hseq & Hsp).
  assert (Hlen : length sents' = n) by (apply (f_equal length) in Hseq; by rewrite length_seq length_map in Hseq).
  exists (sents.*2), (sents'.*2). split_and!; [done|by rewrite Hsp|by rw length_fmap|].
  intros i v b rq Hv Hb Hrq. rewrite list_lookup_fmap in Hrq. destruct (sents' !! i) as [[j rq']|] eqn:Es; [|done].
  injection Hrq as ->. assert (j = i).
  { apply (f_equal (.!! i)) in Hseq. rewrite list_lookup_fmap Es lookup_seq_lt in Hseq; [by apply lookup_lt_Some in Hv|].
    by injection Hseq. }
  subst j. apply list_elem_of_lookup_2 in Es. rewrite -Hsp in Es. rw Forall_forall in Hs.
  destruct (Hs _ Es) as (v' & b' & earlier & Hv' & Hb' & HR). cbn in *. rewrite Hv in Hv'. injection Hv' as <-.
  destruct (Hall i) as (b2 & Hl2 & Hb2); [by apply lookup_lt_Some in Hv|]. rewrite Hb in Hl2. injection Hl2 as <-.
  pose proof (fst_unique _ _ _ _ Hnd' Hb' Hb2) as [= ->]. by exists earlier.
Qed.
End pool.

(** ** Lemmas: creating a tree *)

Lemma map_res_length {A B} (f : A → res B) l l' : map_res f l = Ok l' → length l' = length l.
Proof.
  revert l'. induction l as [|x l IH]; intros l'; cbn; [by intros [= <-]|]. destruct (f x) as [y|]; [|done]. cbn.
  destruct (map_res f l) as [ys|]; [|done]. intros [= <-]. cbn. by rw IH.
Qed.

(** The nodes of a forest level by level, [h] levels deep. *)
Fixpoint level_order (h : nat) (nodes : list (dict pyval)) : list (dict pyval) :=
  match h with
  | O => []
  | S h' => nodes ++ level_order h' (concat (map children_dicts nodes))
  end.

(** Every item is at the root or below an item created before it, whose child it is. *)
Definition created_under (root : option string) (created : list CreatedItem) (parent : option string) (depth : Z)
    (node : dict pyval) : Prop :=
  (depth = 1 ∧ parent = root) ∨
  ∃ p, p ∈ created ∧ depth = ci_depth p + 1 ∧ parent = Some (ci_item_id p) ∧ node ∈ children_dicts (ci_node p).

Definition parents_first (root : option string) (created : list CreatedItem) : Prop :=
  ∀ i e, created !! i = Some e → created_under root (take i created) (ci_parent_id e) (ci_depth e) (ci_node e).

Lemma with_requester_get a c payload k :
  k ≠ "requestedByUserId" → dict_get k (with_requester a c payload) = dict_get k payload.
Proof.
  intros Hk. unfold with_requester, dict_setdefault. destruct (requested_by_user_id _ _) as [r|]; [|done].
  destruct (str_truthy r); [|done]. destruct (dict_mem _ _); [done|]. by rw dict_get_set_ne.
Qed.

(** The places below a created item: its children, with its id, one level deeper. *)
Definition places_below (i : CreatedItem) : list PendingNode :=
  map (λ child, (child, Some (ci_item_id i), ci_depth i + 1)) (children_dicts (ci_node i)).

(** [created] fills the places level by level: the items of a level are at its places, in
    order, and after them come the items at the places below them. *)
Fixpoint laid_out (h : nat) (places : list PendingNode) (created : list CreatedItem) : Prop :=
  match h with
  | O => places = [] ∧ created = []
  | S h' => ∃ level rest, created = level ++ rest ∧
      map (λ i, (ci_node i, ci_parent_id i, ci_depth i)) level = places ∧
      laid_out h' (concat (map places_below level)) rest
  end.

(** The request behind a created item: a POST of its title below its parent, whose answer
    gives the item's id. *)
Definition creates `{Env} (client : PrismApiClient) (project : string) (a : PlannedAction) (i : CreatedItem) (rq : request) : Prop :=
  let path := project_path project +:+ "/work-items/internal" in
  rq_method rq = "POST" ∧ rq_url rq = ostr_or (cl_base_url client) EmptyString +:+ path ∧
  (∃ payload, rq_body rq = Some (PDict payload) ∧ dict_get "title" payload = Some (PStr (node_title (ci_node i))) ∧
     dict_get "parentId" payload = if ostr_truthy (ci_parent_id i) then Some (ostr (ci_parent_id i)) else None) ∧
  ∃ earlier v, reply_result "POST" path (rq_body rq) (http_reply earlier rq) = Ok v ∧ created_id a v = Ok (ci_item_id i).

(** With an API exactly one such request is sent for each item, in the order of the pool;
    without one nothing is sent and the items are numbered from [start] on. *)
Definition sent_creations `{Env} (deps : ToolDeps) (project : string) (a : PlannedAction) (start : nat)
    (created : list CreatedItem) (x x' : Ext) : Prop :=
  match live_client deps with
  | Some client => ∃ sent rqs, x_requests x' = sent ++ x_requests x ∧ sent ≡ₚ rqs ∧ Forall2 (creates client project a) created rqs
  | None => x_requests x' = x_requests x ∧
      ∀ n i, created !! n = Some i → ci_item_id i = "local-" +:+ ac_action_id a +:+ "-" +:+ pretty (Z.of_nat (start + n + 1))
  end.

Lemma created_under_mono root l l' parent depth node :
  l ⊆ l' → created_under root l parent depth node → created_under root l' parent depth node.
Proof. intros Hl [?|(p & Hp & ?)]; [by left|right]. exists p. split; [by apply Hl|done]. Qed.

Lemma parents_first_app root created new :
  parents_first root created →
  (∀ e, e ∈ new → created_under root created (ci_parent_id e) (ci_depth e) (ci_node e)) →
  parents_first root (created ++ new).
Proof.
  intros Hc Hn i e He. destruct (decide (i < length created)%nat) as [Hi|Hi].
  - rw lookup_app_l in He; [done|]. rw take_app_le; [lia|]. by apply Hc.
  - rw lookup_app_r in He; [lia|]. apply (created_under_mono _ created).
    + intros p Hp. apply list_elem_of_lookup in Hp as [j Hj]. apply (list_elem_of_lookup_2 _ j).
      rw lookup_take_lt; [apply lookup_lt_Some in Hj; lia|]. by apply lookup_app_l_Some.
    + apply Hn. by eapply list_elem_of_lookup_2.
Qed.

Section trees.
Context `{Env} `{ThreadPool} (deps : ToolDeps) (a : PlannedAction) (c : AgentContext).

Lemma create_level_length project known start level ids x x' :
  create_level deps project a c known start level x = (Ok ids, x') → length ids = length level.
Proof.
  unfold create_level. intros (outputs & x1 & E & El)%bind_Ok. apply lift_Ok in El as [El _]. apply map_res_length in El.
  rw El. destruct (live_client deps) as [client|].
  - apply pool_map_length in E. by rw E !length_map.
  - injection E as <- _. by rw length_imap length_map.
Qed.

Lemma sent_creations_nil project start x : sent_creations deps project a start [] x x.
Proof. unfold sent_creations. destruct (live_client deps); [by exists [], []|]. by split. Qed.

Lemma sent_creations_app project start l1 l2 x x1 x2 :
  sent_creations deps project a start l1 x x1 → sent_creations deps project a (start + length l1) l2 x1 x2 →
  sent_creations deps project a start (l1 ++ l2) x x2.
Proof.
  unfold sent_creations. destruct (live_client deps) as [client|].
  - intros (s1 & r1 & E1 & P1 & F1) (s2 & r2 & E2 & P2 & F2). exists (s2 ++ s1), (r1 ++ r2).
    split_and!; [by rw E2 E1 app_assoc|by rewrite P1 P2 Permutation_app_comm|by apply Forall2_app].
  - intros [E1 H1] [E2 H2]. split; [congruence|]. intros n i Hn. destruct (decide (n < length l1)%nat) as [Hlt|Hge].
    + rewrite lookup_app_l in Hn; [done|]. by apply H1.
    + rewrite lookup_app_r in Hn; [lia|]. rw (H2 _ _ Hn). do 3 f_equal. f_equal. lia.
Qed.

Lemma dict_get_update_notin k (d e : dict pyval) : dict_get k e = None → dict_get k (dict_update d e) = dict_get k d.
Proof.
  revert d. induction e as [|[k' v] e IH]; intros d; cbn; [done|]. case_bool_decide as Hk; [done|]. intros He.
  rw (IH _ He). by rw dict_get_set_ne.
Qed.

Lemma create_item_request client project payload x v x' :
  create_work_item client project payload x = (Ok v, x') →
  ∃ rq, x_requests x' = rq :: x_requests x ∧
    (rq_method rq = "POST" ∧ rq_body rq = Some (PDict payload) ∧
     rq_url rq = ostr_or (cl_base_url client) EmptyString +:+ (project_path project +:+ "/work-items/internal") ∧
     reply_result "POST" (project_path project +:+ "/work-items/internal") (rq_body rq) (http_reply (x_requests x) rq) = Ok v).
Proof.
  unfold create_work_item, post. set (path := project_path project +:+ _).
  destruct (request_json_cases client "POST" path (Some (PDict payload)) "internal" x)
    as [[_ ->]|[_ [(e & _ & ->)|(rq & Hm & Hb & Hu & _ & ->)]]]; [done|done|].
  intros [= Hr <-]. exists rq. split; [done|]. split_and!; [done..|]. by rw Hb.
Qed.

Lemma map_res_lookup {A B} (f : A → res B) l l' : map_res f l = Ok l' → ∀ i y, l' !! i = Some y → ∃ v, l !! i = Some v ∧ f v = Ok y.
Proof.
  revert l'. induction l as [|v l IH]; intros l'; cbn; [intros [= <-] i y Hy; by rw lookup_nil in Hy|].
  destruct (f v) as [y0|] eqn:Ev; [|done]. cbn. destruct (map_res f l) as [ys|]; [|done]. intros [= <-] [|i] y Hy.
  - injection Hy as <-. by exists v.
  - by apply (IH ys eq_refl).
Qed.

Lemma lookup_zip_created (pending : list PendingNode) ids n i :
  zip_with created_item pending ids !! n = Some i → ∃ p id, pending !! n = Some p ∧ ids !! n = Some id ∧ i = created_item p id.
Proof.
  rw lookup_zip_with. destruct (pending !! n) as [p|]; [|done]. destruct (ids !! n) as [id|]; [|done].
  intros [= <-]. by exists p, id.
Qed.

(** One level: one request for each of its places, or local ids. *)
Lemma create_level_sent project known start level ids x x' :
  create_level deps project a c known start level x = (Ok ids, x') →
  sent_creations deps project a start (zip_with created_item level ids) x x'.
Proof.
  intros E. pose proof (create_level_length _ _ _ _ _ _ _ E) as Hlen. unfold create_level in E.
  set (payloads := map _ level) in E. apply bind_Ok in E as (outputs & x1 & E & Ei). apply lift_Ok in Ei as [Ei ->].
  pose proof (map_res_lookup _ _ _ Ei) as Hids. unfold sent_creations. destruct (live_client deps) as [client|].
  - apply (pool_map_sent _ (λ payload v rq earlier, rq_method rq = "POST" ∧ rq_body rq = Some (PDict payload) ∧
      rq_url rq = ostr_or (cl_base_url client) EmptyString +:+ (project_path project +:+ "/work-items/internal") ∧
      reply_result "POST" (project_path project +:+ "/work-items/internal") (rq_body rq) (http_reply earlier rq) = Ok v)) in E
      as (sent & rqs & Hreq & Hp & Hl & HR); [|by intros v y b y' _ Hv; apply create_item_request].
    exists sent, rqs. split_and!; [done|done|]. apply Forall2_same_length_lookup_2.
    { rw length_zip_with Hl. unfold payloads. rw !length_map. lia. }
    intros n i rq (p & id & Hpn & Hid & ->)%lookup_zip_created Hrq. destruct (Hids n id Hid) as (v & Hv & Hcid).
    destruct (HR n (with_requester a c (node_payload known (ac_instruction a) p.1.1 p.1.2)) v rq) as (earlier & Hm & Hb & Hu & Hr);
      [|done|done|].
    { unfold payloads. change (map ?g ?l) with (g <$> l). by rewrite !list_lookup_fmap Hpn. }
    destruct (node_payload_place known (ac_instruction a) p.1.1 p.1.2) as (Ht & Hpar & _).
    unfold creates. cbv zeta. split; [done|]. split; [done|]. split; [|by exists earlier, v].
    eexists. split; [exact Hb|]. by rewrite !with_requester_get.
  - injection E as <- <-. split; [done|]. intros n i (p & id & Hpn & Hid & ->)%lookup_zip_created.
    destruct (Hids n id Hid) as (v & Hv & Hcid). rewrite list_lookup_imap in Hv. unfold payloads in Hv.
    change (map ?g ?l) with (g <$> l) in Hv. rewrite list_lookup_fmap Hpn in Hv. injection Hv as <-.
    destruct (node_payload_place known (ac_instruction a) p.1.1 p.1.2) as (_ & _ & Hi).
    unfold created_id, local_output in Hcid. cbn [value_get] in Hcid. unfold dget, dict_get_or in Hcid.
    rewrite (dict_get_update_notin "itemId" _ _ Hi) in Hcid. cbn in Hcid. by injection Hcid as <-.
Qed.

Lemma next_level_nodes created : map (λ n : PendingNode, n.1.1) (concat (map next_level created)) = concat (map children_dicts (map ci_node created)).
Proof.
  induction created as [|i created IH]; cbn; [done|]. rw map_app IH. f_equal. unfold next_level. rw map_map. apply map_id.
Qed.

Lemma zip_created_nodes (pending : list PendingNode) ids :
  length ids = length pending → map ci_node (zip_with created_item pending ids) = map (λ n : PendingNode, n.1.1) pending.
Proof. revert ids. induction pending as [|n pending IH]; intros [|i ids]; cbn; try done. intros [= E]. by rw IH. Qed.

Lemma zip_created_elem (pending : list PendingNode) ids e :
  e ∈ zip_with created_item pending ids → ∃ n i, n ∈ pending ∧ e = created_item n i.
Proof.
  intros (j & He)%list_elem_of_lookup. rw lookup_zip_with in He. destruct (pending !! j) as [n|] eqn:E; [|done].
  destruct (ids !! j) as [i|]; [|done]. injection He as <-. exists n, i. split; [by eapply list_elem_of_lookup_2|done].
Qed.

(** Level by level: what is created is the level order of what is pending. *)
Lemma create_levels_spec root fuel project known created pending created' x x' :
  create_levels deps fuel project a c known created pending x = (Ok created', x') →
  parents_first root created →
  (∀ n, n ∈ pending → created_under root created n.1.2 n.2 n.1.1) →
  ∃ new, created' = created ++ new ∧ map ci_node new = level_order fuel (map (λ n : PendingNode, n.1.1) pending) ∧
    parents_first root created' ∧ laid_out fuel pending new ∧ sent_creations deps project a (length created) new x x'.
Proof.
  revert created pending x. induction fuel as [|fuel IH]; intros created pending x E Hc Hp.
  { destruct pending; [|done]. injection E as <- <-. exists []. rw app_nil_r. split_and!; [done..|]. apply sent_creations_nil. }
  destruct pending as [|n pending]; cbn [create_levels] in E.
  { injection E as <- <-. exists []. rw app_nil_r. split_and!; [done| |done| |apply sent_creations_nil].
    - clear. cbn. induction fuel; cbn; [done|]. done.
    - clear. exists [], []. split_and!; [done..|]. induction fuel; cbn; [done|]. by exists [], []. }
  apply bind_Ok in E as (ids & x1 & E1 & E2). pose proof (create_level_sent _ _ _ _ _ _ _ E1) as Hsent. apply create_level_length in E1.
  set (new := zip_with created_item (n :: pending) ids) in *.
  apply IH in E2 as (rest & -> & Hrest & Hfirst & Hlaid & Hrs).
  - exists (new ++ rest). rw -app_assoc. split_and!; [done| |by rw app_assoc| |].
    + rw map_app Hrest next_level_nodes. cbn [level_order]. by rw (zip_created_nodes _ _ E1).
    + exists new, rest. split_and!; [done| |exact Hlaid]. unfold new. clear -E1.
      revert ids E1. generalize (n :: pending). intros l. induction l as [|[[d q] z] l IHl]; intros [|i ids]; cbn; try done.
      intros [= E]. f_equal. by apply IHl.
    + apply (sent_creations_app _ _ _ _ _ x1); [exact Hsent|]. by rewrite -length_app.
  - apply parents_first_app; [done|]. intros e (m & i & Hm & ->)%zip_created_elem. by apply Hp.
  - intros m Hm. apply list_elem_of_In, in_concat in Hm as (l & Hl & Hm). apply list_elem_of_In, list_elem_of_fmap in Hl as (p & -> & Hpn).
    apply list_elem_of_In, list_elem_of_fmap in Hm as (child & -> & Hchild). right. exists p. split_and!; try done.
    by apply elem_of_app; right.
Qed.

(** The level order of a valid forest has its nodes. *)
Lemma children_dicts_ok d children : node_children d = Some children → Forall (λ v, is_dict v = true) children →
  map PDict (children_dicts d) = children.
Proof.
  intros E Hd. unfold children_dicts. rw E. clear E. induction Hd as [|v l Hv _ IH]; cbn; [done|].
  destruct v; try done. cbn. by rw IH.
Qed.
End trees.

Lemma forest_dicts h l k : work_forest h l k → Forall (λ v, is_dict v = true) l.
Proof. induction 1; constructor; done. Qed.

Lemma forest_app h l1 k1 l2 k2 : work_forest h l1 k1 → work_forest h l2 k2 → work_forest h (l1 ++ l2) (k1 + k2).
Proof.
  induction 1 as [|h d children l j1 j2 Ht Hc Hf _ _ IH]; intros H2; cbn; [done|].
  rw -Nat.add_assoc. econstructor; eauto.
Qed.

(** The children of the nodes of a forest are a forest one level lower. *)
Lemma forest_next h nodes k :
  work_forest (S h) (map PDict nodes) k →
  ∃ k', k = (length nodes + k')%nat ∧ work_forest h (map PDict (concat (map children_dicts nodes))) k'.
Proof.
  revert k. induction nodes as [|d nodes IH]; intros k Hk; cbn in *.
  { inversion Hk; subst. exists 0%nat. split; [done|]. constructor. }
  inversion Hk as [|? ? children ? k1 k2 Ht Hc Hf1 Hf2]; subst. destruct (IH _ Hf2) as (k' & -> & Hf').
  exists (k1 + k')%nat. split; [lia|]. rw map_app. apply forest_app; [|done].
  by rw (children_dicts_ok _ _ Hc (forest_dicts _ _ _ Hf1)).
Qed.

Lemma level_order_length h nodes k : work_forest h (map PDict nodes) k → length (level_order h nodes) = k.
Proof.
  revert nodes k. induction h as [|h IH]; intros nodes k Hk; cbn.
  - by inversion Hk.
  - destruct (forest_next _ _ _ Hk) as (k' & -> & Hf). by rw length_app (IH _ _ Hf).
Qed.

Lemma forest_zero_nodes (nodes : list (dict pyval)) k : work_forest 0 (map PDict nodes) k → nodes = [].
Proof. intros H%forest_level_0. by destruct nodes. Qed.

Section returns.
Context `{Env} `{ThreadPool} (deps : ToolDeps) (a : PlannedAction) (c : AgentContext).

(** The API, when there is one, accepts every item and answers with an object. *)
Definition accepts_items : Prop :=
  ∀ client project payload x, live_client deps = Some client →
    ∃ d x', create_work_item client project payload x = (Ok (PDict d), x').

Lemma create_level_returns project known start level x :
  accepts_items → ∃ ids x', create_level deps project a c known start level x = (Ok ids, x').
Proof.
  intros Hok. unfold create_level. 
  assert (Hout : ∃ outputs x', (match live_client deps with
    | Some client => pool_map (create_work_item client project)
        (map (with_requester a c) (map (λ n : PendingNode, node_payload known (ac_instruction a) n.1.1 n.1.2) level))
    | None => mret (imap (λ offset payload, local_output project c a (start + offset + 1) payload)
        (map (λ n : PendingNode, node_payload known (ac_instruction a) n.1.1 n.1.2) level))
    end) x = (Ok outputs, x') ∧ Forall (λ v, is_dict v = true) outputs).
  { destruct (live_client deps) as [client|] eqn:El.
    - destruct (pool_map_ok (create_work_item client project) (λ _, True) (λ v, is_dict v = true)
        (map (with_requester a c) (map (λ n : PendingNode, node_payload known (ac_instruction a) n.1.1 n.1.2) level)) x)
        as (l & x' & E & _ & Hl); [|done|by exists l, x'].
      intros y payload _ _. destruct (Hok client project payload y El) as (d & y' & E). by exists (PDict d), y'.
    - eexists _, _. split; [reflexivity|]. apply Forall_lookup. intros i v Hv. rw list_lookup_imap in Hv.
      destruct (_ !! i); [|done]. by injection Hv as <-. }
  destruct Hout as (outputs & x' & E & Hd). rw (bind_step _ _ _ _ _ E).
  assert (Hids : ∃ ids, map_res (created_id a) outputs = Ok ids).
  { clear E. induction Hd as [|v outputs Hv _ [ids IH]]; cbn; [by exists []|]. destruct v as [| | | | | |d]; try done.
    unfold created_id. cbn. destruct (truthy (dget "itemId" d)); cbn; rw IH; by eexists. }
  destruct Hids as [ids Eids]. rw Eids. by exists ids, x'.
Qed.

Lemma create_levels_returns fuel project known created pending x k :
  accepts_items → work_forest fuel (map PDict (map (λ n : PendingNode, n.1.1) pending)) k →
  ∃ created' x', create_levels deps fuel project a c known created pending x = (Ok created', x').
Proof.
  intros Hok. revert created pending x k. induction fuel as [|fuel IH]; intros created pending x k Hk.
  { apply forest_zero_nodes in Hk. destruct pending; [|done]. by exists created, x. }
  destruct pending as [|n pending]; [by exists created, x|]. cbn [create_levels].
  destruct (create_level_returns project known (length created) (n :: pending) x Hok) as (ids & x1 & E1).
  rw (bind_step _ _ _ _ _ E1). apply (create_level_length deps a c) in E1.
  apply forest_next in Hk as (k' & _ & Hk'). apply (IH _ _ _ k').
  rw next_level_nodes. by rw (zip_created_nodes _ _ E1).
Qed.
End returns.

(** ** Properties *)

(** C20: the tree tool creates a tree exactly.  A malformed tree fails before any
    request is sent, with the validator's error.  For a valid one every successful
    execution reports exactly the nodes of the tree, once each and level by level: the
    items of the first level are the top nodes, at depth 1 below the given parent, and
    those of each further level are, in order, the children of the items of the level
    before, one deeper and below their ids, so that every parent comes before its
    children.  With an API exactly one request is sent for each item, a POST of the
    node's title with [parentId] the id of the item above it (and none for a top node
    without a given parent), and the answer to it gives the item's id, whatever order
    the thread pool runs the calls in; without one nothing is sent and the items get
    consecutive local ids.  And the tool succeeds when the API accepts every item or
    there is no API. *)
Theorem create_workitem_tree_spec `{Env} `{ThreadPool} deps a c x :
  let items := coerce_work_item_tree_items (ac_input a) in
  let root := valid_uuid_or_none (dget "parentId" (ac_input a)) in
  (∀ error, validate_work_item_tree items = Some error →
     ∃ r x', create_workitem_tree deps a c x = (Ok r, x') ∧ tr_success r = false ∧ tr_error r = Some error ∧
       x_requests x' = x_requests x) ∧
  (∀ l k, items = Some l → l ≠ [] → work_forest 3 l k → (k ≤ 100)%nat →
     (accepts_items deps → ∃ r x', create_workitem_tree deps a c x = (Ok r, x')) ∧
     ∀ r x', create_workitem_tree deps a c x = (Ok r, x') → tr_success r = true ∧
       ∃ created, dget "createdCount" (tr_output r) = pnat k ∧ dget "items" (tr_output r) = PList (map created_entry created) ∧
         let nodes := omap as_dict (map (λ node, (rollup_assignee_usernames (known_member_usernames c) node).1) l) in
         length created = k ∧ parents_first root created ∧ map ci_node created = level_order 3 nodes ∧
         laid_out 3 (map (λ node, (node, root, 1)) nodes) created ∧
         sent_creations deps (project_of a c) a 0 created x x').
Proof.
  cbn zeta. split.
  - intros error E. unfold create_workitem_tree. rw E. by eexists _, _.
  - intros l k Hl Hne Hk Hle. unfold create_workitem_tree.
    assert (Hv : validate_work_item_tree (coerce_work_item_tree_items (ac_input a)) = None).
    { apply validate_work_item_tree_spec. by exists l, k. }
    rw Hv Hl. set (known := known_member_usernames c).
    destruct (rollup_assignee_usernames_spec known 3 l k Hk) as [_ Hf].
    set (nodes := omap as_dict (map (λ node, (rollup_assignee_usernames known node).1) l)).
    assert (Hnodes : map PDict nodes = map (λ node, (rollup_assignee_usernames known node).1) l).
    { unfold nodes. apply forest_dicts in Hf. generalize dependent (map (λ node, (rollup_assignee_usernames known node).1) l).
      intros vs Hvs. induction Hvs as [|v vs Hv' _ IH]; cbn; [done|]. destruct v; try done. cbn. by rw IH. }
    rewrite -Hnodes in Hf. set (root := valid_uuid_or_none _). set (pending := map (λ node, (node, root, 1)) nodes).
    assert (Hpn : map (λ n : PendingNode, n.1.1) pending = nodes) by (unfold pending; rw map_map; apply map_id).
    split.
    + intros Hok. destruct (create_levels_returns deps a c 3 (project_of a c) known [] pending x k Hok) as (created & x' & E);
        [by rw Hpn|]. rw (bind_step _ _ _ _ _ E). by eexists _, _.
    + intros r x' (created & x1 & E & Er)%bind_Ok.
      apply (create_levels_spec deps a c root) in E as (new & -> & Hnew & Hfirst & Hlaid & Hsent).
      * cbn [app] in *. rewrite Hpn in Hnew.
        assert (Hlen : length new = k) by (rewrite -(length_map ci_node new) Hnew; by apply level_order_length).
        destruct (collect_unresolved_assignees l known) as [|u us] eqn:Eu; injection Er as <- <-; (split; [done|]);
          exists new; rw -Hlen; cbv zeta; by split_and!.
      * by intros i e He.
      * intros n (node & -> & _)%list_elem_of_fmap. by left.
Qed.

(** *** Bulk updates *)

(** At most [n] requests are added, all of them satisfying [P]. *)
Definition sends (P : request → Prop) (n : nat) (x y : Ext) : Prop :=
  ∃ l, x_requests y = l ++ x_requests x ∧ Forall P l ∧ (length l ≤ n)%nat.

Lemma sends_refl P n x y : x_requests y = x_requests x → sends P n x y.
Proof. intros E. exists []. rw E. split_and!; [done|constructor|cbn; lia]. Qed.

Lemma sends_trans P n m x y z : sends P n x y → sends P m y z → sends P (n + m) x z.
Proof.
  intros (l1 & E1 & H1 & N1) (l2 & E2 & H2 & N2). exists (l2 ++ l1). rw E2 E1 app_assoc length_app.
  split_and!; [done|by apply Forall_app|lia].
Qed.

Lemma bind_requests {A B} (m : st Ext A) (k : A → st Ext B) x :
  (∀ v z, x_requests (k v z).2 = x_requests z) → x_requests ((m ≫= k) x).2 = x_requests (m x).2.
Proof. intros Hk. unfold mbind, st_bind. destruct (m x) as [[v|e] z]; [apply Hk|done]. Qed.

(** A loop whose steps each add at most one request adds those of some of its elements, in
    their order. *)
Lemma map_st_sends {A B} (P : A → request → Prop) (f : A → st Ext B) l x :
  (∀ v y, v ∈ l → sends (P v) 1 y (f v y).2) →
  ∃ chosen sent, chosen `sublist_of` l ∧ Forall2 P chosen sent ∧ x_requests (map_st f l x).2 = reverse sent ++ x_requests x.
Proof.
  revert x. induction l as [|v l IH]; intros x Hf; cbn [map_st]; [by exists [], []|].
  destruct (Hf v x ltac:(by left)) as (l1 & E1 & H1 & N1).
  assert (Hhead : ∃ c1 s1, c1 `sublist_of` [v] ∧ Forall2 P c1 s1 ∧ x_requests (f v x).2 = reverse s1 ++ x_requests x).
  { destruct l1 as [|rq [|]]; [by exists [], []; split_and!; [apply sublist_nil_l|..]| |cbn in N1; lia].
    exists [v], [rq]. split_and!; [done|by repeat constructor; inversion H1|done]. }
  destruct Hhead as (c1 & s1 & Hc1 & HP1 & Hr1). unfold mbind at 1, st_bind at 1.
  destruct (f v x) as [[b|e] x1]; cbn [fst snd] in *.
  - destruct (IH x1) as (c2 & s2 & Hc2 & HP2 & Hr2); [intros u y Hu; apply Hf; by right|].
    exists (c1 ++ c2), (s1 ++ s2). split_and!; [by apply (sublist_app c1 [v])|by apply Forall2_app|].
    rewrite reverse_app -app_assoc -Hr1 -Hr2. unfold mbind, st_bind. by destruct (map_st f l x1) as [[bs|e] x2].
  - exists c1, s1. split_and!; [|done|done]. etrans; [exact Hc1|]. apply (sublist_app [v] [v] [] l); [done|apply sublist_nil_l].
Qed.

Lemma filter_get (p : string * pyval → bool) (d : dict pyval) k v :
  dict_wf d → dict_get k (List.filter p d) = Some v → dict_get k d = Some v ∧ p (k, v) = true.
Proof.
  unfold dict_wf. induction d as [|[k' v'] d IH]; cbn; [done|]. rw NoDup_cons. intros [Hnin Hnd].
  destruct (p (k', v')) eqn:E; cbn.
  - case_bool_decide; [intros [= <-]; by subst|by apply IH].
  - intros Hg. destruct (IH Hnd Hg) as [Hd Hp]. case_bool_decide; [|done]. subst. apply dict_get_Some_elem in Hd.
    destruct Hnin. apply list_elem_of_fmap. by exists (k', v).
Qed.

Lemma filter_wf (p : string * pyval → bool) (d : dict pyval) : dict_wf d → dict_wf (List.filter p d).
Proof.
  unfold dict_wf. induction d as [|[k v] d IH]; cbn; [done|]. rw NoDup_cons. intros [Hnin Hnd].
  destruct (p (k, v)); cbn; [|by apply IH]. apply NoDup_cons. split; [|by apply IH].
  intros ([k' v'] & Hk & Hin)%list_elem_of_fmap. apply Hnin, list_elem_of_fmap. exists (k', v'). split; [done|].
  apply list_elem_of_In, filter_In in Hin as [Hin _]. by apply list_elem_of_In.
Qed.

(** A change that is safe for an item of the context: the item is known and not
    started, neither its title nor its status changes, and what it already has of
    description and assignees stays. *)
Definition safe_change_of (c : AgentContext) (item_id : string) (rq : request) : Prop :=
  ∃ current payload,
    dict_get item_id (context_item_index c) = Some current ∧
    str_or_empty (dget "status" current) ∈ MUTABLE_UPDATE_STATUSES ∧
    rq_method rq = "PATCH" ∧ (∃ prefix, rq_url rq = prefix +:+ "/work-items/internal/" +:+ quote item_id) ∧
    rq_body rq = Some (PDict payload) ∧
    dict_get "title" payload = None ∧ dict_get "status" payload = None ∧
    ((30 ≤ str_len (text_of (dget "description" current)))%nat → dict_get "description" payload = None) ∧
    (truthy (dget "assigneeUsernames" current) = true → dict_get "assigneeUsernames" payload = None).

Definition safe_change (c : AgentContext) (rq : request) : Prop := ∃ item_id, safe_change_of c item_id rq.

(** The request an update may cause: a safe change of the item it names. *)
Definition change_for (c : AgentContext) (update : dict pyval) (rq : request) : Prop :=
  ∃ item_id, valid_uuid_or_none (dget "itemId" update) = Some item_id ∧ safe_change_of c item_id rq.

(** A PATCH through the client sends one request, or none. *)
Lemma update_request `{Env} client project item_id payload x :
  sends (λ rq, rq_method rq = "PATCH" ∧ (∃ prefix, rq_url rq = prefix +:+ "/work-items/internal/" +:+ quote item_id) ∧
    rq_body rq = Some (PDict payload)) 1 x (update_work_item client project item_id payload x).2.
Proof.
  unfold update_work_item, patch, request_json. destruct (cl_base_url client) as [u|]; [|by apply sends_refl].
  destruct (str_truthy u); [|by apply sends_refl].
  unfold mbind, st_bind, lift_res. destruct (check_url _) as [[]|]; [|by apply sends_refl]. cbn.
  eexists [_]. split; [reflexivity|]. split; [|cbn; lia]. constructor; [|constructor]. cbn. split_and!; [done| |done].
  exists (u +:+ project_path project). unfold project_path. by rw !append_assoc.
Qed.

Lemma normalize_keeps_none known payload k :
  dict_wf payload → dict_get k payload = None → dict_get k (normalize_node_payload known payload) = None.
Proof. intros Hwf Hk. rw normalize_get; [done|]. by rw Hk. Qed.

Lemma bulk_update_safe `{Env} `{ThreadPool} deps project a c update y :
  dict_wf update →
  sends (change_for c update) 1 y (bulk_update deps project a c (context_item_index c) update y).2.
Proof.
  intros Hwf. unfold bulk_update. destruct (valid_uuid_or_none _) as [item_id|] eqn:Eid; [|by apply sends_refl].
  destruct (dict_get item_id (context_item_index c)) as [current|] eqn:Ei; [|by apply sends_refl].
  destruct (str_in _ MUTABLE_UPDATE_STATUSES) eqn:Es; [|by apply sends_refl]. cbn [negb].
  set (payload0 := filter_payload (PDict update) BULK_UPDATE_FIELDS).
  assert (Hwf0 : dict_wf payload0) by by apply filter_wf.
  pose proof (drop_protected_fields_spec (set_order PROTECTED_UPDATE_FIELDS) payload0 current (set_order_all _) Hwf0) as Hdrop.
  destruct (drop_protected_fields _ payload0 current) as [payload1 dropped] eqn:Ed.
  destruct Hdrop as (Ht & Hs & Hdesc & Hass & _).
  { intros k Hk. apply filter_get in Hk as [_ Hk]; [|done]. cbn in Hk. by rw andb_false_r in Hk. }
  assert (Hwf1 : dict_wf payload1) by (by eapply drop_protected_wf).
  set (payload := normalize_node_payload (known_member_usernames c) payload1).
  destruct payload as [|kv rest] eqn:Ep; [by apply sends_refl|]. fold payload in Ep. rewrite -Ep.
  destruct (live_client deps) as [client|]; [|by apply sends_refl].
  destruct (update_request client project item_id (with_requester a c payload) y) as (l & E & HF & Hn).
  assert (Hsafe : ∀ rq, (rq_method rq = "PATCH" ∧ (∃ prefix, rq_url rq = prefix +:+ "/work-items/internal/" +:+ quote item_id) ∧
    rq_body rq = Some (PDict (with_requester a c payload))) → change_for c update rq).
  { intros rq (Hm & Hu & Hb). exists item_id. split; [done|]. exists current, (with_requester a c payload). rw !with_requester_get; [done..|].
    split_and!; try done; [by apply bool_decide_eq_true in Es|..]; try (by apply normalize_keeps_none);
      intros Hx; apply normalize_keeps_none; auto. }
  unfold mbind, st_bind. destruct (update_work_item client project item_id _ y) as [[v|e] y1]; cbn in *;
    (exists l; split_and!; [done|by eapply Forall_impl|done]).
Qed.

(** C21: the bulk tool only makes safe changes.  Whatever updates a planner asks
    for, the requests the tool sends belong to some of the updates, one each and in
    their order: a PATCH of the item the update names, which is in the hydrated context
    and not started, and changes neither title nor status, no description of 30
    characters or more and no assignees the item has.  So it sends at most one request
    per update and at most 50 in all, and none when the updates are malformed. *)
Theorem update_workitems_bulk_safe `{Env} `{ThreadPool} deps a c x :
  let updates := default [] (coerce_work_item_updates (ac_input a)) in
  Forall dict_wf updates →
  let x' := (update_workitems_bulk deps a c x).2 in
  sends (safe_change c) 50 x x' ∧
  (∃ chosen sent, chosen `sublist_of` updates ∧ Forall2 (change_for c) chosen sent ∧
     x_requests x' = reverse sent ++ x_requests x) ∧
  (validate_work_item_updates (coerce_work_item_updates (ac_input a)) ≠ None → x_requests x' = x_requests x).
Proof.
  intros updates Hwf x'. unfold x', update_workitems_bulk. destruct (validate_work_item_updates _) as [error|] eqn:Ev.
  { split; [by apply sends_refl|]. split; [|done]. exists [], []. split_and!; [apply sublist_nil_l|done..]. }
  assert (Hlen : (length updates ≤ 50)%nat).
  { unfold updates. unfold validate_work_item_updates in Ev. destruct (coerce_work_item_updates _) as [[|u us]|]; cbn in *; try done.
    destruct (MAX_BULK_UPDATES <? _) eqn:El; [done|]. apply Z.ltb_ge in El. unfold MAX_BULK_UPDATES in El. cbn in El. lia. }
  destruct (map_st_sends (change_for c) (bulk_update deps (project_of a c) a c (context_item_index c)) updates x)
    as (chosen & sent & Hsub & HF & Hreq).
  { intros update y Hin. rw Forall_forall in Hwf. apply Hwf in Hin. by apply bulk_update_safe. }
  fold updates. rewrite -(bind_requests _ (λ results : list (dict pyval + dict pyval),
    let skipped := omap (λ r : dict pyval + dict pyval, match r with inl e => Some (PDict e) | inr _ => None end) results in
    let applied := omap (λ r : dict pyval + dict pyval, match r with inl _ => None | inr e => Some (PDict e) end) results in
    tool_success "update_workitems_bulk" a (PDict [("projectId", PStr (project_of a c)); ("updatedCount", pnat (length applied));
      ("updates", PList applied); ("skipped", PList skipped)]))) in Hreq; [done|].
  split_and!; [|by exists chosen, sent|done]. exists (reverse sent). split_and!; [exact Hreq| |].
  - apply Forall_reverse. clear -HF. induction HF as [|u rq us rqs (id & _ & Hu) _ IH]; constructor; [by exists id|done].
  - rw length_reverse -(Forall2_length _ _ _ HF). etrans; [by apply sublist_length|done].
Qed.

(** ** Concrete runs *)

(** The calls of a batch in reverse order. *)
Definition reverse_pool : ThreadPool.
Proof.
  refine {| pool_order _ n := rev (seq 0 n); pool_cancels _ _ := false; set_order l := rev l |}.
  - intros _ n. symmetry. apply Permutation_rev.
  - intros l. symmetry. apply Permutation_rev.
Defined.

#[local] Existing Instance env_ok.
#[local] Existing Instance reverse_pool.

Definition item_id_1 : string := "00000000-0000-0000-0000-000000000001".
Definition item_id_2 : string := "00000000-0000-0000-0000-000000000002".

(** A context with two members and two items, one of them started. *)
Definition sample_project : AgentContext :=
  context_with_entities
    [("project_members", PList [PDict [("username", PStr "ana"); ("fullName", PStr "Ana Silva")];
                                PDict [("username", PStr "bo"); ("userId", PStr "U2")]]);
     ("backlog_work_items", PList [PDict [("itemId", PStr item_id_1); ("status", PStr "todo")];
                                   PDict [("itemId", PStr item_id_2); ("status", PStr "in_progress")]])]
    (sample_context "ws").

Definition sample_deps : ToolDeps :=
  {| tdp_client := Some {| cl_base_url := Some "https://api"; cl_token := Some "t" |}; tdp_embedder := None |}.
Definition offline_deps : ToolDeps := {| tdp_client := None; tdp_embedder := None |}.

Definition with_action_input (input : dict pyval) : PlannedAction := action_with_input input (sample_action "a" []).

Definition sample_tree : list pyval :=
  [PDict [("title", PStr "Epic"); ("children", PList
     [PDict [("title", PStr "Story 1"); ("assigneeUsernames", PList [PStr "ANA SILVA"; PStr "nobody"])];
      PDict [("title", PStr "Story 2"); ("assigneeUsernames", PStr "u2")]])];
   PDict [("title", PStr "Chore")]].

Lemma sample_forest : work_forest 3 sample_tree 4.
Proof.
  eapply (forest_cons 2 _ _ _ 2 1); [done|reflexivity| |].
  - eapply (forest_cons 1 _ _ _ 0 1); [done|reflexivity|constructor|].
    eapply (forest_cons 1 _ _ _ 0 0); [done|reflexivity|constructor|constructor].
  - eapply (forest_cons 2 _ _ _ 0 0); [done|reflexivity|constructor|constructor].
Defined.

Lemma sample_accepts : accepts_items sample_deps.
Proof.
  intros client project payload x [= <-]. unfold create_work_item, post.
  match goal with |- context [request_json ?cl ?m ?p ?b ?au x] => destruct (request_json_cases cl m p b au x)
    as [[? _]|[_ [(e & He & _)|(rq & _ & _ & _ & _ & ->)]]] end; [done| |by eexists [], _].
  match type of He with check_url (_ +:+ ?p) = _ => pose proof (http_url_ok "https://api" p eq_refl) as Hu end.
  unfold url_ok in Hu. cbn [ostr_or str_or str_truthy cl_base_url] in He. by rw He in Hu.
Qed.

(** The whole run: offline four items, the epic assigned to everybody below it; with an
    API a request for each of them. *)
Lemma create_workitem_tree_spec_witness :
  (∃ r x', create_workitem_tree offline_deps (with_action_input [("items", PList sample_tree)]) sample_project ext0 = (Ok r, x') ∧
    tr_success r = true ∧ dget "createdCount" (tr_output r) = PInt 4) ∧
  ∃ r x', create_workitem_tree sample_deps (with_action_input [("items", PList sample_tree)]) sample_project ext0 = (Ok r, x') ∧
    length (x_requests x') = 4%nat.
Proof.
  split; [|destruct (proj2 (create_workitem_tree_spec sample_deps (with_action_input [("items", PList sample_tree)]) sample_project ext0)
    sample_tree 4%nat eq_refl ltac:(done) sample_forest ltac:(lia)) as [Hret Hspec];
    destruct (Hret sample_accepts) as (r & x' & E); exists r, x'; split; [exact E|];
    destruct (Hspec r x' E) as (_ & created & _ & _ & Hlen & _ & _ & _ & sent & rqs & Hreq & Hp & HF);
    rewrite Hreq app_nil_r Hp -(Forall2_length _ _ _ HF); exact Hlen].
  destruct (proj2 (create_workitem_tree_spec offline_deps (with_action_input [("items", PList sample_tree)]) sample_project ext0)
    sample_tree 4%nat eq_refl ltac:(done) sample_forest ltac:(lia)) as [Hret Hspec].
  destruct Hret as (r & x' & E); [by intros client project payload x|].
  exists r, x'. split; [exact E|]. destruct (Hspec r x' E) as (Hs & created & Hc & _). split; [exact Hs|exact Hc].
Defined.

(** With an API: an unknown, a started and a safe update; the reverse order of the
    protected fields; one request. *)
Definition sample_updates : dict pyval :=
  [("updates", PList
     [PDict [("itemId", PStr "x"); ("priority", PStr "low")];
      PDict [("itemId", PStr item_id_2); ("priority", PStr "low")];
      PDict [("itemId", PStr item_id_1); ("title", PStr "no"); ("priority", PStr "HIGH "); ("status", PStr "done")]])].

Lemma update_workitems_bulk_safe_witness :
  let x' := (update_workitems_bulk sample_deps (with_action_input sample_updates) sample_project ext0).2 in
  sends (safe_change sample_project) 50 ext0 x' ∧
  (∃ update rq, update ∈ default [] (coerce_work_item_updates sample_updates) ∧ x_requests x' = [rq] ∧
     change_for sample_project update rq).
Proof.
  destruct (update_workitems_bulk_safe sample_deps (with_action_input sample_updates) sample_project ext0)
    as (Hs & (chosen & sent & Hsub & HF & Hreq) & _).
  { vm_compute. repeat constructor; set_solver. }
  split; [exact Hs|]. assert (Hlen : length (x_requests (update_workitems_bulk sample_deps (with_action_input sample_updates)
    sample_project ext0).2) = 1%nat) by (vm_compute; reflexivity).
  rewrite Hreq length_app length_reverse in Hlen. cbn in Hlen.
  destruct HF as [|u rq us rqs Hu [|]]; [cbn in Hlen; lia| |cbn in Hlen; lia].
  exists u, rq. split_and!; [|exact Hreq|exact Hu]. eapply elem_of_sublist; [by left|exact Hsub].
Defined.
