(* ===== verification/OtherTools.v ===== *)
(** * The sprint, review, suggestion and dashboard tools
    ([src/capabilities/tools/sprint_tools.py], [github_tools.py],
    [suggestion_tools.py], [dashboard_tools.py])

    Each tool's [execute], with and without a configured API client. *)

From S2P Require Import Prelude PyStr PyVal PyUuid Json JsonLoads Events Plans Policies Env Definitions Client Records.
From S2P Require Import DateTime Backlog Hydration Planning WorkItems WorkItemTools.
Open Scope Z_scope.

(** ** Sprints *)

(** [str(input.get("workspaceId") or context.workspace_id)] *)
Definition workspace_of (a : PlannedAction) (c : AgentContext) : string :=
  py_str (py_or (dget "workspaceId" (ac_input a)) (PStr (cx_workspace_id c))).

(** [dt.replace(microsecond=0).isoformat().replace("+00:00", "Z")] *)
Definition sprint_time (t : datetime) : string := str_replace "+00:00" "Z" (isoformat (t / 1000000 * 1000000)).

(** [_create_sprint_payload] *)
Definition create_sprint_payload (input_data : dict pyval) (now : datetime) : dict pyval :=
  let payload :=
    [("name", PStr (str_take 50 (py_str (py_or (dget "name" input_data) (PStr "Feature provisioning")))));
     ("startsAt", py_or (dget "startsAt" input_data) (PStr (sprint_time now)));
     ("endsAt", py_or (dget "endsAt" input_data) (PStr (sprint_time (now + 14 * us_per_day))))] in
  let goal := dget "goal" input_data in
  if is_none goal then payload else dict_set "goal" goal payload.

(** [planned.sort(key=..., reverse=True)]: the latest first, equal keys in their order. *)
Definition created_key (sprint : dict pyval) : string := str_or_empty (dget "createdAt" sprint).
Fixpoint insert_latest (s : dict pyval) (l : list (dict pyval)) : list (dict pyval) :=
  match l with
  | [] => [s]
  | t :: l' => if str_leb (created_key t) (created_key s) then s :: l else t :: insert_latest s l'
  end.
Definition latest_first (l : list (dict pyval)) : list (dict pyval) := foldr insert_latest [] l.

(** [_valid_item_ids] *)
Definition valid_item_ids (raw : pyval) : list string :=
  match raw with
  | PList l => foldl (λ valid value, match uuid_parse (py_str value) with
                                     | Some u => append_new (uuid_str u) valid
                                     | None => valid
                                     end) [] l
  | _ => []
  end.

Section sprint_tools.
Context `{Env} (deps : ToolDeps).

(** [CreateSprintTool] *)
Definition create_sprint_tool (a : PlannedAction) (c : AgentContext) : st Ext ToolResult :=
  let workspace_id := workspace_of a c in
  now ← utc_now;
  let payload := create_sprint_payload (ac_input a) now in
  output ← match live_client deps with
           | Some client => create_sprint client workspace_id (with_requester a c payload)
           | None =>
               mret (PDict (dict_update
                 [("sprintId", PStr (py_str (py_or (dget "sprintId" (ac_input a)) (PStr ("local-" +:+ ac_action_id a)))));
                  ("workspaceId", PStr workspace_id)] payload))
           end;
  tool_success "create_sprint" a output.

(** [_latest_planned_sprint_id] *)
Definition latest_planned_sprint_id (client : PrismApiClient) (workspace_id : string) : st Ext (option string) :=
  sprints ← try_catch_if is_RuntimeError (l ← get_workspace_sprints client workspace_id; mret (Some l)) (λ _, mret None);
  mret (match latest_first (List.filter (λ s, bool_decide (str_or_empty (dget "status" s) = "planned")) (default [] sprints)) with
        | [] => None
        | sprint :: _ => let sprint_id := dget "sprintId" sprint in
                         if truthy sprint_id then Some (py_str sprint_id) else None
        end).

Definition added_result (item_ids : list string) (a : PlannedAction) (sprint_id : string) : st Ext ToolResult :=
  tool_success "add_sprint_work_items" a
    (PDict [("sprintId", PStr sprint_id); ("itemIds", pstrs item_ids); ("addedCount", pnat (length item_ids))]).

(** [AddSprintWorkItemsTool] *)
Definition add_sprint_work_items_tool (a : PlannedAction) (c : AgentContext) : st Ext ToolResult :=
  let name := "add_sprint_work_items" in
  let workspace_id := workspace_of a c in
  let sprint_id := str_or_empty (dget "sprintId" (ac_input a)) in
  let item_ids := valid_item_ids (dget "itemIds" (ac_input a)) in
  match item_ids with
  | [] => tool_failure name a "add_sprint_work_items requires a non-empty itemIds list of existing work item ids."
  | _ =>
      match live_client deps with
      | Some client =>
          sprint_id ← (if str_truthy sprint_id then mret sprint_id
                       else i ← latest_planned_sprint_id client workspace_id; mret (ostr_or i EmptyString));
          if negb (str_truthy sprint_id)
          then tool_failure name a "No sprintId given and no planned sprint exists to map items into."
          else
            add_sprint_work_items client workspace_id sprint_id (with_requester a c [("itemIds", pstrs item_ids)]) ;;
            added_result item_ids a sprint_id
      | None => added_result item_ids a (str_or sprint_id ("local-sprint-" +:+ ac_action_id a))
      end
  end.

(** [GenerateSprintReportTool] *)
Definition generate_sprint_report (a : PlannedAction) (c : AgentContext) : st Ext ToolResult :=
  id ← lift_res (value_get (dict_get_or (PDict []) "sprint" (cx_entities c)) "id");
  tool_success "generate_sprint_report" a
    (PDict [("sprint_id", py_or id (dget "sprint_id" (ac_input a)));
            ("report", py_or (dget "report" (ac_input a)) (PStr "Sprint report draft"))]).
End sprint_tools.

(** ** Pull requests *)

Definition REVIEW_EVENTS : list string := ["COMMENT"; "APPROVE"; "REQUEST_CHANGES"].

(** [_normalize_comments]; asking whether a list or an object is in a set raises. *)
Definition normalize_comment (item : pyval) : res (option (dict pyval)) :=
  match item with
  | PDict d =>
      match as_int (dget "line" d) with
      | Some line =>
          if negb (truthy (dget "path" d)) || negb (truthy (dget "body" d)) || (line <? 1) then Ok None
          else
            let comment := [("path", PStr (py_str (dget "path" d))); ("line", dget "line" d); ("body", PStr (py_str (dget "body" d)))] in
            match dget "side" d with
            | PStr side => Ok (Some (if str_in side ["LEFT"; "RIGHT"] then comment ++ [("side", PStr side)] else comment))
            | PList _ | PDict _ => err TypeError ("unhashable type: '" +:+ type_name (dget "side" d) +:+ "'")
            | _ => Ok (Some comment)
            end
      | None => Ok None
      end
  | _ => Ok None
  end.

Definition normalize_comments (raw : pyval) : res (list (dict pyval)) :=
  match raw with
  | PList l => match map_res normalize_comment l with Ok comments => Ok (omap id comments) | Raise e => Raise e end
  | _ => Ok []
  end.

(** [_repository_full_name] *)
Definition repository_full_name (input_data : dict pyval) (c : AgentContext) (diff : dict pyval) : string :=
  let payload := ev_payload (base (source_event c)) in
  str_or_empty (py_or (dget "repositoryFullName" input_data) (py_or (dget "repositoryFullName" diff)
    (py_or (dget "repositoryFullName" payload) (dget "repository_full_name" payload)))).

(** The diff entity of the context, when it is an object. *)
Definition context_diff (c : AgentContext) : dict pyval := default [] (as_dict (dget "pull_request_diff" (cx_entities c))).

Definition review_event (a : PlannedAction) : string :=
  let event := py_upper (py_str (py_or (dget "event" (ac_input a)) (PStr "COMMENT"))) in
  if str_in event REVIEW_EVENTS then event else "COMMENT".

(** What is sent to the API. *)
Definition review_payload (a : PlannedAction) (c : AgentContext) (comments : list (dict pyval)) : dict pyval :=
  let diff := context_diff c in
  let head_sha := py_str (py_or (dget "headSha" (ac_input a)) (py_or (dget "headSha" diff) (PStr EmptyString))) in
  let repository := repository_full_name (ac_input a) c diff in
  with_requester a c
    ([("headSha", PStr head_sha); ("event", PStr (review_event a));
      ("summary", PStr (py_str (py_or (dget "summary" (ac_input a)) (PStr (ac_instruction a)))))] ++
     (if str_truthy repository then [("repositoryFullName", PStr repository)] else []) ++
     match comments with [] => [] | _ => [("comments", PList (map PDict comments))] end).

Section pull_request_tools.
Context `{Env} (deps : ToolDeps).

(** [LinkPullRequestTool] *)
Definition link_pull_request (a : PlannedAction) (c : AgentContext) : st Ext ToolResult :=
  tool_success "link_pull_request" a
    (PDict [("pr", dict_get_or (PDict []) "pull_request" (cx_entities c)); ("itemId", dget "itemId" (ac_input a));
            ("pull_request_id", dget "pull_request_id" (ac_input a))]).

(** A failure the API explains. *)
Definition review_failure (a : PlannedAction) (reason : string) (extra : dict pyval) (e : exn) : st Ext ToolResult :=
  new_tool_result (ac_plan_id a) (ac_action_id a) "submit_pull_request_review" false
    ([("reason", PStr reason)] ++ extra) (Some (exn_str e)) [] None.

(** [SubmitPullRequestReviewTool] *)
Definition submit_pull_request_review (a : PlannedAction) (c : AgentContext) : st Ext ToolResult :=
  let name := "submit_pull_request_review" in
  let diff := context_diff c in
  let pull_number := py_or (dget "pullNumber" (ac_input a)) (dget "pullNumber" diff) in
  comments ← lift_res (normalize_comments (dget "comments" (ac_input a)));
  let payload := review_payload a c comments in
  match live_client deps, is_none pull_number with
  | Some client, false =>
      sent ← try_catch
        (output ← create_pull_request_review client (project_of a c) pull_number payload; mret (inl output))
        (λ e, match exc_type e with
              | PrismApiConflictError =>
                  r ← review_failure a "stale_pull_request_head" [("headSha", dget "headSha" payload)] e; mret (inr r)
              | PrismApiBadRequestError => r ← review_failure a "invalid_review_request" [] e; mret (inr r)
              | PrismApiUnprocessableError => r ← review_failure a "invalid_review_comment_anchor" [] e; mret (inr r)
              | _ => raise e
              end);
      match sent with inl output => tool_success name a output | inr r => mret r end
  | _, _ =>
      tool_success name a
        (PDict [("reviewId", PStr ("local-" +:+ ac_action_id a)); ("pullNumber", pull_number);
                ("event", PStr (review_event a)); ("comments", PList (map PDict comments))])
  end.
End pull_request_tools.

(** ** Suggestions and insights *)

(** [_coerce_proposed_changes] *)
Definition coerce_proposed_changes (raw : pyval) : dict pyval :=
  let coerce (v : pyval) :=
    match v with
    | PDict d => d
    | PList l => [("changes", PList l)]
    | PNone => []
    | _ => [("summary", PStr (py_str v))]
    end in
  match raw with
  | PStr s => match json_loads s with Some v => coerce v | None => [("summary", raw)] end
  | _ => coerce raw
  end.

Section suggestion_tools.
Context `{Env}.

(** [CreateAgentSuggestionTool] *)
Definition create_agent_suggestion (a : PlannedAction) (c : AgentContext) : st Ext ToolResult :=
  let title := py_str (py_or (dget "title" (ac_input a)) (PStr "Agent suggestion")) in
  let body := py_str (py_or (dget "body" (ac_input a)) (PStr (ac_instruction a))) in
  let target_entity_ref := dget "target_entity_ref" (ac_input a) in
  suggestion ← new_suggestion (cx_workspace_id c) (cx_project_id c) (ac_plan_id a) (ac_action_id a) title body
    (if truthy target_entity_ref then Some (py_str target_entity_ref) else None)
    (coerce_proposed_changes (dget "proposed_changes" (ac_input a)));
  new_tool_result (ac_plan_id a) (ac_action_id a) "create_agent_suggestion" true
    [("suggestion_id", PStr (sg_suggestion_id suggestion))] None [] (Some suggestion).

(** [CreateDashboardInsightTool] *)
Definition create_dashboard_insight (a : PlannedAction) (c : AgentContext) : st Ext ToolResult :=
  let insight_id := "insight-" +:+ ac_action_id a in
  b ← new_base "insight.created" (cx_workspace_id c) (cx_project_id c)
        (dict_update [("insight_id", PStr insight_id)] (ac_input a)) None (child_causality (cx_source_event c)) None;
  event ← wrap (DomainEvent b);
  new_tool_result (ac_plan_id a) (ac_action_id a) "create_dashboard_insight" true
    [("insight_id", PStr insight_id)] None [event] None.
End suggestion_tools.

(** ** The registry of tools ([src/infrastructure/registries/tool_registry.py]) *)

Section registry.
Context `{Env} `{ThreadPool} (deps : ToolDeps).

(** [ToolRegistry.TOOL_IMPLEMENTATIONS] *)
Definition TOOL_IMPLEMENTATIONS : dict (ToolPromptDefinition → Tool) :=
  map (λ kv : string * (PlannedAction → AgentContext → st Ext ToolResult),
         (kv.1, λ d, {| tl_definition := d; tl_execute := kv.2 |}))
    [("create_agent_suggestion", create_agent_suggestion); ("find_duplicate_workitems", find_duplicate_workitems deps);
     ("create_sprint", create_sprint_tool deps); ("add_sprint_work_items", add_sprint_work_items_tool deps);
     ("create_workitem", create_workitem deps); ("create_workitem_tree", create_workitem_tree deps);
     ("update_workitem", update_workitem deps); ("update_workitems_bulk", update_workitems_bulk deps);
     ("assign_workitem", assign_workitem deps); ("update_workitem_status", update_workitem_status deps);
     ("add_workitem_comment", add_workitem_comment); ("generate_sprint_report", generate_sprint_report);
     ("link_pull_request", link_pull_request); ("submit_pull_request_review", submit_pull_request_review deps);
     ("create_dashboard_insight", create_dashboard_insight)].

(** [ToolRegistry.from_prompt_registry] *)
Definition tool_registry (definitions : list ToolPromptDefinition) : res (ToolRegistry Tool) :=
  tools_from TOOL_IMPLEMENTATIONS definitions {| rg_tools := []; rg_definitions := [] |}.
End registry.

(** ** Lemmas *)

Definition canonical_uuid (s : string) : Prop := ∃ z, 0 ≤ z < 2 ^ 128 ∧ s = uuid_str z.

Lemma valid_item_ids_ok raw : NoDup (valid_item_ids raw) ∧ Forall canonical_uuid (valid_item_ids raw).
Proof.
  destruct raw as [| | | | |l|]; try (split; constructor). unfold valid_item_ids.
  induction l as [|v l IH] using rev_ind; [split; constructor|]. rw foldl_app. cbn [foldl].
  destruct (uuid_parse (py_str v)) as [z|] eqn:Ez; [|done]. destruct IH as [Hn Hf].
  split; [by apply append_new_NoDup|]. apply Forall_forall. intros s Hs. apply append_new_elem in Hs as [->|Hs].
  - exists z. split; [by eapply uuid_parse_bound|done].
  - rw Forall_forall in Hf. by apply Hf.
Qed.

(** A comment the API can place, made from an entry of the input. *)
Definition comment_of (entries : list pyval) (d : dict pyval) : Prop :=
  ∃ o line, PDict o ∈ entries ∧ truthy (dget "path" o) = true ∧ truthy (dget "body" o) = true ∧
    dget "path" d = PStr (py_str (dget "path" o)) ∧ dget "body" d = PStr (py_str (dget "body" o)) ∧
    dget "line" d = dget "line" o ∧ as_int (dget "line" o) = Some line ∧ 1 ≤ line ∧
    (dget "side" d = PNone ∨ dget "side" d = PStr "LEFT" ∨ dget "side" d = PStr "RIGHT").

Lemma normalize_comment_ok item d : normalize_comment item = Ok (Some d) → comment_of [item] d.
Proof.
  destruct item as [| | | | | |o]; try done. unfold normalize_comment.
  destruct (as_int (dget "line" o)) as [line|] eqn:El; [|done].
  destruct (truthy (dget "path" o)) eqn:Et; [|done]. destruct (truthy (dget "body" o)) eqn:Eb; [|done].
  destruct (Z.ltb_spec line 1); [done|]. cbn [negb orb]. cbv zeta.
  assert (Hok : ∀ side, side = [] ∨ side = [("side", PStr "LEFT")] ∨ side = [("side", PStr "RIGHT")] →
    comment_of [PDict o] ([("path", PStr (py_str (dget "path" o))); ("line", dget "line" o);
                           ("body", PStr (py_str (dget "body" o)))] ++ side)).
  { intros side Hs. exists o, line. split_and!; try done; [by left|]. destruct Hs as [->|[->| ->]]; auto. }
  destruct (dget "side" o) as [| | | |s| |]; try (intros [= <-]; apply (Hok []); by left); try done.
  unfold str_in. case_bool_decide as Hin; intros [= <-]; [|apply (Hok []); by left].
  apply Hok. right. apply elem_of_cons in Hin as [->|Hin]; [by left|].
  apply list_elem_of_singleton in Hin as ->. by right.
Qed.

Lemma normalize_comments_ok raw comments :
  normalize_comments raw = Ok comments → Forall (comment_of (default [] (as_list raw))) comments.
Proof.
  destruct raw as [| | | | |l|]; try (intros [= <-]; constructor). cbn [normalize_comments as_list default].
  destruct (map_res normalize_comment l) as [r|e] eqn:E; [|done]. intros [= <-]. revert r E.
  induction l as [|item l IH]; intros r; cbn [map_res]; [intros [= <-]; constructor|].
  unfold mbind, res_bind. destruct (normalize_comment item) as [o|e] eqn:Ei; [|done].
  destruct (map_res normalize_comment l) as [r'|e] eqn:El; [|done]. intros [= <-].
  assert (Hl : Forall (comment_of (item :: l)) (omap id r')).
  { eapply Forall_impl; [exact (IH r' eq_refl)|]. intros d (o' & line & Hin & H). exists o', line. split; [by right|exact H]. }
  destruct o as [d|]; [|exact Hl]. constructor; [|exact Hl].
  destruct (normalize_comment_ok item d Ei) as (o' & line & Hin & H). exists o', line.
  apply list_elem_of_singleton in Hin as <-. split; [by left|exact H].
Qed.

Lemma live_configured deps client : live_client deps = Some client → is_configured client = true.
Proof. unfold live_client. destruct (tdp_client deps) as [k|]; [|done]. destruct (is_configured k) eqn:E; congruence. Qed.

(** A request of a client with an HTTP URL is sent, and its reply decides. *)
Definition http_client (c : PrismApiClient) : bool := http_url (ostr_or (cl_base_url c) EmptyString).

Lemma request_json_run `{Env} c method path payload auth x :
  is_configured c = true → http_client c = true → ∃ rq, rq_method rq = method ∧ rq_body rq = payload ∧
    rq_url rq = ostr_or (cl_base_url c) EmptyString +:+ path ∧
    request_json c method path payload auth x = (reply_result method path payload (http_reply (x_requests x) rq), (urlopen rq x).2).
Proof.
  intros Hc Hh. destruct (request_json_cases c method path payload auth x) as [[? _]|[_ [(e & He & _)|(rq & ? & ? & ? & _ & ?)]]];
    [congruence| |by exists rq].
  pose proof (http_url_ok _ path Hh) as Hu. unfold url_ok in Hu. by rw He in Hu.
Qed.

Lemma tool_success_quiet `{Env} name a v : respects ext_quiet (tool_success name a v).
Proof. unfold tool_success. destruct v; try apply validation_error_quiet. apply new_tool_result_quiet. Qed.

(** ** Properties *)

(** What a rejected review reports. *)
Definition rejection_reason (code : Z) : option string :=
  if code =? 400 then Some "invalid_review_request"
  else if code =? 409 then Some "stale_pull_request_head"
  else if code =? 422 then Some "invalid_review_comment_anchor"
  else None.

(** Submitting a review.  The comments sent are well-formed and come from the
    input; with a live client of an HTTP URL and a pull request number exactly one request is made, a
    POST of the review, whose event is one the API knows.  A rejection with 400, 409
    or 422 is a failed result with its reason, every other HTTP error, an
    unreachable API and an exception of the HTTP library are raised, and an accepted review is a success.  Without a
    client or a number nothing is sent and the result is local. *)
Theorem submit_pull_request_review_spec `{Env} deps a c x :
  let pull_number := py_or (dget "pullNumber" (ac_input a)) (dget "pullNumber" (context_diff c)) in
  let '(r, y) := submit_pull_request_review deps a c x in
  match normalize_comments (dget "comments" (ac_input a)) with
  | Raise e => r = Raise e ∧ y = x
  | Ok comments =>
      Forall (comment_of (default [] (as_list (dget "comments" (ac_input a))))) comments ∧ review_event a ∈ REVIEW_EVENTS ∧
      match live_client deps, is_none pull_number with
      | Some client, false =>
          http_client client = true →
          ∃ rq, x_requests y = rq :: x_requests x ∧ rq_method rq = "POST" ∧ rq_body rq = Some (PDict (review_payload a c comments)) ∧
            match http_reply (x_requests x) rq with
            | ReplyHttpError code _ =>
                match rejection_reason code with
                | Some reason => ∃ t, r = Ok t ∧ tr_success t = false ∧ dget "reason" (tr_output t) = PStr reason
                | None => ∃ e, r = Raise e ∧ is_RuntimeError e = true
                end
            | ReplyUnreachable _ | ReplyBroken _ _ => ∃ e, r = Raise e ∧ is_RuntimeError e = true
            | ReplyRaises e => is_RuntimeError e = false → r = Raise e
            | ReplyOk _ => ∀ t, r = Ok t → tr_success t = true
            end
      | _, _ => x_requests y = x_requests x ∧ ∃ t, r = Ok t ∧ tr_success t = true
      end
  end.
Proof.
  cbv zeta. unfold submit_pull_request_review. cbv zeta. set (number := py_or _ _).
  destruct (normalize_comments (dget "comments" (ac_input a))) as [comments|e] eqn:Ec; [|done].
  unfold mbind at 1. unfold st_bind at 1. cbn [lift_res].
  assert (Hev : review_event a ∈ REVIEW_EVENTS).
  { unfold review_event. cbv zeta. unfold str_in. case_bool_decide; [done|left]. }
  assert (Hlocal : ∀ n d, let '(r, y) := tool_success n a (PDict d) x in x_requests y = x_requests x ∧ ∃ t, r = Ok t ∧ tr_success t = true).
  { intros n d. split; [done|]. by eexists. }
  pose proof (normalize_comments_ok _ _ Ec) as Hc.
  destruct (live_client deps) as [client|] eqn:El; [destruct (is_none number)|];
    try (match goal with |- let '(_, _) := ?m in _ => destruct m as [r y] eqn:E end;
         split; [exact Hc|]; split; [exact Hev|]; match type of E with tool_success ?n _ (PDict ?d) _ = _ =>
           pose proof (Hlocal n d) as Hl; rw E in Hl; exact Hl end).
  destruct (http_client client) eqn:Hh.
  2: { match goal with |- let '(_, _) := ?m in _ => destruct m as [r y] end. by split_and!. }
  destruct (request_json_run client "POST" (pull_path (project_of a c) number +:+ "/reviews")
    (Some (PDict (review_payload a c comments))) "internal" x (live_configured _ _ El) Hh) as (rq & Hm & Hb & _ & Hrun).
  assert (Hreq : ∀ A (m : st Ext A) z, respects ext_quiet m → x_requests z = rq :: x_requests x →
    x_requests (m z).2 = rq :: x_requests x) by (intros A m z Hq <-; apply (Hq z)).
  unfold mbind, st_bind, try_catch, create_pull_request_review, post. rw Hrun.
  set (z := (urlopen rq x).2). assert (Hz : x_requests z = rq :: x_requests x) by done. clearbody z.
  destruct (http_reply (x_requests x) rq) as [b|code detail|message|ename message|exc] eqn:Er; cbn [reply_result]; unfold err; cbn [fst snd].
  - destruct (decode_body _ _ b) as [v|e] eqn:Ed; cbn [fst snd].
    + unfold mret, st_ret. pose proof (Hreq _ (tool_success "submit_pull_request_review" a v) z (tool_success_quiet _ _ _) Hz) as Hq.
      destruct (tool_success "submit_pull_request_review" a v z) as [r y] eqn:Et. split; [exact Hc|]. split; [exact Hev|]. intros _.
      exists rq. split_and!; [exact Hq|done|done|]. rw Er. intros t ->. destruct v; try done. by injection Et as <- _.
    + assert (∃ k m, e = Exn k m ∧ (k = RuntimeError ∨ k = UnicodeDecodeError)) as (k & m & -> & Hk).
      { revert Ed. unfold decode_body, err. destruct b as [| |m|[| | | | |l|d]]; try destruct (dict_get "data" d);
          try discriminate; intros [= <-]; eexists _, _; (split; [done|]); by [left|right]. }
      destruct Hk as [-> | ->]; (cbn; split; [exact Hc|]; split; [exact Hev|]; intros _; exists rq; split_and!; [done..|]; rw Er; by intros t).
  - cbn [exc_type]. unfold status_exception, rejection_reason.
    destruct (code =? 400) eqn:E4; [|destruct (Z.eqb_spec code 404) as [->|]; [|destruct (code =? 409) eqn:E9; [|destruct (code =? 422) eqn:E22]]].
    all: cbn; split; [exact Hc|]; split; [exact Hev|]; intros _; exists rq; split_and!; [done..|rw Er].
    all: rewrite ?E4 ?E9 ?E22; by eexists.
  - cbn. split; [exact Hc|]. split; [exact Hev|]. intros _. exists rq. split_and!; [done..|]. rw Er. by eexists.
  - cbn. split; [exact Hc|]. split; [exact Hev|]. intros _. exists rq. split_and!; [done..|]. rw Er. by eexists.
  - destruct exc as [k m]. destruct k; cbn; (split; [exact Hc|]; split; [exact Hev|]; intros _; exists rq; split_and!; [done..|]; by rw Er).
Qed.

(** The dates of a sprint the input does not give.  The payload's texts read back
    as the current second and the second fourteen days later, the name
    has at most fifty characters, and a date the input gives is passed on. *)
Theorem create_sprint_payload_spec input now :
  MIN_DAY * us_per_day ≤ now < (MAX_DAY - 13) * us_per_day →
  let payload := create_sprint_payload input now in
  let second := now / 1000000 * 1000000 in
  (if truthy (dget "startsAt" input) then dget "startsAt" payload = dget "startsAt" input
   else parse_datetime (dget "startsAt" payload) = Some second) ∧
  (if truthy (dget "endsAt" input) then dget "endsAt" payload = dget "endsAt" input
   else parse_datetime (dget "endsAt" payload) = Some (second + 14 * us_per_day)) ∧
  (∃ name, dget "name" payload = PStr name ∧ (str_len name ≤ 50)%nat) ∧
  dget "goal" payload = dget "goal" input.
Proof.
  intros Hnow. cbv zeta. unfold create_sprint_payload. cbv zeta.
  set (name := str_take 50 _). set (starts := py_or (dget "startsAt" input) _). set (ends := py_or (dget "endsAt" input) _).
  assert (Hparts : dget "startsAt" input = starts ∧ truthy (dget "startsAt" input) = true ∨
    truthy (dget "startsAt" input) = false ∧ parse_datetime starts = Some (now / 1000000 * 1000000)).
  { unfold starts, py_or. destruct (truthy (dget "startsAt" input)); [by left|right]. split; [done|]. unfold sprint_time.
    apply (parse_datetime_roundtrip (now / 1000000 * 1000000)). unfold MIN_DAY, MAX_DAY, us_per_day in *. Z.to_euclidean_division_equations; lia. }
  assert (Hends : dget "endsAt" input = ends ∧ truthy (dget "endsAt" input) = true ∨
    truthy (dget "endsAt" input) = false ∧ parse_datetime ends = Some (now / 1000000 * 1000000 + 14 * us_per_day)).
  { unfold ends, py_or. destruct (truthy (dget "endsAt" input)); [by left|right]. split; [done|]. unfold sprint_time.
    replace ((now + 14 * us_per_day) / 1000000 * 1000000) with (now / 1000000 * 1000000 + 14 * us_per_day)
      by (unfold us_per_day; Z.to_euclidean_division_equations; lia).
    apply (parse_datetime_roundtrip (now / 1000000 * 1000000 + 14 * us_per_day)). unfold MIN_DAY, MAX_DAY, us_per_day in *. Z.to_euclidean_division_equations; lia. }
  pose proof (str_take_length 50 (py_str (py_or (dget "name" input) (PStr "Feature provisioning")))) as Hlen.
  fold name in Hlen. clearbody name starts ends.
  assert (Hgoal : ∀ d, d = [("name", PStr name); ("startsAt", starts); ("endsAt", ends)] ∨
     d = [("name", PStr name); ("startsAt", starts); ("endsAt", ends); ("goal", dget "goal" input)] →
     dget "startsAt" d = starts ∧ dget "endsAt" d = ends ∧ dget "name" d = PStr name) by (intros d [->| ->]; done).
  set (payload := if is_none _ then _ else _).
  destruct (Hgoal payload) as (-> & -> & ->).
  { unfold payload. destruct (is_none _); [by left|by right]. }
  split_and!.
  - by destruct Hparts as [[-> Ht]|[Ht Hp]]; rw Ht.
  - by destruct Hends as [[-> Ht]|[Ht Hp]]; rw Ht.
  - by exists name.
  - unfold payload. by destruct (dget "goal" input).
Qed.

Lemma create_sprint_payload_spec_witness :
  parse_datetime (dget "startsAt" (create_sprint_payload [("name", PStr "S1")] 1709210096000001)) = Some 1709210096000000 ∧
  dget "endsAt" (create_sprint_payload [("name", PStr "S1")] 1709210096000001) = PStr "2024-03-14T12:34:56Z".
Proof.
  assert (H : MIN_DAY * us_per_day ≤ 1709210096000001 < (MAX_DAY - 13) * us_per_day) by (split; vm_compute; congruence).
  split; [exact (proj1 (create_sprint_payload_spec [("name", PStr "S1")] 1709210096000001 H))|vm_compute; reflexivity].
Defined.

Lemma latest_planned_run `{Env} client w x :
  is_configured client = true → http_client client = true → ∃ r y rq, latest_planned_sprint_id client w x = (r, y) ∧
    x_requests y = rq :: x_requests x ∧ rq_method rq = "GET" ∧ rq_body rq = None ∧
    match r with Ok _ => True | Raise e => is_RuntimeError e = false ∧ reply_escapes (http_reply (x_requests x) rq) e end.
Proof.
  intros Hc Hh. destruct (request_json_run client "GET" (workspace_path w +:+ "/sprints/internal") None "internal" x Hc Hh)
    as (rq & Hm & Hb & _ & Hrun).
  unfold latest_planned_sprint_id, get_workspace_sprints, try_catch_if, try_catch, mbind, st_bind. rw Hrun.
  destruct (reply_result _ _ _ _) as [v|e] eqn:Er.
  - eexists _, _, rq. split_and!; [reflexivity|done..].
  - unfold mret, st_ret. destruct (is_RuntimeError e) eqn:Ee; eexists _, _, rq; (split_and!; [reflexivity|done..|]); [done|].
    split; [done|]. destruct (reply_result_raise _ _ _ _ _ Er); [congruence|done].
Qed.

(** Mapping items into a sprint.  The ids sent are canonical UUIDs without
    repetition, and without any of them nothing is sent and the action fails.
    Otherwise a live client of an HTTP URL makes at most two requests: it reads the sprints exactly
    when the input names none, and posts the ids to one sprint, the given or the
    latest planned one; when there is none, nothing is posted and the action fails, and
    when the lookup breaks nothing is posted and the error is raised. *)
Theorem add_sprint_work_items_spec `{Env} deps a c x :
  let ids := valid_item_ids (dget "itemIds" (ac_input a)) in
  let given := str_or_empty (dget "sprintId" (ac_input a)) in
  let '(r, y) := add_sprint_work_items_tool deps a c x in
  NoDup ids ∧ Forall canonical_uuid ids ∧
  match ids, live_client deps with
  | [], _ => x_requests y = x_requests x ∧ ∃ t, r = Ok t ∧ tr_success t = false
  | _, None => x_requests y = x_requests x ∧ ∃ t, r = Ok t ∧ tr_success t = true
  | _, Some client =>
      http_client client = true → ∃ lookups posts, x_requests y = posts ++ lookups ++ x_requests x ∧ Forall (λ rq, rq_method rq = "GET" ∧ rq_body rq = None) lookups ∧
        (if str_truthy given then lookups = [] else length lookups = 1%nat) ∧
        match posts with
        | [] => (∃ t, r = Ok t ∧ tr_success t = false) ∨
                ∃ rq e, lookups = [rq] ∧ r = Raise e ∧ is_RuntimeError e = false ∧ reply_escapes (http_reply (x_requests x) rq) e
        | [rq] => rq_method rq = "POST" ∧ rq_body rq = Some (PDict (with_requester a c [("itemIds", pstrs ids)])) ∧
            ∃ sprint, str_truthy sprint = true ∧
              rq_url rq = ostr_or (cl_base_url client) EmptyString +:+ workspace_path (workspace_of a c) +:+ "/sprints/internal/" +:+
                          quote sprint +:+ "/work-items" ∧
              (if str_truthy given then sprint = given
               else (latest_planned_sprint_id client (workspace_of a c) x).1 = Ok (Some sprint))
        | _ => False
        end
  end.
Proof.
  cbv zeta. unfold add_sprint_work_items_tool. cbv zeta.
  destruct (valid_item_ids_ok (dget "itemIds" (ac_input a))) as [Hn Hf].
  set (ids := valid_item_ids _) in *. set (given := str_or_empty _).
  set (success := added_result ids a).
  assert (Hsuccess : ∀ s z, let '(r, y) := success s z in x_requests y = x_requests z ∧ ∃ t, r = Ok t ∧ tr_success t = true).
  { intros s z. unfold success, added_result, tool_success. split; [done|]. by eexists. }
  assert (Hfailure : ∀ n m z, let '(r, y) := tool_failure n a m z in x_requests y = x_requests z ∧ ∃ t, r = Ok t ∧ tr_success t = false).
  { intros n m z. split; [done|]. by eexists. }
  clearbody success. destruct ids as [|id0 ids'] eqn:Eids.
  { match goal with |- let '(_, _) := ?m in _ => destruct m as [r y] eqn:E end. split; [exact Hn|]. split; [exact Hf|].
    match type of E with tool_failure ?n _ ?m _ = _ => pose proof (Hfailure n m x) as Hl; rw E in Hl; exact Hl end. }
  rw -Eids. rw -Eids in Hn, Hf. destruct (live_client deps) as [client|] eqn:El.
  2:{ match goal with |- let '(_, _) := success ?s _ in _ => pose proof (Hsuccess s x) as Hl; destruct (success s x) end. split; [exact Hn|]. split; [exact Hf|]. exact Hl. }
  pose proof (live_configured _ _ El) as Hc. destruct (http_client client) eqn:Hh.
  2: { match goal with |- let '(_, _) := ?m in _ => destruct m as [r y] end. by split_and!. }
  (* posting to a sprint *)
  assert (Hpost : ∀ sprint z lookups, x_requests z = lookups ++ x_requests x → str_truthy sprint = true →
    let '(r, y) := (add_sprint_work_items client (workspace_of a c) sprint (with_requester a c [("itemIds", pstrs ids)]) ;; success sprint) z in
    ∃ rq, x_requests y = [rq] ++ lookups ++ x_requests x ∧ rq_method rq = "POST" ∧
      rq_body rq = Some (PDict (with_requester a c [("itemIds", pstrs ids)])) ∧
      rq_url rq = ostr_or (cl_base_url client) EmptyString +:+ workspace_path (workspace_of a c) +:+ "/sprints/internal/" +:+
                  quote sprint +:+ "/work-items").
  { intros sprint z lookups Hz Hs. unfold add_sprint_work_items, post.
    destruct (request_json_run client "POST" (workspace_path (workspace_of a c) +:+ "/sprints/internal/" +:+ quote sprint +:+ "/work-items")
      (Some (PDict (with_requester a c [("itemIds", pstrs ids)]))) "internal" z Hc Hh) as (rq & Hm & Hb & Hu & Hrun).
    unfold mbind, st_bind. rw Hrun. destruct (reply_result _ _ _ _) as [v|e].
    - pose proof (Hsuccess sprint (urlopen rq z).2) as Hl. destruct (success sprint _) as [r y]. destruct Hl as [Hl _].
      exists rq. split_and!; [|done..]. rw Hl. cbn. by rw Hz.
    - exists rq. split_and!; [|done..]. cbn. by rw Hz. }
  destruct (str_truthy given) eqn:Eg.
  - pose proof (Hpost given x [] eq_refl Eg) as Hp. unfold mbind, st_bind in Hp.
    unfold mbind, st_bind, mret, st_ret. rw Eg. cbn [negb].
    match type of Hp with let '(_, _) := ?m in _ => destruct m as [r y] end. destruct Hp as (rq & Hr & Hm & Hb & Hu).
    split; [exact Hn|]. split; [exact Hf|]. intros _. exists [], [rq]. split_and!; [done|constructor|done..|]. exists given. by split_and!.
  - destruct (latest_planned_run client (workspace_of a c) x Hc Hh) as (r0 & z & rq0 & Hl & Hz & Hm0 & Hb0 & He0).
    unfold mbind, st_bind. rw Hl. unfold mret, st_ret. destruct r0 as [o|e].
    2: { destruct He0 as [He0 He1]. split; [exact Hn|]. split; [exact Hf|]. intros _. exists [rq0], [].
         split_and!; [by rw Hz|by repeat constructor|done|]. right. by exists rq0, e. }
    set (sprint := ostr_or o EmptyString).
    destruct (str_truthy sprint) eqn:Es; cbn [negb].
    + pose proof (Hpost sprint z [rq0] Hz Es) as Hp. unfold mbind, st_bind in Hp.
      match type of Hp with let '(_, _) := ?m in _ => destruct m as [r y] end.
      destruct Hp as (rq & Hr & Hm & Hb & Hu). split; [exact Hn|]. split; [exact Hf|]. intros _. exists [rq0], [rq].
      split_and!; [done|by repeat constructor|done..|]. exists sprint. split_and!; [done..|].
      unfold sprint in *. destruct o as [s|]; [|done]. cbn in *. unfold str_or in *. by destruct s.
    + pose proof (Hfailure "add_sprint_work_items" "No sprintId given and no planned sprint exists to map items into." z) as Hp.
      destruct (tool_failure _ a _ z) as [r y]. destruct Hp as [Hr Ht]. split; [exact Hn|]. split; [exact Hf|]. intros _. exists [rq0], [].
      split_and!; [by rw Hr Hz|by repeat constructor|done|by left].
Qed.

(** A comment whose [side] is a list is not skipped like other malformed entries: it
    raises, and with it the whole review. *)
Lemma unhashable_side_raises :
  normalize_comments (PList [PDict [("path", PStr "a.py"); ("line", PInt 1); ("body", PStr "b"); ("side", PList [])]]) =
    err TypeError "unhashable type: 'list'".
Proof. vm_compute. reflexivity. Qed.

(** A registry whose tools carry the definitions they are registered with. *)
Definition registry_ok (r : ToolRegistry Tool) : Prop :=
  ∀ n, match dict_get n (rg_tools r), dict_get n (rg_definitions r) with
       | Some t, Some d => tl_definition t = d ∧ tp_id d = n
       | None, None => True
       | _, _ => False
       end.

Lemma implementation_definition `{Env} `{ThreadPool} deps n make d :
  dict_get n (TOOL_IMPLEMENTATIONS deps) = Some make → tl_definition (make d) = d.
Proof.
  intros Hm%dict_get_Some_elem. apply list_elem_of_fmap in Hm as (kv & E & _). by injection E as -> ->.
Qed.

Lemma tools_from_ok `{Env} `{ThreadPool} deps definitions r :
  registry_ok r → ∃ r', tools_from (TOOL_IMPLEMENTATIONS deps) definitions r = Ok r' ∧ registry_ok r' ∧
    ∀ n, dict_mem n (rg_tools r') = dict_mem n (rg_tools r) ||
      dict_mem n (TOOL_IMPLEMENTATIONS deps) && existsb (λ d, bool_decide (tp_id d = n)) definitions.
Proof.
  revert r. induction definitions as [|d definitions IH]; intros r Hr; cbn [tools_from existsb].
  { exists r. split_and!; [done..|]. intros n. by rw andb_false_r orb_false_r. }
  destruct (dict_get (tp_id d) (TOOL_IMPLEMENTATIONS deps)) as [make|] eqn:Em.
  - unfold tool_init. rw bool_decide_eq_true_2; [done|]. unfold mbind, res_bind. cbv beta iota.
    destruct (IH (tool_register (tp_id d) (make d) d r)) as (r' & E & Hok & Hmem).
    { intros n. unfold tool_register. cbn [rg_tools rg_definitions]. rw !dict_get_set. specialize (Hr n).
      case_bool_decide as En; [|exact Hr]. split; [by eapply implementation_definition|done]. }
    exists r'. split_and!; [exact E|exact Hok|]. intros n. rw Hmem. unfold tool_register. cbn [rg_tools]. rw dict_mem_set.
    destruct (bool_decide_reflect (tp_id d = n)) as [<-|Hne].
    + assert (dict_mem (tp_id d) (TOOL_IMPLEMENTATIONS deps) = true) as -> by (unfold dict_mem; by rw Em).
      cbn. by rw orb_true_r.
    + done.
  - destruct (IH r Hr) as (r' & E & Hok & Hmem). exists r'. split_and!; [exact E|exact Hok|]. intros n. rw Hmem.
    destruct (bool_decide_reflect (tp_id d = n)) as [<-|Hne]; [|done].
    assert (dict_mem (tp_id d) (TOOL_IMPLEMENTATIONS deps) = false) as -> by (unfold dict_mem; by rw Em). done.
Qed.

(** building the registry never fails.  Whatever definitions the prompts declare,
    in whatever order and however often, the registered tools are exactly those with
    an implementation and a definition, each under its definition's id, and a tool
    and its registered definition always agree. *)
Theorem tool_registry_spec `{Env} `{ThreadPool} deps definitions :
  ∃ r, tool_registry deps definitions = Ok r ∧ registry_ok r ∧
    ∀ n, is_Ok (tool_get r n) = true ↔
      n ∈ dict_keys (TOOL_IMPLEMENTATIONS deps) ∧ ∃ d, d ∈ definitions ∧ tp_id d = n.
Proof.
  destruct (tools_from_ok deps definitions {| rg_tools := []; rg_definitions := [] |}) as (r & E & Hok & Hmem); [by intros n|].
  exists r. split_and!; [exact E|exact Hok|]. intros n.
  assert (is_Ok (tool_get r n) = dict_mem n (rg_tools r)) as -> by (unfold tool_get, dict_mem; by destruct (dict_get n (rg_tools r))).
  rw Hmem. cbn [rg_tools dict_mem dict_get orb]. rw andb_true_iff dict_mem_elem existsb_elem.
  setoid_rewrite bool_decide_eq_true. done.
Qed.
