(* ===== verification/PlanQuality.v ===== *)
(** * The review of a plan ([src/capabilities/plan_quality.py])

    Findings on the work items a plan creates or touches.  Ratios of counts are
    compared as the quotients of integers they are; the thresholds 0.5 and 0.6 are
    far enough from every other quotient of counts below 2^50 for the division of
    floats to agree.  The dash in one of the messages is its UTF-8 text. *)

From S2P Require Import Prelude PyStr PyVal JsonLoads Plans Policies WorkItems.

Definition MIN_DESCRIPTION_LENGTH : nat := 30.
Definition MAX_EXAMPLES_PER_ISSUE : nat := 5.
Definition MIN_ASSIGNED_LEAVES_FOR_BALANCE_CHECK : Z := 6.
Definition MIN_LEAVES_FOR_ASSIGNMENT_RATIO_CHECK : Z := 5.
Definition OVERLOADED_ACTIVE_ITEM_COUNT : Z := 8.

Definition BOILERPLATE_HEADINGS : list string := ["acceptance criteria"; "context:"].
Definition EXISTING_WORK_ENTITY_KEYS : list string :=
  ["project_work_items"; "backlog_work_items"; "sibling_work_items"; "child_work_items"].
Definition CLOSED_STATUSES : list string := ["done"; "archived"].

(** The dicts in the lists under [keys], one key after the other. *)
Definition entity_dicts (entities : dict pyval) (keys : list string) : list (dict pyval) :=
  concat (map (λ key, match dget key entities with PList l => omap as_dict l | _ => [] end) keys).

(** [_known_item_index] *)
Definition known_item_index (entities : dict pyval) : dict (dict pyval) :=
  foldl (λ index item, if truthy (dget "itemId" item) then dict_setdefault (py_str (dget "itemId" item)) item index else index)
    [] (entity_dicts entities EXISTING_WORK_ENTITY_KEYS).

(** [_quote_titles] *)
Definition quote_titles (titles : list string) : string :=
  let shown := str_join ", " (map (λ t, dquote +:+ t +:+ dquote) (take MAX_EXAMPLES_PER_ISSUE titles)) in
  if bool_decide (MAX_EXAMPLES_PER_ISSUE < length titles)%nat
  then shown +:+ " and " +:+ pretty (Z.of_nat (length titles - MAX_EXAMPLES_PER_ISSUE)) +:+ " more"
  else shown.

(** [if l: issues.append(f(l))] *)
Definition issue_if (l : list string) (issue : list string → string) : list string :=
  match l with [] => [] | _ => [issue l] end.

(** [_target_item_issues] *)
Definition target_item_issues (item_ids : list string) (entities : dict pyval) (tool_name : string)
    (require_unstarted : bool) : list string :=
  let known := known_item_index entities in
  match known with
  | [] => []
  | _ =>
      let unknown := List.filter (λ i, str_truthy i && negb (dict_mem i known)) item_ids in
      let blocked_statuses := if require_unstarted then "in_progress" :: "in_review" :: CLOSED_STATUSES else CLOSED_STATUSES in
      let blocked := omap (λ i, match dict_get i known with
        | Some item => if str_in (str_or_empty (dget "status" item)) blocked_statuses
                       then Some (py_str (py_or (dget "title" item) (PStr i))) else None
        | None => None
        end) item_ids in
      issue_if unknown (λ l, "The " +:+ tool_name +:+ " action references item ids that do not exist in the hydrated backlog: " +:+
        quote_titles l +:+ ". Use itemId values exactly as they appear in context.") ++
      issue_if blocked (λ l, "The " +:+ tool_name +:+ " action touches items that are " +:+
        (if require_unstarted
         then "already started or closed; only unstarted (todo) items can be edited — propose the rest in a suggestion"
         else "already done or archived; leave closed items alone") +:+ ": " +:+ quote_titles l +:+ ".")
  end.

(** [_flatten] *)
Fixpoint flatten_node (node : pyval) : list (dict pyval) :=
  match node with
  | PDict d =>
      let subs := map (λ kv, (kv.1, match kv.2 with PList l => concat (map flatten_node l) | _ => [] end)) d in
      d :: dict_get_or [] "children" subs
  | _ => []
  end.
Definition flatten (items : list pyval) : list (dict pyval) := concat (map flatten_node items).

(** [_normalize_title] *)
Definition normalize_title (title : pyval) : string := py_lower (strip (collapse_ws (str_or_empty title))).

(** [_duplicate_title_issues]: the titles seen so far and the repeated ones. *)
Definition see_title (r : dict string * list string) (node : dict pyval) : dict string * list string :=
  let normalized := normalize_title (dget "title" node) in
  if str_truthy normalized then
    (dict_setdefault normalized (py_str (dget "title" node)) r.1,
     match dict_get normalized r.1 with
     | Some first => if str_in first r.2 then r.2 else r.2 ++ [first]
     | None => r.2
     end)
  else r.
Definition duplicate_title_issues (nodes : list (dict pyval)) : list string :=
  issue_if (foldl see_title ([], []) nodes).2 (λ l,
    "The plan repeats the same task more than once: " +:+ quote_titles l +:+ ". Merge duplicates or differentiate their scope.").

(** [_existing_titles] *)
Definition existing_titles (entities : dict pyval) : dict string :=
  foldl (λ titles item,
      let normalized := normalize_title (dget "title" item) in
      if str_truthy normalized then dict_setdefault normalized (py_str (dget "title" item)) titles else titles)
    [] (entity_dicts entities EXISTING_WORK_ENTITY_KEYS).

(** [_existing_duplicate_issues]; without existing titles no node has one. *)
Definition existing_duplicate_issues (nodes : list (dict pyval)) (entities : dict pyval) : list string :=
  let existing := existing_titles entities in
  issue_if (omap (λ node, if dict_mem (normalize_title (dget "title" node)) existing
                          then Some (py_str (dget "title" node)) else None) nodes) (λ l,
    "These planned tasks already exist as work items: " +:+ quote_titles l +:+
    ". Drop them, or replace them with tasks for only the missing work that extends the existing item.").

(** [_description_issues] *)
Definition weak_description (node : dict pyval) : bool :=
  let title := str_or_empty (dget "title" node) in
  let description := text_of (dget "description" node) in
  bool_decide (str_len description < MIN_DESCRIPTION_LENGTH)%nat ||
  bool_decide (normalize_title (PStr description) = normalize_title (PStr title)) ||
  existsb (λ heading, str_contains heading (py_lower description)) BOILERPLATE_HEADINGS.
Definition description_issues (nodes : list (dict pyval)) : list string :=
  issue_if (omap (λ node, if weak_description node then Some (str_or_empty (dget "title" node)) else None) nodes) (λ l,
    "These task descriptions are missing, too thin, boilerplate, or restate the title: " +:+ quote_titles l +:+
    ". Each description must be 2-5 sentences of plain prose with the concrete behavior, validation, and edge cases the " +:+
    "implementer needs to start coding.").

(** [_known_member_count] *)
Definition known_member_count (entities : dict pyval) : Z :=
  Z.of_nat (length (remove_dups (List.filter str_truthy
    (map (λ m, text_of (dget "username" m)) (entity_dicts entities MEMBER_ENTITY_KEYS))))).

(** [_members_with_capacity] *)
Definition members_with_capacity (entities : dict pyval) : list string :=
  take MAX_EXAMPLES_PER_ISSUE (omap (λ workload,
    let username := text_of (dget "username" workload) in
    let capacity := match as_int (dget "activeItemCount" workload) with
                    | Some active => active <? OVERLOADED_ACTIVE_ITEM_COUNT | None => true end in
    if str_truthy username && capacity then Some username else None) (entity_dicts entities ["member_workloads"])).

(** [max(counts.items(), key=...)]: the first of the largest. *)
Fixpoint top_entry (best : string * Z) (counts : dict Z) : string * Z :=
  match counts with
  | [] => best
  | (name, n) :: counts' => top_entry (if best.2 <? n then (name, n) else best) counts'
  end.

Definition leaf_nodes (nodes : list (dict pyval)) : list (dict pyval) :=
  List.filter (λ node, negb (truthy (dget "children" node))) nodes.
Definition leaf_assignees (node : dict pyval) : list pyval :=
  match dget "assigneeUsernames" node with PList l => l | _ => [] end.
Definition count_name (counts : dict Z) (username : pyval) : dict Z :=
  let name := text_of username in
  if str_truthy name then dict_set name (dict_get_or 0 name counts + 1) counts else counts.

(** [_assignment_issues] *)
Definition assignment_issues (nodes : list (dict pyval)) (entities : dict pyval) : list string :=
  let member_count := known_member_count entities in
  if member_count <? 2 then []
  else
    let leaves := Z.of_nat (length (leaf_nodes nodes)) in
    let assigned := List.filter (λ node, negb (bool_decide (leaf_assignees node = []))) (leaf_nodes nodes) in
    let assigned_leaves := Z.of_nat (length assigned) in
    let counts := foldl count_name [] (concat (map leaf_assignees assigned)) in
    (if (MIN_LEAVES_FOR_ASSIGNMENT_RATIO_CHECK <=? leaves) && (2 * assigned_leaves <? leaves) then
       let available := members_with_capacity entities in
       let member_hint := match available with [] => EmptyString
                          | _ => " Members with capacity: " +:+ str_join ", " available +:+ "." end in
       ["Only " +:+ pretty assigned_leaves +:+ " of " +:+ pretty leaves +:+
        " tasks have an assignee. Assigning work is the project manager's job: give every task whose required skills " +:+
        "match a member's jobNames an owner, using exact username values." +:+ member_hint]
     else []) ++
    match counts with
    | [] => []
    | first :: rest =>
        if (3 <=? member_count) && (MIN_ASSIGNED_LEAVES_FOR_BALANCE_CHECK <=? assigned_leaves) then
          let '(top_username, top_count) := top_entry first rest in
          if 3 * assigned_leaves <? 5 * top_count then
            ["Assignment is too concentrated: " +:+ top_username +:+ " holds " +:+ pretty top_count +:+ " of " +:+
             pretty assigned_leaves +:+ " assigned tasks while " +:+ pretty member_count +:+
             " members are available. Rebalance across capable teammates or leave uncertain tasks unassigned."]
          else []
        else []
    end.

(** [plan_quality_issues] *)
Definition tree_issues (nodes : list (dict pyval)) (entities : dict pyval) : list string :=
  duplicate_title_issues nodes ++ existing_duplicate_issues nodes entities ++ description_issues nodes ++
  assignment_issues nodes entities.

Definition action_issues (entities : dict pyval) (a : PlannedAction) : list string :=
  if bool_decide (ac_tool_name a = "create_workitem_tree") then
    match coerce_work_item_tree_items (ac_input a) with
    | Some items => tree_issues (flatten items) entities
    | None => []
    end
  else if bool_decide (ac_tool_name a = "update_workitems_bulk") then
    target_item_issues (map (λ update, str_or_empty (dget "itemId" update)) (default [] (coerce_work_item_updates (ac_input a))))
      entities (ac_tool_name a) true
  else if bool_decide (ac_tool_name a = "add_sprint_work_items") then
    match dget "itemIds" (ac_input a) with
    | PList raw_ids => target_item_issues (map py_str raw_ids) entities (ac_tool_name a) false
    | _ => []
    end
  else [].

Definition plan_quality_issues (plan : AgentPlan) (entities : dict pyval) : list string :=
  concat (map (action_issues entities) (pl_actions plan)).

(** ** Lemmas *)

(** The normalized titles of nodes, those that are not empty. *)
Definition titles_of (nodes : list (dict pyval)) : list string :=
  List.filter str_truthy (map (λ node, normalize_title (dget "title" node)) nodes).

Lemma issue_if_nil l issue : issue_if l issue = [] ↔ l = [].
Proof. by destruct l. Qed.

Lemma setdefault_mem {V} k (v : V) d k' : dict_mem k' (dict_setdefault k v d) = bool_decide (k = k') || dict_mem k' d.
Proof.
  unfold dict_setdefault. destruct (dict_mem k d) eqn:E; [|apply dict_mem_set]. case_bool_decide; [by subst|done].
Qed.

Lemma see_title_nil nodes : ∀ seen repeated,
  (foldl see_title (seen, repeated) nodes).2 = [] ↔
  repeated = [] ∧ NoDup (titles_of nodes) ∧ ∀ t, t ∈ titles_of nodes → dict_mem t seen = false.
Proof.
  induction nodes as [|node nodes IH]; intros seen repeated; cbn [foldl].
  { cbn. split; [intros ->; split_and!; [done|constructor|by intros t ?%not_elem_of_nil]|by intros (-> & _)]. }
  unfold see_title at 2, titles_of. cbn [map List.filter fst snd].
  destruct (str_truthy (normalize_title (dget "title" node))) eqn:Et; [|apply IH].
  fold (titles_of nodes). set (t := normalize_title (dget "title" node)) in *. rw IH NoDup_cons.
  assert (Hmem : ∀ t', dict_mem t' (dict_setdefault t (py_str (dget "title" node)) seen) = bool_decide (t = t') || dict_mem t' seen)
    by (intros; apply setdefault_mem).
  setoid_rewrite Hmem. setoid_rewrite elem_of_cons. unfold dict_mem in *. destruct (dict_get t seen) as [first|] eqn:Ed.
  - split; [|intros (_ & _ & H); specialize (H t ltac:(by left)); by rw Ed in H].
    intros [H _]. exfalso. revert H. unfold str_in. case_bool_decide as Hin; [intros ->; by apply not_elem_of_nil in Hin|by destruct repeated].
  - split.
    + intros (-> & Hnd & Hs). split_and!; [done| |done|].
      * intros Hin. apply Hs in Hin. by rw bool_decide_eq_true_2 in Hin.
      * intros t' [->|Hin]; [by rw Ed|]. apply Hs in Hin. by apply orb_false_iff in Hin as [_ ?].
    + intros (-> & [Hnin Hnd] & Hs). split_and!; [done|done|]. intros t' Hin. apply orb_false_iff. split; [|by apply Hs; right].
      apply bool_decide_eq_false. by intros <-.
Qed.

Lemma existing_titles_mem entities t :
  dict_mem t (existing_titles entities) = true ↔ t ∈ titles_of (entity_dicts entities EXISTING_WORK_ENTITY_KEYS).
Proof.
  unfold existing_titles. generalize (entity_dicts entities EXISTING_WORK_ENTITY_KEYS). intros items.
  assert (H : ∀ titles, dict_mem t (foldl (λ titles item,
      let normalized := normalize_title (dget "title" item) in
      if str_truthy normalized then dict_setdefault normalized (py_str (dget "title" item)) titles else titles) titles items) = true
    ↔ dict_mem t titles = true ∨ t ∈ titles_of items).
  { induction items as [|item items IH]; intros titles; cbn [foldl].
    - unfold titles_of. cbn. split; [by left|intros [?|?%not_elem_of_nil]; done].
    - rw IH. unfold titles_of. cbn [map List.filter]. destruct (str_truthy _); [|done].
      rw setdefault_mem elem_of_cons orb_true_iff bool_decide_eq_true. naive_solver. }
  rw H. split; [intros [?|?]; done|by right].
Qed.

Lemma weak_description_spec node :
  (if weak_description node then Some (str_or_empty (dget "title" node)) else None) = None ↔
  let title := str_or_empty (dget "title" node) in
  let description := text_of (dget "description" node) in
  (30 ≤ str_len description)%nat ∧ normalize_title (PStr description) ≠ normalize_title (PStr title) ∧
  str_contains "acceptance criteria" (py_lower description) = false ∧ str_contains "context:" (py_lower description) = false.
Proof.
  cbn zeta. unfold weak_description, MIN_DESCRIPTION_LENGTH. cbn [existsb BOILERPLATE_HEADINGS].
  destruct (bool_decide_reflect (str_len (text_of (dget "description" node)) < 30)%nat); cbn [orb]; [split; [done|lia]|].
  case_bool_decide; cbn [orb]; [split; [done|by intros (?&?&?&?)]|].
  destruct (str_contains "acceptance criteria" _); cbn [orb]; [split; [done|by intros (?&?&?&?)]|].
  destruct (str_contains "context:" _); cbn [orb]; (split; [|by intros (?&?&?&?)]); [done|]. intros _. split_and!; [lia|done|done|done].
Qed.

(** ** Properties *)

(** The review of a breakdown finds what it says.  It reports repeated tasks
    exactly if two nodes anywhere in the tree have the same title, up to case and
    white space; existing ones exactly if a node has the title of a work item of the
    context; and weak descriptions exactly if a node's description has fewer than 30
    characters, restates the title or holds a boilerplate heading. *)
Theorem tree_review_spec nodes entities :
  (duplicate_title_issues nodes = [] ↔ NoDup (titles_of nodes)) ∧
  (existing_duplicate_issues nodes entities = [] ↔
     ∀ t, t ∈ titles_of nodes → t ∉ titles_of (entity_dicts entities EXISTING_WORK_ENTITY_KEYS)) ∧
  (description_issues nodes = [] ↔ ∀ node, node ∈ nodes →
     let title := str_or_empty (dget "title" node) in
     let description := text_of (dget "description" node) in
     (30 ≤ str_len description)%nat ∧ normalize_title (PStr description) ≠ normalize_title (PStr title) ∧
     str_contains "acceptance criteria" (py_lower description) = false ∧ str_contains "context:" (py_lower description) = false).
Proof.
  split_and!.
  - unfold duplicate_title_issues. rw issue_if_nil see_title_nil. naive_solver.
  - unfold existing_duplicate_issues. rw issue_if_nil omap_nil. split.
    + intros H t Ht Hex. unfold titles_of in Ht. apply list_elem_of_In, filter_In in Ht as [Ht _].
      apply list_elem_of_In, list_elem_of_fmap in Ht as (node & -> & Hn). apply H in Hn.
      apply existing_titles_mem in Hex. by rw Hex in Hn.
    + intros H node Hn. destruct (dict_mem _ (existing_titles entities)) eqn:E; [|done]. apply existing_titles_mem in E.
      exfalso. refine (H _ _ E). unfold titles_of in *. apply list_elem_of_In, filter_In in E as [_ Et].
      apply list_elem_of_In, filter_In. split; [|done]. apply list_elem_of_In. by apply (list_elem_of_fmap_2 (λ node, normalize_title (dget "title" node))).
  - unfold description_issues. rw issue_if_nil omap_nil. split; intros H node Hn; apply weak_description_spec, H; exact Hn.
Qed.
