(* ===== verification/PlanningAgent.v ===== *)
(** * The planning agent ([src/infrastructure/llm/pydantic_ai_agent_factory.py],
    [src/infrastructure/llm/gemini_model_provider.py], [src/capabilities/skills.py])

    The prompts, and the loop that asks a language model for a plan up to three
    times within a time budget.  The model call (pydantic-ai's [Agent.run_sync]) is
    the class [LanguageModel].  Log lines are left out, the clock readings they take
    are not.  Times are in microseconds. *)

From S2P Require Import Prelude PyStr PyVal Json JsonLoads Events Plans SubTasks Policies Env Definitions Records.
From S2P Require Import Validation Planning WorkItems PlanQuality.

(** [Agent(model_ref, instructions, max_tokens).run_sync(user_prompt).output] *)
Class LanguageModel := {
  run_agent : string → string → Z → string → st Ext AgentPlan
}.

Definition PLAN_GENERATION_ATTEMPTS : nat := 3.
Definition PLANNING_TIME_BUDGET : Z := 180 * 1000000.
Definition CRITIC_SKIP_GENERATION : Z := 60 * 1000000.
Definition PLANNING_MAX_OUTPUT_TOKENS : Z := 65536.

Definition EMPTY_PLAN_FEEDBACK : string :=
  "The previous planning attempt produced zero executable actions. Return an AgentPlan with at least one action using " +:+
  "an allowed tool when the workflow goal requires work. Do not leave actions empty for feature provisioning, task " +:+
  "decomposition, or other actionable workflows unless the hydrated context proves there is no safe action.".

(** ** The model provider *)

(** The settings it reads; [gm_env_key]: one of the two keys is in the environment. *)
Record GeminiModelProvider := {
  gm_api_key : option string;
  gm_default_model : string;
  gm_flash_model : string;
  gm_env_key : bool
}.

Definition model_name_for (g : GeminiModelProvider) (prompt : WorkflowPromptDefinition) : string :=
  str_or (pm_name (wp_model prompt)) (gm_default_model g).

Definition model_name_for_tier (g : GeminiModelProvider) (tier : option string) : option string :=
  match tier with
  | None => None
  | Some t => dict_get t [("pro", gm_default_model g); ("flash", gm_flash_model g)]
  end.

Definition pydantic_ai_model_ref (g : GeminiModelProvider) (prompt : WorkflowPromptDefinition) (tier : option string) : string :=
  "google:" +:+ ostr_or (model_name_for_tier g tier) (model_name_for g prompt).

Definition configure_environment (g : GeminiModelProvider) : res unit :=
  if ostr_truthy (gm_api_key g) || gm_env_key g then Ok tt
  else err RuntimeError "GEMINI_API_KEY or GOOGLE_API_KEY is required for Gemini planning.".

(** ** Prompts *)

Definition bullets (l : list string) : string := str_join newline (map (λ i, "- " +:+ i) l).
Definition section_if (l : list string) (title : string) : list string :=
  match l with [] => [] | _ => [title +:+ newline +:+ bullets l] end.

(** [RuntimeSkill.render_instruction] *)
Definition render_instruction (s : SkillPromptDefinition) : string :=
  str_join newline
    (["Capability: " +:+ sk_name s +:+ " (" +:+ sk_id s +:+ ")"; sk_instruction s] ++
     section_if (sk_reasoning_instructions s) "Reasoning instructions:" ++
     section_if (sk_quality_expectations s) "Quality expectations:" ++
     section_if (map (λ kv, kv.1 +:+ ": " +:+ py_str kv.2) (sk_guardrails s)) "Guardrails:" ++
     ["Allowed tools:" +:+ newline +:+ bullets (sk_allowed_tools s)]).

(** [_render_workflow_prompt] *)
Definition render_workflow_prompt (w : WorkflowPromptDefinition) : string :=
  str_join newline
    (["Workflow: " +:+ wp_name w +:+ " (" +:+ wp_id w +:+ ")"; "Goal: " +:+ wp_goal w; "Output schema: " +:+ wp_output_schema w] ++
     section_if (wp_required_context w) "Required context:" ++
     section_if (wp_constraints w) "Workflow constraints:").

(** [_render_skill_prompts] *)
Definition render_skill_prompts (skills : list SkillPromptDefinition) : string :=
  match skills with
  | [] => EmptyString
  | _ => "Skills:" +:+ newline +:+ str_join (newline +:+ newline) (map render_instruction skills)
  end.

(** [_render_tool_prompts] *)
Definition render_tool (t : ToolPromptDefinition) : string :=
  str_join newline
    (["Tool: " +:+ tp_name t +:+ " (" +:+ tp_id t +:+ ")"; "Description: " +:+ tp_description t;
      "Risk level: " +:+ tp_risk_level t; "Approval policy: " +:+ tp_approval_policy t] ++
     section_if (tp_usage t) "Use when:" ++ section_if (tp_do_not_use t) "Do not use when:" ++
     match tp_input_contract t with
     | [] => []
     | contract => ["Input contract:" +:+ newline +:+ json_indent (PDict contract)]
     end).
Definition render_tool_prompts (tools : list Tool) : string :=
  match tools with
  | [] => EmptyString
  | _ => "Tool permissions:" +:+ newline +:+ str_join (newline +:+ newline) (map (λ t, render_tool (tl_definition t)) tools)
  end.

(** [compile_system_prompt] *)
Definition compile_system_prompt (w : WorkflowPromptDefinition) (skills : list SkillPromptDefinition) (tools : list Tool) : string :=
  strip (str_join (newline +:+ newline) (List.filter str_truthy
    [wp_system w; render_workflow_prompt w; render_skill_prompts skills; render_tool_prompts tools])).

(** [_planning_view] *)
Definition planning_view (c : AgentContext) : dict pyval :=
  [("workspace_id", PStr (cx_workspace_id c)); ("project_id", ostr (cx_project_id c)); ("workflow_id", PStr (cx_workflow_id c));
   ("trigger", PDict [("event_type", PStr (envelope_event_type (cx_source_event c)));
                      ("event_id", PStr (envelope_event_id (cx_source_event c)))]);
   ("entities", PDict (cx_entities c)); ("entity_versions", versions_val (cx_entity_versions c));
   ("permissions", PDict (map (λ kv, (kv.1, PBool kv.2)) (cx_permissions c)));
   ("retrieved_documents", PList (map PDict (cx_retrieved_documents c)));
   ("previous_agent_outputs", PList (map PDict (cx_previous_agent_outputs c)));
   ("runtime_metadata", PDict (cx_runtime_metadata c))] ++
  match dget "_agent_replan" (ev_payload (base (source_event c))) with
  | PDict replan => [("replan_feedback", PDict replan)]
  | _ => []
  end.

(** [_render_user_prompt] *)
Definition render_user_prompt (w : WorkflowPromptDefinition) (c : AgentContext) (snapshot_ref : string)
    (retry_feedback : option string) : string :=
  "Goal: " +:+ wp_goal w +:+ newline +:+ "Workflow: " +:+ cx_workflow_id c +:+ newline +:+
  "Context snapshot: " +:+ snapshot_ref +:+ newline +:+ "Context: " +:+ json_unicode (PDict (planning_view c)) +:+
  (if ostr_truthy retry_feedback
   then newline +:+ newline +:+ "Planning retry feedback: " +:+ ostr_or retry_feedback EmptyString else EmptyString).

(** [_quality_review_feedback] *)
Definition quality_review_feedback (issues : list string) : string :=
  "A reviewer found these problems in your previous plan:" +:+ newline +:+
  str_join newline (imap (λ i issue, pretty (Z.of_nat (S i)) +:+ ". " +:+ issue) issues) +:+ newline +:+
  "Regenerate the plan fixing every problem above while keeping the rest of its content.".

(** ** Defects *)

(** What is wrong with one action, if anything. *)
Definition action_defect (a : PlannedAction) : option string :=
  if bool_decide (ac_tool_name a = "create_workitem_tree") then
    option_map (λ error, "The previous create_workitem_tree action was invalid: " +:+ error +:+
      " Put the complete work item breakdown into the action's work_items field: a non-empty array of objects, each with " +:+
      "a title, a description, and an optional children array of nested work items.")
      (validate_work_item_tree (coerce_work_item_tree_items (ac_input a)))
  else if bool_decide (ac_tool_name a = "update_workitems_bulk") then
    option_map (λ error, "The previous update_workitems_bulk action was invalid: " +:+ error +:+
      " Put every change into the action's work_item_updates field: a non-empty array of objects, each with the item_id " +:+
      "of an existing work item and only the fields that should change.")
      (validate_work_item_updates (coerce_work_item_updates (ac_input a)))
  else if bool_decide (ac_tool_name a = "add_sprint_work_items") && negb (truthy (dget "itemIds" (ac_input a)))
  then Some ("The previous add_sprint_work_items action listed no work items. Put the chosen existing work item ids into " +:+
             "the action's target_item_ids field.")
  else None.

(** [_plan_defect] *)
Definition plan_defect (p : AgentPlan) : option string :=
  match pl_actions p with
  | [] => Some EMPTY_PLAN_FEEDBACK
  | l => first_error action_defect l
  end.

(** ** The generation loop *)

Section agent.
Context `{Env} `{LanguageModel} (g : GeminiModelProvider).
Context (w : WorkflowPromptDefinition) (skills : list SkillPromptDefinition) (tools : list Tool) (model_tier : option string).

(** [_budget_spent] *)
Definition budget_spent (started_at : Z) : st Ext bool :=
  now ← monotonic; mret (PLANNING_TIME_BUDGET <? now - started_at).

(** [_generate_plan_with_pydantic_ai] *)
Definition ask_model (c : AgentContext) (snapshot_ref : string) (retry_feedback : option string) : st Ext AgentPlan :=
  lift_res (configure_environment g) ;;
  run_agent (pydantic_ai_model_ref g w model_tier) (compile_system_prompt w skills tools) PLANNING_MAX_OUTPUT_TOKENS
    (render_user_prompt w c snapshot_ref retry_feedback).

(** What the loop has at the start of an attempt: [plan] is the last plan that was
    generated, [feedback] what goes into the prompt. *)
Record loop_state := {
  lp_plan : option AgentPlan;
  lp_feedback : option string;
  lp_quality_review_used : bool
}.

(** How an attempt ends: with the plan that is returned, or with another attempt. *)
Definition attempt_outcome : Type := AgentPlan + loop_state.

(** The critic's part: a plan without defect. *)
Definition review_plan (c : AgentContext) (last : bool) (started_at generation : Z) (s : loop_state) (plan : AgentPlan) :
    st Ext attempt_outcome :=
  spent ← (if lp_quality_review_used s || last then mret true else budget_spent started_at);
  if negb spent && (generation <=? CRITIC_SKIP_GENERATION) then
    match plan_quality_issues plan (cx_entities c) with
    | [] => mret (inl plan)
    | issues => mret (inr {| lp_plan := Some plan; lp_feedback := Some (quality_review_feedback issues);
                             lp_quality_review_used := true |})
    end
  else mret (inl plan).

(** One attempt; [last] is [attempt >= PLAN_GENERATION_ATTEMPTS]. *)
Definition planning_attempt (c : AgentContext) (snapshot_ref : string) (started_at : Z) (last : bool) (s : loop_state) :
    st Ext attempt_outcome :=
  attempt_started_at ← monotonic;
  r ← try_catch (p ← ask_model c snapshot_ref (lp_feedback s); mret (Ok p)) (λ e, mret (Raise e));
  now ← monotonic;
  match r with
  | Raise e =>
      spent ← (if last then mret true else budget_spent started_at);
      if (spent : bool) then raise e else mret (inr s)
  | Ok generated =>
      plan ← materialize_typed_action_inputs generated;
      match plan_defect plan with
      | Some defect =>
          spent ← budget_spent started_at;
          if (spent : bool) then mret (inl plan)
          else mret (inr {| lp_plan := Some plan; lp_feedback := Some defect;
                            lp_quality_review_used := lp_quality_review_used s |})
      | None => review_plan c last started_at (now - attempt_started_at) s plan
      end
  end.

(** [n] attempts left. *)
Fixpoint planning_loop (n : nat) (c : AgentContext) (snapshot_ref : string) (started_at : Z) (s : loop_state) :
    st Ext (option AgentPlan) :=
  match n with
  | O => mret (lp_plan s)
  | S n' =>
      outcome ← planning_attempt c snapshot_ref started_at (bool_decide (n' = 0%nat)) s;
      match outcome with
      | inl plan => mret (Some plan)
      | inr s' => planning_loop n' c snapshot_ref started_at s'
      end
  end.

(** [generate_plan]; the loop never ends without a plan ([generate_plan_spec]). *)
Definition agent_generate_plan (c : AgentContext) (snapshot_ref : string) (approval_policy : ActionApprovalPolicy) :
    st Ext AgentPlan :=
  started_at ← monotonic;
  plan ← planning_loop PLAN_GENERATION_ATTEMPTS c snapshot_ref started_at
    {| lp_plan := None; lp_feedback := None; lp_quality_review_used := false |};
  match plan with
  | Some plan => mret plan
  | None => raise out_of_fuel
  end.
End agent.

(** [PydanticAIAgentFactory.create_agent(...).generate_plan(...)] *)
#[export] Instance pydantic_ai_agent_factory `{Env} `{LanguageModel} (g : GeminiModelProvider) : AgentFactory := {|
  generate_plan w skills tools tier c snapshot_ref policy := agent_generate_plan g w skills tools tier c snapshot_ref policy
|}.

(** ** Lemmas *)

(** [calls] counts the calls of the model, whatever they do. *)
Class CountedModel `{Env} `{LanguageModel} (calls : Ext → nat) : Prop := {
  counted_run r i m p x : calls (run_agent r i m p x).2 = S (calls x);
  counted_monotonic x : calls (monotonic x).2 = calls x;
  counted_utc_now x : calls (utc_now x).2 = calls x
}.

Section counted.
Context `{Env} `{LanguageModel} (calls : Ext → nat) `{!CountedModel calls} (g : GeminiModelProvider).
Context (w : WorkflowPromptDefinition) (skills : list SkillPromptDefinition) (tools : list Tool) (model_tier : option string).

Definition same_calls (x y : Ext) : Prop := calls y = calls x.
#[local] Instance same_calls_preorder : PreOrder same_calls.
Proof. split; [by intros x|]. intros x y z. unfold same_calls. congruence. Qed.

Lemma materialize_calls p : respects same_calls (materialize_typed_action_inputs p).
Proof.
  unfold materialize_typed_action_inputs. generalize (pl_actions p) as l. intros l. revert p.
  induction l as [|a l IH]; intros p; cbn; [apply respects_ret; apply _|]. destruct (materialized_input a); [|apply IH].
  apply respects_bind; [apply _| |intros now; apply IH]. intros x. apply counted_utc_now.
Qed.

Lemma materialize_returns p x : ∃ p' x', materialize_typed_action_inputs p x = (Ok p', x').
Proof.
  unfold materialize_typed_action_inputs. generalize (pl_actions p) as l. intros l. revert p x.
  induction l as [|a l IH]; intros p x; cbn; [by exists p, x|]. destruct (materialized_input a); apply IH.
Qed.

(** The last reading of the monotonic clock before [x] is past the budget. *)
Definition overtime (started_at : Z) (x : Ext) : Prop :=
  PLANNING_TIME_BUDGET < monotonic_at (Nat.pred (x_monotonic x)) - started_at.

Lemma budget_spent_run started_at x :
  ∃ b x', budget_spent started_at x = (Ok b, x') ∧ calls x' = calls x ∧ (b = true → overtime started_at x').
Proof.
  eexists _, _. split; [reflexivity|]. split; [apply counted_monotonic|]. by intros Hb%Z.ltb_lt.
Qed.

(** One attempt: one call; it ends with a plan that has no defect, or because the
    time or the attempts are used up, or asks for another attempt. *)
Definition attempt_post (x : Ext) (started_at : Z) (last : bool) (r : res attempt_outcome) (x' : Ext) : Prop :=
  calls x' = S (calls x) ∧
  match r with
  | Ok (inl plan) => plan_defect plan = None ∨ overtime started_at x'
  | Ok (inr s') => last = false ∨ lp_plan s' ≠ None
  | Raise _ => last = true ∨ overtime started_at x'
  end.

Lemma wp_monotonic (Q : res Z → Ext → Prop) x :
  Q (Ok (monotonic_at (x_monotonic x))) (monotonic x).2 → wp monotonic Q x.
Proof. done. Qed.

(** A clock reading that is skipped when [b] already decides. *)
Lemma wp_budget (b : bool) started_at (Q : res bool → Ext → Prop) x :
  (b = true → Q (Ok true) x) →
  (∀ r y, b = false → calls y = calls x → (r = true → overtime started_at y) → Q (Ok r) y) →
  wp (if b then mret true else budget_spent started_at) Q x.
Proof.
  intros Ht Hf. destruct b; [by apply wp_ret, Ht|].
  destruct (budget_spent_run started_at x) as (r & y & E & Hc & Ho). apply (wp_intro _ _ _ _ _ E). by apply Hf.
Qed.

Lemma review_wp c last started_at generation s plan x x0 :
  calls x = S (calls x0) → plan_defect plan = None →
  wp (review_plan c last started_at generation s plan) (attempt_post x0 started_at last) x.
Proof.
  intros Hc Hd. unfold review_plan. apply wp_bind, wp_budget.
  - intros _. cbn. apply wp_ret. split; [done|by left].
  - intros r y _ Hy _. destruct (negb r && _); [|apply wp_ret; split; [congruence|by left]].
    destruct (plan_quality_issues plan (cx_entities c)); apply wp_ret; (split; [congruence|]); [by left|by right].
Qed.

Lemma attempt_wp c ref started_at last s x :
  ostr_truthy (gm_api_key g) || gm_env_key g = true →
  wp (planning_attempt g w skills tools model_tier c ref started_at last s) (attempt_post x started_at last) x.
Proof.
  intros Hconf. unfold planning_attempt. apply wp_bind, wp_monotonic. set (x1 := (monotonic x).2).
  assert (H1 : calls x1 = calls x) by apply counted_monotonic.
  assert (Hask : ask_model g w skills tools model_tier c ref (lp_feedback s) x1 =
    run_agent (pydantic_ai_model_ref g w model_tier) (compile_system_prompt w skills tools) PLANNING_MAX_OUTPUT_TOKENS
      (render_user_prompt w c ref (lp_feedback s)) x1).
  { unfold ask_model, configure_environment. by rw Hconf. }
  pose proof (counted_run (pydantic_ai_model_ref g w model_tier) (compile_system_prompt w skills tools) PLANNING_MAX_OUTPUT_TOKENS
    (render_user_prompt w c ref (lp_feedback s)) x1) as H2. rewrite -Hask in H2.
  apply wp_bind, wp_try, wp_bind. unfold wp at 1.
  destruct (ask_model g w skills tools model_tier c ref (lp_feedback s) x1) as [[generated|e] x2]; cbn [fst snd] in *.
  - apply wp_ret. apply wp_bind, wp_monotonic. set (x3 := (monotonic x2).2).
    assert (H3 : calls x3 = S (calls x)) by (unfold x3; rw counted_monotonic; congruence). clearbody x3.
    destruct (materialize_returns generated x3) as (plan & x4 & Em). apply wp_bind. apply (wp_intro _ _ _ _ _ Em).
    assert (H4 : calls x4 = S (calls x)).
    { pose proof (materialize_calls generated x3) as Hm. rw Em in Hm. unfold same_calls in Hm. cbn in Hm. congruence. }
    destruct (plan_defect plan) as [defect|] eqn:Ed; [|by apply review_wp].
    apply wp_bind, (wp_budget false); [done|]. intros r y _ Hy Ho. destruct r; apply wp_ret; (split; [congruence|]).
    + right. by apply Ho.
    + by right.
  - apply wp_ret. apply wp_bind, wp_monotonic. set (x3 := (monotonic x2).2).
    assert (H3 : calls x3 = S (calls x)) by (unfold x3; rw counted_monotonic; congruence). clearbody x3.
    apply wp_bind, wp_budget.
    + intros ->. apply wp_raise. split; [done|by left].
    + intros r y -> Hy Ho. destruct r; [apply wp_raise; split; [congruence|right; by apply Ho]|].
      apply wp_ret. split; [congruence|by left].
Qed.

Lemma loop_wp n c ref started_at s x :
  ostr_truthy (gm_api_key g) || gm_env_key g = true → n ≠ 0%nat →
  wp (planning_loop g w skills tools model_tier n c ref started_at s)
    (λ r x', (calls x < calls x' ≤ calls x + n)%nat ∧
       match r with
       | Ok (Some plan) => plan_defect plan = None ∨ calls x' = (calls x + n)%nat ∨ overtime started_at x'
       | Ok None => False
       | Raise _ => calls x' = (calls x + n)%nat ∨ overtime started_at x'
       end) x.
Proof.
  intros Hconf. revert s x. induction n as [|n IH]; intros s x Hn; [done|]. cbn [planning_loop].
  apply wp_bind. eapply wp_mono; [by apply attempt_wp|]. intros r x1 [Hc Hr]. destruct r as [[plan|s']|e].
  - apply wp_ret. split; [lia|]. destruct Hr as [Hr|Hr]; [by left|by right; right].
  - destruct n as [|n].
    + cbn [planning_loop]. apply wp_ret. split; [lia|]. destruct (lp_plan s') as [plan|] eqn:Ep.
      * right. left. lia.
      * destruct Hr as [Hr|Hr]; [by rw bool_decide_eq_true_2 in Hr|done].
    + eapply wp_mono; [by apply IH|]. cbn beta. intros r2 x2 [Hb H2]. split; [lia|].
      destruct r2 as [[plan|]|e]; [|done|].
      * destruct H2 as [?|[?|?]]; [by left|right; left; lia|by right; right].
      * destruct H2 as [?|?]; [left; lia|by right].
  - split; [lia|]. destruct Hr as [Hr|Hr]; [|by right]. apply bool_decide_eq_true in Hr. left. lia.
Qed.
End counted.

(** ** Properties *)

(** C32: planning is bounded and honest about defects.  With an API key, it calls the
    model at least once and at most three times, whatever the model does; a plan it
    returns has no defect that would fail at execution time - it has an action, its
    trees and its bulk updates validate - unless all three attempts were used or the
    last reading of the clock that the run made is past the time budget, counted from
    its first reading; and it raises only in those cases. *)
Theorem generate_plan_spec `{Env} `{LanguageModel} (calls : Ext → nat) `{!CountedModel calls} g w skills tools tier c ref policy x :
  ostr_truthy (gm_api_key g) || gm_env_key g = true →
  let '(r, x') := agent_generate_plan g w skills tools tier c ref policy x in
  let gave_up := calls x' = (calls x + 3)%nat ∨ overtime (monotonic_at (x_monotonic x)) x' in
  (calls x < calls x' ≤ calls x + 3)%nat ∧
  match r with
  | Ok plan => gave_up ∨ plan_defect plan = None
  | Raise _ => gave_up
  end.
Proof.
  intros Hconf.
  assert (Hw : wp (agent_generate_plan g w skills tools tier c ref policy)
    (λ r x', (calls x < calls x' ≤ calls x + 3)%nat ∧
      let gave_up := calls x' = (calls x + 3)%nat ∨ overtime (monotonic_at (x_monotonic x)) x' in
      match r with Ok plan => gave_up ∨ plan_defect plan = None | Raise _ => gave_up end) x).
  { unfold agent_generate_plan. apply wp_bind, wp_monotonic. set (x1 := (monotonic x).2).
    assert (H1 : calls x1 = calls x) by apply counted_monotonic. apply wp_bind.
    eapply wp_mono; [by apply (loop_wp calls)|]. cbn beta. rw H1. intros r x2 [Hb Hr].
    destruct r as [[plan|]|e]; [|done|].
    - apply wp_ret. split; [exact Hb|]. destruct Hr as [?|[?|?]]; [by right|by left; left|by left; right].
    - split; [exact Hb|exact Hr]. }
  unfold wp in Hw. by destruct (agent_generate_plan _ _ _ _ _ _ _ _ x).
Qed.

(** a failed revision loses an acceptable plan.  When the first plan has no
    defect but the critic finds issues, and the model then fails on the two
    revisions, planning raises the model's error, although the plan it had could
    have been executed - the comment in the loop says that imperfect output is
    accepted rather than failing the run. *)
Theorem failed_revision_loses_plan `{Env} `{LanguageModel} g w skills tools tier c ref policy x generated e :
  (∀ i j, monotonic_at i - monotonic_at j ≤ CRITIC_SKIP_GENERATION) →
  (∀ y, ∃ y', ask_model g w skills tools tier c ref None y = (Ok generated, y')) →
  (∀ y, ∃ plan y', materialize_typed_action_inputs generated y = (Ok plan, y') ∧
     plan_defect plan = None ∧ plan_quality_issues plan (cx_entities c) ≠ []) →
  (∀ issues y, ∃ y', ask_model g w skills tools tier c ref (Some (quality_review_feedback issues)) y = (Raise e, y')) →
  (agent_generate_plan g w skills tools tier c ref policy x).1 = Raise e.
Proof.
  intros Hfast Hfirst Hmat Hfail.
  assert (Hbudget : ∀ i y, ∃ y', budget_spent (monotonic_at i) y = (Ok false, y')).
  { intros i y. eexists. unfold budget_spent, mbind, st_bind. cbn. rw (proj2 (Z.ltb_ge _ _)); [|reflexivity].
    specialize (Hfast (x_monotonic y) i). unfold CRITIC_SKIP_GENERATION in Hfast. unfold PLANNING_TIME_BUDGET. lia. }
  unfold agent_generate_plan. rw (bind_step _ _ x _ (monotonic x).2 eq_refl).
  set (start := monotonic_at (x_monotonic x)). generalize (monotonic x).2. intros x1.
  assert (H1 : ∃ issues plan y, planning_attempt g w skills tools tier c ref start false
      {| lp_plan := None; lp_feedback := None; lp_quality_review_used := false |} x1
    = (Ok (inr {| lp_plan := Some plan; lp_feedback := Some (quality_review_feedback issues); lp_quality_review_used := true |}), y)).
  { unfold planning_attempt. rw (bind_step _ _ x1 _ (monotonic x1).2 eq_refl). cbn [lp_feedback].
    destruct (Hfirst (monotonic x1).2) as [y1 E1].
    assert (Et : try_catch (p ← ask_model g w skills tools tier c ref None; mret (Ok p)) (λ e, mret (Raise e)) (monotonic x1).2
      = (Ok (Ok generated), y1)) by (unfold try_catch; by rw (bind_step _ _ _ _ _ E1)).
    rw (bind_step _ _ _ _ _ Et) (bind_step _ _ y1 _ (monotonic y1).2 eq_refl).
    destruct (Hmat (monotonic y1).2) as (plan & y2 & Em & Hd & Hq). rw (bind_step _ _ _ _ _ Em) Hd.
    unfold review_plan. cbn [lp_quality_review_used orb]. destruct (Hbudget (x_monotonic x) y2) as [y3 Eb].
    rw (bind_step _ _ _ _ _ Eb). rw (proj2 (Z.leb_le _ _) (Hfast _ _)). cbn [negb andb].
    destruct (plan_quality_issues plan (cx_entities c)) as [|issue issues]; [done|]. by eexists _, _, _. }
  destruct H1 as (issues & plan & x2 & E1).
  assert (Hrevise : ∀ last s y, lp_feedback s = Some (quality_review_feedback issues) → ∃ y', planning_attempt g w skills tools tier c ref start last s y
    = (if last then Raise e else Ok (inr s), y')).
  { intros last s y Hs. unfold planning_attempt. rw (bind_step _ _ y _ (monotonic y).2 eq_refl). rw Hs.
    destruct (Hfail issues (monotonic y).2) as [y1 Ef].
    assert (Et : try_catch (p ← ask_model g w skills tools tier c ref (Some (quality_review_feedback issues)); mret (Ok p)) (λ e, mret (Raise e)) (monotonic y).2
      = (Ok (Raise e), y1)) by (unfold try_catch; by rw (bind_raise _ _ _ _ _ Ef)).
    rw (bind_step _ _ _ _ _ Et) (bind_step _ _ y1 _ (monotonic y1).2 eq_refl).
    destruct last; [by eexists|]. destruct (Hbudget (x_monotonic x) (monotonic y1).2) as [y2 Eb].
    rw (bind_step _ _ _ _ _ Eb). by eexists. }
  unfold PLAN_GENERATION_ATTEMPTS. set (s1 := {| lp_plan := Some plan; lp_feedback := Some (quality_review_feedback issues); lp_quality_review_used := true |}) in *.
  destruct (Hrevise false s1 x2 eq_refl) as [x3 E2]. destruct (Hrevise true s1 x3 eq_refl) as [x4 E3].
  assert (El : planning_loop g w skills tools tier 3 c ref start
    {| lp_plan := None; lp_feedback := None; lp_quality_review_used := false |} x1 = (Raise e, x4)).
  { cbn [planning_loop]. rw (bind_step _ _ _ _ _ E1) (bind_step _ _ _ _ _ E2). exact (bind_raise _ _ _ _ _ E3). }
  by rw (bind_raise _ _ _ _ _ El).
Qed.

(** ** Concrete models *)

#[local] Existing Instance env_ok.

(** A model that sends a request per call and proposes a plan with one thin task,
    unless it is asked for a revision. *)
Definition thin_plan : AgentPlan := {|
  pl_plan_id := "run-1"; pl_parent_run_id := None; pl_node_id := None; pl_source_event_id := "e";
  pl_workspace_id := "ws"; pl_project_id := None; pl_goal := "goal"; pl_prompt_id := "p";
  pl_prompt_version := "1"; pl_skill_ids := []; pl_tool_names := [];
  pl_actions := [tree_action]; pl_status := PPlanned; pl_context_snapshot_ref := "ctx"; pl_created_at := 0; pl_updated_at := 0 |}.

Definition stubborn_model : LanguageModel := {|
  run_agent ref i m prompt :=
    urlopen {| rq_method := "POST"; rq_url := ref; rq_headers := []; rq_body := Some (PStr prompt) |} ;;
    if str_contains "Planning retry feedback: " prompt then raise (Exn RuntimeError "truncated output") else mret thin_plan
|}.
#[local] Existing Instance stubborn_model.

Lemma stubborn_counted : CountedModel (λ x, length (x_requests x)).
Proof.
  constructor; [|done|done]. intros r i m p x. cbn. unfold mbind, st_bind. cbn.
  by destruct (str_contains _ p).
Qed.

(** The clock of this environment stands still. *)
Definition env_still : Env := {|
  uuid4_at := uuid4_at; clock_at := clock_at; monotonic_at _ := 0; http_reply := http_reply; validation_text := validation_text |}.

Definition sample_provider : GeminiModelProvider :=
  {| gm_api_key := Some "key"; gm_default_model := "pro"; gm_flash_model := "flash"; gm_env_key := false |}.

(** The clock is never past the budget here, so a model that fails on every revision
    is called three times before planning raises. *)
Lemma generate_plan_spec_witness :
  let '(r, x') := agent_generate_plan sample_provider sample_prompt [] [] None sample_members "ctx" (approval_policy_of []) ext0 in
  is_Ok r = false ∧ length (x_requests x') = 3%nat.
Proof.
  pose proof (@generate_plan_spec env_ok stubborn_model (λ x, length (x_requests x)) stubborn_counted sample_provider sample_prompt
    [] [] None sample_members "ctx" (approval_policy_of []) ext0 eq_refl) as H.
  assert (Hr : (is_Ok (agent_generate_plan sample_provider sample_prompt [] [] None sample_members "ctx" (approval_policy_of []) ext0).1,
    x_monotonic (agent_generate_plan sample_provider sample_prompt [] [] None sample_members "ctx" (approval_policy_of []) ext0).2)
    = (false, 9%nat)) by (vm_compute; reflexivity).
  destruct (agent_generate_plan _ _ _ _ _ _ _ _ _) as [[plan|e] x']; cbn in Hr; [done|].
  injection Hr as Hm. destruct H as [_ [H|H]]; [by split|]. unfold overtime in H. rw Hm in H. vm_compute in H. done.
Defined.

Lemma failed_revision_loses_plan_witness :
  (@agent_generate_plan env_still stubborn_model sample_provider sample_prompt [] [] None sample_members "ctx"
     (approval_policy_of []) ext0).1 = Raise (Exn RuntimeError "truncated output").
Proof.
  apply (@failed_revision_loses_plan env_still stubborn_model sample_provider sample_prompt [] [] None sample_members "ctx"
    (approval_policy_of []) ext0 thin_plan).
  - intros i j. cbn. unfold CRITIC_SKIP_GENERATION. lia.
  - intros y. eexists. vm_compute. reflexivity.
  - intros y. eexists _, _. split; [reflexivity|]. split; vm_compute; [reflexivity|discriminate].
  - intros issues y. eexists. unfold ask_model. cbn [configure_environment sample_provider gm_api_key ostr_truthy str_truthy orb].
    assert (Hc : str_contains "Planning retry feedback: " (render_user_prompt sample_prompt sample_members "ctx"
      (Some (quality_review_feedback issues))) = true).
    { unfold render_user_prompt, ostr_truthy, ostr_or. cbn [str_truthy quality_review_feedback].
      repeat first [apply str_contains_head|apply str_contains_skip]. }
    unfold mbind, st_bind. cbn -[str_contains render_user_prompt quality_review_feedback]. rewrite Hc. reflexivity.
Defined.
