(* ===== verification/Stores.v ===== *)
(** * State stores ([src/infrastructure/state/base.py],
    [memory_state_store.py], [logging_state_store.py])

    The interface [StateStore] the handlers are written against, the in-memory
    store that implements it and is its specification, and the logging proxy.
    Operations run on the store and the environment's state. *)

From S2P Require Import Prelude PyStr PyVal Events Plans SubTasks Policies Env Definitions Records.

Class StateStore (S : Type) := {
  save_plan : AgentPlan → st (S * Ext) unit;
  get_plan : string → string → st (S * Ext) (option AgentPlan);
  save_task_graph : TaskGraph → st (S * Ext) unit;
  get_task_graph : string → string → st (S * Ext) (option TaskGraph);
  save_sub_agent_result : string → string → SubAgentResult → st (S * Ext) unit;
  get_sub_agent_results : string → string → st (S * Ext) (list SubAgentResult);
  claim_ready_nodes : string → string → st (S * Ext) (list SubTask);
  advance_task_graph : string → string → string → SubTaskStatus → st (S * Ext) (option TaskGraphAdvance);
  update_plan : AgentPlan → st (S * Ext) unit;
  save_context_snapshot : ContextSnapshot → st (S * Ext) unit;
  get_context_snapshot : string → string → st (S * Ext) (option ContextSnapshot);
  save_action_result : ToolResult → st (S * Ext) unit;
  get_action_result : string → string → st (S * Ext) (option ToolResult);
  append_trace_event : TraceEvent → st (S * Ext) unit;
  mark_action_completed : string → string → string → st (S * Ext) unit;
  check_idempotency_key : string → st (S * Ext) bool;
  record_idempotency_key : string → st (S * Ext) unit;
  store_traces : st (S * Ext) (list TraceEvent)
}.

(** ** The in-memory store *)

Record MemoryStateStore := {
  ms_plans : gmap (string * string) AgentPlan;
  ms_task_graphs : gmap (string * string) TaskGraph;
  ms_sub_agent_results : gmap (string * string) (dict SubAgentResult);
  ms_context_snapshots : gmap (string * string) ContextSnapshot;
  ms_action_results : gmap (string * string) ToolResult;
  ms_traces : list TraceEvent;
  ms_idempotency_keys : gset string
}.

Definition memory_store_empty : MemoryStateStore := {|
  ms_plans := ∅; ms_task_graphs := ∅; ms_sub_agent_results := ∅; ms_context_snapshots := ∅;
  ms_action_results := ∅; ms_traces := []; ms_idempotency_keys := ∅ |}.

Definition mem_save_plan (p : AgentPlan) (m : MemoryStateStore) : MemoryStateStore := {|
  ms_plans := <[(pl_workspace_id p, pl_plan_id p) := p]> (ms_plans m);
  ms_task_graphs := ms_task_graphs m; ms_sub_agent_results := ms_sub_agent_results m;
  ms_context_snapshots := ms_context_snapshots m; ms_action_results := ms_action_results m;
  ms_traces := ms_traces m; ms_idempotency_keys := ms_idempotency_keys m |}.

Definition mem_save_task_graph (g : TaskGraph) (m : MemoryStateStore) : MemoryStateStore := {|
  ms_plans := ms_plans m;
  ms_task_graphs := <[(tg_workspace_id g, tg_plan_id g) := g]> (ms_task_graphs m);
  ms_sub_agent_results := ms_sub_agent_results m;
  ms_context_snapshots := ms_context_snapshots m; ms_action_results := ms_action_results m;
  ms_traces := ms_traces m; ms_idempotency_keys := ms_idempotency_keys m |}.

Definition mem_sub_results (w r : string) (m : MemoryStateStore) : dict SubAgentResult :=
  match ms_sub_agent_results m !! (w, r) with Some d => d | None => [] end.

Definition mem_save_sub_result (w r : string) (x : SubAgentResult) (m : MemoryStateStore) : MemoryStateStore := {|
  ms_plans := ms_plans m; ms_task_graphs := ms_task_graphs m;
  ms_sub_agent_results :=
    <[(w, r) := dict_set (sr_node_id x) x (mem_sub_results w r m)]> (ms_sub_agent_results m);
  ms_context_snapshots := ms_context_snapshots m; ms_action_results := ms_action_results m;
  ms_traces := ms_traces m; ms_idempotency_keys := ms_idempotency_keys m |}.

Definition mem_save_snapshot (s : ContextSnapshot) (m : MemoryStateStore) : MemoryStateStore := {|
  ms_plans := ms_plans m; ms_task_graphs := ms_task_graphs m;
  ms_sub_agent_results := ms_sub_agent_results m;
  ms_context_snapshots := <[(sn_workspace_id s, sn_snapshot_id s) := s]> (ms_context_snapshots m);
  ms_action_results := ms_action_results m;
  ms_traces := ms_traces m; ms_idempotency_keys := ms_idempotency_keys m |}.

Definition mem_save_result (r : ToolResult) (m : MemoryStateStore) : MemoryStateStore := {|
  ms_plans := ms_plans m; ms_task_graphs := ms_task_graphs m;
  ms_sub_agent_results := ms_sub_agent_results m; ms_context_snapshots := ms_context_snapshots m;
  ms_action_results := <[(tr_plan_id r, tr_action_id r) := r]> (ms_action_results m);
  ms_traces := ms_traces m; ms_idempotency_keys := ms_idempotency_keys m |}.

Definition mem_append_trace (t : TraceEvent) (m : MemoryStateStore) : MemoryStateStore := {|
  ms_plans := ms_plans m; ms_task_graphs := ms_task_graphs m;
  ms_sub_agent_results := ms_sub_agent_results m; ms_context_snapshots := ms_context_snapshots m;
  ms_action_results := ms_action_results m;
  ms_traces := ms_traces m ++ [t]; ms_idempotency_keys := ms_idempotency_keys m |}.

Definition mem_record_key (k : string) (m : MemoryStateStore) : MemoryStateStore := {|
  ms_plans := ms_plans m; ms_task_graphs := ms_task_graphs m;
  ms_sub_agent_results := ms_sub_agent_results m; ms_context_snapshots := ms_context_snapshots m;
  ms_action_results := ms_action_results m;
  ms_traces := ms_traces m; ms_idempotency_keys := {[k]} ∪ ms_idempotency_keys m |}.

(** [claim_ready_nodes] and [advance_task_graph] read, advance and save. *)
Definition mem_claim (w r : string) (m : MemoryStateStore) : list SubTask * MemoryStateStore :=
  match ms_task_graphs m !! (w, r) with
  | None => ([], m)
  | Some g => let '(g', claimed) := claim_ready g in (claimed, mem_save_task_graph g' m)
  end.

Definition mem_advance (w r i : string) (s : SubTaskStatus) (m : MemoryStateStore) :
    option TaskGraphAdvance * MemoryStateStore :=
  match ms_task_graphs m !! (w, r) with
  | None => (None, m)
  | Some g => let a := plan_advance i s g in (Some a, mem_save_task_graph (av_graph a) m)
  end.

(** A change of the store, a question to it, and both. *)
Definition on_store {S} (f : S → S) : st (S * Ext) unit := λ x, (Ok tt, (f x.1, x.2)).
Definition ask_store {S A} (f : S → A) : st (S * Ext) A := λ x, (Ok (f x.1), x).
Definition run_store {S A} (f : S → A * S) : st (S * Ext) A :=
  λ x, let '(a, s) := f x.1 in (Ok a, (s, x.2)).
Definition store_ext {S} : lens (S * Ext) Ext := Lens snd (λ e x, (x.1, e)).

(** [mark_action_completed]: two clock readings, one for the action, one for the plan. *)
Definition mem_mark_completed `{Env} (w p i : string) : st (MemoryStateStore * Ext) unit :=
  plan ← ask_store (λ m, ms_plans m !! (w, p));
  match plan with
  | None => mret tt
  | Some plan =>
      match get_action plan i with
      | None => mret tt
      | Some action =>
          now ← zoom store_ext utc_now;
          now' ← zoom store_ext utc_now;
          on_store (mem_save_plan (replace_action now' (with_status now ACompleted action) plan))
      end
  end.

#[export] Instance memory_state_store `{Env} : StateStore MemoryStateStore := {|
  save_plan p := on_store (mem_save_plan p);
  get_plan w p := ask_store (λ m, ms_plans m !! (w, p));
  save_task_graph g := on_store (mem_save_task_graph g);
  get_task_graph w p := ask_store (λ m, ms_task_graphs m !! (w, p));
  save_sub_agent_result w r x := on_store (mem_save_sub_result w r x);
  get_sub_agent_results w r := ask_store (λ m, dict_values (mem_sub_results w r m));
  claim_ready_nodes w r := run_store (mem_claim w r);
  advance_task_graph w r i s := run_store (mem_advance w r i s);
  update_plan p := on_store (mem_save_plan p);
  save_context_snapshot s := on_store (mem_save_snapshot s);
  get_context_snapshot w r := ask_store (λ m, ms_context_snapshots m !! (w, r));
  save_action_result r := on_store (mem_save_result r);
  get_action_result p a := ask_store (λ m, ms_action_results m !! (p, a));
  append_trace_event t := on_store (mem_append_trace t);
  mark_action_completed := mem_mark_completed;
  check_idempotency_key k := ask_store (λ m, bool_decide (k ∈ ms_idempotency_keys m));
  record_idempotency_key k := on_store (mem_record_key k);
  store_traces := ask_store ms_traces
|}.

(** ** The logging proxy *)

Definition FAILURE_EVENTS : list string :=
  ["event.failed"; "plan.failed"; "plan.empty"; "action.failed"; "action.execution_error";
   "action.validation_failed"; "action.stale_context"; "orchestration.failed"; "orchestration.blocked";
   "recursion.max_depth"].

Definition DETAIL_KEYS : list string :=
  ["tool_name"; "status"; "plan_status"; "node_id"; "skill_ids"; "attempt"; "reason"; "error"; "error_type"].

(** The wrapped store and the lines logged so far. *)
Record LoggingStateStore (S : Type) := { ls_inner : S; ls_log : list (log_level * dict pyval) }.
Arguments Build_LoggingStateStore {S}.
Arguments ls_inner {S}.
Arguments ls_log {S}.

(** [_log] *)
Definition log_record (t : TraceEvent) : log_level * dict pyval :=
  let level := if str_in (te_event_name t) FAILURE_EVENTS then LogError else LogInfo in
  let record :=
    [("log", PStr "trace"); ("event", PStr (te_event_name t)); ("workspace_id", PStr (te_workspace_id t));
     ("project_id", ostr (te_project_id t)); ("plan_id", ostr (te_plan_id t));
     ("action_id", ostr (te_action_id t)); ("message", PStr (te_message t))] in
  let detail := omap (λ k, option_map (pair k) (dict_get k (te_data t))) DETAIL_KEYS in
  (level, match detail with [] => record | _ => dict_set "detail" (PDict detail) record end).

Definition logged_inner {S} : lens (LoggingStateStore S * Ext) (S * Ext) :=
  Lens (λ x, (ls_inner x.1, x.2))
       (λ t x, ({| ls_inner := t.1; ls_log := ls_log x.1 |}, t.2)).

Definition log_line {S} (l : log_level * dict pyval) : st (LoggingStateStore S * Ext) unit :=
  on_store (λ s, {| ls_inner := ls_inner s; ls_log := ls_log s ++ [l] |}).

#[export] Instance logging_state_store {S : Type} `{StateStore S} : StateStore (LoggingStateStore S) := {|
  save_plan p := zoom logged_inner (save_plan p);
  get_plan w p := zoom logged_inner (get_plan w p);
  save_task_graph g := zoom logged_inner (save_task_graph g);
  get_task_graph w p := zoom logged_inner (get_task_graph w p);
  save_sub_agent_result w r x := zoom logged_inner (save_sub_agent_result w r x);
  get_sub_agent_results w r := zoom logged_inner (get_sub_agent_results w r);
  claim_ready_nodes w r := zoom logged_inner (claim_ready_nodes w r);
  advance_task_graph w r i s := zoom logged_inner (advance_task_graph w r i s);
  update_plan p := zoom logged_inner (update_plan p);
  save_context_snapshot s := zoom logged_inner (save_context_snapshot s);
  get_context_snapshot w r := zoom logged_inner (get_context_snapshot w r);
  save_action_result r := zoom logged_inner (save_action_result r);
  get_action_result p a := zoom logged_inner (get_action_result p a);
  append_trace_event t := log_line (log_record t) ;; zoom logged_inner (append_trace_event t);
  mark_action_completed w p a := zoom logged_inner (mark_action_completed w p a);
  check_idempotency_key k := zoom logged_inner (check_idempotency_key k);
  record_idempotency_key k := zoom logged_inner (record_idempotency_key k);
  store_traces := zoom logged_inner store_traces
|}.

(** ** What two stores promise to a client that is given one or the other

    [R] relates the states of two stores; each operation must return the same
    and keep the states related.  A client written against [StateStore] then
    behaves the same with either ([sim]). *)

Definition with_ext {S1 S2} (R : S1 → S2 → Prop) (x1 : S1 * Ext) (x2 : S2 * Ext) : Prop :=
  R x1.1 x2.1 ∧ x1.2 = x2.2.

Class StoreSim {S1 S2} (R : S1 → S2 → Prop) (H1 : StateStore S1) (H2 : StateStore S2) : Prop := {
  sim_save_plan p : sim (with_ext R) (save_plan (S:=S1) p) (save_plan (S:=S2) p);
  sim_get_plan w p : sim (with_ext R) (get_plan (S:=S1) w p) (get_plan (S:=S2) w p);
  sim_save_task_graph g : sim (with_ext R) (save_task_graph (S:=S1) g) (save_task_graph (S:=S2) g);
  sim_get_task_graph w p : sim (with_ext R) (get_task_graph (S:=S1) w p) (get_task_graph (S:=S2) w p);
  sim_save_sub w r x : sim (with_ext R) (save_sub_agent_result (S:=S1) w r x) (save_sub_agent_result (S:=S2) w r x);
  sim_get_sub w r : sim (with_ext R) (get_sub_agent_results (S:=S1) w r) (get_sub_agent_results (S:=S2) w r);
  sim_claim w r : sim (with_ext R) (claim_ready_nodes (S:=S1) w r) (claim_ready_nodes (S:=S2) w r);
  sim_advance w r i s : sim (with_ext R) (advance_task_graph (S:=S1) w r i s) (advance_task_graph (S:=S2) w r i s);
  sim_update_plan p : sim (with_ext R) (update_plan (S:=S1) p) (update_plan (S:=S2) p);
  sim_save_snapshot s : sim (with_ext R) (save_context_snapshot (S:=S1) s) (save_context_snapshot (S:=S2) s);
  sim_get_snapshot w r : sim (with_ext R) (get_context_snapshot (S:=S1) w r) (get_context_snapshot (S:=S2) w r);
  sim_save_result r : sim (with_ext R) (save_action_result (S:=S1) r) (save_action_result (S:=S2) r);
  sim_get_result p a : sim (with_ext R) (get_action_result (S:=S1) p a) (get_action_result (S:=S2) p a);
  sim_append_trace t : sim (with_ext R) (append_trace_event (S:=S1) t) (append_trace_event (S:=S2) t);
  sim_mark w p a : sim (with_ext R) (mark_action_completed (S:=S1) w p a) (mark_action_completed (S:=S2) w p a);
  sim_check k : sim (with_ext R) (check_idempotency_key (S:=S1) k) (check_idempotency_key (S:=S2) k);
  sim_record k : sim (with_ext R) (record_idempotency_key (S:=S1) k) (record_idempotency_key (S:=S2) k);
  sim_traces : sim (with_ext R) (store_traces (S:=S1)) (store_traces (S:=S2))
}.

#[export] Hint Resolve sim_save_plan sim_get_plan sim_save_task_graph sim_get_task_graph sim_save_sub
  sim_get_sub sim_claim sim_advance sim_update_plan sim_save_snapshot sim_get_snapshot sim_save_result
  sim_get_result sim_append_trace sim_mark sim_check sim_record sim_traces : sim.

(** ** Lemmas *)

(** The proxy around a store is related to the store it wraps. *)
Definition wraps {S} (l : LoggingStateStore S) (s : S) : Prop := ls_inner l = s.

Lemma zoom_logged_sim {S A} (m : st (S * Ext) A) : sim (with_ext wraps) (zoom logged_inner m) m.
Proof.
  intros [l x1] [s x2] [Hw Hx]; simpl in *. unfold wraps in Hw. subst.
  unfold zoom. simpl. by destruct (m (ls_inner l, x2)) as [r [s' x']].
Qed.

#[export] Instance logging_store_sim {S : Type} `{HS : StateStore S} : StoreSim wraps (logging_state_store (S:=S)) HS.
Proof.
  constructor; intros; try apply zoom_logged_sim. 
  intros [l x1] [s x2] [Hw Hx]; simpl in *. unfold wraps in Hw. subst.
  unfold mbind, st_bind, zoom, log_line, on_store. simpl. by destruct (append_trace_event t (ls_inner l, x2)) as [r [s' x']].
Qed.

(** ** Properties *)

(** the logging proxy is transparent: whatever store it wraps, every
    operation returns what the wrapped store returns (or raises what it raises)
    and leaves the wrapped store as the operation would have, and appending a trace
    logs exactly one line, at error level exactly for the failure events. *)
Theorem logging_store_transparent {S : Type} `{HS : StateStore S} :
  StoreSim (wraps (S:=S)) logging_state_store HS ∧
  ∀ (t : TraceEvent) (l : LoggingStateStore S) x,
    let '(r, (l', x')) := append_trace_event t (l, x) in
    ls_log l' = ls_log l ++ [log_record t] ∧
    ((log_record t).1 = LogError ↔ te_event_name t ∈ FAILURE_EVENTS).
Proof.
  split; [apply _|]. intros t l x. unfold append_trace_event at 1. simpl.
  unfold mbind, st_bind, zoom, log_line, on_store. simpl.
  destruct (append_trace_event t (ls_inner l, x)) as [r [s' x']]. simpl. split; [done|].
  destruct (str_in (te_event_name t) FAILURE_EVENTS) eqn:E.
  - by apply str_in_true in E.
  - split; [done|]. intros Hin. apply str_in_true in Hin. congruence.
Qed.
