(* ===== verification/StateMemory.v ===== *)
(** * Durable transports for agent state
    ([src/infrastructure/state/agent_memory_store.py],
    [src/infrastructure/object_storage/oci_agent_memory_store.py])

    The interface through which the state store keeps its records beyond one
    invocation, the transport through the Prism API, and the one through object
    storage.  The OCI client is the class [ObjectStorage]; [BucketLaws] says what
    the transport relies on: put replaces one object, a listing names the objects
    under a prefix, get returns what was put. *)

From S2P Require Import Prelude PyStr PyVal PyUuid Json JsonLoads Env Client.
From S2P Require Import Stores.

Class AgentStateMemoryStore (T : Type) := {
  put_memory : string → string → dict pyval → st (T * Ext) unit;
  fetch_run_state : string → string → st (T * Ext) (dict pyval)
}.

(** ** Prism's agent memories *)

(** The transport keeps nothing itself: records go to the API and come back in
    the state of a run. *)
Inductive PrismAgentMemoryStore := PrismAgentMemory.

Definition is_NotFound (e : exn) : bool :=
  match exc_type e with PrismApiNotFoundError => true | _ => false end.

#[export] Instance prism_agent_memory_store `{Env} (c : PrismApiClient) :
    AgentStateMemoryStore PrismAgentMemoryStore := {|
  put_memory w _ payload := zoom store_ext (upsert_agent_memory c w payload) ;; mret tt;
  fetch_run_state w run_id :=
    zoom store_ext (try_catch_if is_NotFound (get_agent_run_state c w run_id) (λ _, mret []))
|}.

(** ** Object storage *)

Class ObjectStorage (B : Type) := {
  put_object : string → string → string → string → st (B * Ext) unit;
  list_objects : string → string → string → st (B * Ext) (list string);
  get_object : string → string → string → st (B * Ext) string
}.

Record ObjectStorageAgentMemoryStore := { om_namespace : string; om_bucket_name : string; om_prefix : string }.

(** [ObjectStorageAgentMemoryStore.__init__] *)
Definition object_memory_init (namespace bucket_name : option string) (prefix : string) :
    res ObjectStorageAgentMemoryStore :=
  match namespace, bucket_name with
  | Some n, Some b =>
      if str_truthy n && str_truthy b
      then Ok {| om_namespace := n; om_bucket_name := b; om_prefix := strip_of is_slash prefix |}
      else err ValueError "OCI namespace and bucket name are required for agent-state persistence."
  | _, _ => err ValueError "OCI namespace and bucket name are required for agent-state persistence."
  end.

Section object_memory.
Context {B : Type} `{ObjectStorage B} (om : ObjectStorageAgentMemoryStore).

Definition run_prefix (w run_id : string) : string := om_prefix om +:+ "/" +:+ w +:+ "/" +:+ run_id +:+ "/".
Definition object_name (w run_id memory_id : string) : string := run_prefix w run_id +:+ memory_id +:+ ".json".

Definition object_put (w run_id : string) (payload : dict pyval) : st (B * Ext) unit :=
  let memory_id := str_or_empty (dget "memoryId" payload) in
  if str_truthy memory_id then
    put_object (om_namespace om) (om_bucket_name om) (object_name w run_id memory_id) (json_plain (PDict payload))
  else raise (Exn ValueError "Agent memory payload requires a memoryId.").

(** One object of a listing: its text, when it is a JSON object. *)
Definition load_memory (name : string) : st (B * Ext) (option (dict pyval)) :=
  raw ← get_object (om_namespace om) (om_bucket_name om) name;
  mret (match json_loads raw with Some (PDict d) => Some d | _ => None end).

Definition list_memories (w run_id : string) : st (B * Ext) (list (dict pyval)) :=
  names ← list_objects (om_namespace om) (om_bucket_name om) (run_prefix w run_id);
  loaded ← map_st load_memory names;
  mret (omap id loaded).

#[export] Instance object_storage_memory_store : AgentStateMemoryStore B := {|
  put_memory := object_put;
  fetch_run_state w run_id :=
    memories ← list_memories w run_id;
    mret [("memories", PList (map PDict memories))]
|}.
End object_memory.

(** ** What a durable transport promises to the store

    [held t w r mid] is the record held for a run under a memory id.  A put
    replaces the record of its id in its run and touches no other; a fetch gives
    the records of the run, changes nothing and does not fail, as long as they fit
    ([fits]) what the transport reads at once.  The promise covers ids without a
    slash. *)

Definition no_slash (s : string) : Prop := "/"%char ∉ chars s.

(** The record in a memory's content names its run, if it does, by something that can be a
    key: the store writes strings, and its replay aborts on a list or an object. *)
Definition replayable (payload : dict pyval) : Prop :=
  ∀ s d, dget "content" payload = PStr s → json_loads s = Some (PDict d) → hashable (dget "run_id" d) = true.

(** A record the transport can hold: it has its memory id, reads back from its JSON text
    and can be replayed. *)
Definition memory_ok (payload : dict pyval) (mid : string) : Prop :=
  dget "memoryId" payload = PStr mid ∧ str_truthy mid = true ∧ no_slash mid ∧ json_ok (PDict payload) ∧ replayable payload.

Class DurableMemory (T : Type) `{AgentStateMemoryStore T} (ok : T → Prop)
    (held : T → string → string → string → option (dict pyval)) (fits : T → string → string → Prop) : Prop := {
  durable_put w r payload mid t x :
    ok t → no_slash w → no_slash r → memory_ok payload mid →
    ∃ t', put_memory w r payload (t, x) = (Ok tt, (t', x)) ∧ ok t' ∧ held t' w r mid = Some payload ∧
      ∀ w' r' mid', no_slash w' → no_slash r' → (w', r', mid') ≠ (w, r, mid) → held t' w' r' mid' = held t w' r' mid';
  durable_fetch w r t x :
    ok t → fits t w r → no_slash w → no_slash r →
    ∃ l, fetch_run_state w r (t, x) = (Ok [("memories", PList (map PDict l))], (t, x)) ∧
      (∀ d, d ∈ l ↔ ∃ mid, held t w r mid = Some d) ∧ Forall replayable l
}.

(** ** Object storage is durable *)

(** What the transport relies on: [objs] are the objects of a bucket by name.
    A listing holds at most 1000 names, the page the client asks for. *)
Definition list_page : nat := 1000.

Class BucketLaws (B : Type) `{ObjectStorage B} (objs : B → string → string → gmap string string) : Prop := {
  bucket_put n b name text t x :
    ∃ t', put_object n b name text (t, x) = (Ok tt, (t', x)) ∧ objs t' n b = <[name := text]> (objs t n b);
  bucket_list n b p t x :
    (length (List.filter (λ kv, startswith kv.1 p) (map_to_list (objs t n b))) ≤ list_page)%nat →
    ∃ l, list_objects n b p (t, x) = (Ok l, (t, x)) ∧
      ∀ name, name ∈ l ↔ startswith name p = true ∧ is_Some (objs t n b !! name);
  bucket_get n b name text t x :
    objs t n b !! name = Some text → get_object n b name (t, x) = (Ok text, (t, x))
}.

Section object_durable.
Context {B : Type} `{HB : ObjectStorage B} (objs : B → string → string → gmap string string) `{!BucketLaws B objs}.
Context (om : ObjectStorageAgentMemoryStore).
#[local] Instance om_store : AgentStateMemoryStore B := object_storage_memory_store om.

Definition bucket (t : B) : gmap string string := objs t (om_namespace om) (om_bucket_name om).

(** Everything under the prefix was written by the transport. *)
Definition bucket_ok (t : B) : Prop :=
  ∀ name text, bucket t !! name = Some text → startswith name (om_prefix om +:+ "/") = true →
  ∃ w r mid payload, name = object_name om w r mid ∧ no_slash w ∧ no_slash r ∧ memory_ok payload mid ∧
    text = json_plain (PDict payload).

Definition bucket_held (t : B) (w r mid : string) : option (dict pyval) :=
  match bucket t !! object_name om w r mid with
  | Some text => match json_loads text with Some (PDict d) => Some d | _ => None end
  | None => None
  end.

Definition bucket_fits (t : B) (w r : string) : Prop :=
  (length (List.filter (λ kv, startswith kv.1 (run_prefix om w r)) (map_to_list (bucket t))) ≤ list_page)%nat.

Lemma slash_split a b x y : "/"%char ∉ a → "/"%char ∉ b → a ++ "/"%char :: x = b ++ "/"%char :: y → a = b ∧ x = y.
Proof.
  revert b. induction a as [|c a IH]; intros [|d b]; cbn; intros Ha Hb E; [by injection E| | |].
  - injection E as <- _. set_solver.
  - injection E as -> _. set_solver.
  - injection E as <- E. apply not_elem_of_cons in Ha as [_ Ha], Hb as [_ Hb]. by destruct (IH b Ha Hb E) as [-> ->].
Qed.

Lemma startswith_app s p : startswith s p = true ↔ ∃ r, chars s = chars p ++ r.
Proof.
  unfold startswith. generalize (chars s), (chars p). intros l q. revert l.
  induction q as [|c q IH]; intros l; cbn; [split; [by exists l|done]|].
  destruct l as [|d l]; [split; [done|intros (? & ?); done]|]. rw andb_true_iff bool_decide_eq_true IH.
  split; [intros [-> (r & ->)]; by exists r|intros (r & [= -> ->]); naive_solver].
Qed.

Lemma object_name_chars w r mid :
  chars (object_name om w r mid) =
  chars (om_prefix om) ++ "/"%char :: chars w ++ "/"%char :: chars r ++ "/"%char :: chars (mid +:+ ".json").
Proof. unfold object_name, run_prefix. rw !chars_app -!app_assoc. cbn. by rw -?app_assoc. Qed.

Lemma object_name_inj w r mid w' r' mid' :
  no_slash w → no_slash r → no_slash w' → no_slash r' →
  object_name om w r mid = object_name om w' r' mid' → w = w' ∧ r = r' ∧ mid = mid'.
Proof.
  intros Hw Hr Hw' Hr' E%(f_equal chars). rw !object_name_chars in E. apply app_inv_head in E.
  injection E as E. apply slash_split in E as [?%chars_inj E]; [|done..].
  apply slash_split in E as [?%chars_inj E%chars_inj]; [|done..]. split_and!; try done. by apply append_inj_r in E.
Qed.

Lemma no_slash_json mid : no_slash mid → no_slash (mid +:+ ".json").
Proof. unfold no_slash. rw chars_app. set_solver. Qed.

(** A name the transport wrote is in the listing of a run exactly if it is the run's. *)
Lemma object_name_prefix w r w' r' mid :
  no_slash w → no_slash r → no_slash w' → no_slash r' → no_slash mid →
  startswith (object_name om w' r' mid) (run_prefix om w r) = true ↔ w = w' ∧ r = r'.
Proof.
  intros Hw Hr Hw' Hr' Hm. rw startswith_app. split.
  - intros (t & E). rw object_name_chars in E. unfold run_prefix in E. rw !chars_app -!app_assoc in E. cbn in E.
    rw -?app_assoc in E. cbn in E. apply app_inv_head in E. injection E as E. symmetry in E.
    apply slash_split in E as [?%chars_inj E]; [|done..]. by apply slash_split in E as [?%chars_inj _].
  - intros [-> ->]. exists (chars (mid +:+ ".json")). rw object_name_chars. unfold run_prefix.
    rw !chars_app -!app_assoc. cbn. by rw -?app_assoc.
Qed.

Lemma omap_Some {A} (l : list A) : omap id (map Some l) = l.
Proof. induction l as [|d l IH]; cbn; [done|]. by rw IH. Qed.

Lemma bucket_held_put payload mid : memory_ok payload mid → json_loads (json_plain (PDict payload)) = Some (PDict payload).
Proof. intros (_ & _ & _ & Hok & _). by apply json_plain_roundtrip. Qed.

#[export] Instance object_storage_durable : DurableMemory B bucket_ok bucket_held bucket_fits.
Proof.
  split.
  - intros w r payload mid t x Hok Hw Hr Hm. pose proof Hm as (Hid & Ht & Hs & _).
    destruct (bucket_put (om_namespace om) (om_bucket_name om) (object_name om w r mid) (json_plain (PDict payload)) t x)
      as (t' & E & Ho).
    exists t'. split_and!.
    + cbn. unfold object_put, str_or_empty. rw Hid. cbn. rw Ht. cbn. by rw Ht E.
    + intros name text. unfold bucket. rw Ho lookup_insert. case_decide as Hn; [|by apply Hok].
      intros [= <-] _. by exists w, r, mid, payload.
    + unfold bucket_held, bucket. by rw Ho lookup_insert_eq (bucket_held_put _ _ Hm).
    + intros w' r' mid' Hw' Hr' Hne. unfold bucket_held, bucket. rw Ho lookup_insert_ne; [|done].
      intros E'%object_name_inj; [|done..]. naive_solver.
  - intros w r t x Hok Hf Hw Hr.
    destruct (bucket_list (om_namespace om) (om_bucket_name om) (run_prefix om w r) t x Hf) as (names & E & Hn).
    assert (Hload : ∀ name, name ∈ names → ∃ d mid, object_name om w r mid = name ∧ bucket_held t w r mid = Some d ∧ replayable d ∧
      load_memory om name (t, x) = (Ok (Some d), (t, x))).
    { intros name [Hp [text Htext]]%Hn. destruct (Hok name text Htext) as (w' & r' & mid & payload & -> & Hw' & Hr' & Hm & ->).
      { apply startswith_app in Hp as (s & Hs). apply startswith_app. unfold run_prefix in Hs.
        rw !chars_app -!app_assoc in Hs. eexists. rw Hs !chars_app -!app_assoc. done. }
      pose proof Hm as (_ & _ & Hmid & _ & Hrep). apply object_name_prefix in Hp as [<- <-]; [|done..].
      exists payload, mid. split; [done|]. unfold bucket_held, bucket. rw Htext (bucket_held_put _ _ Hm). split; [done|]. split; [exact Hrep|].
      unfold load_memory. rw (bind_step _ _ _ _ _ (bucket_get _ _ _ _ _ _ Htext)). by rw (bucket_held_put _ _ Hm). }
    assert (Hl : ∃ l, map_st (load_memory om) names (t, x) = (Ok (map Some l), (t, x)) ∧
      Forall2 (λ name d, ∃ mid, object_name om w r mid = name ∧ bucket_held t w r mid = Some d) names l ∧ Forall replayable l).
    { clear E Hn. induction names as [|name names IH]; [by exists []|].
      destruct (Hload name ltac:(by left)) as (d & mid & ? & ? & ? & El). destruct IH as (l & Em & HF & HR); [set_solver|].
      exists (d :: l). cbn [map_st]. rw (bind_step _ _ _ _ _ El) (bind_step _ _ _ _ _ Em). split; [done|].
      split; constructor; eauto. }
    destruct Hl as (l & El & HF & HR). exists l. split; [|split; [|exact HR]].
    + cbn. unfold list_memories. unfold mbind, st_bind. rw E El. cbn. by rw omap_Some.
    + intros d. split.
      * intros Hd. destruct (Forall2_elem_of_r _ _ _ _ HF Hd) as (name & _ & mid & _ & ?). eauto.
      * intros (mid & Hd). assert (Hin : object_name om w r mid ∈ names).
        { apply Hn. unfold bucket_held in Hd. destruct (bucket t !! object_name om w r mid) as [text|] eqn:Et; [|done].
          split; [|by exists text]. apply startswith_app. exists (chars (mid +:+ ".json")). rw object_name_chars.
          unfold run_prefix. rw !chars_app -!app_assoc. cbn. by rw -?app_assoc. }
        destruct (Forall2_elem_of_l _ _ _ _ HF Hin) as (d' & Hd' & mid' & Emid & Hheld).
        apply object_name_inj in Emid as (_ & _ & ->); [|done..]. congruence.
Qed.
End object_durable.

(** *** A bucket for concrete runs: one map from names to texts *)

Definition sample_bucket : Type := gmap string string.

#[export] Instance sample_storage : ObjectStorage sample_bucket := {|
  put_object _ _ name text := on_store (λ t, <[name := text]> t : sample_bucket);
  list_objects _ _ prefix :=
    ask_store (λ t : sample_bucket, map fst (List.filter (λ kv, startswith kv.1 prefix) (map_to_list t)));
  get_object _ _ name := λ x,
    match x.1 !! name with
    | Some text => (Ok text, x)
    | None => (Raise (Exn RuntimeError "NoSuchKey"), x)
    end
|}.

#[export] Instance sample_bucket_laws : BucketLaws sample_bucket (λ t _ _, t).
Proof.
  split.
  - intros n b name text t x. by exists (<[name := text]> t).
  - intros n b p t x _. eexists. split; [reflexivity|]. intros name. rw list_elem_of_fmap. split.
    + intros ([k v] & -> & Hin). apply list_elem_of_In, filter_In in Hin as [Hin Hp]. split; [done|].
      apply list_elem_of_In, elem_of_map_to_list in Hin. by exists v.
    + intros [Hp [v Hv]]. exists (name, v). split; [done|]. apply list_elem_of_In, filter_In.
      split; [by apply list_elem_of_In, elem_of_map_to_list|done].
  - intros n b name text t x Hn. cbn. by rw Hn.
Qed.

Definition sample_object_memory : ObjectStorageAgentMemoryStore :=
  {| om_namespace := "ns"; om_bucket_name := "agents"; om_prefix := "agent-state" |}.
