(* ===== verification/PrismStore.v ===== *)
(** * The Prism API state store ([src/infrastructure/state/prism_api_state_store.py])

    A store that keeps its state in a fallback store, writes every change through
    a durable transport, and before it reads a run replays what the transport
    holds for it and brings the statuses of its actions up to date.  A later
    invocation starts with an empty fallback and the same transport.

    What pydantic makes of the domain models ([model_dump], [model_validate]) is
    the class [ModelCodec]. *)

From S2P Require Import Prelude PyStr PyVal PyUuid PySha256 Json JsonLoads Events Plans SubTasks Policies Env.
From S2P Require Import Definitions Client Records AgentRunIds Stores StateMemory.

Class ModelCodec (A : Type) := {
  model_dump : A → pyval;              (* [model_dump(mode="json")] *)
  model_validate : pyval → res A
}.

Class StateCodec := {
  plan_codec :: ModelCodec AgentPlan;
  snapshot_codec :: ModelCodec ContextSnapshot;
  result_codec :: ModelCodec ToolResult;
  graph_codec :: ModelCodec TaskGraph;
  sub_result_codec :: ModelCodec SubAgentResult
}.

Definition STATE_SCHEMA : string := "prism_agent_state.v1".
Definition FEATURE_PROVISIONING_IDEMPOTENCY_PREFIX : string := "feature_provisioning:".

(** ** Records *)

(** [_state_memory_id] *)
Definition state_memory_id (parts : list string) : string := stable_agent_run_uuid ("state" :: parts).

(** [{"schema": _STATE_SCHEMA, **record}] and its text *)
Definition state_record (record : dict pyval) : dict pyval :=
  dict_update [("schema", PStr STATE_SCHEMA)] record.
Definition state_content (record : dict pyval) : string := json_compact (PDict (state_record record)).

(** [_decode_state_record] *)
Definition decode_state_record (content : pyval) : option (dict pyval) :=
  match content with
  | PStr s =>
      if str_truthy (strip s) then
        match json_loads s with
        | Some (PDict d) => if bool_decide (dget "schema" d = PStr STATE_SCHEMA) then Some d else None
        | _ => None
        end
      else None
  | _ => None
  end.

(** ** Statuses the API reports *)

Definition ACTION_STATUS_MAP : dict ActionStatus :=
  [("pending", APending); ("queued", APending); ("proposed", APending); ("approved", APending);
   ("running", ARunning); ("waiting", ARequiresApproval); ("requires_approval", ARequiresApproval);
   ("approval_required", ARequiresApproval); ("completed", ACompleted); ("executed", ACompleted);
   ("succeeded", ACompleted); ("success", ACompleted); ("failed", AFailed); ("rejected", ASkipped);
   ("error", AFailed); ("cancelled", ASkipped); ("canceled", ASkipped)].

Definition APPROVAL_STATUSES : list string := ["pending"; "queued"; "waiting"; "proposed"; "approval_required"].

(** [_action_status_from_record] *)
Definition action_status_from_record (record : dict pyval) (current : ActionStatus) : ActionStatus :=
  let raw_status := py_lower (str_or_empty (dget "status" record)) in
  if truthy (dget "requiresApproval" record) && bool_decide (raw_status ∈ APPROVAL_STATUSES)
  then ARequiresApproval
  else dict_get_or current raw_status ACTION_STATUS_MAP.

Definition PLAN_STATUS_MAP : dict PlanStatus :=
  [("completed", PCompleted); ("failed", PFailed); ("cancelled", PCancelled); ("canceled", PCancelled)].

(** [_plan_status_from_state] *)
Definition plan_status_from_state (state : dict pyval) (current : PlanStatus) : PlanStatus :=
  match dget "run" state with
  | PDict run => dict_get_or current (py_lower (str_or_empty (dget "status" run))) PLAN_STATUS_MAP
  | _ => current
  end.

(** The action records of a run's state by action id; the last one wins. *)
Definition actions_by_id (state : dict pyval) : dict (dict pyval) :=
  let records := match dget "actions" state with PList l => l | _ => [] end in
  dict_of (omap (λ r, match r with
                      | PDict d => if is_none (dget "actionId" d) then None else Some (py_str (dget "actionId" d), d)
                      | _ => None
                      end) records).

(** [actions_by_id.get(action.action_id) or actions_by_id.get(action_api_id(action))] *)
Definition action_record (records : dict (dict pyval)) (a : PlannedAction) : option (dict pyval) :=
  match dict_get (ac_action_id a) records with
  | Some (kv :: d) => Some (kv :: d)
  | _ => dict_get (action_api_id a) records
  end.

(** ** The store *)

Record PrismApiStateStore (S T : Type) := {
  ps_fallback : S;
  ps_memory : T;
  ps_locations : dict (string * string)
}.
Arguments Build_PrismApiStateStore {S T}.
Arguments ps_fallback {S T}.
Arguments ps_memory {S T}.
Arguments ps_locations {S T}.

(** [PrismApiStateStore.__init__] *)
Definition prism_store_init {S T : Type} (c : PrismApiClient) (fallback : S) (memory : T) :
    res (PrismApiStateStore S T) :=
  if is_configured c then Ok {| ps_fallback := fallback; ps_memory := memory; ps_locations := [] |}
  else err ValueError "PRISM_API_BASE_URL is required when STATE_BACKEND=prism_api.".

Definition fallback_lens {S T} : lens (PrismApiStateStore S T * Ext) (S * Ext) :=
  Lens (λ x, (ps_fallback x.1, x.2))
       (λ t x, ({| ps_fallback := t.1; ps_memory := ps_memory x.1; ps_locations := ps_locations x.1 |}, t.2)).

Definition memory_lens {S T} : lens (PrismApiStateStore S T * Ext) (T * Ext) :=
  Lens (λ x, (ps_memory x.1, x.2))
       (λ t x, ({| ps_fallback := ps_fallback x.1; ps_memory := t.1; ps_locations := ps_locations x.1 |}, t.2)).

Section store.
Context `{Env} `{StateCodec} {S T : Type} `{StateStore S} `{AgentStateMemoryStore T}.
Context (persist_agent_memories : bool).
Abbreviation M := (st (PrismApiStateStore S T * Ext)).

Definition fb {A} (m : st (S * Ext) A) : M A := zoom fallback_lens m.
Definition mem {A} (m : st (T * Ext) A) : M A := zoom memory_lens m.

Definition set_location (key : string) (w run_id : string) : M unit :=
  on_store (λ s, {| ps_fallback := ps_fallback s; ps_memory := ps_memory s;
                    ps_locations := dict_set key (w, run_id) (ps_locations s) |}).

(** [_remember_plan_idempotency] *)
Definition remember_plan_idempotency (plan : AgentPlan) : M unit :=
  for_each (λ a, set_location (ac_idempotency_key a) (pl_workspace_id plan) (pl_plan_id plan)) (pl_actions plan).

(** *** Writing *)

(** [_persist_state_memory] *)
Definition state_payload (memory_id run_id memory_type title : string) (record : dict pyval) (step_id : option string) :
    dict pyval :=
  let content := state_content record in
  [("memoryId", PStr memory_id); ("runId", PStr run_id); ("memoryType", PStr memory_type);
   ("title", PStr (str_take 100 title)); ("content", PStr content); ("contentHash", PStr (sha256_hex content))] ++
  match step_id with
  | Some s => if str_truthy s then [("stepId", PStr (state_memory_id [run_id; s; "step"]))] else []
  | None => []
  end.

Definition persist_state_memory (w memory_id run_id memory_type title : string) (record : dict pyval)
    (step_id : option string) : M unit :=
  when persist_agent_memories
    (mem (put_memory w run_id (state_payload memory_id run_id memory_type title record step_id))).

Definition persist_plan (plan : AgentPlan) : M unit :=
  persist_state_memory (pl_workspace_id plan) (state_memory_id [pl_plan_id plan; "plan"]) (pl_plan_id plan)
    "agent_plan" "Agent plan" [("kind", PStr "plan"); ("plan", model_dump plan)] None.

Definition persist_task_graph (g : TaskGraph) : M unit :=
  persist_state_memory (tg_workspace_id g) (state_memory_id [tg_plan_id g; "task_graph"]) (tg_plan_id g)
    "agent_decision" "Task graph" [("kind", PStr "task_graph"); ("graph", model_dump g)] None.

Definition persist_sub_agent_result (w run_id : string) (r : SubAgentResult) : M unit :=
  persist_state_memory w (state_memory_id [run_id; sr_node_id r; "sub_agent_result"]) run_id
    "agent_result" "Subagent result"
    [("kind", PStr "sub_agent_result"); ("run_id", PStr run_id); ("result", model_dump r)] None.

Definition persist_context_snapshot (s : ContextSnapshot) : M unit :=
  match sn_plan_id s with
  | None => mret tt
  | Some plan_id =>
      persist_state_memory (sn_workspace_id s) (state_memory_id [plan_id; sn_snapshot_id s; "context"]) plan_id
        "agent_decision" "Context snapshot" [("kind", PStr "context_snapshot"); ("snapshot", model_dump s)] None
  end.

(** [_plan_for_result]: the first location of the result's run *)
Definition plan_for_result (r : ToolResult) : M (option AgentPlan) :=
  locations ← ask_store ps_locations;
  match find_first (λ l, bool_decide (l.2 = tr_plan_id r)) (dict_values locations) with
  | Some (w, run_id) => fb (get_plan w run_id)
  | None => mret None
  end.

Definition persist_action_result (r : ToolResult) : M unit :=
  plan ← plan_for_result r;
  match plan with
  | None => mret tt
  | Some plan =>
      persist_state_memory (pl_workspace_id plan) (state_memory_id [tr_plan_id r; tr_action_id r; "result"])
        (tr_plan_id r) "agent_result" "Action result" [("kind", PStr "action_result"); ("result", model_dump r)]
        (Some (tr_action_id r))
  end.

Definition persist_idempotency_key (w run_id key : string) : M unit :=
  persist_state_memory w (state_memory_id ["idempotency"; key]) run_id
    "agent_decision" "Idempotency key" [("kind", PStr "idempotency_key"); ("key", PStr key)] None.

(** *** Reading *)

(** [_run_state] *)
Definition run_state (w run_id : string) : M (dict pyval) :=
  try_catch_if is_RuntimeError (mem (fetch_run_state w run_id)) (λ _, mret []).

(** What one record of [_load_state_memories] does. *)
Definition load_record (w run_id : string) (record : dict pyval) : M unit :=
  match dget "kind" record with
  | PStr kind =>
      if bool_decide (kind = "plan") then
        plan ← lift_res (model_validate (dget "plan" record));
        fb (save_plan plan) ;; remember_plan_idempotency plan
      else if bool_decide (kind = "context_snapshot") then
        snapshot ← lift_res (model_validate (dget "snapshot" record));
        fb (save_context_snapshot snapshot)
      else if bool_decide (kind = "action_result") then
        result ← lift_res (model_validate (dget "result" record));
        fb (save_action_result result)
      else if bool_decide (kind = "task_graph") then
        g ← lift_res (model_validate (dget "graph" record));
        fb (save_task_graph g)
      else if bool_decide (kind = "sub_agent_result") then
        sub_result ← lift_res (model_validate (dget "result" record));
        (* the run id is part of a key: a list or an object is a [TypeError], and what is
           not a string is a key no caller asks for *)
        match py_or (dget "run_id" record) (PStr run_id) with
        | PStr result_run_id => fb (save_sub_agent_result w result_run_id sub_result)
        | v => if hashable v then mret tt
               else raise (Exn TypeError ("unhashable type: '" +:+ type_name v +:+ "'"))
        end
      else if bool_decide (kind = "idempotency_key") then
        match dget "key" record with
        | PStr key => when (str_truthy key) (fb (record_idempotency_key key) ;; set_location key w run_id)
        | _ => mret tt
        end
      else mret tt
  | _ => mret tt
  end.

(** The record of a memory, replayed unless it is not one of the store's. *)
Definition load_memory_item (w run_id : string) (memory : pyval) : M unit :=
  match memory with
  | PDict m =>
      match decode_state_record (dget "content" m) with
      | Some record => try_catch_if is_ValueError (load_record w run_id record) (λ _, mret tt)
      | None => mret tt
      end
  | _ => mret tt
  end.

Definition load_state_memories (w run_id : string) (state : dict pyval) : M unit :=
  match dget "memories" state with
  | PList memories => for_each (load_memory_item w run_id) memories
  | _ => mret tt
  end.

Definition restore_run_state (w run_id : string) : M unit :=
  state ← run_state w run_id; load_state_memories w run_id state.

(** *** Hydration of a plan *)

Definition px {A} (m : st Ext A) : M A := zoom store_ext m.

(** The actions of [plan] one after the other, on the plan hydrated so far. *)
Definition hydrate_action (records : dict (dict pyval)) (hydrated : AgentPlan) (a : PlannedAction) : M AgentPlan :=
  match action_record records a with
  | None => mret hydrated
  | Some record =>
      let status := action_status_from_record record (ac_status a) in
      if bool_decide (status = ac_status a) then mret hydrated
      else
        now ← px utc_now;
        now' ← px utc_now;
        mret (replace_action now' (with_status now status a) hydrated)
  end.

Fixpoint hydrate_actions (records : dict (dict pyval)) (hydrated : AgentPlan) (l : list PlannedAction) : M AgentPlan :=
  match l with
  | [] => mret hydrated
  | a :: l' => h ← hydrate_action records hydrated a; hydrate_actions records h l'
  end.

Definition hydrate_plan_state (plan : AgentPlan) (state : dict pyval) : M AgentPlan :=
  let records := actions_by_id state in
  hydrated ← match records with [] => mret plan | _ => hydrate_actions records plan (pl_actions plan) end;
  let run_status := plan_status_from_state state (pl_status hydrated) in
  if bool_decide (run_status = pl_status hydrated) then mret hydrated
  else
    now ← px utc_now;
    mret (plan_update (pl_actions hydrated) run_status now hydrated).

(** *** The operations *)

Definition prism_save_plan (p : AgentPlan) : M unit :=
  fb (save_plan p) ;; remember_plan_idempotency p ;; persist_plan p.

Definition prism_update_plan (p : AgentPlan) : M unit :=
  fb (update_plan p) ;; remember_plan_idempotency p ;; persist_plan p.

Definition prism_get_plan (w plan_id : string) : M (option AgentPlan) :=
  state ← run_state w plan_id;
  load_state_memories w plan_id state ;;
  plan ← fb (get_plan w plan_id);
  match plan with
  | None => mret None
  | Some plan =>
      hydrated ← hydrate_plan_state plan state;
      when (negb (bool_decide (hydrated = plan))) (fb (update_plan hydrated)) ;;
      mret (Some hydrated)
  end.

Definition prism_save_task_graph (g : TaskGraph) : M unit :=
  fb (save_task_graph g) ;; persist_task_graph g.

Definition prism_get_task_graph (w run_id : string) : M (option TaskGraph) :=
  restore_run_state w run_id ;; fb (get_task_graph w run_id).

Definition prism_save_sub_result (w run_id : string) (r : SubAgentResult) : M unit :=
  fb (save_sub_agent_result w run_id r) ;; persist_sub_agent_result w run_id r.

Definition prism_get_sub_results (w run_id : string) : M (list SubAgentResult) :=
  restore_run_state w run_id ;; fb (get_sub_agent_results w run_id).

Definition prism_claim (w run_id : string) : M (list SubTask) :=
  g ← prism_get_task_graph w run_id;
  match g with
  | None => mret []
  | Some g =>
      let '(g', claimed) := claim_ready g in
      when (negb (bool_decide (length claimed = 0%nat))) (prism_save_task_graph (bumped g')) ;;
      mret claimed
  end.

Definition prism_advance (w run_id node_id : string) (s : SubTaskStatus) : M (option TaskGraphAdvance) :=
  g ← prism_get_task_graph w run_id;
  match g with
  | None => mret None
  | Some g =>
      let a := plan_advance node_id s g in
      when (negb (av_already_processed a)) (prism_save_task_graph (bumped (av_graph a))) ;;
      mret (Some a)
  end.

Definition prism_save_snapshot (s : ContextSnapshot) : M unit :=
  fb (save_context_snapshot s) ;; persist_context_snapshot s.

Definition prism_save_result (r : ToolResult) : M unit :=
  fb (save_action_result r) ;; persist_action_result r.

(** [_run_id_from_idempotency_key] *)
Definition run_id_from_idempotency_key (key : string) : option string :=
  if startswith key FEATURE_PROVISIONING_IDEMPOTENCY_PREFIX
  then Some (removeprefix key FEATURE_PROVISIONING_IDEMPOTENCY_PREFIX) else None.

Definition candidate_run_id (run_id : option string) (key : string) : option string :=
  if ostr_truthy run_id then run_id else run_id_from_idempotency_key key.

Definition check_workspace_idempotency_key (w key : string) (run_id : option string) : M bool :=
  found ← fb (check_idempotency_key key);
  if (found : bool) then mret true
  else
    match candidate_run_id run_id key with
    | None => mret false
    | Some r => restore_run_state w r ;; fb (check_idempotency_key key)
    end.

Definition record_workspace_idempotency_key (w key : string) (run_id : option string) : M unit :=
  fb (record_idempotency_key key) ;;
  match candidate_run_id run_id key with
  | None => mret tt
  | Some r => persist_idempotency_key w r key
  end.

Definition prism_check_key (key : string) : M bool :=
  found ← fb (check_idempotency_key key);
  if (found : bool) then mret true
  else
    locations ← ask_store ps_locations;
    match dict_get key locations with
    | None => mret false
    | Some (w, run_id) => check_workspace_idempotency_key w key (Some run_id)
    end.

Definition prism_record_key (key : string) : M unit :=
  fb (record_idempotency_key key) ;;
  locations ← ask_store ps_locations;
  match dict_get key locations with
  | None => mret tt
  | Some (w, run_id) => record_workspace_idempotency_key w key (Some run_id)
  end.

#[export] Instance prism_api_state_store : StateStore (PrismApiStateStore S T) := {|
  save_plan := prism_save_plan;
  get_plan := prism_get_plan;
  save_task_graph := prism_save_task_graph;
  get_task_graph := prism_get_task_graph;
  save_sub_agent_result := prism_save_sub_result;
  get_sub_agent_results := prism_get_sub_results;
  claim_ready_nodes := prism_claim;
  advance_task_graph := prism_advance;
  update_plan := prism_update_plan;
  save_context_snapshot := prism_save_snapshot;
  get_context_snapshot w r := fb (get_context_snapshot w r);
  save_action_result := prism_save_result;
  get_action_result p a := fb (get_action_result p a);
  append_trace_event t := fb (append_trace_event t);
  mark_action_completed w p a := fb (mark_action_completed w p a);
  check_idempotency_key := prism_check_key;
  record_idempotency_key := prism_record_key;
  store_traces := fb store_traces
|}.
End store.
