(* ===== verification/World.v ===== *)
(** * Queues and the runtime state ([src/infrastructure/queue/])

    The queue interface with its in-memory implementation, and [World], the
    state of a running agent: the store, the queue, the environment, the fields
    the action handler and the recursion runner keep between events, and a log of
    the tool executions and queue verdicts (which the program does not keep; no
    operation reads it). *)

From S2P Require Import Prelude PyStr PyVal Events Env Stores.

(** ** Queues *)

Record QueueMessage := { qm_message_id : string; qm_envelope : EventEnvelope; qm_receipt : option string }.

Class Queue (Q : Type) := {
  enqueue : EventEnvelope → st (Q * Ext) QueueMessage;
  dequeue : st (Q * Ext) (option QueueMessage);
  ack : QueueMessage → st (Q * Ext) unit;
  fail_message : QueueMessage → string → st (Q * Ext) unit;
  is_empty : st (Q * Ext) bool
}.

Record MemoryQueue := {
  mq_messages : list QueueMessage;
  mq_failed : list (QueueMessage * string);
  mq_acked : list string
}.

Definition memory_queue_empty : MemoryQueue := {| mq_messages := []; mq_failed := []; mq_acked := [] |}.

Definition mq_push (m : QueueMessage) (q : MemoryQueue) : MemoryQueue :=
  {| mq_messages := mq_messages q ++ [m]; mq_failed := mq_failed q; mq_acked := mq_acked q |}.

Definition mq_pop (q : MemoryQueue) : option QueueMessage * MemoryQueue :=
  match mq_messages q with
  | [] => (None, q)
  | m :: l => (Some m, {| mq_messages := l; mq_failed := mq_failed q; mq_acked := mq_acked q |})
  end.

Definition mq_ack (m : QueueMessage) (q : MemoryQueue) : MemoryQueue :=
  {| mq_messages := mq_messages q; mq_failed := mq_failed q; mq_acked := mq_acked q ++ [qm_message_id m] |}.

Definition mq_fail (m : QueueMessage) (reason : string) (q : MemoryQueue) : MemoryQueue :=
  {| mq_messages := mq_messages q; mq_failed := mq_failed q ++ [(m, reason)]; mq_acked := mq_acked q |}.

(** [QueueMessage(envelope=envelope)] is built first, then appended. *)
#[export] Instance memory_queue `{Env} : Queue MemoryQueue := {|
  enqueue e :=
    message_id ← zoom store_ext new_uuid;
    let m := {| qm_message_id := message_id; qm_envelope := e; qm_receipt := None |} in
    on_store (mq_push m) ;; mret m;
  dequeue := run_store mq_pop;
  ack m := on_store (mq_ack m);
  fail_message m r := on_store (mq_fail m r);
  is_empty := ask_store (λ q, match mq_messages q with [] => true | _ => false end)
|}.

(** ** The state of the runtime *)

(** What the log of the model records. *)
Inductive log_entry :=
  | LExecute (idempotency_key : string)     (* a tool is executed for an action *)
  | LHandle (event_id : string)             (* the runner hands an event to a handler *)
  | LAck (event_id : string)
  | LFail (event_id : string).

#[export] Instance log_entry_eq_dec : EqDecision log_entry.
Proof. solve_decision. Defined.

Record World (S Q : Type) := {
  w_store : S;
  w_queue : Q;
  w_ext : Ext;
  w_inline : Z;
  w_seen : gset string;
  w_log : list log_entry
}.
Arguments Build_World {S Q}.
Arguments w_store {S Q}.
Arguments w_queue {S Q}.
Arguments w_ext {S Q}.
Arguments w_inline {S Q}.
Arguments w_seen {S Q}.
Arguments w_log {S Q}.

Section lift.
Context {S Q : Type}.

Definition store_lens : lens (World S Q) (S * Ext) :=
  Lens (λ w, (w_store w, w_ext w))
       (λ t w, {| w_store := t.1; w_queue := w_queue w; w_ext := t.2; w_inline := w_inline w;
                  w_seen := w_seen w; w_log := w_log w |}).

Definition queue_lens : lens (World S Q) (Q * Ext) :=
  Lens (λ w, (w_queue w, w_ext w))
       (λ t w, {| w_store := w_store w; w_queue := t.1; w_ext := t.2; w_inline := w_inline w;
                  w_seen := w_seen w; w_log := w_log w |}).

Definition ext_lens : lens (World S Q) Ext :=
  Lens w_ext
       (λ t w, {| w_store := w_store w; w_queue := w_queue w; w_ext := t; w_inline := w_inline w;
                  w_seen := w_seen w; w_log := w_log w |}).

Definition on_st {A} (m : st (S * Ext) A) : st (World S Q) A := zoom store_lens m.
Definition on_queue {A} (m : st (Q * Ext) A) : st (World S Q) A := zoom queue_lens m.
Definition ext {A} (m : st Ext A) : st (World S Q) A := zoom ext_lens m.

Definition set_inline (n : Z) : st (World S Q) unit := modify (λ w,
  {| w_store := w_store w; w_queue := w_queue w; w_ext := w_ext w; w_inline := n;
     w_seen := w_seen w; w_log := w_log w |}).
Definition add_seen (i : string) : st (World S Q) unit := modify (λ w,
  {| w_store := w_store w; w_queue := w_queue w; w_ext := w_ext w; w_inline := w_inline w;
     w_seen := {[i]} ∪ w_seen w; w_log := w_log w |}).
Definition log (e : log_entry) : st (World S Q) unit := modify (λ w,
  {| w_store := w_store w; w_queue := w_queue w; w_ext := w_ext w; w_inline := w_inline w;
     w_seen := w_seen w; w_log := w_log w ++ [e] |}).
End lift.

(** ** Relations between worlds *)

(** [log_ext P]: the log was extended by entries satisfying [P]. *)
Definition log_ext {S Q} (P : log_entry → Prop) (w w' : World S Q) : Prop :=
  ∃ l, w_log w' = w_log w ++ l ∧ Forall P l.

#[export] Instance log_ext_preorder {S Q} P : PreOrder (log_ext (S:=S) (Q:=Q) P).
Proof.
  split; [intros w; exists []; by rw app_nil_r|].
  intros x y z (l1 & H1 & HF1) (l2 & H2 & HF2). exists (l1 ++ l2).
  rw H2 H1 app_assoc. split; [done|]. by apply Forall_app.
Qed.

(** Same runner fields, action handler counter and log. *)
Definition same_run {S Q} (w w' : World S Q) : Prop :=
  w_inline w' = w_inline w ∧ w_seen w' = w_seen w ∧ w_log w' = w_log w.

#[export] Instance same_run_preorder {S Q} : PreOrder (same_run (S:=S) (Q:=Q)).
Proof. split; [by intros w|]. intros x y z (?&?&?) (?&?&?). split_and!; congruence. Qed.

Lemma on_st_same {S Q A} (m : st (S * Ext) A) : respects same_run (on_st (Q:=Q) m).
Proof. intros w. unfold on_st, zoom. simpl. by destruct (m _). Qed.
Lemma on_queue_same {S Q A} (m : st (Q * Ext) A) : respects same_run (on_queue (S:=S) m).
Proof. intros w. unfold on_queue, zoom. simpl. by destruct (m _). Qed.
Lemma ext_same {S Q A} (m : st Ext A) : respects same_run (ext (S:=S) (Q:=Q) m).
Proof. intros w. unfold ext, zoom. simpl. by destruct (m _). Qed.

#[export] Hint Resolve on_st_same on_queue_same ext_same : respects.

(** Worlds that differ in the kind of store only. *)
Definition world_rel {S1 S2 Q} (R : S1 → S2 → Prop) (w1 : World S1 Q) (w2 : World S2 Q) : Prop :=
  R (w_store w1) (w_store w2) ∧ w_queue w1 = w_queue w2 ∧ w_ext w1 = w_ext w2 ∧
  w_inline w1 = w_inline w2 ∧ w_seen w1 = w_seen w2 ∧ w_log w1 = w_log w2.

Section world_sim.
Context {S1 S2 Q : Type} (R : S1 → S2 → Prop).

Lemma on_st_sim {A} (m1 : st (S1 * Ext) A) (m2 : st (S2 * Ext) A) :
  sim (with_ext R) m1 m2 → sim (world_rel (Q:=Q) R) (on_st m1) (on_st m2).
Proof.
  intros Hm. eapply sim_zoom; [| |exact Hm].
  - by intros w1 w2 (? & ? & ? & _).
  - intros w1 w2 t1 t2 (? & ? & ? & ? & ? & ?) (? & ?). by split_and!.
Qed.

Lemma on_queue_sim {A} (m : st (Q * Ext) A) : sim (world_rel R) (on_queue m) (on_queue m).
Proof.
  eapply (sim_zoom _ _ _ eq).
  - intros w1 w2 (_ & Hq & Hx & _). simpl. by rw Hq Hx.
  - intros w1 w2 t1 t2 (? & ? & ? & ? & ? & ?) ->. by split_and!.
  - by intros ? ? ->.
Qed.

Lemma ext_sim {A} (m : st Ext A) : sim (world_rel (Q:=Q) R) (ext m) (ext m).
Proof.
  eapply (sim_zoom _ _ _ eq).
  - by intros w1 w2 (_ & Hq & Hx & _).
  - intros w1 w2 t1 t2 (? & ? & ? & ? & ? & ?) ->. by split_and!.
  - by intros ? ? ->.
Qed.

Lemma set_inline_sim n : sim (world_rel (Q:=Q) R) (set_inline n) (set_inline n).
Proof. intros w1 w2 (? & ? & ? & ? & ? & ?). by split_and!. Qed.
Lemma add_seen_sim n : sim (world_rel (Q:=Q) R) (add_seen n) (add_seen n).
Proof. intros w1 w2 (? & ? & ? & ? & Hs & ?). split; [done|]. split_and!; try done. simpl. by rw Hs. Qed.
Lemma log_sim n : sim (world_rel (Q:=Q) R) (log n) (log n).
Proof. intros w1 w2 (? & ? & ? & ? & ? & Hs). split; [done|]. split_and!; try done. simpl. by rw Hs. Qed.
Lemma gets_inline_sim : sim (world_rel (Q:=Q) R) (gets w_inline) (gets w_inline).
Proof. apply sim_gets. by intros w1 w2 (? & ? & ? & ? & ? & ?). Qed.
Lemma gets_seen_sim : sim (world_rel (Q:=Q) R) (gets w_seen) (gets w_seen).
Proof. apply sim_gets. by intros w1 w2 (? & ? & ? & ? & ? & ?). Qed.
End world_sim.

#[export] Hint Resolve on_st_sim on_queue_sim ext_sim set_inline_sim add_seen_sim log_sim
  gets_inline_sim gets_seen_sim : sim.

Lemma enqueue_push `{Env} e q x :
  ∃ m x', enqueue e (q, x) = (Ok m, (mq_push m q, x')) ∧ qm_envelope m = e.
Proof.
  exists {| qm_message_id := uuid4_at (x_uuid x); qm_envelope := e; qm_receipt := None |}, (new_uuid x).2.
  split; reflexivity.
Qed.

(** ** Properties *)

(** the in-memory queue is first in, first out: whatever is enqueued comes
    back in that order, behind what was already waiting; acknowledging and
    failing a message do not touch the waiting ones, and the queue is empty exactly
    when nothing waits. *)
Theorem memory_queue_fifo `{Env} (q : MemoryQueue) (l : list EventEnvelope) x :
  let '(r, (q', _)) := map_st (enqueue (Q:=MemoryQueue)) l (q, x) in
  r = Ok (drop (length (mq_messages q)) (mq_messages q')) ∧
  map qm_envelope (mq_messages q') = map qm_envelope (mq_messages q) ++ l ∧
  (is_empty (q', x)).1 = Ok (bool_decide (mq_messages q = [] ∧ l = [])) ∧
  (dequeue (q', x)).1 = Ok (head (mq_messages q')).
Proof.
  assert (Hmap : ∀ q x, ∃ ms x', map_st (enqueue (Q:=MemoryQueue)) l (q, x)
    = (Ok ms, ({| mq_messages := mq_messages q ++ ms; mq_failed := mq_failed q; mq_acked := mq_acked q |}, x')) ∧
    map qm_envelope ms = l).
  { induction l as [|e l IH]; intros q0 x0.
    - exists [], x0. simpl. rw app_nil_r. by destruct q0.
    - destruct (enqueue_push e q0 x0) as (m & x1 & He & Hm).
      destruct (IH (mq_push m q0) x1) as (ms & x' & Heq & Hms). exists (m :: ms), x'.
      cbn [map_st]. unfold mbind, st_bind. rw He Heq. simpl. rw -app_assoc Hms Hm. done. }
  destruct (Hmap q x) as (ms & x' & -> & Hms). split_and!.
  - simpl. by rw drop_app_length.
  - simpl. by rw map_app Hms.
  - simpl. unfold ask_store. simpl. f_equal. symmetry.
    destruct (mq_messages q); simpl; [|try case_bool_decide; naive_solver].
    destruct ms; simpl in *; subst l; try case_bool_decide; naive_solver.
  - simpl. unfold run_store, mq_pop. simpl. by destruct (mq_messages q ++ ms).
Qed.
