(* ===== verification/ActionHandler.v ===== *)
(** * The action event handler ([src/application/action_event_handler.py],
    [src/application/executor.py])

    One [AgentActionEvent] is one step of a plan: the action is validated, turned
    into a suggestion, sent back for replanning, failed, or executed, and the next
    action follows, in the same invocation while the inline budget lasts, through
    the queue afterwards. *)

From S2P Require Import Prelude PyStr PyVal PyUuid Events Plans SubTasks Policies Env Client Definitions.
From S2P Require Import Records Validation Planning Stores World AgentRunIds AgentRunSync.

Definition ACTION_EXECUTION_ATTEMPTS : Z := 3.
Definition INLINE_ACTION_CHAIN_BUDGET : Z := 8.

(** The tools and the reporter the handler was built with. *)
Record Runtime := {
  rt_tools : ToolRegistry Tool;
  rt_sync : AgentRunSync
}.

(** [_replan_event] *)
Definition replan_event `{Env} (c : AgentContext) (plan : AgentPlan) (a : PlannedAction) (envelope : EventEnvelope)
    (stale : dict stale_entry) (reason : string) : st Ext RuntimeEvent :=
  let source := source_event c in
  let sb := base source in
  let payload := dict_del "entity_versions" (ev_payload sb) in
  let payload := dict_set "agentRunId" (PStr (pl_plan_id plan)) payload in
  let payload := dict_set "_agent_replan"
    (PDict [("reason", PStr reason); ("blockedActionId", PStr (ac_action_id a));
            ("staleEntities", stale_val stale)]) payload in
  let correlation := if ostr_truthy (ev_correlation_id sb) then ev_correlation_id sb
                     else ev_correlation_id (base (env_event envelope)) in
  b ← new_base (ev_event_type sb) (ev_workspace_id sb) (ev_project_id sb) payload correlation
        (child_causality envelope) (Some (ac_idempotency_key a +:+ ":replan"));
  match source with
  | ManualInvocationEvent _ actor => mret (ManualInvocationEvent b actor)
  | ScheduledEvent _ schedule => mret (ScheduledEvent b schedule)
  | _ => mret (DomainEvent b)
  end.

Section handler.
Context `{Env} {S Q : Type} `{StateStore S} `{Queue Q} (rt : Runtime).
Abbreviation M := (st (World S Q)).

(** [_trace] *)
Definition trace (event : RuntimeEvent) (event_name message : string) (plan_id action_id : option string)
    (data : dict pyval) : M unit :=
  t ← ext (new_trace event_name (ev_workspace_id (base event)) (ev_project_id (base event))
             plan_id action_id message data);
  on_st (append_trace_event t).

(** [self._trace(event, name, message, plan.plan_id, action.action_id, action_trace_data(action, extra))] *)
Definition trace_action (event : RuntimeEvent) (event_name message : string) (plan : AgentPlan)
    (a : PlannedAction) (extra : dict pyval) : M unit :=
  trace event event_name message (Some (pl_plan_id plan)) (Some (ac_action_id a)) (action_trace_data a extra).

Definition plan_status_item (plan : AgentPlan) : string * pyval :=
  ("plan_status", PStr (plan_status_value (pl_status plan))).

(** [action.with_status(s)] and [plan.replace_action(...)] with it *)
Definition set_action_status (plan : AgentPlan) (a : PlannedAction) (s : ActionStatus) :
    M (PlannedAction * AgentPlan) :=
  now ← ext utc_now;
  let updated := with_status now s a in
  now' ← ext utc_now;
  mret (updated, replace_action now' updated plan).

Definition report (plan : AgentPlan) (a : PlannedAction) (event_name : string) (message : string) : M unit :=
  ext (record_action_state (rt_sync rt) plan a event_name (Some message)).

Definition enqueue_event (event : RuntimeEvent) : M unit :=
  e ← ext (wrap event); on_queue (enqueue e) ;; mret tt.

(** [_enqueue_events] *)
Definition enqueue_events (l : list EventEnvelope) : M unit :=
  for_each (λ e, on_queue (enqueue e) ;; mret tt) l.

(** [_settle_subplan] *)
Definition settle_subplan (envelope : EventEnvelope) (plan : AgentPlan) (status : string)
    (message : option string) : M unit :=
  match pl_parent_run_id plan, pl_node_id plan with
  | Some run_id, Some node_id =>
      event ← ext (new_completed_event (pl_workspace_id plan) (pl_project_id plan) run_id node_id status
                (if ostr_truthy message then [("message", ostr message)] else [])
                (ev_correlation_id (base (env_event envelope))) (child_causality envelope));
      enqueue_event event ;;
      trace (env_event envelope) "subagent.settled"
        ("Subagent node " +:+ node_id +:+ " settled as " +:+ status +:+ ".") (Some run_id) None
        [("node_id", PStr node_id); ("sub_plan_id", PStr (pl_plan_id plan)); ("status", PStr status);
         ("settle_event_id", PStr (ev_event_id (base event)))]
  | _, _ => ext (validation_error "SubAgentCompletedEvent")
  end.

Definition reason_or (v : ValidationResult) (dflt : string) : string := ostr_or (vr_reason v) dflt.

Definition validation_item (v : ValidationResult) : string * pyval :=
  ("validation", PDict (validation_trace_data v)).
Definition result_item (r : ToolResult) : string * pyval := ("result", PDict (tool_result_trace_data r)).

(** The branch of a pre-validation that decided to suggest. *)
Definition handle_suggest (envelope : EventEnvelope) (plan : AgentPlan) (a : PlannedAction)
    (v : ValidationResult) : M unit :=
  let event := env_event envelope in
  result ← ext (approval_result a v);
  on_st (save_action_result result) ;;
  '(updated_action, updated_plan) ← set_action_status plan a ARequiresApproval;
  on_st (update_plan updated_plan) ;;
  report updated_plan updated_action "action.approval_required" "Action converted to user-facing suggestion." ;;
  on_st (record_idempotency_key (ac_idempotency_key a)) ;;
  enqueue_events (vr_emitted_events v) ;;
  trace event "action.approval_required" "Action converted to user-facing suggestion."
    (Some (pl_plan_id plan)) (Some (ac_action_id a))
    (action_trace_data updated_action [plan_status_item updated_plan; validation_item v; result_item result]) ;;
  when (is_subplan updated_plan) (settle_subplan envelope updated_plan "waiting_for_approval" None).

(** ... that decided to replan *)
Definition handle_replan (envelope : EventEnvelope) (plan : AgentPlan) (a : PlannedAction) (c : AgentContext)
    (v : ValidationResult) : M unit :=
  let event := env_event envelope in
  let message := "Action blocked because expected entity versions are stale." in
  '(updated_action, updated_plan) ← set_action_status plan a AStale;
  on_st (update_plan updated_plan) ;;
  report updated_plan updated_action "action.stale_context" message ;;
  trace event "action.stale_context" message (Some (pl_plan_id plan)) (Some (ac_action_id a))
    (action_trace_data updated_action [plan_status_item updated_plan; validation_item v]) ;;
  if is_subplan updated_plan then
    settle_subplan envelope updated_plan "failed" (Some (reason_or v "stale_context"))
  else
    replan ← ext (replan_event c updated_plan updated_action envelope (vr_stale_entities v)
                    (reason_or v "stale_context"));
    enqueue_event replan ;;
    trace event "plan.replan_enqueued" ("Enqueued replan for stale action " +:+ ac_action_id a +:+ ".")
      (Some (pl_plan_id updated_plan)) (Some (ac_action_id a))
      (action_trace_data updated_action
         [plan_status_item updated_plan; ("replan_event_type", PStr (ev_event_type (base replan)))]).

(** ... that failed the action *)
Definition handle_validation_fail (envelope : EventEnvelope) (plan : AgentPlan) (a : PlannedAction)
    (v : ValidationResult) : M unit :=
  let message := reason_or v "Action validation failed." in
  '(updated_action, updated_plan) ← set_action_status plan a AFailed;
  on_st (update_plan updated_plan) ;;
  report updated_plan updated_action "action.validation_failed" message ;;
  trace (env_event envelope) "action.validation_failed" message (Some (pl_plan_id plan)) (Some (ac_action_id a))
    (action_trace_data updated_action [plan_status_item updated_plan; validation_item v]) ;;
  when (is_subplan updated_plan)
    (settle_subplan envelope updated_plan "failed" (Some (reason_or v "validation_failed"))).

(** [executor.execute_one]; an execution is logged when the tool is found. *)
Definition execute_one (a : PlannedAction) (c : AgentContext) : M ToolResult :=
  tool ← lift_res (tool_get (rt_tools rt) (ac_tool_name a));
  log (LExecute (ac_idempotency_key a)) ;;
  ext (tl_execute tool a c).

(** The [except] clause around it. *)
Definition handle_execution_error (envelope : EventEnvelope) (running_plan : AgentPlan) (a : PlannedAction)
    (e : exn) : M unit :=
  let event := env_event envelope in
  '(failed_action, failed_plan) ← set_action_status running_plan a AFailed;
  on_st (update_plan failed_plan) ;;
  let failure_message := "Tool " +:+ ac_tool_name a +:+ " failed: " +:+ exn_str e in
  state_sync_error ← try_catch
    (report failed_plan failed_action "action.execution_error" failure_message ;; mret None)
    (λ sync_exc, mret (Some sync_exc));
  let error_data :=
    [plan_status_item failed_plan; ("error_type", PStr (exc_name e)); ("error", PStr (exn_str e))] ++
    match state_sync_error with
    | Some x => [("state_sync_error_type", PStr (exc_name x)); ("state_sync_error", PStr (exn_str x))]
    | None => []
    end in
  trace_action event "action.execution_error"
    ("Tool " +:+ ac_tool_name a +:+ " raised before returning a result.") failed_plan failed_action error_data ;;
  trace_action event "action.failed" failure_message failed_plan failed_action error_data ;;
  if is_subplan failed_plan
  then settle_subplan envelope failed_plan "failed" (Some failure_message)
  else raise e.

(** The branches of the post-validation: commit, *)
Definition handle_commit (self_next : EventEnvelope → AgentPlan → M unit) (envelope : EventEnvelope)
    (running_plan : AgentPlan) (a : PlannedAction) (result : ToolResult) (v : ValidationResult) : M unit :=
  let message := "Completed action " +:+ ac_action_id a in
  '(updated_action, updated_plan) ← set_action_status running_plan a ACompleted;
  on_st (update_plan updated_plan) ;;
  report updated_plan updated_action "action.completed" message ;;
  on_st (record_idempotency_key (ac_idempotency_key a)) ;;
  enqueue_events (vr_emitted_events v) ;;
  trace_action (env_event envelope) "action.completed" message updated_plan updated_action
    [plan_status_item updated_plan; result_item result; validation_item v] ;;
  self_next envelope updated_plan.

(** retry, *)
Definition handle_retry (envelope : EventEnvelope) (plan running_plan : AgentPlan) (a : PlannedAction)
    (result : ToolResult) (v : ValidationResult) : M unit :=
  let event := env_event envelope in
  '(retry_action, retry_plan) ← set_action_status running_plan a APending;
  on_st (update_plan retry_plan) ;;
  retry_event ← ext (new_action_event (pl_workspace_id plan) (pl_project_id plan) (pl_plan_id plan) (ac_action_id a)
                       (ev_correlation_id (base event)) (child_causality envelope));
  retry_envelope ← ext (new_envelope retry_event (env_attempt envelope + 1));
  on_queue (enqueue retry_envelope) ;;
  let retry_message := reason_or v "Action requested retry." in
  report retry_plan retry_action "action.retry_scheduled" retry_message ;;
  trace_action event "action.retry_scheduled" retry_message retry_plan retry_action
    [plan_status_item retry_plan; ("attempt", PInt (env_attempt envelope + 1));
     ("max_attempts", PInt ACTION_EXECUTION_ATTEMPTS); result_item result; validation_item v;
     ("retry_event_id", PStr (ev_event_id (base retry_event)))].

(** and giving up. *)
Definition handle_post_failed (envelope : EventEnvelope) (running_plan : AgentPlan) (a : PlannedAction)
    (result : ToolResult) (v : ValidationResult) : M unit :=
  let message := reason_or v "Action failed validation after execution." in
  '(updated_action, updated_plan) ← set_action_status running_plan a AFailed;
  on_st (update_plan updated_plan) ;;
  report updated_plan updated_action "action.failed" message ;;
  trace_action (env_event envelope) "action.failed" message updated_plan updated_action
    [plan_status_item updated_plan; result_item result; validation_item v] ;;
  when (is_subplan updated_plan)
    (settle_subplan envelope updated_plan "failed" (Some (reason_or v "post_validation_failed"))).

(** What follows a tool's result. *)
Definition handle_result (self_next : EventEnvelope → AgentPlan → M unit) (envelope : EventEnvelope)
    (plan running_plan : AgentPlan) (running_action a : PlannedAction) (result : ToolResult) : M unit :=
  on_st (save_action_result result) ;;
  let v := validate_after_execution result in
  trace (env_event envelope) "action.post_validation"
    ("Post-execution validation decided " +:+ decision_value (vr_decision v) +:+ ".")
    (Some (pl_plan_id running_plan)) (Some (ac_action_id a))
    (action_trace_data running_action [plan_status_item running_plan; validation_item v; result_item result]) ;;
  if bool_decide (vr_decision v = DCommit) then handle_commit self_next envelope running_plan a result v
  else if bool_decide (vr_decision v = DRetry) && (env_attempt envelope + 1 <? ACTION_EXECUTION_ATTEMPTS)
  then handle_retry envelope plan running_plan a result v
  else handle_post_failed envelope running_plan a result v.

(** The branch that executes the action. *)
Definition handle_execute (self_next : EventEnvelope → AgentPlan → M unit) (envelope : EventEnvelope)
    (plan : AgentPlan) (a : PlannedAction) (c : AgentContext) : M unit :=
  let message := "Executing tool " +:+ ac_tool_name a +:+ " for action " +:+ ac_action_id a +:+ "." in
  '(running_action, running_plan) ← set_action_status plan a ARunning;
  report running_plan running_action "action.executing" message ;;
  on_st (update_plan running_plan) ;;
  trace_action (env_event envelope) "action.executing" message running_plan running_action
    [plan_status_item running_plan] ;;
  outcome ← try_catch (r ← execute_one a c; mret (inl r)) (λ e, mret (inr e));
  match outcome with
  | inl result => handle_result self_next envelope plan running_plan running_action a result
  | inr e => handle_execution_error envelope running_plan a e
  end.

(** The handling of a pending action in a context. *)
Definition handle_pending (self_next : EventEnvelope → AgentPlan → M unit) (envelope : EventEnvelope)
    (plan : AgentPlan) (a : PlannedAction) (snapshot : ContextSnapshot) : M unit :=
  let event := env_event envelope in
  let c := sn_context snapshot in
  duplicate ← on_st (check_idempotency_key (ac_idempotency_key a));
  if (duplicate : bool) then
    trace_action event "action.duplicate" "Skipped duplicate action execution." plan a
      [plan_status_item plan; ("duplicate_idempotency_key", PBool true)]
  else
    trace_action event "action.selected" ("Selected action " +:+ ac_action_id a +:+ " for execution.") plan a
      [plan_status_item plan; ("context_snapshot_ref", PStr (sn_ref snapshot));
       ("context", PDict (context_trace_data c))] ;;
    v ← ext (validate_before_execution a c);
    trace_action event "action.pre_validation"
      ("Pre-execution validation decided " +:+ decision_value (vr_decision v) +:+ ".") plan a
      [validation_item v] ;;
    match vr_decision v with
    | DSuggest => handle_suggest envelope plan a v
    | DReplan => handle_replan envelope plan a c v
    | DFail => handle_validation_fail envelope plan a v
    | _ => handle_execute self_next envelope plan a c
    end.

(** The next action: handled in the same invocation, *)
Definition chain_action (self : EventEnvelope → M unit) (plan : AgentPlan) (next_action : PlannedAction)
    (event : RuntimeEvent) (position : Z) : M unit :=
  trace_action event "action.chained"
    ("Continuing action " +:+ ac_action_id next_action +:+ " in the same invocation.") plan next_action
    [("inline_chain_position", PInt position)] ;;
  e ← ext (wrap event);
  self e.

(** or through the queue. *)
Definition queue_action (plan : AgentPlan) (next_action : PlannedAction) (event : RuntimeEvent) : M unit :=
  enqueue_event event ;;
  trace_action event "action.enqueued" ("Enqueued next action " +:+ ac_action_id next_action) plan next_action
    [("queue_event_id", PStr (ev_event_id (base event))); ("queue_event_type", PStr (ev_event_type (base event)))].

Definition continue_with (self : EventEnvelope → M unit) (plan : AgentPlan) (next_action : PlannedAction)
    (event : RuntimeEvent) (used : Z) : M unit :=
  if negb (ac_requires_approval next_action) && (used <? INLINE_ACTION_CHAIN_BUDGET)
  then set_inline (used + 1) ;; chain_action self plan next_action event (used + 1)
  else queue_action plan next_action event.

(** [_enqueue_next_action]: [self] handles the next action's envelope. *)
Definition enqueue_next_action (self : EventEnvelope → M unit) (envelope : EventEnvelope) (plan : AgentPlan) :
    M unit :=
  let parent := env_event envelope in
  match next_pending_action plan with
  | None =>
      let no_pending event_name message :=
        trace parent event_name message (Some (pl_plan_id plan)) None
          [("plan_id", PStr (pl_plan_id plan)); plan_status_item plan; ("action_count", pnat_len (pl_actions plan));
           ("completed_action_ids", pstr_list (str_sorted (elements (completed_action_ids plan))))] in
      if bool_decide (pl_status plan = PCompleted) then
        if is_subplan plan then
          trace parent "plan.completed"
            ("Sub-plan " +:+ pl_plan_id plan +:+ " completed for node " +:+ (match pl_node_id plan with Some s => s | None => "None" end) +:+ ".")
            (Some (pl_plan_id plan)) None [plan_status_item plan; ("node_id", ostr (pl_node_id plan))] ;;
          settle_subplan envelope plan "completed" None
        else
          ext (record_run_completed (rt_sync rt) plan) ;;
          no_pending "plan.completed" ("Plan " +:+ pl_plan_id plan +:+ " has no remaining pending actions.")
      else
        no_pending "plan.no_pending_actions"
          ("Plan " +:+ pl_plan_id plan +:+ " has no executable actions in status " +:+
           plan_status_value (pl_status plan) +:+ ".")
  | Some next_action =>
      event ← ext (new_action_event (pl_workspace_id plan) (pl_project_id plan) (pl_plan_id plan)
                     (ac_action_id next_action) (ev_correlation_id (base parent)) (child_causality envelope));
      used ← gets w_inline;
      continue_with self plan next_action event used
  end.

(** [handle], with the recursive call as a parameter. *)
Definition handle_action_step (self : EventEnvelope → M unit) (envelope : EventEnvelope) : M unit :=
  let self_next := enqueue_next_action self in
  match env_event envelope with
  | AgentActionEvent b plan_id action_id =>
      let event := env_event envelope in
      plan ← on_st (get_plan (ev_workspace_id b) plan_id);
      match plan with
      | None => raise (Exn PlanNotFoundError plan_id)
      | Some plan =>
          match get_action plan action_id with
          | None => raise (Exn ActionNotFoundError action_id)
          | Some a =>
              if negb (has_status APending a) then
                trace_action event "action.not_pending" "Skipped action because hydrated state is not pending."
                  plan a [plan_status_item plan] ;;
                when (has_status ACompleted a || has_status ASkipped a) (self_next envelope plan)
              else
                snapshot ← on_st (get_context_snapshot (ev_workspace_id b) (pl_context_snapshot_ref plan));
                match snapshot with
                | None => raise (Exn PlanNotFoundError ("context:" +:+ pl_context_snapshot_ref plan))
                | Some snapshot => handle_pending self_next envelope plan a snapshot
                end
          end
      end
  | _ => raise (Exn TypeError "ActionEventHandler can only process AgentActionEvent envelopes.")
  end.

(** The recursion, unrolled [fuel] times; [bottom] is what is left after that. *)
Fixpoint handle_action_n (bottom : EventEnvelope → M unit) (fuel : nat) (envelope : EventEnvelope) : M unit :=
  match fuel with
  | O => bottom envelope
  | Datatypes.S fuel' => handle_action_step (handle_action_n bottom fuel') envelope
  end.

(** The budget bounds the recursion. *)
Definition handle_action : EventEnvelope → M unit :=
  handle_action_n (λ _, raise out_of_fuel) (Datatypes.S (Z.to_nat INLINE_ACTION_CHAIN_BUDGET)).
End handler.

(** ** Lemmas *)

(** *** Termination: worlds that agree and have used at least [k] of the budget *)

Definition agree {S Q} (k : Z) (w1 w2 : World S Q) : Prop := w1 = w2 ∧ k ≤ w_inline w1.

Section termination.
Context `{Env} {S Q : Type} `{StateStore S} `{Queue Q} (rt : Runtime) (k : Z).
Abbreviation M := (st (World S Q)).
Abbreviation R := (agree (S:=S) (Q:=Q) k).

Lemma agree_refl {A} (m : M A) : respects same_run m → sim R m m.
Proof. intros Hm w1 w2 [-> Hk]. split; [done|]. destruct (Hm w2) as (He & _). split; [done|]. by rw He. Qed.

Lemma agree_st {A} (m : st (S * Ext) A) : sim R (on_st m) (on_st m).
Proof. apply agree_refl, on_st_same. Qed.
Lemma agree_queue {A} (m : st (Q * Ext) A) : sim R (on_queue m) (on_queue m).
Proof. apply agree_refl, on_queue_same. Qed.
Lemma agree_ext {A} (m : st Ext A) : sim R (ext m) (ext m).
Proof. apply agree_refl, ext_same. Qed.
Lemma agree_log e : sim R (log e) (log e).
Proof. by intros w1 w2 [-> Hk]. Qed.
End termination.

#[export] Hint Resolve agree_st agree_queue agree_ext agree_log : sim.

(** The handlers as unfolded by the proofs about all of them. *)
Ltac unfold_handlers :=
  unfold handle_pending, handle_execute, handle_result, handle_commit, handle_retry, handle_post_failed,
    handle_execution_error, handle_validation_fail, handle_replan, handle_suggest, execute_one,
    settle_subplan, enqueue_events, enqueue_event, report, set_action_status, trace_action, trace.

Section termination2.
Context `{Env} {S Q : Type} `{StateStore S} `{Queue Q} (rt : Runtime).
Abbreviation M := (st (World S Q)).

Lemma continue_agree k (self1 self2 : EventEnvelope → M unit) p a event :
  (k < INLINE_ACTION_CHAIN_BUDGET → ∀ e, sim (agree (k + 1)) (self1 e) (self2 e)) →
  sim (agree k) (gets w_inline ≫= continue_with self1 p a event) (gets w_inline ≫= continue_with self2 p a event).
Proof.
  intros Hself w1 w [-> Hk].
  change ((continue_with self1 p a event (w_inline w) w).1 = (continue_with self2 p a event (w_inline w) w).1 ∧
    agree k (continue_with self1 p a event (w_inline w) w).2 (continue_with self2 p a event (w_inline w) w).2).
  unfold continue_with. destruct (negb _ && _) eqn:Eb.
  - apply andb_true_iff in Eb as [_ Eb%Z.ltb_lt]. specialize (Hself ltac:(lia)).
    assert (Hs : sim (agree (k + 1)) (chain_action self1 p a event (w_inline w + 1))
      (chain_action self2 p a event (w_inline w + 1))) by (unfold chain_action, trace_action, trace; solve_sim).
    set (w' := (set_inline (w_inline w + 1) w).2). destruct (Hs w' w') as [He [Hw Hin]].
    { split; [done|]. simpl. lia. }
    split; [exact He|]. split; [exact Hw|]. change (k ≤ w_inline (chain_action self1 p a event (w_inline w + 1) w').2). lia.
  - assert (Hs : sim (agree k) (queue_action p a event) (queue_action p a event))
      by (unfold queue_action, enqueue_event, trace_action, trace; solve_sim).
    by apply Hs.
Qed.

Lemma enqueue_next_agree k (self1 self2 : EventEnvelope → M unit) e p :
  (k < INLINE_ACTION_CHAIN_BUDGET → ∀ e, sim (agree (k + 1)) (self1 e) (self2 e)) →
  sim (agree k) (enqueue_next_action rt self1 e p) (enqueue_next_action rt self2 e p).
Proof.
  intros Hself. unfold enqueue_next_action. destruct (next_pending_action p) as [a|].
  - apply sim_bind; [auto with sim|intros event]. by apply continue_agree.
  - unfold settle_subplan, enqueue_event, trace. solve_sim.
Qed.

Lemma handle_step_agree k (self1 self2 : EventEnvelope → M unit) e :
  (k < INLINE_ACTION_CHAIN_BUDGET → ∀ e, sim (agree (k + 1)) (self1 e) (self2 e)) →
  sim (agree k) (handle_action_step rt self1 e) (handle_action_step rt self2 e).
Proof.
  intros Hself. pose proof (λ e p, enqueue_next_agree k self1 self2 e p Hself) as Hnext.
  unfold handle_action_step. unfold_handlers. solve_sim.
Qed.
End termination2.

(** *** Tool executions: what is executed was not recorded, what is recorded stays *)

Definition is_execution (e : log_entry) : bool := match e with LExecute _ => true | _ => false end.

(** The number of executions an extension of the log adds is at most [n] more
    than the part of the inline budget used. *)
Definition executes {S Q} (n : Z) (w w' : World S Q) : Prop :=
  ∃ l, w_log w' = w_log w ++ l ∧
    Z.of_nat (length (List.filter is_execution l)) ≤ n + (w_inline w' - w_inline w) ∧ w_inline w ≤ w_inline w'.

#[export] Instance executes_preorder {S Q} : PreOrder (executes (S:=S) (Q:=Q) 0).
Proof.
  split; [intros w; exists []; rw app_nil_r; simpl; split_and!; [done|lia|lia]|].
  intros x y z (l1 & H1 & HF1 & ?) (l2 & H2 & HF2 & ?). exists (l1 ++ l2).
  rw H2 H1 app_assoc List.filter_app length_app. split_and!; [done|lia|lia].
Qed.

Lemma executes_trans {S Q} n m (x y z : World S Q) : executes n x y → executes m y z → executes (n + m) x z.
Proof.
  intros (l1 & H1 & HF1 & ?) (l2 & H2 & HF2 & ?). exists (l1 ++ l2).
  rw H2 H1 app_assoc List.filter_app length_app. split_and!; [done|lia|lia].
Qed.

Lemma executes_weaken {S Q} n m (x y : World S Q) : n ≤ m → executes n x y → executes m x y.
Proof. intros Hn (l & ? & ? & ?). exists l. split_and!; [done|lia|done]. Qed.

Lemma same_run_executes {S Q A} (m : st (World S Q) A) : respects same_run m → respects (executes 0) m.
Proof.
  intros Hm w. destruct (Hm w) as (Hi & _ & Hl). exists []. rw app_nil_r Hl Hi /=. split_and!; [done|lia|lia].
Qed.

Lemma respects_bind_executes {S Q A B} n m (p : st (World S Q) A) (k : A → st (World S Q) B) :
  0 ≤ m → respects (executes n) p → (∀ a, respects (executes m) (k a)) → respects (executes (n + m)) (p ≫= k).
Proof.
  intros Hm Hp Hk w. unfold mbind, st_bind. specialize (Hp w). destruct (p w) as [[a|e] w1]; simpl in *.
  - eapply executes_trans; [exact Hp|apply Hk].
  - eapply executes_weaken; [|exact Hp]. lia.
Qed.

Section budget.
Context `{Env} {S Q : Type} `{StateStore S} `{Queue Q} (rt : Runtime).
Abbreviation M := (st (World S Q)).

Lemma on_st_executes {A} (m : st (S * Ext) A) : respects (executes 0) (on_st (Q:=Q) m).
Proof. apply same_run_executes, on_st_same. Qed.
Lemma on_queue_executes {A} (m : st (Q * Ext) A) : respects (executes 0) (on_queue (S:=S) m).
Proof. apply same_run_executes, on_queue_same. Qed.
Lemma ext_executes {A} (m : st Ext A) : respects (executes 0) (ext (S:=S) (Q:=Q) m).
Proof. apply same_run_executes, ext_same. Qed.
End budget.

#[export] Hint Resolve on_st_executes on_queue_executes ext_executes : respects.

Section budget2.
Context `{Env} {S Q : Type} `{StateStore S} `{Queue Q} (rt : Runtime).
Abbreviation M := (st (World S Q)).

Lemma execute_one_executes a c : respects (executes 1) (execute_one (S:=S) (Q:=Q) rt a c).
Proof.
  unfold execute_one. apply (respects_bind_executes 0 1); [lia|apply respects_lift; apply _|].
  intros t. apply (respects_bind_executes 1 0); [lia| |intros; apply ext_executes].
  intros w. eexists [_]. split; [reflexivity|]. simpl. lia.
Qed.

Lemma continue_executes (self : EventEnvelope → M unit) p a event u :
  (∀ e, respects (executes 1) (self e)) →
  ∀ w, w_inline w = u → executes 0 w (continue_with self p a event u w).2.
Proof.
  intros Hself w Hu. unfold continue_with. destruct (negb _ && _).
  - assert (Hc : respects (executes 1) (chain_action self p a event (u + 1))).
    { unfold chain_action. apply (respects_bind_executes 0 1); [lia|unfold trace_action, trace; solve_respects|].
      intros _. apply (respects_bind_executes 0 1); [lia|apply ext_executes|done]. }
    change (executes 0 w (chain_action self p a event (u + 1) (set_inline (u + 1) w).2).2).
    set (w1 := (set_inline (u + 1) w).2). assert (Hw1 : w_inline w1 = u + 1 ∧ w_log w1 = w_log w) by done.
    clearbody w1. destruct Hw1 as [Hw1 Hl1], (Hc w1) as (l & Hl & Hn & Hi).
    exists l. rw Hl Hl1. split_and!; [done|lia|lia].
  - assert (Hc : respects (executes 0) (queue_action (S:=S) (Q:=Q) p a event)); [|apply Hc].
    unfold queue_action, enqueue_event, trace_action, trace. solve_respects.
Qed.

Lemma enqueue_next_executes (self : EventEnvelope → M unit) e p :
  (∀ e, respects (executes 1) (self e)) → respects (executes 0) (enqueue_next_action rt self e p).
Proof.
  intros Hself. unfold enqueue_next_action. destruct (next_pending_action p) as [a|].
  - apply respects_bind; [apply _|apply ext_executes|]. intros event w. by apply continue_executes.
  - unfold settle_subplan, enqueue_event, trace. solve_respects.
Qed.

Lemma handle_execute_executes self_next e p a c :
  (∀ e p, respects (executes 0) (self_next e p)) →
  respects (executes 1) (handle_execute (S:=S) (Q:=Q) rt self_next e p a c).
Proof.
  intros Hn. unfold handle_execute.
  apply (respects_bind_executes 0 1); [lia|unfold set_action_status; solve_respects|intros [ra rp]].
  apply (respects_bind_executes 0 1); [lia|unfold report; solve_respects|intros _].
  apply (respects_bind_executes 0 1); [lia|solve_respects|intros _].
  apply (respects_bind_executes 0 1); [lia|unfold trace_action, trace; solve_respects|intros _].
  apply (respects_bind_executes 1 0); [lia| |].
  - intros w. unfold try_catch.
    pose proof (respects_bind_executes 1 0 (execute_one rt a c) (λ r, mret (inl (B:=exn) r)) ltac:(lia)
      (execute_one_executes a c) (λ r, respects_ret _ _) w) as Hx.
    by destruct ((execute_one rt a c ≫= _) w) as [[r|x] w'].
  - intros [r|x]; unfold_handlers; solve_respects.
Qed.

Lemma handle_step_executes (self : EventEnvelope → M unit) e :
  (∀ e, respects (executes 1) (self e)) → respects (executes 1) (handle_action_step rt self e).
Proof.
  intros Hself. pose proof (λ e p, enqueue_next_executes self e p Hself) as Hn.
  assert (Hweak : ∀ A (m : M A), respects (executes 0) m → respects (executes 1) m).
  { intros A m Hm w. eapply executes_weaken; [|apply Hm]. lia. }
  unfold handle_action_step. destruct (env_event e) as [| | |b pid aid| |]; try (apply Hweak, respects_raise; apply _).
  apply (respects_bind_executes 0 1); [lia|solve_respects|intros [p|]]; [|apply Hweak; solve_respects].
  destruct (get_action p aid) as [a|]; [|apply Hweak; solve_respects].
  destruct (negb _); [apply Hweak; unfold trace_action, trace; solve_respects|].
  apply (respects_bind_executes 0 1); [lia|solve_respects|intros [s|]]; [|apply Hweak; solve_respects].
  unfold handle_pending. apply (respects_bind_executes 0 1); [lia|solve_respects|intros [|]];
    [apply Hweak; unfold trace_action, trace; solve_respects|].
  apply (respects_bind_executes 0 1); [lia|unfold trace_action, trace; solve_respects|intros _].
  apply (respects_bind_executes 0 1); [lia|solve_respects|intros v].
  apply (respects_bind_executes 0 1); [lia|unfold trace_action, trace; solve_respects|intros _].
  destruct (vr_decision v); try (by apply handle_execute_executes);
    apply Hweak; unfold_handlers; solve_respects.
Qed.
End budget2.

(** ** With another store *)

Section refinement.
Context `{Env} {S1 S2 Q : Type} (R : S1 → S2 → Prop) `{HQ : Queue Q} {H1 : StateStore S1} {H2 : StateStore S2}.
Context {HS : StoreSim R H1 H2} (rt : Runtime).

Lemma enqueue_next_sim (self1 : EventEnvelope → st (World S1 Q) unit) (self2 : EventEnvelope → st (World S2 Q) unit) e p :
  (∀ e, sim (world_rel R) (self1 e) (self2 e)) →
  sim (world_rel R) (enqueue_next_action rt self1 e p) (enqueue_next_action rt self2 e p).
Proof.
  intros Hself. unfold enqueue_next_action, continue_with, chain_action, queue_action. unfold_handlers. solve_sim.
Qed.

Lemma handle_step_sim (self1 : EventEnvelope → st (World S1 Q) unit) (self2 : EventEnvelope → st (World S2 Q) unit) e :
  (∀ e, sim (world_rel R) (self1 e) (self2 e)) →
  sim (world_rel R) (handle_action_step rt self1 e) (handle_action_step rt self2 e).
Proof.
  intros Hself. pose proof (λ e p, enqueue_next_sim self1 self2 e p Hself) as Hn.
  unfold handle_action_step. unfold_handlers. solve_sim.
Qed.
End refinement.

(** ** Properties *)

(** The recursion through the inline chain ends: once the part of the
    budget that is left is exceeded, neither more fuel nor what stands for the
    remaining recursion makes a difference, for every store and queue. *)
Theorem handle_action_terminates `{Env} {S Q : Type} `{StateStore S} `{Queue Q} (rt : Runtime)
    (bottom : EventEnvelope → st (World S Q) unit) (fuel : nat) (e : EventEnvelope) (w : World S Q) :
  0 ≤ w_inline w → (0 < fuel)%nat → INLINE_ACTION_CHAIN_BUDGET - w_inline w < Z.of_nat fuel →
  handle_action_n rt bottom fuel e w = handle_action rt e w.
Proof.
  intros Hw Hpos Hfuel.
  assert (Hall : ∀ n m k b1 b2 e, INLINE_ACTION_CHAIN_BUDGET - k < Z.of_nat n → INLINE_ACTION_CHAIN_BUDGET - k < Z.of_nat m →
    (0 < n)%nat → (0 < m)%nat →
    sim (agree (S:=S) (Q:=Q) k) (handle_action_n rt b1 n e) (handle_action_n rt b2 m e)).
  { induction n as [|n IH]; intros [|m] k b1 b2 e' Hn Hm Hn0 Hm0; try lia. simpl.
    apply handle_step_agree. intros Hk e''. apply IH; lia. }
  assert (Hs : sim (agree (w_inline w)) (handle_action_n rt bottom fuel e) (handle_action rt e)).
  { apply Hall; unfold INLINE_ACTION_CHAIN_BUDGET in *; lia. }
  destruct (Hs w w) as [Heq [Hst _]]; [done|].
  destruct (handle_action_n rt bottom fuel e w), (handle_action rt e w). simpl in *. congruence.
Qed.

(** One invocation executes at most one tool more than the part of the
    inline budget it uses up, hence at most nine in all over the life of the
    handler's budget, whatever the plan, the tools, the store and the queue are. *)
Theorem handle_action_execution_budget `{Env} {S Q : Type} `{StateStore S} `{Queue Q} (rt : Runtime)
    (e : EventEnvelope) (w : World S Q) :
  let w' := (handle_action rt e w).2 in
  w_inline w ≤ w_inline w' ∧
  ∃ l, w_log w' = w_log w ++ l ∧
    Z.of_nat (length (List.filter is_execution l)) ≤ 1 + (w_inline w' - w_inline w).
Proof.
  assert (Hall : ∀ n e, respects (executes (S:=S) (Q:=Q) 1) (handle_action_n rt (λ _, raise out_of_fuel) n e)).
  { induction n as [|n IH]; intros e'; simpl; [|by apply handle_step_executes].
    intros w'. exists []. simpl. rw app_nil_r. split_and!; [done|lia|lia]. }
  destruct (Hall (Datatypes.S (Z.to_nat INLINE_ACTION_CHAIN_BUDGET)) e w) as (l & Hl & Hn & Hi).
  split; [exact Hi|]. exists l. done.
Qed.

(** The handler does not depend on the kind of store: with two stores that
    promise the same to a client it returns or raises the same, and leaves the
    same queue, log and environment and related stores; in particular the logging
    proxy around any store is invisible to it. *)
Theorem handle_action_store_independent `{Env} {S1 S2 Q : Type} (R : S1 → S2 → Prop) `{Queue Q}
    {H1 : StateStore S1} {H2 : StateStore S2} {HS : StoreSim R H1 H2} rt (e : EventEnvelope) :
  sim (world_rel R) (handle_action (S:=S1) (Q:=Q) rt e) (handle_action (S:=S2) (Q:=Q) rt e).
Proof.
  unfold handle_action. generalize (Datatypes.S (Z.to_nat INLINE_ACTION_CHAIN_BUDGET)). intros n. revert e.
  induction n as [|n IH]; intros e; [apply sim_raise|]. by apply handle_step_sim.
Qed.
