(* ===== verification/AtMostOnce.v ===== *)
(** * At most one execution per recorded key, on any store that keeps keys

    [KeyedStore S recorded] is what a store promises the action handler about
    idempotency keys: [recorded s] only grows, does not change between the check
    of a key and the execution, and a check that answers "no" is right.  On every
    such store the handler executes nothing under a recorded key. *)

From S2P Require Import Prelude PyStr PyVal PyUuid Events Plans SubTasks Policies Env Client Definitions.
From S2P Require Import Records AgentRunIds AgentRunSync Validation Planning Stores World ActionHandler.

(** ** What the store promises *)

Definition keys_grow {S} (recorded : S → gset string) (x y : S * Ext) : Prop := recorded x.1 ⊆ recorded y.1.
Definition keys_same {S} (recorded : S → gset string) (x y : S * Ext) : Prop := recorded y.1 = recorded x.1.

#[export] Instance keys_grow_preorder {S} (f : S → gset string) : PreOrder (keys_grow f).
Proof. split; [intros x; by unfold keys_grow|]. intros x y z H1 H2. unfold keys_grow in *. set_solver. Qed.
#[export] Instance keys_same_preorder {S} (f : S → gset string) : PreOrder (keys_same f).
Proof. split; [by intros x|]. intros x y z H1 H2. unfold keys_same in *. congruence. Qed.

Class KeyedStore (S : Type) (recorded : S → gset string) `{StateStore S} : Prop := {
  keyed_get_plan w p : respects (keys_grow recorded) (get_plan w p);
  keyed_snapshot w r : respects (keys_grow recorded) (get_context_snapshot w r);
  keyed_save_result r : respects (keys_grow recorded) (save_action_result r);
  keyed_record k : respects (keys_grow recorded) (record_idempotency_key k);
  keyed_update p : respects (keys_same recorded) (update_plan p);
  keyed_trace t : respects (keys_same recorded) (append_trace_event t);
  keyed_check k x :
    let '(r, x') := check_idempotency_key k x in
    recorded x.1 ⊆ recorded x'.1 ∧ (r = Ok false → k ∉ recorded x'.1)
}.

(** ** Worlds over such a store *)

Section worlds.
Context {S Q : Type} (recorded : S → gset string).
Abbreviation W := (World S Q).

(** Recorded keys stay recorded and nothing is executed under a recorded key. *)
Definition once (w w' : W) : Prop :=
  recorded (w_store w) ⊆ recorded (w_store w') ∧
  ∃ l, w_log w' = w_log w ++ l ∧ ∀ k, LExecute k ∈ l → k ∉ recorded (w_store w).

#[export] Instance once_preorder : PreOrder once.
Proof.
  split.
  - intros w. split; [done|]. exists []. rw app_nil_r. split; [done|]. by intros k ?%not_elem_of_nil.
  - intros x y z (Hk1 & l1 & H1 & HF1) (Hk2 & l2 & H2 & HF2). split; [set_solver|]. exists (l1 ++ l2).
    rw H2 H1 app_assoc. split; [done|]. intros k [Hk|Hk]%elem_of_app; [by apply HF1|].
    apply HF2 in Hk. set_solver.
Qed.

(** Neither the recorded keys nor the log change. *)
Definition keeps (w w' : W) : Prop := recorded (w_store w') = recorded (w_store w) ∧ w_log w' = w_log w.

#[export] Instance keeps_preorder : PreOrder keeps.
Proof. split; [by intros w|]. intros x y z [? ?] [? ?]. split; congruence. Qed.

Lemma keeps_once (w w' : W) : keeps w w' → once w w'.
Proof.
  intros [Hk Hl]. split; [by rw Hk|]. exists []. rw Hl app_nil_r. split; [done|]. by intros k ?%not_elem_of_nil.
Qed.

Lemma respects_keeps_once {A} (m : st W A) : respects keeps m → respects once m.
Proof. intros Hm w. by apply keeps_once. Qed.

Lemma on_st_keeps {A} (m : st (S * Ext) A) : respects (keys_same recorded) m → respects keeps (on_st m).
Proof.
  intros Hm w. unfold on_st, zoom. specialize (Hm (w_store w, w_ext w)). simpl.
  by destruct (m (w_store w, w_ext w)).
Qed.

Lemma on_st_once {A} (m : st (S * Ext) A) : respects (keys_grow recorded) m → respects once (on_st m).
Proof.
  intros Hm w. unfold on_st, zoom. specialize (Hm (w_store w, w_ext w)). simpl.
  destruct (m (w_store w, w_ext w)). split; [done|]. exists []. rw app_nil_r. split; [done|].
  by intros k ?%not_elem_of_nil.
Qed.

Lemma on_queue_keeps {A} (m : st (Q * Ext) A) : respects keeps (on_queue m).
Proof. intros w. unfold on_queue, zoom. simpl. by destruct (m _). Qed.
Lemma ext_keeps {A} (m : st Ext A) : respects keeps (ext m).
Proof. intros w. unfold ext, zoom. simpl. by destruct (m _). Qed.
Lemma set_inline_keeps n : respects keeps (set_inline n).
Proof. by intros w. Qed.

Lemma on_queue_once {A} (m : st (Q * Ext) A) : respects once (on_queue m).
Proof. apply respects_keeps_once, on_queue_keeps. Qed.
Lemma ext_once {A} (m : st Ext A) : respects once (ext m).
Proof. apply respects_keeps_once, ext_keeps. Qed.
Lemma set_inline_once n : respects once (set_inline n).
Proof. apply respects_keeps_once, set_inline_keeps. Qed.

(** Under a key that is not recorded. *)
Definition once_if {A} (k : string) (m : st W A) : Prop :=
  ∀ w, k ∉ recorded (w_store w) → once w (m w).2.

Lemma once_if_bind_keeps {A B} k (m : st W A) (f : A → st W B) :
  respects keeps m → (∀ a, once_if k (f a)) → once_if k (m ≫= f).
Proof.
  intros Hm Hf w Hk. unfold mbind, st_bind. specialize (Hm w). destruct (m w) as [[a|e] w1]; simpl in *.
  - etrans; [by apply keeps_once|]. apply Hf. by rw (proj1 Hm).
  - by apply keeps_once.
Qed.

Lemma once_if_bind {A B} k (m : st W A) (f : A → st W B) :
  once_if k m → (∀ a, respects once (f a)) → once_if k (m ≫= f).
Proof.
  intros Hm Hf w Hk. unfold mbind, st_bind. specialize (Hm w Hk). destruct (m w) as [[a|e] w1]; simpl in *; [|done].
  etrans; [exact Hm|apply Hf].
Qed.

Lemma once_if_once {A} k (m : st W A) : respects once m → once_if k m.
Proof. intros Hm w _. apply Hm. Qed.
End worlds.

#[export] Hint Resolve on_queue_keeps ext_keeps set_inline_keeps on_queue_once ext_once set_inline_once : respects.

Section keyed_worlds.
Context {S Q : Type} (recorded : S → gset string) `{KeyedStore S recorded}.

Lemma append_trace_keeps t : respects (keeps (Q:=Q) recorded) (on_st (append_trace_event t)).
Proof. apply on_st_keeps, keyed_trace. Qed.
Lemma update_plan_keeps p : respects (keeps (Q:=Q) recorded) (on_st (update_plan p)).
Proof. apply on_st_keeps, keyed_update. Qed.
Lemma append_trace_once t : respects (once (Q:=Q) recorded) (on_st (append_trace_event t)).
Proof. apply respects_keeps_once, append_trace_keeps. Qed.
Lemma update_plan_once p : respects (once (Q:=Q) recorded) (on_st (update_plan p)).
Proof. apply respects_keeps_once, update_plan_keeps. Qed.
Lemma get_plan_once a b : respects (once (Q:=Q) recorded) (on_st (get_plan a b)).
Proof. apply on_st_once, keyed_get_plan. Qed.
Lemma get_snapshot_once a b : respects (once (Q:=Q) recorded) (on_st (get_context_snapshot a b)).
Proof. apply on_st_once, keyed_snapshot. Qed.
Lemma save_result_once r : respects (once (Q:=Q) recorded) (on_st (save_action_result r)).
Proof. apply on_st_once, keyed_save_result. Qed.
Lemma record_once k : respects (once (Q:=Q) recorded) (on_st (record_idempotency_key k)).
Proof. apply on_st_once, keyed_record. Qed.
End keyed_worlds.

#[export] Hint Resolve append_trace_keeps update_plan_keeps append_trace_once update_plan_once get_plan_once
  get_snapshot_once save_result_once record_once : respects.

(** ** The handler *)

Section at_most_once.
Context `{Env} {S Q : Type} (recorded : S → gset string) `{KeyedStore S recorded} `{Queue Q} (rt : Runtime).
Abbreviation M := (st (World S Q)).

Lemma execute_one_once a c : once_if recorded (ac_idempotency_key a) (execute_one (S:=S) (Q:=Q) rt a c).
Proof.
  unfold execute_one. apply once_if_bind_keeps; [intros w; done|intros t].
  apply once_if_bind; [|intros _; apply respects_keeps_once, ext_keeps].
  intros w Hk. split; [done|]. eexists [_]. split; [reflexivity|]. by intros k [= ->]%list_elem_of_singleton.
Qed.

Lemma enqueue_next_once (self : EventEnvelope → M unit) e p :
  (∀ e, respects (once recorded) (self e)) → respects (once recorded) (enqueue_next_action rt self e p).
Proof.
  intros Hself. unfold enqueue_next_action. destruct (next_pending_action p) as [a|].
  - apply respects_bind; [apply _|apply ext_once|intros ev].
    apply respects_bind; [apply _|solve_respects|intros u].
    unfold continue_with, chain_action, queue_action, enqueue_event, trace_action, trace. solve_respects.
  - unfold settle_subplan, enqueue_event, trace. solve_respects.
Qed.

Lemma handle_execute_once self_next e p a c :
  (∀ e p, respects (once recorded) (self_next e p)) →
  once_if recorded (ac_idempotency_key a) (handle_execute (S:=S) (Q:=Q) rt self_next e p a c).
Proof.
  intros Hn. unfold handle_execute.
  apply once_if_bind_keeps; [unfold set_action_status; solve_respects|intros [ra rp]].
  apply once_if_bind_keeps; [unfold report; solve_respects|intros _].
  apply once_if_bind_keeps; [solve_respects|intros _].
  apply once_if_bind_keeps; [unfold trace_action, trace; solve_respects|intros _].
  apply once_if_bind.
  - intros w Hk. unfold try_catch.
    assert (Hx : once_if recorded (ac_idempotency_key a) (execute_one rt a c ≫= λ r, mret (M:=M) (inl (B:=exn) r))).
    { apply once_if_bind; [apply execute_one_once|]. intros r. apply respects_ret. apply _. }
    specialize (Hx w Hk). by destruct ((execute_one rt a c ≫= _) w) as [[r|x] w'].
  - intros [r|x]; unfold_handlers; solve_respects.
Qed.

(** What the handling of an action event does once the plan was read. *)
Lemma handle_step_rest (self : EventEnvelope → M unit) e b pid aid :
  env_event e = AgentActionEvent b pid aid → (∀ e, respects (once recorded) (self e)) →
  ∃ rest, handle_action_step rt self e = (on_st (get_plan (ev_workspace_id b) pid) ≫= rest) ∧
    ∀ p, respects (once recorded) (rest p).
Proof.
  intros E Hself. pose proof (λ e p, enqueue_next_once self e p Hself) as Hn.
  unfold handle_action_step. rw E. eexists. split; [reflexivity|]. intros [p|]; [|solve_respects].
  destruct (get_action p aid) as [a|]; [|solve_respects].
  destruct (negb _); [unfold trace_action, trace; solve_respects|].
  apply respects_bind; [apply _|solve_respects|intros [s|]]; [|solve_respects].
  intros w. unfold handle_pending. pose proof (keyed_check (ac_idempotency_key a) (w_store w, w_ext w)) as Hc.
  unfold mbind at 1, st_bind at 1. unfold on_st at 1, zoom at 1. cbn [lget store_lens].
  destruct (check_idempotency_key (ac_idempotency_key a) (w_store w, w_ext w)) as [r [s1 x1]].
  destruct Hc as [Hg Hf]. cbn [lput store_lens fst snd] in *. set (w1 := Build_World _ _ _ _ _ _).
  assert (H01 : once recorded w w1).
  { split; [exact Hg|]. exists []. rw app_nil_r. split; [done|]. by intros k ?%not_elem_of_nil. }
  destruct r as [[|]|x]; [| |done].
  { etrans; [exact H01|]. assert (respects (once recorded) (trace_action (S:=S) (Q:=Q) (env_event e)
      "action.duplicate" "Skipped duplicate action execution." p a
      [plan_status_item p; ("duplicate_idempotency_key", PBool true)])) as Ht; [|apply Ht].
    unfold trace_action, trace. solve_respects. }
  specialize (Hf eq_refl). etrans; [exact H01|].
  match goal with |- once _ w1 (?m w1).2 => assert (Hm : once_if recorded (ac_idempotency_key a) m); [|by apply Hm] end.
  apply once_if_bind_keeps; [unfold trace_action, trace; solve_respects|intros _].
  apply once_if_bind_keeps; [solve_respects|intros v].
  apply once_if_bind_keeps; [unfold trace_action, trace; solve_respects|intros _].
  destruct (vr_decision v); [by apply handle_execute_once| |by apply handle_execute_once| | |
    by apply handle_execute_once]; apply once_if_once; unfold_handlers; solve_respects.
Qed.

Lemma handle_step_once (self : EventEnvelope → M unit) e :
  (∀ e, respects (once recorded) (self e)) → respects (once recorded) (handle_action_step rt self e).
Proof.
  intros Hself. destruct (env_event e) as [| | |b pid aid| |] eqn:E;
    try (unfold handle_action_step; rw E; apply respects_raise; apply _).
  destruct (handle_step_rest self e b pid aid E Hself) as (rest & -> & Hrest).
  apply respects_bind; [apply _|solve_respects|exact Hrest].
Qed.

Lemma handle_action_n_once n e :
  respects (once recorded) (handle_action_n (S:=S) (Q:=Q) rt (λ _, raise out_of_fuel) n e).
Proof.
  revert e. induction n as [|n IH]; intros e; simpl; [apply respects_raise; apply _|]. by apply handle_step_once.
Qed.

Lemma handle_action_once e : respects (once recorded) (handle_action (S:=S) (Q:=Q) rt e).
Proof. apply handle_action_n_once. Qed.

Lemma handle_action_rest e b pid aid :
  env_event e = AgentActionEvent b pid aid →
  ∃ rest, handle_action (S:=S) (Q:=Q) rt e = (on_st (get_plan (ev_workspace_id b) pid) ≫= rest) ∧
    ∀ p, respects (once recorded) (rest p).
Proof. intros E. eapply handle_step_rest; [exact E|]. intros e'. apply handle_action_n_once. Qed.
End at_most_once.


(** ** Sequences of events *)

(** The handler is given one envelope after the other; an exception ends the
    handling of its envelope only. *)
Definition handle_actions `{Env} {S Q : Type} `{StateStore S} `{Queue Q} (rt : Runtime) (l : list EventEnvelope) :
    st (World S Q) unit :=
  for_each (λ e, try_catch (handle_action rt e) (λ _, mret tt)) l.

Lemma handle_actions_once `{Env} {S Q} (recorded : S → gset string) `{KeyedStore S recorded} `{Queue Q} rt l :
  respects (once recorded) (handle_actions (S:=S) (Q:=Q) rt l).
Proof.
  apply respects_for_each; [apply _|]. intros e. apply respects_try; [apply _|by apply handle_action_once|].
  intros x. apply respects_ret; apply _.
Qed.

(** An event whose plan is read from a store that thereby learns of [k]. *)
Lemma handle_actions_learns `{Env} {S Q} (recorded : S → gset string) `{KeyedStore S recorded} `{Queue Q} rt
    e after b pid aid k (w : World S Q) :
  env_event e = AgentActionEvent b pid aid →
  k ∈ recorded (get_plan (ev_workspace_id b) pid (w_store w, w_ext w)).2.1 →
  ∃ l, w_log (handle_actions rt (e :: after) w).2 = w_log w ++ l ∧ LExecute k ∉ l.
Proof.
  intros E Hk. destruct (handle_action_rest (Q:=Q) recorded rt e b pid aid E) as (rest & Er & Hrest).
  set (w1 := (on_st (get_plan (ev_workspace_id b) pid) w).2).
  assert (Hw1 : w_log w1 = w_log w ∧ k ∈ recorded (w_store w1)).
  { unfold w1, on_st, zoom. cbn [lget store_lens]. by destruct (get_plan _ _ _) as [r [s x]]. }
  assert (Hw2 : once recorded w1 (handle_actions rt (e :: after) w).2).
  { change (handle_actions rt (e :: after)) with
      (try_catch (handle_action rt e) (λ _, mret tt) ≫= λ _ : unit, handle_actions rt after).
    unfold mbind, st_bind, try_catch. rw Er. unfold mbind, st_bind. unfold w1.
    destruct (on_st (get_plan _ _) w) as [[p|x] w']; [|by apply handle_actions_once].
    specialize (Hrest p w'). destruct (rest p w') as [[[]|x] w2]; (etrans; [exact Hrest|]; by apply handle_actions_once). }
  destruct Hw1 as [Hl Hk1]. destruct Hw2 as (_ & l & El & HF). exists l. rw El Hl. split; [done|].
  intros Hin. by apply HF in Hin.
Qed.

(** ** Stores that keep keys *)

#[export] Instance memory_store_keyed `{Env} : KeyedStore MemoryStateStore ms_idempotency_keys.
Proof.
  constructor; try (intros; intros [s x]; unfold keys_grow, keys_same; reflexivity).
  - intros k [s x] j Hj. change (j ∈ {[k]} ∪ ms_idempotency_keys s). apply elem_of_union_r. exact Hj.
  - intros k [s x]. cbn. split; [done|]. intros [= Hk]. by apply bool_decide_eq_false in Hk.
Qed.

#[export] Instance logging_store_keyed {S : Type} (recorded : S → gset string) `{StateStore S} `{!KeyedStore S recorded} :
  KeyedStore (LoggingStateStore S) (λ l, recorded (ls_inner l)).
Proof.
  assert (Hz : ∀ A (m : st (S * Ext) A) (R : S * Ext → S * Ext → Prop), respects R m →
    ∀ l x, R (ls_inner l, x) (ls_inner (zoom logged_inner m (l, x)).2.1, (zoom logged_inner m (l, x)).2.2)).
  { intros A m R Hm l x. unfold zoom. specialize (Hm (ls_inner l, x)). cbn. by destruct (m (ls_inner l, x)) as [r [s x']]. }
  constructor.
  - intros w p [l x]. exact (Hz _ _ _ (keyed_get_plan w p) l x).
  - intros w p [l x]. exact (Hz _ _ _ (keyed_snapshot w p) l x).
  - intros r [l x]. exact (Hz _ _ _ (keyed_save_result r) l x).
  - intros k [l x]. exact (Hz _ _ _ (keyed_record k) l x).
  - intros p [l x]. exact (Hz _ _ _ (keyed_update p) l x).
  - intros t [l x]. cbn. unfold mbind, st_bind, log_line, on_store. cbn.
    exact (Hz _ _ _ (keyed_trace t) {| ls_inner := ls_inner l; ls_log := ls_log l ++ [log_record t] |} x).
  - intros k [l x]. cbn. unfold zoom. cbn. pose proof (keyed_check k (ls_inner l, x)) as Hc.
    by destruct (check_idempotency_key k (ls_inner l, x)) as [r [s x']].
Qed.
