(* ===== verification/PrismProofs.v ===== *)
(** * What survives in the Prism API state store

    Records read back from their text, keys and plans that were written in one
    invocation are found again in the next one, and the action handler executes
    nothing twice across a restart. *)

From S2P Require Import Prelude PyStr PyVal PyUuid Json JsonLoads Events Plans SubTasks Policies Env.
From S2P Require Import Definitions Client Records AgentRunIds AgentRunSync Validation Planning Stores.
From S2P Require Import StateMemory PrismStore World ActionHandler AtMostOnce.

(** ** Records *)

Lemma strip_truthy s c l : chars s = c :: l → is_space c = false → str_truthy (strip s) = true.
Proof.
  intros E Hc. unfold strip, strip_of. rw E. unfold lstrip_of. cbn [drop_while]. rw Hc. by rw (rstrip_head _ _ _ Hc).
Qed.

Lemma state_record_get record k :
  dict_wf record → "schema" ∉ dict_keys record →
  dget k (state_record record) = if bool_decide (k = "schema") then PStr STATE_SCHEMA else dget k record.
Proof.
  intros Hw Hs. unfold dget, dict_get_or, state_record. rw dict_get_update; [done|].
  apply dict_get_None in Hs. case_bool_decide as Hk; [by subst; rw Hs; cbn|].
  destruct (dict_get k record); [done|]. cbn. by rw bool_decide_eq_false_2.
Qed.

Lemma state_record_ok record : json_ok (PDict record) → json_ok (PDict (state_record record)).
Proof.
  cbn. intros [Hw Hv%foldr_and_Forall]. split; [apply dict_wf_update; repeat constructor; by intros ?%not_elem_of_nil|].
  apply foldr_and_Forall. unfold state_record.
  assert (Hset : ∀ d k v, Forall (λ kv, json_ok kv.2) d → json_ok v → Forall (λ kv, json_ok kv.2) (dict_set k v d)).
  { intros d k v Hd Hok. induction Hd as [|[k' v'] d Hv' Hd IH]; cbn; [by repeat constructor|].
    case_bool_decide; by constructor. }
  assert (Hup : ∀ d, Forall (λ kv, json_ok kv.2) d → Forall (λ kv, json_ok kv.2) (dict_update d record)).
  { clear Hw. induction Hv as [|[k v] e Hv He IH]; intros d Hd; cbn; [done|]. apply IH. by apply Hset. }
  apply Hup. by repeat constructor.
Qed.

(** ** Properties of records *)

(** a record of the store reads back from its text: the decoder accepts the
    content of every record of JSON values without a schema of its own, and gives
    the schema and every field, with the keys of the values in order. *)
Theorem state_record_roundtrip record :
  json_ok (PDict record) → "schema" ∉ dict_keys record →
  ∃ d, decode_state_record (PStr (state_content record)) = Some d ∧
    ∀ k, dget k d = if bool_decide (k = "schema") then PStr STATE_SCHEMA else json_canon (dget k record).
Proof.
  intros Hok Hs. pose proof (state_record_ok _ Hok) as Hok'. pose proof Hok as [Hw _]. pose proof Hok' as [Hw' _].
  exists (sort_items (map (λ kv, (kv.1, json_canon kv.2)) (state_record record))).
  assert (Hget : ∀ k, dget k (sort_items (map (λ kv, (kv.1, json_canon kv.2)) (state_record record))) =
    if bool_decide (k = "schema") then PStr STATE_SCHEMA else json_canon (dget k record)).
  { intros k. rw canon_get; [exact Hw'|]. rw state_record_get; [done|done|]. by case_bool_decide. }
  split; [|exact Hget]. unfold decode_state_record, state_content.
  rw (strip_truthy _ "{"%char (chars (str_join "," (map (λ kv, json_string true kv.1 +:+ ":" +:+ kv.2)
    (sort_items (map (λ kv, (kv.1, json_compact kv.2)) (state_record record)))) +:+ "}"))); [done|done|].
  rw (json_compact_roundtrip _ Hok'). cbn [json_canon]. rw (Hget "schema"). by rw bool_decide_eq_true_2.
Qed.

(** ** Lemmas: totality, keys, what a replay leaves alone *)

Lemma uuid_no_slash z : no_slash (uuid_str z).
Proof.
  unfold no_slash, uuid_str. rw chars_of_chars. intros Hin.
  assert (Hh : "/"%char ∉ hex_digits 32 z).
  { intros H. pose proof (hex_digits_hex 32 z) as HF. rw Forall_forall in HF. apply HF in H as [[v Hv] _]. done. }
  assert (Ht : ∀ n m, "/"%char ∉ take n (drop m (hex_digits 32 z))).
  { intros n m H. apply Hh. by eapply subseteq_drop, subseteq_take. }
  rw !elem_of_app !list_elem_of_singleton in Hin. destruct_or! Hin; try done; try by apply (Ht _ _ Hin).
  - by apply (Ht 8%nat 0%nat).
  - apply Hh. by eapply subseteq_drop.
Qed.

Lemma state_id_slug parts : no_slash (state_memory_id parts) ∧ str_truthy (state_memory_id parts) = true.
Proof.
  unfold state_memory_id. destruct (stable_uuid_form ("state" :: parts)) as (z & _ & ->).
  split; [apply uuid_no_slash|]. unfold uuid_str. pose proof (hex_digits_length 32 z) as Hl.
  by destruct (hex_digits 32 z).
Qed.

Lemma hashable_canon v : hashable (json_canon v) = hashable v.
Proof. by destruct v. Qed.

Lemma content_replayable mid run_id ty title record step :
  json_ok (PDict record) → "schema" ∉ dict_keys record → hashable (dget "run_id" record) = true →
  replayable (state_payload mid run_id ty title record step).
Proof.
  intros Hok Hs Hh s d. change (dget "content" (state_payload mid run_id ty title record step)) with (PStr (state_content record)).
  intros [= <-] E. destruct (state_record_roundtrip record Hok Hs) as (d' & Ed & Hd). unfold decode_state_record in Ed.
  destruct (str_truthy _); [|done]. rw E in Ed. case_bool_decide; [|done]. injection Ed as <-.
  by rw (Hd "run_id") bool_decide_eq_false_2 // hashable_canon.
Qed.

Lemma payload_ok mid run_id ty title record step :
  no_slash mid → str_truthy mid = true →
  json_ok (PDict record) → "schema" ∉ dict_keys record → hashable (dget "run_id" record) = true →
  memory_ok (state_payload mid run_id ty title record step) mid.
Proof.
  intros Hs Ht Hok Hsch Hh. pose proof (content_replayable mid run_id ty title record step Hok Hsch Hh) as Hr.
  unfold memory_ok. split_and!; [done|done|done| |exact Hr]. clear Hr. unfold state_payload.
  destruct step as [s|]; [destruct (str_truthy s)|]; (split; [|by split_and!]);
    apply (bool_decide_unpack _); vm_compute; exact I.
Qed.

(** The record of a key is one of them. *)
Lemma key_record_json k : json_ok (PDict [("kind", PStr "idempotency_key"); ("key", PStr k)]).
Proof. split; [|done]. apply (bool_decide_unpack _). vm_compute. exact I. Qed.

(** Computations that return or raise what [except ValueError] catches. *)
Definition guarded {S A} (m : st S A) : Prop :=
  ∀ s, match (m s).1 with Ok _ => True | Raise e => is_ValueError e = true end.

Create HintDb guarded discriminated.

Section guarded.
Context {S : Type}.

Lemma guarded_ret {A} (a : A) : guarded (mret a : st S A).
Proof. by intros s. Qed.

Lemma guarded_bind {A B} (m : st S A) (k : A → st S B) : guarded m → (∀ a, guarded (k a)) → guarded (m ≫= k).
Proof.
  intros Hm Hk s. unfold mbind, st_bind. specialize (Hm s). destruct (m s) as [[a|e] s']; cbn in *; [apply Hk|done].
Qed.

Lemma guarded_for_each {A} (f : A → st S unit) l : (∀ a, guarded (f a)) → guarded (for_each f l).
Proof. intros Hf. induction l; cbn; [apply guarded_ret|]. by apply guarded_bind. Qed.

Lemma guarded_when b (m : st S unit) : guarded m → guarded (when b m).
Proof. destruct b; [done|]. intros _. apply guarded_ret. Qed.

Lemma caught_returns (m : st S unit) s : guarded m → (try_catch_if is_ValueError m (λ _, mret tt) s).1 = Ok tt.
Proof.
  intros Hm. unfold try_catch_if, try_catch. specialize (Hm s). destruct (m s) as [[[]|e] s']; cbn in *; [done|]. by rw Hm.
Qed.

Lemma caught_state g (m : st S unit) s : (try_catch_if g m (λ _, mret tt) s).2 = (m s).2.
Proof. unfold try_catch_if, try_catch. destruct (m s) as [[[]|e] s']; [done|]. by destruct (g e). Qed.

(** A loop whose steps all return: it returns, and what one step establishes and
    the others keep holds at the end. *)
Lemma for_each_returns {A} (f : A → st S unit) l s :
  (∀ a s, a ∈ l → (f a s).1 = Ok tt) → (for_each f l s).1 = Ok tt.
Proof.
  revert s. induction l as [|a l IH]; intros s Hf; cbn; [done|]. unfold mbind, st_bind.
  pose proof (Hf a s ltac:(by left)) as Ha. destruct (f a s) as [r s']. cbn in Ha. subst r.
  apply IH. intros b t Hb. apply Hf. by right.
Qed.

Lemma for_each_keeps {A} (P : S → Prop) (f : A → st S unit) l s :
  (∀ a s, a ∈ l → (f a s).1 = Ok tt) → (∀ a s, a ∈ l → P s → P (f a s).2) → P s → P (for_each f l s).2.
Proof.
  revert s. induction l as [|a l IH]; intros s Hf Hp Hs; cbn; [done|]. unfold mbind, st_bind.
  pose proof (Hf a s ltac:(by left)) as Hr. specialize (Hp a s ltac:(by left)) as Ha. destruct (f a s) as [r s'].
  cbn in *. subst r. apply IH; [intros b t Hb; apply Hf; by right|intros b t Hb; apply Hp; by right|]. by apply Ha.
Qed.

Lemma for_each_reaches {A} (P : S → Prop) (f : A → st S unit) l s a :
  (∀ a s, a ∈ l → (f a s).1 = Ok tt) → (∀ a s, a ∈ l → P s → P (f a s).2) → (∀ s, P (f a s).2) → a ∈ l →
  P (for_each f l s).2.
Proof.
  intros Hf Hp Ha. revert s Hf Hp. induction l as [|b l IH]; intros s Hf Hp Hin; [by apply not_elem_of_nil in Hin|].
  cbn. unfold mbind, st_bind. pose proof (Hf b s ltac:(by left)) as Hb. destruct (f b s) as [r s'] eqn:E. cbn in Hb. subst r.
  apply elem_of_cons in Hin as [<-|Hin].
  - apply for_each_keeps; [intros c t Hc; apply Hf; by right|intros c t Hc; apply Hp; by right|].
    specialize (Ha s). by rw E in Ha.
  - apply IH; [intros c t Hc; apply Hf; by right|intros c t Hc; apply Hp; by right|done].
Qed.
End guarded.

#[export] Hint Resolve guarded_ret : guarded.

Section prism.
Context `{Env} `{StateCodec} {T : Type} `{AgentStateMemoryStore T} (persist : bool).
Abbreviation PS := (PrismApiStateStore MemoryStateStore T).

#[local] Existing Instance prism_api_state_store.
#[local] Instance ps_store : StateStore PS := prism_api_state_store persist.

Definition prism_keys (s : PS) : gset string := ms_idempotency_keys (ps_fallback s).

Lemma fb_respects {A} (R : relation (PS * Ext)) (R' : relation (MemoryStateStore * Ext)) (m : st (MemoryStateStore * Ext) A) :
  (∀ s x t, R' (ps_fallback s, x) t →
     R (s, x) ({| ps_fallback := t.1; ps_memory := ps_memory s; ps_locations := ps_locations s |}, t.2)) →
  respects R' m → respects R (fb m).
Proof. intros HR Hm. eapply respects_zoom; [|exact Hm]. intros [s x] t Ht. by apply HR. Qed.

Lemma fb_same {A} (m : st (MemoryStateStore * Ext) A) :
  respects (keys_same ms_idempotency_keys) m → respects (keys_same prism_keys) (fb m).
Proof. apply fb_respects. by intros s x t Ht. Qed.

Lemma fb_grow {A} (m : st (MemoryStateStore * Ext) A) :
  respects (keys_grow ms_idempotency_keys) m → respects (keys_grow prism_keys) (fb m).
Proof. apply fb_respects. by intros s x t Ht. Qed.

Lemma mem_same {A} (m : st (T * Ext) A) : respects (keys_same prism_keys) (mem m).
Proof. intros [s x]. unfold mem, zoom. cbn. by destruct (m _). Qed.

Lemma set_location_same k w r : respects (keys_same prism_keys) (set_location k w r).
Proof. by intros [s x]. Qed.

Lemma px_same {A} (m : st Ext A) : respects (keys_same prism_keys) (px m).
Proof. intros [s x]. unfold px, zoom. cbn. by destruct (m _). Qed.

Lemma same_grow {A} (m : st (PS * Ext) A) : respects (keys_same prism_keys) m → respects (keys_grow prism_keys) m.
Proof. intros Hm x. unfold keys_grow. by rw (Hm x). Qed.

Lemma memory_same {A} (m : st (MemoryStateStore * Ext) A) :
  (∀ s x, ms_idempotency_keys (m (s, x)).2.1 = ms_idempotency_keys s) → respects (keys_same ms_idempotency_keys) m.
Proof. intros Hm [s x]. apply Hm. Qed.
End prism.

#[export] Hint Resolve mem_same set_location_same px_same : respects.
#[export] Hint Extern 1 (respects (keys_same prism_keys) (fb _)) =>
  apply fb_same; intros [? ?]; reflexivity : respects.
#[export] Hint Extern 1 (respects (keys_grow prism_keys) (fb _)) =>
  apply fb_grow; intros [? ?]; unfold keys_grow; reflexivity : respects.
#[export] Hint Extern 2 (respects (keys_grow prism_keys) (mem _)) => apply same_grow, mem_same : respects.
#[export] Hint Extern 2 (respects (keys_grow prism_keys) (set_location _ _ _)) => apply same_grow, set_location_same : respects.
#[export] Hint Extern 2 (respects (keys_grow prism_keys) (px _)) => apply same_grow, px_same : respects.

Section prism_keyed.
Context `{Env} `{StateCodec} {T : Type} `{AgentStateMemoryStore T} (persist : bool).
Abbreviation PS := (PrismApiStateStore MemoryStateStore T).
#[local] Instance ps_store' : StateStore PS := prism_api_state_store persist.

Lemma ask_same {A} (f : PS → A) : respects (keys_same prism_keys) (ask_store f).
Proof. by intros x. Qed.
Lemma ask_grow {A} (f : PS → A) : respects (keys_grow prism_keys) (ask_store f).
Proof. apply same_grow, ask_same. Qed.
#[local] Hint Resolve ask_same ask_grow : respects.

Lemma record_grow k : respects (keys_grow ms_idempotency_keys) (record_idempotency_key (S:=MemoryStateStore) k).
Proof. intros [s x] j Hj. change (j ∈ {[k]} ∪ ms_idempotency_keys s). by apply elem_of_union_r. Qed.

Lemma remember_same p : respects (keys_same prism_keys) (remember_plan_idempotency (S:=MemoryStateStore) (T:=T) p).
Proof. unfold remember_plan_idempotency. solve_respects. Qed.

Lemma persist_same w mid r ty ti rec step :
  respects (keys_same prism_keys) (persist_state_memory (S:=MemoryStateStore) persist w mid r ty ti rec step).
Proof. unfold persist_state_memory. solve_respects. Qed.
#[local] Hint Resolve remember_same persist_same : respects.

Lemma load_record_grow w r d : respects (keys_grow prism_keys) (load_record (S:=MemoryStateStore) (T:=T) w r d).
Proof.
  unfold load_record. repeat respects_step; try solve [eauto with respects]; try apply same_grow, remember_same.
  apply fb_grow, record_grow.
Qed.

Lemma load_item_grow w r m : respects (keys_grow prism_keys) (load_memory_item (S:=MemoryStateStore) (T:=T) w r m).
Proof.
  unfold load_memory_item. destruct m; try (apply respects_ret; apply _). destruct (decode_state_record _); [|apply respects_ret; apply _].
  apply respects_try; [apply _|apply load_record_grow|intros e; solve_respects].
Qed.

Lemma load_memories_grow w r d : respects (keys_grow prism_keys) (load_state_memories (S:=MemoryStateStore) (T:=T) w r d).
Proof. unfold load_state_memories. destruct (dget _ _); try (apply respects_ret; apply _). apply respects_for_each; [apply _|]. intros m. apply load_item_grow. Qed.

Lemma run_state_same w r : respects (keys_same prism_keys) (run_state (S:=MemoryStateStore) (T:=T) w r).
Proof. unfold run_state. solve_respects. Qed.

Lemma restore_grow w r : respects (keys_grow prism_keys) (restore_run_state (S:=MemoryStateStore) (T:=T) w r).
Proof. unfold restore_run_state. apply respects_bind; [apply _|apply same_grow, run_state_same|intros d; apply load_memories_grow]. Qed.

Lemma hydrate_same p d : respects (keys_same prism_keys) (hydrate_plan_state (S:=MemoryStateStore) (T:=T) p d).
Proof.
  assert (Hl : ∀ rs l h, respects (keys_same prism_keys) (hydrate_actions (S:=MemoryStateStore) (T:=T) rs h l)).
  { intros rs l. induction l as [|a l IH]; intros h; cbn; [apply respects_ret; apply _|].
    apply respects_bind; [apply _| |done]. unfold hydrate_action. solve_respects. }
  unfold hydrate_plan_state. solve_respects.
Qed.

(** What the reading of a plan does after the replay. *)
Definition finish_get_plan (w p : string) (state : dict pyval) : st (PS * Ext) (option AgentPlan) :=
  plan ← fb (get_plan w p);
  match plan with
  | None => mret None
  | Some plan =>
      hydrated ← hydrate_plan_state plan state;
      when (negb (bool_decide (hydrated = plan))) (fb (update_plan hydrated)) ;;
      mret (Some hydrated)
  end.

Lemma finish_same w p d : respects (keys_same prism_keys) (finish_get_plan w p d).
Proof.
  unfold finish_get_plan. apply respects_bind; [apply _|eauto with respects|intros [plan|]]; [|solve_respects].
  apply respects_bind; [apply _|apply hydrate_same|intros h]. solve_respects.
Qed.

#[export] Instance prism_store_keyed : KeyedStore PS prism_keys.
Proof.
  constructor.
  - intros w p. apply respects_bind; [apply _|apply same_grow, run_state_same|intros d].
    apply respects_bind; [apply _|apply load_memories_grow|intros _]. apply same_grow, finish_same.
  - intros w r. cbn. eauto with respects.
  - intros r. cbn. unfold prism_save_result, persist_action_result, plan_for_result.
    apply same_grow. repeat respects_step; eauto with respects.
  - intros k. cbn. unfold prism_record_key, record_workspace_idempotency_key, persist_idempotency_key.
    repeat respects_step; try apply fb_grow, record_grow; try apply same_grow, persist_same; eauto with respects.
  - intros p. cbn. unfold prism_update_plan, persist_plan. repeat respects_step; eauto with respects.
  - intros t. cbn. eauto with respects.
  - intros k [s x]. cbn. unfold prism_check_key.
    unfold mbind at 1, st_bind at 1. cbn.
    destruct (bool_decide_reflect (k ∈ ms_idempotency_keys (ps_fallback s))) as [Hk|Hk]; [by split|].
    unfold mbind at 1, st_bind at 1. cbn. destruct (dict_get k (ps_locations s)) as [[w r]|]; [|by split].
    unfold check_workspace_idempotency_key. unfold mbind at 1, st_bind at 1. cbn.
    rw bool_decide_eq_false_2; [done|]. destruct (candidate_run_id (Some r) k) as [r'|]; [|by split].
    unfold mbind at 1, st_bind at 1. set (s0 := {| ps_fallback := _ |}).
    pose proof (restore_grow w r' (s0, x)) as Hg. destruct (restore_run_state w r' (s0, x)) as [[[]|e] [s1 x1]]; cbn in *;
      (split; [exact Hg|]); [|done].
    intros [= Hc]. by apply bool_decide_eq_false in Hc.
Qed.
End prism_keyed.

(** ** A restart: another store on the same durable memory *)

(** What the store relies on when it replays: pydantic refuses data with a
    [ValidationError], which is a [ValueError]. *)
Class CodecErrors `{StateCodec} : Prop := {
  plan_errors v e : model_validate (A:=AgentPlan) v = Raise e → is_ValueError e = true;
  snapshot_errors v e : model_validate (A:=ContextSnapshot) v = Raise e → is_ValueError e = true;
  result_errors v e : model_validate (A:=ToolResult) v = Raise e → is_ValueError e = true;
  graph_errors v e : model_validate (A:=TaskGraph) v = Raise e → is_ValueError e = true;
  sub_result_errors v e : model_validate (A:=SubAgentResult) v = Raise e → is_ValueError e = true
}.

Definition key_id (k : string) : string := state_memory_id ["idempotency"; k].
Definition key_payload (r k : string) : dict pyval :=
  state_payload (key_id k) r "agent_decision" "Idempotency key" [("kind", PStr "idempotency_key"); ("key", PStr k)] None.

Definition plan_memory_id (r : string) : string := state_memory_id [r; "plan"].
Definition plan_payload (p : AgentPlan) `{StateCodec} : dict pyval :=
  state_payload (plan_memory_id (pl_plan_id p)) (pl_plan_id p) "agent_plan" "Agent plan"
    [("kind", PStr "plan"); ("plan", model_dump p)] None.

Definition graph_memory_id (r : string) : string := state_memory_id [r; "task_graph"].
Definition graph_payload (g : TaskGraph) `{StateCodec} : dict pyval :=
  state_payload (graph_memory_id (tg_plan_id g)) (tg_plan_id g) "agent_decision" "Task graph"
    [("kind", PStr "task_graph"); ("graph", model_dump g)] None.

Lemma key_payload_ok r k : memory_ok (key_payload r k) (key_id k).
Proof.
  apply payload_ok; [apply state_id_slug|apply state_id_slug|apply key_record_json|by apply (bool_decide_unpack _)|done].
Qed.

Section restart.
Context `{Env} `{HC : StateCodec} `{!CodecErrors} {T : Type} `{HM : AgentStateMemoryStore T}.
Context (ok : T → Prop) (held : T → string → string → string → option (dict pyval)) (fits : T → string → string → Prop).
Context `{HD : !DurableMemory T ok held fits}.
Abbreviation PS := (PrismApiStateStore MemoryStateStore T).

Lemma guarded_lift {A} (r : res A) :
  (∀ e, r = Raise e → is_ValueError e = true) → guarded (S:=PS * Ext) (lift_res r).
Proof. intros Hr x. cbn. destruct r; [done|by apply Hr]. Qed.

Lemma guarded_fb {A} (m : st (MemoryStateStore * Ext) A) : guarded m → guarded (S:=PS * Ext) (fb m).
Proof. intros Hm [s x]. unfold fb, zoom. specialize (Hm (ps_fallback s, x)). cbn. by destruct (m _). Qed.

Lemma guarded_remember p : guarded (S:=PS * Ext) (remember_plan_idempotency p).
Proof. unfold remember_plan_idempotency. apply guarded_for_each. by intros a x. Qed.

Lemma load_record_guarded w r d : hashable (dget "run_id" d) = true → guarded (S:=PS * Ext) (load_record w r d).
Proof.
  intros Hrun. unfold load_record. destruct (dget "kind" d); try apply guarded_ret. repeat case_bool_decide.
  - apply guarded_bind; [apply guarded_lift, plan_errors|intros p].
    apply guarded_bind; [by apply guarded_fb; intros [? ?]|intros _; apply guarded_remember].
  - apply guarded_bind; [apply guarded_lift, snapshot_errors|intros p]. by apply guarded_fb; intros [? ?].
  - apply guarded_bind; [apply guarded_lift, result_errors|intros p]. by apply guarded_fb; intros [? ?].
  - apply guarded_bind; [apply guarded_lift, graph_errors|intros p]. by apply guarded_fb; intros [? ?].
  - apply guarded_bind; [apply guarded_lift, sub_result_errors|intros p].
    assert (Hh : hashable (py_or (dget "run_id" d) (PStr r)) = true) by (unfold py_or; by destruct (truthy _)).
    destruct (py_or _ _); try done; first [apply guarded_ret|apply guarded_fb; by intros [? ?]].
  - destruct (dget "key" d) as [| | | |k| |]; try (apply guarded_ret). destruct (str_truthy k); [|apply guarded_ret].
    apply guarded_bind; [by apply guarded_fb; intros [? ?]|by intros _ x].
  - apply guarded_ret.
Qed.

Lemma decode_replayable m d :
  replayable m → decode_state_record (dget "content" m) = Some d → hashable (dget "run_id" d) = true.
Proof.
  intros Hm. unfold decode_state_record. destruct (dget "content" m) as [| | | |s| |] eqn:Ec; try done.
  destruct (str_truthy _); [|done]. destruct (json_loads s) as [[| | | | | |d']|] eqn:Ej; try done.
  case_bool_decide; [|done]. intros [= ->]. by apply (Hm s d).
Qed.

Lemma item_returns w r m (x : PS * Ext) : replayable m → (load_memory_item w r (PDict m) x).1 = Ok tt.
Proof.
  intros Hm. unfold load_memory_item. destruct (decode_state_record _) as [d|] eqn:Ed; [|done].
  apply caught_returns, load_record_guarded. by apply (decode_replayable m).
Qed.

(** The records the replay of a run goes through. *)
Lemma run_state_held w r (s : PS) x :
  ok (ps_memory s) → fits (ps_memory s) w r → no_slash w → no_slash r →
  ∃ l, run_state w r (s, x) = (Ok [("memories", PList (map PDict l))], (s, x)) ∧
    (∀ d, d ∈ l ↔ ∃ mid, held (ps_memory s) w r mid = Some d) ∧ Forall replayable l.
Proof.
  intros Ho Hf Hw Hr. destruct (durable_fetch w r (ps_memory s) x Ho Hf Hw Hr) as (l & E & Hl & HR).
  exists l. split; [|done]. unfold run_state, try_catch_if, try_catch, mem, zoom. cbn. rw E. by destruct s.
Qed.

(** What the record of [mid] establishes and the other records keep holds after
    the replay. *)
Lemma replay_reaches (P : PS * Ext → Prop) w r l (x : PS * Ext) payload :
  Forall replayable l →
  (∀ d y, d ∈ l → P y → P (load_memory_item w r (PDict d) y).2) →
  (∀ y, P (load_memory_item w r (PDict payload) y).2) → payload ∈ l →
  ∃ y, load_state_memories w r [("memories", PList (map PDict l))] x = (Ok tt, y) ∧ P y.
Proof.
  intros HR Hk He Hin. unfold load_state_memories.
  change (dget "memories" [("memories", PList (map PDict l))]) with (PList (map PDict l)). cbn iota.
  assert (Hret : ∀ m (y : PS * Ext), m ∈ map PDict l → (load_memory_item w r m y).1 = Ok tt).
  { intros m y (d & -> & Hd)%list_elem_of_fmap. apply item_returns. rw Forall_forall in HR. by apply HR. }
  pose proof (for_each_returns (load_memory_item w r) (map PDict l) x Hret) as Hr.
  assert (Hp : P (for_each (load_memory_item w r) (map PDict l) x).2).
  { apply (for_each_reaches P _ _ _ (PDict payload) Hret); [|exact He|by apply list_elem_of_fmap_2].
    intros m y (d & -> & Hd)%list_elem_of_fmap. by apply Hk. }
  destruct (for_each _ _ x) as [res y]. cbn in Hr, Hp. subst res. by exists y.
Qed.

(** Replaying a payload is replaying its record. *)
Lemma load_payload w r mid run_id ty title record step (y : PS * Ext) :
  json_ok (PDict record) → "schema" ∉ dict_keys record →
  ∃ d, (∀ k, k ≠ "schema" → dget k d = json_canon (dget k record)) ∧
    load_memory_item w r (PDict (state_payload mid run_id ty title record step)) y
    = try_catch_if is_ValueError (load_record w r d) (λ _, mret tt) y.
Proof.
  intros Hok Hs. destruct (state_record_roundtrip record Hok Hs) as (d & E & Hd). exists d. split.
  - intros k Hk. by rw Hd bool_decide_eq_false_2.
  - unfold load_memory_item.
    change (dget "content" (state_payload mid run_id ty title record step)) with (PStr (state_content record)). by rw E.
Qed.

(** *** Keys *)

Lemma load_record_key w r d k :
  dget "kind" d = PStr "idempotency_key" → dget "key" d = PStr k → str_truthy k = true →
  load_record w r d = (fb (record_idempotency_key k) ;; set_location (S:=MemoryStateStore) (T:=T) k w r).
Proof. intros H1 H2 Hk. unfold load_record. rw H1 H2. unfold when. rw Hk. reflexivity. Qed.

Lemma load_key_record w r k (y : PS * Ext) :
  str_truthy k = true → k ∈ prism_keys (load_memory_item w r (PDict (key_payload r k)) y).2.1.
Proof.
  intros Hk. destruct (load_payload w r (key_id k) r "agent_decision" "Idempotency key"
    [("kind", PStr "idempotency_key"); ("key", PStr k)] None y) as (d & Hd & E).
  { split; [|done]. apply (bool_decide_unpack _). vm_compute. exact I. }
  { by apply (bool_decide_unpack _). }
  unfold key_payload. rw E. unfold try_catch_if, try_catch.
  rw (load_record_key w r d k); [by rw (Hd "kind")|by rw (Hd "key")|done|]. destruct y as [s x].
  change (k ∈ {[k]} ∪ ms_idempotency_keys (ps_fallback s)). set_solver.
Qed.

Lemma replay_key w r k (s : PS) x :
  ok (ps_memory s) → fits (ps_memory s) w r → no_slash w → no_slash r → str_truthy k = true →
  held (ps_memory s) w r (key_id k) = Some (key_payload r k) →
  ∃ d y, run_state w r (s, x) = (Ok d, (s, x)) ∧ load_state_memories w r d (s, x) = (Ok tt, y) ∧ k ∈ prism_keys y.1.
Proof.
  intros Ho Hf Hw Hr Hk Hh. destruct (run_state_held w r s x Ho Hf Hw Hr) as (l & E & Hl & HR).
  destruct (replay_reaches (λ y, k ∈ prism_keys y.1) w r l (s, x) (key_payload r k) HR) as (y & Ey & Hy).
  - intros d y _ Hy. pose proof (load_item_grow w r (PDict d) y) as Hg. unfold keys_grow in Hg. set_solver.
  - intros y. by apply load_key_record.
  - apply Hl. eauto.
  - by exists [("memories", PList (map PDict l))], y.
Qed.

(** *** Saving *)

Lemma persist_held w mid r ty title record (s : PS) x :
  ok (ps_memory s) → no_slash w → no_slash r → no_slash mid → str_truthy mid = true →
  json_ok (PDict record) → "schema" ∉ dict_keys record → hashable (dget "run_id" record) = true →
  ∃ s', persist_state_memory true w mid r ty title record None (s, x) = (Ok tt, (s', x)) ∧ ok (ps_memory s') ∧
    ps_fallback s' = ps_fallback s ∧
    held (ps_memory s') w r mid = Some (state_payload mid r ty title record None) ∧
    ∀ w' r' mid', no_slash w' → no_slash r' → (w', r', mid') ≠ (w, r, mid) →
      held (ps_memory s') w' r' mid' = held (ps_memory s) w' r' mid'.
Proof.
  intros Ho Hw Hr Hm Ht Hj Hsch Hh. destruct (durable_put w r (state_payload mid r ty title record None) mid (ps_memory s) x Ho Hw Hr)
    as (t' & E & Ho' & Hheld & Hrest); [by apply payload_ok|].
  exists {| ps_fallback := ps_fallback s; ps_memory := t'; ps_locations := ps_locations s |}. split_and!; try done.
  unfold persist_state_memory, when, mem, zoom. cbn [lget lput memory_lens fst snd]. by rw E.
Qed.
#[local] Instance ps_store_p (persist : bool) : StateStore PS := prism_api_state_store persist.

Lemma record_key_held w r k (s : PS) x :
  ok (ps_memory s) → no_slash w → no_slash r → str_truthy r = true → dict_get k (ps_locations s) = Some (w, r) →
  ∃ s', prism_record_key true k (s, x) = (Ok tt, (s', x)) ∧ ok (ps_memory s') ∧
    held (ps_memory s') w r (key_id k) = Some (key_payload r k).
Proof.
  intros Ho Hw Hr Ht Hl.
  set (s1 := {| ps_fallback := mem_record_key k (mem_record_key k (ps_fallback s)); ps_memory := ps_memory s;
                ps_locations := ps_locations s |} : PS).
  destruct (persist_held w (key_id k) r "agent_decision" "Idempotency key" [("kind", PStr "idempotency_key"); ("key", PStr k)]
    s1 x) as (s' & E & Ho' & _ & Hh & _); try done; try apply state_id_slug; [apply key_record_json|by apply (bool_decide_unpack _)|].
  exists s'. split_and!; [|done|done]. rw -E.
  unfold prism_record_key, record_workspace_idempotency_key, candidate_run_id, persist_idempotency_key, key_id.
  generalize (persist_state_memory (S:=MemoryStateStore) (T:=T)). intros psm.
  unfold mbind, st_bind, fb, zoom. cbn. rw Hl. cbn. by rw Ht.
Qed.

Lemma get_plan_learns w r k (s : PS) x :
  ok (ps_memory s) → fits (ps_memory s) w r → no_slash w → no_slash r → str_truthy k = true →
  held (ps_memory s) w r (key_id k) = Some (key_payload r k) →
  k ∈ prism_keys (prism_get_plan w r (s, x)).2.1.
Proof.
  intros Ho Hf Hw Hr Hk Hh. destruct (replay_key w r k s x Ho Hf Hw Hr Hk Hh) as (d & y & E1 & E2 & Hy).
  change (prism_get_plan w r) with (run_state (S:=MemoryStateStore) (T:=T) w r ≫= λ d,
    load_state_memories w r d ;; finish_get_plan w r d).
  rw (bind_step _ _ _ _ _ E1) (bind_step _ _ _ _ _ E2).
  pose proof (finish_same w r d y) as Hs. unfold keys_same in Hs. by rw Hs.
Qed.
End restart.
