(* ===== verification/ActionProofs.v ===== *)
(** * What the action handler guarantees, on the in-memory store

    At most one execution per recorded idempotency key, what is left behind by a
    failing tool, the bound on retries, and actions that become suggestions. *)

From S2P Require Import Prelude PyStr PyVal PyUuid Events Plans SubTasks Policies Env Client Definitions.
From S2P Require Import Records AgentRunIds AgentRunSync Validation Planning Stores World ActionHandler AtMostOnce.

Definition keys {Q} (w : World MemoryStateStore Q) : gset string := ms_idempotency_keys (w_store w).

(** ** Steps that only add traces and use the environment *)

Abbreviation MemWorld := (World MemoryStateStore MemoryQueue).

(** Nothing but the traces and the environment's state differs. *)
Record calm (w w' : MemWorld) : Prop := {
  calm_plans : ms_plans (w_store w') = ms_plans (w_store w);
  calm_graphs : ms_task_graphs (w_store w') = ms_task_graphs (w_store w);
  calm_sub : ms_sub_agent_results (w_store w') = ms_sub_agent_results (w_store w);
  calm_snapshots : ms_context_snapshots (w_store w') = ms_context_snapshots (w_store w);
  calm_results : ms_action_results (w_store w') = ms_action_results (w_store w);
  calm_keys : keys w' = keys w;
  calm_queue : w_queue w' = w_queue w;
  calm_run : same_run w w'
}.

#[export] Instance calm_preorder : PreOrder calm.
Proof.
  split; [by intros w; constructor|]. intros x y z [] []. constructor; try congruence. by etrans.
Qed.

Section calm.
Context `{Env} (rt : Runtime).

Lemma ext_calm {A} (m : st Ext A) : respects calm (ext m).
Proof. intros w. unfold ext, zoom. simpl. by destruct (m _). Qed.
Lemma append_trace_calm t : respects calm (on_st (append_trace_event t)).
Proof. by intros w. Qed.
End calm.

#[export] Hint Resolve ext_calm append_trace_calm : respects.

Section steps.
Context `{Env} (rt : Runtime).

Lemma trace_run ev n m p a d (w : MemWorld) : ∃ w', trace ev n m p a d w = (Ok tt, w') ∧ calm w w'.
Proof.
  destruct (trace ev n m p a d w) as [r w'] eqn:E. exists w'. split.
  - unfold trace in E. apply (f_equal fst) in E. simpl in E. by subst r.
  - assert (Hc : respects calm (trace (S:=MemoryStateStore) (Q:=MemoryQueue) ev n m p a d))
      by (unfold trace; solve_respects).
    specialize (Hc w). by rw E in Hc.
Qed.

Lemma trace_ext ev n m p a d (w : MemWorld) : w_ext (trace ev n m p a d w).2 = ticked 1 1 (w_ext w).
Proof. reflexivity. Qed.

Lemma trace_at ev n m p a d (w : MemWorld) : ∃ w', trace ev n m p a d w = (Ok tt, w') ∧ calm w w' ∧
  w_ext w' = ticked 1 1 (w_ext w).
Proof.
  destruct (trace_run ev n m p a d w) as (w' & E & C). exists w'. split_and!; [done..|].
  pose proof (trace_ext ev n m p a d w) as Hx. by rw E in Hx.
Qed.

(** The status of an action changed at the next two readings of the clock. *)
Definition restated (s : ActionStatus) (c : nat) (a : PlannedAction) : PlannedAction := with_status (clock_at c) s a.
Definition restated_plan (s : ActionStatus) (c : nat) (a : PlannedAction) (p : AgentPlan) : AgentPlan :=
  replace_action (clock_at (S c)) (restated s c a) p.

Lemma set_status_at p a s (w : MemWorld) : let c := x_clock (w_ext w) in
  ∃ w', set_action_status p a s w = (Ok (restated s c a, restated_plan s c a p), w') ∧ calm w w' ∧ w_ext w' = ticked 0 2 (w_ext w).
Proof.
  exists (set_action_status p a s w).2. split_and!; [reflexivity| |reflexivity].
  assert (Hc : respects calm (set_action_status (S:=MemoryStateStore) (Q:=MemoryQueue) p a s))
    by (unfold set_action_status; solve_respects).
  apply Hc.
Qed.

Lemma set_status_run p a s (w : MemWorld) : ∃ now now' w',
  set_action_status p a s w = (Ok (with_status now s a, replace_action now' (with_status now s a) p), w') ∧ calm w w'.
Proof.
  destruct (set_action_status p a s w) as [r w'] eqn:E. exists (clock_at (x_clock (w_ext w))), (clock_at (S (x_clock (w_ext w)))), w'.
  split.
  - apply (f_equal fst) in E. simpl in E. by subst r.
  - assert (Hc : respects calm (set_action_status (S:=MemoryStateStore) (Q:=MemoryQueue) p a s))
      by (unfold set_action_status; solve_respects).
    specialize (Hc w). by rw E in Hc.
Qed.

Lemma ext_run {A} (m : st Ext A) (w : MemWorld) : ∃ r w', ext m w = (r, w') ∧ calm w w'.
Proof.
  destruct (ext m w) as [r w'] eqn:E. exists r, w'. split; [done|].
  pose proof (ext_calm m w) as Hc. by rw E in Hc.
Qed.

(** Enqueueing appends one message that carries the envelope. *)
Lemma enqueue_run env (w : MemWorld) : ∃ m w', on_queue (enqueue env) w = (Ok m, w') ∧
  w_store w' = w_store w ∧ w_queue w' = mq_push m (w_queue w) ∧ qm_envelope m = env ∧ same_run w w'.
Proof.
  destruct (enqueue_push env (w_queue w) (w_ext w)) as (m & x' & He & Hm).
  unfold on_queue, zoom. cbn [lget queue_lens]. rw He. exists m. eexists. split; [reflexivity|]. done.
Qed.

Lemma enqueue_event_run ev (w : MemWorld) : ∃ m w', enqueue_event ev w = (Ok tt, w') ∧
  w_store w' = w_store w ∧ w_queue w' = mq_push m (w_queue w) ∧ env_event (qm_envelope m) = ev ∧
  env_attempt (qm_envelope m) = 0 ∧ same_run w w'.
Proof.
  unfold enqueue_event. set (env := {| env_envelope_id := uuid4_at (x_uuid (w_ext w)); env_event := ev;
    env_received_at := clock_at (x_clock (w_ext w)); env_attempt := 0 |}).
  assert (Hw : ext (wrap ev) w = (Ok env, (ext (wrap ev) w).2)) by done.
  rw (bind_step _ _ _ _ _ Hw). destruct (enqueue_run env (ext (wrap ev) w).2) as (m & w' & He & Hs & Hq & Hm & Hr).
  rw (bind_step _ _ _ _ _ He). exists m, w'. rw Hs Hq Hm. split_and!; try done.
Qed.

(** Settling a sub-plan queues one completion event for its node. *)
Lemma settle_subplan_run env p status message r_id n_id (w : MemWorld) :
  pl_parent_run_id p = Some r_id → pl_node_id p = Some n_id →
  ∃ m b w', settle_subplan env p status message w = (Ok tt, w') ∧
    ms_plans (w_store w') = ms_plans (w_store w) ∧ keys w' = keys w ∧ same_run w w' ∧
    ms_action_results (w_store w') = ms_action_results (w_store w) ∧
    w_queue w' = mq_push m (w_queue w) ∧
    env_event (qm_envelope m) = SubAgentCompletedEvent b r_id n_id status ∧
    ev_causality b = child_causality env.
Proof.
  intros Hr Hn. unfold settle_subplan. rw Hr Hn.
  match goal with |- context [ext ?m ≫= _] => set (mk := m) end.
  destruct (mk (w_ext w)) as [rr xx] eqn:Emk.
  assert (Hmk : ext mk w = (rr, lput ext_lens xx w)) by (unfold ext, zoom; cbn [lget ext_lens]; by rw Emk).
  unfold mk, new_completed_event, new_base in Emk. cbn in Emk. injection Emk as <- <-.
  rw (bind_step _ _ _ _ _ Hmk).
  match goal with |- context [enqueue_event ?ev ≫= _] => set (event := ev) end.
  match goal with |- context [(enqueue_event event ≫= _) ?w0] => set (w1 := w0) end.
  destruct (enqueue_event_run event w1) as (m & w2 & He & Hs & Hq & Hev & _ & Hsr).
  rw (bind_step _ _ _ _ _ He).
  match goal with |- context [trace ?a ?b ?c ?d ?e ?f w2] => destruct (trace_run a b c d e f w2) as (w3 & Ht & Hc) end.
  rw Ht. exists m. eexists. exists w3. split; [reflexivity|]. destruct Hc as [Hc1 Hc2 Hc3 Hc4 Hc5 Hc6 Hc7 Hc8].
  split_and!.
  - rw Hc1 Hs. done.
  - rw Hc6. unfold keys. by rw Hs.
  - etrans; [|exact Hc8]. etrans; [|exact Hsr]. done.
  - rw Hc5 Hs. done.
  - rw Hc7 Hq. done.
  - rw Hev. reflexivity.
  - done.
Qed.
End steps.

Section outcomes.
Context `{Env} (rt : Runtime).

Lemma enqueue_events_run l (w : MemWorld) : ∃ ms w', enqueue_events l w = (Ok tt, w') ∧
  w_store w' = w_store w ∧ mq_messages (w_queue w') = mq_messages (w_queue w) ++ ms ∧
  map qm_envelope ms = l ∧ same_run w w'.
Proof.
  revert w. induction l as [|e l IH]; intros w.
  - exists [], w. split; [done|]. split; [done|]. split; [by rw app_nil_r|]. done.
  - unfold enqueue_events. cbn [for_each].
    destruct (enqueue_run e w) as (m & w1 & He & Hs & Hq & Hm & Hr).
    assert (H1 : (on_queue (S:=MemoryStateStore) (enqueue e) ;; mret tt) w = (Ok tt, w1)) by by rw (bind_step _ _ _ _ _ He).
    rw (bind_step _ _ _ _ _ H1). destruct (IH w1) as (ms & w2 & Hf & Hs2 & Hq2 & Hm2 & Hr2).
    unfold enqueue_events in Hf. rw Hf. exists (m :: ms), w2.
    split; [done|]. split; [by rw Hs2|]. split; [rw Hq2 Hq; simpl; by rw -app_assoc|].
    split; [simpl; by rw Hm Hm2|by etrans].
Qed.

(** The world after a plan with a new status for one action was stored. *)
Record stored (w w' : MemWorld) (p : AgentPlan) (a : PlannedAction) (s : ActionStatus) (p' : AgentPlan) : Prop := {
  stored_plan : ∃ now now', p' = replace_action now' (with_status now s a) p;
  stored_plans : ms_plans (w_store w') = <[(pl_workspace_id p', pl_plan_id p') := p']> (ms_plans (w_store w));
  stored_results : ms_action_results (w_store w') = ms_action_results (w_store w);
  stored_snapshots : ms_context_snapshots (w_store w') = ms_context_snapshots (w_store w);
  stored_keys : keys w' = keys w;
  stored_queue : w_queue w' = w_queue w;
  stored_run : same_run w w'
}.

(** Setting the status and storing the plan. *)
Lemma store_status_run {A} p a s (k : PlannedAction → AgentPlan → st MemWorld A) (w : MemWorld) :
  ∃ now p' w', stored w w' p a s p' ∧
    ('(ua, up) ← set_action_status p a s; on_st (update_plan up) ;; k ua up) w = k (with_status now s a) p' w'.
Proof.
  destruct (set_status_run p a s w) as (now & now' & w1 & E & Hc).
  exists now, (replace_action now' (with_status now s a) p), (on_st (update_plan (replace_action now' (with_status now s a) p)) w1).2.
  split; [|by rw (bind_step _ _ _ _ _ E)].
  destruct Hc as [Hc1 Hc2 Hc3 Hc4 Hc5 Hc6 Hc7 Hc8]. constructor; simpl; try congruence; eauto.
Qed.
End outcomes.

(** What a computation leaves in the plans, the results, the keys and the queue. *)
Record leaves (w : MemWorld) (pl : gmap (string * string) AgentPlan) (rs : gmap (string * string) ToolResult)
    (ks : gset string) (q : MemoryQueue) (w' : MemWorld) : Prop := {
  leaves_plans : ms_plans (w_store w') = pl;
  leaves_results : ms_action_results (w_store w') = rs;
  leaves_keys : keys w' = ks;
  leaves_queue : w_queue w' = q;
  leaves_run : same_run w w'
}.

Lemma leaves_calm w pl rs ks q w' w'' : leaves w pl rs ks q w' → calm w' w'' → leaves w pl rs ks q w''.
Proof. intros [] []. constructor; try congruence; by etrans. Qed.

(** The key under which a plan is stored. *)
Definition plan_key (p : AgentPlan) : string * string := (pl_workspace_id p, pl_plan_id p).
Definition result_key (r : ToolResult) : string * string := (tr_plan_id r, tr_action_id r).

Section outcome_steps.
Context `{Env} (rt : Runtime).

Lemma run_calm {A} (m : st MemWorld A) w : respects calm m → ∃ r w', m w = (r, w') ∧ calm w w'.
Proof. intros Hm. specialize (Hm w). destruct (m w) as [r w'] eqn:E. eauto. Qed.

Lemma action_event_run ws pr pid aid c k (w : MemWorld) : ∃ b w',
  ext (new_action_event ws pr pid aid c k) w = (Ok (AgentActionEvent b pid aid), w') ∧
  calm w w' ∧ ev_workspace_id b = ws ∧ ev_causality b = k.
Proof.
  destruct (run_calm (ext (new_action_event ws pr pid aid c k)) w (ext_calm _)) as (r & w' & E & Hc).
  pose proof (f_equal fst E) as E1. cbn in E1. subst r. eexists. exists w'. split_and!; [exact E|done|done|done].
Qed.

Lemma envelope_run ev n (w : MemWorld) : ∃ e w', ext (new_envelope ev n) w = (Ok e, w') ∧ calm w w' ∧
  env_event e = ev ∧ env_attempt e = n.
Proof.
  destruct (run_calm (ext (new_envelope ev n)) w (ext_calm _)) as (r & w' & E & Hc).
  pose proof (f_equal fst E) as E1. cbn in E1. subst r. eexists. exists w'. split_and!; [exact E|done|done|done].
Qed.

End outcome_steps.

Section outcomes2.
Context `{Env} (rt : Runtime).

Lemma report_calm p a n m : respects calm (report (S:=MemoryStateStore) (Q:=MemoryQueue) rt p a n m).
Proof. unfold report. solve_respects. Qed.

(** What the report of an action's state comes to. *)
Definition reported (p : AgentPlan) (a : PlannedAction) (n m : string) (x : Ext) : res unit :=
  (record_action_state (rt_sync rt) p a n (Some m) x).1.

Lemma report_at p a n m (w : MemWorld) : ∃ w', report rt p a n m w = (reported p a n m (w_ext w), w') ∧ calm w w'.
Proof.
  destruct (run_calm _ w (report_calm p a n m)) as (r & w' & E & C). exists w'. split; [|done]. rw E. f_equal.
  apply (f_equal fst) in E. cbn in E. rw -E. unfold report, ext, zoom, reported. cbn [lget ext_lens].
  by destruct (record_action_state _ _ _ _ _ _).
Qed.

Lemma trace_action_calm ev n m p a d :
  respects calm (trace_action (S:=MemoryStateStore) (Q:=MemoryQueue) ev n m p a d).
Proof. unfold trace_action, trace. solve_respects. Qed.
Lemma trace_calm ev n m p a d : respects calm (trace (S:=MemoryStateStore) (Q:=MemoryQueue) ev n m p a d).
Proof. unfold trace. solve_respects. Qed.

End outcomes2.

#[export] Hint Resolve report_calm trace_action_calm trace_calm : respects.

Section outcomes3.
Context `{Env} (rt : Runtime).

(** Storing the new status, in terms of [leaves]. *)
Lemma store_status_leaves {A} p a s (k : PlannedAction → AgentPlan → st MemWorld A) (w : MemWorld) :
  let c := x_clock (w_ext w) in
  ∃ w', leaves w (<[plan_key p := restated_plan s c a p]> (ms_plans (w_store w))) (ms_action_results (w_store w)) (keys w)
      (w_queue w) w' ∧ w_ext w' = ticked 0 2 (w_ext w) ∧
    ('(ua, up) ← set_action_status p a s; on_st (update_plan up) ;; k ua up) w = k (restated s c a) (restated_plan s c a p) w'.
Proof.
  intros c. exists (on_st (update_plan (restated_plan s c a p)) (set_action_status p a s w).2).2.
  split_and!; [by constructor|reflexivity|reflexivity].
Qed.

Lemma save_result_leaves {A} result (k : st MemWorld A) (w : MemWorld) :
  ∃ w', leaves w (ms_plans (w_store w)) (<[result_key result := result]> (ms_action_results (w_store w))) (keys w)
    (w_queue w) w' ∧ w_ext w' = w_ext w ∧ (on_st (save_action_result result) ;; k) w = k w'.
Proof. exists (on_st (save_action_result result) w).2. by split. Qed.

(** Scheduling a retry: one new message, whatever reporting does, and then its result. *)
Lemma retry_run envelope plan rp a result v (w : MemWorld) :
  let c := x_clock (w_ext w) in
  ∃ w' m b, handle_retry rt envelope plan rp a result v w =
      (reported rt (restated_plan APending c a rp) (restated APending c a) "action.retry_scheduled"
         (reason_or v "Action requested retry.") (ticked 3 4 (w_ext w)), w') ∧
    leaves w (<[plan_key rp := restated_plan APending c a rp]> (ms_plans (w_store w))) (ms_action_results (w_store w)) (keys w)
      (mq_push m (w_queue w)) w' ∧
    env_event (qm_envelope m) = AgentActionEvent b (pl_plan_id plan) (ac_action_id a) ∧
    ev_workspace_id b = pl_workspace_id plan ∧
    env_attempt (qm_envelope m) = env_attempt envelope + 1.
Proof.
  intros c. unfold handle_retry.
  match goal with |- context [set_action_status _ _ _ ≫= λ '(ua, up), on_st (update_plan up) ;; @?k ua up] =>
    destruct (store_status_leaves rp a APending k w) as (w1 & [L1 L2 L3 L4 L5] & X1 & ->) end.
  fold c in L1 |- *. set (p' := restated_plan APending c a rp) in *. set (ua := restated APending c a) in *. cbn beta.
  match goal with |- context [ext (new_action_event ?a ?b ?c ?d ?e ?f)] =>
    destruct (action_event_run a b c d e f w1) as (b0 & w2 & E2 & C2 & Hws & Hk) end.
  assert (X2 : w_ext w2 = ticked 1 1 (w_ext w1)) by (apply (f_equal snd) in E2; cbn [snd] in E2; by rw -E2).
  rw (bind_step _ _ _ _ _ E2).
  match goal with |- context [ext (new_envelope ?a ?b)] =>
    destruct (envelope_run a b w2) as (e3 & w3 & E3 & C3 & Hev & Hat) end.
  assert (X3 : w_ext w3 = ticked 1 1 (w_ext w2)) by (apply (f_equal snd) in E3; cbn [snd] in E3; by rw -E3).
  rw (bind_step _ _ _ _ _ E3).
  destruct (enqueue_run e3 w3) as (m & w4 & E4 & Hs4 & Hq4 & Hm4 & Hr4).
  assert (X4 : w_ext w4 = ticked 1 0 (w_ext w3)) by (apply (f_equal snd) in E4; cbn [snd] in E4; by rw -E4).
  rw (bind_step _ _ _ _ _ E4). rw X3 X2 X1 in X4. change (w_ext w4 = ticked 3 4 (w_ext w)) in X4.
  match goal with |- context [report ?s ?q ?b ?n ?m ≫= _] => destruct (report_at s q b n m w4) as (w5 & E5 & C5) end.
  rw X4 in E5. assert (Hl : leaves w (<[plan_key rp := p']> (ms_plans (w_store w))) (ms_action_results (w_store w)) (keys w)
    (mq_push m (w_queue w)) w4).
  { destruct C2 as [A1 _ _ _ A5 A6 A7 A8], C3 as [B1 _ _ _ B5 B6 B7 B8]. constructor.
    - by rw Hs4 B1 A1 L1.
    - by rw Hs4 B5 A5 L2.
    - unfold keys in *. by rw Hs4 B6 A6 L3.
    - by rw Hq4 B7 A7 L4.
    - etrans; [exact L5|]. etrans; [exact A8|]. by etrans. }
  apply (leaves_calm _ _ _ _ _ _ _ Hl) in C5.
  destruct (reported rt p' ua _ _ _) as [[]|e].
  - rw (bind_step _ _ _ _ _ E5).
    match goal with |- context [trace_action ?a ?b ?c ?d ?e ?f] =>
      destruct (trace_run a b c (Some (pl_plan_id d)) (Some (ac_action_id e)) (action_trace_data e f) w5) as (w6 & E6 & C6) end.
    exists w6, m, b0. split_and!; [exact E6|exact (leaves_calm _ _ _ _ _ _ _ C5 C6)|by rw Hm4 Hev|done|by rw Hm4 Hat].
  - rw (bind_raise _ _ _ _ _ E5). exists w5, m, b0. split_and!; [done|done|by rw Hm4 Hev|done|by rw Hm4 Hat].
Qed.
End outcomes3.

(** The completion event of a sub-plan's node, queued behind what was there. *)
Definition settles (p : AgentPlan) (status : string) (q q' : MemoryQueue) : Prop :=
  ∀ run_id node_id, pl_parent_run_id p = Some run_id → pl_node_id p = Some node_id →
  ∃ m b, q' = mq_push m q ∧ env_event (qm_envelope m) = SubAgentCompletedEvent b run_id node_id status.

Section outcomes4.
Context `{Env} (rt : Runtime).

Lemma settle_subplan_any envelope p status message (w : MemWorld) :
  ∃ r w' q', settle_subplan envelope p status message w = (r, w') ∧
    leaves w (ms_plans (w_store w)) (ms_action_results (w_store w)) (keys w) q' w' ∧
    settles p status (w_queue w) q' ∧ (is_Some (pl_parent_run_id p) → is_Some (pl_node_id p) → r = Ok tt).
Proof.
  destruct (pl_parent_run_id p) as [run_id|] eqn:Er; [destruct (pl_node_id p) as [node_id|] eqn:En|].
  - destruct (settle_subplan_run envelope p status message run_id node_id w Er En)
      as (m & b & w' & E & Hpl & Hk & Hrn & Hrs & Hq & Hev & _).
    exists (Ok tt), w', (w_queue w'). split_and!; [done|by constructor| |by intros [? ?] [? ?]].
    intros r' n' ??. simplify_eq. by exists m, b.
  - destruct (run_calm (A:=unit) (ext (validation_error "SubAgentCompletedEvent")) w (ext_calm _)) as (r & w' & E & C).
    exists r, w', (w_queue w). split_and!; [unfold settle_subplan; by rw Er En| |by intros ????; simplify_eq|by intros _ [? ?]].
    eapply leaves_calm; [|exact C]. by constructor.
  - destruct (run_calm (A:=unit) (ext (validation_error "SubAgentCompletedEvent")) w (ext_calm _)) as (r & w' & E & C).
    exists r, w', (w_queue w). split_and!; [unfold settle_subplan; by rw Er| |by intros ????; simplify_eq|by intros [? ?]].
    eapply leaves_calm; [|exact C]. by constructor.
Qed.

(** A plan is stored, reported and traced, then settled when it is a sub-plan; when the
    report fails nothing of this follows. *)
Lemma failed_then_settled envelope p a s status n1 m1 ev n2 m2 plan_id action_id message
    (data : PlannedAction → AgentPlan → dict pyval) (w : MemWorld) :
  let c := x_clock (w_ext w) in
  ∃ r w' q', let p' := restated_plan s c a p in
    ('(ua, up) ← set_action_status p a s;
     on_st (update_plan up) ;;
     report rt up ua n1 m1 ;;
     trace ev n2 m2 (plan_id up) (action_id ua) (data ua up) ;;
     when (is_subplan up) (settle_subplan envelope up status message)) w = (r, w') ∧
    leaves w (<[plan_key p := p']> (ms_plans (w_store w))) (ms_action_results (w_store w)) (keys w) q' w' ∧
    match reported rt p' (restated s c a) n1 m1 (ticked 0 2 (w_ext w)) with
    | Raise e => q' = w_queue w ∧ r = Raise e
    | Ok _ => if is_subplan p then settles p status (w_queue w) q' ∧ (is_Some (pl_node_id p) → r = Ok tt)
              else q' = w_queue w ∧ r = Ok tt
    end.
Proof.
  intros c. match goal with |- context [set_action_status _ _ _ ≫= λ '(ua, up), on_st (update_plan up) ;; @?k ua up] =>
    destruct (store_status_leaves p a s k w) as (w1 & L1 & X1 & ->) end.
  fold c in L1 |- *. set (p' := restated_plan s c a p) in *. cbn beta.
  destruct (report_at rt p' (restated s c a) n1 m1 w1) as (w2 & E2 & C2). rw X1 in E2.
  apply (leaves_calm _ _ _ _ _ _ _ L1) in C2 as L2.
  destruct (reported rt p' (restated s c a) n1 m1 _) as [[]|x] eqn:Er.
  2:{ rw (bind_raise _ _ _ _ _ E2). exists (Raise x), w2, (w_queue w). split_and!; [done|exact L2|by rw Er]. }
  rw (bind_step _ _ _ _ _ E2).
  match goal with |- context [trace ?a ?b ?c ?d ?e ?f] => destruct (trace_run a b c d e f w2) as (w3 & E3 & C3) end.
  rw (bind_step _ _ _ _ _ E3). apply (leaves_calm _ _ _ _ _ _ _ L2) in C3 as L3.
  change (is_subplan p') with (is_subplan p). destruct (is_subplan p) eqn:Esub; cbn [when].
  2:{ exists (Ok tt), w3, (w_queue w). split_and!; [done|exact L3|by rw Er]. }
  destruct (settle_subplan_any envelope p' status message w3) as (r & w4 & q4 & E4 & L4 & Hs & Hr).
  rw E4. destruct L3 as [La Lb Lc Ld Le]. destruct L4 as [Ma Mb Mc Md Me]. exists r, w4, q4.
  split_and!; [done|constructor; [by rw Ma|by rw Mb|by rw Mc|done|by etrans]|]. rw Er. split.
  - intros r' n0 H1 H2. destruct (Hs r' n0 H1 H2) as (m & b & -> & Hev). exists m, b. by rw Ld.
  - apply Hr. unfold is_subplan in Esub. change (pl_parent_run_id p') with (pl_parent_run_id p).
    destruct (pl_parent_run_id p); [by eexists|done].
Qed.
End outcomes4.

(** Executing a tool touches neither the store nor the queue. *)
Definition outside (w w' : MemWorld) : Prop := w_store w' = w_store w ∧ w_queue w' = w_queue w.

#[export] Instance outside_preorder : PreOrder outside.
Proof. split; [by intros w|]. intros x y z [? ?] [? ?]. split; congruence. Qed.

Section outcomes5.
Context `{Env} (rt : Runtime).

Lemma execute_one_outside a c : respects outside (execute_one (S:=MemoryStateStore) (Q:=MemoryQueue) rt a c).
Proof.
  unfold execute_one. apply respects_bind; [apply _|apply respects_lift; apply _|intros t].
  apply respects_bind; [apply _|by intros w|intros _ w]. unfold ext, zoom. simpl. by destruct (tl_execute t a c _).
Qed.

(** The action is failed and stored, whatever reporting does. *)
Lemma execution_error_run envelope rp a e (w : MemWorld) :
  ∃ now now' r w' q', let p' := replace_action now' (with_status now AFailed a) rp in
    handle_execution_error rt envelope rp a e w = (r, w') ∧
    leaves w (<[plan_key rp := p']> (ms_plans (w_store w))) (ms_action_results (w_store w)) (keys w) q' w' ∧
    (if is_subplan rp then settles rp "failed" (w_queue w) q' ∧ (is_Some (pl_node_id rp) → r = Ok tt)
     else q' = w_queue w ∧ r = Raise e).
Proof.
  unfold handle_execution_error.
  match goal with |- context [set_action_status _ _ _ ≫= λ '(ua, up), on_st (update_plan up) ;; @?k ua up] =>
    destruct (store_status_run rp a AFailed k w) as (now & p' & w1 & [(n & n' & ->) Hpl Hrs Hsn Hky Hq Hrn] & ->) end.
  set (p' := replace_action n' (with_status n AFailed a) rp) in *. cbn beta zeta. exists n, n'.
  assert (L1 : leaves w (<[plan_key rp := p']> (ms_plans (w_store w))) (ms_action_results (w_store w)) (keys w) (w_queue w) w1)
    by by constructor.
  match goal with |- context [try_catch ?m ?h ≫= _] => assert (Ht : ∃ o w2, try_catch m h w1 = (Ok o, w2) ∧ calm w1 w2) end.
  { match goal with |- context [report ?a ?b ?c ?d ?e] =>
      destruct (run_calm _ w1 (report_calm a b c d e)) as ([[]|x] & w2 & E2 & C2) end.
    - exists None, w2. split; [|done]. unfold try_catch. by rw (bind_step _ _ _ _ _ E2).
    - exists (Some x), w2. split; [|done]. unfold try_catch. by rw (bind_raise _ _ _ _ _ E2). }
  destruct Ht as (o & w2 & E2 & C2). rw (bind_step _ _ _ _ _ E2). cbn beta zeta.
  repeat match goal with |- context [(trace_action ?a ?b ?c ?d ?e ?f ≫= _) ?w0] =>
    let w3 := fresh "v" in let E := fresh "E" in let C := fresh "C" in
    destruct (trace_run a b c (Some (pl_plan_id d)) (Some (ac_action_id e)) (action_trace_data e f) w0) as (w3 & E & C);
    change (trace_action a b c d e f w0 = (Ok tt, w3)) in E; rw (bind_step _ _ _ _ _ E); clear E end.
  assert (Lx : leaves w (<[plan_key rp := p']> (ms_plans (w_store w))) (ms_action_results (w_store w)) (keys w) (w_queue w) v0).
  { eapply leaves_calm; [exact L1|]. etrans; [exact C2|]. by etrans. }
  change (is_subplan p') with (is_subplan rp). destruct (is_subplan rp) eqn:Esub.
  2:{ exists (Raise e), v0, (w_queue w). done. }
  destruct (settle_subplan_any envelope p' "failed" (Some ("Tool " +:+ ac_tool_name a +:+ " failed: " +:+ exn_str e)) v0)
    as (r & w5 & q5 & E5 & L5 & Hs & Hr).
  rw E5. destruct Lx as [La Lb Lc Ld Le]. destruct L5 as [Ma Mb Mc Md Me]. exists r, w5, q5. split_and!.
  - done.
  - constructor; [by rw Ma|by rw Mb|by rw Mc|done|by etrans].
  - by rw Ld in Hs.
  - apply Hr. unfold is_subplan in Esub. change (pl_parent_run_id p') with (pl_parent_run_id rp).
    destruct (pl_parent_run_id rp); [by eexists|done].
Qed.
End outcomes5.

(** ** What holds an action back *)

(** The versions observed so far stay. *)
Definition same_versions (w w' : MemWorld) : Prop := x_versions (w_ext w') = x_versions (w_ext w).

#[export] Instance same_versions_preorder : PreOrder same_versions.
Proof. split; [by intros w|]. intros x y z ??. unfold same_versions in *. congruence. Qed.

Lemma stale_now_versions a x y : x_versions x = x_versions y → stale_now a x = stale_now a y.
Proof. intros E. unfold stale_now. by rw E. Qed.

Section clearance.
Context `{Env} (rt : Runtime).

Lemma trace_versions ev n m p a d :
  respects same_versions (trace (S:=MemoryStateStore) (Q:=MemoryQueue) ev n m p a d).
Proof.
  intros w. unfold trace. cbn. done.
Qed.

Lemma trace_same ev n m p a d : respects same_run (trace (S:=MemoryStateStore) (Q:=MemoryQueue) ev n m p a d).
Proof. unfold trace. solve_respects. Qed.

(** What an action needs to be executed. *)
Definition cleared (a : PlannedAction) (c : AgentContext) (w : MemWorld) : bool :=
  bool_decide (ac_idempotency_key a ∉ keys w) && permitted a c && bool_decide (stale_now a (w_ext w) = []) &&
  negb (ac_requires_approval a).

Lemma pending_refused self_next envelope p a s (w : MemWorld) :
  cleared a (sn_context s) w = false →
  same_run w (handle_pending rt self_next envelope p a s w).2.
Proof.
  intros Hc. unfold handle_pending.
  rw (bind_step _ _ w (bool_decide (ac_idempotency_key a ∈ keys w)) w); [by destruct w|].
  case_bool_decide as Hk; [apply trace_same|].
  match goal with |- context [trace_action ?a ?b ?c ?d ?e ?f ≫= _] => set (t1 := trace_action a b c d e f) end.
  destruct (trace_run (env_event envelope) "action.selected"
    ("Selected action " +:+ ac_action_id a +:+ " for execution.") (Some (pl_plan_id p)) (Some (ac_action_id a))
    (action_trace_data a [plan_status_item p; ("context_snapshot_ref", PStr (sn_ref s));
       ("context", PDict (context_trace_data (sn_context s)))]) w) as (w1 & E1 & C1).
  change (t1 w = (Ok tt, w1)) in E1. rw (bind_step _ _ _ _ _ E1).
  assert (V1 : x_versions (w_ext w1) = x_versions (w_ext w)).
  { pose proof (trace_versions (env_event envelope) "action.selected"
    ("Selected action " +:+ ac_action_id a +:+ " for execution.") (Some (pl_plan_id p)) (Some (ac_action_id a))
    (action_trace_data a [plan_status_item p; ("context_snapshot_ref", PStr (sn_ref s));
       ("context", PDict (context_trace_data (sn_context s)))]) w) as Hv. unfold same_versions in Hv.
    change (x_versions (w_ext (t1 w).2) = x_versions (w_ext w)) in Hv. by rw E1 in Hv. }
  etrans; [exact (calm_run _ _ C1)|].
  pose proof (validate_before_cases a (sn_context s) (w_ext w1)) as Hv.
  destruct (validate_before_execution a (sn_context s) (w_ext w1)) as [r x2] eqn:E2.
  assert (Hx : ext (validate_before_execution a (sn_context s)) w1 = (r, lput ext_lens x2 w1)).
  { unfold ext, zoom. cbn [lget ext_lens]. by rw E2. }
  unfold cleared in Hc. rw bool_decide_eq_true_2 // in Hc. rw (stale_now_versions _ _ _ V1) in Hv.
  assert (Hd : match r with Ok v => vr_decision v = DFail ∨ vr_decision v = DReplan ∨ vr_decision v = DSuggest
               | Raise _ => True end).
  { destruct (permitted a (sn_context s)); cbn [negb andb] in *.
    - destruct (stale_now a (w_ext w)) as [|st0 stl]; [destruct (ac_requires_approval a); [|done]|].
      + destruct Hv as (sg & ev & -> & _). by right; right.
      + destruct Hv as [_ Hv]. destruct r as [v|]; [|done]. destruct Hv as [_ ->]. by right; left.
    - destruct Hv as [_ ->]. by left. }
  destruct r as [v|e].
  2:{ rw (bind_raise _ _ _ _ _ Hx). done. }
  rw (bind_step _ _ _ _ _ Hx). transitivity (lput ext_lens x2 w1); [done|].
  apply respects_bind; [apply _|apply trace_same|]. intros _.
  destruct Hd as [-> | [-> | ->]]; unfold_handlers; solve_respects.
Qed.
End clearance.

Lemma leaves_trans w pl rs ks q w1 pl' rs' ks' q' w2 :
  leaves w pl rs ks q w1 → leaves w1 pl' rs' ks' q' w2 → leaves w pl' rs' ks' q' w2.
Proof. intros [] []. constructor; try done. by etrans. Qed.

Section announce.
Context `{Env} (rt : Runtime).

(** A change is reported, its key recorded, its events queued and a trace left; when the
    report fails nothing else happens. *)
Lemma announce_run {A} p a n m key evs ev n2 m2 pid aid data (k : st MemWorld A) (w : MemWorld) :
  let all := report rt p a n m ;; on_st (record_idempotency_key key) ;; enqueue_events evs ;;
             trace ev n2 m2 pid aid data ;; k in
  match reported rt p a n m (w_ext w) with
  | Raise e => ∃ w', all w = (Raise e, w') ∧ calm w w'
  | Ok _ => ∃ q ms w', all w = k w' ∧
      leaves w (ms_plans (w_store w)) (ms_action_results (w_store w)) ({[key]} ∪ keys w) q w' ∧
      mq_messages q = mq_messages (w_queue w) ++ ms ∧ map qm_envelope ms = evs
  end.
Proof.
  intros all. unfold all. destruct (report_at rt p a n m w) as (w4 & E4 & C4).
  destruct (reported rt p a n m (w_ext w)) as [[]|x].
  2:{ exists w4. by rw (bind_raise _ _ _ _ _ E4). }
  rw (bind_step _ _ _ _ _ E4). set (w5 := (on_st (record_idempotency_key key) w4).2).
  assert (E5 : on_st (record_idempotency_key key) w4 = (Ok tt, w5)) by done.
  rw (bind_step _ _ _ _ _ E5). destruct (enqueue_events_run evs w5) as (ms & w6 & E6 & Hs6 & Hq6 & Hm6 & Hr6).
  rw (bind_step _ _ _ _ _ E6). destruct (trace_run ev n2 m2 pid aid data w6) as (w7 & E7 & C7).
  rw (bind_step _ _ _ _ _ E7). destruct C4 as [C41 _ _ _ C45 C46 C47 C48].
  exists (w_queue w6), ms, w7. split_and!; [done| |by rw Hq6 /= C47|done].
  eapply leaves_calm; [|exact C7]. constructor.
  - by rw Hs6 -C41.
  - by rw Hs6 -C45.
  - unfold keys. rw Hs6. unfold w5. simpl. fold (keys w4). by rw C46.
  - done.
  - etrans; [exact C48|]. by etrans; [|exact Hr6].
Qed.
End announce.

Lemma get_plan_run `{Env} a b (w : MemWorld) : on_st (get_plan a b) w = (Ok (ms_plans (w_store w) !! (a, b)), w).
Proof. by destruct w. Qed.
Lemma get_snapshot_run `{Env} a b (w : MemWorld) :
  on_st (get_context_snapshot a b) w = (Ok (ms_context_snapshots (w_store w) !! (a, b)), w).
Proof. by destruct w. Qed.

(** ** Properties *)

(** C1: at most once: whatever envelopes are handled and re-handled, in any
    order, with any tools, failing or not, and any queue, no tool is ever executed
    again under an idempotency key that was recorded when its action completed or
    became a suggestion, and no recorded key is ever lost. *)
Theorem recorded_key_never_executed_again `{Env} {Q} `{Queue Q} rt (before after : list EventEnvelope)
    (w : World MemoryStateStore Q) :
  let w1 := (handle_actions rt before w).2 in
  let w2 := (handle_actions rt after w1).2 in
  keys w ⊆ keys w1 ∧ keys w1 ⊆ keys w2 ∧
  ∃ l, w_log w2 = w_log w1 ++ l ∧ ∀ k, k ∈ keys w1 → LExecute k ∉ l.
Proof.
  intros w1 w2. split; [apply (handle_actions_once ms_idempotency_keys)|].
  destruct (handle_actions_once ms_idempotency_keys rt after w1) as (Hk & l & Hl & HF). split; [exact Hk|]. exists l.
  split; [exact Hl|]. intros k Hin Hex. by destruct (HF k Hex).
Qed.

(** C7: an action is executed only when it is cleared: if it is pending and its key
    is recorded, or its tool is not permitted, or a version it expects is stale, or it
    requires approval, handling its event executes nothing, neither this action nor a later
    one; nor is anything executed for an action that is running, failed, stale or
    waits for approval. *)
Theorem execution_needs_clearance `{Env} rt e b pid aid p a s (w : MemWorld) :
  env_event e = AgentActionEvent b pid aid →
  ms_plans (w_store w) !! (ev_workspace_id b, pid) = Some p →
  get_action p aid = Some a →
  ms_context_snapshots (w_store w) !! (ev_workspace_id b, pl_context_snapshot_ref p) = Some s →
  (ac_status a = APending → cleared a (sn_context s) w = false) →
  ac_status a ≠ ACompleted → ac_status a ≠ ASkipped →
  same_run w (handle_action rt e w).2.
Proof.
  intros He Hp Ha Hs Hc Hn1 Hn2. unfold handle_action. cbn [handle_action_n].
  generalize (handle_action_n (S:=MemoryStateStore) (Q:=MemoryQueue) rt (λ _, raise out_of_fuel)
    (Z.to_nat INLINE_ACTION_CHAIN_BUDGET)). intros self.
  unfold handle_action_step. rw He. cbn zeta.
  rw (bind_step _ _ _ _ _ (get_plan_run _ _ w)) Hp.
  rw Ha. destruct (has_status APending a) eqn:Est; cbn [negb].
  - rw (bind_step _ _ _ _ _ (get_snapshot_run _ _ w)) Hs.
    apply pending_refused, Hc. by apply has_status_true.
  - assert (Hd : has_status ACompleted a || has_status ASkipped a = false).
    { unfold has_status. by rw !bool_decide_eq_false_2. }
    rw Hd. apply respects_bind; [apply _|apply trace_same|]. intros _. apply respects_ret; apply _.
Qed.

(** C31: a tool that raises, or that does not exist: when the report that the
    action runs fails, its error is raised and nothing was executed or stored; when
    it succeeds, the stored plan has the action failed, no key is recorded, no result
    is saved, and the tool's error is raised again for a whole-run plan while a
    sub-plan settles its node as failed; an error of the report on the failure
    changes none of that. *)
Theorem failing_tool_spec `{Env} rt self_next envelope p a c x (w : MemWorld) :
  (∀ v : MemWorld, (execute_one rt a c v).1 = Raise x) →
  let k := x_clock (w_ext w) in
  let running := restated_plan ARunning k a p in
  let '(r, w') := handle_execute rt self_next envelope p a c w in
  match reported rt running (restated ARunning k a) "action.executing"
          ("Executing tool " +:+ ac_tool_name a +:+ " for action " +:+ ac_action_id a +:+ ".") (ticked 0 2 (w_ext w)) with
  | Raise y => r = Raise y ∧ calm w w'
  | Ok _ => ∃ n1 n2,
      let failed := replace_action n2 (with_status n1 AFailed a) running in
      ms_plans (w_store w') = <[plan_key p := failed]> (ms_plans (w_store w)) ∧
      ms_action_results (w_store w') = ms_action_results (w_store w) ∧ keys w' = keys w ∧
      if is_subplan p
      then settles p "failed" (w_queue w) (w_queue w') ∧ (is_Some (pl_node_id p) → r = Ok tt)
      else w_queue w' = w_queue w ∧ r = Raise x
  end.
Proof.
  intros Hx k running. destruct (handle_execute _ _ _ _ _ _ w) as [r w'] eqn:E. unfold handle_execute in E.
  destruct (set_status_at p a ARunning w) as (w1 & E1 & C1 & X1). cbn zeta in E1.
  fold k in E1. fold running in E1. rw (bind_step _ _ _ _ _ E1) in E.
  match type of E with context [report ?s ?q ?b ?n ?m ≫= _] =>
    destruct (report_at s q b n m w1) as (w2 & E2 & C2) end.
  rw X1 in E2. destruct (reported _ _ _ _ _ _) as [[]|y].
  2:{ rw (bind_raise _ _ _ _ _ E2) in E. injection E as <- <-. split; [done|by etrans]. }
  rw (bind_step _ _ _ _ _ E2) in E. assert (C : calm w w2) by by etrans.
  match type of E with context [on_st (update_plan running) ≫= ?k] =>
    change (k tt (on_st (update_plan running) w2).2 = (r, w')) in E end.
  set (w3 := (on_st (update_plan running) w2).2) in *. cbn beta in E. unfold trace_action in E.
  match type of E with context [trace ?a ?b ?c ?d ?e ?f ≫= _] => destruct (trace_run a b c d e f w3) as (w4 & E4 & C4) end.
  rw (bind_step _ _ _ _ _ E4) in E. pose proof (execute_one_outside rt a c w4) as [Ho1 Ho2].
  pose proof (Hx w4) as Hx4. destruct (execute_one rt a c w4) as [r5 w5] eqn:E5. cbn in Hx4, Ho1, Ho2. subst r5.
  rw (bind_step _ _ w4 (inr x) w5) in E.
  { unfold try_catch. by rw (bind_raise _ _ _ _ _ E5). }
  destruct (execution_error_run rt envelope running a x w5) as (n3 & n4 & r6 & w6 & q6 & E6 & L6 & H6).
  rw E6 in E. injection E as <- <-. exists n3, n4. destruct L6 as [La Lb Lc Ld Le].
  destruct C as [A1 A2 A3 A4 A5 A6 A7 A8], C4 as [D1 D2 D3 D4 D5 D6 D7 D8].
  assert (Hq : w_queue w5 = w_queue w) by (rw Ho2 D7; exact A7).
  assert (Hpl : ms_plans (w_store w5) = <[plan_key p := running]> (ms_plans (w_store w))) by (rw Ho1 D1; simpl; by rw A1).
  split_and!.
  - rw La Hpl. apply insert_insert_eq.
  - rw Lb Ho1 D5. exact A5.
  - rw Lc. unfold keys in *. rw Ho1 D6. exact A6.
  - change (is_subplan running) with (is_subplan p) in H6. rw Ld. by destruct (is_subplan p); rw Hq in H6.
Qed.

(** C30: a tool result that is not a success: the result is saved and no key is
    recorded.  Before the third attempt the action is pending again in the stored
    plan and exactly one retry is queued, one attempt further, whether or not the
    report on it, which comes last, succeeds.  On the last attempt the action is failed
    in the stored plan; when the report succeeds, a sub-plan settles its node as failed
    and nothing is queued for a whole-run plan; when the report fails, its error is
    raised and nothing is queued, so a sub-plan's node stays unsettled. *)
Theorem failed_result_spec `{Env} rt self_next envelope p rp ra a result (w : MemWorld) :
  tr_success result = false →
  let next := env_attempt envelope + 1 in
  let s := if next <? 3 then APending else AFailed in
  let c := S (x_clock (w_ext w)) in
  let p' := restated_plan s c a rp in
  let reason := reason_or (validate_after_execution result) in
  ∃ q r w', handle_result rt self_next envelope p rp ra a result w = (r, w') ∧
    leaves w (<[plan_key rp := p']> (ms_plans (w_store w)))
      (<[result_key result := result]> (ms_action_results (w_store w))) (keys w) q w' ∧
    if next <? 3
    then (∃ m b, q = mq_push m (w_queue w) ∧
            env_event (qm_envelope m) = AgentActionEvent b (pl_plan_id p) (ac_action_id a) ∧
            ev_workspace_id b = pl_workspace_id p ∧ env_attempt (qm_envelope m) = next) ∧
         r = reported rt p' (restated s c a) "action.retry_scheduled" (reason "Action requested retry.")
               (ticked 4 5 (w_ext w))
    else match reported rt p' (restated s c a) "action.failed" (reason "Action failed validation after execution.")
                 (ticked 1 3 (w_ext w)) with
         | Ok _ => if is_subplan rp then settles rp "failed" (w_queue w) q ∧ (is_Some (pl_node_id rp) → r = Ok tt)
                   else q = w_queue w ∧ r = Ok tt
         | Raise e => q = w_queue w ∧ r = Raise e
         end.
Proof.
  intros Hf next s c p' reason. unfold handle_result. set (w1 := (on_st (save_action_result result) w).2).
  assert (E1 : on_st (save_action_result result) w = (Ok tt, w1)) by done.
  rw (bind_step _ _ _ _ _ E1). cbn zeta.
  match goal with |- context [trace ?a ?b ?c ?d ?e ?f] =>
    destruct (trace_at a b c d e f w1) as (w2 & E2 & [C1 C2 C3 C4 C5 C6 C7 C8] & X2) end.
  rw (bind_step _ _ _ _ _ E2). clear E2. change (w_ext w2 = ticked 1 1 (w_ext w)) in X2.
  assert (Hc : x_clock (w_ext w2) = c) by by rw X2.
  assert (Hd : vr_decision (validate_after_execution result) = DRetry) by (unfold validate_after_execution; by rw Hf).
  rw Hd. change (bool_decide (DRetry = DCommit)) with false. change (bool_decide (DRetry = DRetry)) with true.
  cbn [andb]. subst p' s. fold next. change ACTION_EXECUTION_ATTEMPTS with 3. destruct (next <? 3).
  - destruct (retry_run rt envelope p rp a result (validate_after_execution result) w2)
      as (w3 & m & b & E3 & [L1 L2 L3 L4 L5] & Hev & Hws & Hat).
    rw Hc in E3 L1. rw X2 in E3. eexists (mq_push m (w_queue w)), _, w3.
    split_and!; [exact E3|constructor; [by rw L1 C1|by rw L2 C5|by rw L3 C6|by rw L4 C7|by etrans]|by exists m, b|done].
  - unfold handle_post_failed. set (reason' := reason "Action failed validation after execution.").
    destruct (failed_then_settled rt envelope rp a AFailed "failed" "action.failed" reason' (env_event envelope)
      "action.failed" reason' (λ up, Some (pl_plan_id up)) (λ ua, Some (ac_action_id ua))
      (Some (reason "post_validation_failed"))
      (λ ua up, action_trace_data ua [plan_status_item up; result_item result;
         validation_item (validate_after_execution result)]) w2)
      as (r & w3 & q & E3 & [L1 L2 L3 L4 L5] & Hr).
    rw Hc in L1 Hr. rw X2 C7 in Hr. exists q, r, w3.
    split_and!; [exact E3|constructor; [by rw L1 C1|by rw L2 C5|by rw L3 C6|by rw L4|by etrans]|exact Hr].
Qed.

(** C29: a successful result: the result is saved and the action is completed in
    the stored plan.  When the report on it succeeds, the key is recorded, the events
    the tool emitted are queued in their order, and only then does the plan continue,
    from exactly the stored plan; when the report fails, its error is raised, the plan
    does not continue, nothing is queued and the key is not recorded (the stored status
    keeps a second delivery from executing the action again). *)
Theorem successful_result_spec `{Env} rt self_next envelope p rp ra a result (w : MemWorld) :
  tr_success result = true →
  let c := S (x_clock (w_ext w)) in
  let p' := restated_plan ACompleted c a rp in
  let plans := <[plan_key rp := p']> (ms_plans (w_store w)) in
  let results := <[result_key result := result]> (ms_action_results (w_store w)) in
  match reported rt p' (restated ACompleted c a) "action.completed" ("Completed action " +:+ ac_action_id a)
          (ticked 1 3 (w_ext w)) with
  | Ok _ => ∃ q ms w', leaves w plans results ({[ac_idempotency_key a]} ∪ keys w) q w' ∧
      mq_messages q = mq_messages (w_queue w) ++ ms ∧ map qm_envelope ms = tr_emitted_events result ∧
      handle_result rt self_next envelope p rp ra a result w = self_next envelope p' w'
  | Raise e => ∃ w', leaves w plans results (keys w) (w_queue w) w' ∧
      handle_result rt self_next envelope p rp ra a result w = (Raise e, w')
  end.
Proof.
  intros Hf c p' plans results. unfold handle_result.
  match goal with |- context [on_st (save_action_result result) ;; ?k] =>
    destruct (save_result_leaves result k w) as (w1 & L1 & X1 & ->) end.
  match goal with |- context [trace ?a ?b ?c ?d ?e ?f] => destruct (trace_at a b c d e f w1) as (w2 & E2 & C2 & X2) end.
  rw X1 in X2. rw (bind_step _ _ _ _ _ E2). clear E2. apply (leaves_calm _ _ _ _ _ _ _ L1) in C2 as L2.
  assert (Hd : vr_decision (validate_after_execution result) = DCommit ∧
    vr_emitted_events (validate_after_execution result) = tr_emitted_events result)
    by (unfold validate_after_execution; by rw Hf).
  destruct Hd as [-> Hev]. change (bool_decide (DCommit = DCommit)) with true. unfold handle_commit. cbn zeta.
  match goal with |- context [set_action_status _ _ _ ≫= λ '(ua, up), on_st (update_plan up) ;; @?k ua up] =>
    destruct (store_status_leaves rp a ACompleted k w2) as (w3 & L3 & X3 & ->) end.
  rw X2 in L3 X3. change (x_clock (ticked 1 1 (w_ext w))) with c in L3 |- *. rw X2.
  change (w_ext w3 = ticked 1 3 (w_ext w)) in X3. change (x_clock (ticked 1 1 (w_ext w))) with c. fold p' in L3 |- *.
  cbn beta. assert (L : leaves w plans results (keys w) (w_queue w) w3).
  { destruct L2 as [A B C D F]. rw A B C D in L3. eapply leaves_trans; [|exact L3]. by constructor. }
  rw Hev. match goal with |- context [report _ ?p ?a ?n ?m ;; on_st (record_idempotency_key ?key) ;; enqueue_events ?evs ;;
      trace_action ?ev ?n2 ?m2 ?p2 ?a2 ?d2 ;; ?k] =>
    pose proof (announce_run rt p a n m key evs ev n2 m2 (Some (pl_plan_id p2)) (Some (ac_action_id a2)) (action_trace_data a2 d2) k w3)
      as Ha end.
  rw X3 in Ha. cbv zeta in Ha. destruct (reported _ _ _ _ _ _) as [[]|e].
  - destruct Ha as (q & ms & w4 & E4 & L4 & Hq & Hm). destruct L as [La Lb Lc Ld Le]. rw La Lb Lc in L4. rw Ld in Hq.
    exists q, ms, w4. split_and!; [|done|done|exact E4]. eapply leaves_trans; [|exact L4]. by constructor.
  - destruct Ha as (w4 & E4 & C4). exists w4. split; [exact (leaves_calm _ _ _ _ _ _ _ L C4)|exact E4].
Qed.

(** An action that needs approval: it is never executed, its plan is stored
    with the action waiting for approval, and, when that could be reported, its key
    is recorded, so that a later delivery is a duplicate, and the suggestion's
    events are queued first, followed by nothing but the settling of a sub-plan's
    node as waiting for approval. *)
Theorem handle_suggest_spec `{Env} rt envelope p a v (w : MemWorld) :
  let c := S (x_clock (w_ext w)) in
  let p' := restated_plan ARequiresApproval c a p in
  ∃ r w' result, handle_suggest rt envelope p a v w = (r, w') ∧ same_run w w' ∧
    ms_plans (w_store w') = <[plan_key p := p']> (ms_plans (w_store w)) ∧
    ms_action_results (w_store w') = <[(ac_plan_id a, ac_action_id a) := result]> (ms_action_results (w_store w)) ∧
    tr_success result = true ∧
    match reported rt p' (restated ARequiresApproval c a) "action.approval_required"
            "Action converted to user-facing suggestion." (ticked 1 3 (w_ext w)) with
    | Raise e => keys w' = keys w ∧ w_queue w' = w_queue w ∧ r = Raise e
    | Ok _ => keys w' = {[ac_idempotency_key a]} ∪ keys w ∧
        ∃ q ms, mq_messages q = mq_messages (w_queue w) ++ ms ∧ map qm_envelope ms = vr_emitted_events v ∧
          if is_subplan p then settles p "waiting_for_approval" q (w_queue w') else w_queue w' = q ∧ r = Ok tt
    end.
Proof.
  intros c p'. unfold handle_suggest.
  destruct (run_calm (ext (approval_result a v)) w (ext_calm _)) as (rr & w0 & E0 & C0).
  assert (X0 : w_ext w0 = ticked 1 1 (w_ext w)) by (apply (f_equal snd) in E0; cbn [snd] in E0; by rw -E0).
  assert (Hres : ∃ result, rr = Ok result ∧ tr_success result = true ∧ result_key result = (ac_plan_id a, ac_action_id a)).
  { apply (f_equal fst) in E0. eexists. split; [symmetry; exact E0|]. done. }
  destruct Hres as (result & -> & Hsucc & Hkey). rw (bind_step _ _ _ _ _ E0). clear E0.
  match goal with |- context [on_st (save_action_result result) ;; ?k] =>
    destruct (save_result_leaves result k w0) as (w1 & L1 & X1 & ->) end. rw X0 in X1.
  match goal with |- context [set_action_status _ _ _ ≫= λ '(ua, up), on_st (update_plan up) ;; @?k ua up] =>
    destruct (store_status_leaves p a ARequiresApproval k w1) as (w3 & L3 & X3 & ->) end.
  rw X1 in L3 X3. rw X1. change (x_clock (ticked 1 1 (w_ext w))) with c in L3 |- *. fold p' in L3 |- *.
  change (w_ext w3 = ticked 1 3 (w_ext w)) in X3. cbn beta.
  assert (L : leaves w (<[plan_key p := p']> (ms_plans (w_store w)))
    (<[(ac_plan_id a, ac_action_id a) := result]> (ms_action_results (w_store w))) (keys w) (w_queue w) w3).
  { destruct C0 as [C1 _ _ _ C5 C6 C7 C8], L1 as [A B D F G]. rw A B D F C1 C5 C6 C7 Hkey in L3.
    eapply leaves_trans; [|exact L3]. constructor; try done. by etrans. }
  match goal with |- context [report _ ?p ?a ?n ?m ;; on_st (record_idempotency_key ?key) ;; enqueue_events ?evs ;;
      trace ?ev ?n2 ?m2 ?p2 ?a2 ?d2 ;; ?k] =>
    pose proof (announce_run rt p a n m key evs ev n2 m2 p2 a2 d2 k w3) as Ha end.
  rw X3 in Ha. cbv zeta in Ha. destruct (reported _ _ _ _ _ _) as [[]|e].
  2:{ destruct Ha as (w4 & E4 & C4). apply (leaves_calm _ _ _ _ _ _ _ L) in C4 as [].
      exists (Raise e), w4, result. by split_and!. }
  destruct Ha as (q & ms & w4 & E4 & L4 & Hq & Hm).
  destruct L as [La Lb Lc Ld Le]. destruct L4 as [Ma Mb Mc Md Me]. change (is_subplan p') with (is_subplan p) in E4.
  change (is_subplan p') with (is_subplan p). rw E4. destruct (is_subplan p) eqn:Esub; cbn [when].
  - destruct (settle_subplan_any envelope p' "waiting_for_approval" None w4) as (r & w8 & q8 & E8 & [Na Nb Nc Nd Ne] & Hs & _).
    rw E8. exists r, w8, result. rw Na Nb Nc Nd Ma Mb Mc La Lb Lc.
    split_and!; [done|etrans; [exact Le|]; by etrans|done|done|done|done|].
    exists q, ms. split_and!; [by rw Hq Ld|done|]. rw Md in Hs. exact Hs.
  - exists (Ok tt), w4, result. rw Ma Mb Mc La Lb Lc. split_and!; [done|by etrans|done..|].
    exists q, ms. by rw Hq Ld.
Qed.

(** ** A concrete run *)

#[local] Existing Instance env_ok.

Definition failing_tool `{Env} (name : string) : Tool := {|
  tl_definition := sample_tool_definition name "auto_commit"; tl_execute _ _ := raise (Exn RuntimeError "boom") |}.

(** Reporting is off. *)
Definition sample_sync : AgentRunSync :=
  {| ars_client := {| cl_base_url := None; cl_token := None |}; ars_enabled_flag := false |}.

Definition sample_runtime `{Env} : Runtime := {| rt_tools := pn_tool_registry sample_planner; rt_sync := sample_sync |}.
Definition failing_runtime `{Env} : Runtime := {|
  rt_tools := {| rg_tools := [("create_workitem", failing_tool "create_workitem")];
                 rg_definitions := [("create_workitem", sample_tool_definition "create_workitem" "auto_commit")] |};
  rt_sync := sample_sync |}.

(** Reporting is on; the report on an action that the plan does not have fails. *)
Definition loud_runtime `{Env} (tools : ToolRegistry Tool) : Runtime := {|
  rt_tools := tools;
  rt_sync := {| ars_client := {| cl_base_url := Some "http://api"; cl_token := None |}; ars_enabled_flag := true |} |}.
Definition not_in_plan : exn := Exn ValueError "Action z is not part of plan run-1.".

Definition sample_snapshot : ContextSnapshot := {|
  sn_snapshot_id := "ctx"; sn_plan_id := Some "run-1"; sn_workspace_id := "ws"; sn_project_id := None;
  sn_workflow_id := "wf"; sn_context := sample_context "ws"; sn_created_at := 0 |}.

Definition sample_world_with (p : AgentPlan) : World MemoryStateStore MemoryQueue := {|
  w_store := {| ms_plans := {[ ("ws", "run-1") := p ]}; ms_task_graphs := ∅; ms_sub_agent_results := ∅;
                ms_context_snapshots := {[ ("ws", pl_context_snapshot_ref p) := sample_snapshot ]};
                ms_action_results := ∅; ms_traces := []; ms_idempotency_keys := ∅ |};
  w_queue := memory_queue_empty; w_ext := ext0; w_inline := 0; w_seen := ∅; w_log := [] |}.
Definition sample_world : World MemoryStateStore MemoryQueue := sample_world_with sample_plan.

Definition sample_base : event_base := {|
  ev_event_id := "evt-1"; ev_event_type := "agent.action.requested"; ev_workspace_id := "ws"; ev_project_id := None;
  ev_payload := []; ev_occurred_at := 0; ev_correlation_id := None; ev_causality := causality_root;
  ev_idempotency_key := None |}.
Definition sample_envelope (action_id : string) : EventEnvelope := {|
  env_envelope_id := "env-1"; env_event := AgentActionEvent sample_base "run-1" action_id; env_received_at := 0;
  env_attempt := 0 |}.

(** The three actions of the plan are executed in one invocation and the plan completes. *)
Example handle_action_runs_plan :
  let w' := (@handle_action env_ok _ MemoryQueue _ _ (@sample_runtime env_ok) (sample_envelope "a") sample_world).2 in
  w_log w' = [LExecute "k:a"; LExecute "k:b"; LExecute "k:c"] ∧ w_inline w' = 2 ∧
  option_map pl_status (ms_plans (w_store w') !! ("ws", "run-1")) = Some PCompleted ∧
  mq_messages (w_queue w') = [].
Proof. vm_compute. done. Qed.

Lemma handle_action_terminates_witness :
  @handle_action_n env_ok _ MemoryQueue _ _ (@sample_runtime env_ok) (λ _, mret tt) 12 (sample_envelope "a") sample_world
  = @handle_action env_ok _ MemoryQueue _ _ (@sample_runtime env_ok) (sample_envelope "a") sample_world.
Proof. apply handle_action_terminates; unfold INLINE_ACTION_CHAIN_BUDGET; simpl; lia. Defined.

Definition approval_action : PlannedAction := {|
  ac_action_id := "a"; ac_plan_id := "run-1"; ac_action_type := "tool"; ac_tool_name := "create_workitem";
  ac_instruction := "do it"; ac_input := []; ac_work_items := []; ac_work_item_updates := [];
  ac_target_item_ids := []; ac_depends_on := []; ac_requires_approval := true;
  ac_status := APending; ac_idempotency_key := "k:a"; ac_expected_entity_versions := [];
  ac_created_at := 0; ac_updated_at := 0 |}.

Lemma execution_needs_clearance_witness :
  let w := sample_world_with (plan_update [approval_action] PPlanned 0 sample_plan) in
  same_run w (@handle_action env_ok _ MemoryQueue _ _ (@sample_runtime env_ok) (sample_envelope "a") w).2.
Proof.
  intros w. set (r := @handle_action env_ok _ MemoryQueue _ _ (@sample_runtime env_ok) (sample_envelope "a") w).
  pose proof (@execution_needs_clearance env_ok (@sample_runtime env_ok) (sample_envelope "a") sample_base "run-1" "a"
    (plan_update [approval_action] PPlanned 0 sample_plan) approval_action sample_snapshot w) as Hn. fold r in Hn.
  apply Hn; [reflexivity|vm_compute; reflexivity|reflexivity|vm_compute; reflexivity| |discriminate|discriminate].
  intros _. unfold cleared. by rw !andb_false_r.
Defined.

Lemma failing_tool_spec_witness :
  let run rt name := @handle_execute env_ok _ MemoryQueue _ _ rt (λ _ _, mret tt) (sample_envelope "a") sample_plan
                       (sample_action name []) (sample_context "ws") sample_world in
  let tools := rt_tools (@failing_runtime env_ok) in
  ((run failing_runtime "a").1 = Raise (Exn RuntimeError "boom") ∧ keys (run failing_runtime "a").2 = keys sample_world ∧
   w_queue (run failing_runtime "a").2 = w_queue sample_world) ∧
  (run (loud_runtime tools) "z").1 = Raise not_in_plan ∧ calm sample_world (run (loud_runtime tools) "z").2.
Proof.
  intros run tools. split.
  - pose proof (@failing_tool_spec env_ok (@failing_runtime env_ok) (λ _ _, mret tt) (sample_envelope "a") sample_plan
      (sample_action "a" []) (sample_context "ws") (Exn RuntimeError "boom") sample_world (λ v, eq_refl)) as Hf.
    cbv zeta in Hf. unfold run. destruct (handle_execute _ _ _ _ _ _ _) as [r w'].
    destruct Hf as (n1 & n2 & _ & _ & Hk & Hq & Hr). split_and!; [exact Hr|exact Hk|exact Hq].
  - pose proof (@failing_tool_spec env_ok (loud_runtime tools) (λ _ _, mret tt) (sample_envelope "a") sample_plan
      (sample_action "z" []) (sample_context "ws") (Exn RuntimeError "boom") sample_world (λ v, eq_refl)) as Hf.
    cbv zeta in Hf. unfold run. destruct (handle_execute _ _ _ _ _ _ _) as [r w']. exact Hf.
Defined.

Definition sample_result (success : bool) : ToolResult := {|
  tr_result_id := "r"; tr_plan_id := "run-1"; tr_action_id := "a"; tr_tool_name := "create_workitem";
  tr_success := success; tr_output := []; tr_error := None; tr_emitted_events := [sample_envelope "x"];
  tr_suggestion := None; tr_created_at := 0 |}.

(** The handling of a result for an action of the sample plan. *)
Definition sample_handle_result `{Env} rt (envelope : EventEnvelope) (name : string) (success : bool) :
    res unit * World MemoryStateStore MemoryQueue :=
  handle_result rt (λ _ _, mret tt) envelope sample_plan sample_plan (sample_action name []) (sample_action name [])
    (sample_result success) sample_world.

Definition last_envelope : EventEnvelope := {|
  env_envelope_id := "env-3"; env_event := env_event (sample_envelope "a"); env_received_at := 0; env_attempt := 2 |}.

Lemma failed_result_spec_witness :
  let retried := @sample_handle_result env_ok sample_runtime (sample_envelope "a") "a" false in
  let failed := @sample_handle_result env_ok sample_runtime last_envelope "a" false in
  let unreported := @sample_handle_result env_ok (loud_runtime (rt_tools (@sample_runtime env_ok))) last_envelope "z" false in
  (retried.1 = Ok tt ∧ keys retried.2 = keys sample_world ∧ ∃ m b, w_queue retried.2 = mq_push m (w_queue sample_world) ∧
     env_event (qm_envelope m) = AgentActionEvent b "run-1" "a" ∧ env_attempt (qm_envelope m) = 1) ∧
  (failed.1 = Ok tt ∧ w_queue failed.2 = w_queue sample_world) ∧
  unreported.1 = Raise not_in_plan ∧ w_queue unreported.2 = w_queue sample_world.
Proof.
  intros retried failed unreported. unfold retried, failed, unreported, sample_handle_result. split; [|split].
  - destruct (@failed_result_spec env_ok (@sample_runtime env_ok) (λ _ _, mret tt) (sample_envelope "a") sample_plan
      sample_plan (sample_action "a" []) (sample_action "a" []) (sample_result false) sample_world eq_refl)
      as (q & r & w' & E & [_ _ Hk Hq _] & (m & b & Em & Hm & _ & Hat) & Hr). rw E.
    split_and!; [exact Hr|exact Hk|]. exists m, b. split_and!; [by rw /= Hq|exact Hm|exact Hat].
  - destruct (@failed_result_spec env_ok (@sample_runtime env_ok) (λ _ _, mret tt) last_envelope sample_plan
      sample_plan (sample_action "a" []) (sample_action "a" []) (sample_result false) sample_world eq_refl)
      as (q & r & w' & E & [_ _ Hk Hq _] & [Eq Hr]). rw E. split; [exact Hr|by rw /= Hq].
  - destruct (@failed_result_spec env_ok (loud_runtime (rt_tools (@sample_runtime env_ok))) (λ _ _, mret tt) last_envelope
      sample_plan sample_plan (sample_action "z" []) (sample_action "z" []) (sample_result false) sample_world eq_refl)
      as (q & r & w' & E & [_ _ Hk Hq _] & [Eq Hr]). rw E. split; [exact Hr|by rw /= Hq].
Defined.

Lemma successful_result_spec_witness :
  let done_ := @sample_handle_result env_ok sample_runtime (sample_envelope "a") "a" true in
  let unreported := @sample_handle_result env_ok (loud_runtime (rt_tools (@sample_runtime env_ok))) (sample_envelope "z") "z" true in
  (done_.1 = Ok tt ∧ keys done_.2 = {["k:a"]} ∪ keys sample_world ∧
   map qm_envelope (mq_messages (w_queue done_.2)) = [sample_envelope "x"]) ∧
  unreported.1 = Raise not_in_plan ∧ keys unreported.2 = keys sample_world ∧ w_queue unreported.2 = w_queue sample_world.
Proof.
  intros done_ unreported. unfold done_, unreported, sample_handle_result. split.
  - destruct (@successful_result_spec env_ok (@sample_runtime env_ok) (λ _ _, mret tt) (sample_envelope "a") sample_plan
      sample_plan (sample_action "a" []) (sample_action "a" []) (sample_result true) sample_world eq_refl)
      as (q & ms & w' & [_ _ Hk Hq _] & Hms & Hm & E).
    cbn beta in E. rw E. split_and!; [done|exact Hk|]. by rw /= Hq Hms.
  - destruct (@successful_result_spec env_ok (loud_runtime (rt_tools (@sample_runtime env_ok))) (λ _ _, mret tt)
      (sample_envelope "z") sample_plan sample_plan (sample_action "z" []) (sample_action "z" []) (sample_result true)
      sample_world eq_refl) as (w' & [_ _ Hk Hq _] & E).
    rw E. split_and!; [done|exact Hk|exact Hq].
Defined.

Lemma handle_action_store_independent_witness :
  sim (world_rel wraps)
    (@handle_action env_ok (LoggingStateStore MemoryStateStore) MemoryQueue _ _ (@sample_runtime env_ok) (sample_envelope "a"))
    (@handle_action env_ok MemoryStateStore MemoryQueue _ _ (@sample_runtime env_ok) (sample_envelope "a")).
Proof. apply (@handle_action_store_independent env_ok _ _ MemoryQueue wraps). apply logging_store_sim. Defined.
