(* ===== verification/PrismRecovery.v ===== *)
(** * What a later invocation finds again

    Plans and task graphs saved through the Prism API state store, read by a store
    of a later invocation on the same durable memory: the plan is the one saved,
    claimed nodes stay claimed, and when the transport is unavailable reads fall
    back on what the invocation itself knows. *)

From S2P Require Import Prelude PyStr PyVal PyUuid Json JsonLoads Events Plans SubTasks Policies Env.
From S2P Require Import Definitions Client Records AgentRunIds AgentRunSync Validation Planning Stores.
From S2P Require Import StateMemory PrismStore World ActionHandler AtMostOnce PrismProofs ActionProofs.

Section recovery.
Context `{Env} `{HC : StateCodec} `{!CodecErrors} {T : Type} `{HM : AgentStateMemoryStore T}.
Context (ok : T → Prop) (held : T → string → string → string → option (dict pyval)) (fits : T → string → string → Prop).
Context `{HD : !DurableMemory T ok held fits}.
Abbreviation PS := (PrismApiStateStore MemoryStateStore T).

(** Only [mid] holds a record of [kind] of the run. *)
Definition only_record (t : T) (w r kind mid : string) : Prop :=
  ∀ mid' d record, held t w r mid' = Some d → mid' ≠ mid →
    decode_state_record (dget "content" d) = Some record → dget "kind" record ≠ PStr kind.

(** ** Lemmas *)

(** A field of the fallback, the memory and the environment do not change. *)
Definition field_same {X} (field : MemoryStateStore → X) (x y : PS * Ext) : Prop :=
  field (ps_fallback y.1) = field (ps_fallback x.1) ∧ ps_memory y.1 = ps_memory x.1 ∧ y.2 = x.2.

#[export] Instance field_same_preorder {X} (field : MemoryStateStore → X) : PreOrder (field_same field).
Proof. split; [by intros x|]. intros x y z (?&?&?) (?&?&?). split_and!; congruence. Qed.

Lemma fb_field {X} (field : MemoryStateStore → X) {A} (m : st (MemoryStateStore * Ext) A) :
  (∀ s x, field (m (s, x)).2.1 = field s ∧ (m (s, x)).2.2 = x) → respects (field_same field) (fb (T:=T) m).
Proof. intros Hm [s x]. unfold fb, zoom. specialize (Hm (ps_fallback s) x). cbn. destruct (m _) as [r [s' x']]. by destruct Hm. Qed.

Lemma remember_field {X} (field : MemoryStateStore → X) p : respects (field_same field) (remember_plan_idempotency (T:=T) p).
Proof. unfold remember_plan_idempotency. apply respects_for_each; [apply _|]. by intros a [s x]. Qed.

(** Replaying a record of another kind leaves the plans and the graphs alone. *)
Ltac record_frame :=
  unfold load_record; destruct (dget "kind" _); try (apply respects_ret; apply _);
  repeat (case_bool_decide; subst; try done);
  repeat respects_step; first [done | by apply remember_field | by intros [? ?] | by apply fb_field; intros [] ?].

Lemma record_keeps_plans w r d k :
  dget "kind" d ≠ PStr "plan" → respects (field_same (λ m, ms_plans m !! k)) (load_record (T:=T) w r d).
Proof. intros Hk. record_frame. Qed.

Lemma record_keeps_graphs w r d k :
  dget "kind" d ≠ PStr "task_graph" → respects (field_same (λ m, ms_task_graphs m !! k)) (load_record (T:=T) w r d).
Proof. intros Hk. record_frame. Qed.

(** The replay changes the fallback and the locations only. *)
Lemma memories_frame w r d : respects (field_same (λ _, tt)) (load_state_memories (T:=T) w r d).
Proof.
  assert (Hrec : ∀ record, respects (field_same (λ _, tt)) (load_record (T:=T) w r record)) by (intros record; record_frame).
  unfold load_state_memories. destruct (dget _ _); try (apply respects_ret; apply _).
  apply respects_for_each; [apply _|]. intros m. unfold load_memory_item.
  destruct m; try (apply respects_ret; apply _). destruct (decode_state_record _); [|apply respects_ret; apply _].
  apply respects_try; [apply _|apply Hrec|intros e; destruct (is_ValueError e); [apply respects_ret|apply respects_raise]; apply _].
Qed.

(** What the one record of a kind says of [field] holds after the replay. *)
Lemma replay_field {X} (field : MemoryStateStore → X) v kind mid payload w r (s : PS) x :
  ok (ps_memory s) → fits (ps_memory s) w r → no_slash w → no_slash r →
  held (ps_memory s) w r mid = Some payload → only_record (ps_memory s) w r kind mid →
  (∀ record, dget "kind" record ≠ PStr kind → respects (field_same field) (load_record (T:=T) w r record)) →
  (∀ y : PS * Ext, field (ps_fallback (load_memory_item w r (PDict payload) y).2.1) = v) →
  ∃ d s', run_state w r (s, x) = (Ok d, (s, x)) ∧ dget "actions" d = PNone ∧ dget "run" d = PNone ∧
    load_state_memories w r d (s, x) = (Ok tt, (s', x)) ∧
    field (ps_fallback s') = v ∧ ps_memory s' = ps_memory s.
Proof.
  intros Ho Hf Hw Hr Hh Honly Hframe Hload.
  destruct (run_state_held ok held fits w r s x Ho Hf Hw Hr) as (l & E & Hl & HR).
  destruct (replay_reaches (λ y, field (ps_fallback y.1) = v) w r l (s, x) payload HR) as ([s' x'] & Ey & Hy);
    [|exact Hload|apply Hl; eauto|].
  { intros d y [mid' Hd]%Hl Hy. destruct (decide (mid' = mid)) as [->|Hne].
    { replace d with payload by congruence. apply Hload. }
    rw -Hy. unfold load_memory_item. destruct (decode_state_record (dget "content" d)) as [record|] eqn:Ed; [|done].
    assert (Ht : respects (field_same field) (try_catch_if is_ValueError (load_record (T:=T) w r record) (λ _, mret tt)))
      by (apply respects_try; [apply _|by eapply Hframe, Honly|intros e; destruct (is_ValueError e); [apply respects_ret|apply respects_raise]; apply _]).
    apply Ht. }
  pose proof (memories_frame w r [("memories", PList (map PDict l))] (s, x)) as (_ & Hm & Hx). rw Ey in Hm, Hx.
  cbn in Hm, Hx. subst x'. by exists [("memories", PList (map PDict l))], s'.
Qed.

(** *** The record of a plan and of a graph *)

Lemma record_json_ok kind k v :
  json_ok v → "kind" ≠ k → json_ok (PDict [("kind", PStr kind); (k, v)]).
Proof. intros Hv Hk. cbn. split; [|done]. constructor; [by intros ?%list_elem_of_singleton|apply NoDup_singleton]. Qed.

Lemma load_plan_record w r p p' (y : PS * Ext) :
  json_ok (model_dump p) → model_validate (json_canon (model_dump p)) = Ok p' →
  ms_plans (ps_fallback (load_memory_item w r (PDict (plan_payload p)) y).2.1) !! (pl_workspace_id p', pl_plan_id p') = Some p'.
Proof.
  intros Hok Hv. destruct (load_payload w r (plan_memory_id (pl_plan_id p)) (pl_plan_id p) "agent_plan" "Agent plan"
    [("kind", PStr "plan"); ("plan", model_dump p)] None y) as (d & Hd & E).
  { by apply record_json_ok. }
  { by apply (bool_decide_unpack _). }
  unfold plan_payload. rw E caught_state. unfold load_record. rw (Hd "kind"); [done|].
  change (json_canon (dget "kind" [("kind", PStr "plan"); ("plan", model_dump p)])) with (PStr "plan").
  cbn iota. rw bool_decide_eq_true_2; [done|]. rw (Hd "plan"); [done|].
  change (dget "plan" [("kind", PStr "plan"); ("plan", model_dump p)]) with (model_dump p). rw Hv. destruct y as [s x].
  set (s1 := {| ps_fallback := mem_save_plan p' (ps_fallback s); ps_memory := ps_memory s; ps_locations := ps_locations s |}).
  change ((lift_res (Ok p') ≫= λ plan, fb (save_plan plan) ;; remember_plan_idempotency plan) (s, x))
    with (remember_plan_idempotency p' (s1, x)).
  pose proof (remember_field (λ m, ms_plans m !! (pl_workspace_id p', pl_plan_id p')) p' (s1, x)) as [Hs _]. rw Hs.
  apply lookup_insert_eq.
Qed.

Lemma load_graph_record w r g g' (y : PS * Ext) :
  json_ok (model_dump g) → model_validate (json_canon (model_dump g)) = Ok g' →
  ms_task_graphs (ps_fallback (load_memory_item w r (PDict (graph_payload g)) y).2.1)
    !! (tg_workspace_id g', tg_plan_id g') = Some g'.
Proof.
  intros Hok Hv. destruct (load_payload w r (graph_memory_id (tg_plan_id g)) (tg_plan_id g) "agent_decision" "Task graph"
    [("kind", PStr "task_graph"); ("graph", model_dump g)] None y) as (d & Hd & E).
  { by apply record_json_ok. }
  { by apply (bool_decide_unpack _). }
  unfold graph_payload. rw E caught_state. unfold load_record. rw (Hd "kind"); [done|].
  change (json_canon (dget "kind" [("kind", PStr "task_graph"); ("graph", model_dump g)])) with (PStr "task_graph").
  cbn iota. do 3 (rw bool_decide_eq_false_2; [done|]). rw bool_decide_eq_true_2; [done|]. rw (Hd "graph"); [done|].
  change (dget "graph" [("kind", PStr "task_graph"); ("graph", model_dump g)]) with (model_dump g). rw Hv.
  destruct y as [s x]. apply lookup_insert_eq.
Qed.

Lemma plan_payload_ok p : json_ok (model_dump p) → memory_ok (plan_payload p) (plan_memory_id (pl_plan_id p)).
Proof.
  intros Hj. apply payload_ok; [apply state_id_slug|apply state_id_slug|by apply record_json_ok|by apply (bool_decide_unpack _)|done].
Qed.

Lemma graph_payload_ok g : json_ok (model_dump g) → memory_ok (graph_payload g) (graph_memory_id (tg_plan_id g)).
Proof.
  intros Hj. apply payload_ok; [apply state_id_slug|apply state_id_slug|by apply record_json_ok|by apply (bool_decide_unpack _)|done].
Qed.

(** *** Reading *)

#[local] Instance ps_store_r (persist : bool) : StateStore PS := prism_api_state_store persist.

Lemma actions_none d : dget "actions" d = PNone → actions_by_id d = [].
Proof. intros E. unfold actions_by_id. by rw E. Qed.

Lemma hydrate_none p d (y : PS * Ext) :
  dget "actions" d = PNone → dget "run" d = PNone → hydrate_plan_state p d y = (Ok p, y).
Proof.
  intros Ha Hr. unfold hydrate_plan_state, plan_status_from_state. rw (actions_none _ Ha) Hr.
  unfold mbind, st_bind. cbn. by rw bool_decide_eq_true_2.
Qed.

Lemma get_plan_found w r p p' (s : PS) x :
  ok (ps_memory s) → fits (ps_memory s) w r → no_slash w → no_slash r →
  json_ok (model_dump p) → model_validate (json_canon (model_dump p)) = Ok p' →
  pl_plan_id p = r → pl_workspace_id p' = w → pl_plan_id p' = r →
  held (ps_memory s) w r (plan_memory_id r) = Some (plan_payload p) →
  only_record (ps_memory s) w r "plan" (plan_memory_id r) →
  ∃ s', prism_get_plan w r (s, x) = (Ok (Some p'), (s', x)) ∧ ps_memory s' = ps_memory s.
Proof.
  intros Ho Hf Hw Hr Hok Hv Hp Hw' Hr' Hh Honly.
  destruct (replay_field (λ m, ms_plans m !! (w, r)) (Some p') "plan" _ _ w r s x Ho Hf Hw Hr Hh Honly)
    as (d & s' & E1 & Ha & Hrun & E2 & Hfield & Hm).
  { intros record. apply record_keeps_plans. }
  { intros y. rw -Hw' -Hr'. by apply load_plan_record. }
  exists s'. split; [|done]. unfold prism_get_plan. rw (bind_step _ _ _ _ _ E1) (bind_step _ _ _ _ _ E2).
  assert (E3 : fb (T:=T) (get_plan w r) (s', x) = (Ok (Some p'), (s', x))).
  { unfold fb, zoom. cbn. rw Hfield. by destruct s'. }
  rw (bind_step _ _ _ _ _ E3) (bind_step _ _ _ _ _ (hydrate_none p' d (s', x) Ha Hrun)). by rw bool_decide_eq_true_2.
Qed.

Lemma get_graph_found w r g g' (s : PS) x :
  ok (ps_memory s) → fits (ps_memory s) w r → no_slash w → no_slash r →
  json_ok (model_dump g) → model_validate (json_canon (model_dump g)) = Ok g' →
  tg_plan_id g = r → tg_workspace_id g' = w → tg_plan_id g' = r →
  held (ps_memory s) w r (graph_memory_id r) = Some (graph_payload g) →
  only_record (ps_memory s) w r "task_graph" (graph_memory_id r) →
  ∃ s', prism_get_task_graph w r (s, x) = (Ok (Some g'), (s', x)) ∧ ps_memory s' = ps_memory s.
Proof.
  intros Ho Hf Hw Hr Hok Hv Hp Hw' Hr' Hh Honly.
  destruct (replay_field (λ m, ms_task_graphs m !! (w, r)) (Some g') "task_graph" _ _ w r s x Ho Hf Hw Hr Hh Honly)
    as (d & s' & E1 & Ha & Hrun & E2 & Hfield & Hm).
  { intros record. apply record_keeps_graphs. }
  { intros y. rw -Hw' -Hr'. by apply load_graph_record. }
  exists s'. split; [|done]. unfold prism_get_task_graph, restore_run_state.
  assert (E : (run_state w r ≫= λ state, load_state_memories w r state) (s, x) = (Ok tt, (s', x)))
    by (rw (bind_step _ _ _ _ _ E1); exact E2).
  rw (bind_step _ _ _ _ _ E). unfold fb, zoom. cbn. rw Hfield. by destruct s'.
Qed.
End recovery.

(** *** Hydration *)

(** The status the records of a run give an action. *)
Definition hydrated_status (records : dict (dict pyval)) (a : PlannedAction) : ActionStatus :=
  match action_record records a with
  | None => ac_status a
  | Some r => action_status_from_record r (ac_status a)
  end.

Definition unchanged (records : dict (dict pyval)) (a : PlannedAction) : bool :=
  bool_decide (hydrated_status records a = ac_status a).

(** [a'] is [a] with that status, and [a] itself when it already had it. *)
Definition hydrated (records : dict (dict pyval)) (a a' : PlannedAction) : Prop :=
  if unchanged records a then a' = a else ∃ now, a' = with_status now (hydrated_status records a) a.

Lemma hydrated_now records a a' :
  hydrated records a a' → ac_action_id a' = ac_action_id a ∧ ac_status a' = hydrated_status records a.
Proof.
  unfold hydrated, unchanged. case_bool_decide as E; [intros ->; by rw E|intros [now ->]]. done.
Qed.

Lemma status_from_record_idemp r s :
  action_status_from_record r (action_status_from_record r s) = action_status_from_record r s.
Proof.
  unfold action_status_from_record, dict_get_or. destruct (_ && _); [done|]. by destruct (dict_get _ ACTION_STATUS_MAP).
Qed.

Lemma hydrated_again records a a' : hydrated records a a' → unchanged records a' = true.
Proof.
  intros Ha. unfold hydrated in Ha. destruct (unchanged records a) eqn:E; [by subst|]. destruct Ha as [now ->].
  unfold unchanged. apply bool_decide_eq_true. unfold hydrated_status. 
  change (action_record records (with_status now _ a)) with (action_record records a).
  destruct (action_record records a) as [r|]; [|done]. apply status_from_record_idemp.
Qed.

Lemma plan_status_idemp d s : plan_status_from_state d (plan_status_from_state d s) = plan_status_from_state d s.
Proof. unfold plan_status_from_state, dict_get_or. destruct (dget "run" d); try done. by destruct (dict_get _ PLAN_STATUS_MAP). Qed.

Section hydration.
Context `{Env} `{HC : StateCodec} {T : Type} `{HM : AgentStateMemoryStore T}.
Abbreviation PS := (PrismApiStateStore MemoryStateStore T).

Lemma hydrate_action_run records h pre a l (y : PS * Ext) :
  pl_actions h = pre ++ a :: l → NoDup (action_ids (pre ++ a :: l)) →
  ∃ h1 a' y', hydrate_action records h a y = (Ok h1, y') ∧ y'.1 = y.1 ∧ pl_actions h1 = pre ++ a' :: l ∧
    hydrated records a a' ∧ if unchanged records a then h1 = h else pl_status h1 = derived_status (pl_actions h1).
Proof.
  intros Ha Hnd. unfold hydrate_action, hydrated, unchanged, hydrated_status.
  destruct (action_record records a) as [r|]; [|by rw bool_decide_eq_true_2; [done|]; exists h, a, y].
  case_bool_decide as E; [by exists h, a, y|]. destruct y as [s x].
  set (now := clock_at (x_clock x)). set (now' := clock_at (S (x_clock x))).
  set (a' := with_status now (action_status_from_record r (ac_status a)) a).
  exists (replace_action now' a' h), a'. eexists. split; [reflexivity|]. split; [done|]. split; [|split; [by eexists|done]].
  change (pl_actions (replace_action now' a' h)) with (replace_in a' (pl_actions h)). rw Ha.
  rw (replace_in_lookup a' _ (length pre) a); [done|by apply list_lookup_middle|done|]. replace (length pre) with (length pre + 0)%nat by lia. exact (insert_app_r pre (a :: l) 0 a').
Qed.

Lemma hydrate_actions_run records l : ∀ h pre (y : PS * Ext),
  pl_actions h = pre ++ l → NoDup (action_ids (pre ++ l)) →
  ∃ h1 l1 y', hydrate_actions records h l y = (Ok h1, y') ∧ y'.1 = y.1 ∧ pl_actions h1 = pre ++ l1 ∧
    Forall2 (hydrated records) l l1 ∧
    if forallb (unchanged records) l then h1 = h else pl_status h1 = derived_status (pl_actions h1).
Proof.
  induction l as [|a l IH]; intros h pre y Ha Hnd; [by exists h, [], y|].
  destruct (hydrate_action_run records h pre a l y Ha Hnd) as (h1 & a' & y1 & E1 & Hy1 & Ha1 & Hh & Hs).
  destruct (IH h1 (pre ++ [a']) y1) as (h2 & l2 & y2 & E2 & Hy2 & Ha2 & HF & Hs2); [by rw -app_assoc| |].
  { rw -app_assoc. unfold action_ids in *. rw !map_app in Hnd |- *. cbn in *. by rw (proj1 (hydrated_now _ _ _ Hh)). }
  exists h2, (a' :: l2), y2. cbn [hydrate_actions forallb]. rw (bind_step _ _ _ _ _ E1). split_and!.
  - exact E2.
  - by rw Hy2.
  - by rw Ha2 -app_assoc.
  - by constructor.
  - destruct (unchanged records a); cbn; [subst h1; by destruct (forallb _ l)|].
    destruct (forallb _ l); [by subst h2|done].
Qed.

Lemma hydrate_state_run p d (y : PS * Ext) :
  NoDup (action_ids (pl_actions p)) →
  ∃ h y', hydrate_plan_state p d y = (Ok h, y') ∧ y'.1 = y.1 ∧
    Forall2 (hydrated (actions_by_id d)) (pl_actions p) (pl_actions h) ∧
    let same := forallb (unchanged (actions_by_id d)) (pl_actions p) in
    pl_status h = plan_status_from_state d (if same then pl_status p else derived_status (pl_actions h)) ∧
    (same = true → plan_status_from_state d (pl_status p) = pl_status p → h = p).
Proof.
  intros Hnd. destruct (hydrate_actions_run (actions_by_id d) (pl_actions p) p [] y eq_refl Hnd)
    as (h1 & l1 & y1 & E1 & Hy1 & Ha1 & HF & Hs). cbn [app] in Ha1. subst l1.
  assert (E : match actions_by_id d with [] => mret p | _ => hydrate_actions (actions_by_id d) p (pl_actions p) end y
    = (Ok h1, y1)).
  { destruct (actions_by_id d) as [|kv records] eqn:Er; [|exact E1]. rw -E1. clear.
    assert (H0 : ∀ l (h : AgentPlan), hydrate_actions [] h l y = (Ok h, y)); [|by rw H0].
    induction l as [|a l IH]; intros h; [done|]. cbn [hydrate_actions]. by rw (bind_step _ _ _ h y); [|apply IH]. }
  assert (Hst : pl_status h1 = if forallb (unchanged (actions_by_id d)) (pl_actions p) then pl_status p
    else derived_status (pl_actions h1)) by (destruct (forallb _ _); [by subst h1|done]).
  unfold hydrate_plan_state. rw (bind_step _ _ _ _ _ E). case_bool_decide as Eb.
  - exists h1, y1. split_and!; [done|done|done| |].
    + by rw -Hst.
    + intros Hsame _. by rw Hsame in Hs.
  - destruct y1 as [s1 x1]. eexists _, _. split; [reflexivity|]. split; [done|]. split; [done|]. cbn [pl_status pl_actions plan_update].
    split; [by rw Hst|]. intros Hsame Hp. rw Hsame in Hs. by subst h1.
Qed.
End hydration.

Lemma hydrated_ids records l l' : Forall2 (hydrated records) l l' → action_ids l' = action_ids l.
Proof. unfold action_ids. induction 1 as [|a a' l l' Ha _ IH]; cbn; [done|]. by rw (proj1 (hydrated_now _ _ _ Ha)) IH. Qed.

Lemma hydrated_settled records l l' : Forall2 (hydrated records) l l' → forallb (unchanged records) l' = true.
Proof. induction 1 as [|a a' l l' Ha _ IH]; cbn; [done|]. by rw (hydrated_again _ _ _ Ha). Qed.

Lemma hydrated_same records l l' : Forall2 (hydrated records) l l' → (l' = l ↔ forallb (unchanged records) l = true).
Proof.
  induction 1 as [|a a' l l' Ha _ IH]; cbn; [done|]. rw andb_true_iff -IH. split.
  - intros [= -> ->]. split; [|done]. destruct (hydrated_now _ _ _ Ha) as [_ Hs]. by apply bool_decide_eq_true.
  - intros [Hu ->]. f_equal. unfold hydrated in Ha. by rw Hu in Ha.
Qed.

(** ** Properties *)

(** Reading a plan brings its actions up to date with the run: every action
    keeps its place and gets the status the API reports for it (its own when the
    API reports none), an action whose status does not change is not touched, the
    plan's status is the reported terminal status of the run and otherwise follows
    from the actions, the store is not changed, and bringing the result up to date
    with the same state changes nothing. *)
Theorem hydrate_plan_state_spec `{Env} `{StateCodec} {T : Type} `{AgentStateMemoryStore T} p d
    (y : PrismApiStateStore MemoryStateStore T * Ext) :
  NoDup (action_ids (pl_actions p)) →
  ∃ h y', hydrate_plan_state p d y = (Ok h, y') ∧ y'.1 = y.1 ∧
    Forall2 (λ a a', ac_action_id a' = ac_action_id a ∧
      ac_status a' = match action_record (actions_by_id d) a with
                     | Some r => action_status_from_record r (ac_status a)
                     | None => ac_status a
                     end ∧ (ac_status a' = ac_status a → a' = a)) (pl_actions p) (pl_actions h) ∧
    pl_status h = plan_status_from_state d
      (if bool_decide (pl_actions h = pl_actions p) then pl_status p else derived_status (pl_actions h)) ∧
    ∀ y2 : PrismApiStateStore MemoryStateStore T * Ext, (hydrate_plan_state h d y2).1 = Ok h.
Proof.
  intros Hnd. destruct (hydrate_state_run p d y Hnd) as (h & y' & E & Hy & HF & Hst & _).
  exists h, y'. split; [exact E|]. split; [exact Hy|]. split.
  { eapply Forall2_impl; [exact HF|]. intros a a' Ha. destruct (hydrated_now _ _ _ Ha) as [Hid Hs].
    split; [done|]. split; [exact Hs|]. intros Heq. unfold hydrated, unchanged in Ha. rw bool_decide_eq_true_2 in Ha; [congruence|done]. }
  split.
  { rw Hst. f_equal. pose proof (hydrated_same _ _ _ HF) as Hiff. case_bool_decide; by destruct (forallb _ _); naive_solver. }
  intros y2. destruct (hydrate_state_run h d y2) as (h2 & y2' & E2 & _ & HF2 & _ & Hsame).
  { rw (hydrated_ids _ _ _ HF). exact Hnd. }
  rw E2. cbn. f_equal. apply Hsame; [by apply (hydrated_settled _ _ _ HF)|]. rw Hst. apply plan_status_idemp.
Qed.

Section recovery_properties.
Context `{Env} `{HC : StateCodec} `{!CodecErrors} {T : Type} `{HM : AgentStateMemoryStore T}.
Context (ok : T → Prop) (held : T → string → string → string → option (dict pyval)) (fits : T → string → string → Prop).
Context `{HD : !DurableMemory T ok held fits}.
Abbreviation PS := (PrismApiStateStore MemoryStateStore T).
#[local] Instance ps_store_v (persist : bool) : StateStore PS := prism_api_state_store persist.

(** C3: what was executed before a restart is never executed after it.  The key
    that the first invocation records under a run is in the durable memory; any
    later invocation that still finds it there and handles an action event of the
    run - whatever its fallback store, its queue and its environment hold -
    executes nothing under that key, for that event or any later one. *)
Theorem restart_never_executes `{Queue Q} w r k (s : PS) x :
  ok (ps_memory s) → no_slash w → no_slash r → str_truthy r = true → str_truthy k = true →
  dict_get k (ps_locations s) = Some (w, r) →
  ∃ s', record_idempotency_key k (StateStore:=ps_store_v true) (s, x) = (Ok tt, (s', x)) ∧ ok (ps_memory s') ∧
    ∀ persist rt e after b aid (v : World PS Q),
      ok (ps_memory (w_store v)) → fits (ps_memory (w_store v)) w r →
      held (ps_memory (w_store v)) w r (key_id k) = held (ps_memory s') w r (key_id k) →
      env_event e = AgentActionEvent b r aid → ev_workspace_id b = w →
      ∃ l, w_log (handle_actions (H0:=ps_store_v persist) rt (e :: after) v).2 = w_log v ++ l ∧ LExecute k ∉ l.
Proof.
  intros Ho Hw Hr Ht Hk Hl. destruct (record_key_held ok held fits w r k s x Ho Hw Hr Ht Hl) as (s' & E & Ho' & Hh).
  exists s'. split_and!; [exact E|done|]. intros persist rt e after b aid v Hv Hf Hheld Ee <-.
  apply (handle_actions_learns prism_keys rt e after b r aid k v Ee).
  apply (get_plan_learns ok held fits); [done|done|done|done|done|congruence].
Qed.

(** C8: a plan survives the invocation that saved it.  Saving puts its record in
    the durable memory, and any later store that finds the record there - with any
    fallback, with or without writing of its own - gives the plan for the run, as it
    reads back from its JSON form, and leaves the memory alone. *)
Theorem saved_plan_recovered w r p p' (s : PS) x :
  ok (ps_memory s) → no_slash w → no_slash r → pl_workspace_id p = w → pl_plan_id p = r →
  json_ok (model_dump p) → model_validate (json_canon (model_dump p)) = Ok p' →
  pl_workspace_id p' = w → pl_plan_id p' = r →
  ∃ s', save_plan (StateStore:=ps_store_v true) p (s, x) = (Ok tt, (s', x)) ∧ ok (ps_memory s') ∧
    ∀ persist (s2 : PS) x2,
      ok (ps_memory s2) → fits (ps_memory s2) w r → only_record held (ps_memory s2) w r "plan" (plan_memory_id r) →
      held (ps_memory s2) w r (plan_memory_id r) = held (ps_memory s') w r (plan_memory_id r) →
      ∃ s2', get_plan (StateStore:=ps_store_v persist) w r (s2, x2) = (Ok (Some p'), (s2', x2)) ∧ ps_memory s2' = ps_memory s2.
Proof.
  intros Ho Hw Hr Ew Er Hok Hv Ew' Er'.
  assert (Hrem : ∃ s1, (fb (save_plan p) ;; remember_plan_idempotency p) (s, x) = (Ok tt, (s1, x)) ∧ ps_memory s1 = ps_memory s).
  { set (s0 := {| ps_fallback := mem_save_plan p (ps_fallback s); ps_memory := ps_memory s; ps_locations := ps_locations s |} : PS).
    change ((fb (save_plan p) ;; remember_plan_idempotency p) (s, x)) with (remember_plan_idempotency p (s0, x)).
    pose proof (remember_field (λ _, tt) p (s0, x)) as (_ & Hm & Hx).
    assert (Hr1 : (remember_plan_idempotency p (s0, x)).1 = Ok tt) by (apply for_each_returns; by intros a [? ?]).
    destruct (remember_plan_idempotency p (s0, x)) as [r1 [s1 x1]]. cbn in *. subst r1 x1. by exists s1. }
  destruct Hrem as (s1 & E1 & Hm1).
  destruct (persist_held ok held fits w (plan_memory_id r) r "agent_plan" "Agent plan" [("kind", PStr "plan"); ("plan", model_dump p)] s1 x)
    as (s' & E & Ho' & _ & Hh & _); [by rw Hm1|done|done|apply state_id_slug|apply state_id_slug|by apply record_json_ok|
      by apply (bool_decide_unpack _)|done|].
  exists s'. split_and!; [|done|].
  { cbn. unfold prism_save_plan. unfold plan_memory_id in E. rw -Er -Ew in E.
    change ((fb (save_plan p) ;; remember_plan_idempotency p ;; persist_plan true p) (s, x) = (Ok tt, (s', x))).
    unfold mbind, st_bind in E1 |- *. destruct (fb (save_plan p) (s, x)) as [[[]|] y1]; [|done]. rw E1. exact E. }
  intros persist s2 x2 Ho2 Hf Honly Hheld.
  apply (get_plan_found ok held fits w r p p' s2 x2); try done.
  rw Hheld Hh. unfold plan_payload, plan_memory_id. by rw Er.
Qed.

(** A graph that pydantic reads back from its own JSON form. *)
Definition reads_back (g : TaskGraph) : Prop :=
  json_ok (model_dump g) ∧ model_validate (json_canon (model_dump g)) = Ok g.

(** C4: work is handed out once across restarts.  A claim through one store, on a
    run whose graph is in the durable memory, returns the ready nodes; any later
    claim through another store that still finds the graph the first one left
    returns no node. *)
Theorem claim_survives_restart w r g (s : PS) x :
  reads_back g → reads_back (bumped (claim_ready g).1) →
  ok (ps_memory s) → fits (ps_memory s) w r → no_slash w → no_slash r →
  tg_workspace_id g = w → tg_plan_id g = r → NoDup (map nd_node_id (subtasks g)) →
  held (ps_memory s) w r (graph_memory_id r) = Some (graph_payload g) →
  only_record held (ps_memory s) w r "task_graph" (graph_memory_id r) →
  ∃ s', claim_ready_nodes (StateStore:=ps_store_v true) w r (s, x) = (Ok (claim_ready g).2, (s', x)) ∧ ok (ps_memory s') ∧
    ∀ persist (s2 : PS) x2,
      ok (ps_memory s2) → fits (ps_memory s2) w r →
      only_record held (ps_memory s2) w r "task_graph" (graph_memory_id r) →
      held (ps_memory s2) w r (graph_memory_id r) = held (ps_memory s') w r (graph_memory_id r) →
      (claim_ready_nodes (StateStore:=ps_store_v persist) w r (s2, x2)).1 = Ok [].
Proof.
  intros [Hok Hv] Hback Ho Hf Hw Hr Ew Er Hnd Hh Honly.
  destruct (get_graph_found ok held fits w r g g s x) as (s1 & E1 & Hm1); try done.
  pose proof (claim_ready_spec g Hnd) as Hspec. pose proof (start_nodes_graph_ids (ready_nodes (completed_node_ids g) g) g) as [Hgw Hgr].
  change (start_nodes (ready_nodes (completed_node_ids g) g) g) with (claim_ready g).1 in Hgw, Hgr.
  assert (Hlater : ∀ g2 persist (s2 : PS) x2, reads_back g2 → tg_workspace_id g2 = w → tg_plan_id g2 = r → (claim_ready g2).2 = [] →
    ok (ps_memory s2) → fits (ps_memory s2) w r → only_record held (ps_memory s2) w r "task_graph" (graph_memory_id r) →
    held (ps_memory s2) w r (graph_memory_id r) = Some (graph_payload g2) →
    (claim_ready_nodes (StateStore:=ps_store_v persist) w r (s2, x2)).1 = Ok []).
  { intros g2 persist s2 x2 [Hok2 Hv2] Hw2 Hr2 Hc Ho2 Hf2 Honly2 Hh2.
    destruct (get_graph_found ok held fits w r g2 g2 s2 x2) as (s3 & E3 & _); try done.
    cbn. unfold prism_claim. rw (bind_step _ _ _ _ _ E3). destruct (claim_ready g2) as [g3 c]. cbn in Hc. by subst c. }
  destruct (claim_ready g) as [g1 claimed] eqn:Ec. cbn [fst snd] in *. destruct Hspec as (_ & _ & _ & Hagain).
  destruct claimed as [|n l].
  - exists s1. split_and!; [|by rw Hm1|].
    + cbn. unfold prism_claim. rw (bind_step _ _ _ _ _ E1). by rw Ec.
    + intros persist s2 x2 Ho2 Hf2 Honly2 Hh2. apply (Hlater g); try done; [by rw Ec|by rw Hh2 Hm1].
  - set (g2 := bumped g1).
    set (s1' := {| ps_fallback := mem_save_task_graph g2 (ps_fallback s1); ps_memory := ps_memory s1;
                   ps_locations := ps_locations s1 |} : PS).
    destruct (persist_held ok held fits w (graph_memory_id r) r "agent_decision" "Task graph"
      [("kind", PStr "task_graph"); ("graph", model_dump g2)] s1' x) as (s' & E & Ho' & _ & Hh' & _);
      [by rw /s1' Hm1|done|done|apply state_id_slug|apply state_id_slug|by apply record_json_ok; destruct Hback|
       by apply (bool_decide_unpack _)|done|].
    exists s'. split_and!; [|done|].
    + cbn. unfold prism_claim. rw (bind_step _ _ _ _ _ E1). rw Ec.
      change ((prism_save_task_graph true g2 ≫= λ _ : unit, mret (n :: l)) (s1, x) = (Ok (n :: l), (s', x))).
      assert (Es : prism_save_task_graph true g2 (s1, x) = (Ok tt, (s', x))).
      { change (persist_task_graph true g2 (s1', x) = (Ok tt, (s', x))). unfold persist_task_graph. assert (Ew2 : tg_workspace_id g2 = w) by exact (eq_trans Hgw Ew).
        assert (Er2 : tg_plan_id g2 = r) by exact (eq_trans Hgr Er).
        rw Ew2 Er2. exact E. }
      rw (bind_step _ _ _ _ _ Es). reflexivity.
    + intros persist s2 x2 Ho2 Hf2 Honly2 Hh2. apply (Hlater g2 persist s2 x2 Hback (eq_trans Hgw Ew) (eq_trans Hgr Er)); [|exact Ho2|exact Hf2|exact Honly2|].
      * unfold g2. by rw claim_ready_bumped Hagain.
      * assert (Er2 : tg_plan_id g2 = r) by exact (eq_trans Hgr Er).
        rw Hh2 Hh'. unfold graph_payload. rw Er2. reflexivity.
Qed.
End recovery_properties.

(** What the invocation itself holds of a run. *)
Definition held_plan {T} (s : PrismApiStateStore MemoryStateStore T) (w r : string) : option AgentPlan :=
  ms_plans (ps_fallback s) !! (w, r).
Definition held_graph {T} (s : PrismApiStateStore MemoryStateStore T) (w r : string) : option TaskGraph :=
  ms_task_graphs (ps_fallback s) !! (w, r).

(** C35: what an outage of the transport costs.  When the run's state cannot be fetched
    because of a [RuntimeError] - what the API client makes of HTTP errors and of an
    unreachable server - reading a plan or a graph answers from what this invocation
    holds itself and changes nothing but the transport: the history is lost, not the
    run.  Any other exception - those of the object storage SDK, a reply of the API
    that is not UTF-8 - is not caught, and both reads raise it.  Either way a key
    that the invocation knows is found without the transport. *)
Theorem outage_falls_back `{Env} `{StateCodec} {T : Type} `{AgentStateMemoryStore T} persist w r e
    (s s' : PrismApiStateStore MemoryStateStore T) x x' :
  mem (fetch_run_state w r) (s, x) = (Raise e, (s', x')) →
  get_plan (StateStore:=prism_api_state_store persist) w r (s, x)
    = (if is_RuntimeError e then Ok (held_plan s w r) else Raise e, (s', x')) ∧
  get_task_graph (StateStore:=prism_api_state_store persist) w r (s, x)
    = (if is_RuntimeError e then Ok (held_graph s w r) else Raise e, (s', x')) ∧
  ps_fallback s' = ps_fallback s ∧ ps_locations s' = ps_locations s ∧
  (∀ k, k ∈ prism_keys s → check_idempotency_key (StateStore:=prism_api_state_store persist) k (s, x) = (Ok true, (s, x))).
Proof.
  intros E.
  assert (Hs : ps_fallback s' = ps_fallback s ∧ ps_locations s' = ps_locations s).
  { revert E. unfold mem, zoom. cbn. destruct (fetch_run_state w r _) as [q [t y]]. by intros [= _ <- _]. }
  destruct Hs as [Hs Hloc].
  assert (Hkeys : ∀ k, k ∈ prism_keys s →
    check_idempotency_key (StateStore:=prism_api_state_store persist) k (s, x) = (Ok true, (s, x))).
  { intros k Hk. cbn. unfold prism_check_key. assert (Ek : fb (T:=T) (check_idempotency_key k) (s, x) = (Ok true, (s, x))).
    { unfold fb, zoom. cbn. rw bool_decide_eq_true_2; [exact Hk|]. by destruct s. }
    by rw (bind_step _ _ _ _ _ Ek). }
  assert (Hboth : ∀ A (k : dict pyval → st _ A) v, (is_RuntimeError e = true → k [] (s', x') = (Ok v, (s', x'))) →
    (run_state w r ≫= k) (s, x) = (if is_RuntimeError e then Ok v else Raise e, (s', x'))).
  { intros A k v Hv. unfold run_state, try_catch_if, try_catch, mbind, st_bind. rw E.
    destruct (is_RuntimeError e); [exact (Hv eq_refl)|done]. }
  assert (Hf : ∀ A (f : MemoryStateStore → A), fb (T:=T) (ask_store f) (s', x') = (Ok (f (ps_fallback s)), (s', x'))).
  { intros A f. unfold fb, zoom. cbn. rw Hs. by destruct s'; cbn in *; rw Hs. }
  split_and!; [| |done..].
  - cbn. unfold prism_get_plan. apply Hboth. intros _. cbn [load_state_memories].
    change ((mret tt ;; (fb (ask_store (λ m, ms_plans m !! (w, r))) ≫= λ plan, match plan with
      | None => mret None
      | Some plan => hydrated ← hydrate_plan_state plan [];
          when (negb (bool_decide (hydrated = plan))) (fb (update_plan hydrated)) ;; mret (Some hydrated)
      end)) (s', x') = (Ok (ms_plans (ps_fallback s) !! (w, r)), (s', x'))).
    rw (bind_step _ _ _ _ _ (eq_refl : (mret tt : st _ unit) (s', x') = (Ok tt, (s', x')))) (bind_step _ _ _ _ _ (Hf _ _)).
    destruct (ms_plans _ !! _) as [p|]; [|done].
    rw (bind_step _ _ _ _ _ (hydrate_none p [] (s', x') eq_refl eq_refl)). by rw bool_decide_eq_true_2.
  - cbn. unfold prism_get_task_graph, restore_run_state.
    assert (E2 : (run_state w r ≫= λ state, load_state_memories w r state) (s, x) =
      (if is_RuntimeError e then Ok tt else Raise e, (s', x'))) by (by apply Hboth).
    unfold mbind at 1. unfold st_bind at 1. rw E2. destruct (is_RuntimeError e); [exact (Hf _ _)|done].
Qed.

(** *** Concrete runs *)

#[local] Existing Instance env_ok.

(** A codec that knows one plan and one graph and the graph that claiming its
    ready nodes leaves. *)
Definition one_of {A} (l : list (pyval * A)) (v : pyval) : res A :=
  match find_first (λ p, bool_decide (p.1 = v)) l with
  | Some (_, a) => Ok a
  | None => err ValueError "validation error"
  end.

#[local] Instance sample_codec : StateCodec := {|
  plan_codec := {| model_dump p := PDict [("plan_id", PStr (pl_plan_id p))];
                   model_validate := one_of [(PDict [("plan_id", PStr "run-1")], sample_plan)] |};
  snapshot_codec := {| model_dump s := PStr (sn_snapshot_id s); model_validate := one_of [] |};
  result_codec := {| model_dump r := PStr (tr_action_id r); model_validate := one_of [] |};
  graph_codec := {| model_dump g := PDict [("version", PInt (tg_version g))];
                    model_validate := one_of [(PDict [("version", PInt 0)], sample_graph);
                                              (PDict [("version", PInt 1)], bumped (claim_ready sample_graph).1)] |};
  sub_result_codec := {| model_dump r := PStr (sr_node_id r); model_validate := one_of [] |}
|}.

Lemma one_of_errors {A} l v e : one_of (A:=A) l v = Raise e → is_ValueError e = true.
Proof. unfold one_of. destruct (find_first _ l) as [[? ?]|]; [done|]. by intros [= <-]. Qed.

#[local] Instance sample_codec_errors : CodecErrors.
Proof. constructor; intros v e; apply one_of_errors. Qed.

#[local] Instance sample_transport : AgentStateMemoryStore sample_bucket := object_storage_memory_store sample_object_memory.

Abbreviation sample_store := (PrismApiStateStore MemoryStateStore sample_bucket).

(** An invocation that starts on a bucket. *)
Definition fresh_store (t : sample_bucket) (locations : dict (string * string)) : sample_store :=
  {| ps_fallback := memory_store_empty; ps_memory := t; ps_locations := locations |}.

Abbreviation sample_held := (bucket_held (λ t _ _, t) sample_object_memory).
Abbreviation sample_ok := (bucket_ok (λ t _ _, t) sample_object_memory).
Abbreviation sample_fits := (bucket_fits (λ t _ _, t) sample_object_memory).

(** A bucket with one record. *)
Definition one_record (w r mid : string) (payload : dict pyval) : sample_bucket :=
  {[ object_name sample_object_memory w r mid := json_plain (PDict payload) ]}.

Lemma one_record_bucket w r mid payload kind :
  no_slash w → no_slash r → memory_ok payload mid →
  sample_ok (one_record w r mid payload) ∧ sample_fits (one_record w r mid payload) w r ∧
  sample_held (one_record w r mid payload) w r mid = Some payload ∧
  only_record sample_held (one_record w r mid payload) w r kind mid.
Proof.
  intros Hw Hr Hm. split_and!.
  - intros name text Hl _. unfold bucket, one_record in Hl. apply lookup_singleton_Some in Hl as [<- <-]. by exists w, r, mid, payload.
  - unfold bucket_fits, bucket, one_record. rw map_to_list_singleton. etrans; [apply List.filter_length_le|].
    unfold list_page. cbn [length]. lia.
  - unfold bucket_held, bucket, one_record. rw lookup_singleton_eq. destruct Hm as (_ & _ & _ & Hj & _).
    by rw (json_plain_roundtrip _ Hj).
  - intros mid' d record. unfold bucket_held, bucket, one_record.
    destruct (_ !! object_name sample_object_memory w r mid') as [text|] eqn:E; [|done].
    apply lookup_singleton_Some in E as [E _]. apply (object_name_inj (λ t _ _, t)) in E as (_ & _ & ->); done.
Qed.

Lemma empty_bucket_ok : sample_ok ∅.
Proof. intros name text Hl. unfold bucket in Hl. by rw lookup_empty in Hl. Qed.

Lemma saved_plan_recovered_witness :
  ∃ s', save_plan (StateStore:=prism_api_state_store true) sample_plan (fresh_store ∅ [], ext0) = (Ok tt, (s', ext0)) ∧
    (get_plan (StateStore:=prism_api_state_store true) "ws" "run-1" (fresh_store (ps_memory s') [], ext0)).1
      = Ok (Some sample_plan).
Proof.
  assert (Hs : no_slash "ws" ∧ no_slash "run-1") by (split; apply (bool_decide_unpack _); vm_compute; exact I).
  destruct Hs as [Hs1 Hs2].
  assert (Hj : json_ok (model_dump sample_plan)).
  { split; [|done]. apply (bool_decide_unpack _). vm_compute. exact I. }
  destruct (saved_plan_recovered sample_ok sample_held sample_fits "ws" "run-1" sample_plan sample_plan
    (fresh_store ∅ []) ext0 empty_bucket_ok Hs1 Hs2 eq_refl eq_refl Hj eq_refl eq_refl eq_refl) as (s' & E & Ho & Hlater).
  exists s'. split; [exact E|].
  assert (Em : ps_memory s' = one_record "ws" "run-1" (plan_memory_id "run-1") (plan_payload sample_plan)).
  { apply (f_equal (λ r, ps_memory r.2.1)) in E. cbn [snd fst] in E. rw -E. vm_compute. reflexivity. }
  destruct (one_record_bucket "ws" "run-1" (plan_memory_id "run-1") (plan_payload sample_plan) "plan" Hs1 Hs2)
    as (_ & Hf & _ & Honly).
  { apply plan_payload_ok. exact Hj. }
  rewrite -Em in Hf, Honly.
  destruct (Hlater true (fresh_store (ps_memory s') []) ext0 Ho Hf Honly eq_refl) as (s2 & Eg & _). exact (f_equal fst Eg).
Defined.

Lemma claim_survives_restart_witness :
  let t := one_record "ws" "run" (graph_memory_id "run") (graph_payload sample_graph) in
  ∃ s', claim_ready_nodes (StateStore:=prism_api_state_store true) "ws" "run" (fresh_store t [], ext0)
      = (Ok (claim_ready sample_graph).2, (s', ext0)) ∧
    (claim_ready_nodes (StateStore:=prism_api_state_store true) "ws" "run" (fresh_store (ps_memory s') [], ext0)).1 = Ok [].
Proof.
  intros t. assert (Hs : no_slash "ws" ∧ no_slash "run") by (split; apply (bool_decide_unpack _); vm_compute; exact I).
  destruct Hs as [Hs1 Hs2].
  assert (Hback : ∀ g, model_validate (json_canon (model_dump g)) = Ok g → reads_back g).
  { intros g Hg. split; [|exact Hg]. split; [|done]. apply NoDup_singleton. }
  assert (Hj : ∀ g : TaskGraph, json_ok (model_dump g)) by (intros g; split; [apply NoDup_singleton|done]).
  destruct (one_record_bucket "ws" "run" (graph_memory_id "run") (graph_payload sample_graph) "task_graph" Hs1 Hs2)
    as (Ho & Hf & Hh & Honly); [apply graph_payload_ok, Hj|].
  destruct (claim_survives_restart sample_ok sample_held sample_fits "ws" "run" sample_graph (fresh_store t []) ext0)
    as (s' & E & Ho' & Hlater); [by apply Hback|by apply Hback|exact Ho|exact Hf|exact Hs1|exact Hs2|reflexivity|reflexivity|
      exact (fresh_ids _ sample_graph_fresh)|exact Hh|exact Honly|].
  exists s'. split; [exact E|]. set (g2 := bumped (claim_ready sample_graph).1).
  assert (Em : ps_memory s' = one_record "ws" "run" (graph_memory_id "run") (graph_payload g2)).
  { apply (f_equal (λ r, ps_memory r.2.1)) in E. cbn [snd fst] in E. rw -E. vm_compute. reflexivity. }
  destruct (one_record_bucket "ws" "run" (graph_memory_id "run") (graph_payload g2) "task_graph" Hs1 Hs2)
    as (_ & Hf2 & _ & Honly2); [apply graph_payload_ok, Hj|].
  rewrite -Em in Hf2, Honly2. exact (Hlater true (fresh_store (ps_memory s') []) ext0 Ho' Hf2 Honly2 eq_refl).
Defined.

(** The second invocation has the plan with the action still pending, so only the
    replayed key keeps it from executing it. *)
Lemma restart_never_executes_witness :
  ∃ s', record_idempotency_key (StateStore:=prism_api_state_store true) "k:a"
      (fresh_store ∅ [("k:a", ("ws", "run-1"))], ext0) = (Ok tt, (s', ext0)) ∧
    let v := {| w_store := {| ps_fallback := w_store sample_world; ps_memory := ps_memory s'; ps_locations := [] |};
                w_queue := memory_queue_empty; w_ext := ext0; w_inline := 0; w_seen := ∅; w_log := [] |} in
    ∃ l, w_log (handle_actions (H0:=prism_api_state_store true) (@sample_runtime env_ok)
           [sample_envelope "a"; sample_envelope "a"] v).2 = l ∧ LExecute "k:a" ∉ l.
Proof.
  assert (Hs : no_slash "ws" ∧ no_slash "run-1") by (split; apply (bool_decide_unpack _); vm_compute; exact I).
  destruct Hs as [Hs1 Hs2].
  destruct (restart_never_executes sample_ok sample_held sample_fits "ws" "run-1" "k:a"
    (fresh_store ∅ [("k:a", ("ws", "run-1"))]) ext0 empty_bucket_ok Hs1 Hs2 eq_refl eq_refl eq_refl) as (s' & E & Ho & Hlater).
  exists s'. split; [exact E|]. intros v.
  assert (Em : ps_memory s' = one_record "ws" "run-1" (key_id "k:a") (key_payload "run-1" "k:a")).
  { apply (f_equal (λ r, ps_memory r.2.1)) in E. cbn [snd fst] in E. rw -E. vm_compute. reflexivity. }
  destruct (one_record_bucket "ws" "run-1" (key_id "k:a") (key_payload "run-1" "k:a") "" Hs1 Hs2) as (_ & Hf & _ & _).
  { apply key_payload_ok. }
  rewrite -Em in Hf.
  exact (Hlater true (@sample_runtime env_ok) (sample_envelope "a") [sample_envelope "a"] sample_base "a" v Ho Hf eq_refl
    eq_refl eq_refl).
Defined.

(** A network on which nothing is reached. *)
Definition env_down : Env := {|
  uuid4_at := uuid4_at; clock_at := clock_at; monotonic_at := monotonic_at; validation_text := validation_text;
  http_reply _ _ := ReplyUnreachable "connection refused" |}.

Definition sample_client : PrismApiClient := {| cl_base_url := Some "https://api"; cl_token := None |}.

(** A bucket whose service answers every listing with an error of the SDK. *)
Definition down_storage : ObjectStorage unit := {|
  put_object _ _ _ _ := raise (Exn (OtherError "ServiceError") "503");
  list_objects _ _ _ := raise (Exn (OtherError "ServiceError") "503");
  get_object _ _ _ := raise (Exn (OtherError "ServiceError") "503") |}.

Definition down_memory : AgentStateMemoryStore unit := @object_storage_memory_store unit down_storage sample_object_memory.

(** An invocation that knows one plan, on a transport. *)
Definition knowing_store {T} (t : T) : PrismApiStateStore MemoryStateStore T :=
  {| ps_fallback := w_store sample_world; ps_memory := t; ps_locations := [] |}.

Definition unreachable_error : exn :=
  Exn RuntimeError "Prism API GET /workspaces/ws/agent-runs/internal/run-1/state unreachable: connection refused".

(** With the API down the plan of the invocation is found; with the bucket down the same
    read raises. *)
Lemma outage_falls_back_witness :
  (∃ y, get_plan (StateStore:=prism_api_state_store (H:=env_down)
      (H2:=@prism_agent_memory_store env_down sample_client) true) "ws" "run-1" (knowing_store PrismAgentMemory, ext0)
    = (Ok (Some sample_plan), y)) ∧
  get_plan (StateStore:=prism_api_state_store (H2:=down_memory) true) "ws" "run-1" (knowing_store tt, ext0)
    = (Raise (Exn (OtherError "ServiceError") "503"), (knowing_store tt, ext0)).
Proof.
  split.
  - eexists (_, _).
    refine (proj1 (outage_falls_back (H:=env_down) (H1:=@prism_agent_memory_store env_down sample_client) true "ws" "run-1"
      unreachable_error _ _ _ _ _)). vm_compute. reflexivity.
  - refine (proj1 (outage_falls_back (H1:=down_memory) true "ws" "run-1" (Exn (OtherError "ServiceError") "503") _ _ _ _ _)).
    reflexivity.
Defined.

Lemma hydrate_plan_state_spec_witness :
  ∃ h, (hydrate_plan_state sample_plan
      [("actions", PList [PDict [("actionId", PStr "a"); ("status", PStr "executed")];
                          PDict [("actionId", PStr "b"); ("status", PStr "rejected")]]);
       ("run", PDict [("status", PStr "running")])] (fresh_store ∅ [], ext0)).1 = Ok h ∧
    map ac_status (pl_actions h) = [ACompleted; ASkipped; APending] ∧ pl_status h = PRunning.
Proof.
  destruct (hydrate_plan_state_spec sample_plan
    [("actions", PList [PDict [("actionId", PStr "a"); ("status", PStr "executed")];
                        PDict [("actionId", PStr "b"); ("status", PStr "rejected")]]);
     ("run", PDict [("status", PStr "running")])] (fresh_store ∅ [], ext0)) as (h & y & E & _ & HF & Hst & _).
  { apply (bool_decide_unpack _). vm_compute. exact I. }
  exists h. split; [exact (f_equal fst E)|]. apply (f_equal fst) in E. vm_compute in E. injection E as <-. by vm_compute.
Defined.
