(* ===== verification/Coordinator.v ===== *)
(** * The subagent coordinator ([src/application/subagent_coordinator.py])

    It drives a task graph: a task event plans (or resumes) a node's sub-plan and
    queues its first action; a completion event advances the stored graph,
    dispatches what became runnable, and finalizes the run. *)

From S2P Require Import Prelude PyStr PyVal Events Plans SubTasks Policies Env Client Definitions Records.
From S2P Require Import AgentRunIds AgentRunSync Planning Stores World ActionHandler ActionProofs.

Definition SUBAGENT_RESULTS_KEY : string := "subagent_results".

(** The collaborators the coordinator was built with; the planner is the one of
    its [SubAgentRunner]. *)
Record Coordinator := {
  co_planner : Planner;
  co_sync : AgentRunSync;
  co_workflows : WorkflowRegistry
}.

(** [result.model_dump(mode="json")] *)
Definition sub_result_val (r : SubAgentResult) : pyval :=
  PDict [("node_id", PStr (sr_node_id r)); ("skill_ids", pstr_list (sr_skill_ids r)); ("summary", PStr (sr_summary r));
         ("structured_output", PDict (sr_structured_output r)); ("status", PStr (subtask_status_value (sr_status r)))].

(** [_is_synthesizer] *)
Definition node_is_synthesizer (g : TaskGraph) (n : SubTask) : bool :=
  match tg_synthesizer_node g with Some s => bool_decide (nd_node_id n = nd_node_id s) | None => false end.

(** The plan statuses [_resume_existing_subplan] tells apart, and the status it
    settles the node with. *)
Definition resume_status (s : PlanStatus) : option (string * string) :=
  match s with
  | PCompleted | PPlanned => Some ("Resumed completed subagent node ", "completed")
  | PWaitingForApproval => Some ("Resumed waiting subagent node ", "waiting_for_approval")
  | PFailed | PCancelled | PReplanRequired => Some ("Resumed failed subagent node ", "failed")
  | PRunning => None
  end.

Section coordinator.
Context `{Env} `{AgentFactory} {S Q : Type} `{StateStore S} `{Queue Q} (co : Coordinator).
Abbreviation M := (st (World S Q)).

(** [_trace] *)
Definition co_trace (event : RuntimeEvent) (event_name message : string) (data : dict pyval) : M unit :=
  trace event event_name message (event_plan_id event) None data.

(** [_enqueue_action] *)
Definition co_enqueue_action (envelope : EventEnvelope) (sub_plan : AgentPlan) (a : PlannedAction) : M RuntimeEvent :=
  event ← ext (new_action_event (pl_workspace_id sub_plan) (pl_project_id sub_plan) (pl_plan_id sub_plan)
                 (ac_action_id a) (ev_correlation_id (base (env_event envelope))) (child_causality envelope));
  enqueue_event event ;;
  mret event.

(** [_enqueue_completed] *)
Definition enqueue_completed (envelope : EventEnvelope) (g : TaskGraph) (node_id status : string) : M unit :=
  event ← ext (new_completed_event (tg_workspace_id g) (tg_project_id g) (tg_plan_id g) node_id status []
                 (ev_correlation_id (base (env_event envelope))) (child_causality envelope));
  enqueue_event event.

(** [_dispatch_node] *)
Definition dispatch_node (envelope : EventEnvelope) (g : TaskGraph) (n : SubTask) : M unit :=
  event ← ext (new_task_event (tg_workspace_id g) (tg_project_id g) (tg_plan_id g) (nd_node_id n)
                 (ev_correlation_id (base (env_event envelope))) (child_causality envelope));
  enqueue_event event ;;
  co_trace (env_event envelope) "subagent.dispatched" ("Dispatched subagent node " +:+ nd_node_id n +:+ ".")
    [("node_id", PStr (nd_node_id n)); ("dispatch_event_id", PStr (ev_event_id (base event)))].

(** [_resume_existing_subplan] *)
Definition resume_existing_subplan (envelope : EventEnvelope) (g : TaskGraph) (n : SubTask) (sub_plan : AgentPlan) :
    M unit :=
  let event := env_event envelope in
  let i := nd_node_id n in
  let ids := [("node_id", PStr i); ("sub_plan_id", PStr (pl_plan_id sub_plan))] in
  let status_item := ("plan_status", PStr (plan_status_value (pl_status sub_plan))) in
  match next_pending_action sub_plan with
  | Some next_action =>
      action_event ← co_enqueue_action envelope sub_plan next_action;
      co_trace event "subagent.resumed" ("Resumed subagent node " +:+ i +:+ " from existing sub-plan.")
        (ids ++ [("next_action_id", PStr (ac_action_id next_action));
                 ("action_event_id", PStr (ev_event_id (base action_event)))])
  | None =>
      match resume_status (pl_status sub_plan) with
      | Some (message, status) =>
          co_trace event "subagent.resumed" (message +:+ i +:+ " from existing sub-plan.") (ids ++ [status_item]) ;;
          enqueue_completed envelope g i status
      | None =>
          co_trace event "subagent.in_flight"
            ("Subagent node " +:+ i +:+ " already has an in-flight sub-plan.") (ids ++ [status_item])
      end
  end.

(** [_inject_results] *)
Definition inject_results (c : AgentContext) (w run_id : string) : M AgentContext :=
  results ← on_st (get_sub_agent_results w run_id);
  mret (context_with_entities (dict_set SUBAGENT_RESULTS_KEY (PList (map sub_result_val results)) (cx_entities c)) c).

(** The planning of a node's sub-plan, in the last part of [_handle_task]. *)
Definition plan_node (envelope : EventEnvelope) (event : RuntimeEvent) (run_id : string) (g : TaskGraph) (n : SubTask)
    (snapshot : ContextSnapshot) : M unit :=
  let w := ev_workspace_id (base event) in
  let i := nd_node_id n in
  c ← if node_is_synthesizer g n then inject_results (sn_context snapshot) w run_id else mret (sn_context snapshot);
  workflow ← lift_res (workflow_get (co_workflows co) (cx_workflow_id c));
  co_trace event "subagent.planning" ("Planning subagent node " +:+ i +:+ ".")
    [("node_id", PStr i); ("skill_ids", pstr_list (nd_skill_ids n))] ;;
  sub_plan ← ext (plan_for_node (co_planner co) n c (sn_ref snapshot) workflow run_id);
  on_st (save_plan sub_plan) ;;
  ext (record_plan_created (co_sync co) sub_plan) ;;
  match next_pending_action sub_plan with
  | None =>
      co_trace event "subagent.empty" ("Subagent node " +:+ i +:+ " produced no actions; settling completed.")
        [("node_id", PStr i); ("sub_plan_id", PStr (pl_plan_id sub_plan))] ;;
      enqueue_completed envelope g i "completed"
  | Some first_action =>
      action_event ← co_enqueue_action envelope sub_plan first_action;
      co_trace event "subagent.started"
        ("Started subagent node " +:+ i +:+ " (sub-plan " +:+ pl_plan_id sub_plan +:+ ").")
        [("node_id", PStr i); ("sub_plan_id", PStr (pl_plan_id sub_plan));
         ("first_action_id", PStr (ac_action_id first_action));
         ("action_event_id", PStr (ev_event_id (base action_event)))]
  end.

(** [_handle_task] *)
Definition handle_task (envelope : EventEnvelope) (event : RuntimeEvent) (run_id node_id : string) : M unit :=
  let w := ev_workspace_id (base event) in
  graph ← on_st (get_task_graph w run_id);
  match graph with
  | None => co_trace event "orchestration.graph_missing" ("No task graph for run " +:+ run_id +:+ ".") []
  | Some g =>
      match get_node g node_id with
      | None => co_trace event "orchestration.node_missing" ("Unknown node " +:+ node_id +:+ ".") []
      | Some n =>
          if node_has SCompleted n || node_has SFailed n then
            co_trace event "subagent.skipped"
              ("Node " +:+ nd_node_id n +:+ " already " +:+ subtask_status_value (nd_status n) +:+
               "; skipping duplicate task.")
              [("node_id", PStr (nd_node_id n)); ("status", PStr (subtask_status_value (nd_status n)))]
          else
            existing ← on_st (get_plan w (sub_plan_id run_id (nd_node_id n)));
            match existing with
            | Some sub_plan => resume_existing_subplan envelope g n sub_plan
            | None =>
                snapshot ← on_st (get_context_snapshot w (ostr_or (tg_context_snapshot_ref g) EmptyString));
                match snapshot with
                | None => co_trace event "orchestration.context_missing" ("No context for run " +:+ run_id +:+ ".") []
                | Some snapshot => plan_node envelope event run_id g n snapshot
                end
            end
      end
  end.

(** The outputs of a sub-plan's actions, keyed by tool. *)
Fixpoint collect_outputs (plan_id : string) (l : list PlannedAction) (outputs : dict pyval) : M (dict pyval) :=
  match l with
  | [] => mret outputs
  | a :: l' =>
      result ← on_st (get_action_result plan_id (ac_action_id a));
      collect_outputs plan_id l'
        match result with
        | Some r => dict_set (ac_tool_name a) (PDict (tr_output r)) outputs
        | None => outputs
        end
  end.

(** [_build_result] *)
Definition build_result (node_id : string) (sub_plan : option AgentPlan) : M SubAgentResult :=
  match sub_plan with
  | None => mret {| sr_node_id := node_id; sr_skill_ids := []; sr_summary := EmptyString;
                    sr_structured_output := []; sr_status := SCompleted |}
  | Some p =>
      outputs ← collect_outputs (pl_plan_id p) (pl_actions p) [];
      mret {| sr_node_id := node_id; sr_skill_ids := pl_skill_ids p;
              sr_summary := node_id +:+ ": completed " +:+ pretty (length outputs) +:+ " action(s).";
              sr_structured_output := [("outputs", PDict outputs)]; sr_status := SCompleted |}
  end.

(** [_store_result] *)
Definition store_result (w run_id node_id : string) : M unit :=
  sub_plan ← on_st (get_plan w (sub_plan_id run_id node_id));
  result ← build_result node_id sub_plan;
  on_st (save_sub_agent_result w run_id result).

(** What [_handle_completed] does with an advance that is new. *)
Definition apply_advance (envelope : EventEnvelope) (event : RuntimeEvent) (run_id node_id : string)
    (status : SubTaskStatus) (advance : TaskGraphAdvance) : M unit :=
  let w := ev_workspace_id (base event) in
  let node_item := [("node_id", PStr node_id)] in
  when (bool_decide (status = SCompleted) && negb (av_is_synthesizer advance)) (store_result w run_id node_id) ;;
  if av_run_failed advance then
    let message := py_str (py_or (dget "message" (ev_payload (base event))) (PStr "subagent_failed")) in
    ext (record_run_failed (co_sync co) w run_id message) ;;
    co_trace event "orchestration.failed"
      ("Run " +:+ run_id +:+ " failed at node " +:+ node_id +:+ ": " +:+ message) node_item
  else
    for_each (dispatch_node envelope (av_graph advance)) (av_newly_ready advance) ;;
    match av_dispatch_synthesizer advance with
    | Some s => dispatch_node envelope (av_graph advance) s
    | None => mret tt
    end ;;
    when (av_run_completed advance) (
      ext (record_run_completed_by_id (co_sync co) w run_id) ;;
      co_trace event "orchestration.completed" ("Run " +:+ run_id +:+ " completed.") node_item) ;;
    when (av_blocked advance) (
      ext (record_run_failed (co_sync co) w run_id "orchestration_blocked") ;;
      co_trace event "orchestration.blocked"
        ("Run " +:+ run_id +:+ " blocked: no runnable node and not all complete.") node_item).

(** The status a completion event records, if it is terminal. *)
Definition settled_status (status : string) : option SubTaskStatus :=
  if bool_decide (status = "completed") then Some SCompleted
  else if bool_decide (status = "failed") then Some SFailed else None.

(** [_handle_completed] *)
Definition handle_completed (envelope : EventEnvelope) (event : RuntimeEvent) (run_id node_id status : string) :
    M unit :=
  let items := [("node_id", PStr node_id); ("status", PStr status)] in
  match settled_status status with
  | None =>
      co_trace event "orchestration.waiting"
        ("Run " +:+ run_id +:+ " paused at node " +:+ node_id +:+ " (" +:+ status +:+ ").") items
  | Some s =>
      advance ← on_st (advance_task_graph (ev_workspace_id (base event)) run_id node_id s);
      match advance with
      | None => co_trace event "orchestration.graph_missing" ("No task graph for run " +:+ run_id +:+ ".") []
      | Some advance =>
          if av_already_processed advance then
            co_trace event "orchestration.duplicate"
              ("Ignored duplicate completion for node " +:+ node_id +:+ ".") items
          else apply_advance envelope event run_id node_id s advance
      end
  end.

(** [handle] *)
Definition handle_subagent (envelope : EventEnvelope) : M unit :=
  match env_event envelope with
  | SubAgentTaskEvent b run_id node_id => handle_task envelope (env_event envelope) run_id node_id
  | SubAgentCompletedEvent b run_id node_id status => handle_completed envelope (env_event envelope) run_id node_id status
  | _ => raise (Exn TypeError "SubAgentCoordinator only handles subagent events.")
  end.
End coordinator.

(** ** Lemmas *)

(** The workspace and the run of a graph are not touched by an advance. *)
Lemma plan_advance_ids i s g :
  tg_workspace_id (av_graph (plan_advance i s g)) = tg_workspace_id g ∧
  tg_plan_id (av_graph (plan_advance i s g)) = tg_plan_id g.
Proof.
  unfold plan_advance. destruct (get_node g i) as [n|]; [|done]. destruct (node_has s n); [done|].
  case_bool_decide; [done|]. case_bool_decide; [done|]. destruct (is_synthesizer _ _); [done|].
  unfold advance_after_completion. set (g' := with_node_status i s g). destruct (ready_nodes _ g') as [|m l].
  - repeat case_match; done.
  - exact (start_nodes_graph_ids (m :: l) g').
Qed.

(** An advance that is old or fails the run dispatches nothing. *)
Lemma plan_advance_processed i s g : av_already_processed (plan_advance i s g) = true → dispatched (plan_advance i s g) = [].
Proof.
  unfold plan_advance. repeat case_match; try done. unfold advance_after_completion. repeat case_match; done.
Qed.
Lemma plan_advance_run_failed i s g : av_run_failed (plan_advance i s g) = true → dispatched (plan_advance i s g) = [].
Proof.
  unfold plan_advance. repeat case_match; try done. unfold advance_after_completion. repeat case_match; done.
Qed.

(** Messages are appended; plans, graphs, snapshots, results and keys stay. *)
Record adds (ms : list QueueMessage) (w w' : MemWorld) : Prop := {
  adds_plans : ms_plans (w_store w') = ms_plans (w_store w);
  adds_graphs : ms_task_graphs (w_store w') = ms_task_graphs (w_store w);
  adds_snapshots : ms_context_snapshots (w_store w') = ms_context_snapshots (w_store w);
  adds_results : ms_action_results (w_store w') = ms_action_results (w_store w);
  adds_keys : keys w' = keys w;
  adds_queue : mq_messages (w_queue w') = mq_messages (w_queue w) ++ ms;
  adds_run : same_run w w'
}.

Lemma adds_trans ms1 ms2 w1 w2 w3 : adds ms1 w1 w2 → adds ms2 w2 w3 → adds (ms1 ++ ms2) w1 w3.
Proof.
  intros [A1 A2 A3 A4 A5 A6 A7] [B1 B2 B3 B4 B5 B6 B7]. constructor; try congruence; [|by etrans].
  by rw B6 A6 app_assoc.
Qed.

#[export] Instance adds_nil_preorder : PreOrder (adds []).
Proof.
  split; [intros w; constructor; try done; by rw app_nil_r|]. intros x y z H1 H2.
  exact (adds_trans [] [] x y z H1 H2).
Qed.

Lemma calm_adds w w' : calm w w' → adds [] w w'.
Proof. intros [C1 C2 C3 C4 C5 C6 C7 C8]. constructor; try done. by rw C7 app_nil_r. Qed.

Lemma respects_calm_adds {A} (m : st MemWorld A) : respects calm m → respects (adds []) m.
Proof. intros Hm w. apply calm_adds, Hm. Qed.

(** A task message of a run's node. *)
Definition is_task (w run_id : string) (m : QueueMessage) (node_id : string) : Prop :=
  ∃ b, env_event (qm_envelope m) = SubAgentTaskEvent b run_id node_id ∧ ev_workspace_id b = w.

Section coordinator_lemmas.
Context `{Env} `{AgentFactory} (co : Coordinator).

Lemma co_trace_adds ev n m d : respects (adds []) (co_trace (S:=MemoryStateStore) (Q:=MemoryQueue) ev n m d).
Proof. apply respects_calm_adds, trace_calm. Qed.
Lemma ext_adds {A} (m : st Ext A) : respects (adds []) (ext (S:=MemoryStateStore) (Q:=MemoryQueue) m).
Proof. apply respects_calm_adds, ext_calm. Qed.

Lemma dispatch_run envelope g n (w : MemWorld) :
  ∃ m w', dispatch_node envelope g n w = (Ok tt, w') ∧ adds [m] w w' ∧
    is_task (tg_workspace_id g) (tg_plan_id g) m (nd_node_id n).
Proof.
  unfold dispatch_node.
  match goal with |- context [ext ?mk ≫= _] => destruct (ext_run mk w) as (r & w1 & E1 & C1) end.
  assert (Hr : ∃ b, r = Ok (SubAgentTaskEvent b (tg_plan_id g) (nd_node_id n)) ∧ ev_workspace_id b = tg_workspace_id g).
  { apply (f_equal fst) in E1. eexists. split; [symmetry; exact E1|done]. }
  destruct Hr as (b & -> & Hb). rw (bind_step _ _ _ _ _ E1).
  destruct (enqueue_event_run (SubAgentTaskEvent b (tg_plan_id g) (nd_node_id n)) w1) as (m & w2 & E2 & Hs & Hq & Hev & _ & Hr2).
  rw (bind_step _ _ _ _ _ E2). unfold co_trace.
  match goal with |- context [trace ?a ?b ?c ?d ?e ?f w2] => destruct (trace_run a b c d e f w2) as (w3 & E3 & C3) end.
  exists m, w3. split; [exact E3|]. split; [|by exists b].
  apply (adds_trans [] [m] w w1); [by apply calm_adds|]. apply (adds_trans [m] [] w1 w2); [|by apply calm_adds].
  constructor; [by rw Hs..|unfold keys; by rw Hs|by rw Hq|done].
Qed.

Lemma dispatch_all_run envelope g l (w : MemWorld) :
  ∃ ms w', for_each (dispatch_node envelope g) l w = (Ok tt, w') ∧ adds ms w w' ∧
    Forall2 (is_task (tg_workspace_id g) (tg_plan_id g)) ms (map nd_node_id l).
Proof.
  revert w. induction l as [|n l IH]; intros w; cbn [for_each].
  - exists [], w. split; [done|]. split; [reflexivity|constructor].
  - destruct (dispatch_run envelope g n w) as (m & w1 & E1 & A1 & T1). rw (bind_step _ _ _ _ _ E1).
    destruct (IH w1) as (ms & w2 & E2 & A2 & T2). exists (m :: ms), w2. split; [exact E2|].
    split; [exact (adds_trans [m] ms w w1 w2 A1 A2)|by constructor].
Qed.

Lemma save_sub_adds w0 r x : respects (adds []) (on_st (Q:=MemoryQueue) (save_sub_agent_result (S:=MemoryStateStore) w0 r x)).
Proof. intros w. constructor; try done. by rw app_nil_r. Qed.
Lemma get_plan_adds a b : respects (adds []) (on_st (Q:=MemoryQueue) (get_plan (S:=MemoryStateStore) a b)).
Proof. intros w. by rw get_plan_run. Qed.
Lemma get_result_adds a b : respects (adds []) (on_st (Q:=MemoryQueue) (get_action_result (S:=MemoryStateStore) a b)).
Proof. apply respects_calm_adds. by intros w. Qed.

Lemma store_result_adds w0 r n : respects (adds []) (store_result (S:=MemoryStateStore) (Q:=MemoryQueue) w0 r n).
Proof.
  unfold store_result. apply respects_bind; [apply _|apply get_plan_adds|intros p].
  apply respects_bind; [apply _| |intros x; apply save_sub_adds]. unfold build_result. destruct p as [p|].
  2:{ apply respects_ret; apply _. }
  apply respects_bind; [apply _| |intros o; apply respects_ret; apply _].
  generalize (@nil (string * pyval)) as outs. induction (pl_actions p) as [|a l IH]; intros outs; simpl.
  - apply respects_ret; apply _.
  - apply respects_bind; [apply _|apply get_result_adds|intros x; apply IH].
Qed.
End coordinator_lemmas.

#[export] Hint Resolve co_trace_adds ext_adds save_sub_adds get_plan_adds store_result_adds : respects.

(** The operation on the graph a completion event stands for. *)
Definition completion_ops (node_id status : string) : list graph_op :=
  match settled_status status with Some s => [OpSettle node_id s] | None => [] end.

Section coordinator_runs.
Context `{Env} `{AgentFactory} (co : Coordinator).

Lemma collect_outputs_Ok i l outs (w : MemWorld) : ∃ o w', collect_outputs i l outs w = (Ok o, w').
Proof.
  revert outs w. induction l as [|a l IH]; intros outs w; [by eexists _, _|].
  cbn [collect_outputs]. assert (E : on_st (get_action_result i (ac_action_id a)) w =
    (Ok (ms_action_results (w_store w) !! (i, ac_action_id a)), w)) by by destruct w.
  rw (bind_step _ _ _ _ _ E). apply IH.
Qed.

(** Storing a node's result does not raise. *)
Lemma store_result_run w0 r i (w : MemWorld) : ∃ w', store_result w0 r i w = (Ok tt, w') ∧ adds [] w w'.
Proof.
  pose proof (store_result_adds w0 r i w) as Ha. destruct (store_result w0 r i w) as [x w'] eqn:E. exists w'.
  split; [|exact Ha]. f_equal. unfold store_result in E. rw (bind_step _ _ _ _ _ (get_plan_run _ _ w)) in E.
  assert (Hb : ∀ p, ∃ x w', build_result i p w = (Ok x, w')).
  { intros [p|]; cbn [build_result]; [|by eexists _, _].
    destruct (collect_outputs_Ok (pl_plan_id p) (pl_actions p) [] w) as (o & w1 & E1).
    rw (bind_step _ _ _ _ _ E1). by eexists _, _. }
  destruct (Hb (ms_plans (w_store w) !! (w0, sub_plan_id r i))) as (y & w1 & Eb).
  rw (bind_step _ _ _ _ _ Eb) in E. by apply (f_equal fst) in E.
Qed.

(** What follows an advance queues exactly the tasks of the nodes it dispatches. *)
Lemma apply_advance_run envelope event run_id node_id status i s g (w : MemWorld) :
  let a := plan_advance i s g in
  ∃ r w' ms, apply_advance co envelope event run_id node_id status a w = (r, w') ∧ adds ms w w' ∧
    Forall2 (is_task (tg_workspace_id g) (tg_plan_id g)) ms (dispatched a).
Proof.
  intros a. unfold apply_advance. cbn zeta.
  match goal with |- context [when ?b (store_result ?x ?y ?z) ≫= _] =>
    assert (Hst : ∃ w1, when b (store_result x y z) w = (Ok tt, w1) ∧ adds [] w w1) end.
  { destruct (_ && _); cbn [when]; [apply store_result_run|by exists w]. }
  destruct Hst as (w1 & E1 & Hst).
  rw (bind_step _ _ _ _ _ E1). destruct (av_run_failed a) eqn:Ef.
  - match goal with |- context [?m w1 = _] => assert (Hm : respects (adds []) (m : st MemWorld unit)) by solve_respects;
      specialize (Hm w1); destruct (m w1) as [r w2] end.
    exists r, w2, []. split; [done|]. split; [by etrans|]. unfold a. by rw plan_advance_run_failed.
  - destruct (dispatch_all_run envelope (av_graph a) (av_newly_ready a) w1) as (ms & w2 & E2 & A2 & T2).
    rw (bind_step _ _ _ _ _ E2). destruct (plan_advance_ids i s g) as [Hw Hp]. fold a in Hw, Hp. rw Hw Hp in T2.
    match goal with |- context [(match av_dispatch_synthesizer a with Some s => @?f s | None => ?n end) ≫= ?k] =>
      assert (Hd : ∃ ms' w3, (match av_dispatch_synthesizer a with Some s => f s | None => n end) w2 = (Ok tt, w3) ∧
        adds ms' w2 w3 ∧ Forall2 (is_task (tg_workspace_id g) (tg_plan_id g)) ms'
          (match av_dispatch_synthesizer a with Some s => [nd_node_id s] | None => [] end)) end.
    { destruct (av_dispatch_synthesizer a) as [sy|].
      - destruct (dispatch_run envelope (av_graph a) sy w2) as (m & w3 & E3 & A3 & T3). rw Hw Hp in T3.
        exists [m], w3. split; [exact E3|]. split; [done|by repeat constructor].
      - exists [], w2. split; [done|]. split; [reflexivity|constructor]. }
    destruct Hd as (ms' & w3 & E3 & A3 & T3). rw (bind_step _ _ _ _ _ E3).
    match goal with |- context [?m w3 = _] => assert (Hm : respects (adds []) (m : st MemWorld unit)) by solve_respects;
      specialize (Hm w3); destruct (m w3) as [r w4] end.
    exists r, w4, (ms ++ ms'). split; [done|]. split; [|by apply Forall2_app].
    rw -(app_nil_l (ms ++ ms')). eapply adds_trans; [exact Hst|]. eapply adds_trans; [exact A2|].
    rw -(app_nil_r ms'). by eapply adds_trans.
Qed.

Lemma handle_completed_run envelope event run_id node_id status g (w : MemWorld) :
  ms_task_graphs (w_store w) !! (ev_workspace_id (base event), run_id) = Some g →
  tg_workspace_id g = ev_workspace_id (base event) → tg_plan_id g = run_id →
  let res := run_ops (completion_ops node_id status) g in
  ∃ r w' ms, handle_completed co envelope event run_id node_id status w = (r, w') ∧
    ms_task_graphs (w_store w') = <[(ev_workspace_id (base event), run_id) := res.1]> (ms_task_graphs (w_store w)) ∧
    ms_plans (w_store w') = ms_plans (w_store w) ∧ keys w' = keys w ∧ same_run w w' ∧
    mq_messages (w_queue w') = mq_messages (w_queue w) ++ ms ∧
    Forall2 (is_task (tg_workspace_id g) (tg_plan_id g)) ms res.2.
Proof.
  intros Hg Hw Hp res. unfold res, completion_ops, handle_completed. cbn zeta.
  destruct (settled_status status) as [s|]; cbn [run_ops run_op fst snd].
  2:{ match goal with |- context [co_trace ?a ?b ?c ?d] =>
        destruct (run_calm (co_trace a b c d) w (trace_calm _ _ _ _ _ _)) as (r & w1 & E1 & [C1 C2 C3 C4 C5 C6 C7 C8]) end.
      exists r, w1, []. split_and!; [exact E1|by rw C2 insert_id|exact C1|exact C6|exact C8|by rw C7 app_nil_r|constructor]. }
  set (a := plan_advance node_id s g). destruct (plan_advance_ids node_id s g) as [Hw' Hp']. fold a in Hw', Hp'.
  set (w1 := (on_st (advance_task_graph (ev_workspace_id (base event)) run_id node_id s) w).2).
  assert (E1 : on_st (advance_task_graph (ev_workspace_id (base event)) run_id node_id s) w = (Ok (Some a), w1)).
  { unfold w1, on_st, zoom. simpl. unfold run_store, mem_advance. simpl. by rw Hg. }
  assert (Hst : w_store w1 = mem_save_task_graph (av_graph a) (w_store w) ∧ w_queue w1 = w_queue w ∧ same_run w w1).
  { unfold w1, on_st, zoom. simpl. unfold run_store, mem_advance. simpl. by rw Hg. }
  destruct Hst as (Hs1 & Hq1 & Hr1). clearbody w1. rw (bind_step _ _ _ _ _ E1).
  assert (Hk : (tg_workspace_id (av_graph a), tg_plan_id (av_graph a)) = (ev_workspace_id (base event), run_id)) by congruence.
  rw app_nil_r. destruct (av_already_processed a) eqn:Ep.
  - match goal with |- context [co_trace ?a ?b ?c ?d] =>
      destruct (run_calm (co_trace a b c d) w1 (trace_calm _ _ _ _ _ _)) as (r & w2 & E2 & [C1 C2 C3 C4 C5 C6 C7 C8]) end.
    exists r, w2, []. unfold a. rw plan_advance_processed //. fold a. split_and!; [exact E2| | | | | |constructor].
    + rw C2 Hs1 /=. by rw Hk.
    + by rw C1 Hs1.
    + rw C6. unfold keys. by rw Hs1.
    + by etrans.
    + by rw C7 Hq1 app_nil_r.
  - destruct (apply_advance_run envelope event run_id node_id s node_id s g w1) as (r & w2 & ms & E2 & [A1 A2 A3 A4 A5 A6 A7] & T2).
    fold a in E2, T2. exists r, w2, ms. split_and!; [exact E2| | | | | |exact T2].
    + rw A2 Hs1 /=. by rw Hk.
    + by rw A1 Hs1.
    + rw A5. unfold keys. by rw Hs1.
    + by etrans.
    + by rw A6 Hq1.
Qed.
End coordinator_runs.

(** The coordinator is given one envelope after the other. *)
Definition handle_subagents `{Env} `{AgentFactory} {S Q : Type} `{StateStore S} `{Queue Q} (co : Coordinator)
    (l : list EventEnvelope) : st (World S Q) unit :=
  for_each (λ e, try_catch (handle_subagent co e) (λ _, mret tt)) l.

(** The operation an envelope of a run stands for. *)
Definition envelope_ops (e : EventEnvelope) : list graph_op :=
  match env_event e with SubAgentCompletedEvent _ _ i s => completion_ops i s | _ => [] end.

(** A completion event of a run. *)
Definition completes_run (w run_id : string) (e : EventEnvelope) : Prop :=
  ∃ b i s, env_event e = SubAgentCompletedEvent b run_id i s ∧ ev_workspace_id b = w.

Lemma run_ops_app l k g :
  run_ops (l ++ k) g = ((run_ops k (run_ops l g).1).1, (run_ops l g).2 ++ (run_ops k (run_ops l g).1).2).
Proof.
  revert g. induction l as [|o l IH]; intros g; simpl; [by destruct (run_ops k g)|].
  destruct (run_op o g) as [g1 d1]. rw IH. destruct (run_ops l g1) as [g2 d2]. simpl.
  destruct (run_ops k g2) as [g3 d3]. simpl. by rw app_assoc.
Qed.

Lemma run_op_ids o g :
  tg_workspace_id (run_op o g).1 = tg_workspace_id g ∧ tg_plan_id (run_op o g).1 = tg_plan_id g.
Proof.
  destruct o as [|i s]; cbn [run_op]; [|apply plan_advance_ids].
  unfold claim_ready. apply start_nodes_graph_ids.
Qed.

Lemma run_ops_ids l g :
  tg_workspace_id (run_ops l g).1 = tg_workspace_id g ∧ tg_plan_id (run_ops l g).1 = tg_plan_id g.
Proof.
  revert g. induction l as [|o l IH]; intros g; simpl; [done|].
  pose proof (run_op_ids o g) as [H1 H2]. destruct (run_op o g) as [g1 d1]. specialize (IH g1).
  destruct (run_ops l g1) as [g2 d2]. simpl in *. destruct IH. by split; congruence.
Qed.

Lemma envelope_ops_ok e : Forall op_ok (envelope_ops e).
Proof.
  unfold envelope_ops, completion_ops, settled_status. destruct (env_event e); try constructor.
  repeat case_bool_decide; by repeat constructor.
Qed.

Lemma handle_subagents_run `{Env} `{AgentFactory} co l g w0 run_id (w : MemWorld) :
  ms_task_graphs (w_store w) !! (w0, run_id) = Some g → tg_workspace_id g = w0 → tg_plan_id g = run_id →
  Forall (completes_run w0 run_id) l →
  ∃ w' ms, handle_subagents co l w = (Ok tt, w') ∧
    ms_task_graphs (w_store w') !! (w0, run_id) = Some (run_ops (concat (map envelope_ops l)) g).1 ∧
    ms_plans (w_store w') = ms_plans (w_store w) ∧ keys w' = keys w ∧ same_run w w' ∧
    mq_messages (w_queue w') = mq_messages (w_queue w) ++ ms ∧
    Forall2 (is_task w0 run_id) ms (run_ops (concat (map envelope_ops l)) g).2.
Proof.
  revert g w. induction l as [|e l IH]; intros g w Hg Hw Hp Hl.
  { exists w, []. split_and!; try done. by rw app_nil_r. }
  apply Forall_cons in Hl as [(b & i & s & He & Hb) Hl]. simpl. rw run_ops_app.
  assert (Hops : envelope_ops e = completion_ops i s) by (unfold envelope_ops; by rw He). rw Hops. unfold handle_subagents. cbn [for_each].
  destruct (handle_completed_run co e (env_event e) run_id i s g w) as (r & w1 & ms1 & E1 & G1 & P1 & K1 & R1 & Q1 & T1);
    [by rw He /= Hb|by rw He /= Hb|done|].
  assert (E : try_catch (handle_subagent co e) (λ _, mret tt) w = (Ok tt, w1)).
  { unfold try_catch, handle_subagent. rw He. rw He in E1. rw E1. by destruct r as [[]|]. }
  rw (bind_step _ _ _ _ _ E). rw He /= Hb in G1. pose proof (run_ops_ids (completion_ops i s) g) as [Hw1 Hp1].
  destruct (IH (run_ops (completion_ops i s) g).1 w1) as (w2 & ms2 & E2 & G2 & P2 & K2 & R2 & Q2 & T2);
    [by rw G1 lookup_insert_eq|congruence|congruence|done|].
  exists w2, (ms1 ++ ms2). cbn [fst snd]. split_and!; [exact E2|exact G2|congruence|congruence|by etrans| |].
  - by rw Q2 Q1 app_assoc.
  - apply Forall2_app; [|exact T2]. rw -Hw -Hp. exact T1.
Qed.

(** ** Properties *)

(** C10: the coordinator implements the abstract task graph: handling any
    sequence of completion events of a run, duplicated and in any order, with any
    outcome of reporting, leaves in the store the graph that settling the nodes one
    after the other gives, touches no plan and no key, and queues exactly one task
    message per dispatched node, in the order of dispatch; so, when the ids in the
    graph are distinct, no node is dispatched twice. *)
Theorem coordinator_refines_graph `{Env} `{AgentFactory} co l g w0 run_id (w : MemWorld) :
  ms_task_graphs (w_store w) !! (w0, run_id) = Some g → tg_workspace_id g = w0 → tg_plan_id g = run_id →
  Forall (completes_run w0 run_id) l →
  let ops := concat (map envelope_ops l) in
  ∃ w' ms, handle_subagents co l w = (Ok tt, w') ∧
    ms_task_graphs (w_store w') !! (w0, run_id) = Some (run_ops ops g).1 ∧
    ms_plans (w_store w') = ms_plans (w_store w) ∧ keys w' = keys w ∧ same_run w w' ∧
    mq_messages (w_queue w') = mq_messages (w_queue w) ++ ms ∧
    Forall2 (is_task w0 run_id) ms (run_ops ops g).2 ∧
    (NoDup (map nd_node_id (subtasks g)) → NoDup (run_ops ops g).2).
Proof.
  intros Hg Hw Hp Hl ops. destruct (handle_subagents_run co l g w0 run_id w Hg Hw Hp Hl) as (w' & ms & ? & ? & ? & ? & ? & ? & ?).
  exists w', ms. split_and!; try done. intros Hnd. apply run_ops_dispatched; [|done].
  unfold ops. clear. induction l as [|e l IH]; simpl; [constructor|]. apply Forall_app. split; [apply envelope_ops_ok|done].
Qed.

(** C37: a task that is delivered again for a node whose sub-plan exists never
    plans anew: no plan, graph, result or key changes and at most one message is
    queued: the next pending action if there is one, otherwise the completion
    event that fits the status of the sub-plan, and nothing while its action is in
    flight; for a settled node nothing is queued at all. *)
Theorem task_redelivery_spec `{Env} `{AgentFactory} co envelope event run_id node_id g n p (w : MemWorld) :
  ms_task_graphs (w_store w) !! (ev_workspace_id (base event), run_id) = Some g →
  get_node g node_id = Some n →
  ms_plans (w_store w) !! (ev_workspace_id (base event), sub_plan_id run_id (nd_node_id n)) = Some p →
  env_event envelope = event →
  ∃ w' ms, handle_task co envelope event run_id node_id w = (Ok tt, w') ∧ adds ms w w' ∧
    map (λ m, match env_event (qm_envelope m) with
              | AgentActionEvent _ pid aid => inl (pid, aid)
              | SubAgentCompletedEvent _ r i s => inr (Some (r, i, s))
              | _ => inr None
              end) ms =
    if bool_decide (nd_status n = SCompleted ∨ nd_status n = SFailed) then []
    else match next_pending_action p with
         | Some a => [inl (pl_plan_id p, ac_action_id a)]
         | None => match resume_status (pl_status p) with
                   | Some (_, s) => [inr (Some (tg_plan_id g, nd_node_id n, s))]
                   | None => []
                   end
         end.
Proof.
  intros Hg Hn Hp He. unfold handle_task. cbn zeta.
  assert (E1 : on_st (get_task_graph (ev_workspace_id (base event)) run_id) w = (Ok (Some g), w)).
  { destruct w. unfold on_st, zoom. simpl in *. unfold ask_store. simpl. by rw Hg. }
  rw (bind_step _ _ _ _ _ E1) Hn. clear E1.
  assert (Hb : node_has SCompleted n || node_has SFailed n = bool_decide (nd_status n = SCompleted ∨ nd_status n = SFailed)).
  { unfold node_has. by destruct (nd_status n). }
  rw Hb. destruct (bool_decide _).
  { match goal with |- context [co_trace ?a ?b ?c ?d] => destruct (trace_run a b c (event_plan_id a) None d w) as (w1 & E2 & C2) end.
    exists w1, []. split_and!; [exact E2|by apply calm_adds|done]. }
  rw (bind_step _ _ _ _ _ (get_plan_run _ _ w)) Hp. unfold resume_existing_subplan. cbn zeta.
  destruct (next_pending_action p) as [a|]; [|destruct (resume_status (pl_status p)) as [[msg s]|]].
  - unfold co_enqueue_action.
    match goal with |- context [ext (new_action_event ?a ?b ?c ?d ?e ?f)] =>
      destruct (action_event_run a b c d e f w) as (b0 & w1 & E1 & C1 & _) end.
    destruct (enqueue_event_run (AgentActionEvent b0 (pl_plan_id p) (ac_action_id a)) w1) as (m & w2 & E2 & Hs & Hq & Hev & _ & Hr).
    match goal with |- context [(?m0 ≫= _) w] => assert (Em : m0 w = (Ok (AgentActionEvent b0 (pl_plan_id p) (ac_action_id a)), w2)) end.
    { rw (bind_step _ _ _ _ _ E1) (bind_step _ _ _ _ _ E2). done. }
    rw (bind_step _ _ _ _ _ Em).
    match goal with |- context [co_trace ?a ?b ?c ?d] => destruct (trace_run a b c (event_plan_id a) None d w2) as (w3 & E3 & C3) end.
    exists w3, [m]. split_and!; [exact E3| |by rw /= Hev].
    apply (adds_trans [] [m] w w1); [by apply calm_adds|]. apply (adds_trans [m] [] w1 w2); [|by apply calm_adds].
    constructor; [by rw Hs..|unfold keys; by rw Hs|by rw Hq|done].
  - match goal with |- context [co_trace ?a ?b ?c ?d] => destruct (trace_run a b c (event_plan_id a) None d w) as (w1 & E1 & C1);
      change (co_trace a b c d w = (Ok tt, w1)) in E1 end.
    rw (bind_step _ _ _ _ _ E1). unfold enqueue_completed.
    match goal with |- context [ext ?mk ≫= _] => destruct (ext_run mk w1) as (r & w2 & E2 & C2) end.
    assert (Hr : ∃ b, r = Ok (SubAgentCompletedEvent b (tg_plan_id g) (nd_node_id n) s)).
    { apply (f_equal fst) in E2. eexists. symmetry; exact E2. }
    destruct Hr as (b & ->). rw (bind_step _ _ _ _ _ E2).
    destruct (enqueue_event_run (SubAgentCompletedEvent b (tg_plan_id g) (nd_node_id n) s) w2) as (m & w3 & E3 & Hs & Hq & Hev & _ & Hr).
    exists w3, [m]. split_and!; [exact E3| |by rw /= Hev].
    apply (adds_trans [] [m] w w2); [apply calm_adds; by etrans|].
    constructor; [by rw Hs..|unfold keys; by rw Hs|by rw Hq|done].
  - match goal with |- context [co_trace ?a ?b ?c ?d] => destruct (trace_run a b c (event_plan_id a) None d w) as (w1 & E1 & C1) end.
    exists w1, []. split_and!; [exact E1|by apply calm_adds|done].
Qed.

(** ** A concrete run *)

#[local] Existing Instance env_ok.
#[local] Existing Instance sample_factory.

Definition sample_coordinator : Coordinator := {|
  co_planner := sample_planner; co_sync := sample_sync; co_workflows := workflow_registry_empty |}.

(** The sub-plan of node [a]. *)
Definition sample_sub_plan : AgentPlan := plan_as_subplan "run" "a" sample_plan.

Definition sample_graph_world : MemWorld := {|
  w_store := {| ms_plans := {[ ("ws", "run::a") := sample_sub_plan ]}; ms_task_graphs := {[ ("ws", "run") := sample_graph ]};
                ms_sub_agent_results := ∅; ms_context_snapshots := ∅; ms_action_results := ∅; ms_traces := [];
                ms_idempotency_keys := ∅ |};
  w_queue := memory_queue_empty; w_ext := ext0; w_inline := 0; w_seen := ∅; w_log := [] |}.

Definition sample_completed (i : string) : EventEnvelope := {|
  env_envelope_id := "env"; env_event := SubAgentCompletedEvent sample_base "run" i "completed"; env_received_at := 0;
  env_attempt := 0 |}.
Definition sample_task (i : string) : EventEnvelope := {|
  env_envelope_id := "env"; env_event := SubAgentTaskEvent sample_base "run" i; env_received_at := 0; env_attempt := 0 |}.

(** [a] completes twice, then [b]: [b] and the synthesizer are dispatched once each. *)
Lemma coordinator_refines_graph_witness :
  ∃ w' ms, handle_subagents sample_coordinator [sample_completed "a"; sample_completed "a"; sample_completed "b"]
      sample_graph_world = (Ok tt, w') ∧
    Forall2 (is_task "ws" "run") ms ["b"; "synth"] ∧ NoDup ["b"; "synth"].
Proof.
  destruct (coordinator_refines_graph sample_coordinator [sample_completed "a"; sample_completed "a"; sample_completed "b"]
    sample_graph "ws" "run" sample_graph_world) as (w' & ms & E & _ & _ & _ & _ & _ & HT & Hnd);
    [vm_compute; reflexivity|reflexivity|reflexivity|repeat constructor; by eexists sample_base, _, _|].
  exists w', ms. split_and!; [exact E|exact HT|]. apply Hnd. apply (bool_decide_unpack _). vm_compute. exact I.
Defined.

Lemma task_redelivery_spec_witness :
  ∃ w' ms, handle_task sample_coordinator (sample_task "a") (env_event (sample_task "a")) "run" "a" sample_graph_world
      = (Ok tt, w') ∧ adds ms sample_graph_world w' ∧ length ms = 1%nat.
Proof.
  destruct (task_redelivery_spec sample_coordinator (sample_task "a") (env_event (sample_task "a")) "run" "a" sample_graph
    (sample_node "a" []) sample_sub_plan sample_graph_world) as (w' & ms & E & A & Hm);
    [vm_compute; reflexivity|reflexivity|vm_compute; reflexivity|reflexivity|].
  exists w', ms. split_and!; [exact E|exact A|]. apply (f_equal length) in Hm. rw length_map in Hm. exact Hm.
Defined.
