(* ===== verification/DomainHandler.v ===== *)
(** * The domain event handler ([src/application/domain_event_handler.py],
    [src/application/event_router.py])

    A trigger is routed to a workflow, its context hydrated, and a run started:
    a plan is created (or the stored plan resumed or replaced) and its first
    action queued, or, for an orchestrated workflow, a task graph is built and its
    ready nodes dispatched. *)

From S2P Require Import Prelude PyStr PyVal Events Plans SubTasks Policies Env Client Definitions Records.
From S2P Require Import AgentRunIds AgentRunSync Validation Planning Stores World ActionHandler ActionProofs.
From S2P Require Import Coordinator.

(** ** The router *)

Record RouteResult := { ro_decision : TriggerPolicyDecision; ro_workflow : option WorkflowDefinition }.

Definition route (r : WorkflowRegistry) (envelope : EventEnvelope) : RouteResult :=
  let decision := evaluate (env_event envelope) in
  if negb (td_allowed decision) then {| ro_decision := decision; ro_workflow := None |}
  else {| ro_decision := decision; ro_workflow := get_by_trigger r (td_trigger_key decision) |}.

(** ** The handler *)

(** What the handler asks of the context provider: a snapshot for an event. *)
Class ContextHydration := { hydrate : EventEnvelope → WorkflowDefinition → st Ext ContextSnapshot }.

(** The collaborators; the skill registry is the orchestrator's. *)
Record DomainHandler := {
  dh_workflows : WorkflowRegistry;
  dh_planner : Planner;
  dh_sync : AgentRunSync;
  dh_skills : option SkillRegistry
}.

Definition is_terminal_run (e : exn) : bool :=
  match exc_type e with AgentRunAlreadyTerminalError _ _ => true | _ => false end.

(** [exc.status] of an [AgentRunAlreadyTerminalError] *)
Definition exn_run_status (e : exn) : string :=
  match exc_type e with AgentRunAlreadyTerminalError _ s => s | _ => EmptyString end.

(** [_replan_requested] *)
Definition replan_requested (envelope : EventEnvelope) : bool :=
  is_dict (dget "_agent_replan" (ev_payload (base (env_event envelope)))).

(** [plan.model_copy(update={"status": FAILED, "updated_at": now})] *)
Definition plan_failed_at (now : datetime) (p : AgentPlan) : AgentPlan := plan_update (pl_actions p) PFailed now p.

Section domain_handler.
Context `{Env} `{AgentFactory} `{ContextHydration} {S Q : Type} `{StateStore S} `{Queue Q} (dh : DomainHandler).
Abbreviation M := (st (World S Q)).

(** [_trace] *)
Definition dh_trace (envelope : EventEnvelope) (event_name message : string) (data : dict pyval)
    (plan_id action_id : option string) : M unit :=
  trace (env_event envelope) event_name message plan_id action_id data.

(** [_trace_terminal_run_skip] *)
Definition trace_terminal_run_skip (envelope : EventEnvelope) (w : WorkflowDefinition) (run_id : string) (e : exn) :
    M unit :=
  dh_trace envelope "run.terminal_skip"
    ("Skipped run " +:+ run_id +:+ " because it is already " +:+ exn_run_status e +:+ ".")
    (dict_update (event_trace_data (env_event envelope))
       [("workflow_id", PStr (wf_id w)); ("run_status", PStr (exn_run_status e))])
    (Some run_id) None.

(** [try: m except AgentRunAlreadyTerminalError: trace and stop]; true when the run may go on. *)
Definition unless_terminal (envelope : EventEnvelope) (w : WorkflowDefinition) (run_id : string) (m : M unit) : M bool :=
  try_catch_if is_terminal_run (m ;; mret true) (λ e, trace_terminal_run_skip envelope w run_id e ;; mret false).

(** The task event of a ready node and its trace. *)
Definition dispatch_ready (envelope : EventEnvelope) (w run_id : string) (g : TaskGraph) (n : SubTask) : M unit :=
  task_event ← ext (new_task_event w (tg_project_id g) run_id (nd_node_id n)
                      (ev_correlation_id (base (env_event envelope))) (child_causality envelope));
  enqueue_event task_event ;;
  dh_trace envelope "subagent.dispatched" ("Dispatched subagent node " +:+ nd_node_id n +:+ ".")
    [("node_id", PStr (nd_node_id n)); ("dispatch_event_id", PStr (ev_event_id (base task_event)))] (Some run_id) None.

(** The part of [_handle_orchestrated] after the run was started. *)
Definition start_orchestration (envelope : EventEnvelope) (w : WorkflowDefinition) (s : ContextSnapshot) (run_id : string) :
    M unit :=
  let ws := cx_workspace_id (sn_context s) in
  built ← ext (build_orchestrated_graph (dh_skills dh) (sn_context s) w);
  let g := graph_with_run run_id (sn_ref s) built in
  let node_ids := pstr_list (map nd_node_id (tg_nodes g)) in
  on_st (save_context_snapshot (snapshot_with_plan run_id s)) ;;
  on_st (save_task_graph g) ;;
  dh_trace envelope "orchestration.started"
    ("Orchestrating " +:+ pretty (length (tg_nodes g)) +:+ " node(s) for workflow " +:+ wf_id w +:+ ".")
    (dict_update (event_trace_data (env_event envelope))
       [("node_ids", node_ids); ("synthesizer", ostr (option_map nd_node_id (tg_synthesizer_node g)))])
    (Some run_id) None ;;
  ready ← on_st (claim_ready_nodes ws run_id);
  match ready with
  | [] =>
      let message := "Orchestration produced no runnable node." in
      ext (record_run_failed (dh_sync dh) ws run_id message) ;;
      dh_trace envelope "orchestration.empty" message [("node_ids", node_ids)] (Some run_id) None
  | _ => for_each (dispatch_ready envelope ws run_id g) ready
  end.

(** [_handle_orchestrated] *)
Definition handle_orchestrated (envelope : EventEnvelope) (w : WorkflowDefinition) (s : ContextSnapshot) (run_id : string) :
    M unit :=
  let c := sn_context s in
  existing ← on_st (get_task_graph (cx_workspace_id c) run_id);
  match existing with
  | Some _ =>
      dh_trace envelope "orchestration.resumed"
        ("Run " +:+ run_id +:+ " already orchestrated; ignoring duplicate trigger.")
        (event_trace_data (env_event envelope)) (Some run_id) None
  | None =>
      go ← unless_terminal envelope w run_id
             (ext (record_run_started (dh_sync dh) c run_id (wf_goal w) (wf_prompt_version w)));
      when go (start_orchestration envelope w s run_id)
  end.

(** The planning of a new run, or of a run that asked to be replanned; [head]
    takes the first node of the graph, which always has one. *)
Definition plan_root (w : WorkflowDefinition) (s : ContextSnapshot) (run_id : string) : M AgentPlan :=
  let c := sn_context s in
  built ← ext (build_task_graph c w);
  let g := graph_with_plan_id run_id built in
  on_st (save_task_graph g) ;;
  match tg_nodes g with
  | root :: _ => ext (plan_for_node (dh_planner dh) root c (sn_ref s) w run_id)
  | [] => raise (Exn (OtherError "IndexError") "list index out of range")
  end.

Definition begin_run (envelope : EventEnvelope) (w : WorkflowDefinition) (c : AgentContext) (run_id : string)
    (existing_plan : option AgentPlan) (should_replan : bool) : M unit :=
  if should_replan then
    ext (record_run_running (dh_sync dh) (cx_workspace_id c) run_id) ;;
    dh_trace envelope "plan.replanning" ("Replanning run " +:+ run_id +:+ " for workflow " +:+ wf_id w)
      (dict_update (event_trace_data (env_event envelope))
         [("previous_plan_status", ostr (option_map (λ p, plan_status_value (pl_status p)) existing_plan))])
      (Some run_id) None
  else ext (record_run_started (dh_sync dh) c run_id (wf_goal w) (wf_prompt_version w)).

(** Creating the plan; nothing when the run is already terminal. *)
Definition create_run_plan (envelope : EventEnvelope) (w : WorkflowDefinition) (s : ContextSnapshot) (run_id : string)
    (existing_plan : option AgentPlan) (should_replan : bool) : M (option (AgentPlan * ContextSnapshot)) :=
  let c := sn_context s in
  go ← unless_terminal envelope w run_id (begin_run envelope w c run_id existing_plan should_replan);
  if (go : bool) then
    plan ← try_catch (plan_root w s run_id)
             (λ e, ext (record_run_failed (dh_sync dh) (cx_workspace_id c) run_id (exn_str e)) ;; raise e);
    let s' := snapshot_with_plan (pl_plan_id plan) s in
    on_st (save_context_snapshot s') ;;
    on_st (save_plan plan) ;;
    ext (record_plan_created (dh_sync dh) plan) ;;
    dh_trace envelope (if should_replan then "plan.replanned" else "plan.created")
      ((if should_replan then "Replanned run " else "Created plan ") +:+ pl_plan_id plan +:+
       " for workflow " +:+ wf_id w)
      (plan_trace_data plan s' w) (Some (pl_plan_id plan)) None ;;
    mret (Some (plan, s'))
  else mret None.

(** A plan without an executable action. *)
Definition no_first_action (envelope : EventEnvelope) (w : WorkflowDefinition) (s : ContextSnapshot) (plan : AgentPlan) :
    M unit :=
  let plan_id := Some (pl_plan_id plan) in
  if plan_halted (pl_status plan) then
    dh_trace envelope "plan.no_pending_actions"
      ("Plan " +:+ pl_plan_id plan +:+ " has no executable actions in status " +:+
       plan_status_value (pl_status plan) +:+ ".") (plan_trace_data plan s w) plan_id None
  else
    let failure_message := "Planner produced no executable actions after retry attempts." in
    now ← ext utc_now;
    let failed_plan := plan_failed_at now plan in
    on_st (update_plan failed_plan) ;;
    ext (record_run_failed (dh_sync dh) (pl_workspace_id failed_plan) (pl_plan_id failed_plan) failure_message) ;;
    dh_trace envelope "plan.empty" "Planner produced no executable actions." (plan_trace_data failed_plan s w) plan_id None ;;
    dh_trace envelope "plan.failed" failure_message (plan_trace_data failed_plan s w) plan_id None.

(** The first action is queued. *)
Definition enqueue_first_action (envelope : EventEnvelope) (plan : AgentPlan) (a : PlannedAction) : M unit :=
  action_event ← ext (new_action_event (pl_workspace_id plan) (pl_project_id plan) (pl_plan_id plan) (ac_action_id a)
                        (ev_correlation_id (base (env_event envelope))) (child_causality envelope));
  enqueue_event action_event ;;
  dh_trace envelope "action.enqueued" ("Enqueued first action " +:+ ac_action_id a)
    (action_trace_data a
       [("queue_event_id", PStr (ev_event_id (base action_event)));
        ("queue_event_type", PStr (ev_event_type (base action_event)))])
    (Some (pl_plan_id plan)) (Some (ac_action_id a)).

Definition start_plan (envelope : EventEnvelope) (w : WorkflowDefinition) (s : ContextSnapshot) (plan : AgentPlan) :
    M unit :=
  match next_pending_action plan with
  | None => no_first_action envelope w s plan
  | Some a => enqueue_first_action envelope plan a
  end.

(** A workflow without an orchestration: one plan for the whole run. *)
Definition handle_single (envelope : EventEnvelope) (w : WorkflowDefinition) (s : ContextSnapshot) (run_id : string) :
    M unit :=
  existing_plan ← on_st (get_plan (cx_workspace_id (sn_context s)) run_id);
  let should_replan :=
    match existing_plan with
    | Some p => bool_decide (pl_status p = PReplanRequired) && replan_requested envelope
    | None => false
    end in
  match existing_plan, should_replan with
  | Some plan, false =>
      let s' := snapshot_with_plan (pl_plan_id plan) s in
      on_st (save_context_snapshot s') ;;
      dh_trace envelope "plan.resumed" ("Resumed plan " +:+ pl_plan_id plan +:+ " for workflow " +:+ wf_id w)
        (plan_trace_data plan s' w) (Some (pl_plan_id plan)) None ;;
      start_plan envelope w s' plan
  | _, _ =>
      created ← create_run_plan envelope w s run_id existing_plan should_replan;
      match created with
      | None => mret tt
      | Some (plan, s') => start_plan envelope w s' plan
      end
  end.

(** [handle] *)
Definition handle_domain (envelope : EventEnvelope) : M unit :=
  let r := route (dh_workflows dh) envelope in
  let decision := ro_decision r in
  match td_allowed decision, ro_workflow r with
  | true, Some w =>
      s ← ext (hydrate envelope w);
      let run_id := resolve_agent_run_id (sn_context s) in
      match wf_orchestration w with
      | Some o => match or_default_graph o with
                  | [] => handle_single envelope w s run_id
                  | _ => handle_orchestrated envelope w s run_id
                  end
      | None => handle_single envelope w s run_id
      end
  | _, _ =>
      dh_trace envelope "event.ignored" ("Ignored event: " +:+ td_reason decision)
        (dict_update (event_trace_data (env_event envelope))
           [("trigger_key", PStr (td_trigger_key decision)); ("reason", PStr (td_reason decision))]) None None
  end.
End domain_handler.

(** ** Lemmas *)

Section domain_lemmas.
Context `{Env} `{AgentFactory} `{ContextHydration} (dh : DomainHandler).

Lemma dh_trace_calm e n m d p a : respects calm (dh_trace (S:=MemoryStateStore) (Q:=MemoryQueue) e n m d p a).
Proof. apply trace_calm. Qed.

Lemma unless_terminal_calm e w r m : respects calm m →
  respects calm (unless_terminal (S:=MemoryStateStore) (Q:=MemoryQueue) e w r m).
Proof.
  intros Hm. unfold unless_terminal, try_catch_if. apply respects_try; [apply _| |intros x].
  - apply respects_bind; [apply _|done|intros _; apply respects_ret; apply _].
  - destruct (is_terminal_run x); [|apply respects_raise; apply _].
    apply respects_bind; [apply _|apply dh_trace_calm|intros _; apply respects_ret; apply _].
Qed.

(** The graph of an orchestrated run belongs to the workspace of the context. *)
Lemma build_graph_workspace r c w x g x' :
  build_orchestrated_graph r c w x = (Ok g, x') → tg_workspace_id g = cx_workspace_id c.
Proof.
  assert (Hn : ∀ nodes sy x g x', new_graph c nodes sy x = (Ok g, x') → tg_workspace_id g = cx_workspace_id c).
  { by intros nodes sy y g0 y' [= <- <-]. }
  unfold build_orchestrated_graph, build_task_graph. destruct (wf_orchestration w) as [o|]; [|apply Hn].
  destruct (or_default_graph o) as [|d l]; [apply Hn|].
  intros (nodes & y1 & E1 & E)%bind_Ok. apply bind_Ok in E as (sy & y2 & E2 & E). by apply Hn in E.
Qed.

Lemma dispatch_ready_run envelope w0 run_id g n (w : MemWorld) :
  ∃ m w', dispatch_ready envelope w0 run_id g n w = (Ok tt, w') ∧ adds [m] w w' ∧ is_task w0 run_id m (nd_node_id n).
Proof.
  unfold dispatch_ready.
  match goal with |- context [ext ?mk ≫= _] => destruct (ext_run mk w) as (r & w1 & E1 & C1) end.
  assert (Hr : ∃ b, r = Ok (SubAgentTaskEvent b run_id (nd_node_id n)) ∧ ev_workspace_id b = w0).
  { apply (f_equal fst) in E1. eexists. split; [symmetry; exact E1|done]. }
  destruct Hr as (b & -> & Hb). rw (bind_step _ _ _ _ _ E1).
  destruct (enqueue_event_run (SubAgentTaskEvent b run_id (nd_node_id n)) w1) as (m & w2 & E2 & Hs & Hq & Hev & _ & Hr2).
  rw (bind_step _ _ _ _ _ E2). unfold dh_trace.
  match goal with |- context [trace ?a ?b ?c ?d ?e ?f w2] => destruct (trace_run a b c d e f w2) as (w3 & E3 & C3) end.
  exists m, w3. split; [exact E3|]. split; [|by exists b].
  apply (adds_trans [] [m] w w1); [by apply calm_adds|]. apply (adds_trans [m] [] w1 w2); [|by apply calm_adds].
  constructor; [by rw Hs..|unfold keys; by rw Hs|by rw Hq|done].
Qed.

Lemma dispatch_all_ready_run envelope w0 run_id g l (w : MemWorld) :
  ∃ ms w', for_each (dispatch_ready envelope w0 run_id g) l w = (Ok tt, w') ∧ adds ms w w' ∧
    Forall2 (is_task w0 run_id) ms (map nd_node_id l).
Proof.
  revert w. induction l as [|n l IH]; intros w; cbn [for_each].
  - exists [], w. split; [done|]. split; [reflexivity|constructor].
  - destruct (dispatch_ready_run envelope w0 run_id g n w) as (m & w1 & E1 & A1 & T1). rw (bind_step _ _ _ _ _ E1).
    destruct (IH w1) as (ms & w2 & E2 & A2 & T2). exists (m :: ms), w2. split; [exact E2|].
    split; [exact (adds_trans [m] ms w w1 w2 A1 A2)|by constructor].
Qed.

Lemma claim_ready_run ws run_id g (w : MemWorld) :
  ms_task_graphs (w_store w) !! (ws, run_id) = Some g → tg_workspace_id g = ws → tg_plan_id g = run_id →
  ∃ w', on_st (claim_ready_nodes ws run_id) w = (Ok (claim_ready g).2, w') ∧
    ms_task_graphs (w_store w') = <[(ws, run_id) := (claim_ready g).1]> (ms_task_graphs (w_store w)) ∧
    ms_plans (w_store w') = ms_plans (w_store w) ∧ keys w' = keys w ∧ same_run w w' ∧ w_queue w' = w_queue w.
Proof.
  intros Hg Hw Hp. pose proof (run_op_ids OpClaim g) as Hids. cbn [run_op] in Hids.
  destruct (claim_ready g) as [g' l] eqn:E. cbn [fst snd] in *. destruct Hids as [Hi1 Hi2].
  eexists. split_and!.
  - unfold on_st, zoom. cbn [lget store_lens claim_ready_nodes memory_state_store]. unfold run_store, mem_claim.
    cbn [fst snd]. rw Hg E. reflexivity.
  - simpl. by rw Hi1 Hi2 Hw Hp.
  - done.
  - done.
  - done.
  - done.
Qed.

(** Starting an orchestration: the graph is stored with its ready nodes claimed
    and exactly these are dispatched, or nothing was built. *)
Lemma start_orchestration_run envelope w0 s run_id (w : MemWorld) :
  let ws := cx_workspace_id (sn_context s) in
  ∃ r w', start_orchestration dh envelope w0 s run_id w = (r, w') ∧ same_run w w' ∧ keys w' = keys w ∧
    ms_plans (w_store w') = ms_plans (w_store w) ∧
    ((ms_task_graphs (w_store w') = ms_task_graphs (w_store w) ∧ w_queue w' = w_queue w ∧ r ≠ Ok tt) ∨
     ∃ g ms, tg_workspace_id g = ws ∧ tg_plan_id g = run_id ∧
       ms_task_graphs (w_store w') = <[(ws, run_id) := (run_op OpClaim g).1]> (ms_task_graphs (w_store w)) ∧
       mq_messages (w_queue w') = mq_messages (w_queue w) ++ ms ∧ Forall2 (is_task ws run_id) ms (run_op OpClaim g).2).
Proof.
  intros ws. unfold start_orchestration. cbn zeta. fold ws.
  destruct (ext_run (build_orchestrated_graph (dh_skills dh) (sn_context s) w0) w) as ([built|e] & w1 & E1 & C1).
  2:{ rw (bind_raise _ _ _ _ _ E1). exists (Raise e), w1. destruct C1. split_and!; try done. by left. }
  rw (bind_step _ _ _ _ _ E1).
  assert (Hws : tg_workspace_id built = ws).
  { unfold ext, zoom in E1. destruct (build_orchestrated_graph _ _ _ _) as [r x'] eqn:Eb. injection E1 as -> _.
    by eapply build_graph_workspace. }
  set (g := graph_with_run run_id (sn_ref s) built). set (w2 := (on_st (save_context_snapshot (snapshot_with_plan run_id s)) w1).2).
  assert (E2 : on_st (save_context_snapshot (snapshot_with_plan run_id s)) w1 = (Ok tt, w2)) by done.
  rw (bind_step _ _ _ _ _ E2). set (w3 := (on_st (save_task_graph g) w2).2).
  assert (E3 : on_st (save_task_graph g) w2 = (Ok tt, w3)) by done. rw (bind_step _ _ _ _ _ E3).
  match goal with |- context [dh_trace ?a ?b ?c ?d ?e ?f ≫= _] =>
    destruct (trace_run (env_event a) b c e f d w3) as (w4 & E4 & C4); change (dh_trace a b c d e f w3 = (Ok tt, w4)) in E4 end.
  rw (bind_step _ _ _ _ _ E4).
  assert (L4 : ms_task_graphs (w_store w4) = <[(ws, run_id) := g]> (ms_task_graphs (w_store w)) ∧
    ms_plans (w_store w4) = ms_plans (w_store w) ∧ keys w4 = keys w ∧ same_run w w4 ∧ w_queue w4 = w_queue w).
  { destruct C1 as [A1 A2 A3 A4 A5 A6 A7 A8], C4 as [B1 B2 B3 B4 B5 B6 B7 B8]. split_and!.
    - rw B2. simpl. by rw Hws A2.
    - rw B1. simpl. by rw A1.
    - rw B6. exact A6.
    - etrans; [exact A8|]. exact B8.
    - rw B7. simpl. by rw A7. }
  destruct L4 as (G4 & P4 & K4 & R4 & Q4).
  destruct (claim_ready_run ws run_id g w4) as (w5 & E5 & G5 & P5 & K5 & R5 & Q5); [by rw G4 lookup_insert_eq|done|done|].
  rw (bind_step _ _ _ _ _ E5).
  assert (Hop : run_op OpClaim g = ((claim_ready g).1, map nd_node_id (claim_ready g).2)) by (simpl; by destruct (claim_ready g)).
  destruct ((claim_ready g).2) as [|n l].
  - match goal with |- context [?m w5 = _] => assert (Hm : respects calm (m : st MemWorld unit)) end.
    { apply respects_bind; [apply _|apply ext_calm|intros _; apply dh_trace_calm]. }
    match goal with |- context [?m w5 = _] => destruct (run_calm m w5 Hm) as (r & w6 & E6 & [A1 A2 A3 A4 A5 A6 A7 A8]) end.
    exists r, w6. split_and!; [exact E6|etrans; [exact R4|]; by etrans|congruence|congruence|]. right. exists g, []. rw Hop. cbn [fst snd].
    split_and!; [exact Hws|done|by rw A2 G5 G4 insert_insert_eq|by rw A7 Q5 Q4 app_nil_r|constructor].
  - destruct (dispatch_all_ready_run envelope ws run_id g (n :: l) w5) as (ms & w6 & E6 & [A1 A2 A3 A4 A5 A6 A7] & T6).
    exists (Ok tt), w6. split_and!; [exact E6|etrans; [exact R4|]; by etrans|congruence|congruence|]. right. exists g, ms. rw Hop. cbn [fst snd].
    split_and!; [exact Hws|done|by rw A2 G5 G4 insert_insert_eq|by rw A6 Q5 Q4|exact T6].
Qed.
End domain_lemmas.

Section domain_runs.
Context `{Env} `{AgentFactory} `{ContextHydration} (dh : DomainHandler).

Lemma get_graph_run a b (w : MemWorld) : on_st (get_task_graph a b) w = (Ok (ms_task_graphs (w_store w) !! (a, b)), w).
Proof. by destruct w. Qed.

(** What a plan leads to: one message for its first pending action, nothing
    when it has stopped, and otherwise the plan is failed. *)
Lemma start_plan_run envelope w0 s p (w : MemWorld) :
  ∃ r w' ms, start_plan dh envelope w0 s p w = (r, w') ∧ same_run w w' ∧ keys w' = keys w ∧
    ms_task_graphs (w_store w') = ms_task_graphs (w_store w) ∧
    mq_messages (w_queue w') = mq_messages (w_queue w) ++ ms ∧
    match next_pending_action p with
    | Some a => r = Ok tt ∧ ms_plans (w_store w') = ms_plans (w_store w) ∧
        ∃ m b, ms = [m] ∧ env_event (qm_envelope m) = AgentActionEvent b (pl_plan_id p) (ac_action_id a) ∧
          ev_workspace_id b = pl_workspace_id p
    | None => ms = [] ∧
        if plan_halted (pl_status p) then r = Ok tt ∧ ms_plans (w_store w') = ms_plans (w_store w)
        else ∃ now, ms_plans (w_store w') = <[plan_key p := plan_failed_at now p]> (ms_plans (w_store w))
    end.
Proof.
  unfold start_plan. destruct (next_pending_action p) as [a|].
  - unfold enqueue_first_action.
    match goal with |- context [ext (new_action_event ?a ?b ?c ?d ?e ?f)] =>
      destruct (action_event_run a b c d e f w) as (b0 & w1 & E1 & C1 & Hws & _) end.
    rw (bind_step _ _ _ _ _ E1).
    destruct (enqueue_event_run (AgentActionEvent b0 (pl_plan_id p) (ac_action_id a)) w1) as (m & w2 & E2 & Hs & Hq & Hev & _ & Hr).
    rw (bind_step _ _ _ _ _ E2). unfold dh_trace.
    match goal with |- context [trace ?a ?b ?c ?d ?e ?f w2] => destruct (trace_run a b c d e f w2) as (w3 & E3 & C3) end.
    exists (Ok tt), w3, [m]. destruct C1 as [A1 A2 A3 A4 A5 A6 A7 A8], C3 as [B1 B2 B3 B4 B5 B6 B7 B8].
    split_and!; [exact E3|etrans; [exact A8|]; by etrans| | | |done| |by exists m, b0].
    + rw B6. unfold keys. rw Hs. exact A6.
    + by rw B2 Hs A2.
    + by rw B7 Hq /= A7.
    + by rw B1 Hs A1.
  - unfold no_first_action. cbn zeta. destruct (plan_halted (pl_status p)).
    + unfold dh_trace. match goal with |- context [trace ?a ?b ?c ?d ?e ?f w] =>
        destruct (trace_run a b c d e f w) as (w1 & E1 & [A1 A2 A3 A4 A5 A6 A7 A8]) end.
      exists (Ok tt), w1, []. split_and!; [exact E1|exact A8|exact A6|exact A2|by rw A7 app_nil_r|done|done|exact A1].
    + set (now := clock_at (x_clock (w_ext w))). set (w1 := (ext utc_now w).2).
      assert (E1 : ext utc_now w = (Ok now, w1)) by done. rw (bind_step _ _ _ _ _ E1).
      set (w2 := (on_st (update_plan (plan_failed_at now p)) w1).2).
      assert (E2 : on_st (update_plan (plan_failed_at now p)) w1 = (Ok tt, w2)) by done. rw (bind_step _ _ _ _ _ E2).
      match goal with |- context [?m w2 = _] => assert (Hm : respects calm (m : st MemWorld unit)) end.
      { apply respects_bind; [apply _|apply ext_calm|intros _].
        apply respects_bind; [apply _|apply dh_trace_calm|intros _; apply dh_trace_calm]. }
      match goal with |- context [?m w2 = _] => destruct (run_calm m w2 Hm) as (r & w3 & E3 & [A1 A2 A3 A4 A5 A6 A7 A8]) end.
      exists r, w3, []. split_and!; [exact E3|exact A8|exact A6|exact A2|by rw A7 app_nil_r|done|]. exists now. by rw A1.
Qed.
End domain_runs.

(** ** Properties *)

(** an event that the policy does not allow, or that no workflow is
    registered for, is ignored: the handler returns, nothing but a trace is
    stored, no request is sent and nothing is queued. *)
Theorem ignored_event_spec `{Env} `{AgentFactory} `{ContextHydration} dh envelope (w : MemWorld) :
  let d := evaluate (env_event envelope) in
  td_allowed d = false ∨ get_by_trigger (dh_workflows dh) (td_trigger_key d) = None →
  let '(r, w') := handle_domain dh envelope w in
  r = Ok tt ∧ calm w w' ∧ x_requests (w_ext w') = x_requests (w_ext w).
Proof.
  intros d Hd. assert (Hw : td_allowed d = false ∨ ro_workflow (route (dh_workflows dh) envelope) = None).
  { unfold route. fold d. destruct (td_allowed d); [right|by left]. by destruct Hd. }
  unfold handle_domain. replace (ro_decision (route (dh_workflows dh) envelope)) with d by (unfold route; by case_match).
  assert (Hm : ∀ (m : st MemWorld unit) f, (match td_allowed d, ro_workflow (route (dh_workflows dh) envelope) with
    | true, Some w => f w | _, _ => m end) = m) by (intros m f; destruct Hw as [-> | ->]; [done|by destruct (td_allowed d)]).
  cbn zeta. rw Hm. unfold dh_trace.
  match goal with |- context [trace ?a ?b ?c ?d ?e ?f w] => destruct (trace_run a b c d e f w) as (w1 & E1 & C1);
    pose proof (f_equal snd E1) as E2 end.
  rw E1. split_and!; [done|done|]. cbn in E2. by rw -E2.
Qed.

(** An orchestrated trigger: when the run already has a graph it is ignored
    (nothing but a trace changes, so no node is dispatched again); otherwise, unless
    the run was refused or its graph could not be built, the graph is stored with
    exactly its ready nodes claimed and one task message is queued for each of
    them, which is the first operation of the abstract task graph. *)
Theorem orchestrated_trigger_spec `{Env} `{AgentFactory} `{ContextHydration} dh envelope w0 s run_id (w : MemWorld) :
  let ws := cx_workspace_id (sn_context s) in
  let '(r, w') := handle_orchestrated dh envelope w0 s run_id w in
  same_run w w' ∧ keys w' = keys w ∧ ms_plans (w_store w') = ms_plans (w_store w) ∧
  match ms_task_graphs (w_store w) !! (ws, run_id) with
  | Some _ => r = Ok tt ∧ calm w w'
  | None =>
      (ms_task_graphs (w_store w') = ms_task_graphs (w_store w) ∧ w_queue w' = w_queue w) ∨
      ∃ g ms, tg_workspace_id g = ws ∧ tg_plan_id g = run_id ∧
        ms_task_graphs (w_store w') = <[(ws, run_id) := (run_op OpClaim g).1]> (ms_task_graphs (w_store w)) ∧
        mq_messages (w_queue w') = mq_messages (w_queue w) ++ ms ∧ Forall2 (is_task ws run_id) ms (run_op OpClaim g).2
  end.
Proof.
  intros ws. destruct (handle_orchestrated dh envelope w0 s run_id w) as [r w'] eqn:E. unfold handle_orchestrated in E.
  cbn zeta in E. rw (bind_step _ _ _ _ _ (get_graph_run _ _ w)) in E. fold ws in E.
  destruct (ms_task_graphs (w_store w) !! (ws, run_id)) as [g|].
  { unfold dh_trace in E. match type of E with trace ?a ?b ?c ?d ?e ?f w = _ => destruct (trace_run a b c d e f w) as (w1 & E1 & C1) end.
    rw E1 in E. injection E as <- <-. split_and!; [apply C1..|done|exact C1]. }
  match type of E with context [unless_terminal ?a ?b ?c ?m ≫= _] =>
    destruct (run_calm _ w (unless_terminal_calm a b c m (ext_calm _))) as ([go|e] & w1 & E1 & [A1 A2 A3 A4 A5 A6 A7 A8]) end.
  2:{ rw (bind_raise _ _ _ _ _ E1) in E. injection E as <- <-. split_and!; [done..|]. by left. }
  rw (bind_step _ _ _ _ _ E1) in E. destruct go; cbn [when] in E.
  2:{ injection E as <- <-. split_and!; [done..|]. by left. }
  destruct (start_orchestration_run dh envelope w0 s run_id w1) as (r2 & w2 & E2 & R2 & K2 & P2 & Hd).
  rw E2 in E. injection E as <- <-. rw A2 A7 in Hd. split_and!; [by etrans|congruence|congruence|].
  destruct Hd as [(? & ? & ?)|Hd]; [by left|by right].
Qed.

(** C38: a trigger for a run that has a plan and does not ask for a new one
    creates no plan: the first pending action is queued again, once; a plan that
    has stopped is left alone; and a plan without a pending action that has not
    stopped (its action is being executed) is stored as failed. *)
Theorem existing_plan_spec `{Env} `{AgentFactory} `{ContextHydration} dh envelope w0 s run_id p (w : MemWorld) :
  ms_plans (w_store w) !! (cx_workspace_id (sn_context s), run_id) = Some p →
  pl_status p ≠ PReplanRequired ∨ replan_requested envelope = false →
  ∃ r w' ms, handle_single dh envelope w0 s run_id w = (r, w') ∧ same_run w w' ∧ keys w' = keys w ∧
    ms_task_graphs (w_store w') = ms_task_graphs (w_store w) ∧
    mq_messages (w_queue w') = mq_messages (w_queue w) ++ ms ∧
    match next_pending_action p with
    | Some a => r = Ok tt ∧ ms_plans (w_store w') = ms_plans (w_store w) ∧
        ∃ m b, ms = [m] ∧ env_event (qm_envelope m) = AgentActionEvent b (pl_plan_id p) (ac_action_id a) ∧
          ev_workspace_id b = pl_workspace_id p
    | None => ms = [] ∧
        if plan_halted (pl_status p) then r = Ok tt ∧ ms_plans (w_store w') = ms_plans (w_store w)
        else ∃ now, ms_plans (w_store w') = <[plan_key p := plan_failed_at now p]> (ms_plans (w_store w))
    end.
Proof.
  intros Hp Hr. unfold handle_single. rw (bind_step _ _ _ _ _ (get_plan_run _ _ w)) Hp. cbn zeta.
  assert (Hsr : bool_decide (pl_status p = PReplanRequired) && replan_requested envelope = false).
  { destruct Hr as [Hr|Hr]; [by rw bool_decide_eq_false_2|by rw Hr andb_false_r]. }
  rw Hsr. set (s' := snapshot_with_plan (pl_plan_id p) s).
  set (w1 := (on_st (save_context_snapshot s') w).2).
  assert (E1 : on_st (save_context_snapshot s') w = (Ok tt, w1)) by done. rw (bind_step _ _ _ _ _ E1).
  match goal with |- context [dh_trace ?a ?b ?c ?d ?e ?f ≫= _] =>
    destruct (trace_run (env_event a) b c e f d w1) as (w2 & E2 & [A1 A2 A3 A4 A5 A6 A7 A8]);
    change (dh_trace a b c d e f w1 = (Ok tt, w2)) in E2 end.
  rw (bind_step _ _ _ _ _ E2).
  destruct (start_plan_run dh envelope w0 s' p w2) as (r & w3 & ms & E3 & R3 & K3 & G3 & Q3 & H3).
  exists r, w3, ms. split_and!; [exact E3|by etrans|by rw K3|by rw G3|by rw Q3 A7|]. by rw A1 in H3.
Qed.

(** ** A concrete run *)

#[local] Existing Instance env_ok.
#[local] Existing Instance sample_factory.

Definition sample_hydration : ContextHydration := {| hydrate _ _ := mret sample_snapshot |}.
#[local] Existing Instance sample_hydration.

Definition sample_domain_handler : DomainHandler := {|
  dh_workflows := workflow_registry_empty; dh_planner := sample_planner; dh_sync := sample_sync; dh_skills := None |}.

Lemma ignored_event_spec_witness :
  let '(r, w') := handle_domain sample_domain_handler (cx_source_event (sample_context "ws")) sample_world in
  r = Ok tt ∧ calm sample_world w' ∧ x_requests (w_ext w') = x_requests (w_ext sample_world).
Proof. apply (ignored_event_spec sample_domain_handler). right. vm_compute. reflexivity. Defined.

(** A plan whose only action is being executed. *)
Definition in_flight_plan : AgentPlan := replace_action 0 (with_status 0 ARunning (sample_action "a" []))
  (plan_update [sample_action "a" []] PPlanned 0 sample_plan).

Lemma existing_plan_spec_witness :
  ∃ r w' now, handle_single sample_domain_handler (cx_source_event (sample_context "ws")) sample_workflow sample_snapshot
      "run-1" (sample_world_with in_flight_plan) = (r, w') ∧
    ms_plans (w_store w') = <[plan_key in_flight_plan := plan_failed_at now in_flight_plan]>
      (ms_plans (w_store (sample_world_with in_flight_plan))).
Proof.
  destruct (existing_plan_spec sample_domain_handler (cx_source_event (sample_context "ws")) sample_workflow sample_snapshot
    "run-1" in_flight_plan (sample_world_with in_flight_plan)) as (r & w' & ms & E & _ & _ & _ & _ & _ & now & Hp);
    [vm_compute; reflexivity|left; discriminate|].
  exists r, w', now. split; [exact E|exact Hp].
Defined.
