(* ===== verification/ContextProvider.v ===== *)
(** * The context provider ([src/application/context_provider.py],
    [src/infrastructure/object_storage/])

    The snapshot a plan is made from: the entities of the workflow's prompt, narrowed
    to the scopes of an orchestrated workflow, after the pointer to a stored pull
    request diff was followed. *)

From Stdlib Require Import QArith Qround.
From S2P Require Import Prelude PyStr PyVal PyUuid Json JsonLoads Events Policies Env Definitions Client Records Planning.
From S2P Require Import DateTime Backlog Hydration ActionProofs DomainHandler.
Open Scope Z_scope.

(** ** Stored payloads *)

(** [JsonPayloadStore]: the name and the version come from an event's payload. *)
Record JsonPayloadStore := { fetch_json : pyval → pyval → st Ext (dict pyval) }.

(** [MemoryPayloadStore]; a list or an object cannot be looked up. *)
Definition memory_payload_store (payloads : dict (dict pyval)) : JsonPayloadStore := {|
  fetch_json object_name version_id :=
    match object_name with
    | PList _ | PDict _ => raise (Exn TypeError ("unhashable type: '" +:+ type_name object_name +:+ "'"))
    | PStr name =>
        match dict_get name payloads with
        | Some d => mret d
        | None => raise (Exn KeyError ("Payload object not found: " +:+ name))
        end
    | _ => raise (Exn KeyError ("Payload object not found: " +:+ py_str object_name))
    end |}.

(** [ObjectStoragePayloadStore]; the client of the object storage service is a
    library, which gives the text of an object. *)
Definition object_storage_payload_store (get_object : string → string → pyval → option pyval → st Ext string)
    (namespace bucket_name : string) : JsonPayloadStore := {|
  fetch_json object_name version_id :=
    raw ← get_object namespace bucket_name object_name (if truthy version_id then Some version_id else None);
    match json_loads raw with
    | Some (PDict decoded) => mret decoded
    | Some _ => raise (Exn ValueError ("Payload object must contain a JSON object: " +:+ py_str object_name))
    | None => raise (Exn ValueError "invalid JSON")
    end |}.

(** ** Narrowing *)

(** [_required_context] *)
Definition required_context (w : WorkflowDefinition) (declared : list string) : list string :=
  match wf_orchestration w with
  | Some o =>
      match or_default_graph o with
      | [] => declared
      | graph =>
          let nodes := graph ++ match or_synthesizer o with Some s => [s] | None => [] end in
          if existsb (λ n, bool_decide (od_context_scope n = [])) nodes then declared
          else List.filter (λ entity, existsb (λ n, str_in entity (od_context_scope n)) nodes) declared
      end
  | None => declared
  end.

(** ** What pydantic makes of the fields of an [AgentContext] *)

(** [str | int]: a boolean and an integral float count as integers. *)
Definition version_of (v : pyval) : option version :=
  match v with
  | PStr s => Some (VStr s)
  | PInt z => Some (VInt z)
  | PBool b => Some (VInt (if b then 1 else 0))
  | PFloat f =>
      let z := Qfloor (f_val f) in
      if Qeq_bool (f_val f) (inject_Z z) && (Z.abs z <? 2 ^ 63) then Some (VInt z) else None
  | _ => None
  end.

Fixpoint versions_of (d : dict pyval) : option (dict version) :=
  match d with
  | [] => Some []
  | (k, v) :: d' => v ← version_of v; l ← versions_of d'; Some ((k, v) :: l)
  end.

Fixpoint all_dicts (l : list pyval) : option (list (dict pyval)) :=
  match l with
  | [] => Some []
  | PDict d :: l' => l ← all_dicts l'; Some (d :: l)
  | _ => None
  end.
Definition dict_list_of (v : pyval) : option (list (dict pyval)) :=
  match v with PList l => all_dicts l | _ => None end.

(** ** The provider *)

Record ContextProvider := {
  cp_prism_client : PrismApiClient;
  cp_prompt_registry : PromptRegistry;
  cp_diff_payload_store : option JsonPayloadStore
}.

Section provider.
Context `{Env} (cp : ContextProvider).

(** The record of a log line about a pointer. *)
Definition pointer_record (e : RuntimeEvent) (object_name : pyval) (extra : dict pyval) : dict pyval :=
  [("log", PStr "diff.pointer"); ("event_type", PStr (ev_event_type (base e)));
   ("workspace_id", PStr (ev_workspace_id (base e))); ("object_name", object_name)] ++ extra.

(** The payload with the stored pull request in it. *)
Definition merged_payload (payload blob pull_request : dict pyval) : dict pyval :=
  let repository_full_name :=
    py_or (dget "repositoryFullName" blob) (py_or (dget "repositoryFullName" payload) (dget "repository_full_name" payload)) in
  let pull_request_diff :=
    if truthy repository_full_name && negb (truthy (dget "repositoryFullName" pull_request))
    then dict_set "repositoryFullName" repository_full_name pull_request else pull_request in
  dict_update payload [("pull_request_diff", PDict pull_request_diff); ("pullRequest", PDict pull_request)].

(** [_resolve_diff_pointer] *)
Definition resolve_diff_pointer (e : RuntimeEvent) (required : list string) : st Ext RuntimeEvent :=
  match cp_diff_payload_store cp with
  | None => mret e
  | Some store =>
      let payload := ev_payload (base e) in
      let object_name := py_or (dget "diffObjectName" payload) (dget "diff_object_name" payload) in
      if negb (str_in "pull_request_diff" required) then mret e
      else if negb (truthy object_name) then mret e
      else if negb (is_none (dget "pull_request_diff" payload)) || negb (is_none (dget "pullRequest" payload)) then mret e
      else
        let version_id := py_or (dget "diffObjectVersionId" payload) (dget "diff_object_version_id" payload) in
        blob ← try_catch (d ← fetch_json store object_name version_id; mret (Some d))
          (λ exc,
            log_json LogWarning (pointer_record e object_name
              [("resolved", PBool false); ("error_type", PStr (exc_name exc)); ("error", PStr (exn_str exc))]) ;;
            mret None);
        match blob with
        | None => mret e
        | Some blob =>
            match py_or (dget "pullRequest" blob) (dget "pull_request" blob) with
            | PDict pull_request =>
                log_json LogInfo (pointer_record e object_name
                  [("resolved", PBool true); ("files_count", diff_files_count (PDict pull_request))]) ;;
                mret (event_with_payload (merged_payload payload blob pull_request) e)
            | _ =>
                log_json LogWarning (pointer_record e object_name
                  [("resolved", PBool false); ("reason", PStr "blob_missing_pull_request")]) ;;
                mret e
            end
        end
  end.

(** [hydrate] *)
Definition hydrate_context (envelope : EventEnvelope) (w : WorkflowDefinition) : st Ext ContextSnapshot :=
  prompt ← lift_res (get_workflow (cp_prompt_registry cp) (wf_prompt_id w) (wf_prompt_version w));
  let e := env_event envelope in
  let required := required_context w (wp_required_context prompt) in
  hydration_event ← resolve_diff_pointer e required;
  entities ← fetch_context_entities (cp_prism_client cp) hydration_event required;
  let permissions := fetch_permissions e in
  entity_versions ← capture_entity_versions e entities;
  match dict_list_of (dict_get_or (PList []) "retrieved_documents" (ev_payload (base e))),
        dict_list_of (dict_get_or (PList []) "previous_agent_outputs" (ev_payload (base e))),
        versions_of entity_versions with
  | Some retrieved_documents, Some previous_agent_outputs, Some entity_versions =>
      new_snapshot (ev_workspace_id (base e)) (ev_project_id (base e)) (wf_id w) {|
        cx_workspace_id := ev_workspace_id (base e); cx_project_id := ev_project_id (base e);
        cx_source_event := envelope; cx_workflow_id := wf_id w; cx_entities := entities;
        cx_retrieved_documents := retrieved_documents; cx_permissions := permissions;
        cx_entity_versions := entity_versions; cx_previous_agent_outputs := previous_agent_outputs;
        cx_runtime_metadata := [("trigger_event_type", PStr (ev_event_type (base e)));
                                ("trigger_kind", PStr (event_kind e))] |}
  | _, _, _ => validation_error "AgentContext"
  end.
End provider.

(** What the domain event handler is given. *)
Definition context_provider `{Env} (cp : ContextProvider) : ContextHydration := {| hydrate := hydrate_context cp |}.

(** ** Lemmas *)

Section lemmas.
Context `{Env}.

(** A hydrated diff of the event is the entity, however often it is required. *)
Lemma fetch_entities_diff c e required entities x d y v :
  payload_context_value (ev_payload (base e)) "pull_request_diff" = v →
  has_hydrated_pull_request_diff v = true →
  "pull_request_diff" ∈ required ∨ dget "pull_request_diff" entities = v →
  fetch_entities c e entities required x = (Ok d, y) → dget "pull_request_diff" d = v.
Proof.
  intros Hv Hh. revert entities x. induction required as [|key keys IH]; intros entities x Hor E; cbn [fetch_entities] in E.
  { injection E as <- _. destruct Hor as [Hin|]; [by apply elem_of_nil in Hin|done]. }
  apply bind_Ok in E as (u & x' & Eu & E). apply (IH _ _) in E; [done|].
  destruct (decide (key = "pull_request_diff")) as [->|Hne].
  - right. unfold context_entity in Eu. cbv zeta in Eu. rw Hv in Eu. unfold pull_request_diff_context in Eu. rw Hh in Eu.
    cbn in Eu. injection Eu as <- _. unfold dget, dict_get_or. by rw dict_get_set_eq.
  - destruct Hor as [Hin|Hd]; [left; apply elem_of_cons in Hin as [?|?]; [by subst|done]|].
    right. destruct u as [u|]; [|exact Hd]. unfold dget, dict_get_or. rw dict_get_set_ne; [done|exact Hd].
Qed.

Lemma fetch_context_diff c e required x d y v :
  payload_context_value (ev_payload (base e)) "pull_request_diff" = v →
  has_hydrated_pull_request_diff v = true → "pull_request_diff" ∈ required →
  fetch_context_entities c e required x = (Ok d, y) → dget "pull_request_diff" d = v.
Proof.
  intros Hv Hh Hin E. unfold fetch_context_entities in E. apply bind_Ok in E as (d0 & x0 & E0 & E).
  apply (fetch_entities_diff c e required [] x d0 x0 v Hv Hh (or_introl Hin)) in E0.
  assert (Hset : ∀ u : pyval, dget "pull_request_diff" (dict_set "backlog_signals" u d0) = v).
  { intros u. unfold dget, dict_get_or. rw dict_get_set_ne; [done|exact E0]. }
  destruct (str_in _ _); [|by injection E as <- _].
  destruct (payload_context_value _ "backlog_signals"); try (by injection E as <- _; apply Hset).
Qed.

(** Folding in the repository name leaves the files alone. *)
Lemma merged_diff_hydrated payload blob pr :
  has_hydrated_pull_request_diff (PDict pr) = true →
  ∃ diff, payload_context_value (merged_payload payload blob pr) "pull_request_diff" = PDict diff ∧
    has_hydrated_pull_request_diff (PDict diff) = true ∧ dget "files" diff = dget "files" pr ∧
    (truthy (dget "repositoryFullName" blob) = true → truthy (dget "repositoryFullName" diff) = true).
Proof.
  intros Hh. unfold merged_payload. set (name := py_or _ _).
  assert (Hname : truthy (dget "repositoryFullName" blob) = true → truthy name = true).
  { intros Ht. unfold name, py_or at 1. by rw Ht Ht. }
  clearbody name. set (diff := if _ && _ then _ else pr). exists diff. split_and!.
  - unfold payload_context_value. cbn [dict_update]. rw dict_get_set_ne; [done|]. by rw dict_get_set_eq.
  - unfold diff. destruct (_ && _); [|done]. unfold has_hydrated_pull_request_diff, dget, dict_get_or in *.
    rw !(dict_get_set_ne "repositoryFullName"); done.
  - unfold diff. destruct (_ && _); [|done]. unfold dget, dict_get_or. by rw dict_get_set_ne.
  - intros Ht. unfold diff. rw (Hname Ht). destruct (truthy (dget "repositoryFullName" pr)) eqn:E; cbn; [by rw E|].
    unfold dget, dict_get_or. rw dict_get_set_eq. by apply Hname.
Qed.
End lemmas.

(** A store that sends no request to the API. *)
Definition offline_store (cp : ContextProvider) : Prop :=
  ∀ store, cp_diff_payload_store cp = Some store → ∀ name version, ran 0 (fetch_json store name version).

Lemma memory_store_offline payloads name version : ran 0 (fetch_json (memory_payload_store payloads) name version).
Proof.
  apply ran_quiet. unfold memory_payload_store; cbn [fetch_json].
  destruct name; try (intros x; done). by destruct (dict_get _ _).
Qed.

(** ** Following the pointer *)

(** Following the pointer to a stored diff never aborts a hydration.  Whatever
    the event, the store and its failures, the result is an event: the stored pull
    request is merged into the payload exactly when the diff is required, the event
    names an object and carries no pull request itself, the object is there and holds
    one; in every other case the event is left as it is.  Nothing but the payload
    ever changes, and no request goes to the API. *)
Lemma resolve_diff_pointer_spec `{Env} cp e required x :
  offline_store cp →
  let payload := ev_payload (base e) in
  let name := py_or (dget "diffObjectName" payload) (dget "diff_object_name" payload) in
  let version := py_or (dget "diffObjectVersionId" payload) (dget "diff_object_version_id" payload) in
  let points := str_in "pull_request_diff" required && truthy name &&
    is_none (dget "pull_request_diff" payload) && is_none (dget "pullRequest" payload) in
  let '(r, y) := resolve_diff_pointer cp e required x in
  reads 0 x y ∧
  r = Ok match cp_diff_payload_store cp with
         | Some store =>
             if points then
               match (fetch_json store name version x).1 with
               | Ok blob => match py_or (dget "pullRequest" blob) (dget "pull_request" blob) with
                            | PDict pr => event_with_payload (merged_payload payload blob pr) e
                            | _ => e
                            end
               | Raise _ => e
               end
             else e
         | None => e
         end.
Proof.
  intros Hoff. cbv zeta. unfold resolve_diff_pointer. destruct (cp_diff_payload_store cp) as [store|] eqn:Es.
  2:{ split; [by apply reads_0|done]. }
  cbv zeta. destruct (str_in "pull_request_diff" required); cbn [andb negb]; [|split; [by apply reads_0|done]].
  destruct (truthy _) eqn:En; cbn [andb negb]; [|split; [by apply reads_0|done]].
  destruct (is_none (dget "pull_request_diff" _)); cbn [andb orb negb]; [|split; [by apply reads_0|done]].
  destruct (is_none (dget "pullRequest" _)); cbn [andb orb negb]; [|split; [by apply reads_0|done]].
  set (name := py_or _ (dget "diff_object_name" _)). set (version := py_or _ (dget "diff_object_version_id" _)).
  pose proof (Hoff store Es name version x) as Hr.
  unfold try_catch, mbind, st_bind, mret, st_ret, log_json.
  destruct (fetch_json store name version x) as [[blob|exc] z]; cbn [fst snd] in *.
  - destruct (py_or (dget "pullRequest" blob) (dget "pull_request" blob));
      (split; [exact (reads_trans 0 0 _ _ _ Hr (reads_0 _ _ eq_refl eq_refl))|done]).
  - split; [exact (reads_trans 0 0 _ _ _ Hr (reads_0 _ _ eq_refl eq_refl))|done].
Qed.

(** ** The snapshot *)



(** The documents or the earlier outputs of an event are not lists of objects. *)
Definition unfit_documents (e : RuntimeEvent) : Prop :=
  dict_list_of (dict_get_or (PList []) "retrieved_documents" (ev_payload (base e))) = None ∨
  dict_list_of (dict_get_or (PList []) "previous_agent_outputs" (ev_payload (base e))) = None.


(** The versions pydantic accepts keep their names. *)
Lemma versions_of_keys d l : versions_of d = Some l → dict_keys l = dict_keys d.
Proof.
  revert l. induction d as [|[k v] d IH]; intros l; cbn [versions_of]; [by intros [= <-]|].
  destruct (version_of v) as [v'|]; [|done]. cbn. destruct (versions_of d) as [l'|]; [|done].
  cbn. intros [= <-]. unfold dict_keys in *. cbn. f_equal. by apply IH.
Qed.

(** The hydration after the prompt was found: the event it works on, the entities, the snapshot. *)
Lemma hydrate_run `{Env} cp envelope w prompt x :
  offline_store cp → get_workflow (cp_prompt_registry cp) (wf_prompt_id w) (wf_prompt_version w) = Ok prompt →
  let required := required_context w (wp_required_context prompt) in
  ∃ e' x1, resolve_diff_pointer cp (env_event envelope) required x = (Ok e', x1) ∧ reads 0 x x1 ∧
  ev_project_id (base e') = ev_project_id (base (env_event envelope)) ∧
  let '(fetched, x2) := fetch_context_entities (cp_prism_client cp) e' required x1 in
  let '(r, y) := hydrate_context cp envelope w x in
  x_requests y = x_requests x2 ∧
  match fetched with
  | Raise exc => r = Raise exc
  | Ok entities =>
      r = Raise (Exn ValueError (validation_text "AgentContext")) ∧
        (unfit_documents (env_event envelope) ∨ versions_of (entity_versions_of (env_event envelope) entities) = None) ∨
      ∃ sn, r = Ok sn ∧ cx_entities (sn_context sn) = entities ∧ cx_source_event (sn_context sn) = envelope ∧
        cx_workspace_id (sn_context sn) = ev_workspace_id (base (env_event envelope)) ∧
        cx_project_id (sn_context sn) = ev_project_id (base (env_event envelope)) ∧
        cx_workflow_id (sn_context sn) = wf_id w ∧
        cx_permissions (sn_context sn) = fetch_permissions (env_event envelope) ∧
        dict_keys (cx_entity_versions (sn_context sn)) = dict_keys (entity_versions_of (env_event envelope) entities)
  end.
Proof.
  intros Hoff Hprompt required. pose proof (resolve_diff_pointer_spec cp (env_event envelope) required x Hoff) as Hr.
  cbv zeta in Hr. destruct (resolve_diff_pointer cp (env_event envelope) required x) as [r1 x1] eqn:E1.
  destruct Hr as [Hreads ->]. eexists _, x1. split; [done|]. split; [done|]. split.
  { destruct (cp_diff_payload_store cp) as [store|]; [|done]. destruct (_ && _); [|done].
    destruct (fetch_json _ _ _ x).1 as [blob|]; [|done]. destruct (py_or _ _); try done. by destruct (env_event envelope). }
  set (e' := match cp_diff_payload_store cp with Some _ => _ | None => _ end) in *. clearbody e'.
  destruct (fetch_context_entities (cp_prism_client cp) e' required x1) as [[entities|exc] x2] eqn:E2; unfold hydrate_context;
    rw Hprompt; unfold mbind, st_bind; cbn [lift_res]; fold required; rw E1 E2; [|done].
  unfold capture_entity_versions, mbind, st_bind. cbn [get_st set_versions mret st_ret].
  destruct (dict_list_of (dict_get_or _ "retrieved_documents" _)) as [docs|] eqn:E3.
  2: { split; [done|]. left. split; [done|]. left. by left. }
  destruct (dict_list_of (dict_get_or _ "previous_agent_outputs" _)) as [outputs|] eqn:E4.
  2: { split; [done|]. left. split; [done|]. left. by right. }
  destruct (versions_of _) as [versions|] eqn:Ev.
  2: { split; [done|]. left. split; [done|]. by right. }
  split; [done|]. right. eexists. split; [done|]. cbn [sn_context cx_entities cx_source_event cx_workspace_id cx_project_id
    cx_workflow_id cx_permissions cx_entity_versions]. split_and!; try done. by apply versions_of_keys.
Qed.


(** A stored diff reaches the context.  When the event is a pointer to an object
    that holds a pull request with patches and the workflow requires the diff, a
    hydration that succeeds has those files in its [pull_request_diff] entity, with the
    repository's name of the object, and its source event is the one received: the
    heavy payload is not kept in it. *)
Theorem stored_diff_reaches_context `{Env} cp envelope w prompt store blob pr x sn y :
  offline_store cp → cp_diff_payload_store cp = Some store →
  get_workflow (cp_prompt_registry cp) (wf_prompt_id w) (wf_prompt_version w) = Ok prompt →
  let payload := ev_payload (base (env_event envelope)) in
  let name := py_or (dget "diffObjectName" payload) (dget "diff_object_name" payload) in
  let version := py_or (dget "diffObjectVersionId" payload) (dget "diff_object_version_id" payload) in
  "pull_request_diff" ∈ required_context w (wp_required_context prompt) →
  truthy name = true → dget "pull_request_diff" payload = PNone → dget "pullRequest" payload = PNone →
  (fetch_json store name version x).1 = Ok blob → dget "pullRequest" blob = PDict pr →
  has_hydrated_pull_request_diff (PDict pr) = true →
  hydrate_context cp envelope w x = (Ok sn, y) →
  cx_source_event (sn_context sn) = envelope ∧
  ∃ diff, dget "pull_request_diff" (cx_entities (sn_context sn)) = PDict diff ∧ dget "files" diff = dget "files" pr ∧
    (truthy (dget "repositoryFullName" blob) = true → truthy (dget "repositoryFullName" diff) = true).
Proof.
  cbv zeta. intros Hoff Hstore Hprompt Hin Hname Hdiff Hpull Hblob Hpr Hhyd Hrun.
  destruct (hydrate_run cp envelope w prompt x Hoff Hprompt) as (e' & x1 & Ee & _ & _ & Hr). cbv zeta in Hr.
  pose proof (resolve_diff_pointer_spec cp (env_event envelope) (required_context w (wp_required_context prompt)) x Hoff) as Hres.
  cbv zeta in Hres. rw Ee Hstore Hname Hdiff Hpull Hblob in Hres.
  assert (Hp : ∀ a, py_or (PDict pr) a = PDict pr) by (intros a; destruct pr; [discriminate Hhyd|done]).
  unfold str_in in Hres. rw bool_decide_eq_true_2 in Hres; [exact Hin|]. cbn [andb is_none] in Hres. rw Hpr Hp in Hres.
  destruct Hres as [_ [= ->]].
  destruct (merged_diff_hydrated (ev_payload (base (env_event envelope))) blob pr Hhyd) as (diff & Hd & Hdh & Hfiles & Hrepo).
  set (e' := event_with_payload _ _) in *.
  assert (He' : payload_context_value (ev_payload (base e')) "pull_request_diff" = PDict diff)
    by (rw -Hd; unfold e'; by destruct (env_event envelope)).
  destruct (fetch_context_entities (cp_prism_client cp) e' _ x1) as [[entities|exc] x2] eqn:Ef; rw Hrun in Hr; destruct Hr as [_ Hr].
  - destruct Hr as [[? _]|(sn' & [= <-] & Hents & Hsrc & _)]; [done|]. split; [exact Hsrc|]. exists diff. rw Hents.
    split_and!; [|done..]. exact (fetch_context_diff _ _ _ _ _ _ _ He' Hdh Hin Ef).
  - done.
Qed.

(** ** A concrete hydration *)

#[local] Existing Instance env_ok.

Definition stored_pull_request : dict pyval :=
  [("number", PInt 7); ("files", PList [PDict [("path", PStr "a.py"); ("patch", PStr "@@ -1 +1 @@")]])].
Definition stored_blob : dict pyval := [("repositoryFullName", PStr "acme/app"); ("pullRequest", PDict stored_pull_request)].

Definition review_prompt : WorkflowPromptDefinition := {|
  wp_id := "review"; wp_version := "1.0.0"; wp_name := "Review"; wp_description := "d"; wp_model := sample_model;
  wp_output_schema := "AgentPlan"; wp_goal := "goal"; wp_system := "s"; wp_constraints := [];
  wp_required_context := ["pull_request_diff"; "pull_request_event"; "project_work_items"; "backlog_signals"];
  wp_trigger_types := ["domain.pull_request.opened"];
  wp_required_skills := ["skill"]; wp_default_execution_mode := "suggest"; wp_approval_policy := [];
  wp_max_recursion_depth := 10; wp_orchestration := None |}.
Definition review_workflow : WorkflowDefinition := workflow_from_prompt review_prompt.

Definition review_provider : ContextProvider := {|
  cp_prism_client := client_init (Some "http://api/") None;
  cp_prompt_registry := {[ ("review", "1.0.0") := review_prompt ]};
  cp_diff_payload_store := Some (memory_payload_store [("diffs/7.json", stored_blob)]) |}.

Definition review_envelope : EventEnvelope := {|
  env_envelope_id := "env-1"; env_received_at := 0; env_attempt := 0;
  env_event := DomainEvent {| ev_event_id := "e1"; ev_event_type := "pull_request.opened"; ev_workspace_id := "ws";
    ev_project_id := Some "p1"; ev_payload := [("diffObjectName", PStr "diffs/7.json")]; ev_occurred_at := 0;
    ev_correlation_id := None; ev_causality := causality_root; ev_idempotency_key := None |} |}.

Lemma review_offline : offline_store review_provider.
Proof. intros store [= <-] name version. apply memory_store_offline. Qed.

Definition review_snapshot : ContextSnapshot := Eval vm_compute in
  match (hydrate_context review_provider review_envelope review_workflow ext0).1 with
  | Ok sn => sn
  | Raise _ => sample_snapshot
  end.

Definition review_after : Ext := Eval vm_compute in (hydrate_context review_provider review_envelope review_workflow ext0).2.

Lemma review_run : hydrate_context review_provider review_envelope review_workflow ext0 = (Ok review_snapshot, review_after).
Proof. vm_compute. reflexivity. Qed.

Lemma review_registered :
  get_workflow (cp_prompt_registry review_provider) (wf_prompt_id review_workflow) (wf_prompt_version review_workflow) = Ok review_prompt.
Proof. vm_compute. reflexivity. Qed.

(** One read, for the work items of the project: the diff needs none. *)
Example review_requests : map rq_url (x_requests review_after) = ["http://api/projects/p1/work-items/internal?limit=100"].
Proof. vm_compute. reflexivity. Qed.

(** A reply that is not UTF-8 aborts the same hydration, although every request of it is
    guarded by an [except RuntimeError]. *)
Definition env_not_utf8 : Env := {|
  uuid4_at n := "u" +:+ pretty n; clock_at n := Z.of_nat n; monotonic_at n := Z.of_nat n;
  http_reply _ _ := ReplyOk (BodyNotUtf8 "'utf-8' codec can't decode byte 0xff in position 0: invalid start byte");
  validation_text m := m |}.

Example reply_not_utf8_aborts :
  (@hydrate_context env_not_utf8 review_provider review_envelope review_workflow ext0).1 =
  Raise (Exn UnicodeDecodeError "'utf-8' codec can't decode byte 0xff in position 0: invalid start byte").
Proof. vm_compute. reflexivity. Qed.


Lemma stored_diff_reaches_context_witness :
  ∃ diff, dget "pull_request_diff" (cx_entities (sn_context review_snapshot)) = PDict diff ∧
    dget "files" diff = dget "files" stored_pull_request.
Proof.
  assert (Hin : "pull_request_diff" ∈ required_context review_workflow (wp_required_context review_prompt)) by left.
  destruct (stored_diff_reaches_context review_provider review_envelope review_workflow review_prompt
    (memory_payload_store [("diffs/7.json", stored_blob)]) stored_blob stored_pull_request ext0 review_snapshot review_after
    review_offline eq_refl review_registered Hin eq_refl eq_refl eq_refl eq_refl eq_refl eq_refl review_run)
    as (_ & diff & Hd & Hf & _).
  exists diff. split; [exact Hd|exact Hf].
Defined.
