(* ===== verification/FeatureProvisioning.v ===== *)
(** * Feature provisioning ([src/domain/feature_provisioning.py],
    [src/application/feature_provisioning_worker.py])

    A pointer on the queue names a stored payload; the worker fetches it, checks that
    it belongs to the pointer, turns it into a domain event, has the domain handler
    take one step and records the pointer's idempotency key.

    What pydantic makes of the two models is the class [ProvisioningModels]; its dumps
    are by alias and leave out what is [None].  A time in a dump is its text. *)

From S2P Require Import Prelude PyStr PyVal PyUuid Events Plans SubTasks Policies Env Client Definitions.
From S2P Require Import Records AgentRunIds AgentRunSync Validation Planning Stores StateMemory PrismStore World.
From S2P Require Import ActionHandler AtMostOnce PrismProofs ActionProofs PrismRecovery Coordinator DomainHandler.
From S2P Require Import ContextProvider.

(** ** The models *)

Record FeatureProvisioningPointerEvent := {
  fp_type : string;
  fp_version : string;
  fp_request_id : string;
  fp_agent_run_id : option string;
  fp_payload_id : option string;
  fp_payload_object_name : string;
  fp_payload_version_id : option string;
  fp_workspace_id : string;
  fp_project_id : string;
  fp_requested_by_user_id : option string;
  fp_requested_at : option datetime
}.

Definition worker_idempotency_key (p : FeatureProvisioningPointerEvent) : string :=
  "feature_provisioning:" +:+ fp_request_id p.

(** [fy_extra] is [model_extra]. *)
Record FeatureProvisioningPayload := {
  fy_request_id : option string;
  fy_workspace_id : option string;
  fy_project_id : option string;
  fy_feature_specification : pyval;
  fy_workspace : option (dict pyval);
  fy_project : option (dict pyval);
  fy_workspace_members : list (dict pyval);
  fy_extra : dict pyval
}.

Class ProvisioningModels := {
  pointer_validate : dict pyval → res FeatureProvisioningPointerEvent;
  pointer_dump : FeatureProvisioningPointerEvent → dict pyval;
  payload_validate : dict pyval → res FeatureProvisioningPayload;
  payload_dump : FeatureProvisioningPayload → dict pyval
}.

(** ** The payload belongs to the pointer *)

(** A key, or a key and a key of the object below it. *)
Inductive field_path := FKey (key : string) | FChild (parent child : string).

Section models.
Context `{ProvisioningModels}.

(** [data.get(parent) or extra.get(parent)], one step of [_first_present]. *)
Definition path_value (data extra : dict pyval) (p : field_path) : option pyval :=
  match p with
  | FKey k => match dict_get k data with Some v => Some v | None => dict_get k extra end
  | FChild parent child =>
      match py_or (dget parent data) (dget parent extra) with
      | PDict container => dict_get child container
      | _ => None
      end
  end.

Fixpoint first_path (data extra : dict pyval) (paths : list field_path) : pyval :=
  match paths with
  | [] => PNone
  | p :: l => match path_value data extra p with Some v => v | None => first_path data extra l end
  end.

(** [_first_present] *)
Definition first_present (y : FeatureProvisioningPayload) (paths : list field_path) : pyval :=
  first_path (payload_dump y) (fy_extra y) paths.

Definition REQUEST_PATHS : list field_path := [FKey "requestId"; FKey "request_id"].
Definition WORKSPACE_PATHS : list field_path :=
  [FKey "workspaceId"; FKey "workspace_id"; FChild "workspace" "workspaceId"; FChild "workspace" "id"].
Definition PROJECT_PATHS : list field_path :=
  [FKey "projectId"; FKey "project_id"; FChild "project" "projectId"; FChild "project" "id"].

(** [expected] and [actual], field by field. *)
Definition identities (y : FeatureProvisioningPayload) (p : FeatureProvisioningPointerEvent) :
    list (string * (string * pyval)) :=
  [("requestId", (fp_request_id p, first_present y REQUEST_PATHS));
   ("workspaceId", (fp_workspace_id p, first_present y WORKSPACE_PATHS));
   ("projectId", (fp_project_id p, first_present y PROJECT_PATHS))].

Definition has_specification (y : FeatureProvisioningPayload) : bool :=
  match fy_feature_specification y with PStr s => str_truthy (strip s) | _ => false end.

Definition missing_fields (y : FeatureProvisioningPayload) (p : FeatureProvisioningPointerEvent) : list string :=
  str_sorted (omap (λ f, if is_none f.2.2 then Some f.1 else None) (identities y p)).

Definition mismatched_fields (y : FeatureProvisioningPayload) (p : FeatureProvisioningPointerEvent) : dict pyval :=
  omap (λ f, if bool_decide (py_str f.2.2 = f.2.1) then None
             else Some (f.1, PDict [("pointer", PStr f.2.1); ("payload", f.2.2)])) (identities y p).

Definition validate_matches (y : FeatureProvisioningPayload) (p : FeatureProvisioningPointerEvent) : res unit :=
  if negb (has_specification y) then err ValueError "Feature provisioning payload missing featureSpecification."
  else
    match missing_fields y p with
    | [] =>
        match mismatched_fields y p with
        | [] => Ok tt
        | mismatches =>
            err ValueError ("Feature provisioning payload does not match pointer: " +:+ py_repr (PDict mismatches))
        end
    | missing => err ValueError ("Feature provisioning payload missing identity fields: " +:+ py_repr (pstrs missing))
    end.

(** ** The seed event *)

Definition seed_payload (y : FeatureProvisioningPayload) (p : FeatureProvisioningPointerEvent) : dict pyval :=
  let d := dict_set "queue_pointer" (PDict (pointer_dump p))
             (dict_set "workspace_members" (PList (map PDict (fy_workspace_members y)))
                (dict_set "feature_specification" (fy_feature_specification y) (payload_dump y))) in
  if ostr_truthy (fp_agent_run_id p) then dict_set "agentRunId" (ostr (fp_agent_run_id p)) d else d.

(** The clock is read only when the pointer has no time. *)
Definition to_domain_event `{Env} (y : FeatureProvisioningPayload) (p : FeatureProvisioningPointerEvent) :
    st Ext RuntimeEvent :=
  occurred_at ← match fp_requested_at p with Some t => mret t | None => utc_now end;
  event_id ← new_uuid;
  mret (DomainEvent {|
    ev_event_id := event_id; ev_event_type := fp_type p; ev_workspace_id := fp_workspace_id p;
    ev_project_id := Some (fp_project_id p); ev_payload := seed_payload y p; ev_occurred_at := occurred_at;
    ev_correlation_id := Some (fp_request_id p); ev_causality := causality_root;
    ev_idempotency_key := Some (fp_request_id p) |}).

(** [resolve_seed_event] *)
Definition resolve_seed_event `{Env} (store : JsonPayloadStore) (p : FeatureProvisioningPointerEvent) :
    st Ext RuntimeEvent :=
  payload_data ← fetch_json store (PStr (fp_payload_object_name p)) (ostr (fp_payload_version_id p));
  payload ← lift_res (payload_validate payload_data);
  lift_res (validate_matches payload p) ;;
  to_domain_event payload p.
End models.

(** ** Keys of a workspace

    [getattr(state_store, "check_workspace_idempotency_key", None)] and its
    counterpart: only the Prism API store has them, and the logging proxy passes the
    attributes of the store it wraps on. *)

Record WorkspaceKeyMethods (S : Type) := {
  wk_check : string → string → option string → st (S * Ext) bool;
  wk_record : string → string → option string → st (S * Ext) unit
}.
Arguments wk_check {S}.
Arguments wk_record {S}.

Class WorkspaceKeys (S : Type) := { workspace_keys : option (WorkspaceKeyMethods S) }.

#[export] Instance memory_workspace_keys : WorkspaceKeys MemoryStateStore := {| workspace_keys := None |}.

#[export] Instance logging_workspace_keys {S : Type} `{WorkspaceKeys S} : WorkspaceKeys (LoggingStateStore S) := {|
  workspace_keys := option_map (λ m, {|
    wk_check w k r := zoom logged_inner (wk_check m w k r);
    wk_record w k r := zoom logged_inner (wk_record m w k r) |}) workspace_keys |}.

Definition prism_workspace_keys `{Env, StateCodec} {S T : Type} `{StateStore S, AgentStateMemoryStore T}
    (persist_agent_memories : bool) : WorkspaceKeys (PrismApiStateStore S T) := {|
  workspace_keys := Some {|
    wk_check := check_workspace_idempotency_key;
    wk_record := record_workspace_idempotency_key persist_agent_memories |} |}.

Section keys.
Context {S : Type} `{StateStore S} `{WorkspaceKeys S}.

(** [_check_idempotency_key] *)
Definition check_worker_key (w key run_id : string) : st (S * Ext) bool :=
  match workspace_keys with
  | Some m => wk_check m w key (Some run_id)
  | None => check_idempotency_key key
  end.

(** [_record_idempotency_key] *)
Definition record_worker_key (w key run_id : string) : st (S * Ext) unit :=
  match workspace_keys with
  | Some m => wk_record m w key (Some run_id)
  | None => record_idempotency_key key
  end.
End keys.

(** ** The worker *)

Record FeatureProvisioningResult := { fr_request_id : string; fr_event_id : option string; fr_duplicate : bool }.

(** [pointer.agent_run_id or pointer.request_id] *)
Definition worker_run_id (p : FeatureProvisioningPointerEvent) : string :=
  ostr_or (fp_agent_run_id p) (fp_request_id p).

Section worker.
Context `{Env} `{ProvisioningModels} `{AgentFactory} `{ContextHydration}.
Context {S Q : Type} `{StateStore S} `{WorkspaceKeys S} `{Queue Q}.
Context (store : JsonPayloadStore) (dh : DomainHandler).

(** The seed event and the one step of the domain handler. *)
Definition dispatch_pointer (p : FeatureProvisioningPointerEvent) : st (World S Q) RuntimeEvent :=
  event ← ext (resolve_seed_event store p);
  envelope ← ext (wrap event);
  handle_domain dh envelope ;;
  mret event.

(** [handle_pointer] *)
Definition handle_pointer (content : dict pyval) : st (World S Q) FeatureProvisioningResult :=
  p ← lift_res (pointer_validate content);
  let w := fp_workspace_id p in
  let key := worker_idempotency_key p in
  let run_id := worker_run_id p in
  found ← on_st (check_worker_key w key run_id);
  if (found : bool) then
    mret {| fr_request_id := fp_request_id p; fr_event_id := None; fr_duplicate := true |}
  else
    event ← dispatch_pointer p;
    on_st (record_worker_key w key run_id) ;;
    mret {| fr_request_id := fp_request_id p; fr_event_id := Some (ev_event_id (base event)); fr_duplicate := false |}.
End worker.

(** ** Payloads and pointers *)

(** The payload has a specification and says of itself what the pointer says. *)
Definition belongs `{ProvisioningModels} (y : FeatureProvisioningPayload) (p : FeatureProvisioningPointerEvent) : Prop :=
  (∃ s, fy_feature_specification y = PStr s ∧ str_truthy (strip s) = true) ∧
  (first_present y REQUEST_PATHS ≠ PNone ∧ py_str (first_present y REQUEST_PATHS) = fp_request_id p) ∧
  (first_present y WORKSPACE_PATHS ≠ PNone ∧ py_str (first_present y WORKSPACE_PATHS) = fp_workspace_id p) ∧
  (first_present y PROJECT_PATHS ≠ PNone ∧ py_str (first_present y PROJECT_PATHS) = fp_project_id p).

Lemma is_none_spec v : is_none v = true ↔ v = PNone.
Proof. by destruct v. Qed.

Lemma str_insert_not_nil x l : str_insert x l ≠ [].
Proof. destruct l; simpl; [done|]. by destruct (str_leb _ _). Qed.

Lemma str_sorted_nil l : str_sorted l = [] ↔ l = [].
Proof. destruct l as [|x l]; [done|]. split; [|done]. intros E. by apply str_insert_not_nil in E. Qed.

Lemma missing_nil `{ProvisioningModels} y p :
  missing_fields y p = [] ↔
  first_present y REQUEST_PATHS ≠ PNone ∧ first_present y WORKSPACE_PATHS ≠ PNone ∧ first_present y PROJECT_PATHS ≠ PNone.
Proof.
  unfold missing_fields. rw str_sorted_nil omap_nil_Forall. unfold identities. rw !Forall_cons. cbn [fst snd].
  rw -!is_none_spec. destruct (is_none (first_present y REQUEST_PATHS)), (is_none (first_present y WORKSPACE_PATHS)),
    (is_none (first_present y PROJECT_PATHS)); intuition (try constructor; congruence).
Qed.

Lemma mismatched_nil `{ProvisioningModels} y p :
  mismatched_fields y p = [] ↔
  py_str (first_present y REQUEST_PATHS) = fp_request_id p ∧ py_str (first_present y WORKSPACE_PATHS) = fp_workspace_id p ∧
  py_str (first_present y PROJECT_PATHS) = fp_project_id p.
Proof.
  unfold mismatched_fields. rw omap_nil_Forall. unfold identities. rw !Forall_cons. cbn [fst snd].
  repeat case_bool_decide; intuition (try constructor; congruence).
Qed.

(** What is accepted, and what anything else raises. *)
Lemma validate_matches_iff `{ProvisioningModels} y p :
  (validate_matches y p = Ok tt ↔ belongs y p) ∧
  ∀ e, validate_matches y p = Raise e → exc_type e = ValueError ∧ ¬ belongs y p.
Proof.
  assert (Hok : validate_matches y p = Ok tt ↔ belongs y p).
  { unfold validate_matches, belongs.
    assert (Hs : has_specification y = true ↔ ∃ s, fy_feature_specification y = PStr s ∧ str_truthy (strip s) = true).
    { unfold has_specification. destruct (fy_feature_specification y); naive_solver. }
    rw -Hs. pose proof (missing_nil y p) as Hm. pose proof (mismatched_nil y p) as Hx.
    destruct (has_specification y); simpl; [|split; [done|by intros [? _]]].
    destruct (missing_fields y p); [|split; [done|intros; naive_solver]].
    destruct (mismatched_fields y p); naive_solver. }
  split; [exact Hok|]. intros e He. split; [|rw -Hok He; done].
  unfold validate_matches in He. destruct (negb _); [by injection He as <-|].
  destruct (missing_fields y p); [|by injection He as <-]. destruct (mismatched_fields y p); [done|by injection He as <-].
Qed.

(** A payload is accepted for a pointer exactly when it has a specification that
    is not blank and its request, workspace and project ids are present and equal to
    the pointer's; anything else is a [ValueError]. *)
Theorem validate_matches_spec `{ProvisioningModels} y p :
  (validate_matches y p = Ok tt ↔ belongs y p) ∧
  ∀ e, validate_matches y p = Raise e → exc_type e = ValueError ∧ ¬ belongs y p.
Proof. apply validate_matches_iff. Qed.

Lemma seed_payload_get `{ProvisioningModels} y p :
  dget "feature_specification" (seed_payload y p) = fy_feature_specification y ∧
  dget "workspace_members" (seed_payload y p) = PList (map PDict (fy_workspace_members y)) ∧
  AgentRunIds.queue_pointer (seed_payload y p) = pointer_dump p ∧
  (ostr_truthy (fp_agent_run_id p) = true → dget "agentRunId" (seed_payload y p) = ostr (fp_agent_run_id p)).
Proof.
  unfold seed_payload, AgentRunIds.queue_pointer, dget, dict_get_or.
  destruct (ostr_truthy (fp_agent_run_id p)); (split_and!; [..|try done]); rw ?dict_get_set; reflexivity.
Qed.

(** What the seed event of a payload that belongs to the pointer is. *)
Definition seed_event_of `{ProvisioningModels} (y : FeatureProvisioningPayload) (p : FeatureProvisioningPointerEvent)
    (b : event_base) : Prop :=
  ev_event_type b = fp_type p ∧ ev_workspace_id b = fp_workspace_id p ∧ ev_project_id b = Some (fp_project_id p) ∧
  ev_correlation_id b = Some (fp_request_id p) ∧ ev_idempotency_key b = Some (fp_request_id p) ∧
  ev_causality b = causality_root ∧
  dget "feature_specification" (ev_payload b) = fy_feature_specification y ∧
  dget "workspace_members" (ev_payload b) = PList (map PDict (fy_workspace_members y)) ∧
  AgentRunIds.queue_pointer (ev_payload b) = pointer_dump p.

(** Resolving a pointer either gives a domain event that starts provisioning for
    exactly the request, workspace and project of the pointer, with the
    specification of a stored payload that belongs to it, a fresh id, the pointer's
    time when it has one, and, when the pointer names a run, that run as the run the
    handler works on; or it raises what the store or pydantic raised, or a
    [ValueError] for a payload that does not belong to the pointer. *)
Theorem resolve_seed_event_spec `{Env} `{ProvisioningModels} store p x :
  let fetch := fetch_json store (PStr (fp_payload_object_name p)) (ostr (fp_payload_version_id p)) x in
  match resolve_seed_event store p x with
  | (Ok e, x') =>
      ∃ data y x1 b, fetch = (Ok data, x1) ∧ payload_validate data = Ok y ∧ belongs y p ∧
        e = DomainEvent b ∧ seed_event_of y p b ∧ ev_event_id b = uuid4_at (x_uuid x1) ∧
        ev_occurred_at b = match fp_requested_at p with Some t => t | None => clock_at (x_clock x1) end ∧
        (fp_type p = "feature.provisioning.requested" →
           evaluate e = {| td_allowed := true; td_trigger_key := "domain.feature.provisioning.requested";
                           td_reason := "allowed" |}) ∧
        ∀ c r, source_event c = e → fp_agent_run_id p = Some r → str_truthy (strip r) = true →
          resolve_agent_run_id c = strip r
  | (Raise e, x') =>
      fetch = (Raise e, x') ∨
      ∃ data, fetch = (Ok data, x') ∧
        (payload_validate data = Raise e ∨
         ∃ y, payload_validate data = Ok y ∧ ¬ belongs y p ∧ exc_type e = ValueError)
  end.
Proof.
  cbv zeta. unfold resolve_seed_event, mbind, st_bind, lift_res.
  destruct (fetch_json _ _ _ x) as [[data|e] x1] eqn:Ef; [|by left].
  destruct (payload_validate data) as [y|e] eqn:Ev; [|right; exists data; eauto].
  destruct (validate_matches_iff y p) as [Hok Herr]. destruct (validate_matches y p) as [[]|e] eqn:Em.
  2: { right. exists data. split; [done|]. right. exists y. destruct (Herr e eq_refl). done. }
  assert (Hb : belongs y p) by (by apply Hok). clear Hok Herr.
  destruct (seed_payload_get y p) as (G1 & G2 & G3 & G4).
  unfold to_domain_event, mbind, st_bind.
  assert (Hres : ∀ t x2 b, x_uuid x2 = x_uuid x1 → b = {|
    ev_event_id := uuid4_at (x_uuid x1); ev_event_type := fp_type p; ev_workspace_id := fp_workspace_id p;
    ev_project_id := Some (fp_project_id p); ev_payload := seed_payload y p; ev_occurred_at := t;
    ev_correlation_id := Some (fp_request_id p); ev_causality := causality_root;
    ev_idempotency_key := Some (fp_request_id p) |} →
    seed_event_of y p b ∧
    (fp_type p = "feature.provisioning.requested" →
       evaluate (DomainEvent b) = {| td_allowed := true; td_trigger_key := "domain.feature.provisioning.requested";
                                     td_reason := "allowed" |}) ∧
    ∀ c r, source_event c = DomainEvent b → fp_agent_run_id p = Some r → str_truthy (strip r) = true →
      resolve_agent_run_id c = strip r).
  { intros t x2 b _ ->. split_and!; [by split_and!| |].
    - intros Ht. unfold evaluate. cbn [base ev_event_type]. rw Ht. vm_compute. reflexivity.
    - intros c r Hc Hr Hs. unfold resolve_agent_run_id. rw Hc. cbn [base ev_payload AGENT_RUN_ID_KEYS first_string].
      rw G4; [by rw Hr; destruct r|]. rw Hr. cbn [ostr]. by rw Hs. }
  destruct (fp_requested_at p) as [t|]; cbn.
  - destruct (Hres t x1 _ eq_refl eq_refl) as (R1 & R2 & R3). by eexists data, y, x1, _.
  - destruct (Hres (clock_at (x_clock x1)) x1 _ eq_refl eq_refl) as (R1 & R2 & R3). by eexists data, y, x1, _.
Qed.

(** ** The step of the domain handler records no key *)

Section keeps_keys.
Context `{Env} `{AgentFactory} `{ContextHydration} {Q : Type} `{Queue Q} (dh : DomainHandler).
Abbreviation keep := (respects (keeps (Q:=Q) ms_idempotency_keys)).

Lemma on_memory_keeps {A} (m : st (MemoryStateStore * Ext) A) :
  (∀ x, ms_idempotency_keys (m x).2.1 = ms_idempotency_keys x.1) → keep (on_st m).
Proof. intros Hm. apply on_st_keeps. exact Hm. Qed.

#[local] Hint Extern 2 (respects (keeps ms_idempotency_keys) (on_st _)) =>
  apply on_memory_keeps; intros [? ?]; reflexivity : respects.

Lemma claim_keeps w r : keep (on_st (claim_ready_nodes w r)).
Proof.
  apply on_memory_keeps. intros [s x]. cbn. unfold run_store, mem_claim. cbn.
  destruct (ms_task_graphs s !! (w, r)) as [g|]; [|done]. by destruct (claim_ready g).
Qed.

Lemma dh_trace_keeps e n m d p a : keep (dh_trace e n m d p a).
Proof. unfold dh_trace, trace. repeat respects_step; eauto with respects. Qed.

Lemma enqueue_event_keeps e : keep (enqueue_event e).
Proof. unfold enqueue_event. repeat respects_step; eauto with respects. Qed.

#[local] Hint Resolve claim_keeps dh_trace_keeps enqueue_event_keeps : respects.

Lemma unless_terminal_keeps e w r m : keep m → keep (unless_terminal e w r m).
Proof. intros Hm. unfold unless_terminal, trace_terminal_run_skip. repeat respects_step; eauto with respects. Qed.

Lemma plan_root_keeps w s r : keep (plan_root dh w s r).
Proof. unfold plan_root. repeat respects_step; eauto with respects. Qed.

Lemma start_plan_keeps e w s p : keep (start_plan dh e w s p).
Proof. unfold start_plan, no_first_action, enqueue_first_action. repeat respects_step; eauto with respects. Qed.

Lemma create_run_plan_keeps e w s r p b : keep (create_run_plan dh e w s r p b).
Proof.
  unfold create_run_plan. apply respects_bind; [apply _| |intros go].
  - apply unless_terminal_keeps. unfold begin_run. repeat respects_step; eauto with respects.
  - destruct go; [|repeat respects_step]. repeat respects_step; eauto using plan_root_keeps with respects.
Qed.

Lemma handle_single_keeps e w s r : keep (handle_single dh e w s r).
Proof.
  unfold handle_single. apply respects_bind; [apply _|eauto with respects|intros p].
  destruct p as [p|]; [destruct (_ && _)|];
    (repeat respects_step; eauto using create_run_plan_keeps, start_plan_keeps with respects).
Qed.

Lemma handle_orchestrated_keeps e w s r : keep (handle_orchestrated dh e w s r).
Proof.
  unfold handle_orchestrated. apply respects_bind; [apply _|eauto with respects|intros g]. destruct g; [eauto with respects|].
  apply respects_bind; [apply _| |intros go].
  - apply unless_terminal_keeps. eauto with respects.
  - unfold start_orchestration, dispatch_ready. repeat respects_step; eauto with respects.
Qed.

Lemma handle_domain_keeps e : keep (handle_domain dh e).
Proof.
  unfold handle_domain. repeat respects_step; eauto using handle_single_keeps, handle_orchestrated_keeps with respects.
Qed.
End keeps_keys.

(** ** What a store promises the worker

    [usable s w r]: the store can keep and find keys of that run; [knows s w k r]: the
    key was recorded for it.  A recorded key is known, and a known key is found. *)
Class RemembersKeys (S : Type) `{StateStore S} `{WorkspaceKeys S} (usable : S → string → string → Prop)
    (knows : S → string → string → string → Prop) : Prop := {
  remembers_record w k r s x :
    usable s w r → str_truthy k = true → str_truthy r = true →
    ∃ s', record_worker_key w k r (s, x) = (Ok tt, (s', x)) ∧ knows s' w k r;
  remembers_check w k r s x :
    usable s w r → str_truthy k = true → str_truthy r = true → knows s w k r →
    ∃ s', check_worker_key w k r (s, x) = (Ok true, (s', x))
}.

#[export] Instance memory_remembers `{Env} :
  RemembersKeys MemoryStateStore (λ _ _ _, True) (λ s _ k _, k ∈ ms_idempotency_keys s).
Proof.
  constructor.
  - intros w k r s x _ _ _. exists (mem_record_key k s). split; [done|]. cbn. set_solver.
  - intros w k r s x _ _ _ Hk. exists s. unfold check_worker_key. cbn. unfold ask_store. by rw bool_decide_true.
Qed.

#[export] Instance logging_remembers {S : Type} `{StateStore S} `{WorkspaceKeys S} usable knows
    `{!RemembersKeys S usable knows} :
  RemembersKeys (LoggingStateStore S) (λ l, usable (ls_inner l)) (λ l, knows (ls_inner l)).
Proof.
  assert (Hz : ∀ A (m : st (S * Ext) A) l x a s' y, m (ls_inner l, x) = (a, (s', y)) →
    zoom logged_inner m (l, x) = (a, ({| ls_inner := s'; ls_log := ls_log l |}, y))).
  { intros A m l x a s' y E. unfold zoom. cbn. by rw E. }
  constructor; intros w k r l x Hu Hk Hr.
  - destruct (remembers_record w k r (ls_inner l) x Hu Hk Hr) as (s' & E & Hn).
    exists {| ls_inner := s'; ls_log := ls_log l |}. split; [|exact Hn].
    unfold record_worker_key in *. cbn. destruct workspace_keys; by apply Hz.
  - intros Hn. destruct (remembers_check w k r (ls_inner l) x Hu Hk Hr Hn) as (s' & E).
    exists {| ls_inner := s'; ls_log := ls_log l |}.
    unfold check_worker_key in *. cbn. destruct workspace_keys; by apply Hz.
Qed.

Section prism_remembers.
Context `{Env} `{HC : StateCodec} `{!CodecErrors} {T : Type} `{HM : AgentStateMemoryStore T}.
Context (ok : T → Prop) (held : T → string → string → string → option (dict pyval)) (fits : T → string → string → Prop).
Context `{HD : !DurableMemory T ok held fits}.
Abbreviation PS := (PrismApiStateStore MemoryStateStore T).

Definition prism_usable (s : PS) (w r : string) : Prop :=
  ok (ps_memory s) ∧ fits (ps_memory s) w r ∧ no_slash w ∧ no_slash r.

(** The durable memory holds the key's record, whatever the invocation's own store holds. *)
Definition prism_knows (s : PS) (w k r : string) : Prop := held (ps_memory s) w r (key_id k) = Some (key_payload r k).

Lemma check_workspace_known w r k (s : PS) x :
  prism_usable s w r → str_truthy k = true → str_truthy r = true → prism_knows s w k r →
  ∃ s', check_workspace_idempotency_key w k (Some r) (s, x) = (Ok true, (s', x)).
Proof.
  intros (Ho & Hf & Hw & Hr) Hk Ht Hh. destruct (replay_key ok held fits w r k s x Ho Hf Hw Hr Hk Hh) as (d & [s1 x1] & E1 & E2 & Hy).
  pose proof (memories_frame w r d (s, x)) as (_ & _ & Hx). rw E2 in Hx. cbn in Hx. subst x1.
  unfold check_workspace_idempotency_key.
  destruct (bool_decide_reflect (k ∈ ms_idempotency_keys (ps_fallback s))) as [Hin|Hin].
  - exists s. unfold mbind, st_bind, fb, zoom. cbn. rw bool_decide_true; [done|]. by destruct s.
  - exists s1. assert (Ec : fb (T:=T) (check_idempotency_key k) (s, x) = (Ok false, (s, x))).
    { unfold fb, zoom. cbn. rw bool_decide_false; [done|]. by destruct s. }
    rw (bind_step _ _ _ _ _ Ec). unfold candidate_run_id, ostr_truthy. rw Ht.
    assert (Er : restore_run_state (S:=MemoryStateStore) (T:=T) w r (s, x) = (Ok tt, (s1, x))).
    { unfold restore_run_state. by rw (bind_step _ _ _ _ _ E1). }
    rw (bind_step _ _ _ _ _ Er). unfold fb, zoom. cbn. rw bool_decide_true; [exact Hy|]. by destruct s1.
Qed.

Lemma record_workspace_held w r k (s : PS) x :
  ok (ps_memory s) → no_slash w → no_slash r → str_truthy r = true →
  ∃ s', record_workspace_idempotency_key true w k (Some r) (s, x) = (Ok tt, (s', x)) ∧ prism_knows s' w k r.
Proof.
  intros Ho Hw Hr Ht.
  set (s1 := {| ps_fallback := mem_record_key k (ps_fallback s); ps_memory := ps_memory s; ps_locations := ps_locations s |} : PS).
  destruct (persist_held ok held fits w (key_id k) r "agent_decision" "Idempotency key"
    [("kind", PStr "idempotency_key"); ("key", PStr k)] s1 x) as (s' & E & _ & _ & Hh & _); try done;
    try apply state_id_slug; [apply key_record_json|by apply (bool_decide_unpack _)|].
  exists s'. split; [|exact Hh]. rw -E. unfold record_workspace_idempotency_key, candidate_run_id, persist_idempotency_key, key_id.
  generalize (persist_state_memory (S:=MemoryStateStore) (T:=T)). intros psm. unfold mbind, st_bind, fb, zoom. cbn. by rw Ht.
Qed.

Lemma prism_remembers :
  @RemembersKeys PS (prism_api_state_store true) (prism_workspace_keys true) prism_usable prism_knows.
Proof.
  constructor.
  - intros w k r s x (Ho & _ & Hw & Hr) _ Ht. exact (record_workspace_held w r k s x Ho Hw Hr Ht).
  - intros w k r s x Hu Hk Ht Hn. exact (check_workspace_known w r k s x Hu Hk Ht Hn).
Qed.
End prism_remembers.

(** ** The worker *)

Lemma worker_key_truthy p : str_truthy (worker_idempotency_key p) = true.
Proof. done. Qed.

(** Two deliveries of one request. *)
Definition same_request (p q : FeatureProvisioningPointerEvent) : Prop :=
  fp_request_id q = fp_request_id p ∧ fp_workspace_id q = fp_workspace_id p ∧ worker_run_id q = worker_run_id p.

Definition duplicate_result (p : FeatureProvisioningPointerEvent) : FeatureProvisioningResult :=
  {| fr_request_id := fp_request_id p; fr_event_id := None; fr_duplicate := true |}.

Section worker_lemmas.
Context `{Env} `{ProvisioningModels} `{AgentFactory} `{ContextHydration}.
Context {S Q : Type} `{StateStore S} `{WorkspaceKeys S} `{Queue Q}.
Context (store : JsonPayloadStore) (dh : DomainHandler).
Implicit Types v : World S Q.

Lemma on_st_run {A} (m : st (S * Ext) A) v r s x :
  m (w_store v, w_ext v) = (r, (s, x)) →
  on_st m v = (r, {| w_store := s; w_queue := w_queue v; w_ext := x; w_inline := w_inline v;
                     w_seen := w_seen v; w_log := w_log v |}).
Proof. intros E. unfold on_st, zoom. cbn. by rw E. Qed.

(** A pointer whose key is found is answered without touching the queue. *)
Lemma handle_pointer_known content p v s :
  pointer_validate content = Ok p →
  check_worker_key (fp_workspace_id p) (worker_idempotency_key p) (worker_run_id p) (w_store v, w_ext v)
    = (Ok true, (s, w_ext v)) →
  handle_pointer store dh content v =
    (Ok (duplicate_result p), {| w_store := s; w_queue := w_queue v; w_ext := w_ext v; w_inline := w_inline v;
                                 w_seen := w_seen v; w_log := w_log v |}).
Proof.
  intros Hp Hc. unfold handle_pointer. rw Hp. rw (bind_step _ _ v p v eq_refl).
  by rw (bind_step _ _ _ _ _ (on_st_run _ v _ _ _ Hc)).
Qed.

(** A pointer that was dispatched: its last operation recorded the key. *)
Lemma handle_pointer_dispatched content p v res v' :
  pointer_validate content = Ok p → handle_pointer store dh content v = (Ok res, v') → fr_duplicate res = false →
  ∃ v0 e v1,
    on_st (check_worker_key (fp_workspace_id p) (worker_idempotency_key p) (worker_run_id p)) v = (Ok false, v0) ∧
    dispatch_pointer store dh p v0 = (Ok e, v1) ∧
    on_st (record_worker_key (fp_workspace_id p) (worker_idempotency_key p) (worker_run_id p)) v1 = (Ok tt, v') ∧
    res = {| fr_request_id := fp_request_id p; fr_event_id := Some (ev_event_id (base e)); fr_duplicate := false |}.
Proof.
  intros Hp E Hd. unfold handle_pointer in E. rw Hp in E. rw (bind_step _ _ v p v eq_refl) in E.
  apply bind_Ok in E as (found & v0 & Ec & E). destruct found; [by injection E as <- _|].
  apply bind_Ok in E as (e & v1 & Ed & E). apply bind_Ok in E as ([] & v2 & Er & E). injection E as <- <-.
  by exists v0, e, v1.
Qed.
End worker_lemmas.

(** A pointer that was handled is handled once.  On every store that remembers
    keys - in memory, behind the logging proxy, or the Prism API store with a durable
    memory - a dispatched pointer leaves its key known, and any later delivery of the
    same request, also to another invocation that finds the key, is answered as a
    duplicate: no event is made, nothing is queued, nothing but the store is touched. *)
Theorem handle_pointer_once `{Env} `{ProvisioningModels} `{AgentFactory} `{ContextHydration} {S Q : Type}
    `{StateStore S} `{WorkspaceKeys S} `{Queue Q} usable knows `{!RemembersKeys S usable knows}
    store dh content p (v v' : World S Q) res :
  pointer_validate content = Ok p → str_truthy (worker_run_id p) = true →
  handle_pointer store dh content v = (Ok res, v') → fr_duplicate res = false →
  (∀ v0 e v1, on_st (check_worker_key (fp_workspace_id p) (worker_idempotency_key p) (worker_run_id p)) v = (Ok false, v0) →
     dispatch_pointer store dh p v0 = (Ok e, v1) → usable (w_store v1) (fp_workspace_id p) (worker_run_id p)) →
  let known s := knows s (fp_workspace_id p) (worker_idempotency_key p) (worker_run_id p) in
  known (w_store v') ∧
  ∀ content2 q (v2 : World S Q),
    pointer_validate content2 = Ok q → same_request p q →
    usable (w_store v2) (fp_workspace_id p) (worker_run_id p) → known (w_store v2) →
    ∃ v2', handle_pointer store dh content2 v2 = (Ok (duplicate_result p), v2') ∧
      w_queue v2' = w_queue v2 ∧ w_ext v2' = w_ext v2 ∧ same_run v2 v2'.
Proof.
  intros Hp Ht E Hd Hu known. split.
  - destruct (handle_pointer_dispatched store dh content p v res v' Hp E Hd) as (v0 & e & v1 & E0 & E1 & E2 & _).
    destruct (remembers_record (fp_workspace_id p) (worker_idempotency_key p) (worker_run_id p) (w_store v1) (w_ext v1)
      (Hu v0 e v1 E0 E1) (worker_key_truthy p) Ht) as (s' & Er & Hn).
    rw (on_st_run _ v1 _ _ _ Er) in E2. by injection E2 as <-.
  - intros content2 q v2 Hq (Hi & Hw & Hr) Hu2 Hk2.
    destruct (remembers_check (fp_workspace_id p) (worker_idempotency_key p) (worker_run_id p) (w_store v2) (w_ext v2)
      Hu2 (worker_key_truthy p) Ht Hk2) as (s' & Ec).
    replace (duplicate_result p) with (duplicate_result q) by (unfold duplicate_result; by rw Hi).
    pose proof (handle_pointer_known store dh content2 q v2 s' Hq) as E2. unfold worker_idempotency_key in *.
    rw Hw Hr Hi in E2. eexists. split; [exact (E2 Ec)|by split_and!].
Qed.

(** C23: the in-memory run of the worker on every branch.  A known request is answered
    and nothing changes; a new one is dispatched and its key recorded; when resolving
    or handling raises, no key is recorded, so that a redelivery runs again, and an
    exception before the handler is called leaves the queue and the store as they were. *)
Theorem handle_pointer_spec `{Env} `{ProvisioningModels} `{AgentFactory} `{ContextHydration} {Q : Type} `{Queue Q}
    store dh content (v : World MemoryStateStore Q) :
  let '(r, v') := handle_pointer store dh content v in
  match r, pointer_validate content with
  | Ok res, Ok p =>
      fr_request_id res = fp_request_id p ∧
      fr_duplicate res = bool_decide (worker_idempotency_key p ∈ keys v) ∧
      keys v' = {[worker_idempotency_key p]} ∪ keys v ∧
      (worker_idempotency_key p ∈ keys v → v' = v) ∧
      (worker_idempotency_key p ∉ keys v →
         ∃ e v1, dispatch_pointer store dh p v = (Ok e, v1) ∧ fr_event_id res = Some (ev_event_id (base e)))
  | Ok _, Raise _ => False
  | Raise e, Ok p =>
      worker_idempotency_key p ∉ keys v ∧ keys v' = keys v ∧ w_log v' = w_log v ∧
      ((resolve_seed_event store p (w_ext v)).1 = Raise e → w_queue v' = w_queue v ∧ w_store v' = w_store v)
  | Raise e, Raise e' => e = e' ∧ v' = v
  end.
Proof.
  destruct (handle_pointer store dh content v) as [r v'] eqn:E. unfold handle_pointer in E.
  destruct (pointer_validate content) as [p|e0]; [|by injection E as <- <-].
  rw (bind_step _ _ v p v eq_refl) in E.
  assert (Ec : on_st (check_worker_key (fp_workspace_id p) (worker_idempotency_key p) (worker_run_id p)) v
    = (Ok (bool_decide (worker_idempotency_key p ∈ keys v)), v)).
  { unfold on_st, zoom, check_worker_key. cbn. unfold ask_store. cbn. by destruct v. }
  rw (bind_step _ _ _ _ _ Ec) in E. case_bool_decide as Hk.
  { injection E as <- <-. split_and!; try done. set_solver. }
  assert (Hdk : respects (keeps (Q:=Q) ms_idempotency_keys) (dispatch_pointer store dh p)).
  { unfold dispatch_pointer. repeat respects_step; eauto using handle_domain_keeps with respects. }
  specialize (Hdk v). destruct (dispatch_pointer store dh p v) as [[e|e] v1] eqn:Ed.
  - rw (bind_step _ _ _ _ _ Ed) in E. injection E as <- <-. cbn in Hdk. destruct Hdk as [Hkeys Hlog].
    unfold keys in *. split_and!; try done.
    + cbn. by rw Hkeys.
    + intros _. by exists e, v1.
  - rw (bind_raise _ _ _ _ _ Ed) in E. injection E as <- <-. destruct Hdk as [Hkeys Hlog]. split_and!; try done.
    intros Hr. unfold dispatch_pointer, mbind, st_bind, ext, zoom in Ed. cbn in Ed.
    destruct (resolve_seed_event store p (w_ext v)) as [[b|b] x1]; [done|]. injection Ed as <- <-. done.
Qed.

(** ** A concrete run *)

Definition text_of (k : string) (d : dict pyval) : res string :=
  match dget k d with PStr s => Ok s | _ => err ValueError ("field required: " +:+ k) end.
Definition opt_text_of (k : string) (d : dict pyval) : res (option string) :=
  match dget k d with
  | PStr s => Ok (Some s) | PNone => Ok None | _ => err ValueError ("not a string: " +:+ k)
  end.
Definition present (l : list (string * pyval)) : dict pyval := List.filter (λ kv, negb (is_none kv.2)) l.
Definition alias_names : list string :=
  ["requestId"; "workspaceId"; "projectId"; "featureSpecification"; "workspace"; "project"; "workspaceMembers"].

(** Validation and dumps for data under its aliases. *)
#[local] Instance models_ex : ProvisioningModels := {|
  pointer_validate d :=
    request_id ← text_of "requestId" d;
    agent_run_id ← opt_text_of "agentRunId" d;
    object_name ← text_of "payloadObjectName" d;
    workspace_id ← text_of "workspaceId" d;
    project_id ← text_of "projectId" d;
    mret {| fp_type := "feature.provisioning.requested"; fp_version := "1.0"; fp_request_id := request_id;
            fp_agent_run_id := agent_run_id; fp_payload_id := None; fp_payload_object_name := object_name;
            fp_payload_version_id := None; fp_workspace_id := workspace_id; fp_project_id := project_id;
            fp_requested_by_user_id := None; fp_requested_at := None |};
  pointer_dump p := present
    [("type", PStr (fp_type p)); ("version", PStr (fp_version p)); ("requestId", PStr (fp_request_id p));
     ("agentRunId", ostr (fp_agent_run_id p)); ("payloadObjectName", PStr (fp_payload_object_name p));
     ("workspaceId", PStr (fp_workspace_id p)); ("projectId", PStr (fp_project_id p))];
  payload_validate d :=
    request_id ← opt_text_of "requestId" d;
    workspace_id ← opt_text_of "workspaceId" d;
    project_id ← opt_text_of "projectId" d;
    mret {| fy_request_id := request_id; fy_workspace_id := workspace_id; fy_project_id := project_id;
            fy_feature_specification := dget "featureSpecification" d; fy_workspace := as_dict (dget "workspace" d);
            fy_project := as_dict (dget "project" d); fy_workspace_members := [];
            fy_extra := List.filter (λ kv, negb (bool_decide (kv.1 ∈ alias_names))) d |};
  payload_dump y := present
    ([("requestId", ostr (fy_request_id y)); ("workspaceId", ostr (fy_workspace_id y));
      ("projectId", ostr (fy_project_id y)); ("featureSpecification", fy_feature_specification y);
      ("workspace", match fy_workspace y with Some d => PDict d | None => PNone end);
      ("project", match fy_project y with Some d => PDict d | None => PNone end);
      ("workspaceMembers", PList (map PDict (fy_workspace_members y)))] ++ fy_extra y) |}.

Definition pointer_content : dict pyval :=
  [("type", PStr "feature.provisioning.requested"); ("version", PStr "1.0"); ("requestId", PStr "r1");
   ("agentRunId", PStr "run-1"); ("payloadObjectName", PStr "payloads/r1.json"); ("workspaceId", PStr "ws");
   ("projectId", PStr "p1")].

Definition payload_store_ex : JsonPayloadStore := memory_payload_store
  [("payloads/r1.json", [("requestId", PStr "r1"); ("workspace", PDict [("id", PStr "ws")]); ("project_id", PStr "p1");
                         ("featureSpecification", PStr "A login page")])].

Definition pointer_ex : FeatureProvisioningPointerEvent := Eval vm_compute in
  match pointer_validate pointer_content with
  | Ok p => p
  | Raise _ => {| fp_type := ""; fp_version := ""; fp_request_id := ""; fp_agent_run_id := None; fp_payload_id := None;
      fp_payload_object_name := ""; fp_payload_version_id := None; fp_workspace_id := ""; fp_project_id := "";
      fp_requested_by_user_id := None; fp_requested_at := None |}
  end.

#[local] Existing Instance env_ok.
#[local] Existing Instance sample_factory.
#[local] Existing Instance sample_hydration.
#[local] Existing Instance sample_codec.
#[local] Existing Instance sample_codec_errors.
#[local] Existing Instance sample_transport.
#[local] Instance prism_ex : StateStore sample_store := prism_api_state_store true.
#[local] Instance prism_keys_ex : WorkspaceKeys sample_store := prism_workspace_keys true.

(** An invocation that starts with a bucket and an empty queue. *)
Definition invocation_ex (t : sample_bucket) : World sample_store MemoryQueue := {|
  w_store := fresh_store t []; w_queue := memory_queue_empty; w_ext := ext0; w_inline := 0; w_seen := ∅; w_log := [] |}.

Definition dispatched_ex : World sample_store MemoryQueue := Eval vm_compute in
  (handle_pointer payload_store_ex sample_domain_handler pointer_content (invocation_ex ∅)).2.

Definition result_ex : FeatureProvisioningResult :=
  {| fr_request_id := "r1"; fr_event_id := Some "u0"; fr_duplicate := false |}.

Lemma dispatched_run :
  handle_pointer payload_store_ex sample_domain_handler pointer_content (invocation_ex ∅) = (Ok result_ex, dispatched_ex).
Proof. vm_compute. reflexivity. Qed.

Lemma dispatched_bucket :
  ps_memory (w_store dispatched_ex) = one_record "ws" "run-1" (key_id "feature_provisioning:r1")
    (key_payload "run-1" "feature_provisioning:r1").
Proof. vm_compute. reflexivity. Qed.

Lemma empty_usable : prism_usable sample_ok sample_fits (fresh_store ∅ []) "ws" "run-1".
Proof.
  split; [exact empty_bucket_ok|]. split; [apply Nat.leb_le; vm_compute; reflexivity|].
  split; apply (bool_decide_unpack _); vm_compute; exact I.
Qed.

Lemma usable_memory (s s' : sample_store) w r :
  ps_memory s' = ps_memory s → prism_usable sample_ok sample_fits s w r → prism_usable sample_ok sample_fits s' w r.
Proof. destruct s as [? t ?], s' as [? t' ?]. cbn [ps_memory]. by intros ->. Qed.

(** The second invocation starts on the bucket of the first with an empty store of its own. *)
Lemma handle_pointer_once_witness :
  handle_pointer payload_store_ex sample_domain_handler pointer_content (invocation_ex ∅) = (Ok result_ex, dispatched_ex) ∧
  ∃ v2', handle_pointer payload_store_ex sample_domain_handler pointer_content (invocation_ex (ps_memory (w_store dispatched_ex)))
           = (Ok (duplicate_result pointer_ex), v2') ∧ w_queue v2' = memory_queue_empty.
Proof.
  split; [exact dispatched_run|].
  destruct (handle_pointer_once (prism_usable sample_ok sample_fits) (prism_knows sample_held)
    (RemembersKeys0 := prism_remembers sample_ok sample_held sample_fits)
    payload_store_ex sample_domain_handler pointer_content pointer_ex (invocation_ex ∅) dispatched_ex result_ex)
    as [Hk Hlater]; [vm_compute; reflexivity|reflexivity|exact dispatched_run|reflexivity| |].
  { intros v0 e v1 E0 E1. apply (usable_memory (fresh_store ∅ [])); [|exact empty_usable].
    apply (f_equal snd) in E0. apply (f_equal snd) in E1. cbn [snd] in E0, E1. rw -E1 -E0. vm_compute. reflexivity. }
  destruct (Hlater pointer_content pointer_ex (invocation_ex (ps_memory (w_store dispatched_ex)))) as (v2' & E & Hq & _).
  - vm_compute. reflexivity.
  - split; [reflexivity|]. split; reflexivity.
  - rw dispatched_bucket.
    destruct (one_record_bucket "ws" "run-1" (key_id "feature_provisioning:r1") (key_payload "run-1" "feature_provisioning:r1") "")
      as (Ho & Hf & _ & _); [apply empty_usable|apply empty_usable|apply key_payload_ok|].
    split; [exact Ho|]. split; [exact Hf|]. apply empty_usable.
  - exact Hk.
  - exists v2'. split; [exact E|exact Hq].
Defined.
