(* ===== verification/RecursionRunner.v ===== *)
(** * The recursion runner ([src/application/recursion_runner.py])

    The loop of the runtime: it takes one message after the other from the queue,
    hands its event to the handler of its kind, and acknowledges or fails it,
    within a bound on the number of handled events and on the depth of the causal
    chain, and at most once per event id. *)

From S2P Require Import Prelude PyStr PyVal Events Plans SubTasks Policies Env Client Definitions Records.
From S2P Require Import AgentRunIds AgentRunSync Validation Planning Stores World ActionHandler ActionProofs.
From S2P Require Import Coordinator DomainHandler.

Record RecursionRunner := {
  ru_domain : DomainHandler;
  ru_action : Runtime;
  ru_max_recursion_depth : Z;
  ru_sync : option AgentRunSync;
  ru_coordinator : option Coordinator
}.

Definition EVENT_RUN_ID_KEYS : list string := ["agentRunId"; "runId"; "agent_run_id"].

(** [_event_run_id] *)
Definition event_run_id (e : RuntimeEvent) : option string :=
  match e with
  | AgentActionEvent _ plan_id _ => Some plan_id
  | _ =>
      let payload := ev_payload (base e) in
      match first_string payload EVENT_RUN_ID_KEYS with
      | Some s => Some s
      | None =>
          match first_string (queue_pointer payload) EVENT_RUN_ID_KEYS with
          | Some s => Some s
          | None => if ostr_truthy (ev_correlation_id (base e)) then ev_correlation_id (base e)
                    else ev_idempotency_key (base e)
          end
      end
  end.

(** [exceeds_max_depth], which [run] writes out *)
Definition exceeds_max_depth (max_depth processed : Z) (e : RuntimeEvent) : bool :=
  (max_depth <=? processed) || (max_depth <? cs_depth (ev_causality (base e))).

Section runner.
Context `{Env} `{AgentFactory} `{ContextHydration} {S Q : Type} `{StateStore S} `{Queue Q} (ru : RecursionRunner).
Abbreviation M := (st (World S Q)).

(** The traces the runner leaves. *)
Definition ru_trace (event : RuntimeEvent) (event_name message : string) (data : dict pyval) : M unit :=
  trace event event_name message None None data.

Definition record_max_depth_failure (event : RuntimeEvent) : M unit :=
  let b := base event in
  let message := "Stopped recursive processing at max depth." in
  ru_trace event "recursion.max_depth" message
    [("event_id", PStr (ev_event_id b)); ("event_type", PStr (ev_event_type b));
     ("depth", PInt (cs_depth (ev_causality b)))] ;;
  match ru_sync ru, event_run_id event with
  | Some y, Some run_id => ext (record_run_failed y (ev_workspace_id b) run_id message)
  | _, _ => mret tt
  end.

(** The handler of an event's kind. *)
Definition handle_event (envelope : EventEnvelope) : M unit :=
  match env_event envelope with
  | AgentActionEvent _ _ _ => handle_action (ru_action ru) envelope
  | SubAgentTaskEvent _ _ _ | SubAgentCompletedEvent _ _ _ _ =>
      match ru_coordinator ru with
      | None => raise (Exn RuntimeError "SubAgentCoordinator is not configured.")
      | Some co => handle_subagent co envelope
      end
  | _ => handle_domain (ru_domain ru) envelope
  end.

Definition ack_message (m : QueueMessage) : M unit :=
  on_queue (ack m) ;; log (LAck (envelope_event_id (qm_envelope m))).
Definition fail_with (m : QueueMessage) (reason : string) : M unit :=
  on_queue (fail_message m reason) ;; log (LFail (envelope_event_id (qm_envelope m))).

(** The [try] statement of [run]. *)
Definition handle_message (m : QueueMessage) : M unit :=
  let event := env_event (qm_envelope m) in
  let b := base event in
  try_catch
    (add_seen (ev_event_id b) ;; log (LHandle (ev_event_id b)) ;; handle_event (qm_envelope m) ;; ack_message m)
    (λ e, fail_with m (exn_str e) ;;
          ru_trace event "event.failed" (exn_str e)
            [("event_id", PStr (ev_event_id b)); ("event_type", PStr (ev_event_type b))]).

(** One iteration of the loop, for the message it took; it returns [processed]. *)
Definition process_message (processed : Z) (m : QueueMessage) : M Z :=
  let event := env_event (qm_envelope m) in
  let event_id := ev_event_id (base event) in
  if exceeds_max_depth (ru_max_recursion_depth ru) processed event then
    fail_with m "max_recursion_depth_exceeded" ;;
    record_max_depth_failure event ;;
    mret processed
  else
    seen ← gets w_seen;
    if bool_decide (event_id ∈ seen) then
      ack_message m ;;
      ru_trace event "event.duplicate" "Skipped duplicate event." [("event_id", PStr event_id)] ;;
      mret processed
    else
      handle_message m ;;
      mret (processed + 1).

(** The loop, for at most [fuel] iterations; true when it ended by itself. *)
Fixpoint run_loop (fuel : nat) (processed : Z) : M bool :=
  match fuel with
  | O => mret false
  | Datatypes.S fuel' =>
      empty ← on_queue is_empty;
      if (empty : bool) then mret true
      else
        message ← on_queue dequeue;
        match message with
        | None => mret true
        | Some m => processed' ← process_message processed m; run_loop fuel' processed'
        end
  end.

(** [run], for an envelope and for an event; the traces of the store are returned. *)
Definition run_envelope (fuel : nat) (envelope : EventEnvelope) : M (list TraceEvent) :=
  on_queue (enqueue envelope) ;;
  _ ← run_loop fuel 0;
  on_st store_traces.

Definition run_event (fuel : nat) (event : RuntimeEvent) : M (list TraceEvent) :=
  envelope ← ext (wrap event);
  run_envelope fuel envelope.
End runner.

(** ** Lemmas *)

(** What every handler respects because the operations it is made of do. *)
Section handlers.
Context `{Env} `{AgentFactory} `{ContextHydration} {S Q : Type} `{StateStore S} `{Queue Q}.
Abbreviation M := (st (World S Q)).
Context (R : relation (World S Q)) `{!PreOrder R}.
Context (Hst : ∀ A (m : st (S * Ext) A), respects R (on_st m)).
Context (Hext : ∀ A (m : st Ext A), respects R (ext m)).
Context (Hq : ∀ e, respects R (on_queue (enqueue e))).
Context (Hin : ∀ n, respects R (set_inline n)).
Context (Hlog : ∀ k, respects R (log (LExecute k))).
#[local] Hint Resolve Hst Hext Hq Hin Hlog : respects.

Lemma handle_action_respects rt e : respects R (handle_action rt e).
Proof.
  unfold handle_action. generalize (Datatypes.S (Z.to_nat INLINE_ACTION_CHAIN_BUDGET)). intros n. revert e.
  induction n as [|n IH]; intros e; cbn [handle_action_n]; [apply respects_raise; apply _|].
  assert (Hn : ∀ e p, respects R (enqueue_next_action rt (handle_action_n rt (λ _, raise out_of_fuel) n) e p)).
  { intros e' p. unfold enqueue_next_action, continue_with, chain_action, queue_action. unfold_handlers. solve_respects. }
  unfold handle_action_step. unfold_handlers. solve_respects.
Qed.

Lemma handle_subagent_respects co e : respects R (handle_subagent co e).
Proof.
  assert (Ho : ∀ i l o, respects R (collect_outputs (S:=S) (Q:=Q) i l o)).
  { intros i l. induction l as [|a l IH]; intros o; cbn [collect_outputs]; solve_respects. }
  unfold handle_subagent, handle_task, handle_completed, apply_advance, store_result, build_result, plan_node,
    inject_results, resume_existing_subplan, dispatch_node, enqueue_completed, co_enqueue_action, co_trace,
    enqueue_event, trace. solve_respects.
Qed.

Lemma handle_domain_respects dh e : respects R (handle_domain dh e).
Proof.
  unfold handle_domain, handle_single, handle_orchestrated, start_orchestration, dispatch_ready, create_run_plan,
    plan_root, begin_run, start_plan, no_first_action, enqueue_first_action, unless_terminal,
    trace_terminal_run_skip, dh_trace, enqueue_event, trace. solve_respects.
Qed.
End handlers.

(** *** Handled events *)

Definition handled (l : list log_entry) : list string := omap (λ e, match e with LHandle i => Some i | _ => None end) l.

Lemma handled_app l k : handled (l ++ k) = handled l ++ handled k.
Proof. apply omap_app. Qed.

(** The log is extended by the handling of these events, none of them seen before. *)
Definition handles {S Q} (ids : list string) (w w' : World S Q) : Prop :=
  ∃ l, w_log w' = w_log w ++ l ∧ handled l = ids ∧ w_seen w' = w_seen w ∪ list_to_set ids ∧
    NoDup ids ∧ ∀ i, i ∈ ids → i ∉ w_seen w.

Lemma handles_trans {S Q} ids1 ids2 (x y z : World S Q) : handles ids1 x y → handles ids2 y z → handles (ids1 ++ ids2) x z.
Proof.
  intros (l1 & L1 & I1 & S1 & N1 & F1) (l2 & L2 & I2 & S2 & N2 & F2). exists (l1 ++ l2). split_and!.
  - by rw L2 L1 app_assoc.
  - by rw handled_app I1 I2.
  - rw S2 S1 list_to_set_app_L. by rw assoc_L.
  - apply NoDup_app. split_and!; [done| |done]. intros i H1 H2. apply (F2 i H2). rw S1. apply elem_of_union_r.
    by apply elem_of_list_to_set.
  - intros i [Hi|Hi]%elem_of_app; [by apply F1|]. intros Hs. apply (F2 i Hi). rw S1. by apply elem_of_union_l.
Qed.

#[export] Instance handles_nil_preorder {S Q} : PreOrder (handles (S:=S) (Q:=Q) []).
Proof.
  split.
  - intros w. exists []. rw app_nil_r. split_and!; [done|done| |constructor|by intros i ?%not_elem_of_nil].
    by rw /= union_empty_r_L.
  - intros x y z. apply (handles_trans [] []).
Qed.

Lemma same_run_handles {S Q} (w w' : World S Q) : same_run w w' → handles [] w w'.
Proof.
  intros (_ & Hs & Hl). exists []. rw app_nil_r. split_and!; [done|done| |constructor|by intros i ?%not_elem_of_nil].
  by rw Hs /= union_empty_r_L.
Qed.

Section handled.
Context `{Env} `{AgentFactory} `{ContextHydration} {S Q : Type} `{StateStore S} `{Queue Q} (ru : RecursionRunner).
Abbreviation M := (st (World S Q)).

Lemma respects_same_handles {A} (m : M A) : respects same_run m → respects (handles []) m.
Proof. intros Hm w. apply same_run_handles, Hm. Qed.

Lemma log_handles e : handled [e] = [] → respects (handles (S:=S) (Q:=Q) []) (log e).
Proof.
  intros He w. exists [e]. split_and!; [done|done| |constructor|by intros i ?%not_elem_of_nil].
  by rw /= union_empty_r_L.
Qed.

Lemma handle_event_handles e : respects (handles (S:=S) (Q:=Q) []) (handle_event ru e).
Proof.
  assert (Hst : ∀ A (m : st (S * Ext) A), respects (handles (Q:=Q) []) (on_st m)) by
    (intros; apply respects_same_handles, on_st_same).
  assert (Hext : ∀ A (m : st Ext A), respects (handles (S:=S) (Q:=Q) []) (ext m)) by
    (intros; apply respects_same_handles, ext_same).
  assert (Hq : ∀ e, respects (handles (S:=S) (Q:=Q) []) (on_queue (enqueue e))) by
    (intros; apply respects_same_handles, on_queue_same).
  assert (Hin : ∀ n, respects (handles (S:=S) (Q:=Q) []) (set_inline n)).
  { intros n w. exists []. rw app_nil_r /= union_empty_r_L. split_and!; try done; [constructor|by intros i ?%not_elem_of_nil]. }
  unfold handle_event. destruct (env_event e);
    try (apply handle_domain_respects; try done; try apply _).
  - apply handle_action_respects; try done; try apply _. intros k. by apply log_handles.
  - destruct (ru_coordinator ru); [|apply respects_raise; apply _].
    apply handle_subagent_respects; try done; apply _.
  - destruct (ru_coordinator ru); [|apply respects_raise; apply _].
    apply handle_subagent_respects; try done; apply _.
Qed.

Lemma on_queue_handles {A} (m : st (Q * Ext) A) : respects (handles (S:=S) []) (on_queue m).
Proof. apply respects_same_handles, on_queue_same. Qed.
Lemma ru_trace_handles ev n m d : respects (handles (S:=S) (Q:=Q) []) (ru_trace ev n m d).
Proof. apply respects_same_handles. unfold ru_trace, trace. solve_respects. Qed.
Lemma max_depth_handles ev : respects (handles (S:=S) (Q:=Q) []) (record_max_depth_failure ru ev).
Proof. apply respects_same_handles. unfold record_max_depth_failure, ru_trace, trace. solve_respects. Qed.
Lemma ack_handles m : respects (handles (S:=S) (Q:=Q) []) (ack_message m).
Proof. unfold ack_message. apply respects_bind; [apply _|apply on_queue_handles|intros _; by apply log_handles]. Qed.
Lemma fail_handles m r : respects (handles (S:=S) (Q:=Q) []) (fail_with m r).
Proof. unfold fail_with. apply respects_bind; [apply _|apply on_queue_handles|intros _; by apply log_handles]. Qed.

(** An event that was not seen is handled once. *)
Lemma handle_message_handles m (w : World S Q) :
  let i := envelope_event_id (qm_envelope m) in
  i ∉ w_seen w → handles [i] w (handle_message ru m w).2.
Proof.
  intros i Hi. unfold handle_message. cbn zeta. change (ev_event_id (base (env_event (qm_envelope m)))) with i.
  set (w1 := (log (LHandle i) (add_seen i w).2).2).
  assert (Hw1 : handles [i] w w1).
  { exists [LHandle i]. split_and!; [done|done| |apply NoDup_singleton|by intros j ->%list_elem_of_singleton].
    simpl. rw union_empty_r_L. apply union_comm_L. }
  rw -(app_nil_r [i]). eapply handles_trans; [exact Hw1|].
  assert (Hm : respects (handles []) (handle_event ru (qm_envelope m) ;; ack_message m)).
  { apply respects_bind; [apply _|apply handle_event_handles|intros _; apply ack_handles]. }
  specialize (Hm w1). unfold try_catch.
  change ((add_seen i ;; log (LHandle i) ;; handle_event ru (qm_envelope m) ;; ack_message m) w)
    with ((handle_event ru (qm_envelope m) ;; ack_message m) w1).
  destruct ((handle_event ru (qm_envelope m) ;; ack_message m) w1) as [[[]|e] w2]; [exact Hm|].
  etrans; [exact Hm|]. apply respects_bind; [apply _|apply fail_handles|intros _; apply ru_trace_handles].
Qed.

(** One iteration handles at most one event, none once the bound is reached. *)
Lemma process_handles p m (w : World S Q) :
  ∃ ids, handles ids w (process_message ru p m w).2 ∧
    (length ids ≤ 1)%nat ∧ (ru_max_recursion_depth ru ≤ p → ids = []) ∧
    ∀ p', (process_message ru p m w).1 = Ok p' → p' = p + Z.of_nat (length ids).
Proof.
  unfold process_message. destruct (exceeds_max_depth _ _ _) eqn:Ex.
  - match goal with |- context [?k w] => assert (Hm : respects (handles []) (k : M Z)) end.
    { apply respects_bind; [apply _|apply fail_handles|intros _].
      apply respects_bind; [apply _|apply max_depth_handles|intros _; apply respects_ret; apply _]. }
    exists []. split; [apply Hm|]. split; [simpl; lia|]. split; [done|]. cbn [length]. intros p' E.
    match type of E with (?k w).1 = _ => destruct (k w) as [r w'] eqn:E1 end. cbn in E. subst r.
    apply bind_Ok in E1 as (? & w1 & _ & E1). apply bind_Ok in E1 as (? & w2 & _ & E1). injection E1 as <- _. lia.
  - assert (Hp : ¬ ru_max_recursion_depth ru ≤ p).
    { unfold exceeds_max_depth in Ex. apply orb_false_iff in Ex as [Ex _]. apply Z.leb_gt in Ex. lia. }
    assert (Eg : gets w_seen w = (Ok (w_seen w), w)) by done. rw (bind_step _ _ _ _ _ Eg). case_bool_decide as Hi.
    + match goal with |- context [?k w] => assert (Hm : respects (handles []) (k : M Z)) end.
      { apply respects_bind; [apply _|apply ack_handles|intros _].
        apply respects_bind; [apply _|apply ru_trace_handles|intros _; apply respects_ret; apply _]. }
      exists []. split; [apply Hm|]. split; [simpl; lia|]. split; [done|]. cbn [length]. intros p' E.
      match type of E with (?k w).1 = _ => destruct (k w) as [r w'] eqn:E1 end. cbn in E. subst r.
      apply bind_Ok in E1 as (? & w1 & _ & E1). apply bind_Ok in E1 as (? & w2 & _ & E1). injection E1 as <- _. lia.
    + exists [envelope_event_id (qm_envelope m)]. pose proof (handle_message_handles m w Hi) as Hm.
      destruct (handle_message ru m w) as [[[]|e] w1] eqn:E1.
      * rw (bind_step _ _ _ _ _ E1). split; [exact Hm|]. split; [simpl; lia|]. split; [done|].
        intros p' [= <-]. done.
      * rw (bind_raise _ _ _ _ _ E1). split; [exact Hm|]. split; [simpl; lia|]. split; [done|]. done.
Qed.

Lemma run_loop_handles fuel p (w : World S Q) :
  ∃ ids, handles ids w (run_loop ru fuel p w).2 ∧
    Z.of_nat (length ids) ≤ Z.max 0 (ru_max_recursion_depth ru - p).
Proof.
  revert p w. induction fuel as [|fuel IH]; intros p w.
  { exists []. split; [simpl; reflexivity|simpl; lia]. }
  cbn [run_loop].
  pose proof (on_queue_handles (is_empty (Q:=Q)) w) as He0. destruct (on_queue is_empty w) as [[b|e] w1] eqn:E1; cbn [snd] in He0.
  2:{ rw (bind_raise _ _ _ _ _ E1). exists []. split; [exact He0|simpl; lia]. }
  rw (bind_step _ _ _ _ _ E1). destruct b; [exists []; split; [exact He0|simpl; lia]|].
  pose proof (on_queue_handles (dequeue (Q:=Q)) w1) as He1. destruct (on_queue dequeue w1) as [[o|e] w2] eqn:E2; cbn [snd] in He1.
  2:{ rw (bind_raise _ _ _ _ _ E2). exists []. split; [by etrans|simpl; lia]. }
  rw (bind_step _ _ _ _ _ E2). destruct o as [m|]; [|exists []; split; [by etrans|simpl; lia]].
  destruct (process_handles p m w2) as (ids1 & P1 & P2 & P3 & P4).
  destruct (process_message ru p m w2) as [[p'|e] w3] eqn:E3; cbn [fst snd] in *.
  - rw (bind_step _ _ _ _ _ E3). destruct (IH p' w3) as (ids2 & Q1 & Q2). exists (ids1 ++ ids2). split.
    + apply (handles_trans [] (ids1 ++ ids2) w w2); [by etrans|]. by eapply handles_trans.
    + specialize (P4 p' eq_refl). rw length_app. destruct (decide (ru_max_recursion_depth ru ≤ p)) as [Hp|Hp].
      * rw P3 // in P4. rw P3 //. simpl in *. lia.
      * lia.
  - rw (bind_raise _ _ _ _ _ E3). exists ids1. split; [apply (handles_trans [] ids1 w w2); [by etrans|done]|].
    destruct (decide (ru_max_recursion_depth ru ≤ p)) as [Hp|Hp]; [rw P3 //; simpl; lia|lia].
Qed.
End handled.

(** *** The in-memory queue *)

(** Messages are appended, none is taken, acknowledged or failed. *)
Definition grows {S} (w w' : World S MemoryQueue) : Prop :=
  mq_acked (w_queue w') = mq_acked (w_queue w) ∧ mq_failed (w_queue w') = mq_failed (w_queue w) ∧
  ∃ ms, mq_messages (w_queue w') = mq_messages (w_queue w) ++ ms.

#[export] Instance grows_preorder {S} : PreOrder (grows (S:=S)).
Proof.
  split; [intros w; split_and!; [done..|exists []; by rw app_nil_r]|].
  intros x y z (A1 & F1 & m1 & M1) (A2 & F2 & m2 & M2). split_and!; [congruence..|].
  exists (m1 ++ m2). by rw M2 M1 app_assoc.
Qed.

(** The queue is not touched. *)
Definition same_queue {S} (w w' : World S MemoryQueue) : Prop := w_queue w' = w_queue w.

#[export] Instance same_queue_preorder {S} : PreOrder (same_queue (S:=S)).
Proof. split; [by intros w|]. intros x y z ??. unfold same_queue in *. congruence. Qed.

Lemma same_queue_grows {S} (w w' : World S MemoryQueue) : same_queue w w' → grows w w'.
Proof. intros E. unfold same_queue in E. rw /grows E. split_and!; [done..|exists []; by rw app_nil_r]. Qed.

Section memory_queue.
Context `{Env} `{AgentFactory} `{ContextHydration} {S : Type} `{StateStore S} (ru : RecursionRunner).
Abbreviation W := (World S MemoryQueue).

Lemma on_st_queue {A} (m : st (S * Ext) A) : respects same_queue (on_st (Q:=MemoryQueue) m).
Proof. intros w. unfold on_st, zoom. simpl. by destruct (m _). Qed.
Lemma ext_queue {A} (m : st Ext A) : respects same_queue (ext (S:=S) (Q:=MemoryQueue) m).
Proof. intros w. unfold ext, zoom. simpl. by destruct (m _). Qed.

Lemma handle_event_grows e : respects (grows (S:=S)) (handle_event ru e).
Proof.
  assert (Hst : ∀ A (m : st (S * Ext) A), respects grows (on_st (Q:=MemoryQueue) m))
    by (intros A m w; apply same_queue_grows, on_st_queue).
  assert (Hext : ∀ A (m : st Ext A), respects grows (ext (S:=S) (Q:=MemoryQueue) m))
    by (intros A m w; apply same_queue_grows, ext_queue).
  assert (Hq : ∀ e, respects grows (on_queue (S:=S) (enqueue (Q:=MemoryQueue) e))).
  { intros e' w. destruct (enqueue_push e' (w_queue w) (w_ext w)) as (m & x' & He & _).
    unfold on_queue, zoom. cbn [lget queue_lens]. rw He. split_and!; [done..|by exists [m]]. }
  assert (Hin : ∀ n, respects (grows (S:=S)) (set_inline n)) by (intros n w; by apply same_queue_grows).
  assert (Hlog : ∀ k, respects (grows (S:=S)) (log (LExecute k))) by (intros n w; by apply same_queue_grows).
  unfold handle_event. destruct (env_event e);
    try (apply handle_domain_respects; try done; try apply _).
  - apply handle_action_respects; try done; apply _.
  - destruct (ru_coordinator ru); [|apply respects_raise; apply _].
    apply handle_subagent_respects; try done; apply _.
  - destruct (ru_coordinator ru); [|apply respects_raise; apply _].
    apply handle_subagent_respects; try done; apply _.
Qed.

Lemma ru_trace_queue ev n m d : respects (same_queue (S:=S)) (ru_trace ev n m d).
Proof.
  unfold ru_trace, trace. apply respects_bind; [apply _|apply ext_queue|intros t; apply on_st_queue].
Qed.
Lemma max_depth_queue ev : respects (same_queue (S:=S)) (record_max_depth_failure ru ev).
Proof.
  unfold record_max_depth_failure. apply respects_bind; [apply _|apply ru_trace_queue|intros _].
  destruct (ru_sync ru), (event_run_id ev); try apply ext_queue; apply respects_ret; apply _.
Qed.

Lemma ack_run m (w : W) : ∃ w', ack_message m w = (Ok tt, w') ∧ w_queue w' = mq_ack m (w_queue w) ∧ w_store w' = w_store w.
Proof. by eexists. Qed.
Lemma fail_run m r (w : W) : ∃ w', fail_with m r w = (Ok tt, w') ∧ w_queue w' = mq_fail m r (w_queue w) ∧ w_store w' = w_store w.
Proof. by eexists. Qed.

(** The verdict on a message: acknowledged or failed, once. *)
Definition verdict (m : QueueMessage) (q q' : MemoryQueue) : Prop :=
  (mq_acked q' = mq_acked q ++ [qm_message_id m] ∧ mq_failed q' = mq_failed q) ∨
  (mq_acked q' = mq_acked q ∧ ∃ reason, mq_failed q' = mq_failed q ++ [(m, reason)]).

Lemma handle_message_verdict m (w : W) :
  let w' := (handle_message ru m w).2 in
  verdict m (w_queue w) (w_queue w') ∧ ∃ ms, mq_messages (w_queue w') = mq_messages (w_queue w) ++ ms.
Proof.
  unfold handle_message. cbn zeta. set (i := ev_event_id (base (env_event (qm_envelope m)))).
  set (w1 := (log (LHandle i) (add_seen i w).2).2). unfold try_catch.
  change ((add_seen i ;; log (LHandle i) ;; handle_event ru (qm_envelope m) ;; ack_message m) w)
    with ((handle_event ru (qm_envelope m) ;; ack_message m) w1).
  destruct (handle_event_grows (qm_envelope m) w1) as (A & F & ms & M).
  destruct (handle_event ru (qm_envelope m) w1) as [[[]|e] w2] eqn:E2; cbn [snd] in *.
  - rw (bind_step _ _ _ _ _ E2). destruct (ack_run m w2) as (w3 & E3 & Q3 & _). rw E3. cbn [snd]. rw Q3.
    split; [left; simpl; by rw A F|by exists ms].
  - rw (bind_raise _ _ _ _ _ E2). destruct (fail_run m (exn_str e) w2) as (w3 & E3 & Q3 & _).
    rw (bind_step _ _ _ _ _ E3).
    match goal with |- context [ru_trace ?a ?b ?c ?d w3] => pose proof (ru_trace_queue a b c d w3) as Ht end.
    unfold same_queue in Ht. rw Ht Q3. split; [right; simpl; rw A F; split; [done|by exists (exn_str e)]|by exists ms].
Qed.

(** An iteration that goes on either handled an event or added nothing to the queue. *)
Lemma process_progress p m (w : W) p' w' :
  process_message ru p m w = (Ok p', w') →
  (p' = p ∧ mq_messages (w_queue w') = mq_messages (w_queue w)) ∨ (p < ru_max_recursion_depth ru ∧ p' = p + 1).
Proof.
  unfold process_message. destruct (exceeds_max_depth _ _ _) eqn:Ex.
  - destruct (fail_run m "max_recursion_depth_exceeded" w) as (w1 & E1 & Q1 & _). rw (bind_step _ _ _ _ _ E1).
    intros ([] & w2 & E2 & E)%bind_Ok. injection E as <- <-. left. split; [done|].
    pose proof (max_depth_queue (env_event (qm_envelope m)) w1) as Hq. rw E2 in Hq. unfold same_queue in Hq.
    cbn [snd] in Hq. by rw Hq Q1.
  - unfold exceeds_max_depth in Ex. apply orb_false_iff in Ex as [Ex _]. apply Z.leb_gt in Ex.
    assert (Eg : gets w_seen w = (Ok (w_seen w), w)) by done. rw (bind_step _ _ _ _ _ Eg). case_bool_decide as Hi.
    + destruct (ack_run m w) as (w1 & E1 & Q1 & _). rw (bind_step _ _ _ _ _ E1).
      intros ([] & w2 & E2 & E)%bind_Ok. injection E as <- <-. left. split; [done|].
      match type of E2 with ru_trace ?a ?b ?c ?d w1 = _ => pose proof (ru_trace_queue a b c d w1) as Hq end.
      rw E2 in Hq. unfold same_queue in Hq. cbn [snd] in Hq. by rw Hq Q1.
    + intros ([] & w2 & E2 & E)%bind_Ok. injection E as <- <-. by right.
Qed.

(** With enough fuel the loop ends by itself, or an exception leaves it. *)
Lemma run_loop_ends p (w : W) :
  ∃ fuel r w', r ≠ Ok false ∧ (r = Ok true → mq_messages (w_queue w') = []) ∧
    ∀ n, (fuel ≤ n)%nat → run_loop ru n p w = (r, w').
Proof.
  remember (Z.to_nat (ru_max_recursion_depth ru - p)) as d eqn:Hd. revert p w Hd.
  induction (lt_wf d) as [d _ IHd]. intros p w ->.
  remember (length (mq_messages (w_queue w))) as k eqn:Hk. revert w Hk.
  induction k as [|k IHk]; intros w Hk.
  - exists 1%nat, (Ok true), w. split; [done|]. split; [by destruct (mq_messages (w_queue w))|].
    intros [|n] Hn; [lia|]. cbn [run_loop].
    assert (E : on_queue is_empty w = (Ok true, w)).
    { destruct w as [s q x i sn lg]. unfold on_queue, zoom. simpl in *. unfold ask_store. simpl. by destruct (mq_messages q). }
    by rw (bind_step _ _ _ _ _ E).
  - destruct (mq_messages (w_queue w)) as [|m l] eqn:Em; [done|]. injection Hk as Hk.
    assert (E1 : on_queue is_empty w = (Ok false, w)).
    { destruct w as [s q x i sn lg]. unfold on_queue, zoom. simpl in *. unfold ask_store. simpl. by rw Em. }
    destruct (on_queue dequeue w) as [o w1] eqn:E2.
    assert (Ho : o = Ok (Some m) ∧ mq_messages (w_queue w1) = l).
    { unfold on_queue, zoom in E2. simpl in E2. unfold run_store, mq_pop in E2. simpl in E2. rw Em in E2.
      by injection E2 as <- <-. }
    destruct Ho as [-> Hl].
    assert (Hstep : ∀ n, run_loop ru (Datatypes.S n) p w = (p' ← process_message ru p m; run_loop ru n p') w1).
    { intros n. cbn [run_loop]. by rw (bind_step _ _ _ _ _ E1) (bind_step _ _ _ _ _ E2). }
    destruct (process_message ru p m w1) as [[p'|e] w2] eqn:E3.
    + assert (Hrec : ∃ fuel r w', r ≠ Ok false ∧ (r = Ok true → mq_messages (w_queue w') = []) ∧
        ∀ n, (fuel ≤ n)%nat → run_loop ru n p' w2 = (r, w')).
      { destruct (process_progress p m w1 p' w2 E3) as [[-> Hm]|[Hlt ->]].
        - apply IHk. by rw Hm Hl.
        - eapply IHd; [|reflexivity]. lia. }
      destruct Hrec as (fuel & r & w' & Hr & He & Hrun). exists (Datatypes.S fuel), r, w'. split; [done|]. split; [done|].
      intros [|n] Hn; [lia|]. rw Hstep (bind_step _ _ _ _ _ E3). apply Hrun. lia.
    + exists 1%nat, (Raise e), w2. split; [done|]. split; [done|]. intros [|n] Hn; [lia|].
      by rw Hstep (bind_raise _ _ _ _ _ E3).
Qed.
End memory_queue.

(** ** Properties *)

(** C11: the loop ends: for any store, handlers, tools and model, and whatever the
    handlers queue, there is a number of iterations after which [run] has either
    emptied the queue or left with an exception, and more fuel changes nothing. *)
Theorem run_loop_terminates `{Env} `{AgentFactory} `{ContextHydration} {S : Type} `{StateStore S}
    (ru : RecursionRunner) (processed : Z) (w : World S MemoryQueue) :
  ∃ fuel r w', r ≠ Ok false ∧ (r = Ok true → mq_messages (w_queue w') = []) ∧
    ∀ n, (fuel ≤ n)%nat → run_loop ru n processed w = (r, w').
Proof. apply run_loop_ends. Qed.

(** C12: whatever the queue, the store and the handlers do, one run handles at
    most [max_recursion_depth] events, no event id twice and none that was seen
    before, and exactly the handled ids are added to the seen ones. *)
Theorem run_handles_bounded `{Env} `{AgentFactory} `{ContextHydration} {S Q : Type} `{StateStore S} `{Queue Q}
    (ru : RecursionRunner) (fuel : nat) (w : World S Q) :
  let w' := (run_loop ru fuel 0 w).2 in
  ∃ l, w_log w' = w_log w ++ l ∧ Z.of_nat (length (handled l)) ≤ Z.max 0 (ru_max_recursion_depth ru) ∧
    NoDup (handled l) ∧ (∀ i, i ∈ handled l → i ∉ w_seen w) ∧
    w_seen w' = w_seen w ∪ list_to_set (handled l).
Proof.
  destruct (run_loop_handles ru fuel 0 w) as (ids & (l & Hl & <- & Hs & Hn & Hf) & Hb).
  exists l. split_and!; [done| |done|done|done]. by rw Z.sub_0_r in Hb.
Qed.

(** C13: a message that was taken is acknowledged or failed, exactly once, and
    the handlers only append to the queue; an exception of a handler ends the
    handling of its event, not the loop: an iteration within the depth bound
    returns. *)
Theorem process_message_verdict `{Env} `{AgentFactory} `{ContextHydration} (ru : RecursionRunner) (processed : Z)
    (m : QueueMessage) (w : MemWorld) :
  let '(r, w') := process_message ru processed m w in
  verdict m (w_queue w) (w_queue w') ∧ (∃ ms, mq_messages (w_queue w') = mq_messages (w_queue w) ++ ms) ∧
  (exceeds_max_depth (ru_max_recursion_depth ru) processed (env_event (qm_envelope m)) = false → is_Ok r = true).
Proof.
  unfold process_message. destruct (exceeds_max_depth _ _ _) eqn:Ex.
  - destruct (fail_run m "max_recursion_depth_exceeded" w) as (w1 & E1 & Q1 & _). rw (bind_step _ _ _ _ _ E1).
    pose proof (max_depth_queue ru (env_event (qm_envelope m)) w1) as Hq. unfold same_queue in Hq.
    destruct (record_max_depth_failure ru (env_event (qm_envelope m)) w1) as [[[]|e] w2] eqn:E2; cbn [snd] in Hq;
      [rw (bind_step _ _ _ _ _ E2)|rw (bind_raise _ _ _ _ _ E2)]; cbn; rw Hq Q1;
      (split_and!; [by right; split; [|eexists]|exists []; by rw app_nil_r|done]).
  - assert (Eg : gets w_seen w = (Ok (w_seen w), w)) by done. rw (bind_step _ _ _ _ _ Eg). case_bool_decide as Hi.
    + destruct (ack_run m w) as (w1 & E1 & Q1 & _). rw (bind_step _ _ _ _ _ E1). unfold ru_trace.
      match goal with |- context [trace ?a ?b ?c ?d ?e ?f ≫= _] => destruct (trace_run a b c d e f w1) as (w2 & E2 & C2) end.
      rw (bind_step _ _ _ _ _ E2). cbn. rw (calm_queue _ _ C2) Q1.
      split_and!; [by left|exists []; by rw app_nil_r|done].
    + destruct (handle_message_verdict ru m w) as [Hv Hg].
      assert (Hok : is_Ok (handle_message ru m w).1 = true).
      { unfold handle_message, try_catch. cbn zeta. destruct ((add_seen _ ≫= _) w) as [[[]|e] w1]; [done|].
        destruct (fail_run m (exn_str e) w1) as (w2 & E2 & _). rw (bind_step _ _ _ _ _ E2). unfold ru_trace.
        match goal with |- context [trace ?a ?b ?c ?d ?e ?f w2] => destruct (trace_run a b c d e f w2) as (w3 & E3 & _) end.
        by rw E3. }
      destruct (handle_message ru m w) as [[[]|e] w1] eqn:E1; cbn [fst snd] in *; [|done].
      rw (bind_step _ _ _ _ _ E1). cbn. split_and!; [exact Hv|exact Hg|done].
Qed.

(** ** A concrete run *)

#[local] Existing Instance env_ok.
#[local] Existing Instance sample_factory.
#[local] Existing Instance sample_hydration.

Definition sample_runner : RecursionRunner := {|
  ru_domain := {| dh_workflows := match workflow_register sample_workflow workflow_registry_empty with
                                  | Ok r => r | Raise _ => workflow_registry_empty end;
                  dh_planner := sample_planner; dh_sync := sample_sync; dh_skills := None |};
  ru_action := sample_runtime; ru_max_recursion_depth := 10; ru_sync := None; ru_coordinator := None |}.

Definition empty_world : MemWorld := {|
  w_store := memory_store_empty; w_queue := memory_queue_empty; w_ext := ext0; w_inline := 0; w_seen := ∅; w_log := [] |}.

(** A created story is planned, its three actions are executed in one chain, and
    the plan is completed; the two messages are acknowledged. *)
Example run_story_created :
  let '(r, w') := run_envelope sample_runner 20 (cx_source_event (sample_context "ws")) empty_world in
  is_Ok r = true ∧
  List.filter is_execution (w_log w') =
    map (λ i, LExecute ("evt:create_workitem:" +:+ i)) ["1"; "2"; "3"] ∧
  length (handled (w_log w')) = 2%nat ∧ mq_messages (w_queue w') = [] ∧ length (mq_acked (w_queue w')) = 2%nat ∧
  map (λ kv, pl_status kv.2) (map_to_list (ms_plans (w_store w'))) = [PCompleted].
Proof. vm_compute. done. Qed.
