(* ===== verification/PlanRuns.v ===== *)
(** * Plans run to their end

    The composition of the action handler, the queue and the runner: a stored plan whose
    actions are cleared and whose tools succeed is executed to its end, each action once
    and in order, over the inline chain and the queue, as far as the bounds on the
    causal depth allow. *)

From S2P Require Import Prelude PyStr PyVal PyUuid Events Plans SubTasks Policies Env Client Definitions.
From S2P Require Import Records Validation Planning Stores World AgentRunIds AgentRunSync ActionHandler ActionProofs.
From S2P Require Import Coordinator DomainHandler RecursionRunner.

(** ** A plan on its way *)

(** The first [k] actions of the plan [p0] are completed, the others as they were. *)
Record midway (p0 : AgentPlan) (k : nat) (p : AgentPlan) : Prop := {
  mw_key : plan_key p = plan_key p0;
  mw_snapshot : pl_context_snapshot_ref p = pl_context_snapshot_ref p0;
  mw_whole : is_subplan p = false;
  mw_chained : chained_plan p;
  mw_progressed : progressed k (pl_actions p);
  mw_ids : action_ids (pl_actions p) = action_ids (pl_actions p0);
  mw_length : length (pl_actions p) = length (pl_actions p0);
  mw_rest i : (k ≤ i)%nat → pl_actions p !! i = pl_actions p0 !! i;
  mw_status : if decide (k = length (pl_actions p)) then pl_status p = PCompleted else plan_halted (pl_status p) = false
}.

Lemma midway_step p0 k p a n1 n2 n3 n4 :
  midway p0 k p → pl_actions p0 !! k = Some a →
  midway p0 (S k) (replace_action n4 (with_status n3 ACompleted a) (replace_action n2 (with_status n1 ARunning a) p)).
Proof.
  intros [Hk Hs Hw Hc Hp Hi0 Hl Hr _] Ha. assert (Ha' : pl_actions p !! k = Some a) by (rw Hr //).
  set (rp := replace_action n2 (with_status n1 ARunning a) p).
  (* the second replacement hits what the first one put there *)
  set (p' := replace_action n4 (with_status n3 ACompleted a) rp).
  destruct (chained_replace p Hc n2 ARunning k a Ha') as [_ _].
  assert (Hrun : pl_actions rp = <[k := with_status n1 ARunning a]> (pl_actions p)).
  { apply (replace_in_lookup _ _ _ a); [apply chained_ids, Hc|done|done]. }
  assert (Hids : NoDup (action_ids (pl_actions rp))) by (unfold rp; rw replace_action_ids; apply chained_ids, Hc).
  assert (Hlt : (k < length (pl_actions p))%nat) by (by eapply lookup_lt_Some).
  assert (Hact : pl_actions p' = <[k := with_status n3 ACompleted a]> (pl_actions p)).
  { transitivity (<[k := with_status n3 ACompleted a]> (pl_actions rp)).
    - apply (replace_in_lookup _ _ _ (with_status n1 ARunning a)); [done| |done]. rw Hrun. by apply list_lookup_insert_eq.
    - rw Hrun. apply list_insert_insert_eq. }
  pose proof (chained_replace p Hc n3 ACompleted k a Ha') as [Hone Hch].
  pose proof (progressed_replace p Hc n3 k a Ha' Hp) as Hpr. rw Hone in Hpr. rw -Hact in Hpr.
  assert (Hlen : length (pl_actions p') = length (pl_actions p)) by (by rw Hact length_insert).
  constructor; try done.
  - destruct Hch as [Hd Hn]. rw Hone in Hd, Hn. constructor; rw Hact; done.
  - unfold p', rp. by rw !replace_action_ids.
  - by rw Hlen.
  - intros i Hi. rw Hact list_lookup_insert_ne; [lia|]. apply Hr. lia.
  - assert (Hst : pl_status p' = derived_status (pl_actions p')) by done.
    rw Hst (progressed_status (S k)) // ?Hlen; [lia|]. by case_decide.
Qed.

Lemma midway_next p0 k p a : midway p0 k p → pl_actions p0 !! k = Some a → next_pending_action p = Some a.
Proof.
  intros [_ _ _ Hc Hp _ _ Hr Hs] Ha. assert (Ha' : pl_actions p !! k = Some a) by (rw Hr //).
  apply (chained_next_at p Hc k); [|done| |].
  - rw decide_False // in Hs. apply lookup_lt_Some in Ha'. lia.
  - rw (Hp k a Ha') decide_False //. lia.
  - intros i b Hi Hb. by rw (Hp i b Hb) decide_True.
Qed.

Lemma midway_end p0 p : midway p0 (length (pl_actions p0)) p →
  pl_status p = PCompleted ∧ next_pending_action p = None ∧ ∀ a, a ∈ pl_actions p → ac_status a = ACompleted.
Proof.
  intros [_ _ _ _ Hp _ Hl _ Hs]. rw decide_True // in Hs. split; [done|]. split; [unfold next_pending_action; by rw Hs|].
  intros a [i Hi]%list_elem_of_lookup. rw (Hp i a Hi) decide_True // -Hl. by eapply lookup_lt_Some.
Qed.

Lemma get_action_lookup p k a : NoDup (action_ids (pl_actions p)) → pl_actions p !! k = Some a → get_action p (ac_action_id a) = Some a.
Proof.
  intros Hn Ha. destruct (get_action p (ac_action_id a)) as [b|] eqn:E.
  - apply get_action_Some in E as [Hi [j Hj]%list_elem_of_lookup]. f_equal.
    assert (j = k) as -> by by eapply action_id_lookup_inj. congruence.
  - assert (Hf : bool_decide (ac_action_id a = ac_action_id a) = false).
    { apply (proj1 (find_first_None _ _) E a). by eapply list_elem_of_lookup_2. }
    by rw bool_decide_eq_true_2 in Hf.
Qed.

(** ** What a computation did *)

(** The keys of the tool executions in a log. *)
Definition executed (l : list log_entry) : list string := omap (λ e, match e with LExecute k => Some k | _ => None end) l.

Lemma executed_app l k : executed (l ++ k) = executed l ++ executed k.
Proof. apply omap_app. Qed.

(** From [w] to [w'] the actions of the keys [ks] were executed, in this order, the keys
    [rec] were recorded, the plans are [pl] and the budget is used up to [u]; nothing was
    queued, and new ids were made. *)
Record tracks (ks rec : list string) (pl : gmap (string * string) AgentPlan) (q : MemoryQueue) (u : Z) (w w' : MemWorld) : Prop := {
  tk_plans : ms_plans (w_store w') = pl;
  tk_snapshots : ms_context_snapshots (w_store w') = ms_context_snapshots (w_store w);
  tk_keys : keys w' = list_to_set rec ∪ keys w;
  tk_log : executed (w_log w') = executed (w_log w) ++ ks;
  tk_queue : w_queue w' = q;
  tk_inline : w_inline w' = u;
  tk_seen : w_seen w' = w_seen w;
  tk_uuid : (x_uuid (w_ext w) ≤ x_uuid (w_ext w'))%nat
}.

Abbreviation stays w := (tracks [] [] (ms_plans (w_store w)) (w_queue w) (w_inline w) w).

Lemma tracks_trans k1 k2 r1 r2 p1 p2 q1 q2 u1 u2 x y z :
  tracks k1 r1 p1 q1 u1 x y → tracks k2 r2 p2 q2 u2 y z → tracks (k1 ++ k2) (r1 ++ r2) p2 q2 u2 x z.
Proof.
  intros [] []. constructor; try congruence; [|rw app_assoc; congruence|lia].
  rw tk_keys1 tk_keys0 list_to_set_app_L. set_solver.
Qed.

(** What changes nothing of this can be put behind, *)
Lemma tracks_stays ks rec pl q u x y z : tracks ks rec pl q u x y → stays y z → tracks ks rec pl q u x z.
Proof.
  intros Hxy Hyz. pose proof (tracks_trans _ _ _ _ _ _ _ _ _ _ _ _ _ Hxy Hyz) as Ht. rw !app_nil_r in Ht.
  destruct Hxy, Ht. constructor; congruence || done.
Qed.

Lemma stays_refl w : stays w w.
Proof. constructor; try done; [set_solver|by rw app_nil_r]. Qed.

Lemma calm_stays w w' : calm w w' → (x_uuid (w_ext w) ≤ x_uuid (w_ext w'))%nat → stays w w'.
Proof. intros [] Hu. destruct calm_run as (? & ? & Hl). constructor; try done; [set_solver|by rw app_nil_r Hl]. Qed.

(** as can storing a plan, a result and a key, and an execution. *)
Section tracks.
Context `{Env} (ks rec : list string) (pl : gmap (string * string) AgentPlan) (q : MemoryQueue) (u : Z) (w w' : MemWorld)
  (Ht : tracks ks rec pl q u w w').

Lemma tracks_plan p : ∃ w'', on_st (update_plan p) w' = (Ok tt, w'') ∧ tracks ks rec (<[plan_key p := p]> pl) q u w w''.
Proof. eexists. split; [reflexivity|]. destruct Ht. constructor; try done. cbn. by rw tk_plans0. Qed.

Lemma tracks_graph g : ∃ w'', on_st (save_task_graph g) w' = (Ok tt, w'') ∧ tracks ks rec pl q u w w''.
Proof. eexists. split; [reflexivity|]. by destruct Ht. Qed.

Lemma tracks_result r : ∃ w'', on_st (save_action_result r) w' = (Ok tt, w'') ∧ tracks ks rec pl q u w w''.
Proof. eexists. split; [reflexivity|]. by destruct Ht. Qed.

Lemma tracks_key k : ∃ w'', on_st (record_idempotency_key k) w' = (Ok tt, w'') ∧ tracks ks (rec ++ [k]) pl q u w w''.
Proof.
  eexists. split; [reflexivity|]. destruct Ht. constructor; try done. unfold keys in *. cbn. rw tk_keys0 list_to_set_app_L. set_solver.
Qed.

Lemma tracks_log k : ∃ w'', log (LExecute k) w' = (Ok tt, w'') ∧ tracks (ks ++ [k]) rec pl q u w w''.
Proof.
  eexists. split; [reflexivity|]. destruct Ht. constructor; try done. cbn [w_log snd log modify]. by rw executed_app tk_log0 -app_assoc.
Qed.

Lemma tracks_inline n : ∃ w'', set_inline n w' = (Ok tt, w'') ∧ tracks ks rec pl q n w w''.
Proof. eexists. split; [reflexivity|]. by destruct Ht. Qed.

Lemma tracks_enqueue ev : ∃ m w'', enqueue_event ev w' = (Ok tt, w'') ∧ env_event (qm_envelope m) = ev ∧
  tracks ks rec pl (mq_push m q) u w w''.
Proof.
  destruct (enqueue_event_run ev w') as (m & w'' & E & Hs & Hq & He & _ & Hi & Hn & Hl). exists m, w''. split; [done|].
  split; [done|]. assert (Hu : (x_uuid (w_ext w') ≤ x_uuid (w_ext w''))%nat).
  { assert (Hd : x_uuid (w_ext (enqueue_event ev w').2) = S (S (x_uuid (w_ext w')))) by done. rw E in Hd. cbn [snd] in Hd. lia. }
  destruct Ht. constructor; rw ?Hs ?Hq ?Hi ?Hn ?Hl //; [unfold keys in *; by rw Hs|by rw tk_queue0|lia].
Qed.

Lemma tracks_ext {A} (m : st Ext A) r x : m (w_ext w') = (r, x) → (x_uuid (w_ext w') ≤ x_uuid x)%nat →
  ∃ w'', ext m w' = (r, w'') ∧ w_ext w'' = x ∧ tracks ks rec pl q u w w''.
Proof.
  intros E Hu. exists (lput ext_lens x w'). split; [|split; [done|]].
  - unfold ext, zoom. cbn [lget ext_lens]. by rw E.
  - destruct Ht. constructor; try done. cbn. lia.
Qed.
End tracks.

Section steps.
Context `{Env}.

Lemma trace_stays ev n m p a d (w : MemWorld) : ∃ w', trace ev n m p a d w = (Ok tt, w') ∧ stays w w'.
Proof.
  destruct (trace_run ev n m p a d w) as (w' & E & Hc). exists w'. split; [done|]. apply calm_stays; [done|].
  assert (Hm : respects ext_le (new_trace n (ev_workspace_id (base ev)) (ev_project_id (base ev)) p a m d)) by (unfold new_trace; solve_respects).
  specialize (Hm (w_ext w)). unfold trace in E.
  destruct (new_trace n (ev_workspace_id (base ev)) (ev_project_id (base ev)) p a m d (w_ext w)) as [r x] eqn:En.
  apply (f_equal snd) in E. unfold mbind, st_bind, ext, zoom in E. cbn [lget ext_lens] in E. rw En in E.
  destruct r as [t|e]; cbn in E; rw -E; apply Hm.
Qed.

Lemma trace_action_stays ev n m p a d (w : MemWorld) : ∃ w', trace_action ev n m p a d w = (Ok tt, w') ∧ stays w w'.
Proof. apply trace_stays. Qed.

Lemma set_status_stays p a s (w : MemWorld) : ∃ now now' w',
  set_action_status p a s w = (Ok (with_status now s a, replace_action now' (with_status now s a) p), w') ∧ stays w w'.
Proof.
  destruct (set_status_run p a s w) as (n & n' & w' & E & Hc). exists n, n', w'. split; [done|]. apply calm_stays; [done|].
  apply (f_equal snd) in E. cbn in E. by rw -E.
Qed.
End steps.

(** One step of a computation, by what it does to what is tracked. *)
Ltac bound E := rw (bind_step _ _ _ _ _ E); clear E.
Ltac stayed T T' := apply (tracks_stays _ _ _ _ _ _ _ _ T) in T'; clear T; rename T' into T.
Ltac step_plan T :=
  let E := fresh "E" in let T' := fresh "T" in
  lazymatch goal with |- context [(on_st (update_plan ?p) ≫= _) _] =>
    destruct (tracks_plan _ _ _ _ _ _ _ T p) as (? & E & T') end; bound E; clear T; rename T' into T.
Ltac step_trace T :=
  let E := fresh "E" in let T' := fresh "T" in
  lazymatch goal with
  | |- context [(trace_action ?a ?b ?c ?d ?e ?f ≫= _) ?w] => destruct (trace_action_stays a b c d e f w) as (? & E & T')
  | |- context [(trace ?a ?b ?c ?d ?e ?f ≫= _) ?w] => destruct (trace_stays a b c d e f w) as (? & E & T') end;
  bound E; stayed T T'.
Ltac step_status T n n' :=
  let E := fresh "E" in let T' := fresh "T" in
  lazymatch goal with |- context [(set_action_status ?p ?a ?s ≫= _) ?w] =>
    destruct (set_status_stays p a s w) as (n & n' & ? & E & T') end; bound E; stayed T T'; cbn beta iota.

(** ** One action *)

Section action.
Context `{Env} (rt : Runtime) (Hoff : ars_enabled (rt_sync rt) = false).

(** Whatever the state of the environment, the action is cleared for execution in the
    context, and its tool succeeds and emits no events. *)
Definition runs_well (a : PlannedAction) (c : AgentContext) : Prop :=
  ac_requires_approval a = false ∧
  (∀ x, ∃ v x', validate_before_execution a c x = (Ok v, x') ∧ vr_decision v = DCommit ∧ (x_uuid x ≤ x_uuid x')%nat) ∧
  ∃ t, tool_get (rt_tools rt) (ac_tool_name a) = Ok t ∧
    ∀ x, ∃ r x', tl_execute t a c x = (Ok r, x') ∧ tr_success r = true ∧ tr_emitted_events r = [] ∧ (x_uuid x ≤ x_uuid x')%nat.

(** An action that is permitted, expects no versions and needs no approval is cleared. *)
Lemma validate_cleared a c x : permitted a c = true → ac_expected_entity_versions a = [] → ac_requires_approval a = false →
  validate_before_execution a c x = (Ok (mk_validation DCommit true None [] [] None), x).
Proof. intros Hp Hv Ha. unfold validate_before_execution. unfold permitted in Hp. rw Hp Hv Ha. done. Qed.

Lemma report_off p a n m (w : MemWorld) : report rt p a n m w = (Ok tt, w).
Proof. unfold report, record_action_state. rw Hoff. by destruct w. Qed.

(** The tool runs, and its result is the one it promises. *)
Lemma execute_tracks a c ks rec pl q u (w w' : MemWorld) :
  runs_well a c → tracks ks rec pl q u w w' →
  ∃ r w'', try_catch (r ← execute_one rt a c; mret (inl r)) (λ e, mret (inr e)) w' = (Ok (inl r : ToolResult + exn), w'') ∧
    tr_success r = true ∧ tr_emitted_events r = [] ∧ tracks (ks ++ [ac_idempotency_key a]) rec pl q u w w''.
Proof.
  intros (_ & _ & t & Ht & Hx) T.
  destruct (tracks_log _ _ _ _ _ _ _ T (ac_idempotency_key a)) as (w1 & E1 & T1).
  destruct (Hx (w_ext w1)) as (r & x & Et & Hr & Hev & Hu).
  destruct (tracks_ext _ _ _ _ _ _ _ T1 _ _ _ Et Hu) as (w2 & E2 & _ & T2).
  exists r, w2. split; [|done]. unfold execute_one. rw Ht. unfold try_catch.
  assert (E : (tool ← lift_res (Ok t); log (LExecute (ac_idempotency_key a)) ;; ext (tl_execute tool a c)) w' = (Ok r, w2)).
  { change ((log (LExecute (ac_idempotency_key a)) ;; ext (tl_execute t a c)) w' = (Ok r, w2)). by rw (bind_step _ _ _ _ _ E1). }
  by rw (bind_step _ _ _ _ _ E).
Qed.

(** What follows a successful result, up to what follows the action in its plan. *)
Lemma result_tracks self_next e p rp ra a r ks rec pl q u (w w' : MemWorld) :
  tr_success r = true → tr_emitted_events r = [] → tracks ks rec pl q u w w' →
  ∃ n n' w'', let p' := replace_action n' (with_status n ACompleted a) rp in
    handle_result rt self_next e p rp ra a r w' = self_next e p' w'' ∧
    tracks ks (rec ++ [ac_idempotency_key a]) (<[plan_key rp := p']> pl) q u w w''.
Proof.
  intros Hr Hev T. unfold handle_result.
  destruct (tracks_result _ _ _ _ _ _ _ T r) as (w1 & E1 & T1). rw (bind_step _ _ _ _ _ E1). clear T. rename T1 into T.
  unfold validate_after_execution. rw Hr. cbn [vr_decision mk_validation]. step_trace T.
  change (bool_decide (DCommit = DCommit)) with true. cbv iota. unfold handle_commit. step_status T n n'. step_plan T.
  rw (bind_step _ _ _ _ _ (report_off _ _ _ _ _)).
  destruct (tracks_key _ _ _ _ _ _ _ T (ac_idempotency_key a)) as (w2 & E2 & T2). rw (bind_step _ _ _ _ _ E2). clear T. rename T2 into T.
  cbn [vr_emitted_events mk_validation]. rw Hev.
  assert (E3 : enqueue_events [] w2 = (Ok tt, w2)) by done. rw (bind_step _ _ _ _ _ E3). step_trace T.
  exists n, n'. eexists. cbv zeta. split; [reflexivity|exact T].
Qed.

(** Executing a cleared action, up to what follows it in its plan. *)
Lemma pending_completes self_next e p a s (w : MemWorld) :
  runs_well a (sn_context s) → ac_idempotency_key a ∉ keys w →
  ∃ n1 n2 n3 n4 w', let p' := replace_action n4 (with_status n3 ACompleted a) (replace_action n2 (with_status n1 ARunning a) p) in
    handle_pending rt self_next e p a s w = self_next e p' w' ∧
    tracks [ac_idempotency_key a] [ac_idempotency_key a] (<[plan_key p := p']> (ms_plans (w_store w))) (w_queue w) (w_inline w) w w'.
Proof.
  intros Hw Hk. pose proof (stays_refl w) as T. unfold handle_pending.
  rw (bind_step _ _ w (bool_decide (ac_idempotency_key a ∈ keys w)) w); [by destruct w|]. rw bool_decide_eq_false_2 //.
  step_trace T.
  lazymatch type of T with tracks _ _ _ _ _ _ ?w1 => destruct (proj1 (proj2 Hw) (w_ext w1)) as (v & y & Ev & Hv & Hu);
    destruct (tracks_ext _ _ _ _ _ _ _ T _ _ _ Ev Hu) as (w2 & E2 & _ & T2) end.
  rw (bind_step _ _ _ _ _ E2). clear T. rename T2 into T. rw Hv. step_trace T.
  unfold handle_execute. step_status T n1 n2. rw (bind_step _ _ _ _ _ (report_off _ _ _ _ _)). step_plan T. step_trace T.
  destruct (execute_tracks a (sn_context s) _ _ _ _ _ _ _ Hw T) as (r & w3 & E3 & Hr & Hev & T3). rw (bind_step _ _ _ _ _ E3).
  set (rp := replace_action n2 (with_status n1 ARunning a) p) in *.
  destruct (result_tracks self_next e p rp (with_status n1 ARunning a) a r _ _ _ _ _ _ _ Hr Hev T3) as (n3 & n4 & w4 & E4 & T4).
  exists n1, n2, n3, n4, w4. cbv zeta. fold rp. split; [exact E4|]. change (plan_key rp) with (plan_key p) in T4.
  rw insert_insert_eq in T4. exact T4.
Qed.
End action.

(** ** One invocation *)

Section plan.
Context `{Env} (rt : Runtime) (Hoff : ars_enabled (rt_sync rt) = false).
Context (p0 : AgentPlan) (s : ContextSnapshot) (Hwell : ∀ a, a ∈ pl_actions p0 → runs_well rt a (sn_context s)).

(** The envelope asks for the action at [k], at depth [d]. *)
Definition asks (k : nat) (d : Z) (e : EventEnvelope) : Prop :=
  ∃ b a, env_event e = AgentActionEvent b (pl_plan_id p0) (ac_action_id a) ∧ pl_actions p0 !! k = Some a ∧
    ev_workspace_id b = pl_workspace_id p0 ∧ cs_depth (ev_causality b) = d.

(** The keys of the actions from [k] up to [j]. *)
Definition between (k j : nat) : list string := map ac_idempotency_key (take (j - k) (drop k (pl_actions p0))).

(** The stored plan has come to [k], and what is left of it was not executed. *)
Record on_way (k : nat) (p : AgentPlan) (w : MemWorld) : Prop := {
  ow_plan : ms_plans (w_store w) !! plan_key p0 = Some p;
  ow_midway : midway p0 k p;
  ow_snapshot : ms_context_snapshots (w_store w) !! (pl_workspace_id p0, pl_context_snapshot_ref p0) = Some s;
  ow_unrecorded i a : (k ≤ i)%nat → pl_actions p0 !! i = Some a → ac_idempotency_key a ∉ keys w
}.

Context (Hkeys : NoDup (map ac_idempotency_key (pl_actions p0))).

Lemma between_one k a : pl_actions p0 !! k = Some a → between k (S k) = [ac_idempotency_key a].
Proof.
  intros Ha. unfold between. replace (S k - k)%nat with 1%nat by lia. by rw (drop_S _ _ _ Ha).
Qed.

Lemma between_app k j n : (k ≤ j ≤ n)%nat → between k j ++ between j n = between k n.
Proof.
  intros Hj. unfold between. rw -map_app. f_equal.
  replace (n - k)%nat with ((j - k) + (n - j))%nat by lia.
  rw -(take_take_drop _ (j - k) (n - j)). f_equal. f_equal. rw drop_drop. f_equal. lia.
Qed.

Lemma between_lookup k j i a : pl_actions p0 !! i = Some a → ac_idempotency_key a ∈ between k j → (k ≤ i < j)%nat.
Proof.
  intros Hi Hin. unfold between in Hin. apply list_elem_of_fmap in Hin as (b & Hk & Hb).
  apply list_elem_of_lookup in Hb as [m Hm]. apply lookup_take_Some in Hm as [Hm Hlt]. rw lookup_drop in Hm.
  assert (i = (k + m)%nat) as ->; [|lia]. eapply (NoDup_lookup _ _ _ (ac_idempotency_key a) Hkeys); rw list_lookup_fmap ?Hi ?Hm //=.
  by rw Hk.
Qed.

(** What was executed up to [j] leaves the rest of the plan to do. *)
Lemma on_way_tracks k j p q u p' (w w' : MemWorld) :
  on_way k p w → (k ≤ j)%nat → midway p0 j p' →
  tracks (between k j) (between k j) (<[plan_key p0 := p']> (ms_plans (w_store w))) q u w w' → on_way j p' w'.
Proof.
  intros [Hp Hm Hs Hu] Hj Hm' [T1 T2 T3 T4 T5 T6 T7 T8]. constructor; [|done|by rw T2|].
  - rw T1. apply lookup_insert_eq.
  - intros i a Hi Ha. rw T3 not_elem_of_union. split; [|apply (Hu i a); [lia|done]].
    intros Hin%elem_of_list_to_set. apply (between_lookup k j i a) in Hin; [lia|done].
Qed.

(** Handling the event of the next action executes it. *)
Lemma action_runs self e k d p (w : MemWorld) :
  asks k d e → on_way k p w → ∃ p' w', midway p0 (S k) p' ∧
    handle_action_step rt self e w = enqueue_next_action rt self e p' w' ∧
    tracks (between k (S k)) (between k (S k)) (<[plan_key p0 := p']> (ms_plans (w_store w))) (w_queue w) (w_inline w) w w'.
Proof.
  intros (b & a & He & Ha & Hws & _) [Hp Hm Hs Hu].
  destruct (pending_completes rt Hoff (enqueue_next_action rt self) e p a s w) as (n1 & n2 & n3 & n4 & w' & E & T).
  { apply Hwell. by eapply list_elem_of_lookup_2. }
  { by apply (Hu k). }
  eexists _, w'. split; [exact (midway_step p0 k p a n1 n2 n3 n4 Hm Ha)|].
  rw (between_one k a Ha). rw (mw_key _ _ _ Hm) in T. split; [|exact T]. rw -E. unfold handle_action_step. rw He.
  rw (bind_step _ _ w (Some p) w); [rw Hws; change (pl_workspace_id p0, pl_plan_id p0) with (plan_key p0); rw -Hp; by destruct w|].
  assert (Ha' : pl_actions p !! k = Some a) by (rw (mw_rest _ _ _ Hm) //).
  rw (get_action_lookup p k a) //; [apply chained_ids, (mw_chained _ _ _ Hm)|].
  assert (Hpend : has_status APending a = true) by (rw has_status_true (mw_progressed _ _ _ Hm k a Ha') decide_False //; lia).
  rw Hpend. cbn [negb]. rw (bind_step _ _ w (Some s) w); [rw Hws (mw_snapshot _ _ _ Hm) -Hs; by destruct w|]. done.
Qed.

(** After the last action the plan is reported and traced. *)
Lemma next_none self e p (w : MemWorld) : midway p0 (length (pl_actions p0)) p →
  ∃ w', enqueue_next_action rt self e p w = (Ok tt, w') ∧ stays w w'.
Proof.
  intros Hm. destruct (midway_end _ _ Hm) as (Hst & Hn & _). unfold enqueue_next_action. rw Hn Hst. cbn match.
  rw (mw_whole _ _ _ Hm). change (bool_decide (PCompleted = PCompleted)) with true. cbv iota zeta.
  rw (bind_step _ _ w tt w); [unfold record_run_completed; rw Hoff; by destruct w|]. apply trace_stays.
Qed.

(** Otherwise the event of the next one is made. *)
Lemma next_some self e k d p (w : MemWorld) : asks k d e → midway p0 (S k) p → (S k < length (pl_actions p0))%nat →
  ∃ a ev w', enqueue_next_action rt self e p w = continue_with self p a ev (w_inline w) w' ∧ stays w w' ∧
    ac_requires_approval a = false ∧ ev_event_id (base ev) = uuid4_at (x_uuid (w_ext w)) ∧
    (x_uuid (w_ext w) < x_uuid (w_ext w'))%nat ∧ ∀ e', env_event e' = ev → asks (S k) (d + 1) e'.
Proof.
  intros (b & a0 & He & _ & _ & Hd) Hm [a Ha]%lookup_lt_is_Some. unfold enqueue_next_action.
  rw (midway_next _ _ _ _ Hm Ha).
  match goal with |- context [(ext ?m ≫= _) w] => destruct (m (w_ext w)) as [r x] eqn:Em;
    destruct (tracks_ext _ _ _ _ _ _ _ (stays_refl w) m r x Em) as (w1 & E1 & Hx & T) end.
  { injection Em as _ <-. cbn. lia. }
  injection Em as Er Ex. subst r. rw (bind_step _ _ _ _ _ E1). exists a. eexists. exists w1.
  split; [rw (bind_step _ _ w1 (w_inline w) w1); [by rw /gets (tk_inline _ _ _ _ _ _ _ T)|reflexivity]|]. split; [done|].
  assert (Hin : a ∈ pl_actions p0) by by eapply list_elem_of_lookup_2.
  split; [apply (Hwell a Hin)|]. split; [done|]. split; [rw Hx -Ex; cbn; lia|].
  pose proof (mw_key _ _ _ Hm) as [= Hw Hp]. intros e' He'. eexists _, a. split; [rw He' Hp; reflexivity|].
  split; [done|]. split; [done|]. cbn. unfold child_causality. by rw He /= Hd.
Qed.

Abbreviation n := (length (pl_actions p0)).

(** The message of the action at [j], of a new event. *)
Definition next_message (j : nat) (d : Z) (w w' : MemWorld) (m : QueueMessage) : Prop :=
  asks j d (qm_envelope m) ∧
  ∃ i, envelope_event_id (qm_envelope m) = uuid4_at i ∧ (x_uuid (w_ext w) ≤ i < x_uuid (w_ext w'))%nat.

(** The actions from [k] up to [j] were executed, and the next one, if any, was queued. *)
Definition comes_to (k j : nat) (d : Z) (p' : AgentPlan) (w w' : MemWorld) : Prop :=
  (k < j ≤ n)%nat ∧ midway p0 j p' ∧
  ∃ q' u', tracks (between k j) (between k j) (<[plan_key p0 := p']> (ms_plans (w_store w))) q' u' w w' ∧ w_inline w ≤ u' ∧
    if decide (j = n) then q' = w_queue w
    else ∃ m, q' = mq_push m (w_queue w) ∧ next_message j (d + Z.of_nat (j - k)) w w' m.

(** Going on through the queue. *)
Lemma queued_comes_to k d p' a ev (w w1 : MemWorld) :
  (S k < n)%nat → midway p0 (S k) p' →
  tracks (between k (S k)) (between k (S k)) (<[plan_key p0 := p']> (ms_plans (w_store w))) (w_queue w) (w_inline w) w w1 →
  (∃ i, ev_event_id (base ev) = uuid4_at i ∧ (x_uuid (w_ext w) ≤ i < x_uuid (w_ext w1))%nat) →
  (∀ e', env_event e' = ev → asks (S k) (d + 1) e') →
  ∃ w', queue_action p' a ev w1 = (Ok tt, w') ∧ comes_to k (S k) d p' w w'.
Proof.
  intros Hk Hm T (i & Hi & Hlt) Hask. unfold queue_action.
  destruct (tracks_enqueue _ _ _ _ _ _ _ T ev) as (m & w2 & E2 & Hev & T2). rw (bind_step _ _ _ _ _ E2).
  lazymatch goal with |- context [trace_action ?a ?b ?c ?d ?e ?f ?w] => destruct (trace_action_stays a b c d e f w) as (w3 & E3 & T3) end.
  pose proof (tracks_stays _ _ _ _ _ _ _ _ T2 T3) as T4. exists w3. split; [exact E3|]. split; [lia|]. split; [done|].
  exists (mq_push m (w_queue w)), (w_inline w). split; [exact T4|]. split; [done|]. rw decide_False; [lia|].
  exists m. split; [done|]. replace (d + Z.of_nat (S k - k)) with (d + 1) by lia. split; [by apply Hask|]. exists i.
  unfold envelope_event_id. rw Hev. split; [done|].
  assert (Hu : (x_uuid (w_ext w1) ≤ x_uuid (w_ext w3))%nat).
  { assert (Hd : x_uuid (w_ext (enqueue_event ev w1).2) = S (S (x_uuid (w_ext w1)))) by done. rw E2 in Hd. cbn [snd] in Hd.
    pose proof (tk_uuid _ _ _ _ _ _ _ T3). lia. }
  lia.
Qed.

(** Going on in the same invocation. *)
Lemma chained_comes_to k j d p' p'' (w w1 w' : MemWorld) u :
  tracks (between k (S k)) (between k (S k)) (<[plan_key p0 := p']> (ms_plans (w_store w))) (w_queue w) u w w1 →
  w_inline w ≤ u → comes_to (S k) j (d + 1) p'' w1 w' → comes_to k j d p'' w w'.
Proof.
  intros T Hu (Hj & Hm & q & u' & T' & Hu' & Hq). split; [lia|]. split; [done|]. exists q, u'.
  pose proof (tracks_trans _ _ _ _ _ _ _ _ _ _ _ _ _ T T') as Tt. rw !between_app in Tt; [lia|].
  destruct T as [T1 _ _ _ T5 T6 _ T8]. rw T1 insert_insert_eq in Tt. split; [exact Tt|]. split; [lia|]. rw T5 in Hq.
  destruct (decide (j = n)); [done|]. destruct Hq as (m & -> & Ha & i & Hi & Hl). exists m. split; [done|]. split.
  - by replace (d + Z.of_nat (j - k)) with (d + 1 + Z.of_nat (j - S k)) by lia.
  - exists i. split; [done|lia].
Qed.

Lemma chain_runs bottom fuel e k d p (w : MemWorld) :
  asks k d e → on_way k p w → (0 < fuel)%nat → INLINE_ACTION_CHAIN_BUDGET < w_inline w + Z.of_nat fuel →
  ∃ j p' w', handle_action_n rt bottom fuel e w = (Ok tt, w') ∧ comes_to k j d p' w w'.
Proof.
  revert e k d p w. induction fuel as [|fuel IH]; intros e k d p w He Hw Hf Hb; [lia|]. cbn [handle_action_n].
  destruct (action_runs (handle_action_n rt bottom fuel) e k d p w He Hw) as (p1 & w1 & Hm1 & -> & T1).
  assert (Hk : (k < n)%nat) by (destruct He as (? & ? & _ & Ha & _); by eapply lookup_lt_Some).
  destruct (decide (S k = n)) as [Heq|Hne].
  { destruct (next_none (handle_action_n rt bottom fuel) e p1 w1) as (w2 & E2 & T2); [by rw -Heq|].
    exists (S k), p1, w2. split; [exact E2|]. split; [lia|]. split; [done|]. exists (w_queue w), (w_inline w).
    split; [by eapply tracks_stays|]. split; [done|]. by rw decide_True. }
  destruct (next_some (handle_action_n rt bottom fuel) e k d p1 w1 He Hm1) as (a & ev & w2 & -> & T2 & Happ & Hid & Hu & Hask); [lia|].
  pose proof (tracks_stays _ _ _ _ _ _ _ _ T1 T2) as T. pose proof (tk_uuid _ _ _ _ _ _ _ T1) as Hu1.
  unfold continue_with. rw Happ. cbn [negb andb]. rw (tk_inline _ _ _ _ _ _ _ T1).
  destruct (w_inline w <? INLINE_ACTION_CHAIN_BUDGET) eqn:Eb.
  - apply Z.ltb_lt in Eb. destruct (tracks_inline _ _ _ _ _ _ _ T (w_inline w + 1)) as (w3 & E3 & T3).
    rw (bind_step _ _ _ _ _ E3). clear E3. unfold chain_action. step_trace T3.
    lazymatch type of T3 with tracks _ _ _ _ _ _ ?w4 => destruct (wrap ev (w_ext w4)) as [re xe] eqn:Ew;
      destruct (tracks_ext _ _ _ _ _ _ _ T3 _ _ _ Ew) as (w5 & E5 & _ & T5) end.
    { injection Ew as _ <-. cbn. lia. }
    injection Ew as Er _. subst re. rw (bind_step _ _ _ _ _ E5).
    match goal with |- context [handle_action_n rt bottom fuel ?e'] =>
      destruct (IH e' (S k) (d + 1) p1 w5) as (j & p' & w' & E & C); [by apply Hask| | | |] end.
    + by eapply (on_way_tracks k (S k)); [exact Hw|lia|..].
    + lia.
    + rw (tk_inline _ _ _ _ _ _ _ T5). lia.
    + exists j, p', w'. split; [exact E|]. eapply chained_comes_to; [exact T5|lia|done].
  - destruct (queued_comes_to k d p1 a ev w w2) as (w' & E & C); try done; [lia| |by exists (S k), p1, w'].
    exists (x_uuid (w_ext w1)). split; [done|lia].
Qed.
End plan.

(** ** The runner *)

Section runner.
Context `{Env} `{AgentFactory} `{ContextHydration} (ru : RecursionRunner).
Context (Hoff : ars_enabled (rt_sync (ru_action ru)) = false) (Hinj : Inj (=) (=) uuid4_at).
Context (p0 : AgentPlan) (s : ContextSnapshot) (Hwell : ∀ a, a ∈ pl_actions p0 → runs_well (ru_action ru) a (sn_context s)).
Context (Hkeys : NoDup (map ac_idempotency_key (pl_actions p0))).
Abbreviation n := (length (pl_actions p0)).

(** The event of the message is new, and so are the ids to come. *)
Definition new_event (m : QueueMessage) (w : MemWorld) : Prop :=
  let id := envelope_event_id (qm_envelope m) in
  id ∉ w_seen w ∧ ∀ i, (x_uuid (w_ext w) ≤ i)%nat → uuid4_at i ≠ id ∧ uuid4_at i ∉ w_seen w.

(** The message was taken. *)
Definition taken (m : QueueMessage) (w : MemWorld) : MemWorld :=
  {| w_store := w_store w; w_queue := (mq_pop (w_queue w)).2; w_ext := w_ext w; w_inline := w_inline w;
     w_seen := w_seen w; w_log := w_log w |}.

Lemma loop_takes f i m (w : MemWorld) : mq_messages (w_queue w) = [m] →
  run_loop ru (Datatypes.S f) i w = (i' ← process_message ru i m; run_loop ru f i') (taken m w).
Proof.
  intros Hm. cbn [run_loop]. destruct w as [st0 q x u sn lg]. cbn [w_queue] in Hm.
  rw (bind_step _ _ _ false (Build_World st0 q x u sn lg)); [unfold on_queue, zoom; cbn; unfold ask_store; cbn; by rw Hm|].
  rw (bind_step _ _ _ (Some m) (taken m (Build_World st0 q x u sn lg))); [|done].
  unfold on_queue, zoom, taken. cbn. unfold run_store, mq_pop. cbn. by rw Hm.
Qed.

Lemma loop_stops f i (w : MemWorld) : mq_messages (w_queue w) = [] → run_loop ru (Datatypes.S f) i w = (Ok true, w).
Proof.
  intros Hm. cbn [run_loop]. rw (bind_step _ _ _ true w); [|done]. destruct w as [st0 q x u sn lg]. cbn [w_queue] in Hm.
  unfold on_queue, zoom. cbn. unfold ask_store. cbn. by rw Hm.
Qed.

(** The runner hands the event of a new message within the bounds to its handler. *)
Lemma process_hands i m (w w1 : MemWorld) :
  let id := envelope_event_id (qm_envelope m) in
  exceeds_max_depth (ru_max_recursion_depth ru) i (env_event (qm_envelope m)) = false → id ∉ w_seen w →
  handle_event ru (qm_envelope m) (log (LHandle id) (add_seen id w).2).2 = (Ok tt, w1) →
  process_message ru i m w = (Ok (i + 1), (ack_message m w1).2).
Proof.
  intros id Hx Hn Eh. unfold process_message. rw Hx. rw (bind_step _ _ w (w_seen w) w); [done|]. rw bool_decide_eq_false_2 //.
  rw (bind_step _ _ w tt (ack_message m w1).2); [|done].
  unfold handle_message, try_catch. cbn zeta. rw (bind_step _ _ w tt (add_seen id w).2); [done|].
  rw (bind_step _ _ _ tt (log (LHandle id) (add_seen id w).2).2); [done|]. by rw (bind_step _ _ _ tt w1).
Qed.

Lemma process_runs i m k d p (w : MemWorld) :
  asks p0 k d (qm_envelope m) → i < ru_max_recursion_depth ru → d ≤ ru_max_recursion_depth ru →
  on_way p0 s k p w → 0 ≤ w_inline w → envelope_event_id (qm_envelope m) ∉ w_seen w →
  let w0 := (log (LHandle (envelope_event_id (qm_envelope m))) (add_seen (envelope_event_id (qm_envelope m)) w).2).2 in
  ∃ j p' w1, process_message ru i m w = (Ok (i + 1), (ack_message m w1).2) ∧ comes_to p0 k j d p' w0 w1.
Proof.
  intros Ha Hi Hd Hw Hu Hn w0.
  destruct (chain_runs (ru_action ru) Hoff p0 s Hwell Hkeys (λ _, raise out_of_fuel)
    (Datatypes.S (Z.to_nat INLINE_ACTION_CHAIN_BUDGET)) (qm_envelope m) k d p w0) as (j & p' & w1 & E & C); [done| |lia| |].
  { destruct Hw. by constructor. }
  { change (w_inline w0) with (w_inline w). unfold INLINE_ACTION_CHAIN_BUDGET. lia. }
  exists j, p', w1. split; [|exact C]. destruct Ha as (b & a & He & _ & _ & Hb). apply process_hands; [|done|].
  - unfold exceeds_max_depth. rw He. cbn [base]. rw Hb. lia.
  - unfold handle_event. rw He. exact E.
Qed.

(** What the loop leaves when it has come from [k] to the end of the plan. *)
Definition finishes (k : nat) (w w' : MemWorld) : Prop :=
  (∃ p', midway p0 n p' ∧ ms_plans (w_store w') = <[plan_key p0 := p']> (ms_plans (w_store w))) ∧
  keys w' = list_to_set (between p0 k n) ∪ keys w ∧
  executed (w_log w') = executed (w_log w) ++ between p0 k n ∧
  mq_messages (w_queue w') = [] ∧ mq_failed (w_queue w') = mq_failed (w_queue w).

(** Acknowledging leaves the plans, the keys and the executions. *)
Lemma round_tracks k j d p' id (m : QueueMessage) (w w1 : MemWorld) :
  comes_to p0 k j d p' (log (LHandle id) (add_seen id w).2).2 w1 →
  let w' := (ack_message m w1).2 in
  (k < j ≤ n)%nat ∧ midway p0 j p' ∧ w_seen w' = {[id]} ∪ w_seen w ∧ 0 ≤ w_inline w' - w_inline w ∧
  tracks (between p0 k j) (between p0 k j) (<[plan_key p0 := p']> (ms_plans (w_store w))) (w_queue w') (w_inline w')
    w {| w_store := w_store w'; w_queue := w_queue w'; w_ext := w_ext w'; w_inline := w_inline w';
         w_seen := w_seen w; w_log := w_log w' |} ∧
  mq_failed (w_queue w') = mq_failed (w_queue w) ∧
  if decide (j = n) then mq_messages (w_queue w') = mq_messages (w_queue w)
  else ∃ m', mq_messages (w_queue w') = mq_messages (w_queue w) ++ [m'] ∧
         next_message p0 j (d + Z.of_nat (j - k)) w w' m'.
Proof.
  intros (Hj & Hmid & q' & u' & [T1 T2 T3 T4 T5 T6 T7 T8] & Hu' & Hq) w'. split; [done|]. split; [done|].
  split; [exact T7|].
  split; [change (w_inline w') with (w_inline w1); change (w_inline w ≤ u') in Hu'; lia|]. split; [|split].
  - constructor; try done. cbn [w_log w' snd ack_message]. change (w_log w') with (w_log w1 ++ [LAck (envelope_event_id (qm_envelope m))]).
    rw executed_app T4. change (w_log (log (LHandle id) (add_seen id w).2).2) with (w_log w ++ [LHandle id]). by rw executed_app !app_nil_r.
  - change (mq_failed (w_queue w')) with (mq_failed (w_queue w1)). rw T5. destruct (decide (j = n)); [by rw Hq|]. by destruct Hq as (m' & -> & _).
  - cbn [w_queue]. change (mq_messages (w_queue w')) with (mq_messages (w_queue w1)). rw T5. destruct (decide (j = n)); [by rw Hq|].
    by destruct Hq as (m' & -> & Hm'); exists m'.
Qed.

Lemma loop_runs k i d m p (w : MemWorld) :
  (k < n)%nat → i + Z.of_nat (n - k) ≤ ru_max_recursion_depth ru → d + Z.of_nat (n - 1 - k) ≤ ru_max_recursion_depth ru →
  asks p0 k d (qm_envelope m) → on_way p0 s k p w → 0 ≤ w_inline w → mq_messages (w_queue w) = [m] → new_event m w →
  ∃ fuel w', (∀ f, (fuel ≤ f)%nat → run_loop ru f i w = (Ok true, w')) ∧ finishes k w w'.
Proof.
  remember (n - k)%nat as r eqn:Hr. revert k i d m p w Hr.
  induction (lt_wf r) as [r _ IH]. intros k i d m p w -> Hk Hi Hd Ha Hw Hu Hm [Hseen Hnew].
  assert (Hq0 : mq_messages (w_queue (taken m w)) = [] ∧ mq_failed (w_queue (taken m w)) = mq_failed (w_queue w))
    by (cbn; unfold mq_pop; by rw Hm). destruct Hq0 as [Hq0 Hf0].
  assert (Hwt : on_way p0 s k p (taken m w)) by by destruct Hw.
  destruct (process_runs i m k d p (taken m w) Ha) as (j & p' & w1 & E & C); [lia|lia|done..|].
  remember (ack_message m w1).2 as w' eqn:Hw'.
  apply (round_tracks _ _ _ _ _ m) in C as (Hj & Hmid & Hs & Hi' & T & Hf & Hq). rw -Hw' in Hs Hi' T Hf Hq.
  pose proof (on_way_tracks p0 s Hkeys k j p _ _ p' _ _ Hwt (Nat.lt_le_incl _ _ (proj1 Hj)) Hmid T) as Hon.
  destruct T as [T1 T2 T3 T4 _ _ _ T8]. rw Hq0 in Hq.
  change (ms_plans (w_store w') = <[plan_key p0 := p']> (ms_plans (w_store w))) in T1.
  change (keys w' = list_to_set (between p0 k j) ∪ keys w) in T3.
  change (executed (w_log w') = executed (w_log w) ++ between p0 k j) in T4. rw Hf0 in Hf.
  destruct (decide (j = n)) as [->|Hne].
  { exists 2%nat, w'. split; [|split_and!; [by exists p'|done..]].
    intros [|[|f]] Hfu; [lia|lia|]. rw (loop_takes _ _ _ _ Hm) (bind_step _ _ _ _ _ E). by apply loop_stops. }
  destruct Hq as (m' & Hq & Ha' & z & Hz & Hlt).
  destruct (IH (n - j)%nat ltac:(lia) j (i + 1) (d + Z.of_nat (j - k)) m' p' w' eq_refl) as (fuel & w'' & Hrun & F1 & F2 & F3 & F4 & F5);
    try done; try lia; [by destruct Hon|cbn in Hi'; lia| |].
  { split; rw Hz Hs; [|intros y Hy; split; [intros ?%Hinj; lia|]]; cbn [w_seen taken];
      rw not_elem_of_union not_elem_of_singleton; apply Hnew; cbn in *; lia. }
  exists (Datatypes.S fuel), w''. split.
  { intros [|f] Hfu; [lia|]. rw (loop_takes _ _ _ _ Hm) (bind_step _ _ _ _ _ E). apply Hrun. lia. }
  split_and!; [|by rw F2 T3 -(between_app p0 k j n) ?list_to_set_app_L; [lia|set_solver]| |done|by rw F5].
  - destruct F1 as (p'' & Hp'' & ->). exists p''. split; [done|]. by rw T1 insert_insert_eq.
  - by rw F3 T4 -(between_app p0 k j n) ?app_assoc; [lia|].
Qed.
End runner.

(** ** From a trigger *)

Section trigger.
Context `{Env} `{AgentFactory} `{ContextHydration} (ru : RecursionRunner).
Abbreviation dh := (ru_domain ru).
Context (Hdh : ars_enabled (dh_sync dh) = false).

(** A plan of at most [most] actions, with ids of their own, that run well and whose keys
    are not among [ks]. *)
Definition suits (s : ContextSnapshot) (ks : gset string) (most : Z) (p : AgentPlan) : Prop :=
  (0 < length (pl_actions p))%nat ∧ Z.of_nat (length (pl_actions p)) ≤ most ∧ NoDup (action_ids (pl_actions p)) ∧
  is_subplan p = false ∧
  ∀ a, a ∈ pl_actions p → str_truthy (ac_action_id a) = true ∧ runs_well (ru_action ru) a (sn_context s) ∧ ac_idempotency_key a ∉ ks.

(** Planning a run gives the plan. *)
Definition plans (wf : WorkflowDefinition) (s : ContextSnapshot) (run_id : string) (x : Ext) (p : AgentPlan) (x' : Ext) : Prop :=
  create_plan (dh_planner dh) (sn_context s) (sn_ref s) wf run_id None None None None x = (Ok p, x').

(** At any time planning the run gives such a plan. *)
Definition plans_well (wf : WorkflowDefinition) (s : ContextSnapshot) (run_id : string) (ks : gset string) (most : Z) : Prop :=
  ∀ x, ∃ p x', plans wf s run_id x p x' ∧ (x_uuid x ≤ x_uuid x')%nat ∧ suits s ks most p.

(** A plan that was just made. *)
Lemma midway_start p : chained_plan p → is_subplan p = false → plan_halted (pl_status p) = false → (0 < length (pl_actions p))%nat →
  (∀ a, a ∈ pl_actions p → ac_status a = APending) → midway p 0 p.
Proof.
  intros Hc Hs Hst Hn Hp. constructor; try done; [intros i a Ha|].
  - case_decide; [lia|]. apply Hp. by eapply list_elem_of_lookup_2.
  - case_decide; [lia|done].
Qed.

(** What the planner makes of it. *)
Lemma planned_midway wf s run_id ks most x p x' : plans wf s run_id x p x' → suits s ks most p →
  midway p 0 p ∧ NoDup (map ac_idempotency_key (pl_actions p)) ∧ plan_key p = (cx_workspace_id (sn_context s), run_id) ∧
  pl_context_snapshot_ref p = sn_ref s.
Proof.
  intros E (Hn & _ & Hids & Hsub & Hall).
  apply create_plan_spec in E as (allowed & policy & _ & _ & Hid & Hst & Href & Hws & Hacts & Hkeys & Hch).
  split_and!; [|done|unfold plan_key; by rw Hws Hid|done]. apply midway_start; [|done|by rw Hst|done|].
  - apply Hch; [done|]. apply Forall_forall. intros i (a & -> & Ha)%list_elem_of_fmap. by apply Hall.
  - intros a Ha. by apply Hacts.
Qed.

(** Reporting that is off is no obstacle to starting a run. *)
Lemma begins envelope wf run_id c o (w : MemWorld) :
  unless_terminal envelope wf run_id (begin_run dh envelope wf c run_id o false) w = (Ok true, w).
Proof.
  unfold unless_terminal, try_catch_if, try_catch. unfold begin_run, record_run_started. rw Hdh.
  rw (bind_step _ _ w tt w); [by destruct w|]. done.
Qed.

(** Planning a run without orchestration. *)
Lemma plan_root_tracks wf s run_id ks most (w w' : MemWorld) : plans_well wf s run_id ks most → stays w w' →
  ∃ p x x' w'', plan_root dh wf s run_id w' = (Ok p, w'') ∧ plans wf s run_id x p x' ∧ suits s ks most p ∧ stays w w''.
Proof.
  intros Hpl T. unfold plan_root.
  destruct (build_task_graph (sn_context s) wf (w_ext w')) as [g x1] eqn:Eg.
  destruct (tracks_ext _ _ _ _ _ _ _ T _ _ _ Eg) as (w1 & E1 & _ & T1); [injection Eg as _ <-; cbn; lia|].
  injection Eg as Eg' _. subst g. rw (bind_step _ _ _ _ _ E1).
  match goal with |- context [on_st (save_task_graph ?g)] => destruct (tracks_graph _ _ _ _ _ _ _ T1 g) as (w2 & E2 & T2) end.
  rw (bind_step _ _ _ _ _ E2). cbn [graph_with_plan_id tg_nodes].
  destruct (Hpl (w_ext w2)) as (p & x' & Ep & Hu & Hp).
  destruct (tracks_ext _ _ _ _ _ _ _ T2 _ _ _ Ep Hu) as (w3 & E3 & _ & T3).
  by exists p, (w_ext w2), x', w3.
Qed.

(** The plan of a new run is stored with its snapshot, and nothing else happened. *)
Definition stored_run (p : AgentPlan) (s : ContextSnapshot) (q : MemoryQueue) (w w' : MemWorld) : Prop :=
  ms_plans (w_store w') = <[plan_key p := p]> (ms_plans (w_store w)) ∧
  ms_context_snapshots (w_store w') !! (sn_workspace_id s, sn_ref s) = Some s ∧
  keys w' = keys w ∧ executed (w_log w') = executed (w_log w) ∧ w_queue w' = q ∧ w_inline w' = w_inline w ∧
  w_seen w' = w_seen w ∧ (x_uuid (w_ext w) ≤ x_uuid (w_ext w'))%nat.

Lemma created_run envelope wf s run_id most (w : MemWorld) : plans_well wf s run_id (keys w) most →
  ∃ p x x' w', let s' := snapshot_with_plan (pl_plan_id p) s in
    create_run_plan dh envelope wf s run_id None false w = (Ok (Some (p, s')), w') ∧
    plans wf s run_id x p x' ∧ suits s (keys w) most p ∧ stored_run p s' (w_queue w) w w'.
Proof.
  intros Hpl. destruct (plan_root_tracks wf s run_id (keys w) most w w Hpl (stays_refl w)) as (p & x & x' & w1 & E1 & Hp & Hs & T1).
  set (s' := snapshot_with_plan (pl_plan_id p) s). set (w2 := (on_st (save_context_snapshot s') w1).2).
  pose proof (stays_refl w2) as T. set (w3 := (on_st (save_plan p) w2).2).
  assert (T3 : tracks [] [] (<[plan_key p := p]> (ms_plans (w_store w2))) (w_queue w2) (w_inline w2) w2 w3) by (destruct T; by constructor).
  unfold create_run_plan. cbn zeta. rw (bind_step _ _ _ _ _ (begins envelope wf run_id (sn_context s) None w)).
  rw (bind_step _ _ w p w1); [unfold try_catch; by rw E1|]. fold s'.
  rw (bind_step _ _ w1 tt w2); [done|]. rw (bind_step _ _ w2 tt w3); [done|].
  rw (bind_step _ _ w3 tt w3); [unfold record_plan_created; rw Hdh; by destruct w3|].
  unfold dh_trace. lazymatch goal with |- context [trace ?a ?b ?c ?d ?e ?f ≫= _] => destruct (trace_stays a b c d e f w3) as (w4 & E4 & T4) end.
  rw (bind_step _ _ _ _ _ E4). exists p, x, x', w4. split; [done|]. split; [done|]. split; [done|].
  pose proof (tracks_stays _ _ _ _ _ _ _ _ T3 T4) as [A1 A2 A3 A4 A5 A6 A7 A8]. destruct T1 as [B1 B2 B3 B4 B5 B6 B7 B8].
  change (keys w2) with (keys w1) in A3. rw B3 in A3.
  change (w_log w2) with (w_log w1) in A4. rw B4 in A4. change (w_queue w2) with (w_queue w1) in A5.
  split_and!; [by rw A1 -B1|rw A2; apply lookup_insert_eq|rw A3; set_solver|by rw A4 !app_nil_r|by rw A5|by rw A6|by rw A7|cbn in *; lia].
Qed.

Lemma first_action_tracks envelope wf s p a (w : MemWorld) : pl_actions p !! 0%nat = Some a → next_pending_action p = Some a →
  ∃ m w', start_plan dh envelope wf s p w = (Ok tt, w') ∧
    tracks [] [] (ms_plans (w_store w)) (mq_push m (w_queue w)) (w_inline w) w w' ∧
    next_message p 0 (cs_depth (ev_causality (base (env_event envelope))) + 1) w w' m.
Proof.
  intros Ha Hn. unfold start_plan, enqueue_first_action. rw Hn.
  match goal with |- context [(ext ?m ≫= _) w] => destruct (m (w_ext w)) as [r x] eqn:Em;
    destruct (tracks_ext _ _ _ _ _ _ _ (stays_refl w) m r x Em) as (w1 & E1 & Hx & T) end.
  { injection Em as _ <-. cbn. lia. }
  injection Em as Er Ex. subst r. rw (bind_step _ _ _ _ _ E1).
  match goal with |- context [enqueue_event ?ev] => destruct (tracks_enqueue _ _ _ _ _ _ _ T ev) as (m & w2 & E2 & Hev & T2);
    assert (Hu : x_uuid (w_ext w2) = Datatypes.S (Datatypes.S (x_uuid (w_ext w1)))) by
      (pose proof (f_equal (λ z, x_uuid (w_ext z.2)) E2) as Hz; cbv beta in Hz; cbn [snd] in Hz; by rw -Hz) end.
  rw (bind_step _ _ _ _ _ E2). unfold dh_trace.
  lazymatch goal with |- context [trace ?a ?b ?c ?d ?e ?f w2] => destruct (trace_stays a b c d e f w2) as (w3 & E3 & T3) end.
  exists m, w3. split; [exact E3|]. split; [exact (tracks_stays _ _ _ _ _ _ _ _ T2 T3)|]. split.
  - eexists _, a. split; [exact Hev|]. by split_and!.
  - exists (x_uuid (w_ext w)). unfold envelope_event_id. rw Hev. split; [done|]. pose proof (tk_uuid _ _ _ _ _ _ _ T3).
    rw Hx in Hu. rw -Ex in Hu. cbn in Hu. lia.
Qed.
Lemma trigger_starts envelope wf s xh most (w : MemWorld) :
  let run_id := resolve_agent_run_id (sn_context s) in
  td_allowed (evaluate (env_event envelope)) = true →
  get_by_trigger (dh_workflows dh) (td_trigger_key (evaluate (env_event envelope))) = Some wf → wf_orchestration wf = None →
  hydrate envelope wf (w_ext w) = (Ok s, xh) → (x_uuid (w_ext w) ≤ x_uuid xh)%nat →
  plans_well wf s run_id (keys w) most → ms_plans (w_store w) !! (cx_workspace_id (sn_context s), run_id) = None →
  ∃ p x x' m w', handle_domain dh envelope w = (Ok tt, w') ∧ plans wf s run_id x p x' ∧ suits s (keys w) most p ∧
    stored_run p (snapshot_with_plan (pl_plan_id p) s) (mq_push m (w_queue w)) w w' ∧
    next_message p 0 (cs_depth (ev_causality (base (env_event envelope))) + 1) w w' m.
Proof.
  intros run_id Hal Hwf Horch Eh Huh Hpl Hnone. unfold handle_domain, route. rw Hal. cbn [negb ro_decision ro_workflow]. rw Hal Hwf.
  destruct (tracks_ext _ _ _ _ _ _ _ (stays_refl w) _ _ _ Eh Huh) as (w1 & E1 & _ & T1).
  rw (bind_step _ _ _ _ _ E1). cbn zeta. rw Horch. fold run_id. unfold handle_single.
  destruct T1 as [A1 A2 A3 A4 A5 A6 A7 A8]. assert (Hks : keys w1 = keys w) by (rw A3; set_solver).
  rw (bind_step _ _ _ _ _ (get_plan_run _ _ w1)) A1 Hnone. cbn zeta.
  destruct (created_run envelope wf s run_id most w1) as (p & x & x' & w2 & E2 & Hp & Hs & B1 & B2 & B3 & B4 & B5 & B6 & B7 & B8).
  { by rw Hks. }
  rw (bind_step _ _ _ _ _ E2). destruct (planned_midway _ _ _ _ _ _ _ _ Hp Hs) as (Hmid & _ & _ & _).
  destruct (lookup_lt_is_Some_2 (pl_actions p) 0%nat (proj1 Hs)) as [a Ha].
  destruct (first_action_tracks envelope wf (snapshot_with_plan (pl_plan_id p) s) p a w2 Ha (midway_next _ _ _ _ Hmid Ha))
    as (m & w3 & E3 & [C1 C2 C3 C4 C5 C6 C7 C8] & Hm & z & Hz & Hl).
  rw Hks in Hs. exists p, x, x', m, w3. split; [exact E3|]. split; [done|]. split; [done|]. split.
  - split_and!; [by rw C1 B1 A1|by rw C2|rw C3 B3 Hks; set_solver|by rw C4 B4 A4 !app_nil_r|by rw C5 B5 A5|by rw C6 B6|by rw C7 B7|lia].
  - split; [done|]. exists z. split; [done|lia].
Qed.
End trigger.

(** ** Property *)

(** C2: a trigger is carried through. With reporting off, take an event in the queue that
    the policy allows and whose workflow plans without an orchestration, for a run that has
    no plan yet. If its context is hydrated, planning gives a plan whose actions are
    cleared in every state of the environment and whose tools always succeed and emit no
    events, and the bounds admit its length, then the runner ends by
    itself with the plan it made stored as completed, whether it goes on inside an
    invocation or through the queue: each action was executed once, in order, nothing else was
    executed, exactly their keys were recorded, the queue is empty and no message failed. *)
Theorem run_completes_trigger `{Env} `{AgentFactory} `{ContextHydration} (ru : RecursionRunner) (wf : WorkflowDefinition)
    (s : ContextSnapshot) (xh : Ext) (m : QueueMessage) (most : Z) (w : MemWorld) :
  let envelope := qm_envelope m in
  let event := env_event envelope in
  let run_id := resolve_agent_run_id (sn_context s) in
  let key := (cx_workspace_id (sn_context s), run_id) in
  ars_enabled (rt_sync (ru_action ru)) = false → ars_enabled (dh_sync (ru_domain ru)) = false → Inj (=) (=) uuid4_at →
  event_kind event ∈ ["domain"; "scheduled"; "manual"] → td_allowed (evaluate event) = true →
  get_by_trigger (dh_workflows (ru_domain ru)) (td_trigger_key (evaluate event)) = Some wf → wf_orchestration wf = None →
  hydrate envelope wf (w_ext w) = (Ok s, xh) → (x_uuid (w_ext w) ≤ x_uuid xh)%nat → sn_workspace_id s = cx_workspace_id (sn_context s) →
  plans_well ru wf s run_id (keys w) most → ms_plans (w_store w) !! key = None →
  mq_messages (w_queue w) = [m] → new_event m w → 0 ≤ w_inline w →
  most < ru_max_recursion_depth ru → cs_depth (ev_causality (base event)) + most ≤ ru_max_recursion_depth ru →
  ∃ p x x' fuel w' p', plans ru wf s run_id x p x' ∧
    (∀ f, (fuel ≤ f)%nat → run_loop ru f 0 w = (Ok true, w')) ∧
    ms_plans (w_store w') = <[key := p']> (ms_plans (w_store w)) ∧ pl_status p' = PCompleted ∧
    action_ids (pl_actions p') = action_ids (pl_actions p) ∧ (∀ a, a ∈ pl_actions p' → ac_status a = ACompleted) ∧
    executed (w_log w') = executed (w_log w) ++ map ac_idempotency_key (pl_actions p) ∧
    keys w' = list_to_set (map ac_idempotency_key (pl_actions p)) ∪ keys w ∧
    mq_messages (w_queue w') = [] ∧ mq_failed (w_queue w') = mq_failed (w_queue w).
Proof.
  intros envelope event run_id key Hoff Hdh Hinj Hkind Hal Hwf Horch Hhyd Hxh Hws Hpl Hnone Hm [Hseen Hnew] Hu Hmost Hd.
  set (id := envelope_event_id envelope). set (w0 := (log (LHandle id) (add_seen id (taken m w)).2).2).
  destruct (trigger_starts ru Hdh envelope wf s xh most w0) as (p & x & x' & m' & w1 & Eh & Hp & Hs & (A1 & A2 & A3 & A4 & A5 & A6 & A7 & A8) & Hask & z & Hz & Hl);
    try done.
  destruct (planned_midway ru _ _ _ _ _ _ _ _ Hp Hs) as (Hmid & Hkeys & Hkey & Href). destruct Hs as (Hn & Hmost' & _ & _ & Hall).
  assert (Hq0 : mq_messages (w_queue w0) = [] ∧ mq_failed (w_queue w0) = mq_failed (w_queue w)) by (cbn; unfold mq_pop; by rw Hm).
  destruct Hq0 as [Hq0 Hf0].
  assert (Ep : process_message ru 0 m (taken m w) = (Ok (0 + 1), (ack_message m w1).2)).
  { apply process_hands; [unfold exceeds_max_depth; fold envelope event; lia|done|]. rw -Eh. unfold handle_event. fold envelope event.
    unfold event in Hkind. by destruct (env_event envelope); [..|set_solver|set_solver|set_solver]. }
  set (s' := snapshot_with_plan (pl_plan_id p) s) in *. set (w2 := (ack_message m w1).2) in *.
  destruct (loop_runs ru Hoff Hinj p s' (λ a Ha, proj1 (proj2 (Hall a Ha))) Hkeys 0 1
    (cs_depth (ev_causality (base event)) + 1) m' p w2) as (fuel & w' & Hrun & (p' & Hmid' & F1) & F2 & F3 & F4 & F5); try done; try lia.
  { constructor; [|done| |].
    - change (ms_plans (w_store w2)) with (ms_plans (w_store w1)). rw A1. apply lookup_insert_eq.
    - change (ms_context_snapshots (w_store w2)) with (ms_context_snapshots (w_store w1)). injection Hkey as Hk1 _. by rw Hk1 Href -Hws.
    - intros i a _ Ha. change (keys w2) with (keys w1). rw A3. by apply Hall; eapply list_elem_of_lookup_2. }
  { change (0 ≤ w_inline w1). by rw A6. }
  { change (mq_messages (w_queue w1) = [m']). by rw A5 /= Hq0. }
  { split; change (w_seen w2) with (w_seen w1); rw A7 Hz; change (w_seen w0) with ({[id]} ∪ w_seen w); change (x_uuid (w_ext w2)) with (x_uuid (w_ext w1)).
    - rw not_elem_of_union not_elem_of_singleton. apply Hnew. cbn in *. lia.
    - intros y Hy. split; [intros ?%Hinj; lia|]. rw not_elem_of_union not_elem_of_singleton. apply Hnew. cbn in *. lia. }
  assert (Hb : between p 0 (length (pl_actions p)) = map ac_idempotency_key (pl_actions p)).
  { unfold between. by rw Nat.sub_0_r drop_0 firstn_all. }
  rw Hb in F2, F3. destruct (midway_end _ _ Hmid') as (Hc & _ & Hdone).
  exists p, x, x', (Datatypes.S fuel), w', p'. split; [done|]. split.
  { intros [|f] Hf; [lia|]. rw (loop_takes ru f 0 m w Hm) (bind_step _ _ _ _ _ Ep). apply Hrun. lia. }
  split_and!; [|done|by rw (mw_ids _ _ _ Hmid')|done| | |done|].
  - rw F1. change (ms_plans (w_store w2)) with (ms_plans (w_store w1)). by rw A1 insert_insert_eq Hkey.
  - rw F3. change (executed (w_log w2)) with (executed (w_log w1 ++ [LAck id])). rw executed_app A4.
    change (w_log w0) with (w_log w ++ [LHandle id]). by rw executed_app !app_nil_r.
  - rw F2. change (keys w2) with (keys w1). by rw A3.
  - rw F5. change (mq_failed (w_queue w2)) with (mq_failed (w_queue w1)). by rw A5 -Hf0.
Qed.

(** C9: a plan runs to its end. With reporting off, take a stored plan that is not a
    sub-plan, whose actions depend on each other in a chain, are pending and cleared in
    every state of the environment, have keys of their own that were not recorded, and
    whose tools always succeed and emit no events, with only the event
    of its first action in the queue and bounds that admit its length. There is a number
    of iterations from which on the runner ends by itself, whether it goes on inside an
    invocation or through the queue: the stored plan is completed, its actions were
    executed once each and in order and nothing else was, exactly their keys were
    recorded, the queue is empty, and no message failed. *)
Theorem run_completes_plan `{Env} `{AgentFactory} `{ContextHydration} (ru : RecursionRunner) (p : AgentPlan)
    (s : ContextSnapshot) (m : QueueMessage) (d : Z) (w : MemWorld) :
  ars_enabled (rt_sync (ru_action ru)) = false → Inj (=) (=) uuid4_at →
  chained_plan p → is_subplan p = false → plan_halted (pl_status p) = false →
  (∀ a, a ∈ pl_actions p → ac_status a = APending ∧ runs_well (ru_action ru) a (sn_context s) ∧ ac_idempotency_key a ∉ keys w) →
  NoDup (map ac_idempotency_key (pl_actions p)) →
  ms_plans (w_store w) !! plan_key p = Some p →
  ms_context_snapshots (w_store w) !! (pl_workspace_id p, pl_context_snapshot_ref p) = Some s →
  mq_messages (w_queue w) = [m] → asks p 0 d (qm_envelope m) → new_event m w → 0 ≤ w_inline w →
  Z.of_nat (length (pl_actions p)) ≤ ru_max_recursion_depth ru → d + Z.of_nat (length (pl_actions p)) - 1 ≤ ru_max_recursion_depth ru →
  ∃ fuel w' p', (∀ f, (fuel ≤ f)%nat → run_loop ru f 0 w = (Ok true, w')) ∧
    ms_plans (w_store w') = <[plan_key p := p']> (ms_plans (w_store w)) ∧ pl_status p' = PCompleted ∧
    action_ids (pl_actions p') = action_ids (pl_actions p) ∧ (∀ a, a ∈ pl_actions p' → ac_status a = ACompleted) ∧
    executed (w_log w') = executed (w_log w) ++ map ac_idempotency_key (pl_actions p) ∧
    keys w' = list_to_set (map ac_idempotency_key (pl_actions p)) ∪ keys w ∧
    mq_messages (w_queue w') = [] ∧ mq_failed (w_queue w') = mq_failed (w_queue w).
Proof.
  intros Hoff Hinj Hch Hsub Hst Hacts Hkeys Hp Hs Hm Hask Hnew Hu Hn Hd.
  assert (Hlt : (0 < length (pl_actions p))%nat) by (destruct Hask as (? & ? & _ & Ha & _); by eapply lookup_lt_Some).
  assert (Hw : on_way p s 0 p w).
  { constructor; [done| |done|intros i a _ Ha; apply Hacts; by eapply list_elem_of_lookup_2].
    constructor; try done; [intros i a Ha|].
    - case_decide; [lia|]. apply Hacts. by eapply list_elem_of_lookup_2.
    - case_decide; [lia|done]. }
  destruct (loop_runs ru Hoff Hinj p s (λ a Ha, proj1 (proj2 (Hacts a Ha))) Hkeys 0 0 d m p w)
    as (fuel & w' & Hrun & (p' & Hmid & Hpl) & Hks & Hlog & Hq & Hf); try done; try lia.
  exists fuel, w', p'. destruct (midway_end _ _ Hmid) as (Hc & _ & Hall).
  assert (Hb : between p 0 (length (pl_actions p)) = map ac_idempotency_key (pl_actions p)).
  { unfold between. by rw Nat.sub_0_r drop_0 firstn_all. }
  rw Hb in Hks, Hlog. split_and!; try done. by rw (mw_ids _ _ _ Hmid).
Qed.

#[local] Existing Instance env_ok.
#[local] Existing Instance sample_factory.
#[local] Existing Instance sample_hydration.

Definition first_message : QueueMessage :=
  {| qm_message_id := "m"; qm_envelope := sample_envelope "a"; qm_receipt := None |}.

(** The plan of three actions and the event of its first one. *)
Definition waiting_world : MemWorld := {|
  w_store := w_store sample_world; w_queue := mq_push first_message memory_queue_empty; w_ext := ext0; w_inline := 0;
  w_seen := ∅; w_log := [] |}.

Lemma env_ok_ids : Inj (=) (=) uuid4_at.
Proof. intros i j Hij. apply (inj pretty). by apply (inj (String.app "u")). Defined.

(** The tool of the sample registry does what is asked of it. *)
Lemma sample_action_runs a : ac_tool_name a = "create_workitem" → ac_requires_approval a = false →
  ac_expected_entity_versions a = [] → runs_well sample_runtime a (sample_context "ws").
Proof.
  intros Ht Ha Hv. split; [done|]. split.
  - intros x. eexists _, x. split; [apply validate_cleared; [by rw /permitted Ht|done..]|done].
  - exists (sample_tool "create_workitem" "auto_commit"). split; [by rw Ht|]. intros x. eexists _, _.
    split; [reflexivity|]. split; [done|]. split; [done|]. cbn. lia.
Defined.

Lemma run_completes_plan_witness :
  ∃ fuel w', (∀ f, (fuel ≤ f)%nat → run_loop sample_runner f 0 waiting_world = (Ok true, w')) ∧
    option_map pl_status (ms_plans (w_store w') !! ("ws", "run-1")) = Some PCompleted ∧
    executed (w_log w') = ["k:a"; "k:b"; "k:c"] ∧ mq_messages (w_queue w') = [].
Proof.
  destruct (run_completes_plan sample_runner sample_plan sample_snapshot first_message 0 waiting_world)
    as (fuel & w' & p' & Hrun & Hpl & Hst & _ & _ & Hlog & _ & Hq & _); try done.
  - exact env_ok_ids.
  - exact sample_plan_chained.
  - intros a Ha. rw /= !elem_of_cons in Ha. destruct Ha as [->|[->|[->|[]%not_elem_of_nil]]];
      (split; [done|]; split; [by apply sample_action_runs|by apply not_elem_of_empty]).
  - apply (bool_decide_unpack _). vm_compute. exact I.
  - exists sample_base, (sample_action "a" []). done.
  - exists fuel, w'. split; [exact Hrun|]. rw Hpl Hlog. split; [|done].
    change (plan_key sample_plan) with ("ws", "run-1"). rw lookup_insert_eq /=. by rw Hst.
Defined.

(** The creation of a story. *)
Definition trigger_message : QueueMessage :=
  {| qm_message_id := "m"; qm_envelope := cx_source_event (sample_context "ws"); qm_receipt := None |}.
Definition trigger_world : MemWorld := {|
  w_store := memory_store_empty; w_queue := mq_push trigger_message memory_queue_empty; w_ext := ext0; w_inline := 0;
  w_seen := ∅; w_log := [] |}.

Definition sample_run_id : string := Eval vm_compute in resolve_agent_run_id (sample_context "ws").
Definition trigger_plan : AgentPlan := Eval vm_compute in
  match (create_plan sample_planner (sample_context "ws") "ctx" sample_workflow sample_run_id None None None None ext0).1 with
  | Ok p => p
  | Raise _ => sample_plan
  end.

Lemma trigger_plan_made x : plans sample_runner sample_workflow sample_snapshot sample_run_id x trigger_plan x.
Proof. vm_compute. reflexivity. Defined.

Lemma run_completes_trigger_witness :
  ∃ fuel w', (∀ f, (fuel ≤ f)%nat → run_loop sample_runner f 0 trigger_world = (Ok true, w')) ∧
    option_map pl_status (ms_plans (w_store w') !! ("ws", sample_run_id)) = Some PCompleted ∧
    executed (w_log w') = map ac_idempotency_key (pl_actions trigger_plan) ∧ mq_messages (w_queue w') = [].
Proof.
  destruct (run_completes_trigger sample_runner sample_workflow sample_snapshot ext0 trigger_message 3 trigger_world)
    as (p & x & x' & fuel & w' & p' & Hp & Hrun & Hpl & Hst & _ & _ & Hlog & _ & Hq & _); try done.
  - exact env_ok_ids.
  - apply (bool_decide_unpack _). vm_compute. exact I.
  - intros x. exists trigger_plan, x. split; [apply trigger_plan_made|]. split; [done|]. split; [simpl; lia|].
    split; [simpl; lia|]. split; [apply (bool_decide_unpack _); vm_compute; exact I|]. split; [done|].
    intros a Ha. rw /= !elem_of_cons in Ha. destruct Ha as [->|[->|[->|[]%not_elem_of_nil]]];
      (split; [done|]; split; [by apply sample_action_runs|by apply not_elem_of_empty]).
  - exists fuel, w'. split; [exact Hrun|].
    assert (p = trigger_plan) as -> by (pose proof (eq_trans (eq_sym Hp) (trigger_plan_made x)) as Hm; congruence).
    rw Hpl Hlog. split; [|done]. by rw (lookup_insert_eq (ms_plans (w_store trigger_world)) ("ws", sample_run_id)) /= Hst.
Defined.

(** A plan that the bounds do not admit is left half done: every action of the chain is one
    deeper than the one before, and the event of the twelfth is refused. *)
Definition long_plan : AgentPlan :=
  plan_update (map (λ i, sample_action ("a" +:+ pretty i) (match i with O => [] | Datatypes.S j => ["a" +:+ pretty j] end)) (seq 0 13))
    PPlanned 0 sample_plan.

Example long_plan_abandoned :
  let '(r, w') := run_loop sample_runner 20 0 {|
      w_store := w_store (sample_world_with long_plan);
      w_queue := mq_push {| qm_message_id := "m"; qm_envelope := sample_envelope "a0"; qm_receipt := None |} memory_queue_empty;
      w_ext := ext0; w_inline := 0; w_seen := ∅; w_log := [] |} in
  r = Ok true ∧ length (executed (w_log w')) = 11%nat ∧
  option_map pl_status (ms_plans (w_store w') !! ("ws", "run-1")) = Some PRunning ∧
  map snd (mq_failed (w_queue w')) = ["max_recursion_depth_exceeded"].
Proof. vm_compute. done. Qed.
