(* ===== verification/Settings.v ===== *)
(** * Settings, logging level and notifications
    ([src/infrastructure/config/settings.py], [observability/logging_config.py],
    [notifications/discord_notifier.py])

    The settings read from the process environment, the level of the logger, and the
    webhook notifier, which never raises.  [os.environ] is the dict [environ]. *)

From S2P Require Import Prelude PyStr PyVal Json JsonLoads Env Client WorkItemTools.

(** ** [int] of a text *)

Definition MAX_INT_DIGITS : Z := 4300.

Definition int_digits (s : string) (l : list ascii) : res Z :=
  match drop_underscores false l with
  | Some (c :: ds) =>
      if forallb is_digit (c :: ds) then
        if MAX_INT_DIGITS <? Z.of_nat (length (c :: ds)) then
          err ValueError ("Exceeds the limit (4300 digits) for integer string conversion: value has " +:+
            pretty (length (c :: ds)) +:+ " digits; use sys.set_int_max_str_digits() to increase the limit")
        else Ok (digits_val (c :: ds))
      else err ValueError ("invalid literal for int() with base 10: " +:+ repr_str s)
  | _ => err ValueError ("invalid literal for int() with base 10: " +:+ repr_str s)
  end.

Definition py_int (s : string) : res Z :=
  match chars (strip s) with
  | c :: l =>
      if N.eqb (code c) 45 then z ← int_digits s l; mret (- z)
      else if N.eqb (code c) 43 then int_digits s l
      else int_digits s (c :: l)
  | [] => err ValueError ("invalid literal for int() with base 10: " +:+ repr_str s)
  end.

(** ** Settings *)

Record Settings := {
  se_app_env : string;
  se_state_backend : string;
  se_queue_backend : string;
  se_llm_provider : string;
  se_gemini_api_key : option string;
  se_default_gemini_model : string;
  se_gemini_flash_model : string;
  se_embedding_model : string;
  se_embedding_dimensions : Z;
  se_max_recursion_depth : Z;
  se_oci_queue_ocid : option string;
  se_oci_queue_messages_endpoint : option string;
  se_object_storage_bucket_name : option string;
  se_object_storage_namespace : option string;
  se_prism_api_base_url : option string;
  se_prism_api_token : option string;
  se_discord_webhook_url : option string;
  se_log_level : string;
  se_log_traces : bool;
  se_persist_agent_memories : bool
}.

(** [Settings()] *)
Definition default_settings : Settings := {|
  se_app_env := "local"; se_state_backend := "memory"; se_queue_backend := "memory"; se_llm_provider := "gemini";
  se_gemini_api_key := None; se_default_gemini_model := "gemini-3.1-pro-preview";
  se_gemini_flash_model := "gemini-2.5-flash"; se_embedding_model := "gemini-embedding-001";
  se_embedding_dimensions := 1536; se_max_recursion_depth := 10; se_oci_queue_ocid := None;
  se_oci_queue_messages_endpoint := None; se_object_storage_bucket_name := None;
  se_object_storage_namespace := None; se_prism_api_base_url := None; se_prism_api_token := None;
  se_discord_webhook_url := None; se_log_level := "INFO"; se_log_traces := false;
  se_persist_agent_memories := true |}.

(** The constraints of the fields: [Literal] and [ge=1]. *)
Definition settings_valid (s : Settings) : bool :=
  bool_decide (se_app_env s ∈ ["local"; "prod"]) && bool_decide (se_state_backend s ∈ ["memory"; "prism_api"]) &&
  bool_decide (se_queue_backend s ∈ ["memory"; "oci"]) && bool_decide (se_llm_provider s = "gemini") &&
  (1 <=? se_max_recursion_depth s).

Section from_env.
Context `{Env} (environ : dict string).

Definition getenv (k default : string) : string := dict_get_or default k environ.

(** [os.getenv(k) or None] *)
Definition getenv_opt (k : string) : option string :=
  match dict_get k environ with Some s => if str_truthy s then Some s else None | None => None end.

Definition getenv_flag (k : string) : bool := bool_decide (py_lower (getenv k "true") = "true").

Definition from_env : res Settings :=
  embedding_dimensions ← py_int (getenv "EMBEDDING_DIMENSIONS" "1536");
  max_recursion_depth ← py_int (getenv "MAX_RECURSION_DEPTH" "10");
  let s := {|
    se_app_env := getenv "APP_ENV" "local"; se_state_backend := getenv "STATE_BACKEND" "memory";
    se_queue_backend := getenv "QUEUE_BACKEND" "memory"; se_llm_provider := getenv "LLM_PROVIDER" "gemini";
    se_gemini_api_key := getenv_opt "GEMINI_API_KEY";
    se_default_gemini_model := getenv "DEFAULT_GEMINI_MODEL" "gemini-3.1-pro-preview";
    se_gemini_flash_model := getenv "GEMINI_FLASH_MODEL" "gemini-2.5-flash";
    se_embedding_model := getenv "EMBEDDING_MODEL" "gemini-embedding-001";
    se_embedding_dimensions := embedding_dimensions; se_max_recursion_depth := max_recursion_depth;
    se_oci_queue_ocid := dict_get "OCI_QUEUE_OCID" environ;
    se_oci_queue_messages_endpoint := getenv_opt "OCI_QUEUE_MESSAGES_ENDPOINT";
    se_object_storage_bucket_name := getenv_opt "OCI_OBJECT_STORAGE_BUCKET_NAME";
    se_object_storage_namespace := getenv_opt "OCI_OBJECT_STORAGE_NAMESPACE";
    se_prism_api_base_url := dict_get "PRISM_API_BASE_URL" environ;
    se_prism_api_token := getenv_opt "PRISM_API_TOKEN";
    se_discord_webhook_url := getenv_opt "DISCORD_WEBHOOK_URL";
    se_log_level := getenv "LOG_LEVEL" "INFO"; se_log_traces := getenv_flag "LOG_TRACES";
    se_persist_agent_memories := getenv_flag "PERSIST_AGENT_MEMORIES" |} in
  if settings_valid s then Ok s else err ValueError (validation_text "Settings").
End from_env.

(** ** The logger *)

(** The names [logging] knows, with their numbers. *)
Definition LOG_LEVELS : dict Z :=
  [("CRITICAL", 50); ("FATAL", 50); ("ERROR", 40); ("WARN", 30); ("WARNING", 30); ("INFO", 20); ("DEBUG", 10);
   ("NOTSET", 0)].

(** [configure_logging]: the level the logger has afterwards.  The lines given to the
    logger are in [Ext]'s log whatever the level. *)
Definition configure_logging (level : string) : res Z :=
  match dict_get (py_upper level) LOG_LEVELS with
  | Some n => Ok n
  | None => err ValueError ("Unknown level: " +:+ repr_str (py_upper level))
  end.

(** The logger of a process: [_handler_attached], the handlers that print to standard
    output, whether records go to the handlers of the root logger too, and the level. *)
Record PrismLogger := { lg_handler_attached : bool; lg_handlers : nat; lg_propagate : bool; lg_level : Z }.

Definition fresh_logger : PrismLogger := {| lg_handler_attached := false; lg_handlers := 0; lg_propagate := true; lg_level := 0 |}.

(** The handler is attached once per process, also when the level is then refused. *)
Definition attach_handler (l : PrismLogger) : PrismLogger :=
  if lg_handler_attached l then l
  else {| lg_handler_attached := true; lg_handlers := S (lg_handlers l); lg_propagate := false; lg_level := lg_level l |}.

(** [configure_logging], on the logger. *)
Definition configure_logger (level : string) : st PrismLogger unit :=
  modify attach_handler ;;
  n ← lift_res (configure_logging level);
  modify (λ l, {| lg_handler_attached := lg_handler_attached l; lg_handlers := lg_handlers l;
                  lg_propagate := lg_propagate l; lg_level := n |}).

(** ** The notifier *)

Definition MAX_CONTENT : nat := Z.to_nat 1900.

Record DiscordNotifier := {
  dn_webhook_url : option string;
  dn_transport : string → dict pyval → st Ext unit
}.

Definition dn_enabled (n : DiscordNotifier) : bool := ostr_truthy (dn_webhook_url n).

(** [send] *)
Definition dn_send (n : DiscordNotifier) (content : string) : st Ext unit :=
  if negb (dn_enabled n) || negb (str_truthy content) then mret tt
  else try_catch (dn_transport n (ostr_or (dn_webhook_url n) "") [("content", PStr (str_take MAX_CONTENT content))])
         (λ _, mret tt).

Section post.
Context `{Env}.

(** [_post], the default transport *)
Definition discord_post (url : string) (body : dict pyval) : st Ext unit :=
  lift_res (check_url url) ;;
  r ← urlopen {| rq_method := "POST"; rq_url := url; rq_headers := [("Content-Type", "application/json")];
                 rq_body := Some (PDict body) |};
  match r with
  | ReplyOk _ => mret tt
  | ReplyHttpError status detail => raise (Exn (OtherError "HTTPError") ("HTTP Error " +:+ pretty status +:+ ": " +:+ detail))
  | ReplyUnreachable message => raise (Exn (OtherError "URLError") message)
  | ReplyBroken name message => raise (Exn (OtherError name) message)
  | ReplyRaises e => raise e
  end.

(** [DiscordNotifier(settings.discord_webhook_url)] *)
Definition discord_notifier (webhook_url : option string) : DiscordNotifier :=
  {| dn_webhook_url := webhook_url; dn_transport := discord_post |}.
End post.

(** ** Properties *)

Lemma py_int_ValueError s e : py_int s = Raise e → exc_type e = ValueError.
Proof.
  assert (Hd : ∀ l e, int_digits s l = Raise e → exc_type e = ValueError).
  { intros l e'. unfold int_digits, err. destruct (drop_underscores false l) as [[|c ds]|]; [by intros [= <-]| |by intros [= <-]].
    destruct (forallb _ _); [|by intros [= <-]]. destruct (_ <? _); by intros [= <-]. }
  unfold py_int, mbind, res_bind, err. destruct (chars (strip s)) as [|c l]; [by intros [= <-]|].
  destruct (N.eqb (code c) 45); [|destruct (N.eqb (code c) 43); apply Hd].
  destruct (int_digits s l) eqn:E; [done|]. intros [= <-]. by eapply Hd.
Qed.

(** Settings that are read are valid - a known environment, backends and
    provider, and a recursion depth of at least one - and anything the variables say
    wrongly is a [ValueError]; an empty environment gives the defaults of the class,
    except that traces are logged. *)
Theorem from_env_spec `{Env} environ :
  match from_env environ with
  | Ok s =>
      se_app_env s ∈ ["local"; "prod"] ∧ se_state_backend s ∈ ["memory"; "prism_api"] ∧
      se_queue_backend s ∈ ["memory"; "oci"] ∧ se_llm_provider s = "gemini" ∧ 1 ≤ se_max_recursion_depth s ∧
      py_int (getenv environ "MAX_RECURSION_DEPTH" "10") = Ok (se_max_recursion_depth s) ∧
      (∀ k, k ∈ [se_gemini_api_key s; se_oci_queue_messages_endpoint s; se_object_storage_bucket_name s;
                 se_object_storage_namespace s; se_prism_api_token s; se_discord_webhook_url s] → k ≠ Some "")
  | Raise e => exc_type e = ValueError
  end ∧
  from_env [] = Ok {|
    se_app_env := se_app_env default_settings; se_state_backend := se_state_backend default_settings;
    se_queue_backend := se_queue_backend default_settings; se_llm_provider := se_llm_provider default_settings;
    se_gemini_api_key := None; se_default_gemini_model := se_default_gemini_model default_settings;
    se_gemini_flash_model := se_gemini_flash_model default_settings;
    se_embedding_model := se_embedding_model default_settings;
    se_embedding_dimensions := se_embedding_dimensions default_settings;
    se_max_recursion_depth := se_max_recursion_depth default_settings; se_oci_queue_ocid := None;
    se_oci_queue_messages_endpoint := None; se_object_storage_bucket_name := None;
    se_object_storage_namespace := None; se_prism_api_base_url := None; se_prism_api_token := None;
    se_discord_webhook_url := None; se_log_level := se_log_level default_settings; se_log_traces := true;
    se_persist_agent_memories := se_persist_agent_memories default_settings |}.
Proof.
  split; [|vm_compute; reflexivity]. unfold from_env, mbind, res_bind.
  destruct (py_int (getenv environ "EMBEDDING_DIMENSIONS" "1536")) as [dims|e] eqn:Ed; [|by eapply py_int_ValueError].
  destruct (py_int (getenv environ "MAX_RECURSION_DEPTH" "10")) as [depth|e] eqn:Em; [|by eapply py_int_ValueError].
  set (s := {| se_app_env := _ |}). destruct (settings_valid s) eqn:Ev; [|done].
  unfold settings_valid in Ev. rw !andb_true_iff !bool_decide_eq_true Z.leb_le in Ev.
  destruct Ev as [[[[H1 H2] H3] H4] H5]. split_and!; try done.
  assert (Hopt : ∀ k, getenv_opt environ k ≠ Some "").
  { intros k. unfold getenv_opt. destruct (dict_get k environ) as [[|]|]; done. }
  intros k Hk. cbn in Hk. rw !elem_of_cons in Hk. destruct_or! Hk; try (subst k; apply Hopt). by apply not_elem_of_nil in Hk.
Qed.

(** A notification never raises and sends at most one request, to the webhook, with the
    first 1900 characters of the message, whatever the server answers; none for a webhook
    that is not a URL. *)
Definition notification (url : option string) (content : string) : list request :=
  match url with
  | Some u =>
      if str_truthy u && str_truthy content && url_ok u then
        [{| rq_method := "POST"; rq_url := u; rq_headers := [("Content-Type", "application/json")];
            rq_body := Some (PDict [("content", PStr (str_take MAX_CONTENT content))]) |}]
      else []
  | None => []
  end.

Lemma dn_send_run `{Env} url content x :
  ∃ x', dn_send (discord_notifier url) content x = (Ok tt, x') ∧ x_log x' = x_log x ∧ x_versions x' = x_versions x ∧
    x_requests x' = notification url content ++ x_requests x.
Proof.
  unfold dn_send, dn_enabled, discord_notifier, notification. cbn [dn_webhook_url dn_transport].
  destruct url as [u|]; [|by exists x]. unfold ostr_truthy.
  destruct (str_truthy u) eqn:Eu; [|by exists x]. destruct (str_truthy content); [|by exists x].
  cbn [negb orb andb]. unfold try_catch, discord_post, mbind, st_bind, ostr_or, str_or. rw Eu.
  generalize (str_take MAX_CONTENT content). intros text. unfold url_ok, lift_res.
  destruct (check_url u); cbn [is_Ok andb]; [|by exists x]. unfold urlopen. destruct (http_reply _ _); cbn; eexists; split; first [reflexivity|done].
Qed.

(** One configuration, of a logger that was configured before or not. *)
Lemma configure_step v l : lg_handlers (attach_handler l) = 1%nat → lg_propagate (attach_handler l) = false →
  ∃ l', try_catch (configure_logger v) (λ _, mret tt) l = (Ok tt, l') ∧ lg_handler_attached l' = true ∧
    lg_handlers l' = 1%nat ∧ lg_propagate l' = false ∧
    lg_level l' = match configure_logging v with Ok n => n | Raise _ => lg_level l end.
Proof.
  intros Hh Hp. assert (Ha : lg_handler_attached (attach_handler l) = true) by (unfold attach_handler; by destruct (lg_handler_attached l) eqn:E).
  unfold try_catch, configure_logger, mbind, st_bind, modify, lift_res.
  destruct (configure_logging v); (eexists; split; [reflexivity|]); cbn; split_and!; try done.
  unfold attach_handler. by destruct (lg_handler_attached l).
Qed.

(** A process whose function is invoked again and again writes each line once: however
    often the logger is configured, with whatever levels, it has one handler, it does not
    propagate, and its level is that of the last configuration that was accepted. *)
Theorem logger_configured_once level levels :
  let '(r, l) := map_st (λ v, try_catch (configure_logger v) (λ _, mret tt)) (level :: levels) fresh_logger in
  is_Ok r = true ∧ lg_handlers l = 1%nat ∧ lg_propagate l = false ∧
  lg_level l = foldl (λ n v, match configure_logging v with Ok m => m | Raise _ => n end) 0 (level :: levels).
Proof.
  assert (Hall : ∀ levels l, lg_handler_attached l = true ∧ lg_handlers l = 1%nat ∧ lg_propagate l = false →
    let '(r, l') := map_st (λ v, try_catch (configure_logger v) (λ _, mret tt)) levels l in
    is_Ok r = true ∧ lg_handlers l' = 1%nat ∧ lg_propagate l' = false ∧
    lg_level l' = foldl (λ n v, match configure_logging v with Ok m => m | Raise _ => n end) (lg_level l) levels).
  { clear level levels. induction levels as [|v levels IH]; intros l (Ha & Hh & Hp); [done|].
    destruct (configure_step v l) as (l1 & E & H1 & H2 & H3 & H4); [by unfold attach_handler; rw Ha..|].
    cbn [map_st foldl]. rw (bind_step _ _ _ _ _ E) -H4. specialize (IH l1 (conj H1 (conj H2 H3))).
    destruct (map_st _ levels l1) as [[ys|e] l2] eqn:E2; [|by destruct IH]. by rw (bind_step _ _ _ _ _ E2). }
  destruct (configure_step level fresh_logger) as (l1 & E & H1 & H2 & H3 & H4); [done..|].
  specialize (Hall levels l1 (conj H1 (conj H2 H3))). cbn [map_st foldl]. rw (bind_step _ _ _ _ _ E).
  change (lg_level fresh_logger) with 0 in H4. rw -H4.
  destruct (map_st _ levels l1) as [[ys|e] l2] eqn:E2; [|by destruct Hall]. by rw (bind_step _ _ _ _ _ E2).
Qed.
