(* ===== verification/OciAuth.v ===== *)
(** * OCI credentials and clients
    ([src/infrastructure/oci_auth.py], [object_storage/oci_client.py],
    [vault/oci_secrets.py], parts of [queue/oci_queue.py] and
    [object_storage/oci_payload_store.py])

    Where the credentials of the OCI clients come from: a principal the platform signs
    for, an API key in the environment, or the configuration file.  The SDK is the class
    [OciSdk]; the private key is read in the forms an operator writes it in. *)

From Stdlib Require Import ZifyBool ZifyN.
From S2P Require Import Prelude PyStr Encodings PyVal Json JsonLoads Events Plans Policies Env Client Settings.

(** The SDK: the import of the package, its signers, its configuration file and the
    constructors of its clients; a response of the vault is the content of the secret
    bundle, when there is one and it is a [str]. *)
Class OciSdk := {
  oci_installed : bool;
  oci_signer : Type;
  get_resource_principals_signer : res oci_signer;
  InstancePrincipalsSecurityTokenSigner : res oci_signer;
  config_from_file : res (dict text);
  QueueClient : Type;
  ObjectStorageClient : Type;
  SecretsClient : Type;
  new_queue_client : dict text → option oci_signer → option string → res QueueClient;
  new_object_storage_client : dict text → option oci_signer → res ObjectStorageClient;
  new_secrets_client : dict text → option oci_signer → res SecretsClient;
  get_secret_bundle : SecretsClient → string → res (option string)
}.

(** [import oci] *)
Definition import_oci `{OciSdk} (usage : string) : res unit :=
  if oci_installed then Ok tt else err RuntimeError ("Install the prod extra to use " +:+ usage +:+ ".").

(** ** The private key *)

(** [str.strip] and [in] on code points; the white space of Unicode. *)
Definition text_space (n : N) : bool :=
  (9 <=? n)%N && (n <=? 13)%N || (28 <=? n)%N && (n <=? 32)%N || (0x2000 <=? n)%N && (n <=? 0x200A)%N ||
  existsb (N.eqb n) [0x85; 0xA0; 0x1680; 0x2028; 0x2029; 0x202F; 0x205F; 0x3000]%N.
Definition text_strip (t : text) : text := reverse (drop_while text_space (reverse (drop_while text_space t))).

Fixpoint text_prefix (p t : text) : bool :=
  match p, t with
  | [], _ => true
  | x :: p', y :: t' => N.eqb x y && text_prefix p' t'
  | _ :: _, [] => false
  end.
Fixpoint text_contains (p t : text) : bool :=
  text_prefix p t || match t with [] => false | _ :: t' => text_contains p t' end.

Definition is_quote (n : N) (c : ascii) : bool := N.eqb (code c) n.
Definition newline : string := String (ascii_of_N 10) EmptyString.
Definition BEGIN : string := "-----BEGIN".

(** White space, then double quotes, then single quotes are stripped. *)
Definition strip_quotes (value : string) : string := strip_of (is_quote 39) (strip_of (is_quote 34) (strip value)).

(** [_private_key_content] *)
Definition private_key_content (value : string) : option text :=
  let normalized := strip_quotes value in
  if negb (str_truthy normalized) then None
  else
    let normalized := str_replace "\n" newline normalized in
    if str_contains BEGIN normalized then Some (text_of normalized)
    else
      match (b ← b64decode normalized; utf8_decode b) with
      | Some decoded =>
          let decoded := text_strip decoded in
          Some (if text_contains (text_of BEGIN) decoded then decoded else text_of normalized)
      | None => Some (text_of normalized)
      end.

(** ** The configuration *)

Definition opt_text (s : option string) : option text := option_map text_of s.

(** The dict of [_api_key_config_from_env], before the entries without a value are left out. *)
Definition api_key_entries (environ : dict string) : list (string * option text) :=
  [("tenancy", opt_text (getenv_opt environ "OCI_TENANCY_OCID"));
   ("user", opt_text (getenv_opt environ "OCI_USER_OCID"));
   ("fingerprint", opt_text (getenv_opt environ "OCI_FINGERPRINT"));
   ("region", opt_text (getenv_opt environ "OCI_REGION"));
   ("key_file", opt_text (getenv_opt environ "OCI_PRIVATE_KEY_FILE"));
   ("key_content", private_key_content (getenv environ "OCI_PRIVATE_KEY" ""))].

Definition text_truthy (t : option text) : bool := match t with Some (_ :: _) => true | _ => false end.

Definition entry (k : string) (d : list (string * option text)) : option text := match dict_get k d with Some t => t | None => None end.

(** [_api_key_config_from_env] *)
Definition api_key_config_from_env (environ : dict string) : option (dict text) :=
  let config := api_key_entries environ in
  if forallb (λ name, text_truthy (entry name config)) ["tenancy"; "user"; "fingerprint"; "region"] &&
     (text_truthy (entry "key_file" config) || text_truthy (entry "key_content" config))
  then Some (omap (λ '(k, v), match v with Some ((_ :: _) as t) => Some (k, t) | _ => None end) config)
  else None.

Section sdk.
Context `{OciSdk} (environ : dict string).

Definition auth_mode : string := str_replace "-" "_" (py_lower (strip (getenv environ "OCI_AUTH_MODE" ""))).

Definition RESOURCE_MODES : list string := ["resource_principal"; "resource_principals"].
Definition INSTANCE_MODES : list string := ["instance_principal"; "instance_principals"].
Definition CONFIG_MODES : list string := ["config"; "config_file"].
Definition API_KEY_MODES : list string := ["api_key"; "user_principal"].

Definition API_KEY_MESSAGE : string :=
  "OCI_AUTH_MODE requires API key environment credentials: OCI_TENANCY_OCID, OCI_USER_OCID, OCI_FINGERPRINT, " +:+
  "OCI_REGION, and OCI_PRIVATE_KEY or OCI_PRIVATE_KEY_FILE.".

(** [load_oci_config_and_signer] *)
Definition load_oci_config_and_signer (usage : string) : res (dict text * option oci_signer) :=
  import_oci usage ;;
  if str_truthy (getenv environ "OCI_RESOURCE_PRINCIPAL_VERSION" "") || str_in auth_mode RESOURCE_MODES then
    s ← get_resource_principals_signer; Ok ([], Some s)
  else if str_in auth_mode INSTANCE_MODES then
    s ← InstancePrincipalsSecurityTokenSigner; Ok ([], Some s)
  else
    match api_key_config_from_env environ with
    | Some config =>
        if negb (str_in auth_mode CONFIG_MODES) then Ok (config, None)
        else config ← config_from_file; Ok (config, None)
    | None =>
        if str_in auth_mode API_KEY_MODES then err RuntimeError API_KEY_MESSAGE
        else config ← config_from_file; Ok (config, None)
    end.

(** ** Clients *)

(** [build_queue_client] *)
Definition build_queue_client (messages_endpoint : option string) : res QueueClient :=
  import_oci "OCI Queue" ;;
  let endpoint := match messages_endpoint with Some e => if str_truthy e then Some e else None | None => None end in
  '(config, signer) ← load_oci_config_and_signer "OCI Queue";
  new_queue_client config signer endpoint.

(** [build_object_storage_client] *)
Definition build_object_storage_client : res ObjectStorageClient :=
  import_oci "OCI Object Storage" ;;
  '(config, signer) ← load_oci_config_and_signer "OCI Object Storage";
  new_object_storage_client config signer.

(** [build_secrets_client] *)
Definition build_secrets_client : res SecretsClient :=
  import_oci "OCI Vault secrets" ;;
  '(config, signer) ← load_oci_config_and_signer "OCI Vault secrets";
  new_secrets_client config signer.

(** [_secret_bundle_content] *)
Definition secret_bundle_content (content : option string) : res string :=
  match content with
  | Some s => if str_truthy s then Ok s else err ValueError "OCI Vault secret bundle did not contain base64 text content."
  | None => err ValueError "OCI Vault secret bundle did not contain base64 text content."
  end.

(** [fetch_secret_text]; the texts of the decoders' errors are their own. *)
Definition fetch_secret_text (secret_ocid : string) : res text :=
  client ← build_secrets_client;
  bundle ← get_secret_bundle client secret_ocid;
  content ← secret_bundle_content bundle;
  match b64decode content with
  | None => err ValueError "invalid base64"
  | Some b => match utf8_decode b with Some t => Ok t | None => err ValueError "'utf-8' codec can't decode the secret" end
  end.
End sdk.

(** ** The data of a response *)

(** What [get_object] gives as data: bytes, a text, or an object with a [content] and a
    [read] method, whose value is bytes or is made a text by [str]. *)
Inductive raw_value := RawBytes (b : list ascii) | RawText (t : text).
Inductive response_data :=
  | DataRaw (v : raw_value)
  | DataObject (content : option raw_value) (read : option (res raw_value)).

(** [.encode("utf-8")] *)
Definition encode_utf8 (t : text) : res (list ascii) :=
  match utf8_encode t with Some b => Ok b | None => err ValueError "'utf-8' codec can't encode: surrogates not allowed" end.
Definition raw_bytes (v : raw_value) : res (list ascii) :=
  match v with RawBytes b => Ok b | RawText t => encode_utf8 t end.

(** [_response_data_to_bytes] *)
Definition response_data_to_bytes (data : response_data) : res (list ascii) :=
  match data with
  | DataRaw v => raw_bytes v
  | DataObject (Some v) _ => raw_bytes v
  | DataObject None (Some read) => v ← read; raw_bytes v
  | DataObject None None => err TypeError "Unsupported OCI object response data type."
  end.

(** [_response_data_to_bytes(response.data).decode("utf-8")] *)
Definition response_text (data : response_data) : res text :=
  b ← response_data_to_bytes data;
  match utf8_decode b with Some t => Ok t | None => err ValueError "'utf-8' codec can't decode the object" end.
(** ** Properties *)

(** *** Stripping *)

(** Both ends of the text stay when [p] is stripped. *)
Definition bounded (p : ascii → bool) (m : list ascii) : Prop :=
  ∃ x l l' y, m = x :: l ∧ m = l' ++ [y] ∧ p x = false ∧ p y = false.

Lemma bounded_all p m : m ≠ [] → Forall (λ c, p c = false) m → bounded p m.
Proof.
  intros Hm HF. destruct m as [|x l]; [done|]. destruct (exists_last Hm) as (l' & y & E).
  exists x, l, l', y. rewrite -> Forall_forall in HF. split_and!; [done..| |]; apply HF; [by left|rw E; apply elem_of_app; right; by left].
Qed.

Lemma bounded_wrap p a m b :
  Forall (λ c, p c = false) a → Forall (λ c, p c = false) b → bounded p m → bounded p (a ++ m ++ b).
Proof.
  intros Ha Hb (x & l & l' & y & E1 & E2 & Hx & Hy).
  assert (Hh : ∃ x' l0, a ++ m ++ b = x' :: l0 ∧ p x' = false).
  { destruct Ha as [|c a Hc _]; [rw E1; by exists x, (l ++ b)|by exists c, (a ++ m ++ b)]. }
  assert (Ht : ∃ l0 y', a ++ m ++ b = l0 ++ [y'] ∧ p y' = false).
  { destruct b as [|c b] using rev_ind; [exists (a ++ l'), y; split; [|done]; by rw app_nil_r E2 app_assoc|].
    apply Forall_app in Hb as [_ Hc]. apply Forall_inv in Hc. exists (a ++ m ++ b), c. split; [|done]. by rw -!app_assoc. }
  destruct Hh as (x' & l0 & E3 & Hx'), Ht as (l1 & y' & E4 & Hy'). by exists x', l0, l1, y'.
Qed.

Lemma strip_of_wrap p a m b :
  Forall (λ c, p c = true) a → Forall (λ c, p c = true) b → bounded p m → strip_of p (of_chars (a ++ m ++ b)) = of_chars m.
Proof.
  intros Ha Hb (x & l & l' & y & E1 & E2 & Hx & Hy). unfold strip_of, lstrip_of, rstrip_of. rw chars_of_chars drop_while_all //.
  rewrite {1}E1. cbn [app drop_while]. rw Hx. change (x :: l ++ b) with ((x :: l) ++ b). rw -E1 reverse_app drop_while_all.
  { by apply Forall_reverse. }
  rewrite {1}E2 reverse_app. change (reverse [y]) with [y]. cbn [app drop_while]. rw Hy.
  by rw reverse_cons reverse_involutive E2.
Qed.

(** *** The forms of a private key *)

Definition no_backslash (l : list ascii) : Prop := Forall (λ c, c ≠ "\"%char) l.

(** Each line break written as a backslash and an n. *)
Definition escape_char (c : ascii) : list ascii := if N.eqb (code c) 10 then ["\"; "n"]%char else [c].
Definition escape_newlines (s : string) : string := of_chars (chars s ≫= escape_char).

Lemma replace_escaped fuel l : no_backslash l → (length (l ≫= escape_char) ≤ fuel)%nat →
  replace_chars fuel ["\"; "n"]%char [ascii_of_N 10] (l ≫= escape_char) = l.
Proof.
  intros Hl. revert fuel. induction Hl as [|c l Hc _ IH]; intros fuel Hf; [by destruct fuel|].
  change ((c :: l) ≫= escape_char) with (escape_char c ++ (l ≫= escape_char)) in *. rw length_app in Hf. revert Hf.
  assert (Hd : code c = 10%N ∧ escape_char c = ["\"; "n"]%char ∨ escape_char c = [c]).
  { unfold escape_char. destruct (N.eqb_spec (code c) 10); [by left|by right]. }
  destruct Hd as [[E ->]| ->]; cbn [length app]; intros Hf; (destruct fuel as [|fuel]; [lia|]); cbn.
  - rw IH; [lia|]. f_equal. transitivity (byte (code c)); [by rw E|apply byte_code].
  - rw bool_decide_false //. cbn. f_equal. apply IH. lia.
Qed.

Lemma replace_none fuel l : no_backslash l → (length l ≤ fuel)%nat →
  replace_chars fuel ["\"; "n"]%char [ascii_of_N 10] l = l.
Proof.
  intros Hl. revert fuel. induction Hl as [|c l Hc _ IH]; intros fuel Hf; [by destruct fuel|].
  destruct fuel as [|fuel]; [cbn in Hf; lia|]. cbn. rw bool_decide_false //. cbn. f_equal. apply IH. cbn in Hf. lia.
Qed.

Lemma str_replace_none s : no_backslash (chars s) → str_replace "\n" newline s = s.
Proof.
  intros Hs. unfold str_replace. transitivity (of_chars (chars s)); [|apply of_chars_chars].
  f_equal. by apply (replace_none (length (chars s))).
Qed.

Lemma str_replace_escaped s : no_backslash (chars s) → str_replace "\n" newline (escape_newlines s) = s.
Proof.
  intros Hs. unfold str_replace, escape_newlines. rw chars_of_chars. transitivity (of_chars (chars s)); [|apply of_chars_chars].
  f_equal. by apply (replace_escaped (length (chars s ≫= escape_char))).
Qed.

(** *** Texts and strings *)

Lemma text_of_app a b : text_of (a +:+ b) = text_of a ++ text_of b.
Proof. unfold text_of. by rw chars_app map_app. Qed.

(** A key as it is in a file, up to white space around it. *)
Definition pem_key (k : string) : Prop :=
  ∃ m, k = BEGIN +:+ m +:+ "-----" ∧ no_backslash (chars m).

(** What an operator writes for it. *)
Inductive key_form (k : string) : string → Prop :=
  | kf_plain : key_form k k
  | kf_escaped : key_form k (escape_newlines k)
  | kf_base64 before after b :
      Forall (λ n, text_space n = true) before → Forall (λ n, text_space n = true) after →
      utf8_encode (before ++ text_of k ++ after) = Some b → key_form k (b64encode b).

(** White space, then double quotes, then single quotes around it. *)
Inductive quoted (v : string) : string → Prop :=
  | qt_written s1 d1 q1 q2 d2 s2 :
      Forall (λ c, is_space c = true) s1 → Forall (λ c, is_space c = true) s2 →
      Forall (λ c, is_quote 34 c = true) d1 → Forall (λ c, is_quote 34 c = true) d2 →
      Forall (λ c, is_quote 39 c = true) q1 → Forall (λ c, is_quote 39 c = true) q2 →
      quoted v (of_chars (s1 ++ (d1 ++ (q1 ++ chars v ++ q2) ++ d2) ++ s2)).

Definition plain_char (c : ascii) : bool := negb (is_space c || is_quote 34 c || is_quote 39 c).

Lemma strip_quoted v value : quoted v value → bounded (λ c, negb (plain_char c)) (chars v) → strip_quotes value = v.
Proof.
  intros [s1 d1 q1 q2 d2 s2 Hs1 Hs2 Hd1 Hd2 Hq1 Hq2] Hv. unfold strip_quotes, strip.
  assert (Hb : ∀ p, (∀ c, p c = true → plain_char c = false) → bounded p (chars v)).
  { intros p Hp. destruct Hv as (x & l & l' & y & E1 & E2 & Hx & Hy). exists x, l, l', y. split; [done|]. split; [done|].
    split; apply not_true_iff_false; intros Hc%Hp; [by rw Hc in Hx|by rw Hc in Hy]. }
  assert (Hd : ∀ c, is_quote 34 c = true → is_space c = false).
  { intros c. unfold is_quote, is_space, in_range. lia. }
  assert (Hq : ∀ c, is_quote 39 c = true → is_space c = false ∧ is_quote 34 c = false).
  { intros c. unfold is_quote, is_space, in_range. lia. }
  rw strip_of_wrap //.
  { apply bounded_wrap; [by eapply Forall_impl..|]. apply bounded_wrap; [eapply Forall_impl; [done|]; by intros c [? _]%Hq..|].
    apply Hb. intros c Hc. unfold plain_char. by rw Hc. }
  rw strip_of_wrap //.
  { apply bounded_wrap; [eapply Forall_impl; [done|]; by intros c [_ ?]%Hq..|].
    apply Hb. intros c Hc. unfold plain_char. by rw Hc orb_true_r. }
  rw strip_of_wrap ?of_chars_chars //. apply Hb. intros c Hc. unfold plain_char. by rw Hc !orb_true_r.
Qed.

Lemma framed_bounded p x : p "-"%char = false → bounded p (chars (BEGIN +:+ x +:+ "-----")).
Proof.
  intros Hp. rw !chars_app. exists "-"%char, (chars "----BEGIN" ++ chars x ++ chars "-----"), (chars BEGIN ++ chars x ++ chars "----"), "-"%char.
  split_and!; [done| |done|done]. by rw -!app_assoc.
Qed.

Lemma escape_framed m : escape_newlines (BEGIN +:+ m +:+ "-----") = BEGIN +:+ escape_newlines m +:+ "-----".
Proof. apply chars_inj. unfold escape_newlines. by rw chars_of_chars !chars_app !bind_app chars_of_chars. Qed.

Lemma framed_backslash m : no_backslash (chars m) → no_backslash (chars (BEGIN +:+ m +:+ "-----")).
Proof.
  intros Hm. unfold no_backslash. rw !chars_app. apply Forall_app. split; [by repeat constructor|].
  apply Forall_app. split; [done|by repeat constructor].
Qed.

Lemma contains_absent c p l : c ∉ l → contains_chars (c :: p) l = false.
Proof.
  induction l as [|x l IH]; intros Hc; [done|]. apply not_elem_of_cons in Hc as [Hx Hl]. cbn. by rw bool_decide_false // IH.
Qed.

Lemma dropped_none {A} (p : A → bool) x l : p x = false → drop_while p (x :: l) = x :: l.
Proof. intros Hx. cbn. by rw Hx. Qed.

Lemma text_strip_wrap a b l :
  Forall (λ n, text_space n = true) a → Forall (λ n, text_space n = true) b →
  text_strip (a ++ (45 :: l ++ [45])%N ++ b) = (45 :: l ++ [45])%N.
Proof.
  intros Ha Hb. unfold text_strip. rw drop_while_all //. cbn [app]. rw (dropped_none text_space 45%N) //.
  change (45%N :: (l ++ [45%N]) ++ b) with ((45%N :: l ++ [45%N]) ++ b). rw reverse_app drop_while_all; [by apply Forall_reverse|].
  rw reverse_cons reverse_app. change (reverse [45%N]) with [45%N]. cbn [app]. rw (dropped_none text_space 45%N) //.
  by rw reverse_cons reverse_app reverse_involutive.
Qed.

Lemma b64_plain b : b ≠ [] → bounded (λ c, negb (plain_char c)) (chars (b64encode b)) ∧ no_backslash (chars (b64encode b)) ∧
  str_contains BEGIN (b64encode b) = false ∧ str_truthy (b64encode b) = true.
Proof.
  intros Hb. assert (Hn : b64_groups b ≠ []) by (by destruct b as [|x [|y [|z b]]]).
  assert (Hok : ∀ n, (n < 64)%N → plain_char (b64_char n) = true ∧ b64_char n ≠ "\"%char ∧ b64_char n ≠ "-"%char).
  { intros n Hl. pose proof (b64_char_ok n Hl) as Ha. unfold b64_alphabet in Ha. do 7 (apply andb_true_iff in Ha as [Ha ?]).
    unfold plain_char, is_quote. split; [lia|]. split; intros E%(f_equal code);
      [change (code "\") with 92%N in E|change (code "-") with 45%N in E]; lia. }
  unfold b64encode. rw !chars_of_chars. split_and!.
  - apply bounded_all; [done|]. apply b64_groups_Forall; [|done]. intros n Hl. by destruct (Hok n Hl) as [-> _].
  - apply b64_groups_Forall; [|done]. intros n Hl. by destruct (Hok n Hl) as (_ & ? & _).
  - unfold str_contains. rw chars_of_chars. apply contains_absent. intros Hin.
    assert (HF : Forall (λ c, c ≠ "-"%char) (b64_groups b)).
    { apply b64_groups_Forall; [|done]. intros n Hl. by destruct (Hok n Hl) as (_ & _ & ?). }
    rewrite -> Forall_forall in HF. by apply HF in Hin.
  - by destruct (b64_groups b).
Qed.

(** C26: however a private key is written in the environment - as it is, with its line
    breaks written as [\n], or base64 of its UTF-8 bytes with any white space around
    the key, and in each case with white space and quotes around it - what is passed to
    the SDK is the key itself. *)
Theorem private_key_forms k v value :
  pem_key k → key_form k v → quoted v value → private_key_content value = Some (text_of k).
Proof.
  intros (m & -> & Hm) Hv Hq.
  assert (Hk : text_of (BEGIN +:+ m +:+ "-----") = (45 :: (text_of "----BEGIN" ++ text_of m ++ text_of "----") ++ [45])%N).
  { rw !text_of_app. cbn [text_of]. by rw -!app_assoc. }
  unfold private_key_content. destruct Hv as [| |before after b Hb Ha Hu].
  - rw (strip_quoted _ _ Hq) ?str_replace_none; [by apply framed_bounded|by apply framed_backslash|].
    cbn [negb str_truthy]. by rw str_contains_head.
  - rw (strip_quoted _ _ Hq); [rw escape_framed; by apply framed_bounded|]. rw str_replace_escaped; [by apply framed_backslash|].
    rw escape_framed. cbn [negb str_truthy]. by rw str_contains_head.
  - assert (Hne : b ≠ []).
    { intros ->. apply utf8_decode_encode in Hu. rewrite Hk in Hu. by destruct before. }
    destruct (b64_plain b Hne) as (H1 & H2 & H3 & H4). rw (strip_quoted _ _ Hq) // H4 str_replace_none // H3 b64decode_encode.
    cbn [negb mbind option_bind]. apply utf8_decode_encode in Hu. rw Hu. rewrite Hk. rw text_strip_wrap //.
Qed.

(** *** Credentials *)

(** An API key that can be used: the four identities and a key, and no empty value. *)
Definition complete (c : dict text) : Prop :=
  (∀ k, k ∈ ["tenancy"; "user"; "fingerprint"; "region"] → ∃ t, dict_get k c = Some t ∧ t ≠ []) ∧
  (∃ k t, k ∈ ["key_file"; "key_content"] ∧ dict_get k c = Some t ∧ t ≠ []) ∧
  ∀ k t, (k, t) ∈ c → t ≠ [].

Lemma text_truthy_Some t : text_truthy t = true ↔ ∃ t', t = Some t' ∧ t' ≠ [].
Proof. destruct t as [[|n t]|]; cbn; naive_solver. Qed.

(** The entries with a value, of a dict without a key twice. *)
Lemma omap_entries (l : list (string * option text)) k t :
  NoDup (map fst l) → dict_get k l = Some (Some t) → t ≠ [] →
  dict_get k (omap (λ '(k, v), match v with Some ((_ :: _) as t) => Some (k, t) | _ => None end) l) = Some t.
Proof.
  intros HN Hg Ht. revert Hg. induction l as [|[k' v] l IH]; [done|]. cbn in HN |- *. apply NoDup_cons in HN as [Hk' HN].
  case_bool_decide as E.
  - subst k'. intros [= ->]. destruct t as [|n t]; [done|]. cbn. by rw bool_decide_true.
  - intros Hg. destruct v as [[|n v]|]; [by apply IH| |by apply IH]. cbn. rw bool_decide_false //. by apply IH.
Qed.

Lemma api_key_config_complete environ c : api_key_config_from_env environ = Some c → complete c.
Proof.
  unfold api_key_config_from_env. assert (HN : NoDup (map fst (api_key_entries environ))) by (apply (proj1 (bool_decide_eq_true (NoDup _))); reflexivity).
  generalize dependent (api_key_entries environ). intros config HN. destruct (_ && _) eqn:E; [|done].
  intros Ec. apply (inj Some) in Ec as <-. apply andb_true_iff in E as [Er Ek]. rewrite -> forallb_elem in Er.
  assert (Hg : ∀ k, text_truthy (entry k config) = true →
    ∃ t, dict_get k (omap (λ '(k, v), match v with Some ((_ :: _) as t) => Some (k, t) | _ => None end) config) = Some t ∧ t ≠ []).
  { intros k Hk. apply text_truthy_Some in Hk as (t & Et & Ht). exists t. split; [|done]. apply omap_entries; [done| |done].
    unfold entry in Et. destruct (dict_get k config) as [v|]; [by rw Et|done]. }
  split; [intros k Hk; by apply Hg, Er|]. split.
  - apply orb_true_iff in Ek as [Ek|Ek]; apply Hg in Ek as (t & Et); [exists "key_file", t|exists "key_content", t]; split; set_solver.
  - intros k t (p & Hp & E)%list_elem_of_omap. destruct p as [k' [[|n v]|]]; [done| |done]. by injection E as <- <-.
Qed.

Lemma modes_apart (l1 l2 : list string) m : forallb (λ x, negb (str_in x l2)) l1 = true → m ∈ l1 → m ∉ l2.
Proof. intros Hf Hm H2. rewrite -> forallb_elem in Hf. specialize (Hf m Hm). apply str_in_true in H2. by rw H2 in Hf. Qed.

(** What a client is built with when the SDK gives a signer or a configuration. *)
Definition signed `{OciSdk} (s : res oci_signer) : res (dict text * option oci_signer) :=
  match s with Ok s => Ok ([], Some s) | Raise e => Raise e end.
Definition configured `{OciSdk} (c : res (dict text)) : res (dict text * option oci_signer) :=
  match c with Ok c => Ok (c, None) | Raise e => Raise e end.

(** C25: which credentials a client is built with.  Without the SDK it is a
    [RuntimeError].  With it, the signer of the resource principal exactly when
    [OCI_RESOURCE_PRINCIPAL_VERSION] is set or the mode is a resource mode, and the
    signer of the instance principal in the instance modes otherwise, both without key
    material and both with the error of that very signer when it fails.  Without a
    principal: the configuration file in the configuration modes whatever the
    environment holds; in the API key modes the key of the environment and nothing else,
    a [RuntimeError] when it is not whole; in any other mode the key when it is whole
    and the configuration file when it is not.  A key of the environment has all its
    parts. *)
Theorem credentials_spec `{OciSdk} environ usage :
  let mode := auth_mode environ in
  let resource := getenv environ "OCI_RESOURCE_PRINCIPAL_VERSION" "" ≠ "" ∨ mode ∈ RESOURCE_MODES in
  let r := load_oci_config_and_signer environ usage in
  (oci_installed = false → r = err RuntimeError ("Install the prod extra to use " +:+ usage +:+ ".")) ∧
  (oci_installed = true →
     (resource → r = signed get_resource_principals_signer) ∧
     (¬ resource → mode ∈ INSTANCE_MODES → r = signed InstancePrincipalsSecurityTokenSigner) ∧
     (¬ resource → mode ∈ CONFIG_MODES → r = configured config_from_file) ∧
     (¬ resource → mode ∈ API_KEY_MODES →
        r = match api_key_config_from_env environ with
            | Some config => Ok (config, None)
            | None => err RuntimeError API_KEY_MESSAGE
            end) ∧
     (¬ resource → mode ∉ INSTANCE_MODES ++ CONFIG_MODES ++ API_KEY_MODES →
        r = match api_key_config_from_env environ with
            | Some config => Ok (config, None)
            | None => configured config_from_file
            end)) ∧
  (∀ config, api_key_config_from_env environ = Some config → complete config).
Proof.
  cbv zeta. split_and!; [|intros Hi|by intros config; apply api_key_config_complete].
  { unfold load_oci_config_and_signer, import_oci, mbind, res_bind. by intros ->. }
  assert (Hin : ∀ m l, m ∉ l → str_in m l = false) by (intros m l Hm; apply not_true_iff_false; by rw str_in_true).
  unfold load_oci_config_and_signer, import_oci, mbind, res_bind. rw Hi.
  set (resource := _ || _).
  assert (Hr : resource = true ↔ (getenv environ "OCI_RESOURCE_PRINCIPAL_VERSION" "" ≠ "" ∨ auth_mode environ ∈ RESOURCE_MODES)).
  { unfold resource. rw orb_true_iff str_in_true. f_equiv. by destruct (getenv environ _ _). }
  clearbody resource. rw -Hr. destruct resource; [split_and!; done|].
  split_and!; [done|intros _ Hm|intros _ Hm|intros _ Hm|intros _ Hm].
  - apply str_in_true in Hm. by rw Hm.
  - rw (Hin _ INSTANCE_MODES); [by apply (modes_apart CONFIG_MODES)|]. pose proof (modes_apart CONFIG_MODES API_KEY_MODES _ eq_refl Hm) as Ha.
    apply str_in_true in Hm. rw Hm (Hin _ _ Ha). by destruct (api_key_config_from_env environ).
  - rw (Hin _ INSTANCE_MODES); [by apply (modes_apart API_KEY_MODES)|]. rw (Hin _ CONFIG_MODES); [by apply (modes_apart API_KEY_MODES)|].
    apply str_in_true in Hm. by rw Hm.
  - rw !not_elem_of_app in Hm. destruct Hm as (H1 & H2 & H3). rw (Hin _ _ H1) (Hin _ _ H2) (Hin _ _ H3). done.
Qed.

(** *** Texts from the services *)

(** A secret that was stored as base64 of its UTF-8 bytes is read back. *)
Lemma secret_read_back `{OciSdk} environ ocid client t b :
  build_secrets_client environ = Ok client → utf8_encode t = Some b → b ≠ [] →
  get_secret_bundle client ocid = Ok (Some (b64encode b)) → fetch_secret_text environ ocid = Ok t.
Proof.
  intros Hc Hu Hb Hg. unfold fetch_secret_text, mbind, res_bind. rw Hc Hg. unfold secret_bundle_content.
  destruct (b64_plain b Hb) as (_ & _ & _ & ->). rw b64decode_encode. by rw (utf8_decode_encode _ _ Hu).
Qed.

(** The four shapes of a response give the same text. *)
Lemma response_text_shapes t b : utf8_encode t = Some b →
  ∀ v, v ∈ [RawText t; RawBytes b] → ∀ r,
    response_text (DataRaw v) = Ok t ∧ response_text (DataObject (Some v) r) = Ok t ∧
    response_text (DataObject None (Some (Ok v))) = Ok t.
Proof.
  intros Hu v Hv r. pose proof (utf8_decode_encode _ _ Hu) as Hd.
  assert (Hraw : raw_bytes v = Ok b).
  { apply elem_of_cons in Hv as [->|Hv]; [unfold raw_bytes, encode_utf8; by rw Hu|]. apply list_elem_of_singleton in Hv as ->. done. }
  unfold response_text, response_data_to_bytes, mbind, res_bind. rw Hraw Hd. done.
Qed.

(** ** A key *)

Definition key_ex : string := BEGIN +:+ " KEY-----" +:+ newline +:+ "MIIE" +:+ newline +:+ "-----END KEY" +:+ "-----".
Definition key_secret_ex : string := " 'LS0tLS1CRUdJTiBLRVktLS0tLQpNSUlFCi0tLS0tRU5EIEtFWS0tLS0tCg==' ".

(** A key kept as base64 of its file, in quotes. *)
Lemma private_key_forms_witness : private_key_content key_secret_ex = Some (text_of key_ex).
Proof.
  set (b := match utf8_encode ([] ++ text_of key_ex ++ [10%N]) with Some b => b | None => [] end).
  apply (private_key_forms key_ex (b64encode b)).
  - exists (" KEY-----" +:+ newline +:+ "MIIE" +:+ newline +:+ "-----END KEY"). split; [reflexivity|].
    apply (bool_decide_unpack _). vm_compute. exact I.
  - apply (kf_base64 key_ex [] [10%N] b); [constructor|by repeat constructor|]. vm_compute. reflexivity.
  - assert (E : key_secret_ex = of_chars ([" "%char] ++ ([] ++ (["'"%char] ++ chars (b64encode b) ++ ["'"%char]) ++ []) ++ [" "%char]))
      by (vm_compute; reflexivity).
    rewrite E. constructor; by repeat constructor.
Defined.
