(* ===== verification/Embeddings.v ===== *)
(** * Query embeddings ([src/infrastructure/llm/gemini_embeddings.py])

    The embedder the duplicate search calls.  [float()] rounds integers and texts to
    doubles, and the model's floats are exact, so the conversion of one value is the
    class [FloatConversion].  The warnings that are logged are left out. *)

From S2P Require Import Prelude PyStr PyVal Env Client WorkItemTools Settings.

Class FloatConversion := { to_float : pyval → res pyfloat }.

Definition GEMINI_EMBEDDING_ENDPOINT : string := "https://generativelanguage.googleapis.com/v1beta/models".

Record GeminiQueryEmbedder := {
  ge_api_key : option string;
  ge_model : string;
  ge_dimensions : Z
}.

Definition gemini_embedder_init (s : Settings) : GeminiQueryEmbedder :=
  {| ge_api_key := se_gemini_api_key s; ge_model := se_embedding_model s; ge_dimensions := se_embedding_dimensions s |}.

Definition ge_is_configured (g : GeminiQueryEmbedder) : bool := ostr_truthy (ge_api_key g).

Definition embed_request (g : GeminiQueryEmbedder) (text : string) : request := {|
  rq_method := "POST";
  rq_url := GEMINI_EMBEDDING_ENDPOINT +:+ "/" +:+ ge_model g +:+ ":embedContent?key=" +:+ ostr_or (ge_api_key g) "None";
  rq_headers := [("Content-Type", "application/json")];
  rq_body := Some (PDict
    [("model", PStr ("models/" +:+ ge_model g));
     ("content", PDict [("parts", PList [PDict [("text", PStr text)]])]);
     ("taskType", PStr "RETRIEVAL_QUERY");
     ("outputDimensionality", PInt (ge_dimensions g))]) |}.

Section embed.
Context `{FloatConversion}.

Fixpoint to_floats (l : list pyval) : res (list pyfloat) :=
  match l with
  | [] => Ok []
  | v :: l' => f ← to_float v; fs ← to_floats l'; mret (f :: fs)
  end.

(** What becomes of a decoded response. *)
Definition embedding_of (dimensions : Z) (decoded : pyval) : res (option (list pyfloat)) :=
  embedding ← match decoded with
              | PDict d => Ok (dict_get_or (PDict []) "embedding" d)
              | v => err AttributeError ("'" +:+ type_name v +:+ "' object has no attribute 'get'")
              end;
  values ← value_get embedding "values";
  match values with
  | PList l =>
      if bool_decide (Z.of_nat (length l) = dimensions) then fs ← to_floats l; mret (Some fs) else mret None
  | _ => mret None
  end.

(** [embed_query]: an HTTP error, no connection and a body that is not JSON or not
    UTF-8 are caught, and every other [ValueError]; not an [OSError] that comes when the
    response is read, nor the other exceptions of the HTTP library. *)
Definition embed_query `{Env} (g : GeminiQueryEmbedder) (text : string) : st Ext (option (list pyfloat)) :=
  if negb (ge_is_configured g) || negb (str_truthy (strip text)) then mret None
  else
    r ← urlopen (embed_request g text);
    match r with
    | ReplyOk (BodyJson decoded) => lift_res (embedding_of (ge_dimensions g) decoded)
    | ReplyBroken name message => raise (Exn (OtherError name) message)
    | ReplyRaises e => if is_ValueError e then mret None else raise e
    | _ => mret None
    end.

(** The embedder the tools are given. *)
Definition gemini_query_embedder `{Env} (s : Settings) : QueryEmbedder :=
  let g := gemini_embedder_init s in
  {| em_is_configured := ge_is_configured g; em_embed_query := embed_query g |}.
End embed.

(** ** Properties *)

Lemma to_floats_length `{FloatConversion} l fs : to_floats l = Ok fs → length fs = length l.
Proof.
  revert fs. induction l as [|v l IH]; intros fs; cbn [to_floats]; [by intros [= <-]|].
  unfold mbind, res_bind. destruct (to_float v); [|done]. destruct (to_floats l) as [fs'|]; [|done].
  intros [= <-]. cbn [length]. by rw (IH fs' eq_refl).
Qed.

Lemma embedding_of_length `{FloatConversion} dimensions decoded fs :
  embedding_of dimensions decoded = Ok (Some fs) → Z.of_nat (length fs) = dimensions.
Proof.
  unfold embedding_of, mbind, res_bind.
  destruct (match decoded with PDict d => _ | _ => _ end) as [e|]; [|done].
  destruct (value_get e "values") as [v|]; [|done]. destruct v as [| | | | |l|]; try done. case_bool_decide; [|done].
  destruct (to_floats l) as [fs'|] eqn:E; [|done]. intros [= <-]. by rw (to_floats_length _ _ E).
Qed.

(** The answers [embed_query] turns into no embedding. *)
Definition answer_handled (r : reply) : bool :=
  match r with
  | ReplyOk (BodyJson _) | ReplyBroken _ _ => false
  | ReplyRaises e => is_ValueError e
  | _ => true
  end.

(** Embedding a query asks the service once, or not at all when there is no key or
    nothing to embed, and never logs.  A vector that is returned has exactly the
    configured number of dimensions.  An error of the service and a body that is not
    JSON give no embedding instead of an exception.  What raises is an error while the
    response is read that is no [ValueError], and JSON of another shape: a document that
    is not an object, or whose embedding is not, raises [AttributeError].  The caller
    catches neither. *)
Theorem embed_query_spec `{Env} `{FloatConversion} g text x :
  let asked := ge_is_configured g && str_truthy (strip text) in
  let rq := embed_request g text in
  let '(r, x') := embed_query g text x in
  x_requests x' = (if asked then [rq] else []) ++ x_requests x ∧ x_log x' = x_log x ∧
  (∀ fs, r = Ok (Some fs) → asked = true ∧ Z.of_nat (length fs) = ge_dimensions g) ∧
  (asked = false ∨ answer_handled (http_reply (x_requests x) rq) = true → r = Ok None) ∧
  (∀ e, asked = true → http_reply (x_requests x) rq = ReplyRaises e → is_ValueError e = false → r = Raise e) ∧
  (∀ v, asked = true → http_reply (x_requests x) rq = ReplyOk (BodyJson v) →
     (match v with PDict d => ∃ w, dict_get "embedding" d = Some w ∧ ∀ d', w ≠ PDict d' | _ => True end) →
     ∃ message, r = Raise (Exn AttributeError message)).
Proof.
  intros asked rq. unfold embed_query. replace (negb _ || negb _) with (negb asked) by (unfold asked; by rw negb_andb).
  destruct asked; cbn [negb].
  2: { cbn. by split_and!. }
  unfold mbind, st_bind, urlopen. fold rq. destruct (http_reply (x_requests x) rq) as [b| | | |e] eqn:E.
  2,3,4: cbn; split_and!; try done; by intros [].
  2: { cbn. destruct (is_ValueError e) eqn:Ee; cbn; split_and!; try done; [congruence|by intros []|by intros e' _ [= ->]]. }
  destruct b as [| |m|v]; [cbn; by split_and!..|].
  unfold lift_res. cbn [x_requests x_log]. split_and!; [done|done| | |done|].
  - intros fs Hr. split; [done|]. by apply (embedding_of_length _ v).
  - by intros [|].
  - intros v' _ [= <-] Hv. unfold embedding_of, mbind, res_bind. destruct v as [| | | | | |d]; try by eexists.
    destruct Hv as (w & Hw & Hd). unfold dict_get_or. rw Hw. destruct w; try by eexists. by destruct (Hd d0).
Qed.

(** A response whose embedding is null. *)
Example null_embedding_raises `{FloatConversion} :
  embedding_of 1536 (PDict [("embedding", PNone)]) = err AttributeError "'NoneType' object has no attribute 'get'".
Proof. reflexivity. Qed.
