(* ===== verification/OciQueue.v ===== *)
(** * The OCI queue ([src/infrastructure/queue/oci_queue.py])

    The adapter with which a function invocation publishes follow-up events.  OCI
    delivers messages by invoking the function, so taking and settling messages is not
    implemented.  The client of the queue service is the class [OciQueueClient]; what
    pydantic makes of an envelope is [EnvelopeCodec]. *)

From S2P Require Import Prelude PyStr Encodings PyVal Json JsonLoads Events Env Settings OciAuth Stores World.

(** [put_messages] gives the ids in the response, [None] when the response has no list
    of messages. *)
Class OciQueueClient (B : Type) := {
  put_messages : string → string → st (B * Ext) (option (list (option pyval)))
}.

Class EnvelopeCodec := {
  envelope_json : EventEnvelope → string;                 (* [model_dump_json()] *)
  envelope_validate : dict pyval → st Ext EventEnvelope   (* [EventEnvelope.model_validate]: absent ids and times are made *)
}.

(** What the program relies on: an envelope of JSON values reads back from its JSON
    text, which has none of the keys of a queue message. *)
Class EnvelopeLaws `{EnvelopeCodec} (storable : EventEnvelope → Prop) : Prop := {
  envelope_roundtrip e :
    storable e →
    ∃ d, json_loads (envelope_json e) = Some (PDict d) ∧ (∀ x, envelope_validate d x = (Ok e, x)) ∧
      ∀ k, k ∈ ["messages"; "content"; "body"; "message"; "type"] → dict_get k d = None
}.

(** [OCIQueue.__init__] *)
Record OCIQueue := { oq_queue_ocid : string }.

Definition oci_queue_init (queue_ocid : option string) : res OCIQueue :=
  match queue_ocid with
  | Some q => if str_truthy q then Ok {| oq_queue_ocid := q |}
              else err ValueError "OCI_QUEUE_OCID is required when QUEUE_BACKEND=oci"
  | None => err ValueError "OCI_QUEUE_OCID is required when QUEUE_BACKEND=oci"
  end.

(** [_published_message_id] *)
Definition published_message_id (response : option (list (option pyval))) (fallback : string) : string :=
  match response with
  | Some (Some message_id :: _) => if is_none message_id then fallback else py_str message_id
  | _ => fallback
  end.

Section oci.
Context {B : Type} `{OciQueueClient B} `{EnvelopeCodec} (oq : OCIQueue).

Definition oci_enqueue (envelope : EventEnvelope) : st (B * Ext) QueueMessage :=
  response ← put_messages (oq_queue_ocid oq) (envelope_json envelope);
  mret {| qm_message_id := published_message_id response (env_envelope_id envelope);
          qm_envelope := envelope; qm_receipt := None |}.

Definition not_implemented {A} (message : string) : st (B * Ext) A := raise (Exn NotImplementedError message).

Definition oci_queue : Queue B := {|
  enqueue := oci_enqueue;
  dequeue := not_implemented "OCI Functions receive queue messages via trigger payloads.";
  ack _ := not_implemented "OCI Functions queue trigger acknowledgements are managed by OCI.";
  fail_message _ _ := not_implemented "OCI Functions queue trigger failures are managed by OCI.";
  is_empty := not_implemented "OCI Queue emptiness checks are not used by OCI Functions."
|}.
End oci.

(** ** The client of the SDK

    [OCIQueue.client] is built when the first message is published, with the credentials
    of the environment. *)

Section sdk.
Context `{OciSdk} {B : Type} (environ : dict string) (messages_endpoint : option string).
Context (send : QueueClient → string → list string → st (B * Ext) (option (list (option pyval)))).

(** [_build_put_messages_details] *)
Definition build_put_messages_details (content : string) : res (list string) :=
  import_oci "OCI Queue" ;; Ok [content].

Definition sdk_queue_client : OciQueueClient B := {|
  put_messages queue_id content :=
    client ← lift_res (build_queue_client environ messages_endpoint);
    details ← lift_res (build_put_messages_details content);
    send client queue_id details |}.

(** An event is sent once, in a message of its own, or nothing is sent and the error of
    the credentials or the SDK is raised. *)
Lemma sdk_enqueue_run `{EnvelopeCodec} oq envelope x :
  oci_enqueue (H := sdk_queue_client) oq envelope x =
    match build_queue_client environ messages_endpoint with
    | Ok client =>
        match send client (oq_queue_ocid oq) [envelope_json envelope] x with
        | (Ok response, x') =>
            (Ok {| qm_message_id := published_message_id response (env_envelope_id envelope);
                   qm_envelope := envelope; qm_receipt := None |}, x')
        | (Raise e, x') => (Raise e, x')
        end
    | Raise e => (Raise e, x)
    end.
Proof.
  unfold oci_enqueue, put_messages, sdk_queue_client, build_put_messages_details, mbind, st_bind, lift_res.
  destruct (build_queue_client environ messages_endpoint) as [client|e] eqn:E; [|done].
  unfold build_queue_client, import_oci in *. destruct oci_installed; [|done]. cbn.
  by destruct (send client _ _ x) as [[r|e] x'].
Qed.
End sdk.

(** A queue service for concrete runs: the published messages, the latest last. *)
Definition sample_topic : Type := list (string * string).

#[export] Instance sample_queue_client : OciQueueClient sample_topic := {|
  put_messages queue_id content := λ x,
    (Ok (Some [Some (PInt (Z.of_nat (length x.1)))]), (x.1 ++ [(queue_id, content)], x.2)) |}.
