(* ===== verification/Container.v ===== *)
(** * Composition ([src/app/container.py])

    What the settings make of the program: the queue, the state store and the durable
    memory behind it, the registries loaded from the prompt files, and the handlers.

    [Backend] and [QueueBackend] package the kind of store and queue that was chosen
    with the operations on it.  A container starts from the services the process
    reaches - a bucket, a topic, the environment - and leaves them changed
    ([run_app]); its own state is new in every process. *)

From S2P Require Import Prelude PyStr PyVal Events Plans Policies Env Client Definitions Prompts Records.
From S2P Require Import AgentRunSync Planning WorkItemTools OtherTools PlanningAgent Stores StateMemory PrismStore.
From S2P Require Import World ActionHandler AtMostOnce PrismProofs Coordinator DomainHandler ContextProvider RecursionRunner.
From S2P Require Import FeatureProvisioning Settings Embeddings OciQueue.

(** ** Stores and queues *)

Record Backend (B : Type) := {
  bk_state : Type;
  bk_store :: StateStore bk_state;
  bk_keys :: WorkspaceKeys bk_state;
  bk_open : B → bk_state;                (* the new store, on what the bucket holds *)
  bk_bucket : B → bk_state → B           (* the bucket afterwards, from the one before *)
}.
Arguments bk_state {B}.
Arguments bk_store {B}.
Arguments bk_keys {B}.
Arguments bk_open {B}.
Arguments bk_bucket {B}.

Record QueueBackend (T : Type) := {
  qb_state : Type;
  qb_queue :: Queue qb_state;
  qb_open : T → qb_state;
  qb_topic : T → qb_state → T
}.
Arguments qb_state {T}.
Arguments qb_queue {T}.
Arguments qb_open {T}.
Arguments qb_topic {T}.

(** What outlives a process. *)
Record Services (B T : Type) := { sv_bucket : B; sv_topic : T; sv_ext : Ext }.
Arguments Build_Services {B T}.
Arguments sv_bucket {B T}.
Arguments sv_topic {B T}.
Arguments sv_ext {B T}.

(** A new client has no versions recorded. *)
Definition new_client_ext (x : Ext) : Ext := {|
  x_uuid := x_uuid x; x_clock := x_clock x; x_monotonic := x_monotonic x; x_requests := x_requests x;
  x_versions := []; x_log := x_log x |}.

Section container.
Context `{Env} `{StateCodec} `{LanguageModel} `{ThreadPool} `{PromptFiles} `{PromptModels} `{EnvelopeCodec}.
Context {B T : Type} `{ObjectStorage B} `{OciQueueClient T}.
Context (get_payload : string → string → pyval → option pyval → st Ext string).
Context `{FloatConversion} (environ : dict string).

(** [_build_queue] *)
Definition build_queue (s : Settings) : res (QueueBackend T) :=
  if bool_decide (se_queue_backend s = "memory") then
    Ok {| qb_state := MemoryQueue; qb_queue := memory_queue; qb_open _ := memory_queue_empty; qb_topic t _ := t |}
  else
    oq ← oci_queue_init (se_oci_queue_ocid s);
    mret {| qb_state := T; qb_queue := oci_queue oq; qb_open t := t; qb_topic _ t := t |}.

(** A store on a durable memory, new in this process. *)
Definition prism_backend {M : Type} `{transport : AgentStateMemoryStore M} (persist : bool) (open : B → M) (close : B → M → B) :
    Backend B := {|
  bk_state := PrismApiStateStore MemoryStateStore M;
  bk_store := prism_api_state_store persist;
  bk_keys := prism_workspace_keys persist;
  bk_open b := {| ps_fallback := memory_store_empty; ps_memory := open b; ps_locations := [] |};
  bk_bucket b s := close b (ps_memory s) |}.

(** The configured names of a bucket. *)
Definition configured_bucket (s : Settings) : option (string * string) :=
  match se_object_storage_namespace s, se_object_storage_bucket_name s with
  | Some n, Some b => if str_truthy n && str_truthy b then Some (n, b) else None
  | _, _ => None
  end.

(** [_build_state_store] *)
Definition build_state_store (s : Settings) (client : PrismApiClient) : res (Backend B) :=
  if bool_decide (se_state_backend s = "memory") then
    Ok {| bk_state := MemoryStateStore; bk_store := memory_state_store; bk_keys := memory_workspace_keys;
          bk_open _ := memory_store_empty; bk_bucket b _ := b |}
  else
    match configured_bucket s with
    | Some (n, b) =>
        om ← object_memory_init (Some n) (Some b) "agent-state";
        if is_configured client
        then Ok (prism_backend (transport := object_storage_memory_store om) (se_persist_agent_memories s) id (λ _ b, b))
        else err ValueError "PRISM_API_BASE_URL is required when STATE_BACKEND=prism_api."
    | None =>
        if is_configured client
        then Ok (prism_backend (transport := prism_agent_memory_store client) (se_persist_agent_memories s)
                   (λ _, PrismAgentMemory) (λ b _, b))
        else err ValueError "PRISM_API_BASE_URL is required when STATE_BACKEND=prism_api."
    end.

(** [LoggingStateStore(state_store, ...)] *)
Definition logged_backend (b : Backend B) : Backend B := {|
  bk_state := LoggingStateStore (bk_state b);
  bk_store := logging_state_store;
  bk_keys := logging_workspace_keys;
  bk_open x := {| ls_inner := bk_open b x; ls_log := [] |};
  bk_bucket x s := bk_bucket b x (ls_inner s) |}.

(** ** The container *)

Record AppContainer := {
  app_settings : Settings;
  app_queue : QueueBackend T;
  app_store : Backend B;
  app_prism_client : PrismApiClient;
  app_prompts : PromptTables;
  app_tool_registry : ToolRegistry Tool;
  app_skill_registry : SkillRegistry;
  app_workflow_registry : WorkflowRegistry;
  app_planner : Planner;
  app_agent_factory : AgentFactory;
  app_context_provider : ContextProvider;
  app_agent_run_sync : AgentRunSync;
  app_domain_event_handler : DomainHandler;
  app_action_event_handler : Runtime;
  app_subagent_coordinator : Coordinator;
  app_recursion_runner : RecursionRunner
}.

(** The three registries, from one prompt registry. *)
Definition build_registries (deps : ToolDeps) :
    st PromptTables (ToolRegistry Tool * SkillRegistry * WorkflowRegistry) :=
  definitions ← list_tools;
  tools ← lift_res (tool_registry deps definitions);
  skills ← skill_registry_of;
  workflows ← workflow_registry_of;
  mret (tools, skills, workflows).

Definition model_provider (s : Settings) : GeminiModelProvider := {|
  gm_api_key := se_gemini_api_key s; gm_default_model := se_default_gemini_model s;
  gm_flash_model := se_gemini_flash_model s;
  gm_env_key := ostr_truthy (dict_get "GEMINI_API_KEY" environ) || ostr_truthy (dict_get "GOOGLE_API_KEY" environ) |}.

(** The handlers and the runner around the registries. *)
Definition assemble (s : Settings) (queue : QueueBackend T) (store : Backend B) (client : PrismApiClient)
    (prompts : PromptTables) (tools : ToolRegistry Tool) (skills : SkillRegistry) (workflows : WorkflowRegistry) :
    AppContainer :=
  let prompt_registry : Definitions.PromptRegistry := list_to_map (pg_workflows prompts) in
  let planner := {| pn_prompt_registry := prompt_registry; pn_skill_registry := skills; pn_tool_registry := tools |} in
  let sync := {| ars_client := client; ars_enabled_flag := bool_decide (se_state_backend s = "prism_api") |} in
  let domain := {| dh_workflows := workflows; dh_planner := planner; dh_sync := sync; dh_skills := Some skills |} in
  let action := {| rt_tools := tools; rt_sync := sync |} in
  let coordinator := {| co_planner := planner; co_sync := sync; co_workflows := workflows |} in
  {| app_settings := s; app_queue := queue; app_store := store; app_prism_client := client; app_prompts := prompts;
     app_tool_registry := tools; app_skill_registry := skills; app_workflow_registry := workflows;
     app_planner := planner; app_agent_factory := pydantic_ai_agent_factory (model_provider s);
     app_context_provider := {|
       cp_prism_client := client; cp_prompt_registry := prompt_registry;
       cp_diff_payload_store :=
         option_map (λ nb, object_storage_payload_store get_payload nb.1 nb.2) (configured_bucket s) |};
     app_agent_run_sync := sync; app_domain_event_handler := domain; app_action_event_handler := action;
     app_subagent_coordinator := coordinator;
     app_recursion_runner := {|
       ru_domain := domain; ru_action := action; ru_max_recursion_depth := se_max_recursion_depth s;
       ru_sync := Some sync; ru_coordinator := Some coordinator |} |}.

Definition build_container (s : Settings) : res AppContainer :=
  queue ← build_queue s;
  let client := client_init (se_prism_api_base_url s) (se_prism_api_token s) in
  store ← build_state_store s client;
  store ← (if se_log_traces s then _ ← configure_logging (se_log_level s); mret (logged_backend store) else mret store);
  match build_registries {| tdp_client := Some client; tdp_embedder := Some (gemini_query_embedder s) |} prompt_tables_empty with
  | (Ok (tools, skills, workflows), prompts) => Ok (assemble s queue store client prompts tools skills workflows)
  | (Raise e, _) => Raise e
  end.

(** ** A process *)

Abbreviation AppWorld app := (World (bk_state (app_store app)) (qb_state (app_queue app))).

(** The state of a new process. *)
Definition app_open (app : AppContainer) (sv : Services B T) : AppWorld app := {|
  w_store := bk_open (app_store app) (sv_bucket sv);
  w_queue := qb_open (app_queue app) (sv_topic sv);
  w_ext := new_client_ext (sv_ext sv);
  w_inline := 0; w_seen := ∅; w_log := [] |}.

Definition app_close (app : AppContainer) (sv : Services B T) (w : AppWorld app) : Services B T := {|
  sv_bucket := bk_bucket (app_store app) (sv_bucket sv) (w_store w);
  sv_topic := qb_topic (app_queue app) (sv_topic sv) (w_queue w);
  sv_ext := w_ext w |}.

Definition run_app {A} (app : AppContainer) (m : st (AppWorld app) A) : st (Services B T) A := λ sv,
  let '(r, w) := m (app_open app sv) in (r, app_close app sv w).
End container.

(** ** Lemmas *)

Lemma workflow_register_elem w r r' k v :
  workflow_register w r = Ok r' → get_by_trigger r' k = Some v →
  get_by_trigger r k = Some v ∨ (v = w ∧ wf_required_skills w ≠ [] ∧ k ∈ wf_trigger_types w).
Proof.
  unfold workflow_register, get_by_trigger.
  destruct (wf_required_skills w) as [|a l] eqn:Es; [done|]. destruct (wf_trigger_types w) as [|t ts] eqn:Et; [done|].
  intros [= <-]. cbn [rw_by_trigger]. rw (trigger_fold_get k w (t :: ts)). case_bool_decide; [|by left].
  intros [= <-]. by right.
Qed.

Lemma workflows_from_elem l r r' k v :
  workflows_from l r = Ok r' → get_by_trigger r' k = Some v →
  get_by_trigger r k = Some v ∨
  ∃ p, p ∈ l ∧ v = workflow_from_prompt p ∧ wp_required_skills p ≠ [] ∧ k ∈ wp_trigger_types p.
Proof.
  revert r. induction l as [|p l IH]; intros r; cbn [workflows_from]; [intros [= <-]; by left|].
  unfold mbind, res_bind. destruct (workflow_register (workflow_from_prompt p) r) as [r1|] eqn:E; [|done].
  intros Hl Hg. destruct (IH r1 Hl Hg) as [H1|(q & Hq & Hv)].
  - destruct (workflow_register_elem _ _ _ _ _ E H1) as [H0|(-> & Hs & Ht)]; [by left|].
    right. exists p. split; [by left|done].
  - right. exists q. split; [by right|done].
Qed.

(** A loadable directory stays loaded through the three registries. *)
Lemma build_registries_Ok `{Env} `{ThreadPool} `{PromptFiles} `{PromptModels} deps tools skills workflows prompts :
  build_registries deps prompt_tables_empty = (Ok (tools, skills, workflows), prompts) →
  load prompt_tables_empty = (Ok tt, prompts) ∧ tool_registry deps (pg_tools prompts).*2 = Ok tools ∧
  skills = skills_from (pg_skills prompts).*2 ∧ workflows_from (pg_workflows prompts).*2 workflow_registry_empty = Ok workflows.
Proof.
  unfold build_registries. intros E. apply bind_Ok in E as (ds & t1 & E1 & E).
  assert (Hl : load prompt_tables_empty = (Ok tt, t1) ∧ ds = (pg_tools t1).*2).
  { unfold list_tools, list_prompts in E1. apply bind_Ok in E1 as ([] & t0 & E0 & E1). injection E1 as <- <-. done. }
  destruct Hl as [Hl ->]. apply bind_Ok in E as (tools' & t2 & E2 & E). apply lift_Ok in E2 as [Et ->].
  assert (Es : skill_registry_of t1 = (Ok (skills_from (pg_skills t1).*2), t1)).
  { unfold skill_registry_of.
    by rw (bind_step _ _ _ _ _ (list_prompts_spec pg_skills prompt_tables_empty t1 t1 eq_refl Hl (or_intror eq_refl))). }
  rw (bind_step _ _ _ _ _ Es) in E. apply bind_Ok in E as (wr & t3 & Ew & E). injection E as <- <- <- <-.
  unfold workflow_registry_of in Ew.
  rw (bind_step _ _ _ _ _ (list_prompts_spec pg_workflows prompt_tables_empty t1 t1 eq_refl Hl (or_intror eq_refl))) in Ew.
  apply lift_Ok in Ew as [Ew ->]. done.
Qed.

(** The prompt of a listed workflow is found under its id and version. *)
Lemma listed_workflow_found `{PromptFiles} `{PromptModels} prompts p :
  load prompt_tables_empty = (Ok tt, prompts) → p ∈ (pg_workflows prompts).*2 →
  get_workflow (list_to_map (pg_workflows prompts)) (wp_id p) (wp_version p) = Ok p.
Proof.
  intros Hl Hp. destruct (load_Ok _ _ Hl) as (ps & _ & Hs).
  destruct (tables_of_spec ps) as (_ & Hw & _), (tables_of_NoDup ps) as (_ & HN & _). rw -Hs in Hw HN.
  apply list_elem_of_fmap in Hp as ([k q] & -> & Hin). cbn [snd].
  assert (Hg : table_get k (pg_workflows prompts) = Some q) by (by apply elem_table_get).
  assert (Hk : k = (wp_id q, wp_version q)).
  { rw Hw in Hg. apply last_such_spec in Hg as [_ Hk]. by apply bool_decide_eq_true in Hk. }
  unfold get_workflow. rw table_lookup. rw -Hk. by rw Hg.
Qed.

Section properties.
Context `{Env} `{StateCodec} `{LanguageModel} `{ThreadPool} `{PromptFiles} `{PromptModels} `{EnvelopeCodec}.
Context {B T : Type} `{ObjectStorage B} `{OciQueueClient T}.
Context (get_payload : string → string → pyval → option pyval → st Ext string).
Context `{FloatConversion} (environ : dict string).
Abbreviation build := (build_container (B:=B) (T:=T) get_payload environ).

Lemma build_container_Ok s app :
  build s = Ok app →
  ∃ queue store0 store prompts tools skills workflows,
    let client := client_init (se_prism_api_base_url s) (se_prism_api_token s) in
    build_queue s = Ok queue ∧ build_state_store s client = Ok store0 ∧
    store = (if se_log_traces s then logged_backend store0 else store0) ∧
    build_registries {| tdp_client := Some client; tdp_embedder := Some (gemini_query_embedder s) |} prompt_tables_empty =
      (Ok (tools, skills, workflows), prompts) ∧
    app = assemble get_payload environ s queue store client prompts tools skills workflows.
Proof.
  unfold build_container. unfold mbind at 1, res_bind at 1. destruct (build_queue s) as [queue|]; [|done].
  cbv zeta. unfold mbind at 1, res_bind at 1. destruct (build_state_store s _) as [store0|]; [|done].
  unfold mbind at 1, res_bind at 1.
  destruct (se_log_traces s).
  - unfold mbind, res_bind. destruct (configure_logging _); [|done]. cbn [mret res_ret].
    destruct (build_registries _ _) as [[[[tools skills] workflows]|] prompts] eqn:E; [|done].
    intros [= <-]. by eexists _, _, _, _, _, _, _.
  - cbn [mret res_ret]. destruct (build_registries _ _) as [[[[tools skills] workflows]|] prompts] eqn:E; [|done].
    intros [= <-]. by eexists _, _, _, _, _, _, _.
Qed.

(** C24: in a container that was built, a workflow an event can be routed to comes
    from a prompt file that declares that trigger and at least one skill, and planner
    and context provider find exactly this prompt under the workflow's prompt id and
    version; planner, executor and coordinator work on the same registries, and runs are
    reported to the API exactly when the state is kept there. *)
Theorem build_container_spec s app :
  build_container (B:=B) (T:=T) get_payload environ s = Ok app →
  (∀ key w, get_by_trigger (app_workflow_registry app) key = Some w →
     ∃ p, w = workflow_from_prompt p ∧ key ∈ wp_trigger_types p ∧ wf_required_skills w ≠ [] ∧
       (∃ path, path ∈ rglob_yaml ∧ parse_file path = Ok (PromptWorkflow p)) ∧
       get_workflow (pn_prompt_registry (app_planner app)) (wf_prompt_id w) (wf_prompt_version w) = Ok p ∧
       get_workflow (cp_prompt_registry (app_context_provider app)) (wf_prompt_id w) (wf_prompt_version w) = Ok p) ∧
  dh_workflows (app_domain_event_handler app) = co_workflows (app_subagent_coordinator app) ∧
  pn_tool_registry (app_planner app) = rt_tools (app_action_event_handler app) ∧
  ru_max_recursion_depth (app_recursion_runner app) = se_max_recursion_depth s ∧
  (ars_enabled (app_agent_run_sync app) = true ↔
     se_state_backend s = "prism_api" ∧ is_configured (app_prism_client app) = true).
Proof.
  intros Hb. destruct (build_container_Ok s app Hb) as (queue & store0 & store & prompts & tools & skills & workflows & Happ).
  cbv zeta in Happ. destruct Happ as (_ & _ & _ & Er & ->). apply build_registries_Ok in Er as (Hl & _ & _ & Hw).
  split; [|split_and!; try reflexivity; unfold ars_enabled; cbn; rw andb_true_iff bool_decide_eq_true; done].
  intros key w Hg. cbn in Hg. destruct (workflows_from_elem _ _ _ _ _ Hw Hg) as [Hn|(p & Hp & -> & Hs & Hk)]; [done|].
  pose proof (listed_workflow_found prompts p Hl Hp) as Hf. exists p. split_and!; try done.
  destruct (load_Ok _ _ Hl) as (ps & HF & Es). destruct (tables_of_spec ps) as (_ & Hlast & _).
  destruct (tables_of_NoDup ps) as (_ & HN & _). rw -Es in Hlast HN.
  apply list_elem_of_fmap in Hp as ([k q] & -> & Hin). apply elem_table_get in Hin; [|done]. rw Hlast in Hin.
  apply last_such_spec in Hin as [Hin _]. apply list_elem_of_omap in Hin as ([d| |] & Hd & [= ->]).
  destruct (Forall2_elem_of_r _ _ _ _ HF Hd) as (path & Hpath & Hparse). exists path. split; [by apply sorted_paths_elem|done].
Qed.
End properties.

(** ** Backends that remember

    What [RemembersKeys] promises of a store, in terms of the bucket, which is what the
    next process gets. *)

Section remembering.
Context {B : Type}.

Record BackendRemembers (b : Backend B) (usable : B → string → string → Prop)
    (knows : B → string → string → string → Prop) := {
  br_store : RemembersKeys (bk_state b) (λ s w r, ∀ b0, usable (bk_bucket b b0 s) w r)
               (λ s w k r, ∀ b0, knows (bk_bucket b b0 s) w k r);
  br_open b0 b1 : bk_bucket b b0 (bk_open b b1) = b1;
  br_traces s x : ∃ traces, store_traces (S:=bk_state b) (s, x) = (Ok traces, (s, x));
  (* reading the plan of a run learns the keys the bucket holds for it *)
  br_recorded : bk_state b → gset string;
  br_keyed : KeyedStore (bk_state b) br_recorded;
  br_learns w r k s x :
    (∀ b0, usable (bk_bucket b b0 s) w r) → str_truthy k = true → (∀ b0, knows (bk_bucket b b0 s) w k r) →
    k ∈ br_recorded (get_plan (S:=bk_state b) w r (s, x)).2.1
}.

Definition logged_backend_remembers b usable knows (R : BackendRemembers b usable knows) :
  BackendRemembers (logged_backend b) usable knows.
Proof.
  refine (Build_BackendRemembers (logged_backend b) usable knows _ _ _
    (λ l : LoggingStateStore (bk_state b), br_recorded _ _ _ R (ls_inner l)) _ _).
  - pose proof (br_store _ _ _ R). exact (logging_remembers _ _).
  - exact (br_open _ _ _ R).
  - intros l x. destruct (br_traces _ _ _ R (ls_inner l) x) as (traces & E). exists traces. cbn. unfold zoom. cbn.
    rw E. by destruct l.
  - pose proof (br_keyed _ _ _ R). exact (logging_store_keyed _).
  - intros w r k l x Hu Hk Hn. pose proof (br_learns _ _ _ R w r k (ls_inner l) x Hu Hk Hn) as Hl. cbn. unfold zoom. cbn.
    by destruct (get_plan w r (ls_inner l, x)) as [a [s' x']].
Defined.
End remembering.

Section durable.
Context `{Env} `{HC : StateCodec} `{!CodecErrors} {B : Type} `{HB : ObjectStorage B}.
Context (objs : B → string → string → gmap string string) `{!BucketLaws B objs} (om : ObjectStorageAgentMemoryStore).
#[local] Instance om_transport : AgentStateMemoryStore B := object_storage_memory_store om.

(** The bucket can be listed and written for a run, and holds the record of a key. *)
Definition bucket_usable (b : B) (w r : string) : Prop :=
  bucket_ok objs om b ∧ bucket_fits objs om b w r ∧ no_slash w ∧ no_slash r.
Definition bucket_knows (b : B) (w k r : string) : Prop :=
  bucket_held objs om b w r (key_id k) = Some (key_payload r k).

Definition object_backend_remembers :
  BackendRemembers (prism_backend (transport := om_transport) true id (λ _ b, b)) bucket_usable bucket_knows.
Proof.
  refine (Build_BackendRemembers (prism_backend (transport := om_transport) true id (λ _ b, b)) bucket_usable bucket_knows
    _ _ _ prism_keys _ _).
  - pose proof (prism_remembers (bucket_ok objs om) (bucket_held objs om) (bucket_fits objs om)) as [Hr Hc].
    constructor.
    + intros w k r s x Hu Hk Ht. destruct (Hr w k r s x (Hu (ps_memory s)) Hk Ht) as (s' & E & Hn).
      exists s'. split; [exact E|]. intros b0. exact Hn.
    + intros w k r s x Hu Hk Ht Hn. exact (Hc w k r s x (Hu (ps_memory s)) Hk Ht (Hn (ps_memory s))).
  - done.
  - intros s x. eexists. cbn. unfold fb, zoom. cbn. by destruct s.
  - intros w r k s x Hu Hk Hn. destruct (Hu (ps_memory s)) as (Ho & Hf & Hw & Hr).
    exact (get_plan_learns (bucket_ok objs om) (bucket_held objs om) (bucket_fits objs om) w r k s x Ho Hf Hw Hr Hk
      (Hn (ps_memory s))).
Defined.
End durable.

(** With the Prism API as state backend, a bucket and an API, the container's store
    keeps its keys in that bucket and finds them there, with and without the logging
    proxy around it. *)
Lemma container_remembers `{Env} `{HC : StateCodec} `{!CodecErrors} `{LanguageModel} `{ThreadPool} `{PromptFiles}
    `{PromptModels} `{EnvelopeCodec} `{FloatConversion} {B T : Type} `{HB : ObjectStorage B} `{OciQueueClient T}
    (objs : B → string → string → gmap string string) `{!BucketLaws B objs} get_payload environ s ns bucket app :
  build_container (B:=B) (T:=T) get_payload environ s = Ok app →
  se_state_backend s = "prism_api" → configured_bucket s = Some (ns, bucket) → se_persist_agent_memories s = true →
  let om := {| om_namespace := ns; om_bucket_name := bucket; om_prefix := "agent-state" |} in
  inhabited (BackendRemembers (app_store app) (bucket_usable objs om) (bucket_knows objs om)).
Proof.
  intros Hb Hs Hc Hp om. destruct (build_container_Ok _ _ s app Hb)
    as (queue & store0 & store & prompts & tools & skills & workflows & Happ).
  cbv zeta in Happ. destruct Happ as (_ & Es & -> & _ & ->). cbn [app_store assemble].
  unfold build_state_store in Es. rw bool_decide_false in Es; [by rw Hs|]. rw Hc in Es.
  unfold mbind, res_bind, object_memory_init in Es.
  assert (Hn : str_truthy ns && str_truthy bucket = true).
  { unfold configured_bucket in Hc. destruct (se_object_storage_namespace s); [|done].
    destruct (se_object_storage_bucket_name s); [|done]. destruct (str_truthy _ && str_truthy _) eqn:E; [|done].
    by injection Hc as <- <-. }
  rw Hn in Es. destruct (is_configured _); [|done]. rw Hp in Es.
  assert (Hr : inhabited (BackendRemembers store0 (bucket_usable objs om) (bucket_knows objs om))).
  { injection Es as <-. constructor. exact (object_backend_remembers objs om). }
  destruct (se_log_traces s); [|exact Hr]. destruct Hr as [Hr]. constructor. by apply logged_backend_remembers.
Qed.
