(* ===== verification/FunctionEntry.v ===== *)
(** * The function entry ([src/interfaces/oci_function_entry.py])

    One invocation: the payload a queue trigger delivers is unwrapped, the event it
    carries is handled by the handler of its kind in a new container, and the outcome is
    logged and announced.  A failure is logged, announced and raised again, so that the
    queue delivers the message once more.

    The bytes of an invocation are given by the texts they decode to.  The marks of a
    notification that are not ASCII are the class [Marks]. *)

From S2P Require Import Prelude PyStr PyVal Json JsonLoads Events Plans Policies Env Client Definitions Prompts Records.
From S2P Require Import AgentRunSync Planning WorkItemTools OtherTools PlanningAgent Stores StateMemory PrismStore.
From S2P Require Import World ActionHandler AtMostOnce PrismProofs Coordinator DomainHandler ContextProvider.
From S2P Require Import RecursionRunner FeatureProvisioning Settings Embeddings OciQueue Container.

(** ** The payload *)

(** [bytes], by [decode("utf-8")], [None] when it raises, and by the decoding that
    replaces what is malformed; [str]; anything else. *)
Inductive invocation_data :=
  | DataBytes (text : option string) (replaced : string)
  | DataStr (text : string)
  | DataValue (v : pyval).

(** [json.loads]; the text of its error is the decoder's own. *)
Definition json_loads_or_raise (s : string) : res pyval :=
  match json_loads s with Some v => Ok v | None => err ValueError "invalid JSON" end.

Definition decode_payload (data : invocation_data) : res pyval :=
  match data with
  | DataBytes (Some text) _ => json_loads_or_raise text
  | DataBytes None _ => err ValueError "'utf-8' codec can't decode the payload"
  | DataStr text => json_loads_or_raise text
  | DataValue v => Ok v
  end.

Definition batch_message (n : nat) : string :=
  "OCI trigger delivered " +:+ pretty n +:+ " messages; this function processes exactly one event per invocation. " +:+
  "Configure the connector/queue batch size to 1.".

(** The loop over the keys [content], [body] and [message]. *)
Fixpoint message_body (payload : dict pyval) (keys : list string) : res (dict pyval) :=
  match keys with
  | [] => Ok payload
  | key :: keys' =>
      match dget key payload with
      | PStr value =>
          decoded ← json_loads_or_raise value;
          match decoded with
          | PDict d => Ok d
          | _ => err ValueError ("Queue message " +:+ key +:+ " must decode to a JSON object.")
          end
      | PDict d => Ok d
      | _ => message_body payload keys'
      end
  end.

Definition BODY_KEYS : list string := ["content"; "body"; "message"].

(** [_queue_message_content]; [_single_message] is the match on the list, and the inner
    recursion is [payload.get("messages")]. *)
Fixpoint queue_message_content (payload : pyval) : res (dict pyval) :=
  match payload with
  | PList [message] => queue_message_content message
  | PList l => err ValueError (batch_message (length l))
  | PDict d =>
      (fix messages (items : dict pyval) : res (dict pyval) :=
         match items with
         | [] => message_body d BODY_KEYS
         | (k, v) :: items' =>
             if bool_decide (k = "messages") then
               match v with
               | PList [message] => queue_message_content message
               | PList l => err ValueError (batch_message (length l))
               | _ => message_body d BODY_KEYS
               end
             else messages items'
         end) d
  | v => err ValueError ("Unexpected queue payload type: " +:+ type_name v)
  end.

Definition invocation_payload (data : invocation_data) : res (dict pyval) :=
  payload ← decode_payload data; queue_message_content payload.

(** [_raw_preview] *)
Definition raw_preview (data : invocation_data) : string :=
  str_take 500 (match data with DataBytes _ text => text | DataStr text => text | DataValue v => py_repr v end).

Definition is_feature_provisioning_pointer (payload : dict pyval) : bool :=
  bool_decide (dget "type" payload = PStr "feature.provisioning.requested").

(** [_payload_fields] *)
Definition payload_fields (payload : dict pyval) : dict pyval :=
  if is_feature_provisioning_pointer payload then
    [("event_type", PStr "feature.provisioning.requested");
     ("workspace_id", py_or (dget "workspaceId" payload) (dget "workspace_id" payload));
     ("request_id", dget "requestId" payload)]
  else
    let event := match dget "event" payload with PDict d => d | _ => payload end in
    [("event_type", dget "event_type" event); ("event_id", dget "event_id" event);
     ("workspace_id", dget "workspace_id" event); ("correlation_id", dget "correlation_id" event)].

(** ** Messages *)

Class Marks := { mark_ok : string; mark_warning : string; mark_failed : string; mark_dot : string }.

(** The trace events worth an issue. *)
Definition ISSUE_EVENTS : list string :=
  ["event.failed"; "plan.failed"; "plan.empty"; "action.failed"; "action.execution_error"; "action.validation_failed";
   "action.stale_context"; "orchestration.failed"; "orchestration.blocked"; "recursion.max_depth"].

Definition is_failure (t : TraceEvent) : bool := str_in (te_event_name t) ISSUE_EVENTS.

(** [_completed_tools] *)
Definition completed_tools (traces : list TraceEvent) : list string :=
  foldl (λ tools t,
    if bool_decide (te_event_name t = "action.completed") then
      match dget "tool_name" (te_data t) with
      | PStr name => if str_truthy name then append_new name tools else tools
      | _ => tools
      end
    else tools) [] traces.

(** [_run_id] *)
Fixpoint traces_run_id (traces : list TraceEvent) : option string :=
  match traces with
  | [] => None
  | t :: l => if ostr_truthy (te_plan_id t) then te_plan_id t else traces_run_id l
  end.

Section messages.
Context `{Marks}.

Definition format_label (event_type workspace_id : pyval) : string :=
  "`" +:+ py_str event_type +:+ "`" +:+
  (if truthy workspace_id then " " +:+ mark_dot +:+ " ws `" +:+ py_str workspace_id +:+ "`" else "").

Definition payload_label (payload : dict pyval) : string :=
  let fields := payload_fields payload in
  format_label (py_or (dget "event_type" fields) (PStr "unknown")) (dget "workspace_id" fields).

Definition summary_message (label : string) (traces : list TraceEvent) : string :=
  let tools := completed_tools traces in
  let issues := map (λ t, te_event_name t +:+ ": " +:+ te_message t) (List.filter is_failure traces) in
  let lines := [(match issues with [] => mark_ok | _ => mark_warning end) +:+ " " +:+ label] in
  let lines := match traces_run_id traces with
               | Some r => if str_truthy r then lines ++ ["run: `" +:+ r +:+ "`"] else lines
               | None => lines
               end in
  let lines := lines ++ [match tools with
                         | [] => "actions: none"
                         | _ => "actions(" +:+ pretty (length tools) +:+ "): " +:+ str_join ", " tools
                         end] in
  let lines := match issues with
               | [] => lines
               | _ => lines ++ ["issues:" +:+ newline +:+ str_join newline (map (λ i, "- " +:+ i) (take 5 issues))]
               end in
  str_join newline lines.

Definition failure_message (label : string) (e : exn) : string :=
  mark_failed +:+ " Failed: " +:+ label +:+ newline +:+ "`" +:+ exc_name e +:+ ": " +:+ exn_str e +:+ "`".
End messages.

(** ** The invocation *)

Section entry.
Context `{Env} `{StateCodec} `{LanguageModel} `{ThreadPool} `{PromptFiles} `{PromptModels} `{EnvelopeCodec}.
Context `{ProvisioningModels} `{Marks} {B T : Type} `{ObjectStorage B} `{OciQueueClient T}.
Context (get_payload : string → string → pyval → option pyval → st Ext string).
Context `{FloatConversion} (environ : dict string).
Abbreviation M := (st (Services B T)).
Abbreviation App := (AppContainer (B:=B) (T:=T)).
Abbreviation AppWorld app := (World (bk_state (app_store app)) (qb_state (app_queue app))).

Definition services_ext : lens (Services B T) Ext :=
  Lens sv_ext (λ x sv, {| sv_bucket := sv_bucket sv; sv_topic := sv_topic sv; sv_ext := x |}).
Definition svc {A} (m : st Ext A) : M A := zoom services_ext m.

(** The handler of the event's kind, with the collaborators the container built. *)
Definition dispatch (app : App) (envelope : EventEnvelope) : st (AppWorld app) unit :=
  match env_event envelope with
  | AgentActionEvent _ _ _ => handle_action (app_action_event_handler app) envelope
  | SubAgentTaskEvent _ _ _ | SubAgentCompletedEvent _ _ _ _ =>
      handle_subagent (H0 := app_agent_factory app) (app_subagent_coordinator app) envelope
  | _ => handle_domain (H0 := app_agent_factory app) (H1 := context_provider (app_context_provider app))
           (app_domain_event_handler app) envelope
  end.

(** The result of an invocation and the traces it left in its store. *)
Definition process_result : Type := dict pyval * list TraceEvent.

Definition process_in (app : App) (envelope : EventEnvelope) : st (AppWorld app) process_result :=
  let ids := [("event_id", PStr (envelope_event_id envelope)); ("event_type", PStr (envelope_event_type envelope))] in
  if exceeds_max_depth (ru_max_recursion_depth (app_recursion_runner app)) 0 (env_event envelope) then
    record_max_depth_failure (app_recursion_runner app) (env_event envelope) ;;
    traces ← on_st store_traces;
    mret (("ok", PBool false) :: ids ++ [("reason", PStr "max_recursion_depth_exceeded")], traces)
  else
    dispatch app envelope ;;
    traces ← on_st store_traces;
    mret (("ok", PBool true) :: ids, traces).

(** [_handle_feature_provisioning_pointer] *)
Definition payload_store_init (s : Settings) : res JsonPayloadStore :=
  match configured_bucket s with
  | Some (ns, bucket) => Ok (object_storage_payload_store get_payload ns bucket)
  | None => err ValueError "OCI payload namespace and bucket name are required for feature provisioning."
  end.

Definition pointer_in (store : JsonPayloadStore) (app : App) (payload : dict pyval) :
    st (AppWorld app) process_result :=
  r ← handle_pointer (H1 := app_agent_factory app) (H2 := context_provider (app_context_provider app))
        store (app_domain_event_handler app) payload;
  traces ← on_st store_traces;
  mret ([("ok", PBool true); ("event_id", ostr (fr_event_id r));
         ("event_type", PStr "feature.provisioning.requested"); ("request_id", PStr (fr_request_id r));
         ("duplicate", PBool (fr_duplicate r))], traces).

(** [_process] *)
Definition process (s : Settings) (payload : dict pyval) : M process_result :=
  if is_feature_provisioning_pointer payload then
    store ← lift_res (payload_store_init s);
    app ← lift_res (build_container get_payload environ s);
    run_app app (pointer_in store app payload)
  else
    envelope ← svc (envelope_validate payload);
    app ← lift_res (build_container get_payload environ s);
    run_app app (process_in app envelope).

(** The [except] block: the failure is logged, announced and raised again. *)
Definition report_failure {A} (notifier : DiscordNotifier) (data : invocation_data) (label : string)
    (payload : dict pyval) (e : exn) : M A :=
  svc (log_json LogError (dict_update
    [("log", PStr "invocation.error"); ("error_type", PStr (exc_name e)); ("error", PStr (exn_str e));
     ("raw_payload_preview", PStr (raw_preview data))] (payload_fields payload))) ;;
  svc (dn_send notifier (failure_message label e)) ;;
  raise e.

Definition end_record (payload result : dict pyval) (traces : list TraceEvent) : dict pyval :=
  dict_update
    [("log", PStr "invocation.end"); ("ok", dget "ok" result); ("run_id", ostr (traces_run_id traces));
     ("actions", pstrs (completed_tools traces)); ("issues", pnat (length (List.filter is_failure traces)))]
    (payload_fields payload).

(** [handler]; before the payload is known the label is ["unknown"] and the fields are
    those of an empty payload. *)
Definition handler (data : invocation_data) : M (dict pyval) :=
  settings ← lift_res (from_env environ);
  _ ← lift_res (configure_logging (se_log_level settings));
  let notifier := discord_notifier (se_discord_webhook_url settings) in
  match invocation_payload data with
  | Raise e => report_failure notifier data "unknown" [] e
  | Ok payload =>
      let label := payload_label payload in
      outcome ← try_catch
        (svc (log_json LogInfo (dict_update [("log", PStr "invocation.start")] (payload_fields payload))) ;;
         process settings payload)
        (λ e, report_failure notifier data label payload e);
      let '(result, traces) := outcome in
      svc (log_json LogInfo (end_record payload result traces)) ;;
      svc (dn_send notifier (summary_message label traces)) ;;
      mret result
  end.
End entry.

(** ** Payloads *)

Lemma queue_message_content_dict d :
  queue_message_content (PDict d) =
  match dget "messages" d with
  | PList [message] => queue_message_content message
  | PList l => err ValueError (batch_message (length l))
  | _ => message_body d BODY_KEYS
  end.
Proof.
  cbn [queue_message_content]. generalize (message_body d BODY_KEYS). intros body. unfold dget, dict_get_or.
  induction d as [|[k v] d IH]; [done|]. cbn [dict_get]. rw (bool_decide_ext ("messages" = k) (k = "messages")); [done|].
  case_bool_decide; [by destruct v|exact IH].
Qed.

(** The first of the body keys that holds a text or an object. *)
Fixpoint first_body (d : dict pyval) (keys : list string) : option pyval :=
  match keys with
  | [] => None
  | k :: keys' => match dget k d with PStr _ | PDict _ => Some (dget k d) | _ => first_body d keys' end
  end.

Lemma message_body_first d keys :
  message_body d keys =
  match first_body d keys with
  | None => Ok d
  | Some (PDict d') => Ok d'
  | Some (PStr s) =>
      match json_loads s with
      | Some (PDict d') => Ok d'
      | Some _ => message_body d keys
      | None => err ValueError "invalid JSON"
      end
  | Some _ => Ok d
  end.
Proof.
  induction keys as [|k keys IH]; [done|]. cbn [message_body first_body]. destruct (dget k d); try exact IH; [|done].
  unfold json_loads_or_raise, mbind, res_bind, err. by destruct (json_loads s) as [[]|].
Qed.

(** The shapes in which a trigger delivers a published text: as it is, under a body key
    as text or as object, and any of these as the only message of a batch. *)
Inductive delivers (text : string) : pyval → Prop :=
  | dv_bare d : json_loads text = Some (PDict d) → delivers text (PDict d)
  | dv_text d : is_list (dget "messages" d) = false → first_body d BODY_KEYS = Some (PStr text) → delivers text (PDict d)
  | dv_object d d' : is_list (dget "messages" d) = false → first_body d BODY_KEYS = Some (PDict d') →
      json_loads text = Some (PDict d') → delivers text (PDict d)
  | dv_list v : delivers text v → delivers text (PList [v])
  | dv_messages d v : dget "messages" d = PList [v] → delivers text v → delivers text (PDict d).

Lemma not_list_messages d : is_list (dget "messages" d) = false → queue_message_content (PDict d) = message_body d BODY_KEYS.
Proof. rw queue_message_content_dict. by destruct (dget "messages" d). Qed.

Lemma delivered_content text d v :
  json_loads text = Some (PDict d) → is_list (dget "messages" d) = false → first_body d BODY_KEYS = None →
  delivers text v → queue_message_content v = Ok d.
Proof.
  intros Ht Hm Hf. induction 1 as [d1 H1|d1 H1 H2|d1 d2 H1 H2 H3|v Hv IH|d1 v H1 Hv IH].
  - replace d1 with d in * by congruence. rw not_list_messages; [done|]. by rw message_body_first Hf.
  - rw not_list_messages; [done|]. by rw message_body_first H2 Ht.
  - rw not_list_messages; [done|]. rw message_body_first H2. congruence.
  - exact IH.
  - by rw queue_message_content_dict H1.
Qed.

(** C16: what one invocation publishes is what a later one handles: in whatever shape
    the trigger delivers the text of an envelope - bare, in a batch of one, as text or
    object under a body key - the payload validates to that envelope and is not taken
    for a pointer. *)
Theorem published_event_delivered `{EnvelopeCodec} storable `{!EnvelopeLaws storable} e v data :
  storable e → delivers (envelope_json e) v → decode_payload data = Ok v →
  ∃ payload, invocation_payload data = Ok payload ∧ (∀ x, envelope_validate payload x = (Ok e, x)) ∧
    is_feature_provisioning_pointer payload = false.
Proof.
  intros Hst Hd Hdata. destruct (envelope_roundtrip e Hst) as (d & Hj & Hv & Hk). exists d.
  assert (Hn : ∀ k, k ∈ ["messages"; "content"; "body"; "message"; "type"] → dget k d = PNone).
  { intros k Hin. unfold dget, dict_get_or. by rw Hk. }
  split_and!; [|done|].
  - unfold invocation_payload, mbind, res_bind. rw Hdata. apply (delivered_content (envelope_json e)); [done| | |done].
    + by rw Hn; [set_solver|].
    + cbn [first_body BODY_KEYS]. by rw (Hn "content") ?(Hn "body") ?(Hn "message"); [set_solver..|].
  - unfold is_feature_provisioning_pointer. by rw Hn; [set_solver|].
Qed.

Lemma message_body_error d keys e : message_body d keys = Raise e → exc_type e = ValueError.
Proof.
  induction keys as [|k keys IH]; [done|]. cbn [message_body]. destruct (dget k d); try exact IH; [|done].
  unfold json_loads_or_raise, mbind, res_bind, err. by destruct (json_loads s) as [[]|]; intros [= <-].
Qed.

Lemma queue_message_content_error v e : queue_message_content v = Raise e → exc_type e = ValueError.
Proof.
  induction v as [| | | | |l IH|d IH] using pyval_nested_ind; try by intros [= <-].
  - destruct l as [|x [|y l]]; try by intros [= <-]. rw Forall_singleton in IH. exact IH.
  - rw queue_message_content_dict. unfold dget, dict_get_or.
    destruct (dict_get "messages" d) as [v|] eqn:Em; [|apply message_body_error].
    destruct v as [| | | | |l|]; try apply message_body_error. destruct l as [|x [|y l]]; try by intros [= <-].
    apply dict_get_Some_elem in Em. rw Forall_forall in IH. exact (IH _ Em).
Qed.

(** A payload that is not one event is refused: whatever is delivered either
    unwraps to an object or is a [ValueError], and a batch of any size but one, bare or
    wrapped, is refused with its size. *)
Theorem invocation_payload_spec data :
  (∀ e, invocation_payload data = Raise e → exc_type e = ValueError) ∧
  ∀ l, length l ≠ 1%nat →
    decode_payload data = Ok (PList l) ∨ (∃ d, decode_payload data = Ok (PDict d) ∧ dget "messages" d = PList l) →
    invocation_payload data = err ValueError (batch_message (length l)).
Proof.
  unfold invocation_payload, mbind, res_bind. split.
  - intros e. destruct (decode_payload data) as [v|e'] eqn:E; [apply queue_message_content_error|]. intros [= <-].
    unfold decode_payload, json_loads_or_raise, err in E.
    destruct data as [[t|] r|t|v]; [destruct (json_loads t)| |destruct (json_loads t)|]; first [done|by injection E as <-].
  - intros l Hl [-> |(d & -> & Hm)].
    + by destruct l as [|x [|y l]].
    + rw queue_message_content_dict Hm. by destruct l as [|x [|y l]].
Qed.

(** ** The invocation *)

Section properties.
Context `{Env} `{StateCodec} `{LanguageModel} `{ThreadPool} `{PromptFiles} `{PromptModels} `{EnvelopeCodec}.
Context `{ProvisioningModels} `{Marks} {B T : Type} `{ObjectStorage B} `{OciQueueClient T}.
Context (get_payload : string → string → pyval → option pyval → st Ext string).
Context `{FloatConversion} (environ : dict string).
Abbreviation build := (build_container (B:=B) (T:=T) get_payload environ).
Abbreviation process := (process (B:=B) (T:=T) get_payload environ).
Abbreviation handler := (handler (B:=B) (T:=T) get_payload environ).
Implicit Types sv : Services B T.

(** A failure was logged and announced; bucket and topic are those it left. *)
Definition reported (url : option string) (data : invocation_data) (label : string) (payload : dict pyval) (e : exn)
    (sv sv' : Services B T) : Prop :=
  sv_bucket sv' = sv_bucket sv ∧ sv_topic sv' = sv_topic sv ∧
  x_log (sv_ext sv') = x_log (sv_ext sv) ++ [(LogError, dict_update
    [("log", PStr "invocation.error"); ("error_type", PStr (exc_name e)); ("error", PStr (exn_str e));
     ("raw_payload_preview", PStr (raw_preview data))] (payload_fields payload))] ∧
  x_requests (sv_ext sv') = notification url (failure_message label e) ++ x_requests (sv_ext sv).

Lemma report_failure_run {A} url data label payload e sv :
  ∃ sv', report_failure (A:=A) (discord_notifier url) data label payload e sv = (Raise e, sv') ∧
    reported url data label payload e sv sv'.
Proof.
  unfold report_failure, reported. generalize (failure_message label e). intros message.
  set (record := dict_update _ _). unfold mbind, st_bind, svc, zoom. cbn [lget lput services_ext log_json].
  set (x1 := {| x_uuid := _ |}). destruct (dn_send_run url message x1) as (x2 & E & Hl & _ & Hr). cbn [sv_ext]. rw E.
  eexists. split; [reflexivity|]. split_and!; [done|done|exact Hl|exact Hr].
Qed.

(** The start of an invocation is logged before anything else. *)
Definition started (payload : dict pyval) (sv : Services B T) : Services B T :=
  (svc (log_json LogInfo (dict_update [("log", PStr "invocation.start")] (payload_fields payload))) sv).2.

(** C14: what an invocation reports.  With settings and log level in order, it returns
    the result of processing exactly when processing returns, after one end record and
    one summary; it raises exactly what unwrapping or processing raised, after one error
    record and one failure message, so that the queue delivers the message again; the
    reporting itself never raises, and bucket and topic are what processing left. *)
Theorem handler_spec data sv s level :
  from_env environ = Ok s → configure_logging (se_log_level s) = Ok level →
  let url := se_discord_webhook_url s in
  match invocation_payload data with
  | Raise e => ∃ sv', handler data sv = (Raise e, sv') ∧ reported url data "unknown" [] e sv sv'
  | Ok payload =>
      match process s payload (started payload sv) with
      | (Raise e, sv1) =>
          ∃ sv', handler data sv = (Raise e, sv') ∧ reported url data (payload_label payload) payload e sv1 sv'
      | (Ok (result, traces), sv1) =>
          ∃ sv', handler data sv = (Ok result, sv') ∧ sv_bucket sv' = sv_bucket sv1 ∧ sv_topic sv' = sv_topic sv1 ∧
            x_log (sv_ext sv') = x_log (sv_ext sv1) ++ [(LogInfo, end_record payload result traces)] ∧
            x_requests (sv_ext sv') =
              notification url (summary_message (payload_label payload) traces) ++ x_requests (sv_ext sv1)
      end
  end.
Proof.
  intros Hs Hl url. unfold FunctionEntry.handler. rw Hs. rw (bind_step _ _ sv s sv eq_refl) Hl (bind_step _ _ sv level sv eq_refl).
  cbv zeta. fold url. destruct (invocation_payload data) as [payload|e]; [|apply report_failure_run].
  set (m := svc _ ;; process s payload).
  assert (Hm : m sv = process s payload (started payload sv)).
  { unfold m, started, mbind, st_bind, svc, zoom. reflexivity. }
  set (recovered := try_catch m _).
  assert (Hc : recovered sv = match process s payload (started payload sv) with
    | (Ok a, sv1) => (Ok a, sv1)
    | (Raise e, sv1) => report_failure (discord_notifier url) data (payload_label payload) payload e sv1
    end) by (unfold recovered, try_catch; by rw Hm).
  clearbody recovered. clear m Hm.
  destruct (process s payload (started payload sv)) as [[[result traces]|e] sv1].
  2: { destruct (report_failure_run (A:=process_result) url data (payload_label payload) payload e sv1) as (sv' & E & Hr).
       exists sv'. split; [|exact Hr]. apply bind_raise. rw Hc. exact E. }
  rw (bind_step _ _ _ _ _ Hc).
  generalize (summary_message (payload_label payload) traces), (end_record payload result traces). intros message record.
  unfold mbind, st_bind, svc, zoom. cbn [lget lput services_ext log_json].
  set (x1 := {| x_uuid := _ |}). destruct (dn_send_run url message x1) as (x2 & E & Hx & _ & Hr). cbn [sv_ext]. rw E.
  eexists. split; [reflexivity|]. split_and!; [done|done|exact Hx|exact Hr].
Qed.

(** Recording that an event is too deep leaves the queue alone. *)
Definition same_queue {S Q} (w w' : World S Q) : Prop := w_queue w' = w_queue w.

#[local] Instance same_queue_preorder {S Q} : PreOrder (same_queue (S:=S) (Q:=Q)).
Proof. split; [done|]. intros x y z H1' H2'. unfold same_queue in *. congruence. Qed.

Lemma max_depth_same_queue {S Q : Type} `{StateStore S} ru e :
  respects (same_queue (S:=S) (Q:=Q)) (record_max_depth_failure ru e).
Proof.
  assert (Hst : ∀ A (m : st (S * Ext) A), respects (same_queue (Q:=Q)) (on_st m)).
  { intros A m w. unfold on_st, zoom. cbn. by destruct (m _). }
  assert (Hext : ∀ A (m : st Ext A), respects (same_queue (S:=S) (Q:=Q)) (ext m)).
  { intros A m w. unfold ext, zoom. cbn. by destruct (m _). }
  unfold record_max_depth_failure, ru_trace, trace. repeat respects_step; auto.
Qed.

(** The dispatch of an invocation is that of the local runner. *)
Lemma dispatch_runner s app envelope :
  build s = Ok app →
  dispatch app envelope =
    handle_event (H0 := app_agent_factory app) (H1 := context_provider (app_context_provider app))
      (app_recursion_runner app) envelope.
Proof.
  intros Hb. destruct (build_container_Ok _ _ s app Hb) as (q & s0 & st & p & t & k & w & Happ).
  cbv zeta in Happ. destruct Happ as (_ & _ & _ & _ & ->). unfold dispatch, handle_event.
  cbn [app_recursion_runner assemble ru_coordinator]. by destruct (env_event envelope).
Qed.

Lemma built_topic s app t : build s = Ok app → qb_topic (app_queue app) t (qb_open (app_queue app) t) = t.
Proof.
  intros Hb. destruct (build_container_Ok _ _ s app Hb) as (q & s0 & st & p & tr & k & w & Happ).
  cbv zeta in Happ. destruct Happ as (Hq & _ & _ & _ & ->). cbn [app_queue assemble]. unfold build_queue in Hq.
  case_bool_decide; [by injection Hq as <-|]. unfold mbind, res_bind in Hq. destruct (oci_queue_init _); [|done]. by injection Hq as <-.
Qed.

(** C15: processing an envelope is handling it as the local runner does: an event
    beyond the recursion limit is recorded as a failure, handled by no one, and
    publishes nothing; any other goes to the handler of its kind; the result names the
    event, and processing raises exactly when the handler or reading the traces does. *)
Theorem process_spec s payload envelope app sv x :
  is_feature_provisioning_pointer payload = false → envelope_validate payload (sv_ext sv) = (Ok envelope, x) → build s = Ok app →
  let sv0 := lput services_ext x sv in
  let over := exceeds_max_depth (se_max_recursion_depth s) 0 (env_event envelope) in
  let step := if over then record_max_depth_failure (app_recursion_runner app) (env_event envelope)
              else handle_event (H0 := app_agent_factory app) (H1 := context_provider (app_context_provider app))
                     (app_recursion_runner app) envelope in
  let '(r, w) := step (app_open app sv0) in
  (over = true → qb_topic (app_queue app) (sv_topic sv) (w_queue w) = sv_topic sv) ∧
  match r with
  | Raise e => process s payload sv = (Raise e, app_close app sv w)
  | Ok _ =>
      match on_st store_traces w with
      | (Raise e, w') => process s payload sv = (Raise e, app_close app sv w')
      | (Ok traces, w') =>
          ∃ result, process s payload sv = (Ok (result, traces), app_close app sv w') ∧
            dget "ok" result = PBool (negb over) ∧
            dget "event_id" result = PStr (envelope_event_id envelope) ∧
            dget "event_type" result = PStr (envelope_event_type envelope) ∧
            dget "reason" result = if over then PStr "max_recursion_depth_exceeded" else PNone
      end
  end.
Proof.
  intros Hp Hv Hb sv0 over step.
  assert (Hdepth : ru_max_recursion_depth (app_recursion_runner app) = se_max_recursion_depth s).
  { destruct (build_container_Ok _ _ s app Hb) as (q & s0 & st & p & t & k & w & Happ). cbv zeta in Happ.
    by destruct Happ as (_ & _ & _ & _ & ->). }
  assert (Hproc : process s payload sv = run_app app (process_in app envelope) sv0).
  { assert (Es : svc (envelope_validate payload) sv = (Ok envelope, sv0)) by (unfold svc, zoom; cbn [lget services_ext]; by rw Hv).
    unfold FunctionEntry.process. rw Hp. rw (bind_step _ _ _ _ _ Es) Hb. by rw (bind_step _ _ sv0 app sv0 eq_refl). }
  assert (Hstep : process_in app envelope = (step ;; traces ← on_st store_traces;
    mret (if over then ("ok", PBool false) :: [("event_id", PStr (envelope_event_id envelope));
            ("event_type", PStr (envelope_event_type envelope))] ++ [("reason", PStr "max_recursion_depth_exceeded")]
          else [("ok", PBool true); ("event_id", PStr (envelope_event_id envelope));
                ("event_type", PStr (envelope_event_type envelope))], traces))).
  { unfold process_in, step. rw Hdepth. change (exceeds_max_depth _ 0 _) with over. destruct over; [done|].
    by rw (dispatch_runner s app envelope Hb). }
  assert (Hq : over = true → respects same_queue step).
  { intros Hover. unfold step. rw Hover. apply max_depth_same_queue. }
  specialize (λ E, Hq E (app_open app sv0)). destruct (step (app_open app sv0)) as [r w] eqn:Es. cbn [snd] in Hq. split.
  { intros Hover. specialize (Hq Hover). unfold same_queue in Hq. rw Hq. cbn [w_queue app_open]. by apply (built_topic s). }
  rw Hproc. unfold run_app. rw Hstep. destruct r as [[]|e]; [|by rw (bind_raise _ _ _ _ _ Es)].
  rw (bind_step _ _ _ _ _ Es). destruct (on_st store_traces w) as [[traces|e] w'] eqn:Et; [|by rw (bind_raise _ _ _ _ _ Et)].
  rw (bind_step _ _ _ _ _ Et). eexists. split; [reflexivity|]. by destruct over.
Qed.
End properties.
