(* ===== verification/LocalEntry.v ===== *)
(** * The local entry points ([src/interfaces/local_entry.py], [src/interfaces/cli.py])

    Running a seed event through the recursion runner of a container built in the
    process, printing its traces, and the command line around it.  The file system is
    the class [Files]; what is printed is returned as a list of texts, one for each call
    of [print]. *)

From S2P Require Import Prelude PyStr PyVal Json JsonLoads Events Plans SubTasks Policies Env Client Definitions.
From S2P Require Import Prompts Records AgentRunSync Planning WorkItemTools OtherTools PlanningAgent Stores StateMemory.
From S2P Require Import PrismStore World ActionHandler Coordinator DomainHandler ContextProvider RecursionRunner.
From S2P Require Import FeatureProvisioning Settings Embeddings OciQueue Container FunctionEntry.

(** Paths as the program is given them, [str(Path(path))], and [read_text]. *)
Class Files := {
  path_text : string → string;
  path_exists : string → bool;
  read_text : string → res string
}.

(** ** Traces *)

(** [_format_trace_data]; the text of [json.dumps] is ASCII, and its only line breaks
    are those of the indentation. *)
Definition format_trace_data (data : dict pyval) : string :=
  str_join newline (map (λ line, "  " +:+ line) (str_split "010" (json_indent (PDict data)))).

Definition trace_lines (t : TraceEvent) : list string :=
  let plan := if ostr_truthy (te_plan_id t) then " plan=" +:+ from_option id "" (te_plan_id t) else "" in
  let action := if ostr_truthy (te_action_id t) then " action=" +:+ from_option id "" (te_action_id t) else "" in
  ("[" +:+ te_event_name t +:+ "]" +:+ plan +:+ action +:+ " " +:+ te_message t)
    :: match te_data t with [] => [] | data => [format_trace_data data] end.

Definition print_trace (traces : list TraceEvent) : list string := traces ≫= trace_lines.

(** ** Running an event *)

Definition local_settings : Settings := default_settings.

Definition example_seed_event `{Env} : st Ext RuntimeEvent :=
  b ← new_base "story.created" "workspace-local" (Some "project-local")
        [("story", PDict [("id", PStr "story-1"); ("title", PStr "Invite teammates to a Prism workspace");
                          ("version", PInt 1)]);
         ("entity_versions", PDict [("story:story-1", PInt 1)])] None causality_root None;
  mret (DomainEvent b).

(** [run(seed)], for an event or an envelope. *)
Definition run `{Env} `{AgentFactory} `{ContextHydration} {S Q : Type} `{StateStore S} `{Queue Q} (ru : RecursionRunner)
    (fuel : nat) (seed : RuntimeEvent + EventEnvelope) : st (World S Q) (list TraceEvent) :=
  match seed with inl event => run_event ru fuel event | inr envelope => run_envelope ru fuel envelope end.

Section local.
Context `{Env} `{StateCodec} `{LanguageModel} `{ThreadPool} `{PromptFiles} `{PromptModels} `{EnvelopeCodec}.
Context {B T : Type} `{ObjectStorage B} `{OciQueueClient T}.
Context (get_payload : string → string → pyval → option pyval → st Ext string).
Context `{FloatConversion} (environ : dict string).
Abbreviation M := (st (Services B T)).
Abbreviation App := (AppContainer (B:=B) (T:=T)).
Abbreviation AppWorld app := (World (bk_state (app_store app)) (qb_state (app_queue app))).

(** [container.recursion_runner.run] *)
Definition run_in (app : App) (fuel : nat) (seed : RuntimeEvent + EventEnvelope) :
    st (AppWorld app) (list TraceEvent) :=
  run (H0 := app_agent_factory app) (H1 := context_provider (app_context_provider app))
    (app_recursion_runner app) fuel seed.

(** [run_local]: the traces, and what it prints. *)
Definition run_local (fuel : nat) (seed : RuntimeEvent + EventEnvelope) (settings : option Settings) :
    M (list TraceEvent * list string) :=
  app ← lift_res (build_container get_payload environ (default local_settings settings));
  traces ← run_app app (run_in app fuel seed);
  mret (traces, print_trace traces).

(** ["event" in data], of a value that was read from JSON *)
Definition has_event (data : pyval) : res bool :=
  match data with
  | PDict d => Ok (match dict_get "event" d with Some _ => true | None => false end)
  | PList l => Ok (bool_decide (PStr "event" ∈ l))
  | PStr s => Ok (str_contains "event" s)
  | _ => err TypeError ("argument of type '" +:+ type_name data +:+ "' is not iterable")
  end.

Definition load_envelope `{Files} (path : string) : st Ext EventEnvelope :=
  text ← lift_res (read_text path);
  data ← lift_res (json_loads_or_raise text);
  found ← lift_res (has_event data);
  if (found : bool) then
    match data with PDict d => envelope_validate d | _ => validation_error "EventEnvelope" end
  else envelope_validate [("event", data)].

(** [main]: the exit code, and what is printed; [sys_argv] is [sys.argv[1:]]. *)
Definition main `{Files} (fuel : nat) (argv : option (list string)) (sys_argv : list string) : M (Z * list string) :=
  let argv := match argv with Some ((_ :: _) as l) => l | _ => sys_argv end in
  match argv with
  | [] => mret (2, ["Usage: python -m interfaces.cli <seed-event.json>"])
  | path :: _ =>
      envelope ← svc (load_envelope path);
      r ← run_local fuel (inr envelope) None;
      mret (0, r.2)
  end.

(** [ManualInvocationHandler.handle] and [ScheduledEventHandler.handle] *)
Definition manual_invocation (app : App) (envelope : EventEnvelope) : st (AppWorld app) unit :=
  handle_domain (H0 := app_agent_factory app) (H1 := context_provider (app_context_provider app))
    (app_domain_event_handler app) envelope.
Definition scheduled_event (app : App) (envelope : EventEnvelope) : st (AppWorld app) unit :=
  handle_domain (H0 := app_agent_factory app) (H1 := context_provider (app_context_provider app))
    (app_domain_event_handler app) envelope.
End local.

(** ** Properties *)

(** On the in-memory queue a run does not depend on the fuel once there is enough. *)
Lemma run_memory_ends `{Env} `{AgentFactory} `{ContextHydration} {S : Type} `{StateStore S} (ru : RecursionRunner) seed
    (w : World S MemoryQueue) :
  ∃ fuel out, ∀ n, (fuel ≤ n)%nat → run ru n seed w = out.
Proof.
  assert (He : ∀ e (v : World S MemoryQueue), ∃ fuel out, ∀ n, (fuel ≤ n)%nat → run_envelope ru n e v = out).
  { intros e v. unfold run_envelope. unfold mbind, st_bind at 1. destruct (on_queue (enqueue e) v) as [[m|x] v1]; [|by exists O, (Raise x, v1)].
    destruct (run_loop_ends ru 0 v1) as (fuel & r & v2 & _ & _ & Hl). exists fuel.
    eexists (match r with Ok _ => on_st store_traces v2 | Raise x => (Raise x, v2) end).
    intros n Hn. unfold st_bind. rw (Hl n Hn). by destruct r. }
  destruct seed as [event|e]; [|apply He]. destruct (ext (wrap event) w) as [[e|x] w1] eqn:E.
  - destruct (He e w1) as (fuel & out & Hf). exists fuel, out. intros n Hn.
    unfold run, run_event. rw (bind_step _ _ _ _ _ E). by apply Hf.
  - exists O, (Raise x, w1). intros n _. unfold run, run_event. by rw (bind_raise _ _ _ _ _ E).
Qed.

(** On the OCI queue the seed is published, and the loop stops at the first question
    the queue does not answer. *)
Lemma run_oci_raises `{Env} `{AgentFactory} `{ContextHydration} {S T : Type} `{StateStore S} `{OciQueueClient T}
    `{EnvelopeCodec} (ru : RecursionRunner) oq fuel envelope (w : World S T) m t x :
  oci_enqueue oq envelope (w_queue w, w_ext w) = (Ok m, (t, x)) →
  ∃ w', run (H3 := oci_queue oq) ru (Datatypes.S fuel) (inr envelope) w =
      (Raise (Exn NotImplementedError "OCI Queue emptiness checks are not used by OCI Functions."), w') ∧
    w_queue w' = t ∧ w_store w' = w_store w ∧ w_log w' = w_log w.
Proof.
  intros E. unfold run, run_envelope.
  assert (Eq : on_queue (enqueue (Queue := oci_queue oq) envelope) w = (Ok m, lput queue_lens (t, x) w)).
  { unfold on_queue, zoom. cbn [lget queue_lens enqueue oci_queue]. by rw E. }
  rw (bind_step _ _ _ _ _ Eq). eexists. split; [reflexivity|done].
Qed.

Section properties.
Context `{Env} `{StateCodec} `{LanguageModel} `{ThreadPool} `{PromptFiles} `{PromptModels} `{EnvelopeCodec}.
Context {B T : Type} `{ObjectStorage B} `{OciQueueClient T}.
Context (get_payload : string → string → pyval → option pyval → st Ext string).
Context `{FloatConversion} (environ : dict string).
Abbreviation build := (build_container (B:=B) (T:=T) get_payload environ).
Abbreviation run_local := (run_local (B:=B) (T:=T) get_payload environ).
Implicit Types sv : Services B T.

Lemma run_local_built s app n seed sv :
  build s = Ok app →
  run_local n seed (Some s) sv = (traces ← run_app app (run_in app n seed); mret (traces, print_trace traces)) sv.
Proof. intros Hb. unfold LocalEntry.run_local. cbn [default]. rw Hb. by rw (bind_step _ _ sv app sv eq_refl). Qed.

(** C40: a local run comes to an end.  With the in-memory queue there is a number of
    iterations from which on its outcome stays the same, whatever tools, model and
    services do, and nothing is published.  With the OCI queue and an envelope as the
    seed, when the queue service accepts its message, the message is published for an
    invocation of the function to handle; the run then raises, with the store as it was
    opened. *)
Theorem run_local_spec s app sv :
  build s = Ok app →
  (se_queue_backend s = "memory" → ∀ seed,
     ∃ fuel r sv', sv_topic sv' = sv_topic sv ∧ ∀ n, (fuel ≤ n)%nat → run_local n seed (Some s) sv = (r, sv')) ∧
  (∀ queue_ocid, se_queue_backend s ≠ "memory" → se_oci_queue_ocid s = Some queue_ocid → ∀ fuel envelope response t x,
     put_messages queue_ocid (envelope_json envelope) (sv_topic sv, new_client_ext (sv_ext sv)) = (Ok response, (t, x)) →
     ∃ sv', run_local (S fuel) (inr envelope) (Some s) sv =
         (Raise (Exn NotImplementedError "OCI Queue emptiness checks are not used by OCI Functions."), sv') ∧
       sv_topic sv' = t ∧ sv_bucket sv' = bk_bucket (app_store app) (sv_bucket sv) (bk_open (app_store app) (sv_bucket sv))).
Proof.
  intros Hb. destruct (build_container_Ok _ _ s app Hb) as (q & s0 & st & p & tr & k & w & Happ).
  cbv zeta in Happ. destruct Happ as (Hq & _ & _ & _ & Ea). unfold build_queue in Hq. split.
  - intros Hm seed. rw bool_decide_true // in Hq. injection Hq as <-.
    assert (Hrun : ∃ fuel out, ∀ n, (fuel ≤ n)%nat → run_app app (run_in app n seed) sv = out ∧ sv_topic out.2 = sv_topic sv).
    { rw Ea. set (a := assemble _ _ _ _ _ _ _ _ _ _).
      destruct (run_memory_ends (H0 := app_agent_factory a) (H1 := context_provider (app_context_provider a))
        (app_recursion_runner a) seed (app_open a sv)) as (fuel & [r v] & Hf).
      exists fuel, (r, app_close a sv v). intros n Hn. unfold run_app, run_in. by rw (Hf n Hn). }
    destruct Hrun as (fuel & [r sv1] & Hrun). exists fuel.
    exists (match r with Ok traces => Ok (traces, print_trace traces) | Raise e => Raise e end), sv1.
    split; [by destruct (Hrun fuel (le_n _))|]. intros n Hn. rw (run_local_built s app n seed sv Hb).
    destruct (Hrun n Hn) as [E _]. unfold mbind, st_bind. rw E. by destruct r.
  - intros queue_ocid Hm Ho fuel envelope response t x E. rw bool_decide_false // Ho in Hq.
    unfold mbind, res_bind, oci_queue_init in Hq. destruct (str_truthy queue_ocid); [|done]. injection Hq as <-.
    rw (run_local_built s app _ _ sv Hb). rw Ea. set (a := assemble _ _ _ _ _ _ _ _ _ _).
    assert (Ee : oci_enqueue {| oq_queue_ocid := queue_ocid |} envelope (w_queue (app_open a sv), w_ext (app_open a sv)) =
      (Ok {| qm_message_id := published_message_id response (env_envelope_id envelope); qm_envelope := envelope;
             qm_receipt := None |}, (t, x))).
    { unfold oci_enqueue. by rw (bind_step _ _ _ _ _ E). }
    destruct (run_oci_raises (H0 := app_agent_factory a) (H1 := context_provider (app_context_provider a))
      (app_recursion_runner a) _ fuel envelope (app_open a sv) _ _ _ Ee) as (v & Er & Ht & Hs & _).
    exists (app_close a sv v). split; [|by rw /= Ht Hs].
    apply bind_raise. unfold run_app, run_in. by rw Er.
Qed.
End properties.
