(* ===== verification/TraceLogging.v ===== *)
(** * Logging of traces

    [LOG_TRACES] wraps the state store of a container in the proxy that logs traces.
    Every handler, the runner and the worker behave the same on two stores that promise
    the same ([StoreSim]), so the wrapping changes neither what an invocation returns
    nor what it leaves behind. *)

From S2P Require Import Prelude PyStr PyVal Events Plans SubTasks Policies Env Client Definitions Prompts Records.
From S2P Require Import AgentRunSync Planning WorkItemTools OtherTools PlanningAgent Stores StateMemory PrismStore.
From S2P Require Import World ActionHandler AtMostOnce PrismProofs Coordinator DomainHandler ContextProvider RecursionRunner.
From S2P Require Import FeatureProvisioning Settings Embeddings OciQueue Container FunctionEntry LocalEntry.

(** ** Keys of a workspace

    What two stores promise to the worker. *)

Class KeysSim {S1 S2} (R : S1 → S2 → Prop) (H1 : StateStore S1) (H2 : StateStore S2) (K1 : WorkspaceKeys S1)
    (K2 : WorkspaceKeys S2) : Prop := {
  sim_check_key w k r : sim (with_ext R) (check_worker_key (S:=S1) w k r) (check_worker_key (S:=S2) w k r);
  sim_record_key w k r : sim (with_ext R) (record_worker_key (S:=S1) w k r) (record_worker_key (S:=S2) w k r)
}.
#[export] Hint Resolve sim_check_key sim_record_key : sim.

#[export] Instance logging_keys_sim {S : Type} `{HS : StateStore S} `{HK : WorkspaceKeys S} :
  KeysSim wraps (logging_state_store (S:=S)) HS logging_workspace_keys HK.
Proof.
  constructor; intros w k r.
  - unfold check_worker_key. cbn [workspace_keys logging_workspace_keys]. destruct workspace_keys as [m|]; cbn; apply zoom_logged_sim.
  - unfold record_worker_key. cbn [workspace_keys logging_workspace_keys]. destruct workspace_keys as [m|]; cbn; apply zoom_logged_sim.
Qed.

(** ** The handlers and the runner *)

Section handlers.
Context `{Env} `{AgentFactory} `{ContextHydration} {S1 S2 Q : Type} (R : S1 → S2 → Prop) `{HQ : Queue Q}.
Context {H1' : StateStore S1} {H2' : StateStore S2} {HS : StoreSim R H1' H2'}.

Lemma trace_sim e n m p a d : sim (world_rel (Q:=Q) R) (trace (S:=S1) e n m p a d) (trace (S:=S2) e n m p a d).
Proof. unfold trace. solve_sim. Qed.
Lemma enqueue_event_sim e : sim (world_rel (Q:=Q) R) (enqueue_event (S:=S1) e) (enqueue_event (S:=S2) e).
Proof. unfold enqueue_event. solve_sim. Qed.
#[local] Hint Resolve trace_sim enqueue_event_sim : sim.

Lemma handle_action_sim rt e : sim (world_rel R) (handle_action (S:=S1) (Q:=Q) rt e) (handle_action (S:=S2) (Q:=Q) rt e).
Proof.
  unfold handle_action. generalize (Datatypes.S (Z.to_nat INLINE_ACTION_CHAIN_BUDGET)). intros n. revert e.
  induction n as [|n IH]; intros e; [apply sim_raise|]. by apply handle_step_sim.
Qed.

Lemma collect_outputs_sim i l o :
  sim (world_rel (Q:=Q) R) (collect_outputs (S:=S1) i l o) (collect_outputs (S:=S2) i l o).
Proof. revert o. induction l as [|a l IH]; intros o; cbn [collect_outputs]; solve_sim. Qed.
#[local] Hint Resolve handle_action_sim collect_outputs_sim : sim.

Lemma handle_subagent_sim co e :
  sim (world_rel R) (handle_subagent (S:=S1) (Q:=Q) co e) (handle_subagent (S:=S2) (Q:=Q) co e).
Proof.
  unfold handle_subagent, handle_task, handle_completed, apply_advance, store_result, build_result, plan_node,
    inject_results, resume_existing_subplan, dispatch_node, enqueue_completed, co_enqueue_action, co_trace. solve_sim.
Qed.

Lemma handle_domain_sim dh e :
  sim (world_rel R) (handle_domain (S:=S1) (Q:=Q) dh e) (handle_domain (S:=S2) (Q:=Q) dh e).
Proof.
  unfold handle_domain, handle_single, handle_orchestrated, start_orchestration, dispatch_ready, create_run_plan,
    plan_root, begin_run, start_plan, no_first_action, enqueue_first_action, unless_terminal,
    trace_terminal_run_skip, dh_trace. solve_sim.
Qed.
#[local] Hint Resolve handle_subagent_sim handle_domain_sim : sim.

Lemma handle_event_sim ru e : sim (world_rel R) (handle_event (S:=S1) (Q:=Q) ru e) (handle_event (S:=S2) (Q:=Q) ru e).
Proof. unfold handle_event. solve_sim. Qed.
#[local] Hint Resolve handle_event_sim : sim.

Lemma max_depth_sim ru e :
  sim (world_rel R) (record_max_depth_failure (S:=S1) (Q:=Q) ru e) (record_max_depth_failure (S:=S2) (Q:=Q) ru e).
Proof. unfold record_max_depth_failure, ru_trace. solve_sim. Qed.
#[local] Hint Resolve max_depth_sim : sim.

Lemma run_sim ru n seed : sim (world_rel R) (run (S:=S1) (Q:=Q) ru n seed) (run (S:=S2) (Q:=Q) ru n seed).
Proof.
  assert (Hl : ∀ n z, sim (world_rel R) (run_loop (S:=S1) (Q:=Q) ru n z) (run_loop (S:=S2) (Q:=Q) ru n z)).
  { clear n. induction n as [|n IH]; intros z; cbn [run_loop]; unfold process_message, handle_message, fail_with, ack_message, ru_trace;
      solve_sim. }
  unfold run, run_event, run_envelope. solve_sim.
Qed.

Lemma handle_pointer_sim `{ProvisioningModels} {K1 : WorkspaceKeys S1} {K2 : WorkspaceKeys S2}
    {HK : KeysSim R H1' H2' K1 K2} store dh d :
  sim (world_rel R) (handle_pointer (S:=S1) (Q:=Q) store dh d) (handle_pointer (S:=S2) (Q:=Q) store dh d).
Proof. unfold handle_pointer, dispatch_pointer. solve_sim. Qed.
End handlers.

(** ** Containers that differ in the proxy *)

Definition with_log_traces (flag : bool) (s : Settings) : Settings := {|
  se_app_env := se_app_env s; se_state_backend := se_state_backend s; se_queue_backend := se_queue_backend s;
  se_llm_provider := se_llm_provider s; se_gemini_api_key := se_gemini_api_key s;
  se_default_gemini_model := se_default_gemini_model s; se_gemini_flash_model := se_gemini_flash_model s;
  se_embedding_model := se_embedding_model s; se_embedding_dimensions := se_embedding_dimensions s;
  se_max_recursion_depth := se_max_recursion_depth s; se_oci_queue_ocid := se_oci_queue_ocid s;
  se_oci_queue_messages_endpoint := se_oci_queue_messages_endpoint s;
  se_object_storage_bucket_name := se_object_storage_bucket_name s;
  se_object_storage_namespace := se_object_storage_namespace s; se_prism_api_base_url := se_prism_api_base_url s;
  se_prism_api_token := se_prism_api_token s; se_discord_webhook_url := se_discord_webhook_url s;
  se_log_level := se_log_level s; se_log_traces := flag; se_persist_agent_memories := se_persist_agent_memories s |}.

Section process.
Context `{Env} `{StateCodec} `{LanguageModel} `{ThreadPool} `{PromptFiles} `{PromptModels} `{EnvelopeCodec}.
Context `{ProvisioningModels} {B T : Type} `{ObjectStorage B} `{OciQueueClient T}.
Context (get_payload : string → string → pyval → option pyval → st Ext string).
Context `{FloatConversion} (environ : dict string).
Abbreviation build := (build_container (B:=B) (T:=T) get_payload environ).
Implicit Types sv : Services B T.

Lemma build_logged s n :
  configure_logging (se_log_level s) = Ok n →
  (∃ queue store client prompts tools skills workflows,
     build (with_log_traces true s) =
       Ok (assemble get_payload environ (with_log_traces true s) queue (logged_backend store) client prompts tools skills workflows) ∧
     build (with_log_traces false s) =
       Ok (assemble get_payload environ (with_log_traces false s) queue store client prompts tools skills workflows)) ∨
  ∃ e, build (with_log_traces true s) = Raise e ∧ build (with_log_traces false s) = Raise e.
Proof.
  intros Hc. unfold build_container.
  change (build_queue (with_log_traces true s)) with (build_queue (T:=T) s).
  change (build_queue (with_log_traces false s)) with (build_queue (T:=T) s).
  destruct (build_queue s) as [queue|e]; [|right; by exists e]. cbv zeta. unfold mbind, res_bind.
  change (build_state_store (with_log_traces true s)) with (build_state_store (B:=B) s).
  change (build_state_store (with_log_traces false s)) with (build_state_store (B:=B) s).
  cbn [with_log_traces se_prism_api_base_url se_prism_api_token se_log_traces se_log_level].
  destruct (build_state_store s _) as [store|e]; [|right; by exists e]. rw Hc.
  change (gemini_query_embedder (with_log_traces true s)) with (gemini_query_embedder s).
  change (gemini_query_embedder (with_log_traces false s)) with (gemini_query_embedder s).
  cbn [mret res_ret]. destruct (build_registries _ _) as [[[[tools skills] workflows]|e] prompts]; [left|right; by exists e].
  by eexists queue, store, _, prompts, tools, skills, workflows.
Qed.

Section app.
Context (s : Settings) (queue : QueueBackend T) (store : Backend B) (client : PrismApiClient) (prompts : PromptTables).
Context (tools : ToolRegistry Tool) (skills : SkillRegistry) (workflows : WorkflowRegistry).
Abbreviation logged := (assemble get_payload environ (with_log_traces true s) queue (logged_backend store) client prompts
  tools skills workflows).
Abbreviation plain := (assemble get_payload environ (with_log_traces false s) queue store client prompts tools skills workflows).
Abbreviation W1 := (World (LoggingStateStore (bk_state store)) (qb_state queue)).
Abbreviation W2 := (World (bk_state store) (qb_state queue)).

Lemma run_app_logged {A} (m1 : st W1 A) (m2 : st W2 A) sv :
  sim (world_rel wraps) m1 m2 → run_app logged m1 sv = run_app plain m2 sv.
Proof.
  intros Hm. unfold run_app. destruct (Hm (app_open logged sv) (app_open plain sv)) as [Hr Hw]; [by split_and!|].
  destruct (m1 (app_open logged sv)) as [r1 w1], (m2 (app_open plain sv)) as [r2 w2]. cbn [fst snd] in *. subst r2. f_equal.
  destruct Hw as (Hs & Hq & Hx & _). unfold wraps in Hs. unfold app_close. cbn. by rw Hs Hq Hx.
Qed.

Lemma process_in_logged e : sim (world_rel wraps) (process_in logged e : st W1 _) (process_in plain e : st W2 _).
Proof.
  unfold process_in. cbv zeta.
  assert (Hd : sim (world_rel wraps) (dispatch logged e : st W1 unit) (dispatch plain e : st W2 unit)).
  { unfold dispatch. destruct (env_event e); 
      first [exact (handle_action_sim wraps (HS := logging_store_sim) _ e)
            |exact (handle_subagent_sim wraps (HS := logging_store_sim) _ e)
            |exact (handle_domain_sim wraps (HS := logging_store_sim) _ e)]. }
  assert (Ht : sim (world_rel wraps) (on_st store_traces : st W1 _) (on_st store_traces : st W2 _)) by apply on_st_sim, (sim_traces (StoreSim := logging_store_sim)).
  cbn [app_recursion_runner assemble ru_max_recursion_depth with_log_traces se_max_recursion_depth].
  destruct (exceeds_max_depth _ _ _).
  - apply sim_bind; [exact (max_depth_sim wraps (HS := logging_store_sim) _ _)|intros _]. apply sim_bind; [exact Ht|intros t; apply sim_ret].
  - apply sim_bind; [exact Hd|intros _]. apply sim_bind; [exact Ht|intros t; apply sim_ret].
Qed.

Lemma pointer_in_logged js d : sim (world_rel wraps) (pointer_in js logged d : st W1 _) (pointer_in js plain d : st W2 _).
Proof.
  unfold pointer_in. apply sim_bind; [exact (handle_pointer_sim wraps (HS := logging_store_sim) (HK := logging_keys_sim) _ _ _)|intros r].
  assert (Ht : sim (world_rel wraps) (on_st store_traces : st W1 _) (on_st store_traces : st W2 _)) by apply on_st_sim, (sim_traces (StoreSim := logging_store_sim)).
  apply sim_bind; [exact Ht|intros t; apply sim_ret].
Qed.
Lemma run_in_logged n seed : sim (world_rel wraps) (run_in logged n seed : st W1 _) (run_in plain n seed : st W2 _).
Proof. exact (run_sim wraps (HS := logging_store_sim) _ n seed). Qed.
End app.
End process.

(** C36: logging the traces changes nothing else.  With a valid log level - an invalid
    one makes a local run raise when [LOG_TRACES] is on - processing a payload, an event or a
    pointer, and a local run return the same or raise the same with [LOG_TRACES] on and
    off, publish the same messages, leave the same bucket and make the same requests,
    for every state store and queue the settings choose and every tool and model. *)
Theorem log_traces_transparent `{Env} `{StateCodec} `{LanguageModel} `{ThreadPool} `{PromptFiles} `{PromptModels}
    `{EnvelopeCodec} `{ProvisioningModels} `{FloatConversion} {B T} `{ObjectStorage B} `{OciQueueClient T}
    get_payload environ s n (sv : Services B T) :
  configure_logging (se_log_level s) = Ok n →
  (∀ payload, process get_payload environ (with_log_traces true s) payload sv =
              process get_payload environ (with_log_traces false s) payload sv) ∧
  (∀ fuel seed, run_local get_payload environ fuel seed (Some (with_log_traces true s)) sv =
                run_local get_payload environ fuel seed (Some (with_log_traces false s)) sv).
Proof.
  intros Hc.
  destruct (build_logged (B:=B) (T:=T) get_payload environ s n Hc) as [(q & st & c & p & tr & k & w & E1 & E2)|(e & E1 & E2)].
  - split.
    + intros payload. unfold process. rw E1 E2.
      change (payload_store_init get_payload (with_log_traces true s)) with (payload_store_init get_payload s).
      change (payload_store_init get_payload (with_log_traces false s)) with (payload_store_init get_payload s).
      destruct (is_feature_provisioning_pointer payload).
      * destruct (payload_store_init get_payload s) as [js|e]; [|done].
        apply run_app_logged, pointer_in_logged.
      * unfold mbind, st_bind. destruct (svc _ sv) as [[envelope|e] sv1]; [|done]. apply run_app_logged, process_in_logged.
    + intros fuel seed. unfold run_local. cbn [default from_option id]. rw E1 E2. unfold mbind, st_bind. cbn [lift_res].
      by rw (run_app_logged get_payload environ s q st c p tr k w _ _ sv (run_in_logged get_payload environ s q st c p tr k w fuel seed)).
  - split.
    + intros payload. unfold process. rw E1 E2.
      change (payload_store_init get_payload (with_log_traces true s)) with (payload_store_init get_payload s).
      change (payload_store_init get_payload (with_log_traces false s)) with (payload_store_init get_payload s). done.
    + intros fuel seed. unfold run_local. cbn [default from_option id]. by rw E1 E2.
Qed.
