(* ===== verification/AgentLocal.v ===== *)
(** * The development command line ([src/interfaces/test_commands.py])

    [agent-local]: a seed event or a feature pointer, run in the process against the
    Prism API, or offline.  The arguments are those [argparse] made; the file system is
    the class [Files]; the JSON dumps of events are the class [EventDumps].  The process
    environment is explicit, since the command adds to it.  What is printed is returned
    with the exit code, the message on the error stream last; what was printed before an
    exception is not kept. *)

From S2P Require Import Prelude PyStr PyVal Json JsonLoads Events Plans SubTasks Policies Env Client Definitions.
From S2P Require Import Prompts Records AgentRunSync Planning WorkItemTools OtherTools PlanningAgent Stores StateMemory.
From S2P Require Import PrismStore World ActionHandler Coordinator DomainHandler ContextProvider RecursionRunner.
From S2P Require Import FeatureProvisioning Settings Embeddings OciQueue Container FunctionEntry LocalEntry.

Class EventDumps := {
  event_dump : RuntimeEvent → pyval;
  envelope_dump : EventEnvelope → pyval
}.

Record AgentArgs := {
  aa_input_path : option string;
  aa_feature_provision : bool;
  aa_payload_file : option string;
  aa_oci_payload_store : bool;
  aa_live : bool;
  aa_offline : bool;
  aa_env_file : string;
  aa_no_env_file : bool
}.

(** ** The environment file *)

Definition line_break (c : ascii) : bool :=
  let n := code c in N.leb 10 n && N.leb n 13 || N.leb 28 n && N.leb n 30 || N.eqb n 133.

(** [splitlines]; a carriage return and the line feed after it are one break. *)
Fixpoint lines_chars (l cur : list ascii) : list (list ascii) :=
  match l with
  | [] => match cur with [] => [] | _ => [reverse cur] end
  | c :: l' =>
      if negb (line_break c) then lines_chars l' (c :: cur)
      else
        reverse cur :: (if N.eqb (code c) 13 then
                          match l' with
                          | d :: l'' => if N.eqb (code d) 10 then lines_chars l'' [] else lines_chars l' []
                          | [] => []
                          end
                        else lines_chars l' [])
  end.
Definition splitlines (s : string) : list string := map of_chars (lines_chars (chars s) []).

(** [.strip(c)] of a quote character *)
Definition strip_quote (n : N) (s : string) : string := strip_of (λ c, N.eqb (code c) n) s.

Definition has_nul (s : string) : bool := existsb (λ c, N.eqb (code c) 0) (chars s).

(** [os.environ.setdefault] *)
Definition environ_setdefault (key value : string) (environ : dict string) : res (dict string) :=
  if dict_mem key environ then Ok environ
  else if has_nul key || has_nul value then err ValueError "embedded null byte"
  else if str_truthy key then Ok (dict_set key value environ)
  else err (OtherError "OSError") "[Errno 22] Invalid argument".

Definition load_env_line (environ : dict string) (raw_line : string) : res (dict string) :=
  let line := strip raw_line in
  if negb (str_truthy line) || startswith line "#" then Ok environ
  else
    match split1 "="%char line with
    | None => Ok environ
    | Some (key, value) => environ_setdefault (strip key) (strip_quote 39 (strip_quote 34 (strip value))) environ
    end.

Fixpoint load_env_lines (lines : list string) (environ : dict string) : res (dict string) :=
  match lines with
  | [] => Ok environ
  | line :: lines' => environ' ← load_env_line environ line; load_env_lines lines' environ'
  end.

Section files.
Context `{Files}.

(** [_load_env_file] *)
Definition load_env_file (path : string) (environ : dict string) : res (dict string) :=
  if negb (path_exists path) then Ok environ
  else text ← read_text path; load_env_lines (splitlines text) environ.

(** ** Input files *)

(** [_load_json] *)
Definition load_json (path : string) : res (dict pyval) :=
  text ← read_text path;
  data ← json_loads_or_raise text;
  match data with
  | PDict d => Ok d
  | _ => err ValueError ("Expected JSON object in " +:+ path_text path +:+ ".")
  end.

(** [except OSError] *)
Definition OS_ERRORS : list string :=
  ["OSError"; "PermissionError"; "IsADirectoryError"; "NotADirectoryError"; "InterruptedError"; "BlockingIOError";
   "TimeoutError"].
Definition is_OSError (e : exn) : bool :=
  match exc_type e with FileNotFoundError => true | OtherError name => str_in name OS_ERRORS | _ => false end.

(** [_is_feature_provisioning_pointer_path]; a text that is not JSON is told apart from
    JSON that is not an object, which raises. *)
Definition is_pointer_path (path : string) : res bool :=
  match read_text path with
  | Raise e => if is_OSError e then Ok false else Raise e
  | Ok text =>
      match json_loads text with
      | None => Ok false
      | Some (PDict d) => Ok (is_feature_provisioning_pointer d)
      | Some _ => err ValueError ("Expected JSON object in " +:+ path_text path +:+ ".")
      end
  end.

(** [_load_envelope] *)
Definition load_envelope_file `{EnvelopeCodec} (path : string) : st Ext EventEnvelope :=
  data ← lift_res (load_json path);
  envelope_validate (match dict_get "event" data with Some _ => data | None => [("event", PDict data)] end).
End files.

(** ** Placeholders *)

Definition LOCAL_PLACEHOLDER_IDS : list string := ["workspace-local"; "project-local"].
Definition is_placeholder (s : string) : bool := existsb (λ item, str_contains item s) LOCAL_PLACEHOLDER_IDS.

(** [_placeholder_paths] *)
Fixpoint placeholder_paths (value : pyval) (path : string) : list string :=
  match value with
  | PStr s => if is_placeholder s then [path +:+ "=" +:+ s] else []
  | PList l =>
      (fix go (index : nat) (l : list pyval) : list string :=
         match l with
         | [] => []
         | item :: l' => placeholder_paths item (path +:+ "[" +:+ pretty index +:+ "]") ++ go (S index) l'
         end) O l
  | PDict d =>
      (fix go (d : dict pyval) : list string :=
         match d with
         | [] => []
         | (key, item) :: d' =>
             let key_path := path +:+ "." +:+ key in
             (if is_placeholder key then [key_path +:+ "=<key>"] else []) ++ placeholder_paths item key_path ++ go d'
         end) d
  | _ => []
  end.

(** [_reject_placeholder_values] *)
Definition reject_placeholder_values (value : pyval) (offline : bool) : res unit :=
  if offline then Ok tt
  else
    match placeholder_paths value "$" with
    | [] => Ok tt
    | placeholders =>
        let n := length placeholders in
        let suffix := if (n <=? 5)%nat then "" else " and " +:+ pretty (n - 5)%nat +:+ " more" in
        err RuntimeError ("Refusing to call Prism API with placeholder value(s): " +:+
          str_join ", " (take 5 placeholders) +:+ suffix +:+ ". " +:+
          "Use an input JSON file with real Prism IDs, or pass --offline for an in-memory dry run.")
    end.

(** ** Settings of a run *)

(** [settings.model_copy(update=...)] of the fields the command sets *)
Definition with_backends (s : Settings) (app_env state queue : string) (url token : option string) (persist : bool) :
    Settings := {|
  se_app_env := app_env; se_state_backend := state; se_queue_backend := queue; se_llm_provider := se_llm_provider s;
  se_gemini_api_key := se_gemini_api_key s; se_default_gemini_model := se_default_gemini_model s;
  se_gemini_flash_model := se_gemini_flash_model s; se_embedding_model := se_embedding_model s;
  se_embedding_dimensions := se_embedding_dimensions s; se_max_recursion_depth := se_max_recursion_depth s;
  se_oci_queue_ocid := se_oci_queue_ocid s; se_oci_queue_messages_endpoint := se_oci_queue_messages_endpoint s;
  se_object_storage_bucket_name := se_object_storage_bucket_name s;
  se_object_storage_namespace := se_object_storage_namespace s; se_prism_api_base_url := url;
  se_prism_api_token := token; se_discord_webhook_url := se_discord_webhook_url s; se_log_level := se_log_level s;
  se_log_traces := false; se_persist_agent_memories := persist |}.

Definition missing_api_config (s : Settings) : list string :=
  (if ostr_truthy (se_prism_api_base_url s) then [] else ["PRISM_API_BASE_URL"]) ++
  (if ostr_truthy (se_prism_api_token s) then [] else ["PRISM_API_TOKEN"]).

(** [_require_prism_api_config] *)
Definition require_prism_api_config (s : Settings) : res unit :=
  match missing_api_config s with
  | [] => Ok tt
  | missing =>
      err RuntimeError ("agent-local requires " +:+ str_join ", " missing +:+ " for real Prism API calls. " +:+
        "Set them in .env or the shell, or pass --offline for an in-memory dry run.")
  end.

(** [_settings_for_run]; the traces are printed, so they are never logged. *)
Definition settings_for_run `{Env} (live offline : bool) (environ : dict string) : res Settings :=
  s ← from_env environ;
  if live && offline then err ValueError "--live and --offline cannot be used together."
  else if offline then Ok (with_backends s "local" "memory" "memory" None None (se_persist_agent_memories s))
  else if live then
    Ok (with_backends s (se_app_env s) (se_state_backend s) (se_queue_backend s) (se_prism_api_base_url s)
          (se_prism_api_token s) (se_persist_agent_memories s))
  else
    require_prism_api_config s ;;
    Ok (with_backends s "local" "prism_api" "memory" (se_prism_api_base_url s) (se_prism_api_token s) false).

(** ** The command *)

(** [_local_feature_payload] *)
Definition local_feature_payload (p : FeatureProvisioningPointerEvent) : dict pyval :=
  [("requestId", PStr (fp_request_id p));
   ("workspace", PDict [("workspaceId", PStr (fp_workspace_id p)); ("name", PStr "Local Workspace")]);
   ("project", PDict [("projectId", PStr (fp_project_id p)); ("name", PStr "Local Project")]);
   ("featureSpecification", PStr "Provision a placeholder feature for an offline dry run.");
   ("workspaceMembers", PList [])].

Definition PIPELINE_FAILURE_TRACES : list string := ["event.failed"; "action.failed"; "plan.failed"; "recursion.max_depth"].
Definition pipeline_failures (traces : list TraceEvent) : list TraceEvent :=
  List.filter (λ t, str_in (te_event_name t) PIPELINE_FAILURE_TRACES) traces.

Section agent.
Context `{Env} `{StateCodec} `{LanguageModel} `{ThreadPool} `{PromptFiles} `{PromptModels} `{EnvelopeCodec}.
Context `{ProvisioningModels} `{Files} `{EventDumps} `{FloatConversion}.
Context {B T : Type} `{ObjectStorage B} `{OciQueueClient T}.
Context (get_payload : string → string → pyval → option pyval → st Ext string).
Abbreviation M := (st (Services B T)).

(** [_payload_store] *)
Definition payload_store (args : AgentArgs) (p : FeatureProvisioningPointerEvent) (environ : dict string) :
    res JsonPayloadStore :=
  if ostr_truthy (aa_payload_file args) then
    payload ← load_json (ostr_or (aa_payload_file args) EmptyString);
    Ok (memory_payload_store [(fp_payload_object_name p, payload)])
  else if aa_offline args then
    Ok (memory_payload_store [(fp_payload_object_name p, local_feature_payload p)])
  else
    s ← from_env environ;
    match configured_bucket s with
    | Some (ns, bucket) => Ok (object_storage_payload_store get_payload ns bucket)
    | None =>
        err RuntimeError ("agent-local feature provisioning API mode requires a real payload source. " +:+
          "Pass --payload-file with the hydrated feature request JSON, or set " +:+
          "OCI_OBJECT_STORAGE_NAMESPACE and OCI_OBJECT_STORAGE_BUCKET_NAME so the " +:+
          "pointer can be hydrated from OCI Object Storage. Pass --offline only for generated dry-run payloads.")
    end.

(** [_run_feature_provisioning], from the pointer's file *)
Definition run_feature_provisioning (fuel : nat) (args : AgentArgs) (path : string) (environ : dict string) :
    M (Z * list string) :=
  pointer_data ← lift_res (load_json path);
  pointer ← lift_res (pointer_validate pointer_data);
  lift_res (reject_placeholder_values (PDict pointer_data) (aa_offline args)) ;;
  s ← lift_res (settings_for_run (aa_live args) (aa_offline args) environ);
  app ← lift_res (build_container get_payload environ
          (with_backends s (se_app_env s) (se_state_backend s) "memory" (se_prism_api_base_url s)
             (se_prism_api_token s) (se_persist_agent_memories s)));
  '(event, traces) ← run_app app
    (store ← lift_res (payload_store args pointer environ);
     event ← ext (resolve_seed_event store pointer);
     traces ← run_in app fuel (inl event);
     mret (event, traces));
  match last (pipeline_failures traces) with
  | Some failure => raise (Exn RuntimeError (te_message failure))
  | None =>
      mret (0, print_trace traces ++ [json_indent (PDict
        [("ok", PBool true); ("request_id", PStr (fp_request_id pointer));
         ("event_id", PStr (ev_event_id (base event))); ("duplicate", PBool false)])])
  end.

(** [event.model_dump(mode="json")] of a seed *)
Definition seed_dump (seed : RuntimeEvent + EventEnvelope) : pyval :=
  match seed with inl event => event_dump event | inr envelope => envelope_dump envelope end.

(** The event of a file, or the example. *)
Definition read_seed (args : AgentArgs) : st Ext (RuntimeEvent + EventEnvelope) :=
  if ostr_truthy (aa_input_path args)
  then envelope ← load_envelope_file (ostr_or (aa_input_path args) EmptyString); mret (inr envelope)
  else event ← example_seed_event; mret (inl event).

Definition run_seed_event (fuel : nat) (args : AgentArgs) (environ : dict string) : M (Z * list string) :=
  seed ← svc (read_seed args);
  lift_res (reject_placeholder_values (seed_dump seed) (aa_offline args)) ;;
  s ← lift_res (settings_for_run (aa_live args) (aa_offline args) environ);
  r ← run_local get_payload environ fuel seed (Some s);
  mret (0, r.2).

(** [parser.error] *)
Definition usage_error {A} : M A := raise (Exn (OtherError "SystemExit") "2").

(** [_agent_local], after the arguments were parsed *)
Definition agent_local_run (fuel : nat) (args : AgentArgs) (environ : dict string) : M (Z * list string) :=
  environ ← lift_res (if aa_no_env_file args then Ok environ else load_env_file (aa_env_file args) environ);
  let path := ostr_or (aa_input_path args) EmptyString in
  if aa_feature_provision args then
    if ostr_truthy (aa_input_path args) then run_feature_provisioning fuel args path environ else usage_error
  else
    pointer ← lift_res (if ostr_truthy (aa_input_path args) then is_pointer_path path else Ok false);
    if (pointer : bool) then run_feature_provisioning fuel args path environ
    else run_seed_event fuel args environ.

(** [agent_local] *)
Definition agent_local (fuel : nat) (args : AgentArgs) (environ : dict string) : M (Z * list string) :=
  try_catch_if (λ e, is_RuntimeError e || is_ValueError e) (agent_local_run fuel args environ)
    (λ e, mret (2, ["error: " +:+ exn_str e])).
End agent.

(** ** Properties *)

(** The settings of a local run.  Both flags are refused.  Offline, the run has
    neither address nor token of the API and keeps its state and queue in memory; live,
    it has the backends of the environment; otherwise it has the state of the
    Prism API, an address and a token, drains an in-memory queue and never writes agent
    memories.  The traces are never logged.  What is raised is the settings' own error, a
    [ValueError] for the flags or a [RuntimeError] for a missing address or token. *)
Theorem settings_for_run_spec `{Env} live offline environ :
  match settings_for_run live offline environ with
  | Ok s =>
      ∃ s0, from_env environ = Ok s0 ∧ (live && offline) = false ∧ se_log_traces s = false ∧
        (offline = true → se_state_backend s = "memory" ∧ se_queue_backend s = "memory" ∧
           is_configured (client_init (se_prism_api_base_url s) (se_prism_api_token s)) = false) ∧
        (live = true → se_queue_backend s = se_queue_backend s0 ∧ se_state_backend s = se_state_backend s0 ∧
           se_persist_agent_memories s = se_persist_agent_memories s0) ∧
        (live = false → offline = false →
           se_state_backend s = "prism_api" ∧ se_queue_backend s = "memory" ∧ se_persist_agent_memories s = false ∧
           missing_api_config s = [])
  | Raise e =>
      from_env environ = Raise e ∨
      ∃ s0, from_env environ = Ok s0 ∧
        (live && offline = true ∧ exc_type e = ValueError ∨
         live = false ∧ offline = false ∧ missing_api_config s0 ≠ [] ∧ exc_type e = RuntimeError)
  end.
Proof.
  unfold settings_for_run, mbind, res_bind. destruct (from_env environ) as [s0|e]; [|by left].
  destruct live, offline; cbn [andb].
  - right. exists s0. split; [done|]. by left.
  - exists s0. by split_and!.
  - exists s0. by split_and!.
  - unfold require_prism_api_config. destruct (missing_api_config s0) as [|m l] eqn:Em.
    + exists s0. split_and!; try done.
    + right. exists s0. split; [done|]. right. split; [done|]. split; [done|]. split; [|done]. by rw Em.
Qed.

(** A text or a key inside the value contains an id of the examples. *)
Inductive mentions : pyval → Prop :=
  | mn_text s : is_placeholder s = true → mentions (PStr s)
  | mn_item l v : v ∈ l → mentions v → mentions (PList l)
  | mn_key d k v : (k, v) ∈ d → is_placeholder k = true → mentions (PDict d)
  | mn_value d k v : (k, v) ∈ d → mentions v → mentions (PDict d).

Lemma placeholder_paths_nil v path : placeholder_paths v path = [] ↔ ¬ mentions v.
Proof.
  revert path. induction v as [| | | |s|l IH|d IH] using pyval_nested_ind; intros path.
  1-4: split; [intros _ Hm; inversion Hm|done].
  - cbn [placeholder_paths]. destruct (is_placeholder s) eqn:E; split; try done.
    + intros Hm. by destruct Hm; constructor.
    + intros _ Hm. inversion Hm. congruence.
  - cbn [placeholder_paths]. generalize O. induction l as [|v l IHl]; intros i.
    { split; [|done]. intros _ Hm. inversion Hm as [|? ? Hin| |]; subst. by apply not_elem_of_nil in Hin. }
    apply Forall_cons in IH as [Hv IH]. rw app_nil Hv (IHl IH (S i)). split.
    + intros [Hnv Hnl] Hm. inversion Hm as [|l' w Hin Hw| |]; subst. apply elem_of_cons in Hin as [->|Hin]; [done|].
      apply Hnl. by eapply mn_item.
    + intros Hn. split; intros Hm; apply Hn; [eapply mn_item; [by left|done]|].
      inversion Hm as [|l' w Hin Hw| |]; subst. eapply mn_item; [by right|done].
  - cbn [placeholder_paths]. induction d as [|[k v] d IHd].
    { split; [|done]. intros _ Hm. inversion Hm as [| |? ? ? Hin|? ? ? Hin]; subst; by apply not_elem_of_nil in Hin. }
    apply Forall_cons in IH as [Hv IH]. cbn [snd] in Hv. rw !app_nil Hv (IHd IH). split.
    + intros (Hk & Hnv & Hnd) Hm. inversion Hm as [| |d' k' w Hin Hk'|d' k' w Hin Hw]; subst.
      * apply elem_of_cons in Hin as [[= -> ->]|Hin]; [by rw Hk' in Hk|]. apply Hnd. by eapply mn_key.
      * apply elem_of_cons in Hin as [[= -> ->]|Hin]; [done|]. apply Hnd. by eapply mn_value.
    + intros Hn. split_and!.
      * destruct (is_placeholder k) eqn:E; [|done]. destruct Hn. eapply mn_key; [by left|done].
      * intros Hm. apply Hn. eapply mn_value; [by left|done].
      * intros Hm. apply Hn. inversion Hm as [| |d' k' w Hin Hk'|d' k' w Hin Hw]; subst;
          [eapply mn_key|eapply mn_value]; try done; by right.
Qed.

Lemma reject_mentions v : reject_placeholder_values v false = Ok tt → ¬ mentions v.
Proof.
  unfold reject_placeholder_values. destruct (placeholder_paths v "$") eqn:E; [by apply placeholder_paths_nil in E|done].
Qed.

(** *** What a run touches *)

Section properties.
Context `{Env} `{StateCodec} `{LanguageModel} `{ThreadPool} `{PromptFiles} `{PromptModels} `{EnvelopeCodec}.
Context `{ProvisioningModels} `{Files} `{EventDumps} `{FloatConversion}.
Context {B T : Type} `{ObjectStorage B} `{OciQueueClient T}.
Context (get_payload : string → string → pyval → option pyval → st Ext string).
Abbreviation M := (st (Services B T)).
Implicit Types sv : Services B T.

(** Nothing was stored, published or requested. *)
Definition untouched sv sv' : Prop :=
  sv_bucket sv' = sv_bucket sv ∧ sv_topic sv' = sv_topic sv ∧ x_requests (sv_ext sv') = x_requests (sv_ext sv).

(** The input of a run, as the placeholder check sees it. *)
Inductive run_input (args : AgentArgs) (x : Ext) : pyval → Prop :=
  | ri_pointer path d p :
      aa_input_path args = Some path → load_json path = Ok d → pointer_validate d = Ok p → run_input args x (PDict d)
  | ri_envelope path e x' :
      aa_input_path args = Some path → load_envelope_file path x = (Ok e, x') → run_input args x (envelope_dump e)
  | ri_example e x' :
      ostr_truthy (aa_input_path args) = false → example_seed_event x = (Ok e, x') → run_input args x (event_dump e).

(** Untouched services, unless [P]. *)
Definition stays {A} (P : Prop) sv (m : M A) sv0 : Prop := untouched sv0 (m sv).2 ∨ P.

Lemma stays_bind {A C} P sv sv0 (m : M A) (k : A → M C) :
  untouched sv0 (m sv).2 → (∀ a sv1, m sv = (Ok a, sv1) → untouched sv0 sv1 → stays P sv1 (k a) sv0) →
  stays P sv (m ≫= k) sv0.
Proof.
  unfold stays. intros Hu Hk. destruct (m sv) as [[a|e] sv1] eqn:E.
  - rw (bind_step _ k _ _ _ E). by apply Hk.
  - rw (bind_raise _ k _ _ _ E). by left.
Qed.

Lemma stays_lift {A C} P sv sv0 (r : res A) (k : A → M C) :
  untouched sv0 sv → (∀ a, r = Ok a → stays P sv (k a) sv0) → stays P sv (lift_res r ≫= k) sv0.
Proof. intros Hu Hk. apply stays_bind; [by destruct r|]. intros a sv1 [-> ->]%lift_Ok _. by apply Hk. Qed.

Lemma svc_untouched {A} (m : st Ext A) sv : respects ext_quiet m → untouched sv (svc m sv).2.
Proof.
  intros Hm. specialize (Hm (sv_ext sv)). unfold svc, zoom. cbn [lget services_ext]. destruct (m (sv_ext sv)) as [r x].
  by destruct Hm as [Hr _].
Qed.

Lemma input_path_Some args : ostr_truthy (aa_input_path args) = true →
  ∃ path, aa_input_path args = Some path ∧ ostr_or (aa_input_path args) EmptyString = path.
Proof.
  destruct (aa_input_path args) as [path|]; [|done]. intros Ht. exists path. split; [done|].
  unfold ostr_or, str_or. cbn in Ht. by rw Ht.
Qed.

Lemma read_seed_input args x seed x' : read_seed args x = (Ok seed, x') → run_input args x (seed_dump seed).
Proof.
  unfold read_seed. destruct (ostr_truthy (aa_input_path args)) eqn:Ht; intros E; apply bind_Ok in E as (e & x1 & E & Er);
    injection Er as <- <-; cbn [seed_dump].
  - destruct (input_path_Some args Ht) as (path & Hp & Ep). rw Ep in E. by eapply ri_envelope.
  - by eapply ri_example.
Qed.

Section guard.
Context (Hpydantic : ∀ d, respects ext_quiet (envelope_validate d)).

#[local] Hint Resolve Hpydantic new_base_quiet : respects.

Lemma read_seed_quiet args : respects ext_quiet (read_seed args).
Proof. unfold read_seed, load_envelope_file, example_seed_event. solve_respects. Qed.

Context (fuel : nat) (args : AgentArgs) (environ : dict string) (sv : Services B T) (P : Prop).
Context (Honline : aa_offline args = false).
Context (Hallowed : ∀ v, run_input args (sv_ext sv) v → reject_placeholder_values v false = Ok tt →
  (∃ s, settings_for_run (aa_live args) false environ = Ok s) → P).

Lemma run_seed_event_guarded : stays P sv (run_seed_event get_payload fuel args environ) sv.
Proof.
  unfold run_seed_event. apply stays_bind; [apply svc_untouched, read_seed_quiet|]. intros seed sv1 E Hu.
  assert (Hi : run_input args (sv_ext sv) (seed_dump seed)).
  { unfold svc, zoom in E. cbn [lget services_ext] in E. destruct (read_seed args (sv_ext sv)) as [r x] eqn:Er.
    injection E as -> _. by eapply read_seed_input. }
  apply stays_lift; [done|]. intros [] Hr. rw Honline in Hr.
  apply stays_lift; [done|]. intros s Hs. rw Honline in Hs. right. eapply Hallowed; eauto.
Qed.

Lemma run_feature_provisioning_guarded :
  ostr_truthy (aa_input_path args) = true →
  stays P sv (run_feature_provisioning get_payload fuel args (ostr_or (aa_input_path args) EmptyString) environ) sv.
Proof.
  intros Ht. destruct (input_path_Some args Ht) as (path & Hpath & ->). unfold run_feature_provisioning.
  apply stays_lift; [done|]. intros d Hd. apply stays_lift; [done|]. intros p Hp.
  apply stays_lift; [done|]. intros [] Hr. rw Honline in Hr.
  apply stays_lift; [done|]. intros s Hs. rw Honline in Hs. right.
  eapply (Hallowed (PDict d)); [by eapply ri_pointer|done|by eexists].
Qed.
End guard.

(** C28: a local run that was not declared offline is guarded.  It sends no request,
    publishes nothing and leaves the bucket alone, unless its input - the pointer, the
    envelope or the example event - was read, names no id of the examples anywhere, and
    the settings for the run are complete.  Pydantic is taken to send no requests. *)
Theorem agent_local_guarded fuel args environ sv :
  aa_offline args = false → (∀ d, respects ext_quiet (envelope_validate d)) →
  let sv' := (agent_local get_payload fuel args environ sv).2 in
  untouched sv sv' ∨
  ∃ v environ' s, run_input args (sv_ext sv) v ∧ ¬ mentions v ∧
    (if aa_no_env_file args then Ok environ else load_env_file (aa_env_file args) environ) = Ok environ' ∧
    settings_for_run (aa_live args) false environ' = Ok s.
Proof.
  intros Ho Hv sv'.
  assert (Hsv : sv' = (agent_local_run get_payload fuel args environ sv).2).
  { unfold sv', agent_local, try_catch_if, try_catch. destruct (agent_local_run _ _ _ _ _) as [[a|e] s1]; [done|].
    by destruct (is_RuntimeError e || is_ValueError e). }
  rw Hsv. unfold agent_local_run.
  match goal with |- _ ∨ ?P => set (allowed := P) end.
  match goal with |- untouched _ (?m sv).2 ∨ _ => change (stays allowed sv m sv) end.
  apply stays_lift; [done|]. intros environ' He.
  assert (Hallowed : ∀ v, run_input args (sv_ext sv) v → reject_placeholder_values v false = Ok tt →
    (∃ s, settings_for_run (aa_live args) false environ' = Ok s) → allowed).
  { intros v Hi Hr (s & Hs). exists v, environ', s. split; [done|]. split; [by apply reject_mentions|done]. }
  pose proof (run_feature_provisioning_guarded fuel args environ' sv allowed Ho Hallowed) as Hp.
  destruct (aa_feature_provision args).
  - destruct (ostr_truthy (aa_input_path args)); [by apply Hp|by left].
  - apply stays_lift; [done|]. intros [|] Hb; [|by apply run_seed_event_guarded].
    destruct (ostr_truthy (aa_input_path args)); [by apply Hp|done].
Qed.
End properties.
