(* ===== verification/Offline.v ===== *)
(** * Offline runs

    What [agent-local --offline] promises, "run fully in memory without Prism API
    calls", shown over everything such a run can reach: the tools, the reports, the
    context provider, the planner and the handlers. *)

From S2P Require Import Prelude PyStr PyVal Json JsonLoads Events Plans SubTasks Policies Env Client Definitions.
From S2P Require Import Prompts Backlog Records Hydration AgentRunIds AgentRunSync Validation Planning WorkItems WorkItemTools.
From S2P Require Import OtherTools PlanQuality PlanningAgent Stores StateMemory PrismStore World ActionHandler ActionProofs.
From S2P Require Import Coordinator DomainHandler ContextProvider RecursionRunner FeatureProvisioning Settings Embeddings.
From S2P Require Import OciQueue Container FunctionEntry LocalEntry AgentLocal.

(** ** No request is sent

    A computation is silent when the requests made are the same afterwards. *)

Definition silent (x y : Ext) : Prop := x_requests y = x_requests x.

#[local] Instance silent_preorder : PreOrder silent.
Proof. split; [done|]. intros x y z H1' H2'. unfold silent in *. congruence. Qed.

Lemma quiet_silent {A} (m : st Ext A) : respects ext_quiet m → respects silent m.
Proof. intros Hm x. apply (Hm x). Qed.
#[local] Hint Resolve tool_success_quiet new_tool_result_quiet new_suggestion_quiet new_snapshot_quiet new_trace_quiet
  new_base_quiet new_envelope_quiet : respects.

(** *** Events the handlers make *)

Section events.
Context `{Env}.

Lemma new_action_event_quiet a b c d e f : respects ext_quiet (new_action_event a b c d e f).
Proof. unfold new_action_event. solve_respects. Qed.
Lemma new_task_event_quiet a b c d e f : respects ext_quiet (new_task_event a b c d e f).
Proof. unfold new_task_event. solve_respects. Qed.
Lemma new_completed_event_quiet a b c d e f g h : respects ext_quiet (new_completed_event a b c d e f g h).
Proof. unfold new_completed_event. solve_respects. Qed.
Lemma wrap_quiet e : respects ext_quiet (wrap e).
Proof. unfold wrap. solve_respects. Qed.
Lemma replan_event_quiet c p a e s r : respects ext_quiet (replan_event c p a e s r).
Proof. unfold replan_event. solve_respects. Qed.
Lemma new_graph_quiet c n s : respects ext_quiet (new_graph c n s).
Proof. unfold new_graph. solve_respects. Qed.
#[local] Hint Resolve new_graph_quiet : respects.
Lemma build_task_graph_quiet c w : respects ext_quiet (build_task_graph c w).
Proof. unfold build_task_graph. solve_respects. Qed.
#[local] Hint Resolve build_task_graph_quiet : respects.
Lemma build_orchestrated_graph_quiet r c w : respects ext_quiet (build_orchestrated_graph r c w).
Proof. unfold build_orchestrated_graph. solve_respects. Qed.
End events.
#[local] Hint Resolve new_action_event_quiet new_task_event_quiet new_completed_event_quiet wrap_quiet replan_event_quiet
  build_task_graph_quiet build_orchestrated_graph_quiet approval_result_quiet validate_before_quiet new_trace_quiet
  utc_now_quiet validation_error_quiet new_envelope_quiet : respects.

(** ** Tools without a live client *)

Section tools.
Context `{Env} `{ThreadPool} (deps : ToolDeps) (Hdead : live_client deps = None).

Lemma tool_failure_quiet name a error : respects ext_quiet (tool_failure name a error).
Proof. unfold tool_failure. auto with respects. Qed.
#[local] Hint Resolve tool_failure_quiet : respects.

Ltac quiet_tool := cbv zeta; rewrite ?Hdead; solve_respects.

Lemma semantic_duplicates_quiet t p c : respects ext_quiet (semantic_duplicates deps t p c).
Proof. unfold semantic_duplicates. quiet_tool. Qed.
#[local] Hint Resolve semantic_duplicates_quiet : respects.

Lemma find_duplicate_workitems_quiet a c : respects ext_quiet (find_duplicate_workitems deps a c).
Proof. unfold find_duplicate_workitems. quiet_tool. Qed.

Lemma create_workitem_quiet a c : respects ext_quiet (create_workitem deps a c).
Proof. unfold create_workitem. quiet_tool. Qed.

Lemma create_levels_quiet fuel project a c known created pending :
  respects ext_quiet (create_levels deps fuel project a c known created pending).
Proof.
  revert created pending. induction fuel as [|fuel IH]; intros created [|n pending]; cbn [create_levels]; try solve_respects.
  unfold create_level. quiet_tool.
Qed.
#[local] Hint Resolve create_levels_quiet : respects.

Lemma create_workitem_tree_quiet a c : respects ext_quiet (create_workitem_tree deps a c).
Proof. unfold create_workitem_tree. quiet_tool. Qed.

Lemma update_workitem_quiet a c : respects ext_quiet (update_workitem deps a c).
Proof. unfold update_workitem. quiet_tool. Qed.

Lemma bulk_update_quiet p a c i u : respects ext_quiet (bulk_update deps p a c i u).
Proof. unfold bulk_update. quiet_tool. Qed.
#[local] Hint Resolve bulk_update_quiet : respects.

Lemma update_workitems_bulk_quiet a c : respects ext_quiet (update_workitems_bulk deps a c).
Proof. unfold update_workitems_bulk. quiet_tool. Qed.

Lemma assign_workitem_quiet a c : respects ext_quiet (assign_workitem deps a c).
Proof. unfold assign_workitem. quiet_tool. Qed.

Lemma update_workitem_status_quiet a c : respects ext_quiet (update_workitem_status deps a c).
Proof. unfold update_workitem_status. quiet_tool. Qed.

Lemma create_sprint_tool_quiet a c : respects ext_quiet (create_sprint_tool deps a c).
Proof. unfold create_sprint_tool. quiet_tool. Qed.

Lemma add_sprint_work_items_tool_quiet a c : respects ext_quiet (add_sprint_work_items_tool deps a c).
Proof. unfold add_sprint_work_items_tool, added_result. quiet_tool. Qed.

Lemma submit_pull_request_review_quiet a c : respects ext_quiet (submit_pull_request_review deps a c).
Proof. unfold submit_pull_request_review. quiet_tool. Qed.
End tools.

(** ** The registry of tools *)

Section registry.
Context `{Env} `{ThreadPool} (deps : ToolDeps) (Hdead : live_client deps = None).

Definition quiet_tool (t : Tool) : Prop := ∀ a c, respects ext_quiet (tl_execute t a c).

Lemma implementation_quiet name make d : dict_get name (TOOL_IMPLEMENTATIONS deps) = Some make → quiet_tool (make d).
Proof.
  intros Hg. apply dict_get_Some_elem in Hg. unfold TOOL_IMPLEMENTATIONS in Hg. apply list_elem_of_fmap in Hg as ([n f] & [= -> ->] & Hin).
  intros a c. cbn [tl_execute snd]. revert Hin. rw !elem_of_cons.
  intros Hin. destruct_or! Hin; [injection Hin as -> ->..|by apply not_elem_of_nil in Hin].
  - unfold create_agent_suggestion. solve_respects.
  - by apply find_duplicate_workitems_quiet.
  - by apply create_sprint_tool_quiet.
  - by apply add_sprint_work_items_tool_quiet.
  - by apply create_workitem_quiet.
  - by apply create_workitem_tree_quiet.
  - by apply update_workitem_quiet.
  - by apply update_workitems_bulk_quiet.
  - by apply assign_workitem_quiet.
  - by apply update_workitem_status_quiet.
  - unfold add_workitem_comment. solve_respects.
  - unfold generate_sprint_report. solve_respects.
  - unfold link_pull_request. solve_respects.
  - by apply submit_pull_request_review_quiet.
  - unfold create_dashboard_insight. solve_respects.
Qed.

Lemma tool_registry_quiet definitions r name t :
  tool_registry deps definitions = Ok r → tool_get r name = Ok t → quiet_tool t.
Proof.
  unfold tool_registry. intros Hr.
  assert (Hall : ∀ l q0, (∀ n t', dict_get n (rg_tools q0) = Some t' → quiet_tool t') →
    tools_from (TOOL_IMPLEMENTATIONS deps) l q0 = Ok r → ∀ n t', dict_get n (rg_tools r) = Some t' → quiet_tool t').
  { induction l as [|d l IH]; intros q0 Hq0; cbn [tools_from]; [by intros [= <-]|].
    destruct (dict_get (tp_id d) (TOOL_IMPLEMENTATIONS deps)) as [make|] eqn:E; [|by apply IH].
    unfold tool_init, mbind, res_bind. case_bool_decide; [|done]. apply IH. intros n t'. unfold tool_register. cbn [rg_tools].
    rw dict_get_set. case_bool_decide; [|by apply Hq0]. intros [= <-]. by eapply implementation_quiet. }
  unfold tool_get. destruct (dict_get name (rg_tools r)) as [t'|] eqn:E; [|done]. intros [= <-].
  eapply (Hall definitions {| rg_tools := []; rg_definitions := [] |}); [done|exact Hr|exact E].
Qed.
End registry.

(** ** Reports and contexts without an address of the API *)

Section dead.
Context `{Env} (c : PrismApiClient) (Hdead : is_configured c = false).

Lemma fetch_context_entities_quiet e required : respects ext_quiet (fetch_context_entities c e required).
Proof.
  assert (He : ∀ es k, respects ext_quiet (context_entity c e es k)).
  { intros es k. unfold context_entity, member_workloads_context, project_work_items_context, backlog_work_items_context,
      sprints_context, pull_request_diff_context, log_diff_hydration. cbv zeta. rw !Hdead. cbn [negb orb andb]. solve_respects. }
  assert (Hf : ∀ keys es, respects ext_quiet (fetch_entities c e es keys)).
  { induction keys as [|k keys IH]; intros es; cbn [fetch_entities]; solve_respects. }
  unfold fetch_context_entities, compute_backlog_signals. solve_respects.
Qed.
End dead.

(** *** What a run offline is given *)

Section parts.
Context `{Env}.

Lemma set_versions_silent v : respects silent (set_versions v).
Proof. by intros x. Qed.
#[local] Hint Resolve set_versions_silent : respects.

Definition silent_hydration (hy : ContextHydration) : Prop := ∀ e w, respects silent (hydrate (ContextHydration := hy) e w).
Definition silent_factory (f : AgentFactory) : Prop :=
  ∀ w s t m c r p, respects silent (generate_plan (AgentFactory := f) w s t m c r p).

Lemma context_provider_silent cp :
  is_configured (cp_prism_client cp) = false →
  (∀ store, cp_diff_payload_store cp = Some store → ∀ n v, respects silent (fetch_json store n v)) →
  silent_hydration (context_provider cp).
Proof.
  intros Hc Hs e w. cbn [hydrate context_provider]. unfold hydrate_context.
  assert (Hr : ∀ e r, respects silent (resolve_diff_pointer cp e r)).
  { intros e' r. unfold resolve_diff_pointer. destruct (cp_diff_payload_store cp) as [store|] eqn:E; [|solve_respects].
    specialize (Hs store eq_refl). cbv zeta. assert (Hl : ∀ l d, respects silent (log_json l d)) by (intros; by apply quiet_silent, log_json_quiet).
    repeat (first [apply Hs|apply Hl|respects_step]). }
  assert (Hf : ∀ e r, respects silent (fetch_context_entities (cp_prism_client cp) e r)).
  { intros. by apply quiet_silent, fetch_context_entities_quiet. }
  assert (Hn : ∀ a b c d, respects silent (new_snapshot a b c d)) by (intros; apply quiet_silent, new_snapshot_quiet).
  assert (Hv : ∀ A m, respects silent (validation_error (A:=A) m)) by (intros; apply quiet_silent, validation_error_quiet).
  unfold capture_entity_versions. repeat (first [apply Hr|apply Hf|apply Hn|apply Hv|apply set_versions_silent|respects_step]).
Qed.

Lemma agent_factory_silent `{LanguageModel} g :
  (∀ r i m p, respects silent (run_agent r i m p)) → silent_factory (pydantic_ai_agent_factory g).
Proof.
  intros Hm w s t m c r p. cbn [generate_plan pydantic_ai_agent_factory].
  assert (Hmo : respects silent monotonic) by apply quiet_silent, monotonic_quiet.
  assert (Hb : ∀ z, respects silent (budget_spent z)) by (intros z; unfold budget_spent; repeat first [apply Hmo|respects_step]).
  assert (Hma : ∀ q, respects silent (materialize_typed_action_inputs q)).
  { intros q. unfold materialize_typed_action_inputs. generalize (pl_actions q) as l. intros l. revert q.
    induction l as [|a l IH]; intros q; cbn; [apply respects_ret; apply _|]. destruct (materialized_input a); [|apply IH].
    apply respects_bind; [apply _| |intros now; apply IH]. apply quiet_silent, utc_now_quiet. }
  assert (Ha : ∀ z b s', respects silent (planning_attempt g w s t m c r z b s')).
  { intros z b s'. unfold planning_attempt, ask_model, review_plan.
    repeat (first [apply Hmo|apply Hb|apply Hma|apply Hm|respects_step]). }
  assert (Hl : ∀ z n s', respects silent (planning_loop g w s t m n c r z s')).
  { intros z n. induction n as [|n IH]; intros s'; cbn [planning_loop]; repeat (first [apply Ha|apply IH|respects_step]). }
  unfold agent_generate_plan. repeat (first [apply Hmo|apply Hl|respects_step]).
Qed.

Lemma plan_for_node_silent `{F : AgentFactory} pn n c r w i : silent_factory F → respects silent (plan_for_node pn n c r w i).
Proof.
  intros HF. assert (Hc : ∀ i p k s t, respects silent (create_plan pn c r w i p k s t)).
  { intros. unfold create_plan. cbv zeta. repeat (first [apply HF|respects_step]). }
  unfold plan_for_node. repeat (first [apply Hc|respects_step]).
Qed.

Lemma record_run_started_off y c i o v : ars_enabled y = false → respects silent (record_run_started y c i o v).
Proof. unfold record_run_started. intros ->. by apply respects_ret, _. Qed.
Lemma record_plan_created_off y p : ars_enabled y = false → respects silent (record_plan_created y p).
Proof. unfold record_plan_created. intros ->. by apply respects_ret, _. Qed.
Lemma record_run_failed_off y w i m : ars_enabled y = false → respects silent (record_run_failed y w i m).
Proof. unfold record_run_failed. intros ->. by apply respects_ret, _. Qed.
Lemma record_run_running_off y w i : ars_enabled y = false → respects silent (record_run_running y w i).
Proof. unfold record_run_running. intros ->. by apply respects_ret, _. Qed.
Lemma record_action_state_off y p a e m : ars_enabled y = false → respects silent (record_action_state y p a e m).
Proof. unfold record_action_state. intros ->. by apply respects_ret, _. Qed.
Lemma record_run_completed_by_id_off y w i : ars_enabled y = false → respects silent (record_run_completed_by_id y w i).
Proof. unfold record_run_completed_by_id. intros ->. by apply respects_ret, _. Qed.
Lemma record_run_completed_off y p : ars_enabled y = false → respects silent (record_run_completed y p).
Proof. unfold record_run_completed. intros ->. by apply respects_ret, _. Qed.
End parts.

(** ** The handlers *)

Section handlers.
Context `{Env} `{F : AgentFactory} `{Hy : ContextHydration} (HF : silent_factory F) (HH : silent_hydration Hy).
Abbreviation W := (World MemoryStateStore MemoryQueue).

Definition no_requests (w w' : W) : Prop := x_requests (w_ext w') = x_requests (w_ext w).

#[local] Instance no_requests_preorder : PreOrder no_requests.
Proof. split; [done|]. intros x y z H1' H2'. unfold no_requests in *. congruence. Qed.

Lemma ext_no_requests {A} (m : st Ext A) : respects silent m → respects no_requests (ext m).
Proof. intros Hm w. specialize (Hm (w_ext w)). unfold ext, zoom. cbn [lget ext_lens]. by destruct (m (w_ext w)). Qed.

Lemma on_st_no_requests {A} (m : st (MemoryStateStore * Ext) A) :
  (∀ x, x_requests (m x).2.2 = x_requests x.2) → respects no_requests (on_st m).
Proof. intros Hm w. specialize (Hm (w_store w, w_ext w)). unfold on_st, zoom. cbn [lget store_lens]. by destruct (m _). Qed.

Lemma on_queue_no_requests {A} (m : st (MemoryQueue * Ext) A) :
  (∀ x, x_requests (m x).2.2 = x_requests x.2) → respects no_requests (on_queue m).
Proof. intros Hm w. specialize (Hm (w_queue w, w_ext w)). unfold on_queue, zoom. cbn [lget queue_lens]. by destruct (m _). Qed.

Lemma set_inline_no_requests n : respects no_requests (set_inline n).
Proof. by intros w. Qed.
Lemma log_no_requests e : respects no_requests (log e).
Proof. by intros w. Qed.
Lemma add_seen_no_requests i : respects no_requests (add_seen i).
Proof. by intros w. Qed.

Lemma claim_no_requests w r : respects no_requests (on_st (claim_ready_nodes w r)).
Proof.
  apply on_st_no_requests. intros [s x]. cbn. unfold run_store, mem_claim. cbn.
  destruct (ms_task_graphs s !! (w, r)) as [g|]; [|done]. by destruct (claim_ready g).
Qed.
Lemma advance_no_requests w r i s : respects no_requests (on_st (advance_task_graph w r i s)).
Proof.
  apply on_st_no_requests. intros [m x]. cbn. unfold run_store, mem_advance. cbn. by destruct (ms_task_graphs m !! (w, r)).
Qed.
Lemma enqueue_no_requests e : respects no_requests (on_queue (enqueue e)).
Proof. apply on_queue_no_requests. by intros [q x]. Qed.
Lemma dequeue_no_requests : respects no_requests (on_queue dequeue).
Proof. apply on_queue_no_requests. intros [q x]. cbn. unfold run_store, mq_pop. cbn. by destruct (mq_messages q). Qed.

#[local] Hint Resolve set_inline_no_requests log_no_requests add_seen_no_requests claim_no_requests advance_no_requests
  enqueue_no_requests dequeue_no_requests : respects.
#[local] Hint Extern 2 (respects no_requests (on_st _)) => apply on_st_no_requests; intros [? ?]; reflexivity : respects.
#[local] Hint Extern 2 (respects no_requests (on_queue _)) => apply on_queue_no_requests; intros [? ?]; reflexivity : respects.
#[local] Hint Extern 3 (respects no_requests (ext _)) => apply ext_no_requests, quiet_silent; solve [auto with respects] : respects.

Lemma trace_no_requests e n m p a d : respects no_requests (trace (S:=MemoryStateStore) (Q:=MemoryQueue) e n m p a d).
Proof. unfold trace. solve_respects. Qed.
Lemma enqueue_event_no_requests e : respects no_requests (enqueue_event (S:=MemoryStateStore) (Q:=MemoryQueue) e).
Proof. unfold enqueue_event. solve_respects. Qed.
#[local] Hint Resolve trace_no_requests enqueue_event_no_requests : respects.

Section action.
Context (rt : Runtime) (Hoff : ars_enabled (rt_sync rt) = false).
Context (Htools : ∀ name t, tool_get (rt_tools rt) name = Ok t → quiet_tool t).

Lemma execute_one_no_requests a c : respects no_requests (execute_one (S:=MemoryStateStore) (Q:=MemoryQueue) rt a c).
Proof.
  unfold execute_one. destruct (tool_get (rt_tools rt) (ac_tool_name a)) as [t|e] eqn:E; [|by intros w].
  assert (Hk : respects no_requests (log (S:=MemoryStateStore) (Q:=MemoryQueue) (LExecute (ac_idempotency_key a)) ;;
    ext (tl_execute t a c))).
  { apply respects_bind; [apply _|apply log_no_requests|intros _]. by apply ext_no_requests, quiet_silent, (Htools _ _ E). }
  intros w. exact (Hk w).
Qed.

Lemma report_no_requests p a e m : respects no_requests (report (S:=MemoryStateStore) (Q:=MemoryQueue) rt p a e m).
Proof. unfold report. by apply ext_no_requests, record_action_state_off. Qed.

Lemma completed_no_requests p : respects no_requests (ext (S:=MemoryStateStore) (Q:=MemoryQueue) (record_run_completed (rt_sync rt) p)).
Proof. by apply ext_no_requests, record_run_completed_off. Qed.
#[local] Hint Resolve execute_one_no_requests report_no_requests completed_no_requests : respects.

Lemma handle_action_no_requests e : respects no_requests (handle_action (S:=MemoryStateStore) (Q:=MemoryQueue) rt e).
Proof.
  unfold handle_action. generalize (Datatypes.S (Z.to_nat INLINE_ACTION_CHAIN_BUDGET)). intros n. revert e.
  induction n as [|n IH]; intros e; cbn [handle_action_n]; [apply respects_raise; apply _|].
  assert (Hn : ∀ e p, respects no_requests (enqueue_next_action rt (handle_action_n rt (λ _, raise out_of_fuel) n) e p)).
  { intros e' p. unfold enqueue_next_action, continue_with, chain_action, queue_action, settle_subplan, trace_action. solve_respects. }
  unfold handle_action_step, handle_pending, handle_execute, handle_result, handle_commit, handle_retry, handle_post_failed,
    handle_execution_error, handle_validation_fail, handle_replan, handle_suggest, settle_subplan, enqueue_events,
    set_action_status, trace_action. solve_respects.
Qed.
End action.

Lemma failed_no_requests y w i m : ars_enabled y = false →
  respects no_requests (ext (S:=MemoryStateStore) (Q:=MemoryQueue) (record_run_failed y w i m)).
Proof. intros. by apply ext_no_requests, record_run_failed_off. Qed.
Lemma planned_no_requests y p : ars_enabled y = false →
  respects no_requests (ext (S:=MemoryStateStore) (Q:=MemoryQueue) (record_plan_created y p)).
Proof. intros. by apply ext_no_requests, record_plan_created_off. Qed.
Lemma plan_no_requests pn n c r w i :
  respects no_requests (ext (S:=MemoryStateStore) (Q:=MemoryQueue) (plan_for_node pn n c r w i)).
Proof. by apply ext_no_requests, plan_for_node_silent. Qed.
#[local] Hint Resolve failed_no_requests planned_no_requests plan_no_requests : respects.

(** The same search, without existential variables. *)
Ltac no_request := repeat (first [solve [auto with respects] | respects_step]).

Lemma co_trace_no_requests e n m d : respects no_requests (co_trace (S:=MemoryStateStore) (Q:=MemoryQueue) e n m d).
Proof. unfold co_trace. no_request. Qed.
#[local] Hint Resolve co_trace_no_requests : respects.

Lemma collect_outputs_no_requests i l o : respects no_requests (collect_outputs (S:=MemoryStateStore) (Q:=MemoryQueue) i l o).
Proof. revert o. induction l as [|a l IH]; intros o; cbn [collect_outputs]; no_request. Qed.
#[local] Hint Resolve collect_outputs_no_requests : respects.

Section subagent.
Context (co : Coordinator) (Hoff : ars_enabled (co_sync co) = false).

Lemma settled_no_requests w i : respects no_requests (ext (S:=MemoryStateStore) (Q:=MemoryQueue) (record_run_completed_by_id (co_sync co) w i)).
Proof. by apply ext_no_requests, record_run_completed_by_id_off. Qed.
#[local] Hint Resolve settled_no_requests : respects.

Lemma plan_node_no_requests e p i g n s : respects no_requests (plan_node (S:=MemoryStateStore) (Q:=MemoryQueue) co e p i g n s).
Proof. unfold plan_node, inject_results, enqueue_completed, co_enqueue_action. no_request. Qed.

Lemma resume_no_requests e g n p : respects no_requests (resume_existing_subplan (S:=MemoryStateStore) (Q:=MemoryQueue) e g n p).
Proof. unfold resume_existing_subplan, enqueue_completed, co_enqueue_action. no_request. Qed.

Lemma apply_advance_no_requests e v i n s a :
  respects no_requests (apply_advance (S:=MemoryStateStore) (Q:=MemoryQueue) co e v i n s a).
Proof. unfold apply_advance, store_result, build_result, dispatch_node. no_request. Qed.
#[local] Hint Resolve plan_node_no_requests resume_no_requests apply_advance_no_requests : respects.

Lemma handle_subagent_no_requests e : respects no_requests (handle_subagent (S:=MemoryStateStore) (Q:=MemoryQueue) co e).
Proof. unfold handle_subagent, handle_task, handle_completed. no_request. Qed.
End subagent.

Lemma handle_domain_no_requests dh e : ars_enabled (dh_sync dh) = false →
  respects no_requests (handle_domain (S:=MemoryStateStore) (Q:=MemoryQueue) dh e).
Proof.
  intros Hoff.
  assert (Hh : ∀ w, respects no_requests (ext (S:=MemoryStateStore) (Q:=MemoryQueue) (hydrate e w))).
  { intros w. apply ext_no_requests, HH. }
  assert (Hs : ∀ c i g v, respects no_requests (ext (S:=MemoryStateStore) (Q:=MemoryQueue) (record_run_started (dh_sync dh) c i g v))).
  { intros. by apply ext_no_requests, record_run_started_off. }
  assert (Hr : ∀ w i, respects no_requests (ext (S:=MemoryStateStore) (Q:=MemoryQueue) (record_run_running (dh_sync dh) w i))).
  { intros. by apply ext_no_requests, record_run_running_off. }
  unfold handle_domain, handle_single, handle_orchestrated, start_orchestration, dispatch_ready, create_run_plan,
    plan_root, begin_run, start_plan, no_first_action, enqueue_first_action, unless_terminal,
    trace_terminal_run_skip, dh_trace. no_request.
Qed.

(** A runner that reports nothing and whose tools have no live client. *)
Record offline_runner (ru : RecursionRunner) : Prop := {
  or_domain : ars_enabled (dh_sync (ru_domain ru)) = false;
  or_action : ars_enabled (rt_sync (ru_action ru)) = false;
  or_sync y : ru_sync ru = Some y → ars_enabled y = false;
  or_coordinator co : ru_coordinator ru = Some co → ars_enabled (co_sync co) = false;
  or_tools name t : tool_get (rt_tools (ru_action ru)) name = Ok t → quiet_tool t
}.

Context (ru : RecursionRunner) (Hru : offline_runner ru).

Lemma handle_event_no_requests e : respects no_requests (handle_event (S:=MemoryStateStore) (Q:=MemoryQueue) ru e).
Proof.
  destruct Hru as [Hd Ha Hs Hc Ht]. unfold handle_event.
  assert (Hsub : ∀ co, ru_coordinator ru = Some co → respects no_requests (handle_subagent (S:=MemoryStateStore) (Q:=MemoryQueue) co e)).
  { intros co E. by apply handle_subagent_no_requests, Hc. }
  destruct (env_event e); try (by apply handle_domain_no_requests); try (by apply handle_action_no_requests).
  all: destruct (ru_coordinator ru) as [co|]; [by apply Hsub|apply respects_raise; apply _].
Qed.
#[local] Hint Resolve handle_event_no_requests : respects.

Lemma max_depth_no_requests e : respects no_requests (record_max_depth_failure (S:=MemoryStateStore) (Q:=MemoryQueue) ru e).
Proof.
  destruct Hru as [_ _ Hs _ _]. unfold record_max_depth_failure, ru_trace. cbv zeta. apply respects_bind; [apply _|no_request|intros _].
  destruct (ru_sync ru) as [y|]; no_request.
Qed.
#[local] Hint Resolve max_depth_no_requests : respects.

Lemma run_no_requests n seed : respects no_requests (run (S:=MemoryStateStore) (Q:=MemoryQueue) ru n seed).
Proof.
  assert (Hl : ∀ n z, respects no_requests (run_loop (S:=MemoryStateStore) (Q:=MemoryQueue) ru n z)).
  { clear n. induction n as [|n IH]; intros z; cbn [run_loop]; unfold process_message, handle_message, fail_with, ack_message, ru_trace;
      no_request. }
  unfold run, run_event, run_envelope. no_request.
Qed.
End handlers.

#[local] Existing Instance no_requests_preorder.

(** ** The command *)

(** The settings ask for nothing outside the process. *)
Definition offline_settings (s : Settings) : Prop :=
  se_state_backend s = "memory" ∧ se_queue_backend s = "memory" ∧ se_log_traces s = false ∧
  is_configured (client_init (se_prism_api_base_url s) (se_prism_api_token s)) = false.

Lemma offline_settings_made `{Env} live environ s : settings_for_run live true environ = Ok s → offline_settings s.
Proof.
  unfold settings_for_run, mbind, res_bind. destruct (from_env environ) as [s0|]; [|done]. by destruct live; intros [= <-].
Qed.

Section command.
Context `{Env} `{StateCodec} `{LanguageModel} `{ThreadPool} `{PromptFiles} `{PromptModels} `{EnvelopeCodec}.
Context `{ProvisioningModels} `{Files} `{EventDumps} `{FloatConversion}.
Context {B T : Type} `{ObjectStorage B} `{OciQueueClient T}.
Context (get_payload : string → string → pyval → option pyval → st Ext string) (environ : dict string).
Context (Hmodel : ∀ r i m p, respects silent (run_agent r i m p)).
Context (Hpayload : ∀ n b o v, respects silent (get_payload n b o v)).
Implicit Types sv : Services B T.

#[local] Hint Resolve Hpayload : respects.

Lemma object_payload_silent ns b n v : respects silent (fetch_json (object_storage_payload_store get_payload ns b) n v).
Proof. cbn. solve_respects. Qed.

Lemma memory_payload_silent d n v : respects silent (fetch_json (memory_payload_store d) n v).
Proof. cbn. solve_respects. Qed.

(** A pointer offline is resolved from a file or the generated payload. *)
Lemma offline_payload_silent args p store : aa_offline args = true →
  payload_store get_payload args p environ = Ok store → ∀ n v, respects silent (fetch_json store n v).
Proof.
  unfold payload_store. intros ->. destruct (ostr_truthy _).
  - unfold mbind, res_bind. destruct (load_json _); [|done]. intros [= <-]. apply memory_payload_silent.
  - intros [= <-]. apply memory_payload_silent.
Qed.

Lemma resolve_seed_event_silent store p :
  (∀ n v, respects silent (fetch_json store n v)) → respects silent (resolve_seed_event store p).
Proof.
  intros Hs. assert (Ht : ∀ y, respects silent (to_domain_event y p)).
  { intros y. apply quiet_silent. unfold to_domain_event. solve_respects. }
  unfold resolve_seed_event. repeat (first [apply Hs|apply Ht|respects_step]).
Qed.

(** A built container whose settings are those of an offline run: what it runs, after a
    quiet preparation, leaves everything untouched. *)
Lemma built_offline s app n sv :
  build_container (B:=B) (T:=T) get_payload environ s = Ok app → offline_settings s →
  (∀ seed, untouched sv (run_app app (run_in app n seed) sv).2) ∧
  ∀ (r : res JsonPayloadStore) p, (∀ store, r = Ok store → ∀ n v, respects silent (fetch_json store n v)) →
    untouched sv (run_app app
      (store ← lift_res r; event ← ext (resolve_seed_event store p);
       traces ← run_in app n (inl event); mret (event, traces)) sv).2.
Proof.
  intros Hb (Hs & Hq & Hl & Hc).
  destruct (build_container_Ok _ _ s app Hb) as (q & s0 & st & prompts & tools & skills & w & Happ).
  cbv zeta in Happ. destruct Happ as (Eq & Es & -> & Er & ->). unfold build_queue in Eq. unfold build_state_store in Es.
  rw Hq in Eq. rw Hs in Es. injection Eq as <-. injection Es as <-. rw Hl.
  set (client := client_init _ _) in *. apply build_registries_Ok in Er as (_ & Ht & _ & _).
  set (a := assemble _ _ _ _ _ _ _ _ _ _).
  assert (Hr : ∀ seed, respects no_requests (run_in a n seed)).
  { apply run_no_requests.
    - by apply agent_factory_silent.
    - apply context_provider_silent; [exact Hc|]. intros store E. cbn in E.
      destruct (configured_bucket s) as [[ns b]|]; [|done]. injection E as <-. apply object_payload_silent.
    - assert (Hy : ars_enabled (app_agent_run_sync a) = false) by (unfold ars_enabled; cbn; by rw Hs).
      constructor; cbn; [exact Hy|exact Hy|by intros y [= <-]|by intros co [= <-]|].
      intros name t. eapply tool_registry_quiet; [|exact Ht]. unfold live_client. cbn. by rw Hc. }
  assert (Hu : ∀ A (m : st (World MemoryStateStore MemoryQueue) A), respects no_requests m → untouched sv (run_app a m sv).2).
  { intros A m Hm. specialize (Hm (app_open a sv)). unfold run_app. destruct (m (app_open a sv)) as [r v]. by split_and!. }
  split; [intros seed; by apply Hu|]. intros r p Hst. apply Hu. destruct r as [store|e]; [|by intros x].
  specialize (Hst store eq_refl). pose proof (resolve_seed_event_silent store p Hst) as Hp.
  assert (He : respects no_requests (ext (S:=MemoryStateStore) (Q:=MemoryQueue) (resolve_seed_event store p))) by (by apply ext_no_requests).
  assert (Hk : respects no_requests (event ← ext (resolve_seed_event store p); traces ← run_in a n (inl event); mret (event, traces))).
  { apply respects_bind; [apply _|exact He|intros event]. apply respects_bind; [apply _|apply Hr|intros traces].
    apply respects_ret; apply _. }
  intros v. by rw (bind_step _ _ v store v eq_refl).
Qed.

#[local] Instance untouched_preorder : PreOrder (untouched (B:=B) (T:=T)).
Proof. split; [done|]. intros x y z (A1 & A2 & A3) (B1 & B2 & B3). split_and!; congruence. Qed.

Section run.
Context (Hpydantic : ∀ d, respects ext_quiet (envelope_validate d)).
Context (fuel : nat) (args : AgentArgs) (Hoffline : aa_offline args = true) (sv : Services B T).

Lemma run_app_stays {A C} sv0 app (m : st _ A) (k : A → st (Services B T) C) :
  untouched sv0 (run_app app m sv0).2 → (∀ a sv1, (k a sv1).2 = sv1) → stays False sv0 (run_app app m ≫= k) sv0.
Proof.
  intros Hm Hk. apply stays_bind; [done|]. intros a sv1 _ Hu. left. by rw Hk.
Qed.

Lemma run_seed_event_offline : stays False sv (run_seed_event get_payload fuel args environ) sv.
Proof.
  unfold run_seed_event. apply stays_bind; [by apply svc_untouched, read_seed_quiet|]. intros seed sv1 _ Hu.
  apply stays_lift; [done|]. intros _ _. apply stays_lift; [done|]. intros s Hs. rw Hoffline in Hs.
  apply offline_settings_made in Hs.
  assert (Hl : untouched sv1 (run_local get_payload environ fuel seed (Some s) sv1).2).
  { unfold run_local. change (default local_settings (Some s)) with s. destruct (build_container get_payload environ s) as [app|e] eqn:Hb; [|by split_and!].
    rw (bind_step _ _ sv1 app sv1 eq_refl). destruct (built_offline s app fuel sv1 Hb Hs) as [Hr _].
    destruct (run_app_stays sv1 app _ (λ traces, mret (traces, print_trace traces)) (Hr seed)) as [Hx|[]]; [done|exact Hx]. }
  apply stays_bind; [by etrans|]. intros r sv2 E _. rw E in Hl. left. by etrans.
Qed.

Lemma run_feature_provisioning_offline path : stays False sv (run_feature_provisioning get_payload fuel args path environ) sv.
Proof.
  unfold run_feature_provisioning. apply stays_lift; [done|]. intros d _. apply stays_lift; [done|]. intros p _.
  apply stays_lift; [done|]. intros _ _. apply stays_lift; [done|]. intros s Hs. rw Hoffline in Hs.
  apply offline_settings_made in Hs. apply stays_lift; [done|]. intros app Hb.
  destruct (built_offline _ app fuel sv Hb) as [_ Hr]; [destruct Hs as (? & ? & ? & ?); by split_and!|].
  apply run_app_stays; [apply Hr; intros store Est; by eapply offline_payload_silent|].
  intros [event traces] sv1. by destruct (last _).
Qed.
End run.
End command.

(** C27: a local run that was declared offline stays inside the process, as its help
    text says: it sends no request to the Prism API, publishes nothing and leaves the
    bucket alone, whatever its input, the prompt files, the environment and the plans of
    the model, and whether it ends or raises.  Pydantic, the model and the object storage
    reader are taken to send no request themselves. *)
Theorem offline_run_isolated `{Env} `{StateCodec} `{LanguageModel} `{ThreadPool} `{PromptFiles} `{PromptModels}
    `{EnvelopeCodec} `{ProvisioningModels} `{Files} `{EventDumps} `{FloatConversion} {B T} `{ObjectStorage B}
    `{OciQueueClient T} get_payload fuel args environ (sv : Services B T) :
  aa_offline args = true → (∀ d, respects ext_quiet (envelope_validate d)) →
  (∀ r i m p, respects silent (run_agent r i m p)) → (∀ n b o v, respects silent (get_payload n b o v)) →
  untouched sv (agent_local get_payload fuel args environ sv).2.
Proof.
  intros Ho Hv Hm Hg.
  assert (Hr : stays False sv (agent_local_run get_payload fuel args environ) sv).
  { unfold agent_local_run. apply stays_lift; [done|]. intros environ' _.
    destruct (aa_feature_provision args); [destruct (ostr_truthy _); [by apply run_feature_provisioning_offline|by left]|].
    apply stays_lift; [done|]. intros [|] _; [by apply run_feature_provisioning_offline|by apply run_seed_event_offline]. }
  destruct Hr as [Hr|[]]. unfold agent_local, try_catch_if, try_catch.
  destruct (agent_local_run get_payload fuel args environ sv) as [[a|e] s1]; [done|].
  by destruct (is_RuntimeError e || is_ValueError e).
Qed.
