(* ===== verification/Invocations.v ===== *)
(** * Across invocations

    Every invocation of the function builds a new container; what it shares with the
    others is the bucket, the topic and the environment.  On a container whose state is
    kept in a bucket, a feature request and an executed action are not repeated by any
    invocation that finds their record there. *)

From S2P Require Import Prelude PyStr PyVal PyUuid Json JsonLoads Events Plans SubTasks Policies Env Client Definitions.
From S2P Require Import Prompts Records AgentRunSync Planning WorkItemTools OtherTools PlanningAgent Stores StateMemory.
From S2P Require Import PrismStore World ActionHandler AtMostOnce PrismProofs ActionProofs PrismRecovery Coordinator.
From S2P Require Import DomainHandler ContextProvider RecursionRunner FeatureProvisioning Settings Embeddings OciQueue.
From S2P Require Import WorkItemProofs Container FunctionEntry LocalEntry TraceLogging AgentLocal Offline.

Section invocations.
Context `{Env} `{HC : StateCodec} `{!CodecErrors} `{LanguageModel} `{ThreadPool} `{PromptFiles} `{PromptModels}.
Context `{EnvelopeCodec} `{ProvisioningModels} {B T : Type} `{HB : ObjectStorage B} `{OciQueueClient T}.
Context (objs : B → string → string → gmap string string) `{!BucketLaws B objs}.
Context (get_payload : string → string → pyval → option pyval → st Ext string).
Context `{FloatConversion} (environ : dict string).
Abbreviation build := (build_container (B:=B) (T:=T) get_payload environ).
Abbreviation process := (process (B:=B) (T:=T) get_payload environ).
Implicit Types sv : Services B T.

(** The settings keep the state of runs in a bucket. *)
Definition keeps_state (s : Settings) (ns bucket : string) : Prop :=
  se_state_backend s = "prism_api" ∧ configured_bucket s = Some (ns, bucket) ∧ se_persist_agent_memories s = true.

Definition state_objects (ns bucket : string) : ObjectStorageAgentMemoryStore :=
  {| om_namespace := ns; om_bucket_name := bucket; om_prefix := "agent-state" |}.

(** [usable] and [knows] of the bucket the settings name. *)
Definition usable (ns bucket : string) : B → string → string → Prop := bucket_usable objs (state_objects ns bucket).
Definition knows (ns bucket : string) : B → string → string → string → Prop := bucket_knows objs (state_objects ns bucket).

Lemma built_remembers s app ns bucket :
  build s = Ok app → keeps_state s ns bucket →
  inhabited (BackendRemembers (app_store app) (usable ns bucket) (knows ns bucket)).
Proof. intros Hb (Hs & Hc & Hp). exact (container_remembers objs _ _ s ns bucket app Hb Hs Hc Hp). Qed.

(** The processing of a pointer in a built container. *)
Lemma process_pointer s app payload ns bucket sv :
  is_feature_provisioning_pointer payload = true → build s = Ok app → configured_bucket s = Some (ns, bucket) →
  process s payload sv =
    run_app app (pointer_in (object_storage_payload_store get_payload ns bucket) app payload) sv.
Proof.
  intros Hp Hb Hc. unfold FunctionEntry.process, payload_store_init. rw Hp Hc.
  rw (bind_step _ _ sv (object_storage_payload_store get_payload ns bucket) sv eq_refl) Hb.
  by rw (bind_step _ _ sv app sv eq_refl).
Qed.

(** C5: across invocations a feature request is dispatched once.  An invocation that
    dispatched a pointer leaves its key in the bucket, as long as the bucket was intact
    when the key was written; every later invocation, whatever it was sent before, that
    finds the key in its bucket answers any delivery of the request as a duplicate,
    publishes nothing and sends no request.  The invocation is [process]; the summary
    that the handler posts around it is not part of it. *)
Theorem pointer_invocation_once s app ns bucket content p sv sv' result traces :
  build s = Ok app → keeps_state s ns bucket →
  is_feature_provisioning_pointer content = true → pointer_validate content = Ok p → str_truthy (worker_run_id p) = true →
  process s content sv = (Ok (result, traces), sv') → dget "duplicate" result = PBool false →
  (∀ v0 e v1,
     dispatch_pointer (H1 := app_agent_factory app) (H2 := context_provider (app_context_provider app))
       (object_storage_payload_store get_payload ns bucket) (app_domain_event_handler app) p v0 = (Ok e, v1) →
     (on_st (check_worker_key (fp_workspace_id p) (worker_idempotency_key p) (worker_run_id p)) (app_open app sv)
       = (Ok false, v0)) →
     ∀ b0, usable ns bucket (bk_bucket (app_store app) b0 (w_store v1)) (fp_workspace_id p) (worker_run_id p)) →
  let known b := knows ns bucket b (fp_workspace_id p) (worker_idempotency_key p) (worker_run_id p) in
  known (sv_bucket sv') ∧
  ∀ content2 q sv2,
    is_feature_provisioning_pointer content2 = true → pointer_validate content2 = Ok q → same_request p q →
    usable ns bucket (sv_bucket sv2) (fp_workspace_id p) (worker_run_id p) → known (sv_bucket sv2) →
    ∃ result2 traces2 sv2', process s content2 sv2 = (Ok (result2, traces2), sv2') ∧
      dget "duplicate" result2 = PBool true ∧ dget "event_id" result2 = PNone ∧
      sv_topic sv2' = sv_topic sv2 ∧ x_requests (sv_ext sv2') = x_requests (sv_ext sv2).
Proof.
  intros Hb Hk Hp Hv Ht E Hd Hu known. destruct (built_remembers s app ns bucket Hb Hk) as [R].
  pose proof (br_store _ _ _ R) as Hr. destruct Hk as (_ & Hc & _).
  set (store := object_storage_payload_store get_payload ns bucket) in *.
  set (K := fp_workspace_id p) in *.
  split.
  - rw (process_pointer s app content ns bucket sv Hp Hb Hc) in E. fold store in E. unfold run_app in E.
    destruct (pointer_in store app content (app_open app sv)) as [r w] eqn:Ep. injection E as -> <-.
    unfold pointer_in in Ep. apply bind_Ok in Ep as (res & w1 & Eh & Ep). apply bind_Ok in Ep as (tr & w2 & Et & Ep).
    injection Ep as <- <- <-. cbn in Hd. injection Hd as Hd.
    destruct (handle_pointer_dispatched (H1 := app_agent_factory app) (H2 := context_provider (app_context_provider app))
      store (app_domain_event_handler app) content p _ res w1 Hv Eh Hd) as (v0 & e & v1 & E0 & E1 & E2 & _).
    destruct (remembers_record K (worker_idempotency_key p) (worker_run_id p) (w_store v1) (w_ext v1)
      (Hu v0 e v1 E1 E0) (worker_key_truthy p) Ht) as (s' & Er & Hn).
    rw (on_st_run _ v1 _ _ _ Er) in E2. injection E2 as <-.
    destruct (br_traces _ _ _ R s' (w_ext v1)) as (tr' & Etr).
    match type of Et with on_st _ ?v = _ => rw (on_st_run _ v _ _ _ Etr) in Et end. injection Et as <- <-. cbn [app_close sv_bucket w_store]. apply Hn.
  - intros content2 q sv2 Hp2 Hq (Hi & Hw & Hrun) Hu2 Hk2.
    rw (process_pointer s app content2 ns bucket sv2 Hp2 Hb Hc). fold store. unfold run_app.
    assert (Hopen : ∀ b0, bk_bucket (app_store app) b0 (bk_open (app_store app) (sv_bucket sv2)) = sv_bucket sv2)
      by (intros b0; apply (br_open _ _ _ R)).
    destruct (remembers_check K (worker_idempotency_key p) (worker_run_id p) (bk_open (app_store app) (sv_bucket sv2))
      (new_client_ext (sv_ext sv2))) as (s' & Ec); [intros b0; by rw Hopen|apply worker_key_truthy|done|intros b0; by rw Hopen|].
    pose proof (handle_pointer_known (H1 := app_agent_factory app) (H2 := context_provider (app_context_provider app))
      store (app_domain_event_handler app) content2 q (app_open app sv2) s' Hq) as E2.
    unfold worker_idempotency_key in *. rw Hw Hrun Hi in E2. specialize (E2 Ec).
    unfold pointer_in. rw (bind_step _ _ _ _ _ E2).
    destruct (br_traces _ _ _ R s' (new_client_ext (sv_ext sv2))) as (tr' & Etr).
    match goal with |- context [on_st store_traces ≫= ?k] =>
      match goal with |- context [(_ ≫= k) ?v] => rw (bind_step _ k _ _ _ (on_st_run _ v _ _ _ Etr)) end end.
    eexists _, _, _. split; [reflexivity|]. split_and!; [done|done| |done]. exact (built_topic _ _ s app _ Hb).
Qed.

(** C6: across invocations an executed action is not repeated.  An invocation that is
    sent an action event of a run, and whose bucket holds a key recorded for the run,
    executes no tool under that key, whatever else the delivery makes it do. *)
Theorem action_invocation_once s app ns bucket envelope b run_id action_id k sv :
  build s = Ok app → keeps_state s ns bucket → env_event envelope = AgentActionEvent b run_id action_id →
  str_truthy k = true → usable ns bucket (sv_bucket sv) (ev_workspace_id b) run_id →
  knows ns bucket (sv_bucket sv) (ev_workspace_id b) k run_id →
  LExecute k ∉ w_log (dispatch app envelope (app_open app sv)).2.
Proof.
  intros Hb Hs He Hk Hu Hn. destruct (built_remembers s app ns bucket Hb Hs) as [R].
  pose proof (br_keyed _ _ _ R) as HK.
  assert (Hopen : ∀ b0, bk_bucket (app_store app) b0 (bk_open (app_store app) (sv_bucket sv)) = sv_bucket sv)
    by (intros b0; apply (br_open _ _ _ R)).
  destruct (handle_actions_learns (br_recorded _ _ _ R) (app_action_event_handler app) envelope [] b run_id action_id k
    (app_open app sv) He) as (l & El & Hl).
  { apply (br_learns _ _ _ R); [intros b0; by rw Hopen|done|intros b0; by rw Hopen]. }
  replace (w_log (dispatch app envelope (app_open app sv)).2) with l; [exact Hl|].
  change (w_log (app_open app sv)) with (@nil log_entry) in El. rw app_nil_l in El. rw -El.
  unfold dispatch. rw He. unfold handle_actions. cbn [for_each]. unfold mbind, st_bind, try_catch.
  by destruct (handle_action _ _ _) as [[[]|e] w].
Qed.
End invocations.

(** ** A concrete deployment *)

#[local] Existing Instance env_ok.
#[local] Existing Instance sample_codec.
#[local] Existing Instance sample_codec_errors.
#[local] Existing Instance stubborn_model.
#[local] Existing Instance prompt_files_ex.
#[local] Existing Instance prompt_models_ex.
#[local] Existing Instance models_ex.

#[local] Instance pool_ex : ThreadPool := reverse_pool.

(** An event one step too deep for the settings below. *)
Definition deep_envelope : EventEnvelope := {|
  env_envelope_id := "env-2"; env_received_at := 0; env_attempt := 0;
  env_event := DomainEvent {|
    ev_event_id := "evt-2"; ev_event_type := "story.created"; ev_workspace_id := "ws"; ev_project_id := None;
    ev_payload := []; ev_occurred_at := 0; ev_correlation_id := Some "run-1";
    ev_causality := {| cs_root_event_id := Some "evt-0"; cs_parent_event_id := Some "evt-1"; cs_depth := 11; cs_chain := [] |};
    ev_idempotency_key := None |} |}.

(** A codec that knows two envelopes. *)
Definition envelope_text : string := json_plain (PDict [("envelope_id", PStr "env-1"); ("event", PDict [])]).
#[local] Instance envelope_codec_ex : EnvelopeCodec := {|
  envelope_json _ := envelope_text;
  envelope_validate d :=
    if bool_decide (dget "envelope_id" d = PStr "env-1") then mret (sample_envelope "a")
    else if bool_decide (dget "envelope_id" d = PStr "env-2") then mret deep_envelope
    else raise (Exn ValueError "envelope") |}.

#[local] Instance envelope_laws_ex : EnvelopeLaws (λ e, e = sample_envelope "a").
Proof.
  constructor. intros e ->. exists [("envelope_id", PStr "env-1"); ("event", PDict [])]. split; [vm_compute; reflexivity|].
  split; [reflexivity|]. intros k Hk. rw !elem_of_cons in Hk. destruct_or! Hk; try (subst k; reflexivity).
  by apply not_elem_of_nil in Hk.
Qed.

Lemma published_event_delivered_witness :
  let data := DataValue (PList [PDict [("content", PStr (envelope_json (sample_envelope "a")))]]) in
  ∃ payload, invocation_payload data = Ok payload ∧ envelope_validate payload ext0 = (Ok (sample_envelope "a"), ext0).
Proof.
  intros data. destruct (published_event_delivered (λ e, e = sample_envelope "a") (sample_envelope "a")
    (PList [PDict [("content", PStr (envelope_json (sample_envelope "a")))]]) data) as (d & E & Hv & _).
  - reflexivity.
  - apply dv_list, dv_text; reflexivity.
  - reflexivity.
  - exists d. split; [exact E|exact (Hv ext0)].
Defined.

Definition environ_ex : dict string :=
  [("APP_ENV", "prod"); ("STATE_BACKEND", "prism_api"); ("QUEUE_BACKEND", "oci"); ("GEMINI_API_KEY", "key");
   ("DEFAULT_GEMINI_MODEL", "pro"); ("GEMINI_FLASH_MODEL", "flash"); ("EMBEDDING_MODEL", "embedding");
   ("OCI_QUEUE_OCID", "ocid1.queue"); ("OCI_OBJECT_STORAGE_BUCKET_NAME", "agents"); ("LOG_LEVEL", "info");
   ("OCI_OBJECT_STORAGE_NAMESPACE", "ns"); ("PRISM_API_BASE_URL", "https://api"); ("DISCORD_WEBHOOK_URL", "https://hook")].

Definition settings_ex : Settings := {|
  se_app_env := "prod"; se_state_backend := "prism_api"; se_queue_backend := "oci"; se_llm_provider := "gemini";
  se_gemini_api_key := Some "key"; se_default_gemini_model := "pro"; se_gemini_flash_model := "flash";
  se_embedding_model := "embedding"; se_embedding_dimensions := 1536; se_max_recursion_depth := 10;
  se_oci_queue_ocid := Some "ocid1.queue"; se_oci_queue_messages_endpoint := None;
  se_object_storage_bucket_name := Some "agents"; se_object_storage_namespace := Some "ns";
  se_prism_api_base_url := Some "https://api"; se_prism_api_token := None; se_discord_webhook_url := Some "https://hook";
  se_log_level := "info"; se_log_traces := true; se_persist_agent_memories := true |}.

(** The one payload of the bucket, whatever is asked for. *)
Definition payload_text : string := json_plain (PDict
  [("requestId", PStr "r1"); ("workspaceId", PStr "ws"); ("projectId", PStr "p1");
   ("featureSpecification", PStr "A login page")]).
Definition get_payload_ex (_ _ : string) (_ : pyval) (_ : option pyval) : st Ext string := mret payload_text.
(** Floats only convert to themselves. *)
#[local] Instance floats_ex : FloatConversion := {|
  to_float v := match v with PFloat f => Ok f | _ => err TypeError "float" end |}.

Lemma settings_read : from_env environ_ex = Ok settings_ex.
Proof. vm_compute. reflexivity. Qed.

Definition client_ex : PrismApiClient := client_init (Some "https://api") None.

Definition deps_ex : ToolDeps := {| tdp_client := Some client_ex; tdp_embedder := Some (gemini_query_embedder settings_ex) |}.
Definition skills_ex : SkillRegistry := Eval vm_compute in skills_from (pg_skills prompts_ex).*2.
Definition workflows_ex : WorkflowRegistry := Eval vm_compute in
  match workflows_from (pg_workflows prompts_ex).*2 workflow_registry_empty with
  | Ok w => w | Raise _ => workflow_registry_empty end.

Lemma registries_ex :
  build_registries deps_ex prompt_tables_empty =
    (Ok ({| rg_tools := []; rg_definitions := [] |}, skills_ex, workflows_ex), prompts_ex).
Proof. vm_compute. reflexivity. Qed.

Definition queue_ex : QueueBackend sample_topic :=
  {| qb_state := sample_topic; qb_queue := oci_queue {| oq_queue_ocid := "ocid1.queue" |}; qb_open t := t; qb_topic _ t := t |}.
Definition store_ex : Backend sample_bucket :=
  prism_backend (transport := object_storage_memory_store (state_objects "ns" "agents")) true id (λ _ b, b).

Definition app_ex : AppContainer (B:=sample_bucket) (T:=sample_topic) :=
  assemble get_payload_ex environ_ex settings_ex queue_ex (logged_backend store_ex) client_ex prompts_ex
    {| rg_tools := []; rg_definitions := [] |} skills_ex workflows_ex.

Lemma build_ex : build_container get_payload_ex environ_ex settings_ex = Ok app_ex.
Proof.
  unfold build_container.
  change (build_queue settings_ex) with (Ok queue_ex).
  change (build_state_store settings_ex _) with (Ok store_ex).
  change (configure_logging (se_log_level settings_ex)) with (Ok 20).
  change {| tdp_client := _; tdp_embedder := _ |} with deps_ex.
  unfold mbind, mret, res_bind, res_ret. cbn [se_log_traces settings_ex]. by rw registries_ex.
Qed.

Lemma keeps_state_ex : keeps_state settings_ex "ns" "agents".
Proof. split_and!; reflexivity. Qed.

Definition services_ex (t : sample_bucket) : Services sample_bucket sample_topic :=
  {| sv_bucket := t; sv_topic := []; sv_ext := ext0 |}.

Definition after_ex : Services sample_bucket sample_topic := Eval vm_compute in
  (process get_payload_ex environ_ex settings_ex pointer_content (services_ex ∅)).2.
Definition traces_ex : list TraceEvent := Eval vm_compute in
  match (process get_payload_ex environ_ex settings_ex pointer_content (services_ex ∅)).1 with
  | Ok (_, t) => t | Raise _ => [] end.
Definition process_result_ex : dict pyval :=
  [("ok", PBool true); ("event_id", PStr "u0"); ("event_type", PStr "feature.provisioning.requested");
   ("request_id", PStr "r1"); ("duplicate", PBool false)].

Lemma process_ex :
  process get_payload_ex environ_ex settings_ex pointer_content (services_ex ∅)
    = (Ok (process_result_ex, traces_ex), after_ex).
Proof. vm_compute. reflexivity. Qed.

Lemma after_bucket :
  sv_bucket after_ex = one_record "ws" "run-1" (key_id "feature_provisioning:r1")
    (key_payload "run-1" "feature_provisioning:r1").
Proof. vm_compute. reflexivity. Qed.

Abbreviation objs_ex := (λ (t : sample_bucket) (_ _ : string), t).

Lemma empty_bucket_usable : usable objs_ex "ns" "agents" (∅ : sample_bucket) "ws" "run-1".
Proof. exact empty_usable. Qed.

Lemma key_bucket_usable r k :
  no_slash r → usable objs_ex "ns" "agents" (one_record "ws" r (key_id k) (key_payload r k)) "ws" r ∧
  knows objs_ex "ns" "agents" (one_record "ws" r (key_id k) (key_payload r k)) "ws" k r.
Proof.
  intros Hr. assert (Hw : no_slash "ws") by (apply (bool_decide_unpack _); vm_compute; exact I).
  destruct (one_record_bucket "ws" r (key_id k) (key_payload r k) "" Hw Hr) as (Ho & Hf & Hh & _);
    [apply key_payload_ok|].
  split; [|exact Hh]. split; [exact Ho|]. split; [exact Hf|]. by split.
Qed.

Lemma run_1_no_slash : no_slash "run-1".
Proof. apply (bool_decide_unpack _). vm_compute. exact I. Qed.

(** The bucket after the dispatch, before the key is written, is still empty. *)
Lemma dispatched_empty v0 e v1 :
  dispatch_pointer (H1 := app_agent_factory app_ex) (H2 := context_provider (app_context_provider app_ex))
    (object_storage_payload_store get_payload_ex "ns" "agents") (app_domain_event_handler app_ex) pointer_ex v0 = (Ok e, v1) →
  on_st (check_worker_key (fp_workspace_id pointer_ex) (worker_idempotency_key pointer_ex) (worker_run_id pointer_ex))
    (app_open app_ex (services_ex ∅)) = (Ok false, v0) →
  ps_memory (ls_inner (w_store v1)) = (∅ : sample_bucket).
Proof.
  intros E1 E0. apply (f_equal snd) in E0. apply (f_equal snd) in E1. cbn [snd] in E0, E1. rw -E1 -E0.
  vm_compute. reflexivity.
Qed.

Lemma pointer_invocation_once_witness :
  process get_payload_ex environ_ex settings_ex pointer_content (services_ex ∅)
    = (Ok (process_result_ex, traces_ex), after_ex) ∧
  ∃ result2 traces2 sv2',
    process get_payload_ex environ_ex settings_ex pointer_content after_ex = (Ok (result2, traces2), sv2') ∧
    dget "duplicate" result2 = PBool true ∧ sv_topic sv2' = [].
Proof.
  split; [exact process_ex|].
  destruct (pointer_invocation_once objs_ex get_payload_ex environ_ex settings_ex app_ex "ns" "agents" pointer_content
    pointer_ex (services_ex ∅) after_ex process_result_ex traces_ex build_ex keeps_state_ex) as [Hk Hlater];
    [reflexivity|vm_compute; reflexivity|reflexivity|exact process_ex|reflexivity| |].
  { intros v0 e v1 E1 E0 b0. pose proof (dispatched_empty v0 e v1 E1 E0) as Em.
    change (bk_bucket (app_store app_ex) b0 (w_store v1)) with (ps_memory (ls_inner (w_store v1))). rewrite Em.
    exact empty_bucket_usable. }
  destruct (Hlater pointer_content pointer_ex after_ex) as (r2 & t2 & sv2 & E & Hd & _ & Ht & _).
  - reflexivity.
  - vm_compute. reflexivity.
  - split; [reflexivity|]. split; reflexivity.
  - rewrite after_bucket. exact (proj1 (key_bucket_usable "run-1" "feature_provisioning:r1" run_1_no_slash)).
  - exact Hk.
  - exists r2, t2, sv2. split; [exact E|]. split; [exact Hd|exact Ht].
Defined.

Lemma action_invocation_once_witness :
  let sv := services_ex (one_record "ws" "run-1" (key_id "k:a") (key_payload "run-1" "k:a")) in
  LExecute "k:a" ∉ w_log (dispatch app_ex (sample_envelope "a") (app_open app_ex sv)).2.
Proof.
  intros sv.
  exact (action_invocation_once objs_ex get_payload_ex environ_ex settings_ex app_ex "ns" "agents" (sample_envelope "a")
    sample_base "run-1" "a" "k:a" sv build_ex keeps_state_ex eq_refl eq_refl
    (proj1 (key_bucket_usable "run-1" "k:a" run_1_no_slash)) (proj2 (key_bucket_usable "run-1" "k:a" run_1_no_slash))).
Defined.

Lemma build_container_spec_witness :
  ∃ w p, get_by_trigger (app_workflow_registry app_ex) "t" = Some w ∧ w = workflow_from_prompt p ∧
    get_workflow (pn_prompt_registry (app_planner app_ex)) "w" "1.0.0" = Ok p.
Proof.
  destruct (build_container_spec get_payload_ex environ_ex settings_ex app_ex build_ex) as [Hw _].
  assert (E : ∃ w, get_by_trigger (app_workflow_registry app_ex) "t" = Some w ∧ wf_prompt_id w = "w" ∧ wf_prompt_version w = "1.0.0").
  { eexists. split; [reflexivity|split; reflexivity]. }
  destruct E as (w & E & Ei & Ev). destruct (Hw "t" w E) as (p & Ep & _ & _ & _ & Hp & _). rewrite Ei Ev in Hp.
  exists w, p. split; [exact E|]. split; [exact Ep|exact Hp].
Defined.

#[local] Instance marks_ex : Marks := {| mark_ok := "ok"; mark_warning := "!"; mark_failed := "x"; mark_dot := "." |}.

(** With the logging of traces off the pointer is processed the same. *)
Lemma log_traces_transparent_witness :
  process get_payload_ex environ_ex (with_log_traces false settings_ex) pointer_content (services_ex ∅)
    = (Ok (process_result_ex, traces_ex), after_ex).
Proof.
  destruct (log_traces_transparent get_payload_ex environ_ex settings_ex 20 (services_ex ∅) eq_refl) as [Hp _].
  rewrite <- (Hp pointer_content). exact process_ex.
Defined.

(** A batch of two is refused, logged and announced. *)
Lemma handler_spec_witness :
  let data := DataStr "[{}, {}]" in
  ∃ sv', handler get_payload_ex environ_ex data (services_ex ∅)
      = (Raise (Exn ValueError (batch_message 2)), sv') ∧
    reported (Some "https://hook") data "unknown" [] (Exn ValueError (batch_message 2)) (services_ex ∅) sv'.
Proof.
  intros data.
  pose proof (handler_spec get_payload_ex environ_ex data (services_ex ∅) settings_ex 20 settings_read eq_refl) as Hs.
  assert (E : invocation_payload data = Raise (Exn ValueError (batch_message 2))) by (vm_compute; reflexivity).
  cbv zeta in Hs. rewrite E in Hs. exact Hs.
Defined.

Definition deep_payload : dict pyval := [("envelope_id", PStr "env-2")].

Lemma process_spec_witness :
  ∃ result traces sv', process get_payload_ex environ_ex settings_ex deep_payload (services_ex ∅)
      = (Ok (result, traces), sv') ∧ dget "ok" result = PBool false ∧ sv_topic sv' = [].
Proof.
  pose proof (process_spec get_payload_ex environ_ex settings_ex deep_payload deep_envelope app_ex (services_ex ∅) ext0
    eq_refl eq_refl build_ex) as Hs.
  assert (Eo : exceeds_max_depth (se_max_recursion_depth settings_ex) 0 (env_event deep_envelope) = true) by reflexivity.
  cbv zeta in Hs. rewrite Eo in Hs.
  assert (Er : (record_max_depth_failure (app_recursion_runner app_ex) (env_event deep_envelope)
    (app_open app_ex (services_ex ∅))).1 = Ok tt) by (vm_compute; reflexivity).
  destruct (record_max_depth_failure _ _ _) as [r w]. cbn [fst] in Er. subst r. destruct Hs as [Ht Hs].
  assert (Et : ∃ traces w', on_st store_traces w = (Ok traces, w') ∧ w_queue w' = w_queue w).
  { eexists _, _. split; [reflexivity|reflexivity]. }
  destruct Et as (traces & w' & Et & Eq). rewrite Et in Hs. destruct Hs as (result & E & Hok & _).
  exists result, traces. eexists. split; [exact E|]. split; [exact Hok|].
  cbn [app_close sv_topic]. rewrite Eq. exact (Ht eq_refl).
Defined.

(** The OCI queue is published to, and cannot be drained. *)
Lemma run_local_spec_witness :
  ∃ sv', run_local get_payload_ex environ_ex 100 (inr (sample_envelope "a")) (Some settings_ex) (services_ex ∅)
      = (Raise (Exn NotImplementedError "OCI Queue emptiness checks are not used by OCI Functions."), sv') ∧
    sv_topic sv' = [("ocid1.queue", envelope_text)].
Proof.
  destruct (run_local_spec get_payload_ex environ_ex settings_ex app_ex (services_ex ∅) build_ex) as [_ Hs].
  destruct (Hs "ocid1.queue" ltac:(discriminate) eq_refl 99%nat (sample_envelope "a") (Some [Some (PInt 0)])
    [("ocid1.queue", envelope_text)] ext0 eq_refl) as (sv' & E & Ht & _).
  exists sv'. split; [exact E|exact Ht].
Defined.

#[local] Instance files_ex : Files := {|
  path_text path := path; path_exists _ := false; read_text path := err FileNotFoundError path |}.
#[local] Instance dumps_ex : EventDumps := {|
  event_dump e := PDict [("workspace_id", PStr (ev_workspace_id (base e)))];
  envelope_dump e := PDict [("event", PDict [("workspace_id", PStr (ev_workspace_id (base (env_event e))))])] |}.

(** No input and no flag: the example event, which is not for the API. *)
Definition args_ex : AgentArgs := {|
  aa_input_path := None; aa_feature_provision := false; aa_payload_file := None; aa_oci_payload_store := false;
  aa_live := false; aa_offline := false; aa_env_file := ".env"; aa_no_env_file := false |}.

Lemma agent_local_guarded_witness :
  untouched (services_ex ∅) (agent_local get_payload_ex 10 args_ex environ_ex (services_ex ∅)).2.
Proof.
  assert (Hq : ∀ d, respects ext_quiet (envelope_validate d)).
  { intros d x. unfold envelope_validate, envelope_codec_ex. destruct (bool_decide _); [split; reflexivity|].
    destruct (bool_decide _); split; reflexivity. }
  destruct (agent_local_guarded get_payload_ex 10 args_ex environ_ex (services_ex ∅) eq_refl Hq)
    as [Hu|(v & environ' & s & Hi & Hn & _)]; [exact Hu|].
  exfalso. apply Hn. destruct Hi as [path d p Hp _ _|path e x Hp _|e x _ He]; [discriminate Hp|discriminate Hp|].
  assert (Hw : ev_workspace_id (base e) = "workspace-local") by (injection He as <- _; reflexivity).
  unfold event_dump, dumps_ex. rewrite Hw. eapply mn_value; [apply list_elem_of_here|]. apply mn_text. reflexivity.
Defined.

(** A model that answers without the API. *)
#[local] Instance silent_model : LanguageModel := {| run_agent _ _ _ _ := mret thin_plan |}.

(** A feature pointer in a file, run offline in an environment with an API address. *)
#[local] Instance pointer_files_ex : Files := {|
  path_text path := path; path_exists _ := false; read_text _ := Ok (json_plain (PDict pointer_content)) |}.
Definition offline_args_ex : AgentArgs := {|
  aa_input_path := Some "pointer.json"; aa_feature_provision := true; aa_payload_file := None; aa_oci_payload_store := false;
  aa_live := false; aa_offline := true; aa_env_file := ".env"; aa_no_env_file := true |}.

Lemma offline_run_isolated_witness :
  (∃ printed, (agent_local get_payload_ex 10 offline_args_ex environ_ex (services_ex ∅)).1 = Ok (0, printed)) ∧
  untouched (services_ex ∅) (agent_local get_payload_ex 10 offline_args_ex environ_ex (services_ex ∅)).2.
Proof.
  split; [eexists; vm_compute; reflexivity|].
  apply (offline_run_isolated get_payload_ex 10 offline_args_ex environ_ex (services_ex ∅)).
  - reflexivity.
  - intros d x. unfold envelope_validate, envelope_codec_ex. destruct (bool_decide _); [split; reflexivity|].
    destruct (bool_decide _); split; reflexivity.
  - intros r i m p x. reflexivity.
  - intros n b o v x. reflexivity.
Defined.
